(* ===== verification/_CoqProject ===== *)
-Q . S2P
Prelude.v
Util.v
Wire.v
Ipc.v
Session.v
LabelMsg.v
LabelFwd.v
LabelSafe.v
Recv.v
Fec.v
Lde.v
LdeLib.v
LdeSafe.v
LdeInv.v
LdeFrame.v
LdePw.v
LdeFun.v
Answers.v
Mp2mp.v
Mp2mpInv.v
Mp2mpFun.v
Mp2mpNet.v
Mp2mpFaults.v
Hello.v
Discovery.v
DiscInv.v
DiscSafe.v
DiscRun.v
DiscFrame.v
DiscSystem.v
DiscFun.v
DiscFaults.v
Config.v
HeapLoops.v
ConfigSafe.v
SessRead.v
Engine.v
EngineSafe.v
Delivery.v
EngineFun.v
EngineFaults.v
KeyedList.v
Parent.v
ConfView.v
ConfMerge.v
ConfSorted.v
ConfSpec.v
ConfCmds.v
EngineConf.v
ConfRead.v
ConfStep.v
ConfTrip.v
ConfBack.v
ConfFun.v
LdeConf.v
LdeConfInv.v
LdeConfSteps.v
LdeConfSafe.v
LdeConfRun.v
LdeConfFun.v
LdeSync.v
LdpdSystem.v
EngineSync.v
LdpdFun.v
