(* ===== verification/Prelude.v ===== *)
(** * Verification of ldpd with MP2MP label switched paths

    The program is the LDP daemon under src/quagga-ldpd/ldpd, a port of
    OpenBSD's ldpd to quagga that the project extends by multipoint-to-multipoint
    LSPs.  It runs as three processes: the LDP engine (ldpe) speaks the protocol
    with its neighbours, the label decision engine (lde) keeps the label
    information base (LIB) and decides on labels, the parent configures the
    kernel.  They exchange imsgs.  The library follows that division.

    ** Files and what they model

    - Prelude: outcomes of C code ([res]: returned, [fatal]/[fatalx], undefined
      behaviour, out of fuel), state passing ([ST]), machine-width integers,
      byte order; the tactics and hints all files use.
    - Util (util.c): addresses, prefixes, masks, IPv6 scopes, socket addresses.
    - Wire (labelmapping.c, notification.c, init.c, packet.c, lib/imsg-buffer.c):
      output buffers and the TLV generators, with the calculus [emits].
    - Ipc (ldpd.h, lde.h): the imsgs between ldpe, lde and parent.
    - Session (neighbor.c, packet.c, init.c, keepalive.c, notification.c,
      address.c): the neighbour state machine with its actions, timers and the
      messages it sends, the event that a socket can be written; state [ldpe].
    - LabelMsg (labelmapping.c): writing and parsing label messages.
      LabelFwd: which maps the parser passes on.  LabelSafe: the parser on
      arbitrary bytes, and its three defects, exactly.
    - Recv (packet.c [session_read], the parsers of the other messages): from the
      byte stream of a session to the imsgs for the lde.
    - Fec (lde.h, lde.c, lde_lib.c): the tagged union [struct fec] with the
      overlays the code uses, its order, and search trees by their contract.
    - Lde, LdeLib (lde.c, lde_lib.c, l2vpn.c): state of the lde ([lde]), the LIB,
      the records of neighbours, label senders, the procedures of RFC 5036
      (mapping, request, release, withdraw), routes, garbage collection,
      pseudowires.  LdeSafe, LdeInv: the invariant [lib_ok] and the transition
      system [reach] of RFC 5036 work.  LdeFrame: what the procedures leave alone.
      LdePw: which pseudowire a FEC of the LIB belongs to.  LdeFun: what the
      procedures do.
    - Answers: a label request across lde, wire and the peer's ldpe.
    - Mp2mp (lde.c, lde_lib.c): the branch table, joins and leaves, the MP2MP part
      of the dispatcher, the whole dispatcher [lde_dispatch_imsg].  Mp2mpInv: the
      transition system [runs] of everything the lde is asked to do.  Mp2mpFun:
      exact states behind each MP2MP step.  Mp2mpNet: what leaf, transit router
      and root do, and their composition.  Mp2mpFaults: inputs on which the
      MP2MP code fails.
    - Hello (hello.c, packet.c): hello messages on the wire, from [send_hello] to
      the checks and decoders of the receiver.
    - Discovery (hello.c, adjacency.c, interface.c, neighbor.c, packet.c): the heap
      [disc] of adjacencies, targeted neighbours, interfaces and neighbours, and
      every operation on it; the session of a neighbour is that of Session.
      DiscInv: its invariant [disc_inv] and the deletions.  DiscSafe: receiving
      hellos, creating neighbours.  DiscRun: packets, connections, interfaces and
      addresses.  DiscFrame: what no operation touches.  DiscSystem: all events as
      a transition system.  DiscFun: what a hello does at the other end of a link.
      DiscFaults: what goes wrong.
    - Config (ldpd.c, ldpe.c, l2vpn.c): configurations and their merge into the one
      the LDP engine runs with.  HeapLoops, ConfigSafe: the loops over the heap and
      the merge return in a consistent state.
    - SessRead: the session reader among the other neighbours of the engine.
    - Engine (ldpe.c, ldpd.c): the dispatcher of the LDP engine, state [engine],
      with the imsgs of the parent and of the lde, and what the parent sends of a
      configuration and of sockets.  EngineSafe: everything that happens to the
      engine as one transition system.  Delivery: label messages from the lde of
      one router to that of the next.  EngineFun: a configuration arrives complete,
      and what its merge does to the parameters.  EngineFaults: what goes wrong.
    - Parent (ldp_vty_conf.c, ldp_vty_cmds.c, ldpd.c, lib/command.c): the
      configuration commands of the parent, state [parent]: copying, editing,
      merging and writing a configuration, and reading the lines of a file.
      KeyedList: lists with a key as finite maps.  ConfView: the view of a
      configuration, in which the lists are maps.  ConfMerge: what the merge does
      to the view, ConfSorted: what it does to the two lists of pseudowires.
      ConfSpec: the commands as operations on views, the specification; ConfCmds,
      ConfRead: commands and files refine it.  EngineConf: the merge of the LDP
      engine makes it run the view that was sent.  ConfStep: one line changes one thing
      of a pseudowire.  ConfTrip, ConfBack: what the written lines do when they are
      read again.  ConfFun: the theorems.
    - LdeConf (ldpd.c, lde.c, l2vpn.c): configurations in the lde, state [lde_proc]:
      the pieces they arrive in, the merge, and its work on pseudowires, which are
      on the heap the LIB points into.  LdeConfInv: the invariant [conf_inv] while
      an L2VPN is merged.  LdeConfSteps: single assignments and calls.  LdeConfSafe:
      the merge of an L2VPN.  LdeConfRun: the merge of all.  LdeConfFun: the lde
      from its start on.
    - LdeSync, LdpdSystem, LdpdFun (ldpd.c, lde.c): the parent and the lde with the
      pipe between them, state [duo], as one transition system: the relation
      [in_step] between the running configuration and the lde, the queue of
      configurations under way, and the theorems.  EngineSync: the LDP engine in
      step with the parent, line by line.

    Operations keep the names of the C functions.  Loops and inner blocks that
    are definitions of their own carry the name of what they do; the manifest
    gives the lines of each.

    ** How C is modelled

    A pointer to a neighbour, LIB node or pseudowire is its key; following a
    pointer whose target is gone is [Undef].  A [fec_node] that the MP2MP code
    frees while mappings are still linked into it is kept as a temporary home
    ([HomeTmp]) so that unlinking from it shows.  Uninitialised locals are a value
    of their own ([PtrUninit]).  A walk over a tree (RB_FOREACH) takes the
    successor of an entry after its body; when the body freed the entry that is
    [Undef] ([rb_next]).  Integers are [Z] with the wrap-around of their C
    type written out; addresses are in memory order of a little-endian machine.
    Search trees (lib/openbsd-tree.h) are sorted lists with the contract of
    RB_FIND, RB_INSERT, RB_REMOVE and RB_FOREACH; timers are an armed value;
    input from sockets is an argument and output a list in the state.

    ** What is proved

    - Session: the state machine refines the sessions of RFC 5036, never gets
      stuck and keeps sockets and timers consistent (session_refines_rfc5036).
    - Wire: label messages and hello messages survive the wire; sending respects
      the negotiated PDU size; on arbitrary bytes the readers return with the
      session intact and pass on well-formed maps, except for three defects of the
      FEC decoder that are characterised exactly ([label_fault]).
    - LIB: from every reachable state each procedure returns and the trees, lists
      and pointers stay consistent (lde_procedures_safe); mappings, withdraws,
      requests and garbage collection do what RFC 5036 asks, case by case.
    - LDP engine: no sequence of packets, timers, connections, session data and
      imsgs breaks the heap or gets stuck (engine_never_stuck), as long as session
      data is free of the defects above, batches can be encoded and no interface is
      taken away that has an adjacency of an inactive family; a batch of acceptable
      label messages of the lde reaches the lde of the neighbour
      (label_batch_delivered); after a configuration the engine runs exactly its
      view: parameters, interfaces with their hello parameters, targeted neighbours,
      neighbour parameters, L2VPNs with their pseudowires (config_takes_effect).
    - Configuration: the commands refine operations on finite maps
      (commands_refine), files are read to the end (config_file_read), a written
      configuration is read back as itself (config_roundtrip), and an LDP engine in
      step with the parent is so again after every line (command_reaches_engine).  In the lde label procedures
      and configurations in any order leave no dangling pointer (lde_conf_safe), as
      long as a configuration does not change two things of a pseudowire at once
      (two_changes_dangle); those that lines of a vty make never do, however parent
      and lde are interleaved, and the lde ends up with the pseudowires of the
      running configuration (lde_follows_parent, changes_arrive).
    - Discovery: a hello forms an adjacency and a neighbour at the other end
      (hello_forms_adjacency); neighbours that fall silent expire
      (silent_neighbours_expire, hold_timer_expiry), unless they never had an
      adjacency (orphan_neighbour_stays).
    - MP2MP: labels belong to one LSP in every reachable state of the whole
      engine; leaf, transit router and root of a join agree on the labels of
      both links; each of the conditions is necessary in the sense of the
      theorems of Mp2mpFaults.
    - Faults: what the model showed not to hold is stated as theorems too; the
      manifest lists them as findings.

    ** Fuel and bounds

    Parsers and senders that loop until a length is used up have the length plus
    one as fuel; the robustness and functional theorems are total, so the fuel is
    shown to be enough (the loop that never ends, on a zero-length sub-TLV, is
    shown to exceed any fuel).  The theorems about sessions ask that fewer than
    2^31 - 5 messages were sent, the ones about labels that fewer than 2^32 - 16
    labels were handed out; peer identifiers are below 2^31 where the order of
    neighbours matters.  The theorems about discovery ask for room
    for the messages of one event in the signed counter, which grows with the
    number of neighbours and adjacencies ([ev_room], [engine_room]).

    ** Not modelled

    The text of a command line (a command is given with the values of its words),
    the commands that show, clear and debug, the commands of the library (among
    them the [interface IFNAME] of the configuration node, see [installed]),
    process start and the shutdown of the parent and of the lde,
    sockets and the kernel interface (socket.c, pfkey.c, kernel.c, ldp_zebra.c):
    input and output of other processes; results of socket calls are arguments of
    the operations that make them.  [session_write] is a definition of its own and
    no event of the engine's transition system: without an error it changes
    nothing, with one it uses freed memory (write_error_use_after_free).  The daemons of quagga besides ldpd and its common
    library are unchanged third-party code. *)

From stdpp Require Import prelude strings list.
From Stdlib Require Import ZArith Lia.

#[global] Open Scope Z_scope.

(** ** Outcomes of C code

    A call either returns, ends the process through [fatal]/[fatalx], runs
    into behaviour the C standard leaves undefined, or (only for loops that
    the source does not bound) exceeds the fuel of the model. *)
Inductive res (A : Type) : Type :=
| Ok (a : A)
| Fatal (why : string)
| Undef (why : string)
| NoFuel.
Arguments Ok {A} a.
Arguments Fatal {A} why.
Arguments Undef {A} why.
Arguments NoFuel {A}.

Definition rbind {A B} (c : res A) (k : A -> res B) : res B :=
  match c with
  | Ok a => k a
  | Fatal w => Fatal w
  | Undef w => Undef w
  | NoFuel => NoFuel
  end.

(** State-passing computations over a state [S]. *)
Definition ST (S A : Type) : Type := S -> res (A * S).

Definition ret {S A} (a : A) : ST S A := fun s => Ok (a, s).

Definition bind {S A B} (c : ST S A) (k : A -> ST S B) : ST S B :=
  fun s => rbind (c s) (fun '(a, s') => k a s').

Definition get {S} : ST S S := fun s => Ok (s, s).
Definition put {S} (s' : S) : ST S unit := fun _ => Ok (tt, s').
Definition modify {S} (f : S -> S) : ST S unit := fun s => Ok (tt, f s).
Definition fatalx {S A} (why : string) : ST S A := fun _ => Fatal why.
Definition undef {S A} (why : string) : ST S A := fun _ => Undef why.
Definition nofuel {S A} : ST S A := fun _ => NoFuel.
Definition lift {S A} (c : res A) : ST S A :=
  fun s => rbind c (fun a => Ok (a, s)).

Declare Scope ldp_scope.
Delimit Scope ldp_scope with ldp.
Notation "'do' x <- c ; k" := (bind c (fun x => k))
  (at level 10, x pattern, c at level 100, k at level 200) : ldp_scope.
Notation "c ;;; k" := (bind c (fun _ => k))
  (at level 100, right associativity) : ldp_scope.
Notation "'let*' x := c 'in' k" := (rbind c (fun x => k))
  (at level 10, x pattern, c at level 100, k at level 200) : ldp_scope.
#[global] Open Scope ldp_scope.

(** [foreach f l] runs [f] on the elements of [l] in order. *)
Fixpoint foreach {S A} (f : A -> ST S unit) (l : list A) : ST S unit :=
  match l with
  | [] => ret tt
  | x :: l' => f x ;;; foreach f l'
  end.

(** A loop whose body passes a value on. *)
Fixpoint floop {S A B} (f : A -> B -> ST S B) (l : list A) (b : B) : ST S B :=
  match l with
  | [] => ret b
  | a :: l' => do b' <- f a b; floop f l' b'
  end.

(** ** Machine integers *)
Definition u8 (z : Z) : Z := z mod 2 ^ 8.
Definition u16 (z : Z) : Z := z mod 2 ^ 16.
Definition u32 (z : Z) : Z := z mod 2 ^ 32.

Definition is_u (w z : Z) : Prop := 0 <= z < 2 ^ w.

(** Conversion of an unsigned 32-bit value to [int] (two's complement). *)
Definition int_of_u32 (z : Z) : Z :=
  let z' := u32 z in if z' <? 2 ^ 31 then z' else z' - 2 ^ 32.

(** Bytes of memory are integers in [0, 256). *)
Definition is_byte (b : Z) : Prop := 0 <= b < 256.
Definition bytes_ok (bs : list Z) : Prop := Forall is_byte bs.

(** The host is little-endian: [le_bytes n z] is the memory image of an
    [n]-byte unsigned integer and [le_val] what a load reads back. *)
Fixpoint le_bytes (n : nat) (z : Z) : list Z :=
  match n with
  | O => []
  | S n' => z mod 256 :: le_bytes n' (z / 256)
  end.

Fixpoint le_val (bs : list Z) : Z :=
  match bs with
  | [] => 0
  | b :: bs' => b + 256 * le_val bs'
  end.

(** Network byte order. *)
Definition be_bytes (n : nat) (z : Z) : list Z := rev (le_bytes n z).
Definition be_val (bs : list Z) : Z := le_val (rev bs).

Definition htons (z : Z) : Z := le_val (be_bytes 2 z).
Definition ntohs (z : Z) : Z := htons z.
Definition htonl (z : Z) : Z := le_val (be_bytes 4 z).
Definition ntohl (z : Z) : Z := htonl z.

(** [slice off n bs]: the [n] bytes of [bs] from offset [off] on. *)
Definition slice (off n : nat) (bs : list Z) : list Z := take n (drop off bs).

(** ** Flags *)
Definition has_flag (flags bit : Z) : bool := negb (Z.land flags bit =? 0).

(** ** Tactics and hints *)
Create HintDb ldp.
Create Rewrite HintDb ldp.

(** Split the [match]/[if] that blocks the goal or a hypothesis. *)
Ltac split_match :=
  match goal with
  | |- context [match ?x with _ => _ end] => destruct x eqn:?
  | H : context [match ?x with _ => _ end] |- _ => destruct x eqn:?
  end.

(** Turn boolean comparisons of [Z] in the context into propositions. *)
Ltac zbool :=
  repeat match goal with
  | H : (_ =? _) = true |- _ => apply Z.eqb_eq in H
  | H : (_ =? _) = false |- _ => apply Z.eqb_neq in H
  | H : (_ <? _) = true |- _ => apply Z.ltb_lt in H
  | H : (_ <? _) = false |- _ => apply Z.ltb_ge in H
  | H : (_ <=? _) = true |- _ => apply Z.leb_le in H
  | H : (_ <=? _) = false |- _ => apply Z.leb_gt in H
  | H : (_ >? _) = true |- _ => rewrite Z.gtb_ltb in H; apply Z.ltb_lt in H
  | H : (_ >? _) = false |- _ => rewrite Z.gtb_ltb in H; apply Z.ltb_ge in H
  | H : (_ && _) = true |- _ => apply andb_prop in H; destruct H
  | H : (_ || _) = false |- _ => apply orb_false_elim in H; destruct H
  | H : negb _ = true |- _ => apply negb_true_iff in H
  | H : negb _ = false |- _ => apply negb_false_iff in H
  end.

(** Unfold one step of the monads in a hypothesis or the goal. *)
Ltac mstep := unfold bind, ret, get, put, modify, lift, fatalx, undef, nofuel in *; cbn [rbind] in *.

(** ** Lemmas on bytes and integers *)
Section Bytes.
Lemma length_le_bytes n z : length (le_bytes n z) = n.
Proof. revert z; induction n; intros; simpl; auto. Qed.

Lemma length_be_bytes n z : length (be_bytes n z) = n.
Proof. unfold be_bytes. by rewrite length_rev, length_le_bytes. Qed.

Lemma le_bytes_ok n z : bytes_ok (le_bytes n z).
Proof.
  revert z; induction n; intros z; simpl; constructor; [|apply IHn].
  unfold is_byte. apply Z.mod_pos_bound. lia.
Qed.

Lemma be_bytes_ok n z : bytes_ok (be_bytes n z).
Proof. apply Forall_rev, le_bytes_ok. Qed.

Lemma le_val_bytes n z : le_val (le_bytes n z) = z mod 2 ^ (8 * Z.of_nat n).
Proof.
  revert z; induction n as [|n IH]; intros z; simpl le_bytes; cbn [le_val].
  - by rewrite Z.mod_1_r.
  - rewrite IH.
    replace (8 * Z.of_nat (S n)) with (8 + 8 * Z.of_nat n) by lia.
    rewrite Z.pow_add_r by lia. change (2 ^ 8) with 256.
    rewrite Z.rem_mul_r by lia. lia.
Qed.

Lemma le_bytes_val bs : bytes_ok bs -> le_bytes (length bs) (le_val bs) = bs.
Proof.
  induction 1 as [|b bs Hb _ IH]; [done|]. simpl.
  unfold is_byte in Hb.
  rewrite (Z.mul_comm 256), Z.mod_add, Z.mod_small, Z.div_add by lia.
  rewrite Z.div_small, Z.add_0_l, IH by lia. done.
Qed.

Lemma le_val_bound bs : bytes_ok bs -> 0 <= le_val bs < 2 ^ (8 * Z.of_nat (length bs)).
Proof.
  intros H. rewrite <- (le_bytes_val bs H) at 1 2.
  rewrite le_val_bytes. apply Z.mod_pos_bound. lia.
Qed.

Lemma be_val_bytes n z : be_val (be_bytes n z) = z mod 2 ^ (8 * Z.of_nat n).
Proof. unfold be_val, be_bytes. by rewrite rev_involutive, le_val_bytes. Qed.

Lemma be_val_bound bs : bytes_ok bs -> 0 <= be_val bs < 2 ^ (8 * Z.of_nat (length bs)).
Proof.
  intros H. unfold be_val. rewrite <- (length_rev bs).
  apply le_val_bound, Forall_rev, H.
Qed.

Lemma be_bytes_val bs : bytes_ok bs -> be_bytes (length bs) (be_val bs) = bs.
Proof.
  intros H. unfold be_val, be_bytes. rewrite <- (length_rev bs).
  rewrite le_bytes_val by (by apply Forall_rev). apply rev_involutive.
Qed.

Lemma le_val_inj a b :
  bytes_ok a -> bytes_ok b -> length a = length b -> le_val a = le_val b -> a = b.
Proof.
  intros Ha Hb Hl He.
  by rewrite <- (le_bytes_val a Ha), <- (le_bytes_val b Hb), Hl, He.
Qed.

(** What is stored with [htons]/[htonl] is the value in network order. *)
Lemma htons_image z : le_bytes 2 (htons z) = be_bytes 2 z.
Proof.
  unfold htons. rewrite <- (length_be_bytes 2 z) at 1.
  apply le_bytes_val, be_bytes_ok.
Qed.

Lemma htonl_image z : le_bytes 4 (htonl z) = be_bytes 4 z.
Proof.
  unfold htonl. rewrite <- (length_be_bytes 4 z) at 1.
  apply le_bytes_val, be_bytes_ok.
Qed.

(** Loading two (four) bytes and applying [ntohs] ([ntohl]) decodes them in
    network order. *)
Lemma ntohs_load bs : bytes_ok bs -> length bs = 2%nat -> ntohs (le_val bs) = be_val bs.
Proof.
  intros H Hl. unfold ntohs, htons, be_bytes, be_val. by rewrite <- Hl, le_bytes_val.
Qed.

Lemma ntohl_load bs : bytes_ok bs -> length bs = 4%nat -> ntohl (le_val bs) = be_val bs.
Proof.
  intros H Hl. unfold ntohl, htonl, be_bytes, be_val. by rewrite <- Hl, le_bytes_val.
Qed.

Lemma htons_bound z : is_u 16 (htons z).
Proof.
  unfold htons, is_u. pose proof (le_val_bound _ (be_bytes_ok 2 z)) as H.
  by rewrite length_be_bytes in H.
Qed.

Lemma htonl_bound z : is_u 32 (htonl z).
Proof.
  unfold htonl, is_u. pose proof (le_val_bound _ (be_bytes_ok 4 z)) as H.
  by rewrite length_be_bytes in H.
Qed.

Lemma ntohs_htons z : is_u 16 z -> ntohs (htons z) = z.
Proof.
  intros H. unfold ntohs. unfold htons at 1, be_bytes. rewrite htons_image.
  unfold be_bytes. rewrite rev_involutive, le_val_bytes. by apply Z.mod_small.
Qed.

Lemma ntohl_htonl z : is_u 32 z -> ntohl (htonl z) = z.
Proof.
  intros H. unfold ntohl. unfold htonl at 1, be_bytes. rewrite htonl_image.
  unfold be_bytes. rewrite rev_involutive, le_val_bytes. by apply Z.mod_small.
Qed.

Lemma ntohl_inj a b : is_u 32 a -> is_u 32 b -> ntohl a = ntohl b -> a = b.
Proof.
  intros Ha Hb H. rewrite <- (ntohl_htonl a Ha), <- (ntohl_htonl b Hb).
  unfold ntohl in *. by rewrite H.
Qed.

(** Bitwise "and" is bytewise, so it commutes with byte swapping. *)
Lemma land_byte_step b c x y :
  is_byte b -> is_byte c ->
  Z.land (b + 256 * x) (c + 256 * y) = Z.land b c + 256 * Z.land x y.
Proof.
  intros Hb Hc. unfold is_byte in *.
  set (z := Z.land (b + 256 * x) (c + 256 * y)).
  assert (forall d w, 0 <= d < 256 -> Z.land (d + 256 * w) (Z.ones 8) = d) as Hlo.
  { intros d w Hd. rewrite Z.land_ones by lia. change (2 ^ 8) with 256.
    rewrite (Z.mul_comm 256), Z.mod_add, Z.mod_small by lia. done. }
  assert (forall d w, 0 <= d < 256 -> Z.shiftr (d + 256 * w) 8 = w) as Hhi.
  { intros d w Hd. rewrite Z.shiftr_div_pow2 by lia. change (2 ^ 8) with 256.
    rewrite (Z.mul_comm 256), Z.div_add, Z.div_small by lia. lia. }
  assert (z mod 256 = Z.land b c) as H1.
  { change 256 with (2 ^ 8). rewrite <- Z.land_ones by lia. unfold z.
    transitivity (Z.land (Z.land (b + 256 * x) (Z.ones 8)) (Z.land (c + 256 * y) (Z.ones 8)));
      [|by rewrite !Hlo].
    apply Z.bits_inj'. intros n Hn. rewrite !Z.land_spec.
    by destruct (Z.testbit (Z.ones 8) n); rewrite ?andb_true_r, ?andb_false_r. }
  assert (z / 256 = Z.land x y) as H2.
  { change 256 with (2 ^ 8). rewrite <- Z.shiftr_div_pow2 by lia. unfold z.
    by rewrite Z.shiftr_land, !Hhi. }
  rewrite <- H1, <- H2. rewrite (Z.div_mod z 256) at 1; lia.
Qed.

Lemma le_val_land a b :
  bytes_ok a -> bytes_ok b -> length a = length b ->
  le_val (zip_with Z.land a b) = Z.land (le_val a) (le_val b).
Proof.
  intros Ha; revert b; induction Ha as [|x a Hx Ha IH]; intros [|y b] Hb Hl; simplify_eq/=;
    [done|].
  inversion_clear Hb. by rewrite IH, land_byte_step.
Qed.

Lemma zip_land_rev (a b : list Z) :
  length a = length b -> zip_with Z.land (rev a) (rev b) = rev (zip_with Z.land a b).
Proof.
  revert b; induction a as [|x a IH]; intros [|y b] Hl; simplify_eq/=; [done|].
  rewrite zip_with_app, IH by (rewrite ?length_rev; lia). done.
Qed.

Lemma land_u w a b : 0 <= w -> is_u w a -> is_u w (Z.land a b).
Proof.
  intros Hw Ha. unfold is_u in *.
  assert (Z.land a b mod 2 ^ w = Z.land a b) as <-; [|apply Z.mod_pos_bound; lia].
  rewrite <- Z.land_ones, <- Z.land_assoc, (Z.land_comm b), Z.land_assoc by lia.
  by rewrite Z.land_ones, Z.mod_small by lia.
Qed.

Lemma htonl_land x y :
  is_u 32 x -> is_u 32 y -> htonl (Z.land x y) = Z.land (htonl x) (htonl y).
Proof.
  intros Hx Hy. unfold htonl, be_bytes.
  rewrite <- le_val_land;
    try (apply Forall_rev, le_bytes_ok); try (rewrite !length_rev, !length_le_bytes; done).
  rewrite zip_land_rev by (by rewrite !length_le_bytes). do 2 f_equal.
  assert (forall z, is_u 32 z -> le_val (le_bytes 4 z) = z) as E.
  { intros z Hz. rewrite le_val_bytes. by apply Z.mod_small. }
  rewrite <- (E x Hx), <- (E y Hy) at 1.
  rewrite <- le_val_land by (rewrite ?length_le_bytes; auto using le_bytes_ok).
  rewrite <- (le_bytes_val (zip_with Z.land (le_bytes 4 x) (le_bytes 4 y))) at 2.
  { by rewrite length_zip_with, !length_le_bytes. }
  unfold bytes_ok. rewrite Forall_forall. intros z Hz.
  apply list_elem_of_lookup in Hz as [i Hi].
  apply lookup_zip_with_Some in Hi as (p & q & -> & Hp & Hq).
  pose proof (Forall_lookup_1 _ _ _ _ (le_bytes_ok 4 x) Hp) as Bp.
  by apply (land_u 8).
Qed.

Lemma u8_small z : is_u 8 z -> u8 z = z.
Proof. intros H. by apply Z.mod_small. Qed.
Lemma u16_small z : is_u 16 z -> u16 z = z.
Proof. intros H. by apply Z.mod_small. Qed.
Lemma u32_small z : is_u 32 z -> u32 z = z.
Proof. intros H. by apply Z.mod_small. Qed.
Lemma u16_bound z : is_u 16 (u16 z).
Proof. by apply Z.mod_pos_bound. Qed.
Lemma u32_bound z : is_u 32 (u32 z).
Proof. by apply Z.mod_pos_bound. Qed.

Lemma length_slice off n (bs : list Z) :
  (off + n <= length bs)%nat -> length (slice off n bs) = n.
Proof. intros. unfold slice. rewrite length_take, length_drop. lia. Qed.

Lemma bytes_ok_slice off n bs : bytes_ok bs -> bytes_ok (slice off n bs).
Proof. intros. by apply Forall_take, Forall_drop. Qed.

Lemma slice_app_r (a b : list Z) n : slice (length a) n (a ++ b) = take n b.
Proof. unfold slice. by rewrite drop_app_length. Qed.

(** Concrete byte strings are checked by computation. *)
Definition bytes_okb (bs : list Z) : bool := forallb (fun b => (0 <=? b) && (b <? 256)) bs.

Lemma bytes_okb_ok bs : bytes_okb bs = true -> bytes_ok bs.
Proof.
  unfold bytes_okb. rewrite forallb_forall. intros H. apply Forall_forall. intros b Hb.
  apply list_elem_of_In in Hb. specialize (H b Hb). zbool. unfold is_byte. lia.
Qed.

Lemma bytes_ok_app a b : bytes_ok (a ++ b) <-> bytes_ok a /\ bytes_ok b.
Proof. apply Forall_app. Qed.
End Bytes.

#[global] Arguments le_bytes : simpl never.
#[global] Arguments be_bytes : simpl never.

#[export] Hint Resolve le_bytes_ok be_bytes_ok bytes_ok_slice htons_bound htonl_bound
  u16_bound u32_bound : ldp.
#[export] Hint Rewrite length_le_bytes length_be_bytes : ldp.

(** ** Lemmas on the monads *)
Lemma bind_ok {S A B} (c : ST S A) (k : A -> ST S B) s a s' :
  c s = Ok (a, s') -> bind c k s = k a s'.
Proof. intros H. unfold bind. by rewrite H. Qed.

Lemma bind_inv {S A B} (c : ST S A) (k : A -> ST S B) s r :
  bind c k s = Ok r -> exists a s', c s = Ok (a, s') /\ k a s' = Ok r.
Proof.
  unfold bind, rbind. destruct (c s) as [[a s']| | |] eqn:E; try discriminate. eauto.
Qed.

Lemma foreach_app {S A} (f : A -> ST S unit) l1 l2 s :
  foreach f (l1 ++ l2) s = (foreach f l1 ;;; foreach f l2) s.
Proof.
  revert s; induction l1 as [|x l1 IH]; intros s; simpl; [done|].
  unfold bind, rbind. destruct (f x s) as [[? ?]| | |]; auto.
Qed.

(** An invariant kept by every iteration is kept by the loop. *)
Lemma foreach_inv {S A} (P : S -> Prop) (f : A -> ST S unit) l s r :
  (forall x s s', x ∈ l -> P s -> f x s = Ok (tt, s') -> P s') ->
  P s -> foreach f l s = Ok r -> P (snd r).
Proof.
  revert s; induction l as [|x l IH]; intros s Hf Hs H; simpl in H.
  - unfold ret in H. by simplify_eq.
  - apply bind_inv in H as ([] & s' & H1 & H2).
    eapply IH in H2; eauto.
    + intros y ? ? Hy. apply Hf. by right.
    + eapply Hf; eauto. left.
Qed.
