(* ===== verification/Util.v ===== *)
(** * ldpd/util.c: masks, address comparison, scopes and socket addresses

    A [struct in_addr] is the 32-bit value of its [s_addr] field as the host
    loads it, a [struct in6_addr] and a [union ldpd_addr] are their 16 bytes,
    a [struct sockaddr_in6] is a record of the fields the code touches. *)
From stdpp Require Import prelude strings list.
From Stdlib Require Import ZArith Lia.
From S2P Require Import Prelude.

(** Address families of the platform (Linux). *)
Definition AF_UNSPEC : Z := 0.
Definition AF_INET : Z := 2.
Definition AF_INET6 : Z := 10.

(** [union ldpd_addr] and its two views. *)
Definition ldpd_addr : Type := list Z.
Definition addr_ok (a : ldpd_addr) : Prop := length a = 16%nat /\ bytes_ok a.
Definition v4 (a : ldpd_addr) : Z := le_val (take 4 a).
Definition v6 (a : ldpd_addr) : list Z := take 16 a.
Definition set_v4 (a : ldpd_addr) (s_addr : Z) : ldpd_addr := le_bytes 4 s_addr ++ drop 4 a.
Definition zero_addr : ldpd_addr := replicate 16 0.

(** Byte [i] of an address ([s6_addr[i]]); out of range reads are guarded by
    the callers. *)
Definition s6 (a : list Z) (i : nat) : Z := nth i a 0.

(** A store [a[i] = v] into an array; outside the array it is undefined. *)
Definition arr_set (a : list Z) (i : nat) (v : Z) : res (list Z) :=
  if (i <? length a)%nat then Ok (<[i := v]> a) else Undef "store outside the array".

(** libc [ffs]: index from 1 of the least significant bit set, 0 if none. *)
Fixpoint ffs_from (fuel : nat) (i z : Z) : Z :=
  match fuel with
  | O => 0
  | S f => if Z.testbit z i then i + 1 else ffs_from f (i + 1) z
  end.
Definition ffs (z : Z) : Z := ffs_from 32 0 z.

(** libc [memcmp]: the sign of the first differing byte. *)
Fixpoint memcmp (a b : list Z) : Z :=
  match a, b with
  | x :: a', y :: b' => if x <? y then -1 else if y <? x then 1 else memcmp a' b'
  | _, _ => 0
  end.

Definition mask2prefixlen (ina : Z) : Z :=
  if ina =? 0 then 0 else u8 (33 - ffs (ntohl ina)).

(** The bytes the loop of [mask2prefixlen6] walks over: from [sin6_addr] to
    the end of the [sockaddr_in6], so the 16 address bytes and the 4 bytes of
    [sin6_scope_id]. *)
Fixpoint mask2prefixlen6_loop (l : Z) (ap : list Z) : res Z :=
  match ap with
  | [] => Ok l
  | b :: ap' =>
      if b =? 0xff then mask2prefixlen6_loop (u8 (l + 8)) ap'
      else if b =? 0xfe then Ok (u8 (l + 7))
      else if b =? 0xfc then Ok (u8 (l + 6))
      else if b =? 0xf8 then Ok (u8 (l + 5))
      else if b =? 0xf0 then Ok (u8 (l + 4))
      else if b =? 0xe0 then Ok (u8 (l + 3))
      else if b =? 0xc0 then Ok (u8 (l + 2))
      else if b =? 0x80 then Ok (u8 (l + 1))
      else if b =? 0x00 then Ok l
      else Fatal "non contiguous inet6 netmask"
  end.

Record sockaddr_in6 := SockaddrIn6 {
  sin6_port : Z;
  sin6_addr : list Z;
  sin6_scope_id : Z
}.

Definition mask2prefixlen6 (sa : sockaddr_in6) : res Z :=
  mask2prefixlen6_loop 0 (sin6_addr sa ++ le_bytes 4 (sin6_scope_id sa)).

Definition prefixlen2mask (prefixlen : Z) : res Z :=
  if prefixlen =? 0 then Ok 0
  else if prefixlen >? 32 then Undef "shift by a negative count"
  else Ok (htonl (u32 (Z.shiftl 0xffffffff (32 - prefixlen)))).

Fixpoint fill_ff (n i : nat) (mask : list Z) : res (list Z) :=
  match n with
  | O => Ok mask
  | S n' => let* mask' := arr_set mask i 0xff in fill_ff n' (S i) mask'
  end.

Definition prefixlen2mask6 (prefixlen : Z) : res (list Z) :=
  let* mask := fill_ff (Z.to_nat (prefixlen / 8)) 0 (replicate 16 0) in
  let i := prefixlen mod 8 in
  if i =? 0 then Ok mask
  else arr_set mask (Z.to_nat (prefixlen / 8)) (u8 (Z.shiftr 0xff00 i)).

Definition ldp_applymask (af : Z) (dest src : ldpd_addr) (prefixlen : Z) : res ldpd_addr :=
  if af =? AF_INET then
    let* m := prefixlen2mask (u8 prefixlen) in
    Ok (set_v4 dest (Z.land (v4 src) m))
  else if af =? AF_INET6 then
    let* mask := prefixlen2mask6 prefixlen in
    Ok (zip_with Z.land (v6 src) mask)
  else Fatal "ldp_applymask: unknown af".

Definition ldp_addrcmp (af : Z) (a b : ldpd_addr) : res Z :=
  if af =? AF_INET then
    if v4 a =? v4 b then Ok 0
    else Ok (if ntohl (v4 a) >? ntohl (v4 b) then 1 else -1)
  else if af =? AF_INET6 then Ok (memcmp (v6 a) (v6 b))
  else Fatal "ldp_addrcmp: unknown af".

Definition INADDR_ANY : Z := 0.
Definition IN6_IS_ADDR_UNSPECIFIED (a : list Z) : bool := forallb (fun b => b =? 0) (v6 a).

Definition ldp_addrisset (af : Z) (addr : ldpd_addr) : res Z :=
  if af =? AF_UNSPEC then Ok 0
  else if af =? AF_INET then Ok (if negb (v4 addr =? INADDR_ANY) then 1 else 0)
  else if af =? AF_INET6 then Ok (if negb (IN6_IS_ADDR_UNSPECIFIED addr) then 1 else 0)
  else Fatal "ldp_addrisset: unknown af".

(** First difference of the leading whole bytes, as the loop returns it. *)
Fixpoint prefix_diff (n : nat) (a b : list Z) : option Z :=
  match n, a, b with
  | S n', x :: a', y :: b' =>
      if x =? y then prefix_diff n' a' b' else Some (x - y)
  | _, _, _ => None
  end.

Definition ldp_prefixcmp (af : Z) (a b : ldpd_addr) (prefixlen : Z) : res Z :=
  if af =? AF_INET then
    if prefixlen =? 0 then Ok 0
    else if prefixlen >? 32 then Fatal "ldp_prefixcmp: bad IPv4 prefixlen"
    else
      let* m := prefixlen2mask prefixlen in
      let mask := htonl m in
      let aa := Z.land (htonl (v4 a)) mask in
      let ba := Z.land (htonl (v4 b)) mask in
      Ok (int_of_u32 (aa - ba))
  else if af =? AF_INET6 then
    if prefixlen =? 0 then Ok 0
    else if prefixlen >? 128 then Fatal "ldp_prefixcmp: bad IPv6 prefixlen"
    else
      match prefix_diff (Z.to_nat (prefixlen / 8)) (v6 a) (v6 b) with
      | Some d => Ok d
      | None =>
          let i := prefixlen mod 8 in
          if i =? 0 then Ok 0
          else
            let m := u8 (Z.shiftr 0xff00 i) in
            let x := Z.land (s6 a (Z.to_nat (prefixlen / 8))) m in
            let y := Z.land (s6 b (Z.to_nat (prefixlen / 8))) m in
            if negb (x =? y) then Ok (x - y) else Ok 0
      end
  else Fatal "ldp_prefixcmp: unknown af".

Definition bad_addr_v4 (s_addr : Z) : Z :=
  let a := ntohl s_addr in
  if (Z.shiftr a 24 =? 0) || (Z.shiftr a 24 =? 127)
     || (Z.land a 0xf0000000 =? 0xe0000000) || (Z.land a 0xf0000000 =? 0xf0000000)
  then 1 else 0.

(** The classification macros of <netinet/in.h>. *)
Definition IN6_IS_ADDR_LOOPBACK (a : list Z) : bool :=
  forallb (fun b => b =? 0) (take 15 a) && (s6 a 15 =? 1).
Definition IN6_IS_ADDR_MULTICAST (a : list Z) : bool := s6 a 0 =? 0xff.
Definition IN6_IS_ADDR_LINKLOCAL (a : list Z) : bool :=
  (s6 a 0 =? 0xfe) && (Z.land (s6 a 1) 0xc0 =? 0x80).
Definition IN6_IS_ADDR_SITELOCAL (a : list Z) : bool :=
  (s6 a 0 =? 0xfe) && (Z.land (s6 a 1) 0xc0 =? 0xc0).
Definition IN6_IS_ADDR_V4MAPPED (a : list Z) : bool :=
  forallb (fun b => b =? 0) (take 10 a) && (s6 a 10 =? 0xff) && (s6 a 11 =? 0xff).
Definition IN6_IS_ADDR_V4COMPAT (a : list Z) : bool :=
  forallb (fun b => b =? 0) (take 12 a) && (be_val (slice 12 4 a) >? 1).
Definition IN6_IS_ADDR_MC_LINKLOCAL (a : list Z) : bool :=
  IN6_IS_ADDR_MULTICAST a && (Z.land (s6 a 1) 0xf =? 0x2).
Definition IN6_IS_ADDR_MC_INTFACELOCAL (a : list Z) : bool :=
  IN6_IS_ADDR_MULTICAST a && (Z.land (s6 a 1) 0xf =? 0x1).
Definition IN6_IS_SCOPE_EMBED (a : list Z) : bool :=
  IN6_IS_ADDR_LINKLOCAL a || IN6_IS_ADDR_MC_LINKLOCAL a || IN6_IS_ADDR_MC_INTFACELOCAL a.

Definition bad_addr_v6 (a : list Z) : Z :=
  if IN6_IS_ADDR_UNSPECIFIED a || IN6_IS_ADDR_LOOPBACK a || IN6_IS_ADDR_MULTICAST a
     || IN6_IS_ADDR_SITELOCAL a || IN6_IS_ADDR_V4MAPPED a || IN6_IS_ADDR_V4COMPAT a
  then 1 else 0.

Definition bad_addr (af : Z) (addr : ldpd_addr) : res Z :=
  if af =? AF_INET then Ok (bad_addr_v4 (v4 addr))
  else if af =? AF_INET6 then Ok (bad_addr_v6 (v6 addr))
  else Fatal "bad_addr: unknown af".

(** KAME-style scopes kept in bytes 2 and 3 of a link-local address. *)
Definition put16 (a : list Z) (tmp16 : Z) : list Z := take 2 a ++ le_bytes 2 tmp16 ++ drop 4 a.

Definition embedscope (sin6 : sockaddr_in6) : sockaddr_in6 :=
  if IN6_IS_SCOPE_EMBED (sin6_addr sin6) then
    SockaddrIn6 (sin6_port sin6)
      (put16 (sin6_addr sin6) (htons (u16 (sin6_scope_id sin6)))) 0
  else sin6.

Definition recoverscope (sin6 : sockaddr_in6) : sockaddr_in6 :=
  if IN6_IS_SCOPE_EMBED (sin6_addr sin6) then
    let tmp16 := le_val (slice 2 2 (sin6_addr sin6)) in
    SockaddrIn6 (sin6_port sin6) (put16 (sin6_addr sin6) 0) (ntohs tmp16)
  else sin6.

Definition addscope (sin6 : sockaddr_in6) (id : Z) : sockaddr_in6 :=
  if IN6_IS_SCOPE_EMBED (sin6_addr sin6)
  then SockaddrIn6 (sin6_port sin6) (sin6_addr sin6) id else sin6.

Definition clearscope (in6 : list Z) : list Z :=
  if IN6_IS_SCOPE_EMBED in6 then put16 in6 0 else in6.

(** [struct sockaddr_storage] as the two families use it. *)
Inductive sockaddr :=
| SaIn (sin_addr sin_port : Z)
| SaIn6 (addr : list Z) (port : Z)
| SaOther (family : Z).

Definition sa_family (sa : sockaddr) : Z :=
  match sa with SaIn _ _ => AF_INET | SaIn6 _ _ => AF_INET6 | SaOther f => f end.

Definition addr2sa (af : Z) (addr : ldpd_addr) (port : Z) : res sockaddr :=
  if af =? AF_INET then Ok (SaIn (v4 addr) (htons port))
  else if af =? AF_INET6 then Ok (SaIn6 (v6 addr) (htons port))
  else Fatal "addr2sa: unknown af".

(** The three values [sa2addr] stores through its (non-null) pointers. *)
Definition sa2addr (sa : sockaddr) : res (Z * ldpd_addr * Z) :=
  match sa with
  | SaIn a p => Ok (AF_INET, set_v4 zero_addr a, p)
  | SaIn6 a p => Ok (AF_INET6, a, p)
  | SaOther _ => Fatal "sa2addr: unknown af"
  end.

Definition sockaddr_len (sa : sockaddr) : res Z :=
  match sa with
  | SaIn _ _ => Ok 16
  | SaIn6 _ _ => Ok 28
  | SaOther _ => Fatal "sockaddr_len: unknown af"
  end.

(** ** Lemmas on masks *)
Section Masks.
(** Check a property of every prefix length up to [n] by computation. *)
Lemma upto_forallb (f : Z -> bool) (n p : Z) :
  forallb f (map Z.of_nat (seq 0 (S (Z.to_nat n)))) = true -> 0 <= p <= n -> f p = true.
Proof.
  intros H Hp. rewrite forallb_forall in H. apply H.
  rewrite in_map_iff. exists (Z.to_nat p). split; [lia|].
  apply in_seq. lia.
Qed.

Definition mask6 (p : Z) : list Z :=
  take 16 (replicate (Z.to_nat (p / 8)) 0xff ++
    (if p mod 8 =? 0 then 0 else u8 (Z.shiftr 0xff00 (p mod 8))) :: replicate 16 0).

Definition res_list_eqb (r : res (list Z)) (l : list Z) : bool :=
  match r with Ok l' => bool_decide (l' = l) | _ => false end.

Lemma prefixlen2mask6_ok p : 0 <= p <= 128 -> prefixlen2mask6 p = Ok (mask6 p).
Proof.
  intros Hp.
  assert (res_list_eqb (prefixlen2mask6 p) (mask6 p) = true) as H.
  { apply (upto_forallb (fun p => res_list_eqb (prefixlen2mask6 p) (mask6 p)) 128);
      [vm_compute; reflexivity | lia]. }
  unfold res_list_eqb in H. destruct (prefixlen2mask6 p); try discriminate.
  by apply bool_decide_eq_true in H as ->.
Qed.

Lemma prefixlen2mask_ok p :
  0 <= p <= 32 -> exists m, prefixlen2mask p = Ok m /\ is_u 32 m.
Proof.
  intros Hp. unfold prefixlen2mask. destruct (p =? 0) eqn:E.
  - exists 0. split; [done|]. unfold is_u. lia.
  - destruct (p >? 32) eqn:E'; zbool; [lia|]. eexists; split; [done|]. apply htonl_bound.
Qed.
End Masks.

(** ** Lemmas on comparisons *)
Section Compare.
Lemma memcmp_refl a : memcmp a a = 0.
Proof. induction a as [|x a IH]; simpl; [done|]. by rewrite Z.ltb_irrefl. Qed.

Lemma memcmp_eq a b : length a = length b -> memcmp a b = 0 -> a = b.
Proof.
  revert b; induction a as [|x a IH]; intros [|y b] Hl H; simplify_eq/=; [done|].
  repeat case_match; zbool; try discriminate. f_equal; [lia|auto].
Qed.

Lemma memcmp_antisym a b : memcmp a b = - memcmp b a.
Proof.
  revert b; induction a as [|x a IH]; intros [|y b]; simpl; try done.
  repeat case_match; zbool; try lia. apply IH.
Qed.

Lemma memcmp_trans a b c :
  length a = length b -> length b = length c ->
  memcmp a b < 0 -> memcmp b c < 0 -> memcmp a c < 0.
Proof.
  revert b c; induction a as [|x a IH]; intros [|y b] [|z c] H1 H2; simplify_eq/=; try done.
  repeat case_match; zbool; try lia. eauto.
Qed.

Lemma v4_bound a : addr_ok a -> is_u 32 (v4 a).
Proof.
  intros [Hl Hb]. unfold v4, is_u.
  pose proof (le_val_bound (take 4 a) (Forall_take _ _ _ Hb)) as H.
  rewrite length_take, Hl in H. exact H.
Qed.

Lemma v6_id a : addr_ok a -> v6 a = a.
Proof. intros [Hl _]. unfold v6. apply take_ge. lia. Qed.

Lemma int_of_u32_0 z : int_of_u32 z = 0 <-> u32 z = 0.
Proof.
  unfold int_of_u32. pose proof (u32_bound z) as H. unfold is_u in H.
  case_match; zbool; lia.
Qed.

Lemma prefix_diff_None n a b :
  length a = length b -> prefix_diff n a b = None <-> take n a = take n b.
Proof.
  revert a b; induction n as [|n IH]; intros [|x a] [|y b] Hl; simplify_eq/=; try done.
  case_match; zbool; subst.
  - rewrite IH by done. split; [by intros ->|congruence].
  - split; [done|congruence].
Qed.

Lemma prefix_diff_nonzero n a b d : prefix_diff n a b = Some d -> d <> 0.
Proof.
  revert a b; induction n as [|n IH]; intros [|x a] [|y b] H; simplify_eq/=.
  case_match; zbool; simplify_eq; [eauto|lia].
Qed.
End Compare.

(** ** Properties *)
Section Properties.
Definition res_eqb (r : res Z) (z : Z) : bool :=
  match r with Ok z' => z' =? z | _ => false end.

(** for every IPv4 prefix length, [mask2prefixlen] recovers the length
    from the mask [prefixlen2mask] builds (which is defined and fits in 32
    bits). *)
Theorem prefixlen2mask_roundtrip (p : Z) (Hp : 0 <= p <= 32) :
  exists m, prefixlen2mask p = Ok m /\ is_u 32 m /\ mask2prefixlen m = p.
Proof.
  destruct (prefixlen2mask_ok p Hp) as (m & Hm & Hb). exists m. split_and!; auto.
  assert (res_eqb (let* m := prefixlen2mask p in Ok (mask2prefixlen m)) p = true) as H.
  { apply (upto_forallb
      (fun p => res_eqb (let* m := prefixlen2mask p in Ok (mask2prefixlen m)) p) 32);
      [vm_compute; reflexivity | lia]. }
  rewrite Hm in H. simpl in H. by apply Z.eqb_eq.
Qed.

Lemma prefixlen2mask_roundtrip_witness :
  (0 <= 24 <= 32) /\
  exists m, prefixlen2mask 24 = Ok m /\ is_u 32 m /\ mask2prefixlen m = 24.
Proof. split; [lia|]. apply (prefixlen2mask_roundtrip 24). lia. Defined.

Lemma applymask_eq_v4 d a b m :
  addr_ok a -> addr_ok b -> is_u 32 m ->
  set_v4 d (Z.land (v4 a) m) = set_v4 d (Z.land (v4 b) m) <->
  Z.land (htonl (v4 a)) (htonl m) = Z.land (htonl (v4 b)) (htonl m).
Proof.
  intros Ha Hb Hm. apply v4_bound in Ha, Hb.
  assert (forall x, is_u 32 x -> is_u 32 (Z.land x m)) as Hl.
  { intros x Hx. by apply land_u. }
  rewrite <- !htonl_land by done. split.
  - intros H%app_inj_1; [|by rewrite !length_le_bytes]. destruct H as [H _].
    apply (f_equal le_val) in H. rewrite !le_val_bytes in H.
    change (2 ^ (8 * Z.of_nat 4)) with (2 ^ 32) in H.
    rewrite (Z.mod_small _ _ (Hl _ Ha)), (Z.mod_small _ _ (Hl _ Hb)) in H. by rewrite H.
  - intros H. apply (ntohl_inj _ _ (Hl _ Ha) (Hl _ Hb)) in H. by rewrite H.
Qed.

Lemma zip_mask_eq a b k m :
  addr_ok a -> addr_ok b -> (k <= 16)%nat ->
  zip_with Z.land a (take 16 (replicate k 0xff ++ m :: replicate 16 0)) =
  zip_with Z.land b (take 16 (replicate k 0xff ++ m :: replicate 16 0)) <->
  take k a = take k b /\ ((k < 16)%nat -> Z.land (s6 a k) m = Z.land (s6 b k) m).
Proof.
  intros [La Ba] [Lb Bb] Hk.
  assert (forall c, length c = 16%nat -> bytes_ok c ->
    zip_with Z.land c (take 16 (replicate k 0xff ++ m :: replicate 16 0)) =
    take k c ++ zip_with Z.land (drop k c) (take (16 - k) (m :: replicate 16 0))) as E.
  { intros c Lc Bc. rewrite take_app, take_ge, length_replicate by (rewrite length_replicate; lia).
    rewrite <- (take_drop k c) at 1.
    rewrite zip_with_app by (rewrite length_take, length_replicate; lia). f_equal.
    apply (Forall_take _ k) in Bc. remember (take k c) as t eqn:Et.
    assert (length t = k) as Lt by (subst t; rewrite length_take; lia).
    clear -Bc Lt. revert k Lt. induction Bc as [|x t Hx _ IH]; intros [|k] Lt; simplify_eq/=; [done|].
    unfold is_byte in Hx. f_equal; [|by apply IH].
    change 255 with (Z.ones 8). rewrite Z.land_ones by lia. by apply Z.mod_small. }
  rewrite !E by done.
  assert (forall c, length c = 16%nat -> (k < 16)%nat ->
    zip_with Z.land (drop k c) (take (16 - k) (m :: replicate 16 0)) =
    Z.land (s6 c k) m :: replicate (15 - k) 0) as F.
  { intros c Lc Hk'. destruct (lookup_lt_is_Some_2 c k) as [x Hx]; [lia|].
    rewrite (drop_S _ _ _ Hx). replace (16 - k)%nat with (S (15 - k)) by lia.
    rewrite firstn_cons, take_replicate. simpl. f_equal.
    - unfold s6. rewrite (nth_lookup_Some _ _ _ _ Hx). done.
    - replace (15 - k)%nat with (length (drop (S k) c)) by (rewrite length_drop; lia).
      rewrite Nat.min_l by (rewrite length_drop; lia).
      induction (drop (S k) c) as [|z l IH]; simpl; [done|]. by rewrite Z.land_0_r, IH. }
  split.
  - intros H%app_inj_1; [|by rewrite !length_take, La, Lb]. destruct H as [H1 H2].
    split; [done|]. intros Hk'. rewrite !F in H2 by done. by simplify_eq.
  - intros [H1 H2]. rewrite H1. f_equal. destruct (decide (k < 16)%nat) as [Hk'|Hk'].
    + rewrite !F by done. by rewrite H2.
    + replace (16 - k)%nat with 0%nat by lia. by rewrite !take_0, !zip_with_nil_r.
Qed.

(** C40: [ldp_prefixcmp] reports two addresses equal under a prefix exactly
    when [ldp_applymask] maps them to the same network, for both address
    families and every legal prefix length. *)
Theorem prefixcmp_applymask (af : Z) (a b d : ldpd_addr) (p : Z)
  (Ha : addr_ok a) (Hb : addr_ok b)
  (Haf : (af = AF_INET /\ 0 <= p <= 32) \/ (af = AF_INET6 /\ 0 <= p <= 128)) :
  exists c na nb, ldp_prefixcmp af a b p = Ok c /\
    ldp_applymask af d a p = Ok na /\ ldp_applymask af d b p = Ok nb /\
    (c = 0 <-> na = nb).
Proof.
  destruct Haf as [[-> Hp]|[-> Hp]]; unfold ldp_prefixcmp, ldp_applymask; simpl.
  - rewrite u8_small by (unfold is_u; lia).
    destruct (prefixlen2mask_ok p Hp) as (m & Em & Bm). rewrite Em. simpl.
    destruct (p =? 0) eqn:E0.
    + zbool. subst p. vm_compute in Em. simplify_eq.
      do 3 eexists. split_and!; [done..|]. by rewrite !Z.land_0_r.
    + destruct (p >? 32) eqn:E1; zbool; [lia|].
      do 3 eexists. split_and!; [done..|]. rewrite int_of_u32_0, applymask_eq_v4 by done.
      assert (forall x, is_u 32 (Z.land (htonl x) (htonl m))) as HB.
      { intros x. apply land_u; [lia|apply htonl_bound]. }
      pose proof (HB (v4 a)) as H1. pose proof (HB (v4 b)) as H2. unfold u32, is_u in *.
      rewrite Z.mod_divide by lia. split; [|intros ->; exists 0; lia].
      intros [q Hq]. lia.
  - rewrite prefixlen2mask6_ok by lia. simpl. rewrite !v6_id by done.
    pose proof (Z.div_le_upper_bound p 8 16) as Hk.
    pose proof (Z.div_pos p 8) as Hk'. pose proof (Z.div_mod p 8) as Hdm.
    pose proof (Z.mod_pos_bound p 8) as Hm.
    unfold mask6. set (k := Z.to_nat (p / 8)) in *.
    set (m := if p mod 8 =? 0 then 0 else u8 (Z.shiftr 0xff00 (p mod 8))).
    pose proof (zip_mask_eq a b k m Ha Hb ltac:(lia)) as Hz.
    destruct (p =? 0) eqn:E0.
    { zbool. subst p. do 3 eexists. split_and!; [done..|]. rewrite Hz. split; [|done].
      intros _. split; [done|]. intros _. by rewrite !Z.land_0_r. }
    destruct (p >? 128) eqn:E1; zbool; [lia|].
    destruct (prefix_diff k a b) as [df|] eqn:Ed.
    + do 3 eexists. split_and!; [done..|]. rewrite Hz. split.
      * intros ->. by apply prefix_diff_nonzero in Ed.
      * intros [Ht _]. apply (prefix_diff_None k) in Ht; [congruence|].
        by destruct Ha as [-> _], Hb as [-> _].
    + apply prefix_diff_None in Ed; [|by destruct Ha as [-> _], Hb as [-> _]].
      destruct (p mod 8 =? 0) eqn:E2; subst m; zbool.
      * do 3 eexists. split_and!; [done..|]. rewrite Hz. split; [|done].
        intros _. split; [done|]. intros _. by rewrite !Z.land_0_r.
      * case_match; zbool; do 3 eexists; (split_and!; [done..|]); rewrite Hz; split; try done.
        -- intros ?. lia.
        -- intros [_ H2]. specialize (H2 ltac:(lia)). lia.
Qed.

Lemma prefixcmp_applymask_witness :
  let a := [10; 1; 2; 3; 0; 0; 0; 0; 0; 0; 0; 0; 0; 0; 0; 0] in
  let b := [10; 1; 2; 9; 0; 0; 0; 0; 0; 0; 0; 0; 0; 0; 0; 0] in
  exists c na nb, ldp_prefixcmp AF_INET a b 24 = Ok c /\
    ldp_applymask AF_INET zero_addr a 24 = Ok na /\
    ldp_applymask AF_INET zero_addr b 24 = Ok nb /\ (c = 0 <-> na = nb).
Proof.
  apply prefixcmp_applymask; [..|left; vm_compute; intuition congruence];
    (split; [reflexivity|repeat constructor; vm_compute; intuition congruence]).
Defined.

(** an embedded IPv6 scope is recovered: for a link-local or
    scoped-multicast address with free scope bytes and a scope id of 16 bits,
    [recoverscope] undoes [embedscope]; the embedded form always carries
    scope id 0. *)
Theorem recover_embed_scope (sa : sockaddr_in6)
  (Hok : addr_ok (sin6_addr sa)) (Hemb : IN6_IS_SCOPE_EMBED (sin6_addr sa) = true)
  (Hfree : slice 2 2 (sin6_addr sa) = [0; 0]) (Hid : is_u 16 (sin6_scope_id sa)) :
  recoverscope (embedscope sa) = sa /\ sin6_scope_id (embedscope sa) = 0.
Proof.
  destruct sa as [port a sid]; simpl in *. destruct Hok as [Hl Hb].
  do 16 (destruct a as [|? a]; [discriminate|]). destruct a; [|discriminate].
  unfold slice in Hfree. simpl in Hfree. simplify_eq.
  unfold embedscope. simpl. rewrite Hemb. split; [|done].
  unfold recoverscope. simpl sin6_addr.
  rewrite u16_small by done.
  assert (length (le_bytes 2 (htons sid)) = 2%nat) as L2 by apply length_le_bytes.
  unfold put16.
  destruct (le_bytes 2 (htons sid)) as [|x [|y [|]]] eqn:E; try discriminate.
  simpl. unfold IN6_IS_SCOPE_EMBED, IN6_IS_ADDR_LINKLOCAL, IN6_IS_ADDR_MC_LINKLOCAL,
    IN6_IS_ADDR_MC_INTFACELOCAL, IN6_IS_ADDR_MULTICAST, s6 in *. simpl in *.
  rewrite Hemb. f_equal.
  transitivity (ntohs (le_val (le_bytes 2 (htons sid)))); [by rewrite E|].
  rewrite le_val_bytes, Z.mod_small by apply htons_bound. by apply ntohs_htons.
Qed.

Lemma recover_embed_scope_witness :
  let sa' := SockaddrIn6 0 (0xfe :: 0x80 :: 0 :: 0 :: replicate 12 1) 7 in
  recoverscope (embedscope sa') = sa' /\ sin6_scope_id (embedscope sa') = 0.
Proof.
  apply recover_embed_scope; [split; [reflexivity|repeat constructor; vm_compute; intuition congruence]
    |reflexivity|reflexivity|vm_compute; intuition congruence].
Defined.

(** [sa2addr] reads back what [addr2sa] wrote: the family, the port in
    network order, and the address (of an IPv4 address the four bytes of its
    [v4] view, the rest of the union cleared). *)
Theorem sa2addr_addr2sa (af : Z) (a : ldpd_addr) (port : Z)
  (Ha : addr_ok a) (Haf : af = AF_INET \/ af = AF_INET6) :
  exists sa, addr2sa af a port = Ok sa /\
    sa2addr sa = Ok (af, (if af =? AF_INET then set_v4 zero_addr (v4 a) else a), htons port)
    /\ sockaddr_len sa = Ok (if af =? AF_INET then 16 else 28).
Proof.
  destruct Haf as [-> | ->]; eexists; (split; [done|]); simpl; rewrite ?v6_id by done; done.
Qed.

Lemma sa2addr_addr2sa_witness :
  exists sa, addr2sa AF_INET6 (replicate 16 1) 646 = Ok sa /\
    sa2addr sa = Ok (AF_INET6, replicate 16 1, htons 646)
    /\ sockaddr_len sa = Ok 28.
Proof.
  apply (sa2addr_addr2sa AF_INET6 (replicate 16 1) 646);
    [split; [reflexivity|repeat constructor; vm_compute; intuition congruence]|right; reflexivity].
Defined.

(** [bad_addr_v4] rejects exactly the addresses whose first octet is 0
    (this network), 127 (loopback) or at least 224 (multicast and class E). *)
Theorem bad_addr_v4_first_octet (a b c d : Z) (Hok : bytes_ok [a; b; c; d]) :
  bad_addr_v4 (le_val [a; b; c; d]) = 1 <-> a = 0 \/ a = 127 \/ 224 <= a.
Proof.
  unfold bad_addr_v4. rewrite ntohl_load by done. set (x := be_val [a; b; c; d]).
  pose proof Hok as Hb. repeat (apply Forall_cons in Hb as [? Hb]). unfold is_byte in *.
  assert (x = d + 256 * c + 65536 * b + 16777216 * a) as Ex by (unfold x, be_val; simpl; lia).
  assert (Z.shiftr x 24 = a) as ->.
  { rewrite Z.shiftr_div_pow2 by lia. change (2 ^ 24) with 16777216.
    symmetry. apply (Z.div_unique_pos _ _ _ (d + 256 * c + 65536 * b)); lia. }
  assert (Z.land x 0xf0000000 = 0x10000000 * (a / 16)) as ->.
  { assert (is_u 32 x) as Hx by (unfold is_u; lia).
    change 0xf0000000 with (Z.ldiff (Z.ones 32) (Z.ones 28)).
    rewrite Z.ldiff_land, Z.land_assoc, Z.land_ones, Z.mod_small, <- Z.ldiff_land by lia.
    rewrite Z.ldiff_ones_r, Z.shiftl_mul_pow2, Z.shiftr_div_pow2 by lia.
    change (2 ^ 28) with 268435456.
    assert (x / 268435456 = a / 16) as ->; [|lia].
    symmetry. apply (Z.div_unique_pos _ _ _ (d + 256 * c + 65536 * b + 16777216 * (a mod 16)));
      pose proof (Z.div_mod a 16); pose proof (Z.mod_pos_bound a 16); lia. }
  pose proof (Z.div_mod a 16) as D. pose proof (Z.mod_pos_bound a 16) as M.
  destruct (_ || _) eqn:E; [split; [intros _|done]|split; [done|]].
  - apply orb_prop in E as [E|E]; [apply orb_prop in E as [E|E]; [apply orb_prop in E as [E|E]|]|];
      zbool; lia.
  - zbool. lia.
Qed.

Lemma bad_addr_v4_first_octet_witness :
  bad_addr_v4 (le_val [224; 0; 0; 2]) = 1 <-> 224 = 0 \/ 224 = 127 \/ 224 <= 224.
Proof.
  apply bad_addr_v4_first_octet. repeat constructor; vm_compute; intuition congruence.
Defined.

(** on addresses of one family [ldp_addrcmp] is a total order: it always
    returns, it is 0 exactly on equal addresses (equal [v4] views for
    AF_INET), it changes sign when its arguments are swapped, and its
    "less than" is transitive. *)
Theorem ldp_addrcmp_total_order (af : Z) (a b c : ldpd_addr)
  (Ha : addr_ok a) (Hb : addr_ok b) (Hc : addr_ok c)
  (Haf : af = AF_INET \/ af = AF_INET6) :
  exists ab ba bc ac, ldp_addrcmp af a b = Ok ab /\ ldp_addrcmp af b a = Ok ba /\
    ldp_addrcmp af b c = Ok bc /\ ldp_addrcmp af a c = Ok ac /\
    (ab = 0 <-> if af =? AF_INET then v4 a = v4 b else a = b) /\
    ab = - ba /\ (ab < 0 -> bc < 0 -> ac < 0).
Proof.
  destruct Haf as [-> | ->]; unfold ldp_addrcmp; simpl.
  - apply v4_bound in Ha, Hb, Hc.
    pose proof (ntohl_inj (v4 a) (v4 b) Ha Hb). pose proof (ntohl_inj (v4 b) (v4 c) Hb Hc).
    repeat case_match; do 4 eexists; (split_and!; [done..| | |]); zbool;
      repeat match goal with H : v4 _ = v4 _ |- _ => rewrite H in * end;
      first [lia | by split; intros; (lia || congruence) | exfalso; naive_solver lia].
  - rewrite !v6_id by done. destruct Ha as [La _], Hb as [Lb _], Hc as [Lc _].
    do 4 eexists. split_and!; [done..| | |].
    + split; [apply memcmp_eq; congruence|intros ->; apply memcmp_refl].
    + apply memcmp_antisym.
    + apply memcmp_trans; congruence.
Qed.

Lemma ldp_addrcmp_total_order_witness :
  exists ab ba bc ac,
    ldp_addrcmp AF_INET6 (replicate 16 1) (replicate 16 2) = Ok ab /\
    ldp_addrcmp AF_INET6 (replicate 16 2) (replicate 16 1) = Ok ba /\
    ldp_addrcmp AF_INET6 (replicate 16 2) (replicate 16 3) = Ok bc /\
    ldp_addrcmp AF_INET6 (replicate 16 1) (replicate 16 3) = Ok ac /\
    (ab = 0 <-> replicate 16 1 = replicate 16 2) /\
    ab = - ba /\ (ab < 0 -> bc < 0 -> ac < 0).
Proof.
  apply (ldp_addrcmp_total_order AF_INET6); try (right; reflexivity);
    (split; [reflexivity|repeat constructor; vm_compute; intuition congruence]).
Defined.
End Properties.
