(* ===== verification/Wire.v ===== *)
(** * LDP wire format: constants, [struct map], output buffers and encoders

    Constants are those of ldpd/ldp.h and lib/mpls.h.  The output buffer is the
    static [ibuf] of lib/imsg-buffer.c.  The encoders are [gen_ldp_hdr] and
    [gen_msg_hdr] (ldpd/packet.c), the TLV generators of ldpd/labelmapping.c
    and [gen_status_tlv] (ldpd/notification.c).  A generator is a computation
    over the buffer that returns the C return value (0, or -1 when the buffer
    is full); [err |= gen(...)] is [Z.lor] of the returned values. *)
From stdpp Require Import prelude strings list.
From Stdlib Require Import ZArith Lia.
From S2P Require Import Prelude Util.

(** ** Constants *)
Definition LDP_VERSION : Z := 1.
Definition LDP_MAX_LEN : Z := 4096.
Definition LDP_HDR_SIZE : Z := 10.
Definition LDP_HDR_PDU_LEN : Z := 6.
Definition LDP_HDR_DEAD_LEN : Z := 4.
Definition LDP_MSG_SIZE : Z := 8.
Definition LDP_MSG_LEN : Z := 4.
Definition LDP_MSG_DEAD_LEN : Z := 4.
Definition TLV_HDR_SIZE : Z := 4.
Definition MIN_KEEPALIVE : Z := 3.
Definition KEEPALIVE_PER_PERIOD : Z := 3.
Definition INIT_FSM_TIMEOUT : Z := 15.
Definition INIT_DELAY_TMR : Z := 15.
Definition MAX_DELAY_TMR : Z := 120.
Definition UNKNOWN_FLAG : Z := 0x8000.

Definition MSG_TYPE_NOTIFICATION : Z := 0x0001.
Definition MSG_TYPE_INIT : Z := 0x0200.
Definition MSG_TYPE_KEEPALIVE : Z := 0x0201.
Definition MSG_TYPE_ADDR : Z := 0x0300.
Definition MSG_TYPE_ADDRWITHDRAW : Z := 0x0301.
Definition MSG_TYPE_LABELMAPPING : Z := 0x0400.
Definition MSG_TYPE_LABELREQUEST : Z := 0x0401.
Definition MSG_TYPE_LABELWITHDRAW : Z := 0x0402.
Definition MSG_TYPE_LABELRELEASE : Z := 0x0403.
Definition MSG_TYPE_LABELABORTREQ : Z := 0x0404.

Definition TLV_TYPE_FEC : Z := 0x0100.
Definition TLV_TYPE_ADDRLIST : Z := 0x0101.
Definition TLV_TYPE_HOPCOUNT : Z := 0x0103.
Definition TLV_TYPE_PATHVECTOR : Z := 0x0104.
Definition TLV_TYPE_GENERICLABEL : Z := 0x0200.
Definition TLV_TYPE_ATMLABEL : Z := 0x0201.
Definition TLV_TYPE_FRLABEL : Z := 0x0202.
Definition TLV_TYPE_STATUS : Z := 0x0300.
Definition TLV_TYPE_EXTSTATUS : Z := 0x0301.
Definition TLV_TYPE_RETURNEDPDU : Z := 0x0302.
Definition TLV_TYPE_RETURNEDMSG : Z := 0x0303.
Definition TLV_TYPE_COMMONSESSION : Z := 0x0500.
Definition TLV_TYPE_ATMSESSIONPAR : Z := 0x0501.
Definition TLV_TYPE_FRSESSION : Z := 0x0502.
Definition TLV_TYPE_LABELREQUEST : Z := 0x0600.
Definition TLV_TYPE_PW_STATUS : Z := 0x096A.

Definition S_BAD_LDP_ID : Z := 0x80000001.
Definition S_BAD_PROTO_VER : Z := 0x80000002.
Definition S_BAD_PDU_LEN : Z := 0x80000003.
Definition S_UNKNOWN_MSG : Z := 0x00000004.
Definition S_BAD_MSG_LEN : Z := 0x80000005.
Definition S_UNKNOWN_TLV : Z := 0x00000006.
Definition S_BAD_TLV_LEN : Z := 0x80000007.
Definition S_BAD_TLV_VAL : Z := 0x80000008.
Definition S_SHUTDOWN : Z := 0x8000000A.
Definition S_LOOP_DETECTED : Z := 0x0000000B.
Definition S_UNKNOWN_FEC : Z := 0x0000000C.
Definition S_NO_ROUTE : Z := 0x0000000D.
Definition S_NO_HELLO : Z := 0x80000010.
Definition S_KEEPALIVE_TMR : Z := 0x80000014.
Definition S_MISS_MSG : Z := 0x00000016.
Definition S_UNSUP_ADDR : Z := 0x00000017.
Definition S_KEEPALIVE_BAD : Z := 0x80000018.
Definition S_WRONG_CBIT : Z := 0x00000025.
Definition S_PW_STATUS : Z := 0x00000028.
Definition STATUS_FATAL : Z := 0x80000000.

Definition STATUS_SIZE : Z := 14.
Definition STATUS_TLV_LEN : Z := 10.
Definition SESS_PRMS_SIZE : Z := 18.
Definition SESS_PRMS_LEN : Z := 14.
Definition ADDRESS_LIST_TLV_SIZE : Z := 6.   (* sizeof(struct address_list_tlv) *)
Definition AF_IPV4 : Z := 1.
Definition AF_IPV6 : Z := 2.

Definition FEC_ELM_WCARD_LEN : Z := 1.
Definition FEC_ELM_PREFIX_MIN_LEN : Z := 4.
Definition FEC_PWID_ELM_MIN_LEN : Z := 8.
Definition MAP_TYPE_WILDCARD : Z := 0x01.
Definition MAP_TYPE_PREFIX : Z := 0x02.
Definition MAP_TYPE_PWID : Z := 0x80.
Definition CONTROL_WORD_FLAG : Z := 0x8000.
Definition SUBTLV_HDR_SIZE : Z := 2.
Definition SUBTLV_IFMTU : Z := 0x01.
Definition FEC_SUBTLV_IFMTU_SIZE : Z := 4.
Definition LABEL_TLV_SIZE : Z := 8.
Definition LABEL_TLV_LEN : Z := 4.
Definition REQID_TLV_SIZE : Z := 8.
Definition REQID_TLV_LEN : Z := 4.
Definition PW_STATUS_TLV_SIZE : Z := 8.
Definition PW_STATUS_TLV_LEN : Z := 4.
Definition PW_FORWARDING : Z := 0.
Definition NO_LABEL : Z := 0xffffffff.

Definition MPLS_LABEL_IPV4NULL : Z := 0.
Definition MPLS_LABEL_IPV6NULL : Z := 2.
Definition MPLS_LABEL_IMPLNULL : Z := 3.
Definition MPLS_LABEL_RESERVED_MAX : Z := 15.
Definition MPLS_LABEL_MAX : Z := 0xfffff.

Definition F_MAP_REQ_ID : Z := 0x01.
Definition F_MAP_STATUS : Z := 0x02.
Definition F_MAP_PW_CWORD : Z := 0x04.
Definition F_MAP_PW_ID : Z := 0x08.
Definition F_MAP_PW_IFMTU : Z := 0x10.
Definition F_MAP_PW_STATUS : Z := 0x20.
Definition F_NOTIF_PW_STATUS : Z := 0x01.
Definition F_NOTIF_FEC : Z := 0x02.

(** [PREFIX_SIZE] of ldpe.h: whole bytes of a prefix. *)
Definition PREFIX_SIZE (x : Z) : Z := (x + 7) / 8.

(** ** [struct map] (ldpd.h)

    The members of the union [fec] are kept side by side; every reader selects
    the member by [type]. *)
Record prefix_elm := PrefixElm { pe_af : Z; pe_prefixlen : Z; pe_prefix : ldpd_addr }.
Record pwid_elm := PwidElm { pw_type : Z; pw_pwid : Z; pw_group_id : Z; pw_ifmtu : Z }.
Record map_st := MapSt { st_status_code : Z; st_msg_id : Z; st_msg_type : Z }.

Record ldp_map := LdpMap {
  m_type : Z;
  m_msg_id : Z;
  m_prefix : prefix_elm;
  m_pwid : pwid_elm;
  m_st : map_st;
  m_label : Z;
  m_requestid : Z;
  m_pw_status : Z;
  m_flags : Z
}.

(** [memset(&map, 0, sizeof(map))]. *)
Definition map_zero : ldp_map :=
  LdpMap 0 0 (PrefixElm 0 0 zero_addr) (PwidElm 0 0 0 0) (MapSt 0 0 0) 0 0 0 0.

Definition set_m_type (m : ldp_map) (v : Z) : ldp_map :=
  LdpMap v (m_msg_id m) (m_prefix m) (m_pwid m) (m_st m) (m_label m) (m_requestid m)
    (m_pw_status m) (m_flags m).
Definition set_m_msg_id (m : ldp_map) (v : Z) : ldp_map :=
  LdpMap (m_type m) v (m_prefix m) (m_pwid m) (m_st m) (m_label m) (m_requestid m)
    (m_pw_status m) (m_flags m).
Definition set_m_prefix (m : ldp_map) (v : prefix_elm) : ldp_map :=
  LdpMap (m_type m) (m_msg_id m) v (m_pwid m) (m_st m) (m_label m) (m_requestid m)
    (m_pw_status m) (m_flags m).
Definition set_m_pwid (m : ldp_map) (v : pwid_elm) : ldp_map :=
  LdpMap (m_type m) (m_msg_id m) (m_prefix m) v (m_st m) (m_label m) (m_requestid m)
    (m_pw_status m) (m_flags m).
Definition set_m_st (m : ldp_map) (v : map_st) : ldp_map :=
  LdpMap (m_type m) (m_msg_id m) (m_prefix m) (m_pwid m) v (m_label m) (m_requestid m)
    (m_pw_status m) (m_flags m).
Definition set_m_label (m : ldp_map) (v : Z) : ldp_map :=
  LdpMap (m_type m) (m_msg_id m) (m_prefix m) (m_pwid m) (m_st m) v (m_requestid m)
    (m_pw_status m) (m_flags m).
Definition set_m_requestid (m : ldp_map) (v : Z) : ldp_map :=
  LdpMap (m_type m) (m_msg_id m) (m_prefix m) (m_pwid m) (m_st m) (m_label m) v
    (m_pw_status m) (m_flags m).
Definition set_m_pw_status (m : ldp_map) (v : Z) : ldp_map :=
  LdpMap (m_type m) (m_msg_id m) (m_prefix m) (m_pwid m) (m_st m) (m_label m)
    (m_requestid m) v (m_flags m).
Definition set_m_flags (m : ldp_map) (v : Z) : ldp_map :=
  LdpMap (m_type m) (m_msg_id m) (m_prefix m) (m_pwid m) (m_st m) (m_label m)
    (m_requestid m) (m_pw_status m) v.

(** ** Output buffers (lib/imsg-buffer.c)

    [ib_data] holds the bytes written so far, so [wpos] is its length. *)
Record ibuf := Ibuf { ib_data : list Z; ib_size : Z; ib_max : Z }.

Definition wpos (b : ibuf) : Z := Z.of_nat (length (ib_data b)).

Definition ibuf_open (len : Z) : ibuf := Ibuf [] len len.

Definition ibuf_dynamic (len max : Z) : option ibuf :=
  if max <? len then None
  else Some (if max >? 0 then Ibuf [] len max else ibuf_open len).

Definition ibuf_realloc (b : ibuf) (len : Z) : Z * ibuf :=
  if wpos b + len >? ib_max b then (-1, b)
  else (0, Ibuf (ib_data b) (wpos b + len) (ib_max b)).

Definition ibuf_add (data : list Z) : ST ibuf Z := fun b =>
  let len := Z.of_nat (length data) in
  if wpos b + len >? ib_size b then
    let (r, b') := ibuf_realloc b len in
    if r =? -1 then Ok (-1, b')
    else Ok (0, Ibuf (ib_data b' ++ data) (ib_size b') (ib_max b'))
  else Ok (0, Ibuf (ib_data b ++ data) (ib_size b) (ib_max b)).

(** Only the written part can be sought; [None] is the null pointer. *)
Definition ibuf_seek (b : ibuf) (pos len : Z) : option Z :=
  if pos + len >? wpos b then None else Some pos.

Definition ibuf_left (b : ibuf) : Z := ib_max b - wpos b.

(** [err |= g]. *)
Definition errseq (g1 g2 : ST ibuf Z) : ST ibuf Z :=
  do e1 <- g1; do e2 <- g2; ret (Z.lor e1 e2).
Infix "|+|" := errseq (at level 50, left associativity) : ldp_scope.

(** ** Headers (ldpd/packet.c) *)
Definition gen_ldp_hdr (rtr_id size : Z) : ST ibuf Z :=
  ibuf_add (le_bytes 2 (htons LDP_VERSION)
    ++ le_bytes 2 (htons (u16 (size - LDP_HDR_DEAD_LEN)))
    ++ le_bytes 4 rtr_id ++ le_bytes 2 0).

(** The message counter is a static [int]; [cnt] is its value after the
    increment. *)
Definition gen_msg_hdr (cnt type size : Z) : ST ibuf Z :=
  ibuf_add (le_bytes 2 (htons type)
    ++ le_bytes 2 (htons (u16 (size - LDP_MSG_DEAD_LEN)))
    ++ le_bytes 4 (htonl cnt)).

(** ** TLVs *)
Definition gen_label_tlv (label : Z) : ST ibuf Z :=
  ibuf_add (le_bytes 2 (htons TLV_TYPE_GENERICLABEL) ++ le_bytes 2 (htons LABEL_TLV_LEN)
    ++ le_bytes 4 (htonl label)).

Definition gen_reqid_tlv (reqid : Z) : ST ibuf Z :=
  ibuf_add (le_bytes 2 (htons TLV_TYPE_LABELREQUEST) ++ le_bytes 2 (htons REQID_TLV_LEN)
    ++ le_bytes 4 (htonl reqid)).

Definition gen_pw_status_tlv (status : Z) : ST ibuf Z :=
  ibuf_add (le_bytes 2 (htons TLV_TYPE_PW_STATUS) ++ le_bytes 2 (htons PW_STATUS_TLV_LEN)
    ++ le_bytes 4 (htonl status)).

(** [msg_id] and [msg_type] are in network byte order already. *)
Definition gen_status_tlv (status_code msg_id msg_type : Z) : ST ibuf Z :=
  ibuf_add (le_bytes 2 (htons TLV_TYPE_STATUS) ++ le_bytes 2 (htons STATUS_TLV_LEN)
    ++ le_bytes 4 (htonl status_code) ++ le_bytes 4 msg_id ++ le_bytes 2 msg_type).

Definition gen_fec_tlv (map : ldp_map) : ST ibuf Z :=
  let type := le_bytes 2 (htons TLV_TYPE_FEC) in
  if m_type map =? MAP_TYPE_WILDCARD then
    ibuf_add (type ++ le_bytes 2 (htons 1)) |+| ibuf_add (le_bytes 1 (m_type map))
  else if m_type map =? MAP_TYPE_PREFIX then
    let pe := m_prefix map in
    let len := PREFIX_SIZE (pe_prefixlen pe) in
    ibuf_add (type ++ le_bytes 2 (htons (u16 (1 + 2 + 1 + len))))
    |+| ibuf_add (le_bytes 1 (m_type map))
    |+| ibuf_add (le_bytes 2 (htons (pe_af pe)))
    |+| ibuf_add (le_bytes 1 (pe_prefixlen pe))
    |+| (if len =? 0 then ret 0
         else if len >? 16 then undef "read past map->fec.prefix.prefix"
         else ibuf_add (take (Z.to_nat len) (pe_prefix pe)))
  else if m_type map =? MAP_TYPE_PWID then
    let pe := m_pwid map in
    let pw_len := u8 ((if has_flag (m_flags map) F_MAP_PW_ID then PW_STATUS_TLV_LEN else 0)
      + (if has_flag (m_flags map) F_MAP_PW_IFMTU then FEC_SUBTLV_IFMTU_SIZE else 0)) in
    let len := u16 (FEC_PWID_ELM_MIN_LEN + pw_len) in
    ibuf_add (type ++ le_bytes 2 (htons len))
    |+| ibuf_add (le_bytes 1 (m_type map))
    |+| ibuf_add (le_bytes 2 (htons
          (if has_flag (m_flags map) F_MAP_PW_CWORD
           then Z.lor (pw_type pe) CONTROL_WORD_FLAG else pw_type pe)))
    |+| ibuf_add (le_bytes 1 pw_len)
    |+| ibuf_add (le_bytes 4 (htonl (pw_group_id pe)))
    |+| (if has_flag (m_flags map) F_MAP_PW_ID
         then ibuf_add (le_bytes 4 (htonl (pw_pwid pe))) else ret 0)
    |+| (if has_flag (m_flags map) F_MAP_PW_IFMTU
         then ibuf_add (le_bytes 1 SUBTLV_IFMTU ++ le_bytes 1 FEC_SUBTLV_IFMTU_SIZE)
              |+| ibuf_add (le_bytes 2 (htons (pw_ifmtu pe)))
         else ret 0)
  else ret 0.

(** ** What the generators write

    [emits g bs]: in a static buffer with room for them, [g] appends exactly the
    bytes [bs] and reports no error. *)
Definition emits (g : ST ibuf Z) (bs : list Z) : Prop :=
  forall data size, Z.of_nat (length data + length bs) <= size ->
    g (Ibuf data size size) = Ok (0, Ibuf (data ++ bs) size size).

(** A TLV of the LDP specification: type and length in network order, body. *)
Definition tlv (type : Z) (body : list Z) : list Z :=
  be_bytes 2 type ++ be_bytes 2 (Z.of_nat (length body)) ++ body.

(** The FEC elements of RFC 5036 and RFC 4447. *)
Definition fec_elm (m : ldp_map) : list Z :=
  if m_type m =? MAP_TYPE_WILDCARD then [m_type m]
  else if m_type m =? MAP_TYPE_PREFIX then
    let pe := m_prefix m in
    m_type m :: be_bytes 2 (pe_af pe) ++ pe_prefixlen pe
      :: take (Z.to_nat (PREFIX_SIZE (pe_prefixlen pe))) (pe_prefix pe)
  else if m_type m =? MAP_TYPE_PWID then
    let pe := m_pwid m in
    let info := (if has_flag (m_flags m) F_MAP_PW_ID then be_bytes 4 (pw_pwid pe) else [])
      ++ (if has_flag (m_flags m) F_MAP_PW_IFMTU
          then SUBTLV_IFMTU :: FEC_SUBTLV_IFMTU_SIZE :: be_bytes 2 (pw_ifmtu pe) else []) in
    m_type m :: be_bytes 2 (if has_flag (m_flags m) F_MAP_PW_CWORD
                            then Z.lor (pw_type pe) CONTROL_WORD_FLAG else pw_type pe)
      ++ Z.of_nat (length info) :: be_bytes 4 (pw_group_id pe) ++ info
  else [].

(** Maps the encoder is used on: a type of the protocol, fields within their
    C types, and a prefix no longer than the 16 bytes of its union. *)
Definition map_sendable (m : ldp_map) : Prop :=
  (m_type m = MAP_TYPE_WILDCARD \/ m_type m = MAP_TYPE_PREFIX \/ m_type m = MAP_TYPE_PWID) /\
  is_u 8 (pe_prefixlen (m_prefix m)) /\ addr_ok (pe_prefix (m_prefix m)) /\
  (m_type m = MAP_TYPE_PREFIX -> pe_prefixlen (m_prefix m) <= 128).

Section Emits.
Lemma emits_add bs : emits (ibuf_add bs) bs.
Proof.
  intros data size H. unfold ibuf_add, wpos. simpl.
  case_match; zbool; [lia|done].
Qed.

Lemma emits_ret : emits (ret 0) [].
Proof. intros data size _. by rewrite app_nil_r. Qed.

Lemma emits_seq g1 g2 b1 b2 : emits g1 b1 -> emits g2 b2 -> emits (g1 |+| g2) (b1 ++ b2).
Proof.
  intros H1 H2 data size Hs. rewrite length_app in Hs. unfold errseq, bind, ret.
  rewrite H1 by lia. simpl. rewrite H2 by (rewrite length_app; lia). simpl.
  by rewrite <- app_assoc.
Qed.

Lemma emits_eq g b1 b2 : emits g b1 -> b1 = b2 -> emits g b2.
Proof. by intros ? <-. Qed.

Lemma emits_if (c : bool) g1 g2 b1 b2 :
  emits g1 b1 -> emits g2 b2 -> emits (if c then g1 else g2) (if c then b1 else b2).
Proof. by destruct c. Qed.

Lemma le_bytes_1 z : is_u 8 z -> le_bytes 1 z = [z].
Proof. intros H. change (le_bytes 1 z) with [z mod 256]. by rewrite Z.mod_small. Qed.

Lemma PREFIX_SIZE_bound p : 0 <= p <= 128 -> 0 <= PREFIX_SIZE p <= 16.
Proof.
  intros H. unfold PREFIX_SIZE. split; [apply Z.div_pos; lia|].
  change 16 with (135 / 8). apply Z.div_le_mono; lia.
Qed.
End Emits.

#[export] Hint Resolve emits_add emits_ret emits_seq emits_if : ldp.

Lemma length_fec_elm m : map_sendable m -> is_u 16 (Z.of_nat (length (fec_elm m))).
Proof.
  intros (Ht & Hp & [Hl _] & Hb). unfold fec_elm, is_u. repeat case_match;
    rewrite ?length_cons, ?length_app, ?length_be_bytes, ?length_cons, ?length_app,
      ?length_take, ?length_be_bytes; simpl; lia.
Qed.

Lemma gen_fec_tlv_emits m : map_sendable m -> emits (gen_fec_tlv m) (tlv TLV_TYPE_FEC (fec_elm m)).
Proof.
  intros Hm. pose proof (length_fec_elm m Hm) as Hlen. destruct Hm as (Ht & Hp & [Hl Hok] & Hb).
  unfold gen_fec_tlv, tlv, fec_elm in *. rewrite htons_image.
  destruct (m_type m =? MAP_TYPE_WILDCARD) eqn:E1.
  { zbool. rewrite !htons_image, E1. eapply emits_eq; [eauto with ldp|reflexivity]. }
  destruct (m_type m =? MAP_TYPE_PREFIX) eqn:E2.
  { zbool. specialize (Hb E2). rewrite E2 in *.
    pose proof (PREFIX_SIZE_bound _ (conj (proj1 Hp) Hb)) as HP.
    set (k := PREFIX_SIZE (pe_prefixlen (m_prefix m))) in *.
    rewrite !htons_image, !le_bytes_1 by (done || (unfold is_u; done)).
    eapply emits_eq; [repeat (apply emits_seq; [|apply emits_add]); apply emits_seq;
      [repeat apply emits_seq; apply emits_add|]|].
    - instantiate (1 := take (Z.to_nat k) (pe_prefix (m_prefix m))).
      destruct (k =? 0) eqn:E3; zbool; [rewrite E3; apply emits_ret|].
      destruct (k >? 16) eqn:E4; zbool; [lia|]. apply emits_add.
    - assert (u16 (1 + 2 + 1 + k) = Z.of_nat (length (MAP_TYPE_PREFIX
        :: be_bytes 2 (pe_af (m_prefix m)) ++ pe_prefixlen (m_prefix m)
        :: take (Z.to_nat k) (pe_prefix (m_prefix m))))) as ->.
      { rewrite length_cons, length_app, length_be_bytes, length_cons, length_take.
        rewrite u16_small by (unfold is_u; lia). lia. }
      by rewrite <- !app_assoc. }
  destruct (m_type m =? MAP_TYPE_PWID) eqn:E3; [|zbool; exfalso; tauto]. zbool. rewrite E3 in *.
  set (info := (if has_flag (m_flags m) F_MAP_PW_ID then be_bytes 4 _ else [])
      ++ (if has_flag (m_flags m) F_MAP_PW_IFMTU then _ else [])) in *.
  assert (Z.of_nat (length info) =
    (if has_flag (m_flags m) F_MAP_PW_ID then PW_STATUS_TLV_LEN else 0) +
    (if has_flag (m_flags m) F_MAP_PW_IFMTU then FEC_SUBTLV_IFMTU_SIZE else 0)) as Hinfo.
  { unfold info. rewrite length_app. repeat case_match; simpl; by rewrite ?length_be_bytes. }
  assert (is_u 8 (Z.of_nat (length info))) as Hi8.
  { rewrite Hinfo. unfold is_u. repeat case_match; simpl; vm_compute; intuition congruence. }
  rewrite <- Hinfo, u8_small, !htons_image, !htonl_image by done.
  assert (is_u 16 (FEC_PWID_ELM_MIN_LEN + Z.of_nat (length info))) as Hi16.
  { unfold is_u, FEC_PWID_ELM_MIN_LEN in *. lia. }
  rewrite u16_small, !(le_bytes_1 (Z.of_nat _)), (le_bytes_1 MAP_TYPE_PWID) by done.
  eapply emits_eq; [apply emits_seq; [apply emits_seq; [repeat apply emits_seq; apply emits_add|]|]|].
  - apply emits_if; [apply emits_add|apply emits_ret].
  - apply emits_if; [apply emits_seq; apply emits_add|apply emits_ret].
  - rewrite <- !app_assoc. f_equal.
    rewrite length_cons, length_app, length_be_bytes, length_cons, length_app, length_be_bytes.
    replace (Z.of_nat (S (2 + S (4 + length info)))) with
      (FEC_PWID_ELM_MIN_LEN + Z.of_nat (length info)) by (unfold FEC_PWID_ELM_MIN_LEN; lia).
    unfold info. by repeat case_match.
Qed.
