(* ===== verification/Ipc.v ===== *)
(** * Messages between the ldpd processes

    ldpd runs as three processes: the parent, the LDP engine (ldpe, sessions)
    and the label decision engine (lde).  They exchange imsgs; here are the ones
    of [enum imsg_type] (ldpd.h) that carry the protocol's work, with their
    payloads.  [ldpe_to_lde] is what [ldpe_imsg_compose_lde] sends and what
    [lde_dispatch_imsg] receives, so it is the interface of the two engines. *)
From stdpp Require Import prelude strings list.
From Stdlib Require Import ZArith Lia.
From S2P Require Import Prelude Util Wire.

(** [struct notify_msg] (ldpd.h). *)
Record notify_msg := NotifyMsg {
  nm_status_code : Z;
  nm_msg_id : Z;       (* network byte order *)
  nm_msg_type : Z;     (* network byte order *)
  nm_pw_status : Z;
  nm_fec : ldp_map;
  nm_flags : Z
}.

Definition nm_zero : notify_msg := NotifyMsg 0 0 0 0 map_zero 0.

(** The five label messages, [IMSG_LABEL_*]. *)
Inductive label_imsg :=
| IMSG_LABEL_MAPPING
| IMSG_LABEL_REQUEST
| IMSG_LABEL_RELEASE
| IMSG_LABEL_WITHDRAW
| IMSG_LABEL_ABORT.

#[export] Instance label_imsg_eq_dec : EqDecision label_imsg.
Proof. solve_decision. Defined.

(** [struct mldp_lsp_info] (lde.h); [OP_TYPE_ADD] is 0, [OP_TYPE_DEL] is 1. *)
Record mldp_lsp_info := MldpLspInfo {
  lsp_op : Z;
  lsp_protocol_type : Z;
  lsp_root_ip : Z;
  lsp_lsp_id : Z
}.
Definition OP_TYPE_ADD : Z := 0.
Definition OP_TYPE_DEL : Z := 1.

(** From the LDP engine to the label decision engine; the first argument is
    the peerid of the imsg header. *)
Inductive ldpe_to_lde :=
| ImsgLabel (peerid : Z) (type : label_imsg) (map : ldp_map)
| ImsgLabelMappingFull (peerid : Z)
| ImsgAddressAdd (peerid : Z) (af : Z) (addr : ldpd_addr)
| ImsgAddressDel (peerid : Z) (af : Z) (addr : ldpd_addr)
| ImsgNotification (peerid : Z) (nm : notify_msg)
| ImsgNeighborUp (peerid : Z) (id : Z) (v4_enabled v6_enabled : bool)
| ImsgNeighborDown (peerid : Z)
| ImsgCtlShowLib
| ImsgCtlMldpLsp (lsp : mldp_lsp_info).

(** [struct kroute] and [struct kpw] (ldpd.h), as the lde fills them. *)
Record kroute := Kroute {
  kr_af : Z; kr_prefix : ldpd_addr; kr_prefixlen : Z; kr_nexthop : ldpd_addr;
  kr_local_label : Z; kr_remote_label : Z; kr_priority : Z
}.
Record kpw := Kpw {
  kpw_ifindex : Z; kpw_pw_type : Z; kpw_af : Z; kpw_nexthop : ldpd_addr;
  kpw_local_label : Z; kpw_remote_label : Z; kpw_flags : Z
}.

(** [struct ctl_rt], the answer to "show mpls ldp binding". *)
Record ctl_rt := CtlRt {
  rt_af : Z; rt_prefix : ldpd_addr; rt_prefixlen : Z; rt_nexthop : Z;
  rt_local_label : Z; rt_remote_label : Z; rt_in_use : Z; rt_first : Z
}.

(** What the lde sends: label work and notifications to the LDP engine, label
    bindings to the parent. *)
Inductive lde_out :=
| MappingAdd (peerid : Z) (map : ldp_map)
| MappingAddEnd (peerid : Z)
| WithdrawAdd (peerid : Z) (map : ldp_map)
| WithdrawAddEnd (peerid : Z)
| ReleaseAdd (peerid : Z) (map : ldp_map)
| ReleaseAddEnd (peerid : Z)
| NotificationSend (peerid : Z) (nm : notify_msg)
| CtlShowLib (rt : ctl_rt)
| CtlEnd
| CtlMldpLsp
| KlabelChange (kr : kroute)
| KlabelDelete (kr : kroute)
| KpwlabelChange (k : kpw)
| KpwlabelDelete (k : kpw).

(** Flags of a pseudowire: configured (also in the parent) and negotiated. *)
Definition F_PW_STATUSTLV_CONF : Z := 0x01.
Definition F_PW_STATUSTLV : Z := 0x02.
Definition F_PW_CWORD_CONF : Z := 0x04.
Definition F_PW_CWORD : Z := 0x08.
Definition F_PW_STATUS_UP : Z := 0x10.
Definition F_PW_STATIC_NBR_ADDR : Z := 0x20.

(** ** L2VPNs as the parent sends them
    ([struct l2vpn], [struct l2vpn_if], [struct l2vpn_pw], ldpd.h) *)
Record pw_conf := PwConf {
  pwc_lsr_id : Z;
  pwc_af : Z;
  pwc_addr : ldpd_addr;
  pwc_pwid : Z;
  pwc_ifname : string;
  pwc_ifindex : Z;
  pwc_flags : Z
}.
Record l2vpn_if := L2vpnIf { lf_ifname : string; lf_ifindex : Z; lf_flags : Z }.
Record l2vpn := L2vpn {
  lv_name : string;
  lv_type : Z;
  lv_pw_type : Z;
  lv_mtu : Z;
  lv_br_ifname : string;
  lv_br_ifindex : Z;
  lv_if_list : list l2vpn_if;
  lv_pw_list : list pw_conf;
  lv_pw_inactive_list : list pw_conf
}.
