(* ===== verification/Session.v ===== *)
(** * Sessions of the LDP engine: the neighbour state machine and the messages
      it sends (ldpd/neighbor.c, packet.c, init.c, keepalive.c, notification.c,
      address.c)

    The state is one neighbour with the engine's globals.  Of the TCP
    connection the model keeps whether it exists ([nbr->tcp != NULL]); the PDUs
    handed to [evbuf_enqueue] are collected in [e_wire] in order, the imsgs to
    the lde in [e_lde].  A timer is the number of seconds it was armed with.
    Dereferencing a null [nbr->tcp] is undefined behaviour. *)
From stdpp Require Import prelude strings list.
From Stdlib Require Import ZArith Lia.
From S2P Require Import Prelude Util Wire Ipc.

(** ** State *)
Definition NBR_STA_PRESENT : Z := 0x0001.
Definition NBR_STA_INITIAL : Z := 0x0002.
Definition NBR_STA_OPENREC : Z := 0x0004.
Definition NBR_STA_OPENSENT : Z := 0x0008.
Definition NBR_STA_OPER : Z := 0x0010.
Definition NBR_STA_SESSION : Z :=
  Z.lor NBR_STA_INITIAL (Z.lor NBR_STA_OPENREC (Z.lor NBR_STA_OPENSENT NBR_STA_OPER)).

Inductive nbr_event :=
| NBR_EVT_NOTHING
| NBR_EVT_MATCH_ADJ
| NBR_EVT_CONNECT_UP
| NBR_EVT_CLOSE_SESSION
| NBR_EVT_INIT_RCVD
| NBR_EVT_KEEPALIVE_RCVD
| NBR_EVT_PDU_RCVD
| NBR_EVT_PDU_SENT
| NBR_EVT_INIT_SENT.

Inductive nbr_action :=
| NBR_ACT_NOTHING
| NBR_ACT_RST_KTIMEOUT
| NBR_ACT_SESSION_EST
| NBR_ACT_RST_KTIMER
| NBR_ACT_CONNECT_SETUP
| NBR_ACT_PASSIVE_INIT
| NBR_ACT_KEEPALIVE_SEND
| NBR_ACT_CLOSE_SESSION.

#[export] Instance nbr_event_eq_dec : EqDecision nbr_event.
Proof. solve_decision. Defined.

(** The timers of [struct nbr]; [None] is a timer that is off. *)
Record timers := Timers {
  t_keepalive_timer : option Z;
  t_keepalive_timeout : option Z;
  t_init_timeout : option Z;
  t_initdelay_timer : option Z
}.

Record nbr := Nbr {
  n_peerid : Z;
  n_af : Z;
  n_v4_enabled : bool;
  n_v6_enabled : bool;
  n_id : Z;
  n_laddr : ldpd_addr;
  n_raddr : ldpd_addr;
  n_state : Z;
  n_idtimer_cnt : Z;
  n_keepalive : Z;
  n_max_pdu_len : Z;
  n_tcp : bool;
  n_ev_connect : bool;
  n_timers : timers
}.

Definition set_n_peerid (n : nbr) (v : Z) : nbr :=
  Nbr v (n_af n) (n_v4_enabled n) (n_v6_enabled n) (n_id n) (n_laddr n) (n_raddr n)
    (n_state n) (n_idtimer_cnt n) (n_keepalive n) (n_max_pdu_len n) (n_tcp n) (n_ev_connect n)
    (n_timers n).
Definition set_n_state (n : nbr) (v : Z) : nbr :=
  Nbr (n_peerid n) (n_af n) (n_v4_enabled n) (n_v6_enabled n) (n_id n) (n_laddr n) (n_raddr n)
    v (n_idtimer_cnt n) (n_keepalive n) (n_max_pdu_len n) (n_tcp n) (n_ev_connect n)
    (n_timers n).
Definition set_n_idtimer_cnt (n : nbr) (v : Z) : nbr :=
  Nbr (n_peerid n) (n_af n) (n_v4_enabled n) (n_v6_enabled n) (n_id n) (n_laddr n) (n_raddr n)
    (n_state n) v (n_keepalive n) (n_max_pdu_len n) (n_tcp n) (n_ev_connect n)
    (n_timers n).
Definition set_n_params (n : nbr) (keepalive max_pdu_len : Z) : nbr :=
  Nbr (n_peerid n) (n_af n) (n_v4_enabled n) (n_v6_enabled n) (n_id n) (n_laddr n) (n_raddr n)
    (n_state n) (n_idtimer_cnt n) keepalive max_pdu_len (n_tcp n) (n_ev_connect n)
    (n_timers n).
Definition set_n_tcp (n : nbr) (v : bool) : nbr :=
  Nbr (n_peerid n) (n_af n) (n_v4_enabled n) (n_v6_enabled n) (n_id n) (n_laddr n) (n_raddr n)
    (n_state n) (n_idtimer_cnt n) (n_keepalive n) (n_max_pdu_len n) v (n_ev_connect n)
    (n_timers n).
Definition set_n_ev_connect (n : nbr) (v : bool) : nbr :=
  Nbr (n_peerid n) (n_af n) (n_v4_enabled n) (n_v6_enabled n) (n_id n) (n_laddr n) (n_raddr n)
    (n_state n) (n_idtimer_cnt n) (n_keepalive n) (n_max_pdu_len n) (n_tcp n) v
    (n_timers n).
Definition set_n_timers (n : nbr) (v : timers) : nbr :=
  Nbr (n_peerid n) (n_af n) (n_v4_enabled n) (n_v6_enabled n) (n_id n) (n_laddr n) (n_raddr n)
    (n_state n) (n_idtimer_cnt n) (n_keepalive n) (n_max_pdu_len n) (n_tcp n) (n_ev_connect n)
    v.

(** [struct nbr_params]: the fields the sessions use. *)
Record nbr_params := NbrParams {
  nbrp_lsr_id : Z;
  nbrp_keepalive : Z;
  nbrp_gtsm_enabled : Z;
  nbrp_gtsm_hops : Z;
  nbrp_auth_method : Z;
  nbrp_md5key : string;
  nbrp_md5key_len : Z;
  nbrp_flags : Z
}.
Definition F_NBRP_KEEPALIVE : Z := 0x01.

(** The part of [leconf] and [global] the sessions read. *)
Record ldpe_conf := LdpeConf {
  c_rtr_id : Z;
  c_global_rtr_id : Z;
  c_keepalive4 : Z;
  c_keepalive6 : Z;
  c_nbrp_list : list nbr_params;
  c_addr_list : list (Z * ldpd_addr)
}.

Record ldpe := Ldpe {
  e_nbr : nbr;
  e_conf : ldpe_conf;
  e_msgcnt : Z;           (* static msgcnt of gen_msg_hdr *)
  e_peercnt : Z;          (* static peercnt of nbr_update_peerid *)
  e_pids : list Z;        (* keys of the tree nbrs_by_pid *)
  e_wire : list (list Z);
  e_lde : list ldpe_to_lde
}.

Definition upd_nbr (f : nbr -> nbr) (e : ldpe) : ldpe :=
  Ldpe (f (e_nbr e)) (e_conf e) (e_msgcnt e) (e_peercnt e) (e_pids e) (e_wire e) (e_lde e).

Definition get_nbr : ST ldpe nbr := do e <- get; ret (e_nbr e).
Definition mod_nbr (f : nbr -> nbr) : ST ldpe unit := modify (upd_nbr f).

(** [ldpe_imsg_compose_lde]. *)
Definition ldpe_imsg_compose_lde (m : ldpe_to_lde) : ST ldpe unit :=
  modify (fun e => Ldpe (e_nbr e) (e_conf e) (e_msgcnt e) (e_peercnt e) (e_pids e)
                     (e_wire e) (e_lde e ++ [m])).

(** [evbuf_enqueue(&nbr->tcp->wbuf, buf)]. *)
Definition evbuf_enqueue (pdu : list Z) : ST ldpe unit := fun e =>
  if n_tcp (e_nbr e) then
    Ok (tt, Ldpe (e_nbr e) (e_conf e) (e_msgcnt e) (e_peercnt e) (e_pids e)
              (e_wire e ++ [pdu]) (e_lde e))
  else Undef "nbr->tcp is NULL".

Definition next_msgcnt : ST ldpe Z := fun e =>
  if e_msgcnt e >=? 2 ^ 31 - 1 then Undef "signed overflow of msgcnt"
  else Ok (e_msgcnt e + 1,
           Ldpe (e_nbr e) (e_conf e) (e_msgcnt e + 1) (e_peercnt e) (e_pids e) (e_wire e)
             (e_lde e)).

(** Run generators on a fresh buffer of [size] bytes: the error code and the
    bytes written. *)
Definition with_ibuf (size : Z) (g : ST ibuf Z) : ST ldpe (Z * list Z) :=
  lift (let* r := g (ibuf_open size) in Ok (fst r, ib_data (snd r))).

(** ** Configuration look-ups *)
Definition ldp_rtr_id_get (c : ldpe_conf) : Z :=
  if negb (c_rtr_id c =? INADDR_ANY) then c_rtr_id c else c_global_rtr_id c.

Definition nbr_params_find (c : ldpe_conf) (lsr_id : Z) : option nbr_params :=
  List.find (fun p => nbrp_lsr_id p =? lsr_id) (c_nbrp_list c).

Definition nbr_get_keepalive (c : ldpe_conf) (af lsr_id : Z) : res Z :=
  let dflt :=
    if af =? AF_INET then Ok (c_keepalive4 c)
    else if af =? AF_INET6 then Ok (c_keepalive6 c)
    else Fatal "ldp_af_conf_get: unknown af" in
  match nbr_params_find c lsr_id with
  | Some p => if has_flag (nbrp_flags p) F_NBRP_KEEPALIVE then Ok (nbrp_keepalive p) else dflt
  | None => dflt
  end.

(** ** Timers *)
Definition mod_timers (f : timers -> timers) : ST ldpe unit :=
  mod_nbr (fun n => set_n_timers n (f (n_timers n))).

(** [secs = nbr->keepalive / KEEPALIVE_PER_PERIOD]: three keepalives per period. *)
Definition nbr_start_ktimer : ST ldpe unit :=
  do n <- get_nbr;
  mod_timers (fun t => Timers (Some (n_keepalive n / KEEPALIVE_PER_PERIOD))
    (t_keepalive_timeout t) (t_init_timeout t) (t_initdelay_timer t)).
Definition nbr_stop_ktimer : ST ldpe unit :=
  mod_timers (fun t => Timers None (t_keepalive_timeout t) (t_init_timeout t)
    (t_initdelay_timer t)).

Definition nbr_start_ktimeout : ST ldpe unit :=
  do n <- get_nbr;
  mod_timers (fun t => Timers (t_keepalive_timer t) (Some (n_keepalive n)) (t_init_timeout t)
    (t_initdelay_timer t)).
Definition nbr_stop_ktimeout : ST ldpe unit :=
  mod_timers (fun t => Timers (t_keepalive_timer t) None (t_init_timeout t)
    (t_initdelay_timer t)).

Definition nbr_start_itimeout : ST ldpe unit :=
  mod_timers (fun t => Timers (t_keepalive_timer t) (t_keepalive_timeout t)
    (Some INIT_FSM_TIMEOUT) (t_initdelay_timer t)).
Definition nbr_stop_itimeout : ST ldpe unit :=
  mod_timers (fun t => Timers (t_keepalive_timer t) (t_keepalive_timeout t) None
    (t_initdelay_timer t)).

(** The back-off of [nbr_start_idtimer]: the seconds and the new counter; the
    [case]s 2, 1 and 0 fall through. *)
Definition idtimer_backoff (cnt : Z) : Z * Z :=
  if cnt =? 0 then (INIT_DELAY_TMR, cnt + 1)
  else if cnt =? 1 then (INIT_DELAY_TMR * 2, cnt + 1)
  else if cnt =? 2 then (INIT_DELAY_TMR * 2 * 2, cnt + 1)
  else (MAX_DELAY_TMR, cnt).

Definition nbr_start_idtimer : ST ldpe unit :=
  do n <- get_nbr;
  let (secs, cnt) := idtimer_backoff (n_idtimer_cnt n) in
  mod_nbr (fun n => set_n_idtimer_cnt n cnt) ;;;
  mod_timers (fun t => Timers (t_keepalive_timer t) (t_keepalive_timeout t) (t_init_timeout t)
    (Some secs)).
Definition nbr_stop_idtimer : ST ldpe unit :=
  mod_timers (fun t => Timers (t_keepalive_timer t) (t_keepalive_timeout t) (t_init_timeout t)
    None).

(** ** Messages without a body of their own *)
Definition send_keepalive : ST ldpe unit :=
  do e <- get;
  let size := LDP_HDR_SIZE + LDP_MSG_SIZE in
  do cnt <- next_msgcnt;
  do r <- with_ibuf size
    (gen_ldp_hdr (ldp_rtr_id_get (e_conf e)) size
     |+| gen_msg_hdr cnt MSG_TYPE_KEEPALIVE (size - LDP_HDR_SIZE));
  evbuf_enqueue (snd r).

Definition gen_init_prms_tlv (c : ldpe_conf) (n : nbr) : ST ibuf Z :=
  do ka <- lift (nbr_get_keepalive c (n_af n) (n_id n));
  ibuf_add (le_bytes 2 (htons TLV_TYPE_COMMONSESSION) ++ le_bytes 2 (htons SESS_PRMS_LEN)
    ++ le_bytes 2 (htons LDP_VERSION) ++ le_bytes 2 (htons ka) ++ [0] ++ [0]
    ++ le_bytes 2 0 ++ le_bytes 4 (n_id n) ++ le_bytes 2 0).

Definition send_init : ST ldpe unit :=
  do e <- get;
  let size := LDP_HDR_SIZE + LDP_MSG_SIZE + SESS_PRMS_SIZE in
  do cnt <- next_msgcnt;
  do r <- with_ibuf size
    (gen_ldp_hdr (ldp_rtr_id_get (e_conf e)) size
     |+| gen_msg_hdr cnt MSG_TYPE_INIT (size - LDP_HDR_SIZE)
     |+| gen_init_prms_tlv (e_conf e) (e_nbr e));
  if negb (fst r =? 0) then ret tt else evbuf_enqueue (snd r).

(** ** Notifications (notification.c) *)
Definition notification_size (nm : notify_msg) : Z :=
  LDP_HDR_SIZE + LDP_MSG_SIZE + STATUS_SIZE
  + (if has_flag (nm_flags nm) F_NOTIF_PW_STATUS then PW_STATUS_TLV_SIZE else 0)
  + (if has_flag (nm_flags nm) F_NOTIF_FEC then
       TLV_HDR_SIZE +
       (if m_type (nm_fec nm) =? MAP_TYPE_PWID then
          FEC_PWID_ELM_MIN_LEN + (if has_flag (m_flags (nm_fec nm)) F_MAP_PW_ID then 4 else 0)
        else 0)
     else 0).

Definition send_notification_full (nm : notify_msg) : ST ldpe unit :=
  do e <- get;
  let size := notification_size nm in
  do cnt <- next_msgcnt;
  do r <- with_ibuf size
    (gen_ldp_hdr (ldp_rtr_id_get (e_conf e)) size
     |+| gen_msg_hdr cnt MSG_TYPE_NOTIFICATION (size - LDP_HDR_SIZE)
     |+| gen_status_tlv (nm_status_code nm) (nm_msg_id nm) (nm_msg_type nm)
     |+| (if has_flag (nm_flags nm) F_NOTIF_PW_STATUS
          then gen_pw_status_tlv (nm_pw_status nm) else ret 0)
     |+| (if has_flag (nm_flags nm) F_NOTIF_FEC then gen_fec_tlv (nm_fec nm) else ret 0));
  if negb (fst r =? 0) then ret tt else evbuf_enqueue (snd r).

Definition send_notification (status_code msg_id msg_type : Z) : ST ldpe unit :=
  send_notification_full (NotifyMsg status_code msg_id msg_type 0 map_zero 0).

(** ** Addresses (address.c) *)
Definition gen_address_list_tlv (addrs : list (Z * ldpd_addr)) (size af : Z)
    (if_addr : option (Z * ldpd_addr)) : ST ibuf Z :=
  if negb (af =? AF_INET) && negb (af =? AF_INET6) then
    fatalx "gen_address_list_tlv: unknown af"
  else
    let addr_size := if af =? AF_INET then 4%nat else 16%nat in
    let hdr := le_bytes 2 TLV_TYPE_ADDRLIST ++ le_bytes 2 (htons (u16 (size - TLV_HDR_SIZE)))
      ++ le_bytes 2 (htons (if af =? AF_INET then AF_IPV4 else AF_IPV6)) in
    ibuf_add hdr
    |+| match if_addr with
        | None =>
            foldr (fun a g => (if negb (fst a =? af) then ret 0
                               else ibuf_add (take addr_size (snd a))) |+| g)
              (ret 0) addrs
        | Some a => ibuf_add (take addr_size (snd a))
        end.

(** The event [NBR_EVT_PDU_SENT] that follows a message is passed in as [fsm],
    since [nbr_fsm] itself sends addresses. *)
Definition send_address (fsm : nbr_event -> ST ldpe unit) (af : Z)
    (if_addr : option (Z * ldpd_addr)) (withdraw : bool) : ST ldpe unit :=
  do e <- get;
  let msg_type := if withdraw then MSG_TYPE_ADDRWITHDRAW else MSG_TYPE_ADDR in
  let addrs := c_addr_list (e_conf e) in
  let iface_count := match if_addr with
    | None => Z.of_nat (length (filter (fun a => fst a = af) addrs))
    | Some _ => 1
    end in
  if negb (af =? AF_INET) && negb (af =? AF_INET6) then fatalx "send_address: unknown af"
  else
    let size := u16 (LDP_HDR_SIZE + LDP_MSG_SIZE + ADDRESS_LIST_TLV_SIZE
      + iface_count * (if af =? AF_INET then 4 else 16)) in
    do cnt <- next_msgcnt;
    do r <- with_ibuf size
      (gen_ldp_hdr (ldp_rtr_id_get (e_conf e)) size
       |+| gen_msg_hdr cnt msg_type (u16 (size - LDP_HDR_SIZE))
       |+| gen_address_list_tlv addrs (u16 (size - LDP_HDR_SIZE - LDP_MSG_SIZE)) af if_addr);
    if negb (fst r =? 0) then ret tt
    else evbuf_enqueue (snd r) ;;; fsm NBR_EVT_PDU_SENT.

(** ** Closing (packet.c) *)
Definition tcp_close : ST ldpe unit := fun e =>
  if n_tcp (e_nbr e) then Ok (tt, upd_nbr (fun n => set_n_tcp n false) e)
  else Undef "tcp_close: tcp is NULL".

Definition session_close : ST ldpe unit :=
  tcp_close ;;; nbr_stop_ktimer ;;; nbr_stop_ktimeout ;;; nbr_stop_itimeout.

(** ** Peer identifiers (neighbor.c) *)
Definition nbr_find_peerid (e : ldpe) (peerid : Z) : bool := bool_decide (peerid ∈ e_pids e).

(** [while (nbr_find_peerid(++peercnt)) ;] *)
Fixpoint next_peerid (fuel : nat) (pids : list Z) (peercnt : Z) : res Z :=
  match fuel with
  | O => NoFuel
  | S f =>
      let peercnt' := u32 (peercnt + 1) in
      if bool_decide (peercnt' ∈ pids) then next_peerid f pids peercnt' else Ok peercnt'
  end.

Definition nbr_update_peerid : ST ldpe unit :=
  do e <- get;
  let n := e_nbr e in
  let pids := if n_peerid n =? 0 then e_pids e
              else filter (fun p => p <> n_peerid n) (e_pids e) in
  do pid <- lift (next_peerid (S (length pids)) pids (e_peercnt e));
  put (Ldpe (set_n_peerid n pid) (e_conf e) (e_msgcnt e) pid (pid :: pids) (e_wire e) (e_lde e)).

Definition nbr_act_session_operational : ST ldpe unit :=
  mod_nbr (fun n => set_n_idtimer_cnt n 0) ;;;
  nbr_update_peerid ;;;
  do n <- get_nbr;
  ldpe_imsg_compose_lde (ImsgNeighborUp (n_peerid n) (n_id n) (n_v4_enabled n) (n_v6_enabled n)).

Definition nbr_send_labelmappings : ST ldpe unit :=
  do n <- get_nbr; ldpe_imsg_compose_lde (ImsgLabelMappingFull (n_peerid n)).

(** ** The neighbour state machine (neighbor.c) *)
Definition nbr_fsm_tbl : list (Z * nbr_event * nbr_action * Z) := [
  (* Passive Role *)
  (NBR_STA_PRESENT, NBR_EVT_MATCH_ADJ, NBR_ACT_NOTHING, NBR_STA_INITIAL);
  (NBR_STA_INITIAL, NBR_EVT_INIT_RCVD, NBR_ACT_PASSIVE_INIT, NBR_STA_OPENREC);
  (NBR_STA_OPENREC, NBR_EVT_KEEPALIVE_RCVD, NBR_ACT_SESSION_EST, NBR_STA_OPER);
  (* Active Role *)
  (NBR_STA_PRESENT, NBR_EVT_CONNECT_UP, NBR_ACT_CONNECT_SETUP, NBR_STA_INITIAL);
  (NBR_STA_INITIAL, NBR_EVT_INIT_SENT, NBR_ACT_NOTHING, NBR_STA_OPENSENT);
  (NBR_STA_OPENSENT, NBR_EVT_INIT_RCVD, NBR_ACT_KEEPALIVE_SEND, NBR_STA_OPENREC);
  (* Session Maintenance *)
  (NBR_STA_OPER, NBR_EVT_PDU_RCVD, NBR_ACT_RST_KTIMEOUT, 0);
  (NBR_STA_SESSION, NBR_EVT_PDU_RCVD, NBR_ACT_NOTHING, 0);
  (NBR_STA_OPER, NBR_EVT_PDU_SENT, NBR_ACT_RST_KTIMER, 0);
  (NBR_STA_SESSION, NBR_EVT_PDU_SENT, NBR_ACT_NOTHING, 0);
  (* Session Close *)
  (NBR_STA_PRESENT, NBR_EVT_CLOSE_SESSION, NBR_ACT_NOTHING, 0);
  (NBR_STA_SESSION, NBR_EVT_CLOSE_SESSION, NBR_ACT_CLOSE_SESSION, NBR_STA_PRESENT)
].

(** The scan for the first row whose state mask and event match. *)
Fixpoint fsm_lookup (tbl : list (Z * nbr_event * nbr_action * Z)) (old_state : Z)
    (event : nbr_event) : option (nbr_action * Z) :=
  match tbl with
  | [] => None
  | (st, ev, act, new) :: tbl' =>
      if has_flag st old_state && bool_decide (ev = event) then Some (act, new)
      else fsm_lookup tbl' old_state event
  end.

(** The body of [nbr_fsm]; [fsm] is the recursive call, made by the actions
    that trigger a further event. *)
Definition nbr_fsm_body (fsm : nbr_event -> ST ldpe unit) (event : nbr_event) : ST ldpe unit :=
  do n <- get_nbr;
  match fsm_lookup nbr_fsm_tbl (n_state n) event with
  | None => ret tt     (* event outside of the defined fsm, ignore it *)
  | Some (action, new_state) =>
      let st := if negb (new_state =? 0) then new_state else n_state n in
      mod_nbr (fun n => set_n_state n st) ;;;
      (if (st =? NBR_STA_OPER) || (st =? NBR_STA_PRESENT) then nbr_stop_itimeout
       else nbr_start_itimeout) ;;;
      match action with
      | NBR_ACT_RST_KTIMEOUT => nbr_start_ktimeout
      | NBR_ACT_RST_KTIMER => nbr_start_ktimer
      | NBR_ACT_SESSION_EST =>
          nbr_act_session_operational ;;;
          nbr_start_ktimer ;;;
          nbr_start_ktimeout ;;;
          (if n_v4_enabled n then send_address fsm AF_INET None false else ret tt) ;;;
          (if n_v6_enabled n then send_address fsm AF_INET6 None false else ret tt) ;;;
          nbr_send_labelmappings
      | NBR_ACT_CONNECT_SETUP =>
          mod_nbr (fun n => set_n_tcp n true) ;;;
          send_init ;;;
          fsm NBR_EVT_INIT_SENT
      | NBR_ACT_PASSIVE_INIT => send_init ;;; send_keepalive
      | NBR_ACT_KEEPALIVE_SEND => nbr_start_ktimeout ;;; send_keepalive
      | NBR_ACT_CLOSE_SESSION =>
          ldpe_imsg_compose_lde (ImsgNeighborDown (n_peerid n)) ;;;
          session_close
      | NBR_ACT_NOTHING => ret tt
      end
  end.

(** The recursion of [nbr_fsm] ends after one nested event: [INIT_SENT] and
    [PDU_SENT] trigger no further one. *)
Fixpoint nbr_fsm_n (depth : nat) (event : nbr_event) : ST ldpe unit :=
  match depth with
  | O => nofuel
  | S d => nbr_fsm_body (nbr_fsm_n d) event
  end.
Definition nbr_fsm : nbr_event -> ST ldpe unit := nbr_fsm_n 2.

Definition send_notification_nbr (status_code msg_id msg_type : Z) : ST ldpe unit :=
  send_notification status_code msg_id msg_type ;;; nbr_fsm NBR_EVT_PDU_SENT.

(** [session_shutdown] takes [msg_type] as a [uint32_t]; the notification
    carries its low 16 bits. *)
Definition session_shutdown (status msg_id msg_type : Z) : ST ldpe unit :=
  do n <- get_nbr;
  if n_state n =? NBR_STA_PRESENT then
    mod_nbr (fun n => set_n_ev_connect n false)
  else if (n_state n =? NBR_STA_INITIAL) || (n_state n =? NBR_STA_OPENREC)
       || (n_state n =? NBR_STA_OPENSENT) || (n_state n =? NBR_STA_OPER) then
    send_notification_nbr status msg_id (u16 msg_type) ;;;
    nbr_fsm NBR_EVT_CLOSE_SESSION
  else fatalx "session_shutdown: unknown neighbor state".

(** ** Events that start or end a session *)
Definition session_accept_nbr : ST ldpe unit :=
  mod_nbr (fun n => set_n_tcp n true) ;;; nbr_fsm NBR_EVT_MATCH_ADJ.

(** [nbr_connect_cb]: the connect finished, [error] is the SO_ERROR value. *)
Definition nbr_connect_cb (error : Z) : ST ldpe unit :=
  mod_nbr (fun n => set_n_ev_connect n false) ;;;
  if negb (error =? 0) then ret tt else nbr_fsm NBR_EVT_CONNECT_UP.

Definition nbr_session_active_role (n : nbr) : res bool :=
  let* c := ldp_addrcmp (n_af n) (n_laddr n) (n_raddr n) in Ok (c >? 0).

Definition nbr_ktimer : ST ldpe unit :=
  nbr_stop_ktimer ;;; send_keepalive ;;; nbr_start_ktimer.

Definition nbr_ktimeout : ST ldpe unit :=
  nbr_stop_ktimeout ;;; session_shutdown S_KEEPALIVE_TMR 0 0.

Definition nbr_itimeout : ST ldpe unit := nbr_fsm NBR_EVT_CLOSE_SESSION.

(** ** The session contract: RFC 5036, section 2.5.4

    The abstract session and the operations of the engine on it. *)
Inductive session := NonExistent | Initialized | OpenRec | OpenSent | Operational.

Definition session_of (state : Z) : session :=
  if state =? NBR_STA_INITIAL then Initialized
  else if state =? NBR_STA_OPENREC then OpenRec
  else if state =? NBR_STA_OPENSENT then OpenSent
  else if state =? NBR_STA_OPER then Operational
  else NonExistent.

Inductive sess_op :=
| OpAccept                              (* passive role: a connection was accepted *)
| OpConnected                           (* active role: our connect succeeded *)
| OpInitRcvd | OpKeepaliveRcvd | OpPduRcvd | OpPduSent
| OpClose
| OpShutdown (status msg_id msg_type : Z)
| OpKtimer | OpKtimeout | OpItimeout.

Definition run_op (op : sess_op) : ST ldpe unit :=
  match op with
  | OpAccept => session_accept_nbr
  | OpConnected => nbr_connect_cb 0
  | OpInitRcvd => nbr_fsm NBR_EVT_INIT_RCVD
  | OpKeepaliveRcvd => nbr_fsm NBR_EVT_KEEPALIVE_RCVD
  | OpPduRcvd => nbr_fsm NBR_EVT_PDU_RCVD
  | OpPduSent => nbr_fsm NBR_EVT_PDU_SENT
  | OpClose => nbr_fsm NBR_EVT_CLOSE_SESSION
  | OpShutdown s i t => session_shutdown s i t
  | OpKtimer => nbr_ktimer
  | OpKtimeout => nbr_ktimeout
  | OpItimeout => nbr_itimeout
  end.

(** When the engine performs them: a connection is only accepted or completed
    without a session ([session_accept] checks [NBR_STA_PRESENT]), and a timer
    only fires when it is armed. *)
Definition op_enabled (op : sess_op) (e : ldpe) : Prop :=
  match op with
  | OpAccept | OpConnected => n_state (e_nbr e) = NBR_STA_PRESENT
  | OpKtimer => t_keepalive_timer (n_timers (e_nbr e)) <> None
  | OpKtimeout => t_keepalive_timeout (n_timers (e_nbr e)) <> None
  | OpItimeout => t_init_timeout (n_timers (e_nbr e)) <> None
  | _ => True
  end.

(** The session of RFC 5036 2.5.4 on events that are in order.  On an event that is
    out of order (an Initialization in OPERATIONAL, say) RFC 5036 goes to
    NON EXISTENT; the specification here idles, as [nbr_fsm] does, which ignores
    an event that its table does not have for the state.  The receivers of
    messages reject what is out of order before it becomes an event ([Recv]). *)
Definition spec_next (s : session) (op : sess_op) : session :=
  match op, s with
  | OpAccept, NonExistent => Initialized
  | OpConnected, NonExistent => OpenSent
  | OpInitRcvd, (Initialized | OpenSent) => OpenRec
  | OpKeepaliveRcvd, OpenRec => Operational
  | (OpClose | OpShutdown _ _ _ | OpKtimeout | OpItimeout), _ => NonExistent
  | _, _ => s
  end.

(** The invariant of a neighbour between events: the TCP connection exists
    exactly while there is a session, the initialization timeout runs exactly
    while the session is being set up, the keepalive timer exactly while it is
    operational.  While [nbr_ktimeout] runs its own timer is off; [nbr_inv_k
    false] is the invariant without the clause on it. *)
Record nbr_inv_k (k : bool) (n : nbr) : Prop := NbrInv {
  si_state : n_state n ∈
    [NBR_STA_PRESENT; NBR_STA_INITIAL; NBR_STA_OPENREC; NBR_STA_OPENSENT; NBR_STA_OPER];
  si_tcp : n_tcp n = negb (n_state n =? NBR_STA_PRESENT);
  si_itimeout : t_init_timeout (n_timers n) =
    if (n_state n =? NBR_STA_OPER) || (n_state n =? NBR_STA_PRESENT)
    then None else Some INIT_FSM_TIMEOUT;
  si_ktimer : n_state n = NBR_STA_OPER <-> t_keepalive_timer (n_timers n) <> None;
  si_ktimeout : k = true -> n_state n = NBR_STA_OPER -> t_keepalive_timeout (n_timers n) <> None;
  si_present : n_state n = NBR_STA_PRESENT -> t_keepalive_timeout (n_timers n) = None;
  si_af : n_af n = AF_INET \/ n_af n = AF_INET6
}.
Definition nbr_inv : nbr -> Prop := nbr_inv_k true.

(** Room for the messages of one event in the (signed) message counter. *)
Definition cnt_ok (e : ldpe) : Prop := 0 <= e_msgcnt e < 2 ^ 31 - 5.

(** The table of peer identifiers is not full. *)
Definition pids_ok (e : ldpe) : Prop := Z.of_nat (length (e_pids e)) < 2 ^ 32 - 1.

Section SendLemmas.
(** A generator that always returns. *)
Definition gsafe (g : ST ibuf Z) : Prop := forall b, exists r, g b = Ok r.

Lemma gsafe_add bs : gsafe (ibuf_add bs).
Proof. intros b. unfold ibuf_add, ibuf_realloc. repeat case_match; simplify_eq; eauto. Qed.

Lemma gsafe_ret z : gsafe (ret z).
Proof. intros b. by eexists. Qed.

Lemma gsafe_seq g1 g2 : gsafe g1 -> gsafe g2 -> gsafe (g1 |+| g2).
Proof.
  intros H1 H2 b. unfold errseq, bind. destruct (H1 b) as [[r1 b1] ->]. simpl.
  destruct (H2 b1) as [[r2 b2] ->]. by eexists.
Qed.

Lemma with_ibuf_safe size g e : gsafe g -> exists r, with_ibuf size g e = Ok (r, e).
Proof.
  intros H. unfold with_ibuf, lift. destruct (H (ibuf_open size)) as [[r b] ->]. by eexists.
Qed.

Lemma with_ibuf_emits size g bs e :
  emits g bs -> Z.of_nat (length bs) <= size -> with_ibuf size g e = Ok (0, bs, e).
Proof. intros H Hl. unfold with_ibuf, lift, ibuf_open. by rewrite H. Qed.

(** Messages leave everything but the counter and the output queue. *)
Record sends (e e' : ldpe) : Prop := Sends {
  sd_nbr : e_nbr e' = e_nbr e;
  sd_conf : e_conf e' = e_conf e;
  sd_cnt : e_msgcnt e' = e_msgcnt e + 1;
  sd_peercnt : e_peercnt e' = e_peercnt e;
  sd_pids : e_pids e' = e_pids e;
  sd_lde : e_lde e' = e_lde e;
  sd_wire : exists out, e_wire e' = e_wire e ++ out
}.

Lemma next_msgcnt_ok e :
  0 <= e_msgcnt e < 2 ^ 31 - 1 -> exists e', next_msgcnt e = Ok (e_msgcnt e + 1, e') /\
    sends e e' /\ e_wire e' = e_wire e.
Proof.
  intros H. unfold next_msgcnt. case_match; zbool; [lia|].
  eexists. split; [done|]. split; [|done]. constructor; simpl; auto.
  exists []. by rewrite app_nil_r.
Qed.

Lemma evbuf_enqueue_ok pdu e :
  n_tcp (e_nbr e) = true -> exists e', evbuf_enqueue pdu e = Ok (tt, e') /\
    e_nbr e' = e_nbr e /\ e_conf e' = e_conf e /\ e_msgcnt e' = e_msgcnt e /\
    e_peercnt e' = e_peercnt e /\ e_pids e' = e_pids e /\ e_lde e' = e_lde e /\
    e_wire e' = e_wire e ++ [pdu].
Proof. intros H. unfold evbuf_enqueue. rewrite H. eexists. by split_and!. Qed.

(** The shape of every [send_*] function: number the message, fill a buffer,
    enqueue it unless an error was reported. *)
Lemma send_shape size (g : Z -> ST ibuf Z) (drop_err : bool) e :
  (forall cnt, gsafe (g cnt)) -> n_tcp (e_nbr e) = true -> 0 <= e_msgcnt e < 2 ^ 31 - 1 ->
  exists e', (do cnt <- next_msgcnt; do r <- with_ibuf size (g cnt);
              if drop_err && negb (fst r =? 0) then ret tt else evbuf_enqueue (snd r)) e
             = Ok (tt, e') /\ sends e e'.
Proof.
  intros Hg Ht Hc. destruct (next_msgcnt_ok e Hc) as (e1 & E1 & S1 & W1).
  unfold bind at 1. rewrite E1. simpl.
  destruct (with_ibuf_safe size (g (e_msgcnt e + 1)) e1 (Hg _)) as [r Er].
  unfold bind. rewrite Er. simpl. destruct (_ && _); [by exists e1|].
  destruct S1. destruct (evbuf_enqueue_ok (snd r) e1)
    as (e2 & E2 & ? & ? & ? & ? & ? & ? & W2); [congruence|].
  exists e2. split; [done|]. constructor; try congruence.
  eexists. by rewrite W2, W1.
Qed.

Lemma nbr_get_keepalive_ok c af id :
  af = AF_INET \/ af = AF_INET6 -> exists ka, nbr_get_keepalive c af id = Ok ka.
Proof.
  intros [-> | ->]; unfold nbr_get_keepalive; simpl;
    destruct (nbr_params_find c id) as [p|]; try destruct (has_flag _ _); eauto.
Qed.

Lemma gsafe_init_prms c n :
  n_af n = AF_INET \/ n_af n = AF_INET6 -> gsafe (gen_init_prms_tlv c n).
Proof.
  intros H b. destruct (nbr_get_keepalive_ok c (n_af n) (n_id n) H) as [ka E].
  unfold gen_init_prms_tlv, bind, lift. rewrite E. apply gsafe_add.
Qed.

Lemma gsafe_address_list addrs size af if_addr :
  af = AF_INET \/ af = AF_INET6 -> gsafe (gen_address_list_tlv addrs size af if_addr).
Proof.
  intros H. unfold gen_address_list_tlv.
  destruct (_ && _) eqn:E; [zbool; lia|].
  apply gsafe_seq; [apply gsafe_add|]. destruct if_addr; [apply gsafe_add|].
  induction addrs as [|a addrs IH]; simpl; [apply gsafe_ret|].
  apply gsafe_seq; [|done]. match goal with |- gsafe (if ?c then _ else _) => destruct c end;
    [apply gsafe_ret|apply gsafe_add].
Qed.

Lemma send_keepalive_ok e :
  n_tcp (e_nbr e) = true -> 0 <= e_msgcnt e < 2 ^ 31 - 1 ->
  exists e', send_keepalive e = Ok (tt, e') /\ sends e e'.
Proof.
  intros Ht Hc. unfold send_keepalive. rewrite (bind_ok get _ e e e) by done.
  eapply (send_shape _ (fun cnt => _ |+| gen_msg_hdr cnt _ _) false); auto.
  intros. repeat apply gsafe_seq; apply gsafe_add.
Qed.

Lemma send_init_ok e :
  n_tcp (e_nbr e) = true -> 0 <= e_msgcnt e < 2 ^ 31 - 1 ->
  n_af (e_nbr e) = AF_INET \/ n_af (e_nbr e) = AF_INET6 ->
  exists e', send_init e = Ok (tt, e') /\ sends e e'.
Proof.
  intros Ht Hc Ha. unfold send_init. rewrite (bind_ok get _ e e e) by done.
  eapply (send_shape _ (fun cnt => _ |+| gen_msg_hdr cnt _ _ |+| _) true); auto.
  intros. repeat apply gsafe_seq; try apply gsafe_add. by apply gsafe_init_prms.
Qed.

Lemma send_notification_ok st i t e :
  n_tcp (e_nbr e) = true -> 0 <= e_msgcnt e < 2 ^ 31 - 1 ->
  exists e', send_notification st i t e = Ok (tt, e') /\ sends e e'.
Proof.
  intros Ht Hc. unfold send_notification, send_notification_full.
  rewrite (bind_ok get _ e e e) by done.
  eapply (send_shape _ (fun cnt => _ |+| gen_msg_hdr cnt _ _ |+| _ |+| _ |+| _) true); auto.
  intros. repeat apply gsafe_seq; simpl; try apply gsafe_add; apply gsafe_ret.
Qed.

Lemma send_address_ok fsm af oa w e :
  n_tcp (e_nbr e) = true -> 0 <= e_msgcnt e < 2 ^ 31 - 1 -> af = AF_INET \/ af = AF_INET6 ->
  exists e', sends e e' /\
    (send_address fsm af oa w e = Ok (tt, e') \/
     send_address fsm af oa w e = fsm NBR_EVT_PDU_SENT e').
Proof.
  intros Ht Hc Ha. unfold send_address. rewrite (bind_ok get _ e e e) by done.
  destruct (_ && _) eqn:E; [zbool; lia|]. clear E.
  set (size := u16 _). destruct (next_msgcnt_ok e Hc) as (e1 & E1 & S1 & W1).
  rewrite (bind_ok _ _ _ _ _ E1).
  match goal with |- context [with_ibuf size ?g] =>
    destruct (with_ibuf_safe size g e1) as [r Er] end.
  { repeat apply gsafe_seq; try apply gsafe_add. by apply gsafe_address_list. }
  rewrite (bind_ok _ _ _ _ _ Er). destruct (negb (fst r =? 0));
    [exists e1; split; [done|by left]|].
  destruct S1. destruct (evbuf_enqueue_ok (snd r) e1)
    as (e2 & E2 & ? & ? & ? & ? & ? & ? & W2); [congruence|].
  exists e2. rewrite (bind_ok _ _ _ _ _ E2). split; [|by right].
  constructor; try congruence. eexists. by rewrite W2, W1.
Qed.
End SendLemmas.

Section PeerId.
(** Every candidate of the search is a residue of the counter; among
    [length pids + 1] of them one is unused. *)
Lemma next_peerid_spec pids c fuel r :
  next_peerid fuel pids c = Ok r -> r ∉ pids /\ is_u 32 r.
Proof.
  revert c; induction fuel as [|f IH]; intros c H; simpl in H; [done|].
  case_bool_decide; [eauto|]. simplify_eq. split; [done|apply u32_bound].
Qed.

Lemma next_peerid_scan pids c fuel :
  next_peerid fuel pids c = NoFuel ->
  forall i, (i < fuel)%nat -> u32 (c + 1 + Z.of_nat i) ∈ pids.
Proof.
  revert c; induction fuel as [|f IH]; intros c H i Hi; simpl in H; [lia|].
  case_bool_decide; [|done]. destruct i as [|i]; [by rewrite Z.add_0_r|].
  specialize (IH _ H i ltac:(lia)). revert IH. unfold u32.
  rewrite <- (Z.add_assoc _ 1), Zplus_mod_idemp_l.
  by replace (c + 1 + (1 + Z.of_nat i)) with (c + 1 + Z.of_nat (S i)) by lia.
Qed.

Lemma next_peerid_total pids c :
  Z.of_nat (length pids) < 2 ^ 32 - 1 ->
  exists r, next_peerid (S (length pids)) pids c = Ok r.
Proof.
  intros Hl. destruct (next_peerid _ _ _) as [r|w|w|] eqn:E; [eauto| | |].
  - exfalso. revert E. generalize (S (length pids)) c. induction n; intros; simpl in *; [done|].
    case_bool_decide; eauto; done.
  - exfalso. revert E. generalize (S (length pids)) c. induction n; intros; simpl in *; [done|].
    case_bool_decide; eauto; done.
  - exfalso. pose proof (next_peerid_scan _ _ _ E) as Hin.
    set (cand := (fun i => u32 (c + 1 + Z.of_nat i)) <$> seq 0 (S (length pids))).
    assert (NoDup cand) as Hnd.
    { apply NoDup_fmap_2_strong; [|apply NoDup_seq].
      intros i j Hi Hj Heq. apply list_elem_of_In, in_seq in Hi, Hj.
      unfold u32 in Heq. apply Z.cong_iff_0 in Heq.
      apply Z.mod_divide in Heq as [q Hq]; [|lia]. nia. }
    assert (cand ⊆ pids) as Hsub.
    { intros x Hx. apply list_elem_of_fmap in Hx as (i & -> & Hi).
      apply list_elem_of_In, in_seq in Hi. apply Hin. lia. }
    pose proof (submseteq_length _ _ (NoDup_submseteq _ _ Hnd Hsub)) as Hlen.
    unfold cand in Hlen. rewrite length_fmap, length_seq in Hlen. lia.
Qed.
End PeerId.

(** ** Weakest preconditions for session code *)
Definition wp (m : ST ldpe unit) (Q : ldpe -> Prop) (e : ldpe) : Prop :=
  match m e with Ok (_, e') => Q e' | _ => False end.

Section Wp.
Lemma wp_elim m Q e : wp m Q e -> exists e', m e = Ok (tt, e') /\ Q e'.
Proof. unfold wp. destruct (m e) as [[[] e']| | |]; try done. eauto. Qed.

Lemma wp_seq m k Q e : wp m (wp k Q) e -> wp (m ;;; k) Q e.
Proof. unfold wp, bind. destruct (m e) as [[[] e']| | |]; done. Qed.

Lemma wp_nbr (k : nbr -> ST ldpe unit) Q e : wp (k (e_nbr e)) Q e -> wp (do n <- get_nbr; k n) Q e.
Proof. done. Qed.

Lemma wp_mod f Q e : Q (upd_nbr f e) -> wp (mod_nbr f) Q e.
Proof. done. Qed.

Lemma wp_ret (Q : ldpe -> Prop) e : Q e -> wp (ret tt) Q e.
Proof. done. Qed.

Lemma wp_imsg m (Q : ldpe -> Prop) e :
  Q (Ldpe (e_nbr e) (e_conf e) (e_msgcnt e) (e_peercnt e) (e_pids e) (e_wire e) (e_lde e ++ [m]))
  -> wp (ldpe_imsg_compose_lde m) Q e.
Proof. done. Qed.

Lemma wp_sends m (Q : ldpe -> Prop) e :
  (exists e', m e = Ok (tt, e') /\ sends e e') ->
  (forall e', sends e e' -> Q e') -> wp m Q e.
Proof. intros (e' & E & S) H. unfold wp. rewrite E. by apply H. Qed.

Lemma wp_close (Q : ldpe -> Prop) e :
  n_tcp (e_nbr e) = true -> Q (upd_nbr (fun n => set_n_tcp n false) e) -> wp tcp_close Q e.
Proof. intros H HQ. unfold wp, tcp_close. by rewrite H. Qed.

Lemma wp_peerid (Q : ldpe -> Prop) e :
  pids_ok e ->
  (forall pid pids', pid ∉ pids' ->
    (forall p, p ∈ pids' <-> p ∈ e_pids e /\ (n_peerid (e_nbr e) <> 0 -> p <> n_peerid (e_nbr e))) ->
    Q (Ldpe (set_n_peerid (e_nbr e) pid) (e_conf e) (e_msgcnt e) pid (pid :: pids')
         (e_wire e) (e_lde e))) ->
  wp nbr_update_peerid Q e.
Proof.
  intros Hp HQ. unfold wp, nbr_update_peerid, bind, get, lift, put. cbn [rbind].
  set (pids := if _ =? 0 then _ else _).
  assert (Z.of_nat (length pids) < 2 ^ 32 - 1) as Hl.
  { unfold pids_ok in Hp. subst pids. case_match; [done|].
    pose proof (length_filter (fun p => p <> n_peerid (e_nbr e)) (e_pids e)). lia. }
  destruct (next_peerid_total pids (e_peercnt e) Hl) as [pid E]. rewrite E. cbn [rbind].
  apply HQ; [by apply next_peerid_spec in E as [? _]|].
  intros p. subst pids. case_match; zbool.
  - intuition congruence.
  - rewrite list_elem_of_filter. tauto.
Qed.
End Wp.

(** Symbolic execution of session code. *)
Ltac wp_step :=
  lazymatch goal with
  | |- wp (bind get_nbr _) _ _ => apply wp_nbr
  | |- wp (bind _ (fun _ => _)) _ _ => apply wp_seq
  | |- wp (mod_nbr _) _ _ => apply wp_mod
  | |- wp (mod_timers _) _ _ => apply wp_mod
  | |- wp (ret tt) _ _ => apply wp_ret
  | |- wp (ldpe_imsg_compose_lde _) _ _ => apply wp_imsg
  | |- wp tcp_close _ _ => apply wp_close
  | |- wp nbr_start_ktimer _ _ => unfold nbr_start_ktimer
  | |- wp nbr_stop_ktimer _ _ => unfold nbr_stop_ktimer
  | |- wp nbr_start_ktimeout _ _ => unfold nbr_start_ktimeout
  | |- wp nbr_stop_ktimeout _ _ => unfold nbr_stop_ktimeout
  | |- wp nbr_start_itimeout _ _ => unfold nbr_start_itimeout
  | |- wp nbr_stop_itimeout _ _ => unfold nbr_stop_itimeout
  | |- wp session_close _ _ => unfold session_close
  end.

#[global] Arguments nbr_fsm_n : simpl never.

(** Evaluate the table on a known state and event. *)
Ltac eval_lookup :=
  match goal with
  | |- context [fsm_lookup nbr_fsm_tbl ?s ?ev] =>
      let r := eval vm_compute in (fsm_lookup nbr_fsm_tbl s ev) in
      change (fsm_lookup nbr_fsm_tbl s ev) with r
  end; cbn -[nbr_fsm_n].

Section Fsm.
Lemma nbr_fsm_n_S d ev : nbr_fsm_n (S d) ev = nbr_fsm_body (nbr_fsm_n d) ev.
Proof. done. Qed.

(** What an event of the state machine does to the neighbour, given what its
    nested events may do. *)
Definition fsm_post (e : ldpe) (st : Z) (e' : ldpe) : Prop :=
  nbr_inv (e_nbr e') /\ n_state (e_nbr e') = st /\ e_msgcnt e <= e_msgcnt e' <= e_msgcnt e + 2.

Lemma inv_cases k n : nbr_inv_k k n ->
  n_state n = NBR_STA_PRESENT \/ n_state n = NBR_STA_INITIAL \/ n_state n = NBR_STA_OPENREC \/
  n_state n = NBR_STA_OPENSENT \/ n_state n = NBR_STA_OPER.
Proof. intros [H _ _ _ _ _ _]. set_solver. Qed.

(** The events that trigger nothing further. *)
Lemma wp_fsm_leaf k d ev e :
  nbr_inv_k k (e_nbr e) -> ev = NBR_EVT_PDU_SENT \/ ev = NBR_EVT_PDU_RCVD ->
  wp (nbr_fsm_n (S d) ev) (fun e' => nbr_inv_k k (e_nbr e') /\
    n_state (e_nbr e') = n_state (e_nbr e) /\ e_msgcnt e' = e_msgcnt e /\
    e_pids e' = e_pids e /\ e_lde e' = e_lde e /\
    n_peerid (e_nbr e') = n_peerid (e_nbr e)) e.
Proof.
  intros Hi Hev. pose proof (inv_cases _ _ Hi) as Hc. destruct Hi.
  rewrite nbr_fsm_n_S. unfold nbr_fsm_body. apply wp_nbr.
  destruct Hc as [E|[E|[E|[E|E]]]]; destruct Hev as [-> | ->]; rewrite E in *; eval_lookup;
    repeat wp_step; cbn in *; split_and!; try done; constructor; cbn; rewrite ?E; cbn;
    try done; try set_solver; try intuition congruence.
Qed.

Ltac finish_inv :=
  unfold fsm_post in *; cbn in *; split_and!; try lia; try done;
  first [ assumption
        | constructor; cbn; try done; try set_solver; try tauto; try intuition congruence ].

Ltac rew_nbr := repeat match goal with H : e_nbr ?x = _ |- context [e_nbr ?x] => rewrite H end.

Ltac use_sends L :=
  apply wp_sends; [apply L; rew_nbr; cbn; (done || lia || tauto || congruence) |];
  let e' := fresh "e" in let S := fresh "S" in
  intros e' S; destruct S as [?Hn ?Hcf ?Hcnt ?Hpc ?Hpids ?Hlde ?Hw]; cbn in *.

Lemma wp_close_event k e :
  nbr_inv_k k (e_nbr e) ->
  wp (nbr_fsm NBR_EVT_CLOSE_SESSION) (fsm_post e NBR_STA_PRESENT) e.
Proof.
  intros Hi. pose proof (inv_cases _ _ Hi) as Hs. destruct Hi.
  unfold nbr_fsm. rewrite nbr_fsm_n_S. unfold nbr_fsm_body. apply wp_nbr.
  destruct Hs as [E|[E|[E|[E|E]]]]; rewrite E in *; eval_lookup; repeat wp_step; cbn in *;
    try done; finish_inv.
Qed.

Lemma wp_init_rcvd e :
  nbr_inv (e_nbr e) -> cnt_ok e ->
  wp (nbr_fsm NBR_EVT_INIT_RCVD) (fun e' =>
    fsm_post e (if (n_state (e_nbr e) =? NBR_STA_INITIAL) || (n_state (e_nbr e) =? NBR_STA_OPENSENT)
                then NBR_STA_OPENREC else n_state (e_nbr e)) e' /\ e_pids e' = e_pids e) e.
Proof.
  intros Hi Hc. pose proof (inv_cases _ _ Hi) as Hs. pose proof Hi as Hi'. destruct Hi.
  unfold nbr_fsm. rewrite nbr_fsm_n_S. unfold nbr_fsm_body. apply wp_nbr. unfold cnt_ok in Hc.
  destruct Hs as [E|[E|[E|[E|E]]]]; rewrite E in *; eval_lookup; repeat wp_step; cbn in *;
    try (split; [finish_inv|done]).
  - use_sends send_init_ok. use_sends send_keepalive_ok.
    split; [unfold fsm_post; rew_nbr; finish_inv|congruence].
  - use_sends send_keepalive_ok. split; [unfold fsm_post; rew_nbr; finish_inv|congruence].
Qed.

Lemma wp_address d af oa w (Q : ldpe -> Prop) e :
  nbr_inv (e_nbr e) -> 0 <= e_msgcnt e < 2 ^ 31 - 1 -> n_tcp (e_nbr e) = true ->
  af = AF_INET \/ af = AF_INET6 ->
  (forall e', nbr_inv (e_nbr e') -> n_state (e_nbr e') = n_state (e_nbr e) ->
     e_msgcnt e' = e_msgcnt e + 1 -> e_pids e' = e_pids e -> e_lde e' = e_lde e ->
     n_peerid (e_nbr e') = n_peerid (e_nbr e) -> Q e') ->
  wp (send_address (nbr_fsm_n (S d)) af oa w) Q e.
Proof.
  intros Hi Hc Ht Ha HQ.
  destruct (send_address_ok (nbr_fsm_n (S d)) af oa w e Ht Hc Ha) as (e1 & [Hn _ Hcnt _ Hp Hlde _] & [E|E]);
    unfold wp; rewrite E.
  - apply HQ; congruence.
  - pose proof (wp_fsm_leaf true d NBR_EVT_PDU_SENT e1) as L. unfold wp in L.
    rewrite Hn in L. specialize (L Hi (or_introl eq_refl)).
    destruct (nbr_fsm_n _ _ e1) as [[[] e2]| | |]; try done.
    destruct L as (L1 & L2 & L3 & L4 & L5 & L6). apply HQ; [done|congruence..].
Qed.

Lemma wp_init_sent d e :
  n_state (e_nbr e) = NBR_STA_INITIAL ->
  wp (nbr_fsm_n (S d) NBR_EVT_INIT_SENT) (fun e' =>
    e_nbr e' = set_n_timers (set_n_state (e_nbr e) NBR_STA_OPENSENT)
      (Timers (t_keepalive_timer (n_timers (e_nbr e))) (t_keepalive_timeout (n_timers (e_nbr e)))
         (Some INIT_FSM_TIMEOUT) (t_initdelay_timer (n_timers (e_nbr e)))) /\
    e_msgcnt e' = e_msgcnt e) e.
Proof.
  intros E. rewrite nbr_fsm_n_S. unfold nbr_fsm_body. apply wp_nbr. rewrite E.
  eval_lookup. repeat wp_step. done.
Qed.

Lemma wp_mono m (P Q : ldpe -> Prop) e : wp m P e -> (forall e', P e' -> Q e') -> wp m Q e.
Proof. unfold wp. destruct (m e) as [[[] e']| | |]; try done. auto. Qed.

(** The event that makes the session operational, in full. *)
Definition up_post (e e' : ldpe) : Prop :=
  let n := e_nbr e in let pid := n_peerid (e_nbr e') in
  (forall p, p ∈ e_pids e -> p <> n_peerid n -> p <> pid) /\ pid ∈ e_pids e' /\
  e_lde e' = e_lde e ++ [ImsgNeighborUp pid (n_id n) (n_v4_enabled n) (n_v6_enabled n);
                         ImsgLabelMappingFull pid].

Lemma wp_send_address_if (b : bool) af (Q : ldpe -> Prop) x :
  af = AF_INET \/ af = AF_INET6 -> nbr_inv (e_nbr x) -> 0 <= e_msgcnt x < 2 ^ 31 - 1 ->
  n_state (e_nbr x) = NBR_STA_OPER ->
  (forall y, nbr_inv (e_nbr y) -> n_state (e_nbr y) = NBR_STA_OPER ->
    e_msgcnt x <= e_msgcnt y <= e_msgcnt x + 1 -> e_pids y = e_pids x -> e_lde y = e_lde x ->
    n_peerid (e_nbr y) = n_peerid (e_nbr x) -> Q y) ->
  wp (if b then send_address (nbr_fsm_n 1) af None false else ret tt) Q x.
Proof.
  intros Ha Ix Cx Ex HQ. destruct b; [|apply wp_ret, HQ; auto; lia].
  apply wp_address; auto.
  - rewrite (si_tcp _ _ Ix), Ex. done.
  - intros y Iy Ey Cy ? ? ?. apply HQ; auto; [congruence|lia].
Qed.

Lemma wp_session_up e :
  nbr_inv (e_nbr e) -> cnt_ok e -> pids_ok e -> n_state (e_nbr e) = NBR_STA_OPENREC ->
  wp (nbr_fsm NBR_EVT_KEEPALIVE_RCVD)
    (fun e' => fsm_post e NBR_STA_OPER e' /\ up_post e e') e.
Proof.
  intros Hi Hc Hp E. destruct Hi.
  unfold nbr_fsm. rewrite nbr_fsm_n_S. unfold nbr_fsm_body. apply wp_nbr. unfold cnt_ok in Hc.
  rewrite E in *. eval_lookup. repeat wp_step. cbn in *.
  unfold nbr_act_session_operational. repeat wp_step.
  apply wp_peerid; [done|]. intros pid pids' Hfresh Hpids. repeat wp_step. cbn.
  match goal with |- wp _ _ ?x => set (e1 := x) end.
  assert (nbr_inv (e_nbr e1)) as I1.
  { constructor; cbn; try done; try set_solver; try intuition congruence. }
  apply wp_send_address_if; [tauto|done|cbn; lia|done|].
  intros e2 I2 E2 C2 P2 L2 N2. cbn in C2.
  apply wp_seq, wp_send_address_if; [tauto|done|lia|done|]. intros e3 I3 E3 C3 P3 L3 N3.
  unfold nbr_send_labelmappings. repeat wp_step. unfold fsm_post, up_post. cbn.
  rewrite N3, N2, P3, P2, L3, L2. cbn. rewrite <- app_assoc. split_and!; auto; try lia.
  - intros p Hin Hne ->. apply Hfresh, Hpids. auto.
  - left.
Qed.

Lemma wp_keepalive_rcvd e :
  nbr_inv (e_nbr e) -> cnt_ok e -> pids_ok e ->
  wp (nbr_fsm NBR_EVT_KEEPALIVE_RCVD)
    (fsm_post e (if n_state (e_nbr e) =? NBR_STA_OPENREC then NBR_STA_OPER
                 else n_state (e_nbr e))) e.
Proof.
  intros Hi Hc Hp. destruct (_ =? NBR_STA_OPENREC) eqn:Eo; zbool.
  { eapply wp_mono; [by apply wp_session_up|]. by intros e' [? _]. }
  pose proof (inv_cases _ _ Hi) as Hs. unfold nbr_fsm. rewrite nbr_fsm_n_S.
  unfold nbr_fsm_body. apply wp_nbr.
  destruct Hs as [E|[E|[E|[E|E]]]]; try done; rewrite E in *; eval_lookup; repeat wp_step;
    unfold fsm_post; split_and!; try done; lia.
Qed.

Lemma wp_shutdown k st i t e :
  nbr_inv_k k (e_nbr e) -> 0 <= e_msgcnt e < 2 ^ 31 - 5 ->
  wp (session_shutdown st i t) (fun e' => nbr_inv (e_nbr e') /\
    n_state (e_nbr e') = NBR_STA_PRESENT /\ e_msgcnt e <= e_msgcnt e' <= e_msgcnt e + 3) e.
Proof.
  intros Hi Hc. pose proof (inv_cases _ _ Hi) as Hs. pose proof Hi as Hi'. destruct Hi.
  unfold session_shutdown. apply wp_nbr.
  assert (n_state (e_nbr e) <> NBR_STA_PRESENT ->
    wp (send_notification_nbr st i (u16 t) ;;; nbr_fsm NBR_EVT_CLOSE_SESSION) (fun e' =>
      nbr_inv (e_nbr e') /\ n_state (e_nbr e') = NBR_STA_PRESENT /\
      e_msgcnt e <= e_msgcnt e' <= e_msgcnt e + 3) e) as Hgo.
  { intros Hne. apply wp_seq. unfold send_notification_nbr. apply wp_seq.
    apply wp_sends.
    { apply send_notification_ok; [|lia]. rewrite si_tcp0.
      by apply Z.eqb_neq in Hne as ->. }
    intros e1 [Hn _ Hcnt _ _ _ _].
    eapply wp_mono; [apply (wp_fsm_leaf k); [by rewrite Hn|tauto]|].
    intros e2 (I2 & E2 & C2 & _).
    eapply wp_mono; [by apply (wp_close_event k)|].
    intros e3 (I3 & E3 & C3). split_and!; try done; lia. }
  destruct Hs as [E|[E|[E|[E|E]]]]; rewrite E in *; cbn; try (by apply Hgo).
  repeat wp_step. cbn. split_and!; try done; try lia.
  constructor; cbn; rewrite ?E; try done.
Qed.
End Fsm.

(** Every operation meets its specification (one case per operation). *)
Lemma run_op_correct op e :
  nbr_inv (e_nbr e) -> cnt_ok e -> pids_ok e -> op_enabled op e ->
  exists e', run_op op e = Ok (tt, e') /\ nbr_inv (e_nbr e') /\
    session_of (n_state (e_nbr e')) = spec_next (session_of (n_state (e_nbr e))) op /\
    e_msgcnt e <= e_msgcnt e' <= e_msgcnt e + 3.
Proof.
  intros Hinv Hcnt Hpids Hen. pose proof (inv_cases _ _ Hinv) as Hs. apply wp_elim.
  destruct op; simpl in *.
  - (* accept *)
    unfold session_accept_nbr. repeat wp_step. unfold nbr_fsm. rewrite nbr_fsm_n_S.
    unfold nbr_fsm_body. apply wp_nbr. cbn [e_nbr upd_nbr n_state set_n_tcp]. rewrite Hen.
    eval_lookup. repeat wp_step. cbn. split_and!; try lia; [|done].
    destruct Hinv. rewrite Hen in *. constructor; cbn; try done; try set_solver; intuition congruence.
  - (* connected *)
    unfold nbr_connect_cb. repeat wp_step. cbn [negb Z.eqb]. unfold nbr_fsm.
    rewrite nbr_fsm_n_S. unfold nbr_fsm_body. apply wp_nbr.
    cbn [e_nbr upd_nbr n_state set_n_ev_connect]. rewrite Hen.
    eval_lookup. repeat wp_step. unfold cnt_ok in Hcnt.
    apply wp_sends; [apply send_init_ok; cbn; [done|lia|by destruct Hinv]|].
    intros e1 [Hn _ Hc1 _ _ _ _].
    eapply wp_mono; [apply wp_init_sent; by rewrite Hn|]. cbn in *.
    intros e2 [E2 C2]. rewrite E2, Hn. cbn. split_and!; try lia; [|try rewrite Hen; done].
    destruct Hinv. rewrite Hen in *. constructor; cbn; try done; try set_solver; intuition congruence.
  - eapply wp_mono; [by apply wp_init_rcvd|]. intros e1 [(I1 & E1 & C1) _]. split_and!; try done; try lia.
    rewrite E1. destruct Hs as [E|[E|[E|[E|E]]]]; by rewrite E.
  - eapply wp_mono; [by apply wp_keepalive_rcvd|]. intros e1 (I1 & E1 & C1). split_and!; try done; try lia.
    rewrite E1. destruct Hs as [E|[E|[E|[E|E]]]]; by rewrite E.
  - eapply wp_mono; [apply (wp_fsm_leaf true); auto|]. intros e1 (I1 & E1 & C1 & _).
    split_and!; try done; try lia. by rewrite E1.
  - eapply wp_mono; [apply (wp_fsm_leaf true); auto|]. intros e1 (I1 & E1 & C1 & _).
    split_and!; try done; try lia. by rewrite E1.
  - eapply wp_mono; [by apply (wp_close_event true)|]. intros e1 (I1 & E1 & C1). split_and!; try done; try lia.
    by rewrite E1.
  - eapply wp_mono; [by apply (wp_shutdown true)|]. intros e1 (I1 & E1 & C1). split_and!; try done; try lia.
    by rewrite E1.
  - (* keepalive timer *)
    destruct Hinv. apply si_ktimer0 in Hen as E. unfold nbr_ktimer. repeat wp_step. cbn.
    rewrite E in *. unfold cnt_ok in Hcnt.
    apply wp_sends; [apply send_keepalive_ok; cbn; [done|lia]|].
    intros e1 [Hn _ Hc1 _ _ _ _]. unfold nbr_start_ktimer. repeat wp_step. cbn.
    rewrite Hn. cbn in *. rewrite E. split_and!; try lia; [|done].
    constructor; cbn; rewrite ?E; try done; try set_solver; try intuition congruence.
  - (* keepalive timeout *)
    unfold nbr_ktimeout. repeat wp_step.
    eapply wp_mono; [apply (wp_shutdown false)|].
    { destruct Hinv; constructor; cbn; try done. }
    { cbn. unfold cnt_ok in Hcnt. lia. }
    cbn. intros e1 (I1 & E1 & C1). split_and!; try done; try lia. by rewrite E1.
  - eapply wp_mono; [by apply (wp_close_event true)|]. intros e1 (I1 & E1 & C1). split_and!; try done; try lia.
    by rewrite E1.
Qed.

(** ** Properties *)

(** C3: the session engine implements the session state machine of RFC 5036:
    from any neighbour that satisfies the invariant, every enabled operation
    (connection events, messages, timers, shutdown) terminates without
    undefined behaviour (in particular without using a null [nbr->tcp]),
    re-establishes the invariant, and takes the abstract session to the state
    the specification prescribes.  On events that are out of order the
    specification stays where it is, see [spec_next]. *)
Theorem session_refines_rfc5036 (op : sess_op) (e : ldpe)
  (Hinv : nbr_inv (e_nbr e)) (Hcnt : cnt_ok e) (Hpids : pids_ok e) (Hen : op_enabled op e) :
  exists e', run_op op e = Ok (tt, e') /\ nbr_inv (e_nbr e') /\
    session_of (n_state (e_nbr e')) = spec_next (session_of (n_state (e_nbr e))) op /\
    e_msgcnt e <= e_msgcnt e' <= e_msgcnt e + 3.
Proof. by apply run_op_correct. Qed.

(** A neighbour as [nbr_new] creates it, and a small configuration. *)
Definition nbr_fresh (id af : Z) : nbr :=
  Nbr 0 af true false id zero_addr zero_addr NBR_STA_PRESENT 0 0 0 false false
    (Timers None None None None).
Definition ldpe_example : ldpe :=
  Ldpe (nbr_fresh 0x04040404 AF_INET) (LdpeConf 0x06060606 0 180 180 [] []) 0 1 [] [] [].

Lemma nbr_fresh_inv id af : af = AF_INET \/ af = AF_INET6 -> nbr_inv (nbr_fresh id af).
Proof. intros H. constructor; cbn; try done; try set_solver; intuition congruence. Qed.

Lemma session_refines_rfc5036_witness :
  exists e', run_op OpConnected ldpe_example = Ok (tt, e') /\ nbr_inv (e_nbr e') /\
    session_of (n_state (e_nbr e')) = OpenSent /\ 0 <= e_msgcnt e' <= 3.
Proof.
  apply (session_refines_rfc5036 OpConnected ldpe_example);
    [apply nbr_fresh_inv; left; reflexivity|vm_compute; intuition congruence
    |vm_compute; reflexivity|reflexivity].
Defined.

(** ** Writing to a session (packet.c)

    [session_write] runs when the socket of a connection that belongs to a
    neighbour can be written; [written]: [msgbuf_write] returned more than 0,
    [again]: [errno] is [EAGAIN].  What is queued is on the wire of the model
    already.  The event is added again through the [tcp_conn], which
    [session_close] frees. *)
Definition evbuf_event_add : ST ldpe unit :=
  do e <- get; if n_tcp (e_nbr e) then ret tt else undef "tcp_conn".
Definition session_write (written again : bool) : ST ldpe unit :=
  (if negb written && negb again then nbr_fsm NBR_EVT_CLOSE_SESSION else ret tt) ;;;
  evbuf_event_add.

(** An error when writing to an established session closes it and then uses the
    freed connection; otherwise nothing changes. *)
Theorem write_error_use_after_free (written again : bool) (e : ldpe)
  (Hinv : nbr_inv (e_nbr e)) (Hcnt : cnt_ok e) (Hpids : pids_ok e) (Hst : n_state (e_nbr e) <> NBR_STA_PRESENT) :
  session_write written again e = if negb written && negb again then Undef "tcp_conn" else Ok (tt, e).
Proof.
  unfold session_write. destruct (negb written && negb again).
  - destruct (run_op_correct OpClose e Hinv Hcnt Hpids I) as (e' & E & Hi & Hs & _).
    rewrite (bind_ok _ _ _ _ _ E). unfold evbuf_event_add. rewrite (bind_ok get _ e' e' e') by done.
    assert (n_state (e_nbr e') = NBR_STA_PRESENT) as Hp.
    { pose proof (si_state _ _ Hi) as Hin. cbn in Hs. revert Hs. unfold session_of. repeat (apply elem_of_cons in Hin as [-> | Hin]; [done|]).
      by apply elem_of_nil in Hin. }
    by rewrite (si_tcp _ _ Hi), Hp.
  - rewrite (bind_ok _ _ e tt e) by done. unfold evbuf_event_add. rewrite (bind_ok get _ e e e) by done.
    rewrite (si_tcp _ _ Hinv). apply Z.eqb_neq in Hst. by rewrite Hst.
Qed.

(** ** Sequences of session events *)
Inductive sess_reach (e : ldpe) : nat -> ldpe -> Prop :=
| reach_refl : sess_reach e 0 e
| reach_step k e1 e2 op :
    sess_reach e k e1 -> op_enabled op e1 -> pids_ok e1 -> run_op op e1 = Ok (tt, e2) ->
    sess_reach e (S k) e2.

(** Along every sequence of enabled session events from a neighbour that
    satisfies the invariant (for instance a new one) the invariant holds, and
    no event can fail: as long as the message counter has room, every further
    enabled event runs to completion. *)
Theorem session_never_stuck (e e' : ldpe) (k : nat) (op : sess_op)
  (Hinv : nbr_inv (e_nbr e)) (Hcnt : 0 <= e_msgcnt e /\ e_msgcnt e + 3 * Z.of_nat k < 2 ^ 31 - 5)
  (Hreach : sess_reach e k e') (Hpids : pids_ok e') (Hen : op_enabled op e') :
  nbr_inv (e_nbr e') /\ exists e'', run_op op e' = Ok (tt, e'').
Proof.
  assert (nbr_inv (e_nbr e') /\ e_msgcnt e <= e_msgcnt e' <= e_msgcnt e + 3 * Z.of_nat k) as [Hi Hc].
  { clear Hpids Hen. induction Hreach as [|k e1 e2 op' _ IH Hen Hp Hrun]; [split; [done|lia]|].
    destruct IH as [I1 C1]; [lia|].
    destruct (run_op_correct op' e1) as (x & Hx & Ix & _ & Cx); try done.
    { unfold cnt_ok. lia. }
    rewrite Hrun in Hx. simplify_eq. split; [done|lia]. }
  split; [done|].
  destruct (run_op_correct op e') as (x & Hx & _); try done; [unfold cnt_ok; lia|eauto].
Qed.

Lemma session_never_stuck_witness :
  exists e', sess_reach ldpe_example 1 e' /\
    nbr_inv (e_nbr e') /\ exists e'', run_op OpInitRcvd e' = Ok (tt, e'').
Proof.
  destruct (run_op OpConnected ldpe_example) as [[[] e1]| | |] eqn:E;
    [|exfalso; revert E; vm_compute; discriminate..].
  exists e1. assert (sess_reach ldpe_example 1 e1) as R.
  { eapply (reach_step _ _ _ _ OpConnected); [apply reach_refl|exact eq_refl|vm_compute; reflexivity|exact E]. }
  split; [exact R|].
  apply (session_never_stuck ldpe_example e1 1 OpInitRcvd);
    [apply nbr_fresh_inv; left; reflexivity|vm_compute; intuition congruence|exact R| |exact I].
  vm_compute in E. injection E as <-. reflexivity.
Defined.

(** When a session becomes operational the neighbour gets an identifier
    that no other neighbour uses (its own old one is released), the lde is told
    about the new neighbour under it, with its enabled address families, and is
    asked for the full set of label mappings. *)
Theorem session_up_fresh_peerid (e e' : ldpe)
  (Hinv : nbr_inv (e_nbr e)) (Hst : n_state (e_nbr e) = NBR_STA_OPENREC)
  (Hcnt : cnt_ok e) (Hpids : pids_ok e)
  (Hrun : nbr_fsm NBR_EVT_KEEPALIVE_RCVD e = Ok (tt, e')) :
  let n := e_nbr e in let pid := n_peerid (e_nbr e') in
  (forall p, p ∈ e_pids e -> p <> n_peerid n -> p <> pid) /\ pid ∈ e_pids e' /\
  e_lde e' = e_lde e ++ [ImsgNeighborUp pid (n_id n) (n_v4_enabled n) (n_v6_enabled n);
                         ImsgLabelMappingFull pid].
Proof.
  destruct (wp_elim _ _ _ (wp_session_up e Hinv Hcnt Hpids Hst)) as (x & Hx & _ & Hup).
  rewrite Hrun in Hx. simplify_eq. exact Hup.
Qed.

Definition ldpe_openrec : ldpe :=
  Ldpe (Nbr 2 AF_INET true false 0x04040404 zero_addr zero_addr NBR_STA_OPENREC 0 180 4096 true
          false (Timers None None (Some INIT_FSM_TIMEOUT) None))
    (LdpeConf 0x06060606 0 180 180 [] []) 7 2 [2; 3] [] [].

Lemma session_up_fresh_peerid_witness :
  exists e', nbr_fsm NBR_EVT_KEEPALIVE_RCVD ldpe_openrec = Ok (tt, e') /\
    n_peerid (e_nbr e') = 4 /\
    e_lde e' = [ImsgNeighborUp 4 0x04040404 true false; ImsgLabelMappingFull 4].
Proof.
  destruct (nbr_fsm NBR_EVT_KEEPALIVE_RCVD ldpe_openrec) as [[[] e']| | |] eqn:E;
    [|exfalso; revert E; vm_compute; discriminate..].
  exists e'. split; [reflexivity|].
  assert (n_peerid (e_nbr e') = 4) as Hpid.
  { clear -E. vm_compute in E. injection E as <-. reflexivity. }
  split; [exact Hpid|].
  destruct (session_up_fresh_peerid ldpe_openrec e') as (_ & _ & H);
    [constructor; cbn; try done; try set_solver; intuition congruence|reflexivity
    |vm_compute; intuition congruence|vm_compute; reflexivity|exact E|].
  rewrite Hpid in H. exact H.
Defined.
