(* ===== verification/LabelMsg.v ===== *)
(** * Label messages (ldpd/labelmapping.c): decoding, encoding and transport

    A receive buffer is the list of bytes from the current pointer on; a read
    past its end is undefined behaviour.  The parsers run in the session state
    of [Session], so a protocol error really shuts the session down.  [None]
    stands for the return value -1 of a decoder. *)
From stdpp Require Import prelude strings list.
From Stdlib Require Import ZArith Lia.
From S2P Require Import Prelude Util Wire Ipc Session.

(** ** Reading *)
Definition rd (off n : nat) (buf : list Z) : ST ldpe (list Z) :=
  if (off + n <=? length buf)%nat then ret (slice off n buf)
  else undef "read past the receive buffer".
Definition rd8 (off : nat) (buf : list Z) : ST ldpe Z :=
  do bs <- rd off 1 buf; ret (le_val bs).
Definition rd16 (off : nat) (buf : list Z) : ST ldpe Z :=
  do bs <- rd off 2 buf; ret (le_val bs).
Definition rd32 (off : nat) (buf : list Z) : ST ldpe Z :=
  do bs <- rd off 4 buf; ret (le_val bs).

(** The two ways the decoders fail: shut the session down, or notify only. *)
Definition fail_shutdown {A} (status msg_id msg_type : Z) : ST ldpe (option A) :=
  session_shutdown status msg_id msg_type ;;; ret None.
Definition fail_notify {A} (status msg_id msg_type : Z) : ST ldpe (option A) :=
  send_notification_nbr status msg_id msg_type ;;; ret None.

(** Overwrite the first bytes of a 16-byte union that was cleared before. *)
Definition fill_addr (bs : list Z) : ldpd_addr := bs ++ drop (length bs) zero_addr.

(** ** FEC elements *)

(** The loop over the optional interface parameter sub-TLVs; [pw_len] bytes
    are left. *)
Fixpoint subtlv_loop (fuel : nat) (msg_id msg_type : Z) (buf : list Z) (off pw_len : Z)
    (map : ldp_map) : ST ldpe (option (Z * ldp_map)) :=
  match fuel with
  | O => nofuel
  | S f =>
      if negb (pw_len >? 0) then ret (Some (off, map))
      else if pw_len <? SUBTLV_HDR_SIZE then fail_shutdown S_BAD_TLV_LEN msg_id msg_type
      else
        do stype <- rd8 (Z.to_nat off) buf;
        do slen <- rd8 (Z.to_nat off + 1) buf;
        if slen >? pw_len then fail_shutdown S_BAD_TLV_LEN msg_id msg_type
        else if stype =? SUBTLV_IFMTU then
          if negb (slen =? FEC_SUBTLV_IFMTU_SIZE) then
            fail_shutdown S_BAD_TLV_LEN msg_id msg_type
          else
            do ifmtu <- rd16 (Z.to_nat off + Z.to_nat SUBTLV_HDR_SIZE) buf;
            let pe := m_pwid map in
            let map' := set_m_flags
              (set_m_pwid map (PwidElm (pw_type pe) (pw_pwid pe) (pw_group_id pe) (ntohs ifmtu)))
              (Z.lor (m_flags map) F_MAP_PW_IFMTU) in
            subtlv_loop f msg_id msg_type buf (u16 (off + slen)) (u8 (pw_len - slen)) map'
        else subtlv_loop f msg_id msg_type buf (u16 (off + slen)) (u8 (pw_len - slen)) map
  end.

(** [pw_len] is a [uint8_t], so 256 iterations are enough unless a sub-TLV has
    length 0. *)
Definition subtlv_fuel : nat := 257.
#[global] Arguments subtlv_loop : simpl never.

Definition tlv_decode_fec_elm (msg_id msg_type : Z) (buf : list Z) (len : Z) (map0 : ldp_map)
    : ST ldpe (option (Z * ldp_map)) :=
  do type <- rd8 0 buf;
  let map := set_m_type map0 type in
  if type =? MAP_TYPE_WILDCARD then
    if len =? FEC_ELM_WCARD_LEN then ret (Some (1, map))
    else fail_shutdown S_BAD_TLV_VAL msg_id msg_type
  else if type =? MAP_TYPE_PREFIX then
    if len <? FEC_ELM_PREFIX_MIN_LEN then fail_shutdown S_BAD_TLV_LEN msg_id msg_type
    else
      do af_raw <- rd16 1 buf;
      let af := ntohs af_raw in
      if negb (af =? AF_IPV4) && negb (af =? AF_IPV6) then
        fail_notify S_UNSUP_ADDR msg_id msg_type
      else
        do prefixlen <- rd8 3 buf;
        if len <? 4 + PREFIX_SIZE prefixlen then fail_shutdown S_BAD_TLV_LEN msg_id msg_type
        else
          do bs <- rd 4 (Z.to_nat (PREFIX_SIZE prefixlen)) buf;
          if PREFIX_SIZE prefixlen >? 16 then undef "write past map->fec.prefix.prefix"
          else ret (Some (4 + PREFIX_SIZE prefixlen,
                          set_m_prefix map (PrefixElm af prefixlen (fill_addr bs))))
  else if type =? MAP_TYPE_PWID then
    if len <? FEC_PWID_ELM_MIN_LEN then fail_shutdown S_BAD_TLV_LEN msg_id msg_type
    else
      do ty_raw <- rd16 1 buf;
      let cword := has_flag (ntohs ty_raw) CONTROL_WORD_FLAG in
      let ty := if cword then Z.ldiff (ntohs ty_raw) CONTROL_WORD_FLAG else ntohs ty_raw in
      let flags := if cword then Z.lor (m_flags map) F_MAP_PW_CWORD else m_flags map in
      do pw_len <- rd8 3 buf;
      if negb (len =? FEC_PWID_ELM_MIN_LEN + pw_len) then
        fail_shutdown S_BAD_TLV_LEN msg_id msg_type
      else
        do gid <- rd32 4 buf;
        let pe := m_pwid map in
        let map1 := set_m_flags
          (set_m_pwid map (PwidElm ty (pw_pwid pe) (ntohl gid) (pw_ifmtu pe))) flags in
        if pw_len =? 0 then ret (Some (8, map1))
        else if pw_len <? 4 then fail_shutdown S_BAD_TLV_LEN msg_id msg_type
        else
          do pwid <- rd32 8 buf;
          let map2 := set_m_flags
            (set_m_pwid map1 (PwidElm ty (ntohl pwid) (ntohl gid) (pw_ifmtu pe)))
            (Z.lor flags F_MAP_PW_ID) in
          subtlv_loop subtlv_fuel msg_id msg_type buf 12 (u8 (pw_len - 4)) map2
  else fail_notify S_UNKNOWN_FEC msg_id msg_type.

(** ** The label TLV *)
Definition tlv_decode_label (msg_id msg_type : Z) (buf : list Z) (len : Z)
    : ST ldpe (option (Z * Z)) :=
  if len <? LABEL_TLV_SIZE then fail_shutdown S_BAD_TLV_LEN msg_id msg_type
  else
    do ty <- rd16 0 buf;
    do ln <- rd16 2 buf;
    do lb <- rd32 4 buf;
    if negb (has_flag (ntohs ty) TLV_TYPE_GENERICLABEL) then
      fail_notify S_MISS_MSG msg_id msg_type
    else if htons ty =? TLV_TYPE_GENERICLABEL then
      if negb (ntohs ln =? LABEL_TLV_SIZE - TLV_HDR_SIZE) then
        fail_shutdown S_BAD_TLV_LEN msg_id msg_type
      else
        let label := ntohl lb in
        if (label >? MPLS_LABEL_MAX) ||
           ((label <=? MPLS_LABEL_RESERVED_MAX) && negb (label =? MPLS_LABEL_IPV4NULL)
            && negb (label =? MPLS_LABEL_IPV6NULL) && negb (label =? MPLS_LABEL_IMPLNULL))
        then fail_shutdown S_BAD_TLV_VAL msg_id msg_type
        else ret (Some (LABEL_TLV_SIZE, label))
    else fail_shutdown S_BAD_TLV_VAL msg_id msg_type.

(** ** Receiving a label message *)
Definition is_mapreqabort (type : Z) : bool :=
  (type =? MSG_TYPE_LABELMAPPING) || (type =? MSG_TYPE_LABELREQUEST)
  || (type =? MSG_TYPE_LABELABORTREQ).

(** The [do ... while (feclen > 0)] over the FEC elements: the list of maps,
    the rest of the buffer and of its length. *)
Fixpoint fec_elm_loop (fuel : nat) (type msg_id msg_type : Z) (buf : list Z) (len feclen : Z)
    (mh : list ldp_map) : ST ldpe (option (list ldp_map * list Z * Z)) :=
  match fuel with
  | O => nofuel
  | S f =>
      do r <- tlv_decode_fec_elm msg_id msg_type buf (u16 feclen) (set_m_msg_id map_zero msg_id);
      match r with
      | None => ret None
      | Some (tlen, map) =>
          if (m_type map =? MAP_TYPE_PWID) && negb (has_flag (m_flags map) F_MAP_PW_ID)
             && negb (type =? MSG_TYPE_LABELWITHDRAW) && negb (type =? MSG_TYPE_LABELRELEASE)
          then fail_notify S_MISS_MSG msg_id msg_type
          else if (m_type map =? MAP_TYPE_WILDCARD) && is_mapreqabort type then
            fail_shutdown S_UNKNOWN_FEC msg_id msg_type
          else if negb (type =? MSG_TYPE_LABELMAPPING) && negb (tlen =? feclen) then
            fail_shutdown S_BAD_TLV_VAL msg_id msg_type
          else
            let mh' := mh ++ [map] in
            let buf' := drop (Z.to_nat tlen) buf in
            let len' := u16 (len - tlen) in
            let feclen' := feclen - tlen in
            if feclen' >? 0 then fec_elm_loop f type msg_id msg_type buf' len' feclen' mh'
            else ret (Some (mh', buf', len'))
      end
  end.

(** What the optional parameters may set. *)
Record opts := Opts { o_flags : Z; o_label : Z; o_reqid : Z; o_pw_status : Z }.

(** The [switch] on the type of one optional TLV; [body] starts behind its
    header.  [None] is [goto err]. *)
Definition opt_param (type msg_id msg_type ty tlv_len : Z) (body : list Z) (o : opts)
    : ST ldpe (option opts) :=
  if ty =? TLV_TYPE_LABELREQUEST then
    if (type =? MSG_TYPE_LABELMAPPING) || (type =? MSG_TYPE_LABELREQUEST) then
      if negb (tlv_len =? REQID_TLV_LEN) then fail_shutdown S_BAD_TLV_LEN msg_id msg_type
      else
        do reqbuf <- rd32 0 body;
        ret (Some (Opts (Z.lor (o_flags o) F_MAP_REQ_ID) (o_label o) (ntohl reqbuf)
                     (o_pw_status o)))
    else ret (Some o)
  else if (ty =? TLV_TYPE_HOPCOUNT) || (ty =? TLV_TYPE_PATHVECTOR) then ret (Some o)
  else if ty =? TLV_TYPE_GENERICLABEL then
    if (type =? MSG_TYPE_LABELWITHDRAW) || (type =? MSG_TYPE_LABELRELEASE) then
      if negb (tlv_len =? LABEL_TLV_LEN) then fail_shutdown S_BAD_TLV_LEN msg_id msg_type
      else
        do labelbuf <- rd32 0 body;
        ret (Some (Opts (o_flags o) (ntohl labelbuf) (o_reqid o) (o_pw_status o)))
    else ret (Some o)
  else if (ty =? TLV_TYPE_ATMLABEL) || (ty =? TLV_TYPE_FRLABEL) then
    if (type =? MSG_TYPE_LABELWITHDRAW) || (type =? MSG_TYPE_LABELRELEASE) then
      fail_shutdown S_BAD_TLV_VAL msg_id msg_type
    else ret (Some o)
  else if ty =? TLV_TYPE_STATUS then
    if negb (tlv_len =? STATUS_TLV_LEN) then fail_shutdown S_BAD_TLV_LEN msg_id msg_type
    else ret (Some o)
  else if ty =? TLV_TYPE_PW_STATUS then
    if type =? MSG_TYPE_LABELMAPPING then
      if negb (tlv_len =? PW_STATUS_TLV_LEN) then fail_shutdown S_BAD_TLV_LEN msg_id msg_type
      else
        do statusbuf <- rd32 0 body;
        ret (Some (Opts (Z.lor (o_flags o) F_MAP_PW_STATUS) (o_label o) (o_reqid o)
                     (ntohl statusbuf)))
    else ret (Some o)
  else
    (if negb (has_flag ty UNKNOWN_FLAG)
     then send_notification_nbr S_UNKNOWN_TLV msg_id msg_type else ret tt) ;;;
    ret (Some o).

(** The [while (len > 0)] over the optional TLVs. *)
Fixpoint opt_loop (fuel : nat) (type msg_id msg_type : Z) (buf : list Z) (len : Z) (o : opts)
    : ST ldpe (option opts) :=
  match fuel with
  | O => nofuel
  | S f =>
      if negb (len >? 0) then ret (Some o)
      else if len <? TLV_HDR_SIZE then fail_shutdown S_BAD_TLV_LEN msg_id msg_type
      else
        do ty_raw <- rd16 0 buf;
        do len_raw <- rd16 2 buf;
        let tlv_len := ntohs len_raw in
        if tlv_len + TLV_HDR_SIZE >? len then fail_shutdown S_BAD_TLV_LEN msg_id msg_type
        else
          let body := drop 4 buf in
          do r <- opt_param type msg_id msg_type (ntohs ty_raw) tlv_len body o;
          match r with
          | None => ret None
          | Some o' =>
              opt_loop f type msg_id msg_type (drop (Z.to_nat tlv_len) body)
                (u16 (u16 (len - TLV_HDR_SIZE) - tlv_len)) o'
          end
  end.

Definition label_imsg_of (type : Z) : option label_imsg :=
  if type =? MSG_TYPE_LABELMAPPING then Some IMSG_LABEL_MAPPING
  else if type =? MSG_TYPE_LABELREQUEST then Some IMSG_LABEL_REQUEST
  else if type =? MSG_TYPE_LABELWITHDRAW then Some IMSG_LABEL_WITHDRAW
  else if type =? MSG_TYPE_LABELRELEASE then Some IMSG_LABEL_RELEASE
  else if type =? MSG_TYPE_LABELABORTREQ then Some IMSG_LABEL_ABORT
  else None.

(** The last loop: check each map against the label, complete it and pass it
    to the lde.  The result is the return value of [recv_labelmessage]. *)
Fixpoint notify_lde_loop (type msg_id msg_type : Z) (o : opts) (mh : list ldp_map) : ST ldpe Z :=
  match mh with
  | [] => ret 0
  | m :: mh' =>
      let m := set_m_flags m (Z.lor (m_flags m) (o_flags o)) in
      let bad := session_shutdown S_BAD_TLV_VAL msg_id msg_type ;;; ret (-1) in
      let send (m : ldp_map) :=
        let m := set_m_label m (o_label o) in
        let m := if has_flag (m_flags m) F_MAP_REQ_ID then set_m_requestid m (o_reqid o) else m in
        do n <- get_nbr;
        (match label_imsg_of type with
         | Some t => ldpe_imsg_compose_lde (ImsgLabel (n_peerid n) t m)
         | None => ret tt
         end) ;;;
        notify_lde_loop type msg_id msg_type o mh' in
      let next := notify_lde_loop type msg_id msg_type o mh' in
      do n <- get_nbr;
      if m_type m =? MAP_TYPE_PREFIX then
        if pe_af (m_prefix m) =? AF_IPV4 then
          if o_label o =? MPLS_LABEL_IPV6NULL then bad
          else if negb (n_v4_enabled n) then next else send m
        else if pe_af (m_prefix m) =? AF_IPV6 then
          if o_label o =? MPLS_LABEL_IPV4NULL then bad
          else if negb (n_v6_enabled n) then next else send m
        else fatalx "recv_labelmessage: unknown af"
      else if m_type m =? MAP_TYPE_PWID then
        if o_label o <=? MPLS_LABEL_RESERVED_MAX then bad
        else send (if has_flag (m_flags m) F_MAP_PW_STATUS
                   then set_m_pw_status m (o_pw_status o) else m)
      else send m
  end.

(** Behind the FEC TLV: the mandatory label of a mapping, the optional
    parameters, the notification of the lde. *)
Definition recv_label_params (type msg_id msg_type : Z) (mh : list ldp_map) (buf : list Z)
    (len : Z) : ST ldpe Z :=
  let opt_params (buf : list Z) (len label : Z) :=
    do r <- opt_loop (S (Z.to_nat len)) type msg_id msg_type buf len (Opts 0 label 0 0);
    match r with
    | None => ret (-1)
    | Some o => notify_lde_loop type msg_id msg_type o mh
    end in
  if type =? MSG_TYPE_LABELMAPPING then
    do r <- tlv_decode_label msg_id msg_type buf len;
    match r with
    | None => ret (-1)
    | Some (lbllen, label) => opt_params (drop (Z.to_nat lbllen) buf) (u16 (len - lbllen)) label
    end
  else opt_params buf len NO_LABEL.

(** [len] counts the message from its header on; [buf] holds at least [len]
    bytes. *)
Definition recv_labelmessage (buf0 : list Z) (len0 type : Z) : ST ldpe Z :=
  do msg_type <- rd16 0 buf0;
  do msg_id <- rd32 4 buf0;
  let buf := drop 8 buf0 in
  let len := u16 (len0 - LDP_MSG_SIZE) in
  if len <? TLV_HDR_SIZE then session_shutdown S_BAD_TLV_LEN msg_id msg_type ;;; ret (-1)
  else
    do ft_type <- rd16 0 buf;
    do ft_length <- rd16 2 buf;
    if negb (ntohs ft_type =? TLV_TYPE_FEC) then
      send_notification_nbr S_MISS_MSG msg_id msg_type ;;; ret (-1)
    else
      let feclen := ntohs ft_length in
      if feclen >? len - TLV_HDR_SIZE then
        session_shutdown S_BAD_TLV_LEN msg_id msg_type ;;; ret (-1)
      else
        do r <- fec_elm_loop (S (Z.to_nat feclen)) type msg_id msg_type (drop 4 buf)
                  (u16 (len - TLV_HDR_SIZE)) feclen [];
        match r with
        | None => ret (-1)
        | Some (mh, buf, len) => recv_label_params type msg_id msg_type mh buf len
        end.

(** ** Sending label messages *)

(** The size of the message that carries a map, as computed before encoding. *)
Definition label_msg_size (m : ldp_map) : Z :=
  u16 (LDP_MSG_SIZE + TLV_HDR_SIZE
    + (if m_type m =? MAP_TYPE_WILDCARD then FEC_ELM_WCARD_LEN
       else if m_type m =? MAP_TYPE_PREFIX then
         FEC_ELM_PREFIX_MIN_LEN + PREFIX_SIZE (pe_prefixlen (m_prefix m))
       else if m_type m =? MAP_TYPE_PWID then
         FEC_PWID_ELM_MIN_LEN
         + (if has_flag (m_flags m) F_MAP_PW_ID then PW_STATUS_TLV_LEN else 0)
         + (if has_flag (m_flags m) F_MAP_PW_IFMTU then FEC_SUBTLV_IFMTU_SIZE else 0)
         + (if has_flag (m_flags m) F_MAP_PW_STATUS then PW_STATUS_TLV_SIZE else 0)
       else 0)
    + (if negb (m_label m =? NO_LABEL) then LABEL_TLV_SIZE else 0)
    + (if has_flag (m_flags m) F_MAP_REQ_ID then REQID_TLV_SIZE else 0)
    + (if has_flag (m_flags m) F_MAP_STATUS then STATUS_SIZE else 0)).

(** The generators run for one map. *)
Definition gen_label_msg (cnt type : Z) (m : ldp_map) : ST ibuf Z :=
  gen_msg_hdr cnt type (label_msg_size m)
  |+| gen_fec_tlv m
  |+| (if negb (m_label m =? NO_LABEL) then gen_label_tlv (m_label m) else ret 0)
  |+| (if has_flag (m_flags m) F_MAP_REQ_ID then gen_reqid_tlv (m_requestid m) else ret 0)
  |+| (if has_flag (m_flags m) F_MAP_PW_STATUS then gen_pw_status_tlv (m_pw_status m) else ret 0)
  |+| (if has_flag (m_flags m) F_MAP_STATUS
       then gen_status_tlv (st_status_code (m_st m)) (st_msg_id (m_st m)) (st_msg_type (m_st m))
       else ret 0).

(** [enqueue_pdu]: store the final length in the header, queue the PDU. *)
Definition enqueue_pdu (buf : ibuf) (size : Z) : ST ldpe unit :=
  match ibuf_seek buf 0 LDP_HDR_SIZE with
  | None => undef "enqueue_pdu: no room for the header"
  | Some _ =>
      evbuf_enqueue (take 2 (ib_data buf) ++ le_bytes 2 (htons size) ++ drop 4 (ib_data buf))
  end.

(** The [while] over the list; [cur] is the open PDU with its size so far
    ([None] when [first] is set).  The result is the rest of the list. *)
Fixpoint send_label_loop (fuel : nat) (type : Z) (cur : option (ibuf * Z)) (err : Z)
    (mh : list ldp_map) : ST ldpe (list ldp_map) :=
  match fuel with
  | O => nofuel
  | S f =>
      match mh with
      | [] =>
          match cur with
          | None => undef "enqueue_pdu of a freed buffer"
          | Some (buf, size) =>
              enqueue_pdu buf size ;;; nbr_fsm NBR_EVT_PDU_SENT ;;; ret []
          end
      | m :: mh' =>
          do e <- get;
          let max_pdu_len := n_max_pdu_len (e_nbr e) in
          do c <- match cur with
            | Some (buf, size) => ret (buf, size, err)
            | None =>
                do rb <- lift (gen_ldp_hdr (ldp_rtr_id_get (e_conf e)) 0
                                 (ibuf_open (max_pdu_len + LDP_HDR_DEAD_LEN)));
                ret (snd rb, LDP_HDR_PDU_LEN, Z.lor err (fst rb))
            end;
          let '(buf, size, err) := c in
          let msg_size := label_msg_size m in
          if size + msg_size >? max_pdu_len then
            enqueue_pdu buf size ;;; send_label_loop f type None err mh
          else
            do cnt <- next_msgcnt;
            do rb <- lift (gen_label_msg cnt type m buf);
            let err := Z.lor err (fst rb) in
            if negb (err =? 0) then ret mh
            else send_label_loop f type (Some (snd rb, u16 (size + msg_size))) err mh'
      end
  end.

(** Twice the length of the list and one more is enough: every second turn at
    least consumes a map (when each fits into a PDU). *)
Definition send_labelmessage (type : Z) (mh : list ldp_map) : ST ldpe (list ldp_map) :=
  match mh with
  | [] => ret []
  | _ => send_label_loop (S (2 * length mh)) type None 0 mh
  end.

(** ** Lemmas on reading *)
Section Reading.
Lemma rd_ok off n buf bs e :
  (off + n <= length buf)%nat -> slice off n buf = bs -> rd off n buf e = Ok (bs, e).
Proof.
  intros H <-. unfold rd. by rewrite (proj2 (Nat.leb_le _ _) H).
Qed.

Lemma rd8_ok off buf b e :
  (off + 1 <= length buf)%nat -> slice off 1 buf = [b] -> rd8 off buf e = Ok (b, e).
Proof.
  intros H Hs. unfold rd8. rewrite (bind_ok _ _ _ _ _ (rd_ok _ _ _ _ _ H Hs)).
  unfold ret. simpl. do 2 f_equal. lia.
Qed.

Lemma rd16_ok off buf z e :
  (off + 2 <= length buf)%nat -> slice off 2 buf = be_bytes 2 z ->
  rd16 off buf e = Ok (htons z, e).
Proof.
  intros H Hs. unfold rd16. by rewrite (bind_ok _ _ _ _ _ (rd_ok _ _ _ _ _ H Hs)).
Qed.

Lemma rd32_ok off buf z e :
  (off + 4 <= length buf)%nat -> slice off 4 buf = be_bytes 4 z ->
  rd32 off buf e = Ok (htonl z, e).
Proof.
  intros H Hs. unfold rd32. by rewrite (bind_ok _ _ _ _ _ (rd_ok _ _ _ _ _ H Hs)).
Qed.
End Reading.

(** ** Canonical maps: those a FEC element determines *)
Definition addr_prefix (a : ldpd_addr) (k : nat) : Prop :=
  length a = 16%nat /\ bytes_ok a /\ drop k a = replicate (16 - k) 0.

Definition fec_canonical (m : ldp_map) : Prop :=
  (m_type m = MAP_TYPE_WILDCARD /\ m_prefix m = m_prefix map_zero /\
   m_pwid m = m_pwid map_zero) \/
  (m_type m = MAP_TYPE_PREFIX /\ m_pwid m = m_pwid map_zero /\
   (pe_af (m_prefix m) = AF_IPV4 \/ pe_af (m_prefix m) = AF_IPV6) /\
   0 <= pe_prefixlen (m_prefix m) <= 128 /\
   addr_prefix (pe_prefix (m_prefix m)) (Z.to_nat (PREFIX_SIZE (pe_prefixlen (m_prefix m))))) \/
  (m_type m = MAP_TYPE_PWID /\ m_prefix m = m_prefix map_zero /\
   is_u 15 (pw_type (m_pwid m)) /\ is_u 32 (pw_pwid (m_pwid m)) /\
   is_u 32 (pw_group_id (m_pwid m)) /\ is_u 16 (pw_ifmtu (m_pwid m)) /\
   (has_flag (m_flags m) F_MAP_PW_ID = false -> pw_pwid (m_pwid m) = 0 /\
      has_flag (m_flags m) F_MAP_PW_IFMTU = false) /\
   (has_flag (m_flags m) F_MAP_PW_IFMTU = false -> pw_ifmtu (m_pwid m) = 0)).

(** What the decoder returns for the element of [m] in a message with
    identifier [msg_id]: the FEC part of [m] and the flags of the element. *)
Definition fec_flags (m : ldp_map) : Z :=
  if m_type m =? MAP_TYPE_PWID then
    Z.lor (Z.lor (if has_flag (m_flags m) F_MAP_PW_CWORD then F_MAP_PW_CWORD else 0)
                 (if has_flag (m_flags m) F_MAP_PW_ID then F_MAP_PW_ID else 0))
          (if has_flag (m_flags m) F_MAP_PW_IFMTU then F_MAP_PW_IFMTU else 0)
  else 0.

Definition fec_part (msg_id : Z) (m : ldp_map) : ldp_map :=
  LdpMap (m_type m) msg_id (m_prefix m) (m_pwid m) (MapSt 0 0 0) 0 0 0 (fec_flags m).

Section FecRoundtrip.
Lemma fill_addr_take k a :
  addr_prefix a k -> (k <= 16)%nat -> fill_addr (take k a) = a.
Proof.
  intros (Hl & _ & Hz) Hk. unfold fill_addr. rewrite length_take, Hl, Nat.min_l by lia.
  rewrite <- (take_drop k a) at 2. f_equal. rewrite Hz. unfold zero_addr. by rewrite drop_replicate.
Qed.

Lemma ldiff_lor_cword t : is_u 15 t -> Z.ldiff (Z.lor t CONTROL_WORD_FLAG) CONTROL_WORD_FLAG = t
  /\ has_flag (Z.lor t CONTROL_WORD_FLAG) CONTROL_WORD_FLAG = true
  /\ has_flag t CONTROL_WORD_FLAG = false /\ is_u 16 (Z.lor t CONTROL_WORD_FLAG).
Proof.
  intros Ht. change CONTROL_WORD_FLAG with (2 ^ 15).
  assert (Z.testbit t 15 = false) as Hb.
  { rewrite <- (Z.mod_small t (2 ^ 15)) by done. apply Z.mod_pow2_bits_high. lia. }
  assert (Z.land t (2 ^ 15) = 0) as Hl.
  { apply Z.bits_inj'. intros n Hn. rewrite Z.land_spec, Z.bits_0, Z.pow2_bits_eqb by lia.
    destruct (Z.eqb_spec 15 n) as [<-|]; [by rewrite Hb|by rewrite andb_false_r]. }
  assert (Z.lor t (2 ^ 15) = t + 2 ^ 15) as Ha.
  { rewrite <- Z.lxor_lor by done. symmetry. by apply Z.add_nocarry_lxor. }
  split_and!.
  - apply Z.bits_inj'. intros n Hn. rewrite Z.ldiff_spec, Z.lor_spec, Z.pow2_bits_eqb by lia.
    destruct (Z.eqb_spec 15 n) as [<-|]; [by rewrite Hb|].
    by rewrite orb_false_r, andb_true_r.
  - unfold has_flag. rewrite Z.land_lor_distr_l, Hl, Z.land_diag. done.
  - unfold has_flag. by rewrite Hl.
  - rewrite Ha. unfold is_u in *. lia.
Qed.

Lemma slice_cons o n x (l : list Z) : slice (S o) n (x :: l) = slice o n l.
Proof. done. Qed.

Lemma slice_one x (l : list Z) : slice 0 1 (x :: l) = [x].
Proof. done. Qed.

Lemma slice_hd n (l l' : list Z) : length l = n -> slice 0 n (l ++ l') = l.
Proof. intros <-. unfold slice. rewrite drop_0. apply take_app_length. Qed.

Lemma slice_skip o n (l l' : list Z) :
  (length l <= o)%nat -> slice o n (l ++ l') = slice (o - length l) n l'.
Proof. intros H. unfold slice. by rewrite drop_app_ge. Qed.

Lemma slice_in a b o n (l w : list Z) :
  slice a b l = w -> (o + n <= b)%nat -> slice (a + o) n l = slice o n w.
Proof.
  intros <- H. unfold slice.
  rewrite (take_drop_commute (take b (drop a l))), take_take, Nat.min_l by lia.
  by rewrite <- take_drop_commute, drop_drop.
Qed.

Lemma decode_prefix_elm msg_id msg_type m rest extra e :
  m_type m = MAP_TYPE_PREFIX -> fec_canonical m -> 0 <= extra ->
  tlv_decode_fec_elm msg_id msg_type (fec_elm m ++ rest)
    (Z.of_nat (length (fec_elm m)) + extra) (set_m_msg_id map_zero msg_id) e
  = Ok (Some (Z.of_nat (length (fec_elm m)), fec_part msg_id m), e).
Proof.
  intros Hty [(Ht & _)|[(_ & Hpw & Haf & Hp & Ha)|(Ht & _)]] Hx; [by rewrite Hty in Ht| |by rewrite Hty in Ht].
  unfold fec_elm. rewrite Hty. change (MAP_TYPE_PREFIX =? MAP_TYPE_WILDCARD) with false.
  change (MAP_TYPE_PREFIX =? MAP_TYPE_PREFIX) with true. cbv match.
  pose proof (PREFIX_SIZE_bound _ Hp) as Hk. set (k := PREFIX_SIZE _) in *.
  set (pe := m_prefix m) in *. set (bs := take (Z.to_nat k) (pe_prefix pe)).
  assert (length bs = Z.to_nat k) as Hbs.
  { unfold bs. rewrite length_take. destruct Ha as [-> _]. lia. }
  assert (is_u 16 (pe_af pe)) as Haf16 by (destruct Haf as [-> | ->]; done).
  set (buf := (MAP_TYPE_PREFIX :: be_bytes 2 (pe_af pe) ++ pe_prefixlen pe :: bs) ++ rest).
  assert (length buf = (4 + Z.to_nat k + length rest)%nat) as Hbuf.
  { unfold buf. rewrite length_app, length_cons, length_app, length_be_bytes, length_cons. lia. }
  rewrite length_cons, length_app, length_be_bytes, length_cons, Hbs.
  replace (Z.of_nat (S (2 + S (Z.to_nat k)))) with (4 + k) by lia.
  unfold tlv_decode_fec_elm.
  rewrite (bind_ok _ _ _ MAP_TYPE_PREFIX e) by (apply rd8_ok; [lia|done]). cbv zeta.
  change (MAP_TYPE_PREFIX =? MAP_TYPE_WILDCARD) with false.
  change (MAP_TYPE_PREFIX =? MAP_TYPE_PREFIX) with true. cbv match.
  destruct (4 + k + extra <? FEC_ELM_PREFIX_MIN_LEN) eqn:E; zbool;
    [unfold FEC_ELM_PREFIX_MIN_LEN in E; lia|].
  rewrite (bind_ok _ _ _ (htons (pe_af pe)) e).
  2:{ apply rd16_ok; [lia|]. unfold buf. rewrite <- app_comm_cons, slice_cons, <- app_assoc.
      apply slice_hd, length_be_bytes. }
  rewrite (ntohs_htons _ Haf16).
  replace (negb (pe_af pe =? AF_IPV4) && negb (pe_af pe =? AF_IPV6)) with false
    by (destruct Haf as [-> | ->]; done).
  rewrite (bind_ok _ _ _ (pe_prefixlen pe) e) by (apply rd8_ok; [lia|done]). fold k.
  destruct (4 + k + extra <? 4 + k) eqn:E'; zbool; [lia|].
  rewrite (bind_ok _ _ _ bs e).
  2:{ apply rd_ok; [lia|]. unfold buf. by apply (slice_hd _ bs rest). }
  destruct (k >? 16) eqn:E''; zbool; [lia|]. unfold ret, fec_part, fec_flags.
  rewrite Hty, Hpw. simpl. unfold bs.
  rewrite (fill_addr_take _ _ Ha) by lia. destruct m as [? ? [] ? ? ? ? ? ?]. done.
Qed.

(** The loop over the sub-TLVs reads back the interface MTU. *)
Lemma subtlv_loop_mtu f msg_id msg_type buf map ifmtu e :
  (16 <= length buf)%nat -> is_u 16 ifmtu ->
  slice 12 4 buf = SUBTLV_IFMTU :: FEC_SUBTLV_IFMTU_SIZE :: be_bytes 2 ifmtu ->
  subtlv_loop (S (S f)) msg_id msg_type buf 12 4 map e
  = Ok (Some (16, set_m_flags
      (set_m_pwid map (PwidElm (pw_type (m_pwid map)) (pw_pwid (m_pwid map))
         (pw_group_id (m_pwid map)) ifmtu)) (Z.lor (m_flags map) F_MAP_PW_IFMTU)), e).
Proof.
  intros Hl Hu Hs.
  assert (forall o n, (o + n <= 4)%nat -> slice (12 + o) n buf
    = slice o n (SUBTLV_IFMTU :: FEC_SUBTLV_IFMTU_SIZE :: be_bytes 2 ifmtu)) as Hsl
    by (intros; by apply (slice_in _ 4)).
  unfold subtlv_loop at 1. fold subtlv_loop. change (negb (4 >? 0)) with false. change (4 <? SUBTLV_HDR_SIZE) with false.
  cbv match.
  rewrite (bind_ok _ _ _ SUBTLV_IFMTU e) by
    (apply rd8_ok; [simpl; lia|]; change (Z.to_nat 12) with (12 + 0)%nat; by rewrite Hsl by lia).
  rewrite (bind_ok _ _ _ FEC_SUBTLV_IFMTU_SIZE e) by
    (apply rd8_ok; [simpl; lia|]; change (Z.to_nat 12 + 1)%nat with (12 + 1)%nat;
     by rewrite Hsl by lia).
  change (FEC_SUBTLV_IFMTU_SIZE >? 4) with false. change (SUBTLV_IFMTU =? SUBTLV_IFMTU) with true.
  change (negb (FEC_SUBTLV_IFMTU_SIZE =? FEC_SUBTLV_IFMTU_SIZE)) with false. cbv match.
  rewrite (bind_ok _ _ _ (htons ifmtu) e).
  2:{ apply rd16_ok; [simpl; lia|].
      change (Z.to_nat 12 + Z.to_nat SUBTLV_HDR_SIZE)%nat with (12 + 2)%nat.
      rewrite Hsl by lia. rewrite 2!slice_cons, <- (app_nil_r (be_bytes 2 ifmtu)).
      rewrite slice_hd by apply length_be_bytes. by rewrite app_nil_r. }
  rewrite (ntohs_htons _ Hu). done.
Qed.

Definition pw_info (m : ldp_map) : list Z :=
  (if has_flag (m_flags m) F_MAP_PW_ID then be_bytes 4 (pw_pwid (m_pwid m)) else [])
    ++ (if has_flag (m_flags m) F_MAP_PW_IFMTU
        then SUBTLV_IFMTU :: FEC_SUBTLV_IFMTU_SIZE :: be_bytes 2 (pw_ifmtu (m_pwid m)) else []).

(** The fixed part of a PWID element. *)
Lemma decode_pwid_hd msg_id msg_type ty gid info rest e :
  is_u 16 ty -> is_u 32 gid ->
  let buf := (MAP_TYPE_PWID :: be_bytes 2 ty ++ Z.of_nat (length info)
                :: be_bytes 4 gid ++ info) ++ rest in
  let cword := has_flag ty CONTROL_WORD_FLAG in
  let ty' := if cword then Z.ldiff ty CONTROL_WORD_FLAG else ty in
  let flags := if cword then F_MAP_PW_CWORD else 0 in
  let map p fl := LdpMap MAP_TYPE_PWID msg_id (m_prefix map_zero) (PwidElm ty' p gid 0)
                    (MapSt 0 0 0) 0 0 0 fl in
  let pw_len := Z.of_nat (length info) in
  slice 8 (length info) buf = info /\
  tlv_decode_fec_elm msg_id msg_type buf (FEC_PWID_ELM_MIN_LEN + pw_len)
    (set_m_msg_id map_zero msg_id) e
  = (if pw_len =? 0 then ret (Some (8, map 0 flags))
     else if pw_len <? 4 then fail_shutdown S_BAD_TLV_LEN msg_id msg_type
     else
       do pwid <- rd32 8 buf;
       subtlv_loop subtlv_fuel msg_id msg_type buf 12 (u8 (pw_len - 4))
         (map (ntohl pwid) (Z.lor flags F_MAP_PW_ID))) e.
Proof.
  intros Hty Hg buf cword ty' flags map pw_len.
  assert (length buf = (8 + length info + length rest)%nat) as Hbuf.
  { unfold buf. rewrite length_app, length_cons, length_app, length_be_bytes, length_cons,
      length_app, length_be_bytes. lia. }
  assert (forall o n, slice (8 + o) n buf = slice o n (info ++ rest)) as Hsl.
  { intros o n. unfold buf. rewrite <- app_comm_cons, <- app_assoc.
    change (8 + o)%nat with (S (7 + o)). rewrite slice_cons.
    rewrite slice_skip by (rewrite length_be_bytes; lia). rewrite length_be_bytes.
    rewrite <- app_comm_cons, <- app_assoc. replace (7 + o - 2)%nat with (S (4 + o)) by lia.
    rewrite slice_cons, slice_skip by (rewrite length_be_bytes; lia).
    rewrite length_be_bytes. f_equal. lia. }
  split; [by rewrite (Hsl 0%nat), slice_hd|].
  unfold tlv_decode_fec_elm.
  rewrite (bind_ok _ _ _ MAP_TYPE_PWID e) by (apply rd8_ok; [lia|done]). cbv zeta.
  change (MAP_TYPE_PWID =? MAP_TYPE_WILDCARD) with false.
  change (MAP_TYPE_PWID =? MAP_TYPE_PREFIX) with false.
  change (MAP_TYPE_PWID =? MAP_TYPE_PWID) with true. cbv match.
  destruct (_ <? FEC_PWID_ELM_MIN_LEN) eqn:E; zbool; [lia|].
  rewrite (bind_ok _ _ _ (htons ty) e).
  2:{ apply rd16_ok; [lia|]. unfold buf. rewrite <- app_comm_cons, slice_cons, <- app_assoc.
      apply slice_hd, length_be_bytes. }
  rewrite (ntohs_htons _ Hty).
  rewrite (bind_ok _ _ _ pw_len e) by (apply rd8_ok; [lia|done]).
  rewrite Z.eqb_refl. change (negb true) with false. cbv match.
  rewrite (bind_ok _ _ _ (htonl gid) e).
  2:{ apply rd32_ok; [lia|]. unfold buf. rewrite <- app_comm_cons, slice_cons, <- app_assoc.
      rewrite slice_skip by (rewrite length_be_bytes; lia). rewrite length_be_bytes.
      rewrite <- app_comm_cons, <- app_assoc. change (3 - 2)%nat with 1%nat.
      rewrite slice_cons. apply slice_hd, length_be_bytes. }
  rewrite (ntohl_htonl _ Hg). unfold flags, ty', map. fold cword. by destruct cword.
Qed.

Lemma decode_pwid_elm msg_id msg_type m rest e :
  m_type m = MAP_TYPE_PWID -> fec_canonical m ->
  tlv_decode_fec_elm msg_id msg_type (fec_elm m ++ rest)
    (Z.of_nat (length (fec_elm m))) (set_m_msg_id map_zero msg_id) e
  = Ok (Some (Z.of_nat (length (fec_elm m)), fec_part msg_id m), e).
Proof.
  intros Hty [(Ht & _)|[(Ht & _)|(_ & Hpx & Hu15 & Hup & Hug & Hum & Hid & Hmtu)]];
    [by rewrite Hty in Ht|by rewrite Hty in Ht|].
  destruct (ldiff_lor_cword _ Hu15) as (Hc1 & Hc2 & Hc3 & Hc4).
  unfold fec_elm, fec_part, fec_flags. rewrite Hty.
  change (MAP_TYPE_PWID =? MAP_TYPE_WILDCARD) with false.
  change (MAP_TYPE_PWID =? MAP_TYPE_PREFIX) with false.
  change (MAP_TYPE_PWID =? MAP_TYPE_PWID) with true. cbv match. fold (pw_info m).
  rewrite length_cons, length_app, length_be_bytes, length_cons, length_app, length_be_bytes.
  set (ty := if has_flag (m_flags m) F_MAP_PW_CWORD then _ else _).
  assert (is_u 16 ty) as Hty16 by (unfold ty; case_match; [done|]; unfold is_u in *; lia).
  assert (has_flag ty CONTROL_WORD_FLAG = has_flag (m_flags m) F_MAP_PW_CWORD) as Hcw
    by (unfold ty; by case_match).
  assert ((if has_flag (m_flags m) F_MAP_PW_CWORD then Z.ldiff ty CONTROL_WORD_FLAG else ty)
    = pw_type (m_pwid m)) as Hty' by (unfold ty; by case_match).
  clearbody ty.
  replace (Z.of_nat (S (2 + S (4 + length (pw_info m))))) with
    (FEC_PWID_ELM_MIN_LEN + Z.of_nat (length (pw_info m))) by (unfold FEC_PWID_ELM_MIN_LEN; lia).
  destruct (decode_pwid_hd msg_id msg_type ty _ (pw_info m) rest e Hty16 Hug) as [Hsl ->].
  rewrite Hcw, Hty'. set (buf := _ ++ rest) in *.
  assert (8 + length (pw_info m) <= length buf)%nat as Hbuf.
  { unfold buf. rewrite length_app, length_cons, length_app, length_be_bytes, length_cons,
      length_app, length_be_bytes. lia. }
  clearbody buf. unfold pw_info in *. destruct m as [mt mi px [t i g u] st l r ps fl].
  cbn [m_type m_prefix m_pwid m_flags pw_type pw_pwid pw_group_id pw_ifmtu] in *. subst px mt.
  destruct (has_flag fl F_MAP_PW_ID) eqn:Fid.
  - rewrite !length_app, length_be_bytes in *.
    set (w := if has_flag fl F_MAP_PW_IFMTU then _ else _) in *.
    assert (rd32 8 buf e = Ok (htonl i, e)) as Hrd.
    { apply rd32_ok; [lia|]. change 8%nat with (8 + 0)%nat.
      rewrite (slice_in _ _ 0 4 _ _ Hsl) by lia. apply slice_hd, length_be_bytes. }
    replace (Z.of_nat (4 + length w) =? 0) with false by (symmetry; apply Z.eqb_neq; lia).
    replace (Z.of_nat (4 + length w) <? 4) with false by (symmetry; apply Z.ltb_ge; lia).
    rewrite (bind_ok _ _ _ _ _ Hrd), (ntohl_htonl _ Hup). unfold w in *.
    destruct (has_flag fl F_MAP_PW_IFMTU) eqn:Fmtu.
    + rewrite !length_cons, length_be_bytes in *.
      change (u8 (Z.of_nat (4 + S (S 2)) - 4)) with 4. change subtlv_fuel with (S (S 255)).
      rewrite (subtlv_loop_mtu _ _ _ _ _ u) by
        (lia || done || (change 12%nat with (8 + 4)%nat; rewrite (slice_in _ _ 4 4 _ _ Hsl) by lia;
           rewrite slice_skip by (rewrite length_be_bytes; lia);
           rewrite length_be_bytes; done)).
      simpl. by destruct (has_flag fl F_MAP_PW_CWORD).
    + rewrite Hmtu by done. by destruct (has_flag fl F_MAP_PW_CWORD).
  - destruct Hid as [-> Hf]; [done|]. rewrite Hf in *. rewrite Hmtu by done. simpl.
    by destruct (has_flag fl F_MAP_PW_CWORD).
Qed.
End FecRoundtrip.

Lemma decode_fec_elm msg_id msg_type m rest extra e :
  fec_canonical m -> 0 <= extra -> (m_type m <> MAP_TYPE_PREFIX -> extra = 0) ->
  tlv_decode_fec_elm msg_id msg_type (fec_elm m ++ rest)
    (Z.of_nat (length (fec_elm m)) + extra) (set_m_msg_id map_zero msg_id) e
  = Ok (Some (Z.of_nat (length (fec_elm m)), fec_part msg_id m), e).
Proof.
  intros Hc Hx Hn. pose proof Hc as [(Ht & Hp & Hw)|[(Ht & _)|(Ht & _)]].
  - rewrite Hn by (by rewrite Ht). unfold fec_elm, fec_part, fec_flags. rewrite Hp, Hw, Ht. done.
  - by apply decode_prefix_elm.
  - rewrite Hn, Z.add_0_r by (by rewrite Ht). by apply decode_pwid_elm.
Qed.

(** ** The messages on the wire

    The optional TLVs of a label message in the order they are written, and the
    whole message. *)
Definition label_opts (m : ldp_map) : list (Z * list Z) :=
  (if has_flag (m_flags m) F_MAP_REQ_ID
   then [(TLV_TYPE_LABELREQUEST, be_bytes 4 (m_requestid m))] else [])
  ++ (if has_flag (m_flags m) F_MAP_PW_STATUS
      then [(TLV_TYPE_PW_STATUS, be_bytes 4 (m_pw_status m))] else [])
  ++ (if has_flag (m_flags m) F_MAP_STATUS
      then [(TLV_TYPE_STATUS, be_bytes 4 (st_status_code (m_st m))
               ++ le_bytes 4 (st_msg_id (m_st m)) ++ le_bytes 2 (st_msg_type (m_st m)))] else []).

Definition label_opt (m : ldp_map) : list (Z * list Z) :=
  if negb (m_label m =? NO_LABEL) then [(TLV_TYPE_GENERICLABEL, be_bytes 4 (m_label m))] else [].

Definition tlvs (l : list (Z * list Z)) : list Z := concat ((fun p => tlv (fst p) (snd p)) <$> l).

Definition label_body (m : ldp_map) : list Z :=
  tlv TLV_TYPE_FEC (fec_elm m) ++ tlvs (label_opt m) ++ tlvs (label_opts m).

Definition label_msg (cnt type : Z) (m : ldp_map) : list Z :=
  be_bytes 2 type ++ be_bytes 2 (4 + Z.of_nat (length (label_body m))) ++ be_bytes 4 cnt
  ++ label_body m.

(** The pseudowire status TLV is only accounted for in PWID elements. *)
Definition label_sendable (m : ldp_map) : Prop :=
  map_sendable m /\
  (has_flag (m_flags m) F_MAP_PW_STATUS = true -> m_type m = MAP_TYPE_PWID).

Section Encode.
Lemma length_tlv ty body : length (tlv ty body) = (4 + length body)%nat.
Proof. unfold tlv. rewrite !length_app, !length_be_bytes. lia. Qed.

Lemma length_fec_elm_cases m : map_sendable m ->
  Z.of_nat (length (fec_elm m)) =
    if m_type m =? MAP_TYPE_WILDCARD then FEC_ELM_WCARD_LEN
    else if m_type m =? MAP_TYPE_PREFIX then
      FEC_ELM_PREFIX_MIN_LEN + PREFIX_SIZE (pe_prefixlen (m_prefix m))
    else if m_type m =? MAP_TYPE_PWID then
      FEC_PWID_ELM_MIN_LEN
      + (if has_flag (m_flags m) F_MAP_PW_ID then PW_STATUS_TLV_LEN else 0)
      + (if has_flag (m_flags m) F_MAP_PW_IFMTU then FEC_SUBTLV_IFMTU_SIZE else 0)
    else 0.
Proof.
  intros (Ht & Hp & [Hl _] & Hb). unfold fec_elm.
  destruct (m_type m =? MAP_TYPE_WILDCARD); [done|].
  destruct (m_type m =? MAP_TYPE_PREFIX) eqn:E; zbool.
  - specialize (Hb E). pose proof (PREFIX_SIZE_bound _ (conj (proj1 Hp) Hb)).
    rewrite length_cons, length_app, length_be_bytes, length_cons, length_take, Hl.
    unfold FEC_ELM_PREFIX_MIN_LEN. lia.
  - destruct (m_type m =? MAP_TYPE_PWID); [|done].
    rewrite length_cons, length_app, length_be_bytes, length_cons, length_app, length_be_bytes,
      length_app.
    unfold FEC_PWID_ELM_MIN_LEN, PW_STATUS_TLV_LEN, FEC_SUBTLV_IFMTU_SIZE.
    repeat case_match; simpl; rewrite ?length_be_bytes; lia.
Qed.

Lemma length_label_msg cnt type m : label_sendable m ->
  Z.of_nat (length (label_msg cnt type m)) = label_msg_size m
  /\ LDP_MSG_SIZE <= label_msg_size m <= 70
  /\ Z.of_nat (length (label_body m)) = label_msg_size m - LDP_MSG_SIZE.
Proof.
  intros [Hm Hpw]. pose proof (length_fec_elm_cases m Hm) as Hf.
  assert (Z.of_nat (length (label_body m)) = Z.of_nat (length (fec_elm m)) + 4
    + (if negb (m_label m =? NO_LABEL) then LABEL_TLV_SIZE else 0)
    + (if has_flag (m_flags m) F_MAP_REQ_ID then REQID_TLV_SIZE else 0)
    + (if has_flag (m_flags m) F_MAP_PW_STATUS then PW_STATUS_TLV_SIZE else 0)
    + (if has_flag (m_flags m) F_MAP_STATUS then STATUS_SIZE else 0)) as Hb.
  { unfold label_body, label_opt, label_opts, tlvs. rewrite !length_app, length_tlv.
    rewrite !fmap_app, !concat_app.
    rewrite !length_app.
    repeat case_match; simpl;
      rewrite ?length_app, ?length_tlv, ?length_app, ?length_be_bytes, ?length_le_bytes; simpl;
      unfold LABEL_TLV_SIZE, REQID_TLV_SIZE, PW_STATUS_TLV_SIZE, STATUS_SIZE; lia. }
  assert (0 <= Z.of_nat (length (label_body m)) <= 62 /\
    label_msg_size m = u16 (LDP_MSG_SIZE + Z.of_nat (length (label_body m)))) as [Hr Hs].
  { rewrite Hb, Hf. unfold label_msg_size, LABEL_TLV_SIZE, REQID_TLV_SIZE, PW_STATUS_TLV_SIZE,
      STATUS_SIZE, FEC_ELM_WCARD_LEN, FEC_ELM_PREFIX_MIN_LEN, FEC_PWID_ELM_MIN_LEN,
      PW_STATUS_TLV_LEN, FEC_SUBTLV_IFMTU_SIZE, TLV_HDR_SIZE in *.
    destruct Hm as (Ht & Hp & _ & Hx).
    destruct (m_type m =? MAP_TYPE_WILDCARD) eqn:E1; zbool.
    { destruct (has_flag (m_flags m) F_MAP_PW_STATUS); [by rewrite Hpw in E1|].
      repeat case_match; split; try lia; f_equal; lia. }
    destruct (m_type m =? MAP_TYPE_PREFIX) eqn:E2; zbool.
    { destruct (has_flag (m_flags m) F_MAP_PW_STATUS); [by rewrite Hpw in E2|].
      pose proof (PREFIX_SIZE_bound _ (conj (proj1 Hp) (Hx E2))).
      repeat case_match; split; try lia; f_equal; lia. }
    destruct (m_type m =? MAP_TYPE_PWID) eqn:E3; zbool; [|exfalso; tauto].
    repeat case_match; split; try lia; f_equal; lia. }
  rewrite u16_small in Hs by (unfold is_u, LDP_MSG_SIZE; lia).
  unfold label_msg. rewrite !length_app, !length_be_bytes. unfold LDP_MSG_SIZE in *. lia.
Qed.

Lemma gen_label_msg_emits cnt type m : label_sendable m ->
  emits (gen_label_msg cnt type m) (label_msg cnt type m).
Proof.
  intros Hm. destruct (length_label_msg cnt type m Hm) as (_ & Hr & Hb). destruct Hm as [Hm _].
  unfold gen_label_msg, gen_msg_hdr, gen_label_tlv, gen_reqid_tlv, gen_pw_status_tlv,
    gen_status_tlv.
  rewrite !htons_image, !htonl_image. eapply emits_eq.
  - apply emits_seq; [apply emits_seq; [apply emits_seq; [apply emits_seq; [apply emits_seq|]|]|]|];
      try (apply emits_if; [apply emits_add|apply emits_ret]);
      [apply emits_add|by apply gen_fec_tlv_emits].
  - unfold label_msg. rewrite Hb, u16_small
      by (unfold is_u, LDP_MSG_SIZE, LDP_MSG_DEAD_LEN in *; lia).
    replace (4 + (label_msg_size m - LDP_MSG_SIZE)) with (label_msg_size m - LDP_MSG_DEAD_LEN)
      by (unfold LDP_MSG_SIZE, LDP_MSG_DEAD_LEN; lia).
    unfold label_body, label_opt, label_opts, tlvs. rewrite <- !app_assoc. do 4 f_equal.
    rewrite !fmap_app, !concat_app.
    repeat case_match; simpl; rewrite ?app_nil_r; unfold tlv;
      rewrite ?length_app, ?length_be_bytes, ?length_le_bytes, <- ?app_assoc; done.
Qed.
End Encode.

(** ** Sending: what leaves the router *)

(** An LDP PDU: version, length behind the length field, LDP identifier
    (router id and label space 0), messages. *)
Definition ldp_pdu (rtr_id : Z) (body : list Z) : list Z :=
  be_bytes 2 LDP_VERSION ++ be_bytes 2 (LDP_HDR_PDU_LEN + Z.of_nat (length body))
  ++ le_bytes 4 rtr_id ++ [0; 0] ++ body.

(** The messages for a list of maps, numbered from [cnt] on. *)
Fixpoint label_msgs (cnt type : Z) (mh : list ldp_map) : list Z :=
  match mh with
  | [] => []
  | m :: mh' => label_msg cnt type m ++ label_msgs (cnt + 1) type mh'
  end.

(** The bodies of PDUs that carry one group of maps each. *)
Fixpoint pdu_bodies (cnt type : Z) (groups : list (list ldp_map)) : list (list Z) :=
  match groups with
  | [] => []
  | g :: gs => label_msgs cnt type g :: pdu_bodies (cnt + Z.of_nat (length g)) type gs
  end.

(** The keepalive timer of the session was armed again (and the one for the
    start of the session is off); nothing else changed. *)
Definition rearmed (n : nbr) : nbr :=
  set_n_timers n (Timers (Some (n_keepalive n / KEEPALIVE_PER_PERIOD)) (t_keepalive_timeout (n_timers n))
    None (t_initdelay_timer (n_timers n))).

(** [sent e e' bodies]: between [e] and [e'] exactly the PDUs of [bodies] were
    queued, none is empty and none exceeds the maximum, and the session is as it
    was. *)
Record sent (e e' : ldpe) (bodies : list (list Z)) : Prop := Sent {
  st_wire : e_wire e' = e_wire e ++ (ldp_pdu (ldp_rtr_id_get (e_conf e)) <$> bodies);
  st_fits : Forall (fun b => b <> [] /\
    LDP_HDR_PDU_LEN + Z.of_nat (length b) <= n_max_pdu_len (e_nbr e)) bodies;
  st_lde : e_lde e' = e_lde e;
  st_nbr : e_nbr e' = rearmed (e_nbr e);
  st_rest : e_conf e' = e_conf e /\ e_peercnt e' = e_peercnt e /\ e_pids e' = e_pids e
}.

Section Send.
Variable type : Z.

Definition hdr0 (e : ldpe) : list Z :=
  be_bytes 2 LDP_VERSION ++ be_bytes 2 (u16 (0 - LDP_HDR_DEAD_LEN))
  ++ le_bytes 4 (ldp_rtr_id_get (e_conf e)) ++ [0; 0].

Lemma length_hdr0 e : length (hdr0 e) = 10%nat.
Proof. unfold hdr0. by rewrite !length_app, !length_be_bytes, length_le_bytes. Qed.

(** The open PDU of the loop: the header with a dummy length and the
    messages so far. *)
Definition open_pdu (e : ldpe) (body : list Z) : ibuf * Z :=
  let cap := n_max_pdu_len (e_nbr e) + LDP_HDR_DEAD_LEN in
  (Ibuf (hdr0 e ++ body) cap cap, LDP_HDR_PDU_LEN + Z.of_nat (length body)).

Definition queued (e : ldpe) (body : list Z) : ldpe :=
  Ldpe (e_nbr e) (e_conf e) (e_msgcnt e) (e_peercnt e) (e_pids e)
    (e_wire e ++ [ldp_pdu (ldp_rtr_id_get (e_conf e)) body]) (e_lde e).

Definition counted (e : ldpe) : ldpe :=
  Ldpe (e_nbr e) (e_conf e) (e_msgcnt e + 1) (e_peercnt e) (e_pids e) (e_wire e) (e_lde e).

Lemma enqueue_open e body :
  n_tcp (e_nbr e) = true ->
  enqueue_pdu (fst (open_pdu e body)) (snd (open_pdu e body)) e = Ok (tt, queued e body).
Proof.
  intros Ht. unfold enqueue_pdu, ibuf_seek, wpos, open_pdu. cbn [fst snd ib_data].
  case_match eqn:E.
  2:{ exfalso. case_match; zbool; [|done].
      rewrite length_app, length_hdr0 in *. unfold LDP_HDR_SIZE in *. lia. }
  unfold evbuf_enqueue. rewrite Ht. unfold queued. rewrite htons_image.
  by do 2 f_equal.
Qed.

Lemma gen_hdr_open e :
  10 <= n_max_pdu_len (e_nbr e) ->
  gen_ldp_hdr (ldp_rtr_id_get (e_conf e)) 0
    (ibuf_open (n_max_pdu_len (e_nbr e) + LDP_HDR_DEAD_LEN)) = Ok (0, fst (open_pdu e [])).
Proof.
  intros H. unfold gen_ldp_hdr, ibuf_open. rewrite emits_add.
  2:{ cbn [length Nat.add]. rewrite !length_app, !length_le_bytes. unfold LDP_HDR_DEAD_LEN. simpl. lia. }
  unfold open_pdu. cbn [fst]. rewrite !htons_image, app_nil_r. done.
Qed.

Lemma gen_msg_open e body m cnt :
  label_sendable m ->
  LDP_HDR_PDU_LEN + Z.of_nat (length body) + label_msg_size m <= n_max_pdu_len (e_nbr e) ->
  gen_label_msg cnt type m (fst (open_pdu e body))
  = Ok (0, fst (open_pdu e (body ++ label_msg cnt type m))).
Proof.
  intros Hm Hs. destruct (length_label_msg cnt type m Hm) as [Hl _].
  unfold open_pdu. cbn [fst]. rewrite (gen_label_msg_emits cnt type m Hm).
  - by rewrite app_assoc.
  - rewrite !length_app, length_hdr0. unfold LDP_HDR_PDU_LEN, LDP_HDR_DEAD_LEN in *. lia.
Qed.

Lemma fsm_pdu_sent_oper e :
  n_state (e_nbr e) = NBR_STA_OPER ->
  nbr_fsm NBR_EVT_PDU_SENT e = Ok (tt, upd_nbr rearmed e).
Proof.
  intros H. unfold nbr_fsm, nbr_fsm_n, nbr_fsm_body, get_nbr, bind, get, ret. cbn [rbind].
  rewrite H. destruct e as [[] ? ? ? ? ? ?]. cbn in H. subst. reflexivity.
Qed.

Definition fits (e : ldpe) (body : list Z) : Prop :=
  body <> [] /\ LDP_HDR_PDU_LEN + Z.of_nat (length body) <= n_max_pdu_len (e_nbr e).

(** The state of the loop: an open PDU that fits, or none. *)
Definition cur_of (e : ldpe) (cur : option (list Z)) : option (ibuf * Z) :=
  open_pdu e <$> cur.
Definition cur_body (cur : option (list Z)) : list Z := default [] cur.

Lemma label_msg_nonempty cnt m : label_msg cnt type m <> [].
Proof. unfold label_msg. intros H. apply (f_equal length) in H.
  rewrite !length_app, length_be_bytes in H. simpl in H. lia. Qed.

Definition send_ok (e : ldpe) : Prop :=
  n_tcp (e_nbr e) = true /\ n_state (e_nbr e) = NBR_STA_OPER /\
  76 <= n_max_pdu_len (e_nbr e) < 2 ^ 16.

Lemma send_loop_close fuel e body :
  send_ok e -> fits e body ->
  exists e', send_label_loop (S fuel) type (cur_of e (Some body)) 0 [] e = Ok ([], e') /\
    sent e e' [body] /\ e_msgcnt e' = e_msgcnt e.
Proof.
  intros (Ht & Hst & Hmax) Hf. pose proof (fsm_pdu_sent_oper (queued e body) Hst) as Hn.
  eexists. split.
  - cbn [send_label_loop cur_of fmap option_fmap option_map open_pdu].
    rewrite (bind_ok _ _ _ _ _ (enqueue_open e body Ht)).
    rewrite (bind_ok _ _ _ _ _ Hn). done.
  - split; [|done]. constructor; cbn; [done|by constructor|done..].
Qed.

Lemma send_loop_write fuel e cur m mh :
  send_ok e -> label_sendable m -> 0 <= e_msgcnt e < 2 ^ 31 - 1 ->
  LDP_HDR_PDU_LEN + Z.of_nat (length (cur_body cur)) + label_msg_size m
    <= n_max_pdu_len (e_nbr e) ->
  send_label_loop (S fuel) type (cur_of e cur) 0 (m :: mh) e
  = send_label_loop fuel type
      (cur_of (counted e) (Some (cur_body cur ++ label_msg (e_msgcnt e + 1) type m))) 0 mh
      (counted e).
Proof.
  intros (Ht & Hst & Hmax) Hm Hc Hfit.
  destruct (length_label_msg (e_msgcnt e + 1) type m Hm) as (Hl & Hr & _).
  cbn [send_label_loop]. rewrite (bind_ok get _ e e e) by done.
  rewrite (bind_ok _ _ e (open_pdu e (cur_body cur), 0) e).
  2:{ destruct cur as [body|]; cbn [cur_of fmap option_fmap option_map cur_body default]; [done|].
      rewrite (bind_ok _ _ e (0, fst (open_pdu e [])) e).
      - done.
      - unfold lift. by rewrite gen_hdr_open by lia. }
  unfold open_pdu at 1. cbn [fst snd].
  destruct (_ >? n_max_pdu_len (e_nbr e)) eqn:E; zbool; [lia|].
  rewrite (bind_ok next_msgcnt _ e (e_msgcnt e + 1) (counted e)).
  2:{ unfold next_msgcnt. case_match; zbool; [lia|done]. }
  erewrite (bind_ok (lift _)).
  2:{ unfold lift. pose proof (gen_msg_open e (cur_body cur) m (e_msgcnt e + 1) Hm Hfit) as Hg.
      unfold open_pdu at 1 in Hg. cbn [fst] in Hg. rewrite Hg. reflexivity. }
  cbn [fst snd]. change (negb (Z.lor 0 0 =? 0)) with false. cbv match. f_equal.
  cbn [cur_of fmap option_fmap option_map]. unfold open_pdu. cbn [fst snd]. do 2 f_equal.
  rewrite length_app, u16_small; [cbn; lia|].
  unfold is_u, LDP_HDR_PDU_LEN in *. lia.
Qed.

Lemma send_loop_flush fuel e body m mh :
  send_ok e ->
  n_max_pdu_len (e_nbr e) < LDP_HDR_PDU_LEN + Z.of_nat (length body) + label_msg_size m ->
  send_label_loop (S fuel) type (cur_of e (Some body)) 0 (m :: mh) e
  = send_label_loop fuel type (cur_of (queued e body) None) 0 (m :: mh) (queued e body).
Proof.
  intros (Ht & _) Hf. cbn [send_label_loop]. rewrite (bind_ok get _ e e e) by done.
  rewrite (bind_ok _ _ e (open_pdu e body, 0) e) by done.
  unfold open_pdu. cbn [fst snd].
  destruct (_ >? n_max_pdu_len (e_nbr e)) eqn:E; zbool; [|lia].
  by rewrite (bind_ok _ _ _ _ _ (enqueue_open e body Ht)).
Qed.

Ltac pdu_lia := unfold LDP_HDR_PDU_LEN, LDP_MSG_SIZE in *; cbn; lia.

Lemma label_msgs_app cnt a b :
  label_msgs cnt type (a ++ b) = label_msgs cnt type a ++ label_msgs (cnt + Z.of_nat (length a)) type b.
Proof.
  revert cnt. induction a as [|m a IH]; intros cnt; cbn [label_msgs app length]; [by rewrite Z.add_0_r|].
  rewrite IH, <- app_assoc. by replace (cnt + Z.of_nat (S (length a))) with (cnt + 1 + Z.of_nat (length a)) by lia.
Qed.

(** The loop with the messages of [g] in the open PDU. *)
Lemma send_loop_ok mh : forall fuel e g,
  send_ok e -> let first := e_msgcnt e + 1 - Z.of_nat (length g) in
  fits e (label_msgs first type g) -> Forall label_sendable mh ->
  0 <= e_msgcnt e -> e_msgcnt e + Z.of_nat (length mh) < 2 ^ 31 ->
  (2 * length mh + 1 <= fuel)%nat ->
  exists e' groups, send_label_loop fuel type (cur_of e (Some (label_msgs first type g))) 0 mh e = Ok ([], e') /\
    concat groups = g ++ mh /\ sent e e' (pdu_bodies first type groups) /\
    e_msgcnt e' = e_msgcnt e + Z.of_nat (length mh).
Proof.
  induction mh as [|m mh IH]; intros fuel e g Hok first Hf Hmh H0 H1 Hfuel.
  { destruct fuel as [|fuel]; [cbn in Hfuel; lia|].
    destruct (send_loop_close fuel e _ Hok Hf) as (e' & E & S & C).
    exists e', [g]. cbn. rewrite app_nil_r. split_and!; try done. lia. }
  destruct fuel as [|[|fuel]]; cbn [length] in *; [lia..|].
  apply Forall_cons in Hmh as [Hm Hmh].
  destruct (length_label_msg (e_msgcnt e + 1) type m Hm) as (Hl & Hr & _).
  pose proof Hok as (Ht & Hst & Hmax). set (body := label_msgs first type g) in *.
  destruct (Z.le_gt_cases (LDP_HDR_PDU_LEN + Z.of_nat (length body) + label_msg_size m)
              (n_max_pdu_len (e_nbr e))) as [Hle|Hgt].
  - rewrite (send_loop_write _ e (Some body)) by (done || lia). cbn [cur_body default].
    assert (e_msgcnt (counted e) + 1 - Z.of_nat (length (g ++ [m])) = first) as Hfst
      by (rewrite length_app; cbn; lia).
    assert (body ++ label_msg (e_msgcnt e + 1) type m = label_msgs first type (g ++ [m])) as Hb.
    { rewrite label_msgs_app. cbn. rewrite app_nil_r. unfold first. f_equal. f_equal. lia. }
    destruct (IH (S fuel) (counted e) (g ++ [m])) as (e' & groups & E & C & S & N);
      [done| |done|cbn; lia|cbn; lia|lia|].
    { rewrite Hfst, <- Hb. split; [intros [_ H]%app_eq_nil; by apply label_msg_nonempty in H|].
      rewrite length_app. cbn. lia. }
    rewrite Hfst in *. change (id body) with body. rewrite Hb. exists e', groups. split; [exact E|].
    split; [by rewrite C, <- app_assoc|]. split; [by destruct S|cbn in N; lia].
  - rewrite send_loop_flush by done.
    rewrite (send_loop_write _ (queued e body) None) by (done || pdu_lia).
    cbn [cur_body default app].
    assert (e_msgcnt (counted (queued e body)) + 1 - Z.of_nat (length [m]) = e_msgcnt e + 1) as Hfst by (cbn; lia).
    destruct (IH fuel (counted (queued e body)) [m]) as (e' & groups & E & C & S & N);
      [done| |done|cbn; lia|cbn; lia|lia|].
    { rewrite Hfst. cbn. rewrite app_nil_r. split; [apply label_msg_nonempty|pdu_lia]. }
    rewrite Hfst in *. cbn [label_msgs] in E. rewrite app_nil_r in E.
    exists e', (g :: groups). split; [exact E|]. split; [cbn [concat]; by rewrite C|].
    split; [|cbn in N; lia]. destruct S as [W F L St Re]. cbn [pdu_bodies].
    replace (first + Z.of_nat (length g)) with (e_msgcnt e + 1) by (unfold first; lia).
    constructor; cbn in *; [|by constructor|done..]. by rewrite W, <- app_assoc.
Qed.
End Send.

Lemma send_labelmessage_ok type mh e : mh <> [] -> Forall label_sendable mh -> send_ok e ->
  0 <= e_msgcnt e -> e_msgcnt e + Z.of_nat (length mh) < 2 ^ 31 ->
  exists e' groups, send_labelmessage type mh e = Ok ([], e') /\ concat groups = mh /\
    sent e e' (pdu_bodies (e_msgcnt e + 1) type groups) /\
    e_msgcnt e' = e_msgcnt e + Z.of_nat (length mh).
Proof.
  destruct mh as [|m mh]; [done|]. intros _ Hmh Hok Hc0 Hc1. apply Forall_cons in Hmh as [Hm Hmh].
  destruct (length_label_msg (e_msgcnt e + 1) type m Hm) as (Hl & Hr & _).
  pose proof Hok as (Ht & Hst & Hmax). unfold send_labelmessage. cbn [length] in Hc1 |- *.
  pose proof (send_loop_write type (2 * S (length mh)) e None m mh Hok Hm) as Hw.
  specialize (Hw ltac:(lia) ltac:(unfold LDP_HDR_PDU_LEN; cbn; lia)).
  change (cur_of e None) with (@None (ibuf * Z)) in Hw. rewrite Hw. cbn [cur_body default app].
  assert (e_msgcnt (counted e) + 1 - Z.of_nat (length [m]) = e_msgcnt e + 1) as Hfst by (cbn; lia).
  destruct (send_loop_ok type mh (2 * S (length mh)) (counted e) [m]) as (e' & groups & E & C & S & N);
    [done| |done|cbn; lia|cbn; lia|lia|].
  { rewrite Hfst. cbn. rewrite app_nil_r. split; [apply label_msg_nonempty|]. unfold LDP_HDR_PDU_LEN. cbn. lia. }
  rewrite Hfst in *. cbn [label_msgs] in E. rewrite app_nil_r in E.
  exists e', groups. split; [exact E|]. split; [done|]. split; [by destruct S|]. cbn in N. lia.
Qed.

(** C22: sending label messages.  For any list of encodable maps
    [send_labelmessage] returns with the list consumed.  The maps are split, in
    order, into one group per PDU; it queues PDUs that carry exactly the
    messages of their groups, numbered consecutively, each PDU with a correct
    header, at least one message, no message cut in two, and at most
    [max_pdu_len] bytes; nothing else is sent and the session stays up. *)
Theorem send_labelmessage_correct (type : Z) (mh : list ldp_map) (e : ldpe)
    (Hne : mh <> []) (Hmh : Forall label_sendable mh) (Hok : send_ok e)
    (Hcnt : 0 <= e_msgcnt e /\ e_msgcnt e + Z.of_nat (length mh) < 2 ^ 31) :
  exists e' groups, send_labelmessage type mh e = Ok ([], e') /\ concat groups = mh /\
    sent e e' (pdu_bodies (e_msgcnt e + 1) type groups).
Proof.
  destruct Hcnt as [H0 H1].
  destruct (send_labelmessage_ok type mh e Hne Hmh Hok H0 H1) as (e' & groups & E & C & S & _).
  by exists e', groups.
Qed.

(** ** Receiving what was sent *)

(** Maps a label message of the given type may carry to a neighbour. *)
Record acceptable (type : Z) (m : ldp_map) (n : nbr) : Prop := Acceptable {
  ac_type : type ∈ [MSG_TYPE_LABELMAPPING; MSG_TYPE_LABELREQUEST; MSG_TYPE_LABELWITHDRAW;
                    MSG_TYPE_LABELRELEASE; MSG_TYPE_LABELABORTREQ];
  ac_canon : fec_canonical m;
  ac_send : label_sendable m;
  ac_label : is_u 32 (m_label m);
  ac_reqid : is_u 32 (m_requestid m);
  ac_status : is_u 32 (m_pw_status m);
  (* a mapping carries a label of the label space, a request none *)
  ac_map : type = MSG_TYPE_LABELMAPPING -> m_label m <= MPLS_LABEL_MAX /\
    (MPLS_LABEL_RESERVED_MAX < m_label m \/
     m_label m ∈ [MPLS_LABEL_IPV4NULL; MPLS_LABEL_IPV6NULL; MPLS_LABEL_IMPLNULL]);
  ac_req : type = MSG_TYPE_LABELREQUEST \/ type = MSG_TYPE_LABELABORTREQ -> m_label m = NO_LABEL;
  (* wildcards and PWID elements without a pseudowire only to withdraw or release *)
  ac_wild : m_type m = MAP_TYPE_WILDCARD ->
    type = MSG_TYPE_LABELWITHDRAW \/ type = MSG_TYPE_LABELRELEASE;
  ac_pwid : m_type m = MAP_TYPE_PWID -> MPLS_LABEL_RESERVED_MAX < m_label m /\
    (has_flag (m_flags m) F_MAP_PW_ID = false ->
     type = MSG_TYPE_LABELWITHDRAW \/ type = MSG_TYPE_LABELRELEASE);
  (* the null labels and the session match the address family *)
  ac_v4 : m_type m = MAP_TYPE_PREFIX -> pe_af (m_prefix m) = AF_IPV4 ->
    n_v4_enabled n = true /\ m_label m <> MPLS_LABEL_IPV6NULL;
  ac_v6 : m_type m = MAP_TYPE_PREFIX -> pe_af (m_prefix m) = AF_IPV6 ->
    n_v6_enabled n = true /\ m_label m <> MPLS_LABEL_IPV4NULL
}.

(** The map the lde receives: the FEC, the label, the message identifier and
    the optional parameters that apply to the message type. *)
Definition takes_reqid (type : Z) (m : ldp_map) : bool :=
  ((type =? MSG_TYPE_LABELMAPPING) || (type =? MSG_TYPE_LABELREQUEST))
  && has_flag (m_flags m) F_MAP_REQ_ID.
Definition takes_status (type : Z) (m : ldp_map) : bool :=
  (type =? MSG_TYPE_LABELMAPPING) && has_flag (m_flags m) F_MAP_PW_STATUS.

Definition received_opts (type : Z) (m : ldp_map) : opts :=
  Opts (Z.lor (if takes_reqid type m then F_MAP_REQ_ID else 0)
              (if takes_status type m then F_MAP_PW_STATUS else 0))
    (m_label m)
    (if takes_reqid type m then m_requestid m else 0)
    (if takes_status type m then m_pw_status m else 0).

Definition received (cnt type : Z) (m : ldp_map) : ldp_map :=
  let o := received_opts type m in
  LdpMap (m_type m) (htonl cnt) (m_prefix m) (m_pwid m) (MapSt 0 0 0) (m_label m)
    (o_reqid o) (o_pw_status o) (Z.lor (fec_flags m) (o_flags o)).

Section Receive.
Variables type msg_id msg_type : Z.

(** Running the [switch] over a list of TLVs. *)
Fixpoint opts_of (l : list (Z * list Z)) (o : opts) (rest : list Z) : ST ldpe (option opts) :=
  match l with
  | [] => ret (Some o)
  | (ty, body) :: l' =>
      do r <- opt_param type msg_id msg_type ty (Z.of_nat (length body))
                (body ++ tlvs l' ++ rest) o;
      match r with Some o' => opts_of l' o' rest | None => ret None end
  end.

Lemma opt_loop_tlvs l : forall fuel rest o e,
  Forall (fun p => is_u 16 (fst p)) l -> is_u 16 (Z.of_nat (length (tlvs l))) ->
  (length l < fuel)%nat ->
  opt_loop fuel type msg_id msg_type (tlvs l ++ rest) (Z.of_nat (length (tlvs l))) o e
  = opts_of l o rest e.
Proof.
  induction l as [|[ty body] l IH]; intros [|fuel] rest o e Hl Hlen Hf;
    simpl length in Hf; try lia; [done|].
  apply Forall_cons in Hl as [Hty Hl]. simpl in Hty.
  assert (length (tlvs ((ty, body) :: l)) = (4 + length body + length (tlvs l))%nat) as Hn.
  { change (tlvs ((ty, body) :: l)) with (tlv ty body ++ tlvs l).
    rewrite length_app, length_tlv. lia. }
  change (tlvs ((ty, body) :: l)) with (tlv ty body ++ tlvs l) in *.
  rewrite Hn in *. unfold is_u in Hlen.
  cbn [opt_loop opts_of]. 
  destruct (negb (_ >? 0)) eqn:E; zbool; [lia|].
  destruct (_ <? TLV_HDR_SIZE) eqn:E'; zbool; [unfold TLV_HDR_SIZE in *; lia|].
  unfold tlv. rewrite <- !app_assoc.
  rewrite (bind_ok _ _ _ (htons ty) e).
  2:{ apply rd16_ok; [rewrite length_app, length_be_bytes; lia|]. apply slice_hd, length_be_bytes. }
  rewrite (bind_ok _ _ _ (htons (Z.of_nat (length body))) e).
  2:{ apply rd16_ok; [rewrite !length_app, !length_be_bytes; lia|].
      rewrite slice_skip by (rewrite length_be_bytes; lia). rewrite length_be_bytes.
      apply slice_hd, length_be_bytes. }
  rewrite !ntohs_htons by (unfold is_u in *; lia).
  destruct (_ + TLV_HDR_SIZE >? _) eqn:E''; zbool; [unfold TLV_HDR_SIZE in *; lia|]. cbv zeta.
  change (drop 4 (be_bytes 2 ty ++ be_bytes 2 (Z.of_nat (length body)) ++ body ++ tlvs l ++ rest))
    with (body ++ tlvs l ++ rest).
  unfold bind, rbind. destruct (opt_param _ _ _ _ _ _ _ _) as [[[o'|] e']| | |]; try done.
  rewrite Nat2Z.id, drop_app_length.
  replace (u16 (u16 (Z.of_nat (4 + length body + length (tlvs l)) - TLV_HDR_SIZE)
             - Z.of_nat (length body))) with (Z.of_nat (length (tlvs l))).
  2:{ unfold TLV_HDR_SIZE. rewrite (u16_small (_ - 4)) by (unfold is_u; lia).
      rewrite u16_small by (unfold is_u; lia). lia. }
  apply IH; [done|unfold is_u; lia|lia].
Qed.

Lemma rd32_hd z l e : rd32 0 (be_bytes 4 z ++ l) e = Ok (htonl z, e).
Proof.
  apply rd32_ok; [rewrite length_app, length_be_bytes; lia|]. apply slice_hd, length_be_bytes.
Qed.

Lemma opts_of_label_opts m rest e label :
  is_u 32 (m_requestid m) -> is_u 32 (m_pw_status m) ->
  opts_of (label_opts m) (Opts 0 label 0 0) rest e
  = Ok (Some (Opts (o_flags (received_opts type m)) label (o_reqid (received_opts type m))
           (o_pw_status (received_opts type m))), e).
Proof.
  intros Hr Hs. unfold label_opts, received_opts, takes_reqid, takes_status.
  destruct (has_flag (m_flags m) F_MAP_REQ_ID), (has_flag (m_flags m) F_MAP_PW_STATUS),
    (has_flag (m_flags m) F_MAP_STATUS); cbn [app opts_of]; unfold opt_param;
    rewrite ?length_app, ?length_be_bytes, ?length_le_bytes;
    change (TLV_TYPE_LABELREQUEST =? TLV_TYPE_LABELREQUEST) with true;
    change (negb (Z.of_nat 4 =? REQID_TLV_LEN)) with false;
    change (negb (Z.of_nat 4 =? PW_STATUS_TLV_LEN)) with false; cbn [orb andb negb];
    destruct (type =? MSG_TYPE_LABELMAPPING), (type =? MSG_TYPE_LABELREQUEST);
    cbn [orb andb]; unfold bind, ret, rbind;
    repeat first [rewrite rd32_hd, ntohl_htonl by done | progress cbn -[rd32 ntohl tlvs]]; try done.
Qed.

Lemma tlvs_app l1 l2 : tlvs (l1 ++ l2) = tlvs l1 ++ tlvs l2.
Proof. unfold tlvs. by rewrite fmap_app, concat_app. Qed.

Lemma label_opts_types m : Forall (fun p => is_u 16 (fst p)) (label_opt m ++ label_opts m).
Proof. unfold label_opt, label_opts. repeat case_match; simpl; repeat constructor; done. Qed.

Lemma label_opts_count m : (length (label_opt m ++ label_opts m) <= 4)%nat.
Proof. unfold label_opt, label_opts. repeat case_match; simpl; lia. Qed.

Lemma length_tlvs_ge l : (length l <= length (tlvs l))%nat.
Proof.
  induction l as [|[ty body] l IH]; [done|].
  change (tlvs ((ty, body) :: l)) with (tlv ty body ++ tlvs l).
  rewrite length_app, length_tlv. simpl. lia.
Qed.

(** The label TLV of a mapping, and the label of the other messages. *)
Lemma decode_label m rest len e :
  type = MSG_TYPE_LABELMAPPING -> acceptable type m (e_nbr e) -> LABEL_TLV_SIZE <= len ->
  tlvs (label_opt m) = tlv TLV_TYPE_GENERICLABEL (be_bytes 4 (m_label m)) /\
  tlv_decode_label msg_id msg_type (tlvs (label_opt m) ++ rest) len e
  = Ok (Some (LABEL_TLV_SIZE, m_label m), e).
Proof.
  intros Hty Ha Hlen. destruct (ac_map _ _ _ Ha Hty) as [Hmax Hres].
  pose proof (ac_label _ _ _ Ha) as Hu.
  assert (tlvs (label_opt m) = tlv TLV_TYPE_GENERICLABEL (be_bytes 4 (m_label m))) as Ho.
  { unfold label_opt. destruct (m_label m =? NO_LABEL) eqn:E; zbool.
    - rewrite E in Hmax. by vm_compute in Hmax.
    - apply app_nil_r. }
  split; [done|]. rewrite Ho. unfold tlv_decode_label, tlv. rewrite <- !app_assoc, length_be_bytes.
  destruct (len <? LABEL_TLV_SIZE) eqn:E; zbool; [lia|].
  rewrite (bind_ok _ _ _ (htons TLV_TYPE_GENERICLABEL) e) by (apply rd16_ok; [rewrite !length_app, !length_be_bytes; lia|done]).
  rewrite (bind_ok _ _ _ (htons 4) e) by (apply rd16_ok; [rewrite !length_app, !length_be_bytes; lia|done]).
  rewrite (bind_ok _ _ _ (htonl (m_label m)) e).
  2:{ apply rd32_ok; [rewrite !length_app, !length_be_bytes; lia|].
      rewrite !slice_skip by (rewrite ?length_be_bytes; lia).
      rewrite !length_be_bytes. apply slice_hd, length_be_bytes. }
  rewrite (ntohl_htonl _ Hu).
  change (htons (htons TLV_TYPE_GENERICLABEL)) with TLV_TYPE_GENERICLABEL.
  change (ntohs (htons TLV_TYPE_GENERICLABEL)) with TLV_TYPE_GENERICLABEL.
  change (ntohs (htons 4)) with 4. cbn -[MPLS_LABEL_MAX].
  destruct (_ || _) eqn:E'; [|done]. exfalso.
  apply orb_prop in E' as [E'|E']; zbool; [lia|].
  destruct Hres as [Hres|Hres]; [unfold MPLS_LABEL_RESERVED_MAX in *; lia|].
  unfold MPLS_LABEL_IPV4NULL, MPLS_LABEL_IPV6NULL, MPLS_LABEL_IMPLNULL in Hres. set_solver.
Qed.

Lemma opts_of_label m rest e :
  type <> MSG_TYPE_LABELMAPPING -> acceptable type m (e_nbr e) ->
  opts_of (label_opt m ++ label_opts m) (Opts 0 NO_LABEL 0 0) rest e
  = Ok (Some (received_opts type m), e).
Proof.
  intros Hty Ha. pose proof (ac_reqid _ _ _ Ha) as Hr. pose proof (ac_status _ _ _ Ha) as Hs.
  unfold label_opt. destruct (m_label m =? NO_LABEL) eqn:E; zbool; cbn [negb].
  - rewrite app_nil_l, opts_of_label_opts by done. rewrite <- E. done.
  - assert (type = MSG_TYPE_LABELWITHDRAW \/ type = MSG_TYPE_LABELRELEASE) as Hwr.
    { pose proof (ac_type _ _ _ Ha) as Ht. pose proof (ac_req _ _ _ Ha) as Hq.
      rewrite !elem_of_cons, elem_of_nil in Ht. tauto. }
    cbn [app opts_of]. rewrite length_be_bytes. erewrite bind_ok.
    2:{ unfold opt_param.
        replace ((type =? MSG_TYPE_LABELWITHDRAW) || (type =? MSG_TYPE_LABELRELEASE)) with true
          by (by destruct Hwr as [-> | ->]).
        cbn -[rd32 be_bytes]. change (negb (Z.of_nat 4 =? LABEL_TLV_LEN)) with false. cbv match.
        unfold bind, rbind. rewrite rd32_hd, ntohl_htonl by apply Ha.
        reflexivity. }
    cbv match. cbn [o_flags o_reqid o_pw_status]. rewrite opts_of_label_opts by done. done.
Qed.

(** The completed map goes to the lde. *)
Lemma notify_lde_received cnt m e :
  msg_id = htonl cnt -> acceptable type m (e_nbr e) ->
  exists t, label_imsg_of type = Some t /\
  notify_lde_loop type msg_id msg_type (received_opts type m) [fec_part msg_id m] e
  = Ok (0, Ldpe (e_nbr e) (e_conf e) (e_msgcnt e) (e_peercnt e) (e_pids e) (e_wire e)
             (e_lde e ++ [ImsgLabel (n_peerid (e_nbr e)) t (received cnt type m)])).
Proof.
  intros Hid Ha. pose proof (ac_type _ _ _ Ha) as Ht.
  assert (exists t, label_imsg_of type = Some t) as [t Et].
  { rewrite !elem_of_cons, elem_of_nil in Ht.
    destruct Ht as [-> |[-> |[-> |[-> |[-> |[]]]]]]; by eexists. }
  exists t. split; [done|]. cbn [notify_lde_loop]. rewrite Et.
  unfold get_nbr, bind, get, ret, modify, ldpe_imsg_compose_lde.
  set (F := Z.lor (m_flags (fec_part msg_id m)) (o_flags (received_opts type m))).
  assert (has_flag F F_MAP_REQ_ID = takes_reqid type m
          /\ has_flag F F_MAP_PW_STATUS = takes_status type m) as [Hf1 Hf2].
  { unfold F, fec_part, fec_flags, received_opts. cbn [m_flags o_flags].
    destruct (takes_reqid type m), (takes_status type m); repeat case_match; done. }
  assert (received cnt type m = LdpMap (m_type m) msg_id (m_prefix m) (m_pwid m) (MapSt 0 0 0)
    (m_label m) (if takes_reqid type m then m_requestid m else 0)
    (if takes_status type m then m_pw_status m else 0) F) as -> by (by subst msg_id).
  clearbody F. cbn -[has_flag]. rewrite Hf1, Hf2.
  assert (takes_status type m = true -> m_type m = MAP_TYPE_PWID) as Hst.
  { unfold takes_status. intros H. zbool. by apply Ha. }
  pose proof (ac_canon _ _ _ Ha) as [(E & _)|[(E & _ & Haf & _)|(E & _)]].
  - rewrite E in *. cbn. destruct (takes_status type m); [by specialize (Hst eq_refl)|].
    by destruct (takes_reqid type m); rewrite <- E.
  - destruct (takes_status type m); [rewrite E in Hst; by specialize (Hst eq_refl)|].
    replace (m_type m =? MAP_TYPE_PREFIX) with true by (by rewrite E).
    destruct Haf as [Haf|Haf]; rewrite Haf; cbn -[MPLS_LABEL_IPV6NULL MPLS_LABEL_IPV4NULL].
    + destruct (ac_v4 _ _ _ Ha E Haf) as [Hen Hl]. apply Z.eqb_neq in Hl.
      rewrite Hl, Hen. by destruct (takes_reqid type m).
    + destruct (ac_v6 _ _ _ Ha E Haf) as [Hen Hl]. apply Z.eqb_neq in Hl.
      rewrite Hl, Hen. by destruct (takes_reqid type m).
  - destruct (ac_pwid _ _ _ Ha E) as [Hl _]. 
    replace (m_type m =? MAP_TYPE_PREFIX) with false by (by rewrite E).
    replace (m_type m =? MAP_TYPE_PWID) with true by (by rewrite E).
    destruct (m_label m <=? MPLS_LABEL_RESERVED_MAX) eqn:El; zbool; [lia|].
    by destruct (takes_reqid type m), (takes_status type m); cbn; rewrite ?Hf1.
Qed.
End Receive.

Section Roundtrip.
Variables (cnt type : Z) (m : ldp_map) (rest : list Z) (e : ldpe).
Hypothesis Ha : acceptable type m (e_nbr e).

Let msg_id := htonl cnt.
Let msg_type := htons type.

Lemma fec_loop_once fuel len :
  is_u 16 len -> Z.of_nat (length (fec_elm m)) <= len ->
  fec_elm_loop (S fuel) type msg_id msg_type (fec_elm m ++ rest) len
    (Z.of_nat (length (fec_elm m))) [] e
  = Ok (Some ([fec_part msg_id m], rest, len - Z.of_nat (length (fec_elm m))), e).
Proof.
  intros Hu Hlen. cbn [fec_elm_loop]. pose proof (ac_send _ _ _ Ha) as [Hm _].
  rewrite u16_small by (by apply length_fec_elm).
  rewrite (bind_ok _ _ e (Some (Z.of_nat (length (fec_elm m)), fec_part msg_id m)) e).
  2:{ rewrite <- (Z.add_0_r (Z.of_nat (length (fec_elm m)))) at 1.
      apply decode_fec_elm; [apply Ha|done|done]. }
  assert ((m_type (fec_part msg_id m) =? MAP_TYPE_PWID)
    && negb (has_flag (m_flags (fec_part msg_id m)) F_MAP_PW_ID)
    && negb (type =? MSG_TYPE_LABELWITHDRAW) && negb (type =? MSG_TYPE_LABELRELEASE) = false)
    as ->.
  { cbn [m_type m_flags fec_part]. unfold fec_flags.
    destruct (m_type m =? MAP_TYPE_PWID) eqn:E; [|done]. zbool.
    destruct (ac_pwid _ _ _ Ha E) as [_ Hp].
    destruct (has_flag (m_flags m) F_MAP_PW_ID); [by repeat case_match|].
    destruct (Hp eq_refl) as [-> | ->]; by rewrite ?andb_false_r. }
  assert ((m_type (fec_part msg_id m) =? MAP_TYPE_WILDCARD) && is_mapreqabort type = false) as ->.
  { cbn [m_type fec_part]. destruct (m_type m =? MAP_TYPE_WILDCARD) eqn:E; [|done]. zbool.
    destruct (ac_wild _ _ _ Ha E) as [-> | ->]; done. }
  rewrite Z.eqb_refl, andb_false_r, Z.sub_diag. cbv zeta.
  change (0 >? 0) with false. cbv match.
  rewrite Nat2Z.id, drop_app_length, u16_small by (unfold is_u in *; lia). done.
Qed.

Lemma recv_label_params_ok :
  let no := length (tlvs (label_opt m)) in
  let ns := length (tlvs (label_opts m)) in
  (no + ns <= 62)%nat ->
  recv_label_params type msg_id msg_type [fec_part msg_id m]
    (tlvs (label_opt m) ++ tlvs (label_opts m) ++ rest) (Z.of_nat (no + ns)) e
  = notify_lde_loop type msg_id msg_type (received_opts type m) [fec_part msg_id m] e.
Proof.
  intros no ns Hn. unfold recv_label_params. cbv zeta.
  assert (forall l, Forall (fun p => is_u 16 (fst p)) l -> (length (tlvs l) <= 62)%nat ->
    forall o, opt_loop (S (length (tlvs l))) type msg_id msg_type (tlvs l ++ rest)
      (Z.of_nat (length (tlvs l))) o e = opts_of type msg_id msg_type l o rest e) as Hopt.
  { intros l Hty Hle o. apply opt_loop_tlvs; [done|unfold is_u; lia|].
    pose proof (length_tlvs_ge l). lia. }
  pose proof (label_opts_types m) as Hty. pose proof Hty as [_ Hty']%Forall_app.
  destruct (type =? MSG_TYPE_LABELMAPPING) eqn:Em; zbool.
  - destruct (decode_label type msg_id msg_type m (tlvs (label_opts m) ++ rest)
      (Z.of_nat (no + ns)) e Em Ha) as [Ho Hd].
    { unfold no. rewrite (proj1 (decode_label type 0 0 m [] LABEL_TLV_SIZE e Em Ha ltac:(done))).
      rewrite length_tlv, length_be_bytes. unfold LABEL_TLV_SIZE. lia. }
    assert (no = 8%nat) as Hno by (unfold no; by rewrite Ho).
    rewrite (bind_ok _ _ _ _ _ Hd). cbv match. rewrite Ho, drop_app_length'
      by (by rewrite length_tlv, length_be_bytes).
    rewrite u16_small by (unfold is_u, LABEL_TLV_SIZE; lia).
    replace (Z.of_nat (no + ns) - LABEL_TLV_SIZE) with (Z.of_nat ns)
      by (unfold LABEL_TLV_SIZE; lia).
    rewrite Nat2Z.id. unfold ns. rewrite (bind_ok _ _ e (Some (received_opts type m)) e);
      [done|].
    rewrite Hopt by (done || lia). rewrite opts_of_label_opts by apply Ha. done.
  - rewrite app_assoc, <- tlvs_app, Nat2Z.id.
    replace (no + ns)%nat with (length (tlvs (label_opt m ++ label_opts m)))
      by (rewrite tlvs_app, length_app; done).
    rewrite (bind_ok _ _ e (Some (received_opts type m)) e); [done|].
    rewrite Hopt by (done || (rewrite tlvs_app, length_app; lia)).
    by rewrite opts_of_label by done.
Qed.
End Roundtrip.

(** The bytes and lengths of a message around its FEC element: the header and
    the FEC TLV are taken off, whatever label and options follow; [m'] has the
    FEC element of [m]. *)
Lemma recv_label_head cnt type m m' rest e :
  acceptable type m' (e_nbr e) -> fec_elm m' = fec_elm m -> fec_part (htonl cnt) m' = fec_part (htonl cnt) m ->
  label_sendable m -> is_u 32 cnt ->
  let n := (length (tlvs (label_opt m)) + length (tlvs (label_opts m)))%nat in
  (n <= 62)%nat /\
  recv_labelmessage (label_msg cnt type m ++ rest) (Z.of_nat (length (label_msg cnt type m))) type e
  = recv_label_params type (htonl cnt) (htons type) [fec_part (htonl cnt) m]
      (tlvs (label_opt m) ++ tlvs (label_opts m) ++ rest) (Z.of_nat n) e.
Proof.
  intros Ha Hfe Hfp Hs Hc. destruct (length_label_msg cnt type m Hs) as (Hl & Hr & Hb).
  assert (Z.of_nat (length (label_body m)) <= 62) as Hb62 by (unfold LDP_MSG_SIZE in *; lia).
  split. { unfold label_body in Hb62. rewrite !length_app in Hb62. lia. }
  rewrite Hl. unfold recv_labelmessage, label_msg. rewrite <- !app_assoc.
  rewrite (bind_ok _ _ e (htons type) e).
  2:{ apply rd16_ok; [rewrite length_app, length_be_bytes; lia|]. apply slice_hd, length_be_bytes. }
  rewrite (bind_ok _ _ e (htonl cnt) e).
  2:{ apply rd32_ok; [rewrite !length_app, !length_be_bytes; lia|].
      rewrite !slice_skip by (rewrite ?length_be_bytes; lia). rewrite !length_be_bytes.
      apply slice_hd, length_be_bytes. }
  change (drop 8 (be_bytes 2 type ++ be_bytes 2 (4 + Z.of_nat (length (label_body m)))
    ++ be_bytes 4 cnt ++ label_body m ++ rest)) with (label_body m ++ rest).
  cbv zeta. rewrite u16_small by (unfold is_u, LDP_MSG_SIZE in *; lia). rewrite <- Hb.
  clear Hr Hl. unfold label_body in *. rewrite <- !app_assoc. rewrite !length_app, length_tlv in *.
  destruct (_ <? TLV_HDR_SIZE) eqn:E; zbool; [unfold TLV_HDR_SIZE in E; lia|].
  unfold tlv at 1 2. rewrite <- !app_assoc.
  rewrite (bind_ok _ _ e (htons TLV_TYPE_FEC) e).
  2:{ apply rd16_ok; [rewrite length_app, length_be_bytes; lia|]. apply slice_hd, length_be_bytes. }
  rewrite (bind_ok _ _ e (htons (Z.of_nat (length (fec_elm m)))) e).
  2:{ apply rd16_ok; [rewrite !length_app, !length_be_bytes; lia|].
      rewrite slice_skip by (rewrite length_be_bytes; lia). rewrite length_be_bytes.
      apply slice_hd, length_be_bytes. }
  change (negb (ntohs (htons TLV_TYPE_FEC) =? TLV_TYPE_FEC)) with false. cbv match.
  rewrite ntohs_htons by (apply length_fec_elm, Hs).
  destruct (_ >? _ - TLV_HDR_SIZE) eqn:E'; zbool; [unfold TLV_HDR_SIZE in E'; lia|].
  change (drop 4 (tlv TLV_TYPE_FEC (fec_elm m) ++ tlvs (label_opt m) ++ tlvs (label_opts m)
    ++ rest)) with (fec_elm m ++ tlvs (label_opt m) ++ tlvs (label_opts m) ++ rest).
  set (no := length (tlvs (label_opt m))) in *. set (ns := length (tlvs (label_opts m))) in *.
  replace (Z.of_nat (4 + length (fec_elm m) + (no + ns)) - TLV_HDR_SIZE) with
    (Z.of_nat (length (fec_elm m)) + Z.of_nat (no + ns)) by (unfold TLV_HDR_SIZE; lia).
  rewrite u16_small by (unfold is_u; lia). rewrite <- Hfe, <- Hfp in *.
  erewrite bind_ok by (apply (fec_loop_once cnt type m' _ e Ha); unfold is_u; lia).
  cbv match. by rewrite Z.add_simpl_l.
Qed.

Lemma recv_label_msg cnt type m rest e :
  acceptable type m (e_nbr e) -> is_u 32 cnt ->
  exists t, label_imsg_of type = Some t /\
  recv_labelmessage (label_msg cnt type m ++ rest)
    (Z.of_nat (length (label_msg cnt type m))) type e
  = Ok (0, Ldpe (e_nbr e) (e_conf e) (e_msgcnt e) (e_peercnt e) (e_pids e) (e_wire e)
             (e_lde e ++ [ImsgLabel (n_peerid (e_nbr e)) t (received cnt type m)])).
Proof.
  intros Ha Hc.
  destruct (recv_label_head cnt type m m rest e Ha eq_refl eq_refl (ac_send _ _ _ Ha) Hc) as [Hn ->].
  destruct (notify_lde_received type (htonl cnt) (htons type) cnt m e eq_refl Ha) as (t & Et & Hd).
  exists t. split; [done|]. rewrite recv_label_params_ok by (done || lia). exact Hd.
Qed.

(** ** The properties *)

(** C4: a label message survives the wire.  For every acceptable map the
    message that [gen_label_msg] writes is taken by [recv_labelmessage] of the
    peer (whatever follows it in the PDU) as exactly one label message for the
    lde: same FEC, label, request identifier and pseudowire status, under the
    peer's identifier; the session itself is not touched. *)
Theorem label_message_roundtrip (cnt type size : Z) (m : ldp_map) (rest : list Z) (e : ldpe)
    (Ha : acceptable type m (e_nbr e)) (Hc : is_u 32 cnt) (Hs : label_msg_size m <= size) :
  exists bytes t, gen_label_msg cnt type m (ibuf_open size) = Ok (0, Ibuf bytes size size) /\
    label_imsg_of type = Some t /\
    recv_labelmessage (bytes ++ rest) (Z.of_nat (length bytes)) type e
    = Ok (0, Ldpe (e_nbr e) (e_conf e) (e_msgcnt e) (e_peercnt e) (e_pids e) (e_wire e)
               (e_lde e ++ [ImsgLabel (n_peerid (e_nbr e)) t (received cnt type m)])).
Proof.
  destruct (recv_label_msg cnt type m rest e Ha Hc) as (t & Et & Hr).
  destruct (length_label_msg cnt type m (ac_send _ _ _ Ha)) as [Hl _].
  exists (label_msg cnt type m), t. split_and!; [|done|done].
  apply (gen_label_msg_emits cnt type m (ac_send _ _ _ Ha) [] size). cbn [length]. lia.
Qed.

(** An operational session and two maps: an IPv4 prefix with a label and a
    pseudowire with group, identifier, control word, MTU and status. *)
Definition ldpe_oper : ldpe :=
  Ldpe (Nbr 2 AF_INET true false 0x04040404 zero_addr zero_addr NBR_STA_OPER 0 180 96 true
          false (Timers (Some 60) (Some 180) None None))
    (LdpeConf 0x06060606 0 180 180 [] []) 7 2 [2] [] [].
Definition map_prefix_ex : ldp_map :=
  LdpMap MAP_TYPE_PREFIX 0 (PrefixElm AF_IPV4 24 ([10; 1; 2] ++ replicate 13 0))
    (PwidElm 0 0 0 0) (MapSt 0 0 0) 100 77 0 F_MAP_REQ_ID.
Definition map_pwid_ex : ldp_map :=
  LdpMap MAP_TYPE_PWID 0 (PrefixElm 0 0 zero_addr)
    (PwidElm 5 1000 7 1500) (MapSt 0 0 0) 1048575 0 3
    (Z.lor F_MAP_PW_CWORD (Z.lor F_MAP_PW_ID (Z.lor F_MAP_PW_IFMTU F_MAP_PW_STATUS))).

Lemma map_pwid_ex_acceptable : acceptable MSG_TYPE_LABELMAPPING map_pwid_ex (e_nbr ldpe_oper).
Proof.
  assert (bytes_ok zero_addr) as Hz by (repeat constructor; vm_compute; intuition congruence).
  constructor; try (vm_compute; intuition (congruence || discriminate)).
  - set_solver.
Qed.

Lemma map_prefix_ex_sendable : label_sendable map_prefix_ex.
Proof.
  split; [|done]. split_and!; try (vm_compute; intuition congruence).
  split; [done|]. repeat constructor; vm_compute; intuition congruence.
Qed.

Lemma map_prefix_ex_canonical : fec_canonical map_prefix_ex.
Proof.
  right; left. split; [done|]. split; [done|]. split; [by left|]. split; [by vm_compute|].
  split; [done|]. split; [|done]. repeat constructor; vm_compute; intuition congruence.
Qed.

Lemma label_message_roundtrip_witness :
  exists bytes t, gen_label_msg 8 MSG_TYPE_LABELMAPPING map_pwid_ex (ibuf_open 4096)
      = Ok (0, Ibuf bytes 4096 4096) /\
    label_imsg_of MSG_TYPE_LABELMAPPING = Some t /\
    recv_labelmessage (bytes ++ [1; 2; 3]) (Z.of_nat (length bytes)) MSG_TYPE_LABELMAPPING ldpe_oper
    = Ok (0, Ldpe (e_nbr ldpe_oper) (e_conf ldpe_oper) 7 2 [2] []
               [ImsgLabel 2 t (received 8 MSG_TYPE_LABELMAPPING map_pwid_ex)]).
Proof.
  apply (label_message_roundtrip 8 MSG_TYPE_LABELMAPPING 4096 map_pwid_ex [1; 2; 3] ldpe_oper);
    [exact map_pwid_ex_acceptable|vm_compute; intuition congruence|vm_compute; congruence].
Defined.

Lemma send_labelmessage_correct_witness :
  exists e' groups,
    send_labelmessage MSG_TYPE_LABELMAPPING [map_prefix_ex; map_pwid_ex; map_pwid_ex] ldpe_oper
      = Ok ([], e') /\ concat groups = [map_prefix_ex; map_pwid_ex; map_pwid_ex] /\
    sent ldpe_oper e' (pdu_bodies 8 MSG_TYPE_LABELMAPPING groups).
Proof.
  apply (send_labelmessage_correct MSG_TYPE_LABELMAPPING
           [map_prefix_ex; map_pwid_ex; map_pwid_ex] ldpe_oper).
  - discriminate.
  - repeat first [apply Forall_cons_2 | exact (Forall_nil_2 _)];
      first [exact map_prefix_ex_sendable | exact (ac_send _ _ _ map_pwid_ex_acceptable)].
  - split; [reflexivity|]. split; [reflexivity|]. vm_compute. intuition congruence.
  - vm_compute. intuition congruence.
Defined.

(** FEC elements round trip.  The element the encoder writes for a
    canonical map, followed by anything, is decoded back to the FEC part of the
    map with the right length; further elements may follow a prefix element in
    the same TLV, the other elements must end it. *)
Theorem fec_element_roundtrip (msg_id msg_type : Z) (m : ldp_map) (rest : list Z) (extra : Z)
    (e : ldpe) (Hc : fec_canonical m) (Hm : map_sendable m) (Hx : 0 <= extra)
    (Hl : m_type m <> MAP_TYPE_PREFIX -> extra = 0) :
  emits (gen_fec_tlv m) (tlv TLV_TYPE_FEC (fec_elm m)) /\
  tlv_decode_fec_elm msg_id msg_type (fec_elm m ++ rest)
    (Z.of_nat (length (fec_elm m)) + extra) (set_m_msg_id map_zero msg_id) e
  = Ok (Some (Z.of_nat (length (fec_elm m)), fec_part msg_id m), e).
Proof. split; [by apply gen_fec_tlv_emits|by apply decode_fec_elm]. Qed.

Lemma fec_element_roundtrip_witness :
  tlv_decode_fec_elm 5 6 ([2; 0; 1; 24; 10; 1; 2] ++ [2; 0; 1]) 10 (set_m_msg_id map_zero 5)
    ldpe_oper
  = Ok (Some (7, fec_part 5 map_prefix_ex), ldpe_oper).
Proof.
  destruct (fec_element_roundtrip 5 6 map_prefix_ex [2; 0; 1] 3 ldpe_oper) as [_ H].
  - exact map_prefix_ex_canonical.
  - exact (proj1 map_prefix_ex_sendable).
  - vm_compute. congruence.
  - intros Hn. exfalso. apply Hn. reflexivity.
  - exact H.
Defined.
