(* ===== verification/LabelFwd.v ===== *)
(** * What the label message parser passes on

    A label message comes from the network, the maps the lde receives must not
    be trusted less than its own: [forwarded] says what every map that
    [recv_labelmessage] (ldpd/labelmapping.c) hands to the lde satisfies.  The
    calculus [tells] follows the messages a computation appends to the queue of
    the lde, together with what is known of its result. *)
From stdpp Require Import prelude strings list.
From Stdlib Require Import ZArith Lia.
From S2P Require Import Prelude Util Wire Ipc Session LabelMsg.

(** ** Well-formed maps *)

(** A FEC element the decoder accepts in a message of the given type.  The
    length of a prefix is bounded by the address field, not by its family. *)
Record fec_decoded (type : Z) (m : ldp_map) : Prop := FecDecoded {
  fd_type : m_type m ∈ [MAP_TYPE_WILDCARD; MAP_TYPE_PREFIX; MAP_TYPE_PWID];
  fd_prefix : m_type m = MAP_TYPE_PREFIX ->
    (pe_af (m_prefix m) = AF_IPV4 \/ pe_af (m_prefix m) = AF_IPV6) /\
    0 <= pe_prefixlen (m_prefix m) <= 128 /\ length (pe_prefix (m_prefix m)) = 16%nat;
  fd_wild : m_type m = MAP_TYPE_WILDCARD ->
    type <> MSG_TYPE_LABELMAPPING /\ type <> MSG_TYPE_LABELREQUEST /\ type <> MSG_TYPE_LABELABORTREQ;
  fd_pwid : m_type m = MAP_TYPE_PWID -> has_flag (m_flags m) F_MAP_PW_ID = false ->
    type = MSG_TYPE_LABELWITHDRAW \/ type = MSG_TYPE_LABELRELEASE
}.

(** A map the lde may receive: a decoded FEC with a label that fits it. *)
Record forwarded (type : Z) (m : ldp_map) : Prop := Forwarded {
  fw_fec : fec_decoded type m;
  fw_label : is_u 32 (m_label m);
  fw_map : type = MSG_TYPE_LABELMAPPING -> m_label m <= MPLS_LABEL_MAX /\
    (MPLS_LABEL_RESERVED_MAX < m_label m \/
     m_label m ∈ [MPLS_LABEL_IPV4NULL; MPLS_LABEL_IPV6NULL; MPLS_LABEL_IMPLNULL]);
  fw_req : type = MSG_TYPE_LABELREQUEST \/ type = MSG_TYPE_LABELABORTREQ -> m_label m = NO_LABEL;
  fw_pwid : m_type m = MAP_TYPE_PWID -> MPLS_LABEL_RESERVED_MAX < m_label m;
  fw_v4 : m_type m = MAP_TYPE_PREFIX -> pe_af (m_prefix m) = AF_IPV4 ->
    m_label m <> MPLS_LABEL_IPV6NULL;
  fw_v6 : m_type m = MAP_TYPE_PREFIX -> pe_af (m_prefix m) = AF_IPV6 ->
    m_label m <> MPLS_LABEL_IPV4NULL
}.

(** A message for the lde while a label message of the given type is read. *)
Definition well_told (type : Z) (i : ldpe_to_lde) : Prop :=
  match i with
  | ImsgLabel _ t m => label_imsg_of type = Some t /\ forwarded type m
  | _ => True
  end.
Definition told_well (type : Z) (e e' : ldpe) : Prop :=
  exists l, e_lde e' = e_lde e ++ l /\ Forall (well_told type) l.
#[export] Instance told_well_preorder type : PreOrder (told_well type).
Proof.
  split; [intros e; exists []; by rewrite app_nil_r|].
  intros a b c (l & Hl & Fl) (l' & Hl' & Fl'). exists (l ++ l').
  rewrite Hl', Hl, app_assoc. split; [done|by apply Forall_app].
Qed.

(** ** The calculus *)
Section Tells.
Variable type : Z.

Definition tells {A} (c : ST ldpe A) (R : A -> Prop) : Prop :=
  forall e a e', c e = Ok (a, e') -> R a /\ told_well type e e'.

Lemma tells_bind {A B} (c : ST ldpe A) (k : A -> ST ldpe B) P R :
  tells c P -> (forall a, P a -> tells (k a) R) -> tells (bind c k) R.
Proof.
  intros Hc Hk e b e' H. apply bind_inv in H as (a & e1 & H1 & H2).
  destruct (Hc _ _ _ H1) as [Ha T1], (Hk a Ha _ _ _ H2) as [Hb T2]. split; [done|by etrans].
Qed.
Lemma tells_seq {A B} (c : ST ldpe A) (k : A -> ST ldpe B) R :
  tells c (fun _ => True) -> (forall a, tells (k a) R) -> tells (bind c k) R.
Proof. intros Hc Hk. eapply tells_bind; [done|auto]. Qed.
Lemma tells_mono {A} (c : ST ldpe A) (P R : A -> Prop) :
  tells c P -> (forall a, P a -> R a) -> tells c R.
Proof. intros Hc HR e a e' H. destruct (Hc _ _ _ H). auto. Qed.
Lemma tells_ret {A} (a : A) (R : A -> Prop) : R a -> tells (ret a) R.
Proof. intros HR e ? ? H. unfold ret in H. by simplify_eq. Qed.
Lemma tells_get (R : ldpe -> Prop) : (forall e, R e) -> tells get R.
Proof. intros HR e ? ? H. unfold get in H. by simplify_eq. Qed.
Lemma tells_get_nbr (R : nbr -> Prop) : (forall n, R n) -> tells get_nbr R.
Proof. intros HR. apply (tells_bind _ _ (fun _ => True)); [by apply tells_get|intros; by apply tells_ret]. Qed.
Lemma tells_none {A} (c : ST ldpe A) R : (forall e a e', c e <> Ok (a, e')) -> tells c R.
Proof. intros H e a e' E. by destruct (H e a e'). Qed.
Lemma tells_same {A} (c : ST ldpe A) (R : A -> Prop) :
  (forall e a e', c e = Ok (a, e') -> R a /\ e_lde e' = e_lde e) -> tells c R.
Proof.
  intros Hc e a e' H. destruct (Hc _ _ _ H) as [HR E]. split; [done|].
  exists []. by rewrite app_nil_r.
Qed.
Lemma tells_lift {A} (r : res A) : tells (lift r) (fun _ => True).
Proof. apply tells_same. intros e ? ? H. unfold lift in H. destruct r; by simplify_eq/=. Qed.
Lemma tells_with_ibuf size g : tells (with_ibuf size g) (fun _ => True).
Proof. apply tells_lift. Qed.
Lemma tells_mod f : tells (mod_nbr f) (fun _ => True).
Proof. apply tells_same. intros e ? ? H. unfold mod_nbr, modify in H. by simplify_eq. Qed.
Lemma tells_fatal {A} w R : tells (@fatalx ldpe A w) R.
Proof. by apply tells_none. Qed.
Lemma tells_undef {A} w R : tells (@undef ldpe A w) R.
Proof. by apply tells_none. Qed.
Lemma tells_nofuel {A} R : tells (@nofuel ldpe A) R.
Proof. by apply tells_none. Qed.
Lemma tells_imsg m : well_told type m -> tells (ldpe_imsg_compose_lde m) (fun _ => True).
Proof.
  intros Hm e ? ? H. unfold ldpe_imsg_compose_lde, modify in H. simplify_eq. split; [done|].
  exists [m]. split; [done|by apply Forall_singleton].
Qed.
Lemma tells_enqueue pdu : tells (evbuf_enqueue pdu) (fun _ => True).
Proof. apply tells_same. intros e ? ? H. unfold evbuf_enqueue in H. by case_match; simplify_eq/=. Qed.
Lemma tells_msgcnt : tells next_msgcnt (fun _ => True).
Proof. apply tells_same. intros e ? ? H. unfold next_msgcnt in H. by case_match; simplify_eq/=. Qed.
Lemma tells_tcp_close : tells tcp_close (fun _ => True).
Proof. apply tells_same. intros e ? ? H. unfold tcp_close in H. by case_match; simplify_eq/=. Qed.
Lemma tells_peerid : tells nbr_update_peerid (fun _ => True).
Proof.
  apply tells_same. intros e ? ? H. unfold nbr_update_peerid in H.
  apply bind_inv in H as (e0 & e1 & H0 & H). unfold get in H0. simplify_eq.
  apply bind_inv in H as (pid & e2 & H2 & H). unfold lift in H2.
  destruct (next_peerid _ _ _); simplify_eq/=. unfold put in H. by simplify_eq.
Qed.
End Tells.

#[export] Hint Resolve tells_lift tells_with_ibuf tells_mod tells_fatal tells_undef tells_nofuel
  tells_enqueue tells_msgcnt tells_tcp_close tells_peerid : ldp.

(** Decompose code whose result does not matter. *)
Ltac tells_step :=
  lazymatch goal with
  | |- tells _ (bind _ _) _ => apply tells_seq; [|intros ?]
  | |- tells _ (ret _) _ => apply tells_ret; exact I
  | |- tells _ get _ => apply tells_get; intros; exact I
  | |- tells _ get_nbr _ => apply tells_get_nbr; intros; exact I
  | |- tells _ (ldpe_imsg_compose_lde _) _ => apply tells_imsg; exact I
  | |- tells _ (mod_timers _) _ => unfold mod_timers
  | |- tells _ (match ?x with _ => _ end) _ => destruct x
  | |- _ => solve [eauto with ldp]
  end.
Ltac tells_solve := repeat tells_step.

(** ** The session *)
Section TellsSession.
Variable type : Z.
Notation quiet c := (tells type c (fun _ => True)).

Lemma tells_send_notification_full nm : quiet (send_notification_full nm).
Proof. unfold send_notification_full. tells_solve. Qed.
Lemma tells_send_keepalive : quiet send_keepalive.
Proof. unfold send_keepalive. tells_solve. Qed.
Lemma tells_send_init : quiet send_init.
Proof. unfold send_init. tells_solve. Qed.
Lemma tells_send_address fsm af a w : (forall ev, quiet (fsm ev)) -> quiet (send_address fsm af a w).
Proof. intros H. unfold send_address. repeat first [apply H | tells_step]. Qed.

Lemma tells_fsm_body fsm ev : (forall ev, quiet (fsm ev)) -> quiet (nbr_fsm_body fsm ev).
Proof.
  intros H. unfold nbr_fsm_body, nbr_stop_itimeout, nbr_start_itimeout, nbr_start_ktimeout,
    nbr_start_ktimer, nbr_act_session_operational, nbr_send_labelmappings, session_close,
    nbr_stop_ktimer, nbr_stop_ktimeout, nbr_stop_itimeout.
  repeat first [apply tells_send_address; done | apply tells_send_init | apply tells_send_keepalive
               | apply H | tells_step].
Qed.
Lemma tells_fsm_n d ev : quiet (nbr_fsm_n d ev).
Proof.
  revert ev; induction d as [|d IH]; intros ev; [apply tells_nofuel|].
  rewrite nbr_fsm_n_S. by apply tells_fsm_body.
Qed.
Lemma tells_fsm ev : quiet (nbr_fsm ev).
Proof. apply tells_fsm_n. Qed.
Lemma tells_notify_nbr st i t : quiet (send_notification_nbr st i t).
Proof.
  unfold send_notification_nbr, send_notification.
  repeat first [apply tells_fsm | apply tells_send_notification_full | tells_step].
Qed.
Lemma tells_shutdown st i t : quiet (session_shutdown st i t).
Proof.
  unfold session_shutdown, send_notification_nbr, send_notification.
  repeat first [apply tells_fsm | apply tells_send_notification_full | tells_step].
Qed.
Lemma tells_fail_shutdown {A} st i t (R : option A -> Prop) : R None -> tells type (fail_shutdown st i t) R.
Proof. intros HR. apply tells_seq; [apply tells_shutdown|intros; by apply tells_ret]. Qed.
Lemma tells_fail_notify {A} st i t (R : option A -> Prop) : R None -> tells type (fail_notify st i t) R.
Proof. intros HR. apply tells_seq; [apply tells_notify_nbr|intros; by apply tells_ret]. Qed.
End TellsSession.
#[export] Hint Resolve tells_fsm tells_notify_nbr tells_shutdown : ldp.

(** ** The parser *)
Section TellsParser.
Variable type : Z.

Lemma tells_rd off n buf : bytes_ok buf ->
  tells type (rd off n buf) (fun bs => bytes_ok bs /\ length bs = n).
Proof.
  intros Hok. apply tells_same. intros e bs e' H. unfold rd in H.
  destruct (Nat.leb_spec (off + n) (length buf)) as [Hl|]; [|done]. unfold ret in H. simplify_eq.
  split; [|done]. split; [by apply Forall_take, Forall_drop|].
  unfold slice. rewrite length_take, length_drop. lia.
Qed.
Lemma tells_rd8 off buf : bytes_ok buf -> tells type (rd8 off buf) is_byte.
Proof.
  intros Hok. eapply tells_bind; [by apply tells_rd|]. intros bs [Hb Hl]. apply tells_ret.
  pose proof (le_val_bound bs Hb) as H. rewrite Hl in H. exact H.
Qed.
Lemma tells_rd16 off buf : bytes_ok buf -> tells type (rd16 off buf) (fun _ => True).
Proof. intros Hok. eapply tells_bind; [by apply tells_rd|]. intros. by apply tells_ret. Qed.
Lemma tells_rd32 off buf : bytes_ok buf -> tells type (rd32 off buf) (fun _ => True).
Proof. intros Hok. eapply tells_bind; [by apply tells_rd|]. intros. by apply tells_ret. Qed.

Lemma length_fill_addr bs : (length bs <= 16)%nat -> length (fill_addr bs) = 16%nat.
Proof. intros H. unfold fill_addr. rewrite length_app, length_drop. change (length zero_addr) with 16%nat. lia. Qed.
Lemma has_flag_lor a b f : has_flag (Z.lor a b) f = false -> has_flag a f = false.
Proof.
  unfold has_flag. rewrite !negb_false_iff, !Z.eqb_eq, Z.land_comm, Z.land_lor_distr_r, Z.land_comm.
  intros H. apply Z.lor_eq_0_iff in H. tauto.
Qed.
Lemma has_flag_refl a f : f <> 0 -> has_flag (Z.lor a f) f = true.
Proof.
  intros Hf. destruct (has_flag (Z.lor a f) f) eqn:E; [done|].
  rewrite Z.lor_comm in E. apply has_flag_lor in E. unfold has_flag in E.
  rewrite Z.land_diag, negb_false_iff, Z.eqb_eq in E. done.
Qed.

Section Bytes.
Variables (msg_id msg_type : Z) (buf : list Z).
Hypothesis Hok : bytes_ok buf.

Lemma tells_subtlv fuel : forall off len map,
  has_flag (m_flags map) F_MAP_PW_ID = true ->
  tells type (subtlv_loop fuel msg_id msg_type buf off len map) (fun r =>
    forall t m, r = Some (t, m) -> m_type m = m_type map /\ has_flag (m_flags m) F_MAP_PW_ID = true).
Proof.
  induction fuel as [|fuel IH]; intros off len map Hm; unfold subtlv_loop; fold subtlv_loop;
    [apply tells_nofuel|].
  assert (forall a b map', m_type map' = m_type map -> has_flag (m_flags map') F_MAP_PW_ID = true ->
    tells type (subtlv_loop fuel msg_id msg_type buf a b map') (fun r => forall t m, r = Some (t, m) ->
      m_type m = m_type map /\ has_flag (m_flags m) F_MAP_PW_ID = true)) as Hnext.
  { intros a b map' Ht Hf. eapply tells_mono; [by apply IH|]. intros r Hr t m E.
    destruct (Hr _ _ E). split; [congruence|done]. }
  destruct (negb (len >? 0)); [by apply tells_ret; intros; simplify_eq|].
  destruct (len <? SUBTLV_HDR_SIZE); [by apply tells_fail_shutdown|].
  eapply tells_bind; [by apply tells_rd8|]. intros stype _.
  eapply tells_bind; [by apply tells_rd8|]. intros slen _.
  destruct (slen >? len); [by apply tells_fail_shutdown|].
  destruct (stype =? SUBTLV_IFMTU); [|by apply Hnext].
  destruct (negb _); [by apply tells_fail_shutdown|].
  eapply tells_bind; [by apply tells_rd16|]. intros mtu _. apply Hnext; [done|].
  cbn. destruct (has_flag (Z.lor _ _) _) eqn:E; [done|]. apply has_flag_lor in E. congruence.
Qed.

(** An element as decoded, before the checks on the type of the message. *)
Record elm_decoded (m : ldp_map) : Prop := ElmDecoded {
  ed_type : m_type m ∈ [MAP_TYPE_WILDCARD; MAP_TYPE_PREFIX; MAP_TYPE_PWID];
  ed_prefix : m_type m = MAP_TYPE_PREFIX ->
    (pe_af (m_prefix m) = AF_IPV4 \/ pe_af (m_prefix m) = AF_IPV6) /\
    0 <= pe_prefixlen (m_prefix m) <= 128 /\ length (pe_prefix (m_prefix m)) = 16%nat
}.
Lemma elm_other m ty : m_type m = ty -> ty = MAP_TYPE_WILDCARD \/ ty = MAP_TYPE_PWID -> elm_decoded m.
Proof. intros <- H. split; [set_solver|]. intros E. rewrite E in H. by destruct H. Qed.

Lemma tells_fec_elm len map :
  tells type (tlv_decode_fec_elm msg_id msg_type buf len map)
    (fun r => forall t m, r = Some (t, m) -> elm_decoded m).
Proof.
  unfold tlv_decode_fec_elm. eapply tells_bind; [by apply tells_rd8|]. intros ty _.
  destruct (ty =? MAP_TYPE_WILDCARD) eqn:E1; zbool.
  { destruct (len =? _); [|by apply tells_fail_shutdown].
    apply tells_ret. intros t m ?. simplify_eq. eapply elm_other; eauto. }
  destruct (ty =? MAP_TYPE_PREFIX) eqn:E2; zbool.
  { destruct (len <? FEC_ELM_PREFIX_MIN_LEN); [by apply tells_fail_shutdown|].
    eapply tells_bind; [by apply tells_rd16|]. intros af _.
    destruct (_ && _) eqn:Eaf; [by apply tells_fail_notify|].
    eapply tells_bind; [by apply tells_rd8|]. intros pl Hpl.
    destruct (len <? _); [by apply tells_fail_shutdown|].
    eapply tells_bind; [by apply tells_rd|]. intros bs [_ Hl].
    destruct (PREFIX_SIZE pl >? 16) eqn:E16; [apply tells_undef|]. zbool.
    apply tells_ret. intros t m ?. simplify_eq. split; [cbn; set_solver|]. intros _. cbn.
    apply andb_false_iff in Eaf. unfold is_byte in Hpl. unfold PREFIX_SIZE in E16.
    split; [destruct Eaf; zbool; auto|]. split; [|apply length_fill_addr; unfold PREFIX_SIZE in Hl; lia].
    split; [lia|]. pose proof (Z.div_mod (pl + 7) 8 ltac:(lia)).
    pose proof (Z.mod_pos_bound (pl + 7) 8 ltac:(lia)). lia. }
  destruct (ty =? MAP_TYPE_PWID) eqn:E3; [|by apply tells_fail_notify]. zbool.
  destruct (len <? FEC_PWID_ELM_MIN_LEN); [by apply tells_fail_shutdown|].
  eapply tells_bind; [by apply tells_rd16|]. intros pty _.
  eapply tells_bind; [by apply tells_rd8|]. intros pw_len _.
  destruct (negb (len =? _)); [by apply tells_fail_shutdown|].
  eapply tells_bind; [by apply tells_rd32|]. intros gid _.
  destruct (pw_len =? 0).
  { apply tells_ret. intros t m ?. simplify_eq. eapply elm_other; eauto. }
  destruct (pw_len <? 4); [by apply tells_fail_shutdown|].
  eapply tells_bind; [by apply tells_rd32|]. intros pwid _.
  eapply tells_mono; [apply tells_subtlv; by apply has_flag_refl|].
  intros r Hr t m E. destruct (Hr _ _ E). eapply elm_other; eauto.
Qed.
End Bytes.

Lemma tells_fec_loop msg_id msg_type fuel : forall buf len feclen mh,
  bytes_ok buf -> Forall (fec_decoded type) mh ->
  tells type (fec_elm_loop fuel type msg_id msg_type buf len feclen mh) (fun r =>
    forall mh' b l, r = Some (mh', b, l) -> Forall (fec_decoded type) mh' /\ bytes_ok b).
Proof.
  induction fuel as [|fuel IH]; intros buf len feclen mh Hok Hmh; cbn [fec_elm_loop];
    [apply tells_nofuel|].
  eapply tells_bind; [by apply tells_fec_elm|]. intros [[tlen map]|] Hd; [|by apply tells_ret].
  destruct (Hd _ _ eq_refl) as [Hty Hpre].
  destruct (_ && negb (type =? MSG_TYPE_LABELRELEASE)) eqn:E1; [by apply tells_fail_notify|].
  destruct (_ && is_mapreqabort type) eqn:E2; [by apply tells_fail_shutdown|].
  destruct (_ && negb (tlen =? feclen)); [by apply tells_fail_shutdown|]. cbv zeta.
  assert (Forall (fec_decoded type) (mh ++ [map])) as Hmh'.
  { apply Forall_app. split; [done|]. apply Forall_singleton. split; try done.
    - intros Hw. rewrite Hw in E2. cbn in E2. unfold is_mapreqabort in E2.
      apply orb_false_iff in E2 as [[? ?]%orb_false_iff ?]. zbool. done.
    - intros Hp Hf. rewrite Hp, Hf in E1. cbn in E1. apply andb_false_iff in E1 as [E1|E1]; zbool; auto. }
  destruct (_ >? 0); [apply IH; [by apply Forall_drop|done]|].
  apply tells_ret. intros mh' b l ?. simplify_eq. split; [done|by apply Forall_drop].
Qed.

Lemma tells_label_tlv msg_id msg_type buf len : bytes_ok buf ->
  tells type (tlv_decode_label msg_id msg_type buf len) (fun r => forall n label, r = Some (n, label) ->
    is_u 32 label /\ label <= MPLS_LABEL_MAX /\ (MPLS_LABEL_RESERVED_MAX < label \/
      label ∈ [MPLS_LABEL_IPV4NULL; MPLS_LABEL_IPV6NULL; MPLS_LABEL_IMPLNULL])).
Proof.
  intros Hok. unfold tlv_decode_label. destruct (len <? _); [by apply tells_fail_shutdown|].
  do 2 (eapply tells_bind; [by apply tells_rd16|]; intros ? _).
  eapply tells_bind; [by apply tells_rd32|]. intros lb _.
  destruct (negb (has_flag _ _)); [by apply tells_fail_notify|].
  destruct (_ =? TLV_TYPE_GENERICLABEL); [|by apply tells_fail_shutdown].
  destruct (negb _); [by apply tells_fail_shutdown|]. cbv zeta.
  destruct (_ || _) eqn:E; [by apply tells_fail_shutdown|].
  apply tells_ret. intros n label ?. simplify_eq. split; [apply htonl_bound|].
  apply orb_false_iff in E as [E1 E2]. zbool. split; [lia|].
  apply andb_false_iff in E2 as [E2|E2]; [|right; zbool; rewrite E2; set_solver].
  apply andb_false_iff in E2 as [E2|E2]; [|right; zbool; rewrite E2; set_solver].
  apply andb_false_iff in E2 as [E2|E2]; [left; zbool; lia|right; zbool; rewrite E2; set_solver].
Qed.

(** Only withdraws and releases take their label from the optional part. *)
Definition label_kept (o o' : opts) : Prop :=
  (is_u 32 (o_label o) -> is_u 32 (o_label o')) /\
  (type <> MSG_TYPE_LABELWITHDRAW -> type <> MSG_TYPE_LABELRELEASE -> o_label o' = o_label o).

Lemma label_kept_refl o : label_kept o o.
Proof. done. Qed.

Lemma tells_opt_param msg_id msg_type ty tlv_len body o : bytes_ok body ->
  tells type (opt_param type msg_id msg_type ty tlv_len body o)
    (fun r => forall o', r = Some o' -> label_kept o o').
Proof.
  intros Hok. unfold opt_param.
  repeat match goal with
  | |- tells _ (if ?b then _ else _) _ => destruct b eqn:?; zbool
  end;
  first [by apply tells_fail_shutdown
        | apply tells_ret; intros; simplify_eq; apply label_kept_refl
        | apply tells_bind with (P := fun _ => True);
          [first [by apply tells_rd32 | by apply tells_notify_nbr | by apply tells_ret
                 | destruct (negb _); [by apply tells_notify_nbr|by apply tells_ret]]
          |intros ? _; apply tells_ret; intros; simplify_eq; split; cbn; try done;
           try (intros; apply htonl_bound); 
           intros; match goal with H : _ || _ = true |- _ => apply orb_true_iff in H as [H|H]; zbool; done end]].
Qed.

Lemma tells_opt_loop msg_id msg_type fuel : forall buf len o, bytes_ok buf ->
  tells type (opt_loop fuel type msg_id msg_type buf len o)
    (fun r => forall o', r = Some o' -> label_kept o o').
Proof.
  induction fuel as [|fuel IH]; intros buf len o Hok; cbn [opt_loop]; [apply tells_nofuel|].
  destruct (negb (len >? 0)); [apply tells_ret; intros; simplify_eq; apply label_kept_refl|].
  destruct (len <? TLV_HDR_SIZE); [by apply tells_fail_shutdown|].
  do 2 (eapply tells_bind; [by apply tells_rd16|]; intros ? _).
  destruct (_ >? len); [by apply tells_fail_shutdown|]. cbv zeta.
  eapply tells_bind; [by apply tells_opt_param, Forall_drop|].
  intros [o1|] H1; [|by apply tells_ret]. destruct (H1 _ eq_refl) as [A1 B1].
  eapply tells_mono; [apply IH; by apply Forall_drop, Forall_drop|].
  intros r Hr o' E. destruct (Hr _ E) as [A2 B2]. split; [auto|].
  intros ? ?. rewrite B2, B1; auto.
Qed.

(** What is known of the label when the lde is told. *)
Record label_known (label : Z) : Prop := LabelKnown {
  lk_u : is_u 32 label;
  lk_map : type = MSG_TYPE_LABELMAPPING -> label <= MPLS_LABEL_MAX /\
    (MPLS_LABEL_RESERVED_MAX < label \/
     label ∈ [MPLS_LABEL_IPV4NULL; MPLS_LABEL_IPV6NULL; MPLS_LABEL_IMPLNULL]);
  lk_req : type = MSG_TYPE_LABELREQUEST \/ type = MSG_TYPE_LABELABORTREQ -> label = NO_LABEL
}.

Lemma tells_notify_lde msg_id msg_type o mh : label_known (o_label o) ->
  Forall (fec_decoded type) mh ->
  tells type (notify_lde_loop type msg_id msg_type o mh) (fun _ => True).
Proof.
  intros [Hu Hm Hq]. induction 1 as [|m mh Hd _ IH]; cbn [notify_lde_loop]; [by apply tells_ret|].
  apply tells_seq; [by apply tells_get_nbr|]. intros n.
  assert (tells type (session_shutdown S_BAD_TLV_VAL msg_id msg_type;;; ret (-1)) (fun _ => True)) as Hbad
    by tells_solve.
  assert (forall m' : ldp_map, m_type m' = m_type m -> m_prefix m' = m_prefix m ->
    (has_flag (m_flags m') F_MAP_PW_ID = false -> has_flag (m_flags m) F_MAP_PW_ID = false) ->
    (m_type m = MAP_TYPE_PWID -> MPLS_LABEL_RESERVED_MAX < o_label o) ->
    (m_type m = MAP_TYPE_PREFIX -> pe_af (m_prefix m) = AF_IPV4 -> o_label o <> MPLS_LABEL_IPV6NULL) ->
    (m_type m = MAP_TYPE_PREFIX -> pe_af (m_prefix m) = AF_IPV6 -> o_label o <> MPLS_LABEL_IPV4NULL) ->
    tells type
     (let m0 := set_m_label m' (o_label o) in
      let m1 := if has_flag (m_flags m0) F_MAP_REQ_ID then set_m_requestid m0 (o_reqid o) else m0 in
      do n <- get_nbr;
      match label_imsg_of type with
      | Some t => ldpe_imsg_compose_lde (ImsgLabel (n_peerid n) t m1)
      | None => ret tt
      end;;; notify_lde_loop type msg_id msg_type o mh) (fun _ => True)) as Hsend.
  { intros m' Ht Hp Hf Hpw H4 H6. cbv zeta. apply tells_seq; [by apply tells_get_nbr|].
    intros n'. apply tells_seq; [|done].
    destruct (label_imsg_of type) as [t|] eqn:Et; [|by apply tells_ret].
    apply tells_imsg. split; [done|]. destruct Hd as [D1 D2 D3 D4].
    destruct (has_flag (m_flags (set_m_label _ _)) _); (split; cbn; rewrite ?Ht, ?Hp; auto; split; cbn; rewrite ?Ht, ?Hp; auto). }
  cbn [m_type m_prefix set_m_flags].
  assert (forall f, has_flag (Z.lor (m_flags m) f) F_MAP_PW_ID = false ->
    has_flag (m_flags m) F_MAP_PW_ID = false) as Hlor by (intros f; apply has_flag_lor).
  destruct (m_type m =? MAP_TYPE_PREFIX) eqn:E1; zbool.
  - assert (m_type m <> MAP_TYPE_PWID) by (by rewrite E1).
    destruct (_ =? AF_IPV4) eqn:E4; zbool.
    + destruct (_ =? MPLS_LABEL_IPV6NULL) eqn:E; [done|]. zbool. destruct (negb _); [done|].
      apply Hsend; cbn; eauto; try done. rewrite E4. done.
    + destruct (_ =? AF_IPV6) eqn:E6; [|apply tells_fatal]. zbool.
      destruct (_ =? MPLS_LABEL_IPV4NULL) eqn:E; [done|]. zbool. destruct (negb _); [done|].
      apply Hsend; cbn; eauto; try done.
  - destruct (m_type m =? MAP_TYPE_PWID) eqn:E2; zbool.
    + destruct (_ <=? _) eqn:E; [done|]. zbool.
      destruct (has_flag _ F_MAP_PW_STATUS); apply Hsend; cbn; eauto; done.
    + apply Hsend; cbn; eauto; done.
Qed.

Lemma tells_label_params msg_id msg_type mh buf len : bytes_ok buf ->
  Forall (fec_decoded type) mh ->
  tells type (recv_label_params type msg_id msg_type mh buf len) (fun _ => True).
Proof.
  intros Hok Hmh. unfold recv_label_params. cbv zeta.
  assert (forall b l label, bytes_ok b -> label_known label -> tells type
    (do r <- opt_loop (S (Z.to_nat l)) type msg_id msg_type b l (Opts 0 label 0 0);
     match r with
     | Some o => notify_lde_loop type msg_id msg_type o mh
     | None => ret (-1)
     end) (fun _ => True)) as Hgo.
  { intros b l label Hb [Hu Hm Hq]. eapply tells_bind; [by apply tells_opt_loop|].
    intros [o|] Ho; [|by apply tells_ret]. destruct (Ho _ eq_refl) as [A B]. cbn in A, B.
    apply tells_notify_lde; [|done]. split; [auto|..].
    - intros Ht. rewrite B; auto; by rewrite Ht.
    - intros Ht. rewrite B; auto; destruct Ht as [-> | ->]; done. }
  destruct (type =? MSG_TYPE_LABELMAPPING) eqn:E; zbool.
  - eapply tells_bind; [by apply tells_label_tlv|]. intros [[n label]|] Hl; [|by apply tells_ret].
    destruct (Hl _ _ eq_refl) as (Hu & Hr). apply Hgo; [by apply Forall_drop|].
    split; auto. rewrite E. by intros [?|?].
  - apply Hgo; [done|]. split; [by vm_compute|done|done].
Qed.

(** Everything a label message makes the engine tell the lde is well formed. *)
Lemma tells_labelmessage buf len : bytes_ok buf ->
  tells type (recv_labelmessage buf len type) (fun _ => True).
Proof.
  intros Hok. unfold recv_labelmessage.
  eapply tells_bind; [by apply tells_rd16|]. intros mt _.
  eapply tells_bind; [by apply tells_rd32|]. intros mi _. cbv zeta.
  destruct (_ <? TLV_HDR_SIZE); [tells_solve|].
  do 2 (eapply tells_bind; [by apply tells_rd16, Forall_drop|]; intros ? _).
  destruct (negb _); [tells_solve|]. destruct (_ >? _); [tells_solve|].
  eapply tells_bind; [apply tells_fec_loop; [by apply Forall_drop, Forall_drop|done]|].
  intros [[[mh b] l]|] Hr; [|by apply tells_ret].
  destruct (Hr _ _ _ eq_refl). by apply tells_label_params.
Qed.
End TellsParser.
