(* ===== verification/LabelSafe.v ===== *)
(** * Robustness of the label message parser

    The parser of ldpd/labelmapping.c runs on bytes from the network.  A small
    calculus [safe] tracks what any input may lead to: the bounds of the reads,
    the session invariant after protocol errors, the message counter, and the
    three ways hostile input can break the parser (a prefix longer than its
    buffer, an empty FEC TLV and an interface parameter of length 0). *)
From stdpp Require Import prelude strings list.
From Stdlib Require Import ZArith Lia.
From S2P Require Import Prelude Util Wire Ipc Session LabelMsg LabelFwd.

(** ** The three defects, as properties of the bytes *)
Inductive fault := PrefixOverrun | FecOverread | SubtlvHang.

(** Among the [n] bytes of sub-TLVs at [off] the loop comes to one of length 0
    that is not the interface MTU: either the first one, or one behind a
    sub-TLV it accepts. *)
Inductive subtlv_zero (buf : list Z) : Z -> Z -> Prop :=
| zero_here off n :
    SUBTLV_HDR_SIZE <= n -> nth (Z.to_nat off) buf 0 <> SUBTLV_IFMTU ->
    nth (Z.to_nat off + 1) buf 0 = 0 -> subtlv_zero buf off n
| zero_next off n slen :
    SUBTLV_HDR_SIZE <= n -> nth (Z.to_nat off + 1) buf 0 = slen -> 0 < slen <= n ->
    (nth (Z.to_nat off) buf 0 = SUBTLV_IFMTU -> slen = FEC_SUBTLV_IFMTU_SIZE) ->
    subtlv_zero buf (off + slen) (n - slen) -> subtlv_zero buf off n.

(** A prefix element of [n] bytes at the start of [buf], of which [len] belong
    to the FEC TLV. *)
Record prefix_elm (buf : list Z) (len n : Z) : Prop := PrefixElmAt {
  px_buf : buf <> [];
  px_type : nth 0 buf 0 = MAP_TYPE_PREFIX;
  px_min : FEC_ELM_PREFIX_MIN_LEN <= len;
  px_af : ntohs (le_val (slice 1 2 buf)) = AF_IPV4 \/ ntohs (le_val (slice 1 2 buf)) = AF_IPV6;
  px_size : n = 4 + PREFIX_SIZE (nth 3 buf 0);
  px_fits : n <= len
}.

(** The element at the start of [buf] breaks the decoder: there is no byte to
    read, the prefix is longer than an IPv6 address, or the interface
    parameters of a pseudowire contain a sub-TLV of length 0. *)
Inductive fec_elm_fault (buf : list Z) (len : Z) : fault -> Prop :=
| fault_empty : buf = [] -> fec_elm_fault buf len FecOverread
| fault_prefix n : prefix_elm buf len n -> 128 < nth 3 buf 0 -> fec_elm_fault buf len PrefixOverrun
| fault_pwid pw_len :
    buf <> [] -> nth 0 buf 0 = MAP_TYPE_PWID -> nth 3 buf 0 = pw_len -> 4 <= pw_len ->
    len = FEC_PWID_ELM_MIN_LEN + pw_len -> subtlv_zero buf 12 (pw_len - 4) ->
    fec_elm_fault buf len SubtlvHang.

(** One of the elements of a FEC TLV breaks the decoder.  Only prefix elements
    of a label mapping can be followed by another element. *)
Inductive fec_fault (type : Z) : list Z -> Z -> fault -> Prop :=
| fec_here buf feclen f : fec_elm_fault buf feclen f -> fec_fault type buf feclen f
| fec_next buf feclen n f :
    type = MSG_TYPE_LABELMAPPING -> prefix_elm buf feclen n -> nth 3 buf 0 <= 128 -> n < feclen ->
    fec_fault type (drop (Z.to_nat n) buf) (feclen - n) f -> fec_fault type buf feclen f.

(** The label message of [len] bytes at the start of [buf] has a FEC TLV, inside
    the message, with such an element. *)
Record label_fault (buf : list Z) (len type : Z) (f : fault) : Prop := LabelFault {
  lf_hdr : LDP_MSG_SIZE + TLV_HDR_SIZE <= len;
  lf_type : ntohs (le_val (slice 8 2 buf)) = TLV_TYPE_FEC;
  lf_len : LDP_MSG_SIZE + TLV_HDR_SIZE + ntohs (le_val (slice 10 2 buf)) <= len;
  lf_fec : fec_fault type (drop 12 buf) (ntohs (le_val (slice 10 2 buf))) f
}.

(** ** The calculus

    [safe F c Q e]: from [e] the computation [c] ends with [Q], or breaks by one
    of the faults in [F]; it never aborts the process. *)
Definition safe {A} (F : fault -> Prop) (c : ST ldpe A) (Q : A -> ldpe -> Prop) (e : ldpe) : Prop :=
  match c e with
  | Ok (a, e') => Q a e'
  | Undef _ => F PrefixOverrun \/ F FecOverread
  | NoFuel => F SubtlvHang
  | Fatal _ => False
  end.

(** The session may go on: invariant, [k] more messages can be numbered, and a
    session that is still to come up can get a peer identifier. *)
Definition ready (k : Z) (e : ldpe) : Prop :=
  nbr_inv (e_nbr e) /\ (0 <= e_msgcnt e /\ e_msgcnt e + k < 2 ^ 31 - 5) /\
  (n_state (e_nbr e) = NBR_STA_OPER \/ pids_ok e).

Section Safe.
Context {A B : Type}.

Lemma safe_bind F (c : ST ldpe A) (k : A -> ST ldpe B) Q e :
  safe F c (fun a => safe F (k a) Q) e -> safe F (bind c k) Q e.
Proof. unfold safe, bind, rbind. by destruct (c e) as [[a e']| | |]. Qed.

Lemma safe_ret F (a : A) (Q : A -> ldpe -> Prop) e : Q a e -> safe F (ret a) Q e.
Proof. done. Qed.

Lemma safe_mono F (c : ST ldpe A) (P Q : A -> ldpe -> Prop) e :
  safe F c P e -> (forall a e', P a e' -> Q a e') -> safe F c Q e.
Proof. unfold safe. destruct (c e) as [[a e']| | |]; auto. Qed.

Lemma nth_drop k i (buf : list Z) d : nth i (drop k buf) d = nth (k + i) buf d.
Proof.
  destruct (decide (k + i < length buf)%nat).
  - rewrite !nth_lookup, lookup_drop. done.
  - rewrite !nth_overflow; rewrite ?length_drop; done || lia.
Qed.

Lemma safe_faults (F G : fault -> Prop) (c : ST ldpe A) Q e :
  (forall f, F f -> G f) -> safe F c Q e -> safe G c Q e.
Proof. intros H. unfold safe. destruct (c e) as [[a e']| | |]; naive_solver. Qed.

(** No faults at all: the code that does not decode FEC elements. *)
Lemma safe_any F (c : ST ldpe A) Q e : safe (fun _ => False) c Q e -> safe F c Q e.
Proof. by apply safe_faults. Qed.
End Safe.

Section SafeOps.
Variable F : fault -> Prop.

Lemma safe_rd off n buf (Q : list Z -> ldpe -> Prop) e :
  (off + n <= length buf)%nat -> Q (slice off n buf) e -> safe F (rd off n buf) Q e.
Proof. intros H HQ. unfold safe. by rewrite (rd_ok off n buf _ e H eq_refl). Qed.

Lemma safe_rd8 off buf (Q : Z -> ldpe -> Prop) e :
  (off + 1 <= length buf)%nat -> Q (nth off buf 0) e -> safe F (rd8 off buf) Q e.
Proof.
  intros H HQ. unfold safe. rewrite (rd8_ok off buf (nth off buf 0)); [done|done|].
  unfold slice. destruct (drop off buf) as [|x l] eqn:E.
  - apply (f_equal length) in E. rewrite length_drop in E. simpl in E. lia.
  - simpl. f_equal. pose proof (nth_drop off 0 buf 0) as Hn. rewrite E, Nat.add_0_r in Hn. done.
Qed.

Lemma safe_rd16 off buf (Q : Z -> ldpe -> Prop) e :
  (off + 2 <= length buf)%nat -> Q (le_val (slice off 2 buf)) e -> safe F (rd16 off buf) Q e.
Proof. intros H HQ. unfold rd16. apply safe_bind, safe_rd; done. Qed.

Lemma safe_rd32 off buf (Q : Z -> ldpe -> Prop) e :
  (off + 4 <= length buf)%nat -> Q (le_val (slice off 4 buf)) e -> safe F (rd32 off buf) Q e.
Proof. intros H HQ. unfold rd32. apply safe_bind, safe_rd; done. Qed.

Lemma safe_shutdown st i t (Q : unit -> ldpe -> Prop) e :
  ready 0 e ->
  (forall e', nbr_inv (e_nbr e') -> e_msgcnt e <= e_msgcnt e' -> Q tt e') ->
  safe F (session_shutdown st i t) Q e.
Proof.
  intros (Hi & Hc & _) HQ.
  destruct (wp_elim _ _ _ (wp_shutdown true st i t e Hi ltac:(lia))) as (e' & E & I' & _ & C).
  unfold safe. rewrite E. apply HQ; [done|lia].
Qed.

Lemma safe_fail_shutdown {A} st i t (Q : option A -> ldpe -> Prop) e :
  ready 0 e -> (forall e', nbr_inv (e_nbr e') -> Q None e') ->
  safe F (fail_shutdown st i t) Q e.
Proof. intros Hr HQ. apply safe_bind, safe_shutdown; [done|]. intros. apply safe_ret. auto. Qed.

(** A notification that does not end the session needs a TCP connection,
    which every state but PRESENT has. *)
Definition up (e : ldpe) : Prop := n_state (e_nbr e) <> NBR_STA_PRESENT.

Lemma safe_notify st i t k (Q : unit -> ldpe -> Prop) e :
  0 <= k -> ready (k + 1) e -> up e -> (forall e', ready k e' -> up e' -> Q tt e') ->
  safe F (send_notification_nbr st i t) Q e.
Proof.
  intros Hk (Hi & Hc & Hp) Hup HQ. unfold send_notification_nbr.
  destruct (send_notification_ok st i t e) as (e1 & E1 & [Hn _ Hcnt _ Hpd _ _]); [|lia|].
  { destruct Hi. rewrite si_tcp. by apply Z.eqb_neq in Hup as ->. }
  destruct (wp_elim _ _ _ (wp_fsm_leaf true 1 NBR_EVT_PDU_SENT e1 ltac:(by rewrite Hn)
    (or_introl eq_refl))) as (e2 & E2 & I2 & S2 & C2 & P2 & _).
  unfold safe. rewrite (bind_ok _ _ _ _ _ E1). unfold nbr_fsm. rewrite E2. apply HQ.
  - split; [done|]. split; [lia|]. unfold pids_ok in *. rewrite S2, Hn, P2, Hpd. done.
  - unfold up in *. congruence.
Qed.

Lemma safe_fail_notify {A} st i t (Q : option A -> ldpe -> Prop) e :
  ready 1 e -> up e -> (forall e', nbr_inv (e_nbr e') -> Q None e') ->
  safe F (fail_notify st i t) Q e.
Proof.
  intros Hr Hu HQ. apply safe_bind, (safe_notify _ _ _ 0); [done|done|done|].
  intros e' [Hi _] _. apply safe_ret. auto.
Qed.

Lemma ready_le k k' e : k' <= k -> ready k e -> ready k' e.
Proof. intros H (Hi & H0 & H1). split; [done|]. split; [lia|done]. Qed.
End SafeOps.

#[export] Hint Resolve safe_ret : ldp.

(** ** FEC elements *)
Section FecSafe.
Variables (buf : list Z) (msg_id msg_type : Z).
Hypothesis Hok : bytes_ok buf.

Lemma nth_byte i : is_byte (nth i buf 0).
Proof.
  destruct (decide (i < length buf)%nat).
  - eapply Forall_nth; [exact Hok|done].
  - rewrite nth_overflow by lia. unfold is_byte. lia.
Qed.

(** A sub-TLV of length 0 is never left. *)
Lemma subtlv_zero_hangs e off pw_len :
  (Z.to_nat off + 2 <= length buf)%nat -> 2 <= pw_len < 256 -> 0 <= off < 2 ^ 16 ->
  nth (Z.to_nat off) buf 0 <> SUBTLV_IFMTU -> nth (Z.to_nat off + 1) buf 0 = 0 ->
  forall fuel map, subtlv_loop fuel msg_id msg_type buf off pw_len map e = NoFuel.
Proof.
  intros Hl Hpw Ho Ht Hz. induction fuel as [|fuel IH]; intros map; [done|].
  unfold subtlv_loop at 1. fold subtlv_loop.
  destruct (negb (pw_len >? 0)) eqn:E; zbool; [lia|].
  destruct (pw_len <? SUBTLV_HDR_SIZE) eqn:E'; zbool; [unfold SUBTLV_HDR_SIZE in E'; lia|].
  assert (forall i, (i + 1 <= length buf)%nat -> rd8 i buf e = Ok (nth i buf 0, e)) as Hrd.
  { intros i Hi. pose proof (safe_rd8 (fun _ => False) i buf (fun a e' => a = nth i buf 0 /\ e' = e) e Hi
      (conj eq_refl eq_refl)) as Hs. unfold safe, rd8, rd, bind, rbind, ret in *.
    rewrite (proj2 (Nat.leb_le _ _) Hi) in *. destruct Hs as [-> _]. done. }
  rewrite (bind_ok _ _ _ _ _ (Hrd (Z.to_nat off) ltac:(lia))).
  rewrite (bind_ok _ _ _ _ _ (Hrd (Z.to_nat off + 1)%nat ltac:(lia))).
  rewrite Hz. destruct (0 >? pw_len) eqn:E2; zbool; [lia|].
  apply Z.eqb_neq in Ht as ->. rewrite Z.add_0_r, Z.sub_0_r, u16_small, u8_small
    by (unfold is_u; lia). apply IH.
Qed.

(** The sub-TLV loop: it stays inside the element and ends exactly at its
    end, unless a sub-TLV has length 0. *)
Lemma subtlv_loop_safe e : ready 0 e ->
  forall fuel off pw_len map,
  12 <= off -> 0 <= pw_len < 256 -> off + pw_len <= Z.of_nat (length buf) ->
  off + pw_len < 2 ^ 16 -> pw_len < Z.of_nat fuel ->
  safe (fun f => f = SubtlvHang /\ subtlv_zero buf off pw_len)
    (subtlv_loop fuel msg_id msg_type buf off pw_len map) (fun r e' =>
    nbr_inv (e_nbr e') /\
    match r with
    | Some (off', map') => e' = e /\ off' = off + pw_len /\ m_type map' = m_type map
    | None => True
    end) e.
Proof.
  intros Hr. induction fuel as [|fuel IH]; intros off pw_len map H12 Hpw Hlen H16 Hf; [lia|].
  set (k := Z.to_nat off).
  destruct (decide (2 <= pw_len /\ nth k buf 0 <> SUBTLV_IFMTU /\ nth (k + 1) buf 0 = 0))
    as [(H2 & Hne & Hz)|Hnz].
  { unfold safe. rewrite subtlv_zero_hangs by (done || lia).
    split; [done|]. by apply zero_here. }
  unfold subtlv_loop at 1. fold subtlv_loop.
  destruct (negb (pw_len >? 0)) eqn:E; zbool.
  { apply safe_ret. split; [apply Hr|]. split_and!; auto. lia. }
  destruct (pw_len <? SUBTLV_HDR_SIZE) eqn:E'; [by apply safe_fail_shutdown|]. zbool.
  unfold SUBTLV_HDR_SIZE in E'. fold k.
  apply safe_bind, safe_rd8; [lia|]. apply safe_bind, safe_rd8; [lia|].
  pose proof (nth_byte (k + 1)) as Hb. unfold is_byte in Hb.
  set (slen := nth (k + 1) buf 0) in *.
  destruct (slen >? pw_len) eqn:E2; [by apply safe_fail_shutdown|]. zbool.
  assert (slen <> 0 -> (nth k buf 0 = SUBTLV_IFMTU -> slen = FEC_SUBTLV_IFMTU_SIZE) ->
    forall map', m_type map' = m_type map ->
    safe (fun f => f = SubtlvHang /\ subtlv_zero buf off pw_len) (subtlv_loop fuel msg_id msg_type buf (u16 (off + slen)) (u8 (pw_len - slen)) map')
      (fun r e' => nbr_inv (e_nbr e') /\
        match r with
        | Some (off', map') => e' = e /\ off' = off + pw_len /\ m_type map' = m_type map
        | None => True
        end) e) as Hnext.
  { intros Hz Hmtu map' Hm. rewrite u16_small, u8_small by (unfold is_u; lia).
    eapply safe_faults; [|eapply safe_mono; [apply IH; lia|]].
    { intros f [-> Hf']. split; [done|]. eapply (zero_next _ _ _ slen); auto; unfold SUBTLV_HDR_SIZE; lia. }
    intros [[off' m']|] e' [Hi Hp]; split; try done.
    destruct Hp as (-> & -> & ->). split_and!; auto. lia. }
  destruct (nth k buf 0 =? SUBTLV_IFMTU) eqn:E3; zbool.
  2:{ apply Hnext; [|done|done]. intros Hz. apply Hnz. split_and!; auto. }
  destruct (negb (slen =? _)) eqn:E4; [by apply safe_fail_shutdown|]. zbool.
  unfold FEC_SUBTLV_IFMTU_SIZE, SUBTLV_HDR_SIZE in *.
  apply safe_bind, safe_rd16; [cbn; lia|]. apply Hnext; [lia|by intros|done].
Qed.
End FecSafe.

Section ParserSafe.
Variables (msg_id msg_type : Z).

(** What the later stages rely on for a decoded map. *)
Definition map_decoded (m : ldp_map) : Prop :=
  m_type m = MAP_TYPE_PREFIX -> pe_af (m_prefix m) = AF_IPV4 \/ pe_af (m_prefix m) = AF_IPV6.

Lemma decode_fec_elm_safe buf len map e :
  bytes_ok buf -> ready 1 e -> up e -> 0 <= len < 2 ^ 16 -> len <= Z.of_nat (length buf) ->
  safe (fec_elm_fault buf len) (tlv_decode_fec_elm msg_id msg_type buf len map) (fun r e' =>
    nbr_inv (e_nbr e') /\
    match r with
    | Some (tlen, map') => e' = e /\ 1 <= tlen <= len /\ map_decoded map' /\
        (tlen = len \/ prefix_elm buf len tlen /\ nth 3 buf 0 <= 128)
    | None => True
    end) e.
Proof.
  intros Hok Hr Hup H16 Hlen. pose proof (ready_le 1 0 e ltac:(lia) Hr) as Hr0.
  destruct (decide (buf = [])) as [->|Hne]; [right; by constructor|].
  assert (1 <= length buf)%nat as H1 by (destruct buf; [done|cbn; lia]).
  unfold tlv_decode_fec_elm. apply safe_bind, safe_rd8; [lia|].
  set (ty := nth 0 buf 0).
  destruct (ty =? MAP_TYPE_WILDCARD) eqn:E1.
  { zbool. destruct (len =? _) eqn:E; [|by apply safe_fail_shutdown]. zbool.
    apply safe_ret. split; [apply Hr|]. unfold FEC_ELM_WCARD_LEN in E. split_and!; auto; try lia.
    intros H. cbn in H. by rewrite E1 in H. }
  destruct (ty =? MAP_TYPE_PREFIX) eqn:E2.
  { destruct (len <? FEC_ELM_PREFIX_MIN_LEN) eqn:E; [by apply safe_fail_shutdown|]. zbool.
    unfold FEC_ELM_PREFIX_MIN_LEN in E. apply safe_bind, safe_rd16; [lia|].
    destruct (_ && _) eqn:Eaf; [by apply safe_fail_notify|].
    assert (ntohs (le_val (slice 1 2 buf)) = AF_IPV4 \/ ntohs (le_val (slice 1 2 buf)) = AF_IPV6) as Haf
      by (apply andb_false_iff in Eaf as [Eaf|Eaf]; zbool; auto).
    apply safe_bind, safe_rd8; [lia|]. pose proof (nth_byte buf Hok 3) as Hb. unfold is_byte in Hb.
    set (pl := nth 3 buf 0) in *.
    assert (0 <= PREFIX_SIZE pl) as Hp by (apply Z.div_pos; lia).
    destruct (len <? 4 + PREFIX_SIZE pl) eqn:E3; [by apply safe_fail_shutdown|]. zbool.
    assert (prefix_elm buf len (4 + PREFIX_SIZE pl)) as Hpx
      by (split; unfold FEC_ELM_PREFIX_MIN_LEN; try done; lia).
    apply safe_bind, safe_rd; [lia|].
    destruct (PREFIX_SIZE pl >? 16) eqn:E4; zbool.
    { left. eapply fault_prefix; [done|]. fold pl. destruct (Z.le_gt_cases pl 128); [|lia].
      pose proof (PREFIX_SIZE_bound pl). lia. }
    apply safe_ret. split; [apply Hr|]. split; [done|]. split; [lia|]. split; [by intros _|].
    right. split; [done|]. fold pl. unfold PREFIX_SIZE in E4.
    pose proof (Z.div_mod (pl + 7) 8 ltac:(lia)). pose proof (Z.mod_pos_bound (pl + 7) 8 ltac:(lia)). lia. }
  destruct (ty =? MAP_TYPE_PWID) eqn:E3; [|by apply safe_fail_notify]. zbool.
  destruct (len <? FEC_PWID_ELM_MIN_LEN) eqn:E; [by apply safe_fail_shutdown|]. zbool.
  unfold FEC_PWID_ELM_MIN_LEN in *. apply safe_bind, safe_rd16; [lia|].
  apply safe_bind, safe_rd8; [lia|].
  pose proof (nth_byte buf Hok 3) as Hb. unfold is_byte in Hb. set (pw_len := nth 3 buf 0) in *.
  destruct (negb (len =? 8 + pw_len)) eqn:E4; [by apply safe_fail_shutdown|]. zbool.
  apply safe_bind, safe_rd32; [lia|].
  destruct (pw_len =? 0) eqn:E5; zbool.
  { apply safe_ret. split; [apply Hr|]. split_and!; auto; try lia.
    intros H. cbn in H. by rewrite E3 in H. }
  destruct (pw_len <? 4) eqn:E6; [by apply safe_fail_shutdown|]. zbool.
  apply safe_bind, safe_rd32; [lia|]. rewrite u8_small by (unfold is_u; lia).
  eapply safe_faults; [|eapply safe_mono; [apply subtlv_loop_safe; auto; unfold subtlv_fuel; lia|]].
  { intros f [-> Hf]. by eapply fault_pwid. }
  intros [[off' m']|] e' [Hi Hp]; split; try done.
  destruct Hp as (-> & -> & Hm). split_and!; auto; try lia.
  intros H. rewrite Hm in H. cbn in H. by rewrite E3 in H.
Qed.

Lemma decode_label_safe F buf len e :
  ready 1 e -> up e -> len <= Z.of_nat (length buf) ->
  safe F (tlv_decode_label msg_id msg_type buf len) (fun r e' =>
    nbr_inv (e_nbr e') /\
    match r with Some (n, _) => e' = e /\ n = LABEL_TLV_SIZE /\ LABEL_TLV_SIZE <= len
               | None => True end) e.
Proof.
  intros Hr Hup Hlen. pose proof (ready_le 1 0 e ltac:(lia) Hr) as Hr0.
  unfold tlv_decode_label. destruct (len <? LABEL_TLV_SIZE) eqn:E; [by apply safe_fail_shutdown|].
  zbool. unfold LABEL_TLV_SIZE in E.
  apply safe_bind, safe_rd16; [lia|]. apply safe_bind, safe_rd16; [lia|].
  apply safe_bind, safe_rd32; [lia|].
  destruct (negb (has_flag _ _)); [by apply safe_fail_notify|].
  destruct (_ =? TLV_TYPE_GENERICLABEL); [|by apply safe_fail_shutdown].
  destruct (negb (_ =? _ - _)); [by apply safe_fail_shutdown|]. cbv zeta.
  destruct (_ || _); [by apply safe_fail_shutdown|].
  apply safe_ret. split; [apply Hr|]. split_and!; auto.
Qed.

Lemma fec_elm_loop_safe type fuel : forall buf len feclen mh e,
  bytes_ok buf -> ready 1 e -> up e -> 0 <= feclen <= len -> len < 2 ^ 16 ->
  len <= Z.of_nat (length buf) -> feclen < Z.of_nat fuel -> Forall map_decoded mh ->
  safe (fec_fault type buf feclen) (fec_elm_loop fuel type msg_id msg_type buf len feclen mh) (fun r e' =>
    nbr_inv (e_nbr e') /\
    match r with
    | Some (mh', buf', len') => e' = e /\ Forall map_decoded mh' /\
        0 <= len' < 2 ^ 16 /\ len' <= Z.of_nat (length buf') /\ len' <= len
    | None => True
    end) e.
Proof.
  induction fuel as [|fuel IH]; intros buf len feclen mh e Hok Hr Hup Hf H16 Hlen Hfu Hmh;
    [lia|].
  pose proof (ready_le 1 0 e ltac:(lia) Hr) as Hr0. cbn [fec_elm_loop].
  apply safe_bind. rewrite u16_small by (unfold is_u; lia).
  eapply safe_faults; [by apply fec_here|].
  eapply safe_mono; [apply decode_fec_elm_safe; auto; lia|].
  intros [[tlen map]|] e' [Hi Hp]; [|by apply safe_ret].
  destruct Hp as (-> & Ht & Hm & Hnext).
  destruct (_ && negb (type =? MSG_TYPE_LABELRELEASE)); [by apply safe_fail_notify|].
  destruct (_ && is_mapreqabort type); [by apply safe_fail_shutdown|].
  destruct (negb (type =? MSG_TYPE_LABELMAPPING) && _) eqn:Emap; [by apply safe_fail_shutdown|]. cbv zeta.
  assert (Forall map_decoded (mh ++ [map])) as Hmh' by (apply Forall_app; auto).
  assert (length (drop (Z.to_nat tlen) buf) = length buf - Z.to_nat tlen)%nat as Hd
    by apply length_drop.
  rewrite u16_small by (unfold is_u; lia).
  destruct (feclen - tlen >? 0) eqn:E; zbool.
  - apply andb_false_iff in Emap as [Emap|Emap]; zbool; [|lia].
    destruct Hnext as [?|[Hpx H128]]; [lia|].
    eapply (safe_faults (fec_fault type (drop (Z.to_nat tlen) buf) (feclen - tlen))).
    { intros f Hff. eapply fec_next; eauto. lia. }
    eapply safe_mono; [apply IH; auto; try lia; by apply Forall_drop|].
    intros [[[mh' b] l]|] e' [Hi' Hp]; split; try done.
    destruct Hp as (-> & ? & ? & ? & ?). split_and!; auto; lia.
  - apply safe_ret. split; [done|]. split_and!; auto; lia.
Qed.

Lemma opt_param_safe F type ty tlv_len body o k e :
  0 <= k -> ready (k + 1) e -> up e -> tlv_len <= Z.of_nat (length body) ->
  safe F (opt_param type msg_id msg_type ty tlv_len body o) (fun r e' =>
    nbr_inv (e_nbr e') /\
    match r with Some _ => ready k e' /\ up e' | None => True end) e.
Proof.
  intros Hk Hr Hup Hlen. pose proof (ready_le (k + 1) 0 e ltac:(lia) Hr) as Hr0.
  pose proof (ready_le (k + 1) k e ltac:(lia) Hr) as Hrk.
  assert (forall o', safe F (ret (Some o')) (fun r e' => nbr_inv (e_nbr e') /\
    match r : option opts with Some _ => ready k e' /\ up e' | None => True end) e) as Hret
    by (intros; apply safe_ret; split; [apply Hr|done]).
  unfold opt_param, REQID_TLV_LEN, LABEL_TLV_LEN, PW_STATUS_TLV_LEN.
  repeat match goal with
  | |- safe _ (if ?b then _ else _) _ _ => destruct b eqn:?; zbool
  end; first [apply Hret | by apply safe_fail_shutdown
             | apply safe_bind, safe_rd32; [lia|apply Hret]
             | apply safe_bind].
  destruct (negb _); [|apply safe_ret, Hret].
  eapply safe_notify; [exact Hk|done|done|]. intros e' Hr' Hup'.
  apply safe_ret. split; [apply Hr'|done].
Qed.

Lemma opt_loop_safe F type k fuel : 0 <= k -> forall buf len o e,
  ready (k + len) e -> up e -> 0 <= len < 2 ^ 16 -> len <= Z.of_nat (length buf) ->
  len < Z.of_nat fuel ->
  safe F (opt_loop fuel type msg_id msg_type buf len o) (fun r e' =>
    nbr_inv (e_nbr e') /\
    match r with Some _ => ready k e' /\ up e' | None => True end) e.
Proof.
  intros Hk. induction fuel as [|fuel IH]; intros buf len o e Hr Hup H16 Hlen Hf; [lia|].
  pose proof (ready_le (k + len) 0 e ltac:(lia) Hr) as Hr0. cbn [opt_loop].
  destruct (negb (len >? 0)) eqn:E; zbool.
  { apply safe_ret. split; [apply Hr|]. split; [|done]. eapply ready_le, Hr. lia. }
  destruct (len <? TLV_HDR_SIZE) eqn:E'; [by apply safe_fail_shutdown|]. zbool.
  unfold TLV_HDR_SIZE in *.
  apply safe_bind, safe_rd16; [lia|]. apply safe_bind, safe_rd16; [lia|].
  pose proof (htons_bound (le_val (slice 2 2 buf))) as Hb. fold (ntohs (le_val (slice 2 2 buf))) in Hb.
  set (tlv_len := ntohs (le_val (slice 2 2 buf))) in *. unfold is_u in Hb.
  destruct (tlv_len + 4 >? len) eqn:E2; [by apply safe_fail_shutdown|]. zbool. cbv zeta.
  apply safe_bind. eapply safe_mono.
  { apply (opt_param_safe F _ _ _ _ _ (k + (len - 4 - tlv_len))); auto; try lia.
    - eapply ready_le, Hr. lia.
    - rewrite length_drop. lia. }
  intros [o'|] e' [Hi Hp]; [|by apply safe_ret]. destruct Hp as [Hr' Hup'].
  rewrite (u16_small (len - 4)), u16_small by (unfold is_u; lia).
  apply IH; auto; try lia. rewrite !length_drop. lia.
Qed.

(** What a parser leaves: the invariant, and unless it failed a session that
    goes on. *)
Definition parsed (k : Z) (r : Z) (e : ldpe) : Prop :=
  nbr_inv (e_nbr e) /\ (r <> -1 -> ready k e /\ up e).

Lemma parsed_err k e : nbr_inv (e_nbr e) -> parsed k (-1) e.
Proof. done. Qed.

Lemma parsed_ok k r e : ready k e -> up e -> parsed k r e.
Proof. intros Hr. split; [apply Hr|done]. Qed.

Lemma safe_shutdown_ret F st i t k e :
  ready 0 e -> safe F (session_shutdown st i t;;; ret (-1)) (parsed k) e.
Proof.
  intros Hr. apply safe_bind, safe_shutdown; [done|]. intros. by apply safe_ret, parsed_err.
Qed.

Lemma safe_notify_ret F st i t k e :
  ready 1 e -> up e -> safe F (send_notification_nbr st i t;;; ret (-1)) (parsed k) e.
Proof.
  intros Hr Hup. apply safe_bind, (safe_notify _ _ _ _ 0); [lia|done|done|].
  intros e' [Hi _] _. by apply safe_ret, parsed_err.
Qed.

Lemma notify_lde_loop_safe F type o k mh : 0 <= k -> forall e,
  ready k e -> up e -> Forall map_decoded mh ->
  safe F (notify_lde_loop type msg_id msg_type o mh) (parsed k) e.
Proof.
  intros Hk. induction mh as [|m mh IH]; intros e Hr Hup Hm; [by apply safe_ret, parsed_ok|].
  pose proof (ready_le k 0 e ltac:(lia) Hr) as Hr0.
  apply Forall_cons in Hm as [Hd Hm]. cbn [notify_lde_loop].
  assert (forall m' : ldp_map, safe F
    (do n <- get_nbr;
     match label_imsg_of type with
     | Some t => ldpe_imsg_compose_lde (ImsgLabel (n_peerid n) t m')
     | None => ret tt
     end;;; notify_lde_loop type msg_id msg_type o mh) (parsed k) e) as Hsend.
  { intros m'. apply safe_bind. unfold safe at 1, get_nbr, bind, get, ret. cbn [rbind].
    apply safe_bind. destruct (label_imsg_of type); [|by apply safe_ret, IH].
    unfold safe at 1, ldpe_imsg_compose_lde, modify. apply IH; done. }
  pose proof (safe_shutdown_ret F S_BAD_TLV_VAL msg_id msg_type k e Hr0) as Hbad.
  apply safe_bind. unfold safe at 1, get_nbr, bind, get, ret. cbn [rbind].
  destruct (m_type _ =? MAP_TYPE_PREFIX) eqn:E.
  - zbool. cbn in E. cbn [m_prefix set_m_flags]. specialize (Hd E).
    destruct (_ =? AF_IPV4) eqn:E4.
    { destruct (_ =? MPLS_LABEL_IPV6NULL); [done|]. destruct (negb _); [by apply IH|apply Hsend]. }
    destruct (_ =? AF_IPV6) eqn:E6; [|zbool; exfalso; tauto].
    destruct (_ =? MPLS_LABEL_IPV4NULL); [done|]. destruct (negb _); [by apply IH|apply Hsend].
  - destruct (_ =? MAP_TYPE_PWID); [|apply Hsend].
    destruct (_ <=? MPLS_LABEL_RESERVED_MAX); [done|apply Hsend].
Qed.

Lemma recv_label_params_safe F type k mh buf len e :
  0 <= k -> ready (k + len + 1) e -> up e -> 0 <= len < 2 ^ 16 -> len <= Z.of_nat (length buf) ->
  Forall map_decoded mh ->
  safe F (recv_label_params type msg_id msg_type mh buf len) (parsed k) e.
Proof.
  intros Hk Hr Hup H16 Hlen Hmh. unfold recv_label_params. cbv zeta.
  assert (forall b l label, 0 <= l <= len -> l <= Z.of_nat (length b) -> safe F
    (do r <- opt_loop (S (Z.to_nat l)) type msg_id msg_type b l (Opts 0 label 0 0);
     match r with
     | Some o => notify_lde_loop type msg_id msg_type o mh
     | None => ret (-1)
     end) (parsed k) e) as Hgo.
  { intros b l label Hl Hb. apply safe_bind. eapply safe_mono.
    - apply (opt_loop_safe F type k); auto; try lia. eapply ready_le, Hr. lia.
    - intros [o|] e' [Hi Hp]; [|by apply safe_ret]. by apply notify_lde_loop_safe; destruct Hp. }
  destruct (type =? MSG_TYPE_LABELMAPPING); [|apply Hgo; lia].
  apply safe_bind. eapply safe_mono.
  - apply decode_label_safe; auto. eapply ready_le, Hr. lia.
  - intros [[n label]|] e' [Hi Hp]; [|by apply safe_ret]. destruct Hp as (-> & -> & Hn).
    unfold LABEL_TLV_SIZE in *. rewrite u16_small by (unfold is_u; lia).
    apply Hgo; [lia|]. rewrite length_drop. lia.
Qed.
End ParserSafe.

Lemma slice_of_drop k i n (l : list Z) : slice i n (drop k l) = slice (k + i) n l.
Proof. unfold slice. by rewrite drop_drop. Qed.

Lemma recv_labelmessage_safe k buf len type e :
  0 <= k -> bytes_ok buf -> ready (k + len) e -> up e -> LDP_MSG_SIZE <= len < 2 ^ 16 ->
  len <= Z.of_nat (length buf) ->
  safe (label_fault buf len type) (recv_labelmessage buf len type) (parsed k) e.
Proof.
  intros Hk Hok Hr Hup Hl Hlen. unfold recv_labelmessage. unfold LDP_MSG_SIZE in *.
  pose proof (ready_le (k + len) 0 e ltac:(lia) Hr) as Hr0.
  pose proof (ready_le (k + len) 1 e ltac:(lia) Hr) as Hr1.
  apply safe_bind, safe_rd16; [lia|]. apply safe_bind, safe_rd32; [lia|]. cbv zeta.
  rewrite u16_small by (unfold is_u; lia). unfold TLV_HDR_SIZE.
  destruct (len - 8 <? 4) eqn:E; [by apply safe_shutdown_ret|]. zbool.
  pose proof (length_drop buf 8) as Hd8. pose proof (length_drop buf 12) as Hd12.
  apply safe_bind, safe_rd16; [lia|]. apply safe_bind, safe_rd16; [lia|].
  rewrite !slice_of_drop, !drop_drop. cbn [Nat.add].
  destruct (negb (_ =? TLV_TYPE_FEC)) eqn:Eft; [by apply safe_notify_ret|].
  pose proof (htons_bound (le_val (slice 10 2 buf))) as Hf. unfold is_u in Hf.
  fold (ntohs (le_val (slice 10 2 buf))) in Hf.
  destruct (ntohs (le_val (slice 10 2 buf)) >? len - 8 - 4) eqn:E2; [by apply safe_shutdown_ret|]. zbool.
  rewrite u16_small by (unfold is_u; lia). apply safe_bind.
  eapply safe_faults; [|eapply safe_mono; [apply fec_elm_loop_safe; auto; try lia; by apply Forall_drop|]].
  { intros f Hff. split; unfold LDP_MSG_SIZE, TLV_HDR_SIZE; try done; lia. }
  intros [[[mh b] l]|] e' [Hi Hp]; [|by apply safe_ret].
  destruct Hp as (-> & Hm & H16 & Hb & Hle).
  apply recv_label_params_safe; auto. eapply ready_le, Hr. lia.
Qed.

(** ** The faults are real

    Input with one of the three defects always breaks the parser, so the
    description above is exact. *)
Section Stuck.
Definition stuck {A} (c : ST ldpe A) (e : ldpe) : Prop := forall a e', c e <> Ok (a, e').

Lemma stuck_bind {A B} (c : ST ldpe A) (k : A -> ST ldpe B) e : stuck c e -> stuck (bind c k) e.
Proof. intros H b e' E. apply bind_inv in E as (a & e1 & E & _). by destruct (H a e1). Qed.
Lemma stuck_step {A B} (c : ST ldpe A) (k : A -> ST ldpe B) a e e1 :
  c e = Ok (a, e1) -> stuck (k a) e1 -> stuck (bind c k) e.
Proof. intros E H. unfold stuck. by rewrite (bind_ok _ _ _ _ _ E). Qed.

Lemma rd8_at off buf e : (off + 1 <= length buf)%nat -> rd8 off buf e = Ok (nth off buf 0, e).
Proof.
  intros H. pose proof (safe_rd8 (fun _ => False) off buf (fun a e' => a = nth off buf 0 /\ e' = e) e H
    (conj eq_refl eq_refl)) as Hs.
  unfold safe in Hs. destruct (rd8 off buf e) as [[a e']| | |]; [by destruct Hs as [-> ->]|..]; naive_solver.
Qed.
Lemma stuck_rd8 {B} off buf (k : Z -> ST ldpe B) e :
  (off + 1 <= length buf)%nat -> stuck (k (nth off buf 0)) e -> stuck (bind (rd8 off buf) k) e.
Proof. intros H. apply stuck_step. by apply rd8_at. Qed.
Lemma stuck_rd16 {B} off buf (k : Z -> ST ldpe B) e :
  (off + 2 <= length buf)%nat -> stuck (k (le_val (slice off 2 buf))) e -> stuck (bind (rd16 off buf) k) e.
Proof. intros H. apply stuck_step. unfold rd16. by rewrite (bind_ok _ _ _ _ _ (rd_ok off 2 buf _ e H eq_refl)). Qed.
Lemma stuck_rd32 {B} off buf (k : Z -> ST ldpe B) e :
  (off + 4 <= length buf)%nat -> stuck (k (le_val (slice off 4 buf))) e -> stuck (bind (rd32 off buf) k) e.
Proof. intros H. apply stuck_step. unfold rd32. by rewrite (bind_ok _ _ _ _ _ (rd_ok off 4 buf _ e H eq_refl)). Qed.

Lemma subtlv_zero_stuck buf msg_id msg_type off n : bytes_ok buf -> subtlv_zero buf off n ->
  0 <= off -> n < 256 -> off + n <= Z.of_nat (length buf) -> off + n < 2 ^ 16 ->
  forall fuel map e, stuck (subtlv_loop fuel msg_id msg_type buf off n map) e.
Proof.
  intros Hok H. induction H as [off n Hn Hty Hz|off n slen Hn Hs Hle Hmtu H IH]; intros H0 H256 Hin H16 fuel map e.
  all: unfold SUBTLV_HDR_SIZE in Hn.
  { unfold stuck. by rewrite subtlv_zero_hangs by (done || lia). }
  destruct fuel as [|fuel]; [done|]. unfold subtlv_loop. fold subtlv_loop.
  destruct (negb (n >? 0)) eqn:E; zbool; [lia|].
  destruct (n <? SUBTLV_HDR_SIZE) eqn:E'; zbool; [unfold SUBTLV_HDR_SIZE in E'; lia|].
  apply stuck_rd8; [lia|]. apply stuck_rd8; [lia|]. rewrite Hs.
  destruct (slen >? n) eqn:E2; zbool; [lia|].
  assert (forall map', stuck (subtlv_loop fuel msg_id msg_type buf (u16 (off + slen)) (u8 (n - slen)) map') e) as Hnext.
  { intros map'. rewrite u16_small, u8_small by (unfold is_u; lia). apply IH; lia. }
  destruct (_ =? SUBTLV_IFMTU) eqn:E3; zbool; [|done].
  specialize (Hmtu E3). rewrite Hmtu in *. cbn [negb Z.eqb]. rewrite Z.eqb_refl. cbn [negb].
  unfold FEC_SUBTLV_IFMTU_SIZE, SUBTLV_HDR_SIZE in *. apply stuck_rd16; [cbn; lia|]. apply Hnext.
Qed.

Section StuckFec.
Variables (msg_id msg_type : Z).

(** The prefix element in front is decoded, up to its copy. *)
Lemma prefix_elm_decode buf len n map e : bytes_ok buf -> prefix_elm buf len n -> len <= Z.of_nat (length buf) ->
  tlv_decode_fec_elm msg_id msg_type buf len map e
  = if PREFIX_SIZE (nth 3 buf 0) >? 16 then Undef "write past map->fec.prefix.prefix"
    else Ok (Some (n, set_m_prefix (set_m_type map MAP_TYPE_PREFIX)
           (PrefixElm (ntohs (le_val (slice 1 2 buf))) (nth 3 buf 0)
              (fill_addr (slice 4 (Z.to_nat (PREFIX_SIZE (nth 3 buf 0))) buf)))), e).
Proof.
  intros Hok [Hne Hty Hmin Haf -> Hfit] Hl. unfold FEC_ELM_PREFIX_MIN_LEN in Hmin.
  pose proof (nth_byte buf Hok 3) as Hb. unfold is_byte in Hb.
  assert (0 <= PREFIX_SIZE (nth 3 buf 0)) as Hp by (apply Z.div_pos; lia).
  unfold tlv_decode_fec_elm. rewrite (bind_ok _ _ _ _ _ (rd8_at 0 buf e ltac:(lia))), Hty.
  change (MAP_TYPE_PREFIX =? MAP_TYPE_WILDCARD) with false.
  change (MAP_TYPE_PREFIX =? MAP_TYPE_PREFIX) with true. cbv match zeta.
  destruct (len <? FEC_ELM_PREFIX_MIN_LEN) eqn:E; zbool; [unfold FEC_ELM_PREFIX_MIN_LEN in E; lia|].
  rewrite (bind_ok _ _ _ (le_val (slice 1 2 buf)) e)
    by (unfold rd16; by rewrite (bind_ok _ _ _ _ _ (rd_ok 1 2 buf _ e ltac:(lia) eq_refl))).
  replace (_ && _) with false by (destruct Haf as [-> | ->]; done).
  rewrite (bind_ok _ _ _ _ _ (rd8_at 3 buf e ltac:(lia))).
  destruct (len <? 4 + _) eqn:E'; zbool; [lia|].
  rewrite (bind_ok _ _ _ _ _ (rd_ok 4 (Z.to_nat (PREFIX_SIZE (nth 3 buf 0))) buf _ e ltac:(lia) eq_refl)).
  by destruct (PREFIX_SIZE _ >? 16).
Qed.

Lemma elm_fault_stuck buf len f map e : bytes_ok buf -> fec_elm_fault buf len f ->
  0 <= len < 2 ^ 16 -> len <= Z.of_nat (length buf) ->
  stuck (tlv_decode_fec_elm msg_id msg_type buf len map) e.
Proof.
  intros Hok Hf H16 Hl. pose proof (nth_byte buf Hok 3) as Hb. unfold is_byte in Hb.
  destruct Hf as [->|n Hpx H128|pw_len Hne Hty Hpl H4 Hlen Hz]; [done|..].
  - unfold stuck. rewrite (prefix_elm_decode _ _ _ _ _ Hok Hpx Hl).
    replace (PREFIX_SIZE (nth 3 buf 0) >? 16) with true; [done|].
    symmetry. apply Z.gtb_lt. unfold PREFIX_SIZE. apply Z.lt_le_trans with (136 / 8); [done|].
    apply Z.div_le_mono; lia.
  - unfold FEC_PWID_ELM_MIN_LEN in Hlen. unfold tlv_decode_fec_elm.
    apply stuck_rd8; [lia|]. rewrite Hty.
    change (MAP_TYPE_PWID =? MAP_TYPE_WILDCARD) with false.
    change (MAP_TYPE_PWID =? MAP_TYPE_PREFIX) with false.
    change (MAP_TYPE_PWID =? MAP_TYPE_PWID) with true. cbv match zeta.
    destruct (len <? FEC_PWID_ELM_MIN_LEN) eqn:E; zbool; [unfold FEC_PWID_ELM_MIN_LEN in E; lia|].
    apply stuck_rd16; [lia|]. apply stuck_rd8; [lia|]. rewrite Hpl.
    replace (len =? FEC_PWID_ELM_MIN_LEN + pw_len) with true
      by (symmetry; apply Z.eqb_eq; unfold FEC_PWID_ELM_MIN_LEN; lia). cbn [negb].
    apply stuck_rd32; [lia|].
    destruct (pw_len =? 0) eqn:E5; zbool; [lia|]. destruct (pw_len <? 4) eqn:E6; zbool; [lia|].
    apply stuck_rd32; [lia|]. rewrite u8_small by (unfold is_u; lia).
    apply subtlv_zero_stuck; try done; lia.
Qed.

Lemma fec_fault_stuck type buf feclen f : fec_fault type buf feclen f -> bytes_ok buf ->
  forall fuel len mh e, 0 <= feclen < 2 ^ 16 -> feclen <= Z.of_nat (length buf) ->
  stuck (fec_elm_loop fuel type msg_id msg_type buf len feclen mh) e.
Proof.
  induction 1 as [buf feclen f Hf|buf feclen n f Hty Hpx H128 Hn _ IH]; intros Hok fuel len mh e H16 Hl;
    (destruct fuel as [|fuel]; [done|]); cbn [fec_elm_loop]; rewrite (u16_small feclen) by done.
  { by eapply stuck_bind, elm_fault_stuck. }
  eapply stuck_step; [rewrite (prefix_elm_decode _ _ _ _ _ Hok Hpx Hl)|].
  { replace (PREFIX_SIZE (nth 3 buf 0) >? 16) with false; [done|].
    symmetry. rewrite Z.gtb_ltb. apply Z.ltb_ge. pose proof (nth_byte buf Hok 3) as Hb.
    unfold is_byte in Hb. pose proof (PREFIX_SIZE_bound (nth 3 buf 0) ltac:(lia)). lia. }
  cbn -[drop]. rewrite Hty. cbn -[drop]. destruct (feclen - n >? 0) eqn:E; zbool; [|lia].
  destruct Hpx. assert (0 <= PREFIX_SIZE (nth 3 buf 0)).
  { pose proof (nth_byte buf Hok 3) as Hb. unfold is_byte in Hb. apply Z.div_pos; lia. }
  rewrite <- Hty. apply IH; [by apply Forall_drop|lia|]. rewrite length_drop. lia.
Qed.
End StuckFec.

Lemma label_fault_stuck buf len type f e : bytes_ok buf -> LDP_MSG_SIZE <= len < 2 ^ 16 ->
  len <= Z.of_nat (length buf) -> label_fault buf len type f -> stuck (recv_labelmessage buf len type) e.
Proof.
  intros Hok Hlen Hl [Hh Ht Hfl Hf]. unfold LDP_MSG_SIZE, TLV_HDR_SIZE in *.
  unfold recv_labelmessage. apply stuck_rd16; [lia|]. apply stuck_rd32; [lia|]. cbv zeta.
  pose proof (length_drop buf 8) as Hd8. pose proof (length_drop buf 12) as Hd12.
  unfold LDP_MSG_SIZE, TLV_HDR_SIZE. rewrite u16_small by (unfold is_u; lia).
  destruct (len - 8 <? 4) eqn:E; zbool; [lia|].
  apply stuck_rd16; [lia|]. apply stuck_rd16; [lia|]. rewrite !slice_of_drop, !drop_drop. cbn [Nat.add].
  rewrite Ht, Z.eqb_refl. cbn [negb].
  pose proof (htons_bound (le_val (slice 10 2 buf))) as Hb. unfold is_u in Hb.
  fold (ntohs (le_val (slice 10 2 buf))) in Hb.
  destruct (_ >? len - 8 - 4) eqn:E2; zbool; [lia|].
  eapply stuck_bind, fec_fault_stuck; [done|by apply Forall_drop|lia|lia].
Qed.
End Stuck.

(** ** The properties *)

(** C6: robustness of the label message parser.  On arbitrary bytes from the
    network (a message of [len] bytes in the buffer of a PDU) a parser that
    returns leaves the session in a state that satisfies the invariant, and
    every label it passed to the lde is well formed: the type of the imsg is
    that of the message, the FEC is a wildcard (only in a withdraw or release),
    an IPv4 or IPv6 prefix of at most 128 bits or a pseudowire (with an
    identifier in a mapping, request or abort), and the label fits the message
    and the FEC.  It returns exactly when none of the three defects
    [label_fault] is in the message: an over-long prefix or an empty FEC TLV
    at the end of the PDU is undefined behaviour, a sub-TLV of length 0 an
    endless loop.  The process is never aborted. *)
Theorem recv_labelmessage_robust (buf : list Z) (len type : Z) (e : ldpe)
    (Hbuf : bytes_ok buf) (Hlen : LDP_MSG_SIZE <= len < 2 ^ 16)
    (Hin : len <= Z.of_nat (length buf)) (Hr : ready (2 ^ 16) e) (Hup : up e) :
  match recv_labelmessage buf len type e with
  | Ok (_, e') => (forall f, ~ label_fault buf len type f) /\ nbr_inv (e_nbr e') /\
      exists l, e_lde e' = e_lde e ++ l /\
        Forall (fun i => match i with
                         | ImsgLabel _ t m => label_imsg_of type = Some t /\ forwarded type m
                         | _ => True
                         end) l
  | Undef _ => label_fault buf len type PrefixOverrun \/ label_fault buf len type FecOverread
  | NoFuel => label_fault buf len type SubtlvHang
  | Fatal _ => False
  end.
Proof.
  assert (safe (label_fault buf len type) (recv_labelmessage buf len type)
    (fun _ e' => nbr_inv (e_nbr e')) e) as H.
  { eapply safe_mono; [apply (recv_labelmessage_safe 0); auto; [done|]|by intros ? ? [? _]].
    eapply ready_le, Hr. lia. }
  unfold safe in H. destruct (recv_labelmessage buf len type e) as [[r e']| | |] eqn:E; try exact H.
  split; [|split; [exact H|]].
  - intros f Hf. by destruct (label_fault_stuck _ _ _ _ e Hbuf Hlen Hin Hf r e').
  - apply (tells_labelmessage type buf len Hbuf e r e' E).
Qed.

Lemma ldpe_oper_ready : ready (2 ^ 16) ldpe_oper.
Proof.
  split; [constructor; cbn; try done; try set_solver; intuition congruence|].
  split; [vm_compute; intuition congruence|by left].
Qed.

(** An ordinary mapping of a pseudowire, with identifier and MTU, followed by
    bytes of the next message: no defect, and one map for the lde. *)
Definition pwid_mapping : list Z := label_msg 8 MSG_TYPE_LABELMAPPING map_pwid_ex ++ [0; 0; 0; 0].

Lemma recv_labelmessage_robust_witness :
  exists e' m, recv_labelmessage pwid_mapping (Z.of_nat (length pwid_mapping) - 4)
    MSG_TYPE_LABELMAPPING ldpe_oper = Ok (0, e') /\ e_lde e' = [ImsgLabel 2 IMSG_LABEL_MAPPING m] /\
  (forall f, ~ label_fault pwid_mapping (Z.of_nat (length pwid_mapping) - 4) MSG_TYPE_LABELMAPPING f) /\
  nbr_inv (e_nbr e') /\ forwarded MSG_TYPE_LABELMAPPING m.
Proof.
  assert (bytes_ok pwid_mapping) as Hb by (apply bytes_okb_ok; reflexivity).
  assert (LDP_MSG_SIZE <= Z.of_nat (length pwid_mapping) - 4 < 2 ^ 16) as Hl
    by (vm_compute; intuition congruence).
  assert (Z.of_nat (length pwid_mapping) - 4 <= Z.of_nat (length pwid_mapping)) as Hin by lia.
  assert (up ldpe_oper) as Hup by (vm_compute; discriminate).
  pose proof (recv_labelmessage_robust pwid_mapping (Z.of_nat (length pwid_mapping) - 4)
    MSG_TYPE_LABELMAPPING ldpe_oper Hb Hl Hin ldpe_oper_ready Hup) as H.
  assert (exists e' m, recv_labelmessage pwid_mapping (Z.of_nat (length pwid_mapping) - 4)
    MSG_TYPE_LABELMAPPING ldpe_oper = Ok (0, e') /\ e_lde e' = [ImsgLabel 2 IMSG_LABEL_MAPPING m])
    as (e' & m & E & Eq) by (do 2 eexists; split; vm_compute; reflexivity).
  rewrite E in H. destruct H as (Hf & Hi & l & Hl' & Fl). exists e', m.
  rewrite Eq in Hl'. change (e_lde ldpe_oper ++ l) with l in Hl'. rewrite <- Hl' in Fl.
  apply Forall_singleton in Fl as [_ Fw].
  split; [exact E|]. split; [exact Eq|]. split; [exact Hf|]. split; [exact Hi|exact Fw].
Defined.

(** C38: a sub-TLV of length 0 makes the engine loop for ever.  Whenever the
    loop over the interface parameters meets a sub-TLV with length 0 (and a
    type other than the MTU), no number of iterations ends it. *)
Theorem zero_subtlv_never_returns (buf : list Z) (msg_id msg_type off pw_len : Z) (e : ldpe)
    (Hin : (Z.to_nat off + 2 <= length buf)%nat) (Hpw : 2 <= pw_len < 256)
    (Hoff : 0 <= off < 2 ^ 16) (Hty : nth (Z.to_nat off) buf 0 <> SUBTLV_IFMTU)
    (Hz : nth (Z.to_nat off + 1) buf 0 = 0) (fuel : nat) (map : ldp_map) :
  subtlv_loop fuel msg_id msg_type buf off pw_len map e = NoFuel.
Proof. by apply subtlv_zero_hangs. Qed.

(** A PWID element whose single sub-TLV has length 0. *)
Definition zero_subtlv_elm : list Z := [128; 0; 5; 6; 0; 0; 0; 1; 0; 0; 0; 9; 2; 0].

Lemma zero_subtlv_never_returns_witness :
  tlv_decode_fec_elm 1 2 zero_subtlv_elm 14 map_zero ldpe_oper = NoFuel /\
  forall fuel map, subtlv_loop fuel 1 2 zero_subtlv_elm 12 2 map ldpe_oper = NoFuel.
Proof.
  split; [vm_compute; reflexivity|]. intros fuel map.
  apply (zero_subtlv_never_returns zero_subtlv_elm 1 2 12 2 ldpe_oper);
    vm_compute; intuition (congruence || lia).
Defined.

(** C39: a prefix element of the IPv4 family with a prefix length of more than 128
    bits overruns the 16-byte address of [struct map]: the element passes every
    check of the decoder when the TLV is long enough, and the copy that follows is out of
    bounds. *)
Theorem oversized_prefix_overruns (buf : list Z) (msg_id msg_type len plen : Z) (map : ldp_map)
    (e : ldpe) (Hb : take 4 buf = [MAP_TYPE_PREFIX; 0; AF_IPV4; plen]) (Hp : 128 < plen < 256)
    (Hl : 4 + PREFIX_SIZE plen <= len) (Hin : len <= Z.of_nat (length buf)) :
  tlv_decode_fec_elm msg_id msg_type buf len map e
  = Undef "write past map->fec.prefix.prefix".
Proof.
  assert (exists l, buf = MAP_TYPE_PREFIX :: 0 :: AF_IPV4 :: plen :: l) as [l ->].
  { exists (drop 4 buf). rewrite <- (take_drop 4 buf) at 1. by rewrite Hb. }
  assert (17 <= PREFIX_SIZE plen) as H17.
  { unfold PREFIX_SIZE. change 17 with (136 / 8). apply Z.div_le_mono; lia. }
  cbn [length] in Hin. unfold tlv_decode_fec_elm.
  rewrite (bind_ok _ _ _ MAP_TYPE_PREFIX e) by (apply rd8_ok; [cbn; lia|done]).
  change (MAP_TYPE_PREFIX =? MAP_TYPE_WILDCARD) with false.
  change (MAP_TYPE_PREFIX =? MAP_TYPE_PREFIX) with true. cbv match zeta.
  destruct (len <? FEC_ELM_PREFIX_MIN_LEN) eqn:E; zbool; [unfold FEC_ELM_PREFIX_MIN_LEN in E; lia|].
  rewrite (bind_ok _ _ _ (htons AF_IPV4) e) by (apply rd16_ok; [cbn; lia|done]).
  change (ntohs (htons AF_IPV4)) with AF_IPV4. cbn [negb andb].
  change (negb (AF_IPV4 =? AF_IPV4) && negb (AF_IPV4 =? AF_IPV6)) with false. cbv match.
  rewrite (bind_ok _ _ _ plen e) by (apply rd8_ok; [cbn; lia|done]).
  destruct (len <? 4 + PREFIX_SIZE plen) eqn:E'; zbool; [lia|].
  erewrite bind_ok by (apply rd_ok; [cbn [length]; lia|reflexivity]).
  destruct (PREFIX_SIZE plen >? 16) eqn:E''; zbool; [done|lia].
Qed.

Lemma oversized_prefix_overruns_witness :
  tlv_decode_fec_elm 1 2 ([2; 0; 1; 255] ++ replicate 32 9) 36 map_zero ldpe_oper
  = Undef "write past map->fec.prefix.prefix".
Proof.
  apply (oversized_prefix_overruns ([2; 0; 1; 255] ++ replicate 32 9) 1 2 36 255);
    [reflexivity|vm_compute; intuition congruence|vm_compute; congruence|vm_compute; congruence].
Defined.

(** An empty FEC TLV at the end of a PDU is read past its end: the decoder
    looks at the first byte of the element before it compares any length. *)
Theorem empty_fec_reads_past_pdu (mtype mid : list Z) (e : ldpe) (type : Z)
    (Ht : length mtype = 2%nat) (Hi : length mid = 4%nat) :
  recv_labelmessage (mtype ++ [0; 8] ++ mid ++ [1; 0; 0; 0]) 12 type e
  = Undef "read past the receive buffer".
Proof.
  destruct mtype as [|a [|b [|]]]; try discriminate Ht.
  destruct mid as [|c [|d [|f [|g [|]]]]]; try discriminate Hi. reflexivity.
Qed.

Lemma empty_fec_reads_past_pdu_witness :
  recv_labelmessage [4; 2; 0; 8; 0; 0; 0; 9; 1; 0; 0; 0] 12 MSG_TYPE_LABELWITHDRAW ldpe_oper
  = Undef "read past the receive buffer".
Proof.
  exact (empty_fec_reads_past_pdu [4; 2] [0; 0; 0; 9] ldpe_oper MSG_TYPE_LABELWITHDRAW
           eq_refl eq_refl).
Defined.
