(* ===== verification/Recv.v ===== *)
(** * Receiving messages: the session reader and the remaining parsers
      (ldpd/packet.c, notification.c, init.c, keepalive.c, address.c)

    [session_read] cuts the TCP byte stream into PDUs, checks the PDU and
    message headers against the state of the session and dispatches to the
    parsers.  A PDU is a heap block of exactly its length, so a read behind it
    is undefined behaviour, as in [LabelMsg]. *)
From stdpp Require Import prelude strings list.
From Stdlib Require Import ZArith Lia.
From S2P Require Import Prelude Util Wire Ipc Session LabelMsg LabelSafe.

(** [session_shutdown(...); return (-1)] and the same with a notification. *)
Definition shutdown_ret (status msg_id msg_type : Z) : ST ldpe Z :=
  session_shutdown status msg_id msg_type ;;; ret (-1).
Definition notify_ret (status msg_id msg_type : Z) : ST ldpe Z :=
  send_notification_nbr status msg_id msg_type ;;; ret (-1).

(** ** The loop over optional TLVs

    Notification and Initialization messages share its frame: [handle] is the
    [switch] on the type, called with the type, the length and the bytes behind
    the header; it returns [None] for [return (-1)]. *)
Fixpoint tlv_loop {A} (handle : Z -> Z -> list Z -> A -> ST ldpe (option A))
    (fuel : nat) (msg_id msg_type : Z) (buf : list Z) (len : Z) (acc : A)
    : ST ldpe (option A) :=
  match fuel with
  | O => nofuel
  | S f =>
      if negb (len >? 0) then ret (Some acc)
      else if len <? TLV_HDR_SIZE then fail_shutdown S_BAD_TLV_LEN msg_id msg_type
      else
        do ty_raw <- rd16 0 buf;
        do len_raw <- rd16 2 buf;
        let tlv_len := ntohs len_raw in
        if tlv_len + TLV_HDR_SIZE >? len then fail_shutdown S_BAD_TLV_LEN msg_id msg_type
        else
          let body := drop 4 buf in
          do r <- handle (ntohs ty_raw) tlv_len body acc;
          match r with
          | None => ret None
          | Some acc' =>
              tlv_loop handle f msg_id msg_type (drop (Z.to_nat tlv_len) body)
                (u16 (u16 (len - TLV_HDR_SIZE) - tlv_len)) acc'
          end
  end.

Definition unknown_tlv (msg_id msg_type ty : Z) : ST ldpe unit :=
  if negb (has_flag ty UNKNOWN_FLAG) then send_notification_nbr S_UNKNOWN_TLV msg_id msg_type
  else ret tt.

(** ** Notification messages *)
Definition set_nm_pw_status (nm : notify_msg) (v : Z) : notify_msg :=
  NotifyMsg (nm_status_code nm) (nm_msg_id nm) (nm_msg_type nm) v (nm_fec nm)
    (Z.lor (nm_flags nm) F_NOTIF_PW_STATUS).
Definition set_nm_fec (nm : notify_msg) (m : ldp_map) : notify_msg :=
  NotifyMsg (nm_status_code nm) (nm_msg_id nm) (nm_msg_type nm) (nm_pw_status nm) m
    (Z.lor (nm_flags nm) F_NOTIF_FEC).

Definition notif_tlv (msg_id msg_type ty tlv_len : Z) (body : list Z) (nm : notify_msg)
    : ST ldpe (option notify_msg) :=
  if (ty =? TLV_TYPE_EXTSTATUS) || (ty =? TLV_TYPE_RETURNEDPDU) || (ty =? TLV_TYPE_RETURNEDMSG)
  then ret (Some nm)
  else if ty =? TLV_TYPE_PW_STATUS then
    if negb (tlv_len =? 4) then fail_shutdown S_BAD_TLV_LEN msg_id msg_type
    else do v <- rd32 0 body; ret (Some (set_nm_pw_status nm (ntohl v)))
  else if ty =? TLV_TYPE_FEC then
    do r <- tlv_decode_fec_elm msg_id msg_type body tlv_len (nm_fec nm);
    match r with
    | None => ret None
    | Some (tlen, m) =>
        if negb (tlen =? tlv_len) then fail_shutdown S_BAD_TLV_VAL msg_id msg_type
        else ret (Some (set_nm_fec nm m))
    end
  else unknown_tlv msg_id msg_type ty ;;; ret (Some nm).

(** A fatal notification closes the session, a pseudowire status goes to the
    lde.  [st_raw] is the status code in network byte order. *)
Definition notif_accept (st_raw : Z) (nm : notify_msg) : ST ldpe Z :=
  if has_flag st_raw (htonl STATUS_FATAL) then
    do n <- get_nbr;
    (if n_state n =? NBR_STA_OPENSENT then nbr_start_idtimer else ret tt) ;;;
    nbr_fsm NBR_EVT_CLOSE_SESSION ;;; ret (-1)
  else
    do n <- get_nbr;
    (if nm_status_code nm =? S_PW_STATUS
     then ldpe_imsg_compose_lde (ImsgNotification (n_peerid n) nm) else ret tt) ;;;
    ret 0.

Definition notif_act (msg_id msg_type st_raw : Z) (nm : notify_msg) : ST ldpe Z :=
  if nm_status_code nm =? S_PW_STATUS then
    if negb (has_flag (nm_flags nm) (Z.lor F_NOTIF_PW_STATUS F_NOTIF_FEC)) then
      notify_ret S_MISS_MSG msg_id msg_type
    else if m_type (nm_fec nm) =? MAP_TYPE_PWID then notif_accept st_raw nm
    else notify_ret S_BAD_TLV_VAL msg_id msg_type
  else notif_accept st_raw nm.

Definition recv_notification (buf0 : list Z) (len0 : Z) : ST ldpe Z :=
  do msg_type <- rd16 0 buf0;
  do msg_id <- rd32 4 buf0;
  let buf := drop 8 buf0 in
  let len := u16 (len0 - LDP_MSG_SIZE) in
  if len <? STATUS_SIZE then shutdown_ret S_BAD_MSG_LEN msg_id msg_type
  else
    do st_length <- rd16 2 buf;
    do st_raw <- rd32 4 buf;
    do _ <- rd 0 14 buf;
    if (ntohs st_length >? STATUS_SIZE - TLV_HDR_SIZE) || (ntohs st_length >? len - TLV_HDR_SIZE)
    then shutdown_ret S_BAD_TLV_LEN msg_id msg_type
    else
      let len := u16 (len - STATUS_SIZE) in
      do r <- tlv_loop (notif_tlv msg_id msg_type) (S (Z.to_nat len)) msg_id msg_type
                (drop 14 buf) len (NotifyMsg (ntohl st_raw) 0 0 0 map_zero 0);
      match r with
      | None => ret (-1)
      | Some nm => notif_act msg_id msg_type st_raw nm
      end.

(** ** Initialization messages *)
Definition init_tlv (msg_id msg_type ty tlv_len : Z) (body : list Z) (u : unit)
    : ST ldpe (option unit) :=
  if (ty =? TLV_TYPE_ATMSESSIONPAR) || (ty =? TLV_TYPE_FRSESSION) then
    fail_shutdown S_BAD_TLV_VAL msg_id msg_type
  else unknown_tlv msg_id msg_type ty ;;; ret (Some u).

(** The negotiated session parameters. *)
Definition negotiated_pdu_len (max_pdu_len : Z) : Z :=
  Z.min (if max_pdu_len <=? 255 then LDP_MAX_LEN else max_pdu_len) LDP_MAX_LEN.

Definition recv_init (buf0 : list Z) (len0 : Z) : ST ldpe Z :=
  do msg_type <- rd16 0 buf0;
  do msg_id <- rd32 4 buf0;
  let buf := drop 8 buf0 in
  let len := u16 (len0 - LDP_MSG_SIZE) in
  if len <? SESS_PRMS_SIZE then shutdown_ret S_BAD_MSG_LEN msg_id msg_type
  else
    (* type, length, version, keepalive, flags, pvlim, max pdu, lsr id, label space *)
    do sess_length <- rd16 2 buf;
    do proto_version <- rd16 4 buf;
    do keepalive_time <- rd16 6 buf;
    do max_pdu_len <- rd16 10 buf;
    do lsr_id <- rd32 12 buf;
    do lspace_id <- rd16 16 buf;
    do e <- get;
    if negb (ntohs sess_length =? SESS_PRMS_LEN) then shutdown_ret S_BAD_TLV_LEN msg_id msg_type
    else if negb (ntohs proto_version =? LDP_VERSION) then
      shutdown_ret S_BAD_PROTO_VER msg_id msg_type
    else if ntohs keepalive_time <? MIN_KEEPALIVE then
      shutdown_ret S_KEEPALIVE_BAD msg_id msg_type
    else if negb (lsr_id =? ldp_rtr_id_get (e_conf e)) || negb (ntohs lspace_id =? 0) then
      shutdown_ret S_NO_HELLO msg_id msg_type
    else
      let len := u16 (len - SESS_PRMS_SIZE) in
      do r <- tlv_loop (init_tlv msg_id msg_type) (S (Z.to_nat len)) msg_id msg_type
                (drop 18 buf) len tt;
      match r with
      | None => ret (-1)
      | Some _ =>
          do e <- get;
          do ka <- lift (nbr_get_keepalive (e_conf e) (n_af (e_nbr e)) (n_id (e_nbr e)));
          mod_nbr (fun n => set_n_params n (Z.min ka (ntohs keepalive_time))
                              (negotiated_pdu_len (ntohs max_pdu_len))) ;;;
          nbr_fsm NBR_EVT_INIT_RCVD ;;;
          ret 0
      end.

(** ** Keepalive messages *)
Definition recv_keepalive (buf : list Z) (len : Z) : ST ldpe Z :=
  do msg_type <- rd16 0 buf;
  do msg_id <- rd32 4 buf;
  if negb (len =? LDP_MSG_SIZE) then shutdown_ret S_BAD_MSG_LEN msg_id msg_type
  else
    do n <- get_nbr;
    (if negb (n_state n =? NBR_STA_OPER) then nbr_fsm NBR_EVT_KEEPALIVE_RCVD else ret tt) ;;;
    ret 0.

(** ** Address messages *)
Definition address_imsg (add : bool) (peerid af : Z) (addr : ldpd_addr) : ldpe_to_lde :=
  if add then ImsgAddressAdd peerid af addr else ImsgAddressDel peerid af addr.

Fixpoint address_loop (fuel : nat) (add : bool) (family msg_id msg_type : Z) (buf : list Z)
    (len : Z) : ST ldpe Z :=
  match fuel with
  | O => nofuel
  | S f =>
      if negb (len >? 0) then ret 0
      else if (family =? AF_IPV4) || (family =? AF_IPV6) then
        let size := if family =? AF_IPV4 then 4 else 16 in
        let af := if family =? AF_IPV4 then AF_INET else AF_INET6 in
        if len <? size then shutdown_ret S_BAD_TLV_LEN msg_id msg_type
        else
          do bs <- rd 0 (Z.to_nat size) buf;
          do n <- get_nbr;
          ldpe_imsg_compose_lde (address_imsg add (n_peerid n) af (fill_addr bs)) ;;;
          address_loop f add family msg_id msg_type (drop (Z.to_nat size) buf) (u16 (len - size))
      else fatalx "recv_address: unknown af"
  end.

Definition recv_address (buf0 : list Z) (len0 : Z) : ST ldpe Z :=
  do msg_type <- rd16 0 buf0;
  do msg_id <- rd32 4 buf0;
  let buf := drop 8 buf0 in
  let len := u16 (len0 - LDP_MSG_SIZE) in
  if len <? ADDRESS_LIST_TLV_SIZE then shutdown_ret S_BAD_MSG_LEN msg_id msg_type
  else
    do alt_type <- rd16 0 buf;
    do alt_length <- rd16 2 buf;
    do alt_family <- rd16 4 buf;
    do n <- get_nbr;
    let family := ntohs alt_family in
    let go :=
      let len := u16 (len - ADDRESS_LIST_TLV_SIZE) in
      address_loop (S (Z.to_nat len)) (ntohs msg_type =? MSG_TYPE_ADDR) family msg_id msg_type
        (drop 6 buf) len in
    if negb (ntohs alt_length =? len - TLV_HDR_SIZE) then shutdown_ret S_BAD_TLV_LEN msg_id msg_type
    else if negb (ntohs alt_type =? TLV_TYPE_ADDRLIST) then
      shutdown_ret S_UNKNOWN_TLV msg_id msg_type
    else if family =? AF_IPV4 then if negb (n_v4_enabled n) then ret 0 else go
    else if family =? AF_IPV6 then if negb (n_v6_enabled n) then ret 0 else go
    else notify_ret S_UNSUP_ADDR msg_id msg_type.

(** ** The session reader *)

(** [session_get_pdu] on the bytes in [tcp->rbuf]: [None] when no complete PDU
    has arrived, else the PDU and the bytes left. *)
Definition session_get_pdu (rbuf : list Z) : option (list Z * list Z) :=
  let av := Z.of_nat (length rbuf) in
  if av <? LDP_HDR_SIZE then None
  else
    let dlen := ntohs (le_val (slice 2 2 rbuf)) + LDP_HDR_DEAD_LEN in
    if dlen >? av then None
    else Some (take (Z.to_nat dlen) rbuf, drop (Z.to_nat dlen) rbuf).

(** The message types that are only valid in an operational session. *)
Definition oper_msg (type : Z) : bool :=
  (type =? MSG_TYPE_ADDR) || (type =? MSG_TYPE_ADDRWITHDRAW) || (type =? MSG_TYPE_LABELMAPPING)
  || (type =? MSG_TYPE_LABELREQUEST) || (type =? MSG_TYPE_LABELWITHDRAW)
  || (type =? MSG_TYPE_LABELRELEASE) || (type =? MSG_TYPE_LABELABORTREQ).

(** "check for error conditions earlier": the message does not fit the state. *)
Definition bad_for_state (type state : Z) : bool :=
  if type =? MSG_TYPE_INIT then
    negb (state =? NBR_STA_INITIAL) && negb (state =? NBR_STA_OPENSENT)
  else if type =? MSG_TYPE_KEEPALIVE then
    (state =? NBR_STA_INITIAL) || (state =? NBR_STA_OPENSENT)
  else if oper_msg type then negb (state =? NBR_STA_OPER)
  else false.

(** "switch LDP packet type". *)
Definition dispatch_msg (type msg_id msg_type : Z) (pdu : list Z) (msg_size : Z) : ST ldpe Z :=
  if type =? MSG_TYPE_NOTIFICATION then recv_notification pdu msg_size
  else if type =? MSG_TYPE_INIT then recv_init pdu msg_size
  else if type =? MSG_TYPE_KEEPALIVE then recv_keepalive pdu msg_size
  else if (type =? MSG_TYPE_ADDR) || (type =? MSG_TYPE_ADDRWITHDRAW) then
    recv_address pdu msg_size
  else if oper_msg type then recv_labelmessage pdu msg_size type
  else
    (if negb (has_flag type UNKNOWN_FLAG)
     then send_notification_nbr S_UNKNOWN_MSG msg_id msg_type else ret tt) ;;;
    ret 0.

(** The loop over the messages of a PDU.  [None]: the reader gave up; [Some
    len]: the loop ended with [len] bytes left. *)
Fixpoint msg_loop (fuel : nat) (pdu : list Z) (len pdu_len : Z) : ST ldpe (option Z) :=
  match fuel with
  | O => nofuel
  | S f =>
      if negb (len >=? LDP_MSG_SIZE) then ret (Some len)
      else
        do msg_type <- rd16 0 pdu;
        do length_raw <- rd16 2 pdu;
        do msg_id <- rd32 4 pdu;
        let type := ntohs msg_type in
        let msg_len := ntohs length_raw in
        if (msg_len <? LDP_MSG_LEN) || (msg_len + LDP_MSG_DEAD_LEN >? pdu_len) then
          fail_shutdown S_BAD_TLV_LEN msg_id msg_type
        else
          let msg_size := u16 (msg_len + LDP_MSG_DEAD_LEN) in
          do n <- get_nbr;
          if bad_for_state type (n_state n) then fail_shutdown S_SHUTDOWN msg_id msg_type
          else
            do r <- dispatch_msg type msg_id msg_type pdu msg_size;
            if r =? -1 then ret None
            else msg_loop f (drop (Z.to_nat msg_size) pdu) (len - msg_size)
                   (u16 (pdu_len - msg_size))
  end.

(** One PDU; [false] when the reader returns. *)
Definition read_pdu (pdu : list Z) : ST ldpe bool :=
  let len := Z.of_nat (length pdu) in
  let reject status := session_shutdown status 0 0 ;;; ret false in
  do version <- rd16 0 pdu;
  do length_raw <- rd16 2 pdu;
  if negb (ntohs version =? LDP_VERSION) then reject S_BAD_PROTO_VER
  else
    do n <- get_nbr;
    let pdu_len := ntohs length_raw in
    let max_pdu_len := if n_state n =? NBR_STA_OPER then n_max_pdu_len n else LDP_MAX_LEN in
    if (pdu_len <? LDP_HDR_PDU_LEN + LDP_MSG_SIZE) || (pdu_len >? max_pdu_len) then
      reject S_BAD_PDU_LEN
    else
      do lsr_id <- rd32 4 pdu;
      do lspace_id <- rd16 8 pdu;
      if negb (lsr_id =? n_id n) || negb (lspace_id =? 0) then reject S_BAD_LDP_ID
      else
        nbr_fsm NBR_EVT_PDU_RCVD ;;;
        do r <- msg_loop (S (length pdu)) (drop 10 pdu) (len - LDP_HDR_SIZE)
                  (u16 (pdu_len - LDP_HDR_PDU_LEN));
        match r with
        | None => ret false
        | Some len => if negb (len =? 0) then reject S_BAD_PDU_LEN else ret true
        end.

(** The loop over the PDUs; the result is the content of the read buffer (the
    buffer is gone when the session was closed). *)
Fixpoint pdu_loop (fuel : nat) (rbuf : list Z) : ST ldpe (list Z) :=
  match fuel with
  | O => nofuel
  | S f =>
      match session_get_pdu rbuf with
      | None => ret rbuf
      | Some (pdu, rbuf') =>
          do r <- read_pdu pdu;
          if r then pdu_loop f rbuf' else ret rbuf'
      end
  end.

(** What [read] returns: -1 with EINTR/EAGAIN or another error, 0, or data. *)
Inductive read_result :=
| ReadRetry
| ReadError
| ReadEof
| ReadData (bytes : list Z).

Definition session_read (r : read_result) (rbuf : list Z) : ST ldpe (list Z) :=
  match r with
  | ReadRetry => ret rbuf
  | ReadError | ReadEof => nbr_fsm NBR_EVT_CLOSE_SESSION ;;; ret rbuf
  | ReadData bytes => pdu_loop (S (length (rbuf ++ bytes))) (rbuf ++ bytes)
  end.

(** ** Where the defects of the decoder can be in a stream

    The FEC decoder of [LabelSafe] runs on the FEC TLV of the five label
    messages and on the FEC TLVs among the optional parameters of a
    notification; [stream_fault] follows the framing of the byte stream down to
    these places. *)

(** In a row of TLVs ([len] bytes at the start of [buf]) one has the fault
    [F type length body]. *)
Inductive tlvs_fault (F : Z -> Z -> list Z -> fault -> Prop) : list Z -> Z -> fault -> Prop :=
| tlvs_here buf len tl f :
    TLV_HDR_SIZE <= len -> ntohs (le_val (slice 2 2 buf)) = tl -> tl + TLV_HDR_SIZE <= len ->
    F (ntohs (le_val (slice 0 2 buf))) tl (drop 4 buf) f -> tlvs_fault F buf len f
| tlvs_next buf len tl f :
    TLV_HDR_SIZE <= len -> ntohs (le_val (slice 2 2 buf)) = tl -> tl + TLV_HDR_SIZE <= len ->
    tlvs_fault F (drop (4 + Z.to_nat tl) buf) (len - TLV_HDR_SIZE - tl) f -> tlvs_fault F buf len f.

(** The handler of the optional parameters of a notification decodes FECs. *)
Definition notif_tlv_fault (ty tlv_len : Z) (body : list Z) (f : fault) : Prop :=
  ty = TLV_TYPE_FEC /\ fec_elm_fault body tlv_len f.
Definition no_fault (ty tlv_len : Z) (body : list Z) (f : fault) : Prop := False.

(** The message of [len] bytes at the start of [buf]. *)
Definition message_fault (type : Z) (buf : list Z) (len : Z) (f : fault) : Prop :=
  (label_imsg_of type <> None /\ label_fault buf len type f) \/
  (type = MSG_TYPE_NOTIFICATION /\ LDP_MSG_SIZE + STATUS_SIZE <= len /\
   tlvs_fault notif_tlv_fault (drop 22 buf) (len - LDP_MSG_SIZE - STATUS_SIZE) f).

(** The messages of a PDU, behind its header. *)
Inductive pdu_fault : list Z -> fault -> Prop :=
| pdu_here buf ml f :
    ntohs (le_val (slice 2 2 buf)) = ml -> LDP_MSG_LEN <= ml ->
    ml + LDP_MSG_DEAD_LEN <= Z.of_nat (length buf) ->
    message_fault (ntohs (le_val (slice 0 2 buf))) buf (ml + LDP_MSG_DEAD_LEN) f -> pdu_fault buf f
| pdu_next buf ml f :
    ntohs (le_val (slice 2 2 buf)) = ml -> LDP_MSG_LEN <= ml ->
    ml + LDP_MSG_DEAD_LEN <= Z.of_nat (length buf) ->
    pdu_fault (drop (Z.to_nat (ml + LDP_MSG_DEAD_LEN)) buf) f -> pdu_fault buf f.

(** The complete PDUs of a stream. *)
Inductive stream_fault : list Z -> fault -> Prop :=
| stream_here s pdu rest f :
    session_get_pdu s = Some (pdu, rest) -> pdu_fault (drop 10 pdu) f -> stream_fault s f
| stream_next s pdu rest f :
    session_get_pdu s = Some (pdu, rest) -> stream_fault rest f -> stream_fault s f.

(** ** Robustness of the parsers *)
Section RecvSafe.
(** What a handler of the TLV loop must satisfy, for the TLV at the start of
    [buf]. *)
Definition handler_ok {A} (F : Z -> Z -> list Z -> fault -> Prop)
    (handle : Z -> Z -> list Z -> A -> ST ldpe (option A)) : Prop :=
  forall k e buf acc, 0 <= k -> ready (k + 1) e -> up e -> bytes_ok buf -> (4 <= length buf)%nat ->
  ntohs (le_val (slice 2 2 buf)) <= Z.of_nat (length (drop 4 buf)) ->
  safe (F (ntohs (le_val (slice 0 2 buf))) (ntohs (le_val (slice 2 2 buf))) (drop 4 buf))
    (handle (ntohs (le_val (slice 0 2 buf))) (ntohs (le_val (slice 2 2 buf))) (drop 4 buf) acc)
    (fun r e' => nbr_inv (e_nbr e') /\ (r <> None -> ready k e' /\ up e')) e.

Lemma tlv_loop_safe {A} F (handle : Z -> Z -> list Z -> A -> ST ldpe (option A)) i t k fuel :
  handler_ok F handle -> 0 <= k -> forall buf len acc e,
  bytes_ok buf -> ready (k + len) e -> up e -> 0 <= len < 2 ^ 16 ->
  len <= Z.of_nat (length buf) -> len < Z.of_nat fuel ->
  safe (tlvs_fault F buf len) (tlv_loop handle fuel i t buf len acc)
    (fun r e' => nbr_inv (e_nbr e') /\ (r <> None -> ready k e' /\ up e')) e.
Proof.
  intros Hh Hk. induction fuel as [|fuel IH]; intros buf len acc e Hok Hr Hup H16 Hlen Hf; [lia|].
  pose proof (ready_le (k + len) 0 e ltac:(lia) Hr) as Hr0. cbn [tlv_loop].
  destruct (negb (len >? 0)) eqn:E; zbool.
  { apply safe_ret. split; [apply Hr|]. split; [|done]. eapply ready_le, Hr. lia. }
  destruct (len <? TLV_HDR_SIZE) eqn:E'; [by apply safe_fail_shutdown|]. zbool.
  unfold TLV_HDR_SIZE in *.
  apply safe_bind, safe_rd16; [lia|]. apply safe_bind, safe_rd16; [lia|].
  pose proof (htons_bound (le_val (slice 2 2 buf))) as Hb.
  fold (ntohs (le_val (slice 2 2 buf))) in Hb. unfold is_u in Hb.
  destruct (_ + 4 >? len) eqn:E2; [by apply safe_fail_shutdown|]. zbool. cbv zeta.
  pose proof (length_drop buf 4) as Hd4.
  apply safe_bind. eapply safe_faults, safe_mono.
  { intros f Hf'. eapply tlvs_here; [| |..|exact Hf']; unfold TLV_HDR_SIZE; done || lia. }
  { apply (Hh (k + (len - 4 - ntohs (le_val (slice 2 2 buf))))); auto; try lia.
    eapply ready_le, Hr. lia. }
  intros [acc'|] e' [Hi Hp]; [|by apply safe_ret]. destruct Hp as [Hr' Hup']; [done|].
  rewrite (u16_small (len - 4)), u16_small by (unfold is_u; lia).
  rewrite drop_drop. eapply safe_faults; [|apply IH; auto; try lia].
  - intros f Hf'. eapply tlvs_next; [| |..|exact Hf']; unfold TLV_HDR_SIZE; done || lia.
  - by apply Forall_drop.
  - rewrite !length_drop in *. lia.
Qed.

Lemma unknown_tlv_safe F i t ty k (Q : unit -> ldpe -> Prop) e :
  0 <= k -> ready (k + 1) e -> up e -> (forall e', ready k e' -> up e' -> Q tt e') ->
  safe F (unknown_tlv i t ty) Q e.
Proof.
  intros Hk Hr Hup HQ. unfold unknown_tlv. destruct (negb _).
  - by eapply safe_notify.
  - apply safe_ret, HQ; [|done]. eapply ready_le, Hr. lia.
Qed.

Lemma init_tlv_ok i t : handler_ok no_fault (init_tlv i t).
Proof.
  intros k e buf acc Hk Hr Hup Hok H4 Hl. unfold init_tlv.
  destruct (_ || _).
  { apply safe_fail_shutdown; [eapply ready_le, Hr; lia|done]. }
  apply safe_bind. eapply unknown_tlv_safe; eauto. intros e' Hr' Hup'.
  apply safe_ret. split; [apply Hr'|done].
Qed.

Lemma notif_tlv_ok i t : handler_ok notif_tlv_fault (notif_tlv i t).
Proof.
  intros k e buf acc Hk Hr Hup Hok H4 Hl. unfold notif_tlv.
  pose proof (ready_le (k + 1) 0 e ltac:(lia) Hr) as Hr0.
  pose proof (ready_le (k + 1) 1 e ltac:(lia) Hr) as Hr1.
  pose proof (ready_le (k + 1) k e ltac:(lia) Hr) as Hrk.
  pose proof (htons_bound (le_val (slice 2 2 buf))) as Hb.
  fold (ntohs (le_val (slice 2 2 buf))) in Hb. unfold is_u in Hb.
  set (ty := ntohs (le_val (slice 0 2 buf))) in *.
  set (tlv_len := ntohs (le_val (slice 2 2 buf))) in *.
  destruct (_ || _); [apply safe_ret; split; [apply Hr|done]|].
  destruct (ty =? TLV_TYPE_PW_STATUS).
  { destruct (negb (tlv_len =? 4)) eqn:E; [by apply safe_fail_shutdown|]. zbool.
    apply safe_bind, safe_rd32; [lia|]. apply safe_ret. split; [apply Hr|done]. }
  destruct (ty =? TLV_TYPE_FEC) eqn:Et.
  2:{ apply safe_bind. eapply unknown_tlv_safe; eauto. intros e' Hr' Hup'.
      apply safe_ret. split; [apply Hr'|done]. }
  zbool. apply safe_bind. eapply safe_faults, safe_mono; [by split| |].
  { apply decode_fec_elm_safe; auto. by apply Forall_drop. }
  intros [[tlen m]|] e' [Hi Hp]; [|by apply safe_ret]. destruct Hp as (-> & _ & _).
  destruct (negb _); [by apply safe_fail_shutdown|].
  apply safe_ret. split; [apply Hr|done].
Qed.

Lemma idtimer_inv e : nbr_inv (e_nbr e) ->
  wp nbr_start_idtimer (fun e' => nbr_inv (e_nbr e')) e.
Proof.
  intros Hi. unfold nbr_start_idtimer. apply wp_nbr. destruct (idtimer_backoff _) as [secs cnt].
  apply wp_seq, wp_mod, wp_mod. destruct Hi. by constructor.
Qed.

Lemma notif_act_safe F i t st nm k e :
  0 <= k -> ready (k + 1) e -> up e -> safe F (notif_act i t st nm) (parsed k) e.
Proof.
  intros Hk Hr Hup. unfold notif_act.
  pose proof (ready_le (k + 1) 1 e ltac:(lia) Hr) as Hr1.
  pose proof (ready_le (k + 1) k e ltac:(lia) Hr) as Hrk.
  assert (safe F (notif_accept st nm) (parsed k) e) as Hfc.
  { unfold notif_accept. destruct (has_flag _ _).
    - assert (wp (if n_state (e_nbr e) =? NBR_STA_OPENSENT then nbr_start_idtimer else ret tt)
        (fun e' => nbr_inv (e_nbr e')) e) as Hid.
      { destruct Hr as [Hi _]. case_match; [by apply idtimer_inv|by apply wp_ret]. }
      destruct (wp_elim _ _ _ Hid) as (e1 & E1 & I1).
      destruct (wp_elim _ _ _ (wp_close_event true e1 I1)) as (e2 & E2 & I2 & _).
      unfold safe. rewrite (bind_ok get_nbr _ e (e_nbr e) e) by done.
      rewrite (bind_ok _ _ _ _ _ E1), (bind_ok _ _ _ _ _ E2). by apply parsed_err.
    - unfold safe. rewrite (bind_ok get_nbr _ e (e_nbr e) e) by done.
      destruct (_ =? S_PW_STATUS); apply parsed_ok; done. }
  destruct (_ =? S_PW_STATUS); [|done].
  destruct (negb _); [by apply safe_notify_ret|].
  destruct (_ =? MAP_TYPE_PWID); [done|by apply safe_notify_ret].
Qed.

Lemma recv_notification_safe k buf len e :
  0 <= k -> bytes_ok buf -> ready (k + len) e -> up e -> LDP_MSG_SIZE <= len < 2 ^ 16 ->
  len <= Z.of_nat (length buf) -> safe (message_fault MSG_TYPE_NOTIFICATION buf len) (recv_notification buf len) (parsed k) e.
Proof.
  intros Hk Hok Hr Hup Hl Hlen. unfold recv_notification. unfold LDP_MSG_SIZE in *.
  pose proof (ready_le (k + len) 0 e ltac:(lia) Hr) as Hr0.
  apply safe_bind, safe_rd16; [lia|]. apply safe_bind, safe_rd32; [lia|]. cbv zeta.
  rewrite u16_small by (unfold is_u; lia). unfold STATUS_SIZE.
  destruct (len - 8 <? 14) eqn:E; [by apply safe_shutdown_ret|]. zbool.
  pose proof (length_drop buf 8) as Hd8.
  apply safe_bind, safe_rd16; [lia|]. apply safe_bind, safe_rd32; [lia|].
  apply safe_bind, safe_rd; [lia|].
  destruct (_ || _); [by apply safe_shutdown_ret|].
  rewrite u16_small by (unfold is_u; lia). apply safe_bind.
  rewrite drop_drop. cbn [Nat.add]. eapply safe_faults, safe_mono.
  { intros f Hf. right. split; [done|]. split; [unfold LDP_MSG_SIZE, STATUS_SIZE; lia|exact Hf]. }
  { apply (tlv_loop_safe _ _ _ _ (k + 1)); auto using notif_tlv_ok; try lia.
    - by apply Forall_drop.
    - eapply ready_le, Hr. lia.
    - rewrite length_drop. lia. }
  intros [nm|] e' [Hi Hp]; [|by apply safe_ret, parsed_err]. destruct Hp; [done|].
  by apply notif_act_safe.
Qed.

Lemma recv_init_safe k buf len e :
  0 <= k -> bytes_ok buf -> ready (k + len) e -> up e -> LDP_MSG_SIZE <= len < 2 ^ 16 ->
  len <= Z.of_nat (length buf) -> safe (fun _ => False) (recv_init buf len) (parsed k) e.
Proof.
  intros Hk Hok Hr Hup Hl Hlen. unfold recv_init. unfold LDP_MSG_SIZE in *.
  pose proof (ready_le (k + len) 0 e ltac:(lia) Hr) as Hr0.
  apply safe_bind, safe_rd16; [lia|]. apply safe_bind, safe_rd32; [lia|]. cbv zeta.
  rewrite u16_small by (unfold is_u; lia). unfold SESS_PRMS_SIZE.
  destruct (len - 8 <? 18) eqn:E; [by apply safe_shutdown_ret|]. zbool.
  pose proof (length_drop buf 8) as Hd8.
  do 4 (apply safe_bind, safe_rd16; [lia|]). apply safe_bind, safe_rd32; [lia|].
  apply safe_bind, safe_rd16; [lia|]. apply safe_bind. unfold safe at 1, get.
  repeat (destruct (_ : bool); [by apply safe_shutdown_ret|]).
  rewrite u16_small by (unfold is_u; lia). apply safe_bind.
  rewrite drop_drop. cbn [Nat.add]. 
  eapply (safe_faults (tlvs_fault no_fault (drop 26 buf) (len - 8 - 18))), safe_mono.
  { intros f Hf. by induction Hf. }
  { apply (tlv_loop_safe _ _ _ _ (k + 2)); auto using init_tlv_ok; try lia.
    - by apply Forall_drop.
    - eapply ready_le, Hr. lia.
    - rewrite length_drop. lia. }
  intros [u|] e1 [Hi Hp]; [|by apply safe_ret, parsed_err]. destruct Hp as [Hr1 Hup1]; [done|].
  apply safe_bind. unfold safe at 1, get.
  destruct (nbr_get_keepalive_ok (e_conf e1) (n_af (e_nbr e1)) (n_id (e_nbr e1))) as [ka Hka];
    [by destruct Hi|].
  unfold safe. erewrite (bind_ok (lift _)) by (unfold lift; rewrite Hka; reflexivity).
  erewrite (bind_ok (mod_nbr _)) by reflexivity.
  match goal with |- context [upd_nbr ?f e1] => set (e2 := upd_nbr f e1) end.
  destruct Hr1 as (I1 & C1 & P1).
  assert (nbr_inv (e_nbr e2)) as I2 by (destruct I1; by constructor).
  destruct (wp_elim _ _ _ (wp_init_rcvd e2 I2 ltac:(unfold cnt_ok; cbn; lia)))
    as (e3 & E3 & (I3 & S3 & C3) & P3).
  rewrite (bind_ok _ _ _ _ _ E3). apply parsed_ok.
  - split; [done|]. cbn in C3. split; [lia|]. unfold pids_ok. rewrite P3.
    destruct P1 as [P1|P1]; [|by right]. left. rewrite S3. cbn. by rewrite P1.
  - unfold up in *. rewrite S3. cbn. destruct (_ || _); [by vm_compute|exact Hup1].
Qed.

Lemma recv_keepalive_safe k buf len e :
  0 <= k -> ready (k + len) e -> up e -> LDP_MSG_SIZE <= len < 2 ^ 16 ->
  len <= Z.of_nat (length buf) ->
  bad_for_state MSG_TYPE_KEEPALIVE (n_state (e_nbr e)) = false ->
  safe (fun _ => False) (recv_keepalive buf len) (parsed k) e.
Proof.
  intros Hk Hr Hup Hl Hlen Hst. unfold recv_keepalive. unfold LDP_MSG_SIZE in *.
  pose proof (ready_le (k + len) 0 e ltac:(lia) Hr) as Hr0.
  apply safe_bind, safe_rd16; [lia|]. apply safe_bind, safe_rd32; [lia|].
  destruct (negb _); [by apply safe_shutdown_ret|].
  unfold safe. rewrite (bind_ok get_nbr _ e (e_nbr e) e) by done.
  destruct (n_state (e_nbr e) =? NBR_STA_OPER) eqn:E; zbool; cbn [negb].
  { apply parsed_ok; [eapply ready_le, Hr; lia|done]. }
  destruct Hr as (Hi & Hc & [Hp|Hp]); [done|].
  assert (n_state (e_nbr e) = NBR_STA_OPENREC) as Eo.
  { destruct (inv_cases _ _ Hi) as [H|[H|[H|[H|H]]]]; try done; by rewrite H in Hst. }
  destruct (wp_elim _ _ _ (wp_keepalive_rcvd e Hi ltac:(unfold cnt_ok; lia) Hp))
    as (e1 & E1 & I1 & S1 & C1).
  rewrite Eo in S1. cbn in S1. rewrite (bind_ok _ _ _ _ _ E1). apply parsed_ok.
  - split; [done|]. split; [lia|by left].
  - unfold up. by rewrite S1.
Qed.

Lemma address_loop_safe F add family i t k fuel : 0 <= k ->
  family = AF_IPV4 \/ family = AF_IPV6 -> forall buf len e,
  ready k e -> up e -> 0 <= len < 2 ^ 16 -> len <= Z.of_nat (length buf) ->
  len < Z.of_nat fuel ->
  safe F (address_loop fuel add family i t buf len) (parsed k) e.
Proof.
  intros Hk Hf. induction fuel as [|fuel IH]; intros buf len e Hr Hup H16 Hlen Hfu; [lia|].
  cbn [address_loop]. destruct (negb (len >? 0)) eqn:E; zbool; [by apply safe_ret, parsed_ok|].
  replace ((family =? AF_IPV4) || (family =? AF_IPV6)) with true
    by (destruct Hf as [-> | ->]; done).
  set (size := if family =? AF_IPV4 then 4 else 16).
  assert (4 <= size <= 16) as Hs by (unfold size; case_match; lia).
  cbv zeta. destruct (len <? size) eqn:E2; zbool.
  { apply safe_shutdown_ret. eapply ready_le, Hr. lia. }
  apply safe_bind, safe_rd; [lia|]. apply safe_bind. unfold safe at 1, get_nbr, bind, get, ret.
  cbn [rbind]. apply safe_bind. unfold safe at 1, ldpe_imsg_compose_lde, modify.
  rewrite u16_small by (unfold is_u; lia).
  apply IH; try done; try lia. rewrite length_drop. lia.
Qed.

Lemma recv_address_safe k buf len e :
  0 <= k -> ready (k + len) e -> up e -> LDP_MSG_SIZE <= len < 2 ^ 16 ->
  len <= Z.of_nat (length buf) -> safe (fun _ => False) (recv_address buf len) (parsed k) e.
Proof.
  intros Hk Hr Hup Hl Hlen. unfold recv_address. unfold LDP_MSG_SIZE in *.
  pose proof (ready_le (k + len) 0 e ltac:(lia) Hr) as Hr0.
  pose proof (ready_le (k + len) 1 e ltac:(lia) Hr) as Hr1.
  pose proof (ready_le (k + len) k e ltac:(lia) Hr) as Hrk.
  apply safe_bind, safe_rd16; [lia|]. apply safe_bind, safe_rd32; [lia|]. cbv zeta.
  rewrite u16_small by (unfold is_u; lia). unfold ADDRESS_LIST_TLV_SIZE.
  destruct (len - 8 <? 6) eqn:E; [by apply safe_shutdown_ret|]. zbool.
  pose proof (length_drop buf 8) as Hd8.
  do 3 (apply safe_bind, safe_rd16; [lia|]).
  apply safe_bind. unfold safe at 1, get_nbr, bind, get, ret. cbn [rbind].
  do 2 (destruct (negb (_ =? _)); [by apply safe_shutdown_ret|]).
  rewrite u16_small by (unfold is_u; lia).
  set (fam := ntohs _). set (add := ntohs _ =? MSG_TYPE_ADDR). clearbody add.
  assert (forall i t, fam = AF_IPV4 \/ fam = AF_IPV6 -> safe (fun _ => False)
    (address_loop (S (Z.to_nat (len - 8 - 6))) add fam i t (drop 6 (drop 8 buf)) (len - 8 - 6))
    (parsed k) e) as Hgo.
  { intros i t Hf. apply address_loop_safe; auto; try lia. rewrite length_drop. lia. }
  destruct (fam =? AF_IPV4) eqn:E4; zbool.
  { destruct (negb _); [by apply safe_ret, parsed_ok|auto]. }
  destruct (fam =? AF_IPV6) eqn:E6; zbool; [|by apply safe_notify_ret].
  destruct (negb _); [by apply safe_ret, parsed_ok|auto].
Qed.

Lemma dispatch_safe type i t k buf len e :
  0 <= k -> bytes_ok buf -> ready (k + len) e -> up e -> LDP_MSG_SIZE <= len < 2 ^ 16 ->
  len <= Z.of_nat (length buf) -> bad_for_state type (n_state (e_nbr e)) = false ->
  safe (message_fault type buf len) (dispatch_msg type i t buf len) (parsed k) e.
Proof.
  intros Hk Hok Hr Hup Hl Hlen Hst. unfold dispatch_msg.
  destruct (type =? MSG_TYPE_NOTIFICATION) eqn:En; zbool; [rewrite En; by apply recv_notification_safe|].
  destruct (type =? MSG_TYPE_INIT); [by apply safe_any, recv_init_safe|].
  destruct (type =? MSG_TYPE_KEEPALIVE) eqn:E; zbool.
  { subst type. by apply safe_any, recv_keepalive_safe. }
  destruct (_ || _) eqn:Ea; [by apply safe_any, recv_address_safe|].
  destruct (oper_msg type) eqn:Eo.
  { eapply safe_faults; [|by apply recv_labelmessage_safe]. intros f Hf. left. split; [|done].
    unfold oper_msg in Eo. rewrite Ea in Eo. unfold label_imsg_of.
    repeat (case_match; [done|]). done. }
  unfold LDP_MSG_SIZE in *. apply safe_bind.
  destruct (negb _).
  - eapply (safe_notify _ _ _ _ k); [done|eapply ready_le, Hr; lia|done|].
    intros e' Hr' Hup'. by apply safe_ret, parsed_ok.
  - apply safe_ret, safe_ret, parsed_ok; [eapply ready_le, Hr; lia|done].
Qed.

Lemma msg_loop_safe k fuel : 0 <= k -> forall buf len e,
  bytes_ok buf -> ready (k + len) e -> up e -> 0 <= len < 2 ^ 16 ->
  len = Z.of_nat (length buf) -> len < Z.of_nat fuel ->
  safe (pdu_fault buf) (msg_loop fuel buf len len) (fun r e' =>
    nbr_inv (e_nbr e') /\
    match r with Some l => ready k e' /\ up e' | None => True end) e.
Proof.
  intros Hk. induction fuel as [|fuel IH]; intros buf len e Hok Hr Hup H16 Hlen Hf; [lia|].
  pose proof (ready_le (k + len) 0 e ltac:(lia) Hr) as Hr0. cbn [msg_loop].
  unfold LDP_MSG_SIZE, LDP_MSG_LEN, LDP_MSG_DEAD_LEN.
  destruct (len >=? 8) eqn:E; cbn [negb].
  2:{ apply safe_ret. split; [apply Hr|]. split; [|done]. eapply ready_le, Hr. lia. }
  rewrite Z.geb_leb in E. zbool.
  do 2 (apply safe_bind, safe_rd16; [lia|]). apply safe_bind, safe_rd32; [lia|]. cbv zeta.
  pose proof (htons_bound (le_val (slice 2 2 buf))) as Hb.
  fold (ntohs (le_val (slice 2 2 buf))) in Hb. unfold is_u in Hb.
  set (ml := ntohs (le_val (slice 2 2 buf))) in *.
  destruct (_ || _) eqn:E2; [by apply safe_fail_shutdown|]. zbool.
  apply safe_bind. unfold safe at 1, get_nbr, bind, get, ret. cbn [rbind].
  destruct (bad_for_state _ _) eqn:Ebad; [by apply safe_fail_shutdown|].
  rewrite (u16_small (ml + 4)) by (unfold is_u; lia). apply safe_bind. eapply safe_faults, safe_mono.
  { intros f Hf'. eapply pdu_here; [| |..|exact Hf']; unfold LDP_MSG_LEN, LDP_MSG_DEAD_LEN; done || lia. }
  { apply (dispatch_safe _ _ _ (k + (len - (ml + 4)))); auto; unfold LDP_MSG_SIZE; try lia.
    eapply ready_le, Hr. lia. }
  intros r e' [Hi Hp]. destruct (r =? -1) eqn:Er; zbool; [by apply safe_ret|].
  destruct (Hp Er) as [Hr' Hup']. rewrite (u16_small (len - _)) by (unfold is_u; lia).
  eapply safe_faults; [|apply IH; auto; try lia].
  - intros f Hf'. eapply pdu_next; [| |..|exact Hf']; unfold LDP_MSG_LEN, LDP_MSG_DEAD_LEN; done || lia.
  - by apply Forall_drop.
  - rewrite length_drop. lia.
Qed.

Lemma read_pdu_safe k pdu e :
  0 <= k -> bytes_ok pdu -> ready (k + Z.of_nat (length pdu)) e -> up e ->
  Z.of_nat (length pdu) = ntohs (le_val (slice 2 2 pdu)) + LDP_HDR_DEAD_LEN ->
  safe (pdu_fault (drop 10 pdu)) (read_pdu pdu) (fun r e' => nbr_inv (e_nbr e') /\ (r = true -> ready k e' /\ up e')) e.
Proof.
  intros Hk Hok Hr Hup Hlen. unfold read_pdu, LDP_HDR_DEAD_LEN in *.
  pose proof (htons_bound (le_val (slice 2 2 pdu))) as Hb.
  fold (ntohs (le_val (slice 2 2 pdu))) in Hb. unfold is_u in Hb.
  pose proof (ready_le _ 0 e (ltac:(lia) : 0 <= k + Z.of_nat (length pdu)) Hr) as Hr0.
  assert (forall st e, ready 0 e -> safe (pdu_fault (drop 10 pdu)) (session_shutdown st 0 0;;; ret false)
    (fun r e' => nbr_inv (e_nbr e') /\ (r = true -> ready k e' /\ up e')) e) as Hbad.
  { intros. apply safe_bind, safe_shutdown; [done|]. intros. apply safe_ret. done. }
  do 2 (apply safe_bind, safe_rd16; [lia|]). cbv zeta.
  destruct (negb _); [by apply Hbad|].
  apply safe_bind. unfold safe at 1, get_nbr, bind, get, ret. cbn [rbind].
  set (pl := ntohs (le_val (slice 2 2 pdu))) in *.
  destruct (_ || _) eqn:E; [by apply Hbad|]. zbool.
  unfold LDP_HDR_PDU_LEN, LDP_MSG_SIZE, LDP_HDR_SIZE in *.
  apply safe_bind, safe_rd32; [lia|]. apply safe_bind, safe_rd16; [lia|].
  destruct (_ || _); [by apply Hbad|]. apply safe_bind.
  destruct Hr as (Hi & Hc & Hp).
  destruct (wp_elim _ _ _ (wp_fsm_leaf true 1 NBR_EVT_PDU_RCVD e Hi (or_intror eq_refl)))
    as (e1 & E1 & I1 & S1 & C1 & P1 & _).
  unfold safe at 1, nbr_fsm. rewrite E1.
  assert (ready (k + Z.of_nat (length pdu)) e1) as Hr1.
  { split; [done|]. split; [lia|]. unfold pids_ok in *. by rewrite S1, P1. }
  rewrite u16_small by (unfold is_u; lia). replace (pl - 6) with (Z.of_nat (length pdu) - 10) by lia.
  apply safe_bind. eapply safe_mono.
  { apply (msg_loop_safe k); auto; rewrite ?length_drop; try lia.
    - by apply Forall_drop.
    - eapply ready_le, Hr1. lia.
    - unfold up in *. by rewrite S1. }
  intros [l|] e' [Hi' Hp']; [|by apply safe_ret]. destruct Hp' as [Hr' Hup'].
  destruct (negb _); [apply Hbad; eapply ready_le, Hr'; lia|]. by apply safe_ret.
Qed.
End RecvSafe.

(** ** Robustness of the reader *)

Lemma pdu_loop_robust fuel : forall rbuf e,
  bytes_ok rbuf -> ready (Z.of_nat (length rbuf)) e -> up e ->
  (length rbuf < fuel)%nat ->
  match pdu_loop fuel rbuf e with
  | Ok (rest, e') => nbr_inv (e_nbr e') /\ exists k, rest = drop k rbuf
  | Undef _ => stream_fault rbuf PrefixOverrun \/ stream_fault rbuf FecOverread
  | NoFuel => stream_fault rbuf SubtlvHang
  | Fatal _ => False
  end.
Proof.
  induction fuel as [|fuel IH]; intros rbuf e Hok Hr Hup Hf; [lia|].
  cbn [pdu_loop]. destruct (session_get_pdu rbuf) as [[pdu' rest']|] eqn:Eget;
    [|split; [apply Hr|by exists 0%nat]].
  pose proof Eget as Eget'. unfold session_get_pdu, LDP_HDR_SIZE, LDP_HDR_DEAD_LEN in Eget'.
  destruct (_ <? 10) eqn:E; [done|]. zbool.
  pose proof (htons_bound (le_val (slice 2 2 rbuf))) as Hb.
  fold (ntohs (le_val (slice 2 2 rbuf))) in Hb. unfold is_u in Hb.
  set (dlen := ntohs (le_val (slice 2 2 rbuf)) + 4) in *. cbv zeta in Eget'.
  destruct (dlen >? _) eqn:E2; [done|]. zbool. injection Eget' as <- <-.
  set (pdu := take (Z.to_nat dlen) rbuf) in *.
  assert (length pdu = Z.to_nat dlen) as Hl by (unfold pdu; rewrite length_take; lia).
  assert (slice 2 2 pdu = slice 2 2 rbuf) as Hs.
  { unfold pdu, slice. rewrite !take_drop_commute, take_take. do 2 f_equal. lia. }
  assert (safe (pdu_fault (drop 10 pdu)) (read_pdu pdu) (fun r e' => nbr_inv (e_nbr e') /\
    (r = true -> ready (Z.of_nat (length (drop (Z.to_nat dlen) rbuf))) e' /\ up e')) e) as Hsafe.
  { apply read_pdu_safe; auto; [lia|by apply Forall_take|..].
    - eapply ready_le, Hr. rewrite length_drop. lia.
    - unfold LDP_HDR_DEAD_LEN. rewrite Hs. fold dlen. lia. }
  unfold safe in Hsafe. unfold bind, rbind.
  destruct (read_pdu pdu e) as [[[|] e']| | |]; try done.
  - destruct Hsafe as [Hi [Hr' Hup']]; [done|].
    specialize (IH (drop (Z.to_nat dlen) rbuf) e' ltac:(by apply Forall_drop) Hr' Hup').
    rewrite length_drop in IH. specialize (IH ltac:(lia)).
    destruct (pdu_loop fuel _ e') as [[rest e'']| | |]; try done.
    + destruct IH as [Hi' [k ->]]. split; [done|]. exists (Z.to_nat dlen + k)%nat.
      by rewrite drop_drop.
    + destruct IH as [IH|IH]; [left|right]; by eapply stream_next.
    + by eapply stream_next.
  - destruct Hsafe as [Hi _]. split; [done|]. by eexists.
  - destruct Hsafe; [left|right]; by eapply stream_here.
  - by eapply stream_here.
Qed.

(** C5: robustness of a session against its peer.  Whatever [read] returns in
    an established connection (an error, the end of the stream, any bytes,
    together with what an earlier call left in the buffer), the session reader
    returns with the neighbour in a state that satisfies the session invariant,
    unless a complete PDU of the stream carries a message with one of the three
    defects of the FEC decoder ([stream_fault]: at a message boundary, in the
    FEC TLV of a label message or of a notification): an over-long prefix or an
    empty FEC TLV at the end of the PDU is undefined behaviour, a sub-TLV of
    length 0 an endless loop.  The engine never aborts. *)
Theorem session_read_robust (r : read_result) (rbuf : list Z) (e : ldpe)
    (Hinv : nbr_inv (e_nbr e)) (Hup : up e)
    (Hpids : n_state (e_nbr e) = NBR_STA_OPER \/ pids_ok e)
    (Hin : match r with ReadData bytes => bytes_ok (rbuf ++ bytes) | _ => True end)
    (Hcnt : 0 <= e_msgcnt e /\
      match r with
      | ReadData bytes => e_msgcnt e + Z.of_nat (length (rbuf ++ bytes)) < 2 ^ 31 - 5
      | _ => True
      end) :
  match session_read r rbuf e with
  | Ok (_, e') => nbr_inv (e_nbr e')
  | Undef _ => exists bytes, r = ReadData bytes /\
      (stream_fault (rbuf ++ bytes) PrefixOverrun \/ stream_fault (rbuf ++ bytes) FecOverread)
  | NoFuel => exists bytes, r = ReadData bytes /\ stream_fault (rbuf ++ bytes) SubtlvHang
  | Fatal _ => False
  end.
Proof.
  destruct (wp_elim _ _ _ (wp_close_event true e Hinv)) as (e1 & E1 & I1 & _).
  destruct r as [| | |bytes]; cbn [session_read]; try done;
    try (by rewrite (bind_ok _ _ _ _ _ E1)).
  pose proof (pdu_loop_robust (S (length (rbuf ++ bytes))) (rbuf ++ bytes) e Hin) as H.
  specialize (H ltac:(split; [done|]; split; [lia|done]) Hup ltac:(lia)).
  destruct (pdu_loop _ _ e) as [[rest e']| | |]; try done; [by destruct H|by eexists..].
Qed.

(** A keepalive PDU from the neighbour of [ldpe_openrec]. *)
Definition keepalive_pdu : list Z :=
  [0; 1; 0; 14] ++ [4; 4; 4; 4] ++ [0; 0] ++ [2; 1; 0; 4; 0; 0; 0; 1].

Lemma ldpe_openrec_inv : nbr_inv (e_nbr ldpe_openrec).
Proof. constructor; cbn; try done; try set_solver; intuition congruence. Qed.

Lemma session_read_robust_witness :
  match session_read (ReadData (drop 5 keepalive_pdu)) (take 5 keepalive_pdu) ldpe_openrec with
  | Ok (rest, e') => nbr_inv (e_nbr e') /\ rest = [] /\ n_state (e_nbr e') = NBR_STA_OPER
  | _ => False
  end.
Proof.
  assert (up ldpe_openrec) as Hup by (vm_compute; discriminate).
  assert (n_state (e_nbr ldpe_openrec) = NBR_STA_OPER \/ pids_ok ldpe_openrec) as Hp
    by (right; reflexivity).
  assert (bytes_ok (take 5 keepalive_pdu ++ drop 5 keepalive_pdu)) as Hb
    by (apply bytes_okb_ok; reflexivity).
  assert (0 <= e_msgcnt ldpe_openrec /\ e_msgcnt ldpe_openrec
    + Z.of_nat (length (take 5 keepalive_pdu ++ drop 5 keepalive_pdu)) < 2 ^ 31 - 5) as Hc
    by (split; [discriminate|reflexivity]).
  assert (exists e', session_read (ReadData (drop 5 keepalive_pdu)) (take 5 keepalive_pdu)
    ldpe_openrec = Ok ([], e') /\ n_state (e_nbr e') = NBR_STA_OPER) as (e' & E & S)
    by (eexists; split; vm_compute; reflexivity).
  pose proof (session_read_robust (ReadData (drop 5 keepalive_pdu)) (take 5 keepalive_pdu)
    ldpe_openrec ldpe_openrec_inv Hup Hp Hb Hc) as H.
  rewrite E in H |- *. split; [exact H|]. split; [reflexivity|exact S].
Defined.
