(* ===== verification/Fec.v ===== *)
(** * Forwarding equivalence classes and their trees (ldpd/lde.h, lde_lib.c,
      lde.c)

    [struct fec] is a tagged union.  The MP2MP code reads and writes
    [u.ipv4.prefix] and [u.ipv4.prefixlen] whatever the tag is, and
    [lde_kernel_insert] reads [u.pwid.lsr_id] of any FEC, so the model has these
    overlays: [spare] is the memory of an IPv4 FEC under [u.pwid.lsr_id].

    Layout of the union (offsets in bytes): ipv4 = prefixlen 0, prefix 4; ipv6 =
    prefix 0, prefixlen 16; pwid = type 0, pwid 4, lsr_id 8. *)
From stdpp Require Import prelude strings list sorting.
From Stdlib Require Import ZArith Lia.
From S2P Require Import Prelude Util Wire Ipc.

Inductive fec :=
| FecIpv4 (prefixlen prefix spare : Z)
| FecIpv6 (prefix : list Z) (prefixlen : Z)
| FecPwid (type pwid lsr_id : Z).

Inductive fec_type := FEC_TYPE_IPV4 | FEC_TYPE_IPV6 | FEC_TYPE_PWID.

Definition fec_tag (f : fec) : fec_type :=
  match f with
  | FecIpv4 _ _ _ => FEC_TYPE_IPV4
  | FecIpv6 _ _ => FEC_TYPE_IPV6
  | FecPwid _ _ _ => FEC_TYPE_PWID
  end.

Definition tag_num (t : fec_type) : Z :=
  match t with FEC_TYPE_IPV4 => 0 | FEC_TYPE_IPV6 => 1 | FEC_TYPE_PWID => 2 end.

(** [f->u.ipv4.prefix.s_addr], [f->u.ipv4.prefixlen] and
    [f->u.pwid.lsr_id.s_addr] for any tag. *)
Definition u_ipv4_prefix (f : fec) : Z :=
  match f with
  | FecIpv4 _ p _ => p
  | FecIpv6 p _ => le_val (slice 4 4 p)
  | FecPwid _ pwid _ => pwid
  end.
Definition u_ipv4_prefixlen (f : fec) : Z :=
  match f with
  | FecIpv4 l _ _ => l
  | FecIpv6 p _ => nth 0 p 0
  | FecPwid t _ _ => t mod 256
  end.
Definition u_pwid_lsr_id (f : fec) : Z :=
  match f with
  | FecIpv4 _ _ s => s
  | FecIpv6 p _ => le_val (slice 8 4 p)
  | FecPwid _ _ l => l
  end.

(** A zeroed FEC of type [t] with [u.ipv4.prefix] and [u.ipv4.prefixlen]
    assigned, as [tree_up] builds it. *)
Definition fec_mp2mp (t : fec_type) (root ov : Z) : fec :=
  match t with
  | FEC_TYPE_IPV4 => FecIpv4 ov root 0
  | FEC_TYPE_IPV6 => FecIpv6 ([ov; 0; 0; 0] ++ le_bytes 4 root ++ replicate 8 0) 0
  | FEC_TYPE_PWID => FecPwid ov root 0
  end.

(** A lexicographic comparison step of the [if (a < b) return (-1); if (a > b)
    return (1);] kind. *)
Definition cmp_then (a b k : Z) : Z := if a <? b then -1 else if a >? b then 1 else k.

(** [fec_compare] (lde_lib.c). *)
Definition fec_compare (a b : fec) : Z :=
  cmp_then (tag_num (fec_tag a)) (tag_num (fec_tag b))
    match a, b with
    | FecIpv4 la pa _, FecIpv4 lb pb _ => cmp_then (ntohl pa) (ntohl pb) (cmp_then la lb 0)
    | FecIpv6 pa la, FecIpv6 pb lb => cmp_then (memcmp pa pb) 0 (cmp_then la lb 0)
    | FecPwid ta ia na, FecPwid tb ib nb =>
        cmp_then ta tb (cmp_then ia ib (cmp_then (ntohl na) (ntohl nb) 0))
    | _, _ => -1
    end.

(** [struct label_nbr] and [label_nbr_compare] (lde.c): one branch of an MP2MP
    LSP towards a neighbour. *)
Inductive stream_type := STREAM_TYPE_UP | STREAM_TYPE_DOWN.
#[export] Instance stream_type_eq_dec : EqDecision stream_type.
Proof. solve_decision. Defined.

Record label_nbr := LabelNbr {
  lb_label : Z;          (* remote label *)
  lb_local_label : Z;
  lb_peerid : Z;
  lb_fec : fec;
  lb_type : stream_type
}.
Definition set_lb_label (l : label_nbr) (v : Z) : label_nbr :=
  LabelNbr v (lb_local_label l) (lb_peerid l) (lb_fec l) (lb_type l).

Definition label_nbr_compare (a b : label_nbr) : Z :=
  let by_peer := if lb_peerid a >? lb_peerid b then 1 else if lb_peerid a <? lb_peerid b then -1 else 0 in
  cmp_then (tag_num (fec_tag (lb_fec a))) (tag_num (fec_tag (lb_fec b)))
    match lb_fec a, lb_fec b with
    | FecIpv4 la pa _, FecIpv4 lb pb _ => cmp_then (ntohl pa) (ntohl pb) (cmp_then la lb by_peer)
    | FecIpv6 pa la, FecIpv6 pb lb => cmp_then (memcmp pa pb) 0 (cmp_then la lb by_peer)
    | FecPwid ta ia na, FecPwid tb ib nb =>
        cmp_then ta tb (cmp_then ia ib (cmp_then (ntohl na) (ntohl nb) 0))
    | _, _ => -1
    end.

(** [lde_nbr_compare] (lde.c): a difference of [uint32_t] returned as [int]. *)
Definition peerid_compare (a b : Z) : Z := int_of_u32 (a - b).

(** ** Search trees (lib/openbsd-tree.h)

    The contract of [RB_FIND], [RB_INSERT], [RB_REMOVE] and [RB_FOREACH]: the
    elements in the order of the comparison function, at most one of each
    equivalence class.  [key] is the part of an element that is compared. *)
Section Tree.
Context {A K : Type} (key : A -> K) (cmp : K -> K -> Z).

Definition rb_find (k : K) (t : list A) : option A :=
  List.find (fun x => cmp k (key x) =? 0) t.

(** [RB_INSERT] returns the clashing element if there is one: [None] here. *)
Fixpoint rb_insert (x : A) (t : list A) : option (list A) :=
  match t with
  | [] => Some [x]
  | y :: t' =>
      if cmp (key x) (key y) <? 0 then Some (x :: t)
      else if cmp (key x) (key y) =? 0 then None
      else match rb_insert x t' with Some t'' => Some (y :: t'') | None => None end
  end.

Definition rb_remove (k : K) (t : list A) : list A :=
  List.filter (fun x => negb (cmp k (key x) =? 0)) t.

(** Assignment through the pointer that [RB_FIND] returned. *)
Definition rb_update (k : K) (f : A -> A) (t : list A) : list A :=
  map (fun x => if cmp k (key x) =? 0 then f x else x) t.
End Tree.

(** ** Conversion between FECs and maps (lde.c) *)
Definition lde_fec2map (f : fec) : ldp_map :=
  match f with
  | FecIpv4 l p _ =>
      set_m_prefix (set_m_type map_zero MAP_TYPE_PREFIX) (PrefixElm AF_IPV4 l (set_v4 zero_addr p))
  | FecIpv6 p l =>
      set_m_prefix (set_m_type map_zero MAP_TYPE_PREFIX) (PrefixElm AF_IPV6 l p)
  | FecPwid t i _ =>
      set_m_flags (set_m_pwid (set_m_type map_zero MAP_TYPE_PWID) (PwidElm t i 0 0)) F_MAP_PW_ID
  end.

(** A map of another type (a wildcard) leaves the zeroed FEC. *)
Definition lde_map2fec (m : ldp_map) (lsr_id : Z) : res fec :=
  if m_type m =? MAP_TYPE_PREFIX then
    let pe := m_prefix m in
    if pe_af pe =? AF_IPV4 then Ok (FecIpv4 (pe_prefixlen pe) (v4 (pe_prefix pe)) 0)
    else if pe_af pe =? AF_IPV6 then Ok (FecIpv6 (v6 (pe_prefix pe)) (pe_prefixlen pe))
    else Fatal "lde_map2fec: unknown af"
  else if m_type m =? MAP_TYPE_PWID then
    Ok (FecPwid (pw_type (m_pwid m)) (pw_pwid (m_pwid m)) lsr_id)
  else Ok (FecIpv4 0 0 0).

(** FECs whose fields are within their C types. *)
Definition fec_ok (f : fec) : Prop :=
  match f with
  | FecIpv4 l p s => is_u 8 l /\ is_u 32 p /\ is_u 32 s
  | FecIpv6 p l => addr_ok p /\ is_u 8 l
  | FecPwid t i l => is_u 16 t /\ is_u 32 i /\ is_u 32 l
  end.

(** FECs that [fec_compare] does not distinguish: all fields but the memory an
    IPv4 FEC does not use. *)
Definition same_fec (a b : fec) : Prop :=
  match a, b with
  | FecIpv4 la pa _, FecIpv4 lb pb _ => la = lb /\ pa = pb
  | FecIpv6 pa la, FecIpv6 pb lb => pa = pb /\ la = lb
  | FecPwid ta ia na, FecPwid tb ib nb => ta = tb /\ ia = ib /\ na = nb
  | _, _ => False
  end.

(** ** What a comparison function promises to the trees *)
Class CmpOrder {K} (ok : K -> Prop) (cmp : K -> K -> Z) : Prop := {
  cmp_refl a : ok a -> cmp a a = 0;
  cmp_flip a b : ok a -> ok b -> cmp a b < 0 <-> 0 < cmp b a;
  cmp_lt_trans a b c : ok a -> ok b -> ok c -> cmp a b < 0 -> cmp b c < 0 -> cmp a c < 0;
  (* equivalent keys compare alike with every other key *)
  cmp_eq_l a b c : ok a -> ok b -> ok c -> cmp a b = 0 -> (cmp a c < 0 <-> cmp b c < 0)
}.

Section CmpLemmas.
Context {K} (ok : K -> Prop) (cmp : K -> K -> Z) `{!CmpOrder ok cmp}.

Lemma cmp_gt a b : ok a -> ok b -> 0 < cmp a b <-> cmp b a < 0.
Proof. intros Ha Hb. rewrite (cmp_flip b a) by done. done. Qed.

Lemma cmp_zero_sym a b : ok a -> ok b -> cmp a b = 0 -> cmp b a = 0.
Proof.
  intros Ha Hb H. destruct (Z.lt_trichotomy (cmp b a) 0) as [Hl|[?|Hl]]; [|done|].
  - apply (cmp_flip b a) in Hl; [lia|done..].
  - apply (cmp_gt b a) in Hl; [lia|done..].
Qed.

Lemma cmp_eq_zero a b c : ok a -> ok b -> ok c -> cmp a b = 0 -> (cmp a c = 0 <-> cmp b c = 0).
Proof.
  intros Ha Hb Hc H. pose proof (cmp_zero_sym a b Ha Hb H) as H'.
  assert (forall x y, ok x -> ok y -> cmp x y = 0 -> cmp x c = 0 -> cmp y c = 0) as Hd.
  { intros x y Hx Hy E E0. pose proof (cmp_zero_sym x y Hx Hy E) as E'.
    destruct (Z.lt_trichotomy (cmp y c) 0) as [Hl|[?|Hl]]; [|done|].
    - rewrite (cmp_eq_l y x c Hy Hx Hc E') in Hl. lia.
    - rewrite cmp_gt in Hl by done.
      pose proof (cmp_zero_sym x c Hx Hc E0) as E0'.
      rewrite (cmp_eq_l c x y Hc Hx Hy E0') in Hl. lia. }
  split; [by apply Hd|by apply Hd].
Qed.
End CmpLemmas.

(** ** Trees over an ordered key *)
Section TreeLemmas.
Context {A K : Type} (key : A -> K) (ok : K -> Prop) (cmp : K -> K -> Z) `{!CmpOrder ok cmp}.

Definition tree_lt (x y : A) : Prop := cmp (key x) (key y) < 0.
Definition tree_ok (t : list A) : Prop :=
  StronglySorted tree_lt t /\ Forall (fun x => ok (key x)) t.

Lemma tree_ok_cons x t : tree_ok (x :: t) ->
  ok (key x) /\ tree_ok t /\ Forall (tree_lt x) t.
Proof.
  intros [Hs Ho]. apply StronglySorted_inv in Hs as [Hs Hx]. apply Forall_cons in Ho as [? ?].
  done.
Qed.

Lemma tree_ok_elem t x : tree_ok t -> x ∈ t -> ok (key x).
Proof. intros [_ Ho] Hx. rewrite Forall_forall in Ho. auto. Qed.

Lemma rb_find_in k t x : rb_find key cmp k t = Some x -> x ∈ t /\ cmp k (key x) = 0.
Proof.
  unfold rb_find. intros H. apply find_some in H as [Hin He]. split; [|by apply Z.eqb_eq].
  by apply list_elem_of_In.
Qed.

Lemma rb_find_none k t x : rb_find key cmp k t = None -> x ∈ t -> cmp k (key x) <> 0.
Proof.
  unfold rb_find. intros H Hin. apply list_elem_of_In in Hin.
  pose proof (find_none _ _ H x Hin) as Hn. by apply Z.eqb_neq.
Qed.

(** In a tree the element found is the only one of its class. *)
Lemma tree_unique t x y :
  tree_ok t -> x ∈ t -> y ∈ t -> cmp (key x) (key y) = 0 -> x = y.
Proof.
  induction t as [|z t IH]; intros Ht Hx Hy He; [by apply elem_of_nil in Hx|].
  destruct (tree_ok_cons z t Ht) as (Hz & Ht' & Hlt).
  pose proof (fun w => tree_ok_elem t w Ht') as Hok.
  rewrite Forall_forall in Hlt. apply elem_of_cons in Hx as [-> |Hx], Hy as [-> |Hy]; auto.
  - specialize (Hlt y Hy). unfold tree_lt in Hlt. lia.
  - specialize (Hlt x Hx). unfold tree_lt in Hlt.
    apply (cmp_zero_sym ok) in He; [lia|auto..].
Qed.

Lemma rb_find_spec t x k :
  tree_ok t -> ok k -> x ∈ t -> cmp k (key x) = 0 -> rb_find key cmp k t = Some x.
Proof.
  intros Ht Hk Hin He. destruct (rb_find key cmp k t) as [y|] eqn:Ef.
  - apply rb_find_in in Ef as [Hy He']. f_equal.
    pose proof (fun w => tree_ok_elem t w Ht) as Hok.
    apply (tree_unique t); auto.
    apply (cmp_eq_zero ok cmp k (key y) (key x)); auto.
  - exfalso. by apply (rb_find_none k t x Ef Hin).
Qed.

(** A successful insertion adds exactly the new element. *)
Lemma rb_insert_ok x t t' :
  tree_ok t -> ok (key x) -> rb_insert key cmp x t = Some t' ->
  tree_ok t' /\ (forall y, y ∈ t' <-> y = x \/ y ∈ t).
Proof.
  revert t'. induction t as [|z t IH]; intros t' Ht Hx Hi; simpl in Hi.
  { injection Hi as <-. split; [split; repeat constructor; done|]. set_solver. }
  destruct (tree_ok_cons z t Ht) as (Hz & Ht' & Hlt).
  destruct (cmp (key x) (key z) <? 0) eqn:E1; zbool.
  - injection Hi as <-. split; [|set_solver].
    destruct Ht as [Hs Ho]. split; [|by constructor]. constructor; [done|].
    constructor; [done|]. rewrite Forall_forall in Hlt |- *. intros y Hy.
    specialize (Hlt y Hy). unfold tree_lt in *.
    apply (cmp_lt_trans _ (key z)); auto. by apply (tree_ok_elem t).
  - destruct (cmp (key x) (key z) =? 0) eqn:E0; [done|]. zbool.
    destruct (rb_insert key cmp x t) as [t2|] eqn:E2; [|done]. injection Hi as <-.
    destruct (IH t2 Ht' Hx eq_refl) as [[Hs1 Ho1] Hin].
    split; [|intros y; rewrite !elem_of_cons, Hin; tauto].
    split; [|by constructor]. constructor; [done|].
    apply Forall_forall. intros y Hy. apply Hin in Hy as [-> |Hy].
    + unfold tree_lt. apply (cmp_gt ok); [done..|]. lia.
    + rewrite Forall_forall in Hlt. auto.
Qed.

Lemma rb_insert_none_find x t :
  tree_ok t -> ok (key x) -> rb_find key cmp (key x) t = None ->
  exists t', rb_insert key cmp x t = Some t' /\ tree_ok t' /\
    (forall y, y ∈ t' <-> y = x \/ y ∈ t).
Proof.
  intros Ht Hx Hf. destruct (rb_insert key cmp x t) as [t'|] eqn:E.
  { exists t'. split; [done|]. by apply rb_insert_ok. }
  exfalso. revert Hf E. clear Ht. unfold rb_find.
  induction t as [|z t IH]; simpl; [done|].
  destruct (cmp (key x) (key z) =? 0); [done|]. destruct (cmp (key x) (key z) <? 0); [done|].
  intros Hf. destruct (rb_insert key cmp x t); [done|]. auto.
Qed.

Lemma rb_remove_ok k t : tree_ok t -> tree_ok (rb_remove key cmp k t).
Proof.
  intros [Hs Ho]. unfold rb_remove. split.
  - clear Ho. induction Hs as [|x t Hs IH Hx]; simpl; [constructor|]. case_match; [|done].
    constructor; [done|]. rewrite Forall_forall in *. intros y Hy. apply Hx.
    apply list_elem_of_In in Hy. apply filter_In in Hy as [Hy _]. by apply list_elem_of_In.
  - rewrite Forall_forall in *. intros y Hy. apply Ho.
    apply list_elem_of_In in Hy. apply filter_In in Hy as [Hy _]. by apply list_elem_of_In.
Qed.

Lemma rb_remove_in k t x : x ∈ rb_remove key cmp k t <-> x ∈ t /\ cmp k (key x) <> 0.
Proof.
  unfold rb_remove. rewrite !list_elem_of_In, filter_In, negb_true_iff, Z.eqb_neq. done.
Qed.

Lemma rb_find_remove k t : rb_find key cmp k (rb_remove key cmp k t) = None.
Proof.
  destruct (rb_find key cmp k _) as [x|] eqn:E; [|done]. exfalso.
  apply rb_find_in in E as [Hin He]. by apply rb_remove_in in Hin as [_ ?].
Qed.

(** Updates that keep the key keep the tree. *)
Lemma rb_update_ok k f t :
  (forall x, key (f x) = key x) -> tree_ok t -> tree_ok (rb_update key cmp k f t).
Proof.
  intros Hf [Hs Ho]. unfold rb_update.
  assert (forall x, key (if cmp k (key x) =? 0 then f x else x) = key x) as Hk
    by (intros; case_match; auto).
  split.
  - clear Ho. induction Hs as [|x t Hs IH Hx]; simpl; [constructor|]. constructor; [done|].
    rewrite Forall_forall in *. intros y Hy. apply list_elem_of_In, in_map_iff in Hy as (z & <- & Hz).
    unfold tree_lt. rewrite !Hk. apply Hx. by apply list_elem_of_In.
  - rewrite Forall_forall in *. intros y Hy.
    apply list_elem_of_In, in_map_iff in Hy as (z & <- & Hz). rewrite Hk. apply Ho.
    by apply list_elem_of_In.
Qed.

Lemma rb_find_update k f t :
  (forall x, key (f x) = key x) ->
  rb_find key cmp k (rb_update key cmp k f t) = f <$> rb_find key cmp k t.
Proof.
  intros Hf. induction t as [|x t IH]; [done|]. unfold rb_find, rb_update in *. simpl.
  destruct (cmp k (key x) =? 0) eqn:E; simpl; [by rewrite Hf, E|by rewrite E].
Qed.

Lemma rb_find_update_ne k k' f t :
  (forall x, key (f x) = key x) -> ok k -> ok k' -> tree_ok t -> cmp k k' <> 0 ->
  rb_find key cmp k' (rb_update key cmp k f t) = rb_find key cmp k' t.
Proof.
  intros Hf Hk Hk' [_ Ho] Hne. induction t as [|x t IH]; [done|].
  apply Forall_cons in Ho as [Hx Ho]. specialize (IH Ho).
  unfold rb_find, rb_update in *. simpl.
  destruct (cmp k (key x) =? 0) eqn:E; simpl.
  - zbool. rewrite Hf. destruct (cmp k' (key x) =? 0) eqn:E'; [|done]. zbool. exfalso. apply Hne.
    apply (cmp_zero_sym ok) in E, E'; [|done..].
    by apply (cmp_eq_zero ok cmp (key x) k k').
  - by destruct (cmp k' (key x) =? 0).
Qed.
(** Look-ups do not tell equivalent keys apart. *)
Lemma rb_find_equiv k k' t :
  ok k -> ok k' -> Forall (fun x => ok (key x)) t -> cmp k k' = 0 ->
  rb_find key cmp k t = rb_find key cmp k' t.
Proof.
  intros Hk Hk' Ho He. induction Ho as [|x t Hx Ho IH]; [done|]. unfold rb_find in *. simpl.
  pose proof (cmp_eq_zero ok cmp k k' (key x) Hk Hk' Hx He) as Hz.
  destruct (cmp k (key x) =? 0) eqn:E1, (cmp k' (key x) =? 0) eqn:E2; zbool; try tauto.
Qed.

(** What every operation does to every look-up. *)
Lemma rb_find_update_if k k' f t :
  (forall x, key (f x) = key x) -> ok k -> ok k' -> tree_ok t ->
  rb_find key cmp k' (rb_update key cmp k f t)
  = if cmp k k' =? 0 then f <$> rb_find key cmp k' t else rb_find key cmp k' t.
Proof.
  intros Hf Hk Hk' Ht. destruct (cmp k k' =? 0) eqn:E; zbool.
  - pose proof (rb_update_ok k f t Hf Ht) as [_ Hu]. destruct Ht as [_ Ho].
    rewrite <- (rb_find_equiv k k' t), <- (rb_find_equiv k k') by done.
    by apply rb_find_update.
  - by apply rb_find_update_ne.
Qed.

Lemma rb_find_insert_if x t t' k' :
  tree_ok t -> ok (key x) -> ok k' -> rb_find key cmp (key x) t = None ->
  rb_insert key cmp x t = Some t' ->
  rb_find key cmp k' t' = if cmp (key x) k' =? 0 then Some x else rb_find key cmp k' t.
Proof.
  intros Ht Hx Hk' Hf Hi.
  destruct (rb_insert_none_find x t Ht Hx Hf) as (t2 & Hi2 & Ht2 & Hin).
  rewrite Hi in Hi2. injection Hi2 as <-.
  destruct (cmp (key x) k' =? 0) eqn:E; zbool.
  - apply rb_find_spec; [done..|apply Hin; by left|]. by apply (cmp_zero_sym ok).
  - destruct (rb_find key cmp k' t) as [y|] eqn:Ey.
    + apply rb_find_in in Ey as [Hy He]. apply rb_find_spec; auto. apply Hin. by right.
    + destruct (rb_find key cmp k' t') as [y|] eqn:Ey'; [|done]. exfalso.
      apply rb_find_in in Ey' as [Hy He]. apply Hin in Hy as [-> |Hy].
      * by apply E, (cmp_zero_sym ok).
      * by apply (rb_find_none _ _ _ Ey Hy).
Qed.

Lemma rb_find_remove_if k k' t :
  ok k -> ok k' -> tree_ok t ->
  rb_find key cmp k' (rb_remove key cmp k t)
  = if cmp k k' =? 0 then None else rb_find key cmp k' t.
Proof.
  intros Hk Hk' Ht. pose proof (rb_remove_ok k t Ht) as Hr.
  destruct (cmp k k' =? 0) eqn:E; zbool.
  - rewrite <- (rb_find_equiv k k'); try done; [|by apply Hr]. by apply rb_find_remove.
  - destruct (rb_find key cmp k' t) as [y|] eqn:Ey.
    + apply rb_find_in in Ey as [Hy He]. apply rb_find_spec; try done.
      apply rb_remove_in. split; [done|]. intros E'. apply E.
      pose proof (tree_ok_elem t y Ht Hy) as Hoy.
      apply (cmp_zero_sym ok) in E', He; try done. apply (cmp_zero_sym ok); try done.
      by apply (cmp_eq_zero ok cmp (key y) k' k).
    + destruct (rb_find key cmp k' (rb_remove key cmp k t)) as [y|] eqn:Ey'; [|done]. exfalso.
      apply rb_find_in in Ey' as [Hy He]. apply rb_remove_in in Hy as [Hy _].
      by apply (rb_find_none _ _ _ Ey Hy).
Qed.
End TreeLemmas.

(** ** The comparison functions are orders *)
Section Orders.
Lemma le_val_app a b : le_val (a ++ b) = le_val a + 256 ^ Z.of_nat (length a) * le_val b.
Proof.
  induction a as [|x a IH]; [simpl; lia|].
  cbn [app le_val length]. rewrite IH, Nat2Z.inj_succ, Z.pow_succ_r by lia. lia.
Qed.

Lemma be_val_cons x a : be_val (x :: a) = be_val a + 256 ^ Z.of_nat (length a) * x.
Proof. unfold be_val. simpl. rewrite le_val_app, length_rev. simpl. lia. Qed.

(** [memcmp] compares byte strings as numbers in network order. *)
Lemma memcmp_be_val a b :
  length a = length b -> bytes_ok a -> bytes_ok b ->
  (memcmp a b < 0 <-> be_val a < be_val b) /\ (0 < memcmp a b <-> be_val b < be_val a).
Proof.
  intros Hl Ha. revert b Hl. induction Ha as [|x a Hx Ha IH]; intros [|y b] Hl Hb; try done.
  apply Forall_cons in Hb as [Hy Hb]. injection Hl as Hl. rewrite !be_val_cons, Hl.
  pose proof (be_val_bound a Ha) as Ba. pose proof (be_val_bound b Hb) as Bb.
  rewrite Hl in Ba. rewrite Z.pow_mul_r in Ba, Bb by lia. change (2 ^ 8) with 256 in *.
  set (P := 256 ^ Z.of_nat (length b)) in *. destruct (IH b Hl Hb) as [I1 I2]. cbn [memcmp].
  destruct (x <? y) eqn:E1; zbool; [assert (P * x + P <= P * y) by nia; lia|].
  destruct (y <? x) eqn:E2; zbool; [assert (P * y + P <= P * x) by nia; lia|].
  assert (x = y) as -> by lia. rewrite I1, I2. lia.
Qed.

Lemma cmp_then_memcmp a b k :
  length a = length b -> bytes_ok a -> bytes_ok b ->
  cmp_then (memcmp a b) 0 k = cmp_then (be_val a) (be_val b) k.
Proof.
  intros Hl Ha Hb. destruct (memcmp_be_val a b Hl Ha Hb) as [H1 H2]. unfold cmp_then.
  repeat case_match; zbool; try done; lia.
Qed.

(** Every FEC as a tuple of numbers, compared lexicographically. *)
Definition fec_key (f : fec) : Z * Z * Z * Z :=
  match f with
  | FecIpv4 l p _ => (0, ntohl p, l, 0)
  | FecIpv6 p l => (1, be_val p, l, 0)
  | FecPwid t i n => (2, t, i, ntohl n)
  end.

Definition lex4 (a b : Z * Z * Z * Z) (k : Z) : Z :=
  let '(a1, a2, a3, a4) := a in let '(b1, b2, b3, b4) := b in
  cmp_then a1 b1 (cmp_then a2 b2 (cmp_then a3 b3 (cmp_then a4 b4 k))).

Lemma fec_compare_lex a b : fec_ok a -> fec_ok b -> fec_compare a b = lex4 (fec_key a) (fec_key b) 0.
Proof.
  intros Ha Hb. destruct a as [la pa sa|pa la|ta ia na], b as [lb pb sb|pb lb|tb ib nb]; try done.
  destruct Ha as [[La Oa] _], Hb as [[Lb Ob] _].
  unfold fec_compare. rewrite cmp_then_memcmp by (congruence || done). done.
Qed.

Definition lnbr_key (l : label_nbr) : Z :=
  match lb_fec l with FecPwid _ _ _ => 0 | _ => lb_peerid l end.

Lemma label_nbr_compare_lex a b : fec_ok (lb_fec a) -> fec_ok (lb_fec b) ->
  label_nbr_compare a b
  = lex4 (fec_key (lb_fec a)) (fec_key (lb_fec b)) (cmp_then (lnbr_key a) (lnbr_key b) 0).
Proof.
  intros Ha Hb. unfold label_nbr_compare, lnbr_key.
  assert ((if lb_peerid a >? lb_peerid b then 1 else if lb_peerid a <? lb_peerid b then -1 else 0)
    = cmp_then (lb_peerid a) (lb_peerid b) 0) as ->.
  { unfold cmp_then. repeat case_match; zbool; lia. }
  destruct (lb_fec a) as [la pa sa|pa la|ta ia na], (lb_fec b) as [lb pb sb|pb lb|tb ib nb];
    try done.
  destruct Ha as [[La Oa] _], Hb as [[Lb Ob] _].
  rewrite cmp_then_memcmp by (congruence || done). done.
Qed.

(** Lexicographic comparison of a number first keeps the laws. *)
Lemma cmp_then_order {K} (ok : K -> Prop) (f : K -> Z) (cmp : K -> K -> Z) :
  CmpOrder ok cmp -> CmpOrder ok (fun a b => cmp_then (f a) (f b) (cmp a b)).
Proof.
  intros [Hr Hf Ht He]. constructor; unfold cmp_then.
  - intros a Ha. rewrite Z.ltb_irrefl, Z.gtb_ltb, Z.ltb_irrefl. auto.
  - intros a b Ha Hb. specialize (Hf a b Ha Hb). repeat case_match; zbool; try lia.
  - intros a b c Ha Hb Hc. specialize (Ht a b c Ha Hb Hc). repeat case_match; zbool; try lia.
  - intros a b c Ha Hb Hc. specialize (He a b c Ha Hb Hc). repeat case_match; zbool; try lia.
Qed.

Lemma cmp_const_order {K} (ok : K -> Prop) : CmpOrder ok (fun _ _ : K => 0).
Proof. constructor; intros; lia. Qed.

Lemma cmp_order_ext {K} (ok : K -> Prop) (c1 c2 : K -> K -> Z) :
  (forall a b, ok a -> ok b -> c1 a b = c2 a b) -> CmpOrder ok c2 -> CmpOrder ok c1.
Proof.
  intros E [Hr Hf Ht He]. constructor; intros.
  - rewrite E by done. auto.
  - rewrite !E by done. auto.
  - rewrite !E in * by done. eauto.
  - rewrite !E in * by done. eauto.
Qed.

Definition key1 {K} (g : K -> Z * Z * Z * Z) (a : K) : Z := fst (fst (fst (g a))).
Definition key2 {K} (g : K -> Z * Z * Z * Z) (a : K) : Z := snd (fst (fst (g a))).
Definition key3 {K} (g : K -> Z * Z * Z * Z) (a : K) : Z := snd (fst (g a)).
Definition key4 {K} (g : K -> Z * Z * Z * Z) (a : K) : Z := snd (g a).

Lemma lex4_order {K} (ok : K -> Prop) (g : K -> Z * Z * Z * Z) (cmp : K -> K -> Z) :
  CmpOrder ok cmp -> CmpOrder ok (fun a b => lex4 (g a) (g b) (cmp a b)).
Proof.
  intros H. eapply (cmp_order_ext _ _ (fun a b => cmp_then (key1 g a) (key1 g b)
    (cmp_then (key2 g a) (key2 g b) (cmp_then (key3 g a) (key3 g b)
       (cmp_then (key4 g a) (key4 g b) (cmp a b)))))).
  - intros a b _ _. unfold lex4, key1, key2, key3, key4.
    by destruct (g a) as [[[? ?] ?] ?], (g b) as [[[? ?] ?] ?].
  - by apply cmp_then_order, cmp_then_order, cmp_then_order, cmp_then_order.
Qed.

#[export] Instance fec_compare_order : CmpOrder fec_ok fec_compare.
Proof.
  eapply cmp_order_ext; [intros a b Ha Hb; by apply fec_compare_lex|].
  apply (lex4_order fec_ok fec_key (fun _ _ => 0)), cmp_const_order.
Qed.

Definition lnbr_ok (l : label_nbr) : Prop := fec_ok (lb_fec l).

#[export] Instance label_nbr_compare_order : CmpOrder lnbr_ok label_nbr_compare.
Proof.
  eapply cmp_order_ext; [intros a b Ha Hb; by apply label_nbr_compare_lex|].
  apply (lex4_order lnbr_ok (fun l => fec_key (lb_fec l))).
  apply (cmp_then_order lnbr_ok lnbr_key (fun _ _ => 0)), cmp_const_order.
Qed.

(** Equal keys are equal FECs. *)
Lemma fec_key_inj a b : fec_ok a -> fec_ok b -> fec_key a = fec_key b -> same_fec a b.
Proof.
  intros Ha Hb H. destruct a as [la pa sa|pa la|ta ia na], b as [lb pb sb|pb lb|tb ib nb];
    try discriminate H; injection H; intros; subst.
  - destruct Ha as (_ & ? & _), Hb as (_ & ? & _). split; [done|]. by apply ntohl_inj.
  - destruct Ha as [[La Oa] _], Hb as [[Lb Ob] _]. split; [|done].
    apply rev_inj, le_val_inj; [by apply Forall_rev|by apply Forall_rev| |done].
    rewrite !length_rev. congruence.
  - destruct Ha as (_ & _ & ?), Hb as (_ & _ & ?). split; [done|]. split; [done|].
    by apply ntohl_inj.
Qed.

Lemma lex4_zero a b : lex4 a b 0 = 0 <-> a = b.
Proof.
  destruct a as [[[a1 a2] a3] a4], b as [[[b1 b2] b3] b4]. unfold lex4, cmp_then. split.
  - intros H. repeat case_match; zbool; try lia. repeat f_equal; lia.
  - intros [= -> -> -> ->]. by rewrite !Z.ltb_irrefl, !Z.gtb_ltb, !Z.ltb_irrefl.
Qed.

Lemma fec_compare_zero a b : fec_ok a -> fec_ok b -> fec_compare a b = 0 <-> same_fec a b.
Proof.
  intros Ha Hb. rewrite fec_compare_lex, lex4_zero by done. split; [by apply fec_key_inj|].
  destruct a, b; try done; simpl; intuition congruence.
Qed.
End Orders.

(** C34: [fec_compare] orders FECs totally: two FECs compare equal exactly when
    their significant fields agree, the result flips with the arguments, and
    the order is transitive, so the label information base has at most one node
    per FEC and every look-up finds it. *)
Theorem fec_compare_total_order (a b c : fec) (Ha : fec_ok a) (Hb : fec_ok b) (Hc : fec_ok c) :
  (fec_compare a b = 0 <-> same_fec a b) /\
  (fec_compare a b < 0 <-> 0 < fec_compare b a) /\
  (fec_compare a b < 0 -> fec_compare b c < 0 -> fec_compare a c < 0).
Proof.
  split; [by apply fec_compare_zero|]. split.
  - by apply (cmp_flip (ok := fec_ok)).
  - by apply (cmp_lt_trans (ok := fec_ok)).
Qed.

Lemma fec_compare_total_order_witness :
  fec_compare (FecIpv4 24 0x0A0000 1) (FecIpv4 32 0x0B0000 2) < 0 /\
  fec_compare (FecIpv4 24 0x0A0000 1) (FecPwid 5 7 0x04040404) < 0.
Proof.
  split; [reflexivity|].
  destruct (fec_compare_total_order (FecIpv4 24 0x0A0000 1) (FecIpv4 32 0x0B0000 2)
    (FecPwid 5 7 0x04040404)) as (_ & _ & H);
    [vm_compute; intuition congruence|vm_compute; intuition congruence
    |vm_compute; intuition congruence|].
  apply H; reflexivity.
Defined.

(** A FEC survives the trip to a neighbour and back.  Converting a FEC to
    a map and the map to a FEC again gives the same FEC; a pseudowire FEC is
    bound to the router identifier of the neighbour the map came from. *)
Theorem fec_map_roundtrip (f : fec) (lsr_id : Z) (Hf : fec_ok f)
    (Hpw : fec_tag f = FEC_TYPE_PWID -> u_pwid_lsr_id f = lsr_id) :
  exists f', lde_map2fec (lde_fec2map f) lsr_id = Ok f' /\ same_fec f f'.
Proof.
  destruct f as [l p s|p l|t i n]; simpl in *.
  - eexists. split; [reflexivity|]. split; [done|].
    change (p = le_val (take 4 (le_bytes 4 p ++ drop 4 zero_addr))).
    rewrite take_app_length' by (by rewrite length_le_bytes).
    rewrite le_val_bytes. destruct Hf as (_ & Hp & _). symmetry. by apply Z.mod_small.
  - eexists. split; [reflexivity|]. split; [|done]. destruct Hf as [Ha _]. symmetry. by apply v6_id.
  - eexists. split; [reflexivity|]. split; [done|]. split; [done|]. by apply Hpw.
Qed.

Lemma fec_map_roundtrip_witness :
  exists f', lde_map2fec (lde_fec2map (FecPwid 5 7 0x04040404)) 0x04040404 = Ok f' /\
    same_fec (FecPwid 5 7 0x04040404) f'.
Proof.
  apply (fec_map_roundtrip (FecPwid 5 7 0x04040404) 0x04040404);
    [vm_compute; intuition congruence|reflexivity].
Defined.

(** [lde_nbr_compare] is not an order on 32-bit peer identifiers: the
    difference of two identifiers wraps around, so three identifiers can be
    pairwise "less" in a circle. *)
Theorem peerid_compare_cyclic :
  exists a b c, is_u 32 a /\ is_u 32 b /\ is_u 32 c /\
    peerid_compare a b < 0 /\ peerid_compare b c < 0 /\ peerid_compare c a < 0.
Proof.
  exists 0, (2 ^ 30), (2 ^ 31 + 2 ^ 29). vm_compute. intuition congruence.
Qed.

(** identifiers less than 2^31 apart are ordered correctly, in particular
    all those the engine hands out before its counter passes 2^31. *)
Theorem peerid_compare_small (a b : Z) (Ha : 0 <= a < 2 ^ 31) (Hb : 0 <= b < 2 ^ 31) :
  (peerid_compare a b < 0 <-> a < b) /\ (peerid_compare a b = 0 <-> a = b).
Proof.
  unfold peerid_compare, int_of_u32, u32.
  destruct (Z.le_gt_cases b a).
  - rewrite Z.mod_small by lia. case_match; zbool; lia.
  - rewrite <- (Z.mod_unique (a - b) (2 ^ 32) (-1) (a - b + 2 ^ 32)) by lia.
    case_match; zbool; lia.
Qed.

Lemma peerid_compare_small_witness :
  (peerid_compare 3 7 < 0 <-> 3 < 7) /\ (peerid_compare 3 7 = 0 <-> 3 = 7).
Proof. apply (peerid_compare_small 3 7); lia. Defined.
