(* ===== verification/Lde.v ===== *)
(** * The label decision engine: state and primitive operations (ldpd/lde.c,
      lde_lib.c, l2vpn.c)

    The globals of the lde process are one record.  A pointer to a neighbour is
    its peer identifier, a pointer to a node of the LIB its FEC: dereferencing a
    pointer whose target is gone is undefined behaviour.  A pointer to a
    configured pseudowire is its index in [l_pws]; addresses are not used again.

    A received or sent mapping ([struct lde_map]) is linked into the list of the
    [fec_node] it was made for.  The MP2MP code makes nodes that are not in the
    LIB and frees them again, so a mapping records its home: the LIB node of its
    FEC or a freed temporary node, of which [l_tmp] keeps the list. *)
From stdpp Require Import prelude strings list.
From Stdlib Require Import ZArith Lia.
From S2P Require Import Prelude Util Wire Ipc Fec.

(** ** State *)
Record fec_nh := FecNh {
  fnh_af : Z; fnh_nexthop : ldpd_addr; fnh_remote_label : Z; fnh_priority : Z
}.
Definition set_fnh_label (h : fec_nh) (v : Z) : fec_nh :=
  FecNh (fnh_af h) (fnh_nexthop h) v (fnh_priority h).

Record fec_node := FecNode {
  fn_fec : fec;
  fn_nexthops : list fec_nh;
  fn_downstream : list Z;      (* peers whose mapping is linked here *)
  fn_upstream : list Z;
  fn_local_label : Z;
  fn_data : option nat         (* the pseudowire of a PWID FEC *)
}.
Definition set_fn_nexthops (n : fec_node) v :=
  FecNode (fn_fec n) v (fn_downstream n) (fn_upstream n) (fn_local_label n) (fn_data n).
Definition set_fn_downstream (n : fec_node) v :=
  FecNode (fn_fec n) (fn_nexthops n) v (fn_upstream n) (fn_local_label n) (fn_data n).
Definition set_fn_upstream (n : fec_node) v :=
  FecNode (fn_fec n) (fn_nexthops n) (fn_downstream n) v (fn_local_label n) (fn_data n).
Definition set_fn_local_label (n : fec_node) v :=
  FecNode (fn_fec n) (fn_nexthops n) (fn_downstream n) (fn_upstream n) v (fn_data n).
Definition set_fn_data (n : fec_node) v :=
  FecNode (fn_fec n) (fn_nexthops n) (fn_downstream n) (fn_upstream n) (fn_local_label n) v.

(** A zeroed node with [fec] and [local_label] set and empty lists. *)
Definition fec_node_new (f : fec) (local_label : Z) : fec_node := FecNode f [] [] [] local_label None.

Inductive home := HomeLib | HomeTmp (id : nat).

Record lde_map := LdeMap { me_fec : fec; me_map : ldp_map; me_home : home }.
Definition set_me_map (m : lde_map) (v : ldp_map) : lde_map := LdeMap (me_fec m) v (me_home m).
Record lde_req := LdeReq { lre_fec : fec; lre_msg_id : Z }.
Record lde_wdraw := LdeWdraw { lw_fec : fec; lw_label : Z }.
Definition set_lw_label (w : lde_wdraw) (v : Z) : lde_wdraw := LdeWdraw (lw_fec w) v.

Record lde_nbr := LdeNbr {
  ln_peerid : Z;
  ln_id : Z;
  ln_v4_enabled : bool;
  ln_v6_enabled : bool;
  ln_recv_req : list lde_req;
  ln_sent_req : list lde_req;
  ln_recv_map : list lde_map;
  ln_sent_map : list lde_map;
  ln_sent_wdraw : list lde_wdraw;
  ln_addr_list : list (Z * ldpd_addr)
}.
Definition set_ln_recv_req (n : lde_nbr) v :=
  LdeNbr (ln_peerid n) (ln_id n) (ln_v4_enabled n) (ln_v6_enabled n) v (ln_sent_req n)
    (ln_recv_map n) (ln_sent_map n) (ln_sent_wdraw n) (ln_addr_list n).
Definition set_ln_sent_req (n : lde_nbr) v :=
  LdeNbr (ln_peerid n) (ln_id n) (ln_v4_enabled n) (ln_v6_enabled n) (ln_recv_req n) v
    (ln_recv_map n) (ln_sent_map n) (ln_sent_wdraw n) (ln_addr_list n).
Definition set_ln_recv_map (n : lde_nbr) v :=
  LdeNbr (ln_peerid n) (ln_id n) (ln_v4_enabled n) (ln_v6_enabled n) (ln_recv_req n)
    (ln_sent_req n) v (ln_sent_map n) (ln_sent_wdraw n) (ln_addr_list n).
Definition set_ln_sent_map (n : lde_nbr) v :=
  LdeNbr (ln_peerid n) (ln_id n) (ln_v4_enabled n) (ln_v6_enabled n) (ln_recv_req n)
    (ln_sent_req n) (ln_recv_map n) v (ln_sent_wdraw n) (ln_addr_list n).
Definition set_ln_sent_wdraw (n : lde_nbr) v :=
  LdeNbr (ln_peerid n) (ln_id n) (ln_v4_enabled n) (ln_v6_enabled n) (ln_recv_req n)
    (ln_sent_req n) (ln_recv_map n) (ln_sent_map n) v (ln_addr_list n).
Definition set_ln_addr_list (n : lde_nbr) v :=
  LdeNbr (ln_peerid n) (ln_id n) (ln_v4_enabled n) (ln_v6_enabled n) (ln_recv_req n)
    (ln_sent_req n) (ln_recv_map n) (ln_sent_map n) (ln_sent_wdraw n) v.

(** A configured pseudowire with the parameters of its L2VPN. *)
Record l2vpn_pw := L2vpnPw {
  pw_lsr_id : Z; pw_af : Z; pw_addr : ldpd_addr; pw_id : Z; pw_ifindex : Z;
  pw_l2vpn_type : Z; pw_l2vpn_mtu : Z;
  pw_remote_group : Z; pw_remote_mtu : Z; pw_remote_status : Z; pw_flags : Z;
  pw_ifname : string
}.
Definition set_pw_flags (p : l2vpn_pw) v :=
  L2vpnPw (pw_lsr_id p) (pw_af p) (pw_addr p) (pw_id p) (pw_ifindex p) (pw_l2vpn_type p)
    (pw_l2vpn_mtu p) (pw_remote_group p) (pw_remote_mtu p) (pw_remote_status p) v (pw_ifname p).
Definition set_pw_remote (p : l2vpn_pw) group mtu status :=
  L2vpnPw (pw_lsr_id p) (pw_af p) (pw_addr p) (pw_id p) (pw_ifindex p) (pw_l2vpn_type p)
    (pw_l2vpn_mtu p) group mtu status (pw_flags p) (pw_ifname p).

(** A configured L2VPN; its pseudowires are pointers. *)
Record lvpn := Lvpn {
  vp_name : string;
  vp_type : Z;
  vp_pw_type : Z;
  vp_mtu : Z;
  vp_br_ifname : string;
  vp_br_ifindex : Z;
  vp_ifs : list l2vpn_if;
  vp_pws : list nat;            (* pw_list *)
  vp_inact : list nat           (* pw_inactive_list *)
}.
Definition active_pws (l : list lvpn) : list nat := concat (map vp_pws l).

(** A pointer variable: not assigned yet, null, or the neighbour. *)
Inductive nbr_ptr := PtrUninit | PtrNull | PtrTo (peerid : Z).

Record lde := Lde {
  l_ft : list fec_node;                (* the LIB, in tree order *)
  l_nbrs : list lde_nbr;
  l_label_nbrs : list label_nbr;
  l_leaf : Z;
  l_label : Z;                         (* static label of lde_assign_label *)
  l_tmp : list (list Z);               (* upstream lists of freed nodes *)
  l_pws : list (option l2vpn_pw);      (* by address; [None] once freed *)
  l_vpns : list lvpn;                  (* ldeconf->l2vpn_list *)
  l_expnull4 : bool; l_expnull6 : bool;
  l_ln1 : nbr_ptr;                     (* local ln1 of lde_dispatch_imsg *)
  l_out : list lde_out
}.
Definition set_l_ft (s : lde) v :=
  Lde v (l_nbrs s) (l_label_nbrs s) (l_leaf s) (l_label s) (l_tmp s) (l_pws s) (l_vpns s) (l_expnull4 s)
    (l_expnull6 s) (l_ln1 s) (l_out s).
Definition set_l_nbrs (s : lde) v :=
  Lde (l_ft s) v (l_label_nbrs s) (l_leaf s) (l_label s) (l_tmp s) (l_pws s) (l_vpns s) (l_expnull4 s)
    (l_expnull6 s) (l_ln1 s) (l_out s).
Definition set_l_label_nbrs (s : lde) v :=
  Lde (l_ft s) (l_nbrs s) v (l_leaf s) (l_label s) (l_tmp s) (l_pws s) (l_vpns s) (l_expnull4 s)
    (l_expnull6 s) (l_ln1 s) (l_out s).
Definition set_l_leaf (s : lde) v :=
  Lde (l_ft s) (l_nbrs s) (l_label_nbrs s) v (l_label s) (l_tmp s) (l_pws s) (l_vpns s) (l_expnull4 s)
    (l_expnull6 s) (l_ln1 s) (l_out s).
Definition set_l_label (s : lde) v :=
  Lde (l_ft s) (l_nbrs s) (l_label_nbrs s) (l_leaf s) v (l_tmp s) (l_pws s) (l_vpns s) (l_expnull4 s)
    (l_expnull6 s) (l_ln1 s) (l_out s).
Definition set_l_tmp (s : lde) v :=
  Lde (l_ft s) (l_nbrs s) (l_label_nbrs s) (l_leaf s) (l_label s) v (l_pws s) (l_vpns s) (l_expnull4 s)
    (l_expnull6 s) (l_ln1 s) (l_out s).
Definition set_l_pws (s : lde) v :=
  Lde (l_ft s) (l_nbrs s) (l_label_nbrs s) (l_leaf s) (l_label s) (l_tmp s) v (l_vpns s) (l_expnull4 s)
    (l_expnull6 s) (l_ln1 s) (l_out s).
Definition set_l_ln1 (s : lde) v :=
  Lde (l_ft s) (l_nbrs s) (l_label_nbrs s) (l_leaf s) (l_label s) (l_tmp s) (l_pws s) (l_vpns s)
    (l_expnull4 s) (l_expnull6 s) v (l_out s).
Definition set_l_out (s : lde) v :=
  Lde (l_ft s) (l_nbrs s) (l_label_nbrs s) (l_leaf s) (l_label s) (l_tmp s) (l_pws s) (l_vpns s)
    (l_expnull4 s) (l_expnull6 s) (l_ln1 s) v.
Definition set_l_vpns (s : lde) v :=
  Lde (l_ft s) (l_nbrs s) (l_label_nbrs s) (l_leaf s) (l_label s) (l_tmp s) (l_pws s) v
    (l_expnull4 s) (l_expnull6 s) (l_ln1 s) (l_out s).
Definition set_l_expnull (s : lde) v4 v6 :=
  Lde (l_ft s) (l_nbrs s) (l_label_nbrs s) (l_leaf s) (l_label s) (l_tmp s) (l_pws s) (l_vpns s)
    v4 v6 (l_ln1 s) (l_out s).

(** ** Pointers *)
Definition lde_send (m : lde_out) : ST lde unit := modify (fun s => set_l_out s (l_out s ++ [m])).

(** [lde_nbr_find]. *)
Definition lde_nbr_find (s : lde) (peerid : Z) : option lde_nbr :=
  rb_find ln_peerid peerid_compare peerid (l_nbrs s).
(** Dereference a neighbour. *)
Definition deref_ln (peerid : Z) : ST lde lde_nbr := fun s =>
  match lde_nbr_find s peerid with
  | Some n => Ok (n, s)
  | None => Undef "neighbour is gone"
  end.
Definition upd_ln (peerid : Z) (f : lde_nbr -> lde_nbr) : ST lde unit :=
  deref_ln peerid ;;;
  modify (fun s => set_l_nbrs s (rb_update ln_peerid peerid_compare peerid f (l_nbrs s))).

(** [fec_find(&ft, f)], dereference and assignment of a LIB node. *)
Definition ft_find (s : lde) (f : fec) : option fec_node := rb_find fn_fec fec_compare f (l_ft s).
Definition deref_fn (f : fec) : ST lde fec_node := fun s =>
  match ft_find s f with
  | Some n => Ok (n, s)
  | None => Undef "fec_node is gone"
  end.
Definition upd_fn (f : fec) (g : fec_node -> fec_node) : ST lde unit :=
  deref_fn f ;;;
  modify (fun s => set_l_ft s (rb_update fn_fec fec_compare f g (l_ft s))).

(** The pseudowire at an address. *)
Definition pw_at (s : lde) (i : nat) : option l2vpn_pw := mjoin (l_pws s !! i).
Definition deref_pw (i : nat) : ST lde l2vpn_pw := fun s =>
  match pw_at s i with Some p => Ok (p, s) | None => Undef "pseudowire is gone" end.
Definition upd_pw (i : nat) (g : l2vpn_pw -> l2vpn_pw) : ST lde unit :=
  do p <- deref_pw i; modify (fun s => set_l_pws s (<[i := Some (g p)]> (l_pws s))).

(** [ldp_addrcmp(...) == 0]. *)
Definition addr_eq (af : Z) (a b : ldpd_addr) : ST lde bool :=
  do c <- lift (ldp_addrcmp af a b); ret (c =? 0).

(** ** Addresses of a neighbour *)
Fixpoint address_find_in (l : list (Z * ldpd_addr)) (af : Z) (addr : ldpd_addr) : ST lde bool :=
  match l with
  | [] => ret false
  | (af', a) :: l' =>
      if af' =? af then
        do e <- addr_eq af a addr;
        if e then ret true else address_find_in l' af addr
      else address_find_in l' af addr
  end.

(** [lde_address_find(ln, af, addr) != NULL]. *)
Definition lde_address_find (peerid af : Z) (addr : ldpd_addr) : ST lde bool :=
  do ln <- deref_ln peerid; address_find_in (ln_addr_list ln) af addr.

Definition lde_address_add (peerid af : Z) (addr : ldpd_addr) : ST lde Z :=
  do found <- lde_address_find peerid af addr;
  if found : bool then ret (-1)
  else upd_ln peerid (fun n => set_ln_addr_list n (ln_addr_list n ++ [(af, addr)])) ;;; ret 0.

(** Unlink the first matching address. *)
Fixpoint address_del_in (l : list (Z * ldpd_addr)) (af : Z) (addr : ldpd_addr)
    : ST lde (option (list (Z * ldpd_addr))) :=
  match l with
  | [] => ret None
  | (af', a) :: l' =>
      do e <- (if af' =? af then addr_eq af a addr else ret false);
      if e : bool then ret (Some l')
      else
        do r <- address_del_in l' af addr;
        ret (match r with Some l'' => Some ((af', a) :: l'') | None => None end)
  end.
Definition lde_address_del (peerid af : Z) (addr : ldpd_addr) : ST lde Z :=
  do ln <- deref_ln peerid;
  do r <- address_del_in (ln_addr_list ln) af addr;
  match r with
  | None => ret (-1)
  | Some l => upd_ln peerid (fun n => set_ln_addr_list n l) ;;; ret 0
  end.

(** [lde_nbr_find_by_addr]: the first neighbour, in tree order, with the
    address. *)
Fixpoint nbr_by_addr_in (l : list lde_nbr) (af : Z) (addr : ldpd_addr) : ST lde (option Z) :=
  match l with
  | [] => ret None
  | n :: l' =>
      do f <- address_find_in (ln_addr_list n) af addr;
      if f : bool then ret (Some (ln_peerid n)) else nbr_by_addr_in l' af addr
  end.
Definition lde_nbr_find_by_addr (af : Z) (addr : ldpd_addr) : ST lde (option Z) :=
  do s <- get; nbr_by_addr_in (l_nbrs s) af addr.

(** [lde_nbr_find_by_lsrid], with its two built-in address translations; the
    constants are [inet_addr] of 192.168.228.134, .128, 9.9.9.9 and 8.8.8.8. *)
Definition inet_addr (a b c d : Z) : Z := le_val [a; b; c; d].
Definition lde_nbr_find_by_lsrid (s : lde) (addr : Z) : option Z :=
  let addr1 :=
    if inet_addr 192 168 228 134 =? addr then inet_addr 9 9 9 9
    else if inet_addr 192 168 228 128 =? addr then inet_addr 8 8 8 8
    else addr in
  ln_peerid <$> List.find (fun n => ln_id n =? addr1) (l_nbrs s).

(** ** Labels *)
Definition lde_assign_label : ST lde Z := fun s =>
  let label := u32 (l_label s + 1) in Ok (label, set_l_label s label).

Definition egress_label (s : lde) (t : fec_type) : res Z :=
  match t with
  | FEC_TYPE_IPV4 => Ok (if l_expnull4 s then MPLS_LABEL_IPV4NULL else MPLS_LABEL_IMPLNULL)
  | FEC_TYPE_IPV6 => Ok (if l_expnull6 s then MPLS_LABEL_IPV6NULL else MPLS_LABEL_IMPLNULL)
  | FEC_TYPE_PWID => Fatal "egress_label: unexpected fec type"
  end.

(** ** The LIB (lde_lib.c) *)
(** [fec_add]: a clash is only logged, the new node is then in no tree; it
    cannot happen behind a failed [fec_find]. *)
Definition fec_add (f : fec) : ST lde unit :=
  modify (fun s =>
    match rb_insert fn_fec fec_compare (fec_node_new f NO_LABEL) (l_ft s) with
    | Some t => set_l_ft s t
    | None => s
    end).

Fixpoint fec_nh_find_in (l : list fec_nh) (af : Z) (nexthop : ldpd_addr) (priority : Z)
    : ST lde (option nat) :=
  match l with
  | [] => ret None
  | h :: l' =>
      do e <- (if fnh_af h =? af then addr_eq af (fnh_nexthop h) nexthop else ret false);
      if (e : bool) && (fnh_priority h =? priority) then ret (Some O)
      else do r <- fec_nh_find_in l' af nexthop priority; ret (S <$> r)
  end.
(** [fec_nh_find]: the position in the list of next hops. *)
Definition fec_nh_find (fn : fec_node) (af : Z) (nexthop : ldpd_addr) (priority : Z)
    : ST lde (option nat) := fec_nh_find_in (fn_nexthops fn) af nexthop priority.

Definition fec_nh_add (f : fec) (af : Z) (nexthop : ldpd_addr) (priority : Z) : ST lde unit :=
  upd_fn f (fun n => set_fn_nexthops n (FecNh af nexthop NO_LABEL priority :: fn_nexthops n)).
Definition fec_nh_del (f : fec) (i : nat) : ST lde unit :=
  upd_fn f (fun n => set_fn_nexthops n (take i (fn_nexthops n) ++ drop (S i) (fn_nexthops n))).
(** [fnh->remote_label = label]. *)
Definition fec_nh_label (f : fec) (i : nat) (label : Z) : ST lde unit :=
  upd_fn f (fun n => set_fn_nexthops n (alter (fun h => set_fnh_label h label) i (fn_nexthops n))).

(** ** Mapping, request and withdraw records (lde.c) *)
Definition sent_of (sent : bool) (n : lde_nbr) : list lde_map :=
  if sent then ln_sent_map n else ln_recv_map n.
Definition set_sent (sent : bool) (n : lde_nbr) (v : list lde_map) : lde_nbr :=
  if sent then set_ln_sent_map n v else set_ln_recv_map n v.

(** Link a mapping of [peerid] at the head of a list of its node. *)
Definition link_map (h : home) (f : fec) (sent : bool) (peerid : Z) : ST lde unit :=
  match h with
  | HomeLib =>
      upd_fn f (fun n => if sent then set_fn_upstream n (peerid :: fn_upstream n)
                         else set_fn_downstream n (peerid :: fn_downstream n))
  | HomeTmp id => modify (fun s => set_l_tmp s (alter (cons peerid) id (l_tmp s)))
  end.

(** [lde_map_add]; the mapping itself is assigned by the caller, [map] is its
    value.  A clash in the tree is only logged. *)
Definition lde_map_add (peerid : Z) (f : fec) (h : home) (sent : bool) (map : ldp_map)
    : ST lde unit :=
  link_map h f sent peerid ;;;
  upd_ln peerid (fun n =>
    match rb_insert me_fec fec_compare (LdeMap f map h) (sent_of sent n) with
    | Some t => set_sent sent n t
    | None => n
    end).

(** [LIST_REMOVE]: the node of the list head must still exist when the element
    is the first of its list. *)
Definition unlink_map (me : lde_map) (sent : bool) (peerid : Z) : ST lde unit :=
  match me_home me with
  | HomeLib =>
      upd_fn (me_fec me) (fun n =>
        if sent then set_fn_upstream n (remove Z.eq_dec peerid (fn_upstream n))
        else set_fn_downstream n (remove Z.eq_dec peerid (fn_downstream n)))
  | HomeTmp id =>
      do s <- get;
      match l_tmp s !! id with
      | Some (p :: l) =>
          if p =? peerid then undef "LIST_REMOVE writes to a freed fec_node"
          else put (set_l_tmp s (<[id := p :: remove Z.eq_dec peerid l]> (l_tmp s)))
      | _ => undef "LIST_REMOVE of an element that is in no list"
      end
  end.

Definition lde_map_del (peerid : Z) (me : lde_map) (sent : bool) : ST lde unit :=
  upd_ln peerid (fun n => set_sent sent n (rb_remove me_fec fec_compare (me_fec me) (sent_of sent n))) ;;;
  unlink_map me sent peerid.

(** [lde_req_add]; [None] when the request is recorded already. *)
Definition lde_req_add (peerid : Z) (f : fec) (sent : bool) (msg_id : Z) : ST lde unit :=
  upd_ln peerid (fun n =>
    match rb_insert lre_fec fec_compare (LdeReq f msg_id)
            (if sent then ln_sent_req n else ln_recv_req n) with
    | Some t => if sent then set_ln_sent_req n t else set_ln_recv_req n t
    | None => n
    end).
Definition lde_req_del (peerid : Z) (f : fec) (sent : bool) : ST lde unit :=
  upd_ln peerid (fun n =>
    if sent then set_ln_sent_req n (rb_remove lre_fec fec_compare f (ln_sent_req n))
    else set_ln_recv_req n (rb_remove lre_fec fec_compare f (ln_recv_req n))).

(** Find or add the withdraw record and set its label. *)
Definition lde_wdraw_record (peerid : Z) (f : fec) (label : Z) : ST lde unit :=
  do ln <- deref_ln peerid;
  match rb_find lw_fec fec_compare f (ln_sent_wdraw ln) with
  | Some _ =>
      upd_ln peerid (fun n => set_ln_sent_wdraw n
        (rb_update lw_fec fec_compare f (fun w => set_lw_label w label) (ln_sent_wdraw n)))
  | None =>
      upd_ln peerid (fun n =>
        match rb_insert lw_fec fec_compare (LdeWdraw f label) (ln_sent_wdraw n) with
        | Some t => set_ln_sent_wdraw n t
        | None => n
        end)
  end.
Definition lde_wdraw_del (peerid : Z) (f : fec) : ST lde unit :=
  upd_ln peerid (fun n => set_ln_sent_wdraw n (rb_remove lw_fec fec_compare f (ln_sent_wdraw n))).

(** ** Pseudowires and the kernel (l2vpn.c, lde.c) *)
Definition l2vpn_pw_fec (pw : l2vpn_pw) : fec := FecPwid (pw_l2vpn_type pw) (pw_id pw) (pw_lsr_id pw).

Definition l2vpn_pw_reset (i : nat) : ST lde unit :=
  upd_pw i (fun pw =>
    let pw := set_pw_remote pw 0 0 0 in
    let pw := set_pw_flags pw
      (if has_flag (pw_flags pw) F_PW_CWORD_CONF then Z.lor (pw_flags pw) F_PW_CWORD
       else Z.ldiff (pw_flags pw) F_PW_CWORD) in
    set_pw_flags pw
      (if has_flag (pw_flags pw) F_PW_STATUSTLV_CONF then Z.lor (pw_flags pw) F_PW_STATUSTLV
       else Z.ldiff (pw_flags pw) F_PW_STATUSTLV)).

(** The FEC of the LSP that carries a pseudowire. *)
Definition pw_transport (pw : l2vpn_pw) : res fec :=
  if pw_af pw =? AF_INET then Ok (FecIpv4 32 (v4 (pw_addr pw)) 0)
  else if pw_af pw =? AF_INET6 then Ok (FecIpv6 (v6 (pw_addr pw)) 128)
  else Fatal "l2vpn_pw_ok: unknown af".

Definition l2vpn_pw_ok (pw : l2vpn_pw) (fnh : fec_nh) : ST lde bool :=
  if fnh_remote_label fnh =? NO_LABEL then ret false
  else if negb (pw_l2vpn_mtu pw =? pw_remote_mtu pw) then ret false
  else if has_flag (pw_flags pw) F_PW_STATUSTLV && negb (pw_remote_status pw =? PW_FORWARDING)
  then ret false
  else
    do f <- lift (pw_transport pw);
    do s <- get;
    match ft_find s f with
    | None => ret false
    | Some fn =>
        if fn_local_label fn =? NO_LABEL then ret false
        else ret (forallb (fun h => negb (fnh_remote_label h =? NO_LABEL)) (fn_nexthops fn))
    end.

Definition kpw_of (pw : l2vpn_pw) (fn : fec_node) (fnh : fec_nh) : kpw :=
  Kpw (pw_ifindex pw)
    match fn_fec fn with FecPwid t _ _ => t | _ => 0 end
    (pw_af pw) (pw_addr pw) (fn_local_label fn) (fnh_remote_label fnh) (pw_flags pw).

(** The PWID branches of [lde_send_change_klabel] and
    [lde_send_delete_klabel]; [fn->data] is dereferenced unchecked. *)
Definition change_klabel_pw (fn : fec_node) (fnh : fec_nh) : ST lde unit :=
  if (fn_local_label fn =? NO_LABEL) || (fnh_remote_label fnh =? NO_LABEL) then ret tt
  else
    match fn_data fn with
    | None => undef "lde_send_change_klabel: fn->data is NULL"
    | Some i =>
        upd_pw i (fun pw => set_pw_flags pw (Z.lor (pw_flags pw) F_PW_STATUS_UP)) ;;;
        do pw <- deref_pw i;
        lde_send (KpwlabelChange (kpw_of pw fn fnh))
    end.
Definition delete_klabel_pw (fn : fec_node) (fnh : fec_nh) : ST lde unit :=
  match fn_data fn with
  | None => undef "lde_send_delete_klabel: fn->data is NULL"
  | Some i =>
      do pw <- deref_pw i;
      if negb (has_flag (pw_flags pw) F_PW_STATUS_UP) then ret tt
      else
        upd_pw i (fun pw => set_pw_flags pw (Z.ldiff (pw_flags pw) F_PW_STATUS_UP)) ;;;
        do pw <- deref_pw i;
        lde_send (KpwlabelDelete (kpw_of pw fn fnh))
  end.

(** An IPv4 address as a [union ldpd_addr]. *)
Definition addr_of_v4 (a : Z) : ldpd_addr := set_v4 zero_addr a.

(** [l2vpn_sync_pws]: the pseudowires whose remote end is [addr]; the nodes it
    finds are PWID nodes. *)
Definition l2vpn_sync_pw (af : Z) (addr : ldpd_addr) (i : nat) : ST lde unit :=
  do pw <- deref_pw i;
  do e <- (if pw_af pw =? af then addr_eq af (pw_addr pw) addr else ret false);
  if negb (e : bool) then ret tt
  else
    do s <- get;
    match ft_find s (l2vpn_pw_fec pw) with
    | None => ret tt
    | Some fn =>
        do r <- fec_nh_find fn AF_INET (addr_of_v4 (pw_lsr_id pw)) 0;
        match r with
        | None => ret tt
        | Some j =>
            match fn_nexthops fn !! j with
            | None => ret tt
            | Some fnh =>
                do ok <- l2vpn_pw_ok pw fnh;
                if ok : bool then change_klabel_pw fn fnh else delete_klabel_pw fn fnh
            end
        end
    end.
Definition l2vpn_sync_pws (af : Z) (addr : ldpd_addr) : ST lde unit :=
  do s <- get; foreach (l2vpn_sync_pw af addr) (active_pws (l_vpns s)).

Definition kroute_of (fn : fec_node) (fnh : fec_nh) : kroute :=
  match fn_fec fn with
  | FecIpv4 l p _ =>
      Kroute AF_INET (addr_of_v4 p) l (addr_of_v4 (v4 (fnh_nexthop fnh))) (fn_local_label fn)
        (fnh_remote_label fnh) (fnh_priority fnh)
  | FecIpv6 p l =>
      Kroute AF_INET6 p l (v6 (fnh_nexthop fnh)) (fn_local_label fn) (fnh_remote_label fnh)
        (fnh_priority fnh)
  | FecPwid _ _ _ => Kroute 0 zero_addr 0 zero_addr 0 0 0
  end.

(** Host routes may carry pseudowires. *)
Definition sync_host_route (f : fec) : ST lde unit :=
  match f with
  | FecIpv4 l p _ => if l =? 32 then l2vpn_sync_pws AF_INET (addr_of_v4 p) else ret tt
  | FecIpv6 p l => if l =? 128 then l2vpn_sync_pws AF_INET6 p else ret tt
  | FecPwid _ _ _ => ret tt
  end.

Definition lde_send_change_klabel (fn : fec_node) (fnh : fec_nh) : ST lde unit :=
  match fn_fec fn with
  | FecPwid _ _ _ => change_klabel_pw fn fnh
  | f => lde_send (KlabelChange (kroute_of fn fnh)) ;;; sync_host_route f
  end.
Definition lde_send_delete_klabel (fn : fec_node) (fnh : fec_nh) : ST lde unit :=
  match fn_fec fn with
  | FecPwid _ _ _ => delete_klabel_pw fn fnh
  | f => lde_send (KlabelDelete (kroute_of fn fnh)) ;;; sync_host_route f
  end.

(** ** Sending label messages (lde.c) *)

(** The common [switch] of the senders: [None] when the neighbour must not hear
    of this FEC, else the pseudowire of a PWID FEC. *)
Definition sendable_to (ln : lde_nbr) (fn : fec_node) : ST lde (option (option l2vpn_pw)) :=
  match fn_fec fn with
  | FecIpv4 _ _ _ => ret (if ln_v4_enabled ln then Some None else None)
  | FecIpv6 _ _ => ret (if ln_v6_enabled ln then Some None else None)
  | FecPwid _ _ _ =>
      match fn_data fn with
      | None => ret None
      | Some i =>
          do pw <- deref_pw i;
          ret (if pw_lsr_id pw =? ln_id ln then Some (Some pw) else None)
      end
  end.

Definition add_flags (m : ldp_map) (v : Z) : ldp_map := set_m_flags m (Z.lor (m_flags m) v).

(** The map of a pseudowire's label mapping. *)
Definition pw_mapping (m : ldp_map) (pw : l2vpn_pw) : ldp_map :=
  let pe := m_pwid m in
  let m := add_flags m F_MAP_PW_IFMTU in
  let m := set_m_pwid m (PwidElm (pw_type pe) (pw_pwid pe) (pw_group_id pe) (pw_l2vpn_mtu pw)) in
  let m := if has_flag (pw_flags pw) F_PW_CWORD then add_flags m F_MAP_PW_CWORD else m in
  if has_flag (pw_flags pw) F_PW_STATUSTLV
  then set_m_pw_status (add_flags m F_MAP_PW_STATUS) PW_FORWARDING else m.

Definition lde_send_labelmapping (peerid : Z) (fn : fec_node) (h : home) (single : bool)
    : ST lde unit :=
  do ln <- deref_ln peerid;
  do ok <- sendable_to ln fn;
  match ok with
  | None => ret tt
  | Some opw =>
      let map := lde_fec2map (fn_fec fn) in
      let map := match opw with Some pw => pw_mapping map pw | None => map end in
      let map := set_m_label map (fn_local_label fn) in
      (* SL.6, SL.7: answer a pending request *)
      do map <- match rb_find lre_fec fec_compare (fn_fec fn) (ln_recv_req ln) with
        | None => ret map
        | Some lre =>
            lde_req_del peerid (fn_fec fn) false ;;;
            ret (set_m_flags (set_m_requestid map (lre_msg_id lre)) F_MAP_REQ_ID)
        end;
      (* SL.4 *)
      lde_send (MappingAdd peerid map) ;;;
      (if single then lde_send (MappingAddEnd peerid) else ret tt) ;;;
      (* SL.5 *)
      match rb_find me_fec fec_compare (fn_fec fn) (ln_sent_map ln) with
      | None => lde_map_add peerid (fn_fec fn) h true map
      | Some _ =>
          upd_ln peerid (fun n => set_ln_sent_map n
            (rb_update me_fec fec_compare (fn_fec fn) (fun me => set_me_map me map) (ln_sent_map n)))
      end
  end.

(** [fn] of the withdraw and release senders: a LIB node or a null pointer for
    the wildcard. *)
Definition wildcard_map (label : Z) : ldp_map :=
  set_m_label (set_m_type map_zero MAP_TYPE_WILDCARD) label.

Definition with_cword (m : ldp_map) (opw : option l2vpn_pw) : ldp_map :=
  match opw with
  | Some pw => if has_flag (pw_flags pw) F_PW_CWORD then add_flags m F_MAP_PW_CWORD else m
  | None => m
  end.

Definition lde_send_labelwithdraw (peerid : Z) (ofn : option fec_node) (label : Z)
    (st : option map_st) : ST lde unit :=
  do ln <- deref_ln peerid;
  do omap <- match ofn with
    | Some fn =>
        do ok <- sendable_to ln fn;
        ret (match ok with
             | None => None
             | Some opw =>
                 Some (set_m_label (with_cword (lde_fec2map (fn_fec fn)) opw) (fn_local_label fn))
             end)
    | None => ret (Some (wildcard_map label))
    end;
  match omap with
  | None => ret tt
  | Some map =>
      let map := match st with Some x => add_flags (set_m_st map x) F_MAP_STATUS | None => map end in
      (* SWd.1 *)
      lde_send (WithdrawAdd peerid map) ;;;
      lde_send (WithdrawAddEnd peerid) ;;;
      (* SWd.2 *)
      match ofn with
      | Some fn => lde_wdraw_record peerid (fn_fec fn) (m_label map)
      | None =>
          do s <- get;
          foreach (fun fn => lde_wdraw_record peerid (fn_fec fn) (m_label map)) (l_ft s)
      end
  end.

Definition lde_send_labelwithdraw_all (fn : fec_node) (label : Z) : ST lde unit :=
  do s <- get;
  foreach (fun ln => lde_send_labelwithdraw (ln_peerid ln) (Some fn) label None) (l_nbrs s).

Definition lde_send_labelrelease (peerid : Z) (ofn : option fec_node) (label : Z) : ST lde unit :=
  do ln <- deref_ln peerid;
  do omap <- match ofn with
    | Some fn =>
        do ok <- sendable_to ln fn;
        ret (match ok with
             | None => None
             | Some opw => Some (with_cword (lde_fec2map (fn_fec fn)) opw)
             end)
    | None => ret (Some (set_m_type map_zero MAP_TYPE_WILDCARD))
    end;
  match omap with
  | None => ret tt
  | Some map =>
      lde_send (ReleaseAdd peerid (set_m_label map label)) ;;;
      lde_send (ReleaseAddEnd peerid)
  end.

Definition lde_send_notification (peerid status_code msg_id msg_type : Z) : ST lde unit :=
  lde_send (NotificationSend peerid (NotifyMsg status_code msg_id msg_type 0 map_zero 0)).

(** The whole LIB to a new neighbour. *)
Definition fec_snap (peerid : Z) : ST lde unit :=
  do s <- get;
  foreach (fun fn => if fn_local_label fn =? NO_LABEL then ret tt
                     else lde_send_labelmapping peerid fn HomeLib false) (l_ft s) ;;;
  lde_send (MappingAddEnd peerid).
