(* ===== verification/LdeLib.v ===== *)
(** * The label decision engine: RFC 5036 label procedures (ldpd/lde_lib.c,
      lde.c, l2vpn.c)

    One definition per procedure that the dispatcher of the lde calls: routes
    from the kernel, label mappings, requests, releases and withdraws from a
    neighbour, neighbours coming and going, the garbage collector. *)
From stdpp Require Import prelude strings list.
From Stdlib Require Import ZArith Lia.
From S2P Require Import Prelude Util Wire Ipc Fec Lde.

(** ** Pseudowire negotiation (l2vpn.c) *)
Definition pw_clear (i : nat) (flag : Z) : ST lde unit :=
  upd_pw i (fun pw => set_pw_flags pw (Z.ldiff (pw_flags pw) flag)).

(** [true]: ignore the mapping. *)
Definition l2vpn_pw_negotiate (peerid : Z) (fn : fec_node) (map : ldp_map) : ST lde bool :=
  match fn_data fn with
  | None => ret false
  | Some i =>
      do ln <- deref_ln peerid;
      do pw <- deref_pw i;
      let cword := has_flag (m_flags map) F_MAP_PW_CWORD in
      let conf := has_flag (pw_flags pw) F_PW_CWORD_CONF in
      do ignore <- match rb_find me_fec fec_compare (fn_fec fn) (ln_sent_map ln) with
        | Some _ =>
            if cword && negb conf then ret true
            else if negb cword && conf then
              lde_send_labelwithdraw peerid (Some fn) NO_LABEL
                (Some (MapSt S_WRONG_CBIT (m_msg_id map) (htons MSG_TYPE_LABELMAPPING))) ;;;
              pw_clear i F_PW_CWORD ;;;
              lde_send_labelmapping peerid fn HomeLib true ;;;
              ret false
            else ret false
        | None =>
            if cword then
              if conf then
                upd_pw i (fun pw => set_pw_flags pw (Z.lor (pw_flags pw) F_PW_CWORD)) ;;; ret false
              else ret true
            else pw_clear i F_PW_CWORD ;;; ret false
        end;
      if ignore : bool then ret true
      else
        do ln <- deref_ln peerid;
        (match rb_find me_fec fec_compare (fn_fec fn) (ln_recv_map ln) with
         | None => if negb (has_flag (m_flags map) F_MAP_PW_STATUS) then pw_clear i F_PW_STATUSTLV
                   else ret tt
         | Some _ => ret tt
         end) ;;;
        ret false
  end.

Definition l2vpn_recv_pw_status (peerid : Z) (nm : notify_msg) : ST lde unit :=
  if negb (has_flag (m_flags (nm_fec nm)) F_MAP_PW_ID) then ret tt
  else
    do ln <- deref_ln peerid;
    do f <- lift (lde_map2fec (nm_fec nm) (ln_id ln));
    do s <- get;
    match ft_find s f with
    | None => ret tt
    | Some fn =>
        match fn_data fn with
        | None => ret tt
        | Some i =>
            do r <- fec_nh_find fn AF_INET (addr_of_v4 (ln_id ln)) 0;
            match r with
            | None => ret tt
            | Some j =>
                do pw <- deref_pw i;
                if pw_remote_status pw =? nm_pw_status nm then ret tt
                else
                  upd_pw i (fun pw => set_pw_remote pw (pw_remote_group pw) (pw_remote_mtu pw)
                                        (nm_pw_status nm)) ;;;
                  do pw <- deref_pw i;
                  match fn_nexthops fn !! j with
                  | None => ret tt
                  | Some fnh =>
                      do ok <- l2vpn_pw_ok pw fnh;
                      if ok : bool then lde_send_change_klabel fn fnh
                      else lde_send_delete_klabel fn fnh
                  end
            end
        end
    end.

(** ** Label mappings (lde_check_mapping) *)

(** Does [ln] own the next hop?  Only asked for IP FECs. *)
Definition nh_of_nbr (peerid : Z) (h : fec_nh) : ST lde bool :=
  lde_address_find peerid (fnh_af h) (fnh_nexthop h).

(** [fnh->remote_label = NO_LABEL] behind [lde_send_delete_klabel(fn, fnh)] for
    the [j]-th next hop of the node. *)
Definition uninstall_nh (f : fec) (j : nat) : ST lde unit :=
  do fn <- deref_fn f;
  match fn_nexthops fn !! j with
  | None => ret tt
  | Some h => lde_send_delete_klabel fn h ;;; fec_nh_label f j NO_LABEL
  end.

(** LMp.10a: the neighbour changed its label. *)
Definition release_old_label (peerid : Z) (f : fec) (old : Z) : ST lde unit :=
  do fn <- deref_fn f;
  lde_send_labelrelease peerid (Some fn) old ;;;
  foreach (fun j =>
      do fn <- deref_fn f;
      match fn_nexthops fn !! j with
      | None => ret tt
      | Some h => do own <- nh_of_nbr peerid h; if own : bool then uninstall_nh f j else ret tt
      end)
    (seq 0 (length (fn_nexthops fn))).

(** LMp.15 for the [j]-th next hop. *)
Definition install_nh (peerid : Z) (f : fec) (map : ldp_map) (j : nat) : ST lde unit :=
  do fn <- deref_fn f;
  match fn_nexthops fn !! j with
  | None => ret tt
  | Some h =>
      match f with
      | FecPwid _ _ _ =>
          match fn_data fn with
          | None => ret tt
          | Some i =>
              upd_pw i (fun pw => set_pw_remote pw (pw_group_id (m_pwid map))
                (if has_flag (m_flags map) F_MAP_PW_IFMTU then pw_ifmtu (m_pwid map)
                 else pw_remote_mtu pw)
                (if has_flag (m_flags map) F_MAP_PW_STATUS then m_pw_status map
                 else pw_remote_status pw)) ;;;
              fec_nh_label f j (m_label map) ;;;
              do pw <- deref_pw i;
              let h' := set_fnh_label h (m_label map) in
              do ok <- l2vpn_pw_ok pw h';
              if ok : bool then do fn <- deref_fn f; lde_send_change_klabel fn h' else ret tt
          end
      | _ =>
          do own <- nh_of_nbr peerid h;
          if negb (own : bool) then ret tt
          else
            fec_nh_label f j (m_label map) ;;;
            do fn <- deref_fn f;
            lde_send_change_klabel fn (set_fnh_label h (m_label map))
      end
  end.

(** LMp.13, LMp.16: record the mapping. *)
Definition record_recv_map (peerid : Z) (f : fec) (map : ldp_map) : ST lde unit :=
  do ln <- deref_ln peerid;
  match rb_find me_fec fec_compare f (ln_recv_map ln) with
  | None => lde_map_add peerid f HomeLib false map
  | Some _ =>
      upd_ln peerid (fun n => set_ln_recv_map n
        (rb_update me_fec fec_compare f (fun me => set_me_map me map) (ln_recv_map n)))
  end.

Definition lde_check_mapping (map : ldp_map) (peerid : Z) : ST lde unit :=
  do ln <- deref_ln peerid;
  do f <- lift (lde_map2fec map (ln_id ln));
  do s <- get;
  (match ft_find s f with None => fec_add f | Some _ => ret tt end) ;;;
  do fn <- deref_fn f;
  (* LMp.1, LMp.2 *)
  let lre := rb_find lre_fec fec_compare f (ln_sent_req ln) in
  (match lre with Some _ => lde_req_del peerid f true | None => ret tt end) ;;;
  do ignore <- (if m_type map =? MAP_TYPE_PWID then l2vpn_pw_negotiate peerid fn map else ret false);
  if ignore : bool then ret tt
  else
    (* LMp.9, LMp.10 *)
    do ln <- deref_ln peerid;
    (match rb_find me_fec fec_compare f (ln_recv_map ln), lre with
     | Some me, None =>
         if negb (m_label (me_map me) =? m_label map)
         then release_old_label peerid f (m_label (me_map me)) else ret tt
     | _, _ => ret tt
     end) ;;;
    (* LMp.11, LMp.12 *)
    do fn <- deref_fn f;
    foreach (install_nh peerid f map) (seq 0 (length (fn_nexthops fn))) ;;;
    record_recv_map peerid (fn_fec fn) map.

(** ** Routes (lde_kernel_insert, lde_kernel_remove) *)

(** The case for IP FECs falls through to the one for pseudowires, so the
    neighbour is always looked up by [u.pwid.lsr_id]; the first look-up only
    matters for its side effects, and it has none. *)
Definition lde_kernel_insert (f : fec) (af : Z) (nexthop : ldpd_addr) (priority : Z)
    (data : option nat) : ST lde unit :=
  do s <- get;
  (match ft_find s f with None => fec_add f | Some _ => ret tt end) ;;;
  do fn <- deref_fn f;
  do nh <- fec_nh_find fn af nexthop priority;
  match nh with
  | Some _ => ret tt
  | None =>
      (match fn_fec fn with FecPwid _ _ _ => upd_fn f (fun n => set_fn_data n data) | _ => ret tt end) ;;;
      fec_nh_add f af nexthop priority ;;;
      do fn <- deref_fn f;
      lde_send_change_klabel fn (FecNh af nexthop NO_LABEL priority) ;;;
      (match fn_fec fn with
       | FecPwid _ _ _ => ret tt
       | _ => lde_nbr_find_by_addr af nexthop ;;; ret tt
       end) ;;;
      do s <- get;
      match lde_nbr_find_by_lsrid s (u_pwid_lsr_id (fn_fec fn)) with
      | None => ret tt
      | Some peerid =>
          do ln <- deref_ln peerid;
          match rb_find me_fec fec_compare f (ln_recv_map ln) with
          | None => ret tt
          | Some me => lde_check_mapping (me_map me) peerid
          end
      end
  end.

Definition lde_kernel_remove (f : fec) (af : Z) (nexthop : ldpd_addr) (priority : Z) : ST lde unit :=
  do s <- get;
  match ft_find s f with
  | None => ret tt
  | Some fn =>
      do nh <- fec_nh_find fn af nexthop priority;
      match nh with
      | None => ret tt
      | Some j =>
          match fn_nexthops fn !! j with
          | None => ret tt
          | Some h =>
              lde_send_delete_klabel fn h ;;;
              fec_nh_del f j ;;;
              do fn <- deref_fn f;
              match fn_nexthops fn with
              | _ :: _ => ret tt
              | [] =>
                  lde_send_labelwithdraw_all fn NO_LABEL ;;;
                  upd_fn f (fun n =>
                    let n := set_fn_local_label n NO_LABEL in
                    match fn_fec n with FecPwid _ _ _ => set_fn_data n None | _ => n end)
              end
          end
      end
  end.

(** ** Label requests (lde_check_request) *)
Fixpoint loop_detected (peerid : Z) (f : fec) (l : list fec_nh) : ST lde bool :=
  match l with
  | [] => ret false
  | h :: l' =>
      match f with
      | FecPwid _ _ _ => loop_detected peerid f l'
      | _ => do own <- nh_of_nbr peerid h; if own : bool then ret true else loop_detected peerid f l'
      end
  end.

Definition lde_check_request (map : ldp_map) (peerid : Z) : ST lde unit :=
  do ln <- deref_ln peerid;
  do f <- lift (lde_map2fec map (ln_id ln));
  do s <- get;
  let reject status :=
    lde_send_notification peerid status (m_msg_id map) (htons MSG_TYPE_LABELREQUEST) in
  match ft_find s f with
  | None => reject S_NO_ROUTE                                     (* LRq.5 *)
  | Some fn =>
      match fn_nexthops fn with
      | [] => reject S_NO_ROUTE
      | _ =>
          do loop <- loop_detected peerid f (fn_nexthops fn);
          if loop : bool then reject S_LOOP_DETECTED              (* LRq.4 *)
          else
            match rb_find lre_fec fec_compare (fn_fec fn) (ln_recv_req ln) with
            | Some _ => ret tt                                    (* LRq.7 *)
            | None =>
                lde_req_add peerid (fn_fec fn) false (ntohl (m_msg_id map)) ;;;  (* LRq.8 *)
                lde_send_labelmapping peerid fn HomeLib true                     (* LRq.9 *)
            end
      end
  end.

(** ** Label releases (lde_check_release, lde_check_release_wcard) *)
Definition label_matches (map : ldp_map) (label : Z) : bool :=
  (m_label map =? NO_LABEL) || (m_label map =? label).

(** LRl.3 - LRl.6 for one node. *)
Definition release_fec (map : ldp_map) (peerid : Z) (f : fec) : ST lde unit :=
  do ln <- deref_ln peerid;
  (match rb_find lw_fec fec_compare f (ln_sent_wdraw ln) with
   | Some lw =>
       if (m_label map =? NO_LABEL)
          || (negb (lw_label lw =? NO_LABEL) && (m_label map =? lw_label lw))
       then lde_wdraw_del peerid f else ret tt
   | None => ret tt
   end) ;;;
  match rb_find me_fec fec_compare f (ln_sent_map ln) with
  | Some me => if label_matches map (m_label (me_map me)) then lde_map_del peerid me true else ret tt
  | None => ret tt
  end.

Definition pw_wildcard (map : ldp_map) : bool :=
  (m_type map =? MAP_TYPE_PWID) && negb (has_flag (m_flags map) F_MAP_PW_ID).

Definition lde_check_release (map : ldp_map) (peerid : Z) : ST lde unit :=
  if pw_wildcard map then ret tt
  else
    do ln <- deref_ln peerid;
    do f <- lift (lde_map2fec map (ln_id ln));
    do s <- get;
    match ft_find s f with
    | None => ret tt
    | Some fn => release_fec map peerid (fn_fec fn)
    end.

Definition lde_check_release_wcard (map : ldp_map) (peerid : Z) : ST lde unit :=
  do s <- get;
  foreach (fun fn => release_fec map peerid (fn_fec fn)) (l_ft s).

(** ** Label withdraws (lde_check_withdraw, lde_check_withdraw_wcard) *)

(** LWd.3, LWd.4. *)
Definition forget_recv_map (map : ldp_map) (peerid : Z) (f : fec) : ST lde unit :=
  do ln <- deref_ln peerid;
  match rb_find me_fec fec_compare f (ln_recv_map ln) with
  | Some me => if label_matches map (m_label (me_map me)) then lde_map_del peerid me false else ret tt
  | None => ret tt
  end.

(** LWd.1 for the [j]-th next hop. *)
Definition withdraw_nh (peerid : Z) (f : fec) (j : nat) : ST lde unit :=
  do fn <- deref_fn f;
  match fn_nexthops fn !! j with
  | None => ret tt
  | Some h =>
      match f with
      | FecPwid _ _ _ => match fn_data fn with None => ret tt | Some _ => uninstall_nh f j end
      | _ => do own <- nh_of_nbr peerid h; if own : bool then uninstall_nh f j else ret tt
      end
  end.

Definition lde_check_withdraw (map : ldp_map) (peerid : Z) : ST lde unit :=
  if pw_wildcard map then ret tt
  else
    do ln <- deref_ln peerid;
    do f <- lift (lde_map2fec map (ln_id ln));
    do s <- get;
    (match ft_find s f with None => fec_add f | Some _ => ret tt end) ;;;
    do fn <- deref_fn f;
    foreach (withdraw_nh peerid f) (seq 0 (length (fn_nexthops fn))) ;;;
    do fn <- deref_fn f;
    lde_send_labelrelease peerid (Some fn) (m_label map) ;;;
    forget_recv_map map peerid (fn_fec fn).

(** LWd.1 is commented out in the source: the next hops keep their labels. *)
Definition lde_check_withdraw_wcard (map : ldp_map) (peerid : Z) : ST lde unit :=
  lde_send_labelrelease peerid None (m_label map) ;;;
  do s <- get;
  foreach (fun fn => forget_recv_map map peerid (fn_fec fn)) (l_ft s).

(** ** Neighbours (lde_nbr_new, lde_nbr_del) *)
Definition lde_nbr_new (peerid id : Z) (v4_enabled v6_enabled : bool) : ST lde unit :=
  do s <- get;
  match rb_insert ln_peerid peerid_compare
          (LdeNbr peerid id v4_enabled v6_enabled [] [] [] [] [] []) (l_nbrs s) with
  | Some t => put (set_l_nbrs s t)
  | None => fatalx "lde_nbr_new: RB_INSERT failed"
  end.

(** Uninstall the mappings of one neighbour at the [j]-th next hop. *)
Definition nbr_del_nh (peerid : Z) (f : fec) (j : nat) : ST lde unit :=
  do fn <- deref_fn f;
  match fn_nexthops fn !! j with
  | None => ret tt
  | Some h =>
      match f with
      | FecPwid _ _ lsr_id =>
          do ln <- deref_ln peerid;
          if negb (lsr_id =? ln_id ln) then ret tt
          else
            (match fn_data fn with Some i => l2vpn_pw_reset i | None => ret tt end) ;;;
            uninstall_nh f j
      | _ => do own <- nh_of_nbr peerid h; if own : bool then uninstall_nh f j else ret tt
      end
  end.

(** [fec_clear(&ln->recv_map, lde_map_free)] and the same for [sent_map]: the
    tree is emptied element by element, each one is unlinked and freed. *)
Definition clear_maps (peerid : Z) (sent : bool) : ST lde unit :=
  do ln <- deref_ln peerid;
  foreach (fun me => lde_map_del peerid me sent) (sent_of sent ln).

Definition lde_nbr_del (peerid : Z) : ST lde unit :=
  do s <- get;
  foreach (fun fn => foreach (nbr_del_nh peerid (fn_fec fn)) (seq 0 (length (fn_nexthops fn))))
    (l_ft s) ;;;
  upd_ln peerid (fun n => set_ln_addr_list n []) ;;;
  clear_maps peerid false ;;;
  clear_maps peerid true ;;;
  upd_ln peerid (fun n => set_ln_sent_wdraw (set_ln_sent_req (set_ln_recv_req n []) []) []) ;;;
  modify (fun s =>
    let s := set_l_nbrs s (rb_remove ln_peerid peerid_compare peerid (l_nbrs s)) in
    match l_ln1 s with
    | PtrTo p => if p =? peerid then set_l_ln1 s PtrUninit else s   (* now dangling *)
    | _ => s
    end).

(** ** Garbage collection (lde_gc_timer) *)
Definition fn_dead (fn : fec_node) : bool :=
  match fn_nexthops fn, fn_downstream fn, fn_upstream fn with [], [], [] => true | _, _, _ => false end.

Definition lde_gc_timer : ST lde unit :=
  modify (fun s => set_l_ft s (List.filter (fun fn => negb (fn_dead fn)) (l_ft s))).

(** ** Changing the egress label (lde_change_egress_label) *)
Definition readvertise (af peerid : Z) (fn : fec_node) : ST lde unit :=
  if fn_local_label fn >? MPLS_LABEL_RESERVED_MAX then ret tt
  else if negb (af =? AF_INET) && negb (af =? AF_INET6) then
    fatalx "lde_change_egress_label: unknown af"
  else
    match fn_fec fn, af =? AF_INET with
    | FecIpv4 _ _ _, true | FecIpv6 _ _, false =>
        do s <- get;
        do label <- lift (egress_label s (fec_tag (fn_fec fn)));
        upd_fn (fn_fec fn) (fun n => set_fn_local_label n label) ;;;
        lde_send_labelmapping peerid (set_fn_local_label fn label) HomeLib false
    | _, _ => ret tt
    end.

Definition lde_change_egress_label (af : Z) (was_implicit : bool) : ST lde unit :=
  do s <- get;
  foreach (fun ln =>
      let p := ln_peerid ln in
      (if was_implicit then lde_send_labelwithdraw p None MPLS_LABEL_IMPLNULL None
       else
         (if ln_v4_enabled ln then lde_send_labelwithdraw p None MPLS_LABEL_IPV4NULL None
          else ret tt) ;;;
         (if ln_v6_enabled ln then lde_send_labelwithdraw p None MPLS_LABEL_IPV6NULL None
          else ret tt)) ;;;
      do s <- get;
      foreach (readvertise af p) (l_ft s) ;;;
      lde_send (MappingAddEnd p))
    (l_nbrs s).
