(* ===== verification/LdeSafe.v ===== *)
(** * Integrity of the label decision engine

    The engine keeps every received and sent mapping twice: in the tree of the
    neighbour and in a list of the [fec_node] it belongs to.  [lib_ok] says that
    the two sides agree, that all trees are sorted and that every pointer in
    them is live.  A small calculus of total correctness ([lwp]) shows that each
    RFC 5036 procedure returns (no [fatalx], no undefined behaviour) and keeps
    the invariant. *)
From stdpp Require Import prelude strings list sorting.
From Stdlib Require Import ZArith Lia.
From S2P Require Import Prelude Util Wire Ipc Fec Lde LdeLib.

(** ** The invariant *)
Definition pid_ok (p : Z) : Prop := 0 <= p < 2 ^ 31.
Definition af_ok (af : Z) : Prop := af = AF_INET \/ af = AF_INET6.

#[export] Instance peerid_compare_order : CmpOrder pid_ok peerid_compare.
Proof.
  assert (forall a b, pid_ok a -> pid_ok b -> peerid_compare a b = a - b) as E.
  { unfold pid_ok, peerid_compare, int_of_u32, u32. intros a b Ha Hb.
    destruct (Z.le_gt_cases b a).
    - rewrite Z.mod_small by lia. case_match; zbool; lia.
    - rewrite <- (Z.mod_unique (a - b) (2 ^ 32) (-1) (a - b + 2 ^ 32)) by lia.
      case_match; zbool; lia. }
  constructor; intros; rewrite !E in * by done; lia.
Qed.

Lemma peerid_compare_zero a b : pid_ok a -> pid_ok b -> peerid_compare a b = 0 <-> a = b.
Proof.
  intros Ha Hb. split; [|intros ->; by apply (cmp_refl (ok := pid_ok))].
  unfold pid_ok, peerid_compare, int_of_u32, u32 in *. intros H.
  destruct (Z.le_gt_cases b a).
  - rewrite Z.mod_small in H by lia. case_match; zbool; lia.
  - rewrite <- (Z.mod_unique (a - b) (2 ^ 32) (-1) (a - b + 2 ^ 32)) in H by lia.
    case_match; zbool; lia.
Qed.

(** A map as the parser of the LDP engine leaves it. *)
Definition map_ok (m : ldp_map) : Prop :=
  (m_type m = MAP_TYPE_PREFIX ->
     (pe_af (m_prefix m) = AF_IPV4 \/ pe_af (m_prefix m) = AF_IPV6) /\
     is_u 8 (pe_prefixlen (m_prefix m)) /\ addr_ok (pe_prefix (m_prefix m))) /\
  (m_type m = MAP_TYPE_PWID -> is_u 16 (pw_type (m_pwid m)) /\ is_u 32 (pw_pwid (m_pwid m))).

(** The lists of a node a mapping can be linked into. *)
Definition links (sent : bool) (n : fec_node) : list Z :=
  if sent then fn_upstream n else fn_downstream n.

Definition fec_tree {A} (key : A -> fec) : list A -> Prop := tree_ok key fec_ok fec_compare.

Record node_ok (live : nat -> Prop) (n : fec_node) : Prop := {
  node_nh : Forall (fun h => af_ok (fnh_af h)) (fn_nexthops n);
  node_links sent : NoDup (links sent n) /\ Forall pid_ok (links sent n);
  node_data i : fn_data n = Some i -> live i;
  node_pw : fec_tag (fn_fec n) = FEC_TYPE_PWID -> fn_nexthops n <> [] -> is_Some (fn_data n);
  node_label : fn_local_label n = NO_LABEL
}.

Record nbr_ok (n : lde_nbr) : Prop := {
  nbr_id : is_u 32 (ln_id n);
  nbr_maps sent : fec_tree me_fec (sent_of sent n);
  nbr_home sent : Forall (fun me => me_home me = HomeLib) (sent_of sent n);
  nbr_recv : Forall (fun me => map_ok (me_map me)) (ln_recv_map n);
  nbr_req : fec_tree lre_fec (ln_recv_req n) /\ fec_tree lre_fec (ln_sent_req n);
  nbr_wdraw : fec_tree lw_fec (ln_sent_wdraw n);
  nbr_addrs : Forall (fun a => af_ok (fst a)) (ln_addr_list n)
}.

(** The mapping of [f] exchanged with [p] is linked at the node of [f] / is in
    the tree of the neighbour. *)
Definition linked (s : lde) (sent : bool) (p : Z) (f : fec) : Prop :=
  exists n, ft_find s f = Some n /\ p ∈ links sent n.
Definition mapped (s : lde) (sent : bool) (p : Z) (f : fec) : Prop :=
  exists n, lde_nbr_find s p = Some n /\ is_Some (rb_find me_fec fec_compare f (sent_of sent n)).

Definition node_okb (s : lde) := node_ok (fun i => is_Some (pw_at s i)).
Record lib_ok (s : lde) : Prop := {
  lib_ft : fec_tree fn_fec (l_ft s);
  lib_nbrs : tree_ok ln_peerid pid_ok peerid_compare (l_nbrs s);
  lib_nodes : Forall (node_okb s) (l_ft s);
  lib_nbr : Forall nbr_ok (l_nbrs s);
  lib_pws i pw : pw_at s i = Some pw -> af_ok (pw_af pw);
  lib_vpns : Forall (fun i => is_Some (pw_at s i)) (active_pws (l_vpns s));
  lib_links sent p f : pid_ok p -> fec_ok f -> linked s sent p f <-> mapped s sent p f
}.

(** ** Total correctness *)
Definition lwp {A} (c : ST lde A) (Q : A -> lde -> Prop) (s : lde) : Prop :=
  match c s with Ok (a, s') => Q a s' | _ => False end.

Section Lwp.
Lemma lwp_ret {A} (a : A) (Q : A -> lde -> Prop) s : Q a s -> lwp (ret a) Q s.
Proof. done. Qed.

Lemma lwp_bind {A B} (c : ST lde A) (k : A -> ST lde B) Q s :
  lwp c (fun a s' => lwp (k a) Q s') s -> lwp (bind c k) Q s.
Proof. unfold lwp, bind. by destruct (c s) as [[? ?]| | |]. Qed.

Lemma lwp_mono {A} (c : ST lde A) (Q Q' : A -> lde -> Prop) s :
  lwp c Q s -> (forall a s', Q a s' -> Q' a s') -> lwp c Q' s.
Proof. unfold lwp. destruct (c s) as [[? ?]| | |]; auto. Qed.

Lemma lwp_get (Q : lde -> lde -> Prop) s : Q s s -> lwp get Q s.
Proof. done. Qed.

Lemma lwp_modify f (Q : unit -> lde -> Prop) s : Q tt (f s) -> lwp (modify f) Q s.
Proof. done. Qed.

Lemma lwp_lift {A} (r : res A) a (Q : A -> lde -> Prop) s : r = Ok a -> Q a s -> lwp (lift r) Q s.
Proof. intros -> H. exact H. Qed.

Lemma lwp_ok {A} (c : ST lde A) Q s : lwp c Q s -> exists a s', c s = Ok (a, s') /\ Q a s'.
Proof. unfold lwp. destruct (c s) as [[a s']| | |]; [eauto|done..]. Qed.

Lemma lwp_foreach {A} (I : lde -> Prop) (f : A -> ST lde unit) l s :
  I s -> (forall x s, x ∈ l -> I s -> lwp (f x) (fun _ => I) s) ->
  lwp (foreach f l) (fun _ => I) s.
Proof.
  revert s. induction l as [|x l IH]; intros s Hs Hf; [by apply lwp_ret|].
  apply lwp_bind. eapply lwp_mono; [apply Hf; [left|done]|]. intros ? s' Hs'.
  apply IH; [done|]. intros y s2 Hy. apply Hf. by right.
Qed.
End Lwp.

(** ** Look-ups under the invariant *)
Section Lookups.
Lemma nbr_find_in s p n : lib_ok s -> lde_nbr_find s p = Some n -> nbr_ok n /\ pid_ok (ln_peerid n).
Proof.
  intros H Hf. apply rb_find_in in Hf as [Hin _]. split.
  - pose proof (lib_nbr s H) as Hn. rewrite Forall_forall in Hn. auto.
  - by apply (tree_ok_elem _ _ _ _ n (lib_nbrs s H)).
Qed.

Lemma ft_find_in s f n : lib_ok s -> ft_find s f = Some n ->
  node_okb s n /\ fec_ok (fn_fec n) /\ fec_compare f (fn_fec n) = 0.
Proof.
  intros H Hf. apply rb_find_in in Hf as [Hin He]. split; [|split].
  - pose proof (lib_nodes s H) as Hn. rewrite Forall_forall in Hn. auto.
  - by apply (tree_ok_elem _ _ _ _ n (lib_ft s H)).
  - done.
Qed.

Lemma nbr_find_self s n : lib_ok s -> n ∈ l_nbrs s -> lde_nbr_find s (ln_peerid n) = Some n.
Proof.
  intros H Hin. pose proof (tree_ok_elem _ _ _ _ n (lib_nbrs s H) Hin) as Hp.
  apply (rb_find_spec ln_peerid pid_ok peerid_compare); [apply H|done..|]. by apply peerid_compare_zero.
Qed.

Lemma ft_find_self s n : lib_ok s -> n ∈ l_ft s -> ft_find s (fn_fec n) = Some n.
Proof.
  intros H Hin. pose proof (tree_ok_elem _ _ _ _ n (lib_ft s H) Hin) as Hp.
  apply (rb_find_spec fn_fec fec_ok fec_compare); [apply H|done..|]. by apply (cmp_refl (ok := fec_ok)).
Qed.

Lemma ft_find_equiv s f g :
  lib_ok s -> fec_ok f -> fec_ok g -> fec_compare f g = 0 -> ft_find s f = ft_find s g.
Proof. intros H Hf Hg He. apply (rb_find_equiv fn_fec fec_ok fec_compare); try done. apply H. Qed.

(** The node found for [f] is also found under its own key. *)
Lemma ft_find_own s f n :
  lib_ok s -> fec_ok f -> ft_find s f = Some n -> ft_find s (fn_fec n) = Some n.
Proof.
  intros H Hf E. destruct (ft_find_in s f n H E) as (_ & Hn & Hc).
  by rewrite <- (ft_find_equiv s f).
Qed.

Lemma fec_tag_equiv f g : fec_compare f g = 0 -> fec_tag f = fec_tag g.
Proof.
  unfold fec_compare, cmp_then. by destruct f, g; simpl; intros.
Qed.
End Lookups.

(** ** State updates that keep the invariant *)
Definition nbrs_upd (s : lde) (p : Z) (f : lde_nbr -> lde_nbr) : lde :=
  set_l_nbrs s (rb_update ln_peerid peerid_compare p f (l_nbrs s)).
Definition ft_upd (s : lde) (f : fec) (g : fec_node -> fec_node) : lde :=
  set_l_ft s (rb_update fn_fec fec_compare f g (l_ft s)).

Section Updates.
Lemma rb_find_some {A K} (key : A -> K) (cmp : K -> K -> Z) k t :
  is_Some (rb_find key cmp k t) <-> exists x, x ∈ t /\ cmp k (key x) = 0.
Proof.
  split.
  - intros [x H]. apply rb_find_in in H. eauto.
  - intros (x & Hin & He). destruct (rb_find key cmp k t) eqn:E; [eauto|].
    by eapply rb_find_none in E.
Qed.

Lemma rb_update_forall {A K} (key : A -> K) (cmp : K -> K -> Z) k (f : A -> A) (P : A -> Prop) t :
  (forall x, x ∈ t -> cmp k (key x) = 0 -> P x -> P (f x)) ->
  Forall P t -> Forall P (rb_update key cmp k f t).
Proof.
  rewrite !Forall_forall. intros Hf Ht x Hx. unfold rb_update in Hx.
  apply list_elem_of_In, in_map_iff in Hx as (y & <- & Hy).
  apply list_elem_of_In in Hy. case_match; zbool; auto.
Qed.

Lemma rb_find_update_some {A K} (key : A -> K) (cmp : K -> K -> Z) k k' (f : A -> A) t :
  (forall x, key (f x) = key x) ->
  is_Some (rb_find key cmp k' (rb_update key cmp k f t)) <-> is_Some (rb_find key cmp k' t).
Proof.
  intros Hf. induction t as [|x t IH]; [done|]. unfold rb_find, rb_update in *. simpl.
  assert (key (if cmp k (key x) =? 0 then f x else x) = key x) as -> by (case_match; auto).
  destruct (cmp k' (key x) =? 0); [split; eauto|done].
Qed.

(** Fields the invariant does not look at. *)
Lemma lib_ok_frame s s' :
  l_ft s' = l_ft s -> l_nbrs s' = l_nbrs s -> l_pws s' = l_pws s -> l_vpns s' = l_vpns s -> lib_ok s -> lib_ok s'.
Proof.
  intros E1 E2 E3 E4 [H1 H2 H3 H4 H5 H6 H7].
  split; unfold linked, mapped, node_okb, ft_find, lde_nbr_find, pw_at in *; by rewrite ?E1, ?E2, ?E3, ?E4.
Qed.

Lemma nbr_find_upd s p q f :
  lib_ok s -> pid_ok p -> pid_ok q -> (forall n, ln_peerid (f n) = ln_peerid n) ->
  lde_nbr_find (nbrs_upd s p f) q
  = if p =? q then f <$> lde_nbr_find s q else lde_nbr_find s q.
Proof.
  intros H Hp Hq Hf. unfold lde_nbr_find, nbrs_upd. cbn [l_nbrs set_l_nbrs].
  rewrite (rb_find_update_if ln_peerid pid_ok peerid_compare) by (done || apply H).
  pose proof (peerid_compare_zero p q Hp Hq).
  destruct (p =? q) eqn:E1, (peerid_compare p q =? 0) eqn:E2; zbool; tauto.
Qed.

Lemma ft_find_upd s f g k :
  lib_ok s -> fec_ok f -> fec_ok k -> (forall n, fn_fec (g n) = fn_fec n) ->
  ft_find (ft_upd s f g) k
  = if fec_compare f k =? 0 then g <$> ft_find s k else ft_find s k.
Proof.
  intros H Hf Hk Hg. unfold ft_find, ft_upd. cbn [l_ft set_l_ft].
  by rewrite (rb_find_update_if fn_fec fec_ok fec_compare) by (done || apply H).
Qed.

(** A change of a neighbour that keeps the FECs of its mappings. *)
Lemma lib_nbrs_upd s p f :
  lib_ok s -> pid_ok p -> (forall n, ln_peerid (f n) = ln_peerid n) ->
  (forall n, n ∈ l_nbrs s -> nbr_ok n -> nbr_ok (f n)) ->
  (forall n sent k, is_Some (rb_find me_fec fec_compare k (sent_of sent (f n))) <->
     is_Some (rb_find me_fec fec_compare k (sent_of sent n))) ->
  lib_ok (nbrs_upd s p f).
Proof.
  intros H Hp Hk Hn Hm. split; try apply H.
  - apply rb_update_ok; [done|apply H].
  - apply rb_update_forall; [intros n Hin _; by apply Hn|apply H].
  - intros sent q k Hq Hok. etransitivity; [apply (lib_links s H sent q k Hq Hok)|].
    unfold mapped. rewrite nbr_find_upd by done. destruct (p =? q); [|done].
    destruct (lde_nbr_find s q) as [n|]; simpl; [|naive_solver].
    split; intros (n' & [= <-] & Hs); eexists; (split; [done|]); by apply Hm.
Qed.

(** A change of a node that keeps its lists of mappings. *)
Lemma lib_ft_upd s f g :
  lib_ok s -> fec_ok f -> (forall n, fn_fec (g n) = fn_fec n) ->
  (forall n, ft_find s f = Some n -> node_okb s n -> node_okb s (g n)) ->
  (forall n sent, links sent (g n) = links sent n) ->
  lib_ok (ft_upd s f g).
Proof.
  intros H Hf Hk Hn Hm. split; try apply H.
  - apply rb_update_ok; [done|apply H].
  - apply rb_update_forall; [|apply H]. intros n Hin He. apply Hn.
    by apply (rb_find_spec fn_fec fec_ok fec_compare); [apply H|..].
  - intros sent q k Hq Hok. etransitivity; [|apply (lib_links s H sent q k Hq Hok)].
    unfold linked. rewrite ft_find_upd by done. destruct (fec_compare f k =? 0); [|done].
    destruct (ft_find s k) as [n|]; simpl; [|naive_solver].
    split; intros (n' & [= <-] & Hs); eexists; (split; [done|]); by rewrite Hm in *.
Qed.

Lemma node_ok_mono (P Q : nat -> Prop) n : (forall i, P i -> Q i) -> node_ok P n -> node_ok Q n.
Proof. intros HPQ [Hh Hl Hd Hp Hb]. split; eauto. Qed.

Lemma lib_pws_upd s v :
  lib_ok s -> (forall i, is_Some (pw_at s i) -> is_Some (pw_at (set_l_pws s v) i)) ->
  (forall i pw, pw_at (set_l_pws s v) i = Some pw -> af_ok (pw_af pw)) ->
  lib_ok (set_l_pws s v).
Proof.
  intros H Hl Hv. split; try apply H; [|done|].
  - eapply Forall_impl; [exact (lib_nodes s H)|]. intros n. by apply node_ok_mono.
  - eapply Forall_impl; [exact (lib_vpns s H)|]. intros i. apply Hl.
Qed.

Lemma pw_at_insert s i pw j :
  is_Some (pw_at s i) ->
  pw_at (set_l_pws s (<[i := Some pw]> (l_pws s))) j = if decide (i = j) then Some pw else pw_at s j.
Proof.
  intros [p Hi]. unfold pw_at in *. cbn [l_pws set_l_pws]. destruct (l_pws s !! i) as [o|] eqn:E; [|done].
  case_decide as Ej; subst.
  - by rewrite list_lookup_insert_eq by (by eapply lookup_lt_Some).
  - by rewrite list_lookup_insert_ne.
Qed.
End Updates.

(** ** Later states of one run: what is live stays live *)
Record ext (s s' : lde) : Prop := {
  ext_nbr p : is_Some (lde_nbr_find s p) -> is_Some (lde_nbr_find s' p);
  ext_ft f : is_Some (ft_find s f) -> is_Some (ft_find s' f);
  ext_pws i : is_Some (pw_at s i) -> is_Some (pw_at s' i);
  ext_vpns : l_vpns s' = l_vpns s
}.
#[export] Instance ext_preorder : PreOrder ext.
Proof.
  split; [by intros s; split|]. intros s1 s2 s3 [H1 H2 H3 H4] [K1 K2 K3 K4]. split; [auto..|congruence].
Qed.

Definition good (s0 s : lde) : Prop := lib_ok s /\ ext s0 s.
(** [c] returns, keeps the invariant and everything live. *)
Definition keeps {A} (c : ST lde A) (s : lde) : Prop := lwp c (fun _ => good s) s.
(** [c] returns without any effect. *)
Definition pure {A} (c : ST lde A) (s : lde) : Prop := lwp c (fun _ s' => s' = s) s.

Section Keeps.
Lemma good_refl s : lib_ok s -> good s s.
Proof. by split. Qed.
Lemma good_trans s1 s2 s3 : good s1 s2 -> good s2 s3 -> good s1 s3.
Proof. intros [_ H1] [H2 H3]. split; [done|by etransitivity]. Qed.

Lemma keeps_ret {A} (a : A) s : lib_ok s -> keeps (ret a) s.
Proof. by intros; apply lwp_ret, good_refl. Qed.

Lemma keeps_bind {A B} (c : ST lde A) (k : A -> ST lde B) s :
  keeps c s -> (forall a s', good s s' -> keeps (k a) s') -> keeps (bind c k) s.
Proof.
  intros Hc Hk. apply lwp_bind. eapply lwp_mono; [exact Hc|]. intros a s' Hg.
  eapply lwp_mono; [by apply Hk|]. intros b s'' Hg'. exact (good_trans _ _ _ Hg Hg').
Qed.

Lemma pure_bind {A B} (c : ST lde A) (k : A -> ST lde B) s :
  pure c s -> (forall a, keeps (k a) s) -> keeps (bind c k) s.
Proof.
  intros Hc Hk. apply lwp_bind. eapply lwp_mono; [exact Hc|]. intros a s' ->. apply Hk.
Qed.

Lemma pure_bind_pure {A B} (c : ST lde A) (k : A -> ST lde B) s :
  pure c s -> (forall a, pure (k a) s) -> pure (bind c k) s.
Proof.
  intros Hc Hk. apply lwp_bind. eapply lwp_mono; [exact Hc|]. intros a s' ->. apply Hk.
Qed.

Lemma pure_keeps {A} (c : ST lde A) s : lib_ok s -> pure c s -> keeps c s.
Proof. intros H Hc. eapply lwp_mono; [exact Hc|]. intros a s' ->. by apply good_refl. Qed.

Lemma keeps_foreach {A} (f : A -> ST lde unit) l s :
  lib_ok s -> (forall x s', x ∈ l -> good s s' -> keeps (f x) s') -> keeps (foreach f l) s.
Proof.
  intros H Hf. apply (lwp_foreach (good s)); [by apply good_refl|].
  intros x s' Hx Hg. eapply lwp_mono; [by apply Hf|]. intros ? s'' Hg'. exact (good_trans _ _ _ Hg Hg').
Qed.

Lemma lwp_deref_ln p n (Q : lde_nbr -> lde -> Prop) s :
  lde_nbr_find s p = Some n -> Q n s -> lwp (deref_ln p) Q s.
Proof. intros E. unfold lwp, deref_ln. by rewrite E. Qed.

Lemma lwp_deref_fn f n (Q : fec_node -> lde -> Prop) s :
  ft_find s f = Some n -> Q n s -> lwp (deref_fn f) Q s.
Proof. intros E. unfold lwp, deref_fn. by rewrite E. Qed.

Lemma lwp_deref_pw i (Q : l2vpn_pw -> lde -> Prop) s :
  is_Some (pw_at s i) -> (forall pw, pw_at s i = Some pw -> Q pw s) -> lwp (deref_pw i) Q s.
Proof.
  intros [pw E] HQ. unfold lwp, deref_pw. rewrite E. auto.
Qed.

Lemma lwp_upd_ln p f (Q : unit -> lde -> Prop) s :
  is_Some (lde_nbr_find s p) -> Q tt (nbrs_upd s p f) -> lwp (upd_ln p f) Q s.
Proof. intros [n E] H. by apply lwp_bind, (lwp_deref_ln p n). Qed.

Lemma lwp_upd_fn f g (Q : unit -> lde -> Prop) s :
  is_Some (ft_find s f) -> Q tt (ft_upd s f g) -> lwp (upd_fn f g) Q s.
Proof. intros [n E] H. by apply lwp_bind, (lwp_deref_fn f n). Qed.

Lemma ext_frame s s' :
  l_ft s' = l_ft s -> l_nbrs s' = l_nbrs s -> l_pws s' = l_pws s -> l_vpns s' = l_vpns s -> ext s s'.
Proof. intros E1 E2 E3 E4. split; unfold lde_nbr_find, ft_find, pw_at; by rewrite ?E1, ?E2, ?E3, ?E4. Qed.

Lemma good_frame s s' :
  l_ft s' = l_ft s -> l_nbrs s' = l_nbrs s -> l_pws s' = l_pws s -> l_vpns s' = l_vpns s -> lib_ok s -> good s s'.
Proof. intros E1 E2 E3 E4 H. split; [by eapply lib_ok_frame|by apply ext_frame]. Qed.

Lemma keeps_send m s : lib_ok s -> keeps (lde_send m) s.
Proof. intros H. by apply lwp_modify, good_frame. Qed.

(** Assignments to a neighbour, a node or a pseudowire. *)
Lemma keeps_upd_ln p f s :
  lib_ok s -> pid_ok p -> is_Some (lde_nbr_find s p) ->
  (forall n, ln_peerid (f n) = ln_peerid n) ->
  (forall n, n ∈ l_nbrs s -> nbr_ok n -> nbr_ok (f n)) ->
  (forall n sent k, is_Some (rb_find me_fec fec_compare k (sent_of sent (f n))) <->
     is_Some (rb_find me_fec fec_compare k (sent_of sent n))) ->
  keeps (upd_ln p f) s.
Proof.
  intros H Hp Hl Hk Hn Hm. apply lwp_upd_ln; [done|]. split; [by apply lib_nbrs_upd|].
  split; [|done..]. intros q. by apply rb_find_update_some.
Qed.

Lemma keeps_upd_fn f g s :
  lib_ok s -> fec_ok f -> is_Some (ft_find s f) ->
  (forall n, fn_fec (g n) = fn_fec n) ->
  (forall n, ft_find s f = Some n -> node_okb s n -> node_okb s (g n)) ->
  (forall n sent, links sent (g n) = links sent n) ->
  keeps (upd_fn f g) s.
Proof.
  intros H Hp Hl Hk Hn Hm. apply lwp_upd_fn; [done|]. split; [by apply lib_ft_upd|].
  split; [done| |done..]. intros q. by apply rb_find_update_some.
Qed.

Lemma keeps_upd_pw i g s :
  lib_ok s -> is_Some (pw_at s i) -> (forall pw, pw_af (g pw) = pw_af pw) -> keeps (upd_pw i g) s.
Proof.
  intros H Hi Hg. apply lwp_bind, lwp_deref_pw; [done|]. intros pw Hpw.
  apply lwp_modify.
  assert (forall j, is_Some (pw_at s j) -> is_Some (pw_at (set_l_pws s (<[i:=Some (g pw)]> (l_pws s))) j)) as Hl.
  { intros j Hj. rewrite pw_at_insert by done. by case_decide. }
  split; [|by split].
  apply lib_pws_upd; [done..|]. intros j p. rewrite pw_at_insert by done. case_decide; [|apply H].
  intros [= <-]. rewrite Hg. by apply (lib_pws s H i).
Qed.
End Keeps.

(** ** Look-ups by address have no effect *)
Section Pure.
Lemma pure_ret {A} (a : A) s : pure (ret a) s.
Proof. done. Qed.

Lemma pure_get s : pure get s.
Proof. done. Qed.

Lemma pure_addr_eq af a b s : af_ok af -> pure (addr_eq af a b) s.
Proof.
  intros Haf. unfold addr_eq. apply pure_bind_pure; [|intros; apply pure_ret].
  destruct Haf as [-> | ->]; unfold ldp_addrcmp; simpl; [case_match|]; by eapply lwp_lift.
Qed.

Lemma pure_address_find_in l af addr s : af_ok af -> pure (address_find_in l af addr) s.
Proof.
  intros Haf. induction l as [|[af' a] l IH]; simpl; [apply pure_ret|].
  destruct (af' =? af); [|done]. apply pure_bind_pure; [by apply pure_addr_eq|].
  intros []; [apply pure_ret|done].
Qed.

Lemma pure_deref_ln p s : is_Some (lde_nbr_find s p) -> pure (deref_ln p) s.
Proof. intros [n E]. by apply (lwp_deref_ln p n). Qed.

Lemma pure_deref_pw i s : is_Some (pw_at s i) -> pure (deref_pw i) s.
Proof. intros. by apply lwp_deref_pw. Qed.

Lemma pure_address_find p af addr s :
  af_ok af -> is_Some (lde_nbr_find s p) -> pure (lde_address_find p af addr) s.
Proof.
  intros Haf Hl. apply pure_bind_pure; [by apply pure_deref_ln|].
  intros ln. by apply pure_address_find_in.
Qed.

Lemma pure_nbr_by_addr af addr s : af_ok af -> pure (lde_nbr_find_by_addr af addr) s.
Proof.
  intros Haf. apply pure_bind_pure; [done|]. intros s0. generalize (l_nbrs s0) as l.
  induction l as [|n l IH]; simpl; [apply pure_ret|].
  apply pure_bind_pure; [by apply pure_address_find_in|]. intros []; [apply pure_ret|done].
Qed.

Lemma pure_fec_nh_find fn af nexthop pr s : af_ok af -> pure (fec_nh_find fn af nexthop pr) s.
Proof.
  intros Haf. unfold fec_nh_find. induction (fn_nexthops fn) as [|h l IH]; simpl; [apply pure_ret|].
  apply pure_bind_pure; [case_match; [by apply pure_addr_eq|done]|]. intros e.
  case_match; [apply pure_ret|]. apply pure_bind_pure; [done|]. intros; apply pure_ret.
Qed.

Lemma pure_pw_ok pw fnh s : af_ok (pw_af pw) -> pure (l2vpn_pw_ok pw fnh) s.
Proof.
  intros Haf. unfold l2vpn_pw_ok. repeat (case_match; [done|]).
  apply pure_bind_pure.
  - destruct Haf as [E|E]; unfold pw_transport; rewrite E; by eapply lwp_lift.
  - intros f. apply pure_bind_pure; [done|]. intros s0. repeat case_match; done.
Qed.

Lemma pure_loop_detected p f l s :
  is_Some (lde_nbr_find s p) -> Forall (fun h => af_ok (fnh_af h)) l -> pure (loop_detected p f l) s.
Proof.
  intros Hl. induction 1 as [|h l Hh _ IH]; simpl; [apply pure_ret|].
  destruct f; [apply pure_bind_pure..|done];
    try (by apply pure_address_find); intros []; done.
Qed.
End Pure.

(** ** Messages to the kernel and to neighbours *)
Definition data_ok (s : lde) (fn : fec_node) : Prop :=
  forall i, fn_data fn = Some i -> is_Some (pw_at s i).
(** The pseudowire of a node for a pseudowire FEC is there. *)
Definition pw_live (s : lde) (fn : fec_node) : Prop :=
  data_ok s fn /\ (fec_tag (fn_fec fn) = FEC_TYPE_PWID -> is_Some (fn_data fn)).

Section Senders.
Lemma data_ok_ext s s' fn : ext s s' -> data_ok s fn -> data_ok s' fn.
Proof. intros He H i Hi. apply (ext_pws _ _ He). auto. Qed.
Lemma pw_live_ext s s' fn : ext s s' -> pw_live s fn -> pw_live s' fn.
Proof. intros He [H1 H2]. split; [by eapply data_ok_ext|done]. Qed.

Lemma node_pw_live s fn j h : node_okb s fn -> fn_nexthops fn !! j = Some h -> pw_live s fn.
Proof.
  intros [_ _ Hd Hp _] Hj. split; [exact Hd|]. intros Ht. apply Hp; [done|]. intros E.
  by rewrite E in Hj.
Qed.

Lemma keeps_get {B} (k : lde -> ST lde B) s : keeps (k s) s -> keeps (bind get k) s.
Proof. intros H. by apply lwp_bind, lwp_get. Qed.

Lemma keeps_deref_ln {B} p n (k : lde_nbr -> ST lde B) s :
  lde_nbr_find s p = Some n -> keeps (k n) s -> keeps (bind (deref_ln p) k) s.
Proof. intros E H. by apply lwp_bind, (lwp_deref_ln p n). Qed.

Lemma keeps_deref_fn {B} f n (k : fec_node -> ST lde B) s :
  ft_find s f = Some n -> keeps (k n) s -> keeps (bind (deref_fn f) k) s.
Proof. intros E H. by apply lwp_bind, (lwp_deref_fn f n). Qed.

Lemma keeps_deref_pw {B} i (k : l2vpn_pw -> ST lde B) s :
  is_Some (pw_at s i) -> (forall pw, pw_at s i = Some pw -> keeps (k pw) s) ->
  keeps (bind (deref_pw i) k) s.
Proof. intros Hi H. apply lwp_bind, lwp_deref_pw; [done|]. intros. by apply H. Qed.

Lemma keeps_change_pw fn fnh s : lib_ok s -> data_ok s fn -> is_Some (fn_data fn) ->
  keeps (change_klabel_pw fn fnh) s.
Proof.
  intros H Hd [i Hi]. unfold change_klabel_pw. case_match; [by apply keeps_ret|]. rewrite Hi.
  specialize (Hd i Hi). apply keeps_bind; [by apply keeps_upd_pw|]. intros _ s' [H' He].
  apply (ext_pws _ _ He) in Hd. apply keeps_deref_pw; [done|]. intros. by apply keeps_send.
Qed.

Lemma keeps_delete_pw fn fnh s : lib_ok s -> data_ok s fn -> is_Some (fn_data fn) ->
  keeps (delete_klabel_pw fn fnh) s.
Proof.
  intros H Hd [i Hi]. unfold delete_klabel_pw. rewrite Hi. specialize (Hd i Hi).
  apply keeps_deref_pw; [done|]. intros pw _. case_match; [by apply keeps_ret|].
  apply keeps_bind; [by apply keeps_upd_pw|]. intros _ s' [H' He].
  apply (ext_pws _ _ He) in Hd. apply keeps_deref_pw; [done|]. intros. by apply keeps_send.
Qed.

Lemma keeps_sync_pw af addr i s : lib_ok s -> af_ok af -> is_Some (pw_at s i) ->
  keeps (l2vpn_sync_pw af addr i) s.
Proof.
  intros H Haf Hi. apply keeps_deref_pw; [done|]. intros pw Hpw.
  pose proof (lib_pws s H i pw Hpw) as Hpaf.
  apply pure_bind; [case_match; [by apply pure_addr_eq|done]|]. intros [|]; [|by apply keeps_ret].
  apply keeps_get. destruct (ft_find s (l2vpn_pw_fec pw)) as [fn|] eqn:Ef; [|by apply keeps_ret].
  apply pure_bind; [apply pure_fec_nh_find; by left|]. intros [j|]; [|by apply keeps_ret].
  destruct (fn_nexthops fn !! j) as [h|] eqn:Ej; [|by apply keeps_ret].
  destruct (ft_find_in s _ fn H Ef) as (Hn & _ & Hc). apply fec_tag_equiv in Hc.
  destruct (node_pw_live s fn j h Hn Ej) as [Hd Hs].
  apply pure_bind; [by apply pure_pw_ok|].
  intros [|]; [apply keeps_change_pw|apply keeps_delete_pw]; auto.
Qed.

Lemma keeps_sync_pws af addr s : lib_ok s -> af_ok af -> keeps (l2vpn_sync_pws af addr) s.
Proof.
  intros H Haf. apply keeps_get, keeps_foreach; [done|]. intros i s' Hi [H' He].
  apply keeps_sync_pw; [done..|]. apply (ext_pws _ _ He). pose proof (lib_vpns s H) as Hpl.
  rewrite Forall_forall in Hpl. auto.
Qed.

Lemma keeps_sync_host f s : lib_ok s -> keeps (sync_host_route f) s.
Proof.
  intros H. unfold sync_host_route.
  destruct f; [case_match| case_match|]; try (by apply keeps_ret); apply keeps_sync_pws; try done;
    [by left|by right].
Qed.

Lemma keeps_change_klabel fn fnh s : lib_ok s -> pw_live s fn -> keeps (lde_send_change_klabel fn fnh) s.
Proof.
  intros H [Hd Hp]. unfold lde_send_change_klabel. destruct (fn_fec fn) eqn:E.
  3: { apply keeps_change_pw; auto. }
  all: apply keeps_bind; [by apply keeps_send|]; intros _ s' [H' _]; by apply keeps_sync_host.
Qed.

Lemma keeps_delete_klabel fn fnh s : lib_ok s -> pw_live s fn -> keeps (lde_send_delete_klabel fn fnh) s.
Proof.
  intros H [Hd Hp]. unfold lde_send_delete_klabel. destruct (fn_fec fn) eqn:E.
  3: { apply keeps_delete_pw; auto. }
  all: apply keeps_bind; [by apply keeps_send|]; intros _ s' [H' _]; by apply keeps_sync_host.
Qed.

Lemma pure_sendable ln fn s : data_ok s fn -> pure (sendable_to ln fn) s.
Proof.
  intros Hd. unfold sendable_to. destruct (fn_fec fn); [done..|].
  destruct (fn_data fn) as [i|] eqn:Ei; [|done].
  apply pure_bind_pure; [apply pure_deref_pw; auto|]. done.
Qed.
End Senders.

(** ** Requests, withdraws and addresses of a neighbour *)
Section Records.
Lemma fec_tree_insert {A} (key : A -> fec) x t :
  fec_ok (key x) -> fec_tree key t ->
  match rb_insert key fec_compare x t with Some t' => fec_tree key t' | None => True end.
Proof.
  intros Hx Ht. destruct (rb_insert key fec_compare x t) as [t'|] eqn:E; [|done].
  by apply (rb_insert_ok key fec_ok fec_compare x t t').
Qed.

Lemma fec_tree_remove {A} (key : A -> fec) k t : fec_tree key t -> fec_tree key (rb_remove key fec_compare k t).
Proof. apply rb_remove_ok. Qed.

Lemma fec_tree_update {A} (key : A -> fec) k f t :
  (forall x, key (f x) = key x) -> fec_tree key t -> fec_tree key (rb_update key fec_compare k f t).
Proof. apply rb_update_ok. Qed.

(** Changes that leave the mappings of a neighbour alone. *)
Lemma nbr_ok_recv_req n v : nbr_ok n -> fec_tree lre_fec v -> nbr_ok (set_ln_recv_req n v).
Proof. intros [? Hm Hh ? [? ?] ? ?] Hv. by split. Qed.
Lemma nbr_ok_sent_req n v : nbr_ok n -> fec_tree lre_fec v -> nbr_ok (set_ln_sent_req n v).
Proof. intros [? Hm Hh ? [? ?] ? ?] Hv. by split. Qed.
Lemma nbr_ok_wdraw n v : nbr_ok n -> fec_tree lw_fec v -> nbr_ok (set_ln_sent_wdraw n v).
Proof. intros [? Hm Hh ? [? ?] ? ?] Hv. by split. Qed.
Lemma nbr_ok_addrs n v :
  nbr_ok n -> Forall (fun a => af_ok (fst a)) v -> nbr_ok (set_ln_addr_list n v).
Proof. intros [? Hm Hh ? [? ?] ? ?] Hv. by split. Qed.

Context (p : Z) (Hp : pid_ok p).

Lemma keeps_req_add f sent id s : lib_ok s -> is_Some (lde_nbr_find s p) -> fec_ok f ->
  keeps (lde_req_add p f sent id) s.
Proof.
  intros H Hl Hf. apply keeps_upd_ln; try done.
  - intros n. destruct sent; by case_match.
  - intros n _ Hn. destruct (nbr_req n Hn) as [H1 H2].
    destruct sent.
    + pose proof (fec_tree_insert lre_fec (LdeReq f id) _ Hf H2) as Ht.
      case_match; [by apply nbr_ok_sent_req|done].
    + pose proof (fec_tree_insert lre_fec (LdeReq f id) _ Hf H1) as Ht.
      case_match; [by apply nbr_ok_recv_req|done].
  - intros n b k. destruct sent; case_match; by destruct b.
Qed.

Lemma keeps_req_del f sent s : lib_ok s -> is_Some (lde_nbr_find s p) ->
  keeps (lde_req_del p f sent) s.
Proof.
  intros H Hl. apply keeps_upd_ln; try done.
  - intros n. by destruct sent.
  - intros n _ Hn. destruct (nbr_req n Hn) as [H1 H2].
    destruct sent; [apply nbr_ok_sent_req|apply nbr_ok_recv_req]; try done; by apply fec_tree_remove.
  - intros n b k. by destruct sent, b.
Qed.

Lemma keeps_wdraw_record f label s : lib_ok s -> is_Some (lde_nbr_find s p) -> fec_ok f ->
  keeps (lde_wdraw_record p f label) s.
Proof.
  intros H Hl Hf. destruct Hl as [n0 E0]. apply (keeps_deref_ln p n0); [done|].
  case_match.
  - apply keeps_upd_ln; try done. intros n _ Hn. apply nbr_ok_wdraw; [done|].
    by apply fec_tree_update; [|apply nbr_wdraw].
  - apply keeps_upd_ln; try done.
    + intros n. by case_match.
    + intros n _ Hn.
      pose proof (fec_tree_insert lw_fec (LdeWdraw f label) _ Hf (nbr_wdraw n Hn)) as Ht.
      case_match; [by apply nbr_ok_wdraw|done].
    + intros n b k. case_match; by destruct b.
Qed.

Lemma keeps_wdraw_del f s : lib_ok s -> is_Some (lde_nbr_find s p) -> keeps (lde_wdraw_del p f) s.
Proof.
  intros H Hl. apply keeps_upd_ln; try done.
  intros n _ Hn. apply nbr_ok_wdraw; [done|]. by apply fec_tree_remove, nbr_wdraw.
Qed.

Lemma keeps_address_add af addr s : lib_ok s -> is_Some (lde_nbr_find s p) -> af_ok af ->
  keeps (lde_address_add p af addr) s.
Proof.
  intros H Hl Haf. apply pure_bind; [by apply pure_address_find|]. intros [|]; [by apply keeps_ret|].
  apply keeps_bind; [|intros _ s' [H' _]; by apply keeps_ret].
  apply keeps_upd_ln; try done.
  intros n _ Hn. apply nbr_ok_addrs; [done|]. apply Forall_app. split; [by apply nbr_addrs|].
  by constructor.
Qed.

Lemma lwp_address_del_in l af addr s :
  af_ok af -> Forall (fun a => af_ok (fst a)) l ->
  lwp (address_del_in l af addr) (fun r s' => s' = s /\
    (forall l', r = Some l' -> Forall (fun a => af_ok (fst a)) l')) s.
Proof.
  intros Haf Hl. induction Hl as [|[af' a] l Ha Hl IH]; simpl; [done|].
  apply lwp_bind. eapply lwp_mono; [instantiate (1 := fun _ s' => s' = s); case_match;
    [by apply pure_addr_eq|done]|]. intros e ? ->. destruct e; [apply lwp_ret; split; [done|]; by intros ? [= <-]|].
  apply lwp_bind. eapply lwp_mono; [exact IH|]. intros r s' [-> Hr]. apply lwp_ret.
  split; [done|]. destruct r; intros ? [= <-]; constructor; auto.
Qed.

Lemma keeps_address_del af addr s : lib_ok s -> is_Some (lde_nbr_find s p) -> af_ok af ->
  keeps (lde_address_del p af addr) s.
Proof.
  intros H [n E] Haf. apply (keeps_deref_ln p n); [done|].
  destruct (nbr_find_in s p n H E) as [Hn _].
  apply lwp_bind. eapply lwp_mono; [by apply (lwp_address_del_in _ af addr s Haf), (nbr_addrs n Hn)|].
  intros r s' [-> Hr]. destruct r as [l|]; [|by apply keeps_ret].
  apply keeps_bind; [|intros _ s' [H' _]; by apply keeps_ret].
  apply keeps_upd_ln; try done. intros n' _ Hn'. apply nbr_ok_addrs; auto.
Qed.
End Records.

(** ** Mappings: the tree of the neighbour and the list of the node together *)
Section Maps.
(** One mapping is added ([b]) or removed on both sides. *)
Lemma lib_relink s p f sent (b : bool) g h :
  lib_ok s -> pid_ok p -> fec_ok f ->
  (forall n, fn_fec (g n) = fn_fec n) -> (forall n, ln_peerid (h n) = ln_peerid n) ->
  is_Some (ft_find s f) -> is_Some (lde_nbr_find s p) ->
  (forall n, ft_find s f = Some n -> node_okb s n -> node_okb s (g n)) ->
  (forall n, lde_nbr_find s p = Some n -> nbr_ok n -> nbr_ok (h n)) ->
  (forall n sent' q, q ∈ links sent' (g n) <->
     if bool_decide (sent' = sent /\ q = p) then b = true else q ∈ links sent' n) ->
  (forall n sent' k, lde_nbr_find s p = Some n -> fec_ok k ->
     is_Some (rb_find me_fec fec_compare k (sent_of sent' (h n))) <->
     if bool_decide (sent' = sent /\ fec_compare f k = 0) then b = true
     else is_Some (rb_find me_fec fec_compare k (sent_of sent' n))) ->
  lib_ok (nbrs_upd (ft_upd s f g) p h).
Proof.
  intros H Hp Hf Hg Hh [fn Efn] [ln Eln] Hno Hnb Hl Hm. split.
  - apply rb_update_ok; [done|apply H].
  - apply rb_update_ok; [done|apply H].
  - apply rb_update_forall; [|apply H]. intros n Hin He. apply Hno.
    by apply (rb_find_spec fn_fec fec_ok fec_compare); [apply H|..].
  - apply rb_update_forall; [|apply H]. intros n Hin He. apply Hnb.
    by apply (rb_find_spec ln_peerid pid_ok peerid_compare); [apply H|..].
  - apply H.
  - apply H.
  - intros sent' q k Hq Hk. pose proof (lib_links s H sent' q k Hq Hk) as L.
    unfold linked, mapped in *.
    change (ft_find (nbrs_upd (ft_upd s f g) p h) k) with (ft_find (ft_upd s f g) k).
    change (lde_nbr_find (nbrs_upd (ft_upd s f g) p h) q) with (lde_nbr_find (nbrs_upd s p h) q).
    rewrite ft_find_upd, nbr_find_upd by done.
    destruct (p =? q) eqn:Epq, (fec_compare f k =? 0) eqn:Efk; zbool; subst.
    + assert (ft_find s k = Some fn) as E2.
      { rewrite <- Efn. symmetry. by apply ft_find_equiv. }
      rewrite E2, Eln in *. simpl. split.
      * intros (n & [= <-] & Hi). eexists. split; [done|]. apply Hm; [done..|].
        rewrite Hl in Hi. repeat case_bool_decide; try tauto.
        destruct L as [L _]. destruct L as (? & [= <-] & ?); eauto.
      * intros (n & [= <-] & Hi). eexists. split; [done|]. apply Hl.
        apply Hm in Hi; [|done..]. repeat case_bool_decide; try tauto.
        destruct L as [_ L]. destruct L as (? & [= <-] & ?); eauto.
    + rewrite L, Eln. simpl. split.
      * intros (n & [= <-] & Hi). eexists. split; [done|]. apply Hm; [done..|].
        rewrite bool_decide_eq_false_2 by tauto. done.
      * intros (n & [= <-] & Hi). eexists. split; [done|]. apply Hm in Hi; [|done..].
        rewrite bool_decide_eq_false_2 in Hi by tauto. done.
    + rewrite <- L. assert (ft_find s k = Some fn) as ->.
      { rewrite <- Efn. symmetry. by apply ft_find_equiv. }
      simpl. split.
      * intros (n & [= <-] & Hi). eexists. split; [done|]. rewrite Hl in Hi.
        rewrite bool_decide_eq_false_2 in Hi by naive_solver. done.
      * intros (n & [= <-] & Hi). eexists. split; [done|]. rewrite Hl.
        rewrite bool_decide_eq_false_2 by naive_solver. done.
    + done.
Qed.
End Maps.

Section MapOps.
Lemma links_upstream n v sent :
  links sent (set_fn_upstream n v) = if sent then v else links sent n.
Proof. by destruct sent. Qed.
Lemma links_downstream n v sent :
  links sent (set_fn_downstream n v) = if sent then links sent n else v.
Proof. by destruct sent. Qed.

(** The assignment of [link_map] and [unlink_map] to a LIB node. *)
Definition relink (sent : bool) (upd : list Z -> list Z) (n : fec_node) : fec_node :=
  if sent then set_fn_upstream n (upd (fn_upstream n)) else set_fn_downstream n (upd (fn_downstream n)).

Lemma links_relink sent sent' upd n :
  links sent' (relink sent upd n)
  = if bool_decide (sent' = sent) then upd (links sent' n) else links sent' n.
Proof. by destruct sent, sent'. Qed.

Lemma node_ok_relink npw sent upd n :
  node_ok npw n -> (NoDup (links sent n) -> NoDup (upd (links sent n))) ->
  (Forall pid_ok (links sent n) -> Forall pid_ok (upd (links sent n))) ->
  node_ok npw (relink sent upd n).
Proof.
  intros [Hh Hl Hd Hp Hb] Hu1 Hu2. split.
  - by destruct sent.
  - intros sent'. rewrite links_relink. case_bool_decide as E; [|apply Hl]. subst.
    destruct (Hl sent). auto.
  - by destruct sent.
  - by destruct sent.
  - by destruct sent.
Qed.

Lemma sent_of_set sent sent' n v :
  sent_of sent' (set_sent sent n v) = if bool_decide (sent' = sent) then v else sent_of sent' n.
Proof. by destruct sent, sent'. Qed.

Lemma nbr_ok_set_sent sent n v :
  nbr_ok n -> fec_tree me_fec v -> Forall (fun me => me_home me = HomeLib) v ->
  (sent = false -> Forall (fun me => map_ok (me_map me)) v) -> nbr_ok (set_sent sent n v).
Proof.
  intros [Hi Hm Hh Hr Hq Hw Ha] Hv Hv2 Hv3. split; try (by destruct sent).
  - intros sent'. rewrite sent_of_set. case_bool_decide; [done|apply Hm].
  - intros sent'. rewrite sent_of_set. case_bool_decide; [done|apply Hh].
  - destruct sent; [done|]. by apply Hv3.
Qed.

Lemma ext_relink s p f g h :
  (forall n, fn_fec (g n) = fn_fec n) -> (forall n, ln_peerid (h n) = ln_peerid n) ->
  ext s (nbrs_upd (ft_upd s f g) p h).
Proof.
  intros Hg Hh. split; [|by intros q; apply (rb_find_update_some fn_fec)|done..].
  intros q. by apply (rb_find_update_some ln_peerid).
Qed.

Lemma remove_elem_of (p q : Z) l : q ∈ remove Z.eq_dec p l <-> q ∈ l /\ q <> p.
Proof.
  rewrite !list_elem_of_In. split; [apply in_remove|intros [? ?]; by apply in_in_remove].
Qed.

Lemma remove_NoDup (p : Z) l : NoDup l -> NoDup (remove Z.eq_dec p l).
Proof.
  induction 1 as [|x l Hx Hl IH]; simpl; [constructor|]. case_match; [done|].
  constructor; [|done]. rewrite remove_elem_of. tauto.
Qed.

(** A mapping that is not there yet is recorded. *)
Lemma keeps_map_add p f sent map s :
  lib_ok s -> pid_ok p -> fec_ok f -> is_Some (ft_find s f) ->
  (exists n, lde_nbr_find s p = Some n /\ rb_find me_fec fec_compare f (sent_of sent n) = None) ->
  (sent = false -> map_ok map) ->
  keeps (lde_map_add p f HomeLib sent map) s.
Proof.
  intros H Hp Hf Hl (n & En & Enone) Hmap.
  set (me := LdeMap f map HomeLib).
  destruct (nbr_find_in s p n H En) as [Hn _].
  destruct (rb_insert_none_find me_fec fec_ok fec_compare me (sent_of sent n)
    (nbr_maps n Hn sent) Hf Enone) as (t & Ei & Ht & Hin). subst me.
  apply lwp_bind, lwp_upd_fn; [done|]. apply lwp_upd_ln; [exists n; exact En|].
  change (fun n0 => if sent then set_fn_upstream n0 (p :: fn_upstream n0)
    else set_fn_downstream n0 (p :: fn_downstream n0)) with (relink sent (cons p)).
  split.
  2: { apply ext_relink; [by intros; destruct sent|]. intros. case_match; [by destruct sent|done]. }
  apply (lib_relink s p f sent true); try done.
  - intros. by destruct sent.
  - intros. case_match; [by destruct sent|done].
  - intros fn Efn Hno. apply node_ok_relink; [done| |by constructor].
    intros Hd. constructor; [|done]. intros Hc.
    destruct (proj1 (lib_links s H sent p f Hp Hf)) as (n' & En' & [x Ex]); [by exists fn|]. congruence.
  - intros n0 E0 Hn0. assert (n0 = n) as -> by congruence. rewrite Ei.
    apply nbr_ok_set_sent; [done..| |].
    + apply Forall_forall. intros x Hx. apply Hin in Hx as [-> |Hx]; [done|].
      pose proof (nbr_home n Hn sent) as Hh. rewrite Forall_forall in Hh. auto.
    + intros ->. apply Forall_forall. intros x Hx. apply Hin in Hx as [-> |Hx]; [by apply Hmap|].
      pose proof (nbr_recv n Hn) as Hh. rewrite Forall_forall in Hh. auto.
  - intros n0 sent' q. rewrite links_relink. repeat case_bool_decide; try set_solver; naive_solver.
  - intros n0 sent' k E0 Hk. assert (n0 = n) as -> by congruence. rewrite Ei, sent_of_set.
    case_bool_decide as E1.
    + subst. rewrite (rb_find_insert_if me_fec fec_ok fec_compare (LdeMap f map HomeLib) _ t k (nbr_maps n Hn sent) Hf Hk Enone Ei).
      simpl.
      destruct (fec_compare f k =? 0) eqn:E2; zbool; [rewrite bool_decide_eq_true_2 by done; naive_solver|].
      by rewrite bool_decide_eq_false_2 by tauto.
    + by rewrite bool_decide_eq_false_2 by tauto.
Qed.

(** A recorded mapping is forgotten; afterwards it is gone on both sides. *)
Lemma lwp_map_del p n me sent s :
  lib_ok s -> pid_ok p -> lde_nbr_find s p = Some n -> me ∈ sent_of sent n ->
  lwp (lde_map_del p me sent) (fun _ s' => good s s' /\ exists n', lde_nbr_find s' p = Some n' /\
    sent_of sent n' = rb_remove me_fec fec_compare (me_fec me) (sent_of sent n) /\
    sent_of (negb sent) n' = sent_of (negb sent) n) s.
Proof.
  intros H Hp En Hme. destruct (nbr_find_in s p n H En) as [Hn _].
  pose proof (tree_ok_elem _ _ _ _ me (nbr_maps n Hn sent) Hme) as Hf.
  pose proof (nbr_home n Hn sent) as Hh. rewrite Forall_forall in Hh. specialize (Hh me Hme).
  assert (is_Some (ft_find s (me_fec me))) as Hl.
  { destruct (proj2 (lib_links s H sent p (me_fec me) Hp Hf)) as (fn & E & _); [|eauto].
    exists n. split; [done|]. apply rb_find_some. exists me. split; [done|].
    by apply (cmp_refl (ok := fec_ok)). }
  apply lwp_bind, lwp_upd_ln; [eauto|]. unfold unlink_map. rewrite Hh.
  apply lwp_upd_fn; [done|].
  set (h := fun n0 => set_sent sent n0 _).
  change (fun n0 => if sent then set_fn_upstream n0 (remove Z.eq_dec p (fn_upstream n0))
    else set_fn_downstream n0 (remove Z.eq_dec p (fn_downstream n0)))
    with (relink sent (remove Z.eq_dec p)).
  change (ft_upd (nbrs_upd s p h) (me_fec me) (relink sent (remove Z.eq_dec p)))
    with (nbrs_upd (ft_upd s (me_fec me) (relink sent (remove Z.eq_dec p))) p h).
  assert (forall n0, ln_peerid (h n0) = ln_peerid n0) as Hkey by (intros; by destruct sent).
  split.
  2: { exists (h n). split; [|split; by destruct sent].
       change (lde_nbr_find _ p) with (lde_nbr_find (nbrs_upd s p h) p).
       rewrite nbr_find_upd by done. by rewrite Z.eqb_refl, En. }
  split; [|by apply ext_relink; [intros; destruct sent|]].
  apply (lib_relink s p (me_fec me) sent false); try done.
  - intros. by destruct sent.
  - intros fn Efn Hno. apply node_ok_relink; [done|apply remove_NoDup|].
    rewrite !Forall_forall. intros Hq q Hin. apply remove_elem_of in Hin as [? _]. auto.
  - intros n0 E0 Hn0. apply nbr_ok_set_sent; [done|by apply fec_tree_remove, nbr_maps| |].
    + pose proof (nbr_home n0 Hn0 sent) as Hh0. rewrite !Forall_forall in *. intros x Hx.
      apply rb_remove_in in Hx as [? _]. auto.
    + intros ->. pose proof (nbr_recv n0 Hn0) as Hh0. rewrite !Forall_forall in *. intros x Hx.
      apply rb_remove_in in Hx as [? _]. auto.
  - intros n0 sent' q. rewrite links_relink. repeat case_bool_decide; rewrite ?remove_elem_of;
      naive_solver.
  - intros n0 sent' k E0 Hk. unfold h. rewrite sent_of_set.
    assert (n0 = n) as -> by congruence.
    case_bool_decide as E1.
    + subst. rewrite (rb_find_remove_if me_fec fec_ok fec_compare)
        by (done || apply (nbr_maps n Hn)).
      destruct (fec_compare (me_fec me) k =? 0) eqn:E2; zbool.
      * rewrite bool_decide_eq_true_2 by done. split; [by intros [? ?]|done].
      * by rewrite bool_decide_eq_false_2 by tauto.
    + by rewrite bool_decide_eq_false_2 by tauto.
Qed.
End MapOps.

(** ** Label messages *)
Section LabelMessages.
Context (p : Z) (Hp : pid_ok p).


Lemma keeps_release ofn label s :
  lib_ok s -> is_Some (lde_nbr_find s p) -> (forall fn, ofn = Some fn -> data_ok s fn) ->
  keeps (lde_send_labelrelease p ofn label) s.
Proof.
  intros H Hl Hd. apply pure_bind; [by apply pure_deref_ln|]. intros ln. apply pure_bind.
  { destruct ofn as [fn|]; [|done]. apply pure_bind_pure; [apply pure_sendable; auto|done]. }
  intros [m|]; [|by apply keeps_ret].
  apply keeps_bind; [by apply keeps_send|]. intros _ s' [H' _]. by apply keeps_send.
Qed.

Lemma keeps_withdraw ofn label st s :
  lib_ok s -> is_Some (lde_nbr_find s p) ->
  (forall fn, ofn = Some fn -> data_ok s fn /\ fec_ok (fn_fec fn)) ->
  keeps (lde_send_labelwithdraw p ofn label st) s.
Proof.
  intros H Hl Hd. apply pure_bind; [by apply pure_deref_ln|]. intros ln. apply pure_bind.
  { destruct ofn as [fn|]; [|done]. destruct (Hd fn eq_refl).
    apply pure_bind_pure; [by apply pure_sendable|done]. }
  intros [m|]; [|by apply keeps_ret].
  apply keeps_bind; [by apply keeps_send|]. intros _ s1 [H1 E1].
  apply keeps_bind; [by apply keeps_send|]. intros _ s2 [H2 E2].
  apply (ext_nbr _ _ E1), (ext_nbr _ _ E2) in Hl.
  destruct ofn as [fn|]; [destruct (Hd fn eq_refl); by apply keeps_wdraw_record|].
  apply keeps_get, keeps_foreach; [done|]. intros fn s' Hin [H' E'].
  apply keeps_wdraw_record; [done|done|by apply (ext_nbr _ _ E')|].
  by apply (tree_ok_elem _ _ _ _ fn (lib_ft _ H2)).
Qed.

Lemma keeps_notification code id type s : lib_ok s -> keeps (lde_send_notification p code id type) s.
Proof. apply keeps_send. Qed.

(** The maps of the neighbour get new values under the same FECs. *)
Lemma keeps_upd_maps sent f g s :
  lib_ok s -> is_Some (lde_nbr_find s p) ->
  (forall me, me_fec (g me) = me_fec me /\ me_home (g me) = me_home me) ->
  (sent = false -> forall me, map_ok (me_map (g me))) ->
  keeps (upd_ln p (fun n => set_sent sent n (rb_update me_fec fec_compare f g (sent_of sent n)))) s.
Proof.
  intros H Hl Hg Hm. apply keeps_upd_ln; try done.
  - intros n. by destruct sent.
  - intros n _ Hn. apply nbr_ok_set_sent; [done| | |].
    + apply fec_tree_update; [intros; apply Hg|by apply nbr_maps].
    + apply rb_update_forall; [|by apply nbr_home]. intros x _ _ Hx. by rewrite (proj2 (Hg x)).
    + intros ->. apply rb_update_forall; [|by apply nbr_recv]. intros x _ _ _. by apply Hm.
  - intros n sent' k. rewrite sent_of_set. case_bool_decide; [|done]. subst.
    apply rb_find_update_some. intros; apply Hg.
Qed.

Lemma keeps_labelmapping fn single s :
  lib_ok s -> is_Some (lde_nbr_find s p) -> fec_ok (fn_fec fn) -> is_Some (ft_find s (fn_fec fn)) ->
  data_ok s fn -> keeps (lde_send_labelmapping p fn HomeLib single) s.
Proof.
  intros H [ln En] Hf Hl Hd. apply (keeps_deref_ln p ln); [done|].
  apply pure_bind; [by apply pure_sendable|]. intros [opw|]; [|by apply keeps_ret].
  apply lwp_bind.
  apply (lwp_mono _ (fun _ s' => good s s' /\ exists n, lde_nbr_find s' p = Some n /\
    ln_sent_map n = ln_sent_map ln)).
  { case_match; [|apply lwp_ret; split; [by apply good_refl|eauto]].
    apply lwp_bind.
    destruct (lwp_ok _ _ _ (keeps_req_del p Hp (fn_fec fn) false s H (ex_intro _ ln En)))
      as ([] & s1 & Ec & Hg).
    unfold lwp. rewrite Ec. split; [done|].
    unfold lde_req_del, upd_ln, bind, deref_ln in Ec. rewrite En in Ec. injection Ec as <-.
    eexists. split; [|].
    - change (lde_nbr_find _ p) with (lde_nbr_find (nbrs_upd s p (fun n => set_ln_recv_req n
        (rb_remove lre_fec fec_compare (fn_fec fn) (ln_recv_req n)))) p).
      rewrite nbr_find_upd, Z.eqb_refl, En by done. done.
    - done. }
  intros map s1 [[H1 E1] (n & En1 & Em)].
  assert (forall s2, good s1 s2 -> l_nbrs s2 = l_nbrs s1 ->
    keeps (match rb_find me_fec fec_compare (fn_fec fn) (ln_sent_map ln) with
      | Some _ => upd_ln p (fun n => set_ln_sent_map n (rb_update me_fec fec_compare (fn_fec fn)
          (fun me => set_me_map me map) (ln_sent_map n)))
      | None => lde_map_add p (fn_fec fn) HomeLib true map
      end) s2) as Hend.
  { intros s2 [H2 E2] Enb. assert (lde_nbr_find s2 p = Some n) as En2.
    { rewrite <- En1. unfold lde_nbr_find. by rewrite Enb. }
    case_match eqn:Ef.
    - apply (keeps_upd_maps true (fn_fec fn) (fun me => set_me_map me map)); eauto; done.
    - apply keeps_map_add; try done.
      + by apply (ext_ft _ _ E2), (ext_ft _ _ E1).
      + exists n. split; [done|]. simpl. by rewrite Em. }
  assert (forall l, good s1 (set_l_out s1 l)) as Hout by (intros; by apply good_frame).
  eapply lwp_mono; [|intros ? s' Hg; exact (good_trans _ _ _ (conj H1 E1) Hg)].
  apply lwp_bind, lwp_modify, lwp_bind. destruct single; [apply lwp_modify|apply lwp_ret].
  - eapply lwp_mono; [apply Hend; [apply Hout|done]|]. intros ? s' Hg. eapply good_trans; [apply Hout|exact Hg].
  - eapply lwp_mono; [apply Hend; [apply Hout|done]|]. intros ? s' Hg. eapply good_trans; [apply Hout|exact Hg].
Qed.
End LabelMessages.
