(* ===== verification/LdeInv.v ===== *)
(** * The label procedures keep the label information base intact

    Each procedure of [LdeLib] returns in every state that satisfies [lib_ok]
    and keeps it.  [proc] collects the procedures with what their callers
    guarantee, [reach] the states they reach from an empty engine. *)
From stdpp Require Import prelude strings list sorting.
From Stdlib Require Import ZArith Lia.
From S2P Require Import Prelude Util Wire Ipc Fec Lde LdeLib LdeSafe.

(** ** Nodes and next hops *)
Section Nodes.
(** [fec_find] followed by [fec_add]. *)
Lemma lwp_find_or_add f s :
  lib_ok s -> fec_ok f ->
  lwp (match ft_find s f with None => fec_add f | Some _ => ret tt end)
    (fun _ s' => good s s' /\ is_Some (ft_find s' f) /\ l_nbrs s' = l_nbrs s) s.
Proof.
  intros H Hf. destruct (ft_find s f) as [n|] eqn:E.
  { apply lwp_ret. split; [by apply good_refl|]. split; [by rewrite E|done]. }
  apply lwp_modify. set (x := fec_node_new f NO_LABEL).
  destruct (rb_insert_none_find fn_fec fec_ok fec_compare x (l_ft s) (lib_ft s H) Hf E)
    as (t & Ei & Ht & Hin). rewrite Ei.
  pose proof (fun k Hk => rb_find_insert_if fn_fec fec_ok fec_compare x (l_ft s) t k
    (lib_ft s H) Hf Hk E Ei) as Hk.
  assert (forall k, is_Some (ft_find s k) -> is_Some (ft_find (set_l_ft s t) k)) as Hext.
  { intros k Hs. apply rb_find_some in Hs as (y & Hy & He). apply rb_find_some.
    exists y. split; [apply Hin; by right|done]. }
  split; [|split; [|done]].
  2: { apply rb_find_some. exists x. split; [apply Hin; by left|].
       by apply (cmp_refl (ok := fec_ok)). }
  split; [|by split].
  split; try apply H; [done| |].
  - apply Forall_forall. intros y Hy. apply Hin in Hy as [-> |Hy].
    + split; try done. intros sent. by destruct sent; split; constructor.
    + pose proof (lib_nodes s H) as Hn. rewrite Forall_forall in Hn. by apply Hn.
  - intros sent p k Hp Hok. etransitivity; [|apply (lib_links s H sent p k Hp Hok)].
    unfold linked, ft_find in *. cbn [l_ft set_l_ft]. rewrite Hk by done. cbn [fn_fec x fec_node_new].
    destruct (fec_compare f k =? 0) eqn:Efk; [|done]. zbool. split.
    + intros (n & [= <-] & Hc). destruct sent; by apply elem_of_nil in Hc.
    + intros (n & En & _). change (ft_find s k = Some n) in En.
      rewrite <- (ft_find_equiv s f k) in En by done. unfold ft_find in En. congruence.
Qed.

Context (f : fec) (Hf : fec_ok f).

Lemma keeps_nh_label j v s : lib_ok s -> is_Some (ft_find s f) -> keeps (fec_nh_label f j v) s.
Proof.
  intros H Hl. apply keeps_upd_fn; try done. intros n _ [Hh Hk Hd Hp Hb]. split; try done.
  - cbn [fn_nexthops set_fn_nexthops]. apply Forall_alter; [done|]. intros h _ Hh'. exact Hh'.
  - cbn [fn_nexthops set_fn_nexthops fn_fec fn_data]. intros Ht Hne. apply Hp; [done|].
    intros E. apply Hne. by rewrite E.
Qed.

Lemma keeps_nh_del j s : lib_ok s -> is_Some (ft_find s f) -> keeps (fec_nh_del f j) s.
Proof.
  intros H Hl. apply keeps_upd_fn; try done. intros n _ [Hh Hk Hd Hp Hb]. split; try done.
  - cbn [fn_nexthops set_fn_nexthops]. apply Forall_app. split; [by apply Forall_take|by apply Forall_drop].
  - cbn [fn_nexthops set_fn_nexthops fn_fec fn_data]. intros Ht Hne. apply Hp; [done|].
    intros E. apply Hne. rewrite E. by destruct j.
Qed.

Lemma keeps_uninstall j s : lib_ok s -> is_Some (ft_find s f) -> keeps (uninstall_nh f j) s.
Proof.
  intros H [n E]. apply (keeps_deref_fn f n); [done|].
  destruct (fn_nexthops n !! j) as [h|] eqn:Ej; [|by apply keeps_ret].
  destruct (ft_find_in s f n H E) as (Hn & _ & _).
  apply keeps_bind; [by apply keeps_delete_klabel; [|eapply node_pw_live]|].
  intros _ s' [H' E']. apply keeps_nh_label; [done|]. apply (ext_ft _ _ E'). eauto.
Qed.
End Nodes.

Section Procedures.
Context (p : Z) (Hp : pid_ok p).
Implicit Types s : lde.

Lemma node_nh_af s f n j h :
  lib_ok s -> ft_find s f = Some n -> fn_nexthops n !! j = Some h -> af_ok (fnh_af h).
Proof.
  intros H E Ej. destruct (ft_find_in s f n H E) as (Hn & _).
  exact (Forall_lookup_1 _ _ _ _ (node_nh _ _ Hn) Ej).
Qed.

(** The common shape of the loops over next hops: those of [p] are uninstalled. *)
Lemma keeps_uninstall_owned f j s :
  lib_ok s -> is_Some (lde_nbr_find s p) -> fec_ok f -> is_Some (ft_find s f) ->
  keeps (do fn <- deref_fn f;
    match fn_nexthops fn !! j with
    | None => ret tt
    | Some h => do own <- nh_of_nbr p h; if own : bool then uninstall_nh f j else ret tt
    end) s.
Proof.
  intros H Hl Hf [n E]. apply (keeps_deref_fn f n); [done|].
  destruct (fn_nexthops n !! j) as [h|] eqn:Ej; [|by apply keeps_ret].
  apply pure_bind; [apply pure_address_find; [by eapply node_nh_af|done]|].
  intros [|]; [|by apply keeps_ret]. apply keeps_uninstall; eauto.
Qed.

Lemma keeps_release_old f old s :
  lib_ok s -> is_Some (lde_nbr_find s p) -> fec_ok f -> is_Some (ft_find s f) ->
  keeps (release_old_label p f old) s.
Proof.
  intros H Hl Hf [n E]. apply (keeps_deref_fn f n); [done|].
  destruct (ft_find_in s f n H E) as ([_ _ Hd _ _] & _ & _).
  apply keeps_bind; [apply keeps_release; [done..|]; by intros ? [= <-]|].
  intros _ s1 [H1 E1]. apply keeps_foreach; [done|]. intros j s2 _ [H2 E2].
  apply keeps_uninstall_owned; [done| |done|].
  - by apply (ext_nbr _ _ E2), (ext_nbr _ _ E1).
  - apply (ext_ft _ _ E2), (ext_ft _ _ E1). eauto.
Qed.

Lemma keeps_withdraw_nh f j s :
  lib_ok s -> is_Some (lde_nbr_find s p) -> fec_ok f -> is_Some (ft_find s f) ->
  keeps (withdraw_nh p f j) s.
Proof.
  intros H Hl Hf Hl2. destruct f as [| |t i l]; [by apply keeps_uninstall_owned..|].
  destruct Hl2 as [n E]. apply (keeps_deref_fn _ n); [done|].
  destruct (fn_nexthops n !! j) as [h|] eqn:Ej; [|by apply keeps_ret].
  destruct (fn_data n); [|by apply keeps_ret]. apply keeps_uninstall; eauto.
Qed.

(** The assignment leaves a node that can be announced. *)
Lemma lwp_nh_label f j v n s :
  lib_ok s -> fec_ok f -> ft_find s f = Some n -> pw_live s n ->
  lwp (fec_nh_label f j v) (fun _ s' => good s s' /\ exists n', ft_find s' f = Some n' /\ pw_live s' n') s.
Proof.
  intros H Hf E Hw.
  destruct (lwp_ok _ _ _ (keeps_nh_label f Hf j v s H (ex_intro _ n E))) as (u & s2 & Ec & Hg).
  unfold lwp. rewrite Ec. split; [done|].
  unfold fec_nh_label, upd_fn, bind, deref_fn in Ec. rewrite E in Ec. injection Ec as _ <-.
  set (g := fun n0 => set_fn_nexthops n0 _) in *. change (set_l_ft s _) with (ft_upd s f g) in *.
  exists (g n). split.
  - rewrite ft_find_upd, (cmp_refl (ok := fec_ok)), E by done. done.
  - apply (pw_live_ext s); [apply Hg|]. exact Hw.
Qed.

Lemma lwp_upd_pw i g s :
  lib_ok s -> is_Some (pw_at s i) -> (forall pw, pw_af (g pw) = pw_af pw) ->
  lwp (upd_pw i g) (fun _ s' => good s s' /\ l_ft s' = l_ft s /\ l_nbrs s' = l_nbrs s) s.
Proof.
  intros H Hi Hg. destruct (lwp_ok _ _ _ (keeps_upd_pw i g s H Hi Hg)) as (u & s2 & Ec & Hgd).
  unfold lwp. rewrite Ec. split; [done|]. unfold upd_pw, bind, deref_pw in Ec.
  destruct Hi as [pw Epw]. rewrite Epw in Ec. by injection Ec as _ <-.
Qed.

Lemma lwp_good {A} (c : ST lde A) s s1 : good s s1 -> keeps c s1 -> lwp c (fun _ => good s) s1.
Proof.
  intros Hg Hc. eapply lwp_mono; [exact Hc|]. intros ? s2 Hg2. exact (good_trans _ _ _ Hg Hg2).
Qed.

Lemma keeps_install f map j s :
  lib_ok s -> is_Some (lde_nbr_find s p) -> fec_ok f -> is_Some (ft_find s f) ->
  keeps (install_nh p f map j) s.
Proof.
  intros H Hl Hf [n E]. apply (keeps_deref_fn f n); [done|].
  destruct (fn_nexthops n !! j) as [h|] eqn:Ej; [|by apply keeps_ret].
  destruct (ft_find_in s f n H E) as (Hn & _ & Hc).
  pose proof (node_pw_live s n j h Hn Ej) as Hw.
  assert (keeps (do own <- nh_of_nbr p h;
    if negb (own : bool) then ret tt
    else fec_nh_label f j (m_label map) ;;;
         do fn <- deref_fn f; lde_send_change_klabel fn (set_fnh_label h (m_label map))) s) as Hip.
  { apply pure_bind; [apply pure_address_find; [by eapply node_nh_af|done]|].
    intros [|]; [|by apply keeps_ret]. apply lwp_bind.
    eapply lwp_mono; [by apply (lwp_nh_label f j _ n)|]. intros _ s1 [Hg (n' & E' & Hw')].
    apply lwp_good; [done|]. apply (keeps_deref_fn f n'); [done|].
    by apply keeps_change_klabel; [apply Hg|]. }
  destruct f as [? ? ?|? ?|? ? ?] eqn:Ef; [exact Hip..|]. clear Hip.
  destruct (fn_data n) as [i|] eqn:Ed; [|by apply keeps_ret].
  pose proof (proj1 Hw i Ed) as Hi.
  apply lwp_bind. eapply lwp_mono; [by apply lwp_upd_pw|]. intros _ s1 (Hg1 & Eft & _).
  apply lwp_good; [done|].
  assert (ft_find s1 (FecPwid type pwid lsr_id) = Some n) as E1 by (unfold ft_find; by rewrite Eft).
  apply lwp_bind. eapply lwp_mono.
  { apply (lwp_nh_label _ _ _ n); [apply Hg1|done|done|]. by eapply pw_live_ext; [apply Hg1|]. }
  intros _ s2 [Hg2 (n' & E' & Hw')]. apply lwp_good; [done|].
  apply keeps_deref_pw.
  { by apply (ext_pws _ _ (proj2 Hg2)), (ext_pws _ _ (proj2 Hg1)). }
  intros pw Hpw. apply pure_bind.
  { apply pure_pw_ok. exact (lib_pws _ (proj1 Hg2) _ _ Hpw). }
  intros [|]; [|apply keeps_ret, Hg2]. apply (keeps_deref_fn _ n'); [done|].
  by apply keeps_change_klabel; [apply Hg2|].
Qed.

Lemma keeps_record f map s :
  lib_ok s -> is_Some (lde_nbr_find s p) -> fec_ok f -> is_Some (ft_find s f) -> map_ok map ->
  keeps (record_recv_map p f map) s.
Proof.
  intros H [n E] Hf Hl Hm. apply (keeps_deref_ln p n); [done|].
  destruct (rb_find me_fec fec_compare f (ln_recv_map n)) as [me|] eqn:Ef.
  - apply (keeps_upd_maps p Hp false f (fun me => set_me_map me map)); [done|eauto|done|done].
  - apply keeps_map_add; try done. eauto.
Qed.

Lemma keeps_negotiate fn map s :
  lib_ok s -> is_Some (lde_nbr_find s p) -> fec_ok (fn_fec fn) -> is_Some (ft_find s (fn_fec fn)) ->
  data_ok s fn -> keeps (l2vpn_pw_negotiate p fn map) s.
Proof.
  intros H [ln En] Hf Hl Hd. unfold l2vpn_pw_negotiate.
  destruct (fn_data fn) as [i|] eqn:Ei; [|by apply keeps_ret]. pose proof (Hd i Ei) as Hi.
  apply (keeps_deref_ln p ln); [done|]. apply keeps_deref_pw; [done|]. intros pw _.
  assert (forall flags s', good s s' -> keeps (upd_pw i (fun pw => set_pw_flags pw (flags pw))) s') as Hup.
  { intros fl s' [H' E']. apply keeps_upd_pw; [done| |done]. by apply (ext_pws _ _ E'). }
  apply keeps_bind.
  { destruct (rb_find me_fec fec_compare (fn_fec fn) (ln_sent_map ln)).
    - case_match; [by apply keeps_ret|]. case_match; [|by apply keeps_ret].
      apply keeps_bind; [apply keeps_withdraw; [done|done|by eexists|]; by intros ? [= <-]|].
      intros _ s1 Hg1. apply keeps_bind; [by apply Hup|]. intros _ s2 Hg2.
      pose proof (good_trans _ _ _ Hg1 Hg2) as [H2 E2].
      apply keeps_bind; [|intros _ s3 [H3 _]; by apply keeps_ret].
      apply keeps_labelmapping; try done.
      + apply (ext_nbr _ _ E2). eauto.
      + by apply (ext_ft _ _ E2).
      + by eapply data_ok_ext.
    - case_match; [case_match|]; try (by apply keeps_ret);
        (apply keeps_bind; [apply Hup; by apply good_refl|]; intros _ s1 [Hk1 _]; by apply keeps_ret). }
  intros ign s1 Hg1. destruct ign; [apply keeps_ret, Hg1|].
  destruct (ext_nbr _ _ (proj2 Hg1) p) as [ln1 En1]; [eauto|].
  apply (keeps_deref_ln p ln1); [done|].
  apply keeps_bind; [|intros _ s2 [H2 _]; by apply keeps_ret].
  case_match; [apply keeps_ret, Hg1|]. case_match; [by apply Hup|apply keeps_ret, Hg1].
Qed.

Lemma map2fec_ok m id : map_ok m -> is_u 32 id -> exists f, lde_map2fec m id = Ok f /\ fec_ok f.
Proof.
  intros [Hx Hw] Hid. unfold lde_map2fec. destruct (m_type m =? MAP_TYPE_PREFIX) eqn:E1; zbool.
  - destruct (Hx E1) as (Haf & Hlen & Ha).
    destruct Haf as [-> | ->]; simpl; eexists; (split; [done|]); simpl.
    + split; [done|]. split; [by apply v4_bound|]. by unfold is_u.
    + split; [by rewrite v6_id|done].
  - destruct (m_type m =? MAP_TYPE_PWID) eqn:E2; zbool; eexists; (split; [done|]); simpl.
    + destruct (Hw E2). done.
    + by unfold is_u.
Qed.

(** [lde_map2fec(map, ln->id, &fec)] behind a look-up of the neighbour. *)
Lemma keeps_map2fec {B} m (k : lde_nbr -> fec -> ST lde B) s :
  lib_ok s -> is_Some (lde_nbr_find s p) -> map_ok m ->
  (forall n f, lde_nbr_find s p = Some n -> lde_map2fec m (ln_id n) = Ok f -> fec_ok f -> keeps (k n f) s) ->
  keeps (do ln <- deref_ln p; do f <- lift (lde_map2fec m (ln_id ln)); k ln f) s.
Proof.
  intros H [n E] Hm Hk. apply (keeps_deref_ln p n); [done|].
  destruct (nbr_find_in s p n H E) as [Hn _].
  destruct (map2fec_ok m (ln_id n) Hm (nbr_id n Hn)) as (f & Ef & Hf).
  apply lwp_bind. eapply lwp_lift; [done|]. by apply Hk.
Qed.

Lemma keeps_check_mapping map s :
  lib_ok s -> is_Some (lde_nbr_find s p) -> map_ok map -> keeps (lde_check_mapping map p) s.
Proof.
  intros H Hl Hm. apply keeps_map2fec; [done..|]. intros ln f En _ Hf. apply keeps_get.
  apply lwp_bind. eapply lwp_mono; [by apply lwp_find_or_add|].
  intros _ s1 (Hg1 & [fn Efn] & Enb). apply lwp_good; [done|].
  destruct (ft_find_in s1 f fn (proj1 Hg1) Efn) as ([_ _ Hd _ _] & Hok & Hc).
  assert (forall s', good s1 s' -> lib_ok s' /\ is_Some (lde_nbr_find s' p) /\ is_Some (ft_find s' f))
    as Hlive.
  { intros s' [H' E']. split; [done|]. split.
    - apply (ext_nbr _ _ E'), (ext_nbr _ _ (proj2 Hg1)). done.
    - apply (ext_ft _ _ E'). eauto. }
  assert (forall s', good s1 s' -> is_Some (ft_find s' (fn_fec fn))) as Hlive2.
  { intros s' [H' E']. apply (ext_ft _ _ E'). exists fn. by apply (ft_find_own s1 f); [apply Hg1|..]. }
  apply (keeps_deref_fn f fn); [done|]. pose proof (good_refl s1 (proj1 Hg1)) as Hg0.
  apply keeps_bind.
  { destruct (Hlive s1 Hg0) as (? & ? & ?).
    case_match; [by apply keeps_req_del|by apply keeps_ret]. }
  intros _ s2 Hg2. destruct (Hlive s2 Hg2) as (H2 & Hl2 & Hf2). apply keeps_bind.
  { case_match; [|by apply keeps_ret]. apply keeps_negotiate; auto.
    eapply data_ok_ext; [apply Hg2|]. exact Hd. }
  intros ign s3 Hg3. pose proof (good_trans _ _ _ Hg2 Hg3) as Hg13.
  destruct (Hlive s3 Hg13) as (H3 & [ln3 En3] & Hf3).
  destruct ign; [by apply keeps_ret|]. apply (keeps_deref_ln p ln3); [done|].
  apply keeps_bind.
  { repeat case_match; try (by apply keeps_ret). apply keeps_release_old; eauto. }
  intros _ s4 Hg4. pose proof (good_trans _ _ _ Hg13 Hg4) as Hg14.
  destruct (Hlive s4 Hg14) as (H4 & Hl4 & [fn4 Ef4]). apply (keeps_deref_fn f fn4); [done|].
  destruct (ft_find_in s4 f fn4 H4 Ef4) as (_ & Hok4 & Hc4).
  apply keeps_bind.
  { apply keeps_foreach; [done|]. intros j s5 _ Hg5.
    destruct (Hlive s5 (good_trans _ _ _ Hg14 Hg5)) as (? & ? & ?). by apply keeps_install. }
  intros _ s5 Hg5. destruct (Hlive s5 (good_trans _ _ _ Hg14 Hg5)) as (H5 & Hl5 & [fn5 Ef5]).
  apply keeps_record; try done. exists fn5.
  rewrite <- Ef5. symmetry. by apply ft_find_equiv.
Qed.

(** Every node of the LIB can be announced to [p]. *)
Lemma node_announce s s' fn :
  lib_ok s -> fn ∈ l_ft s -> good s s' ->
  fec_ok (fn_fec fn) /\ is_Some (ft_find s' (fn_fec fn)) /\ data_ok s' fn.
Proof.
  intros H Hin [H' E']. pose proof (ft_find_self s fn H Hin) as Ef.
  destruct (ft_find_in s _ fn H Ef) as ([_ _ Hd _ _] & Hf & _). split; [done|]. split.
  - apply (ext_ft _ _ E'). eauto.
  - eapply data_ok_ext; [done|]. exact Hd.
Qed.

Lemma keeps_snap s : lib_ok s -> is_Some (lde_nbr_find s p) -> keeps (fec_snap p) s.
Proof.
  intros H Hl. apply keeps_get, keeps_bind; [|intros _ s' [H' _]; by apply keeps_send].
  apply keeps_foreach; [done|]. intros fn s' Hin Hg. destruct (node_announce s s' fn H Hin Hg) as (?&?&?).
  destruct Hg as [H' E']. case_match; [by apply keeps_ret|].
  apply keeps_labelmapping; try done. by apply (ext_nbr _ _ E').
Qed.

Lemma keeps_check_request map s :
  lib_ok s -> is_Some (lde_nbr_find s p) -> map_ok map -> keeps (lde_check_request map p) s.
Proof.
  intros H Hl Hm. apply keeps_map2fec; [done..|]. intros ln f En _ Hf. apply keeps_get.
  destruct (ft_find s f) as [fn|] eqn:Ef; [|by apply keeps_notification].
  destruct (ft_find_in s f fn H Ef) as ([Hnh _ Hd _ _] & Hok & _).
  destruct (fn_nexthops fn) as [|h l] eqn:Enh; [by apply keeps_notification|].
  apply pure_bind; [by apply pure_loop_detected|]. intros [|]; [by apply keeps_notification|].
  case_match; [by apply keeps_ret|].
  apply keeps_bind; [by apply keeps_req_add|]. intros _ s1 [H1 E1].
  apply keeps_labelmapping; try done.
  - by apply (ext_nbr _ _ E1).
  - apply (ext_ft _ _ E1). exists fn. by apply (ft_find_own s f).
  - eapply data_ok_ext; [done|]. exact Hd.
Qed.

Lemma keeps_map_del sent me s :
  lib_ok s -> (exists n, lde_nbr_find s p = Some n /\ me ∈ sent_of sent n) ->
  keeps (lde_map_del p me sent) s.
Proof.
  intros H (n & En & Hin). eapply lwp_mono; [by apply (lwp_map_del p n)|]. by intros ? s' [? _].
Qed.

Lemma keeps_release_fec map f s :
  lib_ok s -> is_Some (lde_nbr_find s p) -> keeps (release_fec map p f) s.
Proof.
  intros H [n En]. apply (keeps_deref_ln p n); [done|]. apply lwp_bind.
  apply (lwp_mono _ (fun _ s' => good s s' /\ exists n', lde_nbr_find s' p = Some n' /\
    ln_sent_map n' = ln_sent_map n)).
  { assert (lwp (ret tt) (fun _ s' => good s s' /\ exists n', lde_nbr_find s' p = Some n' /\
      ln_sent_map n' = ln_sent_map n) s) as Hr by (apply lwp_ret; split; [by apply good_refl|eauto]).
    repeat case_match; try exact Hr.
    destruct (lwp_ok _ _ _ (keeps_wdraw_del p Hp f s H (ex_intro _ n En))) as ([] & s1 & Ec & Hg).
    unfold lwp. rewrite Ec. split; [done|].
    unfold lde_wdraw_del, upd_ln, bind, deref_ln in Ec. rewrite En in Ec. injection Ec as <-.
    set (g := fun n0 => set_ln_sent_wdraw n0 _). change (set_l_nbrs s _) with (nbrs_upd s p g).
    exists (g n). rewrite nbr_find_upd, Z.eqb_refl, En by done. done. }
  intros _ s1 [Hg (n1 & En1 & Em)]. apply lwp_good; [done|].
  destruct (rb_find me_fec fec_compare f (ln_sent_map n)) as [me|] eqn:Ef; [|apply keeps_ret, Hg].
  case_match; [|apply keeps_ret, Hg]. apply keeps_map_del; [apply Hg|].
  apply rb_find_in in Ef as [Hin _]. exists n1. split; [done|]. simpl. by rewrite Em.
Qed.

Lemma keeps_check_release map s :
  lib_ok s -> is_Some (lde_nbr_find s p) -> map_ok map -> keeps (lde_check_release map p) s.
Proof.
  intros H Hl Hm. unfold lde_check_release. case_match; [by apply keeps_ret|].
  apply keeps_map2fec; [done..|]. intros ln f En _ Hf. apply keeps_get.
  case_match; [by apply keeps_release_fec|by apply keeps_ret].
Qed.

Lemma keeps_check_release_wcard map s :
  lib_ok s -> is_Some (lde_nbr_find s p) -> keeps (lde_check_release_wcard map p) s.
Proof.
  intros H Hl. apply keeps_get, keeps_foreach; [done|]. intros fn s' _ [H' E'].
  apply keeps_release_fec; [done|]. by apply (ext_nbr _ _ E').
Qed.

Lemma keeps_forget map f s :
  lib_ok s -> is_Some (lde_nbr_find s p) -> keeps (forget_recv_map map p f) s.
Proof.
  intros H [n En]. apply (keeps_deref_ln p n); [done|].
  destruct (rb_find me_fec fec_compare f (ln_recv_map n)) as [me|] eqn:Ef; [|by apply keeps_ret].
  case_match; [|by apply keeps_ret]. apply keeps_map_del; [done|].
  apply rb_find_in in Ef as [Hin _]. by exists n.
Qed.

Lemma keeps_check_withdraw map s :
  lib_ok s -> is_Some (lde_nbr_find s p) -> map_ok map -> keeps (lde_check_withdraw map p) s.
Proof.
  intros H Hl Hm. unfold lde_check_withdraw. case_match; [by apply keeps_ret|].
  apply keeps_map2fec; [done..|]. intros ln f En _ Hf. apply keeps_get.
  apply lwp_bind. eapply lwp_mono; [by apply lwp_find_or_add|].
  intros _ s1 (Hg1 & [fn Efn] & Enb). apply lwp_good; [done|]. destruct Hg1 as [H1 E1].
  apply (ext_nbr _ _ E1) in Hl. apply (keeps_deref_fn f fn); [done|]. apply keeps_bind.
  { apply keeps_foreach; [done|]. intros j s2 _ [H2 E2]. apply keeps_withdraw_nh; try done.
    - by apply (ext_nbr _ _ E2).
    - apply (ext_ft _ _ E2). eauto. }
  intros _ s2 [H2 E2]. apply (ext_nbr _ _ E2) in Hl.
  destruct (ext_ft _ _ E2 f) as [fn2 Ef2]; [eauto|]. apply (keeps_deref_fn f fn2); [done|].
  destruct (ft_find_in s2 f fn2 H2 Ef2) as ([_ _ Hd _ _] & _ & _).
  apply keeps_bind; [apply keeps_release; [done..|]; by intros ? [= <-]|].
  intros _ s3 [H3 E3]. apply keeps_forget; [done|]. by apply (ext_nbr _ _ E3).
Qed.

Lemma keeps_check_withdraw_wcard map s :
  lib_ok s -> is_Some (lde_nbr_find s p) -> keeps (lde_check_withdraw_wcard map p) s.
Proof.
  intros H Hl. apply keeps_bind; [by apply keeps_release|]. intros _ s1 [H1 E1].
  apply keeps_get, keeps_foreach; [done|]. intros fn s2 _ [H2 E2]. apply keeps_forget; [done|].
  by apply (ext_nbr _ _ E2), (ext_nbr _ _ E1).
Qed.

Lemma keeps_recv_pw_status nm s :
  lib_ok s -> is_Some (lde_nbr_find s p) -> map_ok (nm_fec nm) -> keeps (l2vpn_recv_pw_status p nm) s.
Proof.
  intros H Hl Hm. unfold l2vpn_recv_pw_status. case_match; [by apply keeps_ret|].
  apply keeps_map2fec; [done..|]. intros ln f En _ Hf. apply keeps_get.
  destruct (ft_find s f) as [fn|] eqn:Ef; [|by apply keeps_ret].
  destruct (ft_find_in s f fn H Ef) as (Hn & _ & _).
  destruct (fn_data fn) as [i|] eqn:Ei; [|by apply keeps_ret].
  pose proof (node_data _ _ Hn i Ei) as Hi.
  apply pure_bind; [apply pure_fec_nh_find; by left|]. intros [j|]; [|by apply keeps_ret].
  apply keeps_deref_pw; [done|]. intros pw Hpw. case_match; [by apply keeps_ret|].
  apply keeps_bind; [by apply keeps_upd_pw|]. intros _ s1 [Hk1 E1].
  apply keeps_deref_pw; [by apply (ext_pws _ _ E1)|]. intros pw1 Hpw1.
  destruct (fn_nexthops fn !! j) as [h|] eqn:Ej; [|by apply keeps_ret].
  pose proof (pw_live_ext _ _ _ E1 (node_pw_live s fn j h Hn Ej)) as Hw.
  apply pure_bind; [apply pure_pw_ok; exact (lib_pws _ Hk1 _ _ Hpw1)|].
  intros [|]; [by apply keeps_change_klabel|by apply keeps_delete_klabel].
Qed.
End Procedures.

(** ** What a computation leaves alone *)

(** [c] does not change the part [proj] of the state. *)
Definition frames {A B} (proj : lde -> B) (c : ST lde A) : Prop :=
  forall s a s', c s = Ok (a, s') -> proj s' = proj s.

Section Frames.
Context {B : Type} (proj : lde -> B) (Hout : forall s v, proj (set_l_out s v) = proj s).

Lemma frames_bind {A C} (c : ST lde A) (k : A -> ST lde C) :
  frames proj c -> (forall a, frames proj (k a)) -> frames proj (bind c k).
Proof.
  intros Hc Hk s b s' H. apply bind_inv in H as (a & s1 & H1 & H2).
  rewrite (Hk a _ _ _ H2). by apply (Hc _ a).
Qed.
Lemma frames_ret {A} (a : A) : frames proj (ret a).
Proof. by intros s b s' [= _ <-]. Qed.
Lemma frames_get : frames proj (get (S := lde)).
Proof. by intros s b s' [= _ <-]. Qed.
Lemma frames_undef {A} w : frames proj (undef (A := A) w).
Proof. done. Qed.
Lemma frames_lift {A} (r : res A) : frames proj (lift r).
Proof. intros s a s'. unfold lift. destruct r; [|done..]. by intros [= _ <-]. Qed.
Lemma frames_deref_ln p : frames proj (deref_ln p).
Proof. intros s a s'. unfold deref_ln. case_match; [|done]. by intros [= _ <-]. Qed.
Lemma frames_deref_fn f : frames proj (deref_fn f).
Proof. intros s a s'. unfold deref_fn. case_match; [|done]. by intros [= _ <-]. Qed.
Lemma frames_deref_pw i : frames proj (deref_pw i).
Proof. intros s a s'. unfold deref_pw. case_match; [|done]. by intros [= _ <-]. Qed.
Lemma frames_send m : frames proj (lde_send m).
Proof. intros s a s' [= _ <-]. apply Hout. Qed.
Lemma frames_foreach {A} (f : A -> ST lde unit) l :
  (forall x, frames proj (f x)) -> frames proj (foreach f l).
Proof. intros Hf. induction l; simpl; [apply frames_ret|]. by apply frames_bind. Qed.

Hint Resolve frames_bind frames_ret frames_get frames_undef frames_lift frames_deref_ln
  frames_deref_fn frames_deref_pw frames_send frames_foreach : frame.

Lemma frames_addr_eq af a b : frames proj (addr_eq af a b).
Proof. apply frames_bind; auto with frame. Qed.
Hint Resolve frames_addr_eq : frame.

Lemma frames_address_find p af a : frames proj (lde_address_find p af a).
Proof.
  apply frames_bind; [auto with frame|]. intros ln. induction (ln_addr_list ln) as [|[? ?] l IH];
    simpl; [auto with frame|]. case_match; [|done]. apply frames_bind; [auto with frame|].
  intros []; auto with frame.
Qed.

Lemma frames_fec_nh_find fn af nh pr : frames proj (fec_nh_find fn af nh pr).
Proof.
  unfold fec_nh_find. induction (fn_nexthops fn) as [|h l IH]; simpl; [auto with frame|].
  apply frames_bind; [case_match; auto with frame|]. intros e. case_match; auto with frame.
Qed.

Lemma frames_pw_ok pw h : frames proj (l2vpn_pw_ok pw h).
Proof.
  unfold l2vpn_pw_ok. repeat (case_match; [auto with frame|]).
  apply frames_bind; [auto with frame|]. intros f. apply frames_bind; [auto with frame|].
  intros s. repeat case_match; auto with frame.
Qed.

Lemma frames_sendable ln fn : frames proj (sendable_to ln fn).
Proof.
  unfold sendable_to. case_match; auto with frame. case_match; auto with frame.
Qed.
Hint Resolve frames_fec_nh_find frames_pw_ok frames_sendable : frame.

Lemma frames_release p ofn label : frames proj (lde_send_labelrelease p ofn label).
Proof.
  apply frames_bind; [auto with frame|]. intros ln.
  apply frames_bind; [destruct ofn; auto with frame|]. intros [m|]; auto with frame.
Qed.

(** Withdraws only write the records of neighbours. *)
Section Withdraw.
Context (Hnbrs : forall s v, proj (set_l_nbrs s v) = proj s).

Lemma frames_upd_ln p f : frames proj (upd_ln p f).
Proof. apply frames_bind; [auto with frame|]. intros _ s a s' [= _ <-]. apply Hnbrs. Qed.
Hint Resolve frames_upd_ln : frame.

Lemma frames_wdraw_record p f l : frames proj (lde_wdraw_record p f l).
Proof. apply frames_bind; [auto with frame|]. intros. case_match; auto with frame. Qed.
Hint Resolve frames_wdraw_record : frame.

Lemma frames_withdraw p ofn label st : frames proj (lde_send_labelwithdraw p ofn label st).
Proof.
  apply frames_bind; [auto with frame|]. intros ln. apply frames_bind.
  - destruct ofn; auto with frame.
  - intros [m|]; [|auto with frame]. do 2 (apply frames_bind; [auto with frame|]; intros _).
    destruct ofn; auto with frame.
Qed.
End Withdraw.

(** Kernel messages only write pseudowires. *)
Section Kernel.
Context (Hpws : forall s v, proj (set_l_pws s v) = proj s).

Lemma frames_upd_pw i g : frames proj (upd_pw i g).
Proof. apply frames_bind; [auto with frame|]. intros pw s a s' [= _ <-]. apply Hpws. Qed.
Hint Resolve frames_upd_pw : frame.

Lemma frames_change_pw fn h : frames proj (change_klabel_pw fn h).
Proof.
  unfold change_klabel_pw. case_match; [auto with frame|]. case_match; [|auto with frame].
  apply frames_bind; auto with frame.
Qed.
Lemma frames_delete_pw fn h : frames proj (delete_klabel_pw fn h).
Proof.
  unfold delete_klabel_pw. case_match; [|auto with frame]. apply frames_bind; [auto with frame|].
  intros pw. case_match; auto with frame.
Qed.
Hint Resolve frames_change_pw frames_delete_pw : frame.

Lemma frames_sync_pws af a : frames proj (l2vpn_sync_pws af a).
Proof.
  apply frames_bind; [auto with frame|]. intros s. apply frames_foreach. intros i.
  apply frames_bind; [auto with frame|]. intros pw.
  apply frames_bind; [case_match; auto with frame|]. intros []; simpl; [|auto with frame].
  apply frames_bind; [auto with frame|]. intros s1. case_match; [|auto with frame].
  apply frames_bind; [auto with frame|]. intros []; [|auto with frame].
  case_match; [|auto with frame]. apply frames_bind; [auto with frame|]. intros []; auto with frame.
Qed.
Hint Resolve frames_sync_pws : frame.

Lemma frames_sync_host f : frames proj (sync_host_route f).
Proof. unfold sync_host_route. repeat case_match; auto with frame. Qed.
Hint Resolve frames_sync_host : frame.

Lemma frames_change_klabel fn h : frames proj (lde_send_change_klabel fn h).
Proof. unfold lde_send_change_klabel. case_match; auto with frame. Qed.
Lemma frames_delete_klabel fn h : frames proj (lde_send_delete_klabel fn h).
Proof. unfold lde_send_delete_klabel. case_match; auto with frame. Qed.
End Kernel.
End Frames.

(** ** Routes *)
Section Routes.
Lemma lwp_upd_fn_find f g s n :
  lib_ok s -> fec_ok f -> ft_find s f = Some n ->
  (forall n, fn_fec (g n) = fn_fec n) -> (node_okb s n -> node_okb s (g n)) ->
  (forall n sent, links sent (g n) = links sent n) ->
  lwp (upd_fn f g) (fun _ s' => good s s' /\ ft_find s' f = Some (g n)) s.
Proof.
  intros H Hf E Hk Hn Hl.
  assert (keeps (upd_fn f g) s) as Hc.
  { apply keeps_upd_fn; try done. intros n' E'. assert (n' = n) as -> by congruence. done. }
  apply lwp_ok in Hc as ([] & s1 & Ec & Hg). unfold lwp. rewrite Ec. split; [done|].
  unfold upd_fn, bind, deref_fn in Ec. rewrite E in Ec. injection Ec as <-.
  change (set_l_ft s _) with (ft_upd s f g).
  by rewrite ft_find_upd, (cmp_refl (ok := fec_ok)), E by done.
Qed.

Lemma node_ok_nh_add npw n h :
  node_ok npw n -> af_ok (fnh_af h) -> (fec_tag (fn_fec n) = FEC_TYPE_PWID -> is_Some (fn_data n)) ->
  node_ok npw (set_fn_nexthops n (h :: fn_nexthops n)).
Proof. intros [Hh Hl Hd Hp Hb] Ha Hs. split; try done; [by constructor|auto]. Qed.

Lemma nbr_by_lsrid s a p : lib_ok s -> lde_nbr_find_by_lsrid s a = Some p ->
  pid_ok p /\ is_Some (lde_nbr_find s p).
Proof.
  intros H E. unfold lde_nbr_find_by_lsrid in E. apply fmap_Some in E as (n & E & ->).
  apply find_some in E as [Hin _]. apply list_elem_of_In in Hin. split.
  - by apply (tree_ok_elem _ _ _ _ n (lib_nbrs s H)).
  - exists n. by apply nbr_find_self.
Qed.

Lemma keeps_kernel_insert f af nexthop pr data s :
  lib_ok s -> fec_ok f -> af_ok af ->
  (forall i, data = Some i -> is_Some (pw_at s i)) ->
  (fec_tag f = FEC_TYPE_PWID -> is_Some data) ->
  keeps (lde_kernel_insert f af nexthop pr data) s.
Proof.
  intros H Hf Haf Hdata Hpw. apply keeps_get. apply lwp_bind.
  eapply lwp_mono; [by apply lwp_find_or_add|]. intros _ s1 (Hg1 & [fn Efn] & _).
  apply lwp_good; [done|]. apply (keeps_deref_fn f fn); [done|].
  destruct (ft_find_in s1 f fn (proj1 Hg1) Efn) as (_ & Hok & Hc). apply fec_tag_equiv in Hc.
  apply pure_bind; [by apply pure_fec_nh_find|]. intros [j|]; [apply keeps_ret, Hg1|].
  apply lwp_bind. apply (lwp_mono _ (fun _ s' => good s1 s' /\ exists n, ft_find s' f = Some n /\
    fn_fec n = fn_fec fn /\ (fec_tag (fn_fec n) = FEC_TYPE_PWID -> is_Some (fn_data n)))).
  { destruct (fn_fec fn) eqn:Et;
      [apply lwp_ret; split; [apply good_refl, Hg1|exists fn; rewrite Et; done]..|].
    eapply lwp_mono; [apply (lwp_upd_fn_find f (fun n => set_fn_data n data) s1 fn);
      [apply Hg1|done..| |done]|].
    - intros [Hh Hl _ _ Hb]. split; try done.
      + intros i Hi. apply (ext_pws _ _ (proj2 Hg1)). auto.
      + simpl. intros _ _. apply Hpw. by rewrite Hc.
    - intros _ s' [Hg' E']. split; [done|]. eexists. split; [done|]. split; [done|].
      intros _. simpl. apply Hpw. by rewrite Hc. }
  intros _ s2 [Hg2 (n2 & E2 & Efec & Hd2)]. apply lwp_good; [done|].
  destruct Hg2 as [H2 X2]. apply lwp_bind.
  eapply lwp_mono; [apply (lwp_upd_fn_find f _ s2 n2 H2 Hf E2); [done| |done]|].
  { intros Hn. by apply node_ok_nh_add. }
  intros _ s3 [[H3 X3] E3]. apply lwp_good; [done|]. apply (keeps_deref_fn f _ _ s3 E3).
  destruct (ft_find_in s3 f _ H3 E3) as ([_ _ Hd3 _ _] & Hok3 & _).
  apply keeps_bind; [by apply keeps_change_klabel|]. intros _ s4 [H4 X4].
  apply keeps_bind.
  { case_match; [| |by apply keeps_ret];
      (apply pure_bind; [by apply pure_nbr_by_addr|intros; by apply keeps_ret]). }
  intros _ s5 [H5 X5]. apply keeps_get.
  destruct (lde_nbr_find_by_lsrid s5 _) as [q|] eqn:Eq; [|by apply keeps_ret].
  destruct (nbr_by_lsrid s5 _ q H5 Eq) as [Hq [ln Eln]]. apply (keeps_deref_ln q ln); [done|].
  destruct (rb_find me_fec fec_compare f (ln_recv_map ln)) as [me|] eqn:Em; [|by apply keeps_ret].
  apply keeps_check_mapping; [done..|eauto|].
  apply rb_find_in in Em as [Hin _]. destruct (nbr_find_in s5 q ln H5 Eln) as [Hn _].
  pose proof (nbr_recv ln Hn) as Hr. rewrite Forall_forall in Hr. auto.
Qed.

Lemma keeps_withdraw_all fn label s :
  lib_ok s -> fec_ok (fn_fec fn) -> data_ok s fn -> keeps (lde_send_labelwithdraw_all fn label) s.
Proof.
  intros H Hf Hd. apply keeps_get, keeps_foreach; [done|]. intros ln s' Hin [H' E'].
  apply keeps_withdraw; [by apply (tree_ok_elem _ _ _ _ ln (lib_nbrs s H))|done| |].
  - apply (ext_nbr _ _ E'). exists ln. by apply nbr_find_self.
  - intros ? [= <-]. split; [by eapply data_ok_ext|done].
Qed.

Lemma keeps_kernel_remove f af nexthop pr s :
  lib_ok s -> fec_ok f -> af_ok af -> keeps (lde_kernel_remove f af nexthop pr) s.
Proof.
  intros H Hf Haf. apply keeps_get.
  destruct (ft_find s f) as [fn|] eqn:Ef; [|by apply keeps_ret].
  apply pure_bind; [by apply pure_fec_nh_find|]. intros [j|]; [|by apply keeps_ret].
  destruct (fn_nexthops fn !! j) as [h|] eqn:Ej; [|by apply keeps_ret].
  destruct (ft_find_in s f fn H Ef) as (Hn & _ & _).
  apply keeps_bind; [by apply keeps_delete_klabel; [|eapply node_pw_live]|]. intros _ s1 [H1 X1].
  apply keeps_bind; [apply keeps_nh_del; [done..|]; apply (ext_ft _ _ X1); eauto|].
  intros _ s2 [H2 X2]. destruct (ext_ft _ _ X2 f) as [fn2 E2]; [apply (ext_ft _ _ X1); eauto|].
  apply (keeps_deref_fn f fn2); [done|]. destruct (fn_nexthops fn2) as [|? ?] eqn:Enh; [|by apply keeps_ret].
  destruct (ft_find_in s2 f fn2 H2 E2) as ([_ _ Hd _ _] & Hok & _).
  apply lwp_bind. pose proof (keeps_withdraw_all fn2 NO_LABEL s2 H2 Hok Hd) as Hw.
  apply lwp_ok in Hw as ([] & s3 & Ec & [H3 X3]). unfold lwp at 1. rewrite Ec.
  apply lwp_good; [done|]. assert (l_ft s3 = l_ft s2) as Eft.
  { refine (frames_bind l_ft _ _ _ _ s2 tt s3 Ec); [by apply frames_get|]. intros s'.
    apply frames_foreach. intros. by apply frames_withdraw. }
  assert (ft_find s3 f = Some fn2) as E3 by (unfold ft_find; by rewrite Eft).
  apply keeps_upd_fn; [done|done|eauto|..].
  - intros n. by case_match.
  - intros n En [Hh Hl Hdn Hpn Hb]. assert (n = fn2) as -> by congruence.
    case_match; (split; [done|exact Hl|..]); try done.
  - intros n sent. case_match; by destruct sent.
Qed.
End Routes.

(** ** Neighbours come and go *)
Section Neighbours.
Lemma lwp_nbr_new p id v4 v6 s :
  lib_ok s -> pid_ok p -> is_u 32 id -> lde_nbr_find s p = None ->
  lwp (lde_nbr_new p id v4 v6) (fun _ s' => lib_ok s' /\
    lde_nbr_find s' p = Some (LdeNbr p id v4 v6 [] [] [] [] [] [])) s.
Proof.
  intros H Hp Hid E. set (x := LdeNbr p id v4 v6 [] [] [] [] [] []).
  destruct (rb_insert_none_find ln_peerid pid_ok peerid_compare x (l_nbrs s) (lib_nbrs s H) Hp E)
    as (t & Ei & Ht & Hin).
  pose proof (fun q Hq => rb_find_insert_if ln_peerid pid_ok peerid_compare x (l_nbrs s) t q
    (lib_nbrs s H) Hp Hq E Ei) as Hk.
  apply lwp_bind, lwp_get. fold x. rewrite Ei. apply lwp_modify.
  assert (forall q, pid_ok q -> lde_nbr_find (set_l_nbrs s t) q
    = if p =? q then Some x else lde_nbr_find s q) as Hfind.
  { intros q Hq. unfold lde_nbr_find at 1. cbn [l_nbrs set_l_nbrs]. rewrite Hk by done.
    cbn [ln_peerid x]. pose proof (peerid_compare_zero p q Hp Hq).
    destruct (peerid_compare p q =? 0) eqn:E1, (p =? q) eqn:E2; zbool; tauto. }
  split; [|rewrite Hfind, Z.eqb_refl by done; done].
  split; try apply H; [done| |].
  - apply Forall_forall. intros y Hy. apply Hin in Hy as [-> |Hy].
    + split; try done; try (intros []); repeat constructor.
    + pose proof (lib_nbr s H) as Hn. rewrite Forall_forall in Hn. by apply Hn.
  - intros sent q k Hq Hok. etransitivity; [apply (lib_links s H sent q k Hq Hok)|].
    unfold mapped. rewrite Hfind by done. destruct (p =? q) eqn:E2; [|done]. zbool. subst.
    rewrite E. split; [by intros (? & ? & _)|].
    intros (n & [= <-] & [me Hme]). destruct sent; done.
Qed.

Lemma rb_remove_head {A K} (key : A -> K) ok (cmp : K -> K -> Z) `{!CmpOrder ok cmp} x t :
  tree_ok key ok cmp (x :: t) -> rb_remove key cmp (key x) (x :: t) = t.
Proof.
  intros Ht. destruct (tree_ok_cons key ok cmp x t Ht) as (Hx & _ & Hlt). unfold rb_remove. simpl.
  rewrite (cmp_refl (ok := ok)) by done. simpl.
  induction Hlt as [|y t Hy _ IH]; simpl; [done|]. unfold tree_lt in Hy.
  rewrite (proj2 (Z.eqb_neq _ _)) by lia. simpl. f_equal. apply IH.
  destruct Ht as [Hs Ho]. inversion Hs as [|? ? Hs' Hf]; subst. inversion Hs' as [|? ? Hs2 Hf2]; subst.
  apply Forall_cons in Hf as [_ Hf]. apply Forall_cons in Ho as [Ho Ho'].
  apply Forall_cons in Ho' as [_ Ho']. split; [by constructor|by constructor].
Qed.

Lemma lwp_clear_maps p sent n s :
  lib_ok s -> pid_ok p -> lde_nbr_find s p = Some n ->
  lwp (clear_maps p sent) (fun _ s' => good s s' /\ exists n', lde_nbr_find s' p = Some n' /\
    sent_of sent n' = [] /\ sent_of (negb sent) n' = sent_of (negb sent) n) s.
Proof.
  intros H Hp En. apply lwp_bind, (lwp_deref_ln p n); [done|].
  assert (forall l s1 n1, lib_ok s1 -> lde_nbr_find s1 p = Some n1 -> sent_of sent n1 = l ->
    lwp (foreach (fun me => lde_map_del p me sent) l) (fun _ s' => good s1 s' /\ exists n',
      lde_nbr_find s' p = Some n' /\ sent_of sent n' = [] /\
      sent_of (negb sent) n' = sent_of (negb sent) n1) s1) as Hloop; [|by apply (Hloop _ s n)].
  induction l as [|me l IH]; intros s1 n1 H1 E1 El; simpl.
  { apply lwp_ret. split; [by apply good_refl|]. eauto. }
  apply lwp_bind. eapply lwp_mono; [apply (lwp_map_del p n1); [done..|]; rewrite El; left|].
  intros _ s2 [Hg2 (n2 & E2 & Em & Eo)].
  destruct (nbr_find_in s1 p n1 H1 E1) as [Hn1 _].
  rewrite El, (rb_remove_head me_fec fec_ok fec_compare) in Em
    by (rewrite <- El; by apply nbr_maps).
  eapply lwp_mono; [apply (IH s2 n2); [apply Hg2|done..]|].
  intros _ s3 [Hg3 (n3 & E3 & Em3 & Eo3)]. split; [exact (good_trans _ _ _ Hg2 Hg3)|].
  exists n3. split; [done|]. split; [done|congruence].
Qed.

Lemma keeps_pw_reset i s : lib_ok s -> is_Some (pw_at s i) -> keeps (l2vpn_pw_reset i) s.
Proof. intros. by apply keeps_upd_pw. Qed.

Lemma keeps_nbr_del_nh p f j s :
  lib_ok s -> pid_ok p -> is_Some (lde_nbr_find s p) -> fec_ok f -> is_Some (ft_find s f) ->
  keeps (nbr_del_nh p f j) s.
Proof.
  intros H Hp [ln Eln] Hf Hl. destruct f as [| |t i l]; [apply keeps_uninstall_owned; eauto..|].
  destruct Hl as [n E]. apply (keeps_deref_fn _ n); [done|].
  destruct (fn_nexthops n !! j) as [h|] eqn:Ej; [|by apply keeps_ret].
  apply (keeps_deref_ln p ln); [done|]. case_match; [by apply keeps_ret|].
  destruct (ft_find_in s _ n H E) as (Hn & _ & _).
  apply keeps_bind.
  { destruct (fn_data n) as [k|] eqn:Ed; [|by apply keeps_ret]. apply keeps_pw_reset; [done|].
    by apply (node_data _ _ Hn). }
  intros _ s1 [H1 X1]. apply keeps_uninstall; [done..|]. apply (ext_ft _ _ X1). eauto.
Qed.

(** Removing a neighbour whose mappings are gone. *)
Lemma lib_nbr_remove s p n :
  lib_ok s -> pid_ok p -> lde_nbr_find s p = Some n -> (forall sent, sent_of sent n = []) ->
  lib_ok (set_l_nbrs s (rb_remove ln_peerid peerid_compare p (l_nbrs s))).
Proof.
  intros H Hp En Hm. split; try apply H.
  - apply rb_remove_ok, H.
  - apply Forall_forall. intros y Hy. apply rb_remove_in in Hy as [Hy _].
    pose proof (lib_nbr s H) as Hn. rewrite Forall_forall in Hn. by apply Hn.
  - intros sent q k Hq Hok. etransitivity; [apply (lib_links s H sent q k Hq Hok)|].
    unfold mapped, lde_nbr_find. cbn [l_nbrs set_l_nbrs].
    rewrite (rb_find_remove_if ln_peerid pid_ok peerid_compare) by (done || apply H).
    destruct (peerid_compare p q =? 0) eqn:E2; [|done]. zbool.
    apply (peerid_compare_zero p q Hp Hq) in E2. subst. fold (lde_nbr_find s q). rewrite En.
    split; [|by intros (? & ? & _)]. intros (n' & [= <-] & [me Hme]). by rewrite Hm in Hme.
Qed.

Lemma keeps_nbr_del p s :
  lib_ok s -> pid_ok p -> is_Some (lde_nbr_find s p) ->
  lwp (lde_nbr_del p) (fun _ s' => lib_ok s' /\ lde_nbr_find s' p = None) s.
Proof.
  intros H Hp Hl. apply lwp_bind, lwp_get, lwp_bind. eapply lwp_mono.
  { apply keeps_foreach; [done|]. intros fn s1 Hin Hg1.
    destruct (node_announce s s1 fn H Hin Hg1) as (Hf & Hft & _).
    apply keeps_foreach; [apply Hg1|]. intros j s2 _ [H2 X2].
    apply keeps_nbr_del_nh; try done.
    - by apply (ext_nbr _ _ X2), (ext_nbr _ _ (proj2 Hg1)).
    - by apply (ext_ft _ _ X2). }
  intros _ s1 [H1 X1]. apply (ext_nbr _ _ X1) in Hl. apply lwp_bind. eapply lwp_mono.
  { apply keeps_upd_ln; try done. intros n _ Hn. by apply nbr_ok_addrs. }
  intros _ s2 [H2 X2]. apply (ext_nbr _ _ X2) in Hl as [n2 E2].
  apply lwp_bind. eapply lwp_mono; [by apply (lwp_clear_maps p false n2)|].
  intros _ s3 [[H3 X3] (n3 & E3 & Er3 & _)].
  apply lwp_bind. eapply lwp_mono; [by apply (lwp_clear_maps p true n3)|].
  intros _ s4 [[H4 X4] (n4 & E4 & Es4 & Er4)]. change (sent_of false n4 = sent_of false n3) in Er4. rewrite Er3 in Er4.
  set (g := fun n => set_ln_sent_wdraw (set_ln_sent_req (set_ln_recv_req n []) []) []).
  assert (lib_ok (nbrs_upd s4 p g)) as H5.
  { apply lib_nbrs_upd; try done. intros n _ Hn.
    apply nbr_ok_wdraw; [apply nbr_ok_sent_req; [apply nbr_ok_recv_req|]|]; try done; repeat constructor. }
  assert (lde_nbr_find (nbrs_upd s4 p g) p = Some (g n4)) as E5.
  { by rewrite nbr_find_upd, Z.eqb_refl, E4 by done. }
  apply lwp_bind, lwp_upd_ln; [eauto|]. apply lwp_modify.
  pose proof (lib_nbr_remove (nbrs_upd s4 p g) p (g n4) H5 Hp E5) as H6.
  set (s6 := set_l_nbrs _ _) in *. cbn zeta. destruct H6; [by intros []|].
  split.
  - apply (lib_ok_frame s6); [repeat case_match; done..|]. by split.
  - transitivity (lde_nbr_find s6 p).
    + unfold lde_nbr_find. by repeat case_match.
    + apply rb_find_remove.
Qed.
End Neighbours.

(** ** Garbage collection and egress labels *)
Section Maintenance.
Lemma rb_find_filter {A K} (key : A -> K) ok (cmp : K -> K -> Z) `{!CmpOrder ok cmp} (P : A -> bool) k t :
  tree_ok key ok cmp t -> ok k ->
  rb_find key cmp k (List.filter P t)
  = match rb_find key cmp k t with Some x => if P x then Some x else None | None => None end.
Proof.
  intros Ht Hk. assert (forall y, y ∈ List.filter P t <-> y ∈ t /\ P y = true) as Hin.
  { intros y. rewrite !list_elem_of_In. apply filter_In. }
  assert (tree_ok key ok cmp (List.filter P t)) as Hft.
  { destruct Ht as [Hs Ho]. split.
    - clear Ho Hin. induction Hs as [|x t Hs IH Hx]; simpl; [constructor|]. case_match; [|done].
      constructor; [done|]. rewrite Forall_forall in *. intros y Hy. apply Hx.
      apply list_elem_of_In in Hy. apply filter_In in Hy as [Hy _]. by apply list_elem_of_In.
    - rewrite Forall_forall in *. intros y Hy. apply Hin in Hy as [Hy _]. auto. }
  destruct (rb_find key cmp k t) as [x|] eqn:E.
  - apply rb_find_in in E as [Hx He]. destruct (P x) eqn:Ex.
    + apply (rb_find_spec key ok cmp); try done. by apply Hin.
    + destruct (rb_find key cmp k (List.filter P t)) as [y|] eqn:Ey; [|done]. exfalso.
      apply rb_find_in in Ey as [Hy He']. apply Hin in Hy as [Hy Py].
      assert (x = y) as ->; [|congruence]. apply (tree_unique key ok cmp t); try done.
      by apply (cmp_eq_zero ok cmp k (key x) (key y)); try (by apply (tree_ok_elem key ok cmp t)).
  - destruct (rb_find key cmp k (List.filter P t)) as [y|] eqn:Ey; [|done]. exfalso.
    apply rb_find_in in Ey as [Hy He']. apply Hin in Hy as [Hy _].
    by apply (rb_find_none _ _ _ _ _ E Hy).
Qed.

Lemma fn_dead_spec fn :
  fn_dead fn = true <-> fn_nexthops fn = [] /\ forall sent, links sent fn = [].
Proof.
  unfold fn_dead. destruct (fn_nexthops fn), (fn_downstream fn) eqn:E1, (fn_upstream fn) eqn:E2;
    split; try done; try (intros [? Hl]; pose proof (Hl true); pose proof (Hl false); simpl in *; congruence).
  intros _. split; [done|]. by intros [].
Qed.

Definition gc_state (s : lde) : lde :=
  set_l_ft s (List.filter (fun fn => negb (fn_dead fn)) (l_ft s)).

Lemma ft_find_gc s f : lib_ok s -> fec_ok f ->
  ft_find (gc_state s) f
  = match ft_find s f with Some n => if fn_dead n then None else Some n | None => None end.
Proof.
  intros H Hf. unfold ft_find, gc_state. cbn [l_ft set_l_ft].
  rewrite (rb_find_filter fn_fec fec_ok fec_compare) by (done || apply H).
  case_match; [|done]. by destruct (fn_dead _).
Qed.

Lemma lib_gc s : lib_ok s -> lib_ok (gc_state s).
Proof.
  intros H. split; try apply H.
  - split; [|apply Forall_forall; intros y Hy; apply list_elem_of_In, filter_In in Hy as [Hy _];
      apply list_elem_of_In in Hy; by apply (tree_ok_elem _ _ _ _ y (lib_ft s H))].
    pose proof (lib_ft s H) as [Hs _]. cbn [l_ft set_l_ft gc_state].
    induction Hs as [|x t Hs IH Hx]; simpl; [constructor|]. case_match; [|done].
    constructor; [done|]. rewrite Forall_forall in *. intros y Hy. apply Hx.
    apply list_elem_of_In in Hy. apply filter_In in Hy as [Hy _]. by apply list_elem_of_In.
  - apply Forall_forall. intros y Hy. apply list_elem_of_In, filter_In in Hy as [Hy _].
    apply list_elem_of_In in Hy. pose proof (lib_nodes s H) as Hn. rewrite Forall_forall in Hn.
    by apply Hn.
  - intros sent p k Hp Hk. etransitivity; [|apply (lib_links s H sent p k Hp Hk)].
    unfold linked. rewrite ft_find_gc by done. destruct (ft_find s k) as [n|]; [|done].
    destruct (fn_dead n) eqn:Ed; [|done]. apply fn_dead_spec in Ed as [_ Hl].
    split; [by intros (? & ? & _)|]. intros (n' & [= <-] & Hc). rewrite Hl in Hc. by apply elem_of_nil in Hc.
Qed.

(** No node has a label to replace. *)
Lemma readvertise_unlabelled af p fn : fn_local_label fn = NO_LABEL -> readvertise af p fn = ret tt.
Proof. intros E. unfold readvertise. by rewrite E. Qed.

Lemma keeps_change_egress af b s : lib_ok s -> af_ok af -> keeps (lde_change_egress_label af b) s.
Proof.
  intros H Haf. apply keeps_get, keeps_foreach; [done|]. intros ln s1 Hin Hg1.
  pose proof (tree_ok_elem _ _ _ _ ln (lib_nbrs s H) Hin) as Hp.
  assert (forall s', good s s' -> is_Some (lde_nbr_find s' (ln_peerid ln))) as Hl.
  { intros s' [_ X]. apply (ext_nbr _ _ X). exists ln. by apply nbr_find_self. }
  assert (forall s' v, good s s' -> keeps (lde_send_labelwithdraw (ln_peerid ln) None v None) s') as Hw.
  { intros s' v Hg. apply keeps_withdraw; [done|apply Hg|by apply Hl|done]. }
  apply keeps_bind.
  { destruct b; [by apply Hw|]. apply keeps_bind; [case_match; [by apply Hw|apply keeps_ret, Hg1]|].
    intros _ s2 Hg2. pose proof (good_trans _ _ _ Hg1 Hg2) as Hg.
    case_match; [by apply Hw|apply keeps_ret, Hg2]. }
  intros _ s2 Hg2. pose proof (good_trans _ _ _ Hg1 Hg2) as Hg02. apply keeps_get, keeps_bind.
  { apply keeps_foreach; [apply Hg2|]. intros fn s3 Hfn Hg3.
    pose proof (lib_nodes _ (proj1 Hg2)) as Hn. rewrite Forall_forall in Hn.
    rewrite readvertise_unlabelled by (apply (node_label _ _ (Hn fn Hfn))).
    apply keeps_ret, Hg3. }
  intros _ s3 [H3 _]. by apply keeps_send.
Qed.
End Maintenance.

(** ** The engine as a transition system *)

(** The procedures that the dispatchers and timers of the engine call. *)
Inductive proc :=
| CheckMapping (peerid : Z) (map : ldp_map)
| CheckRequest (peerid : Z) (map : ldp_map)
| CheckRelease (peerid : Z) (map : ldp_map)
| CheckReleaseWcard (peerid : Z) (map : ldp_map)
| CheckWithdraw (peerid : Z) (map : ldp_map)
| CheckWithdrawWcard (peerid : Z) (map : ldp_map)
| FecSnap (peerid : Z)
| AddressAdd (peerid af : Z) (addr : ldpd_addr)
| AddressDel (peerid af : Z) (addr : ldpd_addr)
| RecvPwStatus (peerid : Z) (nm : notify_msg)
| NbrNew (peerid id : Z) (v4_enabled v6_enabled : bool)
| NbrDel (peerid : Z)
| KernelInsert (f : fec) (af : Z) (nexthop : ldpd_addr) (priority : Z) (data : option nat)
| KernelRemove (f : fec) (af : Z) (nexthop : ldpd_addr) (priority : Z)
| GcTimer
| ChangeEgressLabel (af : Z) (was_implicit : bool).

Definition run_proc (e : proc) : ST lde unit :=
  match e with
  | CheckMapping p m => lde_check_mapping m p
  | CheckRequest p m => lde_check_request m p
  | CheckRelease p m => lde_check_release m p
  | CheckReleaseWcard p m => lde_check_release_wcard m p
  | CheckWithdraw p m => lde_check_withdraw m p
  | CheckWithdrawWcard p m => lde_check_withdraw_wcard m p
  | FecSnap p => fec_snap p
  | AddressAdd p af a => lde_address_add p af a ;;; ret tt
  | AddressDel p af a => lde_address_del p af a ;;; ret tt
  | RecvPwStatus p nm => l2vpn_recv_pw_status p nm
  | NbrNew p id b4 b6 => lde_nbr_new p id b4 b6
  | NbrDel p => lde_nbr_del p
  | KernelInsert f af nh pr data => lde_kernel_insert f af nh pr data
  | KernelRemove f af nh pr => lde_kernel_remove f af nh pr
  | GcTimer => lde_gc_timer
  | ChangeEgressLabel af b => lde_change_egress_label af b
  end.

Definition live (s : lde) (p : Z) : Prop := pid_ok p /\ is_Some (lde_nbr_find s p).

(** What the callers check: the neighbour was found (or, for a new one, was
    not), the fields are within their C types, a pseudowire FEC comes with its
    pseudowire. *)
Definition proc_pre (s : lde) (e : proc) : Prop :=
  match e with
  | CheckMapping p m | CheckRequest p m | CheckRelease p m | CheckReleaseWcard p m
  | CheckWithdraw p m | CheckWithdrawWcard p m => live s p /\ map_ok m
  | FecSnap p | NbrDel p => live s p
  | AddressAdd p af _ | AddressDel p af _ => live s p /\ af_ok af
  | RecvPwStatus p nm => live s p /\ map_ok (nm_fec nm)
  | NbrNew p id _ _ => pid_ok p /\ is_u 32 id /\ lde_nbr_find s p = None
  | KernelInsert f af _ _ data =>
      fec_ok f /\ af_ok af /\ (forall i, data = Some i -> is_Some (pw_at s i)) /\
      (fec_tag f = FEC_TYPE_PWID -> is_Some data)
  | KernelRemove f af _ _ => fec_ok f /\ af_ok af
  | GcTimer => True
  | ChangeEgressLabel af _ => af_ok af
  end.

(** The engine at start: nothing learnt, an L2VPN with the configured
    pseudowires. *)
Definition lde_start (pws : list l2vpn_pw) (expnull4 expnull6 : bool) : lde :=
  Lde [] [] [] 0 MPLS_LABEL_RESERVED_MAX [] (map Some pws)
    [Lvpn EmptyString 0 0 0 EmptyString 0 [] (seq 0 (length pws)) []] expnull4 expnull6 PtrUninit [].

Inductive reach : lde -> Prop :=
| reach_start pws b4 b6 : Forall (fun p => af_ok (pw_af p)) pws -> reach (lde_start pws b4 b6)
| reach_step s e s' : reach s -> proc_pre s e -> run_proc e s = Ok (tt, s') -> reach s'.

Section Engine.
Lemma lib_start pws b4 b6 : Forall (fun p => af_ok (pw_af p)) pws -> lib_ok (lde_start pws b4 b6).
Proof.
  intros Hp. assert (forall i, pw_at (lde_start pws b4 b6) i = pws !! i) as Hat.
  { intros i. unfold pw_at, lde_start. cbn. rewrite list_lookup_fmap. by destruct (pws !! i). }
  split; cbn [lde_start l_ft l_nbrs l_vpns]; [by repeat constructor..| | |].
  - intros i pw. rewrite Hat. intros Hi. exact (Forall_lookup_1 _ _ _ _ Hp Hi).
  - apply Forall_forall. intros i Hi. unfold active_pws in Hi. cbn in Hi. rewrite app_nil_r in Hi. apply elem_of_seq in Hi. rewrite Hat. apply lookup_lt_is_Some_2. lia.
  - intros sent p f _ _. split; by intros (? & ? & _).
Qed.

Lemma keeps_lib {A} (c : ST lde A) s : keeps c s -> lwp c (fun _ => lib_ok) s.
Proof. intros H. eapply lwp_mono; [exact H|]. by intros ? ? [? _]. Qed.

Lemma run_proc_lib e s : lib_ok s -> proc_pre s e -> lwp (run_proc e) (fun _ => lib_ok) s.
Proof.
  intros H. destruct e; cbn [proc_pre run_proc]; unfold live.
  - intros [[? ?] ?]. by apply keeps_lib, keeps_check_mapping.
  - intros [[? ?] ?]. by apply keeps_lib, keeps_check_request.
  - intros [[? ?] ?]. by apply keeps_lib, keeps_check_release.
  - intros [[? ?] ?]. by apply keeps_lib, keeps_check_release_wcard.
  - intros [[? ?] ?]. by apply keeps_lib, keeps_check_withdraw.
  - intros [[? ?] ?]. by apply keeps_lib, keeps_check_withdraw_wcard.
  - intros [? ?]. by apply keeps_lib, keeps_snap.
  - intros [[? ?] ?]. apply keeps_lib, keeps_bind; [by apply keeps_address_add|].
    intros ? s' [? _]. by apply keeps_ret.
  - intros [[? ?] ?]. apply keeps_lib, keeps_bind; [by apply keeps_address_del|].
    intros ? s' [? _]. by apply keeps_ret.
  - intros [[? ?] ?]. by apply keeps_lib, keeps_recv_pw_status.
  - intros (? & ? & ?). eapply lwp_mono; [by apply lwp_nbr_new|]. by intros ? ? [? _].
  - intros [? ?]. eapply lwp_mono; [by apply keeps_nbr_del|]. by intros ? ? [? _].
  - intros (? & ? & ? & ?). by apply keeps_lib, keeps_kernel_insert.
  - intros [? ?]. by apply keeps_lib, keeps_kernel_remove.
  - intros _. apply lwp_modify. by apply lib_gc.
  - intros. by apply keeps_lib, keeps_change_egress.
Qed.

Lemma reach_lib s : reach s -> lib_ok s.
Proof.
  induction 1 as [|s e s' _ IH Hpre Hrun]; [by apply lib_start|].
  pose proof (run_proc_lib e s IH Hpre) as Hw. unfold lwp in Hw. by rewrite Hrun in Hw.
Qed.
End Engine.

(** C1: the label decision engine never gets stuck on RFC 5036 work.  From
    every state it can reach by label mappings, requests, releases, withdraws,
    addresses, route changes, neighbours coming and going and garbage
    collection, each procedure called as its caller calls it returns (no fatal
    error, no dereference of a freed neighbour, node or pseudowire), and in the
    state it returns the trees are sorted and every mapping in a neighbour's
    tree is in the list of its LIB node and vice versa. *)
Theorem lde_procedures_safe (s : lde) (e : proc) (Hs : reach s) (He : proc_pre s e) :
  exists s', run_proc e s = Ok (tt, s') /\ lib_ok s'.
Proof.
  destruct (lwp_ok _ _ _ (run_proc_lib e s (reach_lib s Hs) He)) as ([] & s' & E & H'). eauto.
Qed.

Lemma lde_procedures_safe_witness :
  exists s', run_proc (NbrNew 1 0x04030201 true false) (lde_start [] false false) = Ok (tt, s') /\ lib_ok s'.
Proof.
  apply (lde_procedures_safe (lde_start [] false false) (NbrNew 1 0x04030201 true false)).
  - apply reach_start. constructor.
  - split; [unfold pid_ok; lia|]. split; [unfold is_u; lia|reflexivity].
Defined.

(** C23: in every state reached by RFC 5036 work (without MP2MP), garbage
    collection frees a node of the LIB exactly when it has no next hop and no
    neighbour has sent or been sent a mapping for its FEC, and it
    never frees a node a neighbour's mapping still points to. *)
Theorem lde_gc_timer_exact (s : lde) (f : fec) (n : fec_node) (Hs : reach s) (Hf : fec_ok f)
    (Hn : ft_find s f = Some n) :
  exists s', lde_gc_timer s = Ok (tt, s') /\ l_nbrs s' = l_nbrs s /\
    (ft_find s' f = None <->
       fn_nexthops n = [] /\ (forall sent p, pid_ok p -> ~ mapped s sent p f)) /\
    (ft_find s' f = None \/ ft_find s' f = Some n).
Proof.
  pose proof (reach_lib s Hs) as H. exists (gc_state s). split; [done|]. split; [done|].
  rewrite ft_find_gc by done. rewrite Hn. destruct (fn_dead n) eqn:Ed.
  - split; [|by left]. split; [|done]. intros _. apply fn_dead_spec in Ed as [Hh Hl]. split; [done|].
    intros sent p Hp Hm. apply (lib_links s H sent p f Hp Hf) in Hm as (n' & E' & Hc).
    assert (n' = n) as -> by congruence. rewrite Hl in Hc. by apply elem_of_nil in Hc.
  - split; [|by right]. split; [done|]. intros [Hh Hm]. exfalso.
    assert (fn_dead n = true); [|congruence]. apply fn_dead_spec. split; [done|]. intros sent.
    destruct (links sent n) as [|q l] eqn:El; [done|]. exfalso.
    destruct (ft_find_in s f n H Hn) as ([_ Hk _ _ _] & _ & _). destruct (Hk sent) as [_ Hq].
    rewrite El in Hq. apply Forall_cons in Hq as [Hq _]. apply (Hm sent q Hq).
    apply (lib_links s H sent q f Hq Hf). exists n. split; [done|]. rewrite El. left.
Qed.

(** The state behind a procedure, for concrete runs. *)
Definition after (s : lde) (e : proc) : lde :=
  match run_proc e s with Ok (_, s') => s' | _ => s end.

Lemma lde_gc_timer_exact_witness :
  let map := set_m_prefix (set_m_type map_zero MAP_TYPE_PREFIX) (PrefixElm AF_IPV4 24 zero_addr) in
  let s := after (after (lde_start [] false false) (NbrNew 1 7 true false)) (CheckWithdraw 1 map) in
  exists s', lde_gc_timer s = Ok (tt, s') /\ l_nbrs s' = l_nbrs s /\
    (ft_find s' (FecIpv4 24 0 0) = None <->
       @nil fec_nh = [] /\ (forall sent p, pid_ok p -> ~ mapped s sent p (FecIpv4 24 0 0))) /\
    (ft_find s' (FecIpv4 24 0 0) = None \/
     ft_find s' (FecIpv4 24 0 0) = Some (fec_node_new (FecIpv4 24 0 0) NO_LABEL)).
Proof.
  intros map s.
  apply (lde_gc_timer_exact s (FecIpv4 24 0 0) (fec_node_new (FecIpv4 24 0 0) NO_LABEL)).
  - apply (reach_step (after (lde_start [] false false) (NbrNew 1 7 true false)) (CheckWithdraw 1 map)).
    + apply (reach_step (lde_start [] false false) (NbrNew 1 7 true false)); [|vm_compute; intuition congruence|vm_compute; reflexivity].
      apply reach_start. constructor.
    + split.
      * split; [unfold pid_ok; lia|]. vm_compute. eauto.
      * split; [|discriminate]. intros _. split; [by left|]. split; [unfold is_u; simpl; lia|].
        split; [reflexivity|]. by apply bytes_okb_ok.
    + vm_compute. reflexivity.
  - vm_compute. intuition congruence.
  - vm_compute. reflexivity.
Defined.
