(* ===== verification/LdeFrame.v ===== *)
(** * What the label procedures leave alone

    A part [proj] of the state of the lde that does not depend on the records of
    neighbours, on what is sent, on labels and on what is negotiated for a
    pseudowire ([Undisturbed]) is left alone by every RFC 5036 procedure but
    those that change the routes of pseudowires and collect garbage. *)
From stdpp Require Import prelude strings list sorting.
From Stdlib Require Import ZArith Lia.
From S2P Require Import Prelude Util Wire Ipc Fec Lde LdeLib LdeSafe LdeInv.

(** A node without its labels and mappings, a pseudowire without what was
    negotiated. *)
Definition nh_key (h : fec_nh) : Z * ldpd_addr * Z := (fnh_af h, fnh_nexthop h, fnh_priority h).
Definition node_conf (n : fec_node) : fec * option nat * list (Z * ldpd_addr * Z) :=
  (fn_fec n, fn_data n, map nh_key (fn_nexthops n)).
Definition PW_CONF_FLAGS : Z := 0x25.
Definition pw_ident (pw : l2vpn_pw) : l2vpn_pw :=
  set_pw_flags (set_pw_remote pw 0 0 0) (Z.land (pw_flags pw) PW_CONF_FLAGS).

Class Undisturbed {B} (proj : lde -> B) : Prop := {
  ud_out s v : proj (set_l_out s v) = proj s;
  ud_nbrs s v : proj (set_l_nbrs s v) = proj s;
  ud_tmp s v : proj (set_l_tmp s v) = proj s;
  ud_ln1 s v : proj (set_l_ln1 s v) = proj s;
  ud_pw i g : (forall pw, pw_ident (g pw) = pw_ident pw) -> frames proj (upd_pw i g);
  ud_fn f g : (forall n, node_conf (g n) = node_conf n) -> frames proj (upd_fn f g);
  ud_ip f g : fec_tag f <> FEC_TYPE_PWID ->
    (forall n, fec_tag (fn_fec n) <> FEC_TYPE_PWID -> fn_fec (g n) = fn_fec n /\ fn_data (g n) = fn_data n) ->
    frames proj (upd_fn f g);
  ud_add f : frames proj (fec_add f)
}.

Create HintDb undisturbed.

Section Idents.
(** The flags the lde sets and clears are not configured ones. *)
Lemma land_lor_other f v : Z.land v PW_CONF_FLAGS = 0 -> Z.land (Z.lor f v) PW_CONF_FLAGS = Z.land f PW_CONF_FLAGS.
Proof. intros H. rewrite Z.land_lor_distr_l, H. apply Z.lor_0_r. Qed.
Lemma land_ldiff_other f v : Z.land v PW_CONF_FLAGS = 0 -> Z.land (Z.ldiff f v) PW_CONF_FLAGS = Z.land f PW_CONF_FLAGS.
Proof.
  intros H. apply Z.bits_inj'. intros n Hn. rewrite !Z.land_spec, Z.ldiff_spec.
  apply (f_equal (fun z => Z.testbit z n)) in H. rewrite Z.land_spec, Z.bits_0 in H.
  destruct (Z.testbit f n), (Z.testbit v n), (Z.testbit PW_CONF_FLAGS n); done.
Qed.
Lemma ident_flags pw v : Z.land v PW_CONF_FLAGS = Z.land (pw_flags pw) PW_CONF_FLAGS ->
  pw_ident (set_pw_flags pw v) = pw_ident pw.
Proof. intros E. unfold pw_ident, set_pw_flags, set_pw_remote. cbn. by rewrite E. Qed.
Lemma ident_remote pw a b c : pw_ident (set_pw_remote pw a b c) = pw_ident pw.
Proof. done. Qed.
Lemma ident_lor pw v : Z.land v PW_CONF_FLAGS = 0 -> pw_ident (set_pw_flags pw (Z.lor (pw_flags pw) v)) = pw_ident pw.
Proof. intros H. by apply ident_flags, land_lor_other. Qed.
Lemma ident_ldiff pw v : Z.land v PW_CONF_FLAGS = 0 -> pw_ident (set_pw_flags pw (Z.ldiff (pw_flags pw) v)) = pw_ident pw.
Proof. intros H. by apply ident_flags, land_ldiff_other. Qed.
Lemma nh_keys_label j v l : map nh_key (alter (fun h => set_fnh_label h v) j l) = map nh_key l.
Proof. revert j. induction l as [|h l IH]; intros [|j]; cbn; [done..|]. f_equal. apply IH. Qed.
End Idents.
#[export] Hint Resolve ident_remote ident_lor ident_ldiff : undisturbed.

Section Frame.
Context {B : Type} (proj : lde -> B) `{!Undisturbed proj}.
Notation kept := (frames proj).

Lemma kept_modify (f : lde -> lde) : (forall s, proj (f s) = proj s) -> kept (modify f).
Proof. intros H s a s' [= _ <-]. apply H. Qed.
Lemma kept_upd_ln p f : kept (upd_ln p f).
Proof. apply frames_upd_ln. apply ud_nbrs. Qed.
Lemma kept_send m : kept (lde_send m).
Proof. apply kept_modify. intros. apply ud_out. Qed.

Ltac kept_prim :=
  first [ apply frames_ret | apply frames_get | apply frames_lift | apply frames_deref_ln
        | apply frames_deref_fn | apply frames_deref_pw | apply kept_send | apply frames_undef
        | apply frames_release; apply ud_out | apply frames_withdraw; [apply ud_out|apply ud_nbrs]
        | apply frames_wdraw_record; apply ud_nbrs
        | apply kept_upd_ln | apply frames_address_find | apply frames_fec_nh_find
        | apply frames_pw_ok | apply frames_sendable | apply frames_addr_eq
        | by intros ? ? ? | by auto with undisturbed nocore ].
Ltac kept_bind := lazymatch goal with |- frames _ (bind _ _) => apply frames_bind; [|intros] end.
Ltac kept_auto := repeat first [ kept_prim | kept_bind | apply frames_foreach; intros | case_match ].

Lemma kept_change_pw fn h : kept (change_klabel_pw fn h).
Proof. unfold change_klabel_pw. kept_auto. apply ud_pw. intros pw. by apply ident_lor. Qed.
Lemma kept_delete_pw fn h : kept (delete_klabel_pw fn h).
Proof. unfold delete_klabel_pw. kept_auto. apply ud_pw. intros pw. by apply ident_ldiff. Qed.
Hint Resolve kept_change_pw kept_delete_pw : undisturbed.
Lemma kept_sync_pws af a : kept (l2vpn_sync_pws af a).
Proof. unfold l2vpn_sync_pws, l2vpn_sync_pw. kept_auto. Qed.
Hint Resolve kept_sync_pws : undisturbed.
Lemma kept_change_klabel fn h : kept (lde_send_change_klabel fn h).
Proof. unfold lde_send_change_klabel, sync_host_route. kept_auto. Qed.
Lemma kept_delete_klabel fn h : kept (lde_send_delete_klabel fn h).
Proof. unfold lde_send_delete_klabel, sync_host_route. kept_auto. Qed.
Hint Resolve kept_change_klabel kept_delete_klabel : undisturbed.

Lemma kept_nh_label f j v : kept (fec_nh_label f j v).
Proof. apply ud_fn. intros n. unfold node_conf. cbn. by rewrite nh_keys_label. Qed.
Lemma kept_nbr_by_addr af a : kept (lde_nbr_find_by_addr af a).
Proof.
  apply frames_bind; [apply frames_get|]. intros s. induction (l_nbrs s) as [|n l IH]; simpl; kept_auto.
  induction (ln_addr_list n) as [|[? ?] l' IH']; simpl; kept_auto.
Qed.
Lemma kept_link h f sent p : kept (link_map h f sent p).
Proof.
  unfold link_map. case_match; [|apply kept_modify; intros; apply ud_tmp].
  apply ud_fn. intros n. by destruct sent.
Qed.
Hint Resolve kept_nh_label kept_nbr_by_addr kept_link : undisturbed.
Lemma kept_map_add p f h sent map : kept (lde_map_add p f h sent map).
Proof. unfold lde_map_add. kept_auto. Qed.
Lemma kept_unlink me sent p : kept (unlink_map me sent p).
Proof.
  unfold unlink_map. case_match; [apply ud_fn; intros n; by destruct sent|].
  intros s a s'. unfold bind, get, put, undef. cbn [rbind].
  repeat case_match; intros [=]; subst. apply ud_tmp.
Qed.
Hint Resolve kept_map_add kept_unlink : undisturbed.
Lemma kept_map_del p me sent : kept (lde_map_del p me sent).
Proof. unfold lde_map_del. kept_auto. Qed.
Hint Resolve kept_map_del : undisturbed.
Lemma kept_labelmapping p fn h single : kept (lde_send_labelmapping p fn h single).
Proof. unfold lde_send_labelmapping, lde_req_del. kept_auto. Qed.
Hint Resolve kept_labelmapping : undisturbed.
Lemma kept_pw_lor i v : Z.land v PW_CONF_FLAGS = 0 -> kept (upd_pw i (fun pw => set_pw_flags pw (Z.lor (pw_flags pw) v))).
Proof. intros H. apply ud_pw. intros pw. by apply ident_lor. Qed.
Lemma kept_pw_clear i v : Z.land v PW_CONF_FLAGS = 0 -> kept (pw_clear i v).
Proof. intros H. apply ud_pw. intros pw. by apply ident_ldiff. Qed.
Lemma kept_pw_remote i a b c : kept (upd_pw i (fun pw => set_pw_remote pw (a pw) (b pw) (c pw))).
Proof. by apply ud_pw. Qed.
Lemma kept_negotiate p fn map : kept (l2vpn_pw_negotiate p fn map).
Proof. unfold l2vpn_pw_negotiate. kept_auto; first [by apply kept_pw_clear|by apply kept_pw_lor]. Qed.
Lemma kept_uninstall f j : kept (uninstall_nh f j).
Proof. unfold uninstall_nh. kept_auto. Qed.
Lemma kept_nh_of p h : kept (nh_of_nbr p h).
Proof. apply frames_address_find. Qed.
Hint Resolve kept_negotiate kept_uninstall kept_nh_of : undisturbed.
Lemma kept_release_old p f old : kept (release_old_label p f old).
Proof. unfold release_old_label. kept_auto. Qed.
Lemma kept_install p f map j : kept (install_nh p f map j).
Proof. unfold install_nh. kept_auto; apply kept_pw_remote. Qed.
Lemma kept_record p f map : kept (record_recv_map p f map).
Proof. unfold record_recv_map. kept_auto. Qed.
Lemma kept_fec_add f : kept (fec_add f).
Proof. apply ud_add. Qed.
Hint Resolve kept_release_old kept_install kept_record kept_fec_add : undisturbed.

(** The procedures of RFC 5036. *)
Lemma kept_check_mapping map p : kept (lde_check_mapping map p).
Proof. unfold lde_check_mapping, lde_req_del. kept_auto. Qed.
Lemma kept_check_request map p : kept (lde_check_request map p).
Proof.
  unfold lde_check_request, lde_send_notification, lde_req_add.
  assert (forall f l, kept (loop_detected p f l)) as Hl.
  { intros f l. induction l as [|h l IH]; simpl; kept_auto. }
  kept_auto; apply Hl.
Qed.
Lemma kept_release_fec map p f : kept (release_fec map p f).
Proof. unfold release_fec, lde_wdraw_del. kept_auto. Qed.
Lemma kept_forget map p f : kept (forget_recv_map map p f).
Proof. unfold forget_recv_map. kept_auto. Qed.
Lemma kept_withdraw_nh p f j : kept (withdraw_nh p f j).
Proof. unfold withdraw_nh. kept_auto. Qed.
Lemma ident_if (b : bool) pw v : Z.land v PW_CONF_FLAGS = 0 ->
  pw_ident (set_pw_flags pw (if b then Z.lor (pw_flags pw) v else Z.ldiff (pw_flags pw) v)) = pw_ident pw.
Proof. destruct b; [apply ident_lor|apply ident_ldiff]. Qed.
Lemma kept_pw_reset i : kept (l2vpn_pw_reset i).
Proof. apply ud_pw. intros pw. cbv zeta. by rewrite !ident_if. Qed.
Hint Resolve kept_check_mapping kept_check_request kept_release_fec kept_forget kept_withdraw_nh
  kept_pw_reset : undisturbed.
Lemma kept_nbr_del_nh p f j : kept (nbr_del_nh p f j).
Proof. unfold nbr_del_nh. kept_auto. Qed.
Lemma kept_address_del_in l af a : kept (address_del_in l af a).
Proof. induction l as [|[? ?] l IH]; simpl; kept_auto. Qed.
Lemma kept_readvertise af p fn : kept (readvertise af p fn).
Proof. unfold readvertise. kept_auto; by apply ud_fn. Qed.
Lemma kept_clear_maps p sent : kept (clear_maps p sent).
Proof. unfold clear_maps. kept_auto. Qed.
Hint Resolve kept_nbr_del_nh kept_address_del_in kept_readvertise kept_clear_maps : undisturbed.

Lemma kept_nbr_del p : kept (lde_nbr_del p).
Proof.
  unfold lde_nbr_del. kept_auto. apply kept_modify. intros s.
  repeat case_match; rewrite ?ud_ln1; apply ud_nbrs.
Qed.
Lemma kept_nbr_new p id b4 b6 : kept (lde_nbr_new p id b4 b6).
Proof.
  intros s a s'. unfold lde_nbr_new, bind, get, put, fatalx. cbn [rbind].
  case_match; intros [=]; subst. apply ud_nbrs.
Qed.
Lemma kept_recv_pw_status p nm : kept (l2vpn_recv_pw_status p nm).
Proof. unfold l2vpn_recv_pw_status. kept_auto; by apply ud_pw. Qed.

Definition pw_or_gc (e : proc) : bool :=
  match e with KernelInsert _ _ _ _ _ | KernelRemove _ _ _ _ | GcTimer => true | _ => false end.
Lemma kept_proc e : pw_or_gc e = false -> kept (run_proc e).
Proof.
  destruct e; intros He; try done; cbn [run_proc];
    try by auto using kept_nbr_del, kept_nbr_new, kept_recv_pw_status with undisturbed.
  - unfold lde_check_release. kept_auto.
  - unfold lde_check_release_wcard. kept_auto.
  - unfold lde_check_withdraw. kept_auto.
  - unfold lde_check_withdraw_wcard. kept_auto.
  - unfold fec_snap. kept_auto.
  - unfold lde_address_add. kept_auto.
  - unfold lde_address_del. kept_auto.
  - unfold lde_change_egress_label. kept_auto.
Qed.

(** Routes of prefixes. *)
Lemma bind_deref_fn {A} f (k : fec_node -> ST lde A) :
  (forall fn, fec_tag (fn_fec fn) = fec_tag f -> kept (k fn)) -> kept (do fn <- deref_fn f; k fn).
Proof.
  intros Hk s a s' H. apply bind_inv in H as (fn & s1 & H1 & H2). unfold deref_fn in H1.
  destruct (ft_find s f) as [n|] eqn:E; [|done]. injection H1 as <- <-.
  apply rb_find_in in E as [_ Hc]. apply fec_tag_equiv in Hc. by apply (Hk n (eq_sym Hc)) in H2.
Qed.
Lemma kept_route_insert f af nh pr data : fec_tag f <> FEC_TYPE_PWID -> kept (lde_kernel_insert f af nh pr data).
Proof.
  intros Hf. unfold lde_kernel_insert. apply frames_bind; [apply frames_get|]. intros s.
  apply frames_bind; [kept_auto|]. intros _. apply bind_deref_fn. intros fn Ht.
  apply frames_bind; [apply frames_fec_nh_find|]. intros [|]; [apply frames_ret|].
  destruct (fn_fec fn) eqn:E; [| |by rewrite <- Ht in Hf].
  all: apply frames_bind; [apply frames_ret|]; intros _; apply frames_bind; [by apply ud_ip|]; intros _; kept_auto.
Qed.
Lemma kept_route_remove f af nh pr : fec_tag f <> FEC_TYPE_PWID -> kept (lde_kernel_remove f af nh pr).
Proof.
  intros Hf. unfold lde_kernel_remove, lde_send_labelwithdraw_all, fec_nh_del. kept_auto; apply ud_ip; try done.
  intros m Hm. cbn. destruct (fn_fec m) eqn:E; cbn in *; rewrite ?E; done.
Qed.

(** A part that does not depend on the nodes at all. *)
Section Apart.
Context (Hfn : forall f g, kept (upd_fn f g)).
Lemma kept_kernel_insert f af nh pr data : kept (lde_kernel_insert f af nh pr data).
Proof. unfold lde_kernel_insert, fec_nh_add. kept_auto; apply Hfn. Qed.
Lemma kept_kernel_remove f af nh pr : kept (lde_kernel_remove f af nh pr).
Proof. unfold lde_kernel_remove, fec_nh_del, lde_send_labelwithdraw_all. kept_auto; apply Hfn. Qed.
End Apart.
End Frame.
