(* ===== verification/LdePw.v ===== *)
(** * Pseudowires in the LIB

    A LIB node of a pseudowire has one next hop, the router at the other end, and
    a pointer to the pseudowire, or neither ([shaped]).  [owns] is what the LIB
    knows of pseudowires: which one its FEC belongs to.  Only the routes of
    pseudowires change it: inserting one gives the FEC an owner unless it has one,
    removing one takes the owner away, whichever it is. *)
From stdpp Require Import prelude strings list sorting.
From Stdlib Require Import ZArith Lia.
From S2P Require Import Prelude Util Wire Ipc Fec Lde LdeLib LdeSafe LdeInv LdeFrame.

Definition pw_ids (s : lde) : list (option l2vpn_pw) * list lvpn := (fmap (M := option) pw_ident <$> l_pws s, l_vpns s).

(** What a node has to do with pseudowires. *)
Definition pw_route (n : fec_node) : option (fec * option nat * list (Z * ldpd_addr * Z)) :=
  match fn_fec n, fn_data n, fn_nexthops n with
  | FecPwid _ _ _, None, [] => None
  | FecPwid _ _ _, d, nhs => Some (fn_fec n, d, map nh_key nhs)
  | _, None, _ => None
  | f, d, _ => Some (f, d, [])
  end.
Definition pw_routes (s : lde) : list (fec * option nat * list (Z * ldpd_addr * Z)) := omap pw_route (l_ft s).

Definition node_shape (n : fec_node) : Prop :=
  match fn_fec n with
  | FecPwid _ _ lsr_id =>
      match fn_data n, fn_nexthops n with
      | None, [] => True
      | Some _, [h] => fnh_af h = AF_INET /\ v4 (fnh_nexthop h) = lsr_id /\ fnh_priority h = 0
      | _, _ => False
      end
  | _ => fn_data n = None
  end.
Definition shaped (s : lde) : Prop := Forall node_shape (l_ft s).
Definition owns (s : lde) (f : fec) (i : nat) : Prop := exists n, n ∈ l_ft s /\ fn_fec n = f /\ fn_data n = Some i.

(** ** Both are left alone by label procedures *)
Section Undisturbed.
Lemma ids_upd_fn f g : frames pw_ids (upd_fn f g).
Proof. apply frames_bind; [apply frames_deref_fn|]. by intros _ s a s' [= _ <-]. Qed.

#[export] Instance pw_ids_undisturbed : Undisturbed pw_ids.
Proof.
  split; try done; intros; try apply ids_upd_fn.
  - intros s a s' E. unfold upd_pw in E. apply bind_inv in E as (pw & s1 & E1 & E2). unfold deref_pw in E1.
    destruct (pw_at s i) as [q|] eqn:Eq; [|done]. injection E1 as <- <-. injection E2 as <- <-.
    unfold pw_ids. cbn [l_pws set_l_pws l_vpns]. f_equal. rewrite list_fmap_insert. cbn. rewrite H.
    apply list_insert_id. rewrite list_lookup_fmap. unfold pw_at in Eq. destruct (l_pws s !! i) as [o|]; [|done].
    cbn in *. by rewrite Eq.
  - intros s a s' [= _ <-]. by case_match.
Qed.

Lemma route_conf n m : node_conf n = node_conf m -> pw_route n = pw_route m.
Proof.
  unfold node_conf, pw_route. intros [= E1 E2 E3]. rewrite E1, E2.
  destruct (fn_fec m), (fn_data m), (fn_nexthops n), (fn_nexthops m); cbn in *; congruence.
Qed.
Lemma route_not_pw n : fec_tag (fn_fec n) <> FEC_TYPE_PWID ->
  pw_route n = match fn_data n with None => None | d => Some (fn_fec n, d, []) end.
Proof. unfold pw_route. by destruct (fn_fec n), (fn_data n). Qed.
Lemma routes_update f g s : (forall n, n ∈ l_ft s -> fec_compare f (fn_fec n) = 0 -> pw_route (g n) = pw_route n) ->
  pw_routes (set_l_ft s (rb_update fn_fec fec_compare f g (l_ft s))) = pw_routes s.
Proof.
  intros H. unfold pw_routes. cbn [l_ft set_l_ft]. unfold rb_update. induction (l_ft s) as [|n l IH]; [done|]. cbn.
  rewrite IH by (intros; apply H; [by right|done]). destruct (fec_compare f (fn_fec n) =? 0) eqn:E; [|done]. zbool. rewrite H; [done|left|done].
Qed.
Lemma routes_upd_fn f g : (forall n, fec_compare f (fn_fec n) = 0 -> pw_route (g n) = pw_route n) ->
  frames pw_routes (upd_fn f g).
Proof. intros H. apply frames_bind; [apply frames_deref_fn|]. intros _ s a s' [= _ <-]. apply routes_update. auto. Qed.
Lemma routes_insert x t t' : pw_route x = None -> rb_insert fn_fec fec_compare x t = Some t' -> omap pw_route t' = omap pw_route t.
Proof.
  intros Hx. revert t'. induction t as [|y t IH]; intros t'; cbn; [by intros [= <-]; cbn; rewrite Hx|].
  case_match; [by intros [= <-]; cbn; rewrite Hx|]. case_match; [done|]. destruct (rb_insert _ _ _ t) as [t2|]; [|done].
  intros [= <-]. cbn. by rewrite (IH t2).
Qed.
#[export] Instance pw_routes_undisturbed : Undisturbed pw_routes.
Proof.
  split; try done; intros.
  - by apply frames_upd_pw.
  - apply routes_upd_fn. intros n _. by apply route_conf.
  - apply routes_upd_fn. intros n Hc. apply fec_tag_equiv in Hc. rewrite Hc in H. destruct (H0 n H) as [E1 E2].
    rewrite !route_not_pw by (by rewrite ?E1). by rewrite E1, E2.
  - intros s a s' [= _ <-]. case_match eqn:E; [|done]. unfold pw_routes. cbn [l_ft set_l_ft].
    eapply routes_insert, E. by destruct f.
Qed.

(** Both notions are about the routes only. *)
Definition route_shape (r : fec * option nat * list (Z * ldpd_addr * Z)) : Prop :=
  match r with
  | (FecPwid _ _ lsr_id, Some _, [(af, a, pr)]) => af = AF_INET /\ v4 a = lsr_id /\ pr = 0
  | _ => False
  end.
Lemma shape_route n : node_shape n <-> match pw_route n with None => True | Some r => route_shape r end.
Proof.
  unfold node_shape, pw_route, route_shape. destruct (fn_fec n) eqn:Ef, (fn_data n), (fn_nexthops n) as [|h [|]]; cbn; done.
Qed.
Lemma shaped_routes s : shaped s <-> Forall route_shape (pw_routes s).
Proof.
  unfold shaped, pw_routes. induction (l_ft s) as [|n l IH]; [done|]. cbn [omap list_omap].
  rewrite Forall_cons, shape_route, IH. case_match; cbn; [by rewrite Forall_cons|]. tauto.
Qed.
Lemma owns_routes s f i : owns s f i <-> exists k, (f, Some i, k) ∈ pw_routes s.
Proof.
  unfold owns, pw_routes. split.
  - intros (n & Hn & <- & Ed). assert (exists k, pw_route n = Some (fn_fec n, Some i, k)) as [k Ek].
    { unfold pw_route. rewrite Ed. destruct (fn_fec n); by eexists. }
    exists k. apply list_elem_of_omap. by exists n.
  - intros (k & H). apply list_elem_of_omap in H as (n & Hn & E). exists n. split; [done|]. unfold pw_route in E.
    destruct (fn_fec n), (fn_data n), (fn_nexthops n); by simplify_eq.
Qed.
Lemma same_routes s s' : pw_routes s' = pw_routes s -> shaped s ->
  shaped s' /\ forall f i, owns s' f i <-> owns s f i.
Proof. intros E. rewrite !shaped_routes, E. intros H. split; [done|]. intros f i. by rewrite !owns_routes, E. Qed.
End Undisturbed.

(** ** Removing and inserting the route of a pseudowire *)
Section Routes.
Context (t id lsr_id : Z) (nh : ldpd_addr) (Hf : fec_ok (FecPwid t id lsr_id)) (Hnh : v4 nh = lsr_id).
Notation f := (FecPwid t id lsr_id).

Lemma pw_fec_eq g : fec_ok g -> fec_compare f g = 0 -> g = f.
Proof. intros Hg H. apply fec_compare_zero in H; [|done..]. destruct g; cbn in H; naive_solver. Qed.
Notation tree s := (fec_tree fn_fec (l_ft s)).
Lemma node_of_fec s n : tree s -> n ∈ l_ft s -> fec_compare f (fn_fec n) = 0 <-> fn_fec n = f.
Proof.
  intros H Hn. pose proof (tree_ok_elem _ _ _ _ n H Hn) as Hok.
  split; [by apply pw_fec_eq|]. intros ->. by apply (cmp_refl (ok := fec_ok)).
Qed.
Lemma found_node s n : tree s -> ft_find s f = Some n -> n ∈ l_ft s /\ fn_fec n = f.
Proof.
  intros H E. apply rb_find_in in E as [Hin Hc]. split; [done|]. by apply (node_of_fec s).
Qed.
Lemma node_found s n : tree s -> n ∈ l_ft s -> fn_fec n = f -> ft_find s f = Some n.
Proof.
  intros H Hn Hc. apply (rb_find_spec fn_fec fec_ok fec_compare); [done|done|done|]. by apply (node_of_fec s).
Qed.

(** Assignments to the node of the FEC. *)
Lemma in_updated s g n : tree s -> (forall m, fn_fec (g m) = fn_fec m) ->
  n ∈ l_ft (ft_upd s f g) <-> exists m, m ∈ l_ft s /\ (fn_fec m = f /\ n = g m \/ fn_fec m <> f /\ n = m).
Proof.
  intros H Hg. unfold ft_upd, rb_update. cbn [l_ft set_l_ft]. rewrite list_elem_of_fmap. split.
  - intros (m & -> & Hm). exists m. split; [done|]. pose proof (node_of_fec s m H Hm) as Hc.
    destruct (fec_compare f (fn_fec m) =? 0) eqn:E; zbool; tauto.
  - intros (m & Hm & Hc). exists m. split; [|done]. pose proof (node_of_fec s m H Hm) as Hc'.
    destruct (fec_compare f (fn_fec m) =? 0) eqn:E; zbool; destruct Hc as [[? ->]|[? ->]]; tauto.
Qed.

(** The next hop is found exactly when the FEC has an owner. *)
Lemma nh_found s n : shaped s -> n ∈ l_ft s -> fn_fec n = f ->
  fec_nh_find n AF_INET nh 0 s = Ok (match fn_data n with Some _ => Some O | None => None end, s) /\
  match fn_data n with Some _ => exists h, fn_nexthops n = [h] | None => fn_nexthops n = [] end.
Proof.
  intros Hs Hn E. unfold shaped in Hs. rewrite Forall_forall in Hs. specialize (Hs n Hn). unfold node_shape in Hs.
  rewrite E in Hs. unfold fec_nh_find. destruct (fn_data n), (fn_nexthops n) as [|h [|]]; try done.
  split; [|by exists h]. destruct Hs as (H1 & H2 & H3). cbn. rewrite H1, H3. unfold addr_eq, bind, lift, ret. cbn.
  unfold ldp_addrcmp. cbn [Z.eqb Pos.eqb AF_INET]. rewrite H2, Hnh, Z.eqb_refl. done.
Qed.

Definition shaped_off (s : lde) : Prop := forall m, m ∈ l_ft s -> fn_fec m <> f -> node_shape m.
Lemma shaped_shaped_off s : shaped s -> shaped_off s.
Proof. intros H m Hm _. unfold shaped in H. rewrite Forall_forall in H. auto. Qed.
Lemma shaped_off_upd s g : tree s -> shaped_off s -> (forall m, fn_fec (g m) = fn_fec m) -> shaped_off (ft_upd s f g).
Proof.
  intros H Hs Hg m Hm Hne. apply in_updated in Hm as (m0 & Hm0 & [[Ef ->]|[_ ->]]); [by rewrite Hg in Hne|by apply Hs|done..].
Qed.
Lemma shaped_upd s g n : tree s -> shaped_off s -> ft_find s f = Some n -> (forall m, fn_fec (g m) = fn_fec m) ->
  node_shape (g n) -> shaped (ft_upd s f g).
Proof.
  intros H Hs E Hg Hn. apply Forall_forall. intros m Hm. apply in_updated in Hm as (m0 & Hm0 & [[Ef ->]|[Hne ->]]); [..|done|done].
  - assert (m0 = n) as -> by (pose proof (node_found s m0 H Hm0 Ef); congruence). done.
  - by apply Hs.
Qed.
Lemma owns_upd s g n k j : tree s -> ft_find s f = Some n -> (forall m, fn_fec (g m) = fn_fec m) ->
  owns (ft_upd s f g) k j <-> k <> f /\ owns s k j \/ k = f /\ fn_data (g n) = Some j.
Proof.
  intros H E Hg. destruct (found_node s n H E) as [Hin Hfn]. unfold owns. split.
  - intros (m & Hm & <- & Ed). apply in_updated in Hm as (m0 & Hm0 & [[Ef ->]|[Ef ->]]); [..|done|done].
    + right. assert (m0 = n) as -> by (pose proof (node_found s m0 H Hm0 Ef); congruence). by rewrite Hg.
    + left. split; [done|]. by exists m0.
  - intros [(Hk & m & Hm & <- & Ed)|[-> Ed]].
    + exists m. split; [|done]. apply in_updated; [done..|]. exists m. split; [done|]. by right.
    + exists (g n). rewrite Hg. split; [|done]. apply in_updated; [done..|]. exists n. split; [done|]. by left.
Qed.
Lemma owns_node s n k : tree s -> ft_find s f = Some n -> owns s f k <-> fn_data n = Some k.
Proof.
  intros H E. destruct (found_node s n H E) as [Hin Hfn]. split.
  - intros (m & Hm & Ef & Ed). by rewrite (node_found s m H Hm Ef) in E; injection E as ->.
  - intros Ed. by exists n.
Qed.
Lemma unowned s k : tree s -> ft_find s f = None -> ~ owns s f k.
Proof. intros H E (m & Hm & Ef & _). by rewrite (node_found s m H Hm Ef) in E. Qed.

Lemma ft_frame_keeps {A} (c : ST lde A) s a s' : frames l_ft c -> c s = Ok (a, s') -> shaped s ->
  shaped s' /\ forall k j, owns s' k j <-> owns s k j.
Proof. intros Hc E Hs. unfold shaped, owns. by rewrite (Hc _ _ _ E). Qed.

Lemma upd_fn_inv g s a s' : upd_fn f g s = Ok (a, s') -> s' = ft_upd s f g.
Proof. unfold upd_fn, bind, deref_fn. by case_match; [intros [= _ <-]|]. Qed.
Lemma deref_fn_inv k s n s' : deref_fn k s = Ok (n, s') -> ft_find s k = Some n /\ s' = s.
Proof. unfold deref_fn. by case_match; [intros [= <- <-]|]. Qed.
Lemma tree_upd s g : tree s -> (forall m, fn_fec (g m) = fn_fec m) -> tree (ft_upd s f g).
Proof. intros H Hg. by apply rb_update_ok. Qed.
Lemma found_upd s g n : tree s -> (forall m, fn_fec (g m) = fn_fec m) -> ft_find s f = Some n -> ft_find (ft_upd s f g) f = Some (g n).
Proof.
  intros H Hg E. destruct (found_node s n H E) as [Hin Hc]. apply node_found; [by apply tree_upd| |by rewrite Hg].
  apply in_updated; [done..|]. exists n. split; [done|]. by left.
Qed.

Lemma remove_owned s : lib_ok s -> shaped s ->
  exists s', lde_kernel_remove f AF_INET nh 0 s = Ok (tt, s') /\ good s s' /\ pw_ids s' = pw_ids s /\ shaped s' /\
    forall k j, owns s' k j <-> k <> f /\ owns s k j.
Proof.
  intros H Hs. destruct (lwp_ok _ _ _ (keeps_kernel_remove f AF_INET nh 0 s H Hf (or_introl eq_refl))) as ([] & s' & E & Hg).
  exists s'. split; [done|]. split; [done|]. split; [exact (kept_kernel_remove pw_ids ids_upd_fn _ _ _ _ _ _ _ E)|].
  clear Hg. apply lib_ft in H. unfold lde_kernel_remove in E. rewrite (bind_ok get _ s s s) in E by done.
  destruct (ft_find s f) as [fn|] eqn:Ef.
  2: { injection E as <-. split; [done|]. intros k j. split; [|tauto]. intros Ho. split; [|done]. intros ->. by eapply unowned. }
  destruct (found_node s fn H Ef) as [Hin Hfn]. destruct (nh_found s fn Hs Hin Hfn) as [Enh Hsh].
  rewrite (bind_ok _ _ _ _ _ Enh) in E. destruct (fn_data fn) as [i|] eqn:Ed.
  2: { injection E as <-. split; [done|]. intros k j. split; [|tauto]. intros Ho. split; [|done]. intros ->.
       apply (owns_node s fn j H Ef) in Ho. congruence. }
  destruct Hsh as [h Eh]. rewrite Eh in E. cbn [lookup list_lookup] in E. apply bind_inv in E as ([] & s1 & E1 & E).
  apply (frames_delete_klabel l_ft) in E1; [|done..].
  assert (tree s1) as H1 by (by rewrite E1). assert (ft_find s1 f = Some fn) as Ef1 by (unfold ft_find; by rewrite E1).
  apply bind_inv in E as ([] & s2 & E2 & E). apply upd_fn_inv in E2 as ->.
  apply bind_inv in E as (n2 & s2 & [E2 ->]%deref_fn_inv & E).
  rewrite (found_upd s1 _ fn) in E2 by done. injection E2 as <-. cbn [fn_nexthops set_fn_nexthops] in E.
  rewrite Eh in E. cbn [take drop app] in E. apply bind_inv in E as ([] & s3 & E3 & E). apply upd_fn_inv in E as ->.
  set (g1 := fun n : fec_node => set_fn_nexthops n (take 0 (fn_nexthops n) ++ drop 1 (fn_nexthops n))) in *.
  assert (l_ft s3 = l_ft (ft_upd s1 f g1)) as F3.
  { revert E3. apply frames_bind; [apply frames_get|]. intros. apply frames_foreach. intros. by apply frames_withdraw. }
  assert (tree s3) as H3 by (rewrite F3; by apply tree_upd).
  assert (ft_find s3 f = Some (g1 fn)) as Ef3 by (unfold ft_find; rewrite F3; by apply found_upd).
  assert (forall k j, owns s3 k j <-> owns (ft_upd s1 f g1) k j) as O3 by (intros; unfold owns; by rewrite F3).
  assert (forall k j, owns s1 k j <-> owns s k j) as O1 by (intros; unfold owns; by rewrite E1).
  match goal with |- shaped (ft_upd s3 f ?g) /\ _ => set (g2 := g) end.
  assert (forall m, fn_fec (g2 m) = fn_fec m) as Hg2 by (intros m; unfold g2; by destruct (fn_fec m) eqn:Em; cbn; rewrite Em).
  assert (fn_data (g2 (g1 fn)) = None /\ fn_nexthops (g2 (g1 fn)) = []) as [D2 N2].
  { unfold g2, g1. cbn. rewrite Hfn, Eh. done. }
  split.
  - apply (shaped_upd s3 g2 (g1 fn)); [done| |done..|].
    + intros m Hm. rewrite F3 in Hm. revert m Hm. apply shaped_off_upd; [done| |done].
      intros m. rewrite E1. by apply shaped_shaped_off.
    + unfold node_shape. rewrite Hg2. cbn. by rewrite Hfn, D2, N2.
  - intros k j. rewrite (owns_upd s3 g2 (g1 fn)), O3, (owns_upd s1 g1 fn), O1 by done. rewrite D2. split.
    + intros [[? [[? ?]|[? _]]]|[_ [=]]]; [done|congruence].
    + intros [? ?]. left. split; [done|]. by left.
Qed.

(** The part of an insertion behind the assignments to the node. *)
Lemma insert_rest s fn a s' : fn_fec fn = f ->
  (lde_send_change_klabel fn (FecNh AF_INET nh NO_LABEL 0) ;;;
   (match fn_fec fn with FecPwid _ _ _ => ret tt | _ => lde_nbr_find_by_addr AF_INET nh ;;; ret tt end) ;;;
   do s <- get;
   match lde_nbr_find_by_lsrid s (u_pwid_lsr_id (fn_fec fn)) with
   | None => ret tt
   | Some peerid =>
       do ln <- deref_ln peerid;
       match rb_find me_fec fec_compare f (ln_recv_map ln) with
       | None => ret tt
       | Some me => lde_check_mapping (me_map me) peerid
       end
   end) s = Ok (a, s') -> pw_routes s' = pw_routes s.
Proof.
  intros Hfn. rewrite Hfn. revert s a s'. change (forall s a s', ?c s = Ok (a, s') -> _) with (frames pw_routes c).
  apply frames_bind; [apply (kept_change_klabel pw_routes)|]. intros _. apply frames_bind; [apply frames_ret|]. intros _.
  apply frames_bind; [apply frames_get|]. intros s. case_match; [|apply frames_ret].
  apply frames_bind; [apply frames_deref_ln|]. intros ln. case_match; [apply (kept_check_mapping pw_routes)|apply frames_ret].
Qed.

Lemma insert_owned s i : lib_ok s -> shaped s -> is_Some (pw_at s i) ->
  exists s', lde_kernel_insert f AF_INET nh 0 (Some i) s = Ok (tt, s') /\ good s s' /\ pw_ids s' = pw_ids s /\ shaped s' /\
    forall k j, owns s' k j <-> owns s k j \/ (k = f /\ j = i /\ forall j', ~ owns s f j').
Proof.
  intros H Hs Hi.
  assert (forall j, Some i = Some j -> is_Some (pw_at s j)) as Hd by (by intros j [= <-]).
  destruct (lwp_ok _ _ _ (keeps_kernel_insert f AF_INET nh 0 (Some i) s H Hf (or_introl eq_refl) Hd (fun _ => ex_intro _ i eq_refl)))
    as ([] & s' & E & Hg).
  exists s'. split; [done|]. split; [done|]. split; [exact (kept_kernel_insert pw_ids ids_upd_fn _ _ _ _ _ _ _ _ E)|].
  unfold lde_kernel_insert in E. rewrite (bind_ok get _ s s s) in E by done. apply bind_inv in E as ([] & s1 & E1 & E).
  assert (pw_routes s1 = pw_routes s /\ tree s1 /\ is_Some (ft_find s1 f)) as (R1 & H1 & [fn Ef]).
  { pose proof (lwp_find_or_add f s H Hf) as Hw. unfold lwp in Hw. rewrite E1 in Hw. destruct Hw as ([Hl _] & Hn & _).
    split; [|by split; [apply Hl|]]. revert E1. case_match; [by intros [= <-]|]. apply (kept_fec_add pw_routes). }
  destruct (same_routes s s1 R1 Hs) as [Hs1 O1].
  apply bind_inv in E as (fn' & s1' & [Ef' ->]%deref_fn_inv & E). rewrite Ef in Ef'. injection Ef' as <-.
  destruct (found_node s1 fn H1 Ef) as [Hin Hfn]. destruct (nh_found s1 fn Hs1 Hin Hfn) as [Enh Hsh].
  rewrite (bind_ok _ _ _ _ _ Enh) in E. destruct (fn_data fn) as [j0|] eqn:Ed.
  { injection E as <-. split; [done|]. intros k j. rewrite O1. split; [tauto|]. intros [?|(_ & _ & Hno)]; [done|].
    destruct (Hno j0). apply O1. by apply (owns_node s1 fn). }
  rewrite Hfn in E. apply bind_inv in E as ([] & s2 & E2 & E). apply upd_fn_inv in E2 as ->.
  apply bind_inv in E as ([] & s3 & E3 & E). apply upd_fn_inv in E3 as ->.
  set (g1 := fun n : fec_node => set_fn_data n (Some i)) in *.
  match type of E with context [ft_upd (ft_upd s1 f g1) f ?g] => set (g2 := g) in * end.
  assert (tree (ft_upd s1 f g1)) as H2 by (by apply tree_upd). assert (tree (ft_upd (ft_upd s1 f g1) f g2)) as H3 by (by apply tree_upd).
  assert (ft_find (ft_upd s1 f g1) f = Some (g1 fn)) as Ef2 by (by apply found_upd).
  assert (ft_find (ft_upd (ft_upd s1 f g1) f g2) f = Some (g2 (g1 fn))) as Ef3 by (by apply found_upd).
  apply bind_inv in E as (fn' & s3' & [Ef' ->]%deref_fn_inv & E). rewrite Ef3 in Ef'. injection Ef' as <-.
  apply insert_rest in E; [|done].
  destruct (same_routes _ s' E) as [Hs' O'].
  { apply (shaped_upd _ g2 (g1 fn)); [done| |done..|].
    - apply shaped_off_upd; [done|by apply shaped_shaped_off|done].
    - unfold node_shape. cbn. by rewrite Hfn, Hsh. }
  split; [done|]. intros k j. rewrite O', (owns_upd _ g2 (g1 fn)), (owns_upd s1 g1 fn), O1 by done. cbn.
  assert (forall j', ~ owns s f j') as Hno.
  { intros j' Ho. apply O1 in Ho. apply (owns_node s1 fn j' H1 Ef) in Ho. congruence. }
  split.
  - intros [[? [[? ?]|[? _]]]|[-> [= <-]]]; [by left|done|]. right. done.
  - intros [Ho|(-> & -> & _)]; [|by right]. left. assert (k <> f) by (intros ->; by eapply Hno). split; [done|]. by left.
Qed.
End Routes.
