(* ===== verification/LdeFun.v ===== *)
(** * What the label procedures do

    The functional behaviour of label mappings, withdraws, requests and of the
    initial announcement, for the prefixes of RFC 5036. *)
From stdpp Require Import prelude strings list sorting.
From Stdlib Require Import ZArith Lia.
From S2P Require Import Prelude Util Wire Ipc Fec Lde LdeLib LdeSafe LdeInv.

(** ** Which next hops belong to a neighbour *)
Definition addr_same (af : Z) (a b : ldpd_addr) : bool :=
  match ldp_addrcmp af a b with Ok c => c =? 0 | _ => false end.

(** The next hop is one of the addresses the neighbour announced. *)
Definition owns (ln : lde_nbr) (h : fec_nh) : bool :=
  existsb (fun a => (fst a =? fnh_af h) && addr_same (fnh_af h) (snd a) (fnh_nexthop h)) (ln_addr_list ln).

(** The next hops with a new label at those of the neighbour. *)
Definition relabel (ln : lde_nbr) (v : Z) (h : fec_nh) : fec_nh :=
  if owns ln h then set_fnh_label h v else h.

Definition is_prefix (f : fec) : Prop := fec_tag f <> FEC_TYPE_PWID.

Section Owners.
Lemma addr_eq_same af a b s : af_ok af -> addr_eq af a b s = Ok (addr_same af a b, s).
Proof.
  intros Haf. unfold addr_eq, addr_same, ldp_addrcmp, bind, lift, ret.
  destruct Haf as [-> | ->]; simpl; [|done].
  destruct (v4 a =? v4 b); [done|]. by destruct (ntohl (v4 a) >? ntohl (v4 b)).
Qed.

Lemma nh_of_nbr_owns p ln h s :
  af_ok (fnh_af h) -> lde_nbr_find s p = Some ln -> nh_of_nbr p h s = Ok (owns ln h, s).
Proof.
  intros Haf E. unfold nh_of_nbr, lde_address_find.
  rewrite (bind_ok _ _ s ln s) by (unfold deref_ln; by rewrite E).
  unfold owns. induction (ln_addr_list ln) as [|[af a] l IH]; [done|]. simpl.
  destruct (af =? fnh_af h) eqn:Ea; [|exact IH]. simpl.
  rewrite (bind_ok _ _ s _ s (addr_eq_same _ _ _ _ Haf)).
  destruct (addr_same (fnh_af h) a (fnh_nexthop h)); [done|exact IH].
Qed.

(** The neighbours and the LIB are not touched by kernel messages. *)
Definition lib_part (s : lde) := (l_ft s, l_nbrs s).

Lemma lwp_frames {A B} (proj : lde -> B) (c : ST lde A) Q s :
  frames proj c -> lwp c Q s -> lwp c (fun a s' => Q a s' /\ proj s' = proj s) s.
Proof.
  intros Hf Hc. apply lwp_ok in Hc as (a & s' & E & HQ). unfold lwp. rewrite E. eauto.
Qed.

(** One next hop of a prefix gets a label, behind a kernel message or before
    it: the look-ups that follow see exactly that. *)
Lemma lwp_set_label f j v n s :
  lib_ok s -> fec_ok f -> ft_find s f = Some n ->
  lwp (fec_nh_label f j v) (fun _ s' => good s s' /\ l_nbrs s' = l_nbrs s /\
    ft_find s' f = Some (set_fn_nexthops n (alter (fun h => set_fnh_label h v) j (fn_nexthops n)))) s.
Proof.
  intros H Hf E.
  assert (frames l_nbrs (fec_nh_label f j v)) as Hfr.
  { apply frames_bind; [by apply frames_deref_fn|]. by intros _ s1 a s2 [= _ <-]. }
  assert (lwp (fec_nh_label f j v) (fun _ s' => good s s' /\
    ft_find s' f = Some (set_fn_nexthops n (alter (fun h => set_fnh_label h v) j (fn_nexthops n)))) s) as Hw.
  { apply (lwp_upd_fn_find f (fun n => set_fn_nexthops n
      (alter (fun h => set_fnh_label h v) j (fn_nexthops n))) s n); try done. intros [Hh Hk Hd Hp Hb]. split; try done.
    - apply Forall_alter; [done|]. by intros.
    - simpl. intros Ht Hne. apply Hp; [done|]. intros En. apply Hne. by rewrite En. }
  eapply lwp_mono; [exact (lwp_frames _ _ _ _ Hfr Hw)|]. by intros ? s' [[? ?] ?].
Qed.

(** State of the LIB and the neighbours behind one turn of a loop over the
    next hops of [f]: the [j]-th has been relabelled. *)
Definition relabelled (s : lde) (f : fec) (n : fec_node) (nhs : list fec_nh) (s' : lde) : Prop :=
  good s s' /\ l_nbrs s' = l_nbrs s /\ exists n', ft_find s' f = Some n' /\
    fn_nexthops n' = nhs /\ fn_fec n' = fn_fec n /\ fn_data n' = fn_data n.

Lemma alter_relabel ln v j h (l : list fec_nh) :
  l !! j = Some h ->
  alter (relabel ln v) j l = if owns ln h then alter (fun h => set_fnh_label h v) j l else l.
Proof.
  intros Hj. unfold relabel. destruct (owns ln h) eqn:E.
  - apply list_eq. intros i. destruct (decide (i = j)) as [-> |Hne].
    + rewrite !list_lookup_alter_eq, Hj. simpl. by rewrite E.
    + by rewrite !list_lookup_alter_ne by done.
  - apply list_eq. intros i. destruct (decide (i = j)) as [-> |Hne].
    + rewrite list_lookup_alter_eq, Hj. simpl. by rewrite E.
    + by rewrite list_lookup_alter_ne by done.
Qed.

Lemma alter_none {A} (g : A -> A) j (l : list A) : l !! j = None -> alter g j l = l.
Proof.
  intros Hj. apply list_eq. intros i. rewrite list_lookup_alter. case_decide; [|done].
  subst. by rewrite Hj.
Qed.

Lemma lwp_uninstall p ln f j n s :
  lib_ok s -> fec_ok f -> lde_nbr_find s p = Some ln -> ft_find s f = Some n ->
  lwp (do fn <- deref_fn f;
    match fn_nexthops fn !! j with
    | None => ret tt
    | Some h => do own <- nh_of_nbr p h; if own : bool then uninstall_nh f j else ret tt
    end) (fun _ => relabelled s f n (alter (relabel ln NO_LABEL) j (fn_nexthops n))) s.
Proof.
  intros H Hf El En. apply lwp_bind, (lwp_deref_fn f n); [done|].
  destruct (ft_find_in s f n H En) as (Hn & _ & _).
  assert (relabelled s f n (fn_nexthops n) s) as Hid.
  { split; [by apply good_refl|]. split; [done|]. by exists n. }
  destruct (fn_nexthops n !! j) as [h|] eqn:Ej.
  2: { apply lwp_ret. by rewrite alter_none. }
  pose proof (node_nh_af s f n j h H En Ej) as Haf.
  apply lwp_bind. unfold lwp at 1. rewrite (nh_of_nbr_owns p ln h s Haf El).
  rewrite (alter_relabel ln NO_LABEL j h) by done. destruct (owns ln h); [|by apply lwp_ret].
  apply lwp_bind, (lwp_deref_fn f n); [done|]. rewrite Ej. apply lwp_bind.
  eapply lwp_mono.
  { apply (lwp_frames lib_part); [by apply frames_delete_klabel|].
    apply keeps_delete_klabel; [done|by eapply node_pw_live]. }
  intros _ s1 [Hg1 [= Eft Enb]].
  assert (ft_find s1 f = Some n) as En1 by (unfold ft_find; by rewrite Eft).
  eapply lwp_mono; [apply (lwp_set_label f j NO_LABEL n); [apply Hg1|done..]|].
  intros _ s2 (Hg2 & Enb2 & En2). split; [exact (good_trans _ _ _ Hg1 Hg2)|].
  split; [congruence|]. eexists. split; [done|]. done.
Qed.

Lemma lwp_install p ln f map j n s :
  lib_ok s -> fec_ok f -> is_prefix f -> lde_nbr_find s p = Some ln -> ft_find s f = Some n ->
  lwp (install_nh p f map j)
    (fun _ => relabelled s f n (alter (relabel ln (m_label map)) j (fn_nexthops n))) s.
Proof.
  intros H Hf Hpf El En. apply lwp_bind, (lwp_deref_fn f n); [done|].
  destruct (ft_find_in s f n H En) as (Hn & _ & Hc).
  assert (relabelled s f n (fn_nexthops n) s) as Hid.
  { split; [by apply good_refl|]. split; [done|]. by exists n. }
  destruct (fn_nexthops n !! j) as [h|] eqn:Ej.
  2: { apply lwp_ret. by rewrite alter_none. }
  pose proof (node_nh_af s f n j h H En Ej) as Haf.
  rewrite (alter_relabel ln (m_label map) j h) by done.
  assert (lwp (do own <- nh_of_nbr p h;
    if negb (own : bool) then ret tt
    else fec_nh_label f j (m_label map) ;;;
         do fn <- deref_fn f; lde_send_change_klabel fn (set_fnh_label h (m_label map)))
    (fun _ => relabelled s f n (if owns ln h then
       alter (fun h => set_fnh_label h (m_label map)) j (fn_nexthops n) else fn_nexthops n)) s) as Hgo.
  { apply lwp_bind. unfold lwp at 1. rewrite (nh_of_nbr_owns p ln h s Haf El).
    destruct (owns ln h); simpl; [|by apply lwp_ret]. apply lwp_bind.
    eapply lwp_mono; [by apply (lwp_set_label f j (m_label map) n)|].
    intros _ s1 (Hg1 & Enb1 & En1). apply lwp_bind. eapply lwp_deref_fn; [exact En1|].
    eapply lwp_mono.
    { apply (lwp_frames lib_part); [by apply frames_change_klabel|].
      apply keeps_change_klabel; [apply Hg1|].
      apply (pw_live_ext s); [apply Hg1|]. exact (node_pw_live s n j h Hn Ej). }
    intros _ s2 [Hg2 [= Eft Enb]]. split; [exact (good_trans _ _ _ Hg1 Hg2)|].
    split; [congruence|]. eexists. split; [unfold ft_find; rewrite Eft; exact En1|]. done. }
  destruct f; [exact Hgo..|]. by destruct Hpf.
Qed.

(** A loop that relabels the next hops one by one relabels them all. *)
Lemma lwp_relabel_all p ln f n v (body : nat -> ST lde unit) s :
  lib_ok s -> lde_nbr_find s p = Some ln -> ft_find s f = Some n ->
  (forall s' n' j, good s s' -> l_nbrs s' = l_nbrs s -> ft_find s' f = Some n' ->
     lwp (body j) (fun _ => relabelled s' f n' (alter (relabel ln v) j (fn_nexthops n'))) s') ->
  lwp (foreach body (seq 0 (length (fn_nexthops n))))
    (fun _ => relabelled s f n (relabel ln v <$> fn_nexthops n)) s.
Proof.
  intros H El En Hb.
  assert (forall k i s1 n1, good s s1 -> l_nbrs s1 = l_nbrs s -> ft_find s1 f = Some n1 ->
    fn_nexthops n1 = (relabel ln v <$> take i (fn_nexthops n)) ++ drop i (fn_nexthops n) ->
    (i + k = length (fn_nexthops n))%nat ->
    lwp (foreach body (seq i k)) (fun _ => relabelled s1 f n1 (relabel ln v <$> fn_nexthops n)) s1) as Hloop.
  { induction k as [|k IH]; intros i s1 n1 Hg1 Enb1 En1 Hnh Hlen; simpl.
    - apply lwp_ret. split; [by apply good_refl, Hg1|]. split; [done|]. exists n1. split; [done|].
      rewrite Hnh, take_ge, drop_ge, app_nil_r by lia. done.
    - apply lwp_bind. eapply lwp_mono; [by apply (Hb s1 n1 i)|].
      intros _ s2 (Hg2 & Enb2 & n2 & En2 & Hnh2 & Ef2 & Ed2).
      eapply lwp_mono; [apply (IH (S i) s2 n2); try done; [exact (good_trans _ _ _ Hg1 Hg2)|congruence| |lia]|].
      + rewrite Hnh2, Hnh.
        assert (i < length (fn_nexthops n))%nat as Hi by lia.
        destruct (lookup_lt_is_Some_2 _ _ Hi) as [h Hh].
        rewrite (drop_S _ _ _ Hh), (take_S_r _ _ _ Hh), fmap_app, <- app_assoc. simpl.
        assert (length (relabel ln v <$> take i (fn_nexthops n)) = i) as Hl.
        { rewrite length_fmap, length_take. lia. }
        rewrite <- Hl at 1. rewrite <- (Nat.add_0_r (length _)), alter_app_r. done.
      + intros _ s3 (Hg3 & Enb3 & n3 & En3 & Hnh3 & Ef3 & Ed3).
        split; [exact (good_trans _ _ _ Hg2 Hg3)|]. split; [congruence|].
        exists n3. split; [done|]. split; [done|]. split; congruence. }
  by apply (Hloop _ O s n).
Qed.
End Owners.

(** ** Label mappings and withdraws *)
Definition nexthops_of (s : lde) (f : fec) : list fec_nh :=
  match ft_find s f with Some n => fn_nexthops n | None => [] end.

Section Mapping.
Context (p : Z) (Hp : pid_ok p).

Lemma lwp_find_or_add_nh f s :
  lib_ok s -> fec_ok f ->
  lwp (match ft_find s f with None => fec_add f | Some _ => ret tt end)
    (fun _ s' => good s s' /\ l_nbrs s' = l_nbrs s /\
       exists n, ft_find s' f = Some n /\ fn_nexthops n = nexthops_of s f) s.
Proof.
  intros H Hf. pose proof (lwp_find_or_add f s H Hf) as Hw. unfold nexthops_of.
  destruct (ft_find s f) as [n|] eqn:E.
  - apply lwp_ret. split; [by apply good_refl|]. eauto.
  - apply lwp_ok in Hw as ([] & s1 & Ec & Hg & _ & Enb). unfold lwp. rewrite Ec.
    split; [done|]. split; [done|]. exists (fec_node_new f NO_LABEL). split; [|done].
    injection Ec as <-.
    destruct (rb_insert_none_find fn_fec fec_ok fec_compare (fec_node_new f NO_LABEL) (l_ft s)
      (lib_ft s H) Hf E) as (t & Ei & _). rewrite Ei.
    unfold ft_find. cbn [l_ft set_l_ft].
    rewrite (rb_find_insert_if fn_fec fec_ok fec_compare (fec_node_new f NO_LABEL) (l_ft s) t f
      (lib_ft s H) Hf Hf E Ei).
    cbn [fn_fec fec_node_new]. by rewrite (cmp_refl (ok := fec_ok)).
Qed.

(** The mapping is recorded under its FEC; the next hops stay. *)
Lemma lwp_record f k map n ln s :
  lib_ok s -> fec_ok f -> fec_ok k -> fec_compare f k = 0 -> map_ok map ->
  lde_nbr_find s p = Some ln -> ft_find s f = Some n ->
  lwp (record_recv_map p k map) (fun _ s' => good s s' /\
    (exists n', ft_find s' f = Some n' /\ fn_nexthops n' = fn_nexthops n) /\
    exists ln' me, lde_nbr_find s' p = Some ln' /\ ln_addr_list ln' = ln_addr_list ln /\
      rb_find me_fec fec_compare f (ln_recv_map ln') = Some me /\ me_map me = map) s.
Proof.
  intros H Hf Hk Hc Hm El En. destruct (nbr_find_in s p ln H El) as [Hn _].
  pose proof (cmp_zero_sym fec_ok fec_compare f k Hf Hk Hc) as Hc'.
  assert (rb_find me_fec fec_compare k (ln_recv_map ln) = rb_find me_fec fec_compare f (ln_recv_map ln))
    as Ek by (apply (rb_find_equiv me_fec fec_ok fec_compare); try done; apply (nbr_maps ln Hn false)).
  assert (keeps (record_recv_map p k map) s) as Hw.
  { apply keeps_record; try done. exists n. rewrite <- En. symmetry. by apply ft_find_equiv. }
  apply lwp_ok in Hw as ([] & s1 & Ec & Hg). unfold lwp. rewrite Ec. split; [done|].
  unfold record_recv_map in Ec. rewrite (bind_ok _ _ s ln s) in Ec by (unfold deref_ln; by rewrite El).
  destruct (rb_find me_fec fec_compare k (ln_recv_map ln)) as [me|] eqn:Em.
  - unfold upd_ln, bind, deref_ln in Ec. rewrite El in Ec. injection Ec as <-.
    set (h := fun n0 => set_ln_recv_map n0 _) in *. change (set_l_nbrs s _) with (nbrs_upd s p h).
    split; [by exists n|]. exists (h ln), (set_me_map me map).
    rewrite nbr_find_upd, Z.eqb_refl, El by done. split; [done|]. split; [done|]. split; [|done].
    cbn [ln_recv_map h set_ln_recv_map].
    rewrite (rb_find_update_if me_fec fec_ok fec_compare) by (done || apply (nbr_maps ln Hn false)).
    rewrite (proj2 (Z.eqb_eq _ _) Hc'), <- Ek. done.
  - destruct (rb_insert_none_find me_fec fec_ok fec_compare (LdeMap k map HomeLib) (ln_recv_map ln)
      (nbr_maps ln Hn false) Hk Em) as (t & Ei & _).
    unfold lde_map_add, link_map, upd_fn, upd_ln, bind, deref_fn, deref_ln in Ec.
    rewrite <- (ft_find_equiv s f k H Hf Hk Hc), En in Ec. cbn [rbind modify] in Ec.
    rewrite (El : lde_nbr_find (set_l_ft s _) p = Some ln) in Ec. injection Ec as <-.
    set (g := fun n0 => set_fn_downstream n0 _) in *. set (h := fun n0 => match rb_insert me_fec fec_compare (LdeMap k map HomeLib) (ln_recv_map n0) with
      | Some t => set_ln_recv_map n0 t | None => n0 end) in *.
    change (set_l_nbrs _ _) with (nbrs_upd (ft_upd s k g) p h).
    assert (forall n0, ln_peerid (h n0) = ln_peerid n0) as Hh by (intros n0; unfold h; by case_match).
    split.
    + exists (g n). split; [|done].
      change (ft_find (ft_upd s k g) f = Some (g n)).
      by rewrite ft_find_upd, (proj2 (Z.eqb_eq _ _) Hc'), En by done.
    + exists (h ln), (LdeMap k map HomeLib). split.
      * change (lde_nbr_find (nbrs_upd s p h) p = Some (h ln)).
        by rewrite nbr_find_upd, Z.eqb_refl, El by done.
      * unfold h. rewrite Ei. split; [done|]. split; [|done].
        cbn [ln_recv_map set_sent set_ln_recv_map].
        rewrite (rb_find_insert_if me_fec fec_ok fec_compare (LdeMap k map HomeLib) (ln_recv_map ln) t f
          (nbr_maps ln Hn false) Hk Hf Em Ei).
        cbn [me_fec]. by rewrite (proj2 (Z.eqb_eq _ _) Hc').
Qed.

Lemma relabel_twice ln v w h : relabel ln v (relabel ln w h) = relabel ln v h.
Proof.
  unfold relabel. destruct (owns ln h) eqn:E; [|by rewrite E].
  change (owns ln (set_fnh_label h w)) with (owns ln h). by rewrite E.
Qed.
End Mapping.

Section Procedures.
Context (p : Z) (Hp : pid_ok p).

(** The removal of a request leaves everything the procedures look at. *)
Lemma lwp_req_del f sent ln s :
  lib_ok s -> lde_nbr_find s p = Some ln ->
  lwp (lde_req_del p f sent) (fun _ s' => good s s' /\ l_ft s' = l_ft s /\
    exists ln', lde_nbr_find s' p = Some ln' /\ ln_addr_list ln' = ln_addr_list ln /\
      ln_recv_map ln' = ln_recv_map ln) s.
Proof.
  intros H El.
  destruct (lwp_ok _ _ _ (keeps_req_del p Hp f sent s H (ex_intro _ ln El))) as ([] & s1 & Ec & Hg).
  unfold lwp. rewrite Ec. split; [done|].
  unfold lde_req_del, upd_ln, bind, deref_ln in Ec. rewrite El in Ec. injection Ec as <-.
  set (h := fun n => if sent then _ else _). change (set_l_nbrs s _) with (nbrs_upd s p h).
  split; [done|]. exists (h ln).
  rewrite nbr_find_upd, Z.eqb_refl, El by (try done; intros n; unfold h; by destruct sent).
  unfold h. by destruct sent.
Qed.

Lemma owns_addrs ln ln' h : ln_addr_list ln' = ln_addr_list ln -> owns ln' h = owns ln h.
Proof. intros E. unfold owns. by rewrite E. Qed.

Lemma relabel_addrs ln ln' v (l : list fec_nh) :
  ln_addr_list ln' = ln_addr_list ln -> relabel ln' v <$> l = relabel ln v <$> l.
Proof.
  intros E. apply list_fmap_ext. intros i h _. unfold relabel. by rewrite (owns_addrs ln ln').
Qed.

Lemma map2fec_prefix map id f :
  lde_map2fec map id = Ok f -> is_prefix f -> (m_type map =? MAP_TYPE_PWID) = false.
Proof.
  intros E Hf. destruct (m_type map =? MAP_TYPE_PWID) eqn:Et; [|done]. zbool.
  unfold lde_map2fec in E. rewrite Et in E. injection E as <-. by destruct Hf.
Qed.

(** LMp.10a: every next hop of the neighbour loses its label. *)
Lemma lwp_release_old f old ln n s :
  lib_ok s -> fec_ok f -> lde_nbr_find s p = Some ln -> ft_find s f = Some n ->
  lwp (release_old_label p f old) (fun _ => relabelled s f n (relabel ln NO_LABEL <$> fn_nexthops n)) s.
Proof.
  intros H Hf El En. apply lwp_bind, (lwp_deref_fn f n); [done|].
  destruct (ft_find_in s f n H En) as ([_ _ Hd _ _] & _ & _). apply lwp_bind. eapply lwp_mono.
  { apply (lwp_frames lib_part); [by apply frames_release|].
    apply keeps_release; [done|eauto|]. by intros ? [= <-]. }
  intros _ s1 [Hg1 [= Eft Enb]].
  assert (ft_find s1 f = Some n) as En1 by (unfold ft_find; by rewrite Eft).
  assert (lde_nbr_find s1 p = Some ln) as El1 by (unfold lde_nbr_find; by rewrite Enb).
  eapply lwp_mono; [apply (lwp_relabel_all p ln f n NO_LABEL _ s1); [apply Hg1|done..|]|].
  - intros s' n' j Hg' Enb' En'. apply lwp_uninstall; [apply Hg'|done| |done].
    unfold lde_nbr_find. by rewrite Enb'.
  - intros _ s2 (Hg2 & Enb2 & n2 & En2 & Hnh & Ef & Ed).
    split; [exact (good_trans _ _ _ Hg1 Hg2)|]. split; [congruence|]. eauto 10.
Qed.

Lemma check_mapping_prefix_lwp map ln f s :
  lib_ok s -> lde_nbr_find s p = Some ln -> map_ok map ->
  lde_map2fec map (ln_id ln) = Ok f -> fec_ok f -> is_prefix f ->
  lwp (lde_check_mapping map p) (fun _ s' => lib_ok s' /\
    nexthops_of s' f = relabel ln (m_label map) <$> nexthops_of s f /\
    exists ln' me, lde_nbr_find s' p = Some ln' /\
      rb_find me_fec fec_compare f (ln_recv_map ln') = Some me /\ me_map me = map) s.
Proof.
  intros H El Hm Ef Hf Hpf. pose proof (map2fec_prefix _ _ _ Ef Hpf) as Hty.
  apply lwp_bind, (lwp_deref_ln p ln); [done|]. apply lwp_bind. eapply lwp_lift; [exact Ef|].
  apply lwp_bind, lwp_get, lwp_bind. eapply lwp_mono; [by apply lwp_find_or_add_nh|].
  intros _ s1 (Hg1 & Enb1 & n1 & En1 & Hn1). apply lwp_bind, (lwp_deref_fn f n1); [done|].
  assert (lde_nbr_find s1 p = Some ln) as El1 by (unfold lde_nbr_find; by rewrite Enb1).
  apply lwp_bind. apply (lwp_mono _ (fun _ s' => good s1 s' /\ l_ft s' = l_ft s1 /\
    exists ln', lde_nbr_find s' p = Some ln' /\ ln_addr_list ln' = ln_addr_list ln /\
      ln_recv_map ln' = ln_recv_map ln)).
  { case_match; [by apply lwp_req_del; [apply Hg1|]|].
    apply lwp_ret. split; [apply good_refl, Hg1|]. eauto. }
  intros _ s2 (Hg2 & Eft2 & ln2 & El2 & Ea2 & Er2). rewrite Hty.
  apply lwp_bind, lwp_ret, lwp_bind, (lwp_deref_ln p ln2); [done|].
  assert (ft_find s2 f = Some n1) as En2 by (unfold ft_find; by rewrite Eft2).
  apply lwp_bind. apply (lwp_mono _ (fun _ s' => good s2 s' /\ exists n ln', ft_find s' f = Some n /\
    lde_nbr_find s' p = Some ln' /\ ln_addr_list ln' = ln_addr_list ln /\
    relabel ln (m_label map) <$> fn_nexthops n = relabel ln (m_label map) <$> fn_nexthops n1)).
  { assert (lwp (ret tt) (fun _ s' => good s2 s' /\ exists n ln', ft_find s' f = Some n /\
      lde_nbr_find s' p = Some ln' /\ ln_addr_list ln' = ln_addr_list ln /\
      relabel ln (m_label map) <$> fn_nexthops n = relabel ln (m_label map) <$> fn_nexthops n1) s2)
      as Hr by (apply lwp_ret; split; [apply good_refl, Hg2|eauto 10]).
    repeat case_match; try exact Hr.
    eapply lwp_mono; [by apply (lwp_release_old f _ ln2 n1); [apply Hg2|..]|].
    intros _ s3 (Hg3 & Enb3 & n3 & En3 & Hnh3 & _). split; [done|]. exists n3, ln2.
    split; [done|]. split; [unfold lde_nbr_find; by rewrite Enb3|]. split; [done|].
    rewrite Hnh3, (relabel_addrs ln ln2), <- list_fmap_compose by done.
    apply list_fmap_ext. intros i h _. apply relabel_twice. }
  intros _ s3 (Hg3 & n3 & ln3 & En3 & El3 & Ea3 & Hnh3).
  apply lwp_bind, (lwp_deref_fn f n3); [done|].
  destruct (ft_find_in s3 f n3 (proj1 Hg3) En3) as (_ & Hok3 & Hc3).
  apply lwp_bind. eapply lwp_mono.
  { apply (lwp_relabel_all p ln3 f n3 (m_label map)); [apply Hg3|done..|].
    intros s' n' j Hg' Enb' En'. apply lwp_install; [apply Hg'|done..| |done].
    unfold lde_nbr_find. by rewrite Enb'. }
  intros _ s4 (Hg4 & Enb4 & n4 & En4 & Hnh4 & _).
  assert (lde_nbr_find s4 p = Some ln3) as El4 by (unfold lde_nbr_find; by rewrite Enb4).
  eapply lwp_mono; [by apply (lwp_record p Hp f (fn_fec n3) map n4 ln3); [apply Hg4|..]|].
  intros _ s5 (Hg5 & (n5 & En5 & Hnh5) & ln5 & me & El5 & _ & Em & Hme).
  split; [apply Hg5|]. split; [|eauto].
  unfold nexthops_of at 1. rewrite En5, Hnh5, Hnh4, (relabel_addrs ln ln3), Hnh3, Hn1 by done. done.
Qed.
End Procedures.

(** C20: a label mapping for a prefix is installed and retained.  When a
    neighbour maps a label to a prefix, afterwards every next hop of the prefix
    that is one of the neighbour's addresses has exactly that remote label,
    every other next hop keeps its own, and the mapping is recorded for the
    neighbour even if no next hop is its (liberal label retention); an earlier
    label of the neighbour is replaced. *)
Theorem lde_check_mapping_prefix (s : lde) (p : Z) (ln : lde_nbr) (map : ldp_map) (f : fec)
    (Hs : reach s) (Hp : pid_ok p) (Hln : lde_nbr_find s p = Some ln) (Hmap : map_ok map)
    (Hf : lde_map2fec map (ln_id ln) = Ok f) (Hpf : is_prefix f) :
  exists s', lde_check_mapping map p s = Ok (tt, s') /\
    nexthops_of s' f = relabel ln (m_label map) <$> nexthops_of s f /\
    exists ln' me, lde_nbr_find s' p = Some ln' /\
      rb_find me_fec fec_compare f (ln_recv_map ln') = Some me /\ me_map me = map.
Proof.
  pose proof (reach_lib s Hs) as H. destruct (nbr_find_in s p ln H Hln) as [Hn _].
  destruct (map2fec_ok map (ln_id ln) Hmap (nbr_id ln Hn)) as (f' & Ef & Hok).
  assert (f' = f) as -> by congruence.
  destruct (lwp_ok _ _ _ (check_mapping_prefix_lwp p Hp map ln f s H Hln Hmap Hf Hok Hpf))
    as ([] & s' & E & _ & HQ). eauto.
Qed.

(** A neighbour with one address that is the next hop of 10.1.0.0/16. *)
Definition ex_nh : ldpd_addr := addr_of_v4 (inet_addr 10 0 0 1).
Definition ex_fec : fec := FecIpv4 16 (inet_addr 10 1 0 0) 0.
Definition ex_map : ldp_map := set_m_label (lde_fec2map ex_fec) 40.
Definition lde_ex1 : lde := after (lde_start [] false false) (NbrNew 1 (inet_addr 1 1 1 1) true false).
Definition lde_ex2 : lde := after lde_ex1 (AddressAdd 1 AF_INET ex_nh).
Definition lde_ex : lde := after lde_ex2 (KernelInsert ex_fec AF_INET ex_nh 0 None).

Lemma reach_ex : reach lde_ex.
Proof.
  apply (reach_step lde_ex2 (KernelInsert ex_fec AF_INET ex_nh 0 None)).
  - apply (reach_step lde_ex1 (AddressAdd 1 AF_INET ex_nh)).
    + apply (reach_step (lde_start [] false false) (NbrNew 1 (inet_addr 1 1 1 1) true false)).
      * apply reach_start. constructor.
      * vm_compute. intuition congruence.
      * vm_compute. reflexivity.
    + split; [|by left]. split; [unfold pid_ok; lia|]. vm_compute. eauto.
    + vm_compute. reflexivity.
  - split; [vm_compute; intuition congruence|]. split; [by left|]. done.
  - vm_compute. reflexivity.
Qed.

Definition ex_nbr : lde_nbr :=
  LdeNbr 1 (inet_addr 1 1 1 1) true false [] [] [] [] [] [(AF_INET, ex_nh)].

Lemma ex_map_ok : map_ok ex_map.
Proof.
  split; [|discriminate]. intros _. split; [by left|]. split; [unfold is_u; simpl; lia|].
  split; [reflexivity|]. by apply bytes_okb_ok.
Qed.

Lemma lde_check_mapping_prefix_witness :
  exists s', lde_check_mapping ex_map 1 lde_ex = Ok (tt, s') /\
    nexthops_of s' ex_fec = [FecNh AF_INET ex_nh 40 0] /\
    exists ln' me, lde_nbr_find s' 1 = Some ln' /\
      rb_find me_fec fec_compare ex_fec (ln_recv_map ln') = Some me /\ me_map me = ex_map.
Proof.
  apply (lde_check_mapping_prefix lde_ex 1 ex_nbr ex_map ex_fec).
  - apply reach_ex.
  - unfold pid_ok. lia.
  - vm_compute. reflexivity.
  - apply ex_map_ok.
  - vm_compute. reflexivity.
  - discriminate.
Defined.

(** ** Withdraws *)

(** The FECs of the LIB with their next hops. *)
Definition routes (s : lde) : list (fec * list fec_nh) :=
  List.map (fun n => (fn_fec n, fn_nexthops n)) (l_ft s).

Section Withdraws.
Lemma nexthops_routes s s' f : routes s' = routes s -> nexthops_of s' f = nexthops_of s f.
Proof.
  unfold routes, nexthops_of, ft_find, rb_find.
  generalize (l_ft s) as t, (l_ft s') as t'. induction t as [|n t IH]; intros [|n' t'] E; try done.
  injection E as Ef En Et. simpl. rewrite Ef. destruct (fec_compare f (fn_fec n) =? 0); [done|].
  by apply IH.
Qed.

Lemma frames_upd_fn_routes f g :
  (forall n, fn_fec (g n) = fn_fec n) -> (forall n, fn_nexthops (g n) = fn_nexthops n) ->
  frames routes (upd_fn f g).
Proof.
  intros H1 H2. apply frames_bind; [by apply frames_deref_fn|]. intros _ s a s' [= _ <-].
  unfold routes, rb_update. cbn [l_ft set_l_ft]. rewrite map_map. apply map_ext. intros n.
  case_match; [|done]. by rewrite H1, H2.
Qed.

Lemma frames_map_del_routes p me sent : frames routes (lde_map_del p me sent).
Proof.
  apply frames_bind; [by apply frames_upd_ln|]. intros _. unfold unlink_map. case_match.
  - by apply frames_upd_fn_routes; intros; destruct sent.
  - intros s a s'. unfold bind, get, put, undef. cbn [rbind].
    repeat case_match; try done. by intros [= _ <-].
Qed.

Context (p : Z) (Hp : pid_ok p).

Lemma lwp_forget map f k ln s :
  lib_ok s -> fec_ok f -> fec_ok k -> fec_compare f k = 0 -> lde_nbr_find s p = Some ln ->
  lwp (forget_recv_map map p k) (fun _ s' => lib_ok s' /\ routes s' = routes s /\
    exists ln', lde_nbr_find s' p = Some ln' /\
      rb_find me_fec fec_compare f (ln_recv_map ln')
      = match rb_find me_fec fec_compare f (ln_recv_map ln) with
        | Some me => if label_matches map (m_label (me_map me)) then None else Some me
        | None => None
        end) s.
Proof.
  intros H Hf Hk Hc El. destruct (nbr_find_in s p ln H El) as [Hn _].
  apply lwp_bind, (lwp_deref_ln p ln); [done|].
  rewrite <- (rb_find_equiv me_fec fec_ok fec_compare f k) by (done || apply (nbr_maps ln Hn false)).
  destruct (rb_find me_fec fec_compare f (ln_recv_map ln)) as [me|] eqn:Em.
  2: { apply lwp_ret. eauto. }
  case_match; [|apply lwp_ret; eauto].
  apply rb_find_in in Em as [Hin He].
  eapply lwp_mono; [apply (lwp_frames routes); [apply frames_map_del_routes|]; by apply (lwp_map_del p ln)|].
  intros _ s1 [(Hg & ln' & El' & Em' & _) Er]. split; [apply Hg|]. split; [done|]. exists ln'.
  split; [done|]. change (ln_recv_map ln') with (sent_of false ln'). rewrite Em'.
  pose proof (tree_ok_elem _ _ _ _ me (nbr_maps ln Hn false) Hin) as Hme.
  rewrite (rb_find_remove_if me_fec fec_ok fec_compare) by (done || apply (nbr_maps ln Hn false)).
  by rewrite (cmp_zero_sym fec_ok fec_compare f (me_fec me)).
Qed.

Lemma check_withdraw_prefix_lwp map ln f s :
  lib_ok s -> lde_nbr_find s p = Some ln -> map_ok map ->
  lde_map2fec map (ln_id ln) = Ok f -> fec_ok f -> is_prefix f ->
  lwp (lde_check_withdraw map p) (fun _ s' => lib_ok s' /\
    nexthops_of s' f = relabel ln NO_LABEL <$> nexthops_of s f /\
    exists ln', lde_nbr_find s' p = Some ln' /\
      rb_find me_fec fec_compare f (ln_recv_map ln')
      = match rb_find me_fec fec_compare f (ln_recv_map ln) with
        | Some me => if label_matches map (m_label (me_map me)) then None else Some me
        | None => None
        end) s.
Proof.
  intros H El Hm Ef Hf Hpf. pose proof (map2fec_prefix _ _ _ Ef Hpf) as Hty.
  unfold lde_check_withdraw, pw_wildcard. rewrite Hty. simpl.
  apply lwp_bind, (lwp_deref_ln p ln); [done|]. apply lwp_bind. eapply lwp_lift; [exact Ef|].
  apply lwp_bind, lwp_get, lwp_bind. eapply lwp_mono; [by apply lwp_find_or_add_nh|].
  intros _ s1 (Hg1 & Enb1 & n1 & En1 & Hn1). apply lwp_bind, (lwp_deref_fn f n1); [done|].
  assert (lde_nbr_find s1 p = Some ln) as El1 by (unfold lde_nbr_find; by rewrite Enb1).
  apply lwp_bind. eapply lwp_mono.
  { apply (lwp_relabel_all p ln f n1 NO_LABEL); [apply Hg1|done..|].
    intros s' n' j Hg' Enb' En'.
    assert (lde_nbr_find s' p = Some ln) as El' by (unfold lde_nbr_find; by rewrite Enb').
    pose proof (lwp_uninstall p ln f j n' s' (proj1 Hg') Hf El' En') as Hu.
    destruct f; [exact Hu..|]. by destruct Hpf. }
  intros _ s2 (Hg2 & Enb2 & n2 & En2 & Hnh2 & Efec2 & _). apply lwp_bind, (lwp_deref_fn f n2); [done|].
  destruct (ft_find_in s2 f n2 (proj1 Hg2) En2) as ([_ _ Hd _ _] & Hok2 & Hc2).
  assert (lde_nbr_find s2 p = Some ln) as El2 by (unfold lde_nbr_find; by rewrite Enb2).
  apply lwp_bind. eapply lwp_mono.
  { apply (lwp_frames lib_part); [by apply frames_release|].
    apply keeps_release; [apply Hg2|eauto|]. by intros ? [= <-]. }
  intros _ s3 [Hg3 [= Eft3 Enb3]].
  assert (lde_nbr_find s3 p = Some ln) as El3 by (unfold lde_nbr_find; by rewrite Enb3).
  eapply lwp_mono; [by apply (lwp_forget map f (fn_fec n2) ln); [apply Hg3|..]|].
  intros _ s4 (H4 & Er4 & HQ). split; [done|]. split; [|done].
  rewrite (nexthops_routes s3 s4) by done. unfold nexthops_of at 1, ft_find. rewrite Eft3.
  fold (ft_find s2 f). by rewrite En2, Hnh2, Hn1.
Qed.
End Withdraws.

(** C21: a label withdraw for a prefix takes the neighbour's label out of use:
    every next hop that is one of its addresses loses its remote label, the
    others keep theirs, and the recorded mapping is dropped exactly when the
    withdraw names its label or none. *)
Theorem lde_check_withdraw_prefix (s : lde) (p : Z) (ln : lde_nbr) (map : ldp_map) (f : fec)
    (Hs : reach s) (Hp : pid_ok p) (Hln : lde_nbr_find s p = Some ln) (Hmap : map_ok map)
    (Hf : lde_map2fec map (ln_id ln) = Ok f) (Hpf : is_prefix f) :
  exists s', lde_check_withdraw map p s = Ok (tt, s') /\
    nexthops_of s' f = relabel ln NO_LABEL <$> nexthops_of s f /\
    exists ln', lde_nbr_find s' p = Some ln' /\
      rb_find me_fec fec_compare f (ln_recv_map ln')
      = match rb_find me_fec fec_compare f (ln_recv_map ln) with
        | Some me => if label_matches map (m_label (me_map me)) then None else Some me
        | None => None
        end.
Proof.
  pose proof (reach_lib s Hs) as H. destruct (nbr_find_in s p ln H Hln) as [Hn _].
  destruct (map2fec_ok map (ln_id ln) Hmap (nbr_id ln Hn)) as (f' & Ef & Hok).
  assert (f' = f) as -> by congruence.
  destruct (lwp_ok _ _ _ (check_withdraw_prefix_lwp p Hp map ln f s H Hln Hmap Hf Hok Hpf))
    as ([] & s' & E & _ & HQ). eauto.
Qed.

Lemma lde_check_withdraw_prefix_witness :
  exists s', lde_check_withdraw ex_map 1 lde_ex = Ok (tt, s') /\
    nexthops_of s' ex_fec = [FecNh AF_INET ex_nh NO_LABEL 0] /\
    exists ln', lde_nbr_find s' 1 = Some ln' /\
      rb_find me_fec fec_compare ex_fec (ln_recv_map ln') = None.
Proof.
  apply (lde_check_withdraw_prefix lde_ex 1 ex_nbr ex_map ex_fec).
  - apply reach_ex.
  - unfold pid_ok. lia.
  - vm_compute. reflexivity.
  - apply ex_map_ok.
  - vm_compute. reflexivity.
  - discriminate.
Defined.

(** ** Requests and announcements *)

(** The neighbour exchanges mappings for FECs of this family. *)
Definition enabled_for (ln : lde_nbr) (f : fec) : bool :=
  match f with FecIpv4 _ _ _ => ln_v4_enabled ln | FecIpv6 _ _ => ln_v6_enabled ln | FecPwid _ _ _ => false end.

Definition request_nack (map : ldp_map) (status : Z) : notify_msg :=
  NotifyMsg status (m_msg_id map) (htons MSG_TYPE_LABELREQUEST) 0 map_zero 0.

(** The mapping that answers a request. *)
Definition request_answer (map : ldp_map) (f : fec) (label : Z) : ldp_map :=
  set_m_flags (set_m_requestid (set_m_label (lde_fec2map f) label) (ntohl (m_msg_id map))) F_MAP_REQ_ID.

(** What the engine sends for a label request for the prefix [f]. *)
Definition request_reply (s : lde) (p : Z) (ln : lde_nbr) (map : ldp_map) (f : fec) : list lde_out :=
  match ft_find s f with
  | None => [NotificationSend p (request_nack map S_NO_ROUTE)]
  | Some n =>
      if bool_decide (fn_nexthops n = []) then [NotificationSend p (request_nack map S_NO_ROUTE)]
      else if existsb (owns ln) (fn_nexthops n)
      then [NotificationSend p (request_nack map S_LOOP_DETECTED)]
      else match rb_find lre_fec fec_compare f (ln_recv_req ln) with
           | Some _ => []
           | None =>
               if enabled_for ln f
               then [MappingAdd p (request_answer map (fn_fec n) NO_LABEL); MappingAddEnd p]
               else []
           end
  end.

#[export] Instance fec_eq_dec : EqDecision fec.
Proof. solve_decision. Defined.
#[export] Instance fec_nh_eq_dec : EqDecision fec_nh.
Proof. solve_decision. Defined.

Section Requests.
Context (p : Z) (Hp : pid_ok p).

Lemma loop_detected_owns ln f l s :
  is_prefix f -> lde_nbr_find s p = Some ln -> Forall (fun h => af_ok (fnh_af h)) l ->
  loop_detected p f l s = Ok (existsb (owns ln) l, s).
Proof.
  intros Hf El. induction 1 as [|h l Hh _ IH]; [done|]. simpl.
  destruct f; [| |by destruct Hf];
    (rewrite (bind_ok _ _ s _ s (nh_of_nbr_owns p ln h s Hh El)); by destruct (owns ln h)).
Qed.

Lemma sendable_prefix ln fn s :
  is_prefix (fn_fec fn) ->
  sendable_to ln fn s = Ok (if enabled_for ln (fn_fec fn) then Some None else None, s).
Proof. unfold sendable_to. intros Hf. destruct (fn_fec fn); [done|done|by destruct Hf]. Qed.

Lemma frames_out_map_add f h sent map : frames l_out (lde_map_add p f h sent map).
Proof.
  apply frames_bind.
  - unfold link_map. case_match.
    + apply frames_bind; [by apply frames_deref_fn|]. by intros _ s a s' [= _ <-].
    + by intros s a s' [= _ <-].
  - intros _. by apply frames_upd_ln.
Qed.

(** The answer to a request that was just recorded. *)
Lemma labelmapping_answer fn ln lre s s' :
  is_prefix (fn_fec fn) -> lde_nbr_find s p = Some ln ->
  rb_find lre_fec fec_compare (fn_fec fn) (ln_recv_req ln) = Some lre ->
  lde_send_labelmapping p fn HomeLib true s = Ok (tt, s') ->
  l_out s' = l_out s ++
    if enabled_for ln (fn_fec fn)
    then [MappingAdd p (set_m_flags (set_m_requestid (set_m_label (lde_fec2map (fn_fec fn))
            (fn_local_label fn)) (lre_msg_id lre)) F_MAP_REQ_ID); MappingAddEnd p]
    else [].
Proof.
  intros Hf El Er E. unfold lde_send_labelmapping in E.
  rewrite (bind_ok _ _ s ln s) in E by (unfold deref_ln; by rewrite El).
  rewrite (bind_ok _ _ s _ s (sendable_prefix ln fn s Hf)) in E.
  destruct (enabled_for ln (fn_fec fn)).
  2: { injection E as <-. by rewrite app_nil_r. }
  rewrite Er in E. apply bind_inv in E as (m & s1 & E1 & E2).
  apply bind_inv in E1 as ([] & s2 & E1 & E3). injection E3 as <- <-.
  assert (l_out s2 = l_out s) as Eo.
  { refine (frames_upd_ln l_out _ p _ s tt s2 E1). done. }
  apply bind_inv in E2 as ([] & s3 & E4 & E5). injection E4 as <-.
  apply bind_inv in E5 as ([] & s4 & E6 & E7). injection E6 as <-.
  assert (l_out s' = l_out (set_l_out (set_l_out s2 (l_out s2 ++ [MappingAdd p
    (set_m_flags (set_m_requestid (set_m_label (lde_fec2map (fn_fec fn)) (fn_local_label fn))
       (lre_msg_id lre)) F_MAP_REQ_ID)])) ((l_out s2 ++ [MappingAdd p
    (set_m_flags (set_m_requestid (set_m_label (lde_fec2map (fn_fec fn)) (fn_local_label fn))
       (lre_msg_id lre)) F_MAP_REQ_ID)]) ++ [MappingAddEnd p]))) as ->.
  { revert E7. case_match; intros E7.
    - refine (frames_upd_ln l_out _ p _ _ tt s' E7). done.
    - exact (frames_out_map_add _ _ _ _ _ tt s' E7). }
  cbn [l_out set_l_out]. by rewrite Eo, <- app_assoc.
Qed.

Lemma check_request_reply map ln f s :
  lib_ok s -> lde_nbr_find s p = Some ln -> map_ok map ->
  lde_map2fec map (ln_id ln) = Ok f -> fec_ok f -> is_prefix f ->
  exists s', lde_check_request map p s = Ok (tt, s') /\ l_out s' = l_out s ++ request_reply s p ln map f.
Proof.
  intros H El Hm Ef Hf Hpf.
  destruct (lwp_ok _ _ _ (keeps_check_request p Hp map s H (ex_intro _ ln El) Hm)) as ([] & s' & E & _).
  exists s'. split; [done|]. unfold lde_check_request in E.
  rewrite (bind_ok _ _ s ln s) in E by (unfold deref_ln; by rewrite El).
  rewrite (bind_ok _ _ s f s) in E by (unfold lift; by rewrite Ef).
  rewrite (bind_ok _ _ s s s) in E by done. unfold request_reply.
  destruct (ft_find s f) as [n|] eqn:En; [|by injection E as <-].
  destruct (ft_find_in s f n H En) as ([Hnh _ Hd _ Hlb] & Hok & Hc).
  pose proof (fec_tag_equiv _ _ Hc) as Htag.
  destruct (fn_nexthops n) as [|h l] eqn:Enh; [by injection E as <-|].
  rewrite (bind_ok _ _ s _ s (loop_detected_owns ln f _ s Hpf El Hnh)) in E.
  rewrite bool_decide_eq_false_2 by done.
  destruct (existsb (owns ln) (h :: l)); [by injection E as <-|].
  destruct (nbr_find_in s p ln H El) as [Hn _]. destruct (nbr_req ln Hn) as [Hrr _].
  rewrite <- (rb_find_equiv lre_fec fec_ok fec_compare f (fn_fec n)) in E by (done || apply Hrr).
  destruct (rb_find lre_fec fec_compare f (ln_recv_req ln)) as [r|] eqn:Er.
  { injection E as <-. by rewrite app_nil_r. }
  apply bind_inv in E as ([] & s1 & E1 & E2).
  unfold lde_req_add, upd_ln, bind, deref_ln in E1. rewrite El in E1. injection E1 as <-.
  set (g := fun n0 => match rb_insert lre_fec fec_compare (LdeReq (fn_fec n) (ntohl (m_msg_id map)))
    (ln_recv_req n0) with Some t => set_ln_recv_req n0 t | None => n0 end) in *.
  change (set_l_nbrs s _) with (nbrs_upd s p g) in E2.
  assert (rb_find lre_fec fec_compare (fn_fec n) (ln_recv_req ln) = None) as Er'.
  { rewrite <- Er. symmetry. apply (rb_find_equiv lre_fec fec_ok fec_compare); (done || apply Hrr). }
  destruct (rb_insert_none_find lre_fec fec_ok fec_compare (LdeReq (fn_fec n) (ntohl (m_msg_id map)))
    (ln_recv_req ln) Hrr Hok Er') as (t & Ei & _).
  assert (lde_nbr_find (nbrs_upd s p g) p = Some (set_ln_recv_req ln t)) as El1.
  { rewrite nbr_find_upd, Z.eqb_refl, El by (try done; intros n0; unfold g; by case_match).
    simpl. unfold g. by rewrite Ei. }
  assert (is_prefix (fn_fec n)) as Hpn by (unfold is_prefix; by rewrite <- Htag).
  eapply (labelmapping_answer n (set_ln_recv_req ln t)
    (LdeReq (fn_fec n) (ntohl (m_msg_id map)))) in E2; [|done..|].
  - rewrite E2. cbn [l_out nbrs_upd set_l_nbrs]. f_equal. unfold request_answer. rewrite Hlb.
    assert (enabled_for (set_ln_recv_req ln t) (fn_fec n) = enabled_for ln f) as ->; [|done].
    by destruct f, (fn_fec n).
  - cbn [ln_recv_req set_ln_recv_req].
    rewrite (rb_find_insert_if lre_fec fec_ok fec_compare (LdeReq (fn_fec n) (ntohl (m_msg_id map)))
      (ln_recv_req ln) t (fn_fec n) Hrr Hok Hok Er' Ei).
    cbn [lre_fec]. by rewrite (cmp_refl (ok := fec_ok)).
Qed.
End Requests.

(** C26: how a label request for a prefix is answered.  Without a route to the
    prefix the reply is "no route"; if the requesting neighbour is itself a next
    hop, "loop detected"; a duplicate of a pending request is ignored; otherwise
    a mapping with the identifier of the request is sent, to a neighbour that
    has the address family enabled.  That mapping carries no label: its label is
    [NO_LABEL], because no route ever gets one. *)
Theorem lde_check_request_reply (s : lde) (p : Z) (ln : lde_nbr) (map : ldp_map) (f : fec)
    (Hs : reach s) (Hp : pid_ok p) (Hln : lde_nbr_find s p = Some ln) (Hmap : map_ok map)
    (Hf : lde_map2fec map (ln_id ln) = Ok f) (Hpf : is_prefix f) :
  exists s', lde_check_request map p s = Ok (tt, s') /\ l_out s' = l_out s ++ request_reply s p ln map f.
Proof.
  pose proof (reach_lib s Hs) as H. destruct (nbr_find_in s p ln H Hln) as [Hn _].
  destruct (map2fec_ok map (ln_id ln) Hmap (nbr_id ln Hn)) as (f' & Ef & Hok).
  assert (f' = f) as -> by congruence. by apply (check_request_reply p Hp).
Qed.

Lemma lde_check_request_reply_witness :
  exists s', lde_check_request ex_map 1 lde_ex = Ok (tt, s') /\
    l_out s' = l_out lde_ex ++ [NotificationSend 1 (request_nack ex_map S_LOOP_DETECTED)].
Proof.
  apply (lde_check_request_reply lde_ex 1 ex_nbr ex_map ex_fec).
  - apply reach_ex.
  - unfold pid_ok. lia.
  - vm_compute. reflexivity.
  - apply ex_map_ok.
  - vm_compute. reflexivity.
  - discriminate.
Defined.

(** The engine announces no unicast label.  In every reachable state no
    node of the LIB has a local label, so the announcement of the LIB to a new
    neighbour consists of the end marker alone. *)
Theorem fec_snap_silent (s : lde) (p : Z) (Hs : reach s) (Hp : live s p) :
  Forall (fun n => fn_local_label n = NO_LABEL) (l_ft s) /\
  fec_snap p s = Ok (tt, set_l_out s (l_out s ++ [MappingAddEnd p])).
Proof.
  pose proof (reach_lib s Hs) as H.
  assert (Forall (fun n => fn_local_label n = NO_LABEL) (l_ft s)) as Hl.
  { eapply Forall_impl; [exact (lib_nodes s H)|]. intros n Hn. apply Hn. }
  split; [done|]. unfold fec_snap. rewrite (bind_ok _ _ s s s) by done.
  assert (forall t, Forall (fun n => fn_local_label n = NO_LABEL) t ->
    foreach (fun fn => if fn_local_label fn =? NO_LABEL then ret tt
                       else lde_send_labelmapping p fn HomeLib false) t s = Ok (tt, s)) as Hfe.
  { induction 1 as [|n t Hn _ IH]; [done|]. simpl. unfold bind. rewrite Hn. simpl. exact IH. }
  unfold bind. by rewrite (Hfe _ Hl).
Qed.

Lemma fec_snap_silent_witness :
  fec_snap 1 lde_ex = Ok (tt, set_l_out lde_ex (l_out lde_ex ++ [MappingAddEnd 1])).
Proof.
  apply (fec_snap_silent lde_ex 1).
  - apply reach_ex.
  - split; [unfold pid_ok; lia|]. vm_compute. eauto.
Defined.
