(* ===== verification/Answers.v ===== *)
(** * The answer to a label request, end to end

    The label decision engine answers a label request with a mapping, the LDP
    engine writes it to the wire, the LDP engine of the peer reads it. *)
From stdpp Require Import prelude strings list sorting.
From Stdlib Require Import ZArith Lia.
From S2P Require Import Prelude Util Wire Ipc Session LabelMsg LabelSafe Fec Lde LdeLib LdeSafe LdeInv LdeFun.

Section Answer.
Context (map : ldp_map) (f : fec) (e : ldpe) (cnt : Z).
Let m := request_answer map f NO_LABEL.
Context (Hpf : is_prefix f) (Hcanon : fec_canonical (lde_fec2map f)) (Hcnt : is_u 32 cnt).
Context (H4 : fec_tag f = FEC_TYPE_IPV4 -> n_v4_enabled (e_nbr e) = true).
Context (H6 : fec_tag f = FEC_TYPE_IPV6 -> n_v6_enabled (e_nbr e) = true).

Lemma answer_type : m_type m = MAP_TYPE_PREFIX.
Proof using Hpf. clear H4 H6 Hcanon. destruct f; [done|done|by destruct Hpf]. Qed.

Lemma answer_canonical l : fec_canonical (set_m_label m l).
Proof using Hpf Hcanon. clear H4 H6. destruct f; [exact Hcanon|exact Hcanon|by destruct Hpf]. Qed.

Lemma answer_sendable l : label_sendable (set_m_label m l).
Proof using Hpf Hcanon.
  clear H4 H6. pose proof answer_type as Ht. destruct (answer_canonical l) as [(H & _)|[(_ & _ & _ & Hl & Ha)|(H & _)]];
    [change (m_type m = MAP_TYPE_WILDCARD) in H; by rewrite Ht in H| |change (m_type m = MAP_TYPE_PWID) in H; by rewrite Ht in H].
  split; [|unfold m, request_answer; destruct f; done].
  split; [right; left; exact Ht|]. split; [unfold is_u; lia|]. split; [by destruct Ha as (? & ? & _)|]. intros _. apply Hl.
Qed.

(** With a label the answer would be acceptable. *)
Lemma labelled_acceptable : acceptable MSG_TYPE_LABELMAPPING (set_m_label m 16) (e_nbr e).
Proof.
  pose proof answer_type as Ht.
  split; try (change (m_type (set_m_label m 16)) with (m_type m); rewrite Ht; done).
  - by left.
  - apply answer_canonical.
  - apply answer_sendable.
  - unfold is_u. cbn. lia.
  - unfold m, request_answer. cbn. apply htonl_bound.
  - unfold m, request_answer, is_u. destruct f; cbn; lia.
  - intros _. unfold MPLS_LABEL_RESERVED_MAX, MPLS_LABEL_MAX. cbn. lia.
  - by intros [?|?].
  - intros _ Haf. split; [|done]. apply H4. destruct f; [done|done|by destruct Hpf].
  - intros _ Haf. split; [|done]. apply H6. destruct f; [done|done|by destruct Hpf].
Qed.

(** The request identifier is where the label should be. *)
Lemma decode_reqid rest :
  tlv_decode_label (htonl cnt) (htons MSG_TYPE_LABELMAPPING)
    (tlv TLV_TYPE_LABELREQUEST (be_bytes 4 (m_requestid m)) ++ rest) 8 e
  = fail_shutdown S_BAD_TLV_VAL (htonl cnt) (htons MSG_TYPE_LABELMAPPING) e.
Proof.
  unfold tlv_decode_label. change (8 <? LABEL_TLV_SIZE) with false. cbv iota.
  unfold tlv. rewrite <- !app_assoc.
  rewrite (bind_ok _ _ e (htons TLV_TYPE_LABELREQUEST) e).
  2:{ apply rd16_ok; [rewrite length_app, length_be_bytes; lia|]. apply slice_hd, length_be_bytes. }
  rewrite (bind_ok _ _ e (htons 4) e).
  2:{ apply rd16_ok; [rewrite !length_app, !length_be_bytes; lia|].
      rewrite slice_skip by (rewrite length_be_bytes; lia). rewrite length_be_bytes.
      apply slice_hd, length_be_bytes. }
  rewrite (bind_ok _ _ e (htonl (m_requestid m)) e); [done|].
  apply rd32_ok; [rewrite !length_app, !length_be_bytes; lia|].
  rewrite !slice_skip by (rewrite ?length_be_bytes; lia). rewrite !length_be_bytes.
  apply slice_hd, length_be_bytes.
Qed.

(** The peer closes the session over the answer. *)
Lemma answer_rejected rest :
  nbr_inv (e_nbr e) -> 0 <= e_msgcnt e < 2 ^ 31 - 5 ->
  exists e', recv_labelmessage (label_msg cnt MSG_TYPE_LABELMAPPING m ++ rest)
      (Z.of_nat (length (label_msg cnt MSG_TYPE_LABELMAPPING m))) MSG_TYPE_LABELMAPPING e = Ok (-1, e') /\
    n_state (e_nbr e') = NBR_STA_PRESENT.
Proof.
  intros Hi Hc.
  assert (fec_elm (set_m_label m 16) = fec_elm m) as Hfe by done.
  assert (label_sendable m) as Hs by exact (answer_sendable NO_LABEL).
  destruct (recv_label_head cnt MSG_TYPE_LABELMAPPING m (set_m_label m 16) rest e labelled_acceptable Hfe eq_refl
    Hs Hcnt) as [_ ->].
  assert (tlvs (label_opt m) = []) as -> by (unfold m, request_answer; by destruct f).
  assert (tlvs (label_opts m) = tlv TLV_TYPE_LABELREQUEST (be_bytes 4 (m_requestid m))) as ->.
  { change (label_opts m) with [(TLV_TYPE_LABELREQUEST, be_bytes 4 (m_requestid m))].
    exact (app_nil_r (tlv TLV_TYPE_LABELREQUEST (be_bytes 4 (m_requestid m)))). }
  cbn [app length]. rewrite length_tlv, length_be_bytes. unfold recv_label_params.
  change (MSG_TYPE_LABELMAPPING =? MSG_TYPE_LABELMAPPING) with true. cbv iota zeta.
  change (Z.of_nat (0 + (4 + 4))) with 8. unfold bind at 1. rewrite decode_reqid.
  destruct (wp_elim _ _ _ (wp_shutdown true S_BAD_TLV_VAL (htonl cnt) (htons MSG_TYPE_LABELMAPPING) e Hi Hc))
    as (e' & E & _ & Hst & _).
  exists e'. split; [|done]. unfold fail_shutdown, bind. rewrite E. done.
Qed.
End Answer.

(** C25: a label request that is granted costs the session.  When a neighbour
    asks for the label of a route it could be given (there is a next hop, the
    neighbour is not one itself, it did not ask before), the engine answers with
    a mapping message that has no label TLV, since no route ever gets a label.
    The peer's parser takes the request identifier TLV for the label TLV and
    shuts the session down. *)
Theorem granted_request_closes_session (s : lde) (p : Z) (ln : lde_nbr) (map : ldp_map) (f : fec) (n : fec_node)
    (cnt size : Z) (rest : list Z) (e : ldpe)
    (Hs : reach s) (Hp : pid_ok p) (Hln : lde_nbr_find s p = Some ln) (Hmap : map_ok map)
    (Hf : lde_map2fec map (ln_id ln) = Ok f) (Hpf : is_prefix f) (Hen : enabled_for ln f = true)
    (Hn : ft_find s f = Some n) (Hnh : fn_nexthops n <> []) (Hloop : existsb (owns ln) (fn_nexthops n) = false)
    (Hnew : rb_find lre_fec fec_compare f (ln_recv_req ln) = None)
    (Hcanon : fec_canonical (lde_fec2map (fn_fec n))) (Hcnt : is_u 32 cnt)
    (H4 : fec_tag f = FEC_TYPE_IPV4 -> n_v4_enabled (e_nbr e) = true)
    (H6 : fec_tag f = FEC_TYPE_IPV6 -> n_v6_enabled (e_nbr e) = true)
    (Hsize : label_msg_size (request_answer map (fn_fec n) NO_LABEL) <= size)
    (Hi : nbr_inv (e_nbr e)) (Hc : 0 <= e_msgcnt e < 2 ^ 31 - 5) :
  exists s' m bytes e',
    lde_check_request map p s = Ok (tt, s') /\ l_out s' = l_out s ++ [MappingAdd p m; MappingAddEnd p] /\
    gen_label_msg cnt MSG_TYPE_LABELMAPPING m (ibuf_open size) = Ok (0, Ibuf bytes size size) /\
    recv_labelmessage (bytes ++ rest) (Z.of_nat (length bytes)) MSG_TYPE_LABELMAPPING e = Ok (-1, e') /\
    n_state (e_nbr e') = NBR_STA_PRESENT.
Proof.
  pose proof (reach_lib s Hs) as H. destruct (nbr_find_in s p ln H Hln) as [Hno _].
  destruct (map2fec_ok map (ln_id ln) Hmap (nbr_id ln Hno)) as (f' & Ef & Hok).
  assert (f' = f) as -> by congruence.
  destruct (ft_find_in s f n H Hn) as (_ & _ & Heq). pose proof (fec_tag_equiv _ _ Heq) as Htag.
  destruct (check_request_reply p Hp map ln f s H Hln Hmap Hf Hok Hpf) as (s' & E & Eo).
  unfold request_reply in Eo. rewrite Hn, bool_decide_eq_false_2, Hloop, Hnew, Hen in Eo by done.
  assert (is_prefix (fn_fec n)) as Hpn by (unfold is_prefix; by rewrite <- Htag).
  rewrite Htag in H4, H6.
  destruct (answer_rejected map (fn_fec n) e cnt Hpn Hcanon Hcnt H4 H6 rest Hi Hc) as (e' & Er & Hst).
  assert (label_sendable (request_answer map (fn_fec n) NO_LABEL)) as Hsend
    by exact (answer_sendable map (fn_fec n) Hpn Hcanon NO_LABEL).
  exists s', (request_answer map (fn_fec n) NO_LABEL),
    (label_msg cnt MSG_TYPE_LABELMAPPING (request_answer map (fn_fec n) NO_LABEL)), e'.
  split; [done|]. split; [done|]. split; [|done].
  destruct (length_label_msg cnt MSG_TYPE_LABELMAPPING (request_answer map (fn_fec n) NO_LABEL) Hsend) as [Hl _].
  apply (gen_label_msg_emits cnt MSG_TYPE_LABELMAPPING _ Hsend [] size). cbn [length]. lia.
Qed.

(** A second neighbour asks for 10.1.0.0/16, whose next hop is the first. *)
Definition lde_ex_two : lde := after lde_ex (NbrNew 2 (inet_addr 2 2 2 2) true false).

Lemma reach_ex_two : reach lde_ex_two.
Proof.
  apply (reach_step lde_ex (NbrNew 2 (inet_addr 2 2 2 2) true false)).
  - apply reach_ex.
  - vm_compute. intuition congruence.
  - vm_compute. reflexivity.
Qed.

Lemma granted_request_closes_session_witness :
  exists s' m bytes e',
    lde_check_request ex_map 2 lde_ex_two = Ok (tt, s') /\
    l_out s' = l_out lde_ex_two ++ [MappingAdd 2 m; MappingAddEnd 2] /\
    gen_label_msg 9 MSG_TYPE_LABELMAPPING m (ibuf_open 100) = Ok (0, Ibuf bytes 100 100) /\
    recv_labelmessage (bytes ++ []) (Z.of_nat (length bytes)) MSG_TYPE_LABELMAPPING ldpe_oper = Ok (-1, e') /\
    n_state (e_nbr e') = NBR_STA_PRESENT.
Proof.
  apply (granted_request_closes_session lde_ex_two 2 (LdeNbr 2 (inet_addr 2 2 2 2) true false [] [] [] [] [] [])
    ex_map ex_fec (FecNode ex_fec [FecNh AF_INET ex_nh NO_LABEL 0] [] [] NO_LABEL None)).
  - apply reach_ex_two.
  - unfold pid_ok. lia.
  - vm_compute. reflexivity.
  - apply ex_map_ok.
  - vm_compute. reflexivity.
  - discriminate.
  - reflexivity.
  - vm_compute. reflexivity.
  - discriminate.
  - vm_compute. reflexivity.
  - vm_compute. reflexivity.
  - right. left. split; [reflexivity|]. split; [reflexivity|]. split; [by left|].
    split; [vm_compute; intuition congruence|]. split; [reflexivity|].
    split; [by apply bytes_okb_ok|reflexivity].
  - unfold is_u. lia.
  - reflexivity.
  - discriminate.
  - vm_compute. discriminate.
  - constructor; cbn; try done; try set_solver; try intuition congruence.
  - vm_compute. intuition congruence.
Defined.
