(* ===== verification/Mp2mp.v ===== *)
(** * MP2MP label switched paths (ldpd/lde.c)

    The project's extension of ldpd: an MP2MP LSP is named by the address of its
    root and an opaque value, carried as prefix and prefix length of an IPv4
    FEC.  Its branches are the entries of [label_nbrs]: [STREAM_TYPE_UP] towards
    the root, [STREAM_TYPE_DOWN] towards the leaves.  The global [leaf] is 1 on
    a leaf, 2 on the root and 0 on a transit router. *)
From stdpp Require Import prelude strings list.
From Stdlib Require Import ZArith Lia.
From S2P Require Import Prelude Util Wire Ipc Fec Lde LdeLib.

(** ** The branch table *)
Definition lnbr_key_of (peerid : Z) (f : fec) : label_nbr := LabelNbr 0 0 peerid f STREAM_TYPE_UP.

(** [label_nbr_find] compares FEC and peer; the label it is given plays no
    part. *)
Definition label_nbr_find (s : lde) (label peerid : Z) (f : fec) : option label_nbr :=
  rb_find id label_nbr_compare (lnbr_key_of peerid f) (l_label_nbrs s).

Definition label_nbr_add (label local_label peerid : Z) (f : fec) (type : stream_type)
    : ST lde unit :=
  do s <- get;
  match rb_insert id label_nbr_compare (LabelNbr label local_label peerid f type)
          (l_label_nbrs s) with
  | Some t => put (set_l_label_nbrs s t)
  | None => fatalx "lde_nbr_new: RB_INSERT failed"
  end.

Definition label_nbr_del (o : option label_nbr) : ST lde unit :=
  match o with
  | None => ret tt
  | Some l => modify (fun s => set_l_label_nbrs s (rb_remove id label_nbr_compare l (l_label_nbrs s)))
  end.

(** The branch belongs to the LSP of [f]: the comparison used throughout, on
    [u.ipv4.prefix] and [u.ipv4.prefixlen] whatever the type. *)
Definition same_lsp (f : fec) (l : label_nbr) : bool :=
  (u_ipv4_prefix (lb_fec l) =? u_ipv4_prefix f) && (u_ipv4_prefixlen (lb_fec l) =? u_ipv4_prefixlen f).

(** The first LIB node, in tree order, with the given [u.ipv4.prefix]. *)
Definition find_root_node (s : lde) (root : Z) : option fec_node :=
  List.find (fun fn => u_ipv4_prefix (fn_fec fn) =? root) (l_ft s).

(** A temporary [fec_node], as [calloc] and the assignments make it: its home
    and the node.  [free_node] ends its life; mappings may stay linked. *)
Definition new_tmp : ST lde home := fun s =>
  Ok (HomeTmp (length (l_tmp s)), set_l_tmp s (l_tmp s ++ [[]])).

(** The label of the LSP's first branch, else a new one. *)
Definition lsp_label (f : fec) : ST lde Z :=
  do s <- get;
  match List.find (same_lsp f) (l_label_nbrs s) with
  | Some l => ret (lb_local_label l)
  | None => lde_assign_label
  end.

(** ** A mapping from a downstream router *)

(** Is this router the root: one of the next hops of the root's node is
    0.0.0.0 (a connected route)?  [leaf] keeps its value otherwise. *)
Definition mark_root (fn : fec_node) : ST lde unit :=
  if existsb (fun h => v4 (fnh_nexthop h) =? inet_addr 0 0 0 0) (fn_nexthops fn)
  then modify (fun s => set_l_leaf s 2) else ret tt.

(** The root answers the downstream router. *)
Definition mapping_at_root (map : ldp_map) (peerid : Z) (f : fec) : ST lde unit :=
  do local <- lsp_label f;
  label_nbr_add (m_label map) local peerid f STREAM_TYPE_DOWN ;;;
  do h <- new_tmp;
  do ln <- deref_ln peerid;
  match rb_find me_fec fec_compare f (ln_sent_map ln) with
  | None => lde_send_labelmapping peerid (fec_node_new f local) h true
  | Some _ => ret tt
  end.

(** A transit router joins the LSP: towards the root if it has not done so,
    else it answers the downstream router.  Only the first next hop is used. *)
Definition mapping_at_transit (map : ldp_map) (peerid : Z) (f : fec) : ST lde unit :=
  modify (fun s => set_l_leaf s 0) ;;;
  do local <- lsp_label f;
  label_nbr_add (m_label map) local peerid f STREAM_TYPE_DOWN ;;;
  do h <- new_tmp;
  let fn := fec_node_new f local in
  do s <- get;
  match find_root_node s (u_ipv4_prefix f) with
  | None => ret tt
  | Some fn3 =>
      match fn_nexthops fn3 with
      | [] => ret tt
      | fnh :: _ =>
          do o <- lde_nbr_find_by_addr (fnh_af fnh) (fnh_nexthop fnh);
          match o with
          | None => modify (fun s => set_l_ln1 s PtrNull)
          | Some up =>
              modify (fun s => set_l_ln1 s (PtrTo up)) ;;;
              do ln1 <- deref_ln up;
              match rb_find me_fec fec_compare f (ln_sent_map ln1) with
              | None =>
                  label_nbr_add NO_LABEL local up f STREAM_TYPE_UP ;;;
                  lde_send_labelmapping up fn h true
              | Some _ => lde_send_labelmapping peerid fn h true
              end
          end
      end
  end.

Definition mapping_from_downstream (map : ldp_map) (peerid : Z) (f : fec) : ST lde unit :=
  do s <- get;
  match find_root_node s (u_ipv4_prefix f) with
  | None => undef "fn1 is not initialised"
  | Some fn1 =>
      mark_root fn1 ;;;
      do s <- get;
      if l_leaf s =? 2 then mapping_at_root map peerid f else mapping_at_transit map peerid f
  end.

(** ** A mapping from the upstream router *)

(** One turn of the loop over all branches: the look-up for the trace output is
    dereferenced, [ln1] is only assigned on a matching downstream branch, and
    the test that follows uses whatever [ln1] holds. *)
Definition answer_branch (f : fec) (fn : fec_node) (h : home) (l : label_nbr) : ST lde unit :=
  deref_ln (lb_peerid l) ;;;
  (if bool_decide (lb_type l = STREAM_TYPE_DOWN) && same_lsp f l
   then modify (fun s => set_l_ln1 s (PtrTo (lb_peerid l))) else ret tt) ;;;
  do s <- get;
  match l_ln1 s with
  | PtrUninit => undef "ln1 is not initialised"
  | PtrNull => undef "ln1 is a null pointer"
  | PtrTo p =>
      do ln1 <- deref_ln p;
      match rb_find me_fec fec_compare (fn_fec fn) (ln_sent_map ln1) with
      | None => lde_send_labelmapping p fn h true
      | Some _ => ret tt
      end
  end.

Definition mapping_from_upstream (map : ldp_map) (lnr : label_nbr) (f : fec) : ST lde unit :=
  modify (fun s => set_l_label_nbrs s
    (rb_update id label_nbr_compare lnr (fun l => set_lb_label l (m_label map)) (l_label_nbrs s))) ;;;
  do s <- get;
  if l_leaf s =? 1 then ret tt
  else
    do h <- new_tmp;
    do local <- match List.find (same_lsp f) (l_label_nbrs s) with
      | None => ret 0
      | Some l => if lb_local_label l =? NO_LABEL then lde_assign_label else ret (lb_local_label l)
      end;
    do s <- get;
    foreach (answer_branch f (fec_node_new f local) h) (l_label_nbrs s).

(** The trace output behind the handler dereferences the neighbour of every
    branch and leaves [ln1] on the last one. *)
Definition trace_branches : ST lde unit :=
  do s <- get;
  foreach (fun l => deref_ln (lb_peerid l) ;;;
                    modify (fun s => set_l_ln1 s (PtrTo (lb_peerid l))))
    (l_label_nbrs s).

(** [case IMSG_LABEL_MAPPING]. *)
Definition handle_mapping (map : ldp_map) (peerid : Z) : ST lde unit :=
  lde_check_mapping map peerid ;;;
  do ln <- deref_ln peerid;
  do f <- lift (lde_map2fec map (ln_id ln));
  do s <- get;
  (match label_nbr_find s (m_label map) peerid f with
   | None => mapping_from_downstream map peerid f
   | Some lnr => mapping_from_upstream map lnr f
   end) ;;;
  trace_branches.

(** ** Withdraws *)

(** [RB_FOREACH] goes on with [RB_NEXT] of the element it visited, which reads
    the links of that element.  [rb_next l t] is [None] when [l] is no longer in
    the table, else its successor. *)
Fixpoint rb_next (l : label_nbr) (t : list label_nbr) : option (option label_nbr) :=
  match t with
  | [] => None
  | x :: t' => if label_nbr_compare l x =? 0 then Some (head t') else rb_next l t'
  end.

(** The walk from [cur] on; [acc] is the local variable of the caller that the
    body reads and assigns.  The table only shrinks in the bodies below, so its
    length bounds the number of turns. *)
Fixpoint rb_walk {A} (fuel : nat) (body : label_nbr -> A -> ST lde A) (cur : option label_nbr) (acc : A)
    : ST lde A :=
  match cur, fuel with
  | None, _ => ret acc
  | Some _, O => nofuel
  | Some l, S f =>
      do acc' <- body l acc;
      do s <- get;
      match rb_next l (l_label_nbrs s) with
      | None => undef "RB_NEXT of a freed label_nbr"
      | Some cur' => rb_walk f body cur' acc'
      end
  end.
Definition foreach_branch {A} (body : label_nbr -> A -> ST lde A) (acc : A) : ST lde A :=
  do s <- get; rb_walk (length (l_label_nbrs s)) body (head (l_label_nbrs s)) acc.

(** The branches towards the root are withdrawn, released and freed. *)
Definition withdraw_up_branch (lnr3 : label_nbr) : ST lde unit :=
  match lb_type lnr3 with
  | STREAM_TYPE_DOWN => ret tt
  | STREAM_TYPE_UP =>
      lde_send_labelwithdraw (lb_peerid lnr3) None (lb_label lnr3) None ;;;
      lde_send_labelrelease (lb_peerid lnr3) None (lb_label lnr3) ;;;
      label_nbr_del (Some lnr3)
  end.
Definition withdraw_up_branches : ST lde unit :=
  foreach_branch (fun lnr3 _ => withdraw_up_branch lnr3) tt.

(** [case IMSG_LABEL_WITHDRAW] for a wildcard. *)
Definition handle_withdraw_wcard (map : ldp_map) (peerid : Z) : ST lde unit :=
  lde_check_withdraw_wcard map peerid ;;;
  do ln <- deref_ln peerid;
  do _ <- lift (lde_map2fec map (ln_id ln));
  do s <- get;
  label_nbr_del (List.find (fun l => (lb_local_label l =? m_label map) && (lb_peerid l =? peerid))
                   (l_label_nbrs s)) ;;;
  do s <- get;
  if negb (l_leaf s =? 2)
     && negb (existsb (fun l => bool_decide (lb_type l = STREAM_TYPE_DOWN)) (l_label_nbrs s))
  then withdraw_up_branches
  else ret tt.

(** ** Leaves join and leave (tree_up, tree_down) *)

(** The neighbour of the last next hop. *)
Fixpoint last_nexthop_nbr (acc : nbr_ptr) (l : list fec_nh) : ST lde nbr_ptr :=
  match l with
  | [] => ret acc
  | h :: l' =>
      do o <- lde_nbr_find_by_addr (fnh_af h) (fnh_nexthop h);
      last_nexthop_nbr (match o with Some p => PtrTo p | None => PtrNull end) l'
  end.

Definition tree_up (root ov : Z) : ST lde unit :=
  modify (fun s => set_l_leaf s 1) ;;;
  do s <- get;
  match find_root_node s root with
  | None => ret tt
  | Some fn2 =>
      do ln2 <- last_nexthop_nbr PtrUninit (fn_nexthops fn2);
      let f := fec_mp2mp (fec_tag (fn_fec fn2)) root ov in
      do local <- lde_assign_label;
      match ln2 with
      | PtrUninit => undef "ln2 is not initialised"
      | PtrNull => undef "ln2 is a null pointer"
      | PtrTo p =>
          label_nbr_add NO_LABEL local p f STREAM_TYPE_UP ;;;
          do h <- new_tmp;
          lde_send_labelmapping p (fec_node_new f local) h true
      end
  end.

(** Dereferencing a local neighbour pointer. *)
Definition use_ln (ln : nbr_ptr) : ST lde Z :=
  match ln with
  | PtrUninit => undef "ln is not initialised"
  | PtrNull => undef "ln is a null pointer"
  | PtrTo p => ret p
  end.

(** [if (leaf = 1)] assigns; the inner [if] has no braces, so only the look-up
    is conditional and the rest runs for every branch, with the [ln] of the
    last branch that matched. *)
Definition tree_down_branch (root ov : Z) (lnr : label_nbr) (ln : nbr_ptr) : ST lde nbr_ptr :=
  do s <- get;
  let ln :=
    if (u_ipv4_prefix (lb_fec lnr) =? root) && (u_ipv4_prefixlen (lb_fec lnr) =? ov)
       && bool_decide (lb_type lnr = STREAM_TYPE_UP)
    then match lde_nbr_find s (lb_peerid lnr) with
         | Some _ => PtrTo (lb_peerid lnr)
         | None => PtrNull
         end
    else ln in
  do p <- use_ln ln;
  lde_send_labelwithdraw p None (lb_label lnr) None ;;;
  lde_send_labelrelease p None (lb_label lnr) ;;;
  label_nbr_del (Some lnr) ;;;
  ret ln.

Definition tree_down (root ov : Z) : ST lde unit :=
  modify (fun s => set_l_leaf s 1) ;;;
  foreach_branch (tree_down_branch root ov) PtrUninit ;;;
  ret tt.

(** ** The branch listing (rt_dump) *)
Definition rt_dump_one (l : label_nbr) : ST lde unit :=
  match lb_fec l with
  | FecPwid _ _ _ => ret tt
  | f =>
      do ln <- deref_ln (lb_peerid l);
      let '(af, prefix, plen) := match f with
        | FecIpv6 p pl => (AF_INET6, p, pl)
        | _ => (AF_INET, addr_of_v4 (u_ipv4_prefix f), u_ipv4_prefixlen f)
        end in
      lde_send (CtlShowLib (CtlRt af prefix plen (ln_id ln) (lb_local_label l) (lb_label l)
                  (if bool_decide (lb_type l = STREAM_TYPE_UP) then 1 else 0) 1))
  end.
Definition rt_dump : ST lde unit := do s <- get; foreach rt_dump_one (l_label_nbrs s).

(** ** The dispatcher (lde_dispatch_imsg) *)
Definition with_nbr (peerid : Z) (k : ST lde unit) : ST lde unit :=
  do s <- get; match lde_nbr_find s peerid with None => ret tt | Some _ => k end.

Definition dispatch_one (m : ldpe_to_lde) : ST lde unit :=
  match m with
  | ImsgLabelMappingFull p => with_nbr p (fec_snap p)
  | ImsgLabel p type map =>
      with_nbr p
        match type with
        | IMSG_LABEL_MAPPING => handle_mapping map p
        | IMSG_LABEL_REQUEST => lde_check_request map p
        | IMSG_LABEL_RELEASE =>
            if m_type map =? MAP_TYPE_WILDCARD then lde_check_release_wcard map p
            else lde_check_release map p
        | IMSG_LABEL_WITHDRAW =>
            if m_type map =? MAP_TYPE_WILDCARD then handle_withdraw_wcard map p
            else lde_check_withdraw map p
        | IMSG_LABEL_ABORT => ret tt
        end
  | ImsgAddressAdd p af addr => with_nbr p (lde_address_add p af addr ;;; ret tt)
  | ImsgAddressDel p af addr => with_nbr p (lde_address_del p af addr ;;; ret tt)
  | ImsgNotification p nm =>
      with_nbr p (if nm_status_code nm =? S_PW_STATUS then l2vpn_recv_pw_status p nm else ret tt)
  | ImsgNeighborUp p id v4 v6 =>
      do s <- get;
      match lde_nbr_find s p with
      | Some _ => fatalx "lde_dispatch_imsg: neighbor already exists"
      | None => lde_nbr_new p id v4 v6
      end
  | ImsgNeighborDown p => with_nbr p (lde_nbr_del p)
  | ImsgCtlShowLib => rt_dump ;;; lde_send CtlEnd
  | ImsgCtlMldpLsp lsp =>
      (if lsp_op lsp =? OP_TYPE_ADD then tree_up (lsp_root_ip lsp) (lsp_lsp_id lsp) else ret tt) ;;;
      (if lsp_op lsp =? OP_TYPE_DEL then tree_down (lsp_root_ip lsp) (lsp_lsp_id lsp) else ret tt) ;;;
      lde_send CtlMldpLsp
  end.

(** One call: the local variables start uninitialised and live until every
    queued imsg is handled. *)
Definition lde_dispatch_imsg (l : list ldpe_to_lde) : ST lde unit :=
  modify (fun s => set_l_ln1 s PtrUninit) ;;; foreach dispatch_one l.

(** Route changes from the parent; [spare] is the indeterminate memory of the
    local [struct fec] under [u.pwid.lsr_id]. *)
Inductive parent_imsg := ImsgNetworkAdd (kr : kroute) | ImsgNetworkDel (kr : kroute).

Definition fec_of_kroute (kr : kroute) (spare : Z) : res fec :=
  if kr_af kr =? AF_INET then Ok (FecIpv4 (kr_prefixlen kr) (v4 (kr_prefix kr)) spare)
  else if kr_af kr =? AF_INET6 then Ok (FecIpv6 (v6 (kr_prefix kr)) (kr_prefixlen kr))
  else Fatal "lde_dispatch_parent: unknown af".

Definition lde_dispatch_parent (spare : Z) (m : parent_imsg) : ST lde unit :=
  match m with
  | ImsgNetworkAdd kr =>
      do f <- lift (fec_of_kroute kr spare);
      lde_kernel_insert f (kr_af kr) (kr_nexthop kr) (kr_priority kr) None
  | ImsgNetworkDel kr =>
      do f <- lift (fec_of_kroute kr spare);
      lde_kernel_remove f (kr_af kr) (kr_nexthop kr) (kr_priority kr)
  end.
