(* ===== verification/Mp2mpInv.v ===== *)
(** * The MP2MP branch table: labels belong to one LSP

    Everything the engine can be asked to do, RFC 5036 work and MP2MP joins and
    leaves alike, keeps the table of branches sorted and never gives the local
    label of one LSP to another. *)
From stdpp Require Import prelude strings list sorting.
From Stdlib Require Import ZArith Lia.
From S2P Require Import Prelude Util Wire Ipc Fec Lde LdeLib LdeSafe LdeInv LdeFrame Mp2mp.

(** ** What leaves the table alone *)

Create HintDb lsps.

(** The branches and the label counter. *)
Definition lsps (s : lde) : list label_nbr * Z := (l_label_nbrs s, l_label s).

Section Frame.
Notation keeps_lsps := (frames lsps).

Lemma lsps_modify (f : lde -> lde) : (forall s, lsps (f s) = lsps s) -> keeps_lsps (modify f).
Proof. intros H s a s' [= _ <-]. apply H. Qed.
Lemma lsps_upd_fn f g : keeps_lsps (upd_fn f g).
Proof. apply frames_bind; [apply frames_deref_fn|]. intros _. by apply lsps_modify. Qed.

#[export] Instance lsps_undisturbed : Undisturbed lsps.
Proof.
  split; try done; intros; try apply lsps_upd_fn; [by apply frames_upd_pw|].
  apply lsps_modify. intros s. by case_match.
Qed.

Lemma lsps_labelmapping p fn h single : keeps_lsps (lde_send_labelmapping p fn h single).
Proof. apply (kept_labelmapping lsps). Qed.
Lemma lsps_nbr_by_addr af a : keeps_lsps (lde_nbr_find_by_addr af a).
Proof. apply (kept_nbr_by_addr lsps). Qed.
Lemma lsps_check_mapping map p : keeps_lsps (lde_check_mapping map p).
Proof. apply (kept_check_mapping lsps). Qed.
Lemma lsps_run_proc e : keeps_lsps (run_proc e).
Proof.
  destruct e; first [by apply (kept_proc lsps)|by apply lsps_modify|cbn [run_proc]].
  - by apply (kept_kernel_insert lsps), lsps_upd_fn.
  - by apply (kept_kernel_remove lsps), lsps_upd_fn.
Qed.
End Frame.

(** ** Labels belong to one LSP *)

(** Local labels are past the reserved ones and were handed out; two branches
    with the same local label are of the same LSP. *)
Definition labels_ok (t : list label_nbr * Z) : Prop :=
  Forall (fun l => MPLS_LABEL_RESERVED_MAX < lb_local_label l <= snd t) (fst t) /\
  forall x y, x ∈ fst t -> y ∈ fst t -> lb_local_label x = lb_local_label y -> same_lsp (lb_fec x) y = true.

(** The label [v] may be given to a branch of the LSP of [f]. *)
Definition usable (f : fec) (v : Z) (t : list label_nbr * Z) : Prop :=
  MPLS_LABEL_RESERVED_MAX < v <= snd t /\
  forall x, x ∈ fst t -> lb_local_label x = v -> same_lsp f x = true.

(** Partial correctness. *)
Definition triple {A} (P : lde -> Prop) (c : ST lde A) (Q : A -> lde -> Prop) : Prop :=
  forall s a s', P s -> c s = Ok (a, s') -> Q a s'.

(** A label can still be handed out without wrapping around. *)
Definition room (s : lde) : Prop := MPLS_LABEL_RESERVED_MAX <= l_label s < 2 ^ 32 - 1.
Definition inv (s : lde) : Prop := labels_ok (lsps s).

Section Labels.
Lemma triple_bind {A B} P (c : ST lde A) R (k : A -> ST lde B) Q :
  triple P c R -> (forall a, triple (R a) (k a) Q) -> triple P (bind c k) Q.
Proof. intros Hc Hk s b s' HP H. apply bind_inv in H as (a & s1 & H1 & H2). by eapply Hk, H2; eapply Hc. Qed.

Lemma triple_frame {A} (P : list label_nbr * Z -> Prop) (c : ST lde A) :
  frames lsps c -> triple (fun s => P (lsps s)) c (fun _ s => P (lsps s)).
Proof. intros Hf s a s' HP H. by rewrite (Hf _ _ _ H). Qed.

(** Bind a computation that leaves the table alone. *)
Lemma triple_skip {A B} (P : list label_nbr * Z -> Prop) (c : ST lde A) (k : A -> ST lde B) Q :
  frames lsps c -> (forall a, triple (fun s => P (lsps s)) (k a) Q) ->
  triple (fun s => P (lsps s)) (bind c k) Q.
Proof. intros Hf Hk. eapply triple_bind; [by apply triple_frame|exact Hk]. Qed.

Lemma same_lsp_spec f l : same_lsp f l = true <->
  u_ipv4_prefix (lb_fec l) = u_ipv4_prefix f /\ u_ipv4_prefixlen (lb_fec l) = u_ipv4_prefixlen f.
Proof. unfold same_lsp. rewrite andb_true_iff, !Z.eqb_eq. done. Qed.

Lemma rb_insert_elem {A K} (key : A -> K) (cmp : K -> K -> Z) x t t' y :
  rb_insert key cmp x t = Some t' -> y ∈ t' <-> y = x \/ y ∈ t.
Proof.
  revert t'. induction t as [|z t IH]; simpl; intros t'.
  - intros [= <-]. set_solver.
  - case_match; [intros [= <-]; set_solver|]. case_match; [done|].
    destruct (rb_insert key cmp x t) as [t''|]; [|done]. intros [= <-].
    rewrite !elem_of_cons, (IH t'' eq_refl). tauto.
Qed.

(** A fresh label is usable for any LSP. *)
Lemma assign_usable f : triple (fun s => room s /\ inv s) lde_assign_label
  (fun v s => inv s /\ usable f v (lsps s)).
Proof.
  intros s v s' [Hr [Hb Ho]] [= <- <-].
  unfold room, inv, usable, labels_ok, lsps, MPLS_LABEL_RESERVED_MAX in *.
  cbn [l_label_nbrs l_label set_l_label fst snd] in *.
  assert (u32 (l_label s + 1) = l_label s + 1) as -> by (unfold u32; rewrite Z.mod_small; lia).
  rewrite Forall_forall in *. split; [split; [|done]|split; [lia|]].
  - intros x Hx. specialize (Hb x Hx). cbn in Hb. lia.
  - intros x Hx E. specialize (Hb x Hx). cbn in Hb. lia.
Qed.

(** So is the label of a branch of the same LSP. *)
Lemma lsp_label_usable f : triple (fun s => room s /\ inv s) (lsp_label f)
  (fun v s => inv s /\ usable f v (lsps s)).
Proof.
  intros s v s' HP H. unfold lsp_label in H. rewrite (bind_ok _ _ s s s) in H by done.
  destruct (List.find (same_lsp f) (l_label_nbrs s)) as [l|] eqn:El; [|by apply (assign_usable f _ _ _ HP)].
  injection H as <- <-. destruct HP as [_ Hi]. split; [done|].
  apply find_some in El as [Hin Hs]. apply list_elem_of_In in Hin. destruct Hi as [Hb Ho]. split.
  - rewrite Forall_forall in Hb. by apply Hb.
  - intros x Hx E. specialize (Ho l x Hin Hx (eq_sym E)).
    rewrite same_lsp_spec in *. destruct Ho, Hs. split; congruence.
Qed.

Lemma add_usable label v p f type : triple (fun s => inv s /\ usable f v (lsps s))
  (label_nbr_add label v p f type) (fun _ s => inv s /\ usable f v (lsps s)).
Proof.
  intros s [] s' [[Hb Ho] [Hv Hu]] H. unfold label_nbr_add in H. rewrite (bind_ok _ _ s s s) in H by done.
  destruct (rb_insert id label_nbr_compare _ _) as [t|] eqn:Ei; [|done]. injection H as <-.
  pose proof (fun y => rb_insert_elem _ _ _ _ _ y Ei) as Hin.
  assert (same_lsp f (LabelNbr label v p f type) = true) as Hself by by rewrite same_lsp_spec.
  unfold inv, usable, labels_ok, lsps in *.
  cbn [l_label_nbrs l_label set_l_label_nbrs fst snd] in *. rewrite Forall_forall in *.
  split; [split|split; [done|]].
  - intros x Hx. apply Hin in Hx as [-> |Hx]; [done|]. by apply Hb.
  - intros x y Hx Hy E. apply Hin in Hx as [-> |Hx], Hy as [-> |Hy].
    + done.
    + by apply Hu.
    + specialize (Hu x Hx E). rewrite same_lsp_spec in *. cbn in *. destruct Hu. split; congruence.
    + by apply Ho.
  - intros x Hx E. apply Hin in Hx as [-> |Hx]; [done|]. by apply Hu.
Qed.

(** Removing branches, and new remote labels, keep the invariant. *)
Lemma labels_ok_sub t t' v : (forall x, x ∈ t' -> x ∈ t) -> labels_ok (t, v) -> labels_ok (t', v).
Proof.
  intros Hs [Hb Ho]. unfold labels_ok in *. cbn in *. rewrite Forall_forall in *.
  split; [|intros x y ? ?]; auto.
Qed.

Lemma labels_ok_relabel k g t v :
  (forall l, lb_local_label (g l) = lb_local_label l) -> (forall l, lb_fec (g l) = lb_fec l) ->
  labels_ok (t, v) -> labels_ok (rb_update id label_nbr_compare k g t, v).
Proof.
  intros Hl Hf [Hb Ho]. unfold labels_ok in *. cbn [fst snd] in *.
  assert (forall x, x ∈ rb_update id label_nbr_compare k g t -> exists x0, x0 ∈ t /\
    lb_local_label x = lb_local_label x0 /\ lb_fec x = lb_fec x0) as Hup.
  { intros x Hx. unfold rb_update in Hx. apply list_elem_of_In, in_map_iff in Hx as (x0 & <- & Hx0).
    apply list_elem_of_In in Hx0. exists x0. case_match; auto. }
  rewrite Forall_forall in *. split.
  - intros x Hx. destruct (Hup x Hx) as (x0 & Hx0 & -> & _). auto.
  - intros x y Hx Hy E. destruct (Hup x Hx) as (x0 & Hx0 & E1 & F1).
    destruct (Hup y Hy) as (y0 & Hy0 & E2 & F2). specialize (Ho x0 y0 Hx0 Hy0).
    rewrite same_lsp_spec in *. rewrite F1, F2. apply Ho. congruence.
Qed.

Lemma del_inv o : triple inv (label_nbr_del o) (fun _ => inv).
Proof.
  intros s [] s' Hi. unfold label_nbr_del. destruct o as [l|]; intros [= <-]; [|done].
  eapply labels_ok_sub, Hi. intros x Hx. apply rb_remove_in in Hx. tauto.
Qed.

(** *** The handlers *)
Lemma triple_true {A} (P : lde -> Prop) (c : ST lde A) (Q : A -> lde -> Prop) (R : A -> lde -> Prop) :
  triple P c Q -> (forall a s, Q a s -> R a s) -> triple P c R.
Proof. intros H HR s a s' HP Hc. by eapply HR, H. Qed.

Lemma triple_pre {A} (P P' : lde -> Prop) (c : ST lde A) Q :
  (forall s, P s -> P' s) -> triple P' c Q -> triple P c Q.
Proof. intros HP H s a s' Hs. by apply H, HP. Qed.

Lemma triple_keep {A} (P : list label_nbr * Z -> Prop) (c : ST lde A) :
  frames lsps c -> (forall t, P t -> labels_ok t) -> triple (fun s => P (lsps s)) c (fun _ => inv).
Proof. intros Hf HP s a s' Hs H. apply HP. by rewrite (Hf _ _ _ H). Qed.

Lemma new_tmp_frame : frames lsps new_tmp.
Proof. by intros s a s' [= _ <-]. Qed.
Lemma mark_root_frame fn : frames lsps (mark_root fn).
Proof. unfold mark_root. case_match; [by apply lsps_modify|apply frames_ret]. Qed.
Hint Resolve frames_get frames_ret frames_deref_ln frames_deref_fn frames_lift frames_undef new_tmp_frame
  mark_root_frame lsps_labelmapping lsps_nbr_by_addr lsps_check_mapping : lsps.

Definition good_for (f : fec) (v : Z) (t : list label_nbr * Z) : Prop := labels_ok t /\ usable f v t.
Definition ready (t : list label_nbr * Z) : Prop :=
  MPLS_LABEL_RESERVED_MAX <= snd t < 2 ^ 32 - 1 /\ labels_ok t.

Lemma add_good label v p f type :
  triple (fun s => good_for f v (lsps s)) (label_nbr_add label v p f type) (fun _ s => good_for f v (lsps s)).
Proof. apply add_usable. Qed.
Lemma lsp_label_good f : triple (fun s => ready (lsps s)) (lsp_label f) (fun v s => good_for f v (lsps s)).
Proof. apply lsp_label_usable. Qed.

Lemma at_root_inv map p f : triple (fun s => ready (lsps s)) (mapping_at_root map p f) (fun _ => inv).
Proof.
  eapply triple_bind; [apply lsp_label_good|]. intros v.
  eapply triple_bind; [apply add_good|]. intros [].
  apply (triple_keep (good_for f v)); [|by intros t []].
  apply frames_bind; [auto with lsps|]. intros h. apply frames_bind; [auto with lsps|].
  intros ln. case_match; auto with lsps.
Qed.

Lemma at_transit_inv map p f : triple (fun s => ready (lsps s)) (mapping_at_transit map p f) (fun _ => inv).
Proof.
  apply triple_skip; [by apply lsps_modify|]. intros _.
  eapply triple_bind; [apply lsp_label_good|]. intros v.
  eapply triple_bind; [apply add_good|]. intros [].
  apply triple_skip; [auto with lsps|]. intros h. apply triple_skip; [auto with lsps|]. intros s.
  destruct (find_root_node s _) as [fn3|]; [|by apply (triple_keep (good_for f v)); [auto with lsps|intros t []]].
  destruct (fn_nexthops fn3) as [|fnh l]; [by apply (triple_keep (good_for f v)); [auto with lsps|intros t []]|].
  apply triple_skip; [auto with lsps|]. intros [up|].
  2: { apply (triple_keep (good_for f v)); [by apply lsps_modify|by intros t []]. }
  apply triple_skip; [by apply lsps_modify|]. intros _. apply triple_skip; [auto with lsps|]. intros ln1.
  destruct (rb_find _ _ _ _).
  - apply (triple_keep (good_for f v)); [auto with lsps|by intros t []].
  - eapply triple_bind; [apply add_good|]. intros [].
    apply (triple_keep (good_for f v)); [auto with lsps|by intros t []].
Qed.

Lemma downstream_inv map p f : triple (fun s => ready (lsps s)) (mapping_from_downstream map p f) (fun _ => inv).
Proof.
  apply triple_skip; [auto with lsps|]. intros s. case_match; [|done].
  apply triple_skip; [auto with lsps|]. intros _. apply triple_skip; [auto with lsps|]. intros s1.
  case_match; [apply at_root_inv|apply at_transit_inv].
Qed.

Lemma answer_frame f fn h l : frames lsps (answer_branch f fn h l).
Proof.
  apply frames_bind; [auto with lsps|]. intros _.
  apply frames_bind; [case_match; [by apply lsps_modify|auto with lsps]|]. intros _.
  apply frames_bind; [auto with lsps|]. intros s. case_match; auto with lsps.
  apply frames_bind; [auto with lsps|]. intros ln. case_match; auto with lsps.
Qed.

Lemma relabel_ready k v : triple (fun s => ready (lsps s))
  (modify (fun s => set_l_label_nbrs s
     (rb_update id label_nbr_compare k (fun l => set_lb_label l v) (l_label_nbrs s))))
  (fun _ s => ready (lsps s)).
Proof. intros s [] s' [Hr Hi] [= <-]. split; [done|]. by apply labels_ok_relabel. Qed.

Lemma upstream_inv map lnr f : triple (fun s => ready (lsps s)) (mapping_from_upstream map lnr f) (fun _ => inv).
Proof.
  eapply triple_bind; [apply relabel_ready|]. intros [].
  apply triple_skip; [auto with lsps|]. intros s.
  case_match; [by apply (triple_keep ready); [auto with lsps|intros t []]|].
  apply triple_skip; [auto with lsps|]. intros h.
  eapply (triple_bind _ _ (fun _ => inv)).
  { destruct (List.find _ _) as [l|]; [|by apply (triple_keep ready); [auto with lsps|intros t []]].
    case_match; [|by apply (triple_keep ready); [auto with lsps|intros t []]].
    eapply triple_true; [apply (assign_usable f)|]. by intros v s1 []. }
  intros v. apply (triple_keep labels_ok); [|done].
  apply frames_bind; [auto with lsps|]. intros s1. apply frames_foreach. intros. apply answer_frame.
Qed.

Lemma mapping_inv map p : triple (fun s => ready (lsps s)) (handle_mapping map p) (fun _ => inv).
Proof.
  apply triple_skip; [auto with lsps|]. intros _. apply triple_skip; [auto with lsps|]. intros ln.
  apply triple_skip; [auto with lsps|]. intros f. apply triple_skip; [auto with lsps|]. intros s.
  eapply (triple_bind _ _ (fun _ => inv)); [case_match; [apply upstream_inv|apply downstream_inv]|]. intros [].
  apply (triple_keep labels_ok); [|done]. apply frames_bind; [auto with lsps|]. intros s1.
  apply frames_foreach. intros l. apply frames_bind; [auto with lsps|]. intros _. by apply lsps_modify.
Qed.

(** A walk over the branches keeps what its body keeps. *)
Lemma walk_inv {A} (body : label_nbr -> A -> ST lde A) acc :
  (forall l a, triple inv (body l a) (fun _ => inv)) -> triple inv (foreach_branch body acc) (fun _ => inv).
Proof.
  intros Hb. apply (triple_skip labels_ok); [auto with lsps|]. intros s.
  generalize (head (l_label_nbrs s)) as cur, (length (l_label_nbrs s)) as fuel.
  intros cur fuel. revert cur acc. induction fuel as [|fuel IH]; intros [l|] acc; cbn [rb_walk];
    try by apply (triple_keep labels_ok); [auto with lsps|].
  eapply triple_bind; [apply Hb|]. intros a. apply (triple_skip labels_ok); [auto with lsps|]. intros s1.
  case_match; [apply IH|done].
Qed.

Lemma withdraw_wcard_inv map p : triple inv (handle_withdraw_wcard map p) (fun _ => inv).
Proof.
  apply (triple_skip labels_ok); [exact (lsps_run_proc (CheckWithdrawWcard p map))|]. intros _.
  apply (triple_skip labels_ok); [auto with lsps|]. intros ln.
  apply (triple_skip labels_ok); [auto with lsps|]. intros f.
  apply (triple_skip labels_ok); [auto with lsps|]. intros s.
  eapply triple_bind; [apply del_inv|]. intros [].
  apply (triple_skip labels_ok); [auto with lsps|]. intros s1.
  case_match; [|by apply (triple_keep labels_ok); [auto with lsps|]].
  apply walk_inv. intros l _. unfold withdraw_up_branch.
  case_match; [|by apply (triple_keep labels_ok); [auto with lsps|]].
  apply (triple_skip labels_ok); [by apply frames_withdraw|]. intros _.
  apply (triple_skip labels_ok); [by apply frames_release|]. intros _. apply del_inv.
Qed.

Lemma tree_up_inv root ov : triple (fun s => ready (lsps s)) (tree_up root ov) (fun _ => inv).
Proof.
  apply triple_skip; [by apply lsps_modify|]. intros _. apply triple_skip; [auto with lsps|]. intros s.
  destruct (find_root_node s root) as [fn2|]; [|by apply (triple_keep ready); [auto with lsps|intros t []]].
  apply triple_skip.
  { generalize PtrUninit as acc. induction (fn_nexthops _) as [|h l IH]; intros acc; simpl; [auto with lsps|].
    apply frames_bind; auto with lsps. }
  intros ln2. set (f := fec_mp2mp _ _ _).
  eapply triple_bind; [apply (assign_usable f)|]. intros v. destruct ln2 as [| |p]; [done|done|].
  eapply triple_bind; [apply add_good|]. intros []. apply (triple_keep (good_for f v)); [|by intros t []].
  apply frames_bind; auto with lsps.
Qed.

Lemma tree_down_inv root ov : triple inv (tree_down root ov) (fun _ => inv).
Proof.
  apply (triple_skip labels_ok); [by apply lsps_modify|]. intros _.
  eapply triple_bind; [|intros p; by apply (triple_keep labels_ok); [auto with lsps|]].
  apply walk_inv. intros l ln. apply (triple_skip labels_ok); [auto with lsps|]. intros s. cbv zeta.
  eapply (triple_skip labels_ok); [unfold use_ln; case_match; auto with lsps; done|]. intros p.
  apply (triple_skip labels_ok); [by apply frames_withdraw|]. intros _.
  apply (triple_skip labels_ok); [by apply frames_release|]. intros _.
  eapply triple_bind; [apply del_inv|]. intros []. by apply (triple_keep labels_ok); [auto with lsps|].
Qed.
End Labels.

(** ** Everything the engine is asked to do *)

(** A message from the LDP engine, a route change from the parent, a call of
    lde_dispatch_imsg (which starts with [ln1] uninitialised), timers and
    configuration. *)
Inductive work :=
| FromLdpe (m : ldpe_to_lde)
| FromParent (spare : Z) (m : parent_imsg)
| NewBatch
| Local (e : proc).

Definition run_work (w : work) : ST lde unit :=
  match w with
  | FromLdpe m => dispatch_one m
  | FromParent spare m => lde_dispatch_parent spare m
  | NewBatch => modify (fun s => set_l_ln1 s PtrUninit)
  | Local e => run_proc e
  end.

(** States the whole engine can reach while labels last. *)
Inductive runs : lde -> Prop :=
| runs_start pws b4 b6 : runs (lde_start pws b4 b6)
| runs_step s w s' : runs s -> room s -> run_work w s = Ok (tt, s') -> runs s'.

Section Engine.
Lemma with_nbr_inv p (k : ST lde unit) (P : lde -> Prop) :
  (forall s, P s -> inv s) -> triple P k (fun _ => inv) -> triple P (with_nbr p k) (fun _ => inv).
Proof.
  intros HP Hk s a s' Hs H. unfold with_nbr in H. rewrite (bind_ok _ _ s s s) in H by done.
  destruct (lde_nbr_find s p); [by apply (Hk _ _ _ Hs H)|]. injection H as _ <-. by apply HP.
Qed.

Lemma proc_inv e : triple (fun s => ready (lsps s)) (run_proc e) (fun _ => inv).
Proof. apply (triple_keep ready); [apply lsps_run_proc|by intros t []]. Qed.

Lemma ready_inv s : ready (lsps s) -> inv s.
Proof. by intros []. Qed.

Lemma label_inv p type map : triple (fun s => ready (lsps s))
  match type with
  | IMSG_LABEL_MAPPING => handle_mapping map p
  | IMSG_LABEL_REQUEST => lde_check_request map p
  | IMSG_LABEL_RELEASE =>
      if m_type map =? MAP_TYPE_WILDCARD then lde_check_release_wcard map p else lde_check_release map p
  | IMSG_LABEL_WITHDRAW =>
      if m_type map =? MAP_TYPE_WILDCARD then handle_withdraw_wcard map p else lde_check_withdraw map p
  | IMSG_LABEL_ABORT => ret tt
  end (fun _ => inv).
Proof.
  destruct type.
  - apply mapping_inv.
  - apply (proc_inv (CheckRequest p map)).
  - case_match; [apply (proc_inv (CheckReleaseWcard p map))|apply (proc_inv (CheckRelease p map))].
  - case_match; [|apply (proc_inv (CheckWithdraw p map))].
    eapply triple_pre; [apply ready_inv|apply withdraw_wcard_inv].
  - apply (triple_keep ready); [apply frames_ret|by intros t []].
Qed.

Lemma rt_dump_frame : frames lsps (rt_dump ;;; lde_send CtlEnd).
Proof.
  apply frames_bind; [|intros _; by apply frames_send]. apply frames_bind; [apply frames_get|]. intros s.
  apply frames_foreach. intros l. unfold rt_dump_one. case_match; try apply frames_ret;
    (apply frames_bind; [apply frames_deref_ln|]; intros ln; by apply frames_send).
Qed.

Lemma ctl_inv lsp : triple (fun s => ready (lsps s)) (dispatch_one (ImsgCtlMldpLsp lsp)) (fun _ => inv).
Proof.
  cbn [dispatch_one]. eapply (triple_bind _ _ (fun _ => inv)).
  - case_match; [apply tree_up_inv|]. apply (triple_keep ready); [apply frames_ret|by intros t []].
  - intros []. eapply (triple_bind _ _ (fun _ => inv)).
    + case_match; [apply tree_down_inv|]. by apply (triple_keep labels_ok); [apply frames_ret|].
    + intros []. by apply (triple_keep labels_ok); [apply frames_send|].
Qed.

Lemma dispatch_inv m : triple (fun s => ready (lsps s)) (dispatch_one m) (fun _ => inv).
Proof.
  destruct m as [p type map|p|p af a|p af a|p nm|p id b4 b6|p| |lsp]; cbn [dispatch_one].
  - apply with_nbr_inv; [apply ready_inv|apply label_inv].
  - apply with_nbr_inv; [apply ready_inv|apply (proc_inv (FecSnap p))].
  - apply with_nbr_inv; [apply ready_inv|apply (proc_inv (AddressAdd p af a))].
  - apply with_nbr_inv; [apply ready_inv|apply (proc_inv (AddressDel p af a))].
  - apply with_nbr_inv; [apply ready_inv|]. case_match; [apply (proc_inv (RecvPwStatus p nm))|].
    apply (triple_keep ready); [apply frames_ret|by intros t []].
  - apply triple_skip; [apply frames_get|]. intros s. case_match; [done|apply (proc_inv (NbrNew p id b4 b6))].
  - apply with_nbr_inv; [apply ready_inv|apply (proc_inv (NbrDel p))].
  - apply (triple_keep ready); [apply rt_dump_frame|by intros t []].
  - apply ctl_inv.
Qed.

Lemma work_inv w : triple (fun s => ready (lsps s)) (run_work w) (fun _ => inv).
Proof.
  destruct w as [m|spare m| |e]; cbn [run_work].
  - apply dispatch_inv.
  - destruct m as [kr|kr]; (apply triple_skip; [apply frames_lift|]); intros f.
    + apply (proc_inv (KernelInsert f (kr_af kr) (kr_nexthop kr) (kr_priority kr) None)).
    + apply (proc_inv (KernelRemove f (kr_af kr) (kr_nexthop kr) (kr_priority kr))).
  - apply (triple_keep ready); [by apply lsps_modify|by intros t []].
  - apply proc_inv.
Qed.

Lemma runs_inv s : runs s -> inv s.
Proof.
  induction 1 as [pws b4 b6|s w s' _ IH Hr H].
  - split; [constructor|]. intros x y Hx. by apply elem_of_nil in Hx.
  - by apply (work_inv w s tt s').
Qed.
End Engine.

(** C7: a local label belongs to one MP2MP LSP.  However messages, routes,
    neighbours, joins, leaves and timers follow each other, as long as the label
    counter has not run over, every branch has a local label above the reserved
    ones that was handed out, and two branches with the same local label are
    branches of the same LSP (same root and opaque value). *)
Theorem mp2mp_labels_unique (s : lde) (Hs : runs s) :
  Forall (fun l => MPLS_LABEL_RESERVED_MAX < lb_local_label l <= l_label s) (l_label_nbrs s) /\
  forall x y, x ∈ l_label_nbrs s -> y ∈ l_label_nbrs s -> lb_local_label x = lb_local_label y ->
    u_ipv4_prefix (lb_fec x) = u_ipv4_prefix (lb_fec y) /\
    u_ipv4_prefixlen (lb_fec x) = u_ipv4_prefixlen (lb_fec y).
Proof.
  destruct (runs_inv s Hs) as [Hb Ho]. split; [exact Hb|]. intros x y Hx Hy E.
  specialize (Ho x y Hx Hy E). rewrite same_lsp_spec in Ho. destruct Ho. by split.
Qed.

(** *** A leaf with two LSPs *)
Definition leaf_root : Z := inet_addr 8 8 8 8.
Definition leaf_nh : ldpd_addr := addr_of_v4 (inet_addr 10 0 0 2).
Definition leaf_join (ov : Z) : work := FromLdpe (ImsgCtlMldpLsp (MldpLspInfo OP_TYPE_ADD 0 leaf_root ov)).
Definition leaf_work : list work :=
  [FromLdpe (ImsgNeighborUp 1 (inet_addr 2 2 2 2) true false);
   FromLdpe (ImsgAddressAdd 1 AF_INET leaf_nh);
   FromParent 0 (ImsgNetworkAdd (Kroute AF_INET (addr_of_v4 leaf_root) 32 leaf_nh 0 0 0));
   leaf_join 40; leaf_join 41].

(** Run a list of work, checking that labels last. *)
Fixpoint run_all (l : list work) (s : lde) : option lde :=
  match l with
  | [] => Some s
  | w :: l' =>
      if (MPLS_LABEL_RESERVED_MAX <=? l_label s) && (l_label s <? 2 ^ 32 - 1) then
        match run_work w s with Ok (_, s') => run_all l' s' | _ => None end
      else None
  end.

Lemma run_all_runs l s s' : runs s -> run_all l s = Some s' -> runs s'.
Proof.
  revert s. induction l as [|w l IH]; intros s Hs; simpl; [by intros [= <-]|].
  case_match eqn:E; [|done]. apply andb_true_iff in E as [? ?]; zbool.
  destruct (run_work w s) as [[[] s1]| | |] eqn:Er; [|done..].
  apply IH. apply (runs_step s w s1); [done|split; lia|done].
Qed.

Definition run_from_start (l : list work) : lde :=
  default (lde_start [] false false) (run_all l (lde_start [] false false)).

Lemma runs_from_start l : runs (run_from_start l).
Proof.
  unfold run_from_start. destruct (run_all l _) as [s|] eqn:E; simpl; [|apply runs_start].
  by eapply run_all_runs, E; apply runs_start.
Qed.

Definition leaf_two : lde := run_from_start leaf_work.

Lemma mp2mp_labels_unique_witness :
  map lb_local_label (l_label_nbrs leaf_two) = [16; 17] /\
  forall x y, x ∈ l_label_nbrs leaf_two -> y ∈ l_label_nbrs leaf_two ->
    lb_local_label x = lb_local_label y ->
    u_ipv4_prefix (lb_fec x) = u_ipv4_prefix (lb_fec y) /\
    u_ipv4_prefixlen (lb_fec x) = u_ipv4_prefixlen (lb_fec y).
Proof.
  split; [vm_compute; reflexivity|]. apply (mp2mp_labels_unique leaf_two). apply runs_from_start.
Defined.
