(* ===== verification/Mp2mpFun.v ===== *)
(** * Joining an MP2MP LSP

    What a leaf, a transit router and the root do when an LSP is set up, and
    what they agree on when the label mappings have been exchanged. *)
From stdpp Require Import prelude strings list sorting.
From Stdlib Require Import ZArith Lia.
From S2P Require Import Prelude Util Wire Ipc Fec Lde LdeLib LdeSafe LdeInv LdeFun Mp2mp Mp2mpInv.

(** ** Trees without assumptions on their order *)
Section Trees.
Context {A K : Type} (key : A -> K) (cmp : K -> K -> Z).

Lemma rb_insert_total x t : rb_find key cmp (key x) t = None -> is_Some (rb_insert key cmp x t).
Proof.
  unfold rb_find. induction t as [|y t IH]; simpl; [eauto|]. destruct (cmp (key x) (key y) =? 0); [done|].
  intros H. destruct (IH H) as [t' ->]. case_match; eauto.
Qed.

(** Behind the insertion of [x], a look-up finds [x] where the key matches. *)
Lemma rb_find_inserted x t t' k :
  rb_insert key cmp x t = Some t' -> (cmp k (key x) = 0 -> rb_find key cmp k t = None) ->
  rb_find key cmp k t' = if cmp k (key x) =? 0 then Some x else rb_find key cmp k t.
Proof.
  unfold rb_find. revert t'. induction t as [|y t IH]; simpl; intros t'; [by intros [= <-]|].
  destruct (cmp (key x) (key y) <? 0); [by intros [= <-]|].
  destruct (cmp (key x) (key y) =? 0); [done|].
  destruct (rb_insert key cmp x t) as [t''|] eqn:E; [|done]. intros [= <-] Hn. simpl.
  destruct (cmp k (key y) =? 0) eqn:Ey.
  - destruct (cmp k (key x) =? 0) eqn:Ex; zbool; [by specialize (Hn Ex)|done].
  - by apply IH.
Qed.

Lemma rb_find_updated_cmp k f t :
  (forall x c, cmp c (key (f x)) = cmp c (key x)) ->
  rb_find key cmp k (rb_update key cmp k f t) = f <$> rb_find key cmp k t.
Proof.
  intros Hf. unfold rb_find, rb_update. induction t as [|x t IH]; simpl; [done|].
  destruct (cmp k (key x) =? 0) eqn:E; [rewrite Hf, E; done|]. by rewrite E.
Qed.

Lemma rb_find_updated k f t :
  (forall x, key (f x) = key x) -> rb_find key cmp k (rb_update key cmp k f t) = f <$> rb_find key cmp k t.
Proof. intros Hf. apply rb_find_updated_cmp. intros x c. by rewrite Hf. Qed.

Lemma rb_find_updated_ne k k' f t :
  (forall x, key (f x) = key x) -> (forall c, cmp k c = 0 -> cmp k' c = 0 -> False) ->
  rb_find key cmp k' (rb_update key cmp k f t) = rb_find key cmp k' t.
Proof.
  intros Hf Hne. unfold rb_find, rb_update. induction t as [|x t IH]; simpl; [done|].
  destruct (cmp k (key x) =? 0) eqn:E.
  - rewrite Hf. destruct (cmp k' (key x) =? 0) eqn:E'; zbool; [by destruct (Hne (key x))|done].
  - destruct (cmp k' (key x) =? 0); done.
Qed.
End Trees.

(** In a sorted tree an element with a key that is there is not inserted. *)
Lemma rb_insert_found {A K} (key : A -> K) ok (cmp : K -> K -> Z) `{!CmpOrder ok cmp} x t y :
  tree_ok key ok cmp t -> ok (key x) -> rb_find key cmp (key x) t = Some y -> rb_insert key cmp x t = None.
Proof.
  unfold rb_find. induction t as [|z t IH]; intros Ht Hx E; simpl in *; [done|].
  destruct (tree_ok_cons key ok cmp z t Ht) as (Hz & Ht' & Hlt).
  destruct (cmp (key x) (key z) =? 0) eqn:E0; zbool; [by rewrite (proj2 (Z.ltb_ge _ _)) by lia|].
  rewrite (IH Ht' Hx E).
  destruct (cmp (key x) (key z) <? 0) eqn:E1; zbool; [exfalso|done].
  apply find_some in E as [Hin Hc]. apply list_elem_of_In in Hin. zbool.
  rewrite Forall_forall in Hlt. specialize (Hlt y Hin). unfold tree_lt in Hlt.
  pose proof (cmp_lt_trans _ (key z) (key y) Hx Hz (tree_ok_elem key ok cmp t y Ht' Hin) E1 Hlt). lia.
Qed.

Section Neighbours.
Lemma peerid_zero a b : peerid_compare a b = 0 <-> (a - b) mod 2 ^ 32 = 0.
Proof.
  unfold peerid_compare, int_of_u32, u32. pose proof (Z.mod_pos_bound (a - b) (2 ^ 32) eq_refl).
  split; [|intros ->; done]. case_match; zbool; lia.
Qed.

Lemma peerid_zero_eq a b c : is_u 32 a -> is_u 32 b -> peerid_compare a c = 0 -> peerid_compare b c = 0 -> a = b.
Proof.
  unfold is_u. rewrite !peerid_zero. intros Ha Hb H1 H2.
  pose proof (Z.div_mod (a - c) (2 ^ 32) ltac:(lia)) as E1.
  pose proof (Z.div_mod (b - c) (2 ^ 32) ltac:(lia)) as E2. rewrite H1 in E1. rewrite H2 in E2.
  revert E1 E2. generalize ((a - c) / 2 ^ 32) ((b - c) / 2 ^ 32). intros x y E1 E2. lia.
Qed.

Lemma nbr_upd_find s p q f :
  is_u 32 p -> is_u 32 q -> (forall n, ln_peerid (f n) = ln_peerid n) ->
  lde_nbr_find (nbrs_upd s p f) q = if p =? q then f <$> lde_nbr_find s q else lde_nbr_find s q.
Proof.
  intros Hp Hq Hf. unfold lde_nbr_find, nbrs_upd. cbn [l_nbrs set_l_nbrs]. destruct (p =? q) eqn:E; zbool.
  - subst q. by apply rb_find_updated.
  - apply rb_find_updated_ne; [done|]. intros c H1 H2. by apply E, (peerid_zero_eq p q c).
Qed.

(** Records of a neighbour do not show in its address, identifier and family
    switches. *)
Definition same_nbr (n n' : lde_nbr) : Prop :=
  ln_peerid n' = ln_peerid n /\ ln_id n' = ln_id n /\ ln_v4_enabled n' = ln_v4_enabled n /\
  ln_v6_enabled n' = ln_v6_enabled n /\ ln_addr_list n' = ln_addr_list n.
End Neighbours.

(** ** Announcing a label of an LSP *)

(** The map of the mapping message for LSP [f] with label [v]. *)
Definition lsp_map (f : fec) (v : Z) : ldp_map := set_m_label (lde_fec2map f) v.

Definition add_sent (f : fec) (v : Z) (i : nat) (n : lde_nbr) : lde_nbr :=
  match rb_insert me_fec fec_compare (LdeMap f (lsp_map f v) (HomeTmp i)) (ln_sent_map n) with
  | Some t => set_ln_sent_map n t
  | None => n
  end.

(** The state behind the announcement of [f] to [p] for the temporary node
    [i]. *)
Definition announced (s : lde) (p : Z) (f : fec) (v : Z) (i : nat) : lde :=
  nbrs_upd (set_l_tmp (set_l_out s (l_out s ++ [MappingAdd p (lsp_map f v); MappingAddEnd p]))
    (alter (cons p) i (l_tmp s))) p (add_sent f v i).

(** Nothing was exchanged with the neighbour about [f]. *)
Record fresh_for (ln : lde_nbr) (f : fec) : Prop := {
  fresh_enabled : enabled_for ln f = true;
  fresh_sent : rb_find me_fec fec_compare f (ln_sent_map ln) = None;
  fresh_recv : rb_find me_fec fec_compare f (ln_recv_map ln) = None;
  fresh_rreq : rb_find lre_fec fec_compare f (ln_recv_req ln) = None;
  fresh_sreq : rb_find lre_fec fec_compare f (ln_sent_req ln) = None
}.

Section Announce.
Lemma labelmapping_tmp p f v i ln s :
  is_prefix f -> lde_nbr_find s p = Some ln -> enabled_for ln f = true ->
  rb_find me_fec fec_compare f (ln_sent_map ln) = None ->
  rb_find lre_fec fec_compare f (ln_recv_req ln) = None ->
  lde_send_labelmapping p (fec_node_new f v) (HomeTmp i) true s = Ok (tt, announced s p f v i).
Proof.
  intros Hf El En Es Er. unfold lde_send_labelmapping.
  rewrite (bind_ok _ _ s ln s) by (unfold deref_ln; by rewrite El).
  rewrite (bind_ok _ _ s _ s (sendable_prefix ln (fec_node_new f v) s Hf)).
  cbn [fn_fec fec_node_new fn_local_label]. rewrite En, Er, Es.
  rewrite (bind_ok _ _ s (lsp_map f v) s) by done.
  unfold lde_send, lde_map_add, link_map, upd_ln, bind, modify, deref_ln. cbn [rbind].
  unfold announced, nbrs_upd, add_sent. cbn [set_l_tmp set_l_out l_tmp l_out l_nbrs].
  rewrite <- app_assoc. cbn [app].
  match goal with |- context [lde_nbr_find ?s' p] => change (lde_nbr_find s' p) with (lde_nbr_find s p) end.
  rewrite El. done.
Qed.

Lemma add_sent_same f v i n : same_nbr n (add_sent f v i n).
Proof. unfold add_sent, same_nbr. by case_match. Qed.

Lemma add_sent_found f v i n :
  fec_ok f -> rb_find me_fec fec_compare f (ln_sent_map n) = None ->
  rb_find me_fec fec_compare f (ln_sent_map (add_sent f v i n)) = Some (LdeMap f (lsp_map f v) (HomeTmp i)).
Proof.
  intros Hf E. unfold add_sent.
  destruct (rb_insert_total me_fec fec_compare (LdeMap f (lsp_map f v) (HomeTmp i)) (ln_sent_map n) E) as [t Et].
  rewrite Et. cbn [ln_sent_map set_ln_sent_map]. rewrite (rb_find_inserted _ _ _ _ _ f Et) by done.
  cbn [me_fec]. by rewrite (cmp_refl (ok := fec_ok)).
Qed.
End Announce.

(** ** Branches *)
Definition branch (v label p : Z) (f : fec) (type : stream_type) : label_nbr := LabelNbr label v p f type.

Section Branches.
Lemma lnbr_compare_key label v p f type x :
  label_nbr_compare (LabelNbr label v p f type) x = label_nbr_compare (lnbr_key_of p f) x.
Proof. done. Qed.

Lemma lnbr_compare_key_r label v p f type x :
  label_nbr_compare x (LabelNbr label v p f type) = label_nbr_compare x (lnbr_key_of p f).
Proof. done. Qed.

(** A branch that is not in the table can be added, and is found then; the
    other branches stay. *)
Lemma branch_add label v p f type s :
  fec_ok f -> label_nbr_find s 0 p f = None ->
  exists t, label_nbr_add label v p f type s = Ok (tt, set_l_label_nbrs s t) /\
    rb_insert id label_nbr_compare (LabelNbr label v p f type) (l_label_nbrs s) = Some t /\
    (forall x, x ∈ t <-> x = LabelNbr label v p f type \/ x ∈ l_label_nbrs s) /\
    forall l, label_nbr_find (set_l_label_nbrs s t) l p f = Some (LabelNbr label v p f type).
Proof.
  intros Hf En. destruct (rb_insert_total id label_nbr_compare (LabelNbr label v p f type) (l_label_nbrs s) En)
    as [t Et]. exists t. split; [|split; [done|split]].
  - unfold label_nbr_add. rewrite (bind_ok _ _ s s s) by done. by rewrite Et.
  - intros x. by apply (rb_insert_elem id label_nbr_compare).
  - intros l. unfold label_nbr_find. cbn [l_label_nbrs set_l_label_nbrs].
    rewrite (rb_find_inserted id label_nbr_compare _ _ _ (lnbr_key_of p f) Et) by done.
    cbn [id]. rewrite lnbr_compare_key_r, (cmp_refl (ok := lnbr_ok)); done.
Qed.

(** Adding a branch that is there is a fatal error. *)
Lemma branch_add_clash label v p f type l s x :
  tree_ok id lnbr_ok label_nbr_compare (l_label_nbrs s) -> fec_ok f -> label_nbr_find s l p f = Some x ->
  label_nbr_add label v p f type s = Fatal "lde_nbr_new: RB_INSERT failed".
Proof.
  intros Ht Hf E. unfold label_nbr_add. rewrite (bind_ok _ _ s s s) by done.
  by rewrite (rb_insert_found id lnbr_ok label_nbr_compare (LabelNbr label v p f type) (l_label_nbrs s) x).
Qed.
End Branches.

(** ** A mapping for a FEC that is not a route *)

(** The node of [f], made if it is missing. *)
Definition node_added (s : lde) (f : fec) : lde :=
  match ft_find s f with
  | Some _ => s
  | None =>
      match rb_insert fn_fec fec_compare (fec_node_new f NO_LABEL) (l_ft s) with
      | Some t => set_l_ft s t
      | None => s
      end
  end.

Definition add_recv (k : fec) (map : ldp_map) (n : lde_nbr) : lde_nbr :=
  match rb_insert me_fec fec_compare (LdeMap k map HomeLib) (ln_recv_map n) with
  | Some t => set_ln_recv_map n t
  | None => n
  end.

(** The LIB behind the mapping: node [k] is linked to [p]. *)
Definition learnt (s : lde) (p : Z) (f k : fec) (map : ldp_map) : lde :=
  nbrs_upd (ft_upd (node_added s f) k (fun n => set_fn_downstream n (p :: fn_downstream n))) p (add_recv k map).

Section Quiet.
Lemma cmp_then_zero a b k : cmp_then a b k = 0 <-> a = b /\ k = 0.
Proof. unfold cmp_then. repeat case_match; zbool; split; intros; try lia; intuition lia. Qed.

(** The key of an IPv4 FEC is its address and length. *)
Lemma fec_compare_v4 ov root sp k x :
  fec_compare (FecIpv4 ov root sp) k = 0 -> fec_compare k x = fec_compare (FecIpv4 ov root sp) x.
Proof.
  unfold fec_compare. destruct k as [l' p' sp'|p' l'|t' i' n'];
    simpl; rewrite ?cmp_then_zero; try (intros [? ?]; lia).
  intros (_ & -> & -> & _). done.
Qed.

Lemma rb_find_v4 {A} (key : A -> fec) ov root sp k t :
  fec_compare (FecIpv4 ov root sp) k = 0 ->
  rb_find key fec_compare k t = rb_find key fec_compare (FecIpv4 ov root sp) t.
Proof.
  intros H. unfold rb_find. induction t as [|x t IH]; simpl; [done|].
  by rewrite (fec_compare_v4 _ _ _ _ _ H), IH.
Qed.

Lemma node_added_find s f :
  fec_ok f -> exists n, ft_find (node_added s f) f = Some n /\ fec_compare f (fn_fec n) = 0 /\
    fn_nexthops n = nexthops_of s f.
Proof.
  intros Hf. unfold node_added, nexthops_of. destruct (ft_find s f) as [n|] eqn:E.
  - exists n. split; [done|]. split; [|done]. by apply rb_find_in in E as [_ ?].
  - destruct (rb_insert_total fn_fec fec_compare (fec_node_new f NO_LABEL) (l_ft s) E) as [t Et]. rewrite Et.
    exists (fec_node_new f NO_LABEL). cbn [fn_fec fec_node_new fn_nexthops].
    split; [|split; [by apply (cmp_refl (ok := fec_ok))|done]].
    unfold ft_find. cbn [l_ft set_l_ft]. rewrite (rb_find_inserted _ _ _ _ _ f Et) by done.
    cbn [fn_fec fec_node_new]. by rewrite (cmp_refl (ok := fec_ok)).
Qed.

Lemma node_added_nbr s f p : lde_nbr_find (node_added s f) p = lde_nbr_find s p.
Proof. unfold node_added. by repeat case_match. Qed.

(** A first mapping for a FEC without next hops is recorded, and nothing
    else happens. *)
Lemma check_mapping_quiet map p ln ov root sp s :
  let f := FecIpv4 ov root sp in
  fec_ok f -> lde_nbr_find s p = Some ln -> lde_map2fec map (ln_id ln) = Ok f ->
  m_type map <> MAP_TYPE_PWID -> nexthops_of s f = [] ->
  rb_find me_fec fec_compare f (ln_recv_map ln) = None ->
  rb_find lre_fec fec_compare f (ln_sent_req ln) = None ->
  exists k, fec_compare f k = 0 /\ lde_check_mapping map p s = Ok (tt, learnt s p f k map).
Proof.
  intros f Hf El Ef Hm Hn Er Es.
  destruct (node_added_find s f Hf) as (n & En & Hc & Enh). exists (fn_fec n). split; [done|].
  unfold lde_check_mapping. rewrite (bind_ok _ _ s ln s) by (unfold deref_ln; by rewrite El).
  rewrite (bind_ok _ _ s f s) by (unfold lift; by rewrite Ef). rewrite (bind_ok _ _ s s s) by done.
  rewrite (bind_ok _ _ s tt (node_added s f)).
  2: { unfold node_added. destruct (ft_find s f); [done|]. unfold fec_add, modify. done. }
  rewrite (bind_ok _ _ (node_added s f) n (node_added s f)) by (unfold deref_fn; by rewrite En).
  rewrite Es. rewrite (bind_ok _ _ (node_added s f) tt (node_added s f)) by done.
  rewrite (proj2 (Z.eqb_neq _ _) Hm). rewrite (bind_ok _ _ (node_added s f) false (node_added s f)) by done.
  assert (lde_nbr_find (node_added s f) p = Some ln) as El' by (by rewrite node_added_nbr).
  rewrite (bind_ok _ _ (node_added s f) ln (node_added s f)) by (unfold deref_ln; by rewrite El').
  rewrite Er. rewrite (bind_ok _ _ (node_added s f) tt (node_added s f)) by done.
  rewrite (bind_ok _ _ (node_added s f) n (node_added s f)) by (unfold deref_fn; by rewrite En).
  rewrite Enh, Hn. rewrite (bind_ok _ _ (node_added s f) tt (node_added s f)) by done.
  unfold record_recv_map. rewrite (bind_ok _ _ (node_added s f) ln (node_added s f))
    by (unfold deref_ln; by rewrite El').
  rewrite (rb_find_v4 me_fec ov root sp) by done. fold f. rewrite Er.
  unfold lde_map_add, link_map, upd_fn, upd_ln, bind, deref_fn, deref_ln.
  assert (ft_find (node_added s f) (fn_fec n) = Some n) as ->.
  { unfold ft_find. rewrite (rb_find_v4 fn_fec ov root sp) by done. exact En. }
  cbn [rbind modify].
  match goal with |- context [lde_nbr_find ?s' p] =>
    change (lde_nbr_find s' p) with (lde_nbr_find (node_added s f) p) end.
  by rewrite El'.
Qed.
End Quiet.

(** ** The route to the root *)

(** The neighbour that announced the address of a next hop. *)
Definition nbr_at (s : lde) (h : fec_nh) : option Z := ln_peerid <$> List.find (fun n => owns n h) (l_nbrs s).

Section Root.
Lemma nbr_by_addr_at h s :
  af_ok (fnh_af h) -> lde_nbr_find_by_addr (fnh_af h) (fnh_nexthop h) s = Ok (nbr_at s h, s).
Proof.
  intros Haf. unfold lde_nbr_find_by_addr, nbr_at. rewrite (bind_ok _ _ s s s) by done.
  induction (l_nbrs s) as [|n l IH]; [done|]. cbn [nbr_by_addr_in List.find].
  assert (address_find_in (ln_addr_list n) (fnh_af h) (fnh_nexthop h) s = Ok (owns n h, s)) as E.
  { clear IH. unfold owns. induction (ln_addr_list n) as [|[af a] t IH]; [done|]. simpl.
    destruct (af =? fnh_af h) eqn:Ea; [|exact IH]. simpl.
    rewrite (bind_ok _ _ s _ s (addr_eq_same _ _ _ _ Haf)).
    destruct (addr_same (fnh_af h) a (fnh_nexthop h)); [done|exact IH]. }
  rewrite (bind_ok _ _ s _ s E). by destruct (owns n h).
Qed.

Lemma last_nexthop_at l h acc s :
  Forall (fun h => af_ok (fnh_af h)) (l ++ [h]) ->
  last_nexthop_nbr acc (l ++ [h]) s = Ok (match nbr_at s h with Some p => PtrTo p | None => PtrNull end, s).
Proof.
  revert acc. induction l as [|x l IH]; intros acc Hf; simpl; inversion Hf as [|? ? Hx Hl]; subst.
  - by rewrite (bind_ok _ _ s _ s (nbr_by_addr_at h s Hx)).
  - rewrite (bind_ok _ _ s _ s (nbr_by_addr_at x s Hx)). by apply IH.
Qed.

(** Changes of nodes that keep their FEC. *)
Lemma find_root_upd s k g root :
  (forall n, fn_fec (g n) = fn_fec n) ->
  find_root_node (ft_upd s k g) root
  = (fun n => if fec_compare k (fn_fec n) =? 0 then g n else n) <$> find_root_node s root.
Proof.
  intros Hg. unfold find_root_node, ft_upd, rb_update. cbn [l_ft set_l_ft].
  induction (l_ft s) as [|n l IH]; [done|]. cbn [List.map List.find].
  assert (fn_fec (if fec_compare k (fn_fec n) =? 0 then g n else n) = fn_fec n) as -> by (case_match; auto).
  by destruct (u_ipv4_prefix (fn_fec n) =? root).
Qed.

(** The node of an LSP whose opaque value is above the length of the route
    sorts behind the route. *)
Lemma find_root_added s f root n0 :
  fec_tree fn_fec (l_ft s) -> fec_ok f -> find_root_node s root = Some n0 ->
  0 < fec_compare f (fn_fec n0) -> find_root_node (node_added s f) root = Some n0.
Proof.
  intros Ht Hf Hr Hc. unfold node_added. destruct (ft_find s f); [done|].
  destruct (rb_insert _ _ _ _) as [t|] eqn:Ei; [|done].
  revert Ht Hr t Ei. unfold find_root_node. cbn [l_ft set_l_ft].
  induction (l_ft s) as [|n l IH]; cbn [List.find rb_insert]; [done|]. intros Ht.
  destruct (tree_ok_cons fn_fec fec_ok fec_compare n l Ht) as (Hn & Ht' & Hlt).
  assert (n0 ∈ n :: l -> 0 < fec_compare f (fn_fec n)) as Hgt.
  { intros Hin. apply elem_of_cons in Hin as [-> |Hin]; [done|]. rewrite Forall_forall in Hlt.
    specialize (Hlt n0 Hin). unfold tree_lt in Hlt.
    pose proof (tree_ok_elem fn_fec fec_ok fec_compare l n0 Ht' Hin) as Hn0.
    apply (cmp_gt fec_ok fec_compare f (fn_fec n) Hf Hn).
    apply (cmp_gt fec_ok fec_compare f (fn_fec n0) Hf Hn0) in Hc.
    exact (cmp_lt_trans _ _ _ Hn Hn0 Hf Hlt Hc). }
  intros Hr t Ei. assert (n0 ∈ n :: l) as Hin.
  { destruct (u_ipv4_prefix (fn_fec n) =? root); [injection Hr as ->; left|].
    apply find_some in Hr as [? _]. right. by apply list_elem_of_In. }
  specialize (Hgt Hin). cbn [fn_fec fec_node_new] in Ei.
  rewrite (proj2 (Z.ltb_ge _ _)) in Ei by lia. rewrite (proj2 (Z.eqb_neq _ _)) in Ei by lia.
  destruct (rb_insert fn_fec fec_compare (fec_node_new f NO_LABEL) l) as [t'|]; [|done].
  injection Ei as <-. cbn [List.find]. destruct (u_ipv4_prefix (fn_fec n) =? root); [done|]. by apply IH.
Qed.

Lemma find_root_learnt s p f k map root n0 :
  fec_tree fn_fec (l_ft s) -> fec_ok f -> find_root_node s root = Some n0 -> 0 < fec_compare f (fn_fec n0) ->
  exists n1, find_root_node (learnt s p f k map) root = Some n1 /\ fn_nexthops n1 = fn_nexthops n0.
Proof.
  intros Ht Hf Hr Hc.
  change (find_root_node (learnt s p f k map) root)
    with (find_root_node (ft_upd (node_added s f) k (fun n => set_fn_downstream n (p :: fn_downstream n))) root).
  rewrite find_root_upd, (find_root_added s f root n0) by done. simpl. eexists. split; [done|]. by case_match.
Qed.
End Root.

(** ** A leaf joins *)

(** The FEC that names an LSP. *)
Definition lsp_fec (root ov : Z) : fec := FecIpv4 ov root 0.

(** The label the next LSP gets. *)
Definition next_label (s : lde) : Z := u32 (l_label s + 1).

(** The leaf behind [tree_up]: a branch towards the root and its label
    announced. *)
Definition leaf_joined (s : lde) (p : Z) (f : fec) (t : list label_nbr) : lde :=
  announced (set_l_tmp (set_l_label_nbrs (set_l_label (set_l_leaf s 1) (next_label s)) t)
    (l_tmp s ++ [[]])) p f (next_label s) (length (l_tmp s)).

Section Leaf.
Lemma lsp_fec_ok root ov : is_u 32 root -> is_u 8 ov -> fec_ok (lsp_fec root ov).
Proof. intros. unfold lsp_fec, fec_ok, is_u in *. repeat split; lia. Qed.

Lemma tree_up_state root ov s fn2 l h p ln :
  let f := lsp_fec root ov in
  fec_ok f -> find_root_node s root = Some fn2 -> fec_tag (fn_fec fn2) = FEC_TYPE_IPV4 ->
  fn_nexthops fn2 = l ++ [h] -> Forall (fun h => af_ok (fnh_af h)) (fn_nexthops fn2) ->
  nbr_at s h = Some p -> lde_nbr_find s p = Some ln -> fresh_for ln f -> label_nbr_find s 0 p f = None ->
  exists t, tree_up root ov s = Ok (tt, leaf_joined s p f t) /\
    rb_insert id label_nbr_compare (LabelNbr NO_LABEL (next_label s) p f STREAM_TYPE_UP) (l_label_nbrs s) = Some t.
Proof.
  intros f Hf Hr Ht Hnh Haf Hp El Hfr Hb.
  destruct (branch_add NO_LABEL (next_label s) p f STREAM_TYPE_UP
    (set_l_label (set_l_leaf s 1) (next_label s)) Hf Hb) as (t & Ea & Ei & _ & _).
  exists t. split; [|exact Ei]. unfold tree_up.
  rewrite (bind_ok _ _ s tt (set_l_leaf s 1)) by done.
  rewrite (bind_ok _ _ (set_l_leaf s 1) (set_l_leaf s 1) (set_l_leaf s 1)) by done.
  change (find_root_node (set_l_leaf s 1) root) with (find_root_node s root). rewrite Hr.
  rewrite Hnh in *. rewrite (bind_ok _ _ _ _ _ (last_nexthop_at l h PtrUninit (set_l_leaf s 1) Haf)).
  rewrite Ht. change (fec_mp2mp FEC_TYPE_IPV4 root ov) with f.
  rewrite (bind_ok _ _ _ (next_label s) (set_l_label (set_l_leaf s 1) (next_label s))) by done.
  change (nbr_at (set_l_leaf s 1) h) with (nbr_at s h). rewrite Hp.
  rewrite (bind_ok _ _ _ tt _ Ea).
  rewrite (bind_ok _ _ _ (HomeTmp (length (l_tmp s))) (set_l_tmp (set_l_label_nbrs (set_l_label
    (set_l_leaf s 1) (next_label s)) t) (l_tmp s ++ [[]]))) by done.
  by apply (labelmapping_tmp p f (next_label s) _ ln); try apply Hfr.
Qed.
End Leaf.

(** ** A mapping arrives from downstream *)

(** The label of an LSP and the counter behind choosing it. *)
Definition lsp_lbl (s : lde) (f : fec) : Z :=
  match List.find (same_lsp f) (l_label_nbrs s) with Some l => lb_local_label l | None => next_label s end.
Definition lsp_ctr (s : lde) (f : fec) : Z :=
  match List.find (same_lsp f) (l_label_nbrs s) with Some _ => l_label s | None => next_label s end.

(** Every branch leads to a neighbour that is up. *)
Definition branches_live (s : lde) : Prop :=
  Forall (fun l => is_Some (lde_nbr_find s (lb_peerid l))) (l_label_nbrs s).

(** The branch table and the label counter with a new branch. *)
Definition branched (s : lde) (f : fec) (t : list label_nbr) : lde :=
  set_l_tmp (set_l_label_nbrs (set_l_label s (lsp_ctr s f)) t) (l_tmp s ++ [[]]).

Section Downstream.
Lemma lsp_label_eq f s : lsp_label f s = Ok (lsp_lbl s f, set_l_label s (lsp_ctr s f)).
Proof.
  unfold lsp_label, lsp_lbl, lsp_ctr. rewrite (bind_ok _ _ s s s) by done.
  destruct (List.find (same_lsp f) (l_label_nbrs s)); [by destruct s|done].
Qed.

Lemma trace_ok s : branches_live s -> exists q, trace_branches s = Ok (tt, set_l_ln1 s q).
Proof.
  unfold branches_live, trace_branches. intros H. rewrite (bind_ok _ _ s s s) by done.
  assert (s = set_l_ln1 s (l_ln1 s)) as E0 by (by destruct s).
  revert H. generalize (l_label_nbrs s) as t. intros t H.
  cut (forall q0, exists q, foreach (fun l => deref_ln (lb_peerid l) ;;;
    modify (fun s => set_l_ln1 s (PtrTo (lb_peerid l)))) t (set_l_ln1 s q0) = Ok (tt, set_l_ln1 s q)).
  { intros Hgo. destruct (Hgo (l_ln1 s)) as [q E]. exists q. by rewrite <- E0 in E. }
  induction H as [|l t [n Hn] _ IH]; intros q0; [by exists q0|]. cbn [foreach].
  destruct (IH (PtrTo (lb_peerid l))) as [q E]. exists q.
  rewrite (bind_ok _ _ (set_l_ln1 s q0) tt (set_l_ln1 s (PtrTo (lb_peerid l)))); [exact E|].
  rewrite (bind_ok _ _ (set_l_ln1 s q0) n (set_l_ln1 s q0)); [done|].
  unfold deref_ln. change (lde_nbr_find (set_l_ln1 s q0)) with (lde_nbr_find s). by rewrite Hn.
Qed.

(** The root adds the branch and answers with the label of the LSP. *)
Lemma at_root_state map p f ln s :
  fec_ok f -> is_prefix f -> lde_nbr_find s p = Some ln -> enabled_for ln f = true ->
  rb_find me_fec fec_compare f (ln_sent_map ln) = None ->
  rb_find lre_fec fec_compare f (ln_recv_req ln) = None -> label_nbr_find s 0 p f = None ->
  exists t, mapping_at_root map p f s
    = Ok (tt, announced (branched s f t) p f (lsp_lbl s f) (length (l_tmp s))) /\
    rb_insert id label_nbr_compare (LabelNbr (m_label map) (lsp_lbl s f) p f STREAM_TYPE_DOWN)
      (l_label_nbrs s) = Some t.
Proof.
  intros Hf Hpf El Hen Hs Hr Hb.
  destruct (branch_add (m_label map) (lsp_lbl s f) p f STREAM_TYPE_DOWN (set_l_label s (lsp_ctr s f)) Hf Hb)
    as (t & Ea & Ei & _ & _).
  exists t. split; [|exact Ei]. unfold mapping_at_root.
  rewrite (bind_ok _ _ _ _ _ (lsp_label_eq f s)), (bind_ok _ _ _ tt _ Ea).
  rewrite (bind_ok _ _ _ (HomeTmp (length (l_tmp s))) (branched s f t)) by done.
  rewrite (bind_ok _ _ _ ln (branched s f t))
    by (unfold deref_ln; change (lde_nbr_find (branched s f t) p) with (lde_nbr_find s p); by rewrite El).
  rewrite Hs. by apply (labelmapping_tmp p f _ _ ln).
Qed.

(** The transit router adds a branch downstream and one towards the root, and
    announces its label to the latter only. *)
Lemma at_transit_state map p f up ln n1 h l s :
  fec_ok f -> is_prefix f -> find_root_node s (u_ipv4_prefix f) = Some n1 -> fn_nexthops n1 = h :: l ->
  af_ok (fnh_af h) -> nbr_at s h = Some up -> lde_nbr_find s up = Some ln -> enabled_for ln f = true ->
  rb_find me_fec fec_compare f (ln_sent_map ln) = None ->
  rb_find lre_fec fec_compare f (ln_recv_req ln) = None ->
  label_nbr_find s 0 p f = None -> label_nbr_find s 0 up f = None ->
  label_nbr_compare (lnbr_key_of up f) (lnbr_key_of p f) <> 0 ->
  exists t1 t2, mapping_at_transit map p f s
    = Ok (tt, announced (set_l_label_nbrs (set_l_ln1 (branched (set_l_leaf s 0) f t1) (PtrTo up)) t2)
        up f (lsp_lbl s f) (length (l_tmp s))) /\
    rb_insert id label_nbr_compare (LabelNbr (m_label map) (lsp_lbl s f) p f STREAM_TYPE_DOWN)
      (l_label_nbrs s) = Some t1 /\
    rb_insert id label_nbr_compare (LabelNbr NO_LABEL (lsp_lbl s f) up f STREAM_TYPE_UP) t1 = Some t2.
Proof.
  intros Hf Hpf Hr Hnh Haf Hat El Hen Hs Hq Hb Hbu Hne. set (s0 := set_l_leaf s 0).
  destruct (branch_add (m_label map) (lsp_lbl s f) p f STREAM_TYPE_DOWN (set_l_label s0 (lsp_ctr s0 f)) Hf Hb)
    as (t1 & Ea & Ei & _ & _).
  set (s1 := set_l_ln1 (branched s0 f t1) (PtrTo up)).
  assert (label_nbr_find s1 0 up f = None) as Hbu1.
  { unfold label_nbr_find. cbn [l_label_nbrs s1 set_l_ln1 branched set_l_tmp set_l_label_nbrs].
    rewrite (rb_find_inserted id label_nbr_compare _ _ _ (lnbr_key_of up f) Ei) by done. cbn [id].
    rewrite lnbr_compare_key_r, (proj2 (Z.eqb_neq _ _) Hne). exact Hbu. }
  destruct (branch_add NO_LABEL (lsp_lbl s f) up f STREAM_TYPE_UP s1 Hf Hbu1) as (t2 & Ea2 & Ei2 & _ & _).
  exists t1, t2. split; [|by split]. unfold mapping_at_transit.
  rewrite (bind_ok _ _ s tt s0) by done. rewrite (bind_ok _ _ _ _ _ (lsp_label_eq f s0)).
  change (lsp_lbl s0 f) with (lsp_lbl s f). rewrite (bind_ok _ _ _ tt _ Ea).
  rewrite (bind_ok _ _ _ (HomeTmp (length (l_tmp s))) (branched s0 f t1)) by done.
  rewrite (bind_ok _ _ _ (branched s0 f t1) (branched s0 f t1)) by done.
  change (find_root_node (branched s0 f t1)) with (find_root_node s). rewrite Hr, Hnh.
  rewrite (bind_ok _ _ _ _ _ (nbr_by_addr_at h (branched s0 f t1) Haf)).
  change (nbr_at (branched s0 f t1) h) with (nbr_at s h). rewrite Hat.
  rewrite (bind_ok _ _ _ tt s1) by done.
  rewrite (bind_ok _ _ _ ln s1) by (unfold deref_ln; change (lde_nbr_find s1) with (lde_nbr_find s); by rewrite El).
  rewrite Hs, (bind_ok _ _ _ tt _ Ea2). by apply (labelmapping_tmp up f _ _ ln).
Qed.
End Downstream.

(** ** The dispatcher's handler for a mapping from downstream *)
Section Handler.
Lemma nbr_upd_live s p g q :
  (forall n, ln_peerid (g n) = ln_peerid n) ->
  is_Some (lde_nbr_find (nbrs_upd s p g) q) <-> is_Some (lde_nbr_find s q).
Proof. intros Hg. by apply rb_find_update_some. Qed.

Lemma add_recv_peerid k map n : ln_peerid (add_recv k map n) = ln_peerid n.
Proof. unfold add_recv. by case_match. Qed.
Lemma add_sent_peerid f v i n : ln_peerid (add_sent f v i n) = ln_peerid n.
Proof. apply add_sent_same. Qed.

Lemma fresh_add_recv k map n f :
  enabled_for (add_recv k map n) f = enabled_for n f /\ ln_id (add_recv k map n) = ln_id n /\
  ln_sent_map (add_recv k map n) = ln_sent_map n /\ ln_recv_req (add_recv k map n) = ln_recv_req n /\
  ln_addr_list (add_recv k map n) = ln_addr_list n.
Proof. unfold add_recv. by case_match. Qed.

Lemma learnt_live s p f k map q :
  is_Some (lde_nbr_find (learnt s p f k map) q) <-> is_Some (lde_nbr_find s q).
Proof.
  unfold learnt. rewrite nbr_upd_live by apply add_recv_peerid.
  change (lde_nbr_find (ft_upd (node_added s f) k (fun n => set_fn_downstream n (p :: fn_downstream n))) q)
    with (lde_nbr_find (node_added s f) q). by rewrite node_added_nbr.
Qed.

Lemma learnt_find s p f k map q :
  is_u 32 p -> is_u 32 q -> lde_nbr_find (learnt s p f k map) q
  = if p =? q then add_recv k map <$> lde_nbr_find s q else lde_nbr_find s q.
Proof.
  intros Hp Hq. unfold learnt. rewrite nbr_upd_find by (done || apply add_recv_peerid).
  change (lde_nbr_find (ft_upd (node_added s f) k (fun n => set_fn_downstream n (p :: fn_downstream n))) q)
    with (lde_nbr_find (node_added s f) q). by rewrite node_added_nbr.
Qed.

Lemma nbr_at_nbrs s s' h :
  List.map (fun n => (ln_peerid n, ln_addr_list n)) (l_nbrs s')
  = List.map (fun n => (ln_peerid n, ln_addr_list n)) (l_nbrs s) -> nbr_at s' h = nbr_at s h.
Proof.
  unfold nbr_at. generalize (l_nbrs s) as l, (l_nbrs s') as l'. induction l as [|n l IH]; intros [|n' l'] E; try done.
  injection E as Ep Ea E. simpl. unfold owns in *. rewrite Ea. case_match; [by simpl; rewrite Ep|]. by apply IH.
Qed.

Lemma nbr_at_learnt s p f k map h : nbr_at (learnt s p f k map) h = nbr_at s h.
Proof.
  apply nbr_at_nbrs. unfold learnt, nbrs_upd, ft_upd, rb_update. cbn [l_nbrs set_l_nbrs set_l_ft].
  assert (l_nbrs (node_added s f) = l_nbrs s) as -> by (unfold node_added; by repeat case_match).
  rewrite List.map_map. apply map_ext. intros n. case_match; [|done].
  unfold add_recv. by case_match.
Qed.

(** What the handler does for a neighbour that is not yet a branch. *)
Lemma handle_mapping_down map p ln ov root sp s :
  let f := FecIpv4 ov root sp in
  fec_ok f -> is_u 32 p -> lde_nbr_find s p = Some ln -> lde_map2fec map (ln_id ln) = Ok f ->
  m_type map <> MAP_TYPE_PWID -> nexthops_of s f = [] -> fresh_for ln f -> label_nbr_find s 0 p f = None ->
  exists k, fec_compare f k = 0 /\
    handle_mapping map p s = (mapping_from_downstream map p f ;;; trace_branches) (learnt s p f k map).
Proof.
  intros f Hf Hp El Ef Hm Hn [_ _ Hr _ Hs] Hb.
  destruct (check_mapping_quiet map p ln ov root sp s Hf El Ef Hm Hn Hr Hs) as (k & Hk & E).
  exists k. split; [done|]. unfold handle_mapping. rewrite (bind_ok _ _ s tt _ E). fold f.
  rewrite (bind_ok _ _ _ (add_recv k map ln) (learnt s p f k map)).
  2: { unfold deref_ln. rewrite learnt_find, Z.eqb_refl, El by done. done. }
  destruct (fresh_add_recv k map ln f) as (_ & -> & _).
  rewrite (bind_ok _ _ _ f (learnt s p f k map)) by (unfold lift; by rewrite Ef).
  rewrite (bind_ok _ _ _ (learnt s p f k map) (learnt s p f k map)) by done.
  assert (label_nbr_find (learnt s p f k map) (m_label map) p f = None) as ->; [|done].
  rewrite <- Hb. unfold label_nbr_find, learnt, node_added. by repeat case_match.
Qed.

Lemma learnt_table s p f k map : l_label_nbrs (learnt s p f k map) = l_label_nbrs s /\
  l_label (learnt s p f k map) = l_label s /\ l_leaf (learnt s p f k map) = l_leaf s /\
  l_out (learnt s p f k map) = l_out s /\ l_tmp (learnt s p f k map) = l_tmp s.
Proof. unfold learnt, node_added. by repeat case_match. Qed.

Lemma label_nbr_find_table s s' l l' p f :
  l_label_nbrs s' = l_label_nbrs s -> label_nbr_find s' l p f = label_nbr_find s l' p f.
Proof. unfold label_nbr_find. by intros ->. Qed.

(** The trace behind the handler is harmless when the new branches lead to
    neighbours that are up. *)
Lemma trace_after s s' :
  (forall q, is_Some (lde_nbr_find s q) -> is_Some (lde_nbr_find s' q)) -> branches_live s ->
  (forall x, x ∈ l_label_nbrs s' -> x ∈ l_label_nbrs s \/ is_Some (lde_nbr_find s (lb_peerid x))) ->
  exists q, trace_branches s' = Ok (tt, set_l_ln1 s' q).
Proof.
  intros Hn Hl Ht. apply trace_ok. unfold branches_live in *. rewrite Forall_forall in *.
  intros x Hx. apply Hn. destruct (Ht x Hx); auto.
Qed.
End Handler.

(** A mapping for the LSP [f], an IPv4 FEC that is not a route, arrives from the
    neighbour [p], with which nothing was exchanged about it. *)
Record join_from (s : lde) (p : Z) (ln : lde_nbr) (map : ldp_map) (f : fec) : Prop := {
  jf_fec : fec_ok f /\ fec_tag f = FEC_TYPE_IPV4;
  jf_peer : is_u 32 p;
  jf_nbr : lde_nbr_find s p = Some ln;
  jf_map : lde_map2fec map (ln_id ln) = Ok f;
  jf_type : m_type map <> MAP_TYPE_PWID;
  jf_noroute : nexthops_of s f = [];
  jf_fresh : fresh_for ln f;
  jf_new : label_nbr_find s 0 p f = None;
  jf_live : branches_live s
}.

(** The first node with the root's address, in tree order, is [n0], and the
    FEC of the LSP sorts behind it: its opaque value is above the length of the
    route. *)
Record root_route (s : lde) (f : fec) (n0 : fec_node) : Prop := {
  rr_sorted : fec_tree fn_fec (l_ft s);
  rr_node : find_root_node s (u_ipv4_prefix f) = Some n0;
  rr_behind : 0 < fec_compare f (fn_fec n0)
}.

Section Joins.
Context (s : lde) (p : Z) (ln : lde_nbr) (map : ldp_map) (f : fec) (n0 : fec_node).
Context (Hj : join_from s p ln map f) (Hr : root_route s f n0).

Lemma join_prefix : is_prefix f.
Proof. unfold is_prefix. by rewrite (proj2 (jf_fec _ _ _ _ _ Hj)). Qed.

(** The handler up to the decision between root and transit. *)
Lemma join_learnt : exists k n1, fec_compare f k = 0 /\
  find_root_node (learnt s p f k map) (u_ipv4_prefix f) = Some n1 /\ fn_nexthops n1 = fn_nexthops n0 /\
  handle_mapping map p s = (mapping_from_downstream map p f ;;; trace_branches) (learnt s p f k map).
Proof.
  destruct Hj as [[Hf Ht] Hp El Ef Hm Hn Hfr Hb Hl], Hr as [Hs Hrt Hc].
  destruct f as [ov root sp| |]; try done.
  destruct (handle_mapping_down map p ln ov root sp s Hf Hp El Ef Hm Hn Hfr Hb) as (k & Hk & E).
  destruct (find_root_learnt s p (FecIpv4 ov root sp) k map _ n0 Hs Hf Hrt Hc) as (n1 & Hr1 & Hnh).
  by exists k, n1.
Qed.

Lemma join_root :
  existsb (fun h => v4 (fnh_nexthop h) =? inet_addr 0 0 0 0) (fn_nexthops n0) = true ->
  exists k q t, fec_compare f k = 0 /\
    rb_insert id label_nbr_compare (LabelNbr (m_label map) (lsp_lbl s f) p f STREAM_TYPE_DOWN)
      (l_label_nbrs s) = Some t /\
    handle_mapping map p s = Ok (tt, set_l_ln1 (announced (branched (set_l_leaf (learnt s p f k map) 2) f t)
      p f (lsp_lbl s f) (length (l_tmp s))) q).
Proof.
  intros Hc. destruct join_learnt as (k & n1 & Hk & Hr1 & Hnh & E).
  set (s1 := set_l_leaf (learnt s p f k map) 2).
  destruct (learnt_table s p f k map) as (Et & El & _ & _ & Etmp).
  destruct (fresh_add_recv k map ln f) as (Hen & _ & Hsm & Hrq & _).
  destruct (at_root_state map p f (add_recv k map ln) s1) as (t & Ea & Ei).
  { apply Hj. } { exact join_prefix. }
  { change (lde_nbr_find s1 p) with (lde_nbr_find (learnt s p f k map) p).
    by rewrite learnt_find, Z.eqb_refl, (jf_nbr _ _ _ _ _ Hj) by apply Hj. }
  { rewrite Hen. apply Hj. } { rewrite Hsm. apply Hj. } { rewrite Hrq. apply Hj. }
  { rewrite <- (jf_new _ _ _ _ _ Hj). by apply label_nbr_find_table. }
  assert (lsp_lbl s1 f = lsp_lbl s f) as Ev.
  { unfold lsp_lbl, next_label, s1. cbn [l_label_nbrs l_label set_l_leaf]. by rewrite Et, El. }
  rewrite Ev in *. change (l_label_nbrs s1) with (l_label_nbrs (learnt s p f k map)) in Ei. rewrite Et in Ei.
  change (l_tmp s1) with (l_tmp (learnt s p f k map)) in Ea. rewrite Etmp in Ea.
  destruct (trace_after s (announced (branched s1 f t) p f (lsp_lbl s f) (length (l_tmp s)))) as [q Eq].
  { intros q Hq. unfold announced. apply nbr_upd_live; [apply add_sent_peerid|].
    by apply (learnt_live s p f k map). }
  { apply Hj. }
  { cbn. intros x Hx. apply (rb_insert_elem _ _ _ _ _ _ Ei) in Hx as [-> |Hx]; [right|by left].
    cbn. rewrite (jf_nbr _ _ _ _ _ Hj). eauto. }
  exists k, q, t. split; [done|]. split; [done|]. rewrite E. unfold mapping_from_downstream.
  rewrite (bind_ok _ _ _ tt (announced (branched s1 f t) p f (lsp_lbl s f) (length (l_tmp s)))); [exact Eq|].
  rewrite (bind_ok _ _ _ (learnt s p f k map) (learnt s p f k map)) by done. rewrite Hr1.
  rewrite (bind_ok _ _ _ tt s1) by (unfold mark_root; by rewrite Hnh, Hc).
  rewrite (bind_ok _ _ _ s1 s1) by done. exact Ea.
Qed.
End Joins.

Section Transit.
Context (s : lde) (p : Z) (ln : lde_nbr) (map : ldp_map) (f : fec) (n0 : fec_node).
Context (Hj : join_from s p ln map f) (Hr : root_route s f n0).
Context (h : fec_nh) (l : list fec_nh) (up : Z) (lnu : lde_nbr).
Context (Hnh : fn_nexthops n0 = h :: l) (Haf : af_ok (fnh_af h)) (Hat : nbr_at s h = Some up).
Context (Hup : is_u 32 up) (Hne : up <> p) (Hlnu : lde_nbr_find s up = Some lnu) (Hfu : fresh_for lnu f).
Context (Hnewu : label_nbr_find s 0 up f = None) (Hleaf : l_leaf s <> 2).
Context (Hconn : existsb (fun h => v4 (fnh_nexthop h) =? inet_addr 0 0 0 0) (fn_nexthops n0) = false).

Lemma branch_keys_differ : label_nbr_compare (lnbr_key_of up f) (lnbr_key_of p f) <> 0.
Proof.
  destruct (jf_fec _ _ _ _ _ Hj) as [_ Ht]. destruct f as [ov root sp| |]; try done.
  unfold label_nbr_compare. cbn [lb_fec lnbr_key_of fec_tag lb_peerid]. rewrite !cmp_then_zero. intros (_ & _ & _ & H).
  repeat case_match; zbool; lia.
Qed.

(** The state behind the join of a downstream router at a transit router. *)
Definition transit_joined (k : fec) (t1 t2 : list label_nbr) : lde :=
  announced (set_l_label_nbrs (set_l_ln1 (branched (set_l_leaf (learnt s p f k map) 0) f t1) (PtrTo up)) t2)
    up f (lsp_lbl s f) (length (l_tmp s)).

Lemma join_transit : exists k q t1 t2, fec_compare f k = 0 /\
  rb_insert id label_nbr_compare (LabelNbr (m_label map) (lsp_lbl s f) p f STREAM_TYPE_DOWN)
    (l_label_nbrs s) = Some t1 /\
  rb_insert id label_nbr_compare (LabelNbr NO_LABEL (lsp_lbl s f) up f STREAM_TYPE_UP) t1 = Some t2 /\
  handle_mapping map p s = Ok (tt, set_l_ln1 (transit_joined k t1 t2) q).
Proof.
  destruct (join_learnt s p ln map f n0 Hj Hr) as (k & n1 & Hk & Hr1 & Hnh1 & E).
  set (s1 := learnt s p f k map) in *.
  destruct (learnt_table s p f k map) as (Et & El & Elf & _ & Etmp). fold s1 in Et, El, Elf, Etmp.
  assert (lde_nbr_find s1 up = Some lnu) as Elu.
  { unfold s1. rewrite learnt_find, (proj2 (Z.eqb_neq p up)) by (done || apply Hj). exact Hlnu. }
  destruct (at_transit_state map p f up lnu n1 h l s1) as (t1 & t2 & Ea & Ei1 & Ei2);
    try done; try apply Hfu; try (apply Hj); try (exact (join_prefix _ _ _ _ _ Hj)).
  { by rewrite Hnh1. }
  { unfold s1. by rewrite nbr_at_learnt. }
  { rewrite <- (jf_new _ _ _ _ _ Hj). by apply label_nbr_find_table. }
  { rewrite <- Hnewu. by apply label_nbr_find_table. }
  { exact branch_keys_differ. }
  assert (lsp_lbl s1 f = lsp_lbl s f) as Ev by (unfold lsp_lbl, next_label; by rewrite Et, El).
  rewrite Ev, Et in *. rewrite Etmp in Ea.
  destruct (trace_after s (transit_joined k t1 t2)) as [q Eq].
  { intros q Hq. unfold transit_joined, announced. apply nbr_upd_live; [apply add_sent_peerid|].
    by apply (learnt_live s p f k map). }
  { apply Hj. }
  { cbn. intros x Hx. apply (rb_insert_elem _ _ _ _ _ _ Ei2) in Hx as [-> |Hx]; [right; cbn; eauto|].
    apply (rb_insert_elem _ _ _ _ _ _ Ei1) in Hx as [-> |Hx]; [right; cbn|by left].
    rewrite (jf_nbr _ _ _ _ _ Hj). eauto. }
  exists k, q, t1, t2. split; [done|]. split; [done|]. split; [done|]. rewrite E.
  unfold mapping_from_downstream. rewrite (bind_ok _ _ _ tt (transit_joined k t1 t2)); [exact Eq|].
  rewrite (bind_ok _ _ _ s1 s1) by done. rewrite Hr1.
  rewrite (bind_ok _ _ _ tt s1) by (unfold mark_root; by rewrite Hnh1, Hconn).
  rewrite (bind_ok _ _ _ s1 s1) by done. rewrite (proj2 (Z.eqb_neq _ _)) by (by rewrite Elf). exact Ea.
Qed.
End Transit.

(** The first next hop of the root's node belongs to the neighbour [up], which
    is no branch yet; this router is not the root. *)
Record upstream_hop (s : lde) (f : fec) (n0 : fec_node) (up : Z) (lnu : lde_nbr) : Prop := {
  uh_hop : exists h l, fn_nexthops n0 = h :: l /\ af_ok (fnh_af h) /\ nbr_at s h = Some up;
  uh_peer : is_u 32 up;
  uh_nbr : lde_nbr_find s up = Some lnu;
  uh_fresh : fresh_for lnu f;
  uh_new : label_nbr_find s 0 up f = None;
  uh_leaf : l_leaf s <> 2;
  uh_far : existsb (fun h => v4 (fnh_nexthop h) =? inet_addr 0 0 0 0) (fn_nexthops n0) = false
}.

Lemma transit_step s p ln map f n0 up lnu :
  join_from s p ln map f -> root_route s f n0 -> upstream_hop s f n0 up lnu -> up <> p ->
  exists k q t1 t2, fec_compare f k = 0 /\
    rb_insert id label_nbr_compare (LabelNbr (m_label map) (lsp_lbl s f) p f STREAM_TYPE_DOWN)
      (l_label_nbrs s) = Some t1 /\
    rb_insert id label_nbr_compare (LabelNbr NO_LABEL (lsp_lbl s f) up f STREAM_TYPE_UP) t1 = Some t2 /\
    handle_mapping map p s = Ok (tt, set_l_ln1 (transit_joined s p map f up k t1 t2) q).
Proof.
  intros Hj Hr [(h & l & Hnh & Haf & Hat) Hup Hlnu Hfu Hnew Hleaf Hfar] Hne.
  by eapply join_transit.
Qed.

(** ** The answer from the root *)
Section Answer.
Context (s : lde) (p up root ov v lp lu : Z) (map : ldp_map) (lnp lnu : lde_nbr).
Let f := lsp_fec root ov.
Let down := LabelNbr lp v p f STREAM_TYPE_DOWN.
Context (Hf : fec_ok f) (Hp : is_u 32 p) (Hup : is_u 32 up) (Hlt : p < up) (Hv : v <> NO_LABEL).
Context (Htab : l_label_nbrs s = [down; LabelNbr lu v up f STREAM_TYPE_UP]).
Context (Hleaf : l_leaf s <> 1) (Hlnp : lde_nbr_find s p = Some lnp) (Hen : enabled_for lnp f = true).
Context (Hsm : rb_find me_fec fec_compare f (ln_sent_map lnp) = None).
Context (Hrq : rb_find lre_fec fec_compare f (ln_recv_req lnp) = None).
Context (Hlnu : lde_nbr_find s up = Some lnu) (Hmap : lde_map2fec map (ln_id lnu) = Ok f).
Context (Hty : m_type map <> MAP_TYPE_PWID) (Hnr : nexthops_of s f = []).
Context (Hrm : rb_find me_fec fec_compare f (ln_recv_map lnu) = None).
Context (Hsr : rb_find lre_fec fec_compare f (ln_sent_req lnu) = None).

Definition answered (k : fec) : lde :=
  announced (set_l_ln1 (set_l_tmp (set_l_label_nbrs (learnt s up f k map)
    [down; LabelNbr (m_label map) v up f STREAM_TYPE_UP]) (l_tmp s ++ [[]])) (PtrTo p)) p f v (length (l_tmp s)).

Lemma lnbr_compare_peer a b q r : label_nbr_compare (LabelNbr a b q f STREAM_TYPE_UP) (lnbr_key_of r f)
  = if q >? r then 1 else if q <? r then -1 else 0.
Proof.
  unfold label_nbr_compare, f, lsp_fec. cbn [lb_fec lnbr_key_of fec_tag tag_num lb_peerid].
  unfold cmp_then. rewrite !(proj2 (Z.ltb_ge _ _)), !Z.gtb_ltb, !(proj2 (Z.ltb_ge _ _)) by lia. done.
Qed.

Let up_branch (x : Z) := LabelNbr x v up f STREAM_TYPE_UP.

Lemma up_not_down x : label_nbr_compare (up_branch x) down = 1 /\ label_nbr_compare (up_branch x) (up_branch lu) = 0.
Proof.
  unfold up_branch, down. rewrite !lnbr_compare_key_r, !lnbr_compare_peer. split; repeat case_match; zbool; lia.
Qed.

Lemma same_lsp_self a b q ty : same_lsp f (LabelNbr a b q f ty) = true.
Proof. by rewrite same_lsp_spec. Qed.

Lemma announced_find s0 q g w i r :
  is_u 32 q -> is_u 32 r -> lde_nbr_find (announced s0 q g w i) r
  = if q =? r then add_sent g w i <$> lde_nbr_find s0 r else lde_nbr_find s0 r.
Proof. intros Hq Hr. unfold announced. by rewrite nbr_upd_find by (done || apply add_sent_peerid). Qed.

(** Passing the answer on: the turns of the loop over the two branches. *)
Lemma answer_loop k :
  let s2 := set_l_tmp (set_l_label_nbrs (learnt s up f k map) [down; up_branch (m_label map)]) (l_tmp s ++ [[]]) in
  foreach (answer_branch f (fec_node_new f v) (HomeTmp (length (l_tmp s)))) [down; up_branch (m_label map)] s2
  = Ok (tt, answered k).
Proof.
  intros s2. set (s3 := set_l_ln1 s2 (PtrTo p)).
  assert (lde_nbr_find s2 p = Some lnp) as Ep.
  { change (lde_nbr_find s2 p) with (lde_nbr_find (learnt s up f k map) p).
    rewrite learnt_find, (proj2 (Z.eqb_neq up p)) by (done || lia). exact Hlnp. }
  assert (deref_ln p s2 = Ok (lnp, s2)) as Dp by (unfold deref_ln; by rewrite Ep).
  assert (deref_ln p s3 = Ok (lnp, s3)) as Dp3 by (unfold deref_ln; by rewrite (Ep : lde_nbr_find s3 p = _)).
  assert (deref_ln p (answered k) = Ok (add_sent f v (length (l_tmp s)) lnp, answered k)) as Dp4.
  { unfold deref_ln, answered. rewrite announced_find, Z.eqb_refl by done.
    by rewrite (Ep : lde_nbr_find (set_l_ln1 _ _) p = Some lnp). }
  assert (deref_ln up (answered k) = Ok (add_recv k map lnu, answered k)) as Du.
  { unfold deref_ln, answered. rewrite announced_find, (proj2 (Z.eqb_neq p up)) by (done || lia).
    match goal with |- context [lde_nbr_find ?x up] =>
      change (lde_nbr_find x up) with (lde_nbr_find (learnt s up f k map) up) end.
    by rewrite learnt_find, Z.eqb_refl, Hlnu by done. }
  cbn [foreach]. rewrite (bind_ok _ _ s2 tt (answered k)).
  - rewrite (bind_ok _ _ _ tt (answered k)); [done|]. unfold answer_branch. cbn [lb_peerid lb_type up_branch].
    rewrite (bind_ok _ _ _ _ _ Du), (bind_ok _ _ _ tt (answered k)) by done.
    rewrite (bind_ok _ _ _ (answered k) (answered k)) by done.
    change (l_ln1 (answered k)) with (PtrTo p). cbv iota. rewrite (bind_ok _ _ _ _ _ Dp4).
    cbn [fn_fec fec_node_new]. by rewrite add_sent_found.
  - unfold answer_branch. cbn [lb_peerid lb_type down]. rewrite (bind_ok _ _ _ _ _ Dp).
    rewrite (bind_ok _ _ s2 tt s3).
    2: { rewrite bool_decide_eq_true_2 by done. unfold down. by rewrite same_lsp_self. }
    rewrite (bind_ok _ _ s3 s3 s3) by done. change (l_ln1 s3) with (PtrTo p). cbv iota.
    rewrite (bind_ok _ _ _ _ _ Dp3). cbn [fn_fec fec_node_new]. rewrite Hsm.
    apply (labelmapping_tmp p f v _ lnp); try done.
Qed.

Lemma answer_state : exists k q, fec_compare f k = 0 /\
  handle_mapping map up s = Ok (tt, set_l_ln1 (answered k) q).
Proof.
  destruct (check_mapping_quiet map up lnu ov root 0 s Hf Hlnu Hmap Hty Hnr Hrm Hsr) as (k & Hk & E).
  fold f (lsp_fec root ov) in Hk, E. change (FecIpv4 ov root 0) with f in Hk, E.
  set (s1 := learnt s up f k map) in *.
  destruct (learnt_table s up f k map) as (Et & _ & Elf & _ & Etmp). fold s1 in Et, Elf, Etmp. rewrite Htab in Et.
  destruct (trace_ok (answered k)) as [q Eq].
  { unfold branches_live. assert (forall r, is_Some (lde_nbr_find s r) -> is_Some (lde_nbr_find (answered k) r)) as Hl.
    { intros r Hr. unfold answered, announced. apply nbr_upd_live; [apply add_sent_peerid|].
      by apply (learnt_live s up f k map). }
    repeat constructor; apply Hl; cbn; eauto. }
  exists k, q. split; [done|]. unfold handle_mapping. rewrite (bind_ok _ _ _ tt s1 E).
  rewrite (bind_ok _ _ _ (add_recv k map lnu) s1).
  2: { unfold deref_ln, s1. by rewrite learnt_find, Z.eqb_refl, Hlnu by done. }
  destruct (fresh_add_recv k map lnu f) as (_ & -> & _).
  rewrite (bind_ok _ _ _ f s1) by (unfold lift; by rewrite Hmap). rewrite (bind_ok _ _ _ s1 s1) by done.
  assert (label_nbr_find s1 (m_label map) up f = Some (up_branch lu)) as ->.
  { unfold label_nbr_find, rb_find. rewrite Et. cbn [List.find id].
    rewrite (proj1 (up_not_down lu) : label_nbr_compare (lnbr_key_of up f) down = 1).
    by rewrite (proj2 (up_not_down lu) : label_nbr_compare (lnbr_key_of up f)
      (LabelNbr lu v up f STREAM_TYPE_UP) = 0). }
  rewrite (bind_ok _ _ _ tt (answered k)); [exact Eq|]. unfold mapping_from_upstream.
  set (s2 := set_l_label_nbrs s1 [down; up_branch (m_label map)]).
  rewrite (bind_ok _ _ _ tt s2).
  2: { unfold modify, s2. rewrite Et. unfold rb_update. cbn [List.map id].
       rewrite (proj1 (up_not_down lu)).
       by rewrite (proj2 (up_not_down lu) : label_nbr_compare (up_branch lu)
         (LabelNbr lu v up f STREAM_TYPE_UP) = 0). }
  rewrite (bind_ok _ _ _ s2 s2) by done. change (l_leaf s2) with (l_leaf s1).
  rewrite (proj2 (Z.eqb_neq _ _)) by (by rewrite Elf).
  rewrite (bind_ok _ _ _ (HomeTmp (length (l_tmp s))) (set_l_tmp s2 (l_tmp s ++ [[]]))).
  2: { unfold new_tmp. change (l_tmp s2) with (l_tmp s1). by rewrite Etmp. }
  change (l_label_nbrs s2) with [down; up_branch (m_label map)]. cbn [List.find].
  unfold down at 1. rewrite same_lsp_self. cbv iota beta. change (lb_local_label down) with v.
  rewrite (proj2 (Z.eqb_neq _ _) Hv). rewrite (bind_ok _ _ _ v (set_l_tmp s2 (l_tmp s ++ [[]]))) by done.
  rewrite (bind_ok _ _ _ (set_l_tmp s2 (l_tmp s ++ [[]])) (set_l_tmp s2 (l_tmp s ++ [[]]))) by done.
  exact (answer_loop k).
Qed.
End Answer.

(** ** Leaf, transit router and root agree *)

(** One call of the dispatcher for one message. *)
Definition receive (p : Z) (map : ldp_map) : ST lde unit :=
  lde_dispatch_imsg [ImsgLabel p IMSG_LABEL_MAPPING map].
Definition join (root ov : Z) : ST lde unit :=
  lde_dispatch_imsg [ImsgCtlMldpLsp (MldpLspInfo OP_TYPE_ADD 0 root ov)].

(** A leaf that can join: the last next hop of its route to the root belongs to
    the neighbour [a]. *)
Record leaf_ready (s : lde) (root ov a : Z) (ln : lde_nbr) : Prop := {
  lr_route : exists n l h, find_root_node s root = Some n /\ fec_tag (fn_fec n) = FEC_TYPE_IPV4 /\
    fn_nexthops n = l ++ [h] /\ Forall (fun h => af_ok (fnh_af h)) (fn_nexthops n) /\ nbr_at s h = Some a;
  lr_peer : is_u 32 a;
  lr_nbr : lde_nbr_find s a = Some ln;
  lr_fresh : fresh_for ln (lsp_fec root ov);
  lr_new : label_nbr_find s 0 a (lsp_fec root ov) = None;
  lr_noroute : nexthops_of s (lsp_fec root ov) = [];
  lr_live : branches_live s
}.

Section Agree.
Lemma lsp_map2fec root ov v id : is_u 32 root -> lde_map2fec (lsp_map (lsp_fec root ov) v) id = Ok (lsp_fec root ov).
Proof.
  intros Hr. change (Ok (FecIpv4 ov (le_val (take 4 (le_bytes 4 root ++ drop 4 zero_addr))) 0) = Ok (FecIpv4 ov root 0)).
  do 2 f_equal. rewrite take_app_length' by (by rewrite length_le_bytes).
  rewrite le_val_bytes. by apply Z.mod_small.
Qed.

Lemma receive_handle p map s : is_Some (lde_nbr_find s p) ->
  receive p map s = handle_mapping map p (set_l_ln1 s PtrUninit).
Proof.
  intros [ln El]. unfold receive, lde_dispatch_imsg.
  rewrite (bind_ok _ _ s tt (set_l_ln1 s PtrUninit)) by done. cbn [foreach dispatch_one]. unfold with_nbr.
  unfold bind at 1 2, get. cbn [rbind]. change (lde_nbr_find (set_l_ln1 s PtrUninit) p) with (lde_nbr_find s p).
  rewrite El. by destruct (handle_mapping map p (set_l_ln1 s PtrUninit)) as [[[] ?]| | |].
Qed.

Lemma join_from_ln1 s p ln map f q : join_from s p ln map f -> join_from (set_l_ln1 s q) p ln map f.
Proof. by intros []. Qed.
Lemma root_route_ln1 s f n q : root_route s f n -> root_route (set_l_ln1 s q) f n.
Proof. by intros []. Qed.
Lemma upstream_ln1 s f n up ln q : upstream_hop s f n up ln -> upstream_hop (set_l_ln1 s q) f n up ln.
Proof. by intros []. Qed.

Lemma nexthops_learnt s p root ov k map :
  let f := lsp_fec root ov in
  fec_ok f -> fec_compare f k = 0 -> nexthops_of (learnt s p f k map) f = nexthops_of s f.
Proof.
  intros f Hf Hk. destruct (node_added_find s f Hf) as (n & En & _ & Hnh). rewrite <- Hnh.
  unfold nexthops_of, learnt, ft_find. change (l_ft (nbrs_upd ?x _ _)) with (l_ft x).
  unfold ft_upd. cbn [l_ft set_l_ft].
  assert (rb_find fn_fec fec_compare f (rb_update fn_fec fec_compare k
    (fun n => set_fn_downstream n (p :: fn_downstream n)) (l_ft (node_added s f)))
    = (fun n => set_fn_downstream n (p :: fn_downstream n)) <$> rb_find fn_fec fec_compare f (l_ft (node_added s f))) as ->.
  { rewrite <- !(rb_find_v4 fn_fec ov root 0 k) by done. by apply rb_find_updated. }
  unfold ft_find in En. by rewrite En.
Qed.

(** The leaf joins. *)
Lemma leaf_step s root ov a ln :
  is_u 32 root -> is_u 8 ov -> leaf_ready s root ov a ln ->
  exists t, rb_insert id label_nbr_compare
      (LabelNbr NO_LABEL (next_label s) a (lsp_fec root ov) STREAM_TYPE_UP) (l_label_nbrs s) = Some t /\
    let s1 := leaf_joined (set_l_ln1 s PtrUninit) a (lsp_fec root ov) t in
    join root ov s = Ok (tt, set_l_out s1 (l_out s1 ++ [CtlMldpLsp])).
Proof.
  intros Hroot Hov [(n & l & h & Hr & Ht & Hnh & Haf & Hat) Hp El Hfr Hb Hn Hl].
  destruct (tree_up_state root ov (set_l_ln1 s PtrUninit) n l h a ln
    (lsp_fec_ok root ov Hroot Hov) Hr Ht Hnh Haf Hat El Hfr Hb) as (t & E & Ei).
  exists t. split; [exact Ei|]. intros s1. unfold join, lde_dispatch_imsg.
  rewrite (bind_ok _ _ s tt (set_l_ln1 s PtrUninit)) by done. cbn [foreach dispatch_one].
  rewrite (bind_ok _ _ _ tt (set_l_out s1 (l_out s1 ++ [CtlMldpLsp]))); [done|].
  rewrite (bind_ok _ _ _ tt s1 E). rewrite (bind_ok _ _ _ tt s1) by done. done.
Qed.

(** The answer arrives at the leaf. *)
Lemma leaf_answer s root ov a ln map b :
  let f := lsp_fec root ov in
  fec_ok f -> is_u 32 a -> lde_nbr_find s a = Some ln -> lde_map2fec map (ln_id ln) = Ok f ->
  m_type map <> MAP_TYPE_PWID -> nexthops_of s f = [] ->
  rb_find me_fec fec_compare f (ln_recv_map ln) = None -> rb_find lre_fec fec_compare f (ln_sent_req ln) = None ->
  l_leaf s = 1 -> branches_live s -> (forall l, label_nbr_find s l a f = Some b) ->
  exists s', handle_mapping map a s = Ok (tt, s') /\ l_out s' = l_out s /\
    forall l, label_nbr_find s' l a f = Some (set_lb_label b (m_label map)).
Proof.
  intros f Hf Ha El Ef Hm Hn Hr Hs Hlf Hl Hb.
  destruct (check_mapping_quiet map a ln ov root 0 s Hf El Ef Hm Hn Hr Hs) as (k & Hk & E).
  change (FecIpv4 ov root 0) with f in Hk, E. set (s1 := learnt s a f k map) in *.
  destruct (learnt_table s a f k map) as (Et & _ & Elf & Eo & _). fold s1 in Et, Elf, Eo.
  pose proof (Hb 0) as Hb0. apply rb_find_in in Hb0 as [_ Hcb]. cbn [id] in Hcb.
  assert (forall x, label_nbr_compare b x = label_nbr_compare (lnbr_key_of a f) x) as Hkey.
  { destruct b as [lb ll lp [fo fr fs| |] ty]; try done. intros x.
    revert Hcb. unfold label_nbr_compare, lnbr_key_of, f, lsp_fec. cbn [lb_fec lb_peerid fec_tag].
    rewrite !cmp_then_zero. intros (_ & Ep & Eo' & Epe). rewrite Ep, Eo'.
    assert (lp = a) as -> by (repeat case_match; zbool; lia). done. }
  set (s2 := set_l_label_nbrs s1 (rb_update id label_nbr_compare b (fun l => set_lb_label l (m_label map)) (l_label_nbrs s1))).
  destruct (trace_ok s2) as [q Eq].
  { unfold branches_live, s2. cbn [l_label_nbrs set_l_label_nbrs]. rewrite Et.
    apply rb_update_forall.
    - intros x _ _ Hx. cbn. exact Hx.
    - eapply Forall_impl; [exact Hl|]. intros x Hx. by apply (learnt_live s a f k map). }
  exists (set_l_ln1 s2 q). split; [|split; [exact Eo|]].
  - unfold handle_mapping. rewrite (bind_ok _ _ _ tt s1 E).
    rewrite (bind_ok _ _ _ (add_recv k map ln) s1).
    2: { unfold deref_ln, s1. by rewrite learnt_find, Z.eqb_refl, El by done. }
    destruct (fresh_add_recv k map ln f) as (_ & -> & _).
    rewrite (bind_ok _ _ _ f s1) by (unfold lift; by rewrite Ef). rewrite (bind_ok _ _ _ s1 s1) by done.
    rewrite (label_nbr_find_table s s1 _ 0 a f Et), Hb. rewrite (bind_ok _ _ _ tt s2); [exact Eq|].
    unfold mapping_from_upstream. rewrite (bind_ok _ _ _ tt s2) by done. rewrite (bind_ok _ _ _ s2 s2) by done.
    change (l_leaf s2) with (l_leaf s1). by rewrite Elf, Hlf.
  - intros l. unfold label_nbr_find. cbn [l_label_nbrs set_l_ln1 s2 set_l_label_nbrs]. rewrite Et.
    assert (forall t, rb_find id label_nbr_compare (lnbr_key_of a f) t = rb_find id label_nbr_compare b t) as Hfk.
    { intros t. unfold rb_find. induction t as [|x t IH]; [done|]. cbn [List.find id].
      rewrite Hkey. case_match; [done|exact IH]. }
    rewrite Hfk, rb_find_updated_cmp by done. rewrite <- Hfk. fold (label_nbr_find s l a f). by rewrite Hb.
Qed.
End Agree.
