(* ===== verification/Mp2mpNet.v ===== *)
(** * An MP2MP LSP over three routers

    What a leaf, a transit router and the root do at a join, and the composition of
    the three when they exchange the label mappings of an LSP. *)
From stdpp Require Import prelude strings list sorting.
From Stdlib Require Import ZArith Lia.
From S2P Require Import Prelude Util Wire Ipc Fec Lde LdeLib LdeSafe LdeInv LdeFun Mp2mp Mp2mpInv Mp2mpFun.

Section Steps.
Context (root ov : Z) (Hroot : is_u 32 root) (Hov : is_u 8 ov).
Notation f := (lsp_fec root ov).

Let Hf : fec_ok f := lsp_fec_ok root ov Hroot Hov.

(** The leaf before and behind the answer. *)
Lemma leaf_agrees s a ln m :
  leaf_ready s root ov a ln -> exists s1 s2,
    join root ov s = Ok (tt, s1) /\
    l_out s1 = l_out s ++ [MappingAdd a (lsp_map f (next_label s)); MappingAddEnd a; CtlMldpLsp] /\
    receive a (lsp_map f m) s1 = Ok (tt, s2) /\ l_out s2 = l_out s1 /\
    label_nbr_find s2 0 a f = Some (LabelNbr m (next_label s) a f STREAM_TYPE_UP).
Proof.
  intros Hl. destruct (leaf_step s root ov a ln Hroot Hov Hl) as (t & Ei & E).
  destruct Hl as [_ Ha El [Hen Hsm Hrm Hrr Hsr] Hb Hn Hlive].
  set (s1 := leaf_joined (set_l_ln1 s PtrUninit) a f t) in *. cbv zeta in E.
  set (s1' := set_l_out s1 (l_out s1 ++ [CtlMldpLsp])) in *.
  set (i := length (l_tmp s)).
  assert (forall q, lde_nbr_find s1' q = lde_nbr_find s1 q) as Eq' by done.
  assert (lde_nbr_find s1 a = Some (add_sent f (next_label s) i ln)) as El1.
  { unfold s1, leaf_joined. rewrite announced_find, Z.eqb_refl by done.
    match goal with |- context [lde_nbr_find ?x a] => change (lde_nbr_find x a) with (lde_nbr_find s a) end.
    by rewrite El. }
  destruct (leaf_answer (set_l_ln1 s1' PtrUninit) root ov a (add_sent f (next_label s) i ln) (lsp_map f m)
    (LabelNbr NO_LABEL (next_label s) a f STREAM_TYPE_UP)) as (s2 & E2 & Eo & Ef); try done.
  - by apply lsp_map2fec.
  - assert (ln_recv_map (add_sent f (next_label s) i ln) = ln_recv_map ln) as ->; [|done].
    unfold add_sent. by case_match.
  - assert (ln_sent_req (add_sent f (next_label s) i ln) = ln_sent_req ln) as ->; [|done].
    unfold add_sent. by case_match.
  - unfold branches_live in *.
    assert (forall q, is_Some (lde_nbr_find s q) -> is_Some (lde_nbr_find s1 q)) as Hkeep.
    { intros q Hq. unfold s1, leaf_joined, announced. by apply nbr_upd_live; [apply add_sent_peerid|]. }
    rewrite Forall_forall in *. intros x Hx.
    apply (rb_insert_elem _ _ _ _ _ _ Ei) in Hx as [-> |Hx]; apply Hkeep; [cbn; eauto|by apply Hlive].
  - intros l. unfold label_nbr_find. change (l_label_nbrs (set_l_ln1 s1' PtrUninit)) with t.
    rewrite (rb_find_inserted id label_nbr_compare _ _ _ (lnbr_key_of a f) Ei) by (intros _; exact Hb).
    cbn [id]. rewrite lnbr_compare_key_r, (cmp_refl (ok := lnbr_ok)); done.
  - exists s1', s2. split; [exact E|]. split.
    { change (l_out s1') with ((l_out s ++ [MappingAdd a (lsp_map f (next_label s)); MappingAddEnd a]) ++ [CtlMldpLsp]).
      by rewrite <- app_assoc. }
    rewrite receive_handle by (rewrite Eq', El1; eauto). split; [exact E2|]. split; [exact Eo|]. apply Ef.
Qed.

(** The root. *)
Lemma root_agrees s p ln m n0 :
  join_from s p ln (lsp_map f m) f -> root_route s f n0 ->
  existsb (fun h => v4 (fnh_nexthop h) =? inet_addr 0 0 0 0) (fn_nexthops n0) = true -> exists s1,
    receive p (lsp_map f m) s = Ok (tt, s1) /\
    l_out s1 = l_out s ++ [MappingAdd p (lsp_map f (lsp_lbl s f)); MappingAddEnd p] /\
    label_nbr_find s1 0 p f = Some (LabelNbr m (lsp_lbl s f) p f STREAM_TYPE_DOWN).
Proof.
  intros Hj Hr Hc.
  destruct (join_root (set_l_ln1 s PtrUninit) p ln (lsp_map f m) f n0 (join_from_ln1 _ _ _ _ _ _ Hj)
    (root_route_ln1 _ _ _ _ Hr) Hc) as (k & q & t & Hk & Ei & E).
  eexists. split; [rewrite receive_handle by (rewrite (jf_nbr _ _ _ _ _ Hj); eauto); exact E|]. split.
  - destruct (learnt_table (set_l_ln1 s PtrUninit) p f k (lsp_map f m)) as (_ & _ & _ & Eo & _).
    change (l_out s) with (l_out (set_l_ln1 s PtrUninit)). rewrite <- Eo. done.
  - change (rb_find id label_nbr_compare (lnbr_key_of p f) t
      = Some (LabelNbr m (lsp_lbl s f) p f STREAM_TYPE_DOWN)).
    rewrite (rb_find_inserted id label_nbr_compare _ _ _ (lnbr_key_of p f) Ei)
      by (intros _; exact (jf_new _ _ _ _ _ Hj)).
    cbn [id]. rewrite lnbr_compare_key_r, (cmp_refl (ok := lnbr_ok)); done.
Qed.

(** The table of a transit router behind the first join. *)
Lemma transit_table s p up m t1 t2 :
  l_label_nbrs s = [] -> p < up ->
  rb_insert id label_nbr_compare (LabelNbr m (lsp_lbl s f) p f STREAM_TYPE_DOWN) (l_label_nbrs s) = Some t1 ->
  rb_insert id label_nbr_compare (LabelNbr NO_LABEL (lsp_lbl s f) up f STREAM_TYPE_UP) t1 = Some t2 ->
  t2 = [LabelNbr m (lsp_lbl s f) p f STREAM_TYPE_DOWN; LabelNbr NO_LABEL (lsp_lbl s f) up f STREAM_TYPE_UP].
Proof.
  intros -> Hlt [= <-]. cbn [rb_insert id]. rewrite lnbr_compare_key_r, lnbr_compare_peer.
  rewrite Z.gtb_ltb, (proj2 (Z.ltb_lt p up)) by lia. by intros [= <-].
Qed.

Lemma transit_joined_find s p map g up k t1 t2 q :
  is_u 32 up -> is_u 32 q -> lde_nbr_find (transit_joined s p map g up k t1 t2) q
  = if up =? q then add_sent g (lsp_lbl s g) (length (l_tmp s)) <$> lde_nbr_find (learnt s p g k map) q
    else lde_nbr_find (learnt s p g k map) q.
Proof.
  intros Hup Hq. unfold transit_joined. generalize (learnt s p g k map) as z. intros z.
  by rewrite announced_find.
Qed.

Lemma transit_joined_fields s p map g up k t1 t2 :
  let x := transit_joined s p map g up k t1 t2 in
  l_label_nbrs x = t2 /\ l_leaf x = 0 /\ nexthops_of x g = nexthops_of (learnt s p g k map) g /\
  l_out x = l_out (learnt s p g k map) ++ [MappingAdd up (lsp_map g (lsp_lbl s g)); MappingAddEnd up].
Proof. unfold transit_joined. generalize (learnt s p g k map) as z. done. Qed.

Lemma nbr_find_ln1 s q r : lde_nbr_find (set_l_ln1 s q) r = lde_nbr_find s r.
Proof. done. Qed.
Lemma ln1_fields s q g : l_label_nbrs (set_l_ln1 s q) = l_label_nbrs s /\ l_leaf (set_l_ln1 s q) = l_leaf s /\
  nexthops_of (set_l_ln1 s q) g = nexthops_of s g /\ l_out (set_l_ln1 s q) = l_out s.
Proof. done. Qed.

Lemma answered_fields s p up r o v lp map k :
  let x := answered s p up r o v lp map k in
  l_label_nbrs x = [LabelNbr lp v p (lsp_fec r o) STREAM_TYPE_DOWN;
    LabelNbr (m_label map) v up (lsp_fec r o) STREAM_TYPE_UP] /\
  l_out x = l_out (learnt s up (lsp_fec r o) k map) ++ [MappingAdd p (lsp_map (lsp_fec r o) v); MappingAddEnd p].
Proof. unfold answered. generalize (learnt s up (lsp_fec r o) k map) as z. done. Qed.

(** The transit router, at the join and at the answer. *)
Lemma transit_agrees s p up ln lnu m n0 r :
  join_from s p ln (lsp_map f m) f -> root_route s f n0 -> upstream_hop s f n0 up lnu ->
  l_label_nbrs s = [] -> p < up -> next_label s <> NO_LABEL -> exists s1 s2,
    receive p (lsp_map f m) s = Ok (tt, s1) /\
    l_out s1 = l_out s ++ [MappingAdd up (lsp_map f (next_label s)); MappingAddEnd up] /\
    receive up (lsp_map f r) s1 = Ok (tt, s2) /\
    l_out s2 = l_out s1 ++ [MappingAdd p (lsp_map f (next_label s)); MappingAddEnd p] /\
    l_label_nbrs s2 = [LabelNbr m (next_label s) p f STREAM_TYPE_DOWN; LabelNbr r (next_label s) up f STREAM_TYPE_UP].
Proof.
  intros Hj Hr Hu Htab Hlt Hv. set (s0 := set_l_ln1 s PtrUninit).
  destruct (transit_step s0 p ln (lsp_map f m) f n0 up lnu (join_from_ln1 _ _ _ _ _ _ Hj)
    (root_route_ln1 _ _ _ _ Hr) (upstream_ln1 _ _ _ _ _ _ Hu)) as (k & q & t1 & t2 & Hk & E1 & E2 & E); [lia|].
  apply (transit_table s0 p up m t1 t2 Htab Hlt E1) in E2.
  assert (lsp_lbl s0 f = next_label s) as Ev by (unfold lsp_lbl; by rewrite (Htab : l_label_nbrs s0 = [])).
  rewrite Ev in E2.
  destruct (transit_joined_fields s0 p (lsp_map f m) f up k t1 t2) as (F1 & F2 & F3 & F4).
  pose proof (fun x => transit_joined_find s0 p (lsp_map f m) f up k t1 t2 x) as F5.
  rewrite Ev in F4, F5. rewrite nexthops_learnt in F3 by done.
  rewrite (proj1 (proj2 (proj2 (proj2 (learnt_table s0 p f k (lsp_map f m)))))) in F4.
  destruct Hj as [_ Hp Elp _ _ Hn Hfp Hb Hl], Hu as [_ Hup Elu Hfu _ _ _].
  revert E F1 F2 F3 F4 F5. generalize (transit_joined s0 p (lsp_map f m) f up k t1 t2) as s1.
  intros s1 E F1 F2 F3 F4 F5. set (i := length (l_tmp s0)) in *.
  assert (lde_nbr_find s1 p = Some (add_recv k (lsp_map f m) ln)) as Ep1.
  { rewrite F5, (proj2 (Z.eqb_neq up p)), learnt_find, Z.eqb_refl by (done || lia).
    unfold s0. by rewrite nbr_find_ln1, Elp. }
  assert (lde_nbr_find s1 up = Some (add_sent f (next_label s) i lnu)) as Eu1.
  { rewrite F5, Z.eqb_refl, learnt_find, (proj2 (Z.eqb_neq p up)) by (done || lia).
    unfold s0. by rewrite nbr_find_ln1, Elu. }
  destruct (fresh_add_recv k (lsp_map f m) ln f) as (Hen & _ & Hsm & Hrq & _).
  assert (ln_id (add_sent f (next_label s) i lnu) = ln_id lnu /\
    ln_recv_map (add_sent f (next_label s) i lnu) = ln_recv_map lnu /\
    ln_sent_req (add_sent f (next_label s) i lnu) = ln_sent_req lnu) as (Hid & Hrm & Hsr)
    by (unfold add_sent; by case_match).
  destruct (answer_state (set_l_ln1 s1 PtrUninit) p up root ov (next_label s) m NO_LABEL (lsp_map f r)
    (add_recv k (lsp_map f m) ln) (add_sent f (next_label s) i lnu)) as (k2 & q2 & _ & E3); try done.
  { by rewrite <- E2, <- F1. } { by rewrite (proj1 (proj2 (ln1_fields s1 PtrUninit f))), F2. }
  { rewrite Hen. apply Hfp. } { rewrite Hsm. apply Hfp. } { rewrite Hrq. apply Hfp. }
  { by apply lsp_map2fec. } { rewrite (proj1 (proj2 (proj2 (ln1_fields s1 PtrUninit f)))), F3. exact Hn. }
  { rewrite Hrm. apply Hfu. } { rewrite Hsr. apply Hfu. }
  destruct (answered_fields (set_l_ln1 s1 PtrUninit) p up root ov (next_label s) m (lsp_map f r) k2) as [G1 G2].
  rewrite (proj1 (proj2 (proj2 (proj2 (learnt_table _ up f k2 (lsp_map f r)))))) in G2.
  revert E3 G1 G2. generalize (answered (set_l_ln1 s1 PtrUninit) p up root ov (next_label s) m (lsp_map f r) k2) as s2.
  intros s2 E3 G1 G2. exists (set_l_ln1 s1 q), (set_l_ln1 s2 q2).
  split; [rewrite receive_handle by (rewrite Elp; eauto); exact E|]. split; [exact F4|].
  split; [rewrite receive_handle by (rewrite nbr_find_ln1, Eu1; eauto); exact E3|]. by split.
Qed.
End Steps.

(** ** A network: leaf 1.1.1.1 - transit 2.2.2.2 - root 8.8.8.8 *)
Definition net_root : Z := inet_addr 8 8 8 8.
Definition net_ov : Z := 40.
Definition net_route (nh : ldpd_addr) : work :=
  FromParent 0 (ImsgNetworkAdd (Kroute AF_INET (addr_of_v4 net_root) 32 nh 0 0 0)).
Definition net_nbr (p id : Z) (addr : ldpd_addr) : list work :=
  [FromLdpe (ImsgNeighborUp p id true false); FromLdpe (ImsgAddressAdd p AF_INET addr)].

Definition net_leaf : lde := Eval vm_compute in run_from_start
  (net_nbr 1 (inet_addr 2 2 2 2) (addr_of_v4 (inet_addr 10 0 0 2)) ++ [net_route (addr_of_v4 (inet_addr 10 0 0 2))]).
Definition net_transit : lde := Eval vm_compute in run_from_start
  (net_nbr 1 (inet_addr 1 1 1 1) (addr_of_v4 (inet_addr 10 0 0 1)) ++
   net_nbr 2 (inet_addr 8 8 8 8) (addr_of_v4 (inet_addr 10 1 0 2)) ++ [net_route (addr_of_v4 (inet_addr 10 1 0 2))]).
Definition net_root_router : lde := Eval vm_compute in run_from_start
  (net_nbr 1 (inet_addr 2 2 2 2) (addr_of_v4 (inet_addr 10 1 0 1)) ++ [net_route zero_addr]).

(** The neighbour a look-up finds, and the node of the root. *)
Definition the_nbr (s : lde) (p : Z) : lde_nbr :=
  default (LdeNbr 0 0 false false [] [] [] [] [] []) (lde_nbr_find s p).
Definition the_node (s : lde) (root : Z) : fec_node :=
  default (fec_node_new (FecIpv4 0 0 0) 0) (find_root_node s root).

Lemma fec_tree_one n : fec_ok (fn_fec n) -> fec_tree fn_fec [n].
Proof. intros H. split; repeat constructor. done. Qed.

Lemma net_fec_ok : fec_ok (lsp_fec net_root net_ov).
Proof. vm_compute. intuition congruence. Qed.

Lemma net_leaf_ready : leaf_ready net_leaf net_root net_ov 1 (the_nbr net_leaf 1).
Proof.
  split.
  - exists (the_node net_leaf net_root), [], (FecNh AF_INET (addr_of_v4 (inet_addr 10 0 0 2)) NO_LABEL 0).
    split; [vm_compute; reflexivity|]. split; [vm_compute; reflexivity|]. split; [vm_compute; reflexivity|].
    split; [|vm_compute; reflexivity]. constructor; [by left|constructor].
  - unfold is_u. lia.
  - vm_compute. reflexivity.
  - split; vm_compute; reflexivity.
  - vm_compute. reflexivity.
  - vm_compute. reflexivity.
  - constructor.
Qed.

(** A mapping of the LSP from neighbour 1. *)
Lemma net_join s v :
  is_Some (lde_nbr_find s 1) -> nexthops_of s (lsp_fec net_root net_ov) = [] -> l_label_nbrs s = [] ->
  fresh_for (the_nbr s 1) (lsp_fec net_root net_ov) ->
  join_from s 1 (the_nbr s 1) (lsp_map (lsp_fec net_root net_ov) v) (lsp_fec net_root net_ov).
Proof.
  intros [ln El] Hn Ht Hf. unfold the_nbr in *. rewrite El in *. split; try done.
  - unfold label_nbr_find. by rewrite Ht.
  - unfold branches_live. rewrite Ht. constructor.
Qed.

Lemma net_transit_join v :
  join_from net_transit 1 (the_nbr net_transit 1) (lsp_map (lsp_fec net_root net_ov) v) (lsp_fec net_root net_ov).
Proof. apply net_join; [vm_compute; eauto|reflexivity|reflexivity|split; vm_compute; reflexivity]. Qed.

Lemma net_route_ok s n : l_ft s = [n] -> fn_fec n = FecIpv4 32 net_root 0 ->
  root_route s (lsp_fec net_root net_ov) n.
Proof.
  intros Ht Hn. split.
  - rewrite Ht. apply fec_tree_one. rewrite Hn. vm_compute. intuition congruence.
  - unfold find_root_node. rewrite Ht. cbn [List.find]. rewrite Hn. reflexivity.
  - rewrite Hn. vm_compute. reflexivity.
Qed.

Lemma net_transit_route : root_route net_transit (lsp_fec net_root net_ov) (the_node net_transit net_root).
Proof. apply net_route_ok; reflexivity. Qed.

Lemma net_transit_up :
  upstream_hop net_transit (lsp_fec net_root net_ov) (the_node net_transit net_root) 2 (the_nbr net_transit 2).
Proof.
  split.
  - exists (FecNh AF_INET (addr_of_v4 (inet_addr 10 1 0 2)) NO_LABEL 0), [].
    split; [vm_compute; reflexivity|]. split; [by left|]. vm_compute. reflexivity.
  - unfold is_u. lia.
  - vm_compute. reflexivity.
  - split; vm_compute; reflexivity.
  - vm_compute. reflexivity.
  - done.
  - vm_compute. reflexivity.
Qed.

Lemma net_root_join v :
  join_from net_root_router 1 (the_nbr net_root_router 1) (lsp_map (lsp_fec net_root net_ov) v) (lsp_fec net_root net_ov).
Proof. apply net_join; [vm_compute; eauto|reflexivity|reflexivity|split; vm_compute; reflexivity]. Qed.

Lemma net_root_route : root_route net_root_router (lsp_fec net_root net_ov) (the_node net_root_router net_root).
Proof. apply net_route_ok; reflexivity. Qed.

(** ** What each router does *)

(** A leaf joins an LSP.  With a route to the root whose last next hop
    belongs to a neighbour, [tree_up] returns, the router is a leaf, the LSP has
    exactly one more branch, towards that neighbour, with the next label of the
    counter and no remote label yet, and that label is announced to the
    neighbour and to nobody else. *)
Theorem tree_up_joins (s : lde) (root ov p : Z) (fn2 : fec_node) (l : list fec_nh) (h : fec_nh) (ln : lde_nbr)
    (Hroot : is_u 32 root) (Hov : is_u 8 ov)
    (Hrt : find_root_node s root = Some fn2) (Hv4 : fec_tag (fn_fec fn2) = FEC_TYPE_IPV4)
    (Hnh : fn_nexthops fn2 = l ++ [h]) (Haf : Forall (fun h => af_ok (fnh_af h)) (fn_nexthops fn2))
    (Hp : nbr_at s h = Some p) (Hln : lde_nbr_find s p = Some ln)
    (Hfresh : fresh_for ln (lsp_fec root ov)) (Hnew : label_nbr_find s 0 p (lsp_fec root ov) = None) :
  let v := u32 (l_label s + 1) in
  let b := LabelNbr NO_LABEL v p (lsp_fec root ov) STREAM_TYPE_UP in
  exists s', tree_up root ov s = Ok (tt, s') /\ l_leaf s' = 1 /\ l_label s' = v /\
    (forall x, x ∈ l_label_nbrs s' <-> x = b \/ x ∈ l_label_nbrs s) /\
    l_out s' = l_out s ++ [MappingAdd p (lsp_map (lsp_fec root ov) v); MappingAddEnd p].
Proof.
  pose proof (lsp_fec_ok root ov Hroot Hov) as Hf.
  destruct (tree_up_state root ov s fn2 l h p ln Hf Hrt Hv4 Hnh Haf Hp Hln Hfresh Hnew) as (t & E & Ei).
  eexists. split; [exact E|]. split; [done|]. split; [done|]. split; [|done].
  intros x. by apply (rb_insert_elem id label_nbr_compare).
Qed.

Lemma tree_up_joins_witness :
  let b := LabelNbr NO_LABEL 16 1 (lsp_fec net_root net_ov) STREAM_TYPE_UP in
  exists s', tree_up net_root net_ov net_leaf = Ok (tt, s') /\ l_leaf s' = 1 /\ l_label s' = 16 /\
    (forall x, x ∈ l_label_nbrs s' <-> x = b \/ x ∈ l_label_nbrs net_leaf) /\
    l_out s' = l_out net_leaf ++ [MappingAdd 1 (lsp_map (lsp_fec net_root net_ov) 16); MappingAddEnd 1].
Proof.
  apply (tree_up_joins net_leaf net_root net_ov 1 (the_node net_leaf net_root) []
    (FecNh AF_INET (addr_of_v4 (inet_addr 10 0 0 2)) NO_LABEL 0) (the_nbr net_leaf 1)).
  - vm_compute. intuition congruence.
  - vm_compute. intuition congruence.
  - vm_compute. reflexivity.
  - vm_compute. reflexivity.
  - vm_compute. reflexivity.
  - constructor; [by left|constructor].
  - vm_compute. reflexivity.
  - vm_compute. reflexivity.
  - apply net_leaf_ready.
  - vm_compute. reflexivity.
Defined.

(** The root answers a join.  The router that has the root's address on a
    connected route (a next hop 0.0.0.0) takes a label mapping for an LSP of
    that root as the join of a downstream router: it becomes the root, adds one
    branch downstream with the label it was given, and answers that router, and
    nobody else, with the label of the LSP, a new one if it is the first branch.
    This needs an opaque value above the length of the route to the root. *)
Theorem mapping_joins_at_root (s : lde) (p : Z) (ln : lde_nbr) (map : ldp_map) (f : fec) (n0 : fec_node)
    (Hj : join_from s p ln map f) (Hr : root_route s f n0)
    (Hconn : existsb (fun h => v4 (fnh_nexthop h) =? inet_addr 0 0 0 0) (fn_nexthops n0) = true) :
  let v := lsp_lbl s f in
  let b := LabelNbr (m_label map) v p f STREAM_TYPE_DOWN in
  exists s', handle_mapping map p s = Ok (tt, s') /\ l_leaf s' = 2 /\
    (forall x, x ∈ l_label_nbrs s' <-> x = b \/ x ∈ l_label_nbrs s) /\
    l_out s' = l_out s ++ [MappingAdd p (lsp_map f v); MappingAddEnd p].
Proof.
  destruct (join_root s p ln map f n0 Hj Hr Hconn) as (k & q & t & Hk & Ei & E).
  eexists. split; [exact E|]. split; [done|]. split.
  - intros x. by apply (rb_insert_elem id label_nbr_compare).
  - destruct (learnt_table s p f k map) as (_ & _ & _ & Eo & _). rewrite <- Eo. done.
Qed.

Lemma mapping_joins_at_root_witness :
  let f := lsp_fec net_root net_ov in
  exists s', handle_mapping (lsp_map f 30) 1 net_root_router = Ok (tt, s') /\ l_leaf s' = 2 /\
    (forall x, x ∈ l_label_nbrs s' <-> x = LabelNbr 30 16 1 f STREAM_TYPE_DOWN \/ x ∈ l_label_nbrs net_root_router) /\
    l_out s' = l_out net_root_router ++ [MappingAdd 1 (lsp_map f 16); MappingAddEnd 1].
Proof.
  apply (mapping_joins_at_root net_root_router 1 (the_nbr net_root_router 1) (lsp_map (lsp_fec net_root net_ov) 30)
    (lsp_fec net_root net_ov) (the_node net_root_router net_root)).
  - apply net_root_join.
  - apply net_root_route.
  - vm_compute. reflexivity.
Defined.

(** A transit router passes a join on.  A router on the way to the root that
    gets the first label mapping of an LSP adds a branch downstream with the
    label it was given and a branch towards the root, both with the same local
    label, and announces that label to its next hop towards the root and to
    nobody else; the downstream router is answered later. *)
Theorem mapping_joins_at_transit (s : lde) (p up : Z) (ln lnu : lde_nbr) (map : ldp_map) (f : fec) (n0 : fec_node)
    (Hj : join_from s p ln map f) (Hr : root_route s f n0) (Hu : upstream_hop s f n0 up lnu) (Hne : up <> p) :
  let v := lsp_lbl s f in
  exists s', handle_mapping map p s = Ok (tt, s') /\ l_leaf s' = 0 /\
    (forall x, x ∈ l_label_nbrs s' <-> x = LabelNbr (m_label map) v p f STREAM_TYPE_DOWN \/
       x = LabelNbr NO_LABEL v up f STREAM_TYPE_UP \/ x ∈ l_label_nbrs s) /\
    l_out s' = l_out s ++ [MappingAdd up (lsp_map f v); MappingAddEnd up].
Proof.
  destruct (transit_step s p ln map f n0 up lnu Hj Hr Hu Hne) as (k & q & t1 & t2 & Hk & E1 & E2 & E).
  eexists. split; [exact E|]. split; [done|]. split.
  - intros x. pose proof (rb_insert_elem _ _ _ _ _ x E1). pose proof (rb_insert_elem _ _ _ _ _ x E2).
    change (x ∈ t2 <-> x = LabelNbr (m_label map) (lsp_lbl s f) p f STREAM_TYPE_DOWN \/
       x = LabelNbr NO_LABEL (lsp_lbl s f) up f STREAM_TYPE_UP \/ x ∈ l_label_nbrs s). tauto.
  - destruct (learnt_table s p f k map) as (_ & _ & _ & Eo & _). rewrite <- Eo. done.
Qed.

Lemma mapping_joins_at_transit_witness :
  let f := lsp_fec net_root net_ov in
  exists s', handle_mapping (lsp_map f 30) 1 net_transit = Ok (tt, s') /\ l_leaf s' = 0 /\
    (forall x, x ∈ l_label_nbrs s' <-> x = LabelNbr 30 16 1 f STREAM_TYPE_DOWN \/
       x = LabelNbr NO_LABEL 16 2 f STREAM_TYPE_UP \/ x ∈ l_label_nbrs net_transit) /\
    l_out s' = l_out net_transit ++ [MappingAdd 2 (lsp_map f 16); MappingAddEnd 2].
Proof.
  apply (mapping_joins_at_transit net_transit 1 2 (the_nbr net_transit 1) (the_nbr net_transit 2)
    (lsp_map (lsp_fec net_root net_ov) 30) (lsp_fec net_root net_ov) (the_node net_transit net_root)).
  - apply net_transit_join.
  - apply net_transit_route.
  - apply net_transit_up.
  - discriminate.
Defined.

(** ** The three together *)

(** C2: the three routers of an LSP agree on its labels.  A leaf joins; its
    mapping reaches a transit router, that router's mapping the root; the root
    answers and the transit router passes the answer on.  Every message of the
    exchange is the one the previous router sent, each router returns from
    every one of them, and in the end the two routers of each link know each
    other's label: what one has as local label the other has as remote label,
    in both directions.  The transit router must know the leaf under a smaller
    peer identifier than the root, and the opaque value must be above the length
    of the routes to the root, so that these come first in the LIB
    ([root_route]). *)
Theorem mp2mp_join_agrees (sl st sr : lde) (root ov a pl pr pt : Z) (lna lnl lnr lnt : lde_nbr) (nt nr : fec_node)
    (Hroot : is_u 32 root) (Hov : is_u 8 ov)
    (Hleaf : leaf_ready sl root ov a lna)
    (Htr : join_from st pl lnl (lsp_map (lsp_fec root ov) (next_label sl)) (lsp_fec root ov))
    (Htr_rt : root_route st (lsp_fec root ov) nt) (Htr_up : upstream_hop st (lsp_fec root ov) nt pr lnr)
    (Htr_new : l_label_nbrs st = []) (Hlt : pl < pr) (Hlab : next_label st <> NO_LABEL)
    (Hrt : join_from sr pt lnt (lsp_map (lsp_fec root ov) (next_label st)) (lsp_fec root ov))
    (Hrt_rt : root_route sr (lsp_fec root ov) nr)
    (Hconn : existsb (fun h => v4 (fnh_nexthop h) =? inet_addr 0 0 0 0) (fn_nexthops nr) = true) :
  let f := lsp_fec root ov in
  let vl := next_label sl in let vt := next_label st in let vr := lsp_lbl sr f in
  exists sl1 st1 sr1 st2 sl2,
    (join root ov sl = Ok (tt, sl1) /\
       l_out sl1 = l_out sl ++ [MappingAdd a (lsp_map f vl); MappingAddEnd a; CtlMldpLsp]) /\
    (receive pl (lsp_map f vl) st = Ok (tt, st1) /\
       l_out st1 = l_out st ++ [MappingAdd pr (lsp_map f vt); MappingAddEnd pr]) /\
    (receive pt (lsp_map f vt) sr = Ok (tt, sr1) /\
       l_out sr1 = l_out sr ++ [MappingAdd pt (lsp_map f vr); MappingAddEnd pt]) /\
    (receive pr (lsp_map f vr) st1 = Ok (tt, st2) /\
       l_out st2 = l_out st1 ++ [MappingAdd pl (lsp_map f vt); MappingAddEnd pl]) /\
    (receive a (lsp_map f vt) sl1 = Ok (tt, sl2) /\ l_out sl2 = l_out sl1) /\
    label_nbr_find sl2 0 a f = Some (LabelNbr vt vl a f STREAM_TYPE_UP) /\
    l_label_nbrs st2 = [LabelNbr vl vt pl f STREAM_TYPE_DOWN; LabelNbr vr vt pr f STREAM_TYPE_UP] /\
    label_nbr_find sr1 0 pt f = Some (LabelNbr vt vr pt f STREAM_TYPE_DOWN).
Proof.
  intros f vl vt vr.
  destruct (leaf_agrees root ov Hroot Hov sl a lna vt Hleaf) as (sl1 & sl2 & L1 & L2 & L3 & L4 & L5).
  destruct (transit_agrees root ov Hroot Hov st pl pr lnl lnr vl nt vr Htr Htr_rt Htr_up Htr_new Hlt Hlab)
    as (st1 & st2 & T1 & T2 & T3 & T4 & T5).
  destruct (root_agrees root ov Hroot Hov sr pt lnt vt nr Hrt Hrt_rt Hconn) as (sr1 & R1 & R2 & R3).
  exists sl1, st1, sr1, st2, sl2. auto 20.
Qed.

Lemma mp2mp_join_agrees_witness :
  let f := lsp_fec net_root net_ov in
  exists sl1 st1 sr1 st2 sl2,
    (join net_root net_ov net_leaf = Ok (tt, sl1) /\
       l_out sl1 = l_out net_leaf ++ [MappingAdd 1 (lsp_map f 16); MappingAddEnd 1; CtlMldpLsp]) /\
    (receive 1 (lsp_map f 16) net_transit = Ok (tt, st1) /\
       l_out st1 = l_out net_transit ++ [MappingAdd 2 (lsp_map f 16); MappingAddEnd 2]) /\
    (receive 1 (lsp_map f 16) net_root_router = Ok (tt, sr1) /\
       l_out sr1 = l_out net_root_router ++ [MappingAdd 1 (lsp_map f 16); MappingAddEnd 1]) /\
    (receive 2 (lsp_map f 16) st1 = Ok (tt, st2) /\
       l_out st2 = l_out st1 ++ [MappingAdd 1 (lsp_map f 16); MappingAddEnd 1]) /\
    (receive 1 (lsp_map f 16) sl1 = Ok (tt, sl2) /\ l_out sl2 = l_out sl1) /\
    label_nbr_find sl2 0 1 f = Some (LabelNbr 16 16 1 f STREAM_TYPE_UP) /\
    l_label_nbrs st2 = [LabelNbr 16 16 1 f STREAM_TYPE_DOWN; LabelNbr 16 16 2 f STREAM_TYPE_UP] /\
    label_nbr_find sr1 0 1 f = Some (LabelNbr 16 16 1 f STREAM_TYPE_DOWN).
Proof.
  apply (mp2mp_join_agrees net_leaf net_transit net_root_router net_root net_ov 1 1 2 1
    (the_nbr net_leaf 1) (the_nbr net_transit 1) (the_nbr net_transit 2) (the_nbr net_root_router 1)
    (the_node net_transit net_root) (the_node net_root_router net_root)).
  - vm_compute. intuition congruence.
  - vm_compute. intuition congruence.
  - apply net_leaf_ready.
  - apply net_transit_join.
  - apply net_transit_route.
  - apply net_transit_up.
  - reflexivity.
  - lia.
  - vm_compute. discriminate.
  - apply net_root_join.
  - apply net_root_route.
  - vm_compute. reflexivity.
Defined.
