(* ===== verification/Mp2mpFaults.v ===== *)
(** * Where the MP2MP code goes wrong

    Inputs on which the MP2MP additions to the label decision engine abort it,
    lose a join, or use memory that is not theirs. *)
From stdpp Require Import prelude strings list sorting.
From Stdlib Require Import ZArith Lia.
From S2P Require Import Prelude Util Wire Ipc Fec Lde LdeLib LdeSafe LdeInv LdeFun Mp2mp Mp2mpInv Mp2mpFun Mp2mpNet.

(** ** What a mapping for a prefix leaves alone *)

(** The keys of the LIB, the neighbours without their received mappings and
    requests, the branches and the role of the router. *)
Definition nbr_view (n : lde_nbr) := (ln_peerid n, ln_id n, ln_addr_list n, ln_sent_map n).
Definition view (s : lde) :=
  (List.map fn_fec (l_ft s), List.map nbr_view (l_nbrs s), l_label_nbrs s, l_leaf s).

Section View.
Lemma view_modify (f : lde -> lde) : (forall s, view (f s) = view s) -> frames view (modify f).
Proof. intros H s a s' [= _ <-]. apply H. Qed.

Lemma view_upd_fn f g : (forall n, fn_fec (g n) = fn_fec n) -> frames view (upd_fn f g).
Proof.
  intros Hg. apply frames_bind; [apply frames_deref_fn|]. intros _. apply view_modify. intros s.
  unfold view. cbn [l_ft l_nbrs l_label_nbrs l_leaf set_l_ft]. do 3 f_equal.
  unfold rb_update. rewrite List.map_map. apply map_ext. intros n. by case_match.
Qed.

Lemma view_upd_ln p g : (forall n, nbr_view (g n) = nbr_view n) -> frames view (upd_ln p g).
Proof.
  intros Hg. apply frames_bind; [apply frames_deref_ln|]. intros _. apply view_modify. intros s.
  unfold view. cbn [l_ft l_nbrs l_label_nbrs l_leaf set_l_nbrs]. do 3 f_equal.
  unfold rb_update. rewrite List.map_map. apply map_ext. intros n. by case_match.
Qed.

Lemma view_label f j v : frames view (fec_nh_label f j v).
Proof. by apply view_upd_fn. Qed.

Lemma view_uninstall f j : frames view (uninstall_nh f j).
Proof.
  apply frames_bind; [apply frames_deref_fn|]. intros fn. case_match; [|apply frames_ret].
  apply frames_bind; [by apply frames_delete_klabel|]. intros _. apply view_label.
Qed.

Lemma view_release_old p f old : frames view (release_old_label p f old).
Proof.
  apply frames_bind; [apply frames_deref_fn|]. intros fn.
  apply frames_bind; [by apply frames_release|]. intros _. apply frames_foreach. intros j.
  apply frames_bind; [apply frames_deref_fn|]. intros fn'. case_match; [|apply frames_ret].
  apply frames_bind; [apply frames_address_find|]. intros []; [apply view_uninstall|apply frames_ret].
Qed.

Lemma view_install p f map j : is_prefix f -> frames view (install_nh p f map j).
Proof.
  intros Hf. apply frames_bind; [apply frames_deref_fn|]. intros fn. case_match; [|apply frames_ret].
  destruct f; [| |by destruct Hf];
    (apply frames_bind; [apply frames_address_find|]; intros []; simpl; [|apply frames_ret];
     apply frames_bind; [apply view_label|]; intros _; apply frames_bind; [apply frames_deref_fn|];
     intros fn'; by apply frames_change_klabel).
Qed.

Lemma view_record p f map : frames view (record_recv_map p f map).
Proof.
  apply frames_bind; [apply frames_deref_ln|]. intros ln. case_match; [by apply view_upd_ln|].
  apply frames_bind; [by apply view_upd_fn|]. intros _. apply view_upd_ln. intros n. by case_match.
Qed.

(** The mapping of a prefix that has a node. *)
Lemma check_mapping_view map p ln f n s s' :
  lde_nbr_find s p = Some ln -> lde_map2fec map (ln_id ln) = Ok f -> is_prefix f -> ft_find s f = Some n ->
  m_type map <> MAP_TYPE_PWID -> lde_check_mapping map p s = Ok (tt, s') -> view s' = view s.
Proof.
  intros El Ef Hf En Hty. unfold lde_check_mapping.
  rewrite (bind_ok _ _ s ln s) by (unfold deref_ln; by rewrite El).
  rewrite (bind_ok _ _ s f s) by (unfold lift; by rewrite Ef). rewrite (bind_ok _ _ s s s) by done.
  rewrite En. rewrite (proj2 (Z.eqb_neq _ _) Hty). revert s'.
  match goal with |- forall s', ?c s = Ok (tt, s') -> _ => assert (frames view c) as H end.
  { apply frames_bind; [apply frames_ret|]. intros _. apply frames_bind; [apply frames_deref_fn|]. intros fn.
    apply frames_bind; [case_match; [by apply view_upd_ln|apply frames_ret]|]. intros _.
    apply frames_bind; [apply frames_ret|]. intros []; [apply frames_ret|].
    apply frames_bind; [apply frames_deref_ln|]. intros ln'.
    apply frames_bind; [repeat case_match; try apply frames_ret; apply view_release_old|]. intros _.
    apply frames_bind; [apply frames_deref_fn|]. intros fn'.
    apply frames_bind; [apply frames_foreach; intros j; by apply view_install|]. intros _. apply view_record. }
  intros s'. apply H.
Qed.

Lemma view_nbr s s' p ln : view s' = view s -> lde_nbr_find s p = Some ln ->
  exists ln', lde_nbr_find s' p = Some ln' /\ nbr_view ln' = nbr_view ln.
Proof.
  intros [= _ E _ _]. revert E. unfold lde_nbr_find, rb_find.
  generalize (l_nbrs s) as t, (l_nbrs s') as t'. induction t as [|n t IH]; intros [|n' t'] E; try done.
  injection E as Ep Ei Ea Es E. simpl. rewrite Ep. case_match; [|by apply IH].
  intros [= ->]. exists n'. split; [done|]. unfold nbr_view. congruence.
Qed.

Lemma view_at s s' h : view s' = view s -> nbr_at s' h = nbr_at s h.
Proof.
  intros [= _ E _ _]. apply nbr_at_nbrs. revert E. generalize (l_nbrs s) as t, (l_nbrs s') as t'.
  induction t as [|n t IH]; intros [|n' t'] E; try done. injection E as Ep _ Ea _ E. simpl. f_equal; [congruence|].
  by apply IH.
Qed.

(** The node of the root has the FEC it had. *)
Lemma view_root s s' root n : view s' = view s -> find_root_node s root = Some n ->
  exists n', find_root_node s' root = Some n' /\ fn_fec n' = fn_fec n /\ n' ∈ l_ft s'.
Proof.
  intros [= E _ _ _] Hr. unfold find_root_node in *. revert E Hr.
  generalize (l_ft s) as t, (l_ft s') as t'. induction t as [|m t IH]; intros [|m' t'] E; try done.
  injection E as Ef E. simpl. rewrite Ef. case_match.
  - intros [= ->]. exists m'. split; [done|]. split; [done|left].
  - intros Hr. destruct (IH _ E Hr) as (n' & ? & ? & ?). exists n'. split; [done|]. split; [done|by right].
Qed.
End View.

(** ** A mapping from the next hop of its prefix *)
Section NextHop.
Lemma reach_lsps s : reach s -> lsps s = ([], MPLS_LABEL_RESERVED_MAX).
Proof. induction 1 as [|s e s' _ IH _ Hrun]; [done|]. by rewrite (lsps_run_proc e s tt s' Hrun). Qed.

Lemma not_connected ln v l :
  existsb (fun h => v4 (fnh_nexthop h) =? inet_addr 0 0 0 0) (relabel ln v <$> l)
  = existsb (fun h => v4 (fnh_nexthop h) =? inet_addr 0 0 0 0) l.
Proof. induction l as [|h l IH]; [done|]. rewrite fmap_cons. cbn [existsb]. rewrite IH. unfold relabel. by case_match. Qed.

(** At a transit router the second branch clashes with the first. *)
Lemma transit_clash map p ov root sp ln n1 h l s :
  let f := FecIpv4 ov root sp in
  fec_ok f -> find_root_node s root = Some n1 -> fn_nexthops n1 = h :: l -> af_ok (fnh_af h) ->
  nbr_at s h = Some p -> lde_nbr_find s p = Some ln -> rb_find me_fec fec_compare f (ln_sent_map ln) = None ->
  l_label_nbrs s = [] -> mapping_at_transit map p f s = Fatal "lde_nbr_new: RB_INSERT failed".
Proof.
  intros f Hf Hr Hnh Haf Hat El Hs Ht. set (s0 := set_l_leaf s 0).
  set (b := LabelNbr (m_label map) (lsp_lbl s0 f) p f STREAM_TYPE_DOWN).
  set (s1 := branched s0 f [b]).
  unfold mapping_at_transit. rewrite (bind_ok _ _ s tt s0) by done.
  rewrite (bind_ok _ _ _ _ _ (lsp_label_eq f s0)).
  rewrite (bind_ok _ _ _ tt (set_l_label_nbrs (set_l_label s0 (lsp_ctr s0 f)) [b])).
  2: { unfold label_nbr_add. rewrite (bind_ok _ _ (set_l_label s0 (lsp_ctr s0 f)) _ _ eq_refl).
       change (l_label_nbrs (set_l_label s0 (lsp_ctr s0 f))) with (l_label_nbrs s). by rewrite Ht. }
  rewrite (bind_ok _ _ _ (HomeTmp (length (l_tmp s))) s1) by done. rewrite (bind_ok _ _ s1 s1 s1) by done.
  change (find_root_node s1 (u_ipv4_prefix f)) with (find_root_node s root). rewrite Hr, Hnh.
  rewrite (bind_ok _ _ _ _ _ (nbr_by_addr_at h s1 Haf)).
  change (nbr_at s1 h) with (nbr_at s h). rewrite Hat.
  rewrite (bind_ok _ _ _ tt (set_l_ln1 s1 (PtrTo p))) by done.
  rewrite (bind_ok _ _ _ ln (set_l_ln1 s1 (PtrTo p))).
  2: { unfold deref_ln. change (lde_nbr_find (set_l_ln1 s1 (PtrTo p)) p) with (lde_nbr_find s p). by rewrite El. }
  rewrite Hs. unfold bind. rewrite (branch_add_clash _ _ _ _ _ 0 (set_l_ln1 s1 (PtrTo p)) b); [done| |done|].
  - split; [repeat constructor|]. constructor; [exact Hf|constructor].
  - unfold label_nbr_find, rb_find. cbn [l_label_nbrs set_l_ln1 s1 branched set_l_tmp set_l_label_nbrs List.find id].
    unfold b. rewrite lnbr_compare_key_r, (cmp_refl (ok := lnbr_ok)); done.
Qed.
End NextHop.

(** C24: an ordinary label mapping can abort the engine.  Every label mapping is
    also taken for an MP2MP join.  When a neighbour maps a label to a prefix
    whose first next hop is that very neighbour, the normal case of RFC 5036,
    the engine adds the neighbour as a downstream branch and then as the branch
    towards the "root" of the prefix, and the second insertion is a fatal
    error. *)
Theorem nexthop_mapping_fatal (s : lde) (p : Z) (ln : lde_nbr) (map : ldp_map) (f : fec) (n : fec_node)
    (h : fec_nh) (l : list fec_nh)
    (Hs : reach s) (Hp : pid_ok p) (Hln : lde_nbr_find s p = Some ln) (Hmap : map_ok map)
    (Hf : lde_map2fec map (ln_id ln) = Ok f) (Hv4 : fec_tag f = FEC_TYPE_IPV4)
    (Hrt : find_root_node s (u_ipv4_prefix f) = Some n) (Hn : fec_compare f (fn_fec n) = 0)
    (Hnh : fn_nexthops n = h :: l) (Hat : nbr_at s h = Some p)
    (Hfar : existsb (fun h => v4 (fnh_nexthop h) =? inet_addr 0 0 0 0) (fn_nexthops n) = false)
    (Hleaf : l_leaf s <> 2) (Hsent : rb_find me_fec fec_compare f (ln_sent_map ln) = None) :
  handle_mapping map p s = Fatal "lde_nbr_new: RB_INSERT failed".
Proof.
  pose proof (reach_lib s Hs) as H. destruct (nbr_find_in s p ln H Hln) as [Hno _].
  destruct (map2fec_ok map (ln_id ln) Hmap (nbr_id ln Hno)) as (f' & Ef & Hok).
  assert (f' = f) as -> by congruence. clear Ef.
  assert (is_prefix f) as Hpf by (unfold is_prefix; by rewrite Hv4).
  assert (n ∈ l_ft s) as Hin by (apply find_some in Hrt as [? _]; by apply list_elem_of_In).
  assert (ft_find s f = Some n) as En.
  { rewrite (ft_find_equiv s f (fn_fec n)); [by apply ft_find_self|done|done| |done].
    by apply (tree_ok_elem _ _ _ _ n (lib_ft s H)). }
  pose proof (map2fec_prefix _ _ _ Hf Hpf) as Hty.
  destruct (lwp_ok _ _ _ (check_mapping_prefix_lwp p Hp map ln f s H Hln Hmap Hf Hok Hpf))
    as ([] & s1 & E & H1 & Hnh1 & _).
  assert (view s1 = view s) as Hv by (eapply check_mapping_view; try done; by zbool).
  destruct (view_nbr s s1 p ln Hv Hln) as (ln1 & El1 & [= _ Eid _ Esm]).
  destruct (view_root s s1 _ n Hv Hrt) as (n1 & Hr1 & Efn & Hin1).
  assert (fn_nexthops n1 = relabel ln (m_label map) <$> (h :: l)) as Enh.
  { rewrite <- Hnh. assert (ft_find s1 f = Some n1) as En1.
    { rewrite (ft_find_equiv s1 f (fn_fec n1)); [by apply ft_find_self|done|done| |by rewrite Efn].
      by apply (tree_ok_elem _ _ _ _ n1 (lib_ft s1 H1)). }
    unfold nexthops_of in Hnh1. by rewrite En1, En in Hnh1. }
  pose proof (reach_lsps s Hs) as [= Et _]. pose proof Hv as [= _ _ Et1 Elf]. rewrite Et in Et1.
  destruct (ft_find_in s f n H En) as ([Haf _ _ _ _] & _ & _). rewrite Hnh in Haf, Hfar.
  inversion Haf as [|? ? Haf1 _]; subst.
  unfold handle_mapping. rewrite (bind_ok _ _ s tt s1 E).
  rewrite (bind_ok _ _ s1 ln1 s1) by (unfold deref_ln; by rewrite El1).
  rewrite (bind_ok _ _ s1 f s1) by (unfold lift; by rewrite Eid, Hf). rewrite (bind_ok _ _ s1 s1 s1) by done.
  assert (label_nbr_find s1 (m_label map) p f = None) as -> by (unfold label_nbr_find; by rewrite Et1).
  unfold mapping_from_downstream. unfold bind at 1 2, get at 1. cbn [rbind]. rewrite Hr1.
  rewrite (bind_ok _ _ s1 tt s1) by (unfold mark_root; by rewrite Enh, not_connected, Hfar).
  rewrite (bind_ok _ _ s1 s1 s1) by done. rewrite (proj2 (Z.eqb_neq _ _)) by (by rewrite Elf).
  destruct f as [ov root sp| |]; try done.
  rewrite (transit_clash map p ov root sp ln1 n1 (relabel ln (m_label map) h) (relabel ln (m_label map) <$> l)); try done.
  - unfold relabel. by case_match.
  - rewrite <- Hat, (view_at s s1) by done. unfold relabel. by case_match.
  - by rewrite Esm.
Qed.

Lemma nexthop_mapping_fatal_witness :
  handle_mapping ex_map 1 lde_ex = Fatal "lde_nbr_new: RB_INSERT failed".
Proof.
  apply (nexthop_mapping_fatal lde_ex 1 ex_nbr ex_map ex_fec (the_node lde_ex (inet_addr 10 1 0 0))
    (FecNh AF_INET ex_nh NO_LABEL 0) []).
  - apply reach_ex.
  - unfold pid_ok. lia.
  - vm_compute. reflexivity.
  - apply ex_map_ok.
  - vm_compute. reflexivity.
  - reflexivity.
  - vm_compute. reflexivity.
  - vm_compute. reflexivity.
  - vm_compute. reflexivity.
  - vm_compute. reflexivity.
  - vm_compute. reflexivity.
  - vm_compute. discriminate.
  - vm_compute. reflexivity.
Defined.

(** ** An opaque value below the length of the route *)
Section Shadow.
(** The new node of the LSP is found in place of the route. *)
Lemma find_root_shadowed s f n0 :
  ft_find s f = None -> find_root_node s (u_ipv4_prefix f) = Some n0 -> fec_compare f (fn_fec n0) < 0 ->
  find_root_node (node_added s f) (u_ipv4_prefix f) = Some (fec_node_new f NO_LABEL).
Proof.
  intros Hf Hr Hc. unfold node_added. rewrite Hf.
  destruct (rb_insert_total fn_fec fec_compare (fec_node_new f NO_LABEL) (l_ft s) Hf) as [t Et]. rewrite Et.
  unfold find_root_node in *. cbn [l_ft set_l_ft]. clear Hf. revert t Et Hr.
  induction (l_ft s) as [|n l IH]; cbn [List.find rb_insert]; [done|]. intros t.
  cbn [fn_fec fec_node_new]. destruct (fec_compare f (fn_fec n) <? 0) eqn:Elt; zbool.
  - intros [= <-] _. cbn [List.find fn_fec fec_node_new]. by rewrite Z.eqb_refl.
  - destruct (fec_compare f (fn_fec n) =? 0); [done|].
    destruct (rb_insert fn_fec fec_compare (fec_node_new f NO_LABEL) l) as [t'|]; [|done]. intros [= <-].
    cbn [List.find]. destruct (u_ipv4_prefix (fn_fec n) =? u_ipv4_prefix f); [|by apply IH].
    intros [= ->]. lia.
Qed.

Lemma shadowed_downstream map p f k s n0 :
  let s1 := learnt s p f k map in
  fec_ok f -> ft_find s f = None -> find_root_node s (u_ipv4_prefix f) = Some n0 ->
  fec_compare f (fn_fec n0) < 0 -> l_leaf s <> 2 -> label_nbr_find s 0 p f = None ->
  exists t, rb_insert id label_nbr_compare (LabelNbr (m_label map) (lsp_lbl s f) p f STREAM_TYPE_DOWN)
      (l_label_nbrs s) = Some t /\
    mapping_from_downstream map p f s1 = Ok (tt, branched (set_l_leaf s1 0) f t).
Proof.
  intros s1 Hf Hn Hr Hc Hl Hb. destruct (learnt_table s p f k map) as (Et & Elb & Elf & _ & _). fold s1 in Et, Elb, Elf.
  assert (exists n1, find_root_node s1 (u_ipv4_prefix f) = Some n1 /\ fn_nexthops n1 = []) as (n1 & Hr1 & Hnh).
  { change (find_root_node s1 (u_ipv4_prefix f)) with (find_root_node (ft_upd (node_added s f) k
      (fun n => set_fn_downstream n (p :: fn_downstream n))) (u_ipv4_prefix f)).
    rewrite find_root_upd, (find_root_shadowed s f n0) by done. simpl. eexists. split; [done|]. by case_match. }
  set (s0 := set_l_leaf s1 0).
  assert (lsp_lbl s0 f = lsp_lbl s f) as Ev.
  { change (lsp_lbl s1 f = lsp_lbl s f). unfold lsp_lbl, next_label. by rewrite Et, Elb. }
  destruct (branch_add (m_label map) (lsp_lbl s f) p f STREAM_TYPE_DOWN (set_l_label s0 (lsp_ctr s0 f)) Hf)
    as (t & Ea & Ei & _).
  { rewrite <- Hb. by apply label_nbr_find_table. }
  change (l_label_nbrs (set_l_label s0 (lsp_ctr s0 f))) with (l_label_nbrs s1) in Ei. rewrite Et in Ei.
  exists t. split; [done|]. unfold mapping_from_downstream.
  rewrite (bind_ok _ _ s1 s1 s1) by done. rewrite Hr1.
  rewrite (bind_ok _ _ s1 tt s1) by (unfold mark_root; by rewrite Hnh). rewrite (bind_ok _ _ s1 s1 s1) by done.
  rewrite (proj2 (Z.eqb_neq _ _)) by (by rewrite Elf). unfold mapping_at_transit.
  rewrite (bind_ok _ _ s1 tt s0) by done. rewrite (bind_ok _ _ _ _ _ (lsp_label_eq f s0)), Ev.
  rewrite (bind_ok _ _ _ tt _ Ea). rewrite (bind_ok _ _ _ (HomeTmp (length (l_tmp s1))) (branched s0 f t)) by done.
  rewrite (bind_ok _ _ _ (branched s0 f t) (branched s0 f t)) by done.
  change (find_root_node (branched s0 f t)) with (find_root_node s1). by rewrite Hr1, Hnh.
Qed.
End Shadow.

(** C35: a join with a small opaque value is lost.  The opaque value is stored
    where the prefix length is, and the route to the root is looked up as the
    first node with the root's address.  If the opaque value is below the length
    of that route, the node just made for the LSP is found instead, it has no
    next hop, and so the router records the downstream branch but answers
    nobody and passes nothing on; even the root itself acts as a transit
    router. *)
Theorem small_opaque_value_loses_join (s : lde) (p : Z) (ln : lde_nbr) (map : ldp_map) (f : fec) (n0 : fec_node)
    (Hj : join_from s p ln map f) (Hnew : ft_find s f = None)
    (Hrt : find_root_node s (u_ipv4_prefix f) = Some n0) (Hlow : fec_compare f (fn_fec n0) < 0)
    (Hleaf : l_leaf s <> 2) :
  exists s', handle_mapping map p s = Ok (tt, s') /\ l_out s' = l_out s /\ l_leaf s' = 0 /\
    (forall x, x ∈ l_label_nbrs s' <->
       x = LabelNbr (m_label map) (lsp_lbl s f) p f STREAM_TYPE_DOWN \/ x ∈ l_label_nbrs s).
Proof.
  destruct Hj as [[Hf Ht] Hp El Ef Hm Hn Hfr Hb Hl]. destruct f as [ov root sp| |]; try done.
  destruct (handle_mapping_down map p ln ov root sp s Hf Hp El Ef Hm Hn Hfr Hb) as (k & Hk & E).
  set (f := FecIpv4 ov root sp) in *.
  destruct (shadowed_downstream map p f k s n0 Hf Hnew Hrt Hlow Hleaf Hb) as (t & Ei & Ed).
  destruct (learnt_table s p f k map) as (_ & _ & _ & Eo & _).
  destruct (trace_after s (branched (set_l_leaf (learnt s p f k map) 0) f t)) as [q Eq].
  { intros q Hq. by apply (learnt_live s p f k map). }
  { done. }
  { cbn. intros x Hx. apply (rb_insert_elem _ _ _ _ _ _ Ei) in Hx as [-> |Hx]; [right; cbn|by left]. eauto. }
  eexists. split; [rewrite E, (bind_ok _ _ _ tt _ Ed); exact Eq|]. split; [exact Eo|]. split; [done|].
  intros x. by apply (rb_insert_elem id label_nbr_compare).
Qed.

Lemma small_opaque_value_loses_join_witness :
  let f := lsp_fec net_root 31 in
  exists s', handle_mapping (lsp_map f 30) 1 net_root_router = Ok (tt, s') /\ l_out s' = l_out net_root_router /\
    l_leaf s' = 0 /\ (forall x, x ∈ l_label_nbrs s' <->
       x = LabelNbr 30 16 1 f STREAM_TYPE_DOWN \/ x ∈ l_label_nbrs net_root_router).
Proof.
  apply (small_opaque_value_loses_join net_root_router 1 (the_nbr net_root_router 1) (lsp_map (lsp_fec net_root 31) 30)
    (lsp_fec net_root 31) (the_node net_root_router net_root)).
  - split.
    + split; [vm_compute; intuition congruence|done].
    + unfold is_u. lia.
    + vm_compute. reflexivity.
    + vm_compute. reflexivity.
    + discriminate.
    + vm_compute. reflexivity.
    + split; vm_compute; reflexivity.
    + vm_compute. reflexivity.
    + constructor.
  - vm_compute. reflexivity.
  - vm_compute. reflexivity.
  - vm_compute. reflexivity.
  - vm_compute. discriminate.
Defined.

(** ** Joining twice, leaving *)

(** Joining an LSP twice aborts the engine.  [tree_up] does not check
    whether the LSP has a branch towards the next hop already. *)
Theorem tree_up_again_fatal (s : lde) (root ov p : Z) (fn2 : fec_node) (l : list fec_nh) (h : fec_nh) (b : label_nbr)
    (Hroot : is_u 32 root) (Hov : is_u 8 ov) (Htab : tree_ok id lnbr_ok label_nbr_compare (l_label_nbrs s))
    (Hrt : find_root_node s root = Some fn2) (Hv4 : fec_tag (fn_fec fn2) = FEC_TYPE_IPV4)
    (Hnh : fn_nexthops fn2 = l ++ [h]) (Haf : Forall (fun h => af_ok (fnh_af h)) (fn_nexthops fn2))
    (Hp : nbr_at s h = Some p) (Hold : label_nbr_find s 0 p (lsp_fec root ov) = Some b) :
  tree_up root ov s = Fatal "lde_nbr_new: RB_INSERT failed".
Proof.
  unfold tree_up. set (s0 := set_l_leaf s 1). rewrite (bind_ok _ _ s tt s0) by done.
  rewrite (bind_ok _ _ s0 s0 s0) by done. change (find_root_node s0 root) with (find_root_node s root).
  rewrite Hrt, Hnh in *. rewrite (bind_ok _ _ _ _ _ (last_nexthop_at l h PtrUninit s0 Haf)), Hv4.
  change (fec_mp2mp FEC_TYPE_IPV4 root ov) with (lsp_fec root ov).
  rewrite (bind_ok _ _ _ (next_label s) (set_l_label s0 (next_label s))) by done.
  change (nbr_at s0 h) with (nbr_at s h). rewrite Hp. unfold bind.
  by rewrite (branch_add_clash _ _ _ _ _ 0 (set_l_label s0 (next_label s)) b) by (done || by apply lsp_fec_ok).
Qed.

Definition net_leaf_in : lde := Eval vm_compute in
  match tree_up net_root net_ov net_leaf with Ok (_, s) => s | _ => net_leaf end.

Lemma tree_up_again_fatal_witness : tree_up net_root net_ov net_leaf_in = Fatal "lde_nbr_new: RB_INSERT failed".
Proof.
  apply (tree_up_again_fatal net_leaf_in net_root net_ov 1 (the_node net_leaf_in net_root) []
    (FecNh AF_INET (addr_of_v4 (inet_addr 10 0 0 2)) NO_LABEL 0)
    (LabelNbr NO_LABEL 16 1 (lsp_fec net_root net_ov) STREAM_TYPE_UP)).
  - vm_compute. intuition congruence.
  - vm_compute. intuition congruence.
  - split; [repeat constructor|]. constructor; [apply net_fec_ok|constructor].
  - vm_compute. reflexivity.
  - vm_compute. reflexivity.
  - vm_compute. reflexivity.
  - constructor; [by left|constructor].
  - vm_compute. reflexivity.
  - vm_compute. reflexivity.
Defined.

Section Leave.
Lemma lwp_upd_live p q g s : is_Some (lde_nbr_find s p) -> is_Some (lde_nbr_find s q) ->
  (forall n, ln_peerid (g n) = ln_peerid n) ->
  lwp (upd_ln p g) (fun _ s' => is_Some (lde_nbr_find s' q)) s.
Proof.
  intros [n Hn] Hq Hg. apply lwp_upd_ln; [eauto|]. by apply nbr_upd_live.
Qed.

(** A wildcard withdraw can always be sent to a neighbour that is up. *)
Lemma withdraw_wcard_live p label s : is_Some (lde_nbr_find s p) ->
  lwp (lde_send_labelwithdraw p None label None) (fun _ s' => is_Some (lde_nbr_find s' p)) s.
Proof.
  intros [n Hn]. apply lwp_bind, (lwp_deref_ln p n); [done|]. apply lwp_bind, lwp_ret.
  apply lwp_bind, lwp_modify, lwp_bind, lwp_modify, lwp_bind, lwp_get.
  apply (lwp_foreach (fun s' => is_Some (lde_nbr_find s' p))).
  - cbn. change (is_Some (lde_nbr_find s p)). eauto.
  - intros fn s1 _ [m Hm]. apply lwp_bind, (lwp_deref_ln p m); [done|].
    case_match; (apply lwp_upd_live; [eauto..|]); intros k; by repeat case_match.
Qed.

Lemma release_wcard_live p label s : is_Some (lde_nbr_find s p) ->
  lwp (lde_send_labelrelease p None label) (fun _ _ => True) s.
Proof. intros [n Hn]. apply lwp_bind, (lwp_deref_ln p n); [done|]. done. Qed.
End Leave.

(** The element a body has deleted is no longer in the table. *)
Lemma rb_next_removed b t : rb_next b (rb_remove id label_nbr_compare b t) = None.
Proof.
  unfold rb_remove. induction t as [|x t IH]; [done|]. cbn [List.filter id].
  destruct (label_nbr_compare b x =? 0) eqn:E; cbn [negb]; [done|]. cbn [rb_next]. by rewrite E.
Qed.

(** A body that takes the first branch and frees it. *)
Lemma walk_frees_first {A} (body : label_nbr -> A -> ST lde A) acc b t s a' s' :
  l_label_nbrs s = b :: t -> body b acc s = Ok (a', s') ->
  l_label_nbrs s' = rb_remove id label_nbr_compare b (l_label_nbrs s) ->
  foreach_branch body acc s = Undef "RB_NEXT of a freed label_nbr".
Proof.
  intros Ht E Et. unfold foreach_branch. rewrite (bind_ok _ _ s s s) by done. rewrite Ht. cbn [length head rb_walk].
  rewrite (bind_ok _ _ _ _ _ E), (bind_ok _ _ s' s' s') by done. by rewrite Et, Ht, rb_next_removed.
Qed.

(** Withdraw, release and free one branch, with its neighbour up. *)
Lemma drop_branch p label b s : is_Some (lde_nbr_find s p) ->
  exists s', (lde_send_labelwithdraw p None label None ;;; lde_send_labelrelease p None label ;;;
              label_nbr_del (Some b)) s = Ok (tt, s') /\
    l_label_nbrs s' = rb_remove id label_nbr_compare b (l_label_nbrs s).
Proof.
  intros Hl.
  destruct (lwp_ok _ _ _ (withdraw_wcard_live p label s Hl)) as ([] & s1 & E1 & H1).
  destruct (lwp_ok _ _ _ (release_wcard_live p label s1 H1)) as ([] & s2 & E2 & _).
  assert (l_label_nbrs s1 = l_label_nbrs s) as F1.
  { revert E1. apply (frames_withdraw l_label_nbrs); by intros. }
  assert (l_label_nbrs s2 = l_label_nbrs s1) as F2.
  { revert E2. apply (frames_release l_label_nbrs). by intros. }
  eexists. rewrite (bind_ok _ _ s tt s1 E1), (bind_ok _ _ s1 tt s2 E2). split; [done|].
  cbn. by rewrite F2, F1.
Qed.

(** C37: leaving an LSP is never well defined.  With no branch in the table
    [tree_down] only makes the router a leaf.  With any branch its behaviour is
    undefined, and which of three faults it is depends on the first branch:
    if it is not an upstream branch of the LSP, the withdraw goes through the
    pointer [ln] that was never assigned (the braces behind [if] are missing);
    if it is and its neighbour is gone, through a null pointer; and if the
    neighbour is up, the branch is withdrawn, released and freed, and the walk
    over the tree goes on from the freed branch. *)
Theorem tree_down_undefined (s : lde) (root ov : Z) :
  match l_label_nbrs s with
  | [] => tree_down root ov s = Ok (tt, set_l_leaf s 1)
  | b :: _ =>
      tree_down root ov s = Undef
        (if (u_ipv4_prefix (lb_fec b) =? root) && (u_ipv4_prefixlen (lb_fec b) =? ov)
            && bool_decide (lb_type b = STREAM_TYPE_UP)
         then match lde_nbr_find s (lb_peerid b) with
              | Some _ => "RB_NEXT of a freed label_nbr"
              | None => "ln is a null pointer"
              end
         else "ln is not initialised")
  end.
Proof.
  unfold tree_down. set (s0 := set_l_leaf s 1).
  destruct (l_label_nbrs s) as [|b t] eqn:Et.
  { rewrite (bind_ok _ _ s tt s0) by done. unfold foreach_branch. unfold bind at 1 2, get at 1. cbn [rbind].
    change (l_label_nbrs s0) with (l_label_nbrs s). by rewrite Et. }
  rewrite (bind_ok _ _ s tt s0) by done.
  assert (l_label_nbrs s0 = b :: t) as Et0 by done.
  assert (forall A (c : ST lde A) k w, c s0 = Undef w -> (bind c k : ST lde unit) s0 = Undef w) as Hb.
  { intros A c k w E. unfold bind. by rewrite E. }
  destruct (_ && _) eqn:Em.
  - destruct (lde_nbr_find s (lb_peerid b)) as [ln|] eqn:El.
    + apply Hb. destruct (drop_branch (lb_peerid b) (lb_label b) b s0) as (s' & E & Ed); [by exists ln|].
      eapply (walk_frees_first _ _ b t s0 (PtrTo (lb_peerid b)) s'); [done| |done].
      unfold tree_down_branch. rewrite (bind_ok _ _ s0 s0 s0) by done. cbv zeta. rewrite Em.
      change (lde_nbr_find s0 (lb_peerid b)) with (lde_nbr_find s (lb_peerid b)). rewrite El.
      rewrite (bind_ok _ _ s0 (lb_peerid b) s0) by done.
      revert E. unfold bind. destruct (lde_send_labelwithdraw _ _ _ _ s0) as [[[] s1]| | |]; try done. cbn [rbind].
      destruct (lde_send_labelrelease _ _ _ s1) as [[[] s2]| | |]; try done. cbn [rbind].
      intros E. by rewrite E.
    + apply Hb. unfold foreach_branch. rewrite (bind_ok _ _ s0 s0 s0) by done. rewrite Et0. cbn [length head rb_walk].
      unfold bind at 1, tree_down_branch. rewrite (bind_ok _ _ s0 s0 s0) by done. cbv zeta. rewrite Em.
      change (lde_nbr_find s0 (lb_peerid b)) with (lde_nbr_find s (lb_peerid b)). by rewrite El.
  - apply Hb. unfold foreach_branch. rewrite (bind_ok _ _ s0 s0 s0) by done. rewrite Et0. cbn [length head rb_walk].
    unfold bind at 1, tree_down_branch. rewrite (bind_ok _ _ s0 s0 s0) by done. cbv zeta. by rewrite Em.
Qed.

(** The same walk on a transit router: when the last downstream branch is
    withdrawn, the branch towards the root is freed under the walk. *)
Theorem last_withdraw_undefined (s s1 : lde) (map : ldp_map) (p : Z) (ln : lde_nbr) (b : label_nbr) (t : list label_nbr)
    (Hret : lde_check_withdraw_wcard map p s = Ok (tt, s1)) (Hwild : m_type map = MAP_TYPE_WILDCARD)
    (Hln : lde_nbr_find s1 p = Some ln) (Hleaf : l_leaf s1 <> 2)
    (Hleft : match List.find (fun l => (lb_local_label l =? m_label map) && (lb_peerid l =? p)) (l_label_nbrs s1) with
             | Some x => rb_remove id label_nbr_compare x (l_label_nbrs s1)
             | None => l_label_nbrs s1
             end = b :: t)
    (Hup : Forall (fun l => lb_type l = STREAM_TYPE_UP) (b :: t))
    (Hlive : is_Some (lde_nbr_find s1 (lb_peerid b))) :
  handle_withdraw_wcard map p s = Undef "RB_NEXT of a freed label_nbr".
Proof.
  unfold handle_withdraw_wcard. rewrite (bind_ok _ _ _ _ _ Hret).
  rewrite (bind_ok _ _ s1 ln s1) by (unfold deref_ln; by rewrite Hln).
  rewrite (bind_ok _ _ s1 (FecIpv4 0 0 0) s1) by (unfold lift, lde_map2fec; by rewrite Hwild).
  rewrite (bind_ok _ _ s1 s1 s1) by done.
  set (s2 := set_l_label_nbrs s1 (b :: t)).
  rewrite (bind_ok _ _ s1 tt s2).
  2:{ revert Hleft. unfold s2. destruct (List.find _ _) as [x|]; intros <-; [done|]. by destruct s1. }
  rewrite (bind_ok _ _ s2 s2 s2) by done. cbn [l_leaf l_label_nbrs s2 set_l_label_nbrs].
  rewrite (proj2 (Z.eqb_neq _ _) Hleaf).
  replace (existsb _ (b :: t)) with false.
  2:{ symmetry. apply not_true_is_false. intros (x & Hx & Hd)%existsb_exists.
      apply list_elem_of_In in Hx. rewrite Forall_forall in Hup. specialize (Hup x Hx). by rewrite Hup in Hd. }
  cbn [negb andb].
  destruct (drop_branch (lb_peerid b) (lb_label b) b s2 Hlive) as (s' & E & Ed).
  eapply (walk_frees_first _ _ b t s2 tt s'); [done| |done].
  unfold withdraw_up_branch. apply Forall_cons in Hup as [-> _]. exact E.
Qed.

(** ** Losing the session behind a join *)
Section SentTmp.
Variables (p : Z) (k : nat) (l : list Z).









End SentTmp.



(** ** A run of the network

    The transit router of the network behind the exchange of a join, when the
    leaf withdraws its label; and the same router when it knows the leaf under
    the larger peer identifier, when the answer of the root arrives: it passes
    the answer on through a pointer that was never assigned. *)
Definition run_batches (l : list (list ldpe_to_lde)) (s : lde) : res (unit * lde) :=
  foreach lde_dispatch_imsg l s.
Definition net_mapping (p v : Z) : ldpe_to_lde :=
  ImsgLabel p IMSG_LABEL_MAPPING (lsp_map (lsp_fec net_root net_ov) v).
Definition net_swapped : lde := Eval vm_compute in run_from_start
  (net_nbr 1 (inet_addr 8 8 8 8) (addr_of_v4 (inet_addr 10 1 0 2)) ++
   net_nbr 2 (inet_addr 1 1 1 1) (addr_of_v4 (inet_addr 10 0 0 1)) ++ [net_route (addr_of_v4 (inet_addr 10 1 0 2))]).

Example net_teardown :
  run_batches [[ImsgCtlMldpLsp (MldpLspInfo OP_TYPE_ADD 0 net_root net_ov)]; [ImsgNeighborDown 1]] net_leaf
    = Undef "LIST_REMOVE writes to a freed fec_node" /\
  run_batches [[net_mapping 1 16]; [net_mapping 2 16]; [ImsgLabel 1 IMSG_LABEL_WITHDRAW (wildcard_map 16)]] net_transit
    = Undef "RB_NEXT of a freed label_nbr" /\
  run_batches [[net_mapping 2 16]; [net_mapping 1 16]] net_swapped = Undef "ln1 is not initialised".
Proof. repeat split; vm_compute; reflexivity. Qed.
