(* ===== verification/Hello.v ===== *)
(** * Hello messages on the wire (ldpd/hello.c, packet.c)

    The generators of a hello packet, the checks [disc_recv_packet] makes on a
    datagram and the decoders of the hello parameters.  A datagram is the list
    of its bytes; a read behind the part the code was told about is undefined
    behaviour.  Decoders return [None] where the C function returns -1. *)
From stdpp Require Import prelude strings list.
From Stdlib Require Import ZArith Lia.
From S2P Require Import Prelude Util Wire Ipc Session.

(** ** Constants (ldp.h, ldpd.h) *)
Definition LINK_DFLT_HOLDTIME : Z := 15.
Definition TARGETED_DFLT_HOLDTIME : Z := 45.
Definition MIN_HOLDTIME : Z := 3.
Definition INFINITE_HOLDTIME : Z := 0xffff.
Definition MSG_TYPE_HELLO : Z := 0x0100.
Definition TLV_TYPE_COMMONHELLO : Z := 0x0400.
Definition TLV_TYPE_IPV4TRANSADDR : Z := 0x0401.
Definition TLV_TYPE_CONFIG : Z := 0x0402.
Definition TLV_TYPE_IPV6TRANSADDR : Z := 0x0403.
Definition TLV_TYPE_DUALSTACK : Z := 0x8701.
Definition F_HELLO_TARGETED : Z := 0x8000.
Definition F_HELLO_REQ_TARG : Z := 0x4000.
Definition F_HELLO_GTSM : Z := 0x2000.
Definition F_HELLO_TLV_RCVD_ADDR : Z := 0x01.
Definition F_HELLO_TLV_RCVD_CONF : Z := 0x02.
Definition F_HELLO_TLV_RCVD_DS : Z := 0x04.
Definition DUAL_STACK_LDPOV4 : Z := 4.
Definition DUAL_STACK_LDPOV6 : Z := 6.
Definition F_LDPD_AF_ENABLED : Z := 0x0001.
Definition F_LDPD_AF_THELLO_ACCEPT : Z := 0x0002.
Definition F_LDPD_AF_NO_GTSM : Z := 0x0008.
Definition F_LDPD_DS_CISCO_INTEROP : Z := 0x0002.
Definition HELLO_PRMS_SIZE : Z := 8.         (* sizeof(struct hello_prms_tlv) *)
Definition HELLO_PRMS_OPT4_SIZE : Z := 8.    (* sizeof(struct hello_prms_opt4_tlv) *)
Definition HELLO_PRMS_OPT16_SIZE : Z := 20.  (* sizeof(struct hello_prms_opt16_tlv) *)

(** ** Configuration

    [struct ldpd_af_conf] and the part of [leconf] and [global] that discovery
    uses; a socket is its descriptor, -1 when there is none. *)
Record af_conf := AfConf {
  af_lhello_holdtime : Z;
  af_lhello_interval : Z;
  af_thello_holdtime : Z;
  af_thello_interval : Z;
  af_trans_addr : ldpd_addr;
  af_flags : Z
}.

Record af_global := AfGlobal { ag_disc_socket : Z; ag_edisc_socket : Z; ag_session_socket : Z }.

Record le_conf := LeConf {
  lc_sess : ldpe_conf;
  lc_ipv4 : af_conf;
  lc_ipv6 : af_conf;
  lc_lhello_holdtime : Z;
  lc_lhello_interval : Z;
  lc_thello_holdtime : Z;
  lc_thello_interval : Z;
  lc_trans_pref : Z;
  lc_flags : Z;
  lc_conf_seqnum : Z;
  lc_mcast_addr_v4 : ldpd_addr;
  lc_mcast_addr_v6 : ldpd_addr;
  lc_global4 : af_global;
  lc_global6 : af_global
}.

Definition ldp_af_conf_get (c : le_conf) (af : Z) : res af_conf :=
  if af =? AF_INET then Ok (lc_ipv4 c)
  else if af =? AF_INET6 then Ok (lc_ipv6 c)
  else Fatal "ldp_af_conf_get: unknown af".

Definition ldp_af_global_get (c : le_conf) (af : Z) : res af_global :=
  if af =? AF_INET then Ok (lc_global4 c)
  else if af =? AF_INET6 then Ok (lc_global6 c)
  else Fatal "ldp_af_global_get: unknown af".

Definition ldp_is_dual_stack (c : le_conf) : bool :=
  has_flag (af_flags (lc_ipv4 c)) F_LDPD_AF_ENABLED
  && has_flag (af_flags (lc_ipv6 c)) F_LDPD_AF_ENABLED.

(** ** Generators (hello.c) *)
Definition gen_hello_prms_tlv (holdtime flags : Z) : ST ibuf Z :=
  ibuf_add (le_bytes 2 (htons TLV_TYPE_COMMONHELLO) ++ le_bytes 2 (htons (2 + 2))
    ++ le_bytes 2 (htons holdtime) ++ le_bytes 2 (htons flags)).

(** [value] is in memory order already. *)
Definition gen_opt4_hello_prms_tlv (type value : Z) : ST ibuf Z :=
  ibuf_add (le_bytes 2 (htons type) ++ le_bytes 2 (htons 4) ++ le_bytes 4 value).

Definition gen_opt16_hello_prms_tlv (type : Z) (value : list Z) : ST ibuf Z :=
  ibuf_add (le_bytes 2 (htons type) ++ le_bytes 2 (htons 16) ++ value).

Definition gen_ds_hello_prms_tlv (c : le_conf) (value : Z) : ST ibuf Z :=
  gen_opt4_hello_prms_tlv TLV_TYPE_DUALSTACK
    (if has_flag (lc_flags c) F_LDPD_DS_CISCO_INTEROP then htonl value
     else htonl (u32 (Z.shiftl value 28))).

(** The size of the message and its content, as [send_hello] puts them
    together; [cnt] numbers the message. *)
Definition hello_size (c : le_conf) (af : Z) : res Z :=
  let* addr := (if af =? AF_INET then Ok HELLO_PRMS_OPT4_SIZE
                else if af =? AF_INET6 then Ok HELLO_PRMS_OPT16_SIZE
                else Fatal "send_hello: unknown af") in
  Ok (LDP_HDR_SIZE + LDP_MSG_SIZE + HELLO_PRMS_SIZE + addr + HELLO_PRMS_OPT4_SIZE
      + (if ldp_is_dual_stack c then HELLO_PRMS_OPT4_SIZE else 0)).

Definition gen_hello (c : le_conf) (cnt af size holdtime flags : Z) : ST ibuf Z :=
  gen_ldp_hdr (ldp_rtr_id_get (lc_sess c)) size
  |+| gen_msg_hdr cnt MSG_TYPE_HELLO (size - LDP_HDR_SIZE)
  |+| gen_hello_prms_tlv holdtime flags
  |+| (if af =? AF_INET then
         gen_opt4_hello_prms_tlv TLV_TYPE_IPV4TRANSADDR (v4 (af_trans_addr (lc_ipv4 c)))
       else if af =? AF_INET6 then
         gen_opt16_hello_prms_tlv TLV_TYPE_IPV6TRANSADDR (v6 (af_trans_addr (lc_ipv6 c)))
       else fatalx "send_hello: unknown af")
  |+| gen_opt4_hello_prms_tlv TLV_TYPE_CONFIG (htonl (lc_conf_seqnum c))
  |+| (if ldp_is_dual_stack c then gen_ds_hello_prms_tlv c (lc_trans_pref c) else ret 0).

(** ** Decoders *)

(** Bounds-checked loads from a datagram. *)
Definition load (off n : nat) (buf : list Z) : res (list Z) :=
  if (off + n <=? length buf)%nat then Ok (slice off n buf)
  else Undef "read past the packet".
Definition load16 (off : nat) (buf : list Z) : res Z :=
  let* bs := load off 2 buf in Ok (le_val bs).
Definition load32 (off : nat) (buf : list Z) : res Z :=
  let* bs := load off 4 buf in Ok (le_val bs).

Definition tlv_decode_hello_prms (buf : list Z) (len : Z) : res (option (Z * Z * Z)) :=
  if len <? HELLO_PRMS_SIZE then Ok None
  else
    let* type := load16 0 buf in
    let* length := load16 2 buf in
    let* holdtime := load16 4 buf in
    let* flags := load16 6 buf in
    if negb (type =? htons TLV_TYPE_COMMONHELLO) then Ok None
    else if negb (ntohs length =? HELLO_PRMS_SIZE - TLV_HDR_SIZE) then Ok None
    else Ok (Some (HELLO_PRMS_SIZE, ntohs holdtime, ntohs flags)).

(** The out-parameters of [tlv_decode_opt_hello_prms]. *)
Record hello_opts := HelloOpts {
  ho_tlvs_rcvd : Z;
  ho_addr : ldpd_addr;
  ho_conf_number : Z;
  ho_trans_pref : Z
}.
Definition hello_opts_zero : hello_opts := HelloOpts 0 zero_addr 0 0.

Definition rcvd_addr (o : hello_opts) (addr : ldpd_addr) : hello_opts :=
  if has_flag (ho_tlvs_rcvd o) F_HELLO_TLV_RCVD_ADDR then o
  else HelloOpts (Z.lor (ho_tlvs_rcvd o) F_HELLO_TLV_RCVD_ADDR) addr (ho_conf_number o)
         (ho_trans_pref o).
Definition rcvd_conf (o : hello_opts) (conf_number : Z) : hello_opts :=
  HelloOpts (Z.lor (ho_tlvs_rcvd o) F_HELLO_TLV_RCVD_CONF) (ho_addr o) conf_number
    (ho_trans_pref o).
Definition rcvd_ds (o : hello_opts) (trans_pref : Z) : hello_opts :=
  HelloOpts (Z.lor (ho_tlvs_rcvd o) F_HELLO_TLV_RCVD_DS) (ho_addr o) (ho_conf_number o)
    trans_pref.

(** One optional TLV; [body] starts behind its header. *)
Definition hello_opt_tlv (c : le_conf) (af ty tlv_len : Z) (body : list Z) (o : hello_opts)
    : res (option hello_opts) :=
  if ty =? TLV_TYPE_IPV4TRANSADDR then
    if negb (tlv_len =? 4) then Ok None
    else if negb (af =? AF_INET) then Ok None
    else if has_flag (ho_tlvs_rcvd o) F_HELLO_TLV_RCVD_ADDR then Ok (Some o)
    else let* bs := load 0 4 body in Ok (Some (rcvd_addr o (bs ++ drop 4 (ho_addr o))))
  else if ty =? TLV_TYPE_IPV6TRANSADDR then
    if negb (tlv_len =? 16) then Ok None
    else if negb (af =? AF_INET6) then Ok None
    else if has_flag (ho_tlvs_rcvd o) F_HELLO_TLV_RCVD_ADDR then Ok (Some o)
    else let* bs := load 0 16 body in Ok (Some (rcvd_addr o (bs ++ drop 16 (ho_addr o))))
  else if ty =? TLV_TYPE_CONFIG then
    if negb (tlv_len =? 4) then Ok None
    else let* v := load32 0 body in Ok (Some (rcvd_conf o v))
  else if ty =? TLV_TYPE_DUALSTACK then
    if negb (tlv_len =? 4) then Ok None
    else if negb (ldp_is_dual_stack c) then Ok (Some o)
    else if has_flag (lc_flags c) F_LDPD_DS_CISCO_INTEROP then
      let* v := load16 2 body in Ok (Some (rcvd_ds o (ntohs v)))
    else
      let* v := load16 0 body in Ok (Some (rcvd_ds o (Z.shiftr (ntohs v) 12)))
  else if negb (has_flag ty UNKNOWN_FLAG) then Ok None
  else Ok (Some o).

Fixpoint hello_opt_loop (fuel : nat) (c : le_conf) (af : Z) (buf : list Z) (len total : Z)
    (o : hello_opts) : res (option (Z * hello_opts)) :=
  match fuel with
  | O => NoFuel
  | S f =>
      if negb (len >=? TLV_HDR_SIZE) then Ok (Some (total, o))
      else
        let* ty := load16 0 buf in
        let* l := load16 2 buf in
        let tlv_len := ntohs l in
        if tlv_len + TLV_HDR_SIZE >? len then Ok None
        else
          let body := drop 4 buf in
          let* r := hello_opt_tlv c af (ntohs ty) tlv_len body o in
          match r with
          | None => Ok None
          | Some o' =>
              hello_opt_loop f c af (drop (Z.to_nat tlv_len) body)
                (u16 (u16 (len - TLV_HDR_SIZE) - tlv_len))
                (total + TLV_HDR_SIZE + tlv_len) o'
          end
  end.

Definition tlv_decode_opt_hello_prms (c : le_conf) (buf : list Z) (len af : Z)
    : res (option (Z * hello_opts)) :=
  hello_opt_loop (S (Z.to_nat len)) c af buf len 0 hello_opts_zero.

(** What [recv_hello] gets out of the message: hold time, flags and optional
    parameters, or [None] where it logs and returns. *)
Definition hello_decode (c : le_conf) (af : Z) (multicast : bool) (buf : list Z) (len : Z)
    : res (option (Z * Z * hello_opts)) :=
  let* r := tlv_decode_hello_prms buf len in
  match r with
  | None => Ok None
  | Some (r, holdtime, flags) =>
      if negb (holdtime =? 0) && (holdtime <? MIN_HOLDTIME) then Ok None
      else if multicast && has_flag flags F_HELLO_TARGETED then Ok None
      else if negb multicast && negb (has_flag flags F_HELLO_TARGETED) then Ok None
      else
        let len := u16 (len - r) in
        let* o := tlv_decode_opt_hello_prms c (drop (Z.to_nat r) buf) len af in
        match o with
        | None => Ok None
        | Some (r, o) => if negb (r =? len) then Ok None else Ok (Some (holdtime, flags, o))
        end
  end.

(** The checks of [disc_recv_packet] on the packet: the LSR id and the message
    header in memory order, and the bytes behind the message header with the
    length [recv_hello] is told. *)
Record disc_msg := DiscMsg {
  dm_lsr_id : Z;
  dm_type : Z;
  dm_id : Z;
  dm_body : list Z;
  dm_len : Z
}.

Definition disc_check_packet (pkt : list Z) : res (option disc_msg) :=
  let len := u16 (Z.of_nat (length pkt)) in
  if (len <? LDP_HDR_SIZE + LDP_MSG_SIZE) || (len >? LDP_MAX_LEN) then Ok None
  else
    let* version := load16 0 pkt in
    let* length := load16 2 pkt in
    let* lsr_id := load32 4 pkt in
    let* lspace_id := load16 8 pkt in
    if negb (ntohs version =? LDP_VERSION) then Ok None
    else if negb (ntohs lspace_id =? 0) then Ok None
    else
      let pdu_len := ntohs length in
      if (pdu_len <? LDP_HDR_PDU_LEN + LDP_MSG_SIZE) || (pdu_len >? len - LDP_HDR_DEAD_LEN)
      then Ok None
      else
        let buf := drop 10 pkt in
        let len := u16 (len - LDP_HDR_SIZE) in
        let* type := load16 0 buf in
        let* mlen := load16 2 buf in
        let* id := load32 4 buf in
        let msg_len := ntohs mlen in
        if (msg_len <? LDP_MSG_LEN) || (msg_len + LDP_MSG_DEAD_LEN >? pdu_len) then Ok None
        else if ntohs type =? MSG_TYPE_HELLO then
          Ok (Some (DiscMsg lsr_id type id (drop 8 buf) (u16 (len - LDP_MSG_SIZE))))
        else Ok None.

(** ** Loads *)
Section Loads.
Lemma load_ok off n buf : (off + n <= length buf)%nat -> load off n buf = Ok (slice off n buf).
Proof. intros H. unfold load. by apply Nat.leb_le in H as ->. Qed.

Lemma load16_ok off buf :
  (off + 2 <= length buf)%nat -> load16 off buf = Ok (le_val (slice off 2 buf)).
Proof. intros H. unfold load16. by rewrite load_ok. Qed.

Lemma load32_ok off buf :
  (off + 4 <= length buf)%nat -> load32 off buf = Ok (le_val (slice off 4 buf)).
Proof. intros H. unfold load32. by rewrite load_ok. Qed.

(** Reading a field behind a known prefix. *)
Lemma slice_field pre mid suf off n :
  off = length pre -> n = length mid -> slice off n (pre ++ mid ++ suf) = mid.
Proof. intros -> ->. rewrite slice_app_r. by rewrite take_app_length. Qed.

Lemma slice_head mid suf n : n = length mid -> slice 0 n (mid ++ suf) = mid.
Proof. intros ->. by rewrite (slice_field [] mid suf). Qed.

Lemma load16_be off pre z suf buf :
  buf = pre ++ be_bytes 2 z ++ suf -> off = length pre -> load16 off buf = Ok (htons z).
Proof.
  intros -> ->. rewrite load16_ok by (rewrite !length_app, length_be_bytes; lia).
  rewrite slice_field by (by rewrite ?length_be_bytes). done.
Qed.

Lemma load32_be off pre z suf buf :
  buf = pre ++ be_bytes 4 z ++ suf -> off = length pre -> load32 off buf = Ok (htonl z).
Proof.
  intros -> ->. rewrite load32_ok by (rewrite !length_app, length_be_bytes; lia).
  rewrite slice_field by (by rewrite ?length_be_bytes). done.
Qed.
End Loads.

(** ** The decoders on arbitrary bytes *)
Section Total.
Variable c : le_conf.
Variable af : Z.

Lemma hello_opt_tlv_total ty tlv_len body o :
  tlv_len <= Z.of_nat (length body) -> bytes_ok body -> addr_ok (ho_addr o) ->
  exists r, hello_opt_tlv c af ty tlv_len body o = Ok r /\
    forall o', r = Some o' -> addr_ok (ho_addr o').
Proof.
  intros Hl Hb [Ha1 Ha2]. unfold hello_opt_tlv.
  assert (forall n, (n <= length body)%nat -> (n <= 16)%nat ->
    addr_ok (slice 0 n body ++ drop n (ho_addr o))) as Hadr.
  { intros n Hn Hn'. split.
    - rewrite length_app, length_slice, length_drop by lia. lia.
    - apply bytes_ok_app. split; [by apply bytes_ok_slice|by apply Forall_drop]. }
  repeat match goal with
  | |- context [if ?b then _ else _] => destruct b eqn:?; zbool
  | |- context [load ?o ?n ?b] => rewrite (load_ok o n b) by lia; cbn [rbind]
  | |- context [load16 ?o ?b] => rewrite (load16_ok o b) by lia; cbn [rbind]
  | |- context [load32 ?o ?b] => rewrite (load32_ok o b) by lia; cbn [rbind]
  end; eexists; (split; [reflexivity|]); intros o' Ho; simplify_eq/=; try done;
    unfold rcvd_addr, rcvd_conf, rcvd_ds; try case_match; cbn; try done;
    apply Hadr; lia.
Qed.

Lemma hello_opt_loop_total fuel : forall buf len total o,
  is_u 16 len -> len <= Z.of_nat (length buf) -> len < Z.of_nat fuel -> bytes_ok buf ->
  addr_ok (ho_addr o) ->
  exists r, hello_opt_loop fuel c af buf len total o = Ok r /\
    forall t o', r = Some (t, o') -> t <= total + len /\ addr_ok (ho_addr o').
Proof.
  induction fuel as [|f IH]; intros buf len total o Hu Hl Hf Hb Ha; [unfold is_u in Hu; lia|].
  cbn [hello_opt_loop]. unfold TLV_HDR_SIZE in *. rewrite Z.geb_leb.
  destruct (4 <=? len) eqn:E; cbn [negb]; zbool.
  2:{ eexists. split; [done|]. intros. simplify_eq. unfold is_u in Hu. split; [lia|done]. }
  rewrite !load16_ok by lia. cbn [rbind].
  assert (is_u 16 (ntohs (le_val (slice 2 2 buf)))) as Hn by apply htons_bound.
  set (tlv_len := ntohs (le_val (slice 2 2 buf))) in *. unfold is_u in *.
  destruct (tlv_len + 4 >? len) eqn:E2; zbool; [by eexists|].
  destruct (hello_opt_tlv_total (ntohs (le_val (slice 0 2 buf))) tlv_len (drop 4 buf) o)
    as (r & -> & Hr); [rewrite length_drop; lia|by apply Forall_drop|done|].
  cbn [rbind]. destruct r as [o'|]; [|by eexists].
  rewrite (u16_small (len - 4)), u16_small by (unfold is_u; lia).
  destruct (IH (drop (Z.to_nat tlv_len) (drop 4 buf)) (len - 4 - tlv_len) (total + 4 + tlv_len) o')
    as (r & -> & Hr'); [lia|rewrite !length_drop; lia|lia|by apply Forall_drop, Forall_drop|
      by apply Hr|].
  eexists. split; [done|]. intros t o'' ->. destruct (Hr' _ _ eq_refl). split; [lia|done].
Qed.

Lemma tlv_decode_hello_prms_total buf len :
  len <= Z.of_nat (length buf) -> exists r, tlv_decode_hello_prms buf len = Ok r /\
    forall n h fl, r = Some (n, h, fl) -> n = 8 /\ 8 <= len /\ is_u 16 h /\ is_u 16 fl.
Proof.
  intros Hl. unfold tlv_decode_hello_prms, HELLO_PRMS_SIZE in *.
  destruct (len <? 8) eqn:E; zbool; [by eexists|].
  rewrite !load16_ok by lia. cbn [rbind]. repeat case_match; eexists; (split; [done|]);
    intros; simplify_eq. split_and!; [done|lia|apply htons_bound..].
Qed.

Lemma hello_decode_total multicast buf len :
  is_u 16 len -> len <= Z.of_nat (length buf) -> bytes_ok buf ->
  exists r, hello_decode c af multicast buf len = Ok r /\
    forall h fl o, r = Some (h, fl, o) ->
      is_u 16 h /\ (h = 0 \/ MIN_HOLDTIME <= h) /\ has_flag fl F_HELLO_TARGETED = negb multicast /\
      addr_ok (ho_addr o).
Proof.
  intros Hu Hl Hb. unfold hello_decode.
  destruct (tlv_decode_hello_prms_total buf len Hl) as (r & -> & Hr). cbn [rbind].
  destruct r as [[[n h] fl]|]; [|by eexists].
  destruct (Hr _ _ _ eq_refl) as (-> & H8 & Hh & _).
  destruct (negb (h =? 0) && (h <? MIN_HOLDTIME)) eqn:E1; [by eexists|].
  destruct (multicast && has_flag fl F_HELLO_TARGETED) eqn:E2; [by eexists|].
  destruct (negb multicast && negb (has_flag fl F_HELLO_TARGETED)) eqn:E3; [by eexists|].
  unfold is_u in *. rewrite u16_small by (unfold is_u; lia).
  unfold tlv_decode_opt_hello_prms.
  destruct (hello_opt_loop_total (S (Z.to_nat (len - 8))) (drop (Z.to_nat 8) buf) (len - 8) 0
    hello_opts_zero) as (r & -> & Hr'); [unfold is_u; lia|rewrite length_drop; lia|lia
      |by apply Forall_drop| |].
  { split; [done|]. by apply bytes_okb_ok. }
  cbn [rbind]. destruct r as [[t o]|]; [|by eexists]. destruct (Hr' _ _ eq_refl) as [_ Ha].
  case_match; [by eexists|]. eexists. split; [done|]. intros h' fl' o' ?. simplify_eq.
  split_and!; auto; try lia.
  destruct multicast, (has_flag fl' F_HELLO_TARGETED); done.
Qed.

Lemma disc_check_packet_total pkt :
  Z.of_nat (length pkt) < 2 ^ 16 -> bytes_ok pkt ->
  exists r, disc_check_packet pkt = Ok r /\
    forall m, r = Some m -> is_u 16 (dm_len m) /\ dm_len m <= Z.of_nat (length (dm_body m)) /\
      bytes_ok (dm_body m) /\ is_u 32 (dm_lsr_id m).
Proof.
  intros Hlen Hb. unfold disc_check_packet. rewrite u16_small by (unfold is_u; lia).
  unfold LDP_HDR_SIZE, LDP_MSG_SIZE, LDP_MAX_LEN, LDP_HDR_PDU_LEN, LDP_HDR_DEAD_LEN.
  match goal with |- context [if ?b then _ else _] => destruct b eqn:E1 end; [by eexists|]. zbool.
  rewrite !load16_ok, load32_ok by lia. cbn [rbind].
  repeat match goal with |- context [if ?b then _ else _] => destruct b eqn:?; [by eexists|] end.
  assert (8 <= length (drop 10 pkt))%nat as Hd by (rewrite length_drop; lia).
  rewrite !(load16_ok _ (drop 10 pkt)), (load32_ok _ (drop 10 pkt)) by lia. cbn [rbind].
  repeat match goal with |- context [if ?b then _ else _] => destruct b eqn:? end;
    try by eexists.
  eexists. split; [done|]. intros m ?. simplify_eq/=.
  rewrite (u16_small (_ - 10)), u16_small by (unfold is_u; lia).
  rewrite !length_drop. split_and!; try (unfold is_u; lia).
  - by apply Forall_drop, Forall_drop.
  - pose proof (le_val_bound _ (bytes_ok_slice 4 4 pkt Hb)) as B.
    rewrite length_slice in B by lia. apply B.
Qed.
End Total.

(** ** A hello packet survives the wire *)

(** The bytes of a hello message behind the message header, and the packet. *)
Definition ds_value (c : le_conf) : Z :=
  if has_flag (lc_flags c) F_LDPD_DS_CISCO_INTEROP then lc_trans_pref c
  else u32 (Z.shiftl (lc_trans_pref c) 28).

Definition trans_tlv (c : le_conf) (af : Z) : list Z :=
  if af =? AF_INET then tlv TLV_TYPE_IPV4TRANSADDR (take 4 (af_trans_addr (lc_ipv4 c)))
  else tlv TLV_TYPE_IPV6TRANSADDR (take 16 (af_trans_addr (lc_ipv6 c))).

Definition hello_tlvs (c : le_conf) (af holdtime flags : Z) : list Z :=
  tlv TLV_TYPE_COMMONHELLO (be_bytes 2 holdtime ++ be_bytes 2 flags)
  ++ trans_tlv c af ++ tlv TLV_TYPE_CONFIG (be_bytes 4 (lc_conf_seqnum c))
  ++ (if ldp_is_dual_stack c then tlv TLV_TYPE_DUALSTACK (be_bytes 4 (ds_value c)) else []).

Definition hello_packet (c : le_conf) (cnt pdu_size size : Z) (body : list Z) : list Z :=
  be_bytes 2 LDP_VERSION ++ be_bytes 2 (u16 (pdu_size - 4))
  ++ le_bytes 4 (ldp_rtr_id_get (lc_sess c)) ++ be_bytes 2 0
  ++ be_bytes 2 MSG_TYPE_HELLO ++ be_bytes 2 (u16 (size - 14)) ++ be_bytes 4 cnt ++ body.

(** Senders: addresses and preference within their C types. *)
Record hello_conf_ok (c : le_conf) : Prop := HelloConfOk {
  hc_v4 : addr_ok (af_trans_addr (lc_ipv4 c));
  hc_v6 : addr_ok (af_trans_addr (lc_ipv6 c));
  hc_rtr_id : is_u 32 (ldp_rtr_id_get (lc_sess c));
  hc_pref : lc_trans_pref c = DUAL_STACK_LDPOV4 \/ lc_trans_pref c = DUAL_STACK_LDPOV6
}.

(** Split on the address family and evaluate the tests on it. *)
Ltac af_cases H :=
  destruct H as [-> | ->];
  change (AF_INET =? AF_INET) with true in *; change (AF_INET6 =? AF_INET) with false in *;
  change (AF_INET6 =? AF_INET6) with true in *; change (AF_INET =? AF_INET6) with false in *;
  cbn [negb andb orb] in *; cbv iota in *.

Section RoundTrip.
Lemma hello_length_tlv ty bs : length (tlv ty bs) = (4 + length bs)%nat.
Proof. unfold tlv. by rewrite !length_app, !length_be_bytes. Qed.

Lemma length_trans_tlv c af : hello_conf_ok c -> af = AF_INET \/ af = AF_INET6 ->
  Z.of_nat (length (trans_tlv c af))
  = if af =? AF_INET then HELLO_PRMS_OPT4_SIZE else HELLO_PRMS_OPT16_SIZE.
Proof.
  intros [[H4 _] [H6 _] _ _] Haf. unfold trans_tlv. af_cases Haf;
    rewrite hello_length_tlv, length_take, ?H4, ?H6; done.
Qed.

Lemma length_hello_tlvs c af h fl : hello_conf_ok c -> af = AF_INET \/ af = AF_INET6 ->
  hello_size c af = Ok (18 + Z.of_nat (length (hello_tlvs c af h fl))) /\
  Z.of_nat (length (hello_tlvs c af h fl)) <= 44.
Proof.
  intros Hc Haf. pose proof (length_trans_tlv c af Hc Haf) as Ht.
  unfold hello_tlvs. rewrite !length_app, !hello_length_tlv, length_app, !length_be_bytes.
  unfold hello_size. set (t := length (trans_tlv c af)) in *. clearbody t.
  af_cases Haf; cbn [rbind];
    destruct (ldp_is_dual_stack c); rewrite ?hello_length_tlv, ?length_be_bytes; cbn [length];
    unfold HELLO_PRMS_OPT4_SIZE, HELLO_PRMS_OPT16_SIZE, LDP_HDR_SIZE, LDP_MSG_SIZE,
      HELLO_PRMS_SIZE in *; (split; [f_equal; lia|lia]).
Qed.

Lemma opt4_emits type bs : length bs = 4%nat -> bytes_ok bs ->
  emits (gen_opt4_hello_prms_tlv type (le_val bs)) (tlv type bs).
Proof.
  intros Hl Hb. unfold gen_opt4_hello_prms_tlv, tlv. rewrite !htons_image, <- Hl, le_bytes_val by done.
  rewrite Hl. apply emits_add.
Qed.

Lemma trans_emits c af : hello_conf_ok c -> af = AF_INET \/ af = AF_INET6 ->
  emits (if af =? AF_INET then
           gen_opt4_hello_prms_tlv TLV_TYPE_IPV4TRANSADDR (v4 (af_trans_addr (lc_ipv4 c)))
         else if af =? AF_INET6 then
           gen_opt16_hello_prms_tlv TLV_TYPE_IPV6TRANSADDR (v6 (af_trans_addr (lc_ipv6 c)))
         else fatalx "send_hello: unknown af") (trans_tlv c af).
Proof.
  intros [[H4 H4b] [H6 H6b] _ _] Haf. unfold trans_tlv. af_cases Haf.
  - apply (opt4_emits _ (take 4 _)); [rewrite length_take; lia|by apply Forall_take].
  - unfold gen_opt16_hello_prms_tlv, tlv, v6. rewrite !htons_image, length_take, H6.
    apply emits_add.
Qed.

Lemma ds_emits c :
  emits (if ldp_is_dual_stack c then gen_ds_hello_prms_tlv c (lc_trans_pref c) else ret 0)
    (if ldp_is_dual_stack c then tlv TLV_TYPE_DUALSTACK (be_bytes 4 (ds_value c)) else []).
Proof.
  apply emits_if; [|apply emits_ret]. unfold gen_ds_hello_prms_tlv.
  replace (if has_flag (lc_flags c) F_LDPD_DS_CISCO_INTEROP then _ else _)
    with (le_val (be_bytes 4 (ds_value c))) by (unfold ds_value; by case_match).
  apply opt4_emits; [by rewrite length_be_bytes|apply be_bytes_ok].
Qed.

Lemma gen_hello_emits c cnt af h fl size : hello_conf_ok c -> af = AF_INET \/ af = AF_INET6 ->
  emits (gen_hello c cnt af size h fl) (hello_packet c cnt size size (hello_tlvs c af h fl)).
Proof.
  intros Hc Haf. unfold gen_hello.
  eapply emits_eq; [repeat apply emits_seq;
    [apply emits_add|apply emits_add|apply emits_add|by apply trans_emits| |apply ds_emits]|].
  - apply (opt4_emits TLV_TYPE_CONFIG (be_bytes 4 (lc_conf_seqnum c)));
      [by rewrite length_be_bytes|apply be_bytes_ok].
  - unfold hello_packet, hello_tlvs. rewrite !htons_image, htonl_image.
    unfold tlv. rewrite length_app, !length_be_bytes.
    unfold LDP_HDR_DEAD_LEN, LDP_HDR_SIZE, LDP_MSG_DEAD_LEN.
    replace (size - 10 - 4) with (size - 14) by lia.
    change (le_bytes 2 0) with (be_bytes 2 0). by rewrite <- !app_assoc.
Qed.

(** One TLV of a well-formed message. *)
Lemma hello_loop_tlv c af f ty bs rest len total o :
  is_u 16 ty -> len = Z.of_nat (length (tlv ty bs ++ rest)) -> len < 2 ^ 16 ->
  hello_opt_loop (S f) c af (tlv ty bs ++ rest) len total o
  = (let* r := hello_opt_tlv c af ty (Z.of_nat (length bs)) (bs ++ rest) o in
     match r with
     | None => Ok None
     | Some o' => hello_opt_loop f c af rest (Z.of_nat (length rest))
                    (total + 4 + Z.of_nat (length bs)) o'
     end).
Proof.
  intros Hty -> Hlen. pose proof Hlen as Hlen'. rewrite length_app, hello_length_tlv in Hlen'.
  cbn [hello_opt_loop]. unfold TLV_HDR_SIZE.
  rewrite length_app, hello_length_tlv, Z.geb_leb. destruct (4 <=? _) eqn:E; zbool; [|lia]. cbn [negb].
  rewrite (load16_be 0 [] ty (be_bytes 2 (Z.of_nat (length bs)) ++ bs ++ rest))
    by (unfold tlv; by rewrite <- ?app_assoc). cbn [rbind].
  rewrite (load16_be 2 (be_bytes 2 ty) (Z.of_nat (length bs)) (bs ++ rest))
    by (unfold tlv; by rewrite <- ?app_assoc). cbn [rbind].
  rewrite !ntohs_htons by (unfold is_u in *; lia).
  destruct (_ >? _) eqn:E2; zbool; [lia|].
  replace (drop 4 (tlv ty bs ++ rest)) with (bs ++ rest)
    by (unfold tlv; rewrite <- !app_assoc, (app_assoc (be_bytes 2 ty)), drop_app_length'; [done|];
        by rewrite length_app, !length_be_bytes).
  destruct (hello_opt_tlv _ _ _ _ _ _) as [[o'|]| | |]; cbn [rbind]; try done.
  rewrite Nat2Z.id, drop_app_length.
  rewrite (u16_small (_ - 4)), u16_small by (unfold is_u; lia). do 1 f_equal; lia.
Qed.

Lemma hello_loop_end f c af total o : hello_opt_loop (S f) c af [] 0 total o = Ok (Some (total, o)).
Proof. done. Qed.

Lemma decode_hello_prms h fl rest len :
  is_u 16 h -> is_u 16 fl -> 8 <= len ->
  tlv_decode_hello_prms (tlv TLV_TYPE_COMMONHELLO (be_bytes 2 h ++ be_bytes 2 fl) ++ rest) len
  = Ok (Some (8, h, fl)).
Proof.
  intros Hh Hf Hl. unfold tlv_decode_hello_prms, HELLO_PRMS_SIZE, TLV_HDR_SIZE.
  destruct (len <? 8) eqn:E; zbool; [lia|]. unfold tlv.
  rewrite length_app, !length_be_bytes, <- !app_assoc.
  erewrite (load16_be 0 []) by reflexivity. cbn [rbind].
  erewrite (load16_be 2 (be_bytes 2 TLV_TYPE_COMMONHELLO)) by reflexivity. cbn [rbind].
  erewrite (load16_be 4 (be_bytes 2 TLV_TYPE_COMMONHELLO ++ be_bytes 2 (Z.of_nat (2 + 2))))
    by (rewrite <- ?app_assoc; reflexivity). cbn [rbind].
  erewrite (load16_be 6 (be_bytes 2 TLV_TYPE_COMMONHELLO ++ be_bytes 2 (Z.of_nat (2 + 2))
    ++ be_bytes 2 h)) by (rewrite <- ?app_assoc; reflexivity). cbn [rbind].
  rewrite Z.eqb_refl. rewrite !ntohs_htons by (try done; by vm_compute). done.
Qed.

(** The optional parameters the receiver [c'] sees in a hello of [c]. *)
Definition hello_opts_of (c c' : le_conf) (af : Z) : hello_opts :=
  let ds := ldp_is_dual_stack c && ldp_is_dual_stack c' in
  HelloOpts (Z.lor (Z.lor F_HELLO_TLV_RCVD_ADDR F_HELLO_TLV_RCVD_CONF)
               (if ds then F_HELLO_TLV_RCVD_DS else 0))
    (if af =? AF_INET then take 4 (af_trans_addr (lc_ipv4 c)) ++ replicate 12 0
     else af_trans_addr (lc_ipv6 c))
    (htonl (lc_conf_seqnum c)) (if ds then lc_trans_pref c else 0).

Lemma decode_trans c c' af rest :
  hello_conf_ok c -> af = AF_INET \/ af = AF_INET6 ->
  exists ty bs, trans_tlv c af = tlv ty bs /\ is_u 16 ty /\
    hello_opt_tlv c' af ty (Z.of_nat (length bs)) (bs ++ rest) hello_opts_zero
    = Ok (Some (HelloOpts F_HELLO_TLV_RCVD_ADDR (ho_addr (hello_opts_of c c' af)) 0 0)).
Proof.
  intros [[H4 _] [H6 _] _ _] Haf. unfold trans_tlv. af_cases Haf; do 2 eexists;
    (split; [reflexivity|]); (split; [by vm_compute|]); rewrite length_take, ?H4, ?H6; cbn -[load].
  - rewrite load_ok by (rewrite length_app, length_take; lia). cbn [rbind].
    rewrite slice_head by (rewrite length_take; lia). done.
  - rewrite load_ok by (rewrite length_app, length_take; lia). cbn [rbind].
    rewrite slice_head by (rewrite length_take; lia).
    rewrite app_nil_r, take_ge by lia. done.
Qed.

Lemma decode_conf c' af v rest o :
  hello_opt_tlv c' af TLV_TYPE_CONFIG 4 (be_bytes 4 v ++ rest) o = Ok (Some (rcvd_conf o (htonl v))).
Proof. cbn -[load32]. by erewrite (load32_be 0 []) by reflexivity. Qed.

Lemma decode_ds c c' af o :
  hello_conf_ok c ->
  has_flag (lc_flags c') F_LDPD_DS_CISCO_INTEROP = has_flag (lc_flags c) F_LDPD_DS_CISCO_INTEROP ->
  hello_opt_tlv c' af TLV_TYPE_DUALSTACK 4 (be_bytes 4 (ds_value c)) o
  = Ok (Some (if ldp_is_dual_stack c' then rcvd_ds o (lc_trans_pref c) else o)).
Proof.
  intros [_ _ _ Hp] Hc. cbn -[load16]. rewrite Hc. unfold ds_value.
  destruct (ldp_is_dual_stack c'); cbn [negb]; [|done].
  destruct (has_flag (lc_flags c) F_LDPD_DS_CISCO_INTEROP); destruct Hp as [-> | ->]; done.
Qed.

(** The optional parameters of a hello, one after the other. *)
Lemma decode_hello_opts c c' af f rest :
  hello_conf_ok c -> af = AF_INET \/ af = AF_INET6 ->
  Z.of_nat (length rest) < 2 ^ 15 ->
  exists t, let buf := trans_tlv c af ++ tlv TLV_TYPE_CONFIG (be_bytes 4 (lc_conf_seqnum c)) ++ rest in
  t = Z.of_nat (length buf) - Z.of_nat (length rest) /\
  hello_opt_loop (S (S f)) c' af buf (Z.of_nat (length buf)) 0 hello_opts_zero
  = hello_opt_loop f c' af rest (Z.of_nat (length rest)) t
      (HelloOpts 3 (ho_addr (hello_opts_of c c' af)) (htonl (lc_conf_seqnum c)) 0).
Proof.
  intros Hc Haf Hr. eexists. split; [reflexivity|]. cbv zeta.
  pose proof (length_trans_tlv c af Hc Haf) as Hlt.
  destruct (decode_trans c c' af (tlv TLV_TYPE_CONFIG (be_bytes 4 (lc_conf_seqnum c)) ++ rest) Hc Haf)
    as (ty & bs & Et & Hty & Hd).
  rewrite Et in *. rewrite hello_length_tlv in Hlt.
  assert (Z.of_nat (length bs) <= 16) as Hlb.
  { af_cases Haf; unfold HELLO_PRMS_OPT4_SIZE, HELLO_PRMS_OPT16_SIZE in Hlt; lia. }
  rewrite hello_loop_tlv by (try done; rewrite !length_app, !hello_length_tlv, length_be_bytes; lia).
  rewrite Hd. cbn [rbind].
  rewrite hello_loop_tlv by (try done; rewrite ?length_app, ?hello_length_tlv, ?length_be_bytes; lia).
  rewrite length_be_bytes, decode_conf. cbn [rbind]. unfold rcvd_conf. cbn [ho_addr ho_tlvs_rcvd ho_trans_pref].
  f_equal. rewrite !length_app, !hello_length_tlv, length_be_bytes. lia.
Qed.

Lemma decode_hello c c' af h fl :
  hello_conf_ok c -> af = AF_INET \/ af = AF_INET6 -> is_u 16 h -> is_u 16 fl ->
  h = 0 \/ MIN_HOLDTIME <= h ->
  has_flag (lc_flags c') F_LDPD_DS_CISCO_INTEROP = has_flag (lc_flags c) F_LDPD_DS_CISCO_INTEROP ->
  hello_decode c' af (negb (has_flag fl F_HELLO_TARGETED)) (hello_tlvs c af h fl)
    (Z.of_nat (length (hello_tlvs c af h fl)))
  = Ok (Some (h, fl, hello_opts_of c c' af)).
Proof.
  intros Hc Haf Hh Hf Hmin Hci. unfold hello_decode, hello_tlvs.
  destruct (length_hello_tlvs c af h fl Hc Haf) as [_ Hb]. unfold hello_tlvs in Hb.
  set (ds := if ldp_is_dual_stack c then _ else []) in *.
  set (opts := trans_tlv c af ++ _ ++ ds) in *.
  assert (length (tlv TLV_TYPE_COMMONHELLO (be_bytes 2 h ++ be_bytes 2 fl)) = 8%nat) as H8
    by (by rewrite hello_length_tlv, length_app, !length_be_bytes).
  assert (Z.of_nat (length ds) < 2 ^ 15) as Hds.
  { unfold ds. case_match; rewrite ?hello_length_tlv, ?length_be_bytes; cbn; lia. }
  rewrite length_app, H8 in *. rewrite decode_hello_prms by (try done; lia). cbn [rbind].
  destruct (negb (h =? 0) && (h <? MIN_HOLDTIME)) eqn:E1; [zbool; lia|]. clear E1.
  rewrite andb_negb_l, negb_involutive, andb_negb_r.
  change (Z.to_nat 8) with 8%nat. rewrite (drop_app_length' _ _ 8) by done.
  replace (u16 (Z.of_nat (8 + length opts) - 8)) with (Z.of_nat (length opts))
    by (rewrite u16_small by (unfold is_u; lia); lia).
  unfold tlv_decode_opt_hello_prms. rewrite Nat2Z.id.
  assert (exists f, S (length opts) = S (S (S (S f)))) as [f Ef].
  { exists (length opts - 3)%nat. unfold opts. rewrite !length_app, hello_length_tlv, length_be_bytes. lia. }
  rewrite Ef. destruct (decode_hello_opts c c' af (S (S f)) ds Hc Haf Hds) as (t & Et & El).
  fold opts in Et, El. rewrite El, Et. unfold ds, hello_opts_of.
  destruct (ldp_is_dual_stack c); cbn [andb].
  - rewrite <- (app_nil_r (tlv TLV_TYPE_DUALSTACK _)).
    rewrite hello_loop_tlv by (rewrite ?app_nil_r, ?hello_length_tlv, ?length_be_bytes; done).
    rewrite length_be_bytes, app_nil_r, (decode_ds c) by done. cbn [rbind length].
    rewrite hello_loop_end. cbn [rbind].
    rewrite app_nil_r, hello_length_tlv, length_be_bytes.
    match goal with |- context [negb (?a =? ?b)] => replace a with b by lia end.
    rewrite Z.eqb_refl. by destruct (ldp_is_dual_stack c').
  - cbn [length]. rewrite hello_loop_end. cbn [rbind].
    rewrite Z.sub_0_r, Z.eqb_refl. done.
Qed.

(** A packet that holds a hello message, possibly followed by more bytes. *)
Lemma check_hello_packet c cnt psize body extra :
  is_u 32 (ldp_rtr_id_get (lc_sess c)) ->
  18 + Z.of_nat (length body) <= psize <= 18 + Z.of_nat (length body + length extra) ->
  18 + Z.of_nat (length body + length extra) <= LDP_MAX_LEN ->
  disc_check_packet (hello_packet c cnt psize (18 + Z.of_nat (length body)) (body ++ extra))
  = Ok (Some (DiscMsg (ldp_rtr_id_get (lc_sess c)) (htons MSG_TYPE_HELLO) (htonl cnt)
                (body ++ extra) (Z.of_nat (length body + length extra)))).
Proof.
  intros Hid Hps Hlen. unfold LDP_MAX_LEN in Hlen. set (size := 18 + Z.of_nat (length body)).
  set (id := ldp_rtr_id_get (lc_sess c)) in *.
  set (msg := be_bytes 2 MSG_TYPE_HELLO ++ be_bytes 2 (u16 (size - 14)) ++ be_bytes 4 cnt ++ body ++ extra).
  set (hdr := be_bytes 2 LDP_VERSION ++ be_bytes 2 (u16 (psize - 4)) ++ le_bytes 4 id ++ be_bytes 2 0).
  assert (hello_packet c cnt psize size (body ++ extra) = hdr ++ msg) as ->.
  { unfold hello_packet, hdr, msg. by rewrite <- !app_assoc. }
  assert (length hdr = 10%nat) as Hh
    by (unfold hdr; by rewrite !length_app, !length_be_bytes, length_le_bytes).
  assert (length msg = (8 + (length body + length extra))%nat) as Hm
    by (unfold msg; by rewrite !length_app, !length_be_bytes).
  unfold disc_check_packet. rewrite length_app, Hh, Hm.
  unfold LDP_HDR_SIZE, LDP_MSG_SIZE, LDP_MAX_LEN, LDP_HDR_PDU_LEN, LDP_HDR_DEAD_LEN, LDP_MSG_LEN,
    LDP_MSG_DEAD_LEN.
  rewrite (u16_small (Z.of_nat (10 + _))) by (unfold is_u; lia).
  destruct (_ || _) eqn:E; [apply orb_true_iff in E; destruct E; zbool; lia|]. clear E.
  rewrite (drop_app_length' hdr msg 10) by done.
  assert (hdr ++ msg = be_bytes 2 LDP_VERSION ++ be_bytes 2 (u16 (psize - 4)) ++ le_bytes 4 id
    ++ be_bytes 2 0 ++ msg) as Ehm by (unfold hdr; by rewrite <- !app_assoc).
  rewrite (load16_be 0 [] _ _ _ Ehm) by done. cbn [rbind].
  rewrite (load16_be 2 (be_bytes 2 LDP_VERSION) _ _ _ Ehm) by done.
  cbn [rbind]. rewrite load32_ok by (rewrite length_app; lia).
  replace (slice 4 4 (hdr ++ msg)) with (le_bytes 4 id).
  2:{ symmetry. unfold hdr. rewrite <- !app_assoc.
      rewrite (app_assoc (be_bytes 2 LDP_VERSION)).
      apply slice_field; by rewrite ?length_app, ?length_be_bytes, ?length_le_bytes. }
  rewrite le_val_bytes, (Z.mod_small id) by apply Hid. cbn [rbind].
  erewrite (load16_be 8 (be_bytes 2 LDP_VERSION ++ be_bytes 2 (u16 (psize - 4)) ++ le_bytes 4 id))
    by (rewrite ?Ehm, <- ?app_assoc; reflexivity). cbn [rbind].
  erewrite (load16_be 0 [] _ _ msg) by reflexivity.
  erewrite (load16_be 2 (be_bytes 2 MSG_TYPE_HELLO) _ _ msg) by reflexivity.
  erewrite (load32_be 4 (be_bytes 2 MSG_TYPE_HELLO ++ be_bytes 2 (u16 (size - 14))) _ _ msg)
    by (rewrite <- ?app_assoc; reflexivity). cbn [rbind].
  rewrite !ntohs_htons by (try apply u16_bound; by vm_compute).
  rewrite !Z.eqb_refl, !u16_small by (unfold is_u; lia). cbn [negb].
  destruct (_ || _) eqn:E; [apply orb_true_iff in E; destruct E; zbool; lia|]. clear E.
  destruct (_ || _) eqn:E; [apply orb_true_iff in E; destruct E; zbool; lia|]. clear E.
  do 3 f_equal. rewrite (u16_small (_ - 10)), u16_small by (unfold is_u; lia). lia.
Qed.

(** A hello message is no optional parameter. *)
Lemma hello_loop_message f c af rest total o :
  2 <= Z.of_nat (length rest) -> Z.of_nat (length rest) < 2 ^ 15 ->
  hello_opt_loop (S f) c af (be_bytes 2 MSG_TYPE_HELLO ++ rest)
    (Z.of_nat (length (be_bytes 2 MSG_TYPE_HELLO ++ rest))) total o = Ok None.
Proof.
  intros Hr Hr2. cbn [hello_opt_loop]. rewrite length_app, length_be_bytes. unfold TLV_HDR_SIZE.
  rewrite Z.geb_leb. destruct (4 <=? _) eqn:E; zbool; [|lia]. cbn [negb].
  erewrite (load16_be 0 []) by reflexivity.
  rewrite load16_ok by (rewrite length_app, length_be_bytes; lia). cbn [rbind].
  case_match; [done|]. by rewrite ntohs_htons by (by vm_compute).
Qed.

Lemma decode_ds_any c c' af rest o : exists o',
  hello_opt_tlv c' af TLV_TYPE_DUALSTACK 4 (be_bytes 4 (ds_value c) ++ rest) o = Ok (Some o').
Proof.
  cbn -[load16]. rewrite !load16_ok by (rewrite length_app, length_be_bytes; lia). cbn [rbind].
  repeat case_match; eauto.
Qed.

Lemma decode_two_hellos c c' af h fl multicast rest :
  hello_conf_ok c -> af = AF_INET \/ af = AF_INET6 -> is_u 16 h -> is_u 16 fl ->
  2 <= Z.of_nat (length rest) <= 1024 ->
  hello_decode c' af multicast (hello_tlvs c af h fl ++ be_bytes 2 MSG_TYPE_HELLO ++ rest)
    (Z.of_nat (length (hello_tlvs c af h fl ++ be_bytes 2 MSG_TYPE_HELLO ++ rest))) = Ok None.
Proof.
  intros Hc Haf Hh Hf Hr. set (second := be_bytes 2 MSG_TYPE_HELLO ++ rest).
  assert (Z.of_nat (length second) = 2 + Z.of_nat (length rest)) as Hl2
    by (unfold second; rewrite length_app, length_be_bytes; lia).
  destruct (length_hello_tlvs c af h fl Hc Haf) as [_ Hb]. unfold hello_tlvs in *.
  set (ds := if ldp_is_dual_stack c then _ else []) in *. rewrite <- !app_assoc in *.
  set (opts := trans_tlv c af ++ _ ++ ds ++ second) in *.
  assert (length (tlv TLV_TYPE_COMMONHELLO (be_bytes 2 h ++ be_bytes 2 fl)) = 8%nat) as H8
    by (by rewrite hello_length_tlv, length_app, !length_be_bytes).
  assert (Z.of_nat (length ds) <= 8) as Hds.
  { unfold ds. case_match; rewrite ?hello_length_tlv, ?length_be_bytes; cbn; lia. }
  rewrite length_app, H8 in *.
  assert (Z.of_nat (length opts) <= 2000) as Hlo.
  { unfold opts. rewrite !length_app in *. lia. }
  unfold hello_decode. rewrite decode_hello_prms by (try done; lia). cbn [rbind].
  repeat (case_match; [done|]).
  change (Z.to_nat 8) with 8%nat. rewrite (drop_app_length' _ _ 8) by done.
  replace (u16 (Z.of_nat (8 + length opts) - 8)) with (Z.of_nat (length opts))
    by (rewrite u16_small by (unfold is_u; lia); lia).
  unfold tlv_decode_opt_hello_prms. rewrite Nat2Z.id.
  assert (exists f, S (length opts) = S (S (S (S f)))) as [f Ef].
  { exists (length opts - 3)%nat. unfold opts. rewrite !length_app, hello_length_tlv, length_be_bytes. lia. }
  rewrite Ef. destruct (decode_hello_opts c c' af (S (S f)) (ds ++ second) Hc Haf) as (t & _ & El);
    [rewrite length_app; lia|]. fold opts in El. rewrite El. clear El. unfold ds.
  destruct (ldp_is_dual_stack c).
  - rewrite hello_loop_tlv by (try done; rewrite ?length_app, ?hello_length_tlv, ?length_be_bytes; lia).
    rewrite length_be_bytes. change (Z.of_nat 4) with 4. destruct (decode_ds_any c c' af second
      (HelloOpts 3 (ho_addr (hello_opts_of c c' af)) (htonl (lc_conf_seqnum c)) 0)) as [o' ->].
    cbn [rbind]. unfold second. by rewrite hello_loop_message by lia.
  - cbn [app]. unfold second. by rewrite hello_loop_message by lia.
Qed.
(** A hello of [c] at a receiver [c']. *)
Lemma hello_exchange (c c' : le_conf) (cnt af holdtime flags : Z)
  (Hc : hello_conf_ok c) (Haf : af = AF_INET \/ af = AF_INET6)
  (Hh : is_u 16 holdtime) (Hf : is_u 16 flags) (Hmin : holdtime = 0 \/ MIN_HOLDTIME <= holdtime)
  (Hcisco : has_flag (lc_flags c') F_LDPD_DS_CISCO_INTEROP
            = has_flag (lc_flags c) F_LDPD_DS_CISCO_INTEROP) :
  exists size pkt m, hello_size c af = Ok size /\
    gen_hello c cnt af size holdtime flags (ibuf_open size) = Ok (0, Ibuf pkt size size) /\
    disc_check_packet pkt = Ok (Some m) /\
    dm_lsr_id m = ldp_rtr_id_get (lc_sess c) /\ dm_id m = htonl cnt /\
    hello_decode c' af (negb (has_flag flags F_HELLO_TARGETED)) (dm_body m) (dm_len m)
    = Ok (Some (holdtime, flags, hello_opts_of c c' af)).
Proof.
  destruct (length_hello_tlvs c af holdtime flags Hc Haf) as [Hs Hb].
  set (body := hello_tlvs c af holdtime flags) in *.
  pose proof (check_hello_packet c cnt (18 + Z.of_nat (length body)) body [] (hc_rtr_id c Hc)) as Hk.
  rewrite app_nil_r, Nat.add_0_r in Hk.
  eexists _, (hello_packet c cnt _ _ body), _. split_and!; [exact Hs| |apply Hk|..].
  - unfold ibuf_open. rewrite (gen_hello_emits c cnt af holdtime flags _ Hc Haf); [done|].
    unfold hello_packet. fold body.
    rewrite !length_app, !length_be_bytes, length_le_bytes. cbn [length]. lia.
  - lia.
  - unfold LDP_MAX_LEN. lia.
  - done.
  - done.
  - by apply decode_hello.
Qed.
End RoundTrip.

(** ** Properties *)

(** C27: the packet [send_hello] builds for one address family passes every
    check of a receiver and is decoded into the sender's LSR id, hold time,
    flags, transport address of that family, configuration sequence number (in
    network order, the receiver does not convert it) and, when both routers run
    both families, transport preference. *)
Theorem hello_roundtrip (c c' : le_conf) (cnt af holdtime flags : Z)
  (Hc : hello_conf_ok c) (Haf : af = AF_INET \/ af = AF_INET6)
  (Hh : is_u 16 holdtime) (Hf : is_u 16 flags) (Hmin : holdtime = 0 \/ MIN_HOLDTIME <= holdtime)
  (Hcisco : has_flag (lc_flags c') F_LDPD_DS_CISCO_INTEROP
            = has_flag (lc_flags c) F_LDPD_DS_CISCO_INTEROP) :
  exists size pkt m, hello_size c af = Ok size /\
    gen_hello c cnt af size holdtime flags (ibuf_open size) = Ok (0, Ibuf pkt size size) /\
    disc_check_packet pkt = Ok (Some m) /\
    dm_lsr_id m = ldp_rtr_id_get (lc_sess c) /\ dm_id m = htonl cnt /\
    hello_decode c' af (negb (has_flag flags F_HELLO_TARGETED)) (dm_body m) (dm_len m)
    = Ok (Some (holdtime, flags, hello_opts_of c c' af)).
Proof. by apply hello_exchange. Qed.

(** Two routers for the witnesses: [conf_a] runs both families, [conf_b] IPv4. *)
Definition sess_conf_a : ldpe_conf := LdpeConf (le_val [1; 1; 1; 1]) 0 180 180 [] [].
Definition sess_conf_b : ldpe_conf := LdpeConf (le_val [2; 2; 2; 2]) 0 180 180 [] [].
Definition v4_addr (a b c d : Z) : ldpd_addr := [a; b; c; d] ++ replicate 12 0.
Definition ll_addr (last : Z) : ldpd_addr := [0xfe; 0x80] ++ replicate 13 0 ++ [last].
Definition no_af : af_conf := AfConf 0 0 0 0 zero_addr 0.
Definition both_open : af_global := AfGlobal 5 6 7.

Definition conf_a : le_conf :=
  LeConf sess_conf_a (AfConf 0 0 0 0 (v4_addr 1 1 1 1) F_LDPD_AF_ENABLED)
    (AfConf 0 0 0 0 (ll_addr 1) F_LDPD_AF_ENABLED) 15 5 45 15 DUAL_STACK_LDPOV4 0 255
    (v4_addr 224 0 0 2) (0xff :: 0x02 :: replicate 13 0 ++ [2]) both_open both_open.
Definition conf_b : le_conf :=
  LeConf sess_conf_b (AfConf 0 0 0 0 (v4_addr 2 2 2 2) F_LDPD_AF_ENABLED) no_af
    15 5 45 15 DUAL_STACK_LDPOV4 0 1 (v4_addr 224 0 0 2) (0xff :: 0x02 :: replicate 13 0 ++ [2])
    both_open both_open.

Lemma conf_a_ok : hello_conf_ok conf_a.
Proof.
  split; [split; [done|by apply bytes_okb_ok]..|vm_compute; done|by left].
Qed.

Lemma hello_roundtrip_witness :
  exists size pkt m, hello_size conf_a AF_INET = Ok size /\
    gen_hello conf_a 1 AF_INET size 15 0 (ibuf_open size) = Ok (0, Ibuf pkt size size) /\
    disc_check_packet pkt = Ok (Some m) /\
    dm_lsr_id m = le_val [1; 1; 1; 1] /\ dm_id m = htonl 1 /\
    hello_decode conf_b AF_INET true (dm_body m) (dm_len m)
    = Ok (Some (15, 0, HelloOpts 3 (v4_addr 1 1 1 1) (htonl 255) 0)).
Proof.
  apply (hello_roundtrip conf_a conf_b 1 AF_INET 15 0);
    [apply conf_a_ok|left; reflexivity|vm_compute; intuition congruence
    |vm_compute; intuition congruence|right; vm_compute; intuition congruence|reflexivity].
Defined.

(** A packet that carries a second hello message behind the first is
    accepted by the checks on its headers, but the bytes of the second message
    are taken for optional parameters of the first and the packet is dropped. *)
Theorem second_message_drops_hello (c c' : le_conf) (cnt af holdtime flags : Z) (second : list Z)
  (multicast : bool)
  (Hc : hello_conf_ok c) (Haf : af = AF_INET \/ af = AF_INET6)
  (Hh : is_u 16 holdtime) (Hf : is_u 16 flags)
  (Hsec : exists rest, second = be_bytes 2 MSG_TYPE_HELLO ++ rest /\ 2 <= Z.of_nat (length rest) <= 1024) :
  let body := hello_tlvs c af holdtime flags in
  let size := 18 + Z.of_nat (length body) in
  exists m, disc_check_packet
      (hello_packet c cnt (size + Z.of_nat (length second)) size (body ++ second)) = Ok (Some m) /\
    hello_decode c' af multicast (dm_body m) (dm_len m) = Ok None.
Proof.
  destruct Hsec as (rest & -> & Hr). intros body size.
  destruct (length_hello_tlvs c af holdtime flags Hc Haf) as [_ Hb].
  assert (Z.of_nat (length (be_bytes 2 MSG_TYPE_HELLO ++ rest)) = 2 + Z.of_nat (length rest)) as Hl2
    by (rewrite length_app, length_be_bytes; lia).
  set (second := be_bytes 2 MSG_TYPE_HELLO ++ rest) in *. fold body in Hb.
  eexists. split; [apply check_hello_packet; [apply Hc|subst size; lia|unfold LDP_MAX_LEN; lia]|].
  cbn [dm_body dm_len]. rewrite <- length_app. by apply decode_two_hellos.
Qed.

Lemma second_message_drops_hello_witness :
  let body := hello_tlvs conf_a AF_INET 15 0 in
  let second := be_bytes 2 MSG_TYPE_HELLO ++ be_bytes 2 12 ++ be_bytes 4 2
    ++ tlv TLV_TYPE_COMMONHELLO (be_bytes 2 15 ++ be_bytes 2 0) in
  let size := 18 + Z.of_nat (length body) in
  exists m, disc_check_packet
      (hello_packet conf_a 1 (size + Z.of_nat (length second)) size (body ++ second)) = Ok (Some m) /\
    hello_decode conf_b AF_INET true (dm_body m) (dm_len m) = Ok None.
Proof.
  apply (second_message_drops_hello conf_a conf_b 1 AF_INET 15 0);
    [apply conf_a_ok|left; reflexivity|vm_compute; intuition congruence
    |vm_compute; intuition congruence|].
  eexists. split; [reflexivity|]. vm_compute. intuition congruence.
Defined.
