(* ===== verification/Discovery.v ===== *)
(** * Discovery: adjacencies, targeted neighbours, interfaces and neighbours
      (ldpd/hello.c, adjacency.c, interface.c, neighbor.c, packet.c)

    The heap of the engine: adjacencies, targeted neighbours, interfaces and
    neighbours are records with an address of their own, pointers between them
    are these addresses, and following a pointer to freed memory is undefined
    behaviour.  The linked lists through [struct adj] (per neighbour and per
    interface) are lists of addresses in the order of the C list.

    A neighbour holds the session state of [Session]; code that works on one
    session runs on it through [on_nbr].  Timers are the armed value, packets
    handed to [send_packet] are collected in [d_sent].  Results of system calls
    are arguments.  The trees of neighbours follow the contract of Fec; like
    [lde_nbr_compare], [nbr_id_compare] orders identifiers only as long as they
    differ by less than 2^31. *)
From stdpp Require Import prelude strings list.
From Stdlib Require Import ZArith Lia.
From S2P Require Import Prelude Util Wire Ipc Session Fec Hello.

(** ** The heap *)

(** Records with an address. *)
Class Ptr (A : Type) := ptr_of : A -> Z.

Section Store.
Context {A : Type} `{Ptr A}.
Definition find_ptr (p : Z) (l : list A) : option A := List.find (fun x => ptr_of x =? p) l.
Definition upd_ptr (p : Z) (f : A -> A) (l : list A) : list A :=
  map (fun x => if ptr_of x =? p then f x else x) l.
Definition del_ptr (p : Z) (l : list A) : list A := List.filter (fun x => negb (ptr_of x =? p)) l.
End Store.

(** [LIST_REMOVE] on a list of pointers. *)
Definition list_remove (p : Z) (l : list Z) : list Z := List.filter (fun x => negb (x =? p)) l.

(** [struct hello_source]: an [iface_af] is its interface and family. *)
Inductive hello_source :=
| SrcLink (ifp af : Z) (src_addr : ldpd_addr)
| SrcTarget (target : Z).

Record adj := Adj {
  a_ptr : Z;
  a_lsr_id : Z;
  a_nbr : option Z;
  a_source : hello_source;
  a_holdtime : Z;
  a_trans_addr : ldpd_addr;
  a_itimer : option Z
}.
#[export] Instance adj_ptr : Ptr adj := a_ptr.

Definition TNBR_STA_DOWN : Z := 0x01.
Definition TNBR_STA_ACTIVE : Z := 0x02.
Definition F_TNBR_CONFIGURED : Z := 0x01.
Definition F_TNBR_DYNAMIC : Z := 0x02.

Record tnbr := Tnbr {
  t_ptr : Z;
  t_af : Z;
  t_addr : ldpd_addr;
  t_state : Z;
  t_pw_count : Z;
  t_flags : Z;
  t_adj : option Z;
  t_hello_timer : option Z
}.
#[export] Instance tnbr_ptr : Ptr tnbr := t_ptr.

Definition IF_STA_DOWN : Z := 0x01.
Definition IF_STA_ACTIVE : Z := 0x02.
Inductive iface_type := IF_TYPE_POINTOPOINT | IF_TYPE_BROADCAST.

Record if_addr := IfAddr {
  ifa_af : Z;
  ifa_addr : ldpd_addr;
  ifa_prefixlen : Z;
  ifa_dstbrd : ldpd_addr
}.

Record iface_af := IfaceAf {
  ia_enabled : bool;
  ia_state : Z;
  ia_adj_list : list Z;
  ia_hello_timer : option Z;
  ia_hello_holdtime : Z;
  ia_hello_interval : Z
}.

Record iface := Iface {
  if_ptr : Z;
  if_name : string;
  if_ifindex : Z;
  if_addr_list : list if_addr;
  if_linklocal : ldpd_addr;
  if_type : iface_type;
  if_flags : Z;
  if_ipv4 : iface_af;
  if_ipv6 : iface_af
}.
#[export] Instance iface_ptr : Ptr iface := if_ptr.

(** A neighbour: the session part and what discovery keeps with it. *)
Definition F_NBR_GTSM_NEGOTIATED : Z := 0x01.
(** The lists of maps that wait for the end of a batch from the lde. *)
Record map_lists := MapLists {
  ml_mapping : list ldp_map;
  ml_release : list ldp_map;
  ml_request : list ldp_map;
  ml_withdraw : list ldp_map
}.
Record dnbr := Dnbr {
  dn_ptr : Z;
  dn_nbr : nbr;
  dn_raddr_scope : Z;
  dn_ds_tlv : bool;
  dn_conf_seqnum : Z;
  dn_flags : Z;
  dn_adj_list : list Z;
  dn_wire : list (list Z);
  dn_lists : map_lists
}.
#[export] Instance dnbr_ptr : Ptr dnbr := dn_ptr.

Record pending_conn := PendingConn { pc_af : Z; pc_addr : ldpd_addr }.
Record packet := Packet { p_af : Z; p_dst : ldpd_addr; p_ifp : option Z; p_data : list Z }.

Record disc := Disc {
  d_conf : le_conf;
  d_addr_list : list if_addr;      (* global.addr_list *)
  d_nbrs : list dnbr;              (* nbrs_by_id, nbrs_by_addr *)
  d_adjs : list adj;               (* global.adj_list *)
  d_tnbrs : list tnbr;             (* leconf->tnbr_list *)
  d_ifaces : list iface;           (* leconf->iface_list *)
  d_pconns : list pending_conn;    (* global.pending_conns *)
  d_msgcnt : Z;
  d_peercnt : Z;
  d_pids : list Z;
  d_lde : list ldpe_to_lde;
  d_sent : list packet;
  d_next : Z                       (* next free address *)
}.

Definition set_nbrs (f : list dnbr -> list dnbr) (s : disc) : disc :=
  Disc (d_conf s) (d_addr_list s) (f (d_nbrs s)) (d_adjs s) (d_tnbrs s) (d_ifaces s) (d_pconns s)
    (d_msgcnt s) (d_peercnt s) (d_pids s) (d_lde s) (d_sent s) (d_next s).
Definition set_adjs (f : list adj -> list adj) (s : disc) : disc :=
  Disc (d_conf s) (d_addr_list s) (d_nbrs s) (f (d_adjs s)) (d_tnbrs s) (d_ifaces s) (d_pconns s)
    (d_msgcnt s) (d_peercnt s) (d_pids s) (d_lde s) (d_sent s) (d_next s).
Definition set_tnbrs (f : list tnbr -> list tnbr) (s : disc) : disc :=
  Disc (d_conf s) (d_addr_list s) (d_nbrs s) (d_adjs s) (f (d_tnbrs s)) (d_ifaces s) (d_pconns s)
    (d_msgcnt s) (d_peercnt s) (d_pids s) (d_lde s) (d_sent s) (d_next s).
Definition set_ifaces (f : list iface -> list iface) (s : disc) : disc :=
  Disc (d_conf s) (d_addr_list s) (d_nbrs s) (d_adjs s) (d_tnbrs s) (f (d_ifaces s)) (d_pconns s)
    (d_msgcnt s) (d_peercnt s) (d_pids s) (d_lde s) (d_sent s) (d_next s).
Definition set_pconns (f : list pending_conn -> list pending_conn) (s : disc) : disc :=
  Disc (d_conf s) (d_addr_list s) (d_nbrs s) (d_adjs s) (d_tnbrs s) (d_ifaces s) (f (d_pconns s))
    (d_msgcnt s) (d_peercnt s) (d_pids s) (d_lde s) (d_sent s) (d_next s).
Definition set_pids (f : list Z -> list Z) (s : disc) : disc :=
  Disc (d_conf s) (d_addr_list s) (d_nbrs s) (d_adjs s) (d_tnbrs s) (d_ifaces s) (d_pconns s)
    (d_msgcnt s) (d_peercnt s) (f (d_pids s)) (d_lde s) (d_sent s) (d_next s).
Definition set_addr_list (f : list if_addr -> list if_addr) (s : disc) : disc :=
  Disc (d_conf s) (f (d_addr_list s)) (d_nbrs s) (d_adjs s) (d_tnbrs s) (d_ifaces s) (d_pconns s)
    (d_msgcnt s) (d_peercnt s) (d_pids s) (d_lde s) (d_sent s) (d_next s).
Definition set_msgcnt (v : Z) (s : disc) : disc :=
  Disc (d_conf s) (d_addr_list s) (d_nbrs s) (d_adjs s) (d_tnbrs s) (d_ifaces s) (d_pconns s)
    v (d_peercnt s) (d_pids s) (d_lde s) (d_sent s) (d_next s).
Definition set_sent (f : list packet -> list packet) (s : disc) : disc :=
  Disc (d_conf s) (d_addr_list s) (d_nbrs s) (d_adjs s) (d_tnbrs s) (d_ifaces s) (d_pconns s)
    (d_msgcnt s) (d_peercnt s) (d_pids s) (d_lde s) (f (d_sent s)) (d_next s).

(** [calloc]: a fresh address. *)
Definition alloc : ST disc Z := fun s =>
  Ok (d_next s, Disc (d_conf s) (d_addr_list s) (d_nbrs s) (d_adjs s) (d_tnbrs s) (d_ifaces s)
    (d_pconns s) (d_msgcnt s) (d_peercnt s) (d_pids s) (d_lde s) (d_sent s) (d_next s + 1)).

(** Following pointers. *)
Definition deref {A} `{Ptr A} (sel : disc -> list A) (what : string) (p : Z) : ST disc A := fun s =>
  match find_ptr p (sel s) with
  | Some x => Ok (x, s)
  | None => Undef what
  end.
Definition get_adj : Z -> ST disc adj := deref d_adjs "adjacency was freed".
Definition get_tnbr : Z -> ST disc tnbr := deref d_tnbrs "targeted neighbour was freed".
Definition get_iface : Z -> ST disc iface := deref d_ifaces "interface was freed".
Definition get_dnbr : Z -> ST disc dnbr := deref d_nbrs "neighbour was freed".

Definition mod_adj (p : Z) (f : adj -> adj) : ST disc unit :=
  get_adj p ;;; modify (set_adjs (upd_ptr p f)).
Definition mod_tnbr (p : Z) (f : tnbr -> tnbr) : ST disc unit :=
  get_tnbr p ;;; modify (set_tnbrs (upd_ptr p f)).
Definition mod_iface (p : Z) (f : iface -> iface) : ST disc unit :=
  get_iface p ;;; modify (set_ifaces (upd_ptr p f)).
Definition mod_dnbr (p : Z) (f : dnbr -> dnbr) : ST disc unit :=
  get_dnbr p ;;; modify (set_nbrs (upd_ptr p f)).

Definition set_a_nbr (a : adj) (v : option Z) : adj :=
  Adj (a_ptr a) (a_lsr_id a) v (a_source a) (a_holdtime a) (a_trans_addr a) (a_itimer a).
Definition set_a_holdtime (a : adj) (v : Z) : adj :=
  Adj (a_ptr a) (a_lsr_id a) (a_nbr a) (a_source a) v (a_trans_addr a) (a_itimer a).
Definition set_a_itimer (a : adj) (v : option Z) : adj :=
  Adj (a_ptr a) (a_lsr_id a) (a_nbr a) (a_source a) (a_holdtime a) (a_trans_addr a) v.
Definition set_t_adj (t : tnbr) (v : option Z) : tnbr :=
  Tnbr (t_ptr t) (t_af t) (t_addr t) (t_state t) (t_pw_count t) (t_flags t) v (t_hello_timer t).
Definition set_t_state (t : tnbr) (v : Z) : tnbr :=
  Tnbr (t_ptr t) (t_af t) (t_addr t) v (t_pw_count t) (t_flags t) (t_adj t) (t_hello_timer t).
Definition set_t_flags (t : tnbr) (v : Z) : tnbr :=
  Tnbr (t_ptr t) (t_af t) (t_addr t) (t_state t) (t_pw_count t) v (t_adj t) (t_hello_timer t).
Definition set_t_hello_timer (t : tnbr) (v : option Z) : tnbr :=
  Tnbr (t_ptr t) (t_af t) (t_addr t) (t_state t) (t_pw_count t) (t_flags t) (t_adj t) v.
Definition set_dn_flags (n : dnbr) (v : Z) : dnbr :=
  Dnbr (dn_ptr n) (dn_nbr n) (dn_raddr_scope n) (dn_ds_tlv n) (dn_conf_seqnum n) v (dn_adj_list n)
    (dn_wire n) (dn_lists n).
Definition set_dn_conf_seqnum (n : dnbr) (v : Z) : dnbr :=
  Dnbr (dn_ptr n) (dn_nbr n) (dn_raddr_scope n) (dn_ds_tlv n) v (dn_flags n) (dn_adj_list n)
    (dn_wire n) (dn_lists n).
Definition set_dn_adj_list (n : dnbr) (v : list Z) : dnbr :=
  Dnbr (dn_ptr n) (dn_nbr n) (dn_raddr_scope n) (dn_ds_tlv n) (dn_conf_seqnum n) (dn_flags n) v
    (dn_wire n) (dn_lists n).
Definition set_dn_lists (n : dnbr) (v : map_lists) : dnbr :=
  Dnbr (dn_ptr n) (dn_nbr n) (dn_raddr_scope n) (dn_ds_tlv n) (dn_conf_seqnum n) (dn_flags n)
    (dn_adj_list n) (dn_wire n) v.
Definition set_ia_adj_list (ia : iface_af) (v : list Z) : iface_af :=
  IfaceAf (ia_enabled ia) (ia_state ia) v (ia_hello_timer ia) (ia_hello_holdtime ia)
    (ia_hello_interval ia).
Definition set_ia_state (ia : iface_af) (v : Z) : iface_af :=
  IfaceAf (ia_enabled ia) v (ia_adj_list ia) (ia_hello_timer ia) (ia_hello_holdtime ia)
    (ia_hello_interval ia).
Definition set_ia_hello_timer (ia : iface_af) (v : option Z) : iface_af :=
  IfaceAf (ia_enabled ia) (ia_state ia) (ia_adj_list ia) v (ia_hello_holdtime ia)
    (ia_hello_interval ia).
Definition set_if_addr_list (i : iface) (v : list if_addr) : iface :=
  Iface (if_ptr i) (if_name i) (if_ifindex i) v (if_linklocal i) (if_type i) (if_flags i) (if_ipv4 i) (if_ipv6 i).
Definition set_if_linklocal (i : iface) (v : ldpd_addr) : iface :=
  Iface (if_ptr i) (if_name i) (if_ifindex i) (if_addr_list i) v (if_type i) (if_flags i) (if_ipv4 i) (if_ipv6 i).
Definition set_if_af (i : iface) (af : Z) (v : iface_af) : iface :=
  if af =? AF_INET then
    Iface (if_ptr i) (if_name i) (if_ifindex i) (if_addr_list i) (if_linklocal i) (if_type i) (if_flags i) v
      (if_ipv6 i)
  else
    Iface (if_ptr i) (if_name i) (if_ifindex i) (if_addr_list i) (if_linklocal i) (if_type i) (if_flags i)
      (if_ipv4 i) v.

(** ** Sessions of one neighbour *)
Definition sess_conf (s : disc) : ldpe_conf :=
  let c := lc_sess (d_conf s) in
  LdpeConf (c_rtr_id c) (c_global_rtr_id c) (c_keepalive4 c) (c_keepalive6 c) (c_nbrp_list c)
    (map (fun a => (ifa_af a, ifa_addr a)) (d_addr_list s)).

Definition ldpe_of (s : disc) (n : dnbr) : ldpe :=
  Ldpe (dn_nbr n) (sess_conf s) (d_msgcnt s) (d_peercnt s) (d_pids s) (dn_wire n) (d_lde s).

Definition put_nbr (p : Z) (e : ldpe) (s : disc) : disc :=
  Disc (d_conf s) (d_addr_list s)
    (upd_ptr p (fun n => Dnbr (dn_ptr n) (e_nbr e) (dn_raddr_scope n) (dn_ds_tlv n)
       (dn_conf_seqnum n) (dn_flags n) (dn_adj_list n) (e_wire e) (dn_lists n)) (d_nbrs s))
    (d_adjs s) (d_tnbrs s) (d_ifaces s) (d_pconns s) (e_msgcnt e) (e_peercnt e) (e_pids e)
    (e_lde e) (d_sent s) (d_next s).

Definition on_nbr (p : Z) (m : ST ldpe unit) : ST disc unit :=
  do n <- get_dnbr p;
  fun s => let* r := m (ldpe_of s n) in Ok (tt, put_nbr p (snd r) s).

Definition disc_msgcnt : ST disc Z := fun s =>
  if d_msgcnt s >=? 2 ^ 31 - 1 then Undef "signed overflow of msgcnt"
  else Ok (d_msgcnt s + 1, set_msgcnt (d_msgcnt s + 1) s).

Definition conf : ST disc le_conf := fun s => Ok (d_conf s, s).

(** ** Interfaces: look-ups (interface.c) *)

(** The parameter of [if_lookup] is an [unsigned short]. *)
Definition if_lookup (s : disc) (ifindex : Z) : option iface :=
  List.find (fun i => if_ifindex i =? u16 ifindex) (d_ifaces s).

Definition iface_af_get (i : iface) (af : Z) : res iface_af :=
  if af =? AF_INET then Ok (if_ipv4 i)
  else if af =? AF_INET6 then Ok (if_ipv6 i)
  else Fatal "iface_af_get: unknown af".

(** The [iface_af] a pointer stands for, and updates through it. *)
Definition get_ia (ifp af : Z) : ST disc iface_af :=
  do i <- get_iface ifp; lift (iface_af_get i af).
Definition ia_of (i : iface) (af : Z) : iface_af := if af =? AF_INET then if_ipv4 i else if_ipv6 i.
Definition mod_ia (ifp af : Z) (f : iface_af -> iface_af) : ST disc unit :=
  get_ia ifp af ;;; mod_iface ifp (fun i => set_if_af i af (f (ia_of i af))).

Definition first_nonzero (a b : Z) : Z := if negb (a =? 0) then a else b.

Definition if_get_hello_holdtime (c : le_conf) (ia : iface_af) (af : Z) : res Z :=
  let* ac := ldp_af_conf_get c af in
  Ok (first_nonzero (ia_hello_holdtime ia)
        (first_nonzero (af_lhello_holdtime ac) (lc_lhello_holdtime c))).

Definition if_get_hello_interval (c : le_conf) (ia : iface_af) (af : Z) : res Z :=
  let* ac := ldp_af_conf_get c af in
  Ok (first_nonzero (ia_hello_interval ia)
        (first_nonzero (af_lhello_interval ac) (lc_lhello_interval c))).

Definition tnbr_get_hello_holdtime (c : le_conf) (t : tnbr) : res Z :=
  let* ac := ldp_af_conf_get c (t_af t) in
  Ok (first_nonzero (af_thello_holdtime ac) (lc_thello_holdtime c)).

Definition tnbr_get_hello_interval (c : le_conf) (t : tnbr) : res Z :=
  let* ac := ldp_af_conf_get c (t_af t) in
  Ok (first_nonzero (af_thello_interval ac) (lc_thello_interval c)).

(** ** Sending hellos (hello.c) *)

(** What [sendto] does with the packet is up to the network. *)
Definition send_packet (af : Z) (dst : ldpd_addr) (ifp : option Z) (data : list Z) : ST disc unit :=
  if (af =? AF_INET) || (af =? AF_INET6)
  then modify (set_sent (fun l => l ++ [Packet af dst ifp data]))
  else fatalx "send_packet: unknown af".

(** The arguments of [send_hello]: a link hello on an [iface_af] or a targeted
    hello to a [tnbr]. *)
Inductive hello_dst :=
| HelloLink (ifp af : Z)
| HelloTarget (t : tnbr).

Definition hello_params (d : hello_dst) : ST disc (Z * Z * Z * ldpd_addr * option Z) :=
  do c <- conf;
  match d with
  | HelloLink ifp af =>
      do ia <- get_ia ifp af;
      do holdtime <- lift (if_get_hello_holdtime c ia af);
      if af =? AF_INET then
        ret (af, holdtime,
             if negb (has_flag (af_flags (lc_ipv4 c)) F_LDPD_AF_NO_GTSM) then F_HELLO_GTSM else 0,
             lc_mcast_addr_v4 c, Some ifp)
      else if af =? AF_INET6 then ret (af, holdtime, 0, lc_mcast_addr_v6 c, Some ifp)
      else fatalx "send_hello: unknown af"
  | HelloTarget t =>
      do holdtime <- lift (tnbr_get_hello_holdtime c t);
      ret (t_af t, holdtime,
           if has_flag (t_flags t) F_TNBR_CONFIGURED || negb (t_pw_count t =? 0)
           then Z.lor F_HELLO_TARGETED F_HELLO_REQ_TARG else F_HELLO_TARGETED,
           t_addr t, None)
  end.

Definition send_hello (d : hello_dst) : ST disc unit :=
  do (af, holdtime, flags, dst, ifp) <- hello_params d;
  do c <- conf;
  do size <- lift (hello_size c af);
  do cnt <- disc_msgcnt;
  do r <- lift (gen_hello c cnt af size holdtime flags (ibuf_open size));
  if negb (fst r =? 0) then ret tt else send_packet af dst ifp (ib_data (snd r)).

(** ** Adjacencies (adjacency.c) *)
Definition adj_get_af (a : adj) : ST disc Z :=
  match a_source a with
  | SrcLink ifp af _ => get_iface ifp ;;; ret af
  | SrcTarget t => do tn <- get_tnbr t; ret (t_af tn)
  end.

Definition adj_start_itimer (p : Z) : ST disc unit :=
  mod_adj p (fun a => set_a_itimer a (Some (a_holdtime a))).
Definition adj_stop_itimer (p : Z) : ST disc unit :=
  mod_adj p (fun a => set_a_itimer a None).

Definition adj_new (lsr_id : Z) (source : hello_source) (addr : ldpd_addr) : ST disc Z :=
  do p <- alloc;
  modify (set_adjs (cons (Adj p lsr_id None source 0 addr None))) ;;;
  match source with
  | SrcLink ifp af _ => mod_ia ifp af (fun ia => set_ia_adj_list ia (p :: ia_adj_list ia))
  | SrcTarget t => mod_tnbr t (fun tn => set_t_adj tn (Some p))
  end ;;;
  ret p.

(** The address family is looked up for the log message. *)
Definition adj_del_single (p : Z) : ST disc unit :=
  do a <- get_adj p;
  adj_get_af a ;;;
  adj_stop_itimer p ;;;
  match a_nbr a with
  | Some n => mod_dnbr n (fun nb => set_dn_adj_list nb (list_remove p (dn_adj_list nb)))
  | None => ret tt
  end ;;;
  match a_source a with
  | SrcLink ifp af _ => mod_ia ifp af (fun ia => set_ia_adj_list ia (list_remove p (ia_adj_list ia)))
  | SrcTarget t => mod_tnbr t (fun tn => set_t_adj tn None)
  end ;;;
  modify (set_adjs (del_ptr p)).

(** [nbr_adj_count] (neighbor.c). *)
Fixpoint count_af (l : list Z) (af : Z) : ST disc Z :=
  match l with
  | [] => ret 0
  | p :: l' =>
      do a <- get_adj p;
      do f <- adj_get_af a;
      do k <- count_af l' af;
      ret (if f =? af then k + 1 else k)
  end.
Definition nbr_adj_count (n : dnbr) (af : Z) : ST disc Z := count_af (dn_adj_list n) af.

(** ** Creating and deleting neighbours (neighbor.c) *)
(** A difference of [uint32_t] returned as [int]. *)
Definition nbr_id_compare (a b : Z) : Z := int_of_u32 (ntohl a - ntohl b).
Definition dn_id (n : dnbr) : Z := n_id (dn_nbr n).

Definition nbr_find_ldpid (s : disc) (lsr_id : Z) : option dnbr :=
  rb_find dn_id nbr_id_compare lsr_id (d_nbrs s).

(** [RB_FIND] in nbrs_by_addr; [nbr_addr_compare] compares the family first. *)
Definition same_addr (af : Z) (a b : ldpd_addr) : bool :=
  match ldp_addrcmp af a b with Ok c => c =? 0 | _ => false end.
Definition nbr_find_addr (s : disc) (af : Z) (addr : ldpd_addr) : option dnbr :=
  List.find (fun n => (n_af (dn_nbr n) =? af) && same_addr af (n_raddr (dn_nbr n)) addr) (d_nbrs s).

Definition pending_conn_find (s : disc) (af : Z) (addr : ldpd_addr) : option pending_conn :=
  List.find (fun c => (af =? pc_af c) && same_addr af addr (pc_addr c)) (d_pconns s).

(** [TAILQ_REMOVE] of the entry [pending_conn_find] returned, the first match. *)
Fixpoint pconn_remove (af : Z) (addr : ldpd_addr) (l : list pending_conn) : list pending_conn :=
  match l with
  | [] => []
  | c :: l' =>
      if (af =? pc_af c) && same_addr af addr (pc_addr c) then l'
      else c :: pconn_remove af addr l'
  end.

Definition nbr_del (p : Z) : ST disc unit :=
  on_nbr p (nbr_fsm NBR_EVT_CLOSE_SESSION) ;;;
  on_nbr p (mod_nbr (fun n => set_n_ev_connect n false) ;;; nbr_stop_ktimer ;;; nbr_stop_ktimeout ;;;
            nbr_stop_itimeout ;;; nbr_stop_idtimer) ;;;
  do n <- get_dnbr p;
  (if negb (n_peerid (dn_nbr n) =? 0)
   then modify (set_pids (list_remove (n_peerid (dn_nbr n)))) else ret tt) ;;;
  modify (set_nbrs (del_ptr p)).

(** The loop of [nbr_new] over [global.adj_list]: adjacencies with the LSR id of
    the neighbour are linked into it.  An entry is in at most one such list. *)
Fixpoint link_adjs (l : list adj) (p lsr_id : Z) : ST disc unit :=
  match l with
  | [] => ret tt
  | a :: l' =>
      (if a_lsr_id a =? lsr_id then
         match a_nbr a with
         | Some _ => undef "adjacency is linked already"
         | None =>
             mod_adj (a_ptr a) (fun a => set_a_nbr a (Some p)) ;;;
             mod_dnbr p (fun n => set_dn_adj_list n (a_ptr a :: dn_adj_list n))
         end
       else ret tt) ;;;
      link_adjs l' p lsr_id
  end.

Definition nbr_init (id af : Z) (ds_tlv : bool) (laddr addr : ldpd_addr) : nbr :=
  Nbr 0 af ((af =? AF_INET) || ds_tlv) ((af =? AF_INET6) || ds_tlv) id laddr addr
    NBR_STA_PRESENT 0 0 0 false false (Timers None None None None).

Definition nbr_new (id af : Z) (ds_tlv : bool) (addr : ldpd_addr) (scope_id : Z) : ST disc Z :=
  do p <- alloc;
  do c <- conf;
  do ac <- lift (ldp_af_conf_get c af);
  do s <- get;
  match rb_insert dn_id nbr_id_compare
          (Dnbr p (nbr_init id af ds_tlv (af_trans_addr ac) addr) scope_id ds_tlv 0 0 [] []
             (MapLists [] [] [] []))
          (d_nbrs s) with
  | None => fatalx "nbr_new: RB_INSERT(nbrs_by_id) failed"
  | Some nbrs =>
    if bool_decide (is_Some (nbr_find_addr s af addr)) then
      fatalx "nbr_new: RB_INSERT(nbrs_by_addr) failed"
    else
    modify (set_nbrs (fun _ => nbrs)) ;;;
    link_adjs (d_adjs s) p id ;;;
    match pending_conn_find s af addr with
    | Some _ => on_nbr p session_accept_nbr ;;; modify (set_pconns (pconn_remove af addr))
    | None => ret tt
    end ;;;
    ret p
  end.

(** [adj_del]: the neighbour goes with its last adjacency of its own family. *)
Definition adj_del (p status : Z) : ST disc unit :=
  do a <- get_adj p;
  adj_del_single p ;;;
  match a_nbr a with
  | None => ret tt
  | Some n =>
      do nb <- get_dnbr n;
      do k <- nbr_adj_count nb (n_af (dn_nbr nb));
      if k =? 0 then
        foreach adj_del_single (dn_adj_list nb) ;;;
        on_nbr n (session_shutdown status 0 0) ;;;
        nbr_del n
      else ret tt
  end.

Definition adj_find (s : disc) (source : hello_source) : option adj :=
  List.find (fun a =>
    match a_source a, source with
    | SrcLink _ _ src, SrcLink _ af src' => same_addr af src src'
    | SrcTarget t, SrcTarget t' => t =? t'
    | _, _ => false
    end) (d_adjs s).

(** ** Targeted neighbours (adjacency.c) *)
Definition tnbr_new (af : Z) (addr : ldpd_addr) : ST disc tnbr :=
  do p <- alloc; ret (Tnbr p af addr TNBR_STA_DOWN 0 0 None None).

Definition tnbr_stop_hello_timer (p : Z) : ST disc unit :=
  mod_tnbr p (fun t => set_t_hello_timer t None).

Definition tnbr_del (p : Z) : ST disc unit :=
  tnbr_stop_hello_timer p ;;;
  do t <- get_tnbr p;
  match t_adj t with Some a => adj_del a S_SHUTDOWN | None => ret tt end ;;;
  get_tnbr p ;;;
  modify (set_tnbrs (del_ptr p)).

Definition tnbr_find (s : disc) (af : Z) (addr : ldpd_addr) : option tnbr :=
  List.find (fun t => (af =? t_af t) && same_addr af addr (t_addr t)) (d_tnbrs s).

(** [tnbr_check] returns whether the targeted neighbour is still there. *)
Definition tnbr_check (p : Z) : ST disc bool :=
  do t <- get_tnbr p;
  if negb (has_flag (t_flags t) (Z.lor F_TNBR_CONFIGURED F_TNBR_DYNAMIC)) && (t_pw_count t =? 0)
  then tnbr_del p ;;; ret false
  else ret true.

(** [tnbr_update] on a targeted neighbour that may not be in the list yet: the
    new state of it. *)
Definition tnbr_updated (t : tnbr) : ST disc tnbr :=
  do c <- conf;
  do ag <- lift (ldp_af_global_get c (t_af t));
  let socket_ok := negb (ag_edisc_socket ag =? -1) in
  let rtr_id_ok := negb (ldp_rtr_id_get (lc_sess c) =? INADDR_ANY) in
  if t_state t =? TNBR_STA_DOWN then
    if negb socket_ok || negb rtr_id_ok then ret t
    else
      let t := set_t_state t TNBR_STA_ACTIVE in
      send_hello (HelloTarget t) ;;;
      do secs <- lift (tnbr_get_hello_interval c t);
      ret (set_t_hello_timer t (Some secs))
  else if t_state t =? TNBR_STA_ACTIVE then
    if socket_ok && rtr_id_ok then ret t
    else ret (set_t_hello_timer (set_t_state t TNBR_STA_DOWN) None)
  else ret t.

Definition tnbr_update (p : Z) : ST disc unit :=
  do t <- get_tnbr p;
  do t' <- tnbr_updated t;
  mod_tnbr p (fun _ => t').

Definition tnbr_update_all (af : Z) : ST disc unit :=
  do s <- get;
  foreach (fun t => if (t_af t =? af) || (af =? AF_UNSPEC) then tnbr_update (t_ptr t) else ret tt)
    (d_tnbrs s).

Definition tnbr_hello_timer (p : Z) : ST disc unit :=
  mod_tnbr p (fun t => set_t_hello_timer t None) ;;;
  do t <- get_tnbr p;
  send_hello (HelloTarget t) ;;;
  do c <- conf;
  do secs <- lift (tnbr_get_hello_interval c t);
  mod_tnbr p (fun t => set_t_hello_timer t (Some secs)).

Definition S_HOLDTIME_EXP : Z := 0x80000009.
Definition S_TRANS_MISMTCH : Z := 0x80000032.
Definition S_DS_NONCMPLNCE : Z := 0x80000033.

(** The hold time of an adjacency ran out. *)
Definition adj_itimer (p : Z) : ST disc unit :=
  mod_adj p (fun a => set_a_itimer a None) ;;;
  do a <- get_adj p;
  match a_source a with
  | SrcTarget tp =>
      do t <- get_tnbr tp;
      if negb (has_flag (t_flags t) F_TNBR_CONFIGURED) && (t_pw_count t =? 0) then tnbr_del tp
      else mod_tnbr tp (fun t => set_t_adj t None) ;;; adj_del p S_HOLDTIME_EXP
  | SrcLink _ _ _ => adj_del p S_HOLDTIME_EXP
  end.

(** ** Connecting (neighbor.c)

    [conn_env]: what the system calls of [nbr_establish_connection] return. *)
Inductive conn_result := ConnDone | ConnInProgress | ConnFailed.
Record conn_env := ConnEnv {
  ce_socket_ok : bool;
  ce_bind_ok : bool;
  ce_gtsm_ok : bool;
  ce_connect : conn_result
}.

Definition hello_of_source (src : hello_source) : ST disc hello_dst :=
  match src with
  | SrcLink ifp af _ => ret (HelloLink ifp af)
  | SrcTarget t => do tn <- get_tnbr t; ret (HelloTarget tn)
  end.

Definition nbr_establish_connection (env : conn_env) (p : Z) : ST disc unit :=
  if negb (ce_socket_ok env) then ret tt
  else if negb (ce_bind_ok env) then ret tt
  else if negb (ce_gtsm_ok env) then ret tt
  else
    do n <- get_dnbr p;
    foreach (fun ap => do a <- get_adj ap; do d <- hello_of_source (a_source a); send_hello d)
      (dn_adj_list n) ;;;
    match ce_connect env with
    | ConnInProgress => on_nbr p (mod_nbr (fun n => set_n_ev_connect n true))
    | ConnFailed => ret tt
    | ConnDone => on_nbr p (nbr_fsm NBR_EVT_CONNECT_UP)
    end.

Definition nbr_pending_idtimer (n : nbr) : bool :=
  match t_initdelay_timer (n_timers n) with Some _ => true | None => false end.
Definition nbr_pending_connect (n : nbr) : bool := n_ev_connect n.

Definition nbr_idtimer (env : conn_env) (p : Z) : ST disc unit :=
  on_nbr p nbr_stop_idtimer ;;; nbr_establish_connection env p.

(** ** Receiving hellos (hello.c) *)

(** The part of [recv_hello] that finds or creates the targeted neighbour;
    [None]: the hello is ignored. *)
Definition hello_target (af flags : Z) (src : ldpd_addr) : ST disc (option Z) :=
  do s <- get;
  do found <- match tnbr_find s af src with
              | None => ret None
              | Some t =>
                  if has_flag (t_flags t) F_TNBR_DYNAMIC && negb (has_flag flags F_HELLO_REQ_TARG)
                  then
                    mod_tnbr (t_ptr t)
                      (fun t => set_t_flags t (Z.land (t_flags t) (Z.lnot F_TNBR_DYNAMIC))) ;;;
                    do still <- tnbr_check (t_ptr t);
                    ret (if still then Some (t_ptr t) else None)
                  else ret (Some (t_ptr t))
              end;
  match found with
  | Some tp => ret (Some tp)
  | None =>
      do ac <- lift (ldp_af_conf_get (d_conf s) af);
      if negb (has_flag flags F_HELLO_REQ_TARG && has_flag (af_flags ac) F_LDPD_AF_THELLO_ACCEPT)
      then ret None
      else
        do t <- tnbr_new af src;
        do t <- tnbr_updated (set_t_flags t (Z.lor (t_flags t) F_TNBR_DYNAMIC));
        modify (set_tnbrs (cons t)) ;;;
        ret (Some (t_ptr t))
  end.

(** [recv_hello] behind the decoding: what the source of the hello is. *)
Definition hello_find_source (af flags : Z) (src : ldpd_addr) (ifp : Z)
    : ST disc (option hello_source) :=
  if has_flag flags F_HELLO_TARGETED then
    if (af =? AF_INET6) && IN6_IS_SCOPE_EMBED (v6 src) then ret None
    else
      do t <- hello_target af flags src;
      ret (match t with Some tp => Some (SrcTarget tp) | None => None end)
  else
    get_ia ifp af ;;; ret (Some (SrcLink ifp af src)).

Definition other_af (af : Z) : res Z :=
  if af =? AF_INET then Ok AF_INET6
  else if af =? AF_INET6 then Ok AF_INET
  else Fatal "recv_hello: unknown af".

(** Configured or default hold time of a source. *)
Definition source_holdtime (source : hello_source) (holdtime : Z) : ST disc Z :=
  do c <- conf;
  match source with
  | SrcLink ifp af _ =>
      do ia <- get_ia ifp af;
      do mine <- lift (if_get_hello_holdtime c ia af);
      ret (Z.min mine (if holdtime =? 0 then LINK_DFLT_HOLDTIME else holdtime))
  | SrcTarget tp =>
      do t <- get_tnbr tp;
      do mine <- lift (tnbr_get_hello_holdtime c t);
      ret (Z.min mine (if holdtime =? 0 then TARGETED_DFLT_HOLDTIME else holdtime))
  end.

(** The neighbour's part: GTSM flag and configuration sequence number. *)
Definition hello_note (flags : Z) (o : hello_opts) (p : Z) : ST disc unit :=
  mod_dnbr p (fun n => set_dn_flags n
    (if has_flag flags F_HELLO_GTSM then Z.lor (dn_flags n) F_NBR_GTSM_NEGOTIATED
     else Z.land (dn_flags n) (Z.lnot F_NBR_GTSM_NEGOTIATED))) ;;;
  (if has_flag (ho_tlvs_rcvd o) F_HELLO_TLV_RCVD_CONF then
     do n <- get_dnbr p;
     (if (ho_conf_number o >? dn_conf_seqnum n) && nbr_pending_idtimer (dn_nbr n)
      then on_nbr p nbr_stop_idtimer else ret tt) ;;;
     mod_dnbr p (fun n => set_dn_conf_seqnum n (ho_conf_number o))
   else ret tt).

(** The end of [recv_hello], once the hello was accepted for the adjacency [ap]
    and (possibly) the neighbour [np]. *)
Definition hello_accepted (env : conn_env) (source : hello_source) (holdtime flags : Z)
    (o : hello_opts) (ap : Z) (np : option Z) : ST disc unit :=
  match np with None => ret tt | Some p => hello_note flags o p end ;;;
  do ht <- source_holdtime source holdtime;
  mod_adj ap (fun a => set_a_holdtime a ht) ;;;
  (if negb (ht =? INFINITE_HOLDTIME) then adj_start_itimer ap else adj_stop_itimer ap) ;;;
  match np with
  | None => ret tt
  | Some p =>
      do n <- get_dnbr p;
      do active <- lift (nbr_session_active_role (dn_nbr n));
      if (n_state (dn_nbr n) =? NBR_STA_PRESENT) && negb (nbr_pending_idtimer (dn_nbr n))
         && active && negb (nbr_pending_connect (dn_nbr n))
      then nbr_establish_connection env p else ret tt
  end.

(** The adjacency of an accepted hello, a new one if none was found. *)
Definition hello_adj (lsr_id : Z) (source : hello_source) (trans_addr : ldpd_addr)
    (a : option adj) (nb : option dnbr) : ST disc Z :=
  match a with
  | Some a => ret (a_ptr a)
  | None =>
      do p <- adj_new lsr_id source trans_addr;
      match nb with
      | Some n =>
          mod_adj p (fun a => set_a_nbr a (Some (dn_ptr n))) ;;;
          mod_dnbr (dn_ptr n) (fun n => set_dn_adj_list n (p :: dn_adj_list n))
      | None => ret tt
      end ;;;
      ret p
  end.

(** The neighbour of an accepted hello; a new one is only created for the
    preferred family. *)
Definition hello_nbr (lsr_id af : Z) (trans_addr : ldpd_addr) (scope_id : Z) (ds_tlv : bool)
    (o : hello_opts) (nb : option dnbr) : ST disc (option Z) :=
  match nb with
  | Some n => ret (Some (dn_ptr n))
  | None =>
      if negb ds_tlv || (((ho_trans_pref o =? DUAL_STACK_LDPOV4) && (af =? AF_INET))
                         || ((ho_trans_pref o =? DUAL_STACK_LDPOV6) && (af =? AF_INET6)))
      then do p <- nbr_new lsr_id af ds_tlv trans_addr scope_id; ret (Some p)
      else ret None
  end.

(** [if (adj) adj_del(adj, S_SHUTDOWN); return;] *)
Definition drop_adj (a : option adj) : ST disc unit :=
  match a with Some a => adj_del (a_ptr a) S_SHUTDOWN | None => ret tt end.

(** Is the neighbour a noncompliant dual-stack one (RFC 7552, section 6.1.1)? *)
Definition hello_noncompliant (af : Z) (ds_tlv : bool) (nb : option dnbr) : ST disc bool :=
  match nb with
  | Some n =>
      if negb ds_tlv then
        do af' <- lift (other_af af);
        do k <- nbr_adj_count n af';
        ret (k >? 0)
      else ret false
  | None => ret false
  end.

(** Does the neighbour advertise another transport address than before? *)
Definition addr_changed (af : Z) (trans_addr : ldpd_addr) (scope_id : Z) (nb : option dnbr) : bool :=
  match nb with
  | Some n => (n_af (dn_nbr n) =? af)
              && (negb (same_addr af (n_raddr (dn_nbr n)) trans_addr)
                  || negb (dn_raddr_scope n =? scope_id))
  | None => false
  end.

Definition shutdown_nbr (nb : option dnbr) (status msg_id msg_type : Z) : ST disc unit :=
  match nb with
  | Some n => on_nbr (dn_ptr n) (session_shutdown status msg_id msg_type)
  | None => ret tt
  end.

(** [recv_hello] once the source of the hello is known. *)
Definition hello_from (env : conn_env) (lsr_id msg_id msg_type af : Z) (trans_addr : ldpd_addr)
    (scope_id : Z) (source : hello_source) (holdtime flags : Z) (o : hello_opts) : ST disc unit :=
  do s <- get;
  let a := adj_find s source in
  let nb := nbr_find_ldpid s lsr_id in
  let ds_tlv := has_flag (ho_tlvs_rcvd o) F_HELLO_TLV_RCVD_DS in
  if ds_tlv && negb (ho_trans_pref o =? lc_trans_pref (d_conf s)) then
    shutdown_nbr nb S_TRANS_MISMTCH msg_id msg_type ;;; drop_adj a
  else
    do noncompliant <- hello_noncompliant af ds_tlv nb;
    if noncompliant then shutdown_nbr nb S_DS_NONCMPLNCE msg_id msg_type
    else if addr_changed af trans_addr scope_id nb then drop_adj a
    else if bool_decide (nb = None /\ is_Some (nbr_find_addr s af trans_addr)) then drop_adj a
    else
      do ap <- hello_adj lsr_id source trans_addr a nb;
      do np <- hello_nbr lsr_id af trans_addr scope_id ds_tlv o nb;
      hello_accepted env source holdtime flags o ap np.

(** [recv_hello] with the message decoded. *)
Definition hello_process (env : conn_env) (lsr_id msg_id msg_type af : Z) (src : ldpd_addr)
    (ifp ifindex holdtime flags : Z) (o : hello_opts) : ST disc unit :=
  let trans_addr := if has_flag (ho_tlvs_rcvd o) F_HELLO_TLV_RCVD_ADDR then ho_addr o else src in
  do bad <- lift (bad_addr af trans_addr);
  if negb (bad =? 0) then ret tt
  else
    let embedded := (af =? AF_INET6) && IN6_IS_SCOPE_EMBED (v6 trans_addr) in
    if embedded && has_flag flags F_HELLO_TARGETED then ret tt
    else
      do src' <- hello_find_source af flags src ifp;
      match src' with
      | None => ret tt
      | Some source =>
          hello_from env lsr_id msg_id msg_type af trans_addr (if embedded then ifindex else 0)
            source holdtime flags o
      end.

Definition recv_hello (env : conn_env) (m : disc_msg) (af : Z) (src : ldpd_addr) (i : iface)
    (multicast : bool) : ST disc unit :=
  do c <- conf;
  do r <- lift (hello_decode c af multicast (dm_body m) (dm_len m));
  match r with
  | None => ret tt
  | Some (holdtime, flags, o) =>
      hello_process env (dm_lsr_id m) (dm_id m) (dm_type m) af src (if_ptr i) (if_ifindex i)
        holdtime flags o
  end.

(** ** Receiving packets (packet.c) *)
Fixpoint link_match (i : iface) (src : ldpd_addr) (l : list if_addr) : res bool :=
  match l with
  | [] => Ok false
  | a :: l' =>
      if negb (ifa_af a =? AF_INET) then link_match i src l'
      else
        match if_type i with
        | IF_TYPE_POINTOPOINT => if v4 (ifa_dstbrd a) =? v4 src then Ok true else link_match i src l'
        | IF_TYPE_BROADCAST =>
            let* mask := prefixlen2mask (ifa_prefixlen a) in
            if Z.land (v4 (ifa_addr a)) mask =? Z.land (v4 src) mask then Ok true
            else link_match i src l'
        end
  end.

Definition disc_find_iface (s : disc) (ifindex af : Z) (src : ldpd_addr) (multicast : bool)
    : res (option iface) :=
  match if_lookup s ifindex with
  | None => Ok None
  | Some i =>
      if negb multicast then
        let* ia := iface_af_get i af in Ok (if ia_enabled ia then Some i else None)
      else if af =? AF_INET then
        let* m := link_match i src (if_addr_list i) in Ok (if m then Some i else None)
      else if af =? AF_INET6 then
        Ok (if IN6_IS_ADDR_LINKLOCAL (v6 src) then Some i else None)
      else Fatal "disc_find_iface: unknown af"
  end.

(** One datagram: its source, whether it was sent to a multicast address, and
    the interface it came in on. *)
Definition disc_recv_packet (env : conn_env) (af : Z) (src : ldpd_addr) (multicast : bool)
    (ifindex : Z) (pkt : list Z) : ST disc unit :=
  do bad <- lift (bad_addr af src);
  if negb (bad =? 0) then ret tt
  else
    do s <- get;
    do oi <- lift (disc_find_iface s ifindex af src multicast);
    match oi with
    | None => ret tt
    | Some i =>
        do om <- lift (disc_check_packet pkt);
        match om with
        | None => ret tt
        | Some m => recv_hello env m af src i multicast
        end
    end.

(** Incoming connections. *)
Definition session_accept (af : Z) (addr : ldpd_addr) : ST disc unit :=
  do s <- get;
  match nbr_find_addr s af addr with
  | None =>
      match pending_conn_find s af addr with
      | Some _ => ret tt
      | None => modify (set_pconns (fun l => l ++ [PendingConn af addr]))
      end
  | Some n =>
      do active <- lift (nbr_session_active_role (dn_nbr n));
      if active then ret tt
      else if negb (n_state (dn_nbr n) =? NBR_STA_PRESENT) then ret tt
      else on_nbr (dn_ptr n) session_accept_nbr
  end.

(** A connection nobody sent a hello for: a notification on a socket without
    neighbour (returned, as it is not part of the state). *)
Definition nbr_detached : nbr :=
  Nbr 0 AF_INET false false 0 zero_addr zero_addr NBR_STA_PRESENT 0 0 0 true false (Timers None None None None).
Definition pending_conn_timeout (c : pending_conn) : ST disc (list (list Z)) :=
  do s <- get;
  do r <- lift (send_notification S_NO_HELLO 0 0
            (Ldpe nbr_detached (sess_conf s) (d_msgcnt s) (d_peercnt s) (d_pids s) [] (d_lde s)));
  modify (set_msgcnt (e_msgcnt (snd r))) ;;;
  modify (set_pconns (pconn_remove (pc_af c) (pc_addr c))) ;;;
  ret (e_wire (snd r)).

(** ** Interfaces (interface.c) *)
Definition if_start_hello_timer (ifp af : Z) : ST disc unit :=
  do c <- conf;
  do ia <- get_ia ifp af;
  do secs <- lift (if_get_hello_interval c ia af);
  mod_ia ifp af (fun ia => set_ia_hello_timer ia (Some secs)).
Definition if_stop_hello_timer (ifp af : Z) : ST disc unit :=
  mod_ia ifp af (fun ia => set_ia_hello_timer ia None).

Definition if_hello_timer (ifp af : Z) : ST disc unit :=
  if_stop_hello_timer ifp af ;;;
  send_hello (HelloLink ifp af) ;;;
  if_start_hello_timer ifp af.

(** [join_ok]: whether joining the multicast group succeeds. *)
Definition if_start (join_ok : bool) (ifp af : Z) : ST disc unit :=
  get_ia ifp af ;;;
  if negb join_ok then ret tt
  else send_hello (HelloLink ifp af) ;;; if_start_hello_timer ifp af.

(** [while ((adj = LIST_FIRST(&ia->adj_list)) != NULL) adj_del(adj, S_SHUTDOWN);] *)
Fixpoint if_del_adjs (fuel : nat) (ifp af : Z) : ST disc unit :=
  match fuel with
  | O => nofuel
  | S f =>
      do ia <- get_ia ifp af;
      match ia_adj_list ia with
      | [] => ret tt
      | p :: _ => adj_del p S_SHUTDOWN ;;; if_del_adjs f ifp af
      end
  end.

Definition if_reset (ifp af : Z) : ST disc unit :=
  if_stop_hello_timer ifp af ;;;
  do ia <- get_ia ifp af;
  if_del_adjs (S (length (ia_adj_list ia))) ifp af.

Definition IFF_UP : Z := 0x1.
Definition IFF_RUNNING : Z := 0x40.

Definition if_update_af (join_ok : bool) (ifp af : Z) (link_ok : bool) : ST disc unit :=
  do i <- get_iface ifp;
  do ia <- get_ia ifp af;
  do c <- conf;
  do addr_ok <- (if af =? AF_INET then ret (existsb (fun a => ifa_af a =? AF_INET) (if_addr_list i))
                 else if af =? AF_INET6 then ret (IN6_IS_ADDR_LINKLOCAL (if_linklocal i))
                 else fatalx "if_update_af: unknown af");
  do ag <- lift (ldp_af_global_get c af);
  let socket_ok := negb (ag_disc_socket ag =? -1) in
  let rtr_id_ok := negb (ldp_rtr_id_get (lc_sess c) =? INADDR_ANY) in
  let ok := ia_enabled ia && link_ok && addr_ok && socket_ok && rtr_id_ok in
  if ia_state ia =? IF_STA_DOWN then
    if negb ok then ret tt
    else mod_ia ifp af (fun ia => set_ia_state ia IF_STA_ACTIVE) ;;; if_start join_ok ifp af
  else if ia_state ia =? IF_STA_ACTIVE then
    if ok then ret tt
    else mod_ia ifp af (fun ia => set_ia_state ia IF_STA_DOWN) ;;; if_reset ifp af
  else ret tt.

(** [join_ok]: the result for each family. *)
Definition if_update (join_ok : Z -> bool) (ifp af : Z) : ST disc unit :=
  do i <- get_iface ifp;
  let link_ok := has_flag (if_flags i) IFF_UP && has_flag (if_flags i) IFF_RUNNING in
  (if (af =? AF_INET) || (af =? AF_UNSPEC) then if_update_af (join_ok AF_INET) ifp AF_INET link_ok else ret tt) ;;;
  (if (af =? AF_INET6) || (af =? AF_UNSPEC) then if_update_af (join_ok AF_INET6) ifp AF_INET6 link_ok else ret tt).

(** [join_ok] of an interface by its address. *)
Definition if_update_all (join_ok : Z -> Z -> bool) (af : Z) : ST disc unit :=
  do s <- get;
  foreach (fun i => if_update (join_ok (if_ptr i)) (if_ptr i) af) (d_ifaces s).

(** What the kernel reports about an interface. *)
Record kif := Kif { kif_ifname : string; kif_ifindex : Z; kif_flags : Z }.
Definition IFF_BROADCAST : Z := 0x2.
Definition IFF_POINTOPOINT : Z := 0x10.
Definition IFF_MULTICAST : Z := 0x1000.

Definition if_update_info (k : kif) (i : iface) : iface :=
  let ty := if has_flag (kif_flags k) IFF_POINTOPOINT then IF_TYPE_POINTOPOINT else if_type i in
  let ty := if has_flag (kif_flags k) IFF_BROADCAST && has_flag (kif_flags k) IFF_MULTICAST
            then IF_TYPE_BROADCAST else ty in
  Iface (if_ptr i) (if_name i) (kif_ifindex k) (if_addr_list i) (if_linklocal i) ty (u16 (kif_flags k))
    (if_ipv4 i) (if_ipv6 i).

Definition if_new (k : kif) : ST disc iface :=
  do p <- alloc;
  let i := Iface p (kif_ifname k) 0 [] zero_addr IF_TYPE_POINTOPOINT 0 (IfaceAf false IF_STA_DOWN [] None 0 0)
             (IfaceAf false IF_STA_DOWN [] None 0 0) in
  ret (if negb (kif_ifindex k =? 0) then if_update_info k i else i).

(** [if_exit] followed by the [LIST_REMOVE] and [free] of its callers. *)
Definition if_exit (ifp : Z) : ST disc unit :=
  do i <- get_iface ifp;
  (if ia_state (if_ipv4 i) =? IF_STA_ACTIVE then if_reset ifp AF_INET else ret tt) ;;;
  do i <- get_iface ifp;
  (if ia_state (if_ipv6 i) =? IF_STA_ACTIVE then if_reset ifp AF_INET6 else ret tt) ;;;
  mod_iface ifp (fun i => set_if_addr_list i []).
Definition if_free (ifp : Z) : ST disc unit :=
  get_iface ifp ;;; modify (set_ifaces (del_ptr ifp)).

(** Addresses of the router; [struct kaddr] is an interface index with an address. *)
Record kaddr := Kaddr { ka_ifindex : Z; ka_addr : if_addr }.

Definition if_addr_lookup (l : list if_addr) (ka : if_addr) : option if_addr :=
  List.find (fun a => same_addr (ifa_af ka) (ifa_addr a) (ifa_addr ka)
                      && (ifa_prefixlen a =? ifa_prefixlen ka)
                      && same_addr (ifa_af ka) (ifa_dstbrd a) (ifa_dstbrd ka)) l.

(** [LIST_REMOVE] of the entry [if_addr_lookup] returned. *)
Fixpoint if_addr_remove (ka : if_addr) (l : list if_addr) : list if_addr :=
  match l with
  | [] => []
  | a :: l' =>
      if same_addr (ifa_af ka) (ifa_addr a) (ifa_addr ka)
         && (ifa_prefixlen a =? ifa_prefixlen ka)
         && same_addr (ifa_af ka) (ifa_dstbrd a) (ifa_dstbrd ka)
      then l' else a :: if_addr_remove ka l'
  end.

(** The loop over nbrs_by_id that announces or withdraws one address. *)
Definition announce_addr (a : if_addr) (withdraw : bool) : ST disc unit :=
  do s <- get;
  foreach (fun n =>
    if negb (n_state (dn_nbr n) =? NBR_STA_OPER) then ret tt
    else if (ifa_af a =? AF_INET) && negb (n_v4_enabled (dn_nbr n)) then ret tt
    else if (ifa_af a =? AF_INET6) && negb (n_v6_enabled (dn_nbr n)) then ret tt
    else on_nbr (dn_ptr n) (send_address nbr_fsm (ifa_af a) (Some (ifa_af a, ifa_addr a)) withdraw))
    (d_nbrs s).

Definition if_addr_add (join_ok : Z -> bool) (k : kaddr) : ST disc unit :=
  let ka := ka_addr k in
  do s <- get;
  (if bool_decide (if_addr_lookup (d_addr_list s) ka = None)
   then modify (set_addr_list (cons ka)) ;;; announce_addr ka false else ret tt) ;;;
  do s <- get;
  match if_lookup s (ka_ifindex k) with
  | None => ret tt
  | Some i =>
      (if (ifa_af ka =? AF_INET6) && IN6_IS_ADDR_LINKLOCAL (v6 (ifa_addr ka))
       then mod_iface (if_ptr i) (fun i => set_if_linklocal i (v6 (ifa_addr ka))) else ret tt) ;;;
      if bool_decide (if_addr_lookup (if_addr_list i) ka = None)
      then mod_iface (if_ptr i) (fun i => set_if_addr_list i (ka :: if_addr_list i)) ;;;
           if_update join_ok (if_ptr i) (ifa_af ka)
      else ret tt
  end.

Definition if_addr_del (join_ok : Z -> bool) (k : kaddr) : ST disc unit :=
  let ka := ka_addr k in
  do s <- get;
  match if_lookup s (ka_ifindex k) with
  | None => ret tt
  | Some i =>
      (if (ifa_af ka =? AF_INET6) && bool_decide (v6 (if_linklocal i) = v6 (ifa_addr ka))
       then mod_iface (if_ptr i) (fun i => set_if_linklocal i zero_addr) else ret tt) ;;;
      match if_addr_lookup (if_addr_list i) ka with
      | Some a =>
          mod_iface (if_ptr i) (fun i => set_if_addr_list i (if_addr_remove ka (if_addr_list i))) ;;;
          if_update join_ok (if_ptr i) (ifa_af a)
      | None => ret tt
      end
  end ;;;
  do s <- get;
  match if_addr_lookup (d_addr_list s) ka with
  | Some a => announce_addr a true ;;; modify (set_addr_list (if_addr_remove ka))
  | None => ret tt
  end.
