(* ===== verification/DiscInv.v ===== *)
(** * Discovery never follows a dangling pointer

    The invariant [disc_inv] of the discovery heap: every pointer has its
    target, the lists through the adjacencies agree with the adjacencies' own
    pointers, and every neighbour satisfies the session invariant.  Each
    operation of [Discovery] returns from such a state and keeps it. *)
From stdpp Require Import prelude strings list.
From Stdlib Require Import ZArith Lia.
From S2P Require Import Prelude Util Wire Ipc Session Fec Hello Discovery.

(** ** Stores *)
Section StoreLemmas.
Context {A : Type} `{PA : Ptr A}.
Implicit Types (l : list A) (x : A).

Definition keeps_ptr (f : A -> A) : Prop := forall x, ptr_of (f x) = ptr_of x.

Lemma find_ptr_ptr p l x : find_ptr p l = Some x -> ptr_of x = p /\ x ∈ l.
Proof.
  unfold find_ptr. intros H. apply find_some in H as [Hin He]. zbool.
  split; [done|]. by apply list_elem_of_In.
Qed.

Lemma find_ptr_cons q x l : find_ptr q (x :: l) = if ptr_of x =? q then Some x else find_ptr q l.
Proof. done. Qed.

Lemma find_ptr_upd q p f l : keeps_ptr f ->
  find_ptr q (upd_ptr p f l) = if q =? p then f <$> find_ptr q l else find_ptr q l.
Proof.
  intros Hf. induction l as [|x l IH]; [by destruct (q =? p)|].
  cbn [upd_ptr map]. fold (upd_ptr p f l). rewrite !find_ptr_cons, IH.
  destruct (q =? p) eqn:Eq; destruct (ptr_of x =? p) eqn:Ex; zbool; subst;
    rewrite ?Hf; destruct (ptr_of x =? _) eqn:E; zbool; try done; congruence.
Qed.

Lemma find_ptr_del q p l :
  find_ptr q (del_ptr p l) = if q =? p then None else find_ptr q l.
Proof.
  induction l as [|x l IH]; [by destruct (q =? p)|]. cbn [del_ptr List.filter].
  fold (del_ptr p l). destruct (ptr_of x =? p) eqn:Ex; cbn [negb]; zbool.
  - rewrite IH, find_ptr_cons. destruct (q =? p) eqn:Eq; [done|]. zbool.
    destruct (ptr_of x =? q) eqn:E; [|done]. zbool. congruence.
  - rewrite !find_ptr_cons, IH. destruct (ptr_of x =? q) eqn:E; [|done]. zbool.
    destruct (q =? p) eqn:Eq; [|done]. zbool. congruence.
Qed.

Lemma del_upd p f l : keeps_ptr f -> del_ptr p (upd_ptr p f l) = del_ptr p l.
Proof.
  intros Hf. induction l as [|x l IH]; [done|]. cbn. fold (upd_ptr p f l). fold (del_ptr p l) in *.
  fold (del_ptr p (upd_ptr p f l)). destruct (ptr_of x =? p) eqn:E; rewrite ?Hf, ?E; cbn; congruence.
Qed.

Definition ptrs l : list Z := ptr_of <$> l.

Lemma ptrs_upd p f l : keeps_ptr f -> ptrs (upd_ptr p f l) = ptrs l.
Proof.
  intros Hf. unfold ptrs, upd_ptr. induction l as [|x l IH]; [done|]. cbn.
  f_equal; [by case_match|done].
Qed.

Lemma ptrs_del p l : NoDup (ptrs l) -> NoDup (ptrs (del_ptr p l)).
Proof.
  unfold ptrs. induction l as [|x l IH]; [done|]. cbn. rewrite NoDup_cons. intros [Hx Hn].
  destruct (negb _); [|auto]. cbn. rewrite NoDup_cons. split; [|auto]. intros Hin. apply Hx.
  apply list_elem_of_fmap in Hin as (y & -> & Hy). apply list_elem_of_In, filter_In in Hy as [Hy _].
  apply list_elem_of_fmap. exists y. split; [done|]. by apply list_elem_of_In.
Qed.

Lemma ptrs_del_ptr p l : ptrs (del_ptr p l) = list_remove p (ptrs l).
Proof.
  induction l as [|x l IH]; [done|]. cbn. destruct (ptr_of x =? p) eqn:E; cbn; [done|]. by f_equal.
Qed.

Lemma find_ptr_is_some p l : is_Some (find_ptr p l) <-> p ∈ ptrs l.
Proof.
  split; [intros [x H]; unfold find_ptr in H; apply List.find_some in H as [Hin H]; apply Z.eqb_eq in H as <-;
    by apply list_elem_of_fmap_2, list_elem_of_In|].
  intros H. apply list_elem_of_fmap in H as (x & -> & H). unfold find_ptr.
  destruct (List.find _ l) eqn:E; [done|]. apply list_elem_of_In, (List.find_none _ _ E) in H.
  by rewrite Z.eqb_refl in H.
Qed.

Lemma find_ptr_in l x : NoDup (ptrs l) -> x ∈ l -> find_ptr (ptr_of x) l = Some x.
Proof.
  unfold ptrs. induction l as [|y l IH]; [set_solver|]. cbn [fmap list_fmap].
  rewrite NoDup_cons. intros [Hy Hn] Hin. rewrite find_ptr_cons.
  apply elem_of_cons in Hin as [-> | Hin]; [by rewrite Z.eqb_refl|].
  destruct (_ =? _) eqn:E; zbool; [|by apply IH].
  exfalso. apply Hy. rewrite E. by apply list_elem_of_fmap_2.
Qed.

Lemma find_ptr_none p l : find_ptr p l = None <-> p ∉ ptrs l.
Proof.
  split.
  - intros H Hin. apply list_elem_of_fmap in Hin as (x & -> & Hx). unfold find_ptr in H.
    apply list_elem_of_In in Hx. pose proof (find_none _ _ H x Hx) as Hn. cbn in Hn. zbool. done.
  - intros H. destruct (find_ptr p l) as [x|] eqn:E; [|done].
    apply find_ptr_ptr in E as [<- Hx]. exfalso. apply H. by apply list_elem_of_fmap_2.
Qed.

Lemma list_find_in (f : A -> bool) l x : List.find f l = Some x -> x ∈ l /\ f x = true.
Proof. intros H. apply find_some in H as [H ?]. split; [by apply list_elem_of_In|done]. Qed.
End StoreLemmas.
#[global] Arguments find_ptr : simpl never.
#[global] Arguments upd_ptr : simpl never.
#[global] Arguments del_ptr : simpl never.

Lemma elem_list_remove p q l : q ∈ list_remove p l <-> q ∈ l /\ q <> p.
Proof.
  unfold list_remove. rewrite !list_elem_of_In, filter_In.
  split; intros [H1 H2]; (split; [done|]); zbool; [done|]. apply negb_true_iff. by apply Z.eqb_neq.
Qed.

Lemma list_remove_id p l : p ∉ l -> list_remove p l = l.
Proof.
  induction l as [|q l IH]; [done|]. intros H. cbn. apply not_elem_of_cons in H as [H1 H2].
  destruct (q =? p) eqn:E; zbool; [congruence|]. cbn. f_equal. by apply IH.
Qed.

Lemma list_remove_sublist p l : list_remove p l `sublist_of` l.
Proof.
  induction l as [|q l IH]; [done|]. cbn. destruct (negb _); by constructor.
Qed.

Lemma NoDup_list_remove p l : NoDup l -> NoDup (list_remove p l).
Proof. intros H. eapply sublist_NoDup; [done|apply list_remove_sublist]. Qed.

(** ** Session code keeps the identity of the neighbour *)
Definition same_nbr (n n' : nbr) : Prop :=
  n_id n' = n_id n /\ n_af n' = n_af n /\ n_laddr n' = n_laddr n /\ n_raddr n' = n_raddr n.
#[export] Instance same_nbr_preorder : PreOrder same_nbr.
Proof.
  split; [by intros n|]. intros a b c (?&?&?&?) (?&?&?&?). unfold same_nbr. intuition congruence.
Qed.

Section Keeps.
Definition sess_le (e e' : ldpe) : Prop := same_nbr (e_nbr e) (e_nbr e') /\ e_msgcnt e <= e_msgcnt e'.
#[export] Instance sess_le_preorder : PreOrder sess_le.
Proof. split; [by intros e; split; [|lia]|]. intros a b c [A1 A2] [B1 B2]. split; [by etrans|lia]. Qed.

Definition keeps {A} (m : ST ldpe A) : Prop := forall e a e', m e = Ok (a, e') -> sess_le e e'.

Lemma skeeps_bind {A B} (m : ST ldpe A) (k : A -> ST ldpe B) :
  keeps m -> (forall a, keeps (k a)) -> keeps (bind m k).
Proof.
  intros Hm Hk e b e' H. apply bind_inv in H as (a & e1 & H1 & H2).
  etrans; [by eapply Hm|by eapply Hk].
Qed.
Lemma skeeps_ret {A} (a : A) : keeps (ret a).
Proof. intros e ? ? H. unfold ret in H. by simplify_eq. Qed.
Lemma skeeps_get : keeps get.
Proof. intros e ? ? H. unfold get in H. by simplify_eq. Qed.
Lemma keeps_get_nbr : keeps get_nbr.
Proof. apply skeeps_bind; [apply skeeps_get|intros; apply skeeps_ret]. Qed.
Lemma keeps_lift {A} (c : res A) : keeps (lift c).
Proof. intros e ? ? H. unfold lift in H. destruct c; by simplify_eq/=. Qed.
Lemma keeps_with_ibuf size g : keeps (with_ibuf size g).
Proof. apply keeps_lift. Qed.
Lemma keeps_mod f : (forall n, same_nbr n (f n)) -> keeps (mod_nbr f).
Proof. intros Hf e ? ? H. unfold mod_nbr, modify in H. simplify_eq. split; [apply Hf|cbn; lia]. Qed.
Lemma keeps_fatal {A} w : keeps (@fatalx ldpe A w).
Proof. intros e ? ? H. done. Qed.
Lemma keeps_nofuel {A} : keeps (@nofuel ldpe A).
Proof. intros e ? ? H. done. Qed.
Lemma keeps_imsg m : keeps (ldpe_imsg_compose_lde m).
Proof. intros e ? ? H. unfold ldpe_imsg_compose_lde, modify in H. simplify_eq. split; [done|cbn; lia]. Qed.
Lemma keeps_enqueue pdu : keeps (evbuf_enqueue pdu).
Proof. intros e ? ? H. unfold evbuf_enqueue in H. case_match; simplify_eq/=. split; [done|cbn; lia]. Qed.
Lemma keeps_msgcnt : keeps next_msgcnt.
Proof. intros e ? ? H. unfold next_msgcnt in H. case_match; simplify_eq/=. split; [done|cbn; lia]. Qed.
Lemma keeps_tcp_close : keeps tcp_close.
Proof. intros e ? ? H. unfold tcp_close in H. case_match; simplify_eq/=. split; [done|cbn; lia]. Qed.
Lemma keeps_peerid : keeps nbr_update_peerid.
Proof.
  intros e ? ? H. unfold nbr_update_peerid in H. apply bind_inv in H as (e0 & e1 & H0 & H).
  unfold get in H0. simplify_eq. apply bind_inv in H as (pid & e2 & H2 & H).
  unfold lift in H2. destruct (next_peerid _ _ _); simplify_eq/=. unfold put in H. simplify_eq. split; [done|cbn; lia].
Qed.
End Keeps.

#[export] Hint Resolve skeeps_ret skeeps_get keeps_get_nbr keeps_lift keeps_with_ibuf keeps_fatal
  keeps_nofuel keeps_imsg keeps_enqueue keeps_msgcnt keeps_tcp_close keeps_peerid : ldp.

(** Decompose session code into the steps above. *)
Ltac keeps_step :=
  lazymatch goal with
  | |- keeps (bind _ _) => apply skeeps_bind; [|intros ?]
  | |- keeps (mod_nbr _) => apply keeps_mod; intros ?; done
  | |- keeps (mod_timers _) => unfold mod_timers
  | |- keeps (match ?x with _ => _ end) => destruct x
  | |- keeps (let (_, _) := ?x in _) => destruct x
  | |- _ => solve [eauto with ldp]
  end.
Ltac keeps_solve := repeat keeps_step.

Section KeepsOps.
Lemma keeps_send_notification_full nm : keeps (send_notification_full nm).
Proof. unfold send_notification_full. keeps_solve. Qed.
Lemma keeps_send_keepalive : keeps send_keepalive.
Proof. unfold send_keepalive. keeps_solve. Qed.
Lemma keeps_send_init : keeps send_init.
Proof. unfold send_init. keeps_solve. Qed.
Lemma keeps_send_address fsm af a w : (forall ev, keeps (fsm ev)) -> keeps (send_address fsm af a w).
Proof. intros H. unfold send_address. keeps_solve. Qed.

Lemma keeps_fsm_body fsm ev : (forall ev, keeps (fsm ev)) -> keeps (nbr_fsm_body fsm ev).
Proof.
  intros H. unfold nbr_fsm_body, nbr_stop_itimeout, nbr_start_itimeout, nbr_start_ktimeout,
    nbr_start_ktimer, nbr_act_session_operational, nbr_send_labelmappings, session_close,
    nbr_stop_ktimer, nbr_stop_ktimeout, nbr_stop_itimeout.
  repeat first [apply keeps_send_address; done | apply keeps_send_init | apply keeps_send_keepalive
               | apply H | keeps_step].
Qed.

Lemma keeps_fsm_n d ev : keeps (nbr_fsm_n d ev).
Proof.
  revert ev; induction d as [|d IH]; intros ev; [apply keeps_nofuel|].
  rewrite nbr_fsm_n_S. by apply keeps_fsm_body.
Qed.
Lemma keeps_fsm ev : keeps (nbr_fsm ev).
Proof. apply keeps_fsm_n. Qed.

Lemma keeps_session_shutdown st i t : keeps (session_shutdown st i t).
Proof.
  unfold session_shutdown, send_notification_nbr, send_notification.
  repeat first [apply keeps_fsm | apply keeps_send_notification_full | keeps_step].
Qed.

Lemma keeps_run_op op : keeps (run_op op).
Proof.
  destruct op; cbn [run_op]; unfold session_accept_nbr, nbr_connect_cb, nbr_ktimer, nbr_ktimeout,
    nbr_itimeout, nbr_stop_ktimer, nbr_start_ktimer, nbr_stop_ktimeout;
    repeat first [apply keeps_fsm | apply keeps_session_shutdown | apply keeps_send_keepalive
                 | keeps_step].
Qed.
End KeepsOps.

(** ** The invariant *)
Definition af_ok (af : Z) : Prop := af = AF_INET \/ af = AF_INET6.

Definition adj_ok (s : disc) (p : Z) (a : adj) : Prop :=
  match a_nbr a with
  | Some n => exists nb, find_ptr n (d_nbrs s) = Some nb /\ p ∈ dn_adj_list nb /\
                dn_id nb = a_lsr_id a
  | None => forall n nb, find_ptr n (d_nbrs s) = Some nb -> dn_id nb <> a_lsr_id a
  end /\
  match a_source a with
  | SrcLink ifp af _ => af_ok af /\ exists i, find_ptr ifp (d_ifaces s) = Some i /\
                          p ∈ ia_adj_list (ia_of i af)
  | SrcTarget t => exists tn, find_ptr t (d_tnbrs s) = Some tn /\ t_adj tn = Some p
  end.

Definition nbr_ok (s : disc) (n : Z) (nb : dnbr) : Prop :=
  nbr_inv (dn_nbr nb) /\ is_u 32 (dn_id nb) /\ NoDup (dn_adj_list nb) /\
  forall p, p ∈ dn_adj_list nb -> exists a, find_ptr p (d_adjs s) = Some a /\ a_nbr a = Some n.

Definition tnbr_ok (s : disc) (t : Z) (tn : tnbr) : Prop :=
  af_ok (t_af tn) /\
  forall p, t_adj tn = Some p -> exists a, find_ptr p (d_adjs s) = Some a /\ a_source a = SrcTarget t.

Definition iface_ok (s : disc) (ifp : Z) (i : iface) : Prop :=
  forall af, af_ok af -> NoDup (ia_adj_list (ia_of i af)) /\
    forall p, p ∈ ia_adj_list (ia_of i af) ->
      exists a src, find_ptr p (d_adjs s) = Some a /\ a_source a = SrcLink ifp af src.

Definition store_ok {A} `{Ptr A} (next : Z) (l : list A) : Prop :=
  NoDup (ptrs l) /\ forall p, p ∈ ptrs l -> p < next.

(** The kernel reports prefix lengths within the address. *)
Definition plen_ok (a : if_addr) : Prop := ifa_af a = AF_INET -> 0 <= ifa_prefixlen a <= 32.

Record disc_inv (s : disc) : Prop := DiscInv {
  di_nbrs : store_ok (d_next s) (d_nbrs s);
  di_adjs : store_ok (d_next s) (d_adjs s);
  di_tnbrs : store_ok (d_next s) (d_tnbrs s);
  di_ifaces : store_ok (d_next s) (d_ifaces s);
  di_adj : forall p a, find_ptr p (d_adjs s) = Some a -> adj_ok s p a;
  di_nbr : forall n nb, find_ptr n (d_nbrs s) = Some nb -> nbr_ok s n nb;
  di_tnbr : forall t tn, find_ptr t (d_tnbrs s) = Some tn -> tnbr_ok s t tn;
  di_iface : forall ifp i, find_ptr ifp (d_ifaces s) = Some i -> iface_ok s ifp i;
  di_plen : forall ifp i, find_ptr ifp (d_ifaces s) = Some i -> Forall plen_ok (if_addr_list i);
  di_cnt : 0 <= d_msgcnt s
}.

Section Setters.
Lemma store_ok_upd {A} `{Ptr A} next p f l : keeps_ptr f -> store_ok next l ->
  store_ok next (upd_ptr p f l).
Proof. intros Hf [H1 H2]. unfold store_ok. by rewrite ptrs_upd. Qed.

Lemma store_ok_del {A} `{Ptr A} next p (l : list A) : store_ok next l -> store_ok next (del_ptr p l).
Proof.
  intros [H1 H2]. split; [by apply ptrs_del|]. intros q Hq. apply H2.
  apply list_elem_of_fmap in Hq as (x & -> & Hx). apply list_elem_of_fmap_2.
  apply list_elem_of_In, filter_In in Hx as [Hx _]. by apply list_elem_of_In.
Qed.

Lemma store_ok_find {A} `{Ptr A} next p (l : list A) x :
  store_ok next l -> find_ptr p l = Some x -> p < next.
Proof.
  intros [_ H2] Hf. apply find_ptr_ptr in Hf as [<- Hx]. apply H2. by apply list_elem_of_fmap_2.
Qed.

Lemma store_ok_cons {A} `{Ptr A} next x (l : list A) :
  ptr_of x = next -> store_ok next l -> store_ok (next + 1) (x :: l).
Proof.
  intros Hx [H1 H2]. split; cbn.
  - apply NoDup_cons. split; [|done]. intros Hin. apply H2 in Hin. lia.
  - intros p Hp. apply elem_of_cons in Hp as [-> | Hp]; [lia|]. apply H2 in Hp. lia.
Qed.

Lemma store_ok_mono {A} `{Ptr A} next next' (l : list A) :
  next <= next' -> store_ok next l -> store_ok next' l.
Proof. intros Hle [H1 H2]. split; [done|]. intros p Hp. apply H2 in Hp. lia. Qed.

Lemma ia_of_set i af af' v : af_ok af -> af_ok af' ->
  ia_of (set_if_af i af v) af' = if af' =? af then v else ia_of i af'.
Proof. intros [-> | ->] [-> | ->]; done. Qed.

Lemma iface_af_get_ok i af : af_ok af -> iface_af_get i af = Ok (ia_of i af).
Proof. by intros [-> | ->]. Qed.

Lemma keeps_set_if_af af f : keeps_ptr (fun i => set_if_af i af (f i)).
Proof. intros i. unfold set_if_af. by case_match. Qed.
End Setters.

(** ** Running heap operations *)
Section Run.
Implicit Types s : disc.

Lemma get_adj_ok s p a : find_ptr p (d_adjs s) = Some a -> get_adj p s = Ok (a, s).
Proof. intros H. unfold get_adj, deref. by rewrite H. Qed.
Lemma get_tnbr_ok s p t : find_ptr p (d_tnbrs s) = Some t -> get_tnbr p s = Ok (t, s).
Proof. intros H. unfold get_tnbr, deref. by rewrite H. Qed.
Lemma get_iface_ok s p i : find_ptr p (d_ifaces s) = Some i -> get_iface p s = Ok (i, s).
Proof. intros H. unfold get_iface, deref. by rewrite H. Qed.
Lemma get_dnbr_ok s p n : find_ptr p (d_nbrs s) = Some n -> get_dnbr p s = Ok (n, s).
Proof. intros H. unfold get_dnbr, deref. by rewrite H. Qed.

Lemma mod_adj_ok s p a f : find_ptr p (d_adjs s) = Some a ->
  mod_adj p f s = Ok (tt, set_adjs (upd_ptr p f) s).
Proof. intros H. unfold mod_adj. by rewrite (bind_ok _ _ _ _ _ (get_adj_ok _ _ _ H)). Qed.
Lemma mod_tnbr_ok s p t f : find_ptr p (d_tnbrs s) = Some t ->
  mod_tnbr p f s = Ok (tt, set_tnbrs (upd_ptr p f) s).
Proof. intros H. unfold mod_tnbr. by rewrite (bind_ok _ _ _ _ _ (get_tnbr_ok _ _ _ H)). Qed.
Lemma mod_iface_ok s p i f : find_ptr p (d_ifaces s) = Some i ->
  mod_iface p f s = Ok (tt, set_ifaces (upd_ptr p f) s).
Proof. intros H. unfold mod_iface. by rewrite (bind_ok _ _ _ _ _ (get_iface_ok _ _ _ H)). Qed.
Lemma mod_dnbr_ok s p n f : find_ptr p (d_nbrs s) = Some n ->
  mod_dnbr p f s = Ok (tt, set_nbrs (upd_ptr p f) s).
Proof. intros H. unfold mod_dnbr. by rewrite (bind_ok _ _ _ _ _ (get_dnbr_ok _ _ _ H)). Qed.

Lemma get_ia_ok s p af i : find_ptr p (d_ifaces s) = Some i -> af_ok af ->
  get_ia p af s = Ok (ia_of i af, s).
Proof.
  intros H Ha. unfold get_ia. rewrite (bind_ok _ _ _ _ _ (get_iface_ok _ _ _ H)).
  unfold lift. by rewrite iface_af_get_ok.
Qed.

Definition ia_upd (af : Z) (f : iface_af -> iface_af) (i : iface) : iface :=
  set_if_af i af (f (ia_of i af)).

Lemma mod_ia_ok s p af i f : find_ptr p (d_ifaces s) = Some i -> af_ok af ->
  mod_ia p af f s = Ok (tt, set_ifaces (upd_ptr p (ia_upd af f)) s).
Proof.
  intros H Ha. unfold mod_ia. rewrite (bind_ok _ _ _ _ _ (get_ia_ok _ _ _ _ H Ha)).
  by rewrite (mod_iface_ok _ _ _ _ H).
Qed.
End Run.

(** ** Deleting one adjacency *)
Definition drop_ia (p : Z) (ia : iface_af) : iface_af :=
  set_ia_adj_list ia (list_remove p (ia_adj_list ia)).
Definition drop_nb (p : Z) (nb : dnbr) : dnbr := set_dn_adj_list nb (list_remove p (dn_adj_list nb)).
Definition drop_t (t : tnbr) : tnbr := set_t_adj t None.

Definition unlink_nbr (p : Z) (a : adj) (s : disc) : disc :=
  match a_nbr a with Some n => set_nbrs (upd_ptr n (drop_nb p)) s | None => s end.
Definition unlink_src (p : Z) (a : adj) (s : disc) : disc :=
  match a_source a with
  | SrcLink ifp af _ => set_ifaces (upd_ptr ifp (ia_upd af (drop_ia p))) s
  | SrcTarget t => set_tnbrs (upd_ptr t drop_t) s
  end.
Definition adj_removed (p : Z) (a : adj) (s : disc) : disc :=
  set_adjs (del_ptr p) (unlink_src p a (unlink_nbr p a s)).

Section DelSingle.
Lemma keeps_drop_nb p : keeps_ptr (drop_nb p). Proof. done. Qed.
Lemma keeps_drop_t : keeps_ptr drop_t. Proof. done. Qed.
Lemma keeps_ia_upd af f : keeps_ptr (ia_upd af f).
Proof. apply keeps_set_if_af. Qed.

Lemma adj_get_af_ok s p a : adj_ok s p a -> (forall t tn, find_ptr t (d_tnbrs s) = Some tn -> af_ok (t_af tn)) ->
  exists af, af_ok af /\ adj_get_af a s = Ok (af, s).
Proof.
  intros [_ H] Ht. unfold adj_get_af. destruct (a_source a) as [ifp af src|t].
  - destruct H as (Haf & i & Hi & _). rewrite (bind_ok _ _ _ _ _ (get_iface_ok _ _ _ Hi)). by exists af.
  - destruct H as (tn & Htn & _). rewrite (bind_ok _ _ _ _ _ (get_tnbr_ok _ _ _ Htn)).
    exists (t_af tn). split; [by eapply Ht|done].
Qed.

Lemma inv_adj_af s p a : disc_inv s -> find_ptr p (d_adjs s) = Some a ->
  exists af, af_ok af /\ adj_get_af a s = Ok (af, s).
Proof.
  intros I Ha. eapply adj_get_af_ok; [by eapply di_adj|].
  intros t tn Ht. by apply (di_tnbr _ I) in Ht as [? _].
Qed.

Lemma adj_del_single_ok s p a : disc_inv s -> find_ptr p (d_adjs s) = Some a ->
  adj_del_single p s = Ok (tt, adj_removed p a s).
Proof.
  intros I Ha. destruct (inv_adj_af s p a I Ha) as (af & _ & Eaf).
  pose proof (di_adj _ I _ _ Ha) as [Hn Hs].
  unfold adj_del_single. rewrite (bind_ok _ _ _ _ _ (get_adj_ok _ _ _ Ha)).
  rewrite (bind_ok _ _ _ _ _ Eaf). unfold adj_stop_itimer.
  rewrite (bind_ok _ _ _ _ _ (mod_adj_ok _ _ _ _ Ha)).
  set (s1 := set_adjs _ s).
  assert ((match a_nbr a with Some n => mod_dnbr n (drop_nb p) | None => ret tt end) s1
          = Ok (tt, unlink_nbr p a s1)) as E1.
  { unfold unlink_nbr. destruct (a_nbr a) as [n|]; [|done]. destruct Hn as (nb & Hnb & _).
    by rewrite (mod_dnbr_ok s1 n nb). }
  unfold drop_nb at 1 in E1. rewrite (bind_ok _ _ _ _ _ E1). set (s2 := unlink_nbr p a s1).
  assert ((match a_source a with
           | SrcLink ifp af _ => mod_ia ifp af (drop_ia p)
           | SrcTarget t => mod_tnbr t drop_t
           end) s2 = Ok (tt, unlink_src p a s2)) as E2.
  { assert (d_ifaces s2 = d_ifaces s /\ d_tnbrs s2 = d_tnbrs s) as [Hi2 Ht2]
      by (unfold s2, s1, unlink_nbr; by destruct (a_nbr a)).
    unfold unlink_src. destruct (a_source a) as [ifp f src|t].
    - destruct Hs as (Haf & i & Hi & _). apply (mod_ia_ok s2 ifp f i); [by rewrite Hi2|done].
    - destruct Hs as (tn & Htn & _). apply (mod_tnbr_ok s2 t tn). by rewrite Ht2. }
  unfold drop_ia at 1, drop_t at 1 in E2. rewrite (bind_ok _ _ _ _ _ E2). unfold modify. do 2 f_equal.
  unfold adj_removed, s2, s1, unlink_src, unlink_nbr, set_adjs, set_nbrs, set_tnbrs, set_ifaces.
  destruct (a_nbr a), (a_source a); cbn; f_equal; by apply del_upd.
Qed.

(** Look-ups after the deletion. *)
Lemma removed_adjs s p a q :
  find_ptr q (d_adjs (adj_removed p a s)) = if q =? p then None else find_ptr q (d_adjs s).
Proof.
  unfold adj_removed, unlink_src, unlink_nbr. destruct (a_source a), (a_nbr a); cbn;
    apply find_ptr_del.
Qed.

Lemma removed_nbrs s p a n :
  find_ptr n (d_nbrs (adj_removed p a s))
  = match a_nbr a with
    | Some m => if n =? m then drop_nb p <$> find_ptr n (d_nbrs s) else find_ptr n (d_nbrs s)
    | None => find_ptr n (d_nbrs s)
    end.
Proof.
  unfold adj_removed, unlink_src, unlink_nbr.
  destruct (a_source a), (a_nbr a) as [m|]; cbn; by rewrite ?find_ptr_upd by apply keeps_drop_nb.
Qed.

Lemma removed_tnbrs s p a t :
  find_ptr t (d_tnbrs (adj_removed p a s))
  = match a_source a with
    | SrcTarget u => if t =? u then drop_t <$> find_ptr t (d_tnbrs s) else find_ptr t (d_tnbrs s)
    | SrcLink _ _ _ => find_ptr t (d_tnbrs s)
    end.
Proof.
  unfold adj_removed, unlink_src, unlink_nbr.
  destruct (a_source a), (a_nbr a); cbn; by rewrite ?find_ptr_upd by apply keeps_drop_t.
Qed.

Lemma removed_ifaces s p a ifp :
  find_ptr ifp (d_ifaces (adj_removed p a s))
  = match a_source a with
    | SrcLink q af _ => if ifp =? q then ia_upd af (drop_ia p) <$> find_ptr ifp (d_ifaces s)
                        else find_ptr ifp (d_ifaces s)
    | SrcTarget _ => find_ptr ifp (d_ifaces s)
    end.
Proof.
  unfold adj_removed, unlink_src, unlink_nbr.
  destruct (a_source a), (a_nbr a); cbn; by rewrite ?find_ptr_upd by apply keeps_ia_upd.
Qed.

Lemma removed_adj_ok s p a : disc_inv s -> find_ptr p (d_adjs s) = Some a ->
  forall q b, find_ptr q (d_adjs (adj_removed p a s)) = Some b ->
  adj_ok (adj_removed p a s) q b.
Proof.
  intros I Ha. pose proof (di_adj _ I _ _ Ha) as [Hn Hs].
  intros q b Hq. rewrite removed_adjs in Hq. destruct (q =? p) eqn:E; [done|]. zbool.
  pose proof (di_adj _ I _ _ Hq) as [Hbn Hbs]. split.
  + destruct (a_nbr b) as [n|].
    * destruct Hbn as (nb & Hnb & Hin & Hid). rewrite removed_nbrs, Hnb.
      destruct (a_nbr a) as [m|]; [|by eauto]. destruct (n =? m); [|by eauto].
      eexists. split; [done|]. split; [|done]. cbn. by apply elem_list_remove.
    * intros n nb Hnb. rewrite removed_nbrs in Hnb.
      destruct (find_ptr n (d_nbrs s)) as [nb0|] eqn:E0; [|by destruct (a_nbr a); [case_match|]].
      specialize (Hbn n nb0 E0).
      destruct (a_nbr a); [case_match|]; by simplify_eq/=.
  + destruct (a_source b) as [ifp af src|t].
    * destruct Hbs as (Haf & i & Hi & Hin). split; [done|]. rewrite removed_ifaces, Hi.
      destruct (a_source a) as [q2 af2 src2|]; [|by eauto]. destruct (ifp =? q2); [|by eauto].
      eexists. split; [done|]. unfold ia_upd. rewrite ia_of_set; [|by destruct Hs|done].
      destruct (af =? af2) eqn:E3; zbool; [subst|done]. cbn. by apply elem_list_remove.
    * destruct Hbs as (tn & Htn & Hadj). rewrite removed_tnbrs, Htn.
      destruct (a_source a) as [|u]; [by eauto|]. destruct (t =? u) eqn:E2; [|by eauto]. zbool. subst.
      destruct Hs as (tn' & Htn' & Hadj'). congruence.
Qed.

Lemma removed_nbr_ok s p a : disc_inv s -> find_ptr p (d_adjs s) = Some a ->
  forall n nb, find_ptr n (d_nbrs (adj_removed p a s)) = Some nb ->
  nbr_ok (adj_removed p a s) n nb.
Proof.
  intros I Ha. pose proof (di_adj _ I _ _ Ha) as [Hn Hs].
  intros n nb Hnb. rewrite removed_nbrs in Hnb.
  assert (exists nb0, find_ptr n (d_nbrs s) = Some nb0 /\ dn_nbr nb = dn_nbr nb0 /\
    (dn_adj_list nb = dn_adj_list nb0 /\ a_nbr a <> Some n \/
     dn_adj_list nb = list_remove p (dn_adj_list nb0))) as (nb0 & H0 & Hd & Hl).
  { destruct (a_nbr a) as [m|]; [destruct (n =? m) eqn:E; zbool; subst|]; eauto.
    - destruct (find_ptr m (d_nbrs s)) as [x|]; simplify_eq/=. eauto 10.
    - exists nb. split_and!; try done. left. split; [done|congruence].
    - exists nb. split_and!; try done. by left. }
  destruct (di_nbr _ I _ _ H0) as (H1 & H2 & H3 & H4). unfold nbr_ok, dn_id. rewrite Hd.
  split_and!; [done|done| |].
  + destruct Hl as [[-> _] | ->]; [done|by apply NoDup_list_remove].
  + intros q Hq. rewrite removed_adjs.
    assert (q ∈ dn_adj_list nb0 /\ q <> p) as [Hq0 Hqp].
    { destruct Hl as [[Hl Hne] | Hl]; rewrite Hl in Hq; [|by apply elem_list_remove].
      split; [done|]. intros ->. destruct (H4 _ Hq) as (a' & Ha' & Hn'). congruence. }
    destruct (H4 _ Hq0) as (b & Hb & Hbn). apply Z.eqb_neq in Hqp as ->. eauto.
Qed.

Lemma removed_tnbr_ok s p a : disc_inv s -> find_ptr p (d_adjs s) = Some a ->
  forall t tn, find_ptr t (d_tnbrs (adj_removed p a s)) = Some tn ->
  tnbr_ok (adj_removed p a s) t tn.
Proof.
  intros I Ha. pose proof (di_adj _ I _ _ Ha) as [Hn Hs].
  intros t tn Ht. rewrite removed_tnbrs in Ht.
  assert (exists tn0, find_ptr t (d_tnbrs s) = Some tn0 /\ t_af tn = t_af tn0 /\
    (t_adj tn = None \/ t_adj tn = t_adj tn0 /\ a_source a <> SrcTarget t)) as (tn0 & H0 & Haf & Hadj).
  { destruct (a_source a) as [|u]; [exists tn; split_and!; try done; by right|].
    destruct (t =? u) eqn:E; zbool; subst.
    - destruct (find_ptr u (d_tnbrs s)) as [x|]; simplify_eq/=. eauto.
    - exists tn. split_and!; try done. right. split; [done|congruence]. }
  destruct (di_tnbr _ I _ _ H0) as [H1 H2]. split; [by rewrite Haf|].
  intros q Hq. destruct Hadj as [Hadj | [Hadj Hne]]; [congruence|]. rewrite Hadj in Hq.
  destruct (H2 _ Hq) as (b & Hb & Hbs). rewrite removed_adjs.
  destruct (q =? p) eqn:E; zbool; [subst; congruence|]. eauto.
Qed.

Lemma removed_iface_ok s p a : disc_inv s -> find_ptr p (d_adjs s) = Some a ->
  forall ifp i, find_ptr ifp (d_ifaces (adj_removed p a s)) = Some i ->
  iface_ok (adj_removed p a s) ifp i.
Proof.
  intros I Ha. pose proof (di_adj _ I _ _ Ha) as [Hn Hs].
  intros ifp i Hi af Haf. rewrite removed_ifaces in Hi.
  assert (exists i0, find_ptr ifp (d_ifaces s) = Some i0 /\
    (ia_adj_list (ia_of i af) = list_remove p (ia_adj_list (ia_of i0 af)) \/
     ia_adj_list (ia_of i af) = ia_adj_list (ia_of i0 af) /\
     forall src, a_source a <> SrcLink ifp af src)) as (i0 & H0 & Hl).
  { destruct (a_source a) as [q af2 src2|u].
    - destruct (ifp =? q) eqn:E; zbool; subst.
      + destruct (find_ptr q (d_ifaces s)) as [x|]; simplify_eq/=. exists x. split; [done|].
        unfold ia_upd. rewrite ia_of_set by (done || by destruct Hs). destruct (af =? af2) eqn:E3; zbool.
        * subst. by left.
        * right. split; [done|]. intros src. congruence.
      + exists i. split; [done|]. right. split; [done|]. intros src. congruence.
    - exists i. split; [done|]. by right. }
  destruct (di_iface _ I _ _ H0 af Haf) as [H1 H2]. split.
  + destruct Hl as [-> | [-> _]]; [by apply NoDup_list_remove|done].
  + intros q Hq. rewrite removed_adjs.
    assert (q ∈ ia_adj_list (ia_of i0 af) /\ q <> p) as [Hq0 Hqp].
    { destruct Hl as [Hl | [Hl Hne]]; rewrite Hl in Hq; [by apply elem_list_remove|].
      split; [done|]. intros ->. destruct (H2 _ Hq) as (b & src & Hb & Hbs). rewrite Ha in Hb.
      simplify_eq. by apply (Hne src). }
    apply Z.eqb_neq in Hqp as ->. by apply H2.
Qed.

Lemma removed_plen s p a : disc_inv s -> forall ifp i,
  find_ptr ifp (d_ifaces (adj_removed p a s)) = Some i -> Forall plen_ok (if_addr_list i).
Proof.
  intros I ifp i. rewrite removed_ifaces. destruct (a_source a) as [q af src|]; [|apply (di_plen _ I)].
  destruct (ifp =? q); [|apply (di_plen _ I)].
  destruct (find_ptr ifp (d_ifaces s)) as [j|] eqn:E; [|done]. intros [= <-].
  apply (di_plen _ I) in E. unfold ia_upd, set_if_af. by destruct (af =? AF_INET).
Qed.

Lemma removed_inv s p a : disc_inv s -> find_ptr p (d_adjs s) = Some a ->
  disc_inv (adj_removed p a s).
Proof.
  intros I Ha. split; [| | | |by apply removed_adj_ok|by apply removed_nbr_ok
    |by apply removed_tnbr_ok|by apply removed_iface_ok|by apply removed_plen|];
    unfold adj_removed, unlink_src, unlink_nbr; destruct (a_source a), (a_nbr a); cbn;
    try apply store_ok_upd; try apply store_ok_del; try done; try apply keeps_ia_upd; apply I.
Qed.
End DelSingle.

(** ** Session steps of one neighbour *)
Definition with_sess (e : ldpe) (n : dnbr) : dnbr :=
  Dnbr (dn_ptr n) (e_nbr e) (dn_raddr_scope n) (dn_ds_tlv n) (dn_conf_seqnum n) (dn_flags n)
    (dn_adj_list n) (e_wire e) (dn_lists n).

Section Sess.
Lemma on_nbr_ok s p nb m e : find_ptr p (d_nbrs s) = Some nb -> m (ldpe_of s nb) = Ok (tt, e) ->
  on_nbr p m s = Ok (tt, put_nbr p e s).
Proof.
  intros Hn Hm. unfold on_nbr. rewrite (bind_ok _ _ _ _ _ (get_dnbr_ok _ _ _ Hn)). by rewrite Hm.
Qed.

Lemma put_nbrs p e s n :
  find_ptr n (d_nbrs (put_nbr p e s))
  = if n =? p then with_sess e <$> find_ptr n (d_nbrs s) else find_ptr n (d_nbrs s).
Proof. unfold put_nbr. cbn. by rewrite find_ptr_upd. Qed.

(** Changing a neighbour in place. *)
Lemma upd_nbr_inv s p nb f : disc_inv s -> find_ptr p (d_nbrs s) = Some nb -> keeps_ptr f ->
  nbr_inv (dn_nbr (f nb)) -> dn_id (f nb) = dn_id nb -> dn_adj_list (f nb) = dn_adj_list nb ->
  disc_inv (set_nbrs (upd_ptr p f) s).
Proof.
  intros I Hp Hf He Hid Hadj.
  assert (forall n nb0, find_ptr n (d_nbrs s) = Some nb0 -> exists nb',
    find_ptr n (upd_ptr p f (d_nbrs s)) = Some nb' /\ dn_id nb' = dn_id nb0 /\
    dn_adj_list nb' = dn_adj_list nb0 /\ nbr_inv (dn_nbr nb')) as Hfwd.
  { intros n nb0 Hn. rewrite find_ptr_upd, Hn by done. destruct (n =? p) eqn:E; zbool.
    - subst. rewrite Hp in Hn. simplify_eq/=. by eexists.
    - exists nb0. split_and!; try done. by apply (di_nbr _ I) in Hn as [? _]. }
  assert (forall n nb', find_ptr n (upd_ptr p f (d_nbrs s)) = Some nb' ->
    exists nb0, find_ptr n (d_nbrs s) = Some nb0 /\ dn_id nb' = dn_id nb0 /\
      dn_adj_list nb' = dn_adj_list nb0 /\ nbr_inv (dn_nbr nb')) as Hback.
  { intros n nb' Hn. destruct (find_ptr n (d_nbrs s)) as [nb0|] eqn:E0.
    - destruct (Hfwd _ _ E0) as (nb2 & H2 & ? & ? & ?). exists nb0. rewrite Hn in H2. by simplify_eq.
    - rewrite find_ptr_upd, E0 in Hn by done. by destruct (n =? p). }
  split; try apply I; [by apply store_ok_upd, I|..].
  - intros q a Hq. destruct (di_adj _ I _ _ Hq) as [H1 H2]. split; [|done].
    destruct (a_nbr a) as [n|].
    + destruct H1 as (nb0 & H1 & Hin & Hi). destruct (Hfwd _ _ H1) as (nb' & ? & Hi' & Hl & _).
      exists nb'. rewrite Hi', Hl. done.
    + intros n nb' Hn. destruct (Hback _ _ Hn) as (nb0 & H0 & -> & _). by apply (H1 n).
  - intros n nb' Hn. destruct (Hback _ _ Hn) as (nb0 & H0 & Hi & Hl & Hv).
    destruct (di_nbr _ I _ _ H0) as (_ & H2 & H3 & H4). unfold nbr_ok. rewrite Hi, Hl. done.
Qed.

Lemma put_nbr_inv s p nb e : disc_inv s -> find_ptr p (d_nbrs s) = Some nb ->
  nbr_inv (e_nbr e) -> same_nbr (dn_nbr nb) (e_nbr e) -> 0 <= e_msgcnt e -> disc_inv (put_nbr p e s).
Proof.
  intros I Hp He (Hid & _) Hc.
  assert (keeps_ptr (with_sess e)) as Hk by done.
  destruct (upd_nbr_inv s p nb (with_sess e) I Hp Hk He Hid eq_refl). by split.
Qed.

(** An operation on the session of [p]. *)
Lemma on_nbr_safe s p nb m k (Q : ldpe -> Prop) :
  disc_inv s -> find_ptr p (d_nbrs s) = Some nb -> keeps m ->
  wp m (fun e => nbr_inv (e_nbr e) /\ d_msgcnt s <= e_msgcnt e <= d_msgcnt s + k /\ Q e) (ldpe_of s nb) ->
  exists e, on_nbr p m s = Ok (tt, put_nbr p e s) /\ disc_inv (put_nbr p e s) /\
    d_msgcnt s <= e_msgcnt e <= d_msgcnt s + k /\ Q e /\ same_nbr (dn_nbr nb) (e_nbr e).
Proof.
  intros I Hp Hk Hw. apply wp_elim in Hw as (e & He & Hinv & Hc & HQ).
  destruct (Hk _ _ _ He) as [Hs _]. pose proof (di_cnt _ I).
  exists e. split; [by eapply on_nbr_ok|]. split; [|done]. eapply put_nbr_inv; eauto. lia.
Qed.
End Sess.

(** ** Neighbours without adjacencies can go *)
Section NbrDel.
Lemma set_pids_inv f s : disc_inv s -> disc_inv (set_pids f s).
Proof. by intros []. Qed.

Lemma del_nbr_inv s p nb : disc_inv s -> find_ptr p (d_nbrs s) = Some nb -> dn_adj_list nb = [] ->
  disc_inv (set_nbrs (del_ptr p) s).
Proof.
  intros I Hp Hnil. split; try apply I; [apply store_ok_del, I| |].
  - intros q a Hq. destruct (di_adj _ I _ _ Hq) as [H1 H2]. split; [|done]. cbn.
    destruct (a_nbr a) as [n|].
    + destruct H1 as (nb0 & H1 & Hin & Hi). rewrite find_ptr_del.
      destruct (n =? p) eqn:E; zbool; [|by eauto]. subst. rewrite Hp in H1. simplify_eq.
      rewrite Hnil in Hin. set_solver.
    + intros n nb'. rewrite find_ptr_del. destruct (n =? p); [done|]. apply H1.
  - intros n nb'. cbn. rewrite find_ptr_del. destruct (n =? p); [done|]. intros Hn. by apply (di_nbr _ I).
Qed.

Lemma keeps_nbr_stops : keeps (mod_nbr (fun n => set_n_ev_connect n false) ;;; nbr_stop_ktimer ;;;
  nbr_stop_ktimeout ;;; nbr_stop_itimeout ;;; nbr_stop_idtimer).
Proof. unfold nbr_stop_ktimer, nbr_stop_ktimeout, nbr_stop_itimeout, nbr_stop_idtimer. keeps_solve. Qed.

(** What deleting a neighbour leaves alone. *)
Record same_heap (s s' : disc) : Prop := SameHeap {
  hp_conf : d_conf s' = d_conf s;
  hp_addr : d_addr_list s' = d_addr_list s;
  hp_adjs : d_adjs s' = d_adjs s;
  hp_tnbrs : d_tnbrs s' = d_tnbrs s;
  hp_ifaces : d_ifaces s' = d_ifaces s;
  hp_pconns : d_pconns s' = d_pconns s;
  hp_sent : d_sent s' = d_sent s;
  hp_next : d_next s' = d_next s
}.
#[local] Instance same_heap_preorder : PreOrder same_heap.
Proof. split; [by intros s|]. intros a b c [] []. split; congruence. Qed.

Lemma put_nbr_same p e s : same_heap s (put_nbr p e s).
Proof. done. Qed.

Lemma nbr_del_ok s p nb : disc_inv s -> find_ptr p (d_nbrs s) = Some nb -> dn_adj_list nb = [] ->
  exists s', nbr_del p s = Ok (tt, s') /\ disc_inv s' /\ same_heap s s' /\
    d_msgcnt s <= d_msgcnt s' <= d_msgcnt s + 2 /\
    forall n, find_ptr n (d_nbrs s') = if n =? p then None else find_ptr n (d_nbrs s).
Proof.
  intros I Hp Hnil. unfold nbr_del.
  destruct (on_nbr_safe s p nb (nbr_fsm NBR_EVT_CLOSE_SESSION) 2
    (fun e => n_state (e_nbr e) = NBR_STA_PRESENT)) as (e1 & E1 & I1 & C1 & S1 & N1); auto.
  { apply keeps_fsm. }
  { eapply wp_mono; [apply (wp_close_event true); exact (proj1 (di_nbr _ I _ _ Hp))|].
    intros e (? & ? & ?). done. }
  rewrite (bind_ok _ _ _ _ _ E1). set (s1 := put_nbr p e1 s) in *.
  assert (find_ptr p (d_nbrs s1) = Some (with_sess e1 nb)) as H1
    by (unfold s1; rewrite put_nbrs, Z.eqb_refl, Hp; done).
  destruct (on_nbr_safe s1 p (with_sess e1 nb) _ 0 (fun _ => True) I1 H1 keeps_nbr_stops)
    as (e2 & E2 & I2 & C2 & _ & N2).
  { unfold nbr_stop_ktimer, nbr_stop_ktimeout, nbr_stop_itimeout, nbr_stop_idtimer.
    repeat wp_step. cbn. split; [|split; [lia|done]].
    destruct (di_nbr _ I1 _ _ H1) as ([] & _). cbn in *.
    rewrite S1 in *. constructor; cbn; rewrite ?S1; try done; try set_solver. }
  rewrite (bind_ok _ _ _ _ _ E2). set (s2 := put_nbr p e2 s1) in *.
  assert (find_ptr p (d_nbrs s2) = Some (with_sess e2 (with_sess e1 nb))) as H2
    by (unfold s2; rewrite put_nbrs, Z.eqb_refl, H1; done).
  rewrite (bind_ok _ _ _ _ _ (get_dnbr_ok _ _ _ H2)).
  assert (forall n, find_ptr n (del_ptr p (d_nbrs s2)) = if n =? p then None else find_ptr n (d_nbrs s))
    as Hdel.
  { intros n. rewrite find_ptr_del. destruct (n =? p) eqn:E; [done|].
    unfold s2, s1. by rewrite !put_nbrs, E. }
  destruct (negb _); unfold bind, modify, ret; cbn [rbind]; eexists; (split; [reflexivity|]);
    (split; [apply (del_nbr_inv _ p (with_sess e2 (with_sess e1 nb))); [|done|done];
             try apply set_pids_inv; exact I2|]); (split; [done|]); cbn; (split; [cbn in C2; lia|done]).
Qed.
End NbrDel.

(** ** What deletions leave: the rest of the heap, with shorter lists *)
Definition iface_le (i i' : iface) : Prop :=
  if_ifindex i' = if_ifindex i /\ if_name i' = if_name i /\
  forall af, af_ok af ->
    ia_adj_list (ia_of i' af) `sublist_of` ia_adj_list (ia_of i af) /\
    ia_state (ia_of i' af) = ia_state (ia_of i af).

Record shrinks (s s' : disc) : Prop := Shrinks {
  sh_conf : d_conf s' = d_conf s;
  sh_next : d_next s' = d_next s;
  sh_pconns : d_pconns s' = d_pconns s;
  sh_adjs : forall p a, find_ptr p (d_adjs s') = Some a -> find_ptr p (d_adjs s) = Some a;
  sh_tnbrs : forall t tn, find_ptr t (d_tnbrs s) = Some tn ->
    exists tn', find_ptr t (d_tnbrs s') = Some tn' /\ (tn' = tn \/ tn' = drop_t tn);
  sh_ifaces : forall ifp i, find_ptr ifp (d_ifaces s) = Some i ->
    exists i', find_ptr ifp (d_ifaces s') = Some i' /\ iface_le i i';
  sh_tps : ptrs (d_tnbrs s') = ptrs (d_tnbrs s);
  sh_ifps : ptrs (d_ifaces s') = ptrs (d_ifaces s)
}.

Section Shrinks.
Lemma iface_le_refl i : iface_le i i.
Proof. by split. Qed.

#[export] Instance shrinks_preorder : PreOrder shrinks.
Proof.
  split.
  - intros s. split; eauto using iface_le_refl.
  - intros a b c [A1 A2 A3 A4 A5 A6 A7 A8] [B1 B2 B3 B4 B5 B6 B7 B8]. split; try congruence; [by auto|..].
    + intros t tn Ht. destruct (A5 _ _ Ht) as (t1 & H1 & R1). destruct (B5 _ _ H1) as (t2 & H2 & R2).
      exists t2. split; [done|]. destruct R1 as [-> | ->], R2 as [-> | ->]; auto.
    + intros i x Hx. destruct (A6 _ _ Hx) as (x1 & H1 & R1 & N1 & L1).
      destruct (B6 _ _ H1) as (x2 & H2 & R2 & N2 & L2). exists x2. split; [done|].
      do 2 (split; [congruence|]). intros af Haf. destruct (L1 af Haf), (L2 af Haf).
      split; [by etrans|congruence].
Qed.

Lemma same_heap_shrinks s s' : same_heap s s' -> shrinks s s'.
Proof.
  intros []. split; try done; rewrite ?hp_adjs0, ?hp_tnbrs0, ?hp_ifaces0; eauto using iface_le_refl.
Qed.

Lemma removed_shrinks s p a : disc_inv s -> find_ptr p (d_adjs s) = Some a ->
  shrinks s (adj_removed p a s).
Proof.
  intros I Ha. pose proof (di_adj _ I _ _ Ha) as [_ Hs]. split.
  1-3: unfold adj_removed, unlink_src, unlink_nbr; by destruct (a_source a), (a_nbr a).
  - intros q b. rewrite removed_adjs. by destruct (q =? p).
  - intros t tn Ht. rewrite removed_tnbrs, Ht. destruct (a_source a); [by eauto|].
    destruct (t =? target); cbn; eauto.
  - intros ifp i Hi. rewrite removed_ifaces, Hi. destruct (a_source a) as [q af2 src|];
      [|by eauto using iface_le_refl].
    destruct (ifp =? q); cbn; [|by eauto using iface_le_refl]. eexists. split; [done|].
    destruct Hs as [Haf2 _]. do 2 (split; [unfold ia_upd, set_if_af; by case_match|]). intros af Haf.
    unfold ia_upd. rewrite ia_of_set by done. destruct (af =? af2) eqn:E; zbool; [|done]. subst. cbn.
    split; [apply list_remove_sublist|done].
  - unfold adj_removed, unlink_src, unlink_nbr. destruct (a_source a), (a_nbr a);
      (done || exact (ptrs_upd _ _ _ keeps_drop_t)).
  - unfold adj_removed, unlink_src, unlink_nbr. destruct (a_source a), (a_nbr a);
      (done || exact (ptrs_upd _ _ _ (keeps_ia_upd _ _))).
Qed.
End Shrinks.

(** ** Counting and deleting the adjacencies of a neighbour *)
Definition adj_af (s : disc) (p : Z) : option Z :=
  match find_ptr p (d_adjs s) with
  | Some a => match a_source a with
              | SrcLink _ af _ => Some af
              | SrcTarget t => t_af <$> find_ptr t (d_tnbrs s)
              end
  | None => None
  end.
Definition count (s : disc) (l : list Z) (af : Z) : Z :=
  Z.of_nat (length (filter (fun p => adj_af s p = Some af) l)).

Section AdjDel.
Lemma adj_get_af_eq s p a : disc_inv s -> find_ptr p (d_adjs s) = Some a ->
  exists af, af_ok af /\ adj_af s p = Some af /\ adj_get_af a s = Ok (af, s).
Proof.
  intros I Ha. pose proof (di_adj _ I _ _ Ha) as [_ H]. unfold adj_af, adj_get_af. rewrite Ha.
  destruct (a_source a) as [ifp af src|t].
  - destruct H as (Haf & i & Hi & _). rewrite (bind_ok _ _ _ _ _ (get_iface_ok _ _ _ Hi)). by exists af.
  - destruct H as (tn & Htn & _). rewrite (bind_ok _ _ _ _ _ (get_tnbr_ok _ _ _ Htn)), Htn.
    exists (t_af tn). split; [by apply (di_tnbr _ I) in Htn as [? _]|done].
Qed.

Lemma count_af_ok s l af : disc_inv s -> (forall p, p ∈ l -> is_Some (find_ptr p (d_adjs s))) ->
  count_af l af s = Ok (count s l af, s).
Proof.
  intros I. induction l as [|p l IH]; intros Hl; [done|]. cbn [count_af].
  destruct (Hl p) as [a Ha]; [left|]. rewrite (bind_ok _ _ _ _ _ (get_adj_ok _ _ _ Ha)).
  destruct (adj_get_af_eq s p a I Ha) as (f & _ & Ef & Eg). rewrite (bind_ok _ _ _ _ _ Eg).
  rewrite (bind_ok (count_af l af) _ s (count s l af) s) by (apply IH; intros; apply Hl; by right).
  unfold ret. do 2 f_equal. unfold count. rewrite filter_cons, Ef.
  destruct (f =? af) eqn:E; zbool; case_decide as D; try congruence. cbn [length]. lia.
Qed.

Lemma nbr_adj_count_ok s n nb af : disc_inv s -> find_ptr n (d_nbrs s) = Some nb ->
  nbr_adj_count nb af s = Ok (count s (dn_adj_list nb) af, s).
Proof.
  intros I Hn. apply count_af_ok; [done|]. intros p Hp.
  destruct (di_nbr _ I _ _ Hn) as (_ & _ & _ & H). destruct (H p Hp) as (a & -> & _). by eexists.
Qed.

(** Deleting all adjacencies of a neighbour. *)
Lemma del_nbr_adjs_ok l : forall s n nb, disc_inv s -> find_ptr n (d_nbrs s) = Some nb ->
  dn_adj_list nb = l ->
  exists s', foreach adj_del_single l s = Ok (tt, s') /\ disc_inv s' /\ shrinks s s' /\
    d_msgcnt s' = d_msgcnt s /\ find_ptr n (d_nbrs s') = Some (set_dn_adj_list nb []) /\
    (forall m, m <> n -> find_ptr m (d_nbrs s') = find_ptr m (d_nbrs s)) /\
    (forall p, find_ptr p (d_adjs s') = if bool_decide (p ∈ l) then None else find_ptr p (d_adjs s)).
Proof.
  induction l as [|p l IH]; intros s n nb I Hn Hl.
  { exists s. split_and!; try done. rewrite Hn. f_equal. destruct nb; cbn in *. by subst. }
  destruct (di_nbr _ I _ _ Hn) as (_ & _ & Hnd & Hall). rewrite Hl in Hnd, Hall.
  destruct (Hall p) as (a & Ha & Han); [left|].
  cbn [foreach]. rewrite (bind_ok _ _ _ _ _ (adj_del_single_ok s p a I Ha)).
  apply NoDup_cons in Hnd as [Hp Hnd].
  assert (dn_adj_list (drop_nb p nb) = l) as Hl'.
  { cbn. rewrite Hl. cbn. rewrite Z.eqb_refl. cbn. by apply list_remove_id. }
  destruct (IH (adj_removed p a s) n (drop_nb p nb)) as (s' & E & I' & S' & C' & Hn' & Hm' & Ha');
    [by apply removed_inv|by rewrite removed_nbrs, Han, Z.eqb_refl, Hn|done|].
  exists s'. split_and!; [done|done| | | | |].
  - etrans; [by apply removed_shrinks|done].
  - rewrite C'. unfold adj_removed, unlink_src, unlink_nbr. by destruct (a_source a), (a_nbr a).
  - done.
  - intros m Hm. rewrite Hm', removed_nbrs, Han by done. by apply Z.eqb_neq in Hm as ->.
  - intros q. rewrite Ha', removed_adjs. destruct (q =? p) eqn:Eq; zbool; [subst q|].
    + rewrite (bool_decide_eq_true_2 (p ∈ p :: l)) by left. by case_bool_decide.
    + case_bool_decide; case_bool_decide; try done; set_solver.
Qed.

(** What [adj_del] does to the neighbour of the adjacency: it goes when no
    adjacency of its own family is left, with all the others it has. *)
Definition adj_del_post (p : Z) (a : adj) (s s' : disc) : Prop :=
  match a_nbr a with
  | None => d_nbrs s' = d_nbrs s /\ forall q, q <> p -> find_ptr q (d_adjs s') = find_ptr q (d_adjs s)
  | Some n => forall nb, find_ptr n (d_nbrs s) = Some nb ->
      (forall m, m <> n -> find_ptr m (d_nbrs s') = find_ptr m (d_nbrs s)) /\
      if count s (list_remove p (dn_adj_list nb)) (n_af (dn_nbr nb)) =? 0
      then find_ptr n (d_nbrs s') = None /\
           forall q, find_ptr q (d_adjs s') =
             if bool_decide (q = p \/ q ∈ dn_adj_list nb) then None else find_ptr q (d_adjs s)
      else find_ptr n (d_nbrs s') = Some (drop_nb p nb) /\
           forall q, q <> p -> find_ptr q (d_adjs s') = find_ptr q (d_adjs s)
  end.

Lemma count_removed s p a l af : disc_inv s -> find_ptr p (d_adjs s) = Some a -> p ∉ l ->
  count (adj_removed p a s) l af = count s l af.
Proof.
  intros I Ha Hp. unfold count. f_equal. f_equal. induction l as [|q l IH]; [done|].
  apply not_elem_of_cons in Hp as [Hq Hp]. rewrite !filter_cons, IH by done.
  assert (adj_af (adj_removed p a s) q = adj_af s q) as ->; [|done].
  unfold adj_af. rewrite removed_adjs. destruct (q =? p) eqn:E; zbool; [congruence|].
  destruct (find_ptr q (d_adjs s)) as [b|]; [|done]. destruct (a_source b); [done|].
  rewrite removed_tnbrs. destruct (a_source a); [done|]. case_match; [|done].
  by destruct (find_ptr _ (d_tnbrs s)).
Qed.

Lemma adj_del_ok s p a st : disc_inv s -> find_ptr p (d_adjs s) = Some a -> d_msgcnt s < 2 ^ 31 - 5 ->
  exists s', adj_del p st s = Ok (tt, s') /\ disc_inv s' /\ shrinks s s' /\
    find_ptr p (d_adjs s') = None /\ d_msgcnt s <= d_msgcnt s' <= d_msgcnt s + 5 /\
    adj_del_post p a s s'.
Proof.
  intros I Ha Hc. pose proof (di_cnt _ I) as Hc0. unfold adj_del.
  rewrite (bind_ok _ _ _ _ _ (get_adj_ok _ _ _ Ha)),
    (bind_ok _ _ _ _ _ (adj_del_single_ok s p a I Ha)).
  pose proof (removed_inv s p a I Ha) as I1. pose proof (removed_shrinks s p a I Ha) as S1.
  assert (find_ptr p (d_adjs (adj_removed p a s)) = None) as Hp1 by (by rewrite removed_adjs, Z.eqb_refl).
  assert (d_msgcnt (adj_removed p a s) = d_msgcnt s) as C1
    by (unfold adj_removed, unlink_src, unlink_nbr; by destruct (a_source a), (a_nbr a)).
  assert (forall q, q <> p -> find_ptr q (d_adjs (adj_removed p a s)) = find_ptr q (d_adjs s)) as Q1.
  { intros q Hq. rewrite removed_adjs. by apply Z.eqb_neq in Hq as ->. }
  pose proof (di_adj _ I _ _ Ha) as [Hn _]. unfold adj_del_post.
  pose proof (removed_nbrs s p a) as N1. destruct (a_nbr a) as [n|] eqn:En.
  2:{ eexists. split_and!; try done; try lia.
      unfold adj_removed, unlink_src, unlink_nbr. rewrite En. by destruct (a_source a). }
  destruct Hn as (nb & Hnb & Hin & Hid). set (s1 := adj_removed p a s) in *.
  assert (find_ptr n (d_nbrs s1) = Some (drop_nb p nb)) as Hnb1 by (by rewrite N1, Z.eqb_refl, Hnb).
  rewrite (bind_ok _ _ _ _ _ (get_dnbr_ok _ _ _ Hnb1)).
  rewrite (bind_ok _ _ _ _ _ (nbr_adj_count_ok s1 n _ _ I1 Hnb1)).
  unfold s1 at 1. rewrite count_removed by (done || (cbn; rewrite elem_list_remove; tauto)).
  cbn [drop_nb set_dn_adj_list dn_adj_list dn_nbr]. fold s1.
  destruct (count s _ _ =? 0) eqn:Ek.
  2:{ eexists. split; [done|]. split_and!; try done; try lia. intros nb' Hnb'.
      assert (nb' = nb) as -> by congruence. rewrite Ek. split_and!; try done.
      intros m Hm. rewrite N1. by apply Z.eqb_neq in Hm as ->. }
  destruct (del_nbr_adjs_ok _ s1 n (drop_nb p nb) I1 Hnb1 eq_refl)
    as (s2 & E2 & I2 & S2 & C2 & Hn2 & Hm2 & Ha2).
  cbn [drop_nb set_dn_adj_list dn_adj_list] in E2. rewrite (bind_ok _ _ _ _ _ E2).
  set (nb2 := set_dn_adj_list _ _) in Hn2.
  destruct (on_nbr_safe s2 n nb2 (session_shutdown st 0 0) 3 (fun _ => True) I2 Hn2)
    as (e3 & E3 & I3 & C3 & _ & _); [apply keeps_session_shutdown| |].
  { eapply wp_mono; [apply (wp_shutdown true); [exact (proj1 (di_nbr _ I2 _ _ Hn2))|cbn; lia]|].
    intros e (? & ? & ?). done. }
  rewrite (bind_ok _ _ _ _ _ E3).
  assert (find_ptr n (d_nbrs (put_nbr n e3 s2)) = Some (with_sess e3 nb2)) as Hn3
    by (by rewrite put_nbrs, Z.eqb_refl, Hn2).
  destruct (nbr_del_ok _ n _ I3 Hn3 eq_refl) as (s4 & E4 & I4 & P4 & C4 & H4).
  exists s4. split; [done|]. cbn in C4.
  assert (forall q, find_ptr q (d_adjs s4) =
    if bool_decide (q = p \/ q ∈ dn_adj_list nb) then None else find_ptr q (d_adjs s)) as Hq4.
  { intros q. rewrite (hp_adjs _ _ P4). cbn. rewrite Ha2. cbn.
    destruct (decide (q = p)) as [-> |Hq].
    - rewrite (bool_decide_eq_true_2 (p = p \/ _)) by tauto. by case_bool_decide.
    - rewrite Q1 by done. case_bool_decide as D1; case_bool_decide as D2; try done;
        rewrite elem_list_remove in D1; tauto. }
  split_and!; try done; try lia.
  - etrans; [exact S1|]. etrans; [exact S2|]. apply same_heap_shrinks. by destruct P4.
  - rewrite Hq4. by rewrite bool_decide_eq_true_2 by tauto.
  - intros nb' Hnb'. assert (nb' = nb) as -> by congruence. rewrite Ek. split.
    + intros m Hm. rewrite H4, put_nbrs. apply Z.eqb_neq in Hm as Em. rewrite Em, Hm2, N1 by done.
      by rewrite Em.
    + split; [by rewrite H4, Z.eqb_refl|done].
Qed.
End AdjDel.

(** ** Sending hellos *)
Definition hello_sent (s s' : disc) : Prop :=
  exists pkts, s' = set_sent (fun l => l ++ pkts) (set_msgcnt (d_msgcnt s + 1) s).

Definition hello_dst_ok (s : disc) (d : hello_dst) : Prop :=
  match d with
  | HelloLink ifp af => af_ok af /\ is_Some (find_ptr ifp (d_ifaces s))
  | HelloTarget t => af_ok (t_af t)
  end.

Section Sending.
Lemma hello_sent_inv s s' : disc_inv s -> hello_sent s s' -> disc_inv s'.
Proof. intros [] [pkts ->]. split; try done. cbn. lia. Qed.

Lemma ldp_af_conf_get_ok c af : af_ok af -> exists ac, ldp_af_conf_get c af = Ok ac.
Proof. intros [-> | ->]; by eexists. Qed.
Lemma ldp_af_global_get_ok c af : af_ok af -> exists ag, ldp_af_global_get c af = Ok ag.
Proof. intros [-> | ->]; by eexists. Qed.

Lemma bind_lift_ok {A B} (r : res A) (k : A -> ST disc B) s a :
  r = Ok a -> bind (lift r) k s = k a s.
Proof. by intros ->. Qed.

Lemma hello_params_ok s d : hello_dst_ok s d -> exists af h fl dst ifp,
  af_ok af /\ hello_params d s = Ok ((af, h, fl, dst, ifp), s).
Proof.
  intros Hd. unfold hello_params. rewrite (bind_ok conf _ s (d_conf s) s) by done.
  destruct d as [ifp af|t].
  - destruct Hd as [Haf [i Hi]]. rewrite (bind_ok _ _ _ _ _ (get_ia_ok s ifp af i Hi Haf)).
    destruct (ldp_af_conf_get_ok (d_conf s) af Haf) as [ac Eac].
    unfold if_get_hello_holdtime. rewrite Eac. cbn [rbind].
    rewrite (bind_lift_ok _ _ _ _ eq_refl). af_cases Haf; do 5 eexists; (split; [|reflexivity]);
      [by left|by right].
  - cbn in Hd. destruct (ldp_af_conf_get_ok (d_conf s) _ Hd) as [ac Eac].
    unfold tnbr_get_hello_holdtime. rewrite Eac. cbn [rbind].
    rewrite (bind_lift_ok _ _ _ _ eq_refl). do 5 eexists. split; [|reflexivity]. done.
Qed.

Lemma gsafe_hello c cnt af size h fl : af_ok af -> gsafe (gen_hello c cnt af size h fl).
Proof.
  intros Haf. unfold gen_hello, gen_ds_hello_prms_tlv, gen_opt4_hello_prms_tlv,
    gen_opt16_hello_prms_tlv, gen_hello_prms_tlv, gen_ldp_hdr, gen_msg_hdr.
  repeat apply gsafe_seq; try apply gsafe_add.
  - af_cases Haf; apply gsafe_add.
  - destruct (ldp_is_dual_stack c); [apply gsafe_add|apply gsafe_ret].
Qed.

Lemma send_hello_ok s d : hello_dst_ok s d -> 0 <= d_msgcnt s < 2 ^ 31 - 1 ->
  exists s', send_hello d s = Ok (tt, s') /\ hello_sent s s'.
Proof.
  intros Hd Hc. unfold send_hello.
  destruct (hello_params_ok s d Hd) as (af & h & fl & dst & ifp & Haf & Ep).
  rewrite (bind_ok _ _ _ _ _ Ep).
  rewrite (bind_ok conf _ s (d_conf s) s) by done.
  assert (exists size, hello_size (d_conf s) af = Ok size) as [size Esz].
  { unfold hello_size. af_cases Haf; by eexists. }
  rewrite (bind_lift_ok _ _ _ _ Esz).
  assert (disc_msgcnt s = Ok (d_msgcnt s + 1, set_msgcnt (d_msgcnt s + 1) s)) as Ecnt.
  { unfold disc_msgcnt. destruct (_ >=? _) eqn:E; [|done]. rewrite Z.geb_leb in E. zbool. lia. }
  rewrite (bind_ok _ _ _ _ _ Ecnt).
  destruct (gsafe_hello (d_conf s) (d_msgcnt s + 1) af size h fl Haf (ibuf_open size)) as [[r b] E].
  rewrite E, (bind_lift_ok _ _ _ _ eq_refl). cbn [fst snd].
  destruct (negb (r =? 0)).
  - eexists. split; [done|]. exists []. unfold set_sent, set_msgcnt. cbn. by rewrite app_nil_r.
  - unfold send_packet. af_cases Haf; eexists; (split; [reflexivity|]); by eexists.
Qed.

(** What sending leaves alone. *)
Lemma hello_sent_eqs s s' : hello_sent s s' ->
  d_conf s' = d_conf s /\ d_nbrs s' = d_nbrs s /\ d_adjs s' = d_adjs s /\ d_tnbrs s' = d_tnbrs s /\
  d_ifaces s' = d_ifaces s /\ d_pconns s' = d_pconns s /\ d_next s' = d_next s /\
  d_msgcnt s' = d_msgcnt s + 1.
Proof. by intros [pkts ->]. Qed.

Lemma source_dst_ok s p a : disc_inv s -> find_ptr p (d_adjs s) = Some a ->
  exists d, hello_of_source (a_source a) s = Ok (d, s) /\ hello_dst_ok s d.
Proof.
  intros I Ha. destruct (di_adj _ I _ _ Ha) as [_ Hs]. unfold hello_of_source.
  destruct (a_source a) as [ifp af src|t].
  - destruct Hs as (Haf & i & Hi & _). eexists. split; [done|]. cbn. split; [done|]. by eexists.
  - destruct Hs as (tn & Htn & _). rewrite (bind_ok _ _ _ _ _ (get_tnbr_ok _ _ _ Htn)).
    eexists. split; [done|]. by apply (di_tnbr _ I) in Htn as [? _].
Qed.

(** The hellos ahead of a connection: one per adjacency of the list. *)
Lemma extra_hellos_ok l : forall s, disc_inv s ->
  (forall p, p ∈ l -> is_Some (find_ptr p (d_adjs s))) ->
  d_msgcnt s + Z.of_nat (length l) < 2 ^ 31 - 1 ->
  exists s', foreach (fun ap => do a <- get_adj ap; do d <- hello_of_source (a_source a); send_hello d)
      l s = Ok (tt, s') /\ disc_inv s' /\
    d_conf s' = d_conf s /\ d_nbrs s' = d_nbrs s /\ d_adjs s' = d_adjs s /\ d_tnbrs s' = d_tnbrs s /\
    d_ifaces s' = d_ifaces s /\ d_pconns s' = d_pconns s /\ d_next s' = d_next s /\
    d_msgcnt s' = d_msgcnt s + Z.of_nat (length l).
Proof.
  induction l as [|p l IH]; intros s I Hl Hc.
  { exists s. cbn. split_and!; try done. lia. }
  pose proof (di_cnt _ I) as H0. cbn [foreach length] in *. destruct (Hl p) as [a Ha]; [left|].
  destruct (source_dst_ok s p a I Ha) as (d & Ed & Hd).
  destruct (send_hello_ok s d Hd ltac:(lia)) as (s1 & E1 & S1).
  assert ((do a <- get_adj p; do d <- hello_of_source (a_source a); send_hello d) s = Ok (tt, s1))
    as Eone.
  { by rewrite (bind_ok _ _ _ _ _ (get_adj_ok _ _ _ Ha)), (bind_ok _ _ _ _ _ Ed). }
  rewrite (bind_ok _ _ _ _ _ Eone).
  pose proof (hello_sent_inv _ _ I S1) as I1.
  destruct (hello_sent_eqs _ _ S1) as (Q1 & Q2 & Q3 & Q4 & Q5 & Q6 & Q7 & Q8).
  destruct (IH s1 I1) as (s2 & E2 & I2 & R1 & R2 & R3 & R4 & R5 & R6 & R7 & R8).
  { intros q Hq. rewrite Q3. apply Hl. by right. }
  { lia. }
  exists s2. split_and!; try congruence. lia.
Qed.
End Sending.

(** ** Targeted neighbours *)
Section Targets.
Lemma set_tnbr_inv s t tn f : disc_inv s -> find_ptr t (d_tnbrs s) = Some tn -> keeps_ptr f ->
  t_af (f tn) = t_af tn -> t_adj (f tn) = t_adj tn -> disc_inv (set_tnbrs (upd_ptr t f) s).
Proof.
  intros I Ht Hf Haf Hadj. split; try apply I; [by apply store_ok_upd, I| |].
  - intros p a Hp. destruct (di_adj _ I _ _ Hp) as [H1 H2]. split; [done|]. cbn.
    destruct (a_source a) as [|u]; [done|]. destruct H2 as (tn' & Hu & Hp').
    rewrite find_ptr_upd, Hu by done. destruct (u =? t) eqn:E; zbool; [|by eauto]. subst.
    rewrite Hu in Ht. simplify_eq. eexists. split; [done|]. congruence.
  - intros u tn'. cbn. rewrite find_ptr_upd by done. destruct (u =? t) eqn:E; zbool.
    + subst. rewrite Ht. intros [= <-]. destruct (di_tnbr _ I _ _ Ht) as [H1 H2].
      unfold tnbr_ok. by rewrite Haf, Hadj.
    + by apply (di_tnbr _ I).
Qed.

Lemma del_tnbr_inv s t tn : disc_inv s -> find_ptr t (d_tnbrs s) = Some tn -> t_adj tn = None ->
  disc_inv (set_tnbrs (del_ptr t) s).
Proof.
  intros I Ht Hnone. split; try apply I; [by apply store_ok_del, I| |].
  - intros p a Hp. destruct (di_adj _ I _ _ Hp) as [H1 H2]. split; [done|]. cbn.
    destruct (a_source a) as [|u]; [done|]. destruct H2 as (tn' & Hu & Hp').
    rewrite find_ptr_del. destruct (u =? t) eqn:E; zbool; [|by eauto]. congruence.
  - intros u tn'. cbn. rewrite find_ptr_del. destruct (u =? t); [done|]. by apply (di_tnbr _ I).
Qed.

(** The heap behind [tnbr_del], apart from the targeted neighbour. *)
Definition tnbr_gone (t : Z) (s s' : disc) : Prop :=
  find_ptr t (d_tnbrs s') = None /\ d_conf s' = d_conf s /\ d_next s' = d_next s /\
  d_pconns s' = d_pconns s /\
  (forall p a, find_ptr p (d_adjs s') = Some a -> find_ptr p (d_adjs s) = Some a) /\
  (forall ifp i, find_ptr ifp (d_ifaces s) = Some i ->
    exists i', find_ptr ifp (d_ifaces s') = Some i' /\ iface_le i i') /\
  ptrs (d_tnbrs s') = list_remove t (ptrs (d_tnbrs s)) /\ ptrs (d_ifaces s') = ptrs (d_ifaces s).

Lemma tnbr_del_ok s t tn : disc_inv s -> find_ptr t (d_tnbrs s) = Some tn -> d_msgcnt s < 2 ^ 31 - 5 ->
  exists s', tnbr_del t s = Ok (tt, s') /\ disc_inv s' /\ tnbr_gone t s s' /\
    d_msgcnt s <= d_msgcnt s' <= d_msgcnt s + 5.
Proof.
  intros I Ht Hc. unfold tnbr_del, tnbr_stop_hello_timer.
  rewrite (bind_ok _ _ _ _ _ (mod_tnbr_ok _ _ _ _ Ht)).
  set (f := fun t => set_t_hello_timer t None). set (s1 := set_tnbrs (upd_ptr t f) s).
  assert (disc_inv s1) as I1 by (by apply (set_tnbr_inv s t tn)).
  assert (find_ptr t (d_tnbrs s1) = Some (f tn)) as H1
    by (unfold s1; cbn; by rewrite find_ptr_upd, Z.eqb_refl, Ht by done).
  rewrite (bind_ok _ _ _ _ _ (get_tnbr_ok _ _ _ H1)).
  assert (exists s2, (match t_adj (f tn) with Some a => adj_del a S_SHUTDOWN | None => ret tt end) s1
    = Ok (tt, s2) /\ disc_inv s2 /\ shrinks s1 s2 /\ d_msgcnt s <= d_msgcnt s2 <= d_msgcnt s + 5 /\
    exists tn2, find_ptr t (d_tnbrs s2) = Some tn2 /\ t_adj tn2 = None)
    as (s2 & E2 & I2 & S2 & C2 & tn2 & Htn2 & Hnone).
  { destruct (t_adj (f tn)) as [p|] eqn:Ep.
    2:{ exists s1. split_and!; try done; [cbn; lia|by eauto]. }
    destruct (di_tnbr _ I1 _ _ H1) as [_ Hadj]. destruct (Hadj p Ep) as (a & Ha & Hsrc).
    destruct (adj_del_ok s1 p a S_SHUTDOWN I1 Ha) as (s2 & E2 & I2 & S2 & Hp2 & C2 & _); [done|].
    exists s2. split_and!; try done; [cbn in C2; lia..|].
    destruct (sh_tnbrs _ _ S2 _ _ H1) as (tn2 & Htn2 & Hor). exists tn2. split; [done|].
    destruct Hor as [-> | ->]; [|done]. exfalso.
    destruct (di_tnbr _ I2 _ _ Htn2) as [_ Hadj2]. destruct (Hadj2 p Ep) as (a2 & Ha2 & _). congruence. }
  rewrite (bind_ok _ _ _ _ _ E2), (bind_ok _ _ _ _ _ (get_tnbr_ok _ _ _ Htn2)).
  unfold modify. eexists. split; [done|]. split; [by eapply del_tnbr_inv|]. destruct S2.
  split; [|cbn; lia]. unfold tnbr_gone. cbn [set_tnbrs d_tnbrs d_conf d_next d_pconns d_adjs d_ifaces].
  rewrite find_ptr_del, Z.eqb_refl, ptrs_del_ptr, sh_tps0. split_and!; try done.
  unfold s1. cbn [set_tnbrs d_tnbrs]. by rewrite ptrs_upd.
Qed.

Lemma tnbr_check_ok s t tn : disc_inv s -> find_ptr t (d_tnbrs s) = Some tn -> d_msgcnt s < 2 ^ 31 - 5 ->
  exists b s', tnbr_check t s = Ok (b, s') /\ disc_inv s' /\
    d_msgcnt s <= d_msgcnt s' <= d_msgcnt s + 5 /\
    (if (b : bool) then s' = s else tnbr_gone t s s').
Proof.
  intros I Ht Hc. unfold tnbr_check. rewrite (bind_ok _ _ _ _ _ (get_tnbr_ok _ _ _ Ht)).
  destruct (_ && _); [|exists true, s; split_and!; try done; lia].
  destruct (tnbr_del_ok s t tn I Ht Hc) as (s' & E & I' & G & C).
  rewrite (bind_ok _ _ _ _ _ E). by exists false, s'.
Qed.

(** [target->adj = NULL] ahead of [adj_del] is harmless. *)
Lemma adj_del_forgotten s p a t st : disc_inv s -> find_ptr p (d_adjs s) = Some a ->
  a_source a = SrcTarget t -> adj_del p st (set_tnbrs (upd_ptr t drop_t) s) = adj_del p st s.
Proof.
  intros I Ha Hsrc. set (s0 := set_tnbrs _ s). unfold adj_del.
  rewrite (bind_ok (get_adj p) _ s a s) by (by apply get_adj_ok).
  rewrite (bind_ok (get_adj p) _ s0 a s0) by (by apply get_adj_ok).
  enough (adj_del_single p s0 = adj_del_single p s) as E by (unfold bind; by rewrite E).
  destruct (di_adj _ I _ _ Ha) as [Hn Hs]. rewrite Hsrc in Hs. destruct Hs as (tn & Htn & _).
  assert (find_ptr t (d_tnbrs s0) = Some (drop_t tn)) as Ht0
    by (unfold s0; cbn; by rewrite find_ptr_upd, Z.eqb_refl, Htn by done).
  rewrite (adj_del_single_ok s p a I Ha). unfold adj_del_single.
  rewrite (bind_ok (get_adj p) _ s0 a s0) by (by apply get_adj_ok).
  unfold adj_get_af. rewrite Hsrc.
  assert ((do tn <- get_tnbr t; ret (t_af tn)) s0 = Ok (t_af tn, s0)) as Eaf
    by (by rewrite (bind_ok _ _ _ _ _ (get_tnbr_ok _ _ _ Ht0))).
  rewrite (bind_ok _ _ _ _ _ Eaf).
  unfold adj_stop_itimer. rewrite (bind_ok _ _ _ _ _ (mod_adj_ok s0 p a _ Ha)).
  set (s1 := set_adjs _ s0).
  assert ((match a_nbr a with Some n => mod_dnbr n (drop_nb p) | None => ret tt end) s1
          = Ok (tt, unlink_nbr p a s1)) as E1.
  { unfold unlink_nbr. destruct (a_nbr a) as [n|]; [|done]. destruct Hn as (nb & Hnb & _).
    by rewrite (mod_dnbr_ok s1 n nb). }
  unfold drop_nb at 1 in E1. rewrite (bind_ok _ _ _ _ _ E1).
  assert (find_ptr t (d_tnbrs (unlink_nbr p a s1)) = Some (drop_t tn)) as Ht1
    by (unfold unlink_nbr; by destruct (a_nbr a)).
  rewrite (bind_ok _ _ _ _ _ (mod_tnbr_ok _ t _ _ Ht1)). unfold modify. do 2 f_equal.
  assert (forall l, upd_ptr t drop_t (upd_ptr t drop_t l) = upd_ptr t drop_t l) as Hidem.
  { intros l. unfold upd_ptr. rewrite map_map. apply map_ext. intros x.
    destruct (ptr_of x =? t) eqn:E; [|by rewrite E]. change (ptr_of (drop_t x)) with (ptr_of x).
    by rewrite E. }
  unfold adj_removed, s1, s0, unlink_src, unlink_nbr, set_adjs, set_nbrs, set_tnbrs, set_ifaces.
  rewrite Hsrc. destruct (a_nbr a); cbn; f_equal; try apply Hidem; by apply del_upd.
Qed.

Lemma set_adj_inv s p a f : disc_inv s -> find_ptr p (d_adjs s) = Some a -> keeps_ptr f ->
  a_source (f a) = a_source a -> a_nbr (f a) = a_nbr a -> a_lsr_id (f a) = a_lsr_id a ->
  disc_inv (set_adjs (upd_ptr p f) s).
Proof.
  intros I Hp Hf Hsrc Hn Hid.
  assert (forall q b, find_ptr q (d_adjs s) = Some b -> exists b',
    find_ptr q (upd_ptr p f (d_adjs s)) = Some b' /\ a_source b' = a_source b /\ a_nbr b' = a_nbr b)
    as Hfwd.
  { intros q b Hq. rewrite find_ptr_upd by done. destruct (q =? p) eqn:E; zbool; [|by eauto].
    subst. rewrite Hq. rewrite Hp in Hq. simplify_eq. eexists. split; [done|]. by rewrite Hsrc, Hn. }
  split; try apply I; [by apply store_ok_upd, I|..].
  - intros q b. cbn. rewrite find_ptr_upd by done. destruct (q =? p) eqn:E; zbool.
    + subst. rewrite Hp. intros [= <-]. destruct (di_adj _ I _ _ Hp) as [H1 H2].
      unfold adj_ok. by rewrite Hsrc, Hn, Hid.
    + by apply (di_adj _ I).
  - intros n nb Hnb. destruct (di_nbr _ I _ _ Hnb) as (H1 & H2 & H3 & H4). split_and!; try done.
    intros q Hq. destruct (H4 q Hq) as (b & Hb & Hbn). destruct (Hfwd _ _ Hb) as (b' & ? & _ & ?).
    exists b'. split; [done|congruence].
  - intros t tn Ht. destruct (di_tnbr _ I _ _ Ht) as [H1 H2]. split; [done|]. intros q Hq.
    destruct (H2 q Hq) as (b & Hb & Hbs). destruct (Hfwd _ _ Hb) as (b' & ? & ? & _).
    exists b'. split; [done|congruence].
  - intros ifp i Hi af Haf. destruct (di_iface _ I _ _ Hi af Haf) as [H1 H2]. split; [done|].
    intros q Hq. destruct (H2 q Hq) as (b & src & Hb & Hbs).
    destruct (Hfwd _ _ Hb) as (b' & ? & ? & _). exists b', src. split; [done|congruence].
Qed.

(** The hold timer of an adjacency. *)
Lemma adj_itimer_ok s p a : disc_inv s -> find_ptr p (d_adjs s) = Some a -> d_msgcnt s < 2 ^ 31 - 5 ->
  exists s', adj_itimer p s = Ok (tt, s') /\ disc_inv s' /\ d_msgcnt s <= d_msgcnt s' <= d_msgcnt s + 5.
Proof.
  intros I Ha Hc. unfold adj_itimer. rewrite (bind_ok _ _ _ _ _ (mod_adj_ok s p a _ Ha)).
  set (f := fun a => set_a_itimer a None). set (s1 := set_adjs (upd_ptr p f) s).
  assert (disc_inv s1) as I1 by (by apply (set_adj_inv s p a)).
  assert (find_ptr p (d_adjs s1) = Some (f a)) as H1
    by (unfold s1; cbn; by rewrite find_ptr_upd, Z.eqb_refl, Ha by done).
  rewrite (bind_ok _ _ _ _ _ (get_adj_ok _ _ _ H1)).
  destruct (adj_del_ok s1 p (f a) S_HOLDTIME_EXP I1 H1) as (s2 & E2 & I2 & _ & _ & C2 & _); [done|].
  destruct (a_source (f a)) as [ifp af src|t] eqn:Es; [by eauto|].
  destruct (di_adj _ I1 _ _ H1) as [_ Hs]. rewrite Es in Hs. destruct Hs as (tn & Htn & _).
  rewrite (bind_ok _ _ _ _ _ (get_tnbr_ok _ _ _ Htn)). destruct (_ && _).
  - destruct (tnbr_del_ok s1 t tn I1 Htn) as (s3 & E3 & I3 & _ & C3); [done|]. by eauto.
  - rewrite (bind_ok _ _ _ _ _ (mod_tnbr_ok s1 t tn _ Htn)).
    change (fun t0 => set_t_adj t0 None) with drop_t. rewrite (adj_del_forgotten s1 p (f a)) by done.
    by eauto.
Qed.
End Targets.
