(* ===== verification/DiscSafe.v ===== *)
(** * Receiving hellos and running timers is safe

    The rest of the operations of [Discovery] keep the invariant of [DiscInv]
    and return, whatever packet arrives and whatever the system calls answer;
    the transition system of the discovery engine and its reachable states. *)
From stdpp Require Import prelude strings list.
From Stdlib Require Import ZArith Lia.
From S2P Require Import Prelude Util Wire Ipc Session Fec Hello Discovery DiscInv.

(** ** Updating targeted neighbours *)
Definition maybe_sent (s s' : disc) : Prop := s' = s \/ hello_sent s s'.

Section Update.
Lemma maybe_sent_inv s s' : disc_inv s -> maybe_sent s s' -> disc_inv s'.
Proof. intros I [-> | H]; [done|by eapply hello_sent_inv]. Qed.

Lemma maybe_sent_eqs s s' : maybe_sent s s' ->
  d_conf s' = d_conf s /\ d_nbrs s' = d_nbrs s /\ d_adjs s' = d_adjs s /\ d_tnbrs s' = d_tnbrs s /\
  d_ifaces s' = d_ifaces s /\ d_pconns s' = d_pconns s /\ d_next s' = d_next s /\
  d_msgcnt s <= d_msgcnt s' <= d_msgcnt s + 1.
Proof.
  intros [-> | H]; [split_and!; try done; lia|].
  destruct (hello_sent_eqs _ _ H) as (?&?&?&?&?&?&?&?). split_and!; try done; lia.
Qed.

Lemma tnbr_updated_ok s t : af_ok (t_af t) -> 0 <= d_msgcnt s < 2 ^ 31 - 1 ->
  exists t' s', tnbr_updated t s = Ok (t', s') /\ maybe_sent s s' /\
    t_ptr t' = t_ptr t /\ t_af t' = t_af t /\ t_adj t' = t_adj t.
Proof.
  intros Haf Hc. unfold tnbr_updated. rewrite (bind_ok conf _ s (d_conf s) s) by done.
  destruct (ldp_af_global_get_ok (d_conf s) _ Haf) as [ag Eag]. rewrite (bind_lift_ok _ _ _ _ Eag).
  cbv zeta. destruct (t_state t =? TNBR_STA_DOWN).
  - destruct (_ || _); [exists t, s; split_and!; try done; by left|].
    destruct (send_hello_ok s (HelloTarget (set_t_state t TNBR_STA_ACTIVE)) Haf Hc) as (s1 & E1 & S1).
    rewrite (bind_ok _ _ _ _ _ E1).
    destruct (ldp_af_conf_get_ok (d_conf s) _ Haf) as [ac Eac].
    unfold tnbr_get_hello_interval. cbn [t_af set_t_state]. rewrite Eac. cbn [rbind].
    rewrite (bind_lift_ok _ _ _ _ eq_refl). do 2 eexists. split; [done|]. split; [by right|done].
  - destruct (t_state t =? TNBR_STA_ACTIVE);
      [destruct (_ && _)|]; do 2 eexists; (split; [done|]); (split; [by left|done]).
Qed.

Lemma set_tnbr_const s t tn tn' : disc_inv s -> find_ptr t (d_tnbrs s) = Some tn ->
  t_ptr tn' = t_ptr tn -> t_af tn' = t_af tn -> t_adj tn' = t_adj tn ->
  disc_inv (set_tnbrs (upd_ptr t (fun _ => tn')) s).
Proof.
  intros I Ht Hp Haf Hadj. apply find_ptr_ptr in Ht as Hpt. destruct Hpt as [Hpt _].
  set (f := fun x : tnbr => Tnbr (t_ptr x) (t_af tn') (t_addr tn') (t_state tn') (t_pw_count tn')
    (t_flags tn') (t_adj tn') (t_hello_timer tn')).
  assert (upd_ptr t (fun _ => tn') (d_tnbrs s) = upd_ptr t f (d_tnbrs s)) as E.
  { unfold upd_ptr. apply map_ext. intros x. destruct (ptr_of x =? t) eqn:Ex; [|done]. zbool.
    unfold f. change (t_ptr x) with (ptr_of x). rewrite Ex. change (ptr_of tn) with (t_ptr tn) in Hpt.
    rewrite <- Hpt, <- Hp. by destruct tn'. }
  assert (set_tnbrs (upd_ptr t (fun _ => tn')) s = set_tnbrs (upd_ptr t f) s) as ->
    by (unfold set_tnbrs; by rewrite E).
  by apply (set_tnbr_inv s t tn).
Qed.

Lemma tnbr_update_ok s t tn : disc_inv s -> find_ptr t (d_tnbrs s) = Some tn ->
  d_msgcnt s < 2 ^ 31 - 1 ->
  exists s', tnbr_update t s = Ok (tt, s') /\ disc_inv s' /\
    d_msgcnt s <= d_msgcnt s' <= d_msgcnt s + 1 /\ ptrs (d_tnbrs s') = ptrs (d_tnbrs s) /\
    d_nbrs s' = d_nbrs s /\ d_adjs s' = d_adjs s /\ d_ifaces s' = d_ifaces s.
Proof.
  intros I Ht Hc. unfold tnbr_update. rewrite (bind_ok _ _ _ _ _ (get_tnbr_ok _ _ _ Ht)).
  pose proof (di_cnt _ I). destruct (di_tnbr _ I _ _ Ht) as [Haf _].
  destruct (tnbr_updated_ok s tn Haf) as (tn' & s1 & E1 & S1 & Hp & Haf' & Hadj); [lia|].
  rewrite (bind_ok _ _ _ _ _ E1). destruct (maybe_sent_eqs _ _ S1) as (_ & En & Ea & Et & Ei & _ & _ & C1).
  rewrite <- Et in Ht. rewrite (mod_tnbr_ok _ _ _ _ Ht). eexists. split; [done|].
  split; [|split; [done|split; [|done]]].
  - eapply set_tnbr_const; eauto. by eapply maybe_sent_inv.
  - cbn. rewrite <- Et. apply find_ptr_ptr in Ht as [Hpt _]. unfold ptrs, upd_ptr.
    clear -Hp Hpt. induction (d_tnbrs s1) as [|x l IH]; [done|]. cbn. f_equal; [|done].
    destruct (ptr_of x =? t) eqn:Ex; [|done]. zbool. change (ptr_of tn) with (t_ptr tn) in Hpt.
    change (ptr_of tn') with (t_ptr tn'). congruence.
Qed.

Lemma tnbr_hello_timer_ok s t tn : disc_inv s -> find_ptr t (d_tnbrs s) = Some tn ->
  d_msgcnt s < 2 ^ 31 - 1 ->
  exists s', tnbr_hello_timer t s = Ok (tt, s') /\ disc_inv s' /\ d_msgcnt s' = d_msgcnt s + 1.
Proof.
  intros I Ht Hc. unfold tnbr_hello_timer. rewrite (bind_ok _ _ _ _ _ (mod_tnbr_ok _ _ _ _ Ht)).
  set (f := fun t => set_t_hello_timer t None). set (s1 := set_tnbrs (upd_ptr t f) s).
  assert (disc_inv s1) as I1 by (by apply (set_tnbr_inv s t tn)).
  assert (find_ptr t (d_tnbrs s1) = Some (f tn)) as H1
    by (unfold s1; cbn; by rewrite find_ptr_upd, Z.eqb_refl, Ht by done).
  rewrite (bind_ok _ _ _ _ _ (get_tnbr_ok _ _ _ H1)). pose proof (di_cnt _ I).
  destruct (di_tnbr _ I1 _ _ H1) as [Haf _].
  destruct (send_hello_ok s1 (HelloTarget (f tn)) Haf) as (s2 & E2 & S2); [cbn; lia|].
  rewrite (bind_ok _ _ _ _ _ E2). pose proof (hello_sent_inv _ _ I1 S2) as I2.
  destruct (hello_sent_eqs _ _ S2) as (Ec & _ & _ & Et & _ & _ & _ & C2).
  rewrite (bind_ok conf _ s2 (d_conf s2) s2) by done.
  destruct (ldp_af_conf_get_ok (d_conf s2) _ Haf) as [ac Eac].
  unfold tnbr_get_hello_interval. rewrite Eac. cbn [rbind]. rewrite (bind_lift_ok _ _ _ _ eq_refl).
  rewrite <- Et in H1. rewrite (mod_tnbr_ok _ _ _ _ H1). eexists. split; [done|].
  split; [by eapply set_tnbr_inv|done].
Qed.
End Update.

(** ** The targeted neighbour of a hello *)
Definition adjs_le (s s' : disc) : Prop :=
  forall p a, find_ptr p (d_adjs s') = Some a -> find_ptr p (d_adjs s) = Some a.

Lemma adjs_le_length s s' : disc_inv s' -> adjs_le s s' ->
  (length (d_adjs s') <= length (d_adjs s))%nat.
Proof.
  intros I H. rewrite <- (length_fmap ptr_of (d_adjs s)), <- (length_fmap ptr_of (d_adjs s')).
  apply submseteq_length, NoDup_submseteq; [apply (di_adjs _ I)|]. intros p Hp.
  apply list_elem_of_fmap in Hp as (a & -> & Ha).
  assert (find_ptr (ptr_of a) (d_adjs s) = Some a) as Hf
    by (apply H, find_ptr_in; [apply (di_adjs _ I)|done]).
  apply find_ptr_ptr in Hf as [_ Hf]. by apply list_elem_of_fmap_2.
Qed.

Section Target.
Lemma alloc_inv s : disc_inv s -> disc_inv (snd (match alloc s with Ok r => r | _ => (0, s) end)).
Proof.
  intros []. cbn. split; try done; (eapply store_ok_mono; [|eassumption]); cbn; lia.
Qed.

(** A targeted neighbour at a new address. *)
Lemma add_tnbr_inv s t : disc_inv s -> find_ptr (t_ptr t) (d_tnbrs s) = None -> t_ptr t < d_next s ->
  af_ok (t_af t) -> t_adj t = None -> disc_inv (set_tnbrs (cons t) s).
Proof.
  intros I Hnew Hlt Haf Hnone. split; try apply I.
  - cbn. destruct (di_tnbrs _ I) as [H1 H2]. split; cbn.
    + apply NoDup_cons. split; [|done]. by apply find_ptr_none in Hnew.
    + intros p Hp. apply elem_of_cons in Hp as [-> | Hp]; [done|by apply H2].
  - intros p a Hp. destruct (di_adj _ I _ _ Hp) as [H1 H2]. split; [done|]. cbn.
    destruct (a_source a) as [|u]; [done|]. destruct H2 as (tn & Hu & Hadj). exists tn.
    split; [|done]. rewrite find_ptr_cons. destruct (_ =? _) eqn:E; [|done]. zbool.
    change (ptr_of t) with (t_ptr t) in E. congruence.
  - intros u tn. cbn. rewrite find_ptr_cons. destruct (_ =? _) eqn:E; zbool.
    + intros [= <-]. split; [done|]. intros p Hp. congruence.
    + by apply (di_tnbr _ I).
Qed.

Lemma tnbr_find_ok s af addr t : disc_inv s -> tnbr_find s af addr = Some t ->
  find_ptr (t_ptr t) (d_tnbrs s) = Some t.
Proof.
  intros I H. apply list_find_in in H as [Hin _]. apply find_ptr_in; [|done]. by apply (di_tnbrs _ I).
Qed.

(** The optional removal of a dynamic target whose 'R' bit was cleared. *)
Lemma hello_target_found s af flags src : disc_inv s -> d_msgcnt s < 2 ^ 31 - 5 ->
  exists r s', (match tnbr_find s af src with
                | None => ret None
                | Some t =>
                    if has_flag (t_flags t) F_TNBR_DYNAMIC && negb (has_flag flags F_HELLO_REQ_TARG)
                    then
                      mod_tnbr (t_ptr t)
                        (fun t => set_t_flags t (Z.land (t_flags t) (Z.lnot F_TNBR_DYNAMIC))) ;;;
                      do still <- tnbr_check (t_ptr t);
                      ret (if still then Some (t_ptr t) else None)
                    else ret (Some (t_ptr t))
                end) s = Ok (r, s') /\ disc_inv s' /\ d_msgcnt s <= d_msgcnt s' <= d_msgcnt s + 5 /\
    d_conf s' = d_conf s /\ adjs_le s s' /\
    (forall tp, r = Some tp -> is_Some (find_ptr tp (d_tnbrs s'))).
Proof.
  intros I Hc. destruct (tnbr_find s af src) as [t|] eqn:Et.
  2:{ exists None, s. split_and!; try done; try lia; by intros ? ?. }
  pose proof (tnbr_find_ok _ _ _ _ I Et) as Ht. destruct (_ && _).
  2:{ exists (Some (t_ptr t)), s. split_and!; try done; try lia; [by intros ? ?|]. intros tp [= <-]. by rewrite Ht. }
  rewrite (bind_ok _ _ _ _ _ (mod_tnbr_ok _ _ _ _ Ht)).
  set (f := fun t => set_t_flags t _). set (s1 := set_tnbrs (upd_ptr (t_ptr t) f) s).
  assert (disc_inv s1) as I1 by (by apply (set_tnbr_inv s (t_ptr t) t)).
  assert (find_ptr (t_ptr t) (d_tnbrs s1) = Some (f t)) as H1
    by (unfold s1; cbn; by rewrite find_ptr_upd, Z.eqb_refl, Ht by done).
  destruct (tnbr_check_ok s1 (t_ptr t) (f t) I1 H1) as (b & s2 & E2 & I2 & C2 & B2); [done|].
  rewrite (bind_ok _ _ _ _ _ E2). cbn in C2. do 2 eexists. split; [done|].
  destruct b; [subst s2|destruct B2 as (_ & B2 & _ & _ & B3 & _)]; split_and!; try done; try lia;
    [by intros ? ?|]. intros tp [= <-]. by rewrite H1.
Qed.

Lemma hello_target_ok s af flags src : disc_inv s -> af_ok af -> d_msgcnt s < 2 ^ 31 - 10 ->
  exists r s', hello_target af flags src s = Ok (r, s') /\ disc_inv s' /\
    d_msgcnt s <= d_msgcnt s' <= d_msgcnt s + 6 /\ adjs_le s s' /\
    (forall tp, r = Some tp -> is_Some (find_ptr tp (d_tnbrs s'))).
Proof.
  intros I Haf Hc. unfold hello_target. rewrite (bind_ok get _ s s s) by done.
  destruct (hello_target_found s af flags src I) as (r & s1 & E1 & I1 & C1 & Ec & Hle & Hr); [lia|].
  rewrite (bind_ok _ _ _ _ _ E1). destruct r as [tp|].
  { exists (Some tp), s1. split_and!; try done; try lia; by intros ? ?. }
  destruct (ldp_af_conf_get_ok (d_conf s) _ Haf) as [ac Eac]. rewrite (bind_lift_ok _ _ _ _ Eac).
  destruct (negb (_ && _)); [exists None, s1; split_and!; try done; try lia; by intros ? ?|].
  unfold tnbr_new. pose proof (alloc_inv s1 I1) as I2. cbn in I2.
  set (s2 := Disc (d_conf s1) _ _ _ _ _ _ _ _ _ _ _ _) in I2.
  assert ((do p <- alloc; ret (Tnbr p af src TNBR_STA_DOWN 0 0 None None)) s1
    = Ok (Tnbr (d_next s1) af src TNBR_STA_DOWN 0 0 None None, s2)) as E2 by done.
  rewrite (bind_ok _ _ _ _ _ E2). set (t := set_t_flags _ _). pose proof (di_cnt _ I1).
  destruct (tnbr_updated_ok s2 t) as (t' & s3 & E3 & S3 & Hp & Haf' & Hadj); [done|cbn; lia|].
  rewrite (bind_ok _ _ _ _ _ E3). pose proof (maybe_sent_inv _ _ I2 S3) as I3.
  destruct (maybe_sent_eqs _ _ S3) as (_ & _ & Ea & Et & _ & _ & En & C3). cbn in Ea, Et, En, C3.
  unfold bind, modify, ret. cbn [rbind]. do 2 eexists. split; [done|].
  split; [apply add_tnbr_inv; [done| | |by rewrite Haf'|by rewrite Hadj]|].
  - rewrite Hp, Et. apply find_ptr_none. intros Hin. apply (di_tnbrs _ I1) in Hin. cbn in Hin. lia.
  - rewrite Hp, En. cbn. lia.
  - split; [cbn; lia|]. split; [unfold adjs_le; cbn; by rewrite Ea|]. intros tp [= <-]. cbn.
    rewrite find_ptr_cons.
    change (ptr_of t') with (t_ptr t'). by rewrite Z.eqb_refl.
Qed.
End Target.

(** ** A new adjacency *)
Definition bump (s : disc) : disc :=
  Disc (d_conf s) (d_addr_list s) (d_nbrs s) (d_adjs s) (d_tnbrs s) (d_ifaces s) (d_pconns s)
    (d_msgcnt s) (d_peercnt s) (d_pids s) (d_lde s) (d_sent s) (d_next s + 1).
Definition cons_ia (p : Z) (ia : iface_af) : iface_af := set_ia_adj_list ia (p :: ia_adj_list ia).
Definition cons_nb (p : Z) (nb : dnbr) : dnbr := set_dn_adj_list nb (p :: dn_adj_list nb).
Definition point_t (p : Z) (t : tnbr) : tnbr := set_t_adj t (Some p).

Definition link_src (p : Z) (source : hello_source) (s : disc) : disc :=
  match source with
  | SrcLink ifp af _ => set_ifaces (upd_ptr ifp (ia_upd af (cons_ia p))) s
  | SrcTarget t => set_tnbrs (upd_ptr t (point_t p)) s
  end.
Definition link_nb (p : Z) (n : option Z) (s : disc) : disc :=
  match n with Some n => set_nbrs (upd_ptr n (cons_nb p)) s | None => s end.
Definition new_adj (s : disc) (lsr_id : Z) (n : option Z) (source : hello_source) (addr : ldpd_addr) : adj :=
  Adj (d_next s) lsr_id n source 0 addr None.
Definition adj_added (lsr_id : Z) (n : option Z) (source : hello_source) (addr : ldpd_addr)
    (s : disc) : disc :=
  set_adjs (cons (new_adj s lsr_id n source addr))
    (link_nb (d_next s) n (link_src (d_next s) source (bump s))).

(** Sources that have no adjacency yet. *)
Definition source_free (s : disc) (source : hello_source) : Prop :=
  match source with
  | SrcLink ifp af _ => af_ok af /\ is_Some (find_ptr ifp (d_ifaces s))
  | SrcTarget t => exists tn, find_ptr t (d_tnbrs s) = Some tn /\ t_adj tn = None
  end.
Definition nbr_choice (s : disc) (lsr_id : Z) (n : option Z) : Prop :=
  match n with
  | Some n => exists nb, find_ptr n (d_nbrs s) = Some nb /\ dn_id nb = lsr_id
  | None => forall n nb, find_ptr n (d_nbrs s) = Some nb -> dn_id nb <> lsr_id
  end.

Section NewAdj.
Variables (s : disc) (lsr_id : Z) (n : option Z) (source : hello_source) (addr : ldpd_addr).
Notation p := (d_next s).
Notation s' := (adj_added lsr_id n source addr s).

Lemma added_adjs q : find_ptr q (d_adjs s') =
  if q =? p then Some (new_adj s lsr_id n source addr) else find_ptr q (d_adjs s).
Proof.
  unfold adj_added, link_nb, link_src. cbn. destruct n, source; cbn; rewrite find_ptr_cons;
    change (ptr_of (new_adj _ _ _ _ _)) with p; rewrite Z.eqb_sym; done.
Qed.

Lemma added_nbrs m : find_ptr m (d_nbrs s') =
  match n with
  | Some n => if m =? n then cons_nb p <$> find_ptr m (d_nbrs s) else find_ptr m (d_nbrs s)
  | None => find_ptr m (d_nbrs s)
  end.
Proof. unfold adj_added, link_nb, link_src. destruct n, source; cbn; by rewrite ?find_ptr_upd by done. Qed.

Lemma added_tnbrs t : find_ptr t (d_tnbrs s') =
  match source with
  | SrcTarget u => if t =? u then point_t p <$> find_ptr t (d_tnbrs s) else find_ptr t (d_tnbrs s)
  | SrcLink _ _ _ => find_ptr t (d_tnbrs s)
  end.
Proof. unfold adj_added, link_nb, link_src. destruct n, source; cbn; by rewrite ?find_ptr_upd by done. Qed.

Lemma added_ifaces q : find_ptr q (d_ifaces s') =
  match source with
  | SrcLink ifp af _ => if q =? ifp then ia_upd af (cons_ia p) <$> find_ptr q (d_ifaces s)
                        else find_ptr q (d_ifaces s)
  | SrcTarget _ => find_ptr q (d_ifaces s)
  end.
Proof.
  unfold adj_added, link_nb, link_src.
  destruct n, source; cbn; by rewrite ?find_ptr_upd by apply keeps_ia_upd.
Qed.

Hypothesis I : disc_inv s.
Hypothesis Hsrc : source_free s source.
Hypothesis Hn : nbr_choice s lsr_id n.

Lemma fresh_adj : find_ptr p (d_adjs s) = None.
Proof. apply find_ptr_none. intros H. apply (di_adjs _ I) in H. lia. Qed.

Lemma added_adj_ok q a : find_ptr q (d_adjs s') = Some a -> adj_ok s' q a.
Proof.
  rewrite added_adjs. destruct (q =? p) eqn:E; zbool; [subst q|].
  - intros [= <-]. split; cbn [new_adj a_nbr a_source a_lsr_id].
    + destruct n as [m|] eqn:En.
      * destruct Hn as (nb & Hnb & Hid). rewrite <- En, added_nbrs, En, Z.eqb_refl, Hnb. eexists.
        split; [done|]. split; [left|done].
      * intros m nb. rewrite <- En, added_nbrs, En. apply Hn.
    + destruct source as [ifp af src|t] eqn:Es.
      * destruct Hsrc as [Haf [i Hi]]. split; [done|]. rewrite <- Es, added_ifaces, Es, Z.eqb_refl, Hi.
        eexists. split; [done|]. unfold ia_upd. rewrite ia_of_set, Z.eqb_refl by done. left.
      * destruct Hsrc as (tn & Htn & _). rewrite <- Es, added_tnbrs, Es, Z.eqb_refl, Htn. by eexists.
  - intros Ha. destruct (di_adj _ I _ _ Ha) as [H1 H2]. split.
    + destruct (a_nbr a) as [m|].
      * destruct H1 as (nb & Hnb & Hin & Hid). rewrite added_nbrs, Hnb.
        destruct n as [n0|]; [|by eauto]. destruct (m =? n0); [|by eauto]. eexists. split; [done|].
        split; [by right|done].
      * intros m nb. rewrite added_nbrs. destruct n as [n0|]; [|apply H1].
        destruct (m =? n0); [|apply H1]. destruct (find_ptr m (d_nbrs s)) as [nb0|] eqn:E0; [|done].
        intros [= <-]. by apply (H1 m nb0).
    + destruct (a_source a) as [ifp af src|t].
      * destruct H2 as (Haf & i & Hi & Hin). split; [done|]. rewrite added_ifaces, Hi.
        destruct source as [q2 af2 src2|]; [|by eauto]. destruct (ifp =? q2); [|by eauto].
        eexists. split; [done|]. unfold ia_upd. rewrite ia_of_set by (done || by destruct Hsrc).
        destruct (af =? af2) eqn:Ea; zbool; [subst; by right|done].
      * destruct H2 as (tn & Htn & Hadj). rewrite added_tnbrs, Htn.
        destruct source as [|u]; [by eauto|]. destruct (t =? u) eqn:Eu; zbool; [|by eauto]. subst.
        destruct Hsrc as (tn' & Htn' & Hnone). congruence.
Qed.

Lemma old_adj q a : find_ptr q (d_adjs s) = Some a -> find_ptr q (d_adjs s') = Some a.
Proof.
  intros Hq. rewrite added_adjs. destruct (q =? p) eqn:E; zbool; [|done].
  subst. by rewrite fresh_adj in Hq.
Qed.

Lemma added_nbr_ok m nb : find_ptr m (d_nbrs s') = Some nb -> nbr_ok s' m nb.
Proof.
  rewrite added_nbrs. intros Hm.
  assert (nbr_ok s m nb \/ exists nb0, find_ptr m (d_nbrs s) = Some nb0 /\ nb = cons_nb p nb0 /\ n = Some m)
    as [(H1 & H2 & H3 & H4) | (nb0 & Hm0 & -> & En)].
  { destruct n as [n0|]; [|left; by apply (di_nbr _ I)].
    destruct (m =? n0) eqn:E; zbool; [|left; by apply (di_nbr _ I)]. subst.
    destruct (find_ptr n0 (d_nbrs s)) as [nb0|]; simplify_eq/=. right. eauto. }
  - split_and!; try done. intros q Hq. destruct (H4 q Hq) as (a & Ha & Han). eauto using old_adj.
  - destruct (di_nbr _ I _ _ Hm0) as (H1 & H2 & H3 & H4). split_and!; try done; cbn.
    + apply NoDup_cons. split; [|done]. intros Hin. destruct (H4 _ Hin) as (a & Ha & _).
      by rewrite fresh_adj in Ha.
    + intros q Hq. apply elem_of_cons in Hq as [-> | Hq].
      * rewrite added_adjs, Z.eqb_refl. eexists. split; [done|]. exact En.
      * destruct (H4 q Hq) as (a & Ha & Han). eauto using old_adj.
Qed.

Lemma added_tnbr_ok t tn : find_ptr t (d_tnbrs s') = Some tn -> tnbr_ok s' t tn.
Proof.
  rewrite added_tnbrs. intros Ht.
  assert (tnbr_ok s t tn \/ exists tn0, find_ptr t (d_tnbrs s) = Some tn0 /\ tn = point_t p tn0 /\
    source = SrcTarget t) as [[H1 H2] | (tn0 & Ht0 & -> & Es)].
  { destruct source as [|u]; [left; by apply (di_tnbr _ I)|].
    destruct (t =? u) eqn:E; zbool; [|left; by apply (di_tnbr _ I)]. subst.
    destruct (find_ptr u (d_tnbrs s)) as [tn0|]; simplify_eq/=. right. eauto. }
  - split; [done|]. intros q Hq. destruct (H2 q Hq) as (a & Ha & Has). eauto using old_adj.
  - destruct (di_tnbr _ I _ _ Ht0) as [H1 _]. split; [done|]. intros q [= <-].
    rewrite added_adjs, Z.eqb_refl. eexists. split; [done|]. exact Es.
Qed.

Lemma added_iface_ok q i : find_ptr q (d_ifaces s') = Some i -> iface_ok s' q i.
Proof.
  rewrite added_ifaces. intros Hi af Haf.
  assert (exists i0, find_ptr q (d_ifaces s) = Some i0 /\
    (ia_adj_list (ia_of i af) = ia_adj_list (ia_of i0 af) \/
     ia_adj_list (ia_of i af) = p :: ia_adj_list (ia_of i0 af) /\ exists src, source = SrcLink q af src))
    as (i0 & Hi0 & Hl).
  { destruct source as [q2 af2 src|]; [|by eauto]. destruct (q =? q2) eqn:E; zbool; [|by eauto]. subst.
    destruct (find_ptr q2 (d_ifaces s)) as [i0|]; simplify_eq/=. exists i0. split; [done|].
    unfold ia_upd. rewrite ia_of_set by (done || by destruct Hsrc).
    destruct (af =? af2) eqn:Ea; zbool; [subst|by left]. right. eauto. }
  destruct (di_iface _ I _ _ Hi0 af Haf) as [H1 H2].
  assert (p ∉ ia_adj_list (ia_of i0 af)) as Hfresh.
  { intros Hin. destruct (H2 _ Hin) as (a & src & Ha & _). by rewrite fresh_adj in Ha. }
  destruct Hl as [-> | [-> [src Es]]].
  - split; [done|]. intros r Hr. destruct (H2 r Hr) as (a & src & Ha & Has). eauto using old_adj.
  - split; [by apply NoDup_cons|]. intros r Hr. apply elem_of_cons in Hr as [-> | Hr].
    + rewrite added_adjs, Z.eqb_refl. do 2 eexists. split; [done|]. exact Es.
    + destruct (H2 r Hr) as (a & src' & Ha & Has). eauto using old_adj.
Qed.

Lemma added_plen q i : find_ptr q (d_ifaces s') = Some i -> Forall plen_ok (if_addr_list i).
Proof.
  rewrite added_ifaces. destruct source as [ifp af src|]; [|apply (di_plen _ I)].
  destruct (q =? ifp); [|apply (di_plen _ I)].
  destruct (find_ptr q (d_ifaces s)) as [j|] eqn:E; [|done]. intros [= <-].
  apply (di_plen _ I) in E. unfold ia_upd, set_if_af. by destruct (af =? AF_INET).
Qed.

Lemma added_inv : disc_inv s'.
Proof.
  destruct I as [Inb Ia It Ii _ _ _ _ _ Ic].
  split; eauto using added_adj_ok, added_nbr_ok, added_tnbr_ok, added_iface_ok, added_plen;
    unfold adj_added, link_nb, link_src; destruct n, source; cbn;
    try apply store_ok_upd; try apply keeps_ia_upd; try done;
    try (apply store_ok_cons; done); eapply store_ok_mono; try eassumption; lia.
Qed.
End NewAdj.

Section RunNewAdj.
Lemma upd_ptr_notin {A} `{Ptr A} p f (l : list A) : find_ptr p l = None -> upd_ptr p f l = l.
Proof.
  intros Hf. unfold upd_ptr. rewrite <- (map_id l) at 2. apply map_ext_in. intros x Hx.
  destruct (ptr_of x =? p) eqn:E; [|done]. zbool. apply find_ptr_none in Hf. exfalso. apply Hf.
  rewrite <- E. apply list_elem_of_fmap_2. by apply list_elem_of_In.
Qed.

Lemma adj_new_ok s lsr_id source addr : disc_inv s -> source_free s source ->
  adj_new lsr_id source addr s = Ok (d_next s, adj_added lsr_id None source addr s).
Proof.
  intros I Hsrc. unfold adj_new. rewrite (bind_ok alloc _ s (d_next s) (bump s)) by done.
  set (s1 := set_adjs (cons (new_adj s lsr_id None source addr)) (bump s)).
  rewrite (bind_ok _ _ (bump s) tt s1) by done.
  assert ((match source with
           | SrcLink ifp af _ => mod_ia ifp af (cons_ia (d_next s))
           | SrcTarget t => mod_tnbr t (point_t (d_next s))
           end) s1 = Ok (tt, link_src (d_next s) source s1)) as E.
  { destruct source as [ifp af src|t].
    - destruct Hsrc as [Haf [i Hi]]. by apply (mod_ia_ok s1 ifp af i).
    - destruct Hsrc as (tn & Htn & _). by apply (mod_tnbr_ok s1 t tn). }
  unfold cons_ia at 1, point_t at 1 in E. rewrite (bind_ok _ _ _ _ _ E).
  unfold ret. do 2 f_equal. by destruct source.
Qed.

Lemma adj_new_linked_ok s lsr_id source addr (n : option Z) :
  disc_inv s -> source_free s source -> nbr_choice s lsr_id n ->
  (do q <- adj_new lsr_id source addr;
   match n with
   | Some m => mod_adj q (fun a => set_a_nbr a (Some m)) ;;;
               mod_dnbr m (fun nb => set_dn_adj_list nb (q :: dn_adj_list nb))
   | None => ret tt
   end ;;; ret q) s = Ok (d_next s, adj_added lsr_id n source addr s).
Proof.
  intros I Hsrc Hn. rewrite (bind_ok _ _ _ _ _ (adj_new_ok s lsr_id source addr I Hsrc)).
  destruct n as [m|]; [|done]. destruct Hn as (nb & Hnb & _).
  set (s1 := adj_added lsr_id None source addr s).
  assert (find_ptr (d_next s) (d_adjs s1) = Some (new_adj s lsr_id None source addr)) as Ha
    by (unfold s1; by rewrite added_adjs, Z.eqb_refl).
  assert (find_ptr m (d_nbrs s1) = Some nb) as Hm by (unfold s1; by rewrite added_nbrs).
  assert ((mod_adj (d_next s) (fun a => set_a_nbr a (Some m)) ;;;
           mod_dnbr m (fun nb => set_dn_adj_list nb (d_next s :: dn_adj_list nb))) s1
    = Ok (tt, set_nbrs (upd_ptr m (cons_nb (d_next s)))
                (set_adjs (upd_ptr (d_next s) (fun a => set_a_nbr a (Some m))) s1))) as E.
  { rewrite (bind_ok _ _ _ _ _ (mod_adj_ok _ _ _ _ Ha)). by apply (mod_dnbr_ok _ _ nb). }
  rewrite (bind_ok _ _ _ _ _ E). unfold ret. do 2 f_equal.
  unfold s1, adj_added, link_nb, link_src, set_adjs, set_nbrs, set_tnbrs, set_ifaces, bump.
  pose proof (fresh_adj s I) as Hfr.
  destruct source; cbn; f_equal; unfold upd_ptr at 1; cbn;
    change (ptr_of (new_adj s lsr_id None _ addr)) with (d_next s); rewrite Z.eqb_refl; f_equal;
    by apply upd_ptr_notin.
Qed.
End RunNewAdj.

(** ** A new neighbour *)
Section Link.
Variables (p id : Z).

Definition link_one (a : adj) (b : bool) : option adj :=
  Some (if b && (a_lsr_id a =? id) then set_a_nbr a (Some p) else a).

(** Linking the adjacencies of [l], all of them unlinked. *)
Lemma link_adjs_ok l : forall s nb, NoDup (ptrs l) -> find_ptr p (d_nbrs s) = Some nb ->
  (forall a, a ∈ l -> find_ptr (a_ptr a) (d_adjs s) = Some a) ->
  (forall a, a ∈ l -> a_lsr_id a = id -> a_nbr a = None) ->
  exists s', link_adjs l p id s = Ok (tt, s') /\
    same_heap (set_adjs (fun _ => d_adjs s') s) s' /\ d_msgcnt s' = d_msgcnt s /\
    ptrs (d_adjs s') = ptrs (d_adjs s) /\ ptrs (d_nbrs s') = ptrs (d_nbrs s) /\
    (forall m, m <> p -> find_ptr m (d_nbrs s') = find_ptr m (d_nbrs s)) /\
    (exists mine, find_ptr p (d_nbrs s') = Some (set_dn_adj_list nb (mine ++ dn_adj_list nb)) /\
       NoDup mine /\ forall q, q ∈ mine <-> exists a, a ∈ l /\ a_ptr a = q /\ a_lsr_id a = id) /\
    (forall q, find_ptr q (d_adjs s') =
       match find_ptr q (d_adjs s) with
       | Some a => link_one a (bool_decide (q ∈ ptrs l))
       | None => None
       end).
Proof.
  induction l as [|a l IH]; intros s nb Hnd Hp Hfind Hnone; cbn [link_adjs].
  { exists s. split_and!; try done.
    - exists []. split; [|split; [constructor|set_solver]]. rewrite Hp. by destruct nb.
    - intros q. destruct (find_ptr q (d_adjs s)); [|done].
      by rewrite bool_decide_eq_false_2 by set_solver. }
  cbn in Hnd. apply NoDup_cons in Hnd as [Hal Hnd]. change (ptr_of a) with (a_ptr a) in Hal.
  assert (find_ptr (a_ptr a) (d_adjs s) = Some a) as Ha by (apply Hfind; left).
  assert (forall q, bool_decide (q ∈ ptrs (a :: l)) = (q =? a_ptr a) || bool_decide (q ∈ ptrs l)) as Hmem.
  { intros q. destruct (q =? a_ptr a) eqn:E; zbool; cbn.
    - apply bool_decide_eq_true_2. subst. left.
    - apply bool_decide_ext. rewrite elem_of_cons. change (ptr_of a) with (a_ptr a). tauto. }
  destruct (a_lsr_id a =? id) eqn:Eid.
  - apply Z.eqb_eq in Eid as Eid'. rewrite (Hnone a) by (done || left).
    set (s1 := set_nbrs (upd_ptr p (cons_nb (a_ptr a)))
                 (set_adjs (upd_ptr (a_ptr a) (fun a => set_a_nbr a (Some p))) s)).
    assert ((mod_adj (a_ptr a) (fun a => set_a_nbr a (Some p)) ;;;
             mod_dnbr p (fun n => set_dn_adj_list n (a_ptr a :: dn_adj_list n))) s = Ok (tt, s1)) as E1.
    { rewrite (bind_ok _ _ _ _ _ (mod_adj_ok _ _ _ _ Ha)). by apply (mod_dnbr_ok _ _ nb). }
    rewrite (bind_ok _ _ _ _ _ E1).
    destruct (IH s1 (cons_nb (a_ptr a) nb)) as (s' & E' & P' & C' & A' & N' & M' & (mine & F' & ND' & Q') & Z').
    + done.
    + unfold s1. cbn. by rewrite find_ptr_upd, Z.eqb_refl, Hp by done.
    + intros b Hb. unfold s1. cbn. rewrite find_ptr_upd by done.
      destruct (a_ptr b =? a_ptr a) eqn:E; zbool; [|apply Hfind; by right].
      exfalso. apply Hal. rewrite <- E. by apply (list_elem_of_fmap_2 ptr_of).
    + intros b Hb. apply Hnone. by right.
    + exists s'. split; [done|]. split; [by destruct P'|]. split; [done|].
      split; [rewrite A'; by apply ptrs_upd|]. split; [rewrite N'; by apply ptrs_upd|]. split_and!.
      * intros m Hm. rewrite M' by done. unfold s1. cbn. rewrite find_ptr_upd by done.
        by apply Z.eqb_neq in Hm as ->.
      * exists (mine ++ [a_ptr a]). split; [rewrite F'; cbn; by rewrite <- app_assoc|]. split.
        -- apply NoDup_app. split_and!; [done| |apply NoDup_singleton].
           intros q Hq Hq'. apply list_elem_of_singleton in Hq' as ->.
           apply Q' in Hq as (b & Hb & Hbp & _). apply Hal. rewrite <- Hbp.
           by apply (list_elem_of_fmap_2 ptr_of).
        -- intros q. rewrite elem_of_app, list_elem_of_singleton, Q'. split.
           ++ intros [(b & Hb & ? & ?) | ->]; [exists b; split; [by right|done]|].
              exists a. split; [left|done].
           ++ intros (b & Hb & Hbp & Hbi). apply elem_of_cons in Hb as [-> | Hb]; [by right|].
              left. eauto.
      * intros q. rewrite Z', Hmem. unfold s1. cbn. rewrite find_ptr_upd by done.
        destruct (q =? a_ptr a) eqn:E; zbool; [|done]. subst q. rewrite Ha. cbn.
        rewrite bool_decide_eq_false_2 by done. unfold link_one. by rewrite Eid', Z.eqb_refl.
  - rewrite (bind_ok _ _ s tt s) by done.
    destruct (IH s nb) as (s' & E' & P' & C' & A' & N' & M' & (mine & F' & ND' & Q') & Z');
      [done|done|intros; apply Hfind; by right|intros b Hb; apply Hnone; by right|].
    exists s'. split_and!; try done.
    + exists mine. split_and!; try done. intros q. rewrite Q'. split.
      * intros (b & Hb & ? & ?). exists b. split; [by right|done].
      * intros (b & Hb & Hbp & Hbi). apply elem_of_cons in Hb as [-> | Hb]; [zbool; congruence|]. eauto.
    + intros q. rewrite Z', Hmem. destruct (find_ptr q (d_adjs s)) as [b|] eqn:Eb; [|done].
      destruct (q =? a_ptr a) eqn:E; zbool; [|done]. subst q. rewrite Ha in Eb. simplify_eq.
      unfold link_one. apply Z.eqb_neq in Eid as ->. by rewrite !andb_false_r.
Qed.
End Link.

Section Insert.
Context {A K : Type} (key : A -> K) (cmp : K -> K -> Z).

Lemma rb_insert_perm x t t' : rb_insert key cmp x t = Some t' -> t' ≡ₚ x :: t.
Proof.
  revert t'; induction t as [|y t IH]; intros t' H; cbn in H; [by simplify_eq|].
  destruct (_ <? 0); [by simplify_eq|]. destruct (_ =? 0); [done|].
  destruct (rb_insert key cmp x t) as [t2|] eqn:E; simplify_eq.
  rewrite (IH _ eq_refl). apply Permutation_swap.
Qed.

Lemma rb_insert_some x t : (forall y, y ∈ t -> cmp (key x) (key y) <> 0) ->
  exists t', rb_insert key cmp x t = Some t'.
Proof.
  induction t as [|y t IH]; intros H; cbn; [by eexists|].
  specialize (H y) as Hy. apply Z.eqb_neq in Hy; [|left].
  destruct IH as [t' ->]; [intros z Hz; apply H; by right|]. rewrite Hy.
  destruct (_ <? 0); by eexists.
Qed.
End Insert.

Section NbrIds.
Lemma nbr_id_compare_0 a b : is_u 32 a -> is_u 32 b -> nbr_id_compare a b = 0 <-> a = b.
Proof.
  intros Ha Hb. unfold nbr_id_compare. rewrite int_of_u32_0.
  pose proof (htonl_bound a) as Ba. pose proof (htonl_bound b) as Bb. fold (ntohl a) in Ba.
  fold (ntohl b) in Bb. unfold is_u, u32 in *. split.
  - intros H. apply ntohl_inj; [done|done|]. apply Z.mod_divide in H as [k Hk]; [|lia]. nia.
  - intros ->. by rewrite Z.sub_diag.
Qed.

Lemma nbr_find_ldpid_some s id nb : disc_inv s -> is_u 32 id -> nbr_find_ldpid s id = Some nb ->
  find_ptr (dn_ptr nb) (d_nbrs s) = Some nb /\ dn_id nb = id.
Proof.
  intros I Hid H. apply list_find_in in H as [Hin H0]. zbool.
  assert (find_ptr (dn_ptr nb) (d_nbrs s) = Some nb) as Hf
    by (apply find_ptr_in; [by apply (di_nbrs _ I)|done]).
  split; [done|]. symmetry. apply nbr_id_compare_0; [done| |done].
  by destruct (di_nbr _ I _ _ Hf) as (_ & ? & _).
Qed.

Lemma nbr_find_ldpid_none s id : disc_inv s -> is_u 32 id -> nbr_find_ldpid s id = None ->
  forall n nb, find_ptr n (d_nbrs s) = Some nb -> dn_id nb <> id.
Proof.
  intros I Hid H n nb Hn He. apply find_ptr_ptr in Hn as Hin. destruct Hin as [_ Hin].
  apply list_elem_of_In in Hin. pose proof (find_none _ _ H nb Hin) as Hc. cbn in Hc. zbool.
  apply Hc, nbr_id_compare_0; [done| |by symmetry]. by destruct (di_nbr _ I _ _ Hn) as (_ & ? & _).
Qed.
End NbrIds.

(** ** Session events on a neighbour without a session *)
Section Start.
Lemma wp_accept e : nbr_inv (e_nbr e) -> n_state (e_nbr e) = NBR_STA_PRESENT ->
  wp session_accept_nbr (fun e' => nbr_inv (e_nbr e') /\ e_msgcnt e' = e_msgcnt e) e.
Proof.
  intros Hi Hs. unfold session_accept_nbr. repeat wp_step. unfold nbr_fsm. rewrite nbr_fsm_n_S.
  unfold nbr_fsm_body. apply wp_nbr. cbn [e_nbr upd_nbr n_state set_n_tcp]. rewrite Hs.
  eval_lookup. repeat wp_step. cbn. split; [|done]. destruct Hi. rewrite Hs in *.
  constructor; cbn; try done; try set_solver; intuition congruence.
Qed.

Lemma wp_connect_up e : nbr_inv (e_nbr e) -> 0 <= e_msgcnt e < 2 ^ 31 - 5 ->
  wp (nbr_fsm NBR_EVT_CONNECT_UP)
    (fun e' => nbr_inv (e_nbr e') /\ e_msgcnt e <= e_msgcnt e' <= e_msgcnt e + 1) e.
Proof.
  intros Hi Hc. pose proof (inv_cases _ _ Hi) as Hs. unfold nbr_fsm. rewrite nbr_fsm_n_S.
  unfold nbr_fsm_body. apply wp_nbr.
  destruct Hs as [E|[E|[E|[E|E]]]]; rewrite E; eval_lookup; repeat wp_step;
    try (split; [done|lia]).
  apply wp_sends; [apply send_init_ok; cbn; [done|lia|by destruct Hi]|].
  intros e1 [Hn _ Hc1 _ _ _ _]. eapply wp_mono; [apply wp_init_sent; by rewrite Hn|]. cbn in *.
  intros e2 [E2 C2]. rewrite E2, Hn. split; [|lia]. destruct Hi. rewrite E in *.
  constructor; cbn; try done; try set_solver; intuition congruence.
Qed.

Lemma keeps_accept : keeps session_accept_nbr.
Proof. apply (keeps_run_op OpAccept). Qed.
End Start.

Section NewNbr.
Lemma nbr_init_inv id af ds l r : af_ok af -> nbr_inv (nbr_init id af ds l r).
Proof. intros H. constructor; cbn; try done; try set_solver; intuition congruence. Qed.

(** The heap once the adjacencies of the new neighbour [p] are linked. *)
Record linked (p : Z) (nb : dnbr) (s s' : disc) : Prop := Linked {
  lk_adjs : forall q, find_ptr q (d_adjs s') =
    match find_ptr q (d_adjs s) with
    | Some a => Some (if a_lsr_id a =? dn_id nb then set_a_nbr a (Some p) else a)
    | None => None
    end;
  lk_mine : forall q, q ∈ dn_adj_list nb <->
    exists a, find_ptr q (d_adjs s) = Some a /\ a_lsr_id a = dn_id nb;
  lk_nodup : NoDup (dn_adj_list nb);
  lk_nbrs : forall m, find_ptr m (d_nbrs s') = if m =? p then Some nb else find_ptr m (d_nbrs s);
  lk_tnbrs : d_tnbrs s' = d_tnbrs s;
  lk_ifaces : d_ifaces s' = d_ifaces s;
  lk_conf : d_conf s' = d_conf s;
  lk_cnt : d_msgcnt s' = d_msgcnt s;
  lk_store_a : ptrs (d_adjs s') = ptrs (d_adjs s);
  lk_next : d_next s' = d_next s + 1;
  lk_pconns : d_pconns s' = d_pconns s
}.

Lemma linked_inv p nb s s' : disc_inv s -> p = d_next s -> linked p nb s s' ->
  nbr_inv (dn_nbr nb) -> is_u 32 (dn_id nb) -> store_ok (d_next s') (d_nbrs s') ->
  (forall n nb', find_ptr n (d_nbrs s) = Some nb' -> dn_id nb' <> dn_id nb) -> disc_inv s'.
Proof.
  intros I -> L Hinv Hu Hst Hnone.
  assert (forall m nb', find_ptr m (d_nbrs s) = Some nb' -> m <> d_next s) as Hfr.
  { intros m nb' Hm ->. eapply store_ok_find in Hm; [|apply (di_nbrs _ I)]. lia. }
  assert (forall q a, find_ptr q (d_adjs s) = Some a -> a_lsr_id a = dn_id nb -> a_nbr a = None) as Hun.
  { intros q a Ha Hid. destruct (di_adj _ I _ _ Ha) as [H1 _]. destruct (a_nbr a) as [m|]; [|done].
    destruct H1 as (nb' & Hm & _ & Hid'). exfalso. apply (Hnone m nb' Hm). congruence. }
  assert (forall q a, find_ptr q (d_adjs s) = Some a -> exists a', find_ptr q (d_adjs s') = Some a' /\
    a_source a' = a_source a) as Hsrc.
  { intros q a Ha. rewrite (lk_adjs _ _ _ _ L), Ha. eexists. split; [done|]. by case_match. }
  split; [done|..].
  - split; [rewrite (lk_store_a _ _ _ _ L); apply (di_adjs _ I)|].
    rewrite (lk_store_a _ _ _ _ L), (lk_next _ _ _ _ L). intros q Hq.
    apply (di_adjs _ I) in Hq. lia.
  - rewrite (lk_tnbrs _ _ _ _ L), (lk_next _ _ _ _ L). eapply store_ok_mono; [|apply I]. lia.
  - rewrite (lk_ifaces _ _ _ _ L), (lk_next _ _ _ _ L). eapply store_ok_mono; [|apply I]. lia.
  - intros q a'. rewrite (lk_adjs _ _ _ _ L). destruct (find_ptr q (d_adjs s)) as [a|] eqn:Ha; [|done].
    intros [= <-]. destruct (di_adj _ I _ _ Ha) as [H1 H2].
    destruct (a_lsr_id a =? dn_id nb) eqn:E; zbool.
    + split; cbn.
      * exists nb. rewrite (lk_nbrs _ _ _ _ L), Z.eqb_refl. split_and!; try done.
        apply (lk_mine _ _ _ _ L). eauto.
      * by rewrite (lk_ifaces _ _ _ _ L), (lk_tnbrs _ _ _ _ L).
    + split; [|by rewrite (lk_ifaces _ _ _ _ L), (lk_tnbrs _ _ _ _ L)].
      destruct (a_nbr a) as [m|].
      * destruct H1 as (nb' & Hm & ? & ?). exists nb'. rewrite (lk_nbrs _ _ _ _ L).
        pose proof (Hfr _ _ Hm) as Hne. apply Z.eqb_neq in Hne as ->. done.
      * intros m nb'. rewrite (lk_nbrs _ _ _ _ L). destruct (m =? d_next s); [|apply H1].
        intros [= <-]. congruence.
  - intros m nb'. rewrite (lk_nbrs _ _ _ _ L). destruct (m =? d_next s) eqn:E; zbool.
    + intros [= <-]. subst m. split_and!; try done; [apply (lk_nodup _ _ _ _ L)|].
      intros q Hq. apply (lk_mine _ _ _ _ L) in Hq as (a & Ha & Hid). rewrite (lk_adjs _ _ _ _ L), Ha.
      eexists. split; [done|]. by rewrite Hid, Z.eqb_refl.
    + intros Hm. destruct (di_nbr _ I _ _ Hm) as (H1 & H2 & H3 & H4). split_and!; try done.
      intros q Hq. destruct (H4 q Hq) as (a & Ha & Hn). rewrite (lk_adjs _ _ _ _ L), Ha.
      destruct (a_lsr_id a =? dn_id nb) eqn:E2; zbool; [|by eauto]. rewrite (Hun q a Ha E2) in Hn. done.
  - rewrite (lk_tnbrs _ _ _ _ L). intros t tn Ht. destruct (di_tnbr _ I _ _ Ht) as [H1 H2].
    split; [done|]. intros q Hq. destruct (H2 q Hq) as (a & Ha & Has).
    destruct (Hsrc _ _ Ha) as (a' & ? & ?). exists a'. split; [done|congruence].
  - rewrite (lk_ifaces _ _ _ _ L). intros ifp i Hi af Haf.
    destruct (di_iface _ I _ _ Hi af Haf) as [H1 H2]. split; [done|]. intros q Hq.
    destruct (H2 q Hq) as (a & src & Ha & Has). destruct (Hsrc _ _ Ha) as (a' & ? & ?).
    exists a', src. split; [done|congruence].
  - rewrite (lk_ifaces _ _ _ _ L). apply I.
  - rewrite (lk_cnt _ _ _ _ L). apply I.
Qed.

(** Creating a neighbour, up to the pending connection. *)
Definition nbr_made (s : disc) (id af : Z) (ds : bool) (addr : ldpd_addr) (scope : Z)
    (laddr : ldpd_addr) (l : list Z) : dnbr :=
  Dnbr (d_next s) (nbr_init id af ds laddr addr) scope ds 0 0 l [] (MapLists [] [] [] []).

Lemma nbr_new_linked s id af ds addr scope laddr :
  disc_inv s -> (forall n nb, find_ptr n (d_nbrs s) = Some nb -> dn_id nb <> id) -> is_u 32 id ->
  af_ok af ->
  exists nbrs l s', rb_insert dn_id nbr_id_compare (nbr_made s id af ds addr scope laddr [])
      (d_nbrs s) = Some nbrs /\
    link_adjs (d_adjs s) (d_next s) id (set_nbrs (fun _ => nbrs) (bump s)) = Ok (tt, s') /\
    linked (d_next s) (nbr_made s id af ds addr scope laddr l) s s' /\ disc_inv s'.
Proof.
  intros I Hnone Hid Haf. set (nb := nbr_made s id af ds addr scope laddr []).
  destruct (rb_insert_some dn_id nbr_id_compare nb (d_nbrs s)) as [nbrs En].
  { intros y Hy. assert (find_ptr (dn_ptr y) (d_nbrs s) = Some y) as Hf
      by (apply find_ptr_in; [apply (di_nbrs _ I)|done]).
    rewrite nbr_id_compare_0; [|done|by destruct (di_nbr _ I _ _ Hf) as (_ & ? & _)].
    intros He. by apply (Hnone _ _ Hf). }
  pose proof (rb_insert_perm _ _ _ _ _ En) as Hperm.
  assert (store_ok (d_next s + 1) (nb :: d_nbrs s)) as Hst by (by apply store_ok_cons, I).
  assert (store_ok (d_next s + 1) nbrs) as Hst'.
  { destruct Hst as [H1 H2]. unfold store_ok, ptrs in *. split; [by rewrite Hperm|].
    intros q. rewrite Hperm. apply H2. }
  assert (forall m, find_ptr m nbrs = if m =? d_next s then Some nb else find_ptr m (d_nbrs s)) as Hfind.
  { intros m. assert (find_ptr m nbrs = find_ptr m (nb :: d_nbrs s)) as ->.
    { destruct (find_ptr m (nb :: d_nbrs s)) as [x|] eqn:E.
      - apply find_ptr_ptr in E as [<- Hx]. apply find_ptr_in; [apply Hst'|by rewrite Hperm].
      - apply find_ptr_none in E. apply find_ptr_none. unfold ptrs in *. by rewrite Hperm. }
    rewrite find_ptr_cons. change (ptr_of nb) with (d_next s). by rewrite Z.eqb_sym. }
  destruct (link_adjs_ok (d_next s) id (d_adjs s) (set_nbrs (fun _ => nbrs) (bump s)) nb)
    as (s' & E & P & C & A & N & M & (mine & F & ND & Q) & Zq).
  - apply (di_adjs _ I).
  - cbn. by rewrite Hfind, Z.eqb_refl.
  - intros a Ha. cbn. apply find_ptr_in; [apply (di_adjs _ I)|done].
  - intros a Ha Hida. assert (find_ptr (a_ptr a) (d_adjs s) = Some a) as Hf
      by (apply find_ptr_in; [apply (di_adjs _ I)|done]).
    destruct (di_adj _ I _ _ Hf) as [H1 _]. destruct (a_nbr a) as [m|]; [|done].
    destruct H1 as (nb' & Hm & _ & Hid'). exfalso. apply (Hnone m nb' Hm). congruence.
  - cbn in F, Zq, C, M, N, A. rewrite app_nil_r in F. exists nbrs, mine, s'.
    assert (linked (d_next s) (nbr_made s id af ds addr scope laddr mine) s s') as L.
    { destruct P. split; try done.
      - intros q. rewrite Zq. destruct (find_ptr q (d_adjs s)) as [a|] eqn:Ea; [|done].
        unfold link_one. rewrite bool_decide_eq_true_2; [done|]. apply find_ptr_ptr in Ea as [<- Ea].
        by apply list_elem_of_fmap_2.
      - intros q. cbn. rewrite Q. split.
        + intros (a & Ha & <- & Hi). exists a. split; [|done]. apply find_ptr_in; [apply (di_adjs _ I)|done].
        + intros (a & Ha & Hi). apply find_ptr_ptr in Ha as [<- Ha]. eauto.
      - intros m. destruct (m =? d_next s) eqn:Em; zbool; [subst; by rewrite F|].
        rewrite M by done. rewrite Hfind. by apply Z.eqb_neq in Em as ->. }
    split_and!; try done. eapply linked_inv; eauto; [by apply nbr_init_inv|].
    destruct Hst' as [H1 H2]. unfold store_ok. rewrite N, (lk_next _ _ _ _ L). done.
Qed.
End NewNbr.

(** ** The new neighbour, with a connection that waited for it *)
Section NbrNew.
Lemma adj_list_length s n nb : disc_inv s -> find_ptr n (d_nbrs s) = Some nb ->
  (length (dn_adj_list nb) <= length (d_adjs s))%nat.
Proof.
  intros I Hn. destruct (di_nbr _ I _ _ Hn) as (_ & _ & H3 & H4).
  rewrite <- (length_fmap ptr_of (d_adjs s)). apply submseteq_length, NoDup_submseteq; [done|].
  intros p Hp. destruct (H4 p Hp) as (a & Ha & _). apply find_ptr_ptr in Ha as [<- Ha].
  by apply list_elem_of_fmap_2.
Qed.

(** What the rest of the heap looks like to the caller of [nbr_new]. *)
Record nbr_created (s s' : disc) (nb : dnbr) : Prop := NbrCreated {
  nc_nbr : find_ptr (d_next s) (d_nbrs s') = Some nb;
  nc_others : forall m, m <> d_next s -> find_ptr m (d_nbrs s') = find_ptr m (d_nbrs s);
  nc_adjs : forall q, find_ptr q (d_adjs s') =
    match find_ptr q (d_adjs s) with
    | Some a => Some (if a_lsr_id a =? dn_id nb then set_a_nbr a (Some (d_next s)) else a)
    | None => None
    end;
  nc_mine : forall q, q ∈ dn_adj_list nb <->
    exists a, find_ptr q (d_adjs s) = Some a /\ a_lsr_id a = dn_id nb;
  nc_tnbrs : d_tnbrs s' = d_tnbrs s;
  nc_ifaces : d_ifaces s' = d_ifaces s;
  nc_conf : d_conf s' = d_conf s;
  nc_cnt : d_msgcnt s' = d_msgcnt s;
  nc_len : length (d_adjs s') = length (d_adjs s);
  nc_seq : dn_conf_seqnum nb = 0
}.

Lemma nbr_new_ok s id af ds addr scope :
  disc_inv s -> (forall n nb, find_ptr n (d_nbrs s) = Some nb -> dn_id nb <> id) -> is_u 32 id ->
  af_ok af -> nbr_find_addr s af addr = None ->
  exists s' nb, nbr_new id af ds addr scope s = Ok (d_next s, s') /\ disc_inv s' /\
    nbr_created s s' nb /\ dn_id nb = id /\ n_af (dn_nbr nb) = af /\ n_raddr (dn_nbr nb) = addr /\
    dn_raddr_scope nb = scope.
Proof.
  intros I Hnone Hid Haf Haddr. unfold nbr_new.
  rewrite (bind_ok alloc _ s (d_next s) (bump s)) by done.
  rewrite (bind_ok conf _ (bump s) (d_conf s) (bump s)) by done.
  destruct (ldp_af_conf_get_ok (d_conf s) _ Haf) as [ac Eac]. rewrite (bind_lift_ok _ _ _ _ Eac).
  rewrite (bind_ok get _ (bump s) (bump s) (bump s)) by done.
  destruct (nbr_new_linked s id af ds addr scope (af_trans_addr ac) I Hnone Hid Haf)
    as (nbrs & l & s2 & En & E2 & L & I2).
  unfold nbr_made in En. change (d_nbrs (bump s)) with (d_nbrs s). rewrite En.
  change (nbr_find_addr (bump s) af addr) with (nbr_find_addr s af addr).
  rewrite Haddr, bool_decide_eq_false_2 by (by intros []).
  rewrite (bind_ok _ _ (bump s) tt (set_nbrs (fun _ => nbrs) (bump s))) by done.
  change (d_adjs (bump s)) with (d_adjs s). rewrite (bind_ok _ _ _ _ _ E2).
  set (nb := nbr_made s id af ds addr scope (af_trans_addr ac) l) in *.
  assert (find_ptr (d_next s) (d_nbrs s2) = Some nb) as Hnb by (by rewrite (lk_nbrs _ _ _ _ L), Z.eqb_refl).
  assert (length (d_adjs s2) = length (d_adjs s)) as Hlen.
  { rewrite <- (length_fmap ptr_of (d_adjs s2)), <- (length_fmap ptr_of (d_adjs s)).
    apply (f_equal length), (lk_store_a _ _ _ _ L). }
  destruct (pending_conn_find (bump s) af addr).
  - destruct (on_nbr_safe s2 (d_next s) nb session_accept_nbr 0 (fun _ => True) I2 Hnb keeps_accept)
      as (e & Ee & Ie & Ce & _ & Ne).
    { eapply wp_mono; [apply wp_accept; [exact (proj1 (di_nbr _ I2 _ _ Hnb))|done]|].
      intros e' [? ?]. cbn in *. split_and!; try done; lia. }
    assert ((on_nbr (d_next s) session_accept_nbr ;;; modify (set_pconns (pconn_remove af addr))) s2
      = Ok (tt, set_pconns (pconn_remove af addr) (put_nbr (d_next s) e s2))) as E3
      by (by rewrite (bind_ok _ _ _ _ _ Ee)).
    rewrite (bind_ok _ _ _ _ _ E3). eexists _, (with_sess e nb). split; [done|].
    split; [destruct Ie; by split|]. destruct Ne as (N1 & N2 & N3 & N4).
    assert (dn_id (with_sess e nb) = dn_id nb) as Hid' by exact N1.
    split; [|by split_and!]. destruct L.
    split; rewrite ?Hid'; try done.
    + cbn. by rewrite find_ptr_upd, Z.eqb_refl, Hnb by done.
    + intros m Hm. cbn. rewrite find_ptr_upd by done. apply Z.eqb_neq in Hm as Em. rewrite Em.
      rewrite lk_nbrs0. by rewrite Em.
    + cbn. cbn in Ce. lia.
  - rewrite (bind_ok _ _ s2 tt s2) by done. eexists _, nb. split; [done|]. split; [done|].
    split; [|done]. destruct L. split; try done.
    intros m Hm. rewrite lk_nbrs0. by apply Z.eqb_neq in Hm as ->.
Qed.
End NbrNew.

(** ** Connecting *)
Section Establish.
Lemma establish_ok env s p nb : disc_inv s -> find_ptr p (d_nbrs s) = Some nb ->
  d_msgcnt s + Z.of_nat (length (dn_adj_list nb)) < 2 ^ 31 - 5 ->
  exists s', nbr_establish_connection env p s = Ok (tt, s') /\ disc_inv s' /\
    d_msgcnt s <= d_msgcnt s' <= d_msgcnt s + Z.of_nat (length (dn_adj_list nb)) + 1 /\
    d_adjs s' = d_adjs s /\ d_tnbrs s' = d_tnbrs s /\ d_ifaces s' = d_ifaces s /\
    ptrs (d_nbrs s') = ptrs (d_nbrs s).
Proof.
  intros I Hp Hc. pose proof (di_cnt _ I) as H0. unfold nbr_establish_connection.
  destruct (negb (ce_socket_ok env)); [exists s; split_and!; try done; lia|].
  destruct (negb (ce_bind_ok env)); [exists s; split_and!; try done; lia|].
  destruct (negb (ce_gtsm_ok env)); [exists s; split_and!; try done; lia|].
  rewrite (bind_ok _ _ _ _ _ (get_dnbr_ok _ _ _ Hp)).
  destruct (extra_hellos_ok (dn_adj_list nb) s I) as (s1 & E1 & I1 & _ & Q2 & Q3 & Q4 & Q5 & _ & _ & Q8).
  { intros q Hq. destruct (di_nbr _ I _ _ Hp) as (_ & _ & _ & H4). destruct (H4 q Hq) as (a & -> & _).
    by eexists. }
  { lia. }
  rewrite (bind_ok _ _ _ _ _ E1). rewrite <- Q2 in Hp.
  assert (forall m, keeps m ->
    wp m (fun e => nbr_inv (e_nbr e) /\ d_msgcnt s1 <= e_msgcnt e <= d_msgcnt s1 + 1 /\ True) (ldpe_of s1 nb) ->
    exists s', on_nbr p m s1 = Ok (tt, s') /\ disc_inv s' /\
    d_msgcnt s <= d_msgcnt s' <= d_msgcnt s + Z.of_nat (length (dn_adj_list nb)) + 1 /\
    d_adjs s' = d_adjs s /\ d_tnbrs s' = d_tnbrs s /\ d_ifaces s' = d_ifaces s /\
    ptrs (d_nbrs s') = ptrs (d_nbrs s)) as Hrun.
  { intros m Hk Hw. destruct (on_nbr_safe s1 p nb m 1 (fun _ => True) I1 Hp Hk Hw)
      as (e & Ee & Ie & Ce & _). exists (put_nbr p e s1).
    assert (ptrs (d_nbrs (put_nbr p e s1)) = ptrs (d_nbrs s1)) as -> by (by apply ptrs_upd).
    rewrite Q2. cbn [put_nbr d_msgcnt]. split_and!; try done; lia. }
  destruct (ce_connect env).
  - apply Hrun; [apply keeps_fsm|]. eapply wp_mono; [apply wp_connect_up|].
    + exact (proj1 (di_nbr _ I1 _ _ Hp)).
    + cbn. lia.
    + intros e [? ?]. done.
  - apply Hrun; [apply keeps_mod; intros n; done|]. apply wp_mod. cbn. split_and!; [|lia|lia|done].
    destruct (di_nbr _ I1 _ _ Hp) as ([] & _). by split.
  - exists s1. rewrite Q2. split_and!; try done; lia.
Qed.
End Establish.

(** ** The end of [recv_hello] *)
Definition source_live (s : disc) (source : hello_source) : Prop :=
  match source with
  | SrcLink ifp af _ => af_ok af /\ is_Some (find_ptr ifp (d_ifaces s))
  | SrcTarget t => is_Some (find_ptr t (d_tnbrs s))
  end.

Section Accepted.
Lemma source_holdtime_ok s source h : disc_inv s -> source_live s source ->
  exists ht, source_holdtime source h s = Ok (ht, s).
Proof.
  intros I Hs. unfold source_holdtime. rewrite (bind_ok conf _ s (d_conf s) s) by done.
  destruct source as [ifp af src|t].
  - destruct Hs as [Haf [i Hi]]. rewrite (bind_ok _ _ _ _ _ (get_ia_ok s ifp af i Hi Haf)).
    destruct (ldp_af_conf_get_ok (d_conf s) _ Haf) as [ac Eac]. unfold if_get_hello_holdtime.
    rewrite Eac. cbn [rbind]. rewrite (bind_lift_ok _ _ _ _ eq_refl). by eexists.
  - destruct Hs as [tn Ht]. rewrite (bind_ok _ _ _ _ _ (get_tnbr_ok _ _ _ Ht)).
    destruct (di_tnbr _ I _ _ Ht) as [Haf _].
    destruct (ldp_af_conf_get_ok (d_conf s) _ Haf) as [ac Eac]. unfold tnbr_get_hello_holdtime.
    rewrite Eac. cbn [rbind]. rewrite (bind_lift_ok _ _ _ _ eq_refl). by eexists.
Qed.

Lemma active_role_ok n : nbr_inv n -> exists b, nbr_session_active_role n = Ok b.
Proof.
  intros Hi. pose proof (si_af _ _ Hi) as Haf. unfold nbr_session_active_role, ldp_addrcmp.
  destruct Haf as [-> | ->]; cbn [Z.eqb AF_INET AF_INET6 Pos.eqb];
    [destruct (_ =? _)|]; by eexists.
Qed.

Lemma keeps_stop_idtimer : keeps nbr_stop_idtimer.
Proof. unfold nbr_stop_idtimer. keeps_solve. Qed.

Lemma hello_note_ok s flags o p nb : disc_inv s -> find_ptr p (d_nbrs s) = Some nb ->
  exists s' nb', hello_note flags o p s = Ok (tt, s') /\ disc_inv s' /\ same_heap s s' /\
    d_msgcnt s' = d_msgcnt s /\ find_ptr p (d_nbrs s') = Some nb' /\
    dn_adj_list nb' = dn_adj_list nb /\ ptrs (d_nbrs s') = ptrs (d_nbrs s).
Proof.
  intros I Hp. unfold hello_note. rewrite (bind_ok _ _ _ _ _ (mod_dnbr_ok _ _ _ _ Hp)).
  set (f := fun n => set_dn_flags n _). set (s1 := set_nbrs (upd_ptr p f) s).
  assert (disc_inv s1) as I1.
  { apply (upd_nbr_inv s p nb); try done. exact (proj1 (di_nbr _ I _ _ Hp)). }
  assert (find_ptr p (d_nbrs s1) = Some (f nb)) as H1
    by (unfold s1; cbn; by rewrite find_ptr_upd, Z.eqb_refl, Hp by done).
  assert (ptrs (d_nbrs s1) = ptrs (d_nbrs s)) as P1 by (by apply ptrs_upd).
  destruct (has_flag (ho_tlvs_rcvd o) F_HELLO_TLV_RCVD_CONF);
    [|exists s1, (f nb); split_and!; done].
  rewrite (bind_ok _ _ _ _ _ (get_dnbr_ok _ _ _ H1)).
  assert (exists s2 nb2, (if (ho_conf_number o >? dn_conf_seqnum (f nb)) && nbr_pending_idtimer (dn_nbr (f nb))
    then on_nbr p nbr_stop_idtimer else ret tt) s1 = Ok (tt, s2) /\ disc_inv s2 /\ same_heap s s2 /\
    d_msgcnt s2 = d_msgcnt s /\ find_ptr p (d_nbrs s2) = Some nb2 /\ dn_adj_list nb2 = dn_adj_list nb /\
    ptrs (d_nbrs s2) = ptrs (d_nbrs s)) as (s2 & nb2 & E2 & I2 & S2 & C2 & H2 & L2 & P2).
  { destruct (_ && _); [|exists s1, (f nb); split_and!; done].
    destruct (on_nbr_safe s1 p (f nb) nbr_stop_idtimer 0 (fun _ => True) I1 H1 keeps_stop_idtimer)
      as (e & Ee & Ie & Ce & _ & _).
    { unfold nbr_stop_idtimer. repeat wp_step. cbn. split_and!; [|lia|lia|done].
      destruct (di_nbr _ I _ _ Hp) as ([] & _). by split. }
    exists (put_nbr p e s1), (with_sess e (f nb)). split; [done|]. split; [done|]. split; [done|].
    split; [cbn in Ce |- *; lia|]. split; [by rewrite put_nbrs, Z.eqb_refl, H1|]. split; [done|].
    rewrite <- P1. by apply ptrs_upd. }
  rewrite (bind_ok _ _ _ _ _ E2), (mod_dnbr_ok _ _ _ _ H2).
  set (g := fun n => set_dn_conf_seqnum n _). exists (set_nbrs (upd_ptr p g) s2), (g nb2).
  split; [done|]. split.
  { apply (upd_nbr_inv s2 p nb2); try done. exact (proj1 (di_nbr _ I2 _ _ H2)). }
  split; [by destruct S2|]. split; [done|]. cbn. rewrite find_ptr_upd, Z.eqb_refl, H2 by done.
  split; [done|]. split; [done|]. rewrite <- P2. by apply ptrs_upd.
Qed.
End Accepted.

Section Process.
Lemma hello_accepted_ok env s source h flags o ap a np :
  disc_inv s -> source_live s source -> find_ptr ap (d_adjs s) = Some a ->
  (forall p, np = Some p -> is_Some (find_ptr p (d_nbrs s))) ->
  d_msgcnt s + Z.of_nat (length (d_adjs s)) < 2 ^ 31 - 5 ->
  exists s', hello_accepted env source h flags o ap np s = Ok (tt, s') /\ disc_inv s' /\
    d_msgcnt s <= d_msgcnt s' <= d_msgcnt s + Z.of_nat (length (d_adjs s)) + 1.
Proof.
  intros I Hs Ha Hn Hc. unfold hello_accepted.
  assert (exists s1, (match np with None => ret tt | Some p => hello_note flags o p end) s = Ok (tt, s1) /\
    disc_inv s1 /\ same_heap s s1 /\ d_msgcnt s1 = d_msgcnt s /\
    (forall p, np = Some p -> is_Some (find_ptr p (d_nbrs s1)))) as (s1 & E1 & I1 & S1 & C1 & N1).
  { destruct np as [p|]; [|by exists s]. destruct (Hn p eq_refl) as [nb Hp].
    destruct (hello_note_ok s flags o p nb I Hp) as (s1 & nb' & E & ? & ? & ? & Hp' & _).
    exists s1. split_and!; try done. intros ? [= <-]. by eexists. }
  rewrite (bind_ok _ _ _ _ _ E1). destruct S1 as [_ _ Ea Et Ei _ _ _].
  assert (source_live s1 source) as Hs1 by (unfold source_live; by rewrite Et, Ei).
  destruct (source_holdtime_ok s1 source h I1 Hs1) as [ht Eht]. rewrite (bind_ok _ _ _ _ _ Eht).
  rewrite <- Ea in Ha. rewrite (bind_ok _ _ _ _ _ (mod_adj_ok _ _ _ _ Ha)).
  set (f := fun a => set_a_holdtime a ht). set (s2 := set_adjs (upd_ptr ap f) s1).
  assert (disc_inv s2) as I2 by (by apply (set_adj_inv s1 ap a)).
  assert (find_ptr ap (d_adjs s2) = Some (f a)) as Ha2
    by (unfold s2; cbn; by rewrite find_ptr_upd, Z.eqb_refl, Ha by done).
  assert (exists s3, (if negb (ht =? INFINITE_HOLDTIME) then adj_start_itimer ap else adj_stop_itimer ap) s2
    = Ok (tt, s3) /\ disc_inv s3 /\ d_nbrs s3 = d_nbrs s1 /\ d_msgcnt s3 = d_msgcnt s /\
    length (d_adjs s3) = length (d_adjs s)) as (s3 & E3 & I3 & N3 & C3 & L3).
  { assert (forall g, length (upd_ptr ap g (d_adjs s2)) = length (d_adjs s)) as Hl.
    { intros g. unfold upd_ptr. rewrite length_map. unfold s2, upd_ptr. cbn. by rewrite length_map, Ea. }
    unfold adj_start_itimer, adj_stop_itimer. destruct (negb _); rewrite (mod_adj_ok _ _ _ _ Ha2);
      eexists; (split; [reflexivity|]); (split; [by eapply set_adj_inv|]);
      (split; [done|]); (split; [done|]); apply Hl. }
  rewrite (bind_ok _ _ _ _ _ E3). destruct np as [p|]; [|exists s3; split_and!; try done; lia].
  destruct (N1 p eq_refl) as [nb Hp]. rewrite <- N3 in Hp.
  rewrite (bind_ok _ _ _ _ _ (get_dnbr_ok _ _ _ Hp)).
  destruct (active_role_ok (dn_nbr nb)) as [b Eb]; [exact (proj1 (di_nbr _ I3 _ _ Hp))|].
  rewrite (bind_lift_ok _ _ _ _ Eb). pose proof (adj_list_length s3 p nb I3 Hp).
  destruct (_ && _); [|exists s3; split_and!; try done; lia].
  destruct (establish_ok env s3 p nb I3 Hp) as (s4 & E4 & I4 & C4 & _); [lia|].
  exists s4. split_and!; try done; lia.
Qed.

Lemma drop_adj_ok s oa : disc_inv s -> d_msgcnt s < 2 ^ 31 - 5 ->
  (forall a, oa = Some a -> is_Some (find_ptr (a_ptr a) (d_adjs s))) ->
  exists s', drop_adj oa s = Ok (tt, s') /\ disc_inv s' /\ d_msgcnt s <= d_msgcnt s' <= d_msgcnt s + 5.
Proof.
  intros I Hc Hoa. destruct oa as [a|]; [|exists s; split_and!; try done; lia].
  destruct (Hoa a eq_refl) as [b Hb].
  destruct (adj_del_ok s (a_ptr a) b S_SHUTDOWN I Hb Hc) as (s' & ? & ? & _ & _ & ? & _). by exists s'.
Qed.

Lemma adj_find_ok s source a : disc_inv s -> adj_find s source = Some a ->
  find_ptr (a_ptr a) (d_adjs s) = Some a.
Proof.
  intros I H. apply list_find_in in H as [Hin _]. apply find_ptr_in; [apply (di_adjs _ I)|done].
Qed.

Lemma adj_find_none s source : disc_inv s -> source_live s source -> adj_find s source = None ->
  source_free s source.
Proof.
  intros I Hs Hn. destruct source as [ifp af src|t]; [done|]. destruct Hs as [tn Ht]. exists tn.
  split; [done|]. destruct (t_adj tn) as [p|] eqn:Ep; [|done]. exfalso.
  destruct (di_tnbr _ I _ _ Ht) as [_ H2]. destruct (H2 p Ep) as (a & Ha & Has).
  apply find_ptr_ptr in Ha as [_ Ha]. apply list_elem_of_In in Ha.
  pose proof (find_none _ _ Hn a Ha) as Hf. cbn in Hf. rewrite Has, Z.eqb_refl in Hf. done.
Qed.

Lemma hello_find_source_ok s af flags src ifp : disc_inv s -> af_ok af -> d_msgcnt s < 2 ^ 31 - 10 ->
  is_Some (find_ptr ifp (d_ifaces s)) ->
  exists r s', hello_find_source af flags src ifp s = Ok (r, s') /\ disc_inv s' /\
    d_msgcnt s <= d_msgcnt s' <= d_msgcnt s + 6 /\ adjs_le s s' /\
    (forall source, r = Some source -> source_live s' source).
Proof.
  intros I Haf Hc [i Hi]. unfold hello_find_source. destruct (has_flag flags F_HELLO_TARGETED).
  - destruct (_ && _); [exists None, s; split_and!; try done; try lia; by intros ? ?|].
    destruct (hello_target_ok s af flags src I Haf Hc) as (r & s1 & E1 & I1 & C1 & A1 & R1).
    rewrite (bind_ok _ _ _ _ _ E1). do 2 eexists. split; [done|]. split_and!; try done; try lia.
    intros source Hs. destruct r as [tp|]; [|done]. simplify_eq. by apply R1.
  - rewrite (bind_ok _ _ _ _ _ (get_ia_ok s ifp af i Hi Haf)). do 2 eexists. split; [done|].
    split_and!; try done; try lia; [by intros ? ?|]. intros source [= <-]. cbn. split; [done|]. by rewrite Hi.
Qed.

Lemma shutdown_nbr_ok s p nb st i t : disc_inv s -> find_ptr p (d_nbrs s) = Some nb ->
  d_msgcnt s < 2 ^ 31 - 5 ->
  exists s', on_nbr p (session_shutdown st i t) s = Ok (tt, s') /\ disc_inv s' /\
    d_msgcnt s <= d_msgcnt s' <= d_msgcnt s + 3 /\ d_adjs s' = d_adjs s.
Proof.
  intros I Hp Hc. pose proof (di_cnt _ I).
  destruct (on_nbr_safe s p nb (session_shutdown st i t) 3 (fun _ => True) I Hp)
    as (e & Ee & Ie & Ce & _); [apply keeps_session_shutdown| |by exists (put_nbr p e s)].
  eapply wp_mono; [apply (wp_shutdown true); [exact (proj1 (di_nbr _ I _ _ Hp))|cbn; lia]|].
  intros e (? & ? & ?). done.
Qed.
End Process.

(** [runs_ok k m s]: [m] returns from [s], keeps the invariant and numbers at
    most [k] messages. *)
Definition runs_ok (k : Z) (m : ST disc unit) (s : disc) : Prop :=
  exists s', m s = Ok (tt, s') /\ disc_inv s' /\ d_msgcnt s <= d_msgcnt s' <= d_msgcnt s + k.

Section Hello.
Lemma runs_ok_ret s k : disc_inv s -> 0 <= k -> runs_ok k (ret tt) s.
Proof. intros I Hk. exists s. split_and!; try done; lia. Qed.

Lemma runs_ok_weaken s m k k' : k <= k' -> runs_ok k m s -> runs_ok k' m s.
Proof. intros Hk (s' & ? & ? & ?). exists s'. split_and!; try done; lia. Qed.

Lemma hello_adj_ok s lsr_id source addr (oa : option adj) (nb : option dnbr) :
  disc_inv s -> source_live s source -> oa = adj_find s source ->
  nbr_choice s lsr_id (dn_ptr <$> nb) ->
  exists ap a s1, hello_adj lsr_id source addr oa nb s = Ok (ap, s1) /\ disc_inv s1 /\ find_ptr ap (d_adjs s1) = Some a /\
    source_live s1 source /\ d_msgcnt s1 = d_msgcnt s /\ d_conf s1 = d_conf s /\
    (length (d_adjs s1) <= S (length (d_adjs s)))%nat /\
    (forall n x, find_ptr n (d_nbrs s1) = Some x -> exists x0, find_ptr n (d_nbrs s) = Some x0 /\
      dn_nbr x = dn_nbr x0) /\
    (forall n, is_Some (find_ptr n (d_nbrs s)) -> is_Some (find_ptr n (d_nbrs s1))) /\
    (nb = None -> d_nbrs s1 = d_nbrs s).
Proof.
  intros I Hs -> Hn. unfold hello_adj. destruct (adj_find s source) as [a|] eqn:Ea.
  { exists (a_ptr a), a, s. split_and!; try done; eauto using adj_find_ok. }
  pose proof (adj_find_none s source I Hs Ea) as Hfree.
  pose proof (adj_new_linked_ok s lsr_id source addr (dn_ptr <$> nb) I Hfree Hn) as E.
  eexists (d_next s), _, (adj_added lsr_id (dn_ptr <$> nb) source addr s).
  split; [by destruct nb|]. split; [by apply added_inv|].
  split; [by rewrite added_adjs, Z.eqb_refl|]. split_and!.
  - unfold source_live. destruct source as [ifp af src|t] eqn:Es.
    + destruct Hs as [Haf [i Hi]]. split; [done|]. rewrite <- Es, added_ifaces, Es, Z.eqb_refl, Hi.
      by eexists.
    + destruct Hs as [tn Ht]. rewrite <- Es, added_tnbrs, Es, Z.eqb_refl, Ht. by eexists.
  - unfold adj_added, link_nb, link_src. by destruct nb, source.
  - unfold adj_added, link_nb, link_src. by destruct nb, source.
  - unfold adj_added, link_nb, link_src. by destruct nb, source.
  - intros n x. rewrite added_nbrs. destruct nb as [nb|]; cbn; [|by eauto].
    destruct (n =? dn_ptr nb); [|by eauto]. destruct (find_ptr n (d_nbrs s)) as [x0|]; [|done].
    intros [= <-]. by eexists.
  - intros n [x Hx]. rewrite added_nbrs, Hx. destruct nb as [nb|]; cbn; [|by eexists].
    destruct (n =? dn_ptr nb); by eexists.
  - intros ->. unfold adj_added, link_nb, link_src. by destruct source.
Qed.

Lemma nbr_find_addr_ext s s1 af addr : d_nbrs s1 = d_nbrs s ->
  nbr_find_addr s1 af addr = nbr_find_addr s af addr.
Proof. intros E. unfold nbr_find_addr. by rewrite E. Qed.

Lemma hello_accept_ok env s lsr_id af trans_addr scope_id source oa nb ds h flags o :
  disc_inv s -> is_u 32 lsr_id -> af_ok af -> source_live s source -> oa = adj_find s source ->
  nb = nbr_find_ldpid s lsr_id -> ~ (nb = None /\ is_Some (nbr_find_addr s af trans_addr)) ->
  d_msgcnt s + Z.of_nat (length (d_adjs s)) < 2 ^ 31 - 6 ->
  runs_ok (Z.of_nat (length (d_adjs s)) + 2)
    (do ap <- hello_adj lsr_id source trans_addr oa nb;
     do np <- hello_nbr lsr_id af trans_addr scope_id ds o nb;
     hello_accepted env source h flags o ap np) s.
Proof.
  intros I Hid Haf Hs Hoa Hnb Haddr Hc. unfold runs_ok.
  assert (nbr_choice s lsr_id (dn_ptr <$> nb)) as Hch.
  { subst nb. destruct (nbr_find_ldpid s lsr_id) as [n|] eqn:En; cbn.
    - exists n. by apply nbr_find_ldpid_some.
    - by apply nbr_find_ldpid_none. }
  destruct (hello_adj_ok s lsr_id source trans_addr oa nb I Hs Hoa Hch)
    as (ap & a & s1 & E1 & I1 & Ha1 & Hs1 & C1 & Ec1 & L1 & N1 & M1 & K1).
  rewrite (bind_ok _ _ _ _ _ E1).
  assert (exists np s2, hello_nbr lsr_id af trans_addr scope_id ds o nb s1 = Ok (np, s2) /\ disc_inv s2 /\ source_live s2 source /\ is_Some (find_ptr ap (d_adjs s2)) /\
    d_msgcnt s2 = d_msgcnt s /\ (length (d_adjs s2) <= S (length (d_adjs s)))%nat /\
    forall p, np = Some p -> is_Some (find_ptr p (d_nbrs s2))) as (np & s2 & E2 & I2 & S2 & A2 & C2 & L2 & N2).
  { unfold hello_nbr. destruct nb as [n|].
    - eexists _, s1. split; [done|]. rewrite Ha1. split_and!; try done. intros p [= <-].
      destruct Hch as (x & Hx & _). apply M1. by rewrite Hx.
    - destruct (_ || _); [|eexists None, s1; rewrite Ha1; by split_and!].
      destruct (nbr_new_ok s1 lsr_id af ds trans_addr scope_id I1) as (s2 & x & E & I2 & K & _); try done.
      { intros n x Hx. rewrite K1 in Hx by done. by apply (Hch n). }
      { rewrite (nbr_find_addr_ext s) by auto.
        destruct (nbr_find_addr s af trans_addr) eqn:E; [|done]. exfalso. apply Haddr.
        split; [done|]. by eexists. }
      rewrite (bind_ok _ _ _ _ _ E). destruct K. eexists _, s2. split; [done|]. split_and!; try done.
      + unfold source_live. by rewrite nc_tnbrs0, nc_ifaces0.
      + rewrite nc_adjs0, Ha1. by eexists.
      + lia.
      + lia.
      + intros p [= <-]. by rewrite nc_nbr0. }
  rewrite (bind_ok _ _ _ _ _ E2). destruct A2 as [a2 A2].
  destruct (hello_accepted_ok env s2 source h flags o ap a2 np I2 S2 A2 N2) as (s3 & E3 & I3 & C3); [lia|].
  exists s3. split_and!; try done; lia.
Qed.
End Hello.

Section Packets.
(** Room for the messages one packet can trigger. *)
Definition disc_room (s : disc) : Prop :=
  d_msgcnt s + Z.of_nat (length (d_adjs s)) < 2 ^ 31 - 32.

Lemma bad_addr_ok af a : af_ok af -> exists b, bad_addr af a = Ok b.
Proof. intros [-> | ->]; by eexists. Qed.

Lemma hello_noncompliant_ok s af ds lsr_id : disc_inv s -> af_ok af -> is_u 32 lsr_id ->
  exists b, hello_noncompliant af ds (nbr_find_ldpid s lsr_id) s = Ok (b, s).
Proof.
  intros I Haf Hid. unfold hello_noncompliant.
  destruct (nbr_find_ldpid s lsr_id) as [nb|] eqn:En; [|by eexists].
  destruct (negb ds); [|by eexists]. destruct (nbr_find_ldpid_some _ _ _ I Hid En) as [Hf _].
  assert (exists af', other_af af = Ok af') as [af' E] by (destruct Haf as [-> | ->]; by eexists).
  rewrite (bind_lift_ok _ _ _ _ E), (bind_ok _ _ _ _ _ (nbr_adj_count_ok s _ nb af' I Hf)). by eexists.
Qed.

Lemma shutdown_nbr_choice s lsr_id st i t : disc_inv s -> is_u 32 lsr_id -> d_msgcnt s < 2 ^ 31 - 5 ->
  exists s', shutdown_nbr (nbr_find_ldpid s lsr_id) st i t s = Ok (tt, s') /\ disc_inv s' /\
    d_msgcnt s <= d_msgcnt s' <= d_msgcnt s + 3 /\ d_adjs s' = d_adjs s.
Proof.
  intros I Hid Hc. unfold shutdown_nbr. destruct (nbr_find_ldpid s lsr_id) as [nb|] eqn:En.
  - destruct (nbr_find_ldpid_some _ _ _ I Hid En) as [Hf _]. by eapply shutdown_nbr_ok.
  - exists s. split_and!; try done; lia.
Qed.

(** [recv_hello] behind the look-up of the source. *)
Lemma hello_from_ok env s lsr_id mi mt af addr scope source h flags o :
  disc_inv s -> d_msgcnt s + Z.of_nat (length (d_adjs s)) < 2 ^ 31 - 16 -> is_u 32 lsr_id -> af_ok af ->
  source_live s source ->
  runs_ok (Z.of_nat (length (d_adjs s)) + 8)
    (hello_from env lsr_id mi mt af addr scope source h flags o) s.
Proof.
  intros I Hc Hid Haf Hs. unfold runs_ok, hello_from. rewrite (bind_ok get _ s s s) by done. cbv zeta.
  pose proof (adj_find_ok s source) as Hfa.
  assert (exists s', drop_adj (adj_find s source) s = Ok (tt, s') /\ disc_inv s' /\
    d_msgcnt s <= d_msgcnt s' <= d_msgcnt s + (Z.of_nat (length (d_adjs s)) + 8)) as Hdrop.
  { destruct (drop_adj_ok s (adj_find s source) I) as (s' & ? & ? & ?); [lia| |].
    - intros a Ha. by rewrite (Hfa a I Ha).
    - exists s'. split_and!; try done; lia. }
  destruct (_ && _).
  { destruct (shutdown_nbr_choice s lsr_id S_TRANS_MISMTCH mi mt I Hid) as (s1 & E1 & I1 & C1 & A1); [lia|].
    rewrite (bind_ok _ _ _ _ _ E1).
    destruct (drop_adj_ok s1 (adj_find s source) I1) as (s2 & E2 & I2 & C2); [lia| |].
    - intros a Ha. by rewrite A1, (Hfa a I Ha).
    - exists s2. split_and!; try done; lia. }
  destruct (hello_noncompliant_ok s af (has_flag (ho_tlvs_rcvd o) F_HELLO_TLV_RCVD_DS) lsr_id I Haf Hid)
    as [b Eb]. rewrite (bind_ok _ _ _ _ _ Eb). destruct b.
  { destruct (shutdown_nbr_choice s lsr_id S_DS_NONCMPLNCE mi mt I Hid) as (s1 & E1 & I1 & C1 & A1); [lia|].
    exists s1. split_and!; try done; lia. }
  destruct (addr_changed _ _ _ _); [done|]. case_bool_decide as D; [done|].
  eapply runs_ok_weaken; [|by apply hello_accept_ok; [..|lia]]. lia.
Qed.

Lemma hello_process_ok env s lsr_id mi mt af src ifp ifindex h flags o :
  disc_inv s -> disc_room s -> is_u 32 lsr_id -> af_ok af -> is_Some (find_ptr ifp (d_ifaces s)) ->
  runs_ok (Z.of_nat (length (d_adjs s)) + 14)
    (hello_process env lsr_id mi mt af src ifp ifindex h flags o) s.
Proof.
  intros I Hroom Hid Haf Hif. unfold disc_room in Hroom. unfold hello_process. cbv zeta.
  set (addr := if has_flag _ _ then _ else _).
  destruct (bad_addr_ok af addr Haf) as [b Eb]. rewrite Eb.
  change (runs_ok (Z.of_nat (length (d_adjs s)) + 14)) with
    (fun m s' => runs_ok (Z.of_nat (length (d_adjs s)) + 14) m s').
  unfold runs_ok. rewrite (bind_lift_ok _ _ _ _ eq_refl).
  assert (exists s', ret tt s = Ok (tt, s') /\ disc_inv s' /\
    d_msgcnt s <= d_msgcnt s' <= d_msgcnt s + (Z.of_nat (length (d_adjs s)) + 14)) as Hret
    by (apply runs_ok_ret; [done|lia]).
  destruct (negb (b =? 0)); [done|].
  match goal with |- context [if ?e && _ then ret tt else _] => set (emb := e) end.
  destruct (emb && _); [done|]. clear Hret.
  destruct (hello_find_source_ok s af flags src ifp I Haf) as (r & s1 & E1 & I1 & C1 & A1 & L1);
    [lia|done|]. rewrite (bind_ok _ _ _ _ _ E1). pose proof (adjs_le_length _ _ I1 A1) as Len1.
  destruct r as [source|]; [|exists s1; split_and!; try done; lia].
  destruct (hello_from_ok env s1 lsr_id mi mt af addr (if emb then ifindex else 0) source h flags o)
    as (s2 & E2 & I2 & C2); auto; [lia|]. exists s2. split_and!; try done; lia.
Qed.

Lemma disc_find_iface_ok s ifindex af src mc : disc_inv s -> af_ok af ->
  exists r, disc_find_iface s ifindex af src mc = Ok r /\
    forall i, r = Some i -> is_Some (find_ptr (if_ptr i) (d_ifaces s)).
Proof.
  intros I Haf. unfold disc_find_iface. destruct (if_lookup s ifindex) as [i|] eqn:Ei; [|by eexists].
  apply list_find_in in Ei as [Hin _].
  assert (find_ptr (if_ptr i) (d_ifaces s) = Some i) as Hfi
    by (apply (find_ptr_in _ i); [apply (di_ifaces _ I)|done]).
  assert (is_Some (find_ptr (if_ptr i) (d_ifaces s))) as Hf by (by exists i).
  destruct (negb mc).
  { rewrite iface_af_get_ok by done. cbn [rbind]. eexists. split; [done|].
    intros j Hj. destruct (ia_enabled _); by simplify_eq. }
  assert (exists b, link_match i src (if_addr_list i) = Ok b) as [b Eb].
  { induction (di_plen _ I _ _ Hfi) as [|a l Ha Hl IH]; cbn [link_match]; [by eexists|].
    destruct (ifa_af a =? AF_INET) eqn:Ea; cbn [negb]; [|done]. zbool. destruct (if_type i).
    - destruct (_ =? _); [by eexists|done].
    - destruct (prefixlen2mask_ok _ (Ha Ea)) as (m & -> & _). cbn [rbind].
      destruct (_ =? _); [by eexists|done]. }
  af_cases Haf.
  - rewrite Eb. cbn [rbind]. eexists. split; [done|]. intros j Hj. destruct b; by simplify_eq.
  - eexists. split; [done|]. intros j Hj. destruct (IN6_IS_ADDR_LINKLOCAL _); by simplify_eq.
Qed.
End Packets.
