(* ===== verification/DiscRun.v ===== *)
(** * The discovery engine as a transition system

    Interfaces, packets, timers and session events keep the invariant of
    [DiscInv]; from every reachable state every enabled event returns. *)
From stdpp Require Import prelude strings list.
From Stdlib Require Import ZArith Lia.
From S2P Require Import Prelude Util Wire Ipc Session Fec Hello Discovery DiscInv DiscSafe.

(** ** Packets and connections *)
Section Input.
Lemma disc_recv_packet_ok env s af src mc ifindex pkt :
  disc_inv s -> disc_room s -> af_ok af -> Z.of_nat (length pkt) < 2 ^ 16 -> bytes_ok pkt ->
  runs_ok (Z.of_nat (length (d_adjs s)) + 14) (disc_recv_packet env af src mc ifindex pkt) s.
Proof.
  intros I Hroom Haf Hlen Hb. unfold runs_ok, disc_recv_packet.
  assert (exists s', ret tt s = Ok (tt, s') /\ disc_inv s' /\
    d_msgcnt s <= d_msgcnt s' <= d_msgcnt s + (Z.of_nat (length (d_adjs s)) + 14)) as Hret
    by (apply runs_ok_ret; [done|lia]).
  destruct (bad_addr_ok af src Haf) as [b Eb]. rewrite (bind_lift_ok _ _ _ _ Eb).
  destruct (negb _); [done|]. rewrite (bind_ok get _ s s s) by done.
  destruct (disc_find_iface_ok s ifindex af src mc I Haf) as (r & Er & Hr).
  rewrite (bind_lift_ok _ _ _ _ Er). destruct r as [i|]; [|done].
  destruct (disc_check_packet_total pkt Hlen Hb) as (om & Em & Hm).
  rewrite (bind_lift_ok _ _ _ _ Em). destruct om as [m|]; [|done].
  destruct (Hm m eq_refl) as (Hu & Hl & Hbb & Hid). unfold recv_hello.
  rewrite (bind_ok conf _ s (d_conf s) s) by done.
  destruct (hello_decode_total (d_conf s) af mc (dm_body m) (dm_len m) Hu Hl Hbb) as (d & Ed & _).
  rewrite (bind_lift_ok _ _ _ _ Ed). destruct d as [[[h fl] o]|]; [|done].
  apply hello_process_ok; auto.
Qed.

Lemma nbr_find_addr_ok s af addr n : disc_inv s -> nbr_find_addr s af addr = Some n ->
  find_ptr (dn_ptr n) (d_nbrs s) = Some n.
Proof.
  intros I H. apply list_find_in in H as [Hin _]. apply (find_ptr_in _ n); [apply (di_nbrs _ I)|done].
Qed.

Lemma session_accept_ok s af addr : disc_inv s -> runs_ok 0 (session_accept af addr) s.
Proof.
  intros I. unfold runs_ok, session_accept. rewrite (bind_ok get _ s s s) by done.
  assert (exists s', ret tt s = Ok (tt, s') /\ disc_inv s' /\
    d_msgcnt s <= d_msgcnt s' <= d_msgcnt s + 0) as Hret by (apply runs_ok_ret; [done|lia]).
  destruct (nbr_find_addr s af addr) as [n|] eqn:En.
  - pose proof (nbr_find_addr_ok _ _ _ _ I En) as Hn.
    destruct (active_role_ok (dn_nbr n)) as [b Eb]; [exact (proj1 (di_nbr _ I _ _ Hn))|].
    rewrite (bind_lift_ok _ _ _ _ Eb). destruct b; [done|].
    destruct (n_state (dn_nbr n) =? NBR_STA_PRESENT) eqn:Est; cbn [negb]; [|done]. zbool.
    destruct (on_nbr_safe s (dn_ptr n) n session_accept_nbr 0 (fun _ => True) I Hn keeps_accept)
      as (e & Ee & Ie & Ce & _).
    { eapply wp_mono; [apply wp_accept; [exact (proj1 (di_nbr _ I _ _ Hn))|done]|].
      intros e' [? ?]. cbn in *. split_and!; try done; lia. }
    by exists (put_nbr (dn_ptr n) e s).
  - destruct (pending_conn_find s af addr); [done|]. unfold modify. eexists. split; [done|].
    split; [destruct I; by split|cbn; lia].
Qed.

Lemma nbr_idtimer_ok env s p nb : disc_inv s -> disc_room s -> find_ptr p (d_nbrs s) = Some nb ->
  runs_ok (Z.of_nat (length (d_adjs s)) + 1) (nbr_idtimer env p) s.
Proof.
  intros I Hroom Hp. unfold disc_room in Hroom. unfold runs_ok, nbr_idtimer.
  destruct (on_nbr_safe s p nb nbr_stop_idtimer 0 (fun _ => True) I Hp keeps_stop_idtimer)
    as (e & Ee & Ie & Ce & _ & _).
  { unfold nbr_stop_idtimer. repeat wp_step. cbn. split_and!; [|lia|lia|done].
    destruct (di_nbr _ I _ _ Hp) as ([] & _). by split. }
  rewrite (bind_ok _ _ _ _ _ Ee).
  assert (find_ptr p (d_nbrs (put_nbr p e s)) = Some (with_sess e nb)) as H1
    by (by rewrite put_nbrs, Z.eqb_refl, Hp).
  pose proof (adj_list_length s p nb I Hp) as Hlen.
  destruct (establish_ok env (put_nbr p e s) p (with_sess e nb) Ie H1) as (s2 & E2 & I2 & C2 & _);
    cbn [put_nbr d_msgcnt with_sess dn_adj_list] in *; [lia|].
  exists s2. split_and!; try done; lia.
Qed.

(** Any session event of a neighbour. *)
Lemma session_event_ok s p nb op : disc_inv s -> d_msgcnt s < 2 ^ 31 - 5 ->
  Z.of_nat (length (d_pids s)) < 2 ^ 32 - 1 ->
  find_ptr p (d_nbrs s) = Some nb -> op_enabled op (ldpe_of s nb) ->
  runs_ok 3 (on_nbr p (run_op op)) s.
Proof.
  intros I Hc Hpids Hp Hen. pose proof (di_cnt _ I).
  destruct (run_op_correct op (ldpe_of s nb)) as (e & E & Hi & _ & C); try done.
  { exact (proj1 (di_nbr _ I _ _ Hp)). }
  exists (put_nbr p e s). split; [by eapply on_nbr_ok|]. split; [|done].
  eapply put_nbr_inv; eauto; [by apply (keeps_run_op op _ _ _ E)|cbn in C; lia].
Qed.
End Input.

(** ** Neighbours behind a deletion *)
Section Kept.
(** Neighbours that stay keep an adjacency if they had one. *)
Definition nbrs_kept (s s' : disc) : Prop :=
  forall n nb', find_ptr n (d_nbrs s') = Some nb' ->
    exists nb, find_ptr n (d_nbrs s) = Some nb /\ (dn_adj_list nb' = [] -> dn_adj_list nb = []).

#[export] Instance nbrs_kept_preorder : PreOrder nbrs_kept.
Proof.
  split; [by intros s n nb; eauto|]. intros s1 s2 s3 H12 H23 n nb3 H3.
  destruct (H23 n nb3 H3) as (nb2 & H2 & E2). destruct (H12 n nb2 H2) as (nb1 & H1 & E1). eauto.
Qed.

Lemma adj_del_kept s p a s' : disc_inv s -> find_ptr p (d_adjs s) = Some a ->
  adj_del_post p a s s' -> nbrs_kept s s'.
Proof.
  intros I Ha H n nb' Hn. unfold adj_del_post in H. destruct (di_adj _ I _ _ Ha) as [Hl _].
  destruct (a_nbr a) as [m|].
  - destruct Hl as (nb & Hnb & _). destruct (H nb Hnb) as [Ho Hm].
    destruct (decide (n = m)) as [->|Hne]; [|rewrite Ho in Hn by done; by eauto].
    destruct (_ =? 0) eqn:Ec; [destruct Hm as [Hm _]; congruence|].
    destruct Hm as [Hm _]. rewrite Hm in Hn. simplify_eq. exists nb. split; [done|].
    cbn. intros E. rewrite E in Ec. done.
  - destruct H as [Hd _]. rewrite Hd in Hn. eauto.
Qed.

(** Neighbours without an adjacency are left alone. *)
Definition idle_kept (s s' : disc) : Prop :=
  forall n nb, find_ptr n (d_nbrs s) = Some nb -> dn_adj_list nb = [] -> find_ptr n (d_nbrs s') = Some nb.

#[export] Instance idle_kept_preorder : PreOrder idle_kept.
Proof. split; [by intros s n nb|]. intros s1 s2 s3 H12 H23 n nb Hn E. auto. Qed.

Lemma adj_del_idle s p a s' : disc_inv s -> find_ptr p (d_adjs s) = Some a ->
  adj_del_post p a s s' -> idle_kept s s'.
Proof.
  intros I Ha H n nb Hn E. unfold adj_del_post in H. destruct (di_adj _ I _ _ Ha) as [Hl _].
  destruct (a_nbr a) as [m|]; [|destruct H as [-> _]; done].
  destruct Hl as (nb0 & Hnb0 & Hin & _). destruct (H nb0 Hnb0) as [Ho _].
  rewrite Ho; [done|]. intros ->. rewrite Hn in Hnb0. simplify_eq. rewrite E in Hin.
  by apply not_elem_of_nil in Hin.
Qed.

Lemma same_nbrs_kept s s' : d_nbrs s' = d_nbrs s -> nbrs_kept s s'.
Proof. intros E n nb. rewrite E. by eauto. Qed.

Lemma nbrs_kept_length s s' : disc_inv s' -> nbrs_kept s s' -> (length (d_nbrs s') <= length (d_nbrs s))%nat.
Proof.
  intros I H. rewrite <- (length_fmap ptr_of (d_nbrs s)), <- (length_fmap ptr_of (d_nbrs s')).
  apply submseteq_length, NoDup_submseteq; [apply (di_nbrs _ I)|]. intros p Hp.
  apply list_elem_of_fmap in Hp as (nb & -> & Hnb).
  destruct (H (ptr_of nb) nb) as (nb0 & H0 & _); [apply find_ptr_in; [apply (di_nbrs _ I)|done]|].
  apply find_ptr_ptr in H0 as [<- H0]. by apply list_elem_of_fmap_2.
Qed.
End Kept.

(** ** Interfaces *)
Section Ifaces.
Lemma upd_iface_inv s ifp i g : disc_inv s -> find_ptr ifp (d_ifaces s) = Some i -> keeps_ptr g ->
  (forall af, af_ok af -> ia_adj_list (ia_of (g i) af) = ia_adj_list (ia_of i af)) ->
  Forall plen_ok (if_addr_list (g i)) -> disc_inv (set_ifaces (upd_ptr ifp g) s).
Proof.
  intros I Hi Hg Hl Hp. split; try apply I; [by apply store_ok_upd, I|..].
  - intros p a Ha. destruct (di_adj _ I _ _ Ha) as [H1 H2]. split; [done|].
    destruct (a_source a) as [q af src|]; [|done]. destruct H2 as (Haf & j & Hj & Hin).
    split; [done|]. cbn. rewrite find_ptr_upd, Hj by done. destruct (q =? ifp) eqn:E; zbool; [|by eauto].
    subst. rewrite Hi in Hj. simplify_eq. eexists. split; [done|]. by rewrite Hl.
  - intros q j. cbn. rewrite find_ptr_upd by done. destruct (q =? ifp) eqn:E; zbool.
    + subst. rewrite Hi. intros [= <-] af Haf. rewrite Hl by done. by apply (di_iface _ I).
    + by apply (di_iface _ I).
  - intros q j. cbn. rewrite find_ptr_upd by done. destruct (q =? ifp) eqn:E; zbool.
    + subst. rewrite Hi. by intros [= <-].
    + by apply (di_plen _ I).
Qed.

(** Updates of one [iface_af] that leave its list alone. *)
Lemma upd_ia_inv s ifp i af f : disc_inv s -> find_ptr ifp (d_ifaces s) = Some i -> af_ok af ->
  ia_adj_list (f (ia_of i af)) = ia_adj_list (ia_of i af) ->
  disc_inv (set_ifaces (upd_ptr ifp (ia_upd af f)) s).
Proof.
  intros I Hi Haf Hf. apply (upd_iface_inv s ifp i); try done; [apply keeps_ia_upd| |].
  - intros af' Haf'. unfold ia_upd. rewrite ia_of_set by done. destruct (af' =? af) eqn:E; zbool; [|done].
    by subst.
  - apply (di_plen _ I) in Hi. unfold ia_upd, set_if_af. by destruct (af =? AF_INET).
Qed.

Lemma find_ia_upd s ifp i af f : find_ptr ifp (d_ifaces s) = Some i ->
  find_ptr ifp (d_ifaces (set_ifaces (upd_ptr ifp (ia_upd af f)) s)) = Some (ia_upd af f i).
Proof. intros Hi. cbn. by rewrite find_ptr_upd, Z.eqb_refl, Hi by apply keeps_ia_upd. Qed.

Lemma if_start_hello_timer_ok s ifp i af : disc_inv s -> find_ptr ifp (d_ifaces s) = Some i -> af_ok af ->
  runs_ok 0 (if_start_hello_timer ifp af) s.
Proof.
  intros I Hi Haf. unfold runs_ok, if_start_hello_timer. rewrite (bind_ok conf _ s (d_conf s) s) by done.
  rewrite (bind_ok _ _ _ _ _ (get_ia_ok s ifp af i Hi Haf)).
  destruct (ldp_af_conf_get_ok (d_conf s) _ Haf) as [ac Eac]. unfold if_get_hello_interval.
  rewrite Eac. cbn [rbind]. rewrite (bind_lift_ok _ _ _ _ eq_refl), (mod_ia_ok s ifp af i _ Hi Haf).
  eexists. split; [done|]. split; [by apply (upd_ia_inv s ifp i)|cbn; lia].
Qed.

(** A hello on a link and the timer for the next one. *)
Lemma hello_and_timer_ok s ifp i af : disc_inv s -> find_ptr ifp (d_ifaces s) = Some i -> af_ok af ->
  d_msgcnt s < 2 ^ 31 - 1 ->
  runs_ok 1 (send_hello (HelloLink ifp af) ;;; if_start_hello_timer ifp af) s.
Proof.
  intros I Hi Haf Hc. unfold runs_ok. pose proof (di_cnt _ I).
  destruct (send_hello_ok s (HelloLink ifp af)) as (s1 & E1 & S1); [split; [done|by eexists]|lia|].
  rewrite (bind_ok _ _ _ _ _ E1). pose proof (hello_sent_inv _ _ I S1) as I1.
  destruct (hello_sent_eqs _ _ S1) as (_ & _ & _ & _ & Ei & _ & _ & C1). rewrite <- Ei in Hi.
  destruct (if_start_hello_timer_ok s1 ifp i af I1 Hi Haf) as (s2 & ? & ? & ?).
  exists s2. split_and!; try done; lia.
Qed.

Lemma if_hello_timer_ok s ifp i af : disc_inv s -> find_ptr ifp (d_ifaces s) = Some i -> af_ok af ->
  d_msgcnt s < 2 ^ 31 - 1 -> runs_ok 1 (if_hello_timer ifp af) s.
Proof.
  intros I Hi Haf Hc. unfold runs_ok, if_hello_timer, if_stop_hello_timer.
  rewrite (bind_ok _ _ _ _ _ (mod_ia_ok s ifp af i _ Hi Haf)).
  match goal with |- context [(_ ;;; _) ?x] => set (s1 := x) end.
  assert (disc_inv s1) as I1 by (by apply (upd_ia_inv s ifp i)).
  by apply (hello_and_timer_ok s1 ifp _ af I1 (find_ia_upd s ifp i af _ Hi) Haf).
Qed.

(** An inactive interface has no adjacencies; interfaces stay, and stay so. *)
Definition quiet_ia (ia : iface_af) : Prop := ia_state ia <> IF_STA_ACTIVE -> ia_adj_list ia = [].
Definition calm (i i' : iface) : Prop :=
  if_name i' = if_name i /\ forall af, af_ok af -> quiet_ia (ia_of i af) -> quiet_ia (ia_of i' af).
Lemma calm_refl i : calm i i. Proof. by split. Qed.
Lemma calm_ia_upd af f i : af_ok af -> (quiet_ia (ia_of i af) -> quiet_ia (f (ia_of i af))) -> calm i (ia_upd af f i).
Proof.
  intros Haf Hq. split; [unfold ia_upd, set_if_af; by case_match|]. intros af' Haf'. unfold ia_upd.
  rewrite ia_of_set by done. destruct (af' =? af) eqn:E; zbool; [by subst|done].
Qed.

Record heap_kept (s s' : disc) : Prop := HeapKept {
  hk_nbrs : nbrs_kept s s';
  hk_tps : ptrs (d_tnbrs s') = ptrs (d_tnbrs s);
  hk_ifps : ptrs (d_ifaces s') = ptrs (d_ifaces s);
  hk_calm : forall q i, find_ptr q (d_ifaces s) = Some i ->
    exists i', find_ptr q (d_ifaces s') = Some i' /\ calm i i'
}.
#[export] Instance heap_kept_preorder : PreOrder heap_kept.
Proof.
  split; [intros s; split; (done || by eauto using calm_refl)|].
  intros s1 s2 s3 [N1 T1 F1 C1] [N2 T2 F2 C2]. split; try congruence; [by etrans|].
  intros q i Hi. destruct (C1 q i Hi) as (i2 & H2 & M2 & Q2). destruct (C2 q i2 H2) as (i3 & H3 & M3 & Q3).
  exists i3. split; [done|]. split; [congruence|auto].
Qed.

Lemma upd_heap_kept s p f : keeps_ptr f -> (forall i, find_ptr p (d_ifaces s) = Some i -> calm i (f i)) ->
  heap_kept s (set_ifaces (upd_ptr p f) s).
Proof.
  intros Hf Hc. split; [by apply same_nbrs_kept|done|by apply ptrs_upd|]. intros q i Hi. cbn.
  rewrite find_ptr_upd, Hi by done. destruct (q =? p) eqn:E; zbool; [subst|]; eexists; (split; [done|]);
    [by apply Hc|apply calm_refl].
Qed.

Lemma shrinks_kept s s' : shrinks s s' -> nbrs_kept s s' -> heap_kept s s'.
Proof.
  intros S N. split; try apply S; try done. intros q i Hi.
  destruct (sh_ifaces _ _ S _ _ Hi) as (i' & Hi' & _ & Hn & Hl). exists i'. split; [done|]. split; [done|].
  intros af Haf Hq Hst. destruct (Hl af Haf) as [Hsub E]. rewrite E in Hst. rewrite (Hq Hst) in Hsub.
  by apply sublist_nil_r in Hsub.
Qed.

(** The loop of [if_reset]; the list gets shorter with every deletion. *)
Lemma if_del_adjs_ok fuel : forall s ifp i af, disc_inv s -> find_ptr ifp (d_ifaces s) = Some i -> af_ok af ->
  (length (ia_adj_list (ia_of i af)) < fuel)%nat ->
  d_msgcnt s + 5 * Z.of_nat (length (ia_adj_list (ia_of i af))) < 2 ^ 31 - 5 ->
  exists s' i', if_del_adjs fuel ifp af s = Ok (tt, s') /\ disc_inv s' /\ shrinks s s' /\ nbrs_kept s s' /\
    find_ptr ifp (d_ifaces s') = Some i' /\ ia_adj_list (ia_of i' af) = [] /\
    d_msgcnt s <= d_msgcnt s' <= d_msgcnt s + 5 * Z.of_nat (length (ia_adj_list (ia_of i af))).
Proof.
  induction fuel as [|fuel IH]; intros s ifp i af I Hi Haf Hf Hc; [lia|]. cbn [if_del_adjs].
  rewrite (bind_ok _ _ _ _ _ (get_ia_ok s ifp af i Hi Haf)).
  destruct (ia_adj_list (ia_of i af)) as [|p l] eqn:El.
  { exists s, i. split_and!; try done; cbn; lia. }
  destruct (di_iface _ I _ _ Hi af Haf) as [Hnd Hall]. rewrite El in Hnd, Hall.
  destruct (Hall p) as (a & src & Ha & _); [left|]. cbn [length] in Hc, Hf.
  destruct (adj_del_ok s p a S_SHUTDOWN I Ha) as (s1 & E1 & I1 & S1 & Hp1 & C1 & K1); [lia|].
  apply (adj_del_kept s p a s1 I Ha) in K1.
  rewrite (bind_ok _ _ _ _ _ E1). destruct (sh_ifaces _ _ S1 _ _ Hi) as (i1 & Hi1 & _ & _ & Hle).
  destruct (Hle af Haf) as [Hsub _]. rewrite El in Hsub.
  assert (p ∉ ia_adj_list (ia_of i1 af)) as Hnp.
  { intros Hin. destruct (di_iface _ I1 _ _ Hi1 af Haf) as [_ H2]. destruct (H2 p Hin) as (b & ? & Hb & _).
    congruence. }
  assert (length (ia_adj_list (ia_of i1 af)) <= length l)%nat as Hlen.
  { apply submseteq_length, NoDup_submseteq; [apply (di_iface _ I1 _ _ Hi1 af Haf)|].
    intros q Hq. assert (q ∈ p :: l) as Hq' by (eapply elem_of_submseteq; [done|by apply sublist_submseteq]).
    apply elem_of_cons in Hq' as [-> |]; done. }
  destruct (IH s1 ifp i1 af I1 Hi1 Haf) as (s2 & i2 & E2 & I2 & S2 & K2 & Hi2 & Hl2 & C2); [lia|lia|].
  exists s2, i2. split_and!; try done; [by etrans|by etrans|lia|]. cbn [length]. lia.
Qed.

Lemma ia_list_length s ifp i af : disc_inv s -> find_ptr ifp (d_ifaces s) = Some i -> af_ok af ->
  (length (ia_adj_list (ia_of i af)) <= length (d_adjs s))%nat.
Proof.
  intros I Hi Haf. destruct (di_iface _ I _ _ Hi af Haf) as [H1 H2].
  rewrite <- (length_fmap ptr_of (d_adjs s)). apply submseteq_length, NoDup_submseteq; [done|].
  intros p Hp. destruct (H2 p Hp) as (a & src & Ha & _). apply find_ptr_ptr in Ha as [<- Ha].
  by apply list_elem_of_fmap_2.
Qed.

(** Messages interface code may send. *)
Definition if_room (s : disc) : Prop :=
  d_msgcnt s + 5 * Z.of_nat (length (d_adjs s)) < 2 ^ 31 - 32.

Lemma if_reset_ok s ifp i af : disc_inv s -> if_room s -> find_ptr ifp (d_ifaces s) = Some i -> af_ok af ->
  exists s' i', if_reset ifp af s = Ok (tt, s') /\ disc_inv s' /\
    find_ptr ifp (d_ifaces s') = Some i' /\ ia_adj_list (ia_of i' af) = [] /\ adjs_le s s' /\ heap_kept s s' /\
    d_msgcnt s <= d_msgcnt s' <= d_msgcnt s + 5 * Z.of_nat (length (d_adjs s)).
Proof.
  intros I Hroom Hi Haf. unfold if_room in Hroom. unfold if_reset, if_stop_hello_timer.
  rewrite (bind_ok _ _ _ _ _ (mod_ia_ok s ifp af i _ Hi Haf)).
  match goal with |- context [bind _ _ ?x] => set (s1 := x) end.
  assert (disc_inv s1) as I1 by (by apply (upd_ia_inv s ifp i)).
  pose proof (find_ia_upd s ifp i af (fun ia => set_ia_hello_timer ia None) Hi) as Hi1. fold s1 in Hi1.
  rewrite (bind_ok _ _ _ _ _ (get_ia_ok s1 ifp af _ Hi1 Haf)).
  pose proof (ia_list_length s1 ifp _ af I1 Hi1 Haf) as Hlen. cbn in Hlen.
  match goal with |- context [if_del_adjs (S (length ?x))] => set (l := x) in * end.
  destruct (if_del_adjs_ok (S (length l)) s1 ifp _ af I1 Hi1 Haf) as (s2 & i2 & E2 & I2 & S2 & K2 & Hi2 & Hl2 & C2).
  - fold l. lia.
  - fold l. cbn. lia.
  - exists s2, i2. fold l in C2. cbn in C2. split_and!; try done; [| |lia|lia].
    + intros q a Hq. by apply (sh_adjs _ _ S2) in Hq.
    + transitivity s1; [|by apply shrinks_kept].
      apply upd_heap_kept; [apply keeps_ia_upd|]. intros x _. by apply calm_ia_upd.
Qed.

(** What interface code may do to the rest: interfaces stay, adjacencies only go. *)
Definition if_runs (k : Z) (ifp : Z) (m : ST disc unit) (s : disc) : Prop :=
  exists s' i', m s = Ok (tt, s') /\ disc_inv s' /\ find_ptr ifp (d_ifaces s') = Some i' /\ adjs_le s s' /\
    heap_kept s s' /\ d_msgcnt s <= d_msgcnt s' <= d_msgcnt s + k.

Lemma if_runs_ret s ifp i k : disc_inv s -> find_ptr ifp (d_ifaces s) = Some i -> 0 <= k ->
  if_runs k ifp (ret tt) s.
Proof. intros I Hi Hk. exists s, i. split_and!; try done; try lia. by intros ? ?. Qed.

Lemma if_runs_weaken s ifp m k k' : k <= k' -> if_runs k ifp m s -> if_runs k' ifp m s.
Proof. intros Hk (s' & i' & ? & ? & ? & ? & ? & ?). exists s', i'. split_and!; try done; lia. Qed.

Lemma adjs_le_trans s1 s2 s3 : adjs_le s1 s2 -> adjs_le s2 s3 -> adjs_le s1 s3.
Proof. unfold adjs_le. eauto. Qed.

Lemma if_runs_bind k k' ifp m m' s : if_runs k ifp m s ->
  (forall s1 i1, disc_inv s1 -> find_ptr ifp (d_ifaces s1) = Some i1 -> adjs_le s s1 -> heap_kept s s1 ->
     d_msgcnt s <= d_msgcnt s1 <= d_msgcnt s + k -> if_runs k' ifp m' s1) ->
  if_runs (k + k') ifp (m ;;; m') s.
Proof.
  intros (s1 & i1 & E1 & I1 & H1 & L1 & K1 & C1) H.
  destruct (H s1 i1 I1 H1 L1 K1 C1) as (s2 & i2 & E2 & I2 & H2 & L2 & K2 & C2).
  exists s2, i2. rewrite (bind_ok _ _ _ _ _ E1).
  split_and!; try done; [by eapply adjs_le_trans|by etrans|lia|lia].
Qed.

Lemma if_runs_ok k ifp m s : if_runs k ifp m s -> runs_ok k m s.
Proof. intros (s' & i' & ? & ? & ? & ? & ? & ?). by exists s'. Qed.

Lemma mod_ia_runs s ifp i af f : disc_inv s -> find_ptr ifp (d_ifaces s) = Some i -> af_ok af ->
  ia_adj_list (f (ia_of i af)) = ia_adj_list (ia_of i af) ->
  (quiet_ia (ia_of i af) -> quiet_ia (f (ia_of i af))) -> if_runs 0 ifp (mod_ia ifp af f) s.
Proof.
  intros I Hi Haf Hf Hq. eexists _, _. split; [by apply (mod_ia_ok s ifp af i)|].
  split; [by apply (upd_ia_inv s ifp i)|]. split; [by apply find_ia_upd|]. split; [by intros ? ?|].
  split; [|cbn; lia]. apply upd_heap_kept; [apply keeps_ia_upd|]. intros x Hx. rewrite Hi in Hx.
  simplify_eq. by apply calm_ia_upd.
Qed.

Lemma if_hello_runs s ifp i af : disc_inv s -> find_ptr ifp (d_ifaces s) = Some i -> af_ok af ->
  d_msgcnt s < 2 ^ 31 - 1 -> if_runs 1 ifp (send_hello (HelloLink ifp af)) s.
Proof.
  intros I Hi Haf Hc. pose proof (di_cnt _ I).
  destruct (send_hello_ok s (HelloLink ifp af)) as (s1 & E1 & S1); [split; [done|by eexists]|lia|].
  pose proof (hello_sent_inv _ _ I S1) as I1.
  destruct (hello_sent_eqs _ _ S1) as (_ & En & Ea & Et & Ei & _ & _ & C1).
  exists s1, i. split_and!; try done; try lia; [by rewrite Ei|intros ? ?; congruence|].
  split; [by apply same_nbrs_kept|congruence..|]. intros q x Hx. rewrite Ei. eauto using calm_refl.
Qed.

Lemma if_timer_runs s ifp i af : disc_inv s -> find_ptr ifp (d_ifaces s) = Some i -> af_ok af ->
  if_runs 0 ifp (if_start_hello_timer ifp af) s.
Proof.
  intros I Hi Haf. unfold if_start_hello_timer, if_runs. rewrite (bind_ok conf _ s (d_conf s) s) by done.
  rewrite (bind_ok _ _ _ _ _ (get_ia_ok s ifp af i Hi Haf)).
  destruct (ldp_af_conf_get_ok (d_conf s) _ Haf) as [ac Eac]. unfold if_get_hello_interval.
  rewrite Eac. cbn [rbind]. rewrite (bind_lift_ok _ _ _ _ eq_refl). by apply (mod_ia_runs s ifp i).
Qed.

Lemma if_start_ok s ifp i af j : disc_inv s -> find_ptr ifp (d_ifaces s) = Some i -> af_ok af ->
  d_msgcnt s < 2 ^ 31 - 1 -> if_runs 1 ifp (if_start j ifp af) s.
Proof.
  intros I Hi Haf Hc. unfold if_start, if_runs. rewrite (bind_ok _ _ _ _ _ (get_ia_ok s ifp af i Hi Haf)).
  destruct j; cbn [negb]; [|apply (if_runs_ret s ifp i); (done || lia)].
  apply (if_runs_bind 1 0); [by apply (if_hello_runs s ifp i)|]. intros s1 i1 I1 H1 _ _ _.
  by apply (if_timer_runs s1 ifp i1).
Qed.

(** An interface that goes down loses its adjacencies. *)
Lemma if_down_runs s ifp i af : disc_inv s -> if_room s -> find_ptr ifp (d_ifaces s) = Some i -> af_ok af ->
  if_runs (5 * Z.of_nat (length (d_adjs s))) ifp
    (mod_ia ifp af (fun ia => set_ia_state ia IF_STA_DOWN) ;;; if_reset ifp af) s.
Proof.
  intros I Hr Hi Haf. set (f := fun ia => set_ia_state ia IF_STA_DOWN).
  unfold if_runs. rewrite (bind_ok _ _ _ _ _ (mod_ia_ok s ifp af i f Hi Haf)).
  set (s1 := set_ifaces (upd_ptr ifp (ia_upd af f)) s).
  assert (disc_inv s1) as I1 by (by apply (upd_ia_inv s ifp i)).
  destruct (if_reset_ok s1 ifp (ia_upd af f i) af I1 Hr (find_ia_upd s ifp i af f Hi) Haf)
    as (s' & i' & E' & I' & Hi' & Hnil & L' & [N T F C] & Cnt).
  exists s', i'. split_and!; try done; try (cbn in Cnt; lia).
  split; [exact N|exact T|rewrite F; by apply ptrs_upd, keeps_ia_upd|].
  intros q x Hx. destruct (decide (q = ifp)) as [-> | Hne].
  - rewrite Hi in Hx. simplify_eq. exists i'. split; [done|].
    destruct (C _ _ (find_ia_upd s ifp x af f Hi)) as (i2 & Hi2 & Hn & Hq). rewrite Hi' in Hi2. simplify_eq.
    split; [rewrite Hn; unfold ia_upd, set_if_af; by case_match|]. intros af' Haf'.
    destruct (decide (af' = af)) as [-> | Hd]; [by intros _ _|]. intros Hx. apply Hq; [done|].
    unfold ia_upd. rewrite ia_of_set by done. by apply Z.eqb_neq in Hd as ->.
  - apply (C q x). unfold s1. cbn. rewrite find_ptr_upd by apply keeps_ia_upd.
    by apply Z.eqb_neq in Hne as ->.
Qed.

Lemma if_update_af_ok s ifp i af j link_ok : disc_inv s -> if_room s ->
  find_ptr ifp (d_ifaces s) = Some i -> af_ok af ->
  if_runs (5 * Z.of_nat (length (d_adjs s)) + 1) ifp (if_update_af j ifp af link_ok) s.
Proof.
  intros I Hroom Hi Haf. unfold if_update_af, if_runs.
  rewrite (bind_ok _ _ _ _ _ (get_iface_ok _ _ _ Hi)), (bind_ok _ _ _ _ _ (get_ia_ok s ifp af i Hi Haf)),
    (bind_ok conf _ s (d_conf s) s) by done.
  match goal with |- context [bind ?m _ s] => assert (exists b, m s = Ok (b, s)) as [b Eb] end.
  { destruct Haf as [-> | ->]; by eexists. }
  rewrite (bind_ok _ _ _ _ _ Eb). destruct (ldp_af_global_get_ok (d_conf s) _ Haf) as [ag Eag].
  rewrite (bind_lift_ok _ _ _ _ Eag). set (ok := _ && _ && _ && _ && _).
  assert (if_runs (5 * Z.of_nat (length (d_adjs s)) + 1) ifp (ret tt) s) as Hret
    by (apply (if_runs_ret s ifp i); (done || lia)).
  fold (if_runs (5 * Z.of_nat (length (d_adjs s)) + 1) ifp).
  destruct (ia_state (ia_of i af) =? IF_STA_DOWN).
  - destruct (negb ok); [done|]. apply (if_runs_weaken _ _ _ (0 + 1)); [lia|].
    apply if_runs_bind; [apply (mod_ia_runs s ifp i); try done; intros _ []; done|].
    intros s1 i1 I1 H1 _ _ C1. apply (if_start_ok s1 ifp i1); try done. unfold if_room in Hroom. lia.
  - destruct (ia_state (ia_of i af) =? IF_STA_ACTIVE); [|done]. destruct ok; [done|].
    apply (if_runs_weaken _ _ _ (5 * Z.of_nat (length (d_adjs s)))); [lia|].
    by apply (if_down_runs s ifp i).
Qed.

Lemma if_update_ok s ifp i af j : disc_inv s ->
  d_msgcnt s + 10 * Z.of_nat (length (d_adjs s)) < 2 ^ 31 - 33 -> find_ptr ifp (d_ifaces s) = Some i ->
  if_runs (10 * Z.of_nat (length (d_adjs s)) + 2) ifp (if_update j ifp af) s.
Proof.
  intros I Hroom Hi. unfold if_update, if_runs. rewrite (bind_ok _ _ _ _ _ (get_iface_ok _ _ _ Hi)).
  set (k := 5 * Z.of_nat (length (d_adjs s)) + 1). fold (if_runs (10 * Z.of_nat (length (d_adjs s)) + 2) ifp).
  replace (10 * Z.of_nat (length (d_adjs s)) + 2) with (k + k) by lia.
  apply if_runs_bind.
  - destruct (_ || _); [|apply (if_runs_ret s ifp i); (done || lia)].
    apply (if_update_af_ok s ifp i); try done; [unfold if_room; lia|by left].
  - intros s1 i1 I1 H1 L1 _ C1. destruct (_ || _); [|apply (if_runs_ret s1 ifp i1); (done || lia)].
    pose proof (adjs_le_length _ _ I1 L1) as Hlen.
    apply (if_runs_weaken _ _ _ (5 * Z.of_nat (length (d_adjs s1)) + 1)); [lia|].
    apply (if_update_af_ok s1 ifp i1); try done; [|by right]. unfold if_room in *. lia.
Qed.
End Ifaces.

(** ** All interfaces *)
Section AllIfaces.
Lemma if_update_all_ok j af l : forall s, disc_inv s ->
  (forall i, i ∈ l -> is_Some (find_ptr (if_ptr i) (d_ifaces s))) ->
  d_msgcnt s + Z.of_nat (length l) * (10 * Z.of_nat (length (d_adjs s)) + 2) < 2 ^ 31 - 33 ->
  exists s', foreach (fun i => if_update (j (if_ptr i)) (if_ptr i) af) l s = Ok (tt, s') /\ disc_inv s' /\
    adjs_le s s' /\ heap_kept s s' /\
    d_msgcnt s <= d_msgcnt s' <= d_msgcnt s + Z.of_nat (length l) * (10 * Z.of_nat (length (d_adjs s)) + 2).
Proof.
  induction l as [|i l IH]; intros s I Hl Hc.
  { exists s. do 2 (split; [done|]). split; [by intros ? ?|]. split; [reflexivity|cbn; lia]. }
  cbn [length] in *. set (k := 10 * Z.of_nat (length (d_adjs s)) + 2) in *. cbn [foreach].
  rewrite Nat2Z.inj_succ, Z.mul_succ_l in Hc |- *.
  assert (0 <= Z.of_nat (length l) * k) as Hk by (apply Z.mul_nonneg_nonneg; lia).
  destruct (Hl i) as [i0 Hi0]; [left|].
  destruct (if_update_ok s (if_ptr i) i0 af (j (if_ptr i)) I) as (s1 & i1 & E1 & I1 & _ & L1 & K1 & C1); [lia|done|].
  rewrite (bind_ok _ _ _ _ _ E1). pose proof (adjs_le_length _ _ I1 L1) as Hlen.
  destruct (IH s1 I1) as (s2 & E2 & I2 & L2 & K2 & C2).
  - intros x Hx. apply find_ptr_is_some. rewrite (hk_ifps _ _ K1). apply find_ptr_is_some, Hl. by right.
  - assert (Z.of_nat (length l) * (10 * Z.of_nat (length (d_adjs s1)) + 2) <= Z.of_nat (length l) * k)
      by (apply Z.mul_le_mono_nonneg_l; lia). lia.
  - assert (Z.of_nat (length l) * (10 * Z.of_nat (length (d_adjs s1)) + 2) <= Z.of_nat (length l) * k)
      by (apply Z.mul_le_mono_nonneg_l; lia).
    exists s2. split_and!; try done; [by eapply adjs_le_trans|by etrans|lia|lia].
Qed.
End AllIfaces.

(** ** Addresses of the router *)
Section Addresses.
Lemma set_addr_list_inv f s : disc_inv s -> disc_inv (set_addr_list f s).
Proof. by intros []. Qed.

(** One Address or Address Withdraw message to an operational neighbour. *)
Lemma announce_one_ok s n nb a w : disc_inv s -> d_msgcnt s < 2 ^ 31 - 1 -> af_ok (ifa_af a) ->
  find_ptr n (d_nbrs s) = Some nb -> n_state (dn_nbr nb) = NBR_STA_OPER ->
  exists e, on_nbr n (send_address nbr_fsm (ifa_af a) (Some (ifa_af a, ifa_addr a)) w) s
      = Ok (tt, put_nbr n e s) /\
    disc_inv (put_nbr n e s) /\ d_msgcnt s <= e_msgcnt e <= d_msgcnt s + 1.
Proof.
  intros I Hc Haf Hn Hst. pose proof (di_cnt _ I). pose proof (proj1 (di_nbr _ I _ _ Hn)) as Hi.
  destruct (on_nbr_safe s n nb (send_address nbr_fsm (ifa_af a) (Some (ifa_af a, ifa_addr a)) w) 1
    (fun _ => True) I Hn) as (e & E & Ie & Ce & _ & _); [apply keeps_send_address, keeps_fsm| |by eauto].
  apply wp_address; cbn [ldpe_of e_nbr e_msgcnt]; try done.
  - rewrite (si_tcp _ _ Hi), Hst. done.
  - intros e' I' _ C' _ _ _. cbn in C'. split_and!; try done; lia.
Qed.

Lemma announce_loop_ok a w l : af_ok (ifa_af a) -> forall s, disc_inv s -> NoDup (ptrs l) ->
  (forall n, n ∈ l -> find_ptr (dn_ptr n) (d_nbrs s) = Some n) ->
  d_msgcnt s + Z.of_nat (length l) < 2 ^ 31 - 1 ->
  exists s', foreach (fun n =>
    if negb (n_state (dn_nbr n) =? NBR_STA_OPER) then ret tt
    else if (ifa_af a =? AF_INET) && negb (n_v4_enabled (dn_nbr n)) then ret tt
    else if (ifa_af a =? AF_INET6) && negb (n_v6_enabled (dn_nbr n)) then ret tt
    else on_nbr (dn_ptr n) (send_address nbr_fsm (ifa_af a) (Some (ifa_af a, ifa_addr a)) w)) l s
      = Ok (tt, s') /\ disc_inv s' /\ d_adjs s' = d_adjs s /\ d_ifaces s' = d_ifaces s /\
    d_msgcnt s <= d_msgcnt s' <= d_msgcnt s + Z.of_nat (length l).
Proof.
  intros Haf. induction l as [|n l IH]; intros s I Hnd Hall Hc.
  { exists s. split_and!; try done; cbn; lia. }
  cbn [length] in Hc. apply NoDup_cons in Hnd as [Hnin Hnd]. cbn [foreach].
  assert (exists s1, (if negb (n_state (dn_nbr n) =? NBR_STA_OPER) then ret tt
    else if (ifa_af a =? AF_INET) && negb (n_v4_enabled (dn_nbr n)) then ret tt
    else if (ifa_af a =? AF_INET6) && negb (n_v6_enabled (dn_nbr n)) then ret tt
    else on_nbr (dn_ptr n) (send_address nbr_fsm (ifa_af a) (Some (ifa_af a, ifa_addr a)) w)) s
      = Ok (tt, s1) /\ disc_inv s1 /\ d_adjs s1 = d_adjs s /\ d_ifaces s1 = d_ifaces s /\
    d_msgcnt s <= d_msgcnt s1 <= d_msgcnt s + 1 /\
    forall m, m <> dn_ptr n -> find_ptr m (d_nbrs s1) = find_ptr m (d_nbrs s))
    as (s1 & E1 & I1 & A1 & F1 & C1 & N1).
  { assert (exists s1, ret tt s = Ok (tt, s1) /\ disc_inv s1 /\ d_adjs s1 = d_adjs s /\
      d_ifaces s1 = d_ifaces s /\ d_msgcnt s <= d_msgcnt s1 <= d_msgcnt s + 1 /\
      forall m, m <> dn_ptr n -> find_ptr m (d_nbrs s1) = find_ptr m (d_nbrs s)) as Hr
      by (exists s; split_and!; (done || lia)).
    destruct (n_state (dn_nbr n) =? NBR_STA_OPER) eqn:Est; cbn [negb]; [|exact Hr].
    destruct (_ && _); [exact Hr|]. destruct (_ && _); [exact Hr|]. zbool.
    destruct (announce_one_ok s (dn_ptr n) n a w) as (e & E & Ie & Ce); try done; [lia|apply Hall; left|].
    exists (put_nbr (dn_ptr n) e s). do 5 (split; [done|]). intros m Hm. rewrite put_nbrs.
    destruct (m =? dn_ptr n) eqn:Em; zbool; done. }
  rewrite (bind_ok _ _ _ _ _ E1).
  destruct (IH s1) as (s2 & E2 & I2 & A2 & F2 & C2); try done; [|lia|].
  { intros m Hm. rewrite N1; [apply Hall; by right|]. intros Heq. apply Hnin. change (ptr_of n) with (dn_ptr n).
    rewrite <- Heq. by apply (list_elem_of_fmap_2 ptr_of). }
  exists s2. split_and!; try done; try congruence; cbn [length]; lia.
Qed.

Lemma announce_addr_ok s a w : disc_inv s -> af_ok (ifa_af a) ->
  d_msgcnt s + Z.of_nat (length (d_nbrs s)) < 2 ^ 31 - 1 ->
  exists s', announce_addr a w s = Ok (tt, s') /\ disc_inv s' /\ d_adjs s' = d_adjs s /\
    d_ifaces s' = d_ifaces s /\
    d_msgcnt s <= d_msgcnt s' <= d_msgcnt s + Z.of_nat (length (d_nbrs s)).
Proof.
  intros I Haf Hc. unfold announce_addr. rewrite (bind_ok get _ s s s) by done.
  apply announce_loop_ok; try done; [apply (di_nbrs _ I)|].
  intros n Hn. apply (find_ptr_in _ n); [apply (di_nbrs _ I)|done].
Qed.

Lemma if_lookup_ok s x i : disc_inv s -> if_lookup s x = Some i -> find_ptr (if_ptr i) (d_ifaces s) = Some i.
Proof.
  intros I H. apply list_find_in in H as [Hin _]. apply (find_ptr_in _ i); [apply (di_ifaces _ I)|done].
Qed.

Lemma mod_iface_runs s ifp i f : disc_inv s -> find_ptr ifp (d_ifaces s) = Some i -> keeps_ptr f ->
  (forall af, af_ok af -> ia_adj_list (ia_of (f i) af) = ia_adj_list (ia_of i af)) ->
  Forall plen_ok (if_addr_list (f i)) -> calm i (f i) -> if_runs 0 ifp (mod_iface ifp f) s.
Proof.
  intros I Hi Hf Hl Hp Hc. exists (set_ifaces (upd_ptr ifp f) s), (f i). split; [by apply (mod_iface_ok s ifp i)|].
  split; [by apply (upd_iface_inv s ifp i)|].
  split; [cbn; by rewrite find_ptr_upd, Z.eqb_refl, Hi|]. split; [by intros ? ?|].
  split; [|cbn; lia]. apply upd_heap_kept; [done|]. intros x Hx. rewrite Hi in Hx. by simplify_eq.
Qed.

Lemma set_linklocal_runs s ifp i (b : bool) v : disc_inv s -> find_ptr ifp (d_ifaces s) = Some i ->
  if_runs 0 ifp (if b then mod_iface ifp (fun i => set_if_linklocal i v) else ret tt) s.
Proof.
  intros I Hi. destruct b; [|by apply (if_runs_ret s ifp i)].
  apply (mod_iface_runs s ifp i); try done. exact (di_plen _ I _ _ Hi).
Qed.

(** Changing the list of addresses and updating the interface. *)
Lemma set_addrs_runs s ifp i f af j : disc_inv s -> find_ptr ifp (d_ifaces s) = Some i ->
  Forall plen_ok (f (if_addr_list i)) ->
  d_msgcnt s + 10 * Z.of_nat (length (d_adjs s)) < 2 ^ 31 - 33 ->
  if_runs (10 * Z.of_nat (length (d_adjs s)) + 2) ifp
    (mod_iface ifp (fun i => set_if_addr_list i (f (if_addr_list i))) ;;; if_update j ifp af) s.
Proof.
  intros I Hi Hf Hc. set (k := 10 * Z.of_nat (length (d_adjs s)) + 2).
  apply (if_runs_weaken _ _ _ (0 + k)); [lia|].
  apply if_runs_bind; [by apply (mod_iface_runs s ifp i)|]. intros s1 i1 I1 H1 L1 _ C1.
  pose proof (adjs_le_length _ _ I1 L1).
  apply (if_runs_weaken _ _ _ (10 * Z.of_nat (length (d_adjs s1)) + 2)); [lia|].
  apply (if_update_ok s1 ifp i1); (done || lia).
Qed.

(** Messages an address of the router may cause. *)
Definition addr_cost (s : disc) : Z :=
  Z.of_nat (length (d_nbrs s)) + 10 * Z.of_nat (length (d_adjs s)) + 2.

Lemma if_addr_add_ok s j k : disc_inv s -> af_ok (ifa_af (ka_addr k)) -> plen_ok (ka_addr k) ->
  d_msgcnt s + addr_cost s < 2 ^ 31 - 33 -> runs_ok (addr_cost s) (if_addr_add j k) s.
Proof.
  intros I Haf Hp Hc. unfold addr_cost in *. unfold runs_ok, if_addr_add. cbv zeta.
  set (ka := ka_addr k) in *.
  rewrite (bind_ok get _ s s s) by done.
  match goal with |- context [bind ?m _ s] => assert (exists s1, m s = Ok (tt, s1) /\ disc_inv s1 /\
    d_adjs s1 = d_adjs s /\ d_ifaces s1 = d_ifaces s /\
    d_msgcnt s <= d_msgcnt s1 <= d_msgcnt s + Z.of_nat (length (d_nbrs s))) as (s1 & E1 & I1 & A1 & F1 & C1) end.
  { case_bool_decide; [|exists s; split_and!; (done || lia)].
    rewrite (bind_ok _ _ _ tt (set_addr_list (cons ka) s)) by done.
    destruct (announce_addr_ok (set_addr_list (cons ka) s) ka false) as (s1 & H1); try done.
    - by apply set_addr_list_inv.
    - cbn. lia.
    - by exists s1. }
  rewrite (bind_ok _ _ _ _ _ E1), (bind_ok get _ s1 s1 s1) by done.
  destruct (if_lookup s1 (ka_ifindex k)) as [i|] eqn:Ei; [|exists s1; split_and!; (done || lia)].
  apply if_lookup_ok in Ei as Hi; [|done].
  assert (if_runs (0 + (10 * Z.of_nat (length (d_adjs s)) + 2)) (if_ptr i)
    ((if (ifa_af ka =? AF_INET6) && IN6_IS_ADDR_LINKLOCAL (v6 (ifa_addr ka))
       then mod_iface (if_ptr i) (fun i => set_if_linklocal i (v6 (ifa_addr ka))) else ret tt) ;;;
      if bool_decide (if_addr_lookup (if_addr_list i) ka = None)
      then mod_iface (if_ptr i) (fun i => set_if_addr_list i (ka :: if_addr_list i)) ;;;
           if_update j (if_ptr i) (ifa_af ka)
      else ret tt) s1) as (s2 & i2 & E2 & I2 & _ & _ & _ & C2).
  2:{ exists s2. split_and!; try done; lia. }
  apply if_runs_bind; [by apply (set_linklocal_runs s1 _ i)|]. intros s2 i2 I2 H2 L2 _ C2.
  pose proof (adjs_le_length _ _ I2 L2) as Hlen. rewrite A1 in Hlen.
  destruct (bool_decide (if_addr_lookup (if_addr_list i) ka = None));
    [|apply (if_runs_ret s2 _ i2); (done || lia)].
  apply (if_runs_weaken _ _ _ (10 * Z.of_nat (length (d_adjs s2)) + 2)); [lia|].
  apply (set_addrs_runs s2 _ i2 (cons ka)); try done; [|lia].
  constructor; [done|exact (di_plen _ I2 _ _ H2)].
Qed.

Lemma plen_remove ka l : Forall plen_ok l -> Forall plen_ok (if_addr_remove ka l).
Proof. induction 1 as [|a l Ha Hl IH]; cbn; [done|]. destruct (_ && _); [done|by constructor]. Qed.

(** The addresses the router has announced are those of the kernel. *)
Definition addrs_ok (s : disc) : Prop := Forall (fun a => af_ok (ifa_af a)) (d_addr_list s).

Lemma if_addr_lookup_in l ka a : if_addr_lookup l ka = Some a -> a ∈ l.
Proof. intros H. by apply list_find_in in H as [? _]. Qed.
End Addresses.
