(* ===== verification/DiscFrame.v ===== *)
(** * What operations on the discovery heap leave alone

    [stays R m]: every run of [m] relates its states by [R].  For any preorder
    that the elementary updates respect ([Local]) the operations of [Discovery]
    respect it too.  Instances: the configuration and the router's addresses
    ([frame]), and the number of targeted neighbours and interfaces. *)
From stdpp Require Import prelude strings list.
From Stdlib Require Import ZArith Lia.
From S2P Require Import Prelude Util Wire Ipc Session Fec Hello Discovery DiscInv DiscSafe DiscRun.

Definition stays (R : disc -> disc -> Prop) {A} (m : ST disc A) : Prop :=
  forall s a s', m s = Ok (a, s') -> R s s'.

(** What only a configuration changes of an interface and of a targeted
    neighbour. *)
Definition ia_conf (ia : iface_af) : bool * Z * Z := (ia_enabled ia, ia_hello_holdtime ia, ia_hello_interval ia).
Definition if_conf (i : iface) : Z * string * (bool * Z * Z) * (bool * Z * Z) :=
  (if_ptr i, if_name i, ia_conf (if_ipv4 i), ia_conf (if_ipv6 i)).
Definition t_conf (t : tnbr) : Z * Z * ldpd_addr * bool :=
  (t_ptr t, t_af t, t_addr t, has_flag (t_flags t) F_TNBR_CONFIGURED).

(** Relations that the elementary updates in place respect. *)
Class Local (R : disc -> disc -> Prop) := {
  local_pre :: PreOrder R;
  local_nbrs f s : R s (set_nbrs f s);
  local_adjs f s : R s (set_adjs f s);
  local_tnbrs p f s : (forall t, find_ptr p (d_tnbrs s) = Some t -> t_conf (f t) = t_conf t) ->
    R s (set_tnbrs (upd_ptr p f) s);
  local_ifaces p f s : (forall i, if_conf (f i) = if_conf i) -> R s (set_ifaces (upd_ptr p f) s);
  local_pids f s : R s (set_pids f s);
  local_msgcnt v s : R s (set_msgcnt v s);
  local_sent f s : R s (set_sent f s);
  local_put p e s : R s (put_nbr p e s)
}.

Section Steps.
Context {R : disc -> disc -> Prop} `{!PreOrder R}.
Lemma stays_bind {A B} (m : ST disc A) (k : A -> ST disc B) :
  stays R m -> (forall a, stays R (k a)) -> stays R (bind m k).
Proof.
  intros Hm Hk s b s' H. apply bind_inv in H as (a & s1 & H1 & H2).
  etrans; [by eapply Hm|by eapply Hk].
Qed.
Lemma stays_ret {A} (a : A) : stays R (ret a).
Proof. intros s ? ? H. unfold ret in H. by simplify_eq. Qed.
Lemma stays_get : stays R get.
Proof. intros s ? ? H. unfold get in H. by simplify_eq. Qed.
Lemma stays_conf : stays R conf.
Proof. intros s ? ? H. unfold conf in H. by simplify_eq. Qed.
Lemma stays_lift {A} (c : res A) : stays R (lift c).
Proof. intros s ? ? H. unfold lift in H. destruct c; by simplify_eq/=. Qed.
Lemma stays_deref {A} `{Ptr A} sel w p : stays R (deref sel w p).
Proof. intros s ? ? E. unfold deref in E. case_match; by simplify_eq. Qed.
Lemma stays_modify f : (forall s, R s (f s)) -> stays R (modify f).
Proof. intros Hf s ? ? H. unfold modify in H. simplify_eq. apply Hf. Qed.
Lemma stays_fatal {A} w : stays R (@fatalx disc A w).
Proof. intros s ? ? H. done. Qed.
Lemma stays_undef {A} w : stays R (@undef disc A w).
Proof. intros s ? ? H. done. Qed.
Lemma stays_nofuel {A} : stays R (@nofuel disc A).
Proof. intros s ? ? H. done. Qed.
Lemma stays_foreach {A} (f : A -> ST disc unit) l : (forall a, stays R (f a)) -> stays R (foreach f l).
Proof.
  intros Hf. induction l as [|x l IH]; [apply stays_ret|]. cbn [foreach]. by apply stays_bind.
Qed.
End Steps.

#[export] Hint Extern 1 (forall _, t_conf _ = t_conf _) => (intros ?; reflexivity) : stays.
#[export] Hint Extern 1 (forall _, if_conf _ = if_conf _) => (intros ?; reflexivity) : stays.
#[export] Hint Extern 1 (forall _, ia_conf _ = ia_conf _) => (intros ?; reflexivity) : stays.
#[export] Hint Resolve stays_ret stays_get stays_conf stays_lift stays_deref stays_fatal stays_undef
  stays_nofuel : stays.

(** Elementary updates of a [Local] relation, or of one with hints of its own. *)
Create HintDb local.
Ltac local_solve :=
  first [apply local_nbrs | apply local_adjs | apply local_tnbrs; intros ? ?; done | apply local_ifaces; intros ?; done | apply local_pids
        | apply local_msgcnt | apply local_sent | solve [eauto with local]].

(** Decompose engine code into the steps above. *)
Ltac stays_step :=
  lazymatch goal with
  | |- stays _ (bind _ _) => apply stays_bind; [|intros ?]
  | |- stays _ (modify _) => apply stays_modify; intros ?; local_solve
  | |- stays _ (foreach _ _) => apply stays_foreach; intros ?
  | |- stays _ (match ?x with _ => _ end) => destruct x
  | |- stays _ (let (_, _) := ?x in _) => destruct x
  | |- stays _ (let x := _ in _) => cbv zeta
  | |- _ => solve [eauto with stays typeclass_instances]
  end.
Ltac stays_solve := repeat stays_step.

(** Sending a hello and starting or stopping one leaves the targeted neighbours
    alone. *)
Definition tnbrs_rel (s s' : disc) : Prop := d_tnbrs s' = d_tnbrs s.
Section Hellos.
#[local] Instance tnbrs_rel_preorder : PreOrder tnbrs_rel.
Proof. split; [done|]. intros a b c H1 H2. unfold tnbrs_rel in *. congruence. Qed.
Lemma tnbrs_send_hello d : stays tnbrs_rel (send_hello d).
Proof.
  assert (stays tnbrs_rel disc_msgcnt) as Hc by (intros s ? ? H; unfold disc_msgcnt in H; case_match; by simplify_eq/=).
  assert (forall f, stays tnbrs_rel (modify (set_sent f))) as Hs by (intros f; by apply stays_modify).
  unfold send_hello, hello_params, send_packet, get_ia, get_iface.
  repeat first [apply Hc | apply Hs | apply stays_deref | stays_step].
Qed.
Lemma tnbr_updated_conf t s t' s' : tnbr_updated t s = Ok (t', s') -> d_tnbrs s' = d_tnbrs s /\ t_conf t' = t_conf t.
Proof.
  assert (forall {A} (c : res A) (s : disc) a s', lift c s = Ok (a, s') -> s' = s) as Hl
    by (intros A c s0 a s1 H; unfold lift in H; destruct c; by simplify_eq/=).
  intros H. unfold tnbr_updated in H. rewrite (bind_ok conf _ s (d_conf s) s) in H by done.
  apply bind_inv in H as (ag & s1 & H1 & H). apply Hl in H1 as ->. cbv zeta in H.
  repeat case_match; try (unfold ret in H; by simplify_eq).
  apply bind_inv in H as (u & s2 & H2 & H). apply bind_inv in H as (secs & s3 & H3 & H).
  apply Hl in H3 as ->. apply tnbrs_send_hello in H2. unfold ret in H. by simplify_eq.
Qed.
End Hellos.

(** ** Operations that update in place *)
Section Ops.
Context {R : disc -> disc -> Prop} `{!Local R}.
Lemma stays_on_nbr p m : stays R (on_nbr p m).
Proof.
  unfold on_nbr. apply stays_bind; [apply stays_deref|]. intros n s ? s' H.
  destruct (m (ldpe_of s n)) as [[]| | |]; simplify_eq/=. apply local_put.
Qed.
Lemma stays_msgcnt : stays R disc_msgcnt.
Proof. intros s ? ? H. unfold disc_msgcnt in H. case_match; simplify_eq/=. apply local_msgcnt. Qed.
Lemma stays_get_adj p : stays R (get_adj p). Proof. apply stays_deref. Qed.
Lemma stays_get_tnbr p : stays R (get_tnbr p). Proof. apply stays_deref. Qed.
Lemma stays_get_iface p : stays R (get_iface p). Proof. apply stays_deref. Qed.
Lemma stays_get_dnbr p : stays R (get_dnbr p). Proof. apply stays_deref. Qed.
#[local] Hint Resolve stays_on_nbr stays_msgcnt stays_get_adj stays_get_tnbr stays_get_iface stays_get_dnbr : stays.

Lemma stays_mod_adj p f : stays R (mod_adj p f). Proof. unfold mod_adj. stays_solve. Qed.
Lemma stays_mod_tnbr p f : (forall t, t_conf (f t) = t_conf t) -> stays R (mod_tnbr p f).
Proof. intros Hf. unfold mod_tnbr. apply stays_bind; [apply stays_get_tnbr|intros ?]. apply stays_modify. intros s. by apply local_tnbrs. Qed.
Lemma stays_mod_iface p f : (forall i, if_conf (f i) = if_conf i) -> stays R (mod_iface p f).
Proof. intros Hf. unfold mod_iface. apply stays_bind; [apply stays_get_iface|intros ?]. apply stays_modify. intros s. by apply local_ifaces. Qed.
Lemma stays_mod_dnbr p f : stays R (mod_dnbr p f). Proof. unfold mod_dnbr. stays_solve. Qed.
Lemma stays_get_ia p af : stays R (get_ia p af). Proof. unfold get_ia. stays_solve. Qed.
#[local] Hint Resolve stays_mod_adj stays_mod_tnbr stays_mod_iface stays_mod_dnbr stays_get_ia : stays.
Lemma stays_mod_ia p af f : (forall ia, ia_conf (f ia) = ia_conf ia) -> stays R (mod_ia p af f).
Proof.
  intros Hf. unfold mod_ia. apply stays_bind; [apply stays_get_ia|intros ?]. apply stays_mod_iface. intros i.
  unfold set_if_af, if_conf, ia_of. destruct (af =? AF_INET); cbn; by rewrite Hf.
Qed.
Lemma stays_send_packet af d i x : stays R (send_packet af d i x). Proof. unfold send_packet. stays_solve. Qed.
#[local] Hint Resolve stays_mod_ia stays_send_packet : stays.
Lemma stays_send_hello d : stays R (send_hello d).
Proof. unfold send_hello, hello_params. stays_solve. Qed.
Lemma stays_adj_get_af a : stays R (adj_get_af a). Proof. unfold adj_get_af. stays_solve. Qed.
#[local] Hint Resolve stays_send_hello stays_adj_get_af : stays.

Lemma stays_adj_del_single p : stays R (adj_del_single p).
Proof. unfold adj_del_single, adj_stop_itimer. stays_solve. Qed.
Lemma stays_count_af l af : stays R (count_af l af).
Proof. induction l; cbn [count_af]; stays_solve. Qed.
Lemma stays_nbr_del p : stays R (nbr_del p). Proof. unfold nbr_del. stays_solve. Qed.
#[local] Hint Resolve stays_adj_del_single stays_count_af stays_nbr_del : stays.
Lemma stays_adj_del p st : stays R (adj_del p st).
Proof. unfold adj_del, nbr_adj_count. stays_solve. Qed.
Lemma stays_establish env p : stays R (nbr_establish_connection env p).
Proof. unfold nbr_establish_connection, hello_of_source. stays_solve. Qed.
#[local] Hint Resolve stays_adj_del stays_establish : stays.

Lemma stays_if_timer ifp af : stays R (if_start_hello_timer ifp af).
Proof. unfold if_start_hello_timer. stays_solve. Qed.
Lemma stays_if_del_adjs f ifp af : stays R (if_del_adjs f ifp af).
Proof. induction f; cbn [if_del_adjs]; stays_solve. Qed.
#[local] Hint Resolve stays_if_timer stays_if_del_adjs : stays.
Lemma stays_if_update j ifp af : stays R (if_update j ifp af).
Proof. unfold if_update, if_update_af, if_start, if_reset, if_stop_hello_timer. stays_solve. Qed.
#[local] Hint Resolve stays_if_update : stays.
Lemma stays_if_update_all j af : stays R (if_update_all j af).
Proof. unfold if_update_all. stays_solve. Qed.
Lemma stays_if_hello_timer ifp af : stays R (if_hello_timer ifp af).
Proof. unfold if_hello_timer, if_stop_hello_timer. stays_solve. Qed.
Lemma stays_announce a w : stays R (announce_addr a w).
Proof. unfold announce_addr. stays_solve. Qed.
Lemma stays_tnbr_updated t : stays R (tnbr_updated t). Proof. unfold tnbr_updated. stays_solve. Qed.
#[local] Hint Resolve stays_tnbr_updated : stays.
Lemma stays_tnbr_update p : stays R (tnbr_update p).
Proof.
  unfold tnbr_update. intros s a s' H. apply bind_inv in H as (t & s1 & H1 & H). apply bind_inv in H as (t' & s2 & H2 & H).
  etrans; [exact (stays_get_tnbr _ _ _ _ H1)|]. etrans; [exact (stays_tnbr_updated _ _ _ _ H2)|].
  unfold get_tnbr, deref in H1. case_match; [|done]. simplify_eq.
  unfold mod_tnbr in H. apply bind_inv in H as (t2 & s3 & G & H). unfold get_tnbr, deref in G. case_match; [|done].
  unfold modify in H. simplify_eq. apply local_tnbrs. intros t0 Ht0. apply tnbr_updated_conf in H2 as [E ->].
  rewrite E in Ht0. congruence.
Qed.
#[local] Hint Resolve stays_tnbr_update : stays.
Lemma stays_tnbr_hello_timer p : stays R (tnbr_hello_timer p).
Proof. unfold tnbr_hello_timer. stays_solve. Qed.
Lemma stays_tnbr_update_all af : stays R (tnbr_update_all af).
Proof. unfold tnbr_update_all. stays_solve. Qed.
Lemma stays_nbr_idtimer env p : stays R (nbr_idtimer env p).
Proof. unfold nbr_idtimer. stays_solve. Qed.
Lemma stays_hello_accepted env src h fl o ap np : stays R (hello_accepted env src h fl o ap np).
Proof.
  unfold hello_accepted, hello_note, source_holdtime, adj_start_itimer, adj_stop_itimer. stays_solve.
Qed.
End Ops.

#[export] Hint Resolve stays_on_nbr stays_msgcnt stays_get_adj stays_get_tnbr stays_get_iface stays_get_dnbr
  stays_mod_adj stays_mod_tnbr stays_mod_iface stays_mod_dnbr stays_get_ia stays_mod_ia stays_send_packet
  stays_send_hello stays_adj_get_af stays_adj_del_single stays_count_af stays_nbr_del stays_adj_del
  stays_establish stays_if_update stays_if_update_all stays_if_hello_timer stays_announce stays_tnbr_updated
  stays_tnbr_update stays_tnbr_hello_timer stays_tnbr_update_all stays_nbr_idtimer stays_hello_accepted : stays.

(** ** How many targeted neighbours and interfaces there are *)
Definition same_sizes (s s' : disc) : Prop :=
  length (d_tnbrs s') = length (d_tnbrs s) /\ length (d_ifaces s') = length (d_ifaces s).
#[export] Instance same_sizes_local : Local same_sizes.
Proof.
  split; try done; [|intros p f s; split; [apply length_map|done]|intros p f s; split; [done|apply length_map]].
  split; [done|]. intros s1 s2 s3 [H1 H2] [H3 H4]. split; congruence.
Qed.

(** ** Configuration and addresses of the router *)
Definition frame_rel (s s' : disc) : Prop := d_addr_list s' = d_addr_list s /\ d_conf s' = d_conf s.
#[export] Instance frame_local : Local frame_rel.
Proof.
  split; try done. split; [done|]. intros s1 s2 s3 [H1 H2] [H3 H4]. split; congruence.
Qed.
Notation frame := (stays frame_rel).

Section FrameOps.
Lemma frame_modify f :
  (forall s, d_addr_list (f s) = d_addr_list s /\ d_conf (f s) = d_conf s) -> frame (modify f).
Proof. intros Hf. by apply stays_modify. Qed.
Lemma frame_alloc : frame alloc.
Proof. intros s ? ? H. unfold alloc in H. by simplify_eq. Qed.
Lemma frame_set_tnbrs f s : frame_rel s (set_tnbrs f s). Proof. done. Qed.
Lemma frame_set_pconns f s : frame_rel s (set_pconns f s). Proof. done. Qed.
#[local] Hint Resolve frame_alloc : stays.
#[local] Hint Resolve frame_set_tnbrs frame_set_pconns : local.

Lemma frame_adj_new l s a : frame (adj_new l s a). Proof. unfold adj_new. stays_solve. Qed.
Lemma frame_link_adjs l p id : frame (link_adjs l p id).
Proof. induction l; cbn [link_adjs]; stays_solve. Qed.
#[local] Hint Resolve frame_adj_new frame_link_adjs : stays.
Lemma frame_nbr_new id af ds a sc : frame (nbr_new id af ds a sc).
Proof. unfold nbr_new. stays_solve. Qed.
Lemma frame_tnbr_del p : frame (tnbr_del p).
Proof. unfold tnbr_del, tnbr_stop_hello_timer. stays_solve. Qed.
#[local] Hint Resolve frame_nbr_new frame_tnbr_del : stays.
Lemma frame_tnbr_check p : frame (tnbr_check p). Proof. unfold tnbr_check. stays_solve. Qed.
#[local] Hint Resolve frame_tnbr_check : stays.
Lemma frame_hello_target af fl src : frame (hello_target af fl src).
Proof. unfold hello_target, tnbr_new, mod_tnbr. stays_solve. Qed.
#[local] Hint Resolve frame_hello_target : stays.
Lemma frame_adj_itimer p : frame (adj_itimer p).
Proof. unfold adj_itimer. stays_solve. Qed.
Lemma frame_session_accept af a : frame (session_accept af a).
Proof. unfold session_accept. stays_solve. Qed.
Lemma frame_hello_from env l mi mt af a sc src h fl o : frame (hello_from env l mi mt af a sc src h fl o).
Proof.
  unfold hello_from, hello_adj, hello_nbr, drop_adj, hello_noncompliant, shutdown_nbr, nbr_adj_count.
  stays_solve.
Qed.
#[local] Hint Resolve frame_hello_from : stays.
Lemma frame_disc_recv_packet env af src mc x pkt : frame (disc_recv_packet env af src mc x pkt).
Proof.
  unfold disc_recv_packet, recv_hello, hello_process, hello_find_source. stays_solve.
Qed.
End FrameOps.

#[export] Hint Resolve frame_tnbr_check frame_adj_itimer frame_session_accept frame_disc_recv_packet : stays.
