(* ===== verification/DiscSystem.v ===== *)
(** * Discovery as a transition system

    The events of the engine (packets, timers, connections, session events,
    addresses and links of the router) as a step relation.  The invariant of
    [DiscInv] holds in every reachable state and every enabled event returns. *)
From stdpp Require Import prelude strings list.
From Stdlib Require Import ZArith Lia.
From S2P Require Import Prelude Util Wire Ipc Session Fec Hello Discovery DiscInv DiscSafe DiscRun DiscFrame.

(** ** Expiry of adjacencies *)
Section Expiry.
Lemma tnbr_del_kept s t tn p s' : disc_inv s -> find_ptr t (d_tnbrs s) = Some tn -> t_adj tn = Some p ->
  d_msgcnt s < 2 ^ 31 - 5 -> tnbr_del t s = Ok (tt, s') ->
  nbrs_kept s s' /\ idle_kept s s' /\ find_ptr p (d_adjs s') = None.
Proof.
  intros I Ht Hp Hc H. unfold tnbr_del, tnbr_stop_hello_timer in H.
  rewrite (bind_ok _ _ _ _ _ (mod_tnbr_ok _ _ _ _ Ht)) in H.
  set (f := fun t => set_t_hello_timer t None) in H. set (s1 := set_tnbrs (upd_ptr t f) s) in H.
  assert (disc_inv s1) as I1 by (by apply (set_tnbr_inv s t tn)).
  assert (find_ptr t (d_tnbrs s1) = Some (f tn)) as H1
    by (unfold s1; cbn; by rewrite find_ptr_upd, Z.eqb_refl, Ht by done).
  rewrite (bind_ok _ _ _ _ _ (get_tnbr_ok _ _ _ H1)) in H. cbn [f set_t_hello_timer t_adj] in H.
  rewrite Hp in H. destruct (di_tnbr _ I _ _ Ht) as [_ Hadj]. destruct (Hadj p Hp) as (a & Ha & _).
  destruct (adj_del_ok s1 p a S_SHUTDOWN I1 Ha) as (s2 & E2 & I2 & S2 & Hp2 & C2 & Hpost); [done|].
  rewrite (bind_ok _ _ _ _ _ E2) in H. apply bind_inv in H as (tn2 & s3 & H3 & H).
  unfold get_tnbr, deref in H3. destruct (find_ptr t (d_tnbrs s2)); [|done]. simplify_eq.
  unfold modify in H. simplify_eq. split; [exact (adj_del_kept s1 p a s3 I1 Ha Hpost)|].
  split; [exact (adj_del_idle s1 p a s3 I1 Ha Hpost)|done].
Qed.

(** The timer of an adjacency removes it and touches no other, apart from
    those that go with their neighbour. *)
Lemma adj_expired_ok s p a : disc_inv s -> find_ptr p (d_adjs s) = Some a -> d_msgcnt s < 2 ^ 31 - 5 ->
  exists s', adj_itimer p s = Ok (tt, s') /\ disc_inv s' /\ adjs_le s s' /\
    find_ptr p (d_adjs s') = None /\ nbrs_kept s s' /\ idle_kept s s' /\
    d_msgcnt s <= d_msgcnt s' <= d_msgcnt s + 5.
Proof.
  intros I Ha Hc. unfold adj_itimer. rewrite (bind_ok _ _ _ _ _ (mod_adj_ok s p a _ Ha)).
  set (f := fun a => set_a_itimer a None). set (s1 := set_adjs (upd_ptr p f) s).
  assert (disc_inv s1) as I1 by (by apply (set_adj_inv s p a)).
  assert (forall q, find_ptr q (d_adjs s1) = if q =? p then f <$> find_ptr q (d_adjs s) else find_ptr q (d_adjs s))
    as Q1 by (intros q; unfold s1; cbn; by rewrite find_ptr_upd by done).
  assert (find_ptr p (d_adjs s1) = Some (f a)) as H1 by (by rewrite Q1, Z.eqb_refl, Ha).
  assert (forall s2, find_ptr p (d_adjs s2) = None -> adjs_le s1 s2 -> adjs_le s s2) as Hle.
  { intros s2 Hp L q b Hq. apply L in Hq as Hq1. rewrite Q1 in Hq1. destruct (q =? p) eqn:E; [|done].
    zbool. congruence. }
  rewrite (bind_ok _ _ _ _ _ (get_adj_ok _ _ _ H1)).
  destruct (adj_del_ok s1 p (f a) S_HOLDTIME_EXP I1 H1) as (s2 & E2 & I2 & S2 & Hp2 & C2 & Hpost); [done|].
  assert (adjs_le s s2 /\ nbrs_kept s s2 /\ idle_kept s s2) as (L2 & K2 & J2).
  { split; [apply Hle; [done|exact (sh_adjs _ _ S2)]|].
    split; [exact (adj_del_kept s1 p (f a) s2 I1 H1 Hpost)|exact (adj_del_idle s1 p (f a) s2 I1 H1 Hpost)]. }
  destruct (a_source (f a)) as [ifp af src|t] eqn:Es.
  { exists s2. split_and!; try done; cbn in C2; lia. }
  destruct (di_adj _ I1 _ _ H1) as [_ Hs]. rewrite Es in Hs. destruct Hs as (tn & Htn & Hadj).
  rewrite (bind_ok _ _ _ _ _ (get_tnbr_ok _ _ _ Htn)). destruct (_ && _).
  - destruct (tnbr_del_ok s1 t tn I1 Htn) as (s3 & E3 & I3 & G3 & C3); [done|].
    destruct (tnbr_del_kept s1 t tn p s3 I1 Htn Hadj) as (K3 & J3 & Hp3); [done|done|].
    exists s3. split_and!; try done; try (cbn in C3; lia).
    apply Hle; [done|]. by destruct G3 as (_ & _ & _ & _ & G & _).
  - rewrite (bind_ok _ _ _ _ _ (mod_tnbr_ok s1 t tn _ Htn)).
    change (fun t0 => set_t_adj t0 None) with drop_t. rewrite (adj_del_forgotten s1 p (f a)) by done.
    exists s2. split_and!; try done; cbn in C2; lia.
Qed.
Lemma count_timer_off s p l af :
  count (set_adjs (upd_ptr p (fun a => set_a_itimer a None)) s) l af = count s l af.
Proof.
  unfold count. f_equal. f_equal. apply list_filter_iff. intros q.
  unfold adj_af. cbn. rewrite find_ptr_upd by done. destruct (q =? p); [|done].
  by destruct (find_ptr q (d_adjs s)).
Qed.

Lemma link_expiry s p a ifp af src n nb : disc_inv s -> d_msgcnt s < 2 ^ 31 - 5 ->
  find_ptr p (d_adjs s) = Some a -> a_source a = SrcLink ifp af src -> a_nbr a = Some n ->
  find_ptr n (d_nbrs s) = Some nb ->
  exists s', adj_itimer p s = Ok (tt, s') /\ find_ptr p (d_adjs s') = None /\
    (forall m, m <> n -> find_ptr m (d_nbrs s') = find_ptr m (d_nbrs s)) /\
    if count s (list_remove p (dn_adj_list nb)) (n_af (dn_nbr nb)) =? 0
    then find_ptr n (d_nbrs s') = None /\ (forall q, q ∈ dn_adj_list nb -> find_ptr q (d_adjs s') = None)
    else find_ptr n (d_nbrs s') = Some (drop_nb p nb) /\
         (forall q, q <> p -> find_ptr q (d_adjs s') = find_ptr q (d_adjs s)).
Proof.
  intros I Hc Ha Hsrc Hn Hnb. unfold adj_itimer. rewrite (bind_ok _ _ _ _ _ (mod_adj_ok s p a _ Ha)).
  rewrite <- count_timer_off with (p := p).
  set (f := fun a => set_a_itimer a None). set (s1 := set_adjs (upd_ptr p f) s).
  assert (disc_inv s1) as I1 by (by apply (set_adj_inv s p a)).
  assert (find_ptr p (d_adjs s1) = Some (f a)) as H1
    by (unfold s1; cbn; by rewrite find_ptr_upd, Z.eqb_refl, Ha by done).
  rewrite (bind_ok _ _ _ _ _ (get_adj_ok _ _ _ H1)). cbn [f a_source set_a_itimer]. rewrite Hsrc.
  destruct (adj_del_ok s1 p (f a) S_HOLDTIME_EXP I1 H1) as (s2 & E2 & _ & _ & Hp2 & _ & Hpost); [done|].
  exists s2. split; [done|]. split; [done|]. unfold adj_del_post in Hpost. cbn [f a_nbr set_a_itimer] in Hpost.
  rewrite Hn in Hpost. destruct (Hpost nb Hnb) as [Ho Hm]. split; [done|].
  destruct (count s1 _ _ =? 0).
  - destruct Hm as [Hm Hq]. split; [done|]. intros q Hin. rewrite Hq, bool_decide_eq_true_2; auto.
  - destruct Hm as [Hm Hq]. split; [done|]. intros q Hne. rewrite Hq by done. unfold s1. cbn.
    rewrite find_ptr_upd by done. apply Z.eqb_neq in Hne as ->. done.
Qed.
End Expiry.

(** ** The rest of the events *)
Section Rest.
Lemma tnbr_update_loop_ok g l : forall s, disc_inv s ->
  (forall t, t ∈ l -> t_ptr t ∈ ptrs (d_tnbrs s)) ->
  d_msgcnt s + Z.of_nat (length l) < 2 ^ 31 - 1 ->
  runs_ok (Z.of_nat (length l)) (foreach (fun t => if (g t : bool) then tnbr_update (t_ptr t) else ret tt) l) s.
Proof.
  induction l as [|t l IH]; intros s I Hl Hc; [apply runs_ok_ret; (done || lia)|].
  cbn [length] in *. unfold runs_ok. cbn [foreach].
  assert (exists s1, (if g t then tnbr_update (t_ptr t) else ret tt) s = Ok (tt, s1) /\ disc_inv s1 /\
    d_msgcnt s <= d_msgcnt s1 <= d_msgcnt s + 1 /\ ptrs (d_tnbrs s1) = ptrs (d_tnbrs s))
    as (s1 & E1 & I1 & C1 & P1).
  { destruct (g t); [|exists s; split_and!; (done || lia)].
    destruct (find_ptr (t_ptr t) (d_tnbrs s)) as [tn|] eqn:Et.
    - destruct (tnbr_update_ok s (t_ptr t) tn) as (s1 & ? & ? & ? & ? & _); try done; [lia|by exists s1].
    - apply find_ptr_none in Et. destruct Et. apply Hl. left. }
  rewrite (bind_ok _ _ _ _ _ E1). destruct (IH s1) as (s2 & E2 & I2 & C2); [done| |lia|].
  { intros u Hu. rewrite P1. apply Hl. by right. }
  exists s2. split_and!; try done; lia.
Qed.

Lemma tnbr_update_all_ok s af : disc_inv s -> d_msgcnt s + Z.of_nat (length (d_tnbrs s)) < 2 ^ 31 - 1 ->
  runs_ok (Z.of_nat (length (d_tnbrs s))) (tnbr_update_all af) s.
Proof.
  intros I Hc. unfold runs_ok, tnbr_update_all. rewrite (bind_ok get _ s s s) by done.
  apply (tnbr_update_loop_ok (fun t => (t_af t =? af) || (af =? AF_UNSPEC))); try done.
  intros t Ht. by apply (list_elem_of_fmap_2 ptr_of).
Qed.

(** The part of [if_addr_del] that works on the interface. *)
Lemma if_addr_del_iface_ok s j k : disc_inv s ->
  d_msgcnt s + 10 * Z.of_nat (length (d_adjs s)) < 2 ^ 31 - 33 ->
  exists s', (match if_lookup s (ka_ifindex k) with
    | None => ret tt
    | Some i =>
      (if (ifa_af (ka_addr k) =? AF_INET6) && bool_decide (v6 (if_linklocal i) = v6 (ifa_addr (ka_addr k)))
       then mod_iface (if_ptr i) (fun i => set_if_linklocal i zero_addr) else ret tt) ;;;
      match if_addr_lookup (if_addr_list i) (ka_addr k) with
      | Some a =>
          mod_iface (if_ptr i) (fun i => set_if_addr_list i (if_addr_remove (ka_addr k) (if_addr_list i))) ;;;
          if_update j (if_ptr i) (ifa_af a)
      | None => ret tt
      end
    end) s = Ok (tt, s') /\ disc_inv s' /\ nbrs_kept s s' /\
    d_addr_list s' = d_addr_list s /\
    d_msgcnt s <= d_msgcnt s' <= d_msgcnt s + (10 * Z.of_nat (length (d_adjs s)) + 2).
Proof.
  intros I Hc. match goal with |- exists _, ?m s = _ /\ _ => assert (frame m) as Hframe by stays_solve end.
  destruct (if_lookup s (ka_ifindex k)) as [i|] eqn:Ei; [|exists s; split_and!; (done || lia)].
  apply if_lookup_ok in Ei as Hi; [|done].
  match type of Hframe with frame ?m =>
    assert (if_runs (0 + (10 * Z.of_nat (length (d_adjs s)) + 2)) (if_ptr i) m s)
      as (s2 & i2 & E2 & I2 & _ & _ & K2 & C2) end.
  - apply if_runs_bind; [by apply (set_linklocal_runs s _ i)|]. intros s2 i2 I2 H2 L2 _ C2.
    pose proof (adjs_le_length _ _ I2 L2) as Hlen.
    destruct (if_addr_lookup (if_addr_list i) (ka_addr k)) as [a|];
      [|apply (if_runs_ret s2 _ i2); (done || lia)].
    apply (if_runs_weaken _ _ _ (10 * Z.of_nat (length (d_adjs s2)) + 2)); [lia|].
    apply (set_addrs_runs s2 _ i2 (if_addr_remove (ka_addr k))); try done; [|lia].
    apply plen_remove. exact (di_plen _ I2 _ _ H2).
  - destruct (Hframe _ _ _ E2) as [Ea _]. exists s2. split_and!; try done; [apply K2|lia|lia].
Qed.

Lemma addr_remove_incl ka l a : a ∈ if_addr_remove ka l -> a ∈ l.
Proof.
  induction l as [|b l IH]; cbn; [done|]. destruct (_ && _); [by right|].
  intros [-> | H]%elem_of_cons; [left|right; auto].
Qed.

Lemma if_addr_del_ok s j k : disc_inv s -> addrs_ok s -> d_msgcnt s + addr_cost s < 2 ^ 31 - 33 ->
  exists s', if_addr_del j k s = Ok (tt, s') /\ disc_inv s' /\ addrs_ok s' /\
    d_msgcnt s <= d_msgcnt s' <= d_msgcnt s + addr_cost s.
Proof.
  intros I Ha Hc. unfold addr_cost in *. unfold if_addr_del. cbv zeta. rewrite (bind_ok get _ s s s) by done.
  destruct (if_addr_del_iface_ok s j k I) as (s1 & E1 & I1 & K1 & A1 & C1); [lia|].
  rewrite (bind_ok _ _ _ _ _ E1), (bind_ok get _ s1 s1 s1) by done.
  pose proof (nbrs_kept_length _ _ I1 K1) as Hlen.
  assert (addrs_ok s1) as Ha1 by (unfold addrs_ok; by rewrite A1).
  destruct (if_addr_lookup (d_addr_list s1) (ka_addr k)) as [a|] eqn:El;
    [|exists s1; split_and!; (done || lia)].
  apply if_addr_lookup_in in El. pose proof Ha1 as Hall. unfold addrs_ok in Hall.
  rewrite Forall_forall in Hall. apply Hall in El as Haf.
  destruct (announce_addr_ok s1 a true I1 Haf) as (s2 & E2 & I2 & _ & _ & C2); [lia|].
  rewrite (bind_ok _ _ _ _ _ E2). destruct (stays_announce (R := frame_rel) a true _ _ _ E2) as [A2 _].
  unfold modify. eexists. split; [done|]. split; [by apply set_addr_list_inv|]. split; [|cbn; lia].
  unfold addrs_ok. apply Forall_forall. intros b Hb. cbn in Hb. rewrite A2 in Hb.
  by apply Hall, (addr_remove_incl (ka_addr k)).
Qed.

Lemma if_addr_add_addrs s j k s' : addrs_ok s -> af_ok (ifa_af (ka_addr k)) ->
  if_addr_add j k s = Ok (tt, s') -> addrs_ok s'.
Proof.
  intros Ha Haf H. unfold if_addr_add in H. cbv zeta in H. rewrite (bind_ok get _ s s s) in H by done.
  apply bind_inv in H as ([] & s1 & H1 & H).
  assert (addrs_ok s1) as Ha1.
  { destruct (bool_decide _) in H1; [|unfold ret in H1; by simplify_eq].
    rewrite (bind_ok _ _ _ tt (set_addr_list (cons (ka_addr k)) s)) in H1 by done.
    apply (stays_announce (R := frame_rel)) in H1 as [A1 _]. unfold addrs_ok. rewrite A1. cbn. by constructor. }
  unfold addrs_ok. match type of H with ?m s1 = _ => assert (frame m) as Hf by stays_solve end.
  destruct (Hf _ _ _ H) as [-> _]. done.
Qed.
End Rest.

(** ** Events *)
Inductive disc_event :=
| EvPacket (env : conn_env) (af : Z) (src : ldpd_addr) (multicast : bool) (ifindex : Z) (pkt : list Z)
| EvAdjTimer (p : Z)
| EvTnbrTimer (t : Z)
| EvHelloTimer (ifp af : Z)
| EvAccept (af : Z) (addr : ldpd_addr)
| EvIdTimer (env : conn_env) (n : Z)
| EvSession (n : Z) (op : sess_op)
| EvIfUpdate (join_ok : Z -> bool) (ifp af : Z)
| EvTnbrUpdate (af : Z)
| EvAddrAdd (join_ok : Z -> bool) (k : kaddr)
| EvAddrDel (join_ok : Z -> bool) (k : kaddr).

Definition run_event (ev : disc_event) : ST disc unit :=
  match ev with
  | EvPacket env af src mc ifindex pkt => disc_recv_packet env af src mc ifindex pkt
  | EvAdjTimer p => adj_itimer p
  | EvTnbrTimer t => tnbr_hello_timer t
  | EvHelloTimer ifp af => if_hello_timer ifp af
  | EvAccept af addr => session_accept af addr
  | EvIdTimer env n => nbr_idtimer env n
  | EvSession n op => on_nbr n (run_op op)
  | EvIfUpdate j ifp af => if_update j ifp af
  | EvTnbrUpdate af => tnbr_update_all af
  | EvAddrAdd j k => if_addr_add j k
  | EvAddrDel j k => if_addr_del j k
  end.

(** Timers fire when they are armed; datagrams are byte strings of less than
    64 KiB; the kernel's addresses have a family and a prefix length. *)
Definition ev_enabled (ev : disc_event) (s : disc) : Prop :=
  match ev with
  | EvPacket _ af _ _ _ pkt => af_ok af /\ Z.of_nat (length pkt) < 2 ^ 16 /\ bytes_ok pkt
  | EvAdjTimer p => exists a, find_ptr p (d_adjs s) = Some a /\ a_itimer a <> None
  | EvTnbrTimer t => exists tn, find_ptr t (d_tnbrs s) = Some tn /\ t_hello_timer tn <> None
  | EvHelloTimer ifp af =>
      af_ok af /\ exists i, find_ptr ifp (d_ifaces s) = Some i /\ ia_hello_timer (ia_of i af) <> None
  | EvAccept _ _ | EvTnbrUpdate _ => True
  | EvIdTimer _ n =>
      exists nb, find_ptr n (d_nbrs s) = Some nb /\ t_initdelay_timer (n_timers (dn_nbr nb)) <> None
  | EvSession n op => exists nb, find_ptr n (d_nbrs s) = Some nb /\ op_enabled op (ldpe_of s nb)
  | EvIfUpdate _ ifp _ => exists i, find_ptr ifp (d_ifaces s) = Some i
  | EvAddrAdd _ k => af_ok (ifa_af (ka_addr k)) /\ plen_ok (ka_addr k)
  | EvAddrDel _ _ => True
  end.

(** Messages one event can number, and room for them in the signed counter. *)
Definition ev_cost (s : disc) : Z :=
  Z.of_nat (length (d_nbrs s)) + 10 * Z.of_nat (length (d_adjs s)) + Z.of_nat (length (d_tnbrs s)) + 14.
Definition ev_room (s : disc) : Prop :=
  d_msgcnt s + ev_cost s < 2 ^ 31 - 33 /\ Z.of_nat (length (d_pids s)) < 2 ^ 32 - 1.

Definition disc_ok (s : disc) : Prop := disc_inv s /\ addrs_ok s.

Section System.
Lemma frame_addrs {A} (m : ST disc A) s a s' : frame m -> addrs_ok s -> m s = Ok (a, s') -> addrs_ok s'.
Proof. intros Hf Ha H. unfold addrs_ok. by destruct (Hf _ _ _ H) as [-> _]. Qed.

Lemma event_runs ev s : disc_ok s -> ev_enabled ev s -> ev_room s ->
  exists s', run_event ev s = Ok (tt, s') /\ disc_ok s' /\ d_msgcnt s <= d_msgcnt s' <= d_msgcnt s + ev_cost s.
Proof.
  intros [I Ha] Hen [Hc Hp]. unfold ev_cost in *.
  assert (forall m k, frame m -> k <= ev_cost s -> runs_ok k m s ->
    exists s', m s = Ok (tt, s') /\ disc_ok s' /\ d_msgcnt s <= d_msgcnt s' <= d_msgcnt s + ev_cost s) as Hrun.
  { intros m k Hf Hk (s' & E & I' & C'). exists s'. split_and!; try done; try lia.
    split; [done|by eapply frame_addrs]. }
  unfold ev_cost in Hrun. assert (disc_room s) as Hroom by (unfold disc_room; lia).
  destruct ev; cbn [run_event ev_enabled] in *.
  - destruct Hen as (? & ? & ?). eapply Hrun; [eauto with stays typeclass_instances| |by apply disc_recv_packet_ok]. lia.
  - destruct Hen as (a & Hf & _). eapply (Hrun _ 5); [eauto with stays typeclass_instances|lia|]. apply (adj_itimer_ok s p a); (done || lia).
  - destruct Hen as (tn & Hf & _). eapply (Hrun _ 1); [eauto with stays typeclass_instances|lia|].
    destruct (tnbr_hello_timer_ok s t tn) as (s' & ? & ? & ?); try done; [lia|]. exists s'. split_and!; try done; lia.
  - destruct Hen as (Haf & i & Hf & _). eapply (Hrun _ 1); [eauto with stays typeclass_instances|lia|].
    apply (if_hello_timer_ok s ifp i); (done || lia).
  - eapply (Hrun _ 0); [eauto with stays typeclass_instances|lia|]. by apply session_accept_ok.
  - destruct Hen as (nb & Hf & _). eapply Hrun; [eauto with stays typeclass_instances| |by apply (nbr_idtimer_ok env s n nb)]. lia.
  - destruct Hen as (nb & Hf & Hop). eapply (Hrun _ 3); [eauto with stays typeclass_instances|lia|].
    apply (session_event_ok s n nb); (done || lia).
  - destruct Hen as (i & Hf). eapply Hrun; [eauto with stays typeclass_instances| |eapply if_runs_ok, (if_update_ok s ifp i); (done || lia)]. lia.
  - eapply Hrun; [eauto with stays typeclass_instances| |apply tnbr_update_all_ok; (done || lia)]. lia.
  - destruct Hen as (Haf & Hpl). destruct (if_addr_add_ok s join_ok k) as (s' & E & I' & C'); try done.
    { unfold addr_cost. lia. }
    unfold addr_cost in C'. exists s'. split_and!; try done; try lia. split; [done|by eapply if_addr_add_addrs].
  - destruct (if_addr_del_ok s join_ok k) as (s' & E & I' & A' & C'); try done; unfold addr_cost in *; [lia|].
    exists s'. split_and!; try done; lia.
Qed.

(** States reached from [s] by enabled events. *)
Inductive disc_reach (s : disc) : disc -> Prop :=
| dr_refl : disc_reach s s
| dr_step s1 s2 ev : disc_reach s s1 -> ev_enabled ev s1 -> ev_room s1 ->
    run_event ev s1 = Ok (tt, s2) -> disc_reach s s2.

Lemma reach_disc_ok s s' : disc_ok s -> disc_reach s s' -> disc_ok s'.
Proof.
  intros H. induction 1 as [|s1 s2 ev _ IH Hen Hr E]; [done|].
  destruct (event_runs ev s1 IH Hen Hr) as (x & Ex & Hx & _). rewrite E in Ex. by simplify_eq.
Qed.

(** Runs of hold timers, and how many. *)
Inductive silent_run (s : disc) : nat -> disc -> Prop :=
| sr_refl : silent_run s 0 s
| sr_step k s1 s2 p : silent_run s k s1 -> ev_enabled (EvAdjTimer p) s1 ->
    run_event (EvAdjTimer p) s1 = Ok (tt, s2) -> silent_run s (S k) s2.

Definition all_armed (s : disc) : Prop :=
  forall p a, find_ptr p (d_adjs s) = Some a -> a_itimer a <> None.

Lemma adjs_lt_length s s' p : disc_inv s' -> adjs_le s s' -> find_ptr p (d_adjs s') = None ->
  is_Some (find_ptr p (d_adjs s)) -> (length (d_adjs s') < length (d_adjs s))%nat.
Proof.
  intros I L Hn [a Ha]. apply find_ptr_ptr in Ha as [Hp Ha].
  assert (p :: ptrs (d_adjs s') ⊆+ ptrs (d_adjs s)) as H.
  { apply NoDup_submseteq; [apply NoDup_cons; split; [by apply find_ptr_none|apply (di_adjs _ I)]|].
    intros q [-> | Hq]%elem_of_cons; [rewrite <- Hp; by apply (list_elem_of_fmap_2 ptr_of)|].
    apply list_elem_of_fmap in Hq as (b & -> & Hb).
    assert (find_ptr (ptr_of b) (d_adjs s) = Some b) as Hf
      by (apply L, find_ptr_in; [apply (di_adjs _ I)|done]).
    apply find_ptr_ptr in Hf as [_ Hf]. by apply (list_elem_of_fmap_2 ptr_of). }
  apply submseteq_length in H. cbn [length] in H. unfold ptrs in H. rewrite !length_fmap in H. lia.
Qed.

Lemma silent_run_inv s k s' : disc_inv s -> d_msgcnt s + 5 * Z.of_nat (length (d_adjs s)) < 2 ^ 31 - 5 ->
  silent_run s k s' ->
  disc_inv s' /\ adjs_le s s' /\ nbrs_kept s s' /\ idle_kept s s' /\ (k + length (d_adjs s') <= length (d_adjs s))%nat /\
  d_msgcnt s <= d_msgcnt s' <= d_msgcnt s + 5 * Z.of_nat k.
Proof.
  intros I Hc. induction 1 as [|k s1 s2 p _ IH (a & Ha & _) E];
    [split_and!; try done; lia || by intros ? ?|].
  destruct IH as (I1 & L1 & K1 & J1 & Len1 & C1). cbn [run_event] in E.
  destruct (adj_expired_ok s1 p a I1 Ha) as (x & Ex & I2 & L2 & Hp & K2 & J2 & C2); [lia|].
  rewrite E in Ex. simplify_eq.
  pose proof (adjs_lt_length s1 x p I2 L2 Hp ltac:(by eexists)).
  split_and!; try done; [by eapply adjs_le_trans|by etrans|by etrans|lia..].
Qed.
End System.

(** ** Properties *)

(** A router with two links for the witnesses; its first link is up. *)
Definition ia_up : iface_af := IfaceAf true IF_STA_ACTIVE [] (Some 5) 0 0.
Definition ia_down : iface_af := IfaceAf false IF_STA_DOWN [] None 0 0.
Definition link_7 : iface :=
  Iface 1 "eth7" 7 [IfAddr AF_INET (v4_addr 10 0 0 2) 24 zero_addr] (ll_addr 2) IF_TYPE_BROADCAST 0x41 ia_up ia_down.
Definition link_8 : iface := Iface 2 "eth8" 8 [] (ll_addr 2) IF_TYPE_BROADCAST 0x41 ia_down ia_down.
Definition router_b : disc := Disc conf_b [] [] [] [] [link_7; link_8] [] 0 1 [] [] [] 10.

(** A state without adjacencies and neighbours is fine when its interfaces are. *)
Lemma quiet_disc_ok c addrs ifaces pconns next :
  store_ok next ifaces -> Forall (fun a => af_ok (ifa_af a)) addrs ->
  Forall (fun i => Forall plen_ok (if_addr_list i) /\ ia_adj_list (if_ipv4 i) = [] /\
    ia_adj_list (if_ipv6 i) = []) ifaces ->
  disc_ok (Disc c addrs [] [] [] ifaces pconns 0 1 [] [] [] next).
Proof.
  intros Hs Ha Hi. rewrite Forall_forall in Hi.
  assert (store_ok next (@nil dnbr) /\ store_ok next (@nil adj) /\ store_ok next (@nil tnbr)) as (? & ? & ?).
  { split_and!; (split; [apply NoDup_nil_2|intros p Hp; by apply not_elem_of_nil in Hp]). }
  split; [|done]. split; try done.
  - intros ifp i H2. apply find_ptr_ptr in H2 as [_ H2]. apply Hi in H2 as (_ & E4 & E6).
    intros af [-> | ->]; cbn; rewrite ?E4, ?E6;
      (split; [apply NoDup_nil_2|intros p Hp; by apply not_elem_of_nil in Hp]).
  - intros ifp i H2. apply find_ptr_ptr in H2 as [_ H2]. by apply Hi in H2 as [? _].
Qed.

Lemma router_b_ok : disc_ok router_b.
Proof.
  apply quiet_disc_ok; [|constructor|].
  - split; [by apply (bool_decide_unpack _), I|]. intros p Hp.
    repeat (apply elem_of_cons in Hp as [-> | Hp]; [vm_compute; done|]). by apply not_elem_of_nil in Hp.
  - repeat constructor; vm_compute; intuition congruence.
Qed.

(** No sequence of packets (whatever their bytes), timers, connections,
    session events, interface and address changes brings the discovery engine
    into a state where its heap is inconsistent (an adjacency, neighbour,
    interface or targeted neighbour that points to freed memory or is missing
    from a list it belongs to) or where an enabled event does not return: no
    freed memory is read, no RB_INSERT finds a duplicate and no timer fires for
    a record that is gone, as long as the signed message counter has room. *)
Theorem discovery_never_stuck (s s' : disc) (ev : disc_event)
  (Hs : disc_ok s) (Hreach : disc_reach s s') (Hen : ev_enabled ev s') (Hroom : ev_room s') :
  disc_inv s' /\ exists s'', run_event ev s' = Ok (tt, s'') /\ disc_inv s''.
Proof.
  pose proof (reach_disc_ok s s' Hs Hreach) as H'. split; [apply H'|].
  destruct (event_runs ev s' H' Hen Hroom) as (s'' & E & [I _] & _). eauto.
Qed.

(** C19: neighbours that fall silent are forgotten.  When no hellos arrive any
    more and every adjacency has its hold timer armed, every run of hold timers
    is finite (no longer than the list of adjacencies), and when no timer is
    left to fire there is no adjacency and no neighbour that had one. *)
Theorem silent_neighbours_expire (s s' : disc) (k : nat)
  (Hs : disc_inv s) (Harmed : all_armed s)
  (Hroom : d_msgcnt s + 5 * Z.of_nat (length (d_adjs s)) < 2 ^ 31 - 5)
  (Hrun : silent_run s k s') :
  (k <= length (d_adjs s))%nat /\
  ((exists p s'', ev_enabled (EvAdjTimer p) s' /\ run_event (EvAdjTimer p) s' = Ok (tt, s'')) \/
   (d_adjs s' = [] /\
    forall n nb, find_ptr n (d_nbrs s) = Some nb -> dn_adj_list nb <> [] -> find_ptr n (d_nbrs s') = None)).
Proof.
  destruct (silent_run_inv s k s' Hs Hroom Hrun) as (I & L & K & _ & Len & C). split; [lia|].
  destruct (d_adjs s') as [|a l] eqn:Ea.
  - right. split; [done|]. intros n nb Hn Hne. destruct (find_ptr n (d_nbrs s')) as [nb'|] eqn:E; [|done].
    destruct (K n nb' E) as (nb0 & H0 & Himp). rewrite Hn in H0. simplify_eq. exfalso. apply Hne, Himp.
    destruct (di_nbr _ I _ _ E) as (_ & _ & _ & H4). destruct (dn_adj_list nb') as [|q l]; [done|].
    destruct (H4 q) as (b & Hb & _); [left|]. by rewrite Ea in Hb.
  - left. assert (find_ptr (a_ptr a) (d_adjs s') = Some a) as Ha
      by (apply (find_ptr_in _ a); [apply (di_adjs _ I)|rewrite Ea; left]).
    cbn [length] in Len.
    destruct (adj_expired_ok s' (a_ptr a) a I Ha) as (s2 & E2 & _); [lia|].
    exists (a_ptr a), s2. split; [|done]. exists a. split; [done|]. by apply (Harmed (a_ptr a)), L.
Qed.

(** C28: when the hold timer of a link adjacency fires, the adjacency is gone
    and no other neighbour changes.  Its neighbour goes with it exactly when it
    has no other adjacency of the family its session runs over, and then takes
    its adjacencies of the other family along; else it only loses this one. *)
Theorem hold_timer_expiry (s : disc) (p n ifp af : Z) (src : ldpd_addr) (a : adj) (nb : dnbr)
  (Hs : disc_inv s) (Hc : d_msgcnt s < 2 ^ 31 - 5) (Ha : find_ptr p (d_adjs s) = Some a)
  (Hsrc : a_source a = SrcLink ifp af src) (Hn : a_nbr a = Some n) (Hnb : find_ptr n (d_nbrs s) = Some nb) :
  exists s', run_event (EvAdjTimer p) s = Ok (tt, s') /\ find_ptr p (d_adjs s') = None /\
    (forall m, m <> n -> find_ptr m (d_nbrs s') = find_ptr m (d_nbrs s)) /\
    if count s (list_remove p (dn_adj_list nb)) (n_af (dn_nbr nb)) =? 0
    then find_ptr n (d_nbrs s') = None /\ (forall q, q ∈ dn_adj_list nb -> find_ptr q (d_adjs s') = None)
    else find_ptr n (d_nbrs s') = Some (drop_nb p nb) /\
         (forall q, q <> p -> find_ptr q (d_adjs s') = find_ptr q (d_adjs s)).
Proof. by eapply link_expiry. Qed.

(** The hello of [conf_a] on link 7, and the state behind it. *)
Definition hello_a : list Z := hello_packet conf_a 1 (18 + 28) (18 + 28) (hello_tlvs conf_a AF_INET 15 0).
Definition env_done : conn_env := ConnEnv true true true ConnDone.
Definition ev_hello_a : disc_event := EvPacket env_done AF_INET (v4_addr 10 0 0 1) true 7 hello_a.
Definition after_event (ev : disc_event) (s : disc) : disc :=
  match run_event ev s with Ok (_, s') => s' | _ => s end.
Definition router_b1 : disc := after_event ev_hello_a router_b.

Lemma ev_hello_a_enabled s : ev_enabled ev_hello_a s.
Proof. split; [by left|]. split; [vm_compute; done|by apply bytes_okb_ok]. Qed.

Lemma router_b_room : ev_room router_b.
Proof. split; vm_compute; done. Qed.

Lemma router_b1_run : run_event ev_hello_a router_b = Ok (tt, router_b1).
Proof.
  destruct (event_runs ev_hello_a router_b router_b_ok (ev_hello_a_enabled _) router_b_room)
    as (s & E & _). unfold router_b1, after_event. by rewrite E.
Qed.

Lemma router_b1_reach : disc_reach router_b router_b1.
Proof.
  eapply (dr_step _ _ _ ev_hello_a); [apply dr_refl|apply ev_hello_a_enabled|apply router_b_room
    |apply router_b1_run].
Qed.

Lemma router_b1_ok : disc_ok router_b1.
Proof. eapply reach_disc_ok; [apply router_b_ok|apply router_b1_reach]. Qed.

Lemma discovery_never_stuck_witness :
  disc_inv router_b1 /\ exists s'', run_event (EvAdjTimer 10) router_b1 = Ok (tt, s'') /\ disc_inv s''.
Proof.
  apply (discovery_never_stuck router_b router_b1 (EvAdjTimer 10)).
  - apply router_b_ok.
  - apply router_b1_reach.
  - eexists. split; [vm_compute; reflexivity|vm_compute; discriminate].
  - split; vm_compute; reflexivity.
Defined.

Lemma silent_neighbours_expire_witness :
  (1 <= 1)%nat /\
  ((exists p s'', ev_enabled (EvAdjTimer p) (after_event (EvAdjTimer 10) router_b1) /\
      run_event (EvAdjTimer p) (after_event (EvAdjTimer 10) router_b1) = Ok (tt, s'')) \/
   (d_adjs (after_event (EvAdjTimer 10) router_b1) = [] /\
    forall n nb, find_ptr n (d_nbrs router_b1) = Some nb -> dn_adj_list nb <> [] ->
      find_ptr n (d_nbrs (after_event (EvAdjTimer 10) router_b1)) = None)).
Proof.
  apply (silent_neighbours_expire router_b1 _ 1).
  - apply router_b1_ok.
  - intros p a H. apply find_ptr_ptr in H as [_ H]. vm_compute in H.
    apply elem_of_cons in H as [-> | H]; [discriminate|by apply not_elem_of_nil in H].
  - vm_compute. reflexivity.
  - eapply (sr_step _ 0 _ _ 10); [apply sr_refl| |].
    + eexists. split; [vm_compute; reflexivity|vm_compute; discriminate].
    + destruct (adj_itimer_ok router_b1 10 _ (proj1 router_b1_ok) eq_refl) as (s2 & E & _).
      * vm_compute. reflexivity.
      * unfold after_event. cbn [run_event]. by rewrite E.
Defined.

Lemma hold_timer_expiry_witness :
  exists s', run_event (EvAdjTimer 10) router_b1 = Ok (tt, s') /\ find_ptr 10 (d_adjs s') = None /\
    (forall m, m <> 11 -> find_ptr m (d_nbrs s') = find_ptr m (d_nbrs router_b1)) /\
    find_ptr 11 (d_nbrs s') = None /\ (forall q, q ∈ [10] -> find_ptr q (d_adjs s') = None).
Proof.
  destruct (find_ptr 10 (d_adjs router_b1)) as [a|] eqn:Ea; [|vm_compute in Ea; discriminate].
  destruct (find_ptr 11 (d_nbrs router_b1)) as [nb|] eqn:En; [|vm_compute in En; discriminate].
  pose proof (hold_timer_expiry router_b1 10 11 1 AF_INET (v4_addr 10 0 0 1) a nb
    (proj1 router_b1_ok) eq_refl Ea) as H.
  vm_compute in Ea, En. injection Ea as <-. injection En as <-.
  exact (H eq_refl eq_refl eq_refl).
Defined.
