(* ===== verification/DiscFun.v ===== *)
(** * What a hello does

    A hello that one router sends on a link makes the router on the other end
    create an adjacency with a hold timer and a neighbour.  [quiet] operations
    leave adjacencies, interfaces and the identity of neighbours alone. *)
From stdpp Require Import prelude strings list.
From Stdlib Require Import ZArith Lia.
From S2P Require Import Prelude Util Wire Ipc Session Fec Hello Discovery DiscInv DiscSafe DiscRun DiscFrame DiscSystem.

(** ** Operations that change nothing but sessions *)
Definition same_dnbr (nb nb' : dnbr) : Prop :=
  same_nbr (dn_nbr nb) (dn_nbr nb') /\ dn_adj_list nb' = dn_adj_list nb.
#[export] Instance same_dnbr_preorder : PreOrder same_dnbr.
Proof. split; [done|]. intros a b c [H1 E1] [H2 E2]. split; [by etrans|congruence]. Qed.

Record undisturbed (s s' : disc) : Prop := Undisturbed {
  un_adjs : d_adjs s' = d_adjs s;
  un_ifaces : d_ifaces s' = d_ifaces s;
  un_tnbrs : d_tnbrs s' = d_tnbrs s;
  un_conf : d_conf s' = d_conf s;
  un_nbrs : forall n nb, find_ptr n (d_nbrs s) = Some nb ->
    exists nb', find_ptr n (d_nbrs s') = Some nb' /\ same_dnbr nb nb'
}.
Lemma undisturbed_nbrs s s' : d_adjs s' = d_adjs s -> d_ifaces s' = d_ifaces s -> d_tnbrs s' = d_tnbrs s ->
  d_conf s' = d_conf s -> d_nbrs s' = d_nbrs s -> undisturbed s s'.
Proof. intros ???? E. split; try done. intros n nb Hn. exists nb. rewrite E. by split. Qed.
#[export] Instance undisturbed_preorder : PreOrder undisturbed.
Proof.
  split; [intros s; by apply undisturbed_nbrs|]. intros a b c [] []. split; try congruence.
  intros n nb Hn. destruct (un_nbrs0 n nb Hn) as (nb1 & H1 & S1). destruct (un_nbrs1 n nb1 H1) as (nb2 & H2 & S2).
  exists nb2. split; [done|by etrans].
Qed.

Notation quiet := (stays undisturbed).
Section Quiet.
Lemma quiet_msgcnt : quiet disc_msgcnt.
Proof. intros s ? ? H. unfold disc_msgcnt in H. case_match; simplify_eq/=. by apply undisturbed_nbrs. Qed.
Lemma quiet_send_packet af d i x : quiet (send_packet af d i x).
Proof.
  intros s ? ? H. unfold send_packet, modify in H. case_match; [|done]. simplify_eq. by apply undisturbed_nbrs.
Qed.
Lemma quiet_on_nbr p m : keeps m -> quiet (on_nbr p m).
Proof.
  intros Hk. unfold on_nbr. intros s x s' H. apply bind_inv in H as (nb & s1 & H1 & H).
  unfold get_dnbr, deref in H1. destruct (find_ptr p (d_nbrs s)) as [y|] eqn:Hp; [|done]. simplify_eq.
  destruct (m (ldpe_of s1 nb)) as [[[] e]| | |] eqn:E; simplify_eq/=. split; try done.
  intros n nb0 Hn. rewrite put_nbrs, Hn. destruct (n =? p) eqn:En; [|by exists nb0]. zbool. subst.
  rewrite Hp in Hn. simplify_eq. eexists. split; [done|]. split; [|done]. by apply Hk in E as [? _].
Qed.
Lemma quiet_mod_dnbr p f : (forall nb, ptr_of (f nb) = ptr_of nb /\ same_dnbr nb (f nb)) -> quiet (mod_dnbr p f).
Proof.
  intros Hf. unfold mod_dnbr. apply stays_bind; [apply stays_deref|]. intros x s ? s' H.
  unfold modify in H. simplify_eq. split; try done. intros n nb Hn. cbn.
  rewrite find_ptr_upd, Hn by (intros y; apply Hf). destruct (n =? p); eexists; (split; [done|]); [apply Hf|done].
Qed.
End Quiet.

#[export] Hint Resolve quiet_msgcnt quiet_send_packet : stays.
Ltac quiet_step :=
  lazymatch goal with
  | |- quiet (mod_dnbr _ _) => apply quiet_mod_dnbr; intros ?; done
  | |- quiet (get_dnbr _) => apply stays_deref
  | |- quiet (get_adj _) => apply stays_deref
  | |- quiet (get_tnbr _) => apply stays_deref
  | |- quiet (get_iface _) => apply stays_deref
  | |- quiet (get_ia _ _) => unfold get_ia
  | |- _ => stays_step
  end.
Ltac quiet_solve := repeat quiet_step.

Section QuietOps.
Lemma quiet_send_hello d : quiet (send_hello d).
Proof. unfold send_hello, hello_params. quiet_solve. Qed.
Lemma quiet_note fl o p : quiet (hello_note fl o p).
Proof.
  unfold hello_note. repeat first [apply quiet_on_nbr, keeps_stop_idtimer | quiet_step].
Qed.
Lemma quiet_establish env p : quiet (nbr_establish_connection env p).
Proof.
  unfold nbr_establish_connection, hello_of_source.
  repeat first [apply quiet_send_hello | apply quiet_on_nbr, keeps_fsm
               | apply quiet_on_nbr, keeps_mod; intros ?; done | quiet_step].
Qed.
End QuietOps.

(** ** An accepted hello *)
Section Accepted.
(** The adjacency with the hold time [ht] and its timer. *)
Definition adj_timed (ht : Z) (a : adj) : adj :=
  set_a_itimer (set_a_holdtime a ht) (if ht =? INFINITE_HOLDTIME then None else Some ht).

Lemma source_holdtime_ext source h s s1 ht :
  d_conf s1 = d_conf s -> d_ifaces s1 = d_ifaces s -> d_tnbrs s1 = d_tnbrs s ->
  source_holdtime source h s = Ok (ht, s) -> source_holdtime source h s1 = Ok (ht, s1).
Proof.
  intros Ec Ei Et. unfold source_holdtime, bind, conf, get_ia, get_iface, get_tnbr, deref, lift, bind, ret.
  destruct source as [ifp af src|t]; cbn; rewrite Ec, ?Ei, ?Et.
  - destruct (find_ptr ifp (d_ifaces s)) as [i|]; [|done]. cbn. destruct (iface_af_get i af); cbn; try done.
    destruct (if_get_hello_holdtime _ _ _); cbn; try done. intros. by simplify_eq.
  - destruct (find_ptr t (d_tnbrs s)) as [tn|]; [|done]. cbn.
    destruct (tnbr_get_hello_holdtime _ _); cbn; try done. intros. by simplify_eq.
Qed.

Lemma hello_accepted_fun env source h fl o ap np s s' a ht :
  hello_accepted env source h fl o ap np s = Ok (tt, s') -> find_ptr ap (d_adjs s) = Some a ->
  source_holdtime source h s = Ok (ht, s) ->
  d_adjs s' = upd_ptr ap (adj_timed ht) (d_adjs s) /\ d_ifaces s' = d_ifaces s /\
  forall n nb, find_ptr n (d_nbrs s) = Some nb ->
    exists nb', find_ptr n (d_nbrs s') = Some nb' /\ same_dnbr nb nb'.
Proof.
  intros H Ha Hht. unfold hello_accepted in H. apply bind_inv in H as ([] & s1 & H1 & H).
  assert (undisturbed s s1) as U1.
  { destruct np as [p|]; [by apply quiet_note in H1|by apply (stays_ret (R := undisturbed)) in H1]. }
  destruct U1 as [A1 F1 T1 C1 N1].
  rewrite (bind_ok _ _ _ _ _ (source_holdtime_ext _ _ _ s1 _ C1 F1 T1 Hht)) in H.
  rewrite <- A1 in Ha. rewrite (bind_ok _ _ _ _ _ (mod_adj_ok s1 ap a _ Ha)) in H.
  set (f := fun a => set_a_holdtime a ht) in H. set (s2 := set_adjs (upd_ptr ap f) s1) in H.
  assert (find_ptr ap (d_adjs s2) = Some (f a)) as Ha2
    by (unfold s2; cbn; by rewrite find_ptr_upd, Z.eqb_refl, Ha by done).
  set (s3 := set_adjs (upd_ptr ap (adj_timed ht)) s1).
  assert ((if negb (ht =? INFINITE_HOLDTIME) then adj_start_itimer ap else adj_stop_itimer ap) s2 = Ok (tt, s3)) as E3.
  { unfold adj_start_itimer, adj_stop_itimer, s3, adj_timed.
    destruct (ht =? INFINITE_HOLDTIME); cbn [negb]; rewrite (mod_adj_ok s2 ap (f a) _ Ha2); do 2 f_equal;
      unfold s2, set_adjs; cbn; f_equal; unfold upd_ptr; rewrite map_map; apply map_ext; intros x;
      (destruct (ptr_of x =? ap) eqn:Ex; [|by rewrite Ex]); change (ptr_of (f x)) with (ptr_of x); by rewrite Ex. }
  rewrite (bind_ok _ _ _ _ _ E3) in H.
  assert (undisturbed s3 s') as [A4 F4 _ _ N4].
  { destruct np as [p|]; [|by apply (stays_ret (R := undisturbed)) in H]. revert H.
    match goal with |- ?m s3 = _ -> _ => assert (quiet m) as Hq end.
    { repeat first [apply quiet_establish | quiet_step]. }
    apply Hq. }
  rewrite A4, F4. unfold s3. cbn. rewrite A1, F1. split_and!; try done.
  intros n nb Hn. destruct (N1 n nb Hn) as (nb1 & H1n & S1). destruct (N4 n nb1 H1n) as (nb2 & H2n & S2).
  exists nb2. split; [done|by etrans].
Qed.

(** The transport preference a hello may carry for a new neighbour of [af]. *)
Definition pref_ok (c : le_conf) (af : Z) (o : hello_opts) : Prop :=
  has_flag (ho_tlvs_rcvd o) F_HELLO_TLV_RCVD_DS = true -> ho_trans_pref o = lc_trans_pref c /\
    ((ho_trans_pref o = DUAL_STACK_LDPOV4 /\ af = AF_INET) \/
     (ho_trans_pref o = DUAL_STACK_LDPOV6 /\ af = AF_INET6)).

(** A hello of an unknown router passes every check of [recv_hello]. *)
Lemma hello_from_unknown env s id mi mt af addr scope source h fl o :
  nbr_find_ldpid s id = None -> nbr_find_addr s af addr = None -> pref_ok (d_conf s) af o ->
  hello_from env id mi mt af addr scope source h fl o s
  = (do ap <- hello_adj id source addr (adj_find s source) None;
     do np <- (do p <- nbr_new id af (has_flag (ho_tlvs_rcvd o) F_HELLO_TLV_RCVD_DS) addr scope; ret (Some p));
     hello_accepted env source h fl o ap np) s.
Proof.
  intros Hnb Haddr Hds. unfold hello_from. rewrite (bind_ok get _ s s s) by done. cbv zeta.
  rewrite Hnb, Haddr. unfold pref_ok in Hds. set (ds := has_flag (ho_tlvs_rcvd o) F_HELLO_TLV_RCVD_DS) in *.
  assert (ds && negb (ho_trans_pref o =? lc_trans_pref (d_conf s)) = false) as ->.
  { destruct ds; [|done]. destruct (Hds eq_refl) as [-> _]. by rewrite Z.eqb_refl. }
  rewrite (bind_ok _ _ s false s) by done. cbn [addr_changed].
  rewrite bool_decide_eq_false_2 by (intros [_ []]; done). unfold hello_nbr.
  assert (negb ds || (((ho_trans_pref o =? DUAL_STACK_LDPOV4) && (af =? AF_INET))
                      || ((ho_trans_pref o =? DUAL_STACK_LDPOV6) && (af =? AF_INET6))) = true) as ->; [|done].
  destruct ds; [|done]. by destruct (Hds eq_refl) as [_ [[-> ->] | [-> ->]]].
Qed.

(** The rest of [recv_hello] once the adjacency [ap] is there. *)
Lemma hello_new_nbr env s1 s' id af ds addr scope source h fl o ap a ht :
  disc_inv s1 -> (forall n nb, find_ptr n (d_nbrs s1) = Some nb -> dn_id nb <> id) -> is_u 32 id -> af_ok af ->
  nbr_find_addr s1 af addr = None -> find_ptr ap (d_adjs s1) = Some a ->
  source_holdtime source h s1 = Ok (ht, s1) ->
  (do np <- (do p <- nbr_new id af ds addr scope; ret (Some p));
   hello_accepted env source h fl o ap np) s1 = Ok (tt, s') ->
  exists s2 nb nb', nbr_created s1 s2 nb /\ dn_id nb = id /\ n_af (dn_nbr nb) = af /\
    n_raddr (dn_nbr nb) = addr /\ d_adjs s' = upd_ptr ap (adj_timed ht) (d_adjs s2) /\
    d_ifaces s' = d_ifaces s1 /\ find_ptr (d_next s1) (d_nbrs s') = Some nb' /\ same_dnbr nb nb'.
Proof.
  intros I1 Hnone Hid Haf Haddr Ha Hht H.
  destruct (nbr_new_ok s1 id af ds addr scope I1) as (s2 & nb & E2 & I2 & K & Hnbid & Hnbaf & Hnba & _); try done.
  apply bind_inv in H as (np & s2' & H2 & H). rewrite (bind_ok _ _ _ _ _ E2) in H2.
  unfold ret in H2. simplify_eq.
  assert (exists a2, find_ptr ap (d_adjs s2') = Some a2) as [a2 A2].
  { rewrite (nc_adjs _ _ _ K), Ha. by eexists. }
  pose proof (source_holdtime_ext _ _ _ s2' _ (nc_conf _ _ _ K) (nc_ifaces _ _ _ K) (nc_tnbrs _ _ _ K) Hht) as Hht2.
  destruct (hello_accepted_fun _ _ _ _ _ _ _ _ _ _ _ H A2 Hht2) as (A3 & F3 & N3).
  destruct (N3 (d_next s1) nb (nc_nbr _ _ _ K)) as (nb' & Hnb' & S').
  exists s2', nb, nb'. rewrite F3, (nc_ifaces _ _ _ K). by split_and!.
Qed.

(** A hello from an unknown source, of an unknown router, in the family that
    router prefers: adjacency and neighbour are new. *)
Lemma hello_from_new env s id mi mt af addr scope ifp i src h fl o ht :
  disc_inv s -> d_msgcnt s + Z.of_nat (length (d_adjs s)) < 2 ^ 31 - 16 -> is_u 32 id -> af_ok af ->
  find_ptr ifp (d_ifaces s) = Some i ->
  adj_find s (SrcLink ifp af src) = None -> nbr_find_ldpid s id = None -> nbr_find_addr s af addr = None ->
  pref_ok (d_conf s) af o -> source_holdtime (SrcLink ifp af src) h s = Ok (ht, s) ->
  exists s' i' a n nb, hello_from env id mi mt af addr scope (SrcLink ifp af src) h fl o s = Ok (tt, s') /\
    disc_inv s' /\ find_ptr (d_next s) (d_adjs s') = Some a /\
    a_lsr_id a = id /\ a_source a = SrcLink ifp af src /\ a_nbr a = Some n /\ a_holdtime a = ht /\
    a_itimer a = (if ht =? INFINITE_HOLDTIME then None else Some ht) /\
    find_ptr ifp (d_ifaces s') = Some i' /\ d_next s ∈ ia_adj_list (ia_of i' af) /\
    find_ptr n (d_nbrs s') = Some nb /\ dn_id nb = id /\ n_af (dn_nbr nb) = af /\
    n_raddr (dn_nbr nb) = addr /\ d_next s ∈ dn_adj_list nb.
Proof.
  intros I Hc Hid Haf Hi Hadj Hnb Haddr Hds Hht.
  assert (source_live s (SrcLink ifp af src)) as Hlive by (split; [done|by eexists]).
  destruct (hello_from_ok env s id mi mt af addr scope (SrcLink ifp af src) h fl o I Hc Hid Haf Hlive)
    as (s' & E & I' & _).
  pose proof E as H. rewrite hello_from_unknown, Hadj in H by done.
  pose proof (adj_find_none s _ I Hlive Hadj) as Hfree.
  pose proof (nbr_find_ldpid_none s id I Hid Hnb) as Hnone.
  pose proof (adj_new_linked_ok s id (SrcLink ifp af src) addr None I Hfree Hnone) as E1.
  change (hello_adj id (SrcLink ifp af src) addr None None s
    = Ok (d_next s, adj_added id None (SrcLink ifp af src) addr s)) in E1.
  rewrite (bind_ok _ _ _ _ _ E1) in H. set (s1 := adj_added _ _ _ _ s) in H.
  assert (disc_inv s1) as I1 by (by apply added_inv).
  assert (find_ptr (d_next s) (d_adjs s1) = Some (new_adj s id None (SrcLink ifp af src) addr)) as A1
    by (unfold s1; by rewrite added_adjs, Z.eqb_refl).
  assert (find_ptr ifp (d_ifaces s1) = Some (ia_upd af (cons_ia (d_next s)) i)) as F1
    by (unfold s1; by rewrite added_ifaces, Z.eqb_refl, Hi).
  assert (source_holdtime (SrcLink ifp af src) h s1 = Ok (ht, s1)) as Hht1.
  { revert Hht. unfold source_holdtime. rewrite (bind_ok conf _ s (d_conf s) s), (bind_ok conf _ s1 (d_conf s) s1) by done.
    rewrite (bind_ok _ _ _ _ _ (get_ia_ok s ifp af i Hi Haf)), (bind_ok _ _ _ _ _ (get_ia_ok s1 ifp af _ F1 Haf)).
    unfold if_get_hello_holdtime, ia_upd. rewrite ia_of_set, Z.eqb_refl by done.
    cbn [ia_hello_holdtime cons_ia set_ia_adj_list]. unfold bind, lift, ret.
    destruct (ldp_af_conf_get (d_conf s) _); cbn; try done. intros. by simplify_eq. }
  destruct (hello_new_nbr _ _ _ _ _ _ _ _ _ _ _ _ _ _ _ I1 Hnone Hid Haf Haddr A1 Hht1 H)
    as (s2 & nb & nb' & K & Hnbid & Hnbaf & Hnba & A3 & F3 & Hnb' & (J1 & J2 & J3 & J4) & Jl).
  assert (find_ptr (d_next s) (d_adjs s') = Some (adj_timed ht (set_a_nbr (new_adj s id None (SrcLink ifp af src) addr)
    (Some (d_next s1))))) as A4.
  { rewrite A3, find_ptr_upd, Z.eqb_refl, (nc_adjs _ _ _ K), A1 by done. cbn [a_lsr_id new_adj].
    by rewrite Hnbid, Z.eqb_refl. }
  eexists s', _, _, (d_next s1), nb'. split; [done|]. split; [done|]. split; [exact A4|].
  do 5 (split; [done|]). split; [rewrite F3; exact F1|]. split.
  { unfold ia_upd. rewrite ia_of_set, Z.eqb_refl by done. left. }
  split; [done|]. unfold dn_id in *. rewrite J1, J2, J4. split; [done|]. split; [done|]. split; [done|].
  rewrite Jl. apply (nc_mine _ _ _ K). eexists. split; [exact A1|done].
Qed.
End Accepted.

(** ** From one router to the next *)
Section Exchange.
(** The flags of a link hello. *)
Definition link_flags (c : le_conf) (af : Z) : Z :=
  if (af =? AF_INET) && negb (has_flag (af_flags (lc_ipv4 c)) F_LDPD_AF_NO_GTSM) then F_HELLO_GTSM else 0.

Lemma link_flags_ok c af : is_u 16 (link_flags c af) /\ has_flag (link_flags c af) F_HELLO_TARGETED = false.
Proof. unfold link_flags. by destruct (_ && _). Qed.

Lemma send_link_hello s ifp i af h size pkt : find_ptr ifp (d_ifaces s) = Some i -> af_ok af ->
  0 <= d_msgcnt s < 2 ^ 31 - 1 -> if_get_hello_holdtime (d_conf s) (ia_of i af) af = Ok h ->
  hello_size (d_conf s) af = Ok size ->
  gen_hello (d_conf s) (d_msgcnt s + 1) af size h (link_flags (d_conf s) af) (ibuf_open size)
    = Ok (0, Ibuf pkt size size) ->
  exists s' dst, send_hello (HelloLink ifp af) s = Ok (tt, s') /\
    d_sent s' = d_sent s ++ [Packet af dst (Some ifp) pkt].
Proof.
  intros Hi Haf Hc Hh Hs Hg. unfold send_hello.
  assert (exists dst, hello_params (HelloLink ifp af) s
    = Ok ((af, h, link_flags (d_conf s) af, dst, Some ifp), s)) as [dst Ep].
  { unfold hello_params. rewrite (bind_ok conf _ s (d_conf s) s) by done.
    rewrite (bind_ok _ _ _ _ _ (get_ia_ok s ifp af i Hi Haf)), (bind_lift_ok _ _ _ _ Hh).
    unfold link_flags. destruct Haf as [-> | ->]; cbn; [destruct (negb _)|]; by eexists. }
  rewrite (bind_ok _ _ _ _ _ Ep), (bind_ok conf _ s (d_conf s) s) by done. rewrite (bind_lift_ok _ _ _ _ Hs).
  assert (disc_msgcnt s = Ok (d_msgcnt s + 1, set_msgcnt (d_msgcnt s + 1) s)) as Ecnt.
  { unfold disc_msgcnt. destruct (_ >=? _) eqn:E; [|done]. rewrite Z.geb_leb in E. zbool. lia. }
  rewrite (bind_ok _ _ _ _ _ Ecnt), (bind_lift_ok _ _ _ _ Hg). cbn [fst snd Z.eqb negb ib_data].
  unfold send_packet. destruct Haf as [-> | ->]; cbn; eexists _, dst; (split; [done|done]).
Qed.

Lemma disc_find_iface_lookup s ifindex af src mc i : disc_inv s ->
  disc_find_iface s ifindex af src mc = Ok (Some i) -> find_ptr (if_ptr i) (d_ifaces s) = Some i.
Proof.
  intros I H. unfold disc_find_iface in H. destruct (if_lookup s ifindex) as [j|] eqn:E; [|done].
  enough (j = i) as -> by (by eapply if_lookup_ok).
  destruct (negb mc).
  - destruct (iface_af_get j af); cbn in H; try done. case_match; by simplify_eq.
  - repeat case_match; try done; simplify_eq; try done.
    all: destruct (link_match _ _ _); cbn in *; try done; case_match; by simplify_eq.
Qed.

(** The transport address the receiver sees. *)
Definition hello_trans (c c' : le_conf) (af : Z) : ldpd_addr := ho_addr (hello_opts_of c c' af).

Lemma opts_rcvd c c' af :
  has_flag (ho_tlvs_rcvd (hello_opts_of c c' af)) F_HELLO_TLV_RCVD_ADDR = true /\
  has_flag (ho_tlvs_rcvd (hello_opts_of c c' af)) F_HELLO_TLV_RCVD_DS = ldp_is_dual_stack c && ldp_is_dual_stack c'.
Proof. unfold hello_opts_of. by destruct (_ && _). Qed.
End Exchange.

(** ** Properties *)

(** What router [b] has learnt behind a hello from [src] on link [i]. *)
Definition learned (b : disc) (i af : Z) (src : ldpd_addr) (id : Z) (addr : ldpd_addr) (ht : Z) : Prop :=
  exists p a n nb i', find_ptr p (d_adjs b) = Some a /\
    a_lsr_id a = id /\ a_source a = SrcLink i af src /\ a_nbr a = Some n /\ a_holdtime a = ht /\
    a_itimer a = (if ht =? INFINITE_HOLDTIME then None else Some ht) /\
    find_ptr i (d_ifaces b) = Some i' /\ p ∈ ia_adj_list (ia_of i' af) /\
    find_ptr n (d_nbrs b) = Some nb /\ dn_id nb = id /\ n_af (dn_nbr nb) = af /\
    n_raddr (dn_nbr nb) = addr /\ p ∈ dn_adj_list nb.

(** C18: discovery end to end.  The packet that [send_hello] of router [a] emits
    on a link, received by router [b] on the link of an interface it matches,
    from an address and a router [b] did not know, makes [b] create an
    adjacency on that interface and a neighbour with [a]'s LSR id and transport
    address, linked to each other, with the smaller of the two hold times
    (15 s when [a] proposes 0) as hold timer, whatever becomes of the
    connection attempt. *)
Theorem hello_forms_adjacency (env : conn_env) (a b : disc) (ifa : Z) (ia i : iface)
  (af ifindex ha hb : Z) (src : ldpd_addr)
  (Ha : hello_conf_ok (d_conf a)) (Haf : af_ok af)
  (Hia : find_ptr ifa (d_ifaces a) = Some ia) (Hca : 0 <= d_msgcnt a < 2 ^ 31 - 1)
  (Hha : if_get_hello_holdtime (d_conf a) (ia_of ia af) af = Ok ha)
  (Hh16 : is_u 16 ha) (Hmin : ha = 0 \/ MIN_HOLDTIME <= ha)
  (Hb : disc_inv b) (Hroom : disc_room b)
  (Hif : disc_find_iface b ifindex af src true = Ok (Some i)) (Hsrc : bad_addr af src = Ok 0)
  (Hhb : if_get_hello_holdtime (d_conf b) (ia_of i af) af = Ok hb)
  (Hcisco : has_flag (lc_flags (d_conf b)) F_LDPD_DS_CISCO_INTEROP
            = has_flag (lc_flags (d_conf a)) F_LDPD_DS_CISCO_INTEROP)
  (Htrans : bad_addr af (hello_trans (d_conf a) (d_conf b) af) = Ok 0)
  (Hnew : adj_find b (SrcLink (if_ptr i) af src) = None /\
          nbr_find_ldpid b (ldp_rtr_id_get (lc_sess (d_conf a))) = None /\
          nbr_find_addr b af (hello_trans (d_conf a) (d_conf b) af) = None)
  (Hpref : ldp_is_dual_stack (d_conf a) && ldp_is_dual_stack (d_conf b) = true ->
           lc_trans_pref (d_conf a) = lc_trans_pref (d_conf b) /\
           lc_trans_pref (d_conf a) = if af =? AF_INET then DUAL_STACK_LDPOV4 else DUAL_STACK_LDPOV6) :
  exists a' pkt b', send_hello (HelloLink ifa af) a = Ok (tt, a') /\ d_sent a' = d_sent a ++ [pkt] /\
    disc_recv_packet env af src true ifindex (p_data pkt) b = Ok (tt, b') /\ disc_inv b' /\
    learned b' (if_ptr i) af src (ldp_rtr_id_get (lc_sess (d_conf a))) (hello_trans (d_conf a) (d_conf b) af)
      (Z.min hb (if ha =? 0 then LINK_DFLT_HOLDTIME else ha)).
Proof.
  destruct (link_flags_ok (d_conf a) af) as [Hf16 Hnt]. destruct Hnew as (Hn1 & Hn2 & Hn3).
  destruct (hello_exchange (d_conf a) (d_conf b) (d_msgcnt a + 1) af ha (link_flags (d_conf a) af))
    as (size & pkt & m & Hs & Hg & Hk & Hid & _ & Hd); try done.
  destruct (send_link_hello a ifa ia af ha size pkt) as (a' & dst & Es & Ed); try done.
  exists a', (Packet af dst (Some ifa) pkt). rewrite Hnt in Hd. cbn [negb] in Hd.
  pose proof (disc_find_iface_lookup b ifindex af src true i Hb Hif) as Hi.
  destruct (opts_rcvd (d_conf a) (d_conf b) af) as [Hoa Hods].
  set (o := hello_opts_of (d_conf a) (d_conf b) af) in *.
  set (ht := Z.min hb (if ha =? 0 then LINK_DFLT_HOLDTIME else ha)).
  unfold disc_room in Hroom. set (emb := (af =? AF_INET6) && IN6_IS_SCOPE_EMBED (v6 (ho_addr o))).
  destruct (hello_from_new env b (ldp_rtr_id_get (lc_sess (d_conf a))) (dm_id m) (dm_type m) af (ho_addr o)
    (if emb then if_ifindex i else 0) (if_ptr i) i src ha (link_flags (d_conf a) af) o ht)
    as (b' & i' & adj & n & nb & E & I' & H); try done.
  - lia.
  - apply (hc_rtr_id _ Ha).
  - unfold pref_ok. rewrite Hods. intros Hds. destruct (Hpref Hds) as [P1 P2]. unfold o, hello_opts_of. rewrite Hds.
    cbn [ho_trans_pref]. split; [done|]. rewrite P2. destruct Haf as [-> | ->]; [by left|by right].
  - unfold source_holdtime. rewrite (bind_ok conf _ b (d_conf b) b) by done.
    by rewrite (bind_ok _ _ _ _ _ (get_ia_ok b (if_ptr i) af i Hi Haf)), (bind_lift_ok _ _ _ _ Hhb).
  - exists b'. split; [done|]. split; [done|]. split; [|split; [done|by exists (d_next b), adj, n, nb, i']].
    cbn [p_data]. unfold disc_recv_packet. rewrite (bind_lift_ok _ _ _ _ Hsrc).
    cbn [Z.eqb negb]. rewrite (bind_ok get _ b b b) by done. rewrite (bind_lift_ok _ _ _ _ Hif), (bind_lift_ok _ _ _ _ Hk).
    unfold recv_hello. rewrite (bind_ok conf _ b (d_conf b) b) by done. rewrite (bind_lift_ok _ _ _ _ Hd).
    unfold hello_process. cbv zeta. rewrite Hoa, (bind_lift_ok _ _ _ _ Htrans). fold emb.
    rewrite Hnt, andb_false_r. cbn [Z.eqb negb]. unfold hello_find_source. rewrite Hnt.
    rewrite (bind_ok _ _ b (Some (SrcLink (if_ptr i) af src)) b); [by rewrite Hid|].
    by rewrite (bind_ok _ _ _ _ _ (get_ia_ok b (if_ptr i) af i Hi Haf)).
Qed.

(** The router at the other end of link 7. *)
Definition link_3 : iface :=
  Iface 1 "eth3" 3 [IfAddr AF_INET (v4_addr 10 0 0 1) 24 zero_addr] (ll_addr 1) IF_TYPE_BROADCAST 0x41 ia_up ia_down.
Definition router_a : disc := Disc conf_a [] [] [] [] [link_3] [] 0 1 [] [] [] 10.

Lemma hello_forms_adjacency_witness :
  exists a' pkt b', send_hello (HelloLink 1 AF_INET) router_a = Ok (tt, a') /\ d_sent a' = [pkt] /\
    disc_recv_packet env_done AF_INET (v4_addr 10 0 0 1) true 7 (p_data pkt) router_b = Ok (tt, b') /\
    disc_inv b' /\
    learned b' 1 AF_INET (v4_addr 10 0 0 1) (le_val [1; 1; 1; 1]) (v4_addr 1 1 1 1) 15.
Proof.
  apply (hello_forms_adjacency env_done router_a router_b 1 link_3 link_7 AF_INET 7 15 15 (v4_addr 10 0 0 1));
    [apply conf_a_ok|left; reflexivity|reflexivity|vm_compute; intuition congruence|reflexivity
    |vm_compute; intuition congruence|right; vm_compute; intuition congruence
    |apply router_b_ok|vm_compute; reflexivity|vm_compute; reflexivity|vm_compute; reflexivity
    |reflexivity|vm_compute; reflexivity|vm_compute; reflexivity
    |split; [|split]; vm_compute; reflexivity|vm_compute; discriminate].
Defined.
