(* ===== verification/DiscFaults.v ===== *)
(** * Faults of discovery

    What [recv_hello] and the interface code do wrong: neighbours that nothing
    ever removes, adjacencies that outlive their interface, and configuration
    numbers compared in network byte order. *)
From stdpp Require Import prelude strings list.
From Stdlib Require Import ZArith Lia.
From S2P Require Import Prelude Util Wire Ipc Session Fec Hello Discovery.
From S2P Require Import DiscInv DiscSafe DiscRun DiscSystem DiscFun.

(** ** A known source that calls itself by a new name *)
Section Orphan.
Lemma hello_from_orphan env s id mi mt af addr scope source h fl o a :
  disc_inv s -> d_msgcnt s + Z.of_nat (length (d_adjs s)) < 2 ^ 31 - 16 -> is_u 32 id -> af_ok af ->
  source_live s source -> adj_find s source = Some a ->
  (forall q b, find_ptr q (d_adjs s) = Some b -> a_lsr_id b <> id) ->
  nbr_find_ldpid s id = None -> nbr_find_addr s af addr = None -> pref_ok (d_conf s) af o ->
  exists s' nb, hello_from env id mi mt af addr scope source h fl o s = Ok (tt, s') /\ disc_inv s' /\
    find_ptr (d_next s) (d_nbrs s') = Some nb /\ dn_id nb = id /\ dn_adj_list nb = [] /\
    length (d_adjs s') = length (d_adjs s) /\
    d_msgcnt s' <= d_msgcnt s + Z.of_nat (length (d_adjs s)) + 8.
Proof.
  intros I Hc Hid Haf Hlive Hadj Hlsr Hnb Haddr Hds.
  destruct (hello_from_ok env s id mi mt af addr scope source h fl o I Hc Hid Haf Hlive) as (s' & E & I' & C').
  pose proof E as H. rewrite hello_from_unknown, Hadj in H by done.
  rewrite (bind_ok _ _ s (a_ptr a) s) in H by done.
  destruct (source_holdtime_ok s source h I Hlive) as [ht Hht].
  pose proof (nbr_find_ldpid_none s id I Hid Hnb) as Hnone.
  destruct (hello_new_nbr _ _ _ _ _ _ _ _ _ _ _ _ _ _ _ I Hnone Hid Haf Haddr
    (adj_find_ok s source a I Hadj) Hht H)
    as (s2 & nb & nb' & K & Hnbid & Hnbaf & Hnba & A3 & _ & Hnb' & (J1 & _) & Jl).
  exists s', nb'. split; [done|]. split; [done|]. split; [done|]. split; [unfold dn_id in *; congruence|].
  split; [|split; [|lia]].
  - rewrite Jl. destruct (dn_adj_list nb) as [|q l] eqn:El; [done|]. exfalso.
    destruct (proj1 (nc_mine _ _ _ K q)) as (b & Hb & Hbid); [rewrite El; left|].
    apply (Hlsr q b Hb). congruence.
  - rewrite A3. unfold upd_ptr. by rewrite length_map, (nc_len _ _ _ K).
Qed.
End Orphan.

(** C31: adjacencies are looked up by the source address of a hello alone.  When
    the router behind a known address announces itself with a new LSR id and a
    new transport address (or another router uses the same link-local address
    on another link), [recv_hello] creates a neighbour for it but no adjacency;
    the old adjacency is kept alive instead.  No run of hold timers removes
    that neighbour. *)
Theorem orphan_neighbour_stays (env : conn_env) (s : disc) (id mi mt af scope h fl : Z) (addr : ldpd_addr)
  (source : hello_source) (o : hello_opts) (a : adj)
  (Hs : disc_inv s) (Hroom : d_msgcnt s + 6 * Z.of_nat (length (d_adjs s)) < 2 ^ 31 - 16)
  (Hid : is_u 32 id) (Haf : af_ok af) (Hlive : source_live s source)
  (Hadj : adj_find s source = Some a)
  (Hlsr : forall q b, find_ptr q (d_adjs s) = Some b -> a_lsr_id b <> id)
  (Hnb : nbr_find_ldpid s id = None) (Haddr : nbr_find_addr s af addr = None)
  (Hpref : pref_ok (d_conf s) af o) :
  exists s' n nb, hello_from env id mi mt af addr scope source h fl o s = Ok (tt, s') /\
    find_ptr n (d_nbrs s') = Some nb /\ dn_id nb = id /\ dn_adj_list nb = [] /\
    forall k s'', silent_run s' k s'' -> find_ptr n (d_nbrs s'') = Some nb.
Proof.
  destruct (hello_from_orphan env s id mi mt af addr scope source h fl o a)
    as (s' & nb & E & I' & Hn & Hnid & Hl & Hlen & C); try done; [lia|].
  exists s', (d_next s), nb. split_and!; try done. intros k s'' Hrun.
  destruct (silent_run_inv s' k s'' I') as (_ & _ & _ & J & _); [lia|done|]. by apply J.
Qed.

(** ** Adjacencies of an interface that is freed *)
Section Freed.
Lemma if_exit_idle s ifp i : find_ptr ifp (d_ifaces s) = Some i ->
  ia_state (if_ipv4 i) <> IF_STA_ACTIVE -> ia_state (if_ipv6 i) <> IF_STA_ACTIVE ->
  (if_exit ifp ;;; if_free ifp) s
  = Ok (tt, set_ifaces (del_ptr ifp) (set_ifaces (upd_ptr ifp (fun i => set_if_addr_list i [])) s)).
Proof.
  intros Hi H4 H6. set (f := fun i => set_if_addr_list i []).
  assert (if_exit ifp s = Ok (tt, set_ifaces (upd_ptr ifp f) s)) as E.
  { unfold if_exit. rewrite (bind_ok _ _ _ _ _ (get_iface_ok _ _ _ Hi)).
    apply Z.eqb_neq in H4, H6. rewrite H4, (bind_ok _ _ s tt s) by done.
    rewrite (bind_ok _ _ _ _ _ (get_iface_ok _ _ _ Hi)), H6, (bind_ok _ _ s tt s) by done.
    by apply (mod_iface_ok s ifp i). }
  rewrite (bind_ok _ _ _ _ _ E). unfold if_free.
  assert (find_ptr ifp (d_ifaces (set_ifaces (upd_ptr ifp f) s)) = Some (f i)) as Hi'
    by (cbn; by rewrite find_ptr_upd, Z.eqb_refl, Hi by done).
  by rewrite (bind_ok _ _ _ _ _ (get_iface_ok _ _ _ Hi')).
Qed.

Lemma adj_itimer_freed s p a ifp af src : find_ptr p (d_adjs s) = Some a -> a_source a = SrcLink ifp af src ->
  find_ptr ifp (d_ifaces s) = None -> adj_itimer p s = Undef "interface was freed".
Proof.
  intros Ha Hsrc Hi. unfold adj_itimer. rewrite (bind_ok _ _ _ _ _ (mod_adj_ok s p a _ Ha)).
  set (s1 := set_adjs _ s).
  assert (find_ptr p (d_adjs s1) = Some (set_a_itimer a None)) as H1
    by (unfold s1; cbn; by rewrite find_ptr_upd, Z.eqb_refl, Ha by done).
  rewrite (bind_ok _ _ _ _ _ (get_adj_ok _ _ _ H1)). cbn [a_source set_a_itimer]. rewrite Hsrc.
  unfold adj_del. rewrite (bind_ok _ _ _ _ _ (get_adj_ok _ _ _ H1)).
  unfold adj_del_single, adj_get_af. unfold bind at 1 2. rewrite (get_adj_ok _ _ _ H1). cbn [rbind].
  cbn [a_source set_a_itimer]. rewrite Hsrc. unfold bind, get_iface, deref. by change (d_ifaces s1) with (d_ifaces s); rewrite Hi.
Qed.
End Freed.

(** C32: an interface that is removed from the configuration takes only the
    adjacencies of its active families with it.  Hellos are also accepted for a
    family that is not active on the interface (multicast packets are only
    checked against its addresses), so an adjacency can be left behind with a
    pointer to the freed interface, and its hold timer reads freed memory.
    Here for an interface with both families inactive. *)
Theorem freed_interface_dangles (s : disc) (ifp p af : Z) (src : ldpd_addr) (i : iface) (a : adj)
  (Hi : find_ptr ifp (d_ifaces s) = Some i)
  (H4 : ia_state (if_ipv4 i) <> IF_STA_ACTIVE) (H6 : ia_state (if_ipv6 i) <> IF_STA_ACTIVE)
  (Ha : find_ptr p (d_adjs s) = Some a) (Hsrc : a_source a = SrcLink ifp af src) :
  exists s', (if_exit ifp ;;; if_free ifp) s = Ok (tt, s') /\ find_ptr p (d_adjs s') = Some a /\
    adj_itimer p s' = Undef "interface was freed".
Proof.
  eexists. split; [by apply (if_exit_idle s ifp i)|]. split; [done|].
  apply (adj_itimer_freed _ p a ifp af src); try done. cbn. by rewrite find_ptr_del, Z.eqb_refl.
Qed.

(** The configuration sequence number of a hello is kept and compared as it
    is on the wire.  A neighbour that counted from 255 to 256 announces a number
    that looks smaller to a little-endian receiver, so the delay before the next
    connection attempt is not cut short as the new configuration demands. *)
Theorem conf_seqnum_wire_order (s : disc) (p secs fl : Z) (nb : dnbr) (c c' : le_conf) (af : Z)
  (Hp : find_ptr p (d_nbrs s) = Some nb)
  (Hold : dn_conf_seqnum nb = htonl 255) (Hnew : lc_conf_seqnum c = 256)
  (Htimer : t_initdelay_timer (n_timers (dn_nbr nb)) = Some secs) :
  exists s' nb', hello_note fl (hello_opts_of c c' af) p s = Ok (tt, s') /\
    find_ptr p (d_nbrs s') = Some nb' /\ t_initdelay_timer (n_timers (dn_nbr nb')) = Some secs /\
    dn_conf_seqnum nb' = htonl 256.
Proof.
  unfold hello_note. rewrite (bind_ok _ _ _ _ _ (mod_dnbr_ok _ _ _ _ Hp)).
  set (f := fun n => set_dn_flags n _). set (s1 := set_nbrs (upd_ptr p f) s).
  assert (find_ptr p (d_nbrs s1) = Some (f nb)) as H1
    by (unfold s1; cbn; by rewrite find_ptr_upd, Z.eqb_refl, Hp by done).
  assert (has_flag (ho_tlvs_rcvd (hello_opts_of c c' af)) F_HELLO_TLV_RCVD_CONF = true) as ->
    by (unfold hello_opts_of; by destruct (_ && _)).
  rewrite (bind_ok _ _ _ _ _ (get_dnbr_ok _ _ _ H1)).
  assert (ho_conf_number (hello_opts_of c c' af) = htonl 256) as Ecn by (cbn; by rewrite Hnew).
  rewrite Ecn. change (dn_conf_seqnum (f nb)) with (dn_conf_seqnum nb). rewrite Hold.
  assert ((htonl 256 >? htonl 255) = false) as -> by reflexivity.
  cbn [andb]. rewrite (bind_ok _ _ s1 tt s1) by done. rewrite (mod_dnbr_ok _ _ _ _ H1).
  eexists _, _. split; [done|]. cbn. rewrite find_ptr_upd, Z.eqb_refl, find_ptr_upd, Z.eqb_refl, Hp by done.
  split; [done|]. done.
Qed.

(** ** Witnesses *)
Definition opts_renamed : hello_opts := HelloOpts 3 (v4_addr 3 3 3 3) (htonl 1) 0.

Lemma orphan_neighbour_stays_witness :
  exists s' n nb, hello_from env_done (le_val [3; 3; 3; 3]) 0 0 AF_INET (v4_addr 3 3 3 3) 0
      (SrcLink 1 AF_INET (v4_addr 10 0 0 1)) 15 0 opts_renamed router_b1 = Ok (tt, s') /\
    find_ptr n (d_nbrs s') = Some nb /\ dn_id nb = le_val [3; 3; 3; 3] /\ dn_adj_list nb = [] /\
    forall k s'', silent_run s' k s'' -> find_ptr n (d_nbrs s'') = Some nb.
Proof.
  eapply orphan_neighbour_stays.
  - apply router_b1_ok.
  - vm_compute. reflexivity.
  - vm_compute. intuition congruence.
  - left. reflexivity.
  - split; [left; reflexivity|]. vm_compute. eexists. reflexivity.
  - vm_compute. reflexivity.
  - intros q b H. apply find_ptr_ptr in H as [_ H]. vm_compute in H.
    apply elem_of_cons in H as [-> | H]; [vm_compute; discriminate|by apply not_elem_of_nil in H].
  - vm_compute. reflexivity.
  - vm_compute. reflexivity.
  - vm_compute. discriminate.
Defined.

(** A router with both families, one link where neither is active, and a hello
    of [conf_a] for IPv6 on it. *)
Definition conf_c : le_conf :=
  LeConf sess_conf_b (AfConf 0 0 0 0 (v4_addr 2 2 2 2) F_LDPD_AF_ENABLED)
    (AfConf 0 0 0 0 (ll_addr 2) F_LDPD_AF_ENABLED) 15 5 45 15 DUAL_STACK_LDPOV4 0 1
    (v4_addr 224 0 0 2) (0xff :: 0x02 :: replicate 13 0 ++ [2]) both_open both_open.
Definition router_c : disc := Disc conf_c [] [] [] [] [link_8] [] 0 1 [] [] [] 10.
Definition hello_a6 : list Z :=
  let body := hello_tlvs conf_a AF_INET6 15 0 in
  hello_packet conf_a 1 (18 + Z.of_nat (length body)) (18 + Z.of_nat (length body)) body.
Definition router_c1 : disc := after_event (EvPacket env_done AF_INET6 (ll_addr 1) true 8 hello_a6) router_c.

Lemma freed_interface_dangles_witness :
  exists s', (if_exit 2 ;;; if_free 2) router_c1 = Ok (tt, s') /\
    map a_ptr (d_adjs s') = [10] /\ adj_itimer 10 s' = Undef "interface was freed".
Proof.
  destruct (find_ptr 10 (d_adjs router_c1)) as [a|] eqn:Ea; [|vm_compute in Ea; discriminate].
  destruct (find_ptr 2 (d_ifaces router_c1)) as [i|] eqn:Ei; [|vm_compute in Ei; discriminate].
  pose proof (freed_interface_dangles router_c1 2 10 AF_INET6 (ll_addr 1) i a Ei) as H.
  pose proof Ea as Ea'. pose proof Ei as Ei'. vm_compute in Ea', Ei'.
  assert (ia_state (if_ipv4 i) <> IF_STA_ACTIVE) as H4 by (injection Ei' as <-; discriminate).
  assert (ia_state (if_ipv6 i) <> IF_STA_ACTIVE) as H6 by (injection Ei' as <-; discriminate).
  assert (a_source a = SrcLink 2 AF_INET6 (ll_addr 1)) as Hsrc by (injection Ea' as <-; reflexivity).
  destruct (H H4 H6 Ea Hsrc) as (s' & E & _ & Hu). exists s'. split; [exact E|]. split; [|exact Hu].
  pose proof (if_exit_idle router_c1 2 i Ei H4 H6) as E'. rewrite E in E'.
  injection E' as ->. vm_compute. reflexivity.
Defined.

(** The neighbour of [router_b1] behind a fatal notification that arrived while
    the session was being set up: the delay before the next attempt is running. *)
Definition router_b2 : disc :=
  match on_nbr 11 nbr_start_idtimer router_b1 with Ok (_, s) => s | _ => router_b1 end.
Definition conf_a256 : le_conf :=
  LeConf sess_conf_a (lc_ipv4 conf_a) (lc_ipv6 conf_a) 15 5 45 15 DUAL_STACK_LDPOV4 0 256
    (lc_mcast_addr_v4 conf_a) (lc_mcast_addr_v6 conf_a) both_open both_open.

Lemma conf_seqnum_wire_order_witness :
  exists s' nb', hello_note 0 (hello_opts_of conf_a256 conf_b AF_INET) 11 router_b2 = Ok (tt, s') /\
    find_ptr 11 (d_nbrs s') = Some nb' /\ t_initdelay_timer (n_timers (dn_nbr nb')) = Some 15 /\
    dn_conf_seqnum nb' = htonl 256.
Proof.
  destruct (find_ptr 11 (d_nbrs router_b2)) as [nb|] eqn:En; [|vm_compute in En; discriminate].
  pose proof (conf_seqnum_wire_order router_b2 11 15 0 nb conf_a256 conf_b AF_INET En) as H.
  vm_compute in En. injection En as <-. exact (H eq_refl eq_refl eq_refl).
Defined.
