(* ===== verification/Config.v ===== *)
(** * Merging a new configuration into the engine's
      (ldpd/ldpd.c, ldpe.c, l2vpn.c)

    [merge_config] as the LDP engine runs it ([ldpd_process] is
    [PROC_LDP_ENGINE]; the branches of the other two processes are not taken).
    It works on the heap of [Discovery]: the running configuration is [d_conf]
    with the interfaces and targeted neighbours of the heap, the new one an
    [ldpd_conf].  Its interfaces and targeted neighbours get their address when
    they are linked into the heap, before that nothing points to them.  The L2VPNs, which the engine only needs to know which targeted
    neighbours pseudowires use, are lists of their own.

    TCP MD5 keys are set on sockets and left out. *)
From stdpp Require Import prelude strings list.
From Stdlib Require Import ZArith Lia.
From S2P Require Import Prelude Util Wire Ipc Session Fec Hello Discovery.

(** ** Results of system calls, by place and object *)
Inductive conn_site := SiteBackoff | SiteParams | SiteSetup.
Record sys_env := SysEnv {
  se_join : Z -> Z -> bool;              (* joining the multicast group: interface, family *)
  se_conn : conn_site -> Z -> conn_env   (* connecting to a neighbour *)
}.

(** ** Updates of the configuration *)
Definition set_conf (f : le_conf -> le_conf) (s : disc) : disc :=
  Disc (f (d_conf s)) (d_addr_list s) (d_nbrs s) (d_adjs s) (d_tnbrs s) (d_ifaces s) (d_pconns s)
    (d_msgcnt s) (d_peercnt s) (d_pids s) (d_lde s) (d_sent s) (d_next s).

Definition set_c_rtr_id (v : Z) (c : ldpe_conf) : ldpe_conf :=
  LdpeConf v (c_global_rtr_id c) (c_keepalive4 c) (c_keepalive6 c) (c_nbrp_list c) (c_addr_list c).
Definition set_c_global_rtr_id (v : Z) (c : ldpe_conf) : ldpe_conf :=
  LdpeConf (c_rtr_id c) v (c_keepalive4 c) (c_keepalive6 c) (c_nbrp_list c) (c_addr_list c).
Definition set_c_keepalive (af v : Z) (c : ldpe_conf) : ldpe_conf :=
  LdpeConf (c_rtr_id c) (c_global_rtr_id c) (if af =? AF_INET then v else c_keepalive4 c)
    (if af =? AF_INET then c_keepalive6 c else v) (c_nbrp_list c) (c_addr_list c).
Definition set_c_nbrps (f : list nbr_params -> list nbr_params) (c : ldpe_conf) : ldpe_conf :=
  LdpeConf (c_rtr_id c) (c_global_rtr_id c) (c_keepalive4 c) (c_keepalive6 c) (f (c_nbrp_list c))
    (c_addr_list c).

Definition set_lc_sess (f : ldpe_conf -> ldpe_conf) (c : le_conf) : le_conf :=
  LeConf (f (lc_sess c)) (lc_ipv4 c) (lc_ipv6 c) (lc_lhello_holdtime c) (lc_lhello_interval c)
    (lc_thello_holdtime c) (lc_thello_interval c) (lc_trans_pref c) (lc_flags c) (lc_conf_seqnum c)
    (lc_mcast_addr_v4 c) (lc_mcast_addr_v6 c) (lc_global4 c) (lc_global6 c).
Definition set_lc_af (af : Z) (f : af_conf -> af_conf) (c : le_conf) : le_conf :=
  LeConf (lc_sess c) (if af =? AF_INET then f (lc_ipv4 c) else lc_ipv4 c)
    (if af =? AF_INET then lc_ipv6 c else f (lc_ipv6 c)) (lc_lhello_holdtime c) (lc_lhello_interval c)
    (lc_thello_holdtime c) (lc_thello_interval c) (lc_trans_pref c) (lc_flags c) (lc_conf_seqnum c)
    (lc_mcast_addr_v4 c) (lc_mcast_addr_v6 c) (lc_global4 c) (lc_global6 c).
Definition set_lc_hellos (lh li th ti : Z) (c : le_conf) : le_conf :=
  LeConf (lc_sess c) (lc_ipv4 c) (lc_ipv6 c) lh li th ti (lc_trans_pref c) (lc_flags c)
    (lc_conf_seqnum c) (lc_mcast_addr_v4 c) (lc_mcast_addr_v6 c) (lc_global4 c) (lc_global6 c).
Definition set_lc_trans_pref (v : Z) (c : le_conf) : le_conf :=
  LeConf (lc_sess c) (lc_ipv4 c) (lc_ipv6 c) (lc_lhello_holdtime c) (lc_lhello_interval c)
    (lc_thello_holdtime c) (lc_thello_interval c) v (lc_flags c) (lc_conf_seqnum c)
    (lc_mcast_addr_v4 c) (lc_mcast_addr_v6 c) (lc_global4 c) (lc_global6 c).
Definition set_lc_flags (v : Z) (c : le_conf) : le_conf :=
  LeConf (lc_sess c) (lc_ipv4 c) (lc_ipv6 c) (lc_lhello_holdtime c) (lc_lhello_interval c)
    (lc_thello_holdtime c) (lc_thello_interval c) (lc_trans_pref c) v (lc_conf_seqnum c)
    (lc_mcast_addr_v4 c) (lc_mcast_addr_v6 c) (lc_global4 c) (lc_global6 c).
Definition set_lc_conf_seqnum (v : Z) (c : le_conf) : le_conf :=
  LeConf (lc_sess c) (lc_ipv4 c) (lc_ipv6 c) (lc_lhello_holdtime c) (lc_lhello_interval c)
    (lc_thello_holdtime c) (lc_thello_interval c) (lc_trans_pref c) (lc_flags c) v
    (lc_mcast_addr_v4 c) (lc_mcast_addr_v6 c) (lc_global4 c) (lc_global6 c).
Definition set_lc_global (af : Z) (g : af_global) (c : le_conf) : le_conf :=
  LeConf (lc_sess c) (lc_ipv4 c) (lc_ipv6 c) (lc_lhello_holdtime c) (lc_lhello_interval c)
    (lc_thello_holdtime c) (lc_thello_interval c) (lc_trans_pref c) (lc_flags c) (lc_conf_seqnum c)
    (lc_mcast_addr_v4 c) (lc_mcast_addr_v6 c)
    (if af =? AF_INET then g else lc_global4 c) (if af =? AF_INET then lc_global6 c else g).

Definition set_af_hellos (lh li th ti : Z) (a : af_conf) : af_conf :=
  AfConf lh li th ti (af_trans_addr a) (af_flags a).
Definition set_af_flags (v : Z) (a : af_conf) : af_conf :=
  AfConf (af_lhello_holdtime a) (af_lhello_interval a) (af_thello_holdtime a) (af_thello_interval a)
    (af_trans_addr a) v.
Definition set_af_trans_addr (v : ldpd_addr) (a : af_conf) : af_conf :=
  AfConf (af_lhello_holdtime a) (af_lhello_interval a) (af_thello_holdtime a) (af_thello_interval a)
    v (af_flags a).

Definition set_ia_enabled (ia : iface_af) (v : bool) : iface_af :=
  IfaceAf v (ia_state ia) (ia_adj_list ia) (ia_hello_timer ia) (ia_hello_holdtime ia)
    (ia_hello_interval ia).
Definition set_ia_hellos (ia : iface_af) (holdtime interval : Z) : iface_af :=
  IfaceAf (ia_enabled ia) (ia_state ia) (ia_adj_list ia) (ia_hello_timer ia) holdtime interval.
Definition set_t_pw_count (t : tnbr) (v : Z) : tnbr :=
  Tnbr (t_ptr t) (t_af t) (t_addr t) (t_state t) v (t_flags t) (t_adj t) (t_hello_timer t).

(** ** The new configuration ([struct ldpd_conf]) *)
(** [l2vpn], [l2vpn_if] and [pw_conf] are those of [Ipc]. *)
Record xaf := XAf { xa_keepalive : Z; xa_conf : af_conf }.
Record ldpd_conf := LdpdConf {
  xc_rtr_id : Z;
  xc_ipv4 : xaf;
  xc_ipv6 : xaf;
  xc_iface_list : list iface;
  xc_tnbr_list : list tnbr;
  xc_nbrp_list : list nbr_params;
  xc_l2vpn_list : list l2vpn;
  xc_lhello_holdtime : Z;
  xc_lhello_interval : Z;
  xc_thello_holdtime : Z;
  xc_thello_interval : Z;
  xc_trans_pref : Z;
  xc_flags : Z
}.
Definition F_LDPD_AF_EXPNULL : Z := 0x0004.
Definition F_LDPD_ENABLED : Z := 0x0004.

(** ** Neighbours and targeted neighbours (ldpe.c) *)
Definition ldpe_reset_nbrs (af : Z) : ST disc unit :=
  do s <- get;
  foreach (fun n => if n_af (dn_nbr n) =? af then on_nbr (dn_ptr n) (session_shutdown S_SHUTDOWN 0 0)
                    else ret tt) (d_nbrs s).

Definition ldpe_reset_ds_nbrs : ST disc unit :=
  do s <- get;
  foreach (fun n => if dn_ds_tlv n then on_nbr (dn_ptr n) (session_shutdown S_SHUTDOWN 0 0)
                    else ret tt) (d_nbrs s).

Definition clear_t_flag (flag : Z) (t : tnbr) : tnbr :=
  set_t_flags t (Z.land (t_flags t) (Z.lnot flag)).

Definition ldpe_remove_dynamic_tnbrs (af : Z) : ST disc unit :=
  do s <- get;
  foreach (fun t =>
    if negb (t_af t =? af) then ret tt
    else mod_tnbr (t_ptr t) (clear_t_flag F_TNBR_DYNAMIC) ;;; tnbr_check (t_ptr t) ;;; ret tt)
    (d_tnbrs s).

Definition ldpe_stop_init_backoff (env : Z -> conn_env) (af : Z) : ST disc unit :=
  do s <- get;
  foreach (fun n =>
    if (n_af (dn_nbr n) =? af) && nbr_pending_idtimer (dn_nbr n)
    then on_nbr (dn_ptr n) nbr_stop_idtimer ;;; nbr_establish_connection (env (dn_ptr n)) (dn_ptr n)
    else ret tt) (d_nbrs s).

(** ** Targeted neighbours of pseudowires (l2vpn.c); [pw_count] is a [uint16_t] *)
Definition ldpe_l2vpn_pw_init (pw : pw_conf) : ST disc unit :=
  do s <- get;
  do p <- match tnbr_find s (pwc_af pw) (pwc_addr pw) with
          | Some t => ret (t_ptr t)
          | None =>
              do t <- tnbr_new (pwc_af pw) (pwc_addr pw);
              do t <- tnbr_updated t;
              modify (set_tnbrs (cons t)) ;;;
              ret (t_ptr t)
          end;
  mod_tnbr p (fun t => set_t_pw_count t (u16 (t_pw_count t + 1))).

Definition ldpe_l2vpn_pw_exit (pw : pw_conf) : ST disc unit :=
  do s <- get;
  match tnbr_find s (pwc_af pw) (pwc_addr pw) with
  | None => ret tt
  | Some t =>
      mod_tnbr (t_ptr t) (fun t => set_t_pw_count t (u16 (t_pw_count t - 1))) ;;;
      tnbr_check (t_ptr t) ;;; ret tt
  end.

Definition ldpe_l2vpn_init (l : l2vpn) : ST disc unit := foreach ldpe_l2vpn_pw_init (lv_pw_list l).
Definition ldpe_l2vpn_exit (l : l2vpn) : ST disc unit := foreach ldpe_l2vpn_pw_exit (lv_pw_list l).

(** ** Global parameters (ldpd.c) *)
Definition merge_global (env : sys_env) (x : ldpd_conf) : ST disc unit :=
  do c <- conf;
  (if negb (c_rtr_id (lc_sess c) =? xc_rtr_id x) then
     ldpe_reset_nbrs AF_INET ;;;
     ldpe_reset_nbrs AF_INET6 ;;;
     (if (c_rtr_id (lc_sess c) =? INADDR_ANY) || (xc_rtr_id x =? INADDR_ANY)
      then if_update_all (se_join env) AF_UNSPEC ;;; tnbr_update_all AF_UNSPEC
      else ret tt) ;;;
     modify (set_conf (set_lc_sess (set_c_rtr_id (xc_rtr_id x))))
   else ret tt) ;;;
  modify (set_conf (set_lc_hellos (xc_lhello_holdtime x) (xc_lhello_interval x)
                      (xc_thello_holdtime x) (xc_thello_interval x))) ;;;
  (if negb (lc_trans_pref c =? xc_trans_pref x) then
     ldpe_reset_ds_nbrs ;;; modify (set_conf (set_lc_trans_pref (xc_trans_pref x)))
   else ret tt) ;;;
  (if negb (Z.land (lc_flags c) F_LDPD_DS_CISCO_INTEROP =? Z.land (xc_flags x) F_LDPD_DS_CISCO_INTEROP)
   then ldpe_reset_ds_nbrs else ret tt) ;;;
  modify (set_conf (set_lc_flags (xc_flags x))).

Definition conf_keepalive (c : ldpe_conf) (af : Z) : Z :=
  if af =? AF_INET then c_keepalive4 c else c_keepalive6 c.

(** The engine has no part in a change of the egress labels or of the sockets;
    a change of the GTSM flag for IPv6 is one of the sockets. *)
Definition merge_af (env : sys_env) (af : Z) (x : xaf) : ST disc unit :=
  do c <- conf;
  do ac <- lift (ldp_af_conf_get c af);
  let xa := xa_conf x in
  (if negb (conf_keepalive (lc_sess c) af =? xa_keepalive x) then
     modify (set_conf (set_lc_sess (set_c_keepalive af (xa_keepalive x)))) ;;;
     ldpe_stop_init_backoff (se_conn env SiteBackoff) af
   else ret tt) ;;;
  modify (set_conf (set_lc_af af (set_af_hellos (af_lhello_holdtime xa) (af_lhello_interval xa)
                                    (af_thello_holdtime xa) (af_thello_interval xa)))) ;;;
  (if has_flag (af_flags ac) F_LDPD_AF_THELLO_ACCEPT && negb (has_flag (af_flags xa) F_LDPD_AF_THELLO_ACCEPT)
   then ldpe_remove_dynamic_tnbrs af else ret tt) ;;;
  (if negb (Z.land (af_flags ac) F_LDPD_AF_NO_GTSM =? Z.land (af_flags xa) F_LDPD_AF_NO_GTSM)
   then if af =? AF_INET6 then ret tt else ldpe_reset_nbrs af
   else ret tt) ;;;
  modify (set_conf (set_lc_af af (set_af_flags (af_flags xa)))) ;;;
  do differ <- lift (ldp_addrcmp af (af_trans_addr ac) (af_trans_addr xa));
  if negb (differ =? 0) then modify (set_conf (set_lc_af af (set_af_trans_addr (af_trans_addr xa))))
  else ret tt.

(** ** Interfaces (ldpd.c) *)
Definition if_lookup_name (l : list iface) (name : string) : option iface :=
  List.find (fun i => String.eqb (if_name i) name) l.

Definition merge_iface_af (env : sys_env) (ifp af : Z) (xi : iface_af) : ST disc unit :=
  do ia <- get_ia ifp af;
  (if negb (Bool.eqb (ia_enabled ia) (ia_enabled xi)) then
     mod_ia ifp af (fun ia => set_ia_enabled ia (ia_enabled xi)) ;;;
     if_update (se_join env ifp) ifp af
   else ret tt) ;;;
  mod_ia ifp af (fun ia => set_ia_hellos ia (ia_hello_holdtime xi) (ia_hello_interval xi)).

(** The interfaces that are gone: [if_exit] and [free] follow the pointer only. *)
Definition merge_ifaces_del (x : ldpd_conf) : ST disc unit :=
  do s <- get;
  foreach (fun i =>
    match if_lookup_name (xc_iface_list x) (if_name i) with
    | None => if_exit (if_ptr i) ;;; if_free (if_ptr i)
    | Some _ => ret tt
    end) (d_ifaces s).

(** The structure, linked in at its address. *)
Definition place_iface (p : Z) (i : iface) : iface :=
  Iface p (if_name i) (if_ifindex i) (if_addr_list i) (if_linklocal i) (if_type i) (if_flags i)
    (if_ipv4 i) (if_ipv6 i).

Definition merge_iface (env : sys_env) (xi : iface) : ST disc unit :=
  do s <- get;
  match if_lookup_name (d_ifaces s) (if_name xi) with
  | None => do p <- alloc; modify (set_ifaces (cons (place_iface p xi)))
  | Some i =>
      merge_iface_af env (if_ptr i) AF_INET (if_ipv4 xi) ;;;
      merge_iface_af env (if_ptr i) AF_INET6 (if_ipv6 xi)
  end.

Definition merge_ifaces (env : sys_env) (x : ldpd_conf) : ST disc unit :=
  merge_ifaces_del x ;;; foreach (merge_iface env) (xc_iface_list x).

(** ** Targeted neighbours (ldpd.c) *)
Definition xtnbr_find (l : list tnbr) (af : Z) (addr : ldpd_addr) : option tnbr :=
  List.find (fun t => (af =? t_af t) && same_addr af addr (t_addr t)) l.

Definition merge_tnbrs_del (x : ldpd_conf) : ST disc unit :=
  do s <- get;
  foreach (fun t =>
    if negb (has_flag (t_flags t) F_TNBR_CONFIGURED) then ret tt
    else
      match xtnbr_find (xc_tnbr_list x) (t_af t) (t_addr t) with
      | None => mod_tnbr (t_ptr t) (clear_t_flag F_TNBR_CONFIGURED) ;;; tnbr_check (t_ptr t) ;;; ret tt
      | Some _ => ret tt
      end) (d_tnbrs s).

Definition place_tnbr (p : Z) (t : tnbr) : tnbr :=
  Tnbr p (t_af t) (t_addr t) (t_state t) (t_pw_count t) (t_flags t) (t_adj t) (t_hello_timer t).

Definition merge_tnbr (xt : tnbr) : ST disc unit :=
  do s <- get;
  match tnbr_find s (t_af xt) (t_addr xt) with
  | None => do p <- alloc; modify (set_tnbrs (cons (place_tnbr p xt))) ;;; tnbr_update p
  | Some t =>
      if negb (has_flag (t_flags t) F_TNBR_CONFIGURED)
      then mod_tnbr (t_ptr t) (fun t => set_t_flags t (Z.lor (t_flags t) F_TNBR_CONFIGURED))
      else ret tt
  end.

Definition merge_tnbrs (x : ldpd_conf) : ST disc unit :=
  merge_tnbrs_del x ;;; foreach merge_tnbr (xc_tnbr_list x).

(** ** Parameters of neighbours (ldpd.c) *)
Definition nbr_params_in (l : list nbr_params) (lsr_id : Z) : option nbr_params :=
  List.find (fun p => nbrp_lsr_id p =? lsr_id) l.

(** [LIST_REMOVE] and the update in place of the entry with the LSR id. *)
Fixpoint nbrp_remove (lsr_id : Z) (l : list nbr_params) : list nbr_params :=
  match l with
  | [] => []
  | p :: l' => if nbrp_lsr_id p =? lsr_id then l' else p :: nbrp_remove lsr_id l'
  end.
Fixpoint nbrp_replace (x : nbr_params) (l : list nbr_params) : list nbr_params :=
  match l with
  | [] => []
  | p :: l' => if nbrp_lsr_id p =? nbrp_lsr_id x then x :: l' else p :: nbrp_replace x l'
  end.

(** The session is closed and, if it is ours to open, opened again. *)
Definition restart_session (env : sys_env) (lsr_id : Z) : ST disc unit :=
  do s <- get;
  match nbr_find_ldpid s lsr_id with
  | None => ret tt
  | Some n =>
      on_nbr (dn_ptr n) (session_shutdown S_SHUTDOWN 0 0) ;;;
      do c <- conf;
      lift (ldp_af_global_get c (n_af (dn_nbr n))) ;;;
      do n' <- get_dnbr (dn_ptr n);
      do active <- lift (nbr_session_active_role (dn_nbr n'));
      if active then nbr_establish_connection (se_conn env SiteParams (dn_ptr n)) (dn_ptr n) else ret tt
  end.

Definition nbrp_changed (p x : nbr_params) : bool :=
  negb ((nbrp_flags p =? nbrp_flags x) && (nbrp_keepalive p =? nbrp_keepalive x)
        && (nbrp_gtsm_enabled p =? nbrp_gtsm_enabled x) && (nbrp_gtsm_hops p =? nbrp_gtsm_hops x)
        && (nbrp_auth_method p =? nbrp_auth_method x) && String.eqb (nbrp_md5key p) (nbrp_md5key x)).

Definition merge_nbrps_del (env : sys_env) (x : ldpd_conf) : ST disc unit :=
  do c <- conf;
  foreach (fun p =>
    match nbr_params_in (xc_nbrp_list x) (nbrp_lsr_id p) with
    | None =>
        restart_session env (nbrp_lsr_id p) ;;;
        modify (set_conf (set_lc_sess (set_c_nbrps (nbrp_remove (nbrp_lsr_id p)))))
    | Some _ => ret tt
    end) (c_nbrp_list (lc_sess c)).

Definition merge_nbrp (env : sys_env) (xn : nbr_params) : ST disc unit :=
  do c <- conf;
  match nbr_params_in (c_nbrp_list (lc_sess c)) (nbrp_lsr_id xn) with
  | None =>
      modify (set_conf (set_lc_sess (set_c_nbrps (cons xn)))) ;;;
      restart_session env (nbrp_lsr_id xn)
  | Some p =>
      modify (set_conf (set_lc_sess (set_c_nbrps (nbrp_replace xn)))) ;;;
      if nbrp_changed p xn then restart_session env (nbrp_lsr_id xn) else ret tt
  end.

Definition merge_nbrps (env : sys_env) (x : ldpd_conf) : ST disc unit :=
  merge_nbrps_del env x ;;; foreach (merge_nbrp env) (xc_nbrp_list x).

(** ** L2VPNs (ldpd.c) *)
Definition l2vpn_find (l : list l2vpn) (name : string) : option l2vpn :=
  List.find (fun v => String.eqb (lv_name v) name) l.
Definition l2vpn_if_find_name (l : list l2vpn_if) (ifname : string) : option l2vpn_if :=
  List.find (fun f => String.eqb (lf_ifname f) ifname) l.
Definition pw_in (ifname : string) (l : list pw_conf) : option pw_conf :=
  List.find (fun p => String.eqb (pwc_ifname p) ifname) l.

(** The active pseudowires are searched first. *)
Definition l2vpn_pw_find_name (act inact : list pw_conf) (ifname : string) : option pw_conf :=
  match pw_in ifname act with Some p => Some p | None => pw_in ifname inact end.

(** [LIST_REMOVE] and the update in place of the first entry of that name. *)
Fixpoint pw_take (ifname : string) (l : list pw_conf) : list pw_conf :=
  match l with
  | [] => []
  | p :: l' => if String.eqb (pwc_ifname p) ifname then l' else p :: pw_take ifname l'
  end.
Fixpoint pw_put (x : pw_conf) (l : list pw_conf) : list pw_conf :=
  match l with
  | [] => []
  | p :: l' => if String.eqb (pwc_ifname p) (pwc_ifname x) then x :: l' else p :: pw_put x l'
  end.

(** Interfaces: those that are gone, then the new ones. *)
Definition merge_l2vpn_ifs (ifs xifs : list l2vpn_if) : list l2vpn_if :=
  fold_left (fun acc xf => match l2vpn_if_find_name acc (lf_ifname xf) with
                           | None => xf :: acc | Some _ => acc end) xifs
    (List.filter (fun f => bool_decide (is_Some (l2vpn_if_find_name xifs (lf_ifname f)))) ifs).

Definition copy_flag (flag from to : Z) : Z :=
  if has_flag from flag then Z.lor to flag else Z.land to (Z.lnot flag).

(** An active pseudowire takes over the new parameters and three of the flags. *)
Definition pw_copy (xp pw : pw_conf) : pw_conf :=
  PwConf (pwc_lsr_id xp) (pwc_af xp) (pwc_addr xp) (pwc_pwid xp) (pwc_ifname xp) (pwc_ifindex xp)
    (copy_flag F_PW_STATIC_NBR_ADDR (pwc_flags xp)
      (copy_flag F_PW_STATUSTLV_CONF (pwc_flags xp)
        (copy_flag F_PW_CWORD_CONF (pwc_flags xp) (pwc_flags pw)))).

Definition pw_disabled (p : pw_conf) : bool := (pwc_lsr_id p =? INADDR_ANY) || (pwc_pwid p =? 0).

(** The active, the inactive and the just disabled pseudowires ([pw_aux_list]). *)
Record pw_lists := PwLists { pl_act : list pw_conf; pl_inact : list pw_conf; pl_aux : list pw_conf }.

Definition merge_pw (xp : pw_conf) (l : pw_lists) : ST disc pw_lists :=
  match l2vpn_pw_find_name (pl_act l) (pl_inact l) (pwc_ifname xp) with
  | None => ldpe_l2vpn_pw_init xp ;;; ret (PwLists (xp :: pl_act l) (pl_inact l) (pl_aux l))
  | Some pw =>
      do moved <- (if negb (pwc_af pw =? pwc_af xp) then ret true
                   else do r <- lift (ldp_addrcmp (pwc_af pw) (pwc_addr pw) (pwc_addr xp));
                        ret (negb (r =? 0)));
      let mask := Z.lor F_PW_STATUSTLV_CONF F_PW_CWORD_CONF in
      let reset := negb (Z.land (pwc_flags pw) mask =? Z.land (pwc_flags xp) mask) in
      let in_act := bool_decide (is_Some (pw_in (pwc_ifname xp) (pl_act l))) in
      if pw_disabled xp then
        ldpe_l2vpn_pw_exit pw ;;;
        ret (if in_act
             then PwLists (pw_take (pwc_ifname xp) (pl_act l)) (pl_inact l) (pw_copy xp pw :: pl_aux l)
             else PwLists (pl_act l) (pw_take (pwc_ifname xp) (pl_inact l)) (pw_copy xp pw :: pl_aux l))
      else
        (if (moved : bool) then ldpe_l2vpn_pw_exit pw else ret tt) ;;;
        (if reset then
           do s <- get;
           match nbr_find_ldpid s (pwc_lsr_id pw) with
           | Some n => if n_state (dn_nbr n) =? NBR_STA_OPER
                       then on_nbr (dn_ptr n) (session_shutdown S_SHUTDOWN 0 0) else ret tt
           | None => ret tt
           end
         else ret tt) ;;;
        (if moved then ldpe_l2vpn_pw_init (pw_copy xp pw) else ret tt) ;;;
        ret (if in_act then PwLists (pw_put (pw_copy xp pw) (pl_act l)) (pl_inact l) (pl_aux l)
             else PwLists (pl_act l) (pw_put (pw_copy xp pw) (pl_inact l)) (pl_aux l))
  end.

(** An inactive one takes over everything and may become active; it is searched
    for among the active ones too. *)
Definition merge_inactive_pw (xp : pw_conf) (l : pw_lists) : ST disc pw_lists :=
  match l2vpn_pw_find_name (pl_act l) (pl_inact l) (pwc_ifname xp) with
  | None => ret (PwLists (pl_act l) (xp :: pl_inact l) (pl_aux l))
  | Some pw =>
      let in_act := bool_decide (is_Some (pw_in (pwc_ifname xp) (pl_act l))) in
      if pw_disabled xp then
        ret (if in_act then PwLists (pw_put xp (pl_act l)) (pl_inact l) (pl_aux l)
             else PwLists (pl_act l) (pw_put xp (pl_inact l)) (pl_aux l))
      else
        ldpe_l2vpn_pw_init xp ;;;
        ret (if in_act
             then PwLists (xp :: pw_take (pwc_ifname xp) (pl_act l)) (pl_inact l) (pl_aux l)
             else PwLists (xp :: pl_act l) (pw_take (pwc_ifname xp) (pl_inact l)) (pl_aux l))
  end.

(** The active pseudowires that are gone. *)
Definition merge_pw_del (xl : l2vpn) (pw : pw_conf) (act : list pw_conf) : ST disc (list pw_conf) :=
  match l2vpn_pw_find_name (lv_pw_list xl) (lv_pw_inactive_list xl) (pwc_ifname pw) with
  | None => ldpe_l2vpn_pw_exit pw ;;; ret (pw_take (pwc_ifname pw) act)
  | Some _ => ret act
  end.

(** By the time the inactive pseudowires are merged [xl->pw_list] is empty. *)
Definition merge_l2vpn (v xl : l2vpn) : ST disc l2vpn :=
  do act <- floop (merge_pw_del xl) (lv_pw_list v) (lv_pw_list v);
  do l <- floop merge_pw (lv_pw_list xl) (PwLists act (lv_pw_inactive_list v) []);
  let inact := List.filter (fun p => bool_decide (is_Some (pw_in (pwc_ifname p) (lv_pw_inactive_list xl))))
                 (pl_inact l) in
  do l <- floop merge_inactive_pw (lv_pw_inactive_list xl) (PwLists (pl_act l) inact (pl_aux l));
  ret (L2vpn (lv_name v) (lv_type v) (lv_pw_type xl) (lv_mtu xl) (lv_br_ifname xl) (lv_br_ifindex xl)
         (merge_l2vpn_ifs (lv_if_list v) (lv_if_list xl)) (pl_act l) (rev (pl_aux l) ++ pl_inact l)).

Fixpoint l2vpn_take (name : string) (l : list l2vpn) : list l2vpn :=
  match l with
  | [] => []
  | v :: l' => if String.eqb (lv_name v) name then l' else v :: l2vpn_take name l'
  end.
Fixpoint l2vpn_put (v : l2vpn) (l : list l2vpn) : list l2vpn :=
  match l with
  | [] => []
  | w :: l' => if String.eqb (lv_name w) (lv_name v) then v :: l' else w :: l2vpn_put v l'
  end.

Definition merge_l2vpn_gone (xls : list l2vpn) (v : l2vpn) (l : list l2vpn) : ST disc (list l2vpn) :=
  match l2vpn_find xls (lv_name v) with
  | None => ldpe_l2vpn_exit v ;;; ret (l2vpn_take (lv_name v) l)
  | Some _ => ret l
  end.
Definition merge_l2vpn_one (xl : l2vpn) (l : list l2vpn) : ST disc (list l2vpn) :=
  match l2vpn_find l (lv_name xl) with
  | None => ldpe_l2vpn_init xl ;;; ret (xl :: l)
  | Some v => do v' <- merge_l2vpn v xl; ret (l2vpn_put v' l)
  end.
Definition merge_l2vpns (l xls : list l2vpn) : ST disc (list l2vpn) :=
  do l1 <- floop (merge_l2vpn_gone xls) l l; floop merge_l2vpn_one xls l1.

(** [merge_config]; the L2VPNs are passed along. *)
Definition merge_config (env : sys_env) (vpns : list l2vpn) (x : ldpd_conf) : ST disc (list l2vpn) :=
  merge_global env x ;;;
  merge_af env AF_INET (xc_ipv4 x) ;;;
  merge_af env AF_INET6 (xc_ipv6 x) ;;;
  merge_ifaces env x ;;;
  merge_tnbrs x ;;;
  merge_nbrps env x ;;;
  merge_l2vpns vpns (xc_l2vpn_list x).

(** ** Configurations of the parent (ldpd.c)

    [ldp_reload] normalizes what the user entered before it is sent around. *)
Definition DEFAULT_HELLO_INTERVAL : Z := 5.
Definition zero_af_conf : af_conf := AfConf 0 0 0 0 zero_addr 0.

Definition set_xc_af (af : Z) (v : xaf) (c : ldpd_conf) : ldpd_conf :=
  LdpdConf (xc_rtr_id c) (if af =? AF_INET then v else xc_ipv4 c) (if af =? AF_INET then xc_ipv6 c else v)
    (xc_iface_list c) (xc_tnbr_list c) (xc_nbrp_list c) (xc_l2vpn_list c) (xc_lhello_holdtime c)
    (xc_lhello_interval c) (xc_thello_holdtime c) (xc_thello_interval c) (xc_trans_pref c) (xc_flags c).
Definition set_xc_lists (ifs : list iface) (ts : list tnbr) (ns : list nbr_params) (vs : list l2vpn)
    (c : ldpd_conf) : ldpd_conf :=
  LdpdConf (xc_rtr_id c) (xc_ipv4 c) (xc_ipv6 c) ifs ts ns vs (xc_lhello_holdtime c)
    (xc_lhello_interval c) (xc_thello_holdtime c) (xc_thello_interval c) (xc_trans_pref c) (xc_flags c).

Definition ldp_config_reset_af (af : Z) (c : ldpd_conf) : ldpd_conf :=
  set_xc_af af (XAf 180 zero_af_conf)
    (set_xc_lists (map (fun i => set_if_af i af (set_ia_enabled (ia_of i af) false)) (xc_iface_list c))
       (List.filter (fun t => negb (t_af t =? af)) (xc_tnbr_list c)) (xc_nbrp_list c) (xc_l2vpn_list c) c).

Definition ldp_config_reset_main (c : ldpd_conf) : ldpd_conf :=
  let c := ldp_config_reset_af AF_INET6 (ldp_config_reset_af AF_INET
             (set_xc_lists [] (xc_tnbr_list c) [] (xc_l2vpn_list c) c)) in
  LdpdConf INADDR_ANY (xc_ipv4 c) (xc_ipv6 c) (xc_iface_list c) (xc_tnbr_list c) (xc_nbrp_list c)
    (xc_l2vpn_list c) LINK_DFLT_HOLDTIME DEFAULT_HELLO_INTERVAL TARGETED_DFLT_HOLDTIME
    DEFAULT_HELLO_INTERVAL DUAL_STACK_LDPOV6 0.

(** [pw->addr.v4 = pw->lsr_id] leaves the rest of the union alone. *)
Definition pw_normalize (p : pw_conf) : pw_conf :=
  if has_flag (pwc_flags p) F_PW_STATIC_NBR_ADDR then p
  else PwConf (pwc_lsr_id p) AF_INET (le_bytes 4 (pwc_lsr_id p) ++ drop 4 (pwc_addr p)) (pwc_pwid p)
         (pwc_ifname p) (pwc_ifindex p) (pwc_flags p).
Definition l2vpn_normalize (v : l2vpn) : l2vpn :=
  L2vpn (lv_name v) (lv_type v) (lv_pw_type v) (lv_mtu v) (lv_br_ifname v) (lv_br_ifindex v)
    (lv_if_list v) (map pw_normalize (lv_pw_list v)) (map pw_normalize (lv_pw_inactive_list v)).

Definition ldp_config_normalize (c : ldpd_conf) : ldpd_conf :=
  let c :=
    if negb (has_flag (xc_flags c) F_LDPD_ENABLED) then ldp_config_reset_main c
    else
      let c := if negb (has_flag (af_flags (xa_conf (xc_ipv4 c))) F_LDPD_AF_ENABLED)
               then ldp_config_reset_af AF_INET c else c in
      if negb (has_flag (af_flags (xa_conf (xc_ipv6 c))) F_LDPD_AF_ENABLED)
      then ldp_config_reset_af AF_INET6 c else c in
  set_xc_lists (xc_iface_list c) (xc_tnbr_list c) (xc_nbrp_list c) (map l2vpn_normalize (xc_l2vpn_list c)) c.

(** [config_new_empty] with the copies [config_clear] makes. *)
Definition config_cleared (c : le_conf) : ldpd_conf :=
  LdpdConf (c_rtr_id (lc_sess c)) (XAf (c_keepalive4 (lc_sess c)) (lc_ipv4 c))
    (XAf (c_keepalive6 (lc_sess c)) (lc_ipv6 c)) [] [] [] [] 0 0 0 0 (lc_trans_pref c) (lc_flags c).

Definition config_clear (env : sys_env) (vpns : list l2vpn) : ST disc (list l2vpn) :=
  do c <- conf; merge_config env vpns (config_cleared c).
