(* ===== verification/HeapLoops.v ===== *)
(** * Loops over the heap: a contract and what keeps it

    [returns k m Q s] is the contract operations of the engine on the whole heap
    are proved against: [m] returns from [s], keeps the invariant of [DiscInv],
    numbers at most [k] messages and ends in [Q].  The relations [still],
    [smaller] and [fewer] say what is left of the heap.  The loops of ldpe.c over
    neighbours, interfaces and targeted neighbours keep the contract. *)
From stdpp Require Import prelude strings list.
From Stdlib Require Import ZArith Lia.
From S2P Require Import Prelude Util Wire Ipc Session Fec Hello Discovery DiscInv DiscSafe.
From S2P Require Import DiscRun DiscFrame DiscSystem Config.

(** ** The contract *)
Definition returns {A} (k : Z) (m : ST disc A) (Q : A -> disc -> Prop) (s : disc) : Prop :=
  exists a s', m s = Ok (a, s') /\ disc_inv s' /\ d_msgcnt s <= d_msgcnt s' <= d_msgcnt s + k /\ Q a s'.

(** The message counter has room for [k] more. *)
Definition room (k : Z) (s : disc) : Prop := d_msgcnt s + k < 2 ^ 31 - 40.

Section Contract.
Lemma returns_ret {A} (a : A) k (Q : A -> disc -> Prop) s : disc_inv s -> 0 <= k -> Q a s -> returns k (ret a) Q s.
Proof. intros I Hk HQ. exists a, s. split_and!; try done; lia. Qed.

Lemma returns_mono {A} k k' (m : ST disc A) (Q Q' : A -> disc -> Prop) s : returns k m Q s -> k <= k' ->
  (forall a s', disc_inv s' -> Q a s' -> Q' a s') -> returns k' m Q' s.
Proof.
  intros (a & s' & E & I & C & H) Hk HQ. exists a, s'. split_and!; try done; [lia..|by apply HQ].
Qed.

Lemma returns_bind {A B} k1 k2 (m : ST disc A) (f : A -> ST disc B) P Q s : returns k1 m P s ->
  (forall a s1, disc_inv s1 -> P a s1 -> d_msgcnt s <= d_msgcnt s1 <= d_msgcnt s + k1 -> returns k2 (f a) Q s1) ->
  returns (k1 + k2) (bind m f) Q s.
Proof.
  intros (a & s1 & E1 & I1 & C1 & H1) H2.
  destruct (H2 a s1 I1 H1 C1) as (b & s2 & E2 & I2 & C2 & HQ).
  exists b, s2. rewrite (bind_ok _ _ _ _ _ E1). split_and!; try done; lia.
Qed.

Lemma returns_last {A B} k (m : ST disc A) (f : A -> ST disc B) P Q s : returns k m P s ->
  (forall a s1, disc_inv s1 -> P a s1 -> d_msgcnt s <= d_msgcnt s1 <= d_msgcnt s + k -> returns 0 (f a) Q s1) ->
  returns k (bind m f) Q s.
Proof. intros H1 H2. rewrite <- (Z.add_0_r k). by eapply returns_bind. Qed.

(** Steps that cost nothing. *)
Lemma returns_step {A B} k (m : ST disc A) (f : A -> ST disc B) Q s a s1 : m s = Ok (a, s1) ->
  d_msgcnt s1 = d_msgcnt s -> returns k (f a) Q s1 -> returns k (bind m f) Q s.
Proof.
  intros E Ec (b & s2 & E2 & I2 & C2 & HQ). exists b, s2. rewrite (bind_ok _ _ _ _ _ E).
  split_and!; try done; lia.
Qed.
Lemma returns_get {B} k (f : disc -> ST disc B) Q s : returns k (f s) Q s -> returns k (bind get f) Q s.
Proof. by apply returns_step. Qed.
Lemma returns_conf {B} k (f : le_conf -> ST disc B) Q s :
  returns k (f (d_conf s)) Q s -> returns k (bind conf f) Q s.
Proof. by apply returns_step. Qed.
Lemma returns_lift {A B} k (c : res A) (f : A -> ST disc B) Q s a : c = Ok a ->
  returns k (f a) Q s -> returns k (bind (lift c) f) Q s.
Proof. intros ->. by apply returns_step. Qed.

Lemma room_le k k' s : room k s -> k' <= k -> room k' s.
Proof. unfold room. lia. Qed.

Lemma foreach_returns {A} (f : A -> ST disc unit) k (Inv : list A -> disc -> Prop) l : 0 <= k ->
  (forall x l' s1, disc_inv s1 -> Inv (x :: l') s1 -> room k s1 -> returns k (f x) (fun _ s2 => Inv l' s2) s1) ->
  forall s, disc_inv s -> Inv l s -> room (Z.of_nat (length l) * k) s ->
  returns (Z.of_nat (length l) * k) (foreach f l) (fun _ s' => Inv [] s') s.
Proof.
  intros Hk Hstep. induction l as [|x l IH]; intros s I Hi Hr; [apply returns_ret; (done || lia)|].
  cbn [length foreach] in *. replace (Z.of_nat (S (length l)) * k) with (k + Z.of_nat (length l) * k) in * by lia.
  assert (0 <= Z.of_nat (length l) * k) by (apply Z.mul_nonneg_nonneg; lia). unfold room in *.
  eapply returns_bind; [apply Hstep; try done; unfold room; lia|].
  intros [] s1 I1 H1 C1. apply IH; try done. lia.
Qed.

(** Steps that all keep a relation. *)
Lemma foreach_rel {A} (f : A -> ST disc unit) k (R : disc -> disc -> Prop) l s : PreOrder R -> 0 <= k ->
  (forall x s1, x ∈ l -> disc_inv s1 -> R s s1 -> room k s1 -> returns k (f x) (fun _ s2 => R s1 s2) s1) ->
  disc_inv s -> room (Z.of_nat (length l) * k) s ->
  returns (Z.of_nat (length l) * k) (foreach f l) (fun _ s' => R s s') s.
Proof.
  intros HR Hk Hstep I Hr.
  eapply returns_mono; [apply (foreach_returns f k (fun l' s1 => R s s1 /\ l' `suffix_of` l) l Hk)| |]; try done.
  - intros x l' s1 I1 [H1 [l0 Hs]] Hr1. eapply returns_mono; [apply Hstep; try done| |].
    + rewrite Hs. apply elem_of_app. right. left.
    + done.
    + intros [] s2 _ H2. split; [by etrans|]. exists (l0 ++ [x]). by rewrite <- app_assoc.
  - by intros [] s' _ [? _].
Qed.
End Contract.

(** ** What stays *)
(** No record is added or removed. *)
Record still (s s' : disc) : Prop := Still {
  st_adjs : d_adjs s' = d_adjs s;
  st_ifaces : d_ifaces s' = d_ifaces s;
  st_tps : ptrs (d_tnbrs s') = ptrs (d_tnbrs s);
  st_nps : ptrs (d_nbrs s') = ptrs (d_nbrs s)
}.
#[export] Instance still_preorder : PreOrder still.
Proof. split; [by intros s|]. intros a b c [] []. split; congruence. Qed.

(** Adjacencies and neighbours only go. *)
Definition fewer (s s' : disc) : Prop := adjs_le s s' /\ ptrs (d_nbrs s') ⊆ ptrs (d_nbrs s).
#[export] Instance fewer_preorder : PreOrder fewer.
Proof.
  split; [by intros s; split; [intros ? ?|]|]. intros a b c [A1 A2] [B1 B2].
  split; [by eapply adjs_le_trans|by etrans].
Qed.

(** ... and targeted neighbours, and interfaces stay, quiet if they were. *)
Record smaller (s s' : disc) : Prop := Smaller {
  sm_fewer : fewer s s';
  sm_tps : ptrs (d_tnbrs s') ⊆ ptrs (d_tnbrs s);
  sm_ifps : ptrs (d_ifaces s') = ptrs (d_ifaces s);
  sm_calm : forall q i, find_ptr q (d_ifaces s) = Some i ->
    exists i', find_ptr q (d_ifaces s') = Some i' /\ calm i i'
}.
#[export] Instance smaller_preorder : PreOrder smaller.
Proof.
  split; [intros s; split; [done..|eauto using calm_refl]|]. intros s1 s2 s3 [F1 T1 I1 C1] [F2 T2 I2 C2].
  split; [by etrans|by etrans|congruence|]. intros q i Hi. destruct (C1 q i Hi) as (i2 & H2 & M2 & Q2).
  destruct (C2 q i2 H2) as (i3 & H3 & M3 & Q3). exists i3. split; [done|]. split; [congruence|auto].
Qed.

(** ... and targeted neighbours stay. *)
Definition smaller_t (s s' : disc) : Prop := smaller s s' /\ ptrs (d_tnbrs s') = ptrs (d_tnbrs s).
#[export] Instance smaller_t_preorder : PreOrder smaller_t.
Proof. split; [by intros s|]. intros a b c [A1 A2] [B1 B2]. split; [by etrans|congruence]. Qed.

(** Sizes that bound the cost of the loops. *)
Definition sized (B : Z) (s : disc) : Prop :=
  Z.of_nat (length (d_adjs s)) <= B /\ Z.of_nat (length (d_nbrs s)) <= B.

Section Stay.
Lemma nbrs_kept_subset s s' : disc_inv s' -> nbrs_kept s s' -> ptrs (d_nbrs s') ⊆ ptrs (d_nbrs s).
Proof.
  intros I H p Hp. apply find_ptr_is_some in Hp as [nb Hp]. destruct (H _ _ Hp) as (nb0 & H0 & _).
  apply find_ptr_is_some. by eexists.
Qed.

Lemma still_smaller s s' : still s s' -> smaller_t s s'.
Proof.
  intros [A I T N]. split; [|done]. split; [split; [intros ? ?; by rewrite A|by rewrite N]|by rewrite T|by rewrite I|].
  rewrite I. eauto using calm_refl.
Qed.

Lemma kept_smaller s s' : disc_inv s' -> adjs_le s s' -> heap_kept s s' -> smaller_t s s'.
Proof.
  intros I L [N T F C]. split; [|done].
  split; [split; [done|by apply nbrs_kept_subset]|by rewrite T|done|done].
Qed.

Lemma fewer_sized B s s' : disc_inv s' -> fewer s s' -> sized B s -> sized B s'.
Proof.
  intros I [L N] [H1 H2]. split; [pose proof (adjs_le_length _ _ I L); lia|].
  assert (ptrs (d_nbrs s') ⊆+ ptrs (d_nbrs s)) as H.
  { apply NoDup_submseteq; [apply (di_nbrs _ I)|]. intros p Hp. by apply N. }
  apply submseteq_length in H. unfold ptrs in H. rewrite !length_fmap in H. lia.
Qed.

Lemma smaller_tnbrs s s' : disc_inv s' -> smaller s s' -> (length (d_tnbrs s') <= length (d_tnbrs s))%nat.
Proof.
  intros I S. assert (ptrs (d_tnbrs s') ⊆+ ptrs (d_tnbrs s)) as H.
  { apply NoDup_submseteq; [apply (di_tnbrs _ I)|]. intros p Hp. by apply (sm_tps _ _ S). }
  apply submseteq_length in H. unfold ptrs in H. by rewrite !length_fmap in H.
Qed.
Lemma smaller_ifaces s s' : smaller s s' -> length (d_ifaces s') = length (d_ifaces s).
Proof.
  intros S. pose proof (f_equal length (sm_ifps _ _ S)) as H. unfold ptrs in H. by rewrite !length_fmap in H.
Qed.

Lemma set_conf_inv f s : disc_inv s -> disc_inv (set_conf f s).
Proof. by intros []. Qed.
Lemma set_conf_still f s : still s (set_conf f s).
Proof. done. Qed.
End Stay.

(** ** Elementary operations *)
Section Basic.
Lemma set_conf_returns f s (Q : unit -> disc -> Prop) : disc_inv s -> Q tt (set_conf f s) ->
  returns 0 (modify (set_conf f)) Q s.
Proof. intros I HQ. exists tt, (set_conf f s). split_and!; try done; [by apply set_conf_inv|cbn; lia..]. Qed.

Lemma put_nbr_still p e s : still s (put_nbr p e s).
Proof. split; try done. cbn. by apply ptrs_upd. Qed.

Lemma shutdown_returns s p st i t : disc_inv s -> p ∈ ptrs (d_nbrs s) -> room 3 s ->
  returns 3 (on_nbr p (session_shutdown st i t)) (fun _ s' => still s s') s.
Proof.
  intros I Hp Hr. apply find_ptr_is_some in Hp as [nb Hp]. unfold room in Hr. pose proof (di_cnt _ I).
  destruct (on_nbr_safe s p nb (session_shutdown st i t) 3 (fun _ => True) I Hp)
    as (e & Ee & Ie & Ce & _); [apply keeps_session_shutdown| |].
  { eapply wp_mono; [apply (wp_shutdown true); [exact (proj1 (di_nbr _ I _ _ Hp))|cbn; lia]|].
    intros e (? & ? & ?). done. }
  exists tt, (put_nbr p e s). split_and!; try done; [cbn; lia..|apply put_nbr_still].
Qed.

Lemma establish_returns env s p B : disc_inv s -> p ∈ ptrs (d_nbrs s) -> sized B s -> room (B + 1) s ->
  returns (B + 1) (nbr_establish_connection env p) (fun _ s' => still s s') s.
Proof.
  intros I Hp [HB _] Hr. apply find_ptr_is_some in Hp as [nb Hp]. unfold room in Hr.
  pose proof (adj_list_length s p nb I Hp).
  destruct (establish_ok env s p nb I Hp) as (s' & E & I' & C & A & T & F & N); [lia|].
  exists tt, s'. split_and!; try done; try lia. split; congruence.
Qed.

Lemma if_update_returns j ifp af B s : disc_inv s -> ifp ∈ ptrs (d_ifaces s) -> sized B s ->
  room (10 * B + 2) s ->
  returns (10 * B + 2) (if_update j ifp af) (fun _ s' => smaller_t s s') s.
Proof.
  intros I Hp [HB _] Hr. apply find_ptr_is_some in Hp as [i Hi]. unfold room in Hr.
  destruct (if_update_ok s ifp i af j I) as (s' & i' & E & I' & _ & L & K & C); [lia|done|].
  exists tt, s'. split_and!; try done; [lia..|by apply kept_smaller].
Qed.

Lemma tnbr_update_returns t s : disc_inv s -> t ∈ ptrs (d_tnbrs s) -> room 1 s ->
  returns 1 (tnbr_update t) (fun _ s' => still s s') s.
Proof.
  intros I Hp Hr. apply find_ptr_is_some in Hp as [tn Ht]. unfold room in Hr.
  destruct (tnbr_update_ok s t tn I Ht) as (s' & E & I' & C & T & N & A & F); [lia|].
  exists tt, s'. split_and!; try done; try lia. split; congruence.
Qed.
End Basic.

(** ** Loops *)
Section Loops.
Lemma nbr_in s n : n ∈ d_nbrs s -> dn_ptr n ∈ ptrs (d_nbrs s).
Proof. apply (list_elem_of_fmap_2 ptr_of). Qed.
Lemma tnbr_in s t : t ∈ d_tnbrs s -> t_ptr t ∈ ptrs (d_tnbrs s).
Proof. apply (list_elem_of_fmap_2 ptr_of). Qed.
Lemma iface_in s i : i ∈ d_ifaces s -> if_ptr i ∈ ptrs (d_ifaces s).
Proof. apply (list_elem_of_fmap_2 ptr_of). Qed.

(** Closing the sessions of some neighbours. *)
Lemma reset_loop_returns (g : dnbr -> bool) B s : disc_inv s -> sized B s -> room (3 * B) s ->
  returns (3 * B) (foreach (fun n => if g n then on_nbr (dn_ptr n) (session_shutdown S_SHUTDOWN 0 0)
                                     else ret tt) (d_nbrs s)) (fun _ s' => still s s') s.
Proof.
  intros I [_ HB] Hr. unfold room in Hr.
  eapply returns_mono; [apply (foreach_rel _ 3 still)| |]; try done; try typeclasses eauto;
    [|unfold room; lia|lia].
  intros n s1 Hn I1 S1 Hr1. destruct (g n); [|by apply returns_ret].
  apply shutdown_returns; try done. rewrite (st_nps _ _ S1). by apply nbr_in.
Qed.

Lemma reset_nbrs_returns af B s : disc_inv s -> sized B s -> room (3 * B) s ->
  returns (3 * B) (ldpe_reset_nbrs af) (fun _ s' => still s s') s.
Proof. intros. by apply returns_get, (reset_loop_returns (fun n => n_af (dn_nbr n) =? af)). Qed.
Lemma reset_ds_nbrs_returns B s : disc_inv s -> sized B s -> room (3 * B) s ->
  returns (3 * B) ldpe_reset_ds_nbrs (fun _ s' => still s s') s.
Proof. intros. by apply returns_get, (reset_loop_returns dn_ds_tlv). Qed.

Lemma stop_idtimer_returns s p : disc_inv s -> p ∈ ptrs (d_nbrs s) ->
  returns 0 (on_nbr p nbr_stop_idtimer) (fun _ s' => still s s') s.
Proof.
  intros I Hp. apply find_ptr_is_some in Hp as [nb Hp].
  destruct (on_nbr_safe s p nb nbr_stop_idtimer 0 (fun _ => True) I Hp keeps_stop_idtimer)
    as (e & Ee & Ie & Ce & _).
  { unfold nbr_stop_idtimer. repeat wp_step. cbn. split_and!; [|lia|lia|done].
    destruct (di_nbr _ I _ _ Hp) as ([] & _). by split. }
  exists tt, (put_nbr p e s). split_and!; try done; [cbn; lia..|apply put_nbr_still].
Qed.

Lemma stop_backoff_returns env af B s : disc_inv s -> sized B s -> room (B * (B + 1)) s ->
  returns (B * (B + 1)) (ldpe_stop_init_backoff env af) (fun _ s' => still s s') s.
Proof.
  intros I HB Hr. apply returns_get. destruct HB as [HA HN].
  assert (Z.of_nat (length (d_nbrs s)) * (B + 1) <= B * (B + 1)) as Hle by (apply Z.mul_le_mono_nonneg_r; lia).
  eapply returns_mono; [apply (foreach_rel _ (B + 1) still)| |]; try done; try typeclasses eauto;
    [lia| |unfold room in *; lia].
  intros n s1 Hn I1 S1 Hr1. destruct (_ && _); [|apply returns_ret; (done || lia)].
  assert (dn_ptr n ∈ ptrs (d_nbrs s1)) as Hp by (rewrite (st_nps _ _ S1); by apply nbr_in).
  apply (returns_bind 0 (B + 1) _ _ (fun _ s2 => still s1 s2)); [by apply stop_idtimer_returns|].
  intros [] s2 I2 S2 C2. unfold room in Hr1.
  eapply returns_mono; [apply (establish_returns _ s2 _ B); try done| |].
  - by rewrite (st_nps _ _ S2).
  - eapply fewer_sized; [done|exact (sm_fewer _ _ (proj1 (still_smaller _ _ S2)))|].
    eapply fewer_sized; [done|exact (sm_fewer _ _ (proj1 (still_smaller _ _ S1)))|done].
  - unfold room. lia.
  - lia.
  - intros [] s3 _ S3. by etrans.
Qed.

Lemma if_update_all_returns j af B F s : disc_inv s -> sized B s -> Z.of_nat (length (d_ifaces s)) <= F ->
  room (F * (10 * B + 2)) s ->
  returns (F * (10 * B + 2)) (if_update_all j af) (fun _ s' => smaller_t s s') s.
Proof.
  intros I HB HF Hr. apply returns_get. pose proof HB as [HA _].
  assert (Z.of_nat (length (d_ifaces s)) * (10 * B + 2) <= F * (10 * B + 2)) as Hle
    by (apply Z.mul_le_mono_nonneg_r; lia).
  eapply returns_mono; [apply (foreach_rel _ (10 * B + 2) smaller_t)| |]; try done; try typeclasses eauto;
    [lia| |unfold room in *; lia].
  intros i s1 Hi I1 [S1 _] Hr1. apply if_update_returns; try done.
  - rewrite (sm_ifps _ _ S1). by apply iface_in.
  - by eapply fewer_sized, HB; [|apply sm_fewer].
Qed.

Lemma tnbr_update_all_returns af T s : disc_inv s -> Z.of_nat (length (d_tnbrs s)) <= T -> room T s ->
  returns T (tnbr_update_all af) (fun _ s' => still s s') s.
Proof.
  intros I HT Hr. apply returns_get. unfold room in Hr.
  eapply returns_mono; [apply (foreach_rel _ 1 still)| |]; try done; try typeclasses eauto;
    [|unfold room; lia|lia].
  intros t s1 Ht I1 S1 Hr1. destruct (_ || _); [|apply returns_ret; (done || lia)].
  apply tnbr_update_returns; try done. rewrite (st_tps _ _ S1). by apply tnbr_in.
Qed.
End Loops.

(** ** Targeted neighbours that go *)
Section Gone.
Lemma tnbr_del_nbrs s t tn s' : disc_inv s -> find_ptr t (d_tnbrs s) = Some tn -> d_msgcnt s < 2 ^ 31 - 5 ->
  tnbr_del t s = Ok (tt, s') -> nbrs_kept s s'.
Proof.
  intros I Ht Hc H. destruct (t_adj tn) as [p|] eqn:Ep; [by destruct (tnbr_del_kept s t tn p s') as [? _]|].
  unfold tnbr_del, tnbr_stop_hello_timer in H. rewrite (bind_ok _ _ _ _ _ (mod_tnbr_ok _ _ _ _ Ht)) in H.
  match type of H with context [bind (get_tnbr t) _ ?x] => set (s1 := x) in H end.
  assert (find_ptr t (d_tnbrs s1) = Some (set_t_hello_timer tn None)) as H1
    by (unfold s1; cbn; by rewrite find_ptr_upd, Z.eqb_refl, Ht by done).
  rewrite (bind_ok _ _ _ _ _ (get_tnbr_ok _ _ _ H1)) in H. cbn [set_t_hello_timer t_adj] in H.
  rewrite Ep, (bind_ok (ret tt) _ s1 tt s1), (bind_ok _ _ _ _ _ (get_tnbr_ok _ _ _ H1)) in H by done.
  unfold modify in H. simplify_eq. by apply same_nbrs_kept.
Qed.

(** What [tnbr_check] may do: the targeted neighbour goes, alone. *)
Definition loses_t (t : Z) (s s' : disc) : Prop :=
  smaller s s' /\ forall q, q <> t -> q ∈ ptrs (d_tnbrs s) -> q ∈ ptrs (d_tnbrs s').

Lemma loses_refl t s : loses_t t s s.
Proof. by split; [reflexivity|]. Qed.

Lemma gone_loses t tn s s' : disc_inv s -> find_ptr t (d_tnbrs s) = Some tn -> d_msgcnt s < 2 ^ 31 - 5 ->
  disc_inv s' -> tnbr_gone t s s' -> tnbr_del t s = Ok (tt, s') -> loses_t t s s'.
Proof.
  intros I Ht Hc I' (_ & _ & _ & _ & A & F & T & P) E. pose proof (tnbr_del_nbrs s t tn s' I Ht Hc E) as N.
  split; [split; [split; [done|by apply nbrs_kept_subset]| |done|]|].
  - rewrite T. intros q Hq. by apply elem_list_remove in Hq as [? _].
  - intros q i Hi. destruct (F q i Hi) as (i' & Hi' & _ & Hn & Hl). exists i'. split; [done|].
    split; [done|]. intros af Haf Hq Hst. destruct (Hl af Haf) as [Hsub Es]. rewrite Es in Hst.
    rewrite (Hq Hst) in Hsub. by apply sublist_nil_r in Hsub.
  - rewrite T. intros q Hne Hq. by apply elem_list_remove.
Qed.

Lemma tnbr_check_returns t s : disc_inv s -> t ∈ ptrs (d_tnbrs s) -> room 5 s ->
  returns 5 (tnbr_check t) (fun _ s' => loses_t t s s') s.
Proof.
  intros I Hp Hr. apply find_ptr_is_some in Hp as [tn Ht]. unfold room in Hr.
  unfold tnbr_check, returns. rewrite (bind_ok _ _ _ _ _ (get_tnbr_ok _ _ _ Ht)).
  destruct (_ && _).
  - destruct (tnbr_del_ok s t tn I Ht) as (s' & E & I' & G & C); [lia|].
    rewrite (bind_ok _ _ _ _ _ E). exists false, s'. do 3 (split; [done|]).
    eapply gone_loses; eauto. lia.
  - exists true, s. do 2 (split; [done|]). split; [lia|apply loses_refl].
Qed.

(** Changing flags or the count of pseudowires, then checking. *)
Lemma mod_check_returns t f s : disc_inv s -> t ∈ ptrs (d_tnbrs s) -> room 5 s -> keeps_ptr f ->
  (forall tn, t_af (f tn) = t_af tn /\ t_adj (f tn) = t_adj tn) ->
  returns 5 (mod_tnbr t f ;;; tnbr_check t ;;; ret tt) (fun _ s' => loses_t t s s') s.
Proof.
  intros I Hp Hr Hf Hk. pose proof Hp as Hp'. apply find_ptr_is_some in Hp as [tn Ht].
  eapply returns_step; [by apply (mod_tnbr_ok s t tn)|done|].
  set (s1 := set_tnbrs (upd_ptr t f) s).
  assert (disc_inv s1) as I1 by (apply (set_tnbr_inv s t tn); try done; apply Hk).
  assert (ptrs (d_tnbrs s1) = ptrs (d_tnbrs s)) as P1 by (unfold s1; cbn; by apply ptrs_upd).
  apply (returns_bind 5 0 _ _ (fun _ s' => loses_t t s1 s')).
  - apply tnbr_check_returns; try done. by rewrite P1.
  - intros b s2 I2 ([[A N] T1 F C] & T2) _. rewrite P1 in *. by apply returns_ret.
Qed.

(** Loops over targeted neighbours that may remove the one they look at. *)
Lemma tnbr_loop_returns (f : tnbr -> ST disc unit) T s :
  (forall t s1, disc_inv s1 -> t_ptr t ∈ ptrs (d_tnbrs s1) -> room 5 s1 ->
    returns 5 (f t) (fun _ s2 => loses_t (t_ptr t) s1 s2) s1) ->
  disc_inv s -> Z.of_nat (length (d_tnbrs s)) <= T -> room (5 * T) s ->
  returns (5 * T) (foreach f (d_tnbrs s)) (fun _ s' => smaller s s') s.
Proof.
  intros Hf I HT Hr. unfold room in Hr.
  set (Inv := fun (l : list tnbr) (s1 : disc) =>
    smaller s s1 /\ NoDup (ptrs l) /\ forall t, t ∈ l -> t_ptr t ∈ ptrs (d_tnbrs s1)).
  eapply returns_mono; [apply (foreach_returns f 5 Inv)| |]; try done; try (unfold room; lia); try lia.
  - intros t l s1 I1 (S1 & Hnd & Hl) Hr1. apply NoDup_cons in Hnd as [Hnin Hnd].
    eapply returns_mono; [apply Hf; try done; apply Hl; left|lia|].
    intros [] s2 I2 (S2 & Hk). split; [by etrans|]. split; [done|]. intros u Hu.
    apply Hk; [|apply Hl; by right]. intros E. apply Hnin. change (ptr_of t) with (t_ptr t). rewrite <- E.
    by apply (list_elem_of_fmap_2 ptr_of).
  - split; [done|]. split; [apply (di_tnbrs _ I)|]. intros t. apply tnbr_in.
  - by intros [] s' _ [? _].
Qed.

Lemma clear_flag_returns flag t s : disc_inv s -> t ∈ ptrs (d_tnbrs s) -> room 5 s ->
  returns 5 (mod_tnbr t (clear_t_flag flag) ;;; tnbr_check t ;;; ret tt) (fun _ s' => loses_t t s s') s.
Proof. intros. by apply mod_check_returns. Qed.

Lemma remove_dynamic_returns af T s : disc_inv s -> Z.of_nat (length (d_tnbrs s)) <= T -> room (5 * T) s ->
  returns (5 * T) (ldpe_remove_dynamic_tnbrs af) (fun _ s' => smaller s s') s.
Proof.
  intros I HT Hr. apply returns_get, tnbr_loop_returns; try done. intros t s1 I1 Hp Hr1.
  destruct (negb _); [apply returns_ret; (done || apply loses_refl)|by apply clear_flag_returns].
Qed.

Lemma merge_tnbrs_del_returns x T s : disc_inv s -> Z.of_nat (length (d_tnbrs s)) <= T -> room (5 * T) s ->
  returns (5 * T) (merge_tnbrs_del x) (fun _ s' => smaller s s') s.
Proof.
  intros I HT Hr. apply returns_get, tnbr_loop_returns; try done. intros t s1 I1 Hp Hr1.
  destruct (negb _); [apply returns_ret; (done || apply loses_refl)|].
  destruct (xtnbr_find _ _ _); [apply returns_ret; (done || apply loses_refl)|by apply clear_flag_returns].
Qed.
End Gone.

(** ** Adding interfaces and targeted neighbours *)
Section Added.
Lemma bump_inv s : disc_inv s -> disc_inv (bump s).
Proof. exact (alloc_inv s). Qed.

Lemma fresh_tnbr_none s : disc_inv s -> find_ptr (d_next s) (d_tnbrs s) = None.
Proof. intros I. apply find_ptr_none. intros Hin. apply (di_tnbrs _ I) in Hin. lia. Qed.

Lemma add_iface_inv s i : disc_inv s -> if_ptr i = d_next s -> ia_adj_list (if_ipv4 i) = [] ->
  ia_adj_list (if_ipv6 i) = [] -> if_addr_list i = [] -> disc_inv (set_ifaces (cons i) (bump s)).
Proof.
  intros I Hp H4 H6 Ha.
  assert (find_ptr (if_ptr i) (d_ifaces s) = None) as Hnone.
  { apply find_ptr_none. intros Hin. apply (di_ifaces _ I) in Hin. lia. }
  split; try apply (bump_inv s I).
  - cbn. rewrite <- Hp. apply store_ok_cons; [done|]. rewrite Hp. apply (di_ifaces _ I).
  - intros p a Hpa. destruct (di_adj _ I _ _ Hpa) as [A1 A2]. split; [done|].
    destruct (a_source a) as [q af src|]; [|done]. destruct A2 as (Haf & j & Hj & Hin). split; [done|].
    exists j. split; [|done]. cbn. rewrite find_ptr_cons. destruct (_ =? _) eqn:E; [|done]. zbool.
    change (ptr_of i) with (if_ptr i) in E. congruence.
  - intros q j. cbn. rewrite find_ptr_cons. destruct (_ =? _) eqn:E; zbool; [|by apply (di_iface _ I)].
    intros [= <-] af [-> | ->]; cbn; rewrite ?H4, ?H6;
      (split; [apply NoDup_nil_2|intros p Hin; by apply not_elem_of_nil in Hin]).
  - intros q j. cbn. rewrite find_ptr_cons. destruct (_ =? _) eqn:E; zbool; [|by apply (di_plen _ I)].
    intros [= <-]. by rewrite Ha.
Qed.

Lemma fewer_eq s s' : d_adjs s' = d_adjs s -> ptrs (d_nbrs s') = ptrs (d_nbrs s) -> fewer s s'.
Proof. intros A N. split; [intros ? ?; by rewrite A|by rewrite N]. Qed.
Lemma still_fewer s s' : still s s' -> fewer s s'.
Proof. intros []. by apply fewer_eq. Qed.

(** A new targeted neighbour, not pointed to yet. *)
Definition new_tnbr_ok (t : tnbr) : Prop := af_ok (t_af t) /\ t_adj t = None.

Lemma merge_tnbr_returns xt s : disc_inv s -> new_tnbr_ok xt -> room 1 s ->
  returns 1 (merge_tnbr xt) (fun _ s' => fewer s s') s.
Proof.
  intros I [Haf Hnone] Hr. apply returns_get. destruct (tnbr_find s _ _) as [t|] eqn:Et.
  - apply tnbr_find_ok in Et; [|done]. destruct (negb _); [|apply returns_ret; (done || lia)].
    exists tt. eexists. split; [by apply (mod_tnbr_ok s _ t)|]. split; [by apply (set_tnbr_inv s _ t)|].
    split; [cbn; lia|by apply fewer_eq].
  - eapply (returns_step _ alloc _ _ s (d_next s) (bump s)); [done|done|].
    eapply returns_step; [done|done|]. set (s1 := set_tnbrs _ _).
    assert (disc_inv s1) as I1.
    { apply add_tnbr_inv; [by apply bump_inv|exact (fresh_tnbr_none s I)|cbn; lia|done|done]. }
    eapply returns_mono; [apply tnbr_update_returns; [done| |done]|lia|].
    + unfold s1. cbn. left.
    + intros [] s2 _ S2. etrans; [|by apply still_fewer]. by apply fewer_eq.
Qed.

Definition pw_ok (p : pw_conf) : Prop := af_ok (pwc_af p).

Lemma pw_init_returns pw s : disc_inv s -> pw_ok pw -> room 1 s ->
  returns 1 (ldpe_l2vpn_pw_init pw) (fun _ s' => fewer s s') s.
Proof.
  intros I Haf Hr. apply returns_get.
  apply (returns_bind 1 0 _ _ (fun p s1 => fewer s s1 /\ is_Some (find_ptr p (d_tnbrs s1)))).
  - destruct (tnbr_find s _ _) as [t|] eqn:Et.
    { apply tnbr_find_ok in Et; [|done]. apply returns_ret; [done|lia|]. rewrite Et. by split. }
    unfold tnbr_new. eapply (returns_step _ _ _ _ s _ (bump s)); [done|done|].
    pose proof (bump_inv s I) as Ib. pose proof (di_cnt _ I). unfold room in Hr.
    destruct (tnbr_updated_ok (bump s) (Tnbr (d_next s) (pwc_af pw) (pwc_addr pw) TNBR_STA_DOWN 0 0 None None))
      as (t & s1 & E1 & S1 & Hp & Haf' & Hadj); [done|cbn; lia|].
    destruct (maybe_sent_eqs _ _ S1) as (_ & En & Ea & Et1 & _ & _ & Ex & C1).
    exists (t_ptr t), (set_tnbrs (cons t) s1).
    split; [by rewrite (bind_ok _ _ _ _ _ E1)|]. split; [|split; [cbn in *; lia|]].
    + apply add_tnbr_inv; [by eapply maybe_sent_inv| | |by rewrite Haf'|by rewrite Hadj].
      * rewrite Hp, Et1. exact (fresh_tnbr_none s I).
      * rewrite Hp, Ex. cbn. lia.
    + split; [apply fewer_eq; cbn; [by rewrite Ea|by rewrite En]|]. apply find_ptr_is_some. left.
  - intros p s1 I1 [F1 [t Ht]] C1. exists tt. eexists. split; [by apply (mod_tnbr_ok s1 p t)|].
    split; [by apply (set_tnbr_inv s1 p t)|]. split; [cbn; lia|]. etrans; [exact F1|by apply fewer_eq].
Qed.

Lemma pw_exit_returns pw s : disc_inv s -> room 5 s ->
  returns 5 (ldpe_l2vpn_pw_exit pw) (fun _ s' => fewer s s') s.
Proof.
  intros I Hr. apply returns_get. destruct (tnbr_find s _ _) as [t|] eqn:Et;
    [|apply returns_ret; (done || lia)].
  apply tnbr_find_ok in Et; [|done]. eapply returns_mono; [apply mod_check_returns; try done| |].
  - apply find_ptr_is_some. by rewrite Et.
  - done.
  - intros [] s' _ [S _]. by apply sm_fewer.
Qed.
End Added.
