(* ===== verification/ConfigSafe.v ===== *)
(** * Merging a configuration is safe

    Every part of [merge_config] keeps the contract of [HeapLoops]: from a
    consistent heap it returns with a consistent heap, whatever the new
    configuration and the results of system calls, provided interfaces that go
    are quiet ([gone_quiet]). *)
From stdpp Require Import prelude strings list.
From Stdlib Require Import ZArith Lia.
From S2P Require Import Prelude Util Wire Ipc Session Fec Hello Discovery DiscInv DiscSafe.
From S2P Require Import DiscRun DiscFrame DiscSystem Config HeapLoops.

(** ** Interfaces that go and change *)
Section IfMerge.
Lemma del_iface_inv s ifp i : disc_inv s -> find_ptr ifp (d_ifaces s) = Some i ->
  ia_adj_list (if_ipv4 i) = [] -> ia_adj_list (if_ipv6 i) = [] -> disc_inv (set_ifaces (del_ptr ifp) s).
Proof.
  intros I Hi H4 H6. split; try apply I; [by apply store_ok_del, I|..].
  - intros p a Hp. destruct (di_adj _ I _ _ Hp) as [A1 A2]. split; [done|].
    destruct (a_source a) as [q af src|]; [|done]. destruct A2 as (Haf & j & Hj & Hin). split; [done|].
    exists j. split; [|done]. cbn. rewrite find_ptr_del. destruct (q =? ifp) eqn:E; zbool; [|done]. subst.
    rewrite Hi in Hj. simplify_eq. exfalso.
    destruct Haf as [-> | ->]; cbn in Hin; rewrite ?H4, ?H6 in Hin; by apply not_elem_of_nil in Hin.
  - intros q j. cbn. rewrite find_ptr_del. destruct (q =? ifp); [done|]. by apply (di_iface _ I).
  - intros q j. cbn. rewrite find_ptr_del. destruct (q =? ifp); [done|]. by apply (di_plen _ I).
Qed.

(** Adjacency lists do not grow when no adjacency is added. *)
Lemma ia_list_nil s s' ifp i i' af : disc_inv s -> disc_inv s' -> adjs_le s s' -> af_ok af ->
  find_ptr ifp (d_ifaces s) = Some i -> find_ptr ifp (d_ifaces s') = Some i' ->
  ia_adj_list (ia_of i af) = [] -> ia_adj_list (ia_of i' af) = [].
Proof.
  intros I I' L Haf Hi Hi' Hnil. destruct (ia_adj_list (ia_of i' af)) as [|p l] eqn:El; [done|]. exfalso.
  destruct (di_iface _ I' _ _ Hi' af Haf) as [_ H]. rewrite El in H.
  destruct (H p) as (a & src & Ha & Hsrc); [left|]. apply L, (di_adj _ I) in Ha as [_ Hs].
  rewrite Hsrc in Hs. destruct Hs as (_ & j & Hj & Hin). rewrite Hi in Hj. simplify_eq.
  rewrite Hnil in Hin. by apply not_elem_of_nil in Hin.
Qed.

Lemma if_reset_if_active ifp i af s B : disc_inv s -> find_ptr ifp (d_ifaces s) = Some i -> af_ok af ->
  quiet_ia (ia_of i af) -> sized B s -> room (5 * B) s ->
  returns (5 * B) (if ia_state (ia_of i af) =? IF_STA_ACTIVE then if_reset ifp af else ret tt)
    (fun _ s' => smaller_t s s' /\ exists i', find_ptr ifp (d_ifaces s') = Some i' /\ ia_adj_list (ia_of i' af) = []) s.
Proof.
  intros I Hi Haf Hq [HB _] Hr. unfold room in Hr. destruct (_ =? _) eqn:E; zbool.
  - destruct (if_reset_ok s ifp i af I) as (s' & i' & E' & I' & Hi' & Hnil & L & K & C); try done.
    { unfold if_room. lia. }
    exists tt, s'. split_and!; try done; [lia..|by apply kept_smaller|by eauto].
  - apply returns_ret; [done|lia|]. split; [reflexivity|]. exists i. auto.
Qed.

(** An interface without adjacencies once it is reset can be freed. *)
Definition loses_if (ifp : Z) (s s' : disc) : Prop :=
  fewer s s' /\ forall q i, q <> ifp -> find_ptr q (d_ifaces s) = Some i ->
    exists i', find_ptr q (d_ifaces s') = Some i' /\ calm i i'.

Lemma if_gone_returns ifp i s B : disc_inv s -> find_ptr ifp (d_ifaces s) = Some i ->
  (forall af, af_ok af -> quiet_ia (ia_of i af)) -> sized B s -> room (10 * B) s ->
  returns (10 * B) (if_exit ifp ;;; if_free ifp) (fun _ s' => loses_if ifp s s') s.
Proof.
  intros I Hi Hq HB Hr.
  assert (0 <= B) as HB0 by (destruct HB; lia). unfold room in Hr. unfold if_exit.
  apply (returns_last _ _ _ (fun _ s3 => smaller_t s s3 /\ exists i3, find_ptr ifp (d_ifaces s3) = Some i3 /\
    ia_adj_list (if_ipv4 i3) = [] /\ ia_adj_list (if_ipv6 i3) = [])).
  - eapply returns_step; [by apply (get_iface_ok s ifp i)|done|].
    replace (10 * B) with (5 * B + 5 * B) by lia.
    eapply returns_bind; [apply (if_reset_if_active ifp i AF_INET s B); try done|].
    { by left. } { apply Hq. by left. } { unfold room. lia. }
    intros [] s1 I1 (S1 & i1 & Hi1 & N1) C1. eapply returns_step; [by apply (get_iface_ok s1 ifp i1)|done|].
    destruct S1 as [S1 T1]. destruct (sm_calm _ _ S1 _ _ Hi) as (i1' & Hi1' & _ & Q1).
    rewrite Hi1 in Hi1'. simplify_eq.
    eapply returns_last; [apply (if_reset_if_active ifp i1' AF_INET6 s1 B); try done|].
    { by right. } { apply Q1; [by right|]. apply Hq. by right. }
    { eapply fewer_sized; [done|exact (sm_fewer _ _ S1)|done]. } { unfold room. lia. }
    intros [] s2 I2 ([S2 T2] & i2 & Hi2 & N2) C2.
    pose proof (ia_list_nil s1 s2 ifp i1' i2 AF_INET I1 I2 (proj1 (sm_fewer _ _ S2)) ltac:(by left) Hi1 Hi2 N1) as N1'.
    set (f := fun i => set_if_addr_list i []).
    exists tt, (set_ifaces (upd_ptr ifp f) s2). split; [by apply (mod_iface_ok s2 ifp i2)|].
    split; [by apply (upd_iface_inv s2 ifp i2)|]. split; [cbn; lia|].
    assert (heap_kept s2 (set_ifaces (upd_ptr ifp f) s2)) as K3
      by (apply upd_heap_kept; [done|intros x _; by split]).
    split; [|exists (f i2); cbn; rewrite find_ptr_upd, Z.eqb_refl, Hi2 by done; done].
    etrans; [split; [exact S1|exact T1]|]. etrans; [split; [exact S2|exact T2]|].
    apply kept_smaller; [by apply (upd_iface_inv s2 ifp i2)|by intros ? ?|done].
  - intros [] s3 I3 ([S3 T3] & i3 & Hi3 & N4 & N6) C3. unfold if_free.
    eapply returns_step; [by apply (get_iface_ok s3 ifp i3)|done|].
    exists tt, (set_ifaces (del_ptr ifp) s3). split; [done|]. split; [by apply (del_iface_inv s3 ifp i3)|].
    split; [cbn; lia|]. split; [exact (sm_fewer _ _ S3)|]. intros q x Hne Hx.
    destruct (sm_calm _ _ S3 _ _ Hx) as (y & Hy & Hc). exists y. split; [|done]. cbn. rewrite find_ptr_del.
    by apply Z.eqb_neq in Hne as ->.
Qed.

(** Interfaces the new configuration does not have must be quiet when inactive. *)
Definition if_gone (x : ldpd_conf) (i : iface) : Prop := if_lookup_name (xc_iface_list x) (if_name i) = None.
Definition gone_quiet (x : ldpd_conf) (s : disc) : Prop :=
  forall q i, find_ptr q (d_ifaces s) = Some i -> if_gone x i -> forall af, af_ok af -> quiet_ia (ia_of i af).

Lemma gone_quiet_smaller x s s' : disc_inv s -> smaller s s' -> gone_quiet x s -> gone_quiet x s'.
Proof.
  intros I S H q i' Hi' Hg af Haf.
  assert (is_Some (find_ptr q (d_ifaces s))) as [i Hi].
  { apply find_ptr_is_some. rewrite <- (sm_ifps _ _ S). apply find_ptr_is_some. by eexists. }
  destruct (sm_calm _ _ S _ _ Hi) as (i2 & Hi2 & Hn & Hq). rewrite Hi' in Hi2. simplify_eq.
  apply Hq; [done|]. apply (H q i Hi); [|done]. unfold if_gone. by rewrite <- Hn.
Qed.

Lemma merge_ifaces_del_returns x s B F : disc_inv s -> gone_quiet x s -> sized B s ->
  Z.of_nat (length (d_ifaces s)) <= F -> room (F * (10 * B)) s ->
  returns (F * (10 * B)) (merge_ifaces_del x) (fun _ s' => fewer s s') s.
Proof.
  intros I Hg HB HF Hr. apply returns_get. pose proof HB as [HA _].
  assert (Z.of_nat (length (d_ifaces s)) * (10 * B) <= F * (10 * B)) as Hle
    by (apply Z.mul_le_mono_nonneg_r; lia).
  set (Inv := fun (l : list iface) (s1 : disc) => fewer s s1 /\ NoDup (ptrs l) /\
    forall i, i ∈ l -> exists i1, find_ptr (if_ptr i) (d_ifaces s1) = Some i1 /\
      (if_gone x i -> forall af, af_ok af -> quiet_ia (ia_of i1 af))).
  eapply returns_mono; [apply (foreach_returns _ (10 * B) Inv)| |]; try done; try (unfold room in *; lia).
  - intros i l s1 I1 (F1 & Hnd & Hl) Hr1. apply NoDup_cons in Hnd as [Hnin Hnd].
    destruct (Hl i) as (i1 & Hi1 & Hq1); [left|].
    destruct (if_lookup_name _ _) eqn:Eg.
    + apply returns_ret; [done|lia|]. split; [done|]. split; [done|]. intros j Hj. apply Hl. by right.
    + eapply returns_mono; [apply (if_gone_returns _ i1 s1 B); try done| |].
      * auto.
      * by eapply fewer_sized.
      * done.
      * intros [] s2 I2 [F2 C2]. split; [by etrans|]. split; [done|]. intros j Hj.
        destruct (Hl j) as (j1 & Hj1 & Hqj); [by right|].
        destruct (C2 (if_ptr j) j1) as (j2 & Hj2 & Hc); [|done|].
        { intros E. apply Hnin. change (ptr_of i) with (if_ptr i). rewrite <- E.
          by apply (list_elem_of_fmap_2 ptr_of). }
        exists j2. split; [done|]. intros Hgj af Haf. apply Hc; auto.
  - split; [reflexivity|]. split; [apply (di_ifaces _ I)|]. intros i Hi. exists i.
    assert (find_ptr (if_ptr i) (d_ifaces s) = Some i) as Hf by (apply (find_ptr_in _ i); [apply (di_ifaces _ I)|done]).
    split; [done|]. intros Hgi. by apply (Hg (if_ptr i)).
  - by intros [] s' _ [? _].
Qed.
End IfMerge.

(** ** The parts of a configuration *)
Section Parts.
Lemma merge_iface_af_runs env ifp i af xi B s : disc_inv s -> find_ptr ifp (d_ifaces s) = Some i -> af_ok af ->
  sized B s -> room (10 * B + 2) s -> if_runs (10 * B + 2) ifp (merge_iface_af env ifp af xi) s.
Proof.
  intros I Hi Haf [HB HB'] Hr. unfold room in Hr. unfold merge_iface_af, if_runs.
  rewrite (bind_ok _ _ _ _ _ (get_ia_ok s ifp af i Hi Haf)).
  fold (if_runs (10 * B + 2) ifp). replace (10 * B + 2) with ((10 * B + 2) + 0) by lia.
  apply if_runs_bind.
  - destruct (negb _); [|apply (if_runs_ret s ifp i); (done || lia)].
    replace (10 * B + 2) with (0 + (10 * B + 2)) by lia.
    apply if_runs_bind; [by apply (mod_ia_runs s ifp i)|]. intros s1 i1 I1 H1 L1 _ C1.
    pose proof (adjs_le_length _ _ I1 L1).
    apply (if_runs_weaken _ _ _ (10 * Z.of_nat (length (d_adjs s1)) + 2)); [lia|].
    apply (if_update_ok s1 ifp i1); (done || lia).
  - intros s1 i1 I1 H1 _ _ _. by apply (mod_ia_runs s1 ifp i1).
Qed.

(** Interfaces of a new configuration have no lists yet. *)
Definition new_iface_ok (i : iface) : Prop :=
  ia_adj_list (if_ipv4 i) = [] /\ ia_adj_list (if_ipv6 i) = [] /\ if_addr_list i = [].

Lemma merge_iface_returns env xi B s : disc_inv s -> new_iface_ok xi -> sized B s -> room (20 * B + 4) s ->
  returns (20 * B + 4) (merge_iface env xi) (fun _ s' => fewer s s') s.
Proof.
  intros I (H4 & H6 & Ha) HB Hr. unfold room in Hr. pose proof HB as [HB1 _]. apply returns_get.
  destruct (if_lookup_name _ _) as [i|] eqn:Ei.
  - apply list_find_in in Ei as [Hin _].
    assert (find_ptr (if_ptr i) (d_ifaces s) = Some i) as Hi by (apply (find_ptr_in _ i); [apply (di_ifaces _ I)|done]).
    destruct (if_runs_bind (10 * B + 2) (10 * B + 2) (if_ptr i)
      (merge_iface_af env (if_ptr i) AF_INET (if_ipv4 xi)) (merge_iface_af env (if_ptr i) AF_INET6 (if_ipv6 xi)) s)
      as (s' & i' & E & I' & _ & L & K & C).
    + apply (merge_iface_af_runs env _ i); try done; [by left|unfold room; lia].
    + intros s1 i1 I1 Hi1 L1 K1 C1. apply (merge_iface_af_runs env _ i1); try done; [by right| |unfold room; lia].
      eapply fewer_sized; [done|exact (sm_fewer _ _ (proj1 (kept_smaller _ _ I1 L1 K1)))|done].
    + exists tt, s'. split_and!; try done; [lia..|].
      exact (sm_fewer _ _ (proj1 (kept_smaller _ _ I' L K))).
  - exists tt, (set_ifaces (cons (place_iface (d_next s) xi)) (bump s)). split; [done|].
    split; [by apply add_iface_inv|]. split; [cbn; lia|by apply fewer_eq].
Qed.

Lemma foreach_fewer {A} (f : A -> ST disc unit) k B l s : 0 <= k -> disc_inv s -> sized B s ->
  (forall x s1, x ∈ l -> disc_inv s1 -> sized B s1 -> room k s1 -> returns k (f x) (fun _ s2 => fewer s1 s2) s1) ->
  room (Z.of_nat (length l) * k) s ->
  returns (Z.of_nat (length l) * k) (foreach f l) (fun _ s' => fewer s s') s.
Proof.
  intros Hk I HB Hf Hr. apply foreach_rel; try done; try typeclasses eauto.
  intros x s1 Hx I1 F1 Hr1. apply Hf; try done. by eapply fewer_sized.
Qed.

Definition ifaces_cost (F B : Z) (x : ldpd_conf) : Z :=
  F * (10 * B) + Z.of_nat (length (xc_iface_list x)) * (20 * B + 4).
Lemma merge_ifaces_returns env x s B F : disc_inv s -> gone_quiet x s -> sized B s ->
  Forall new_iface_ok (xc_iface_list x) -> Z.of_nat (length (d_ifaces s)) <= F -> room (ifaces_cost F B x) s ->
  returns (ifaces_cost F B x) (merge_ifaces env x) (fun _ s' => fewer s s') s.
Proof.
  intros I Hg HB Hx HF Hr. unfold room, ifaces_cost in *. pose proof HB as [HA _].
  rewrite Forall_forall in Hx.
  assert (0 <= Z.of_nat (length (xc_iface_list x)) * (20 * B + 4)) by (apply Z.mul_nonneg_nonneg; lia).
  eapply returns_bind; [apply (merge_ifaces_del_returns x s B F); try done; unfold room; lia|].
  intros [] s1 I1 F1 C1. eapply returns_mono; [apply (foreach_fewer _ (20 * B + 4) B)| |]; try done; try lia.
  - by eapply fewer_sized.
  - intros xi s2 Hxi I2 HB2 Hr2. by apply merge_iface_returns, Hr2; [|apply Hx|].
  - unfold room. lia.
  - intros [] s2 _ F2. by etrans.
Qed.

Definition tnbrs_cost (T : Z) (x : ldpd_conf) : Z := 5 * T + Z.of_nat (length (xc_tnbr_list x)).
Lemma merge_tnbrs_returns x s B T : disc_inv s -> sized B s -> Forall new_tnbr_ok (xc_tnbr_list x) ->
  Z.of_nat (length (d_tnbrs s)) <= T -> room (tnbrs_cost T x) s ->
  returns (tnbrs_cost T x) (merge_tnbrs x) (fun _ s' => fewer s s') s.
Proof.
  intros I HB Hx HT Hr. unfold room, tnbrs_cost in *. rewrite Forall_forall in Hx.
  eapply returns_bind; [apply (merge_tnbrs_del_returns x T s); try done; unfold room; lia|].
  intros [] s1 I1 S1 C1. apply sm_fewer in S1 as F1.
  eapply returns_mono; [apply (foreach_fewer _ 1 B)| |]; try done; try lia.
  - by eapply fewer_sized.
  - intros xt s2 Hxt I2 HB2 Hr2. apply merge_tnbr_returns; try done. by apply Hx.
  - unfold room. lia.
  - intros [] s2 _ F2. by etrans.
Qed.

(** Restarting a session. *)
Lemma restart_returns env id B s : disc_inv s -> sized B s -> room (B + 4) s ->
  returns (B + 4) (restart_session env id) (fun _ s' => still s s') s.
Proof.
  intros I HB Hr. unfold room in Hr. pose proof HB as [HA _]. apply returns_get.
  destruct (nbr_find_ldpid s id) as [n|] eqn:En; [|apply returns_ret; (done || lia)].
  apply list_find_in in En as [Hin _]. apply nbr_in in Hin as Hp.
  replace (B + 4) with (3 + (B + 1)) by lia.
  eapply returns_bind; [apply shutdown_returns; try done; unfold room; lia|]. intros [] s1 I1 S1 C1.
  assert (dn_ptr n ∈ ptrs (d_nbrs s1)) as Hp1 by (by rewrite (st_nps _ _ S1)).
  pose proof Hp1 as Hp2. apply find_ptr_is_some in Hp2 as [n1 Hn1].
  assert (find_ptr (dn_ptr n) (d_nbrs s) = Some n) as Hn by (apply (find_ptr_in _ n); [apply (di_nbrs _ I)|done]).
  apply returns_conf. pose proof (si_af _ _ (proj1 (di_nbr _ I _ _ Hn))) as Haf.
  destruct (ldp_af_global_get_ok (d_conf s1) _ Haf) as [g Eg]. eapply returns_lift; [done|].
  eapply returns_step; [by apply get_dnbr_ok|done|].
  destruct (active_role_ok (dn_nbr n1)) as [b Eb]; [exact (proj1 (di_nbr _ I1 _ _ Hn1))|].
  eapply returns_lift; [done|]. destruct b; [|apply returns_ret; (done || lia)].
  eapply returns_mono; [apply (establish_returns _ s1 _ B); try done| |].
  - eapply fewer_sized; [done|by apply still_fewer|done].
  - unfold room. lia.
  - lia.
  - intros [] s2 _ S2. by etrans.
Qed.

Lemma merge_nbrp_returns env xn B s : disc_inv s -> sized B s -> room (B + 4) s ->
  returns (B + 4) (merge_nbrp env xn) (fun _ s' => fewer s s') s.
Proof.
  intros I HB Hr. pose proof HB as [HA _]. apply returns_conf.
  assert (forall f s', still (set_conf f s) s' -> fewer s s') as Hs.
  { intros f s' S. apply still_fewer. etrans; [apply (set_conf_still f)|done]. }
  destruct (nbr_params_in _ _) as [p|]; (eapply returns_step; [done|done|]);
    match goal with |- returns _ _ _ ?x => assert (disc_inv x) by (by apply set_conf_inv) end.
  - destruct (nbrp_changed p xn); [|apply returns_ret; try done; [lia|by apply (Hs (set_lc_sess (set_c_nbrps (nbrp_replace xn))))]].
    eapply returns_mono; [by apply (restart_returns env _ B)|lia|]. intros [] s' _. apply Hs.
  - eapply returns_mono; [by apply (restart_returns env _ B)|lia|]. intros [] s' _. apply Hs.
Qed.

Definition nbrps_cost (N B : Z) (x : ldpd_conf) : Z :=
  N * (B + 4) + Z.of_nat (length (xc_nbrp_list x)) * (B + 4).
Lemma merge_nbrps_returns env x s B N : disc_inv s -> sized B s ->
  Z.of_nat (length (c_nbrp_list (lc_sess (d_conf s)))) <= N -> room (nbrps_cost N B x) s ->
  returns (nbrps_cost N B x) (merge_nbrps env x) (fun _ s' => fewer s s') s.
Proof.
  intros I HB HN Hr. unfold room, nbrps_cost in *. pose proof HB as [HA _].
  assert (0 <= Z.of_nat (length (xc_nbrp_list x)) * (B + 4)) by (apply Z.mul_nonneg_nonneg; lia).
  assert (Z.of_nat (length (c_nbrp_list (lc_sess (d_conf s)))) * (B + 4) <= N * (B + 4))
    by (apply Z.mul_le_mono_nonneg_r; lia).
  eapply returns_bind.
  - apply returns_conf. eapply returns_mono; [apply (foreach_fewer _ (B + 4) B)| |]; try done; try lia;
      [|unfold room; lia].
    intros p s1 _ I1 HB1 Hr1. destruct (nbr_params_in _ _); [apply returns_ret; (done || lia)|].
    eapply returns_last; [by apply (restart_returns env _ B)|]. intros [] s2 I2 S2 C2.
    apply set_conf_returns; [done|]. apply still_fewer. etrans; [exact S2|apply set_conf_still].
  - intros [] s1 I1 F1 C1. eapply returns_mono; [apply (foreach_fewer _ (B + 4) B)| |]; try done; try lia.
    + by eapply fewer_sized.
    + intros xn s2 _ I2 HB2 Hr2. by apply merge_nbrp_returns.
    + unfold room. lia.
    + intros [] s2 _ F2. by etrans.
Qed.
End Parts.

(** ** Merging everything *)
Section Merge.
(** A step that leaves the heap smaller, with what the next one needs. *)
Lemma then_smaller {A} k1 k2 (m : ST disc A) (f : A -> ST disc unit) s :
  returns k1 m (fun _ s1 => smaller s s1) s ->
  (forall a s1, disc_inv s1 -> smaller s s1 -> d_msgcnt s <= d_msgcnt s1 <= d_msgcnt s + k1 ->
    returns k2 (f a) (fun _ s2 => smaller s1 s2) s1) ->
  returns (k1 + k2) (bind m f) (fun _ s2 => smaller s s2) s.
Proof.
  intros H1 H2. eapply returns_bind; [exact H1|]. intros a s1 I1 S1 C1.
  eapply returns_mono; [by apply H2|lia|]. intros [] s2 _ S2. etrans; [exact S1|exact S2].
Qed.
Lemma still_to_smaller {A} k (m : ST disc A) s :
  returns k m (fun _ s' => still s s') s -> returns k m (fun _ s' => smaller s s') s.
Proof. intros H. eapply returns_mono; [exact H|lia|]. intros a s' _ S. apply still_smaller, S. Qed.
Lemma t_to_smaller {A} k (m : ST disc A) s :
  returns k m (fun _ s' => smaller_t s s') s -> returns k m (fun _ s' => smaller s s') s.
Proof. intros H. eapply returns_mono; [exact H|lia|]. by intros a s' _ [S _]. Qed.
Lemma skip_smaller k s : disc_inv s -> 0 <= k -> returns k (ret tt) (fun _ s' => smaller s s') s.
Proof. intros. by apply returns_ret. Qed.
Lemma conf_smaller f s : disc_inv s -> returns 0 (modify (set_conf f)) (fun _ s' => smaller s s') s.
Proof. intros I. apply still_to_smaller, set_conf_returns; [done|apply set_conf_still]. Qed.

Lemma smaller_sized B s s' : disc_inv s' -> smaller s s' -> sized B s -> sized B s'.
Proof. intros I S. apply fewer_sized; [done|apply S]. Qed.

Definition global_cost (B F T : Z) : Z := 6 * B + (F * (10 * B + 2) + T) + 6 * B.
Lemma merge_global_returns env x s B F T : disc_inv s -> sized B s -> Z.of_nat (length (d_ifaces s)) <= F ->
  Z.of_nat (length (d_tnbrs s)) <= T -> room (global_cost B F T) s ->
  returns (global_cost B F T) (merge_global env x) (fun _ s' => smaller s s') s.
Proof.
  intros I HB HF HT Hr. unfold room, global_cost in *. pose proof HB as [HA _].
  assert (0 <= F * (10 * B + 2)) by (apply Z.mul_nonneg_nonneg; lia). unfold merge_global. apply returns_conf.
  apply then_smaller.
  - destruct (negb _); [|apply skip_smaller; (done || lia)].
    replace (6 * B + (F * (10 * B + 2) + T)) with (3 * B + (3 * B + ((F * (10 * B + 2) + T) + 0))) by lia.
    apply then_smaller; [apply still_to_smaller, reset_nbrs_returns; try done; unfold room; lia|].
    intros [] s1 I1 S1 C1. pose proof (smaller_sized B _ _ I1 S1 HB) as HB1.
    apply then_smaller; [apply still_to_smaller, reset_nbrs_returns; try done; unfold room; lia|].
    intros [] s2 I2 S2 C2. pose proof (smaller_sized B _ _ I2 S2 HB1) as HB2.
    apply then_smaller; [|intros [] s3 I3 _ _; by apply conf_smaller].
    destruct (_ || _); [|apply skip_smaller; (done || lia)].
    pose proof (smaller_ifaces _ _ S1). pose proof (smaller_ifaces _ _ S2).
    pose proof (smaller_tnbrs _ _ I1 S1). pose proof (smaller_tnbrs _ _ I2 S2).
    apply then_smaller; [apply t_to_smaller, if_update_all_returns; try done; [lia|unfold room; lia]|].
    intros [] s3 I3 S3 C3. pose proof (smaller_tnbrs _ _ I3 S3).
    apply still_to_smaller, tnbr_update_all_returns; [done|lia|unfold room; lia].
  - intros [] s1 I1 S1 C1. pose proof (smaller_sized B _ _ I1 S1 HB) as HB1.
    replace (6 * B) with (0 + (3 * B + (3 * B + 0))) by lia.
    apply then_smaller; [by apply conf_smaller|]. intros [] s2 I2 S2 C2.
    pose proof (smaller_sized B _ _ I2 S2 HB1) as HB2. apply then_smaller.
    + destruct (negb _); [|apply skip_smaller; (done || lia)]. rewrite <- (Z.add_0_r (3 * B)).
      apply then_smaller; [apply still_to_smaller, reset_ds_nbrs_returns; try done; unfold room; lia|].
      intros [] s3 I3 _ _. by apply conf_smaller.
    + intros [] s3 I3 S3 C3. pose proof (smaller_sized B _ _ I3 S3 HB2) as HB3. apply then_smaller.
      * destruct (negb _); [|apply skip_smaller; (done || lia)].
        apply still_to_smaller, reset_ds_nbrs_returns; try done; unfold room; lia.
      * intros [] s4 I4 _ _. by apply conf_smaller.
Qed.

Lemma ldp_addrcmp_total af a b : af_ok af -> exists c, ldp_addrcmp af a b = Ok c.
Proof. intros [-> | ->]; cbn; [|by eexists]. destruct (_ =? _); [by eexists|]. destruct (_ >? _); by eexists. Qed.

Definition af_cost (B T : Z) : Z := B * (B + 1) + 5 * T + 3 * B.
Lemma merge_af_returns env af x s B T : disc_inv s -> sized B s -> Z.of_nat (length (d_tnbrs s)) <= T -> af_ok af ->
  room (af_cost B T) s ->
  returns (af_cost B T) (merge_af env af x) (fun _ s' => smaller s s') s.
Proof.
  intros I HB HT Haf Hr. unfold room, af_cost in *. pose proof HB as [HA _].
  assert (0 <= B * (B + 1)) by (apply Z.mul_nonneg_nonneg; lia). unfold merge_af. apply returns_conf.
  destruct (ldp_af_conf_get_ok (d_conf s) _ Haf) as [ac Eac]. eapply returns_lift; [done|]. cbv zeta.
  replace (B * (B + 1) + 5 * T + 3 * B) with (B * (B + 1) + (0 + (5 * T + (3 * B + (0 + 0))))) by lia.
  apply then_smaller.
  { destruct (negb _); [|apply skip_smaller; (done || lia)]. rewrite <- (Z.add_0_l (B * (B + 1))).
    apply then_smaller; [by apply conf_smaller|]. intros [] s1 I1 S1 C1.
    apply still_to_smaller, stop_backoff_returns; [done|by eapply smaller_sized|unfold room; lia]. }
  intros [] s1 I1 S1 C1. apply then_smaller; [by apply conf_smaller|]. intros [] s2 I2 S2 C2.
  pose proof (smaller_tnbrs _ _ I1 S1). pose proof (smaller_tnbrs _ _ I2 S2).
  assert (sized B s2) as HB2 by (eapply smaller_sized; [done|exact S2|by eapply smaller_sized]).
  apply then_smaller.
  { destruct (_ && _); [|apply skip_smaller; (done || lia)].
    apply remove_dynamic_returns; [done|lia|unfold room; lia]. }
  intros [] s3 I3 S3 C3. pose proof (smaller_sized B _ _ I3 S3 HB2) as HB3. apply then_smaller.
  { destruct (negb _); [|apply skip_smaller; (done || lia)].
    destruct (af =? AF_INET6); [apply skip_smaller; (done || lia)|].
    apply still_to_smaller, reset_nbrs_returns; try done. unfold room. lia. }
  intros [] s4 I4 S4 C4. apply then_smaller; [by apply conf_smaller|]. intros [] s5 I5 S5 C5.
  destruct (ldp_addrcmp_total af (af_trans_addr ac) (af_trans_addr (xa_conf x)) Haf) as [d Ed].
  eapply returns_lift; [done|]. destruct (negb _); [by apply conf_smaller|by apply skip_smaller].
Qed.
End Merge.

(** ** Pseudowires *)
Section Pseudowires.
Lemma floop_returns {A B} (f : A -> B -> ST disc B) k (Inv : list A -> B -> Prop) l : 0 <= k ->
  (forall x l' b s1, disc_inv s1 -> Inv (x :: l') b -> room k s1 ->
    returns k (f x b) (fun b' s2 => Inv l' b' /\ fewer s1 s2) s1) ->
  forall b s, disc_inv s -> Inv l b -> room (Z.of_nat (length l) * k) s ->
  returns (Z.of_nat (length l) * k) (floop f l b) (fun b' s' => Inv [] b' /\ fewer s s') s.
Proof.
  intros Hk Hf. induction l as [|x l IH]; intros b s I Hb Hr; [apply returns_ret; (done || lia)|].
  cbn [length floop] in *. replace (Z.of_nat (S (length l)) * k) with (k + Z.of_nat (length l) * k) in * by lia.
  assert (0 <= Z.of_nat (length l) * k) by (apply Z.mul_nonneg_nonneg; lia). unfold room in *.
  eapply returns_bind; [apply Hf; try done; unfold room; lia|]. intros b1 s1 I1 [H1 F1] C1.
  eapply returns_mono; [apply IH; try done; lia|lia|]. intros b2 s2 _ [H2 F2]. split; [done|].
  etrans; [exact F1|exact F2].
Qed.

Definition pws_ok (l : pw_lists) : Prop :=
  Forall pw_ok (pl_act l) /\ Forall pw_ok (pl_inact l) /\ Forall pw_ok (pl_aux l).

Lemma pw_in_ok n l p : Forall pw_ok l -> pw_in n l = Some p -> pw_ok p.
Proof. intros H E. apply list_find_in in E as [Hin _]. rewrite Forall_forall in H. by apply H. Qed.
Lemma pw_find_ok n act inact p : Forall pw_ok act -> Forall pw_ok inact ->
  l2vpn_pw_find_name act inact n = Some p -> pw_ok p.
Proof.
  intros Ha Hi. unfold l2vpn_pw_find_name. destruct (pw_in n act) as [q|] eqn:E.
  - intros [= <-]. exact (pw_in_ok _ _ _ Ha E).
  - intros Ei. exact (pw_in_ok _ _ _ Hi Ei).
Qed.
Lemma pw_take_ok n l : Forall pw_ok l -> Forall pw_ok (pw_take n l).
Proof. induction 1 as [|p l Hp Hl IH]; cbn; [done|]. case_match; [done|by constructor]. Qed.
Lemma pw_put_ok x l : pw_ok x -> Forall pw_ok l -> Forall pw_ok (pw_put x l).
Proof. intros Hx. induction 1 as [|p l Hp Hl IH]; cbn; [done|]. case_match; by constructor. Qed.
Lemma pw_take_length n l : (length (pw_take n l) <= length l)%nat.
Proof. induction l as [|p l IH]; cbn; [done|]. case_match; cbn; lia. Qed.
Lemma pw_put_length x l : length (pw_put x l) = length l.
Proof. induction l as [|p l IH]; cbn; [done|]. case_match; cbn; congruence. Qed.
Lemma Forall_lfilter {A} (P : A -> Prop) (f : A -> bool) l : Forall P l -> Forall P (List.filter f l).
Proof. induction 1 as [|x l Hx Hl IH]; cbn; [done|]. destruct (f x); [by constructor|done]. Qed.

(** At most one more active pseudowire. *)
Definition grown (l l' : pw_lists) : Prop :=
  pws_ok l' /\ (length (pl_act l') <= S (length (pl_act l)))%nat.

Lemma merge_pw_returns xp l s : disc_inv s -> pw_ok xp -> pws_ok l -> room 9 s ->
  returns 9 (merge_pw xp l) (fun l' s' => grown l l' /\ fewer s s') s.
Proof.
  intros I Hx (Ha & Hi & Hu) Hr. unfold room in Hr. unfold merge_pw.
  destruct (l2vpn_pw_find_name _ _ _) as [pw|] eqn:Ef.
  2:{ change 9 with (9 + 0). eapply returns_bind; [eapply returns_mono;
        [apply pw_init_returns; try done; unfold room; lia|lia|by intros ? ? _ H; exact H]|].
      intros [] s1 I1 F1 _. apply returns_ret; try done. repeat split; cbn; try done; [by constructor|apply F1..]. }
  pose proof (pw_find_ok _ _ _ _ Ha Hi Ef) as Hpw.
  match goal with |- context [bind ?m _] => assert (exists b, m s = Ok (b, s)) as [b Eb] end.
  { destruct (negb _); [by eexists|].
    destruct (ldp_addrcmp_total (pwc_af pw) (pwc_addr pw) (pwc_addr xp) Hpw) as [c Ec].
    rewrite (bind_lift_ok _ _ _ _ Ec). by eexists. }
  eapply returns_step; [exact Eb|done|]. clear Eb. cbv zeta. assert (pw_ok (pw_copy xp pw)) as Hc by done.
  set (in_act := bool_decide _). destruct (pw_disabled xp).
  - change 9 with (9 + 0). eapply returns_bind; [eapply returns_mono;
      [apply pw_exit_returns; try done; unfold room; lia|lia|by intros ? ? _ H; exact H]|].
    intros [] s1 I1 F1 _. pose proof (pw_take_length (pwc_ifname xp) (pl_act l)).
    apply returns_ret; try done. split; [|done].
    destruct in_act; (split; [repeat split; cbn; try done; try constructor; by try apply pw_take_ok|cbn; lia]).
  - change 9 with (5 + (3 + (1 + 0))).
    apply (returns_bind _ _ _ _ (fun _ s1 => fewer s s1)).
    { destruct b; [apply pw_exit_returns; try done; unfold room; lia|apply returns_ret; (done || lia)]. }
    intros [] s1 I1 F1 C1. apply (returns_bind _ _ _ _ (fun _ s2 => fewer s1 s2)).
    { destruct (negb _); [|apply returns_ret; (done || lia)]. apply returns_get.
      destruct (nbr_find_ldpid s1 _) as [n|] eqn:En; [|apply returns_ret; (done || lia)].
      destruct (_ =? _); [|apply returns_ret; (done || lia)].
      apply list_find_in in En as [Hin _]. apply nbr_in in Hin.
      eapply returns_mono; [apply shutdown_returns; try done; unfold room; lia|lia|].
      intros [] s2 _. apply still_fewer. }
    intros [] s2 I2 F2 C2. apply (returns_bind _ _ _ _ (fun _ s3 => fewer s2 s3)).
    { destruct b; [apply pw_init_returns; try done; unfold room; lia|apply returns_ret; (done || lia)]. }
    intros [] s3 I3 F3 C3. apply returns_ret; try done.
    split; [|etrans; [exact F1|]; etrans; [exact F2|exact F3]].
    pose proof (pw_put_length (pw_copy xp pw) (pl_act l)).
    destruct in_act; (split; [repeat split; cbn; try done; by apply pw_put_ok|cbn; lia]).
Qed.

Lemma merge_inactive_returns xp l s : disc_inv s -> pw_ok xp -> pws_ok l -> room 1 s ->
  returns 1 (merge_inactive_pw xp l) (fun l' s' => grown l l' /\ fewer s s') s.
Proof.
  intros I Hx (Ha & Hi & Hu) Hr. unfold merge_inactive_pw.
  pose proof (pw_take_length (pwc_ifname xp) (pl_act l)). pose proof (pw_put_length xp (pl_act l)).
  destruct (l2vpn_pw_find_name _ _ _) as [pw|] eqn:Ef.
  2:{ apply returns_ret; try done; try lia. split; [|reflexivity].
      split; [repeat split; cbn; try done; by constructor|cbn; lia]. }
  set (in_act := bool_decide _). destruct (pw_disabled xp).
  - apply returns_ret; try done; try lia. split; [|reflexivity].
    destruct in_act; (split; [repeat split; cbn; try done; by apply pw_put_ok|cbn; lia]).
  - eapply returns_last; [by apply pw_init_returns|]. intros [] s1 I1 F1 _. apply returns_ret; try done.
    split; [|done].
    destruct in_act; (split; [repeat split; cbn; try done; try constructor; by try apply pw_take_ok|cbn; lia]).
Qed.
End Pseudowires.

(** ** L2VPNs *)
Section L2vpns.
Definition l2vpn_ok (v : l2vpn) : Prop := Forall pw_ok (lv_pw_list v) /\ Forall pw_ok (lv_pw_inactive_list v).
Definition npws (v : l2vpn) : nat := length (lv_pw_list v) + length (lv_pw_inactive_list v).
Definition active_pws (l : list l2vpn) : nat := sum_list (length ∘ lv_pw_list <$> l).
Definition all_pws (l : list l2vpn) : nat := sum_list (npws <$> l).

(** Lists merged pseudowire by pseudowire. *)
Lemma pw_loop_returns (f : pw_conf -> pw_lists -> ST disc pw_lists) k xs l s : 0 <= k ->
  (forall x l s1, disc_inv s1 -> pw_ok x -> pws_ok l -> room k s1 ->
    returns k (f x l) (fun l' s2 => grown l l' /\ fewer s1 s2) s1) ->
  disc_inv s -> Forall pw_ok xs -> pws_ok l -> room (Z.of_nat (length xs) * k) s ->
  returns (Z.of_nat (length xs) * k) (floop f xs l)
    (fun l' s' => (pws_ok l' /\ (length (pl_act l') <= length (pl_act l) + length xs)%nat) /\ fewer s s') s.
Proof.
  intros Hk Hf I Hxs Hl Hr.
  set (Inv := fun (xs' : list pw_conf) (l' : pw_lists) => Forall pw_ok xs' /\ pws_ok l' /\
    (length (pl_act l') + length xs' <= length (pl_act l) + length xs)%nat).
  eapply returns_mono; [apply (floop_returns f k Inv)| |]; try done; try lia.
  - intros x xs' l1 s1 I1 (Hxs' & Hl1 & Hlen) Hr1. apply Forall_cons in Hxs' as [Hx Hxs'].
    eapply returns_mono; [by apply Hf|lia|]. intros l2 s2 _ [[H2 G2] F2]. split; [|done].
    split; [done|]. split; [done|]. cbn [length] in Hlen. lia.
  - intros l' s' _ [(_ & H1 & H2) H3]. cbn in H2. split; [|done]. split; [done|lia].
Qed.

Lemma merge_pw_del_loop xl pws act s W : disc_inv s -> Forall pw_ok act -> (length pws <= W)%nat ->
  room (5 * Z.of_nat W) s ->
  returns (5 * Z.of_nat W) (floop (merge_pw_del xl) pws act)
    (fun act' s' => (Forall pw_ok act' /\ (length act' <= length act)%nat) /\ fewer s s') s.
Proof.
  intros I Ha HW Hr. unfold room in Hr.
  set (Inv := fun (_ : list pw_conf) (a : list pw_conf) => Forall pw_ok a /\ (length a <= length act)%nat).
  eapply returns_mono; [apply (floop_returns _ 5 Inv)| |]; try done; try lia; try (unfold room; lia).
  intros pw l' a s1 I1 [Ha1 Hlen] Hr1. unfold merge_pw_del. destruct (l2vpn_pw_find_name _ _ _);
    [apply returns_ret; (done || lia)|].
  eapply returns_last; [by apply pw_exit_returns|]. intros [] s2 I2 F2 _. apply returns_ret; try done.
  split; [|done]. split; [by apply pw_take_ok|]. pose proof (pw_take_length (pwc_ifname pw) a). lia.
Qed.

Lemma merge_l2vpn_returns v xl W s : disc_inv s -> l2vpn_ok v -> l2vpn_ok xl ->
  (length (lv_pw_list v) + npws xl <= W)%nat -> room (15 * Z.of_nat W) s ->
  returns (15 * Z.of_nat W) (merge_l2vpn v xl)
    (fun v' s' => (l2vpn_ok v' /\ (length (lv_pw_list v') <= length (lv_pw_list v) + npws xl)%nat) /\ fewer s s') s.
Proof.
  intros I [Hv1 Hv2] [Hx1 Hx2] HW Hr. unfold room, npws in *. unfold merge_l2vpn.
  replace (15 * Z.of_nat W) with (5 * Z.of_nat W + (9 * Z.of_nat W + 1 * Z.of_nat W)) by lia.
  eapply returns_bind; [apply (merge_pw_del_loop xl _ _ s W); try done; [lia|unfold room; lia]|].
  intros act s1 I1 [[Ha La] F1] C1. eapply returns_bind.
  { eapply returns_mono; [apply (pw_loop_returns merge_pw 9); try done| |].
    - intros. by apply merge_pw_returns.
    - unfold room. lia.
    - lia.
    - intros l s2 _ H2. exact H2. }
  intros l s2 I2 [[(Hl1 & Hl2 & Hl3) Ll] F2] C2. cbn in Ll. eapply returns_last.
  { eapply returns_mono; [apply (pw_loop_returns merge_inactive_pw 1); try done| |].
    - intros. by apply merge_inactive_returns.
    - split_and!; try done. cbn. by apply Forall_lfilter.
    - unfold room. lia.
    - lia.
    - intros l' s3 _ H3. exact H3. }
  intros l' s3 I3 [[(Hm1 & Hm2 & Hm3) Lm] F3] C3. cbn in Lm. apply returns_ret; try done.
  split; [|etrans; [exact F1|]; etrans; [exact F2|exact F3]]. split; [|cbn; lia].
  split; [done|]. cbn. apply Forall_app_2; [|done]. apply Forall_forall. intros p Hp.
  apply list_elem_of_In, in_rev, list_elem_of_In in Hp.
  rewrite Forall_forall in Hm3. by apply Hm3.
Qed.

Lemma active_pws_in v l : v ∈ l -> (length (lv_pw_list v) <= active_pws l)%nat.
Proof.
  induction l as [|w l IH]; intros H; [by apply not_elem_of_nil in H|]. unfold active_pws. cbn.
  fold (active_pws l). apply elem_of_cons in H as [-> | H]; [lia|]. apply IH in H. lia.
Qed.
Lemma active_pws_take n l : (active_pws (l2vpn_take n l) <= active_pws l)%nat.
Proof.
  induction l as [|w l IH]; cbn; [done|]. destruct (String.eqb _ _); unfold active_pws in *; cbn in *; lia.
Qed.
(** The L2VPN that is replaced is the one that was found. *)
Lemma active_pws_put v v' l k : l2vpn_find l (lv_name v') = Some v ->
  (length (lv_pw_list v') <= length (lv_pw_list v) + k)%nat ->
  (active_pws (l2vpn_put v' l) <= active_pws l + k)%nat.
Proof.
  intros Hf Hk. induction l as [|w l IH]; [done|]. cbn in Hf |- *.
  destruct (String.eqb (lv_name w) (lv_name v')) eqn:E.
  - simplify_eq. unfold active_pws. cbn. lia.
  - apply IH in Hf. unfold active_pws in *. cbn in *. lia.
Qed.
Lemma l2vpn_take_ok n l : Forall l2vpn_ok l -> Forall l2vpn_ok (l2vpn_take n l).
Proof. induction 1 as [|p l Hp Hl IH]; cbn; [done|]. case_match; [done|by constructor]. Qed.
Lemma l2vpn_put_ok x l : l2vpn_ok x -> Forall l2vpn_ok l -> Forall l2vpn_ok (l2vpn_put x l).
Proof. intros Hx. induction 1 as [|p l Hp Hl IH]; cbn; [done|]. case_match; by constructor. Qed.
Lemma merge_l2vpn_name v xl s v' s' : merge_l2vpn v xl s = Ok (v', s') -> lv_name v' = lv_name v.
Proof.
  intros H. unfold merge_l2vpn in H. apply bind_inv in H as (? & ? & _ & H).
  apply bind_inv in H as (? & ? & _ & H). apply bind_inv in H as (? & ? & _ & H).
  unfold ret in H. by simplify_eq.
Qed.

Lemma pws_each_returns (f : pw_conf -> ST disc unit) k pws W s : 0 <= k ->
  (forall p s1, disc_inv s1 -> pw_ok p -> room k s1 -> returns k (f p) (fun _ s2 => fewer s1 s2) s1) ->
  disc_inv s -> Forall pw_ok pws -> (length pws <= W)%nat -> room (k * Z.of_nat W) s ->
  returns (k * Z.of_nat W) (foreach f pws) (fun _ s' => fewer s s') s.
Proof.
  intros Hk Hf I Hp HW Hr. rewrite Forall_forall in Hp. unfold room in Hr.
  assert (Z.of_nat (length pws) * k <= k * Z.of_nat W) by (rewrite Z.mul_comm; apply Z.mul_le_mono_nonneg_l; lia).
  eapply returns_mono; [apply (foreach_rel f k fewer)| |]; try done; try typeclasses eauto; [|unfold room; lia].
  intros p s1 Hin I1 _ Hr1. apply Hf; try done. by apply Hp.
Qed.

Definition l2vpns_cost (l xls : list l2vpn) : Z :=
  (Z.of_nat (length l) + Z.of_nat (length xls)) * (15 * Z.of_nat (active_pws l + all_pws xls)).

Lemma merge_l2vpns_returns l xls s : disc_inv s -> Forall l2vpn_ok l -> Forall l2vpn_ok xls ->
  room (l2vpns_cost l xls) s ->
  returns (l2vpns_cost l xls) (merge_l2vpns l xls) (fun l' s' => Forall l2vpn_ok l' /\ fewer s s') s.
Proof.
  intros I Hl Hxs Hr. unfold l2vpns_cost in *. set (W := (active_pws l + all_pws xls)%nat) in *.
  rewrite Z.mul_add_distr_r in *. unfold room in Hr. set (K := 15 * Z.of_nat W) in *.
  assert (0 <= Z.of_nat (length xls) * K) by (apply Z.mul_nonneg_nonneg; lia). unfold merge_l2vpns.
  set (Inv1 := fun (l' l1 : list l2vpn) => Forall l2vpn_ok l' /\ l' ⊆ l /\ Forall l2vpn_ok l1 /\
    (active_pws l1 <= active_pws l)%nat).
  eapply returns_bind.
  { apply (floop_returns _ K Inv1); try lia; try done; [|unfold room; lia].
    intros v l' l1 s1 I1 (Hok & Hsub & Hl1 & Hle) Hr1. apply Forall_cons in Hok as [[Hv _] Hok].
    assert (Inv1 l' l1) as Hskip by (split_and!; try done; intros w Hw; apply Hsub; by right).
    unfold merge_l2vpn_gone. destruct (l2vpn_find _ _); [apply returns_ret; try done; lia|].
    assert (v ∈ l) as Hin by (apply Hsub; left). apply active_pws_in in Hin.
    eapply returns_last.
    - eapply returns_mono; [apply (pws_each_returns ldpe_l2vpn_pw_exit 5 _ W)| |]; try done; try lia.
      + intros. by apply pw_exit_returns.
      + unfold room in *. lia.
    - intros [] s2 I2 F2 _. apply returns_ret; try done. split; [|done].
      destruct Hskip as (? & ? & _). split_and!; try done; [by apply l2vpn_take_ok|].
      pose proof (active_pws_take (lv_name v) l1). lia. }
  intros l1 s1 I1 [(_ & _ & Hl1 & Hle1) F1] C1.
  set (Inv2 := fun (xs l2 : list l2vpn) => Forall l2vpn_ok xs /\ Forall l2vpn_ok l2 /\
    (active_pws l2 + all_pws xs <= W)%nat).
  eapply returns_mono; [apply (floop_returns _ K Inv2)| |]; try lia; try done.
  - intros xl xs l2 s2 I2 (Hok & Hl2 & Hle) Hr2. apply Forall_cons in Hok as [Hx Hok].
    unfold all_pws in Hle. cbn in Hle. fold (all_pws xs) in Hle. unfold merge_l2vpn_one.
    destruct (l2vpn_find l2 (lv_name xl)) as [v|] eqn:Ef.
    + pose proof Ef as Hf. apply list_find_in in Hf as [Hin Hname]. apply active_pws_in in Hin as Hlen.
      assert (l2vpn_ok v) as Hv by (rewrite Forall_forall in Hl2; by apply Hl2).
      apply String.eqb_eq in Hname.
      assert (returns (15 * Z.of_nat W) (merge_l2vpn v xl) (fun v' s' => (lv_name v' = lv_name v /\ l2vpn_ok v' /\
        (length (lv_pw_list v') <= length (lv_pw_list v) + npws xl)%nat) /\ fewer s2 s') s2) as Hm.
      { destruct (merge_l2vpn_returns v xl W s2 I2 Hv Hx) as (v' & s3 & E & I3 & C3 & [H1 H2] & F3); [lia|done|].
        exists v', s3. split; [done|]. split; [done|]. split; [done|]. split; [|done].
        split; [by eapply merge_l2vpn_name|done]. }
      eapply returns_last; [exact Hm|]. intros v' s3 I3 [(Hn & Hv' & Hlen') F3] _. apply returns_ret; try done.
      split; [|done]. split; [done|]. split; [by apply l2vpn_put_ok|].
      rewrite <- Hname, <- Hn in Ef. pose proof (active_pws_put v v' l2 _ Ef Hlen'). lia.
    + eapply returns_last.
      * eapply returns_mono; [apply (pws_each_returns ldpe_l2vpn_pw_init 1 _ W)| |]; try done; try lia.
        -- intros. by apply pw_init_returns.
        -- apply Hx.
        -- unfold npws in Hle. lia.
        -- unfold room in *. lia.
      * intros [] s3 I3 F3 _. apply returns_ret; try done. split; [|done]. split; [done|].
        split; [by constructor|]. unfold active_pws. cbn. fold (active_pws l2). unfold npws in Hle. lia.
  - split_and!; try done. unfold W. lia.
  - unfold room. lia.
  - intros l2 s2 _ [(_ & H1 & _) F2]. split; [done|]. etrans; [exact F1|exact F2].
Qed.
End L2vpns.

(** ** What the merge leaves alone *)
Section Frame.
(** The addresses of the router. *)
Definition addr_rel (s s' : disc) : Prop := d_addr_list s' = d_addr_list s.
#[export] Instance addr_local : Local addr_rel.
Proof. split; try done. split; [done|]. intros a b c H1 H2. unfold addr_rel in *. congruence. Qed.
#[export] Instance addr_rel_preorder : PreOrder addr_rel.
Proof. apply addr_local. Qed.

(** The parameters of neighbours, while targeted neighbours only go. *)
Definition nbrp_rel (s s' : disc) : Prop :=
  c_nbrp_list (lc_sess (d_conf s')) = c_nbrp_list (lc_sess (d_conf s)) /\
  (length (d_tnbrs s') <= length (d_tnbrs s))%nat.
#[export] Instance nbrp_local : Local nbrp_rel.
Proof.
  split; try (intros; split; done || (cbn; unfold upd_ptr; by rewrite ?length_map)).
  split; [done|]. intros a b c [H1 H2] [H3 H4]. split; [congruence|lia].
Qed.

Lemma addr_conf f s : addr_rel s (set_conf f s). Proof. done. Qed.
Lemma addr_ifaces f s : addr_rel s (set_ifaces f s). Proof. done. Qed.
Lemma addr_tnbrs f s : addr_rel s (set_tnbrs f s). Proof. done. Qed.
Lemma addr_alloc : stays addr_rel alloc.
Proof. intros s ? ? H. unfold alloc in H. by simplify_eq. Qed.
Lemma nbrp_conf f s : c_nbrp_list (lc_sess (f (d_conf s))) = c_nbrp_list (lc_sess (d_conf s)) ->
  nbrp_rel s (set_conf f s).
Proof. by split. Qed.
Lemma nbrp_ifaces f s : nbrp_rel s (set_ifaces f s). Proof. done. Qed.
Lemma nbrp_tnbr_del p s : nbrp_rel s (set_tnbrs (del_ptr p) s).
Proof. split; [done|]. cbn. unfold del_ptr. apply filter_length_le. Qed.
Lemma nbrp_tnbr_upd p f s : nbrp_rel s (set_tnbrs (upd_ptr p f) s).
Proof. split; [done|]. cbn. unfold upd_ptr. by rewrite length_map. Qed.
Lemma nbrp_alloc : stays nbrp_rel alloc.
Proof. intros s ? ? H. unfold alloc in H. by simplify_eq. Qed.
End Frame.
#[export] Hint Resolve addr_conf addr_ifaces addr_tnbrs nbrp_ifaces nbrp_tnbr_del nbrp_tnbr_upd : local.
#[export] Hint Extern 1 (nbrp_rel _ (set_conf _ _)) => apply nbrp_conf; reflexivity : local.
#[export] Hint Resolve addr_alloc nbrp_alloc : stays.

Section FrameMerge.
Lemma nbrp_global env x : stays nbrp_rel (merge_global env x).
Proof. unfold merge_global, ldpe_reset_nbrs, ldpe_reset_ds_nbrs. stays_solve. Qed.
Lemma nbrp_tnbr_check p : stays nbrp_rel (tnbr_check p).
Proof. unfold tnbr_check, tnbr_del, tnbr_stop_hello_timer. stays_solve. Qed.
#[local] Hint Resolve nbrp_tnbr_check : stays.
Lemma nbrp_af env af x : stays nbrp_rel (merge_af env af x).
Proof.
  unfold merge_af, ldpe_stop_init_backoff, ldpe_remove_dynamic_tnbrs, mod_tnbr, ldpe_reset_nbrs. stays_solve.
Qed.
Lemma nbrp_merge_ifaces env x : stays nbrp_rel (merge_ifaces env x).
Proof.
  unfold merge_ifaces, merge_ifaces_del, merge_iface, merge_iface_af, mod_ia, mod_iface, if_exit, if_free, if_reset,
    if_stop_hello_timer. stays_solve.
  all: apply stays_if_del_adjs.
Qed.

(** [merge_tnbrs] adds targeted neighbours, so only the parameters stay. *)
Definition same_nbrps (s s' : disc) : Prop :=
  c_nbrp_list (lc_sess (d_conf s')) = c_nbrp_list (lc_sess (d_conf s)).
#[local] Instance same_nbrps_local : Local same_nbrps.
Proof. split; try done. split; [done|]. intros a b c H1 H2. unfold same_nbrps in *. congruence. Qed.
Lemma same_nbrps_tnbrs f s : same_nbrps s (set_tnbrs f s). Proof. done. Qed.
Lemma same_nbrps_alloc : stays same_nbrps alloc.
Proof. intros s ? ? H. unfold alloc in H. by simplify_eq. Qed.
#[local] Hint Resolve same_nbrps_tnbrs : local.
#[local] Hint Resolve same_nbrps_alloc : stays.
Lemma nbrps_merge_tnbrs x : stays same_nbrps (merge_tnbrs x).
Proof.
  unfold merge_tnbrs, merge_tnbrs_del, merge_tnbr, tnbr_update, tnbr_check, tnbr_del, tnbr_stop_hello_timer, mod_tnbr.
  stays_solve.
Qed.

(** The addresses of the router stay through everything. *)
Lemma stays_floop {A B} R `{!PreOrder R} (f : A -> B -> ST disc B) l : (forall a b, stays R (f a b)) ->
  forall b, stays R (floop f l b).
Proof.
  intros Hf. induction l as [|x l IH]; intros b; [apply stays_ret|]. cbn [floop]. apply stays_bind; [apply Hf|done].
Qed.
Lemma addr_tnbr_check p : stays addr_rel (tnbr_check p).
Proof. unfold tnbr_check, tnbr_del, tnbr_stop_hello_timer. stays_solve. Qed.
#[local] Hint Resolve addr_tnbr_check : stays.
Lemma addr_reset_nbrs af : stays addr_rel (ldpe_reset_nbrs af). Proof. unfold ldpe_reset_nbrs. stays_solve. Qed.
Lemma addr_merge_ifaces env x : stays addr_rel (merge_ifaces env x).
Proof.
  unfold merge_ifaces, merge_ifaces_del, merge_iface, merge_iface_af, mod_ia, mod_iface, if_exit, if_free, if_reset,
    if_stop_hello_timer. stays_solve. all: apply stays_if_del_adjs.
Qed.
Lemma addr_pw_init p : stays addr_rel (ldpe_l2vpn_pw_init p).
Proof. unfold ldpe_l2vpn_pw_init, tnbr_new. stays_solve. Qed.
Lemma addr_pw_exit p : stays addr_rel (ldpe_l2vpn_pw_exit p).
Proof. unfold ldpe_l2vpn_pw_exit. stays_solve. Qed.
#[local] Hint Resolve addr_reset_nbrs addr_merge_ifaces addr_pw_init addr_pw_exit : stays.
Lemma addr_merge_pw xp l : stays addr_rel (merge_pw xp l).
Proof. unfold merge_pw. stays_solve. Qed.
Lemma addr_merge_inactive xp l : stays addr_rel (merge_inactive_pw xp l).
Proof. unfold merge_inactive_pw. stays_solve. Qed.
Lemma addr_merge_pw_del xl p l : stays addr_rel (merge_pw_del xl p l).
Proof. unfold merge_pw_del. stays_solve. Qed.
Lemma addr_merge_l2vpn v xl : stays addr_rel (merge_l2vpn v xl).
Proof.
  unfold merge_l2vpn. repeat (apply stays_bind; [apply stays_floop; [typeclasses eauto|]|]; intros);
    auto using addr_merge_pw, addr_merge_inactive, addr_merge_pw_del, stays_ret.
  apply stays_ret.
Qed.
Lemma addr_merge_l2vpns l xls : stays addr_rel (merge_l2vpns l xls).
Proof.
  unfold merge_l2vpns. apply stays_bind; [|intros]; (apply stays_floop; [typeclasses eauto|intros]).
  - unfold merge_l2vpn_gone, ldpe_l2vpn_exit. stays_solve.
  - unfold merge_l2vpn_one, ldpe_l2vpn_init. destruct (l2vpn_find _ _); [|stays_solve].
    apply stays_bind; [apply addr_merge_l2vpn|intros; apply stays_ret].
Qed.
Lemma addr_merge_config env vpns x : stays addr_rel (merge_config env vpns x).
Proof.
  unfold merge_config, merge_global, merge_af, merge_tnbrs, merge_tnbrs_del, merge_tnbr, tnbr_update, merge_nbrps,
    merge_nbrps_del, merge_nbrp, restart_session, ldpe_reset_ds_nbrs, ldpe_stop_init_backoff,
    ldpe_remove_dynamic_tnbrs, mod_tnbr. stays_solve. apply addr_merge_l2vpns.
Qed.
End FrameMerge.

(** ** The whole configuration *)
Definition conf_new_ok (x : ldpd_conf) : Prop :=
  Forall new_iface_ok (xc_iface_list x) /\ Forall new_tnbr_ok (xc_tnbr_list x) /\
  Forall l2vpn_ok (xc_l2vpn_list x).

(** Messages a merge can number. *)
Definition heap_size (s : disc) : Z := Z.of_nat (length (d_adjs s)) + Z.of_nat (length (d_nbrs s)).
Definition merge_cost (s : disc) (vpns : list l2vpn) (x : ldpd_conf) : Z :=
  let B := heap_size s in
  let F := Z.of_nat (length (d_ifaces s)) in
  let T := Z.of_nat (length (d_tnbrs s)) in
  let N := Z.of_nat (length (c_nbrp_list (lc_sess (d_conf s)))) in
  global_cost B F T + (af_cost B T + (af_cost B T + (ifaces_cost F B x + (tnbrs_cost T x +
    (nbrps_cost N B x + l2vpns_cost vpns (xc_l2vpn_list x)))))).

Section Whole.
Lemma heap_sized s : sized (heap_size s) s.
Proof. unfold sized, heap_size. lia. Qed.

Lemma returns_stays {A} R k (m : ST disc A) Q s : stays R m -> returns k m Q s ->
  returns k m (fun a s' => Q a s' /\ R s s') s.
Proof. intros Hm (a & s' & E & H). exists a, s'. split; [done|]. destruct H as (? & ? & ?). eauto 10. Qed.

Lemma cost_nonneg B F T N vpns x : 0 <= B -> 0 <= F -> 0 <= T -> 0 <= N ->
  0 <= global_cost B F T /\ 0 <= af_cost B T /\ 0 <= ifaces_cost F B x /\ 0 <= tnbrs_cost T x /\
  0 <= nbrps_cost N B x /\ 0 <= l2vpns_cost vpns (xc_l2vpn_list x).
Proof.
  intros. unfold global_cost, af_cost, ifaces_cost, tnbrs_cost, nbrps_cost, l2vpns_cost.
  split_and!; repeat first [apply Z.add_nonneg_nonneg | apply Z.mul_nonneg_nonneg]; lia.
Qed.

Lemma merge_config_returns env vpns x s : disc_inv s -> conf_new_ok x -> Forall l2vpn_ok vpns ->
  gone_quiet x s -> room (merge_cost s vpns x) s ->
  returns (merge_cost s vpns x) (merge_config env vpns x) (fun l s' => Forall l2vpn_ok l /\ fewer s s') s.
Proof.
  intros I (Hxi & Hxt & Hxl) Hv Hg Hr. unfold merge_cost in *. cbv zeta in *. unfold room in Hr.
  pose proof (heap_sized s) as HB. set (B := heap_size s) in *. assert (0 <= B) by (destruct HB; lia).
  set (F := Z.of_nat (length (d_ifaces s))) in *. set (T := Z.of_nat (length (d_tnbrs s))) in *.
  set (N := Z.of_nat (length (c_nbrp_list (lc_sess (d_conf s))))) in *.
  destruct (cost_nonneg B F T N vpns x) as (? & ? & ? & ? & ? & ?); try lia. unfold merge_config.
  eapply returns_bind; [apply (returns_stays nbrp_rel); [apply nbrp_global|];
    apply (merge_global_returns env x s B F T); try done; unfold room; lia|].
  intros [] s1 I1 [S1 [N1 L1]] C1. pose proof (smaller_sized B _ _ I1 S1 HB) as HB1.
  eapply returns_bind; [apply (returns_stays nbrp_rel); [apply nbrp_af|];
    apply (merge_af_returns env AF_INET _ s1 B T); try done; [lia|by left|unfold room; lia]|].
  intros [] s2 I2 [S2 [N2 L2]] C2. pose proof (smaller_sized B _ _ I2 S2 HB1) as HB2.
  eapply returns_bind; [apply (returns_stays nbrp_rel); [apply nbrp_af|];
    apply (merge_af_returns env AF_INET6 _ s2 B T); try done; [lia|by right|unfold room; lia]|].
  intros [] s3 I3 [S3 [N3 L3]] C3. pose proof (smaller_sized B _ _ I3 S3 HB2) as HB3.
  assert (smaller s s3) as S123 by (etrans; [exact S1|]; etrans; [exact S2|exact S3]).
  eapply returns_bind; [apply (returns_stays nbrp_rel); [apply nbrp_merge_ifaces|];
    apply (merge_ifaces_returns env x s3 B F); try done; [exact (gone_quiet_smaller x s s3 I S123 Hg)
      |rewrite (smaller_ifaces _ _ S123); lia|unfold room; lia]|].
  intros [] s4 I4 [F4 [N4 L4]] C4. pose proof (fewer_sized B _ _ I4 F4 HB3) as HB4.
  eapply returns_bind; [apply (returns_stays same_nbrps); [apply nbrps_merge_tnbrs|];
    apply (merge_tnbrs_returns x s4 B T); try done; [lia|unfold room; lia]|].
  intros [] s5 I5 [F5 N5] C5. pose proof (fewer_sized B _ _ I5 F5 HB4) as HB5.
  eapply returns_bind; [apply (merge_nbrps_returns env x s5 B N); try done|].
  { unfold same_nbrps in N5. rewrite N5, N4, N3, N2, N1. lia. }
  { unfold room. lia. }
  intros [] s6 I6 F6 C6. eapply returns_mono; [apply merge_l2vpns_returns; try done; unfold room; lia|lia|].
  intros l s7 _ [Hl F7]. split; [done|]. etrans; [exact (sm_fewer _ _ S123)|].
  etrans; [exact F4|]. etrans; [exact F5|]. etrans; [exact F6|exact F7].
Qed.
End Whole.
