(* ===== verification/SessRead.v ===== *)
(** * Reading a session inside the heap

    What the session reader (Recv) leaves alone: the identity of the neighbour
    and the order of its messages.  With the robustness of the reader this makes
    reading an event of the engine: [disc_inv] survives whatever a peer sends,
    apart from the three defects of the label message parser. *)
From stdpp Require Import prelude strings list.
From Stdlib Require Import ZArith Lia.
From S2P Require Import Prelude Util Wire Ipc Session LabelMsg LabelSafe Recv Fec Hello Discovery DiscInv.

Section Keeps.
Lemma keeps_undef {A} w : keeps (@undef ldpe A w).
Proof. intros e ? ? H. done. Qed.
Lemma keeps_rd off n buf : keeps (rd off n buf).
Proof. intros e ? ? H. unfold rd in H. case_match; [unfold ret in H; by simplify_eq|done]. Qed.
Lemma keeps_rd8 off buf : keeps (rd8 off buf).
Proof. unfold rd8. apply skeeps_bind; [apply keeps_rd|intros; apply skeeps_ret]. Qed.
Lemma keeps_rd16 off buf : keeps (rd16 off buf).
Proof. unfold rd16. apply skeeps_bind; [apply keeps_rd|intros; apply skeeps_ret]. Qed.
Lemma keeps_rd32 off buf : keeps (rd32 off buf).
Proof. unfold rd32. apply skeeps_bind; [apply keeps_rd|intros; apply skeeps_ret]. Qed.
#[local] Hint Resolve keeps_undef keeps_rd keeps_rd8 keeps_rd16 keeps_rd32 keeps_fsm keeps_session_shutdown
  keeps_send_notification_full : ldp.

Lemma keeps_notify_nbr st i t : keeps (send_notification_nbr st i t).
Proof. unfold send_notification_nbr, send_notification. keeps_solve. Qed.
#[local] Hint Resolve keeps_notify_nbr : ldp.
Lemma keeps_fail_shutdown {A} st i t : keeps (@fail_shutdown A st i t).
Proof. unfold fail_shutdown. keeps_solve. Qed.
Lemma keeps_fail_notify {A} st i t : keeps (@fail_notify A st i t).
Proof. unfold fail_notify. keeps_solve. Qed.
Lemma keeps_shutdown_ret st i t : keeps (shutdown_ret st i t).
Proof. unfold shutdown_ret. keeps_solve. Qed.
Lemma keeps_notify_ret st i t : keeps (notify_ret st i t).
Proof. unfold notify_ret. keeps_solve. Qed.
#[local] Hint Resolve keeps_fail_shutdown keeps_fail_notify keeps_shutdown_ret keeps_notify_ret : ldp.

Lemma keeps_subtlv f i t buf off len m : keeps (subtlv_loop f i t buf off len m).
Proof.
  revert off len m. induction f as [|f IH]; intros; unfold subtlv_loop; [apply keeps_nofuel|]. fold subtlv_loop.
  keeps_solve.
Qed.
#[local] Hint Resolve keeps_subtlv : ldp.
Lemma keeps_fec_elm i t buf len m : keeps (tlv_decode_fec_elm i t buf len m).
Proof. unfold tlv_decode_fec_elm. cbv zeta. keeps_solve. Qed.
Lemma keeps_label_tlv i t buf len : keeps (tlv_decode_label i t buf len).
Proof. unfold tlv_decode_label. cbv zeta. keeps_solve. Qed.
Lemma keeps_opt_param ty i t a b body o : keeps (opt_param ty i t a b body o).
Proof. unfold opt_param. keeps_solve. Qed.
#[local] Hint Resolve keeps_fec_elm keeps_label_tlv keeps_opt_param : ldp.
Lemma keeps_fec_loop f ty i t buf len fl mh : keeps (fec_elm_loop f ty i t buf len fl mh).
Proof. revert buf len fl mh. induction f as [|f IH]; intros; cbn [fec_elm_loop]; cbv zeta; keeps_solve. Qed.
Lemma keeps_opt_loop f ty i t buf len o : keeps (opt_loop f ty i t buf len o).
Proof. revert buf len o. induction f as [|f IH]; intros; cbn [opt_loop]; cbv zeta; keeps_solve. Qed.
Lemma keeps_notify_lde ty i t o mh : keeps (notify_lde_loop ty i t o mh).
Proof. induction mh as [|m mh IH]; cbn [notify_lde_loop]; cbv zeta; keeps_solve. Qed.
#[local] Hint Resolve keeps_fec_loop keeps_opt_loop keeps_notify_lde : ldp.
Lemma keeps_recv_labelmessage buf len ty : keeps (recv_labelmessage buf len ty).
Proof. unfold recv_labelmessage, recv_label_params. cbv zeta. keeps_solve. Qed.

Lemma keeps_unknown i t ty : keeps (unknown_tlv i t ty).
Proof. unfold unknown_tlv. keeps_solve. Qed.
#[local] Hint Resolve keeps_unknown keeps_recv_labelmessage : ldp.
Lemma keeps_tlv_loop {A} (h : Z -> Z -> list Z -> A -> ST ldpe (option A)) f i t buf len acc :
  (forall a b body x, keeps (h a b body x)) -> keeps (tlv_loop h f i t buf len acc).
Proof. intros Hh. revert buf len acc. induction f as [|f IH]; intros; cbn [tlv_loop]; cbv zeta; keeps_solve. Qed.
Lemma keeps_notif_tlv i t a b body nm : keeps (notif_tlv i t a b body nm).
Proof. unfold notif_tlv. keeps_solve. Qed.
Lemma keeps_init_tlv i t a b body u : keeps (init_tlv i t a b body u).
Proof. unfold init_tlv. keeps_solve. Qed.
#[local] Hint Resolve keeps_tlv_loop keeps_notif_tlv keeps_init_tlv : ldp.
Lemma keeps_recv_notification buf len : keeps (recv_notification buf len).
Proof.
  unfold recv_notification, notif_act, notif_accept, nbr_start_idtimer, idtimer_backoff. cbv zeta. keeps_solve.
Qed.
Lemma keeps_recv_init buf len : keeps (recv_init buf len).
Proof. unfold recv_init. cbv zeta. keeps_solve. Qed.
Lemma keeps_recv_keepalive buf len : keeps (recv_keepalive buf len).
Proof. unfold recv_keepalive. keeps_solve. Qed.
Lemma keeps_address_loop f add fam i t buf len : keeps (address_loop f add fam i t buf len).
Proof. revert buf len. induction f as [|f IH]; intros; cbn [address_loop]; cbv zeta; keeps_solve. Qed.
#[local] Hint Resolve keeps_recv_notification keeps_recv_init keeps_recv_keepalive keeps_address_loop : ldp.
Lemma keeps_recv_address buf len : keeps (recv_address buf len).
Proof. unfold recv_address. cbv zeta. keeps_solve. Qed.
#[local] Hint Resolve keeps_recv_address : ldp.

Lemma keeps_msg_loop f pdu len plen : keeps (msg_loop f pdu len plen).
Proof.
  revert pdu len plen. induction f as [|f IH]; intros; cbn [msg_loop]; unfold dispatch_msg; cbv zeta; keeps_solve.
Qed.
#[local] Hint Resolve keeps_msg_loop : ldp.
Lemma keeps_read_pdu pdu : keeps (read_pdu pdu).
Proof. unfold read_pdu. cbv zeta. keeps_solve. Qed.
#[local] Hint Resolve keeps_read_pdu : ldp.
Lemma keeps_pdu_loop f rbuf : keeps (pdu_loop f rbuf).
Proof. revert rbuf. induction f as [|f IH]; intros; cbn [pdu_loop]; keeps_solve. Qed.
#[local] Hint Resolve keeps_pdu_loop : ldp.

(** The whole reader. *)
Lemma keeps_session_read r rbuf : keeps (session_read r rbuf).
Proof. destruct r; cbn [session_read]; keeps_solve. Qed.
End Keeps.

(** ** Reading as an event *)

(** A stream the reader survives: bytes, without the defects of [LabelSafe]. *)
Definition stream_ok (r : read_result) (rbuf : list Z) : Prop :=
  match r with
  | ReadData bytes =>
      bytes_ok (rbuf ++ bytes) /\ forall f, ~ stream_fault (rbuf ++ bytes) f
  | _ => True
  end.
Definition stream_size (r : read_result) (rbuf : list Z) : Z :=
  match r with ReadData bytes => Z.of_nat (length (rbuf ++ bytes)) | _ => 0 end.

(** [rbuf]: what is left in the buffer of the connection. *)
Definition read_session (p : Z) (rbuf : list Z) (r : read_result) : ST disc unit :=
  on_nbr p (session_read r rbuf ;;; ret tt).

Section Reading.
Lemma session_read_ok r rbuf e : nbr_inv (e_nbr e) -> up e -> pids_ok e -> stream_ok r rbuf ->
  0 <= e_msgcnt e -> e_msgcnt e + stream_size r rbuf < 2 ^ 31 - 5 ->
  exists rest e', session_read r rbuf e = Ok (rest, e') /\ nbr_inv (e_nbr e').
Proof.
  intros Hi Hup Hp Hs H0 H1. destruct (wp_elim _ _ _ (wp_close_event true e Hi)) as (e1 & E1 & I1 & _).
  destruct r as [| | |bytes]; cbn [session_read stream_ok stream_size] in *;
    try (exists rbuf, e; by split); try (exists rbuf, e1; by rewrite (bind_ok _ _ _ _ _ E1)).
  destruct Hs as (Hb & Hf).
  pose proof (pdu_loop_robust (S (length (rbuf ++ bytes))) (rbuf ++ bytes) e Hb) as H.
  specialize (H ltac:(split; [done|]; split; [lia|by right]) Hup ltac:(lia)).
  destruct (pdu_loop _ _ e) as [[rest e']| | |]; [|naive_solver..]. destruct H. by exists rest, e'.
Qed.

Lemma read_session_ok p nb rbuf r s : disc_inv s -> find_ptr p (d_nbrs s) = Some nb ->
  n_state (dn_nbr nb) <> NBR_STA_PRESENT -> stream_ok r rbuf -> Z.of_nat (length (d_pids s)) < 2 ^ 32 - 1 ->
  d_msgcnt s + stream_size r rbuf < 2 ^ 31 - 5 ->
  exists s', read_session p rbuf r s = Ok (tt, s') /\ disc_inv s' /\ d_msgcnt s <= d_msgcnt s'.
Proof.
  intros I Hp Hst Hs Hpids Hc. pose proof (di_cnt _ I) as H0.
  destruct (session_read_ok r rbuf (ldpe_of s nb)) as (rest & e & E & Hi); try done.
  { exact (proj1 (di_nbr _ I _ _ Hp)). }
  destruct (keeps_session_read r rbuf _ _ _ E) as [Hn Hle]. cbn [ldpe_of e_nbr e_msgcnt] in Hn, Hle.
  exists (put_nbr p e s). split.
  - apply (on_nbr_ok s p nb); [done|]. by rewrite (bind_ok _ _ _ _ _ E).
  - split; [apply (put_nbr_inv s p nb); try done; lia|done].
Qed.
End Reading.

(** Ordinary traffic passes: a PDU with the mapping of a pseudowire (identifier,
    MTU and status), whose bytes are full of zeros and 128s, is no hostile
    stream. *)
Definition pwid_pdu : list Z :=
  ldp_pdu (le_val [4; 4; 4; 4]) (label_msg 8 MSG_TYPE_LABELMAPPING map_pwid_ex).

Lemma msg_fault_stuck type buf len f e : bytes_ok buf -> LDP_MSG_SIZE <= len < 2 ^ 16 -> len <= Z.of_nat (length buf) ->
  type <> MSG_TYPE_NOTIFICATION -> message_fault type buf len f -> stuck (recv_labelmessage buf len type) e.
Proof. intros ? ? ? ? [[_ H]|[? _]]; [by eapply label_fault_stuck|done]. Qed.

Lemma pwid_stream_ok : stream_ok (ReadData pwid_pdu) [].
Proof.
  split; [apply bytes_okb_ok; reflexivity|]. intros f H. cbn [app] in H.
  assert (exists pdu, session_get_pdu pwid_pdu = Some (pdu, []) /\ drop 10 pdu = label_msg 8 MSG_TYPE_LABELMAPPING map_pwid_ex)
    as (pdu & Eg & Ed) by (eexists; split; vm_compute; reflexivity).
  assert (forall f, ~ stream_fault [] f) as Hnil by (intros f' H'; inversion H'; discriminate).
  assert (forall f, ~ pdu_fault [] f) as Hnil'.
  { intros f' H'. inversion H' as [? ml ? Hml H1 H2|? ml ? Hml H1 H2]; subst; vm_compute in H2, H1; by destruct H2. }
  inversion H as [? ? ? ? E Hp|? ? ? ? E Hp]; subst; rewrite Eg in E; injection E as <- <-; [|by destruct (Hnil f)].
  rewrite Ed in Hp. inversion Hp as [? ml ? Hml H1 H2 Hm|? ml ? Hml H1 H2 Hm]; subst ml.
  - eapply (msg_fault_stuck _ _ _ _ ldpe_oper) in Hm; [|apply bytes_okb_ok; reflexivity|split; vm_compute; congruence|done|vm_compute; congruence].
    assert (exists e', recv_labelmessage (label_msg 8 MSG_TYPE_LABELMAPPING map_pwid_ex)
      (ntohs (le_val (slice 2 2 (label_msg 8 MSG_TYPE_LABELMAPPING map_pwid_ex))) + LDP_MSG_DEAD_LEN)
      (ntohs (le_val (slice 0 2 (label_msg 8 MSG_TYPE_LABELMAPPING map_pwid_ex)))) ldpe_oper = Ok (0, e')) as [e' E]
      by (eexists; vm_compute; reflexivity).
    by destruct (Hm _ _ E).
  - by destruct (Hnil' f).
Qed.
