(* ===== verification/Engine.v ===== *)
(** * The LDP engine's dispatcher (ldpd/ldpe.c)

    The main loop of the engine process: imsgs from the parent (links, addresses,
    sockets, router id, configuration) and from the label decision engine
    (batches of label messages, notifications), on top of the heap of
    [Discovery] and the configuration of [Config].  What the lde sends is the
    [lde_out] of [Ipc], which the model of the lde produces.

    [engine] adds what only the dispatcher keeps: its static variables (sockets
    announced by the parent, the configuration being received), the file
    descriptors that are open and the requests to the parent.  The set-up of the
    pipe to the lde, debug flags and relayed control answers are left out. *)
From stdpp Require Import prelude strings list.
From Stdlib Require Import ZArith Lia.
From S2P Require Import Prelude Util Wire Ipc Session LabelMsg Fec Hello Discovery Config.

Record engine := Engine {
  en_disc : disc;
  en_l2vpns : list l2vpn;              (* leconf->l2vpn_list *)
  en_nconf : option ldpd_conf;         (* static nconf *)
  en_disc_socket : Z;                  (* static disc_socket, ... *)
  en_edisc_socket : Z;
  en_session_socket : Z;
  en_fds : list Z;                     (* open descriptors *)
  en_requests : list Z                 (* IMSG_REQUEST_SOCKETS to the parent *)
}.

Definition set_en_disc (v : disc) (e : engine) : engine :=
  Engine v (en_l2vpns e) (en_nconf e) (en_disc_socket e) (en_edisc_socket e) (en_session_socket e)
    (en_fds e) (en_requests e).
Definition set_en_l2vpns (v : list l2vpn) (e : engine) : engine :=
  Engine (en_disc e) v (en_nconf e) (en_disc_socket e) (en_edisc_socket e) (en_session_socket e)
    (en_fds e) (en_requests e).
Definition set_en_nconf (v : option ldpd_conf) (e : engine) : engine :=
  Engine (en_disc e) (en_l2vpns e) v (en_disc_socket e) (en_edisc_socket e) (en_session_socket e)
    (en_fds e) (en_requests e).
Definition set_en_sockets (d x s : Z) (e : engine) : engine :=
  Engine (en_disc e) (en_l2vpns e) (en_nconf e) d x s (en_fds e) (en_requests e).
Definition set_en_fds (f : list Z -> list Z) (e : engine) : engine :=
  Engine (en_disc e) (en_l2vpns e) (en_nconf e) (en_disc_socket e) (en_edisc_socket e)
    (en_session_socket e) (f (en_fds e)) (en_requests e).
Definition set_en_requests (f : list Z -> list Z) (e : engine) : engine :=
  Engine (en_disc e) (en_l2vpns e) (en_nconf e) (en_disc_socket e) (en_edisc_socket e)
    (en_session_socket e) (en_fds e) (f (en_requests e)).

(** Code that works on the heap. *)
Definition in_disc {A} (m : ST disc A) : ST engine A := fun e =>
  let* r := m (en_disc e) in Ok (fst r, set_en_disc (snd r) e).

(** ** Sockets *)
Definition close_fd (fd : Z) : ST engine unit :=
  if fd =? -1 then ret tt else modify (set_en_fds (list_remove fd)).

Definition ldpe_setup_sockets (af disc_socket edisc_socket session_socket : Z) : ST engine unit :=
  in_disc (do c <- conf;
           lift (ldp_af_global_get c af) ;;;
           modify (set_conf (set_lc_global af (AfGlobal disc_socket edisc_socket session_socket)))).

Definition ldpe_close_sockets (af : Z) : ST engine unit :=
  do e <- get;
  do g <- in_disc (lift (ldp_af_global_get (d_conf (en_disc e)) af));
  close_fd (ag_disc_socket g) ;;; close_fd (ag_edisc_socket g) ;;; close_fd (ag_session_socket g) ;;;
  in_disc (modify (set_conf (set_lc_global af (AfGlobal (-1) (-1) (-1))))).

(** The transport address of the neighbours is renewed and the sessions we have
    to open are opened (end of [IMSG_SETUP_SOCKETS]). *)
Definition set_n_laddr (n : nbr) (v : ldpd_addr) : nbr :=
  Nbr (n_peerid n) (n_af n) (n_v4_enabled n) (n_v6_enabled n) (n_id n) v (n_raddr n) (n_state n)
    (n_idtimer_cnt n) (n_keepalive n) (n_max_pdu_len n) (n_tcp n) (n_ev_connect n) (n_timers n).
Definition set_dn_laddr (v : ldpd_addr) (n : dnbr) : dnbr :=
  Dnbr (dn_ptr n) (set_n_laddr (dn_nbr n) v) (dn_raddr_scope n) (dn_ds_tlv n) (dn_conf_seqnum n)
    (dn_flags n) (dn_adj_list n) (dn_wire n) (dn_lists n).

Definition reconnect_nbrs (env : Z -> conn_env) (af : Z) : ST disc unit :=
  do s <- get;
  foreach (fun n =>
    if negb (n_af (dn_nbr n) =? af) then ret tt
    else
      do c <- conf;
      do ac <- lift (ldp_af_conf_get c af);
      mod_dnbr (dn_ptr n) (set_dn_laddr (af_trans_addr ac)) ;;;
      do n' <- get_dnbr (dn_ptr n);
      do active <- lift (nbr_session_active_role (dn_nbr n'));
      if active then nbr_establish_connection (env (dn_ptr n)) (dn_ptr n) else ret tt) (d_nbrs s).

(** ** Label work of the lde *)
Inductive batch := BatchMapping | BatchRelease | BatchRequest | BatchWithdraw.

Definition batch_of (b : batch) (l : map_lists) : list ldp_map :=
  match b with
  | BatchMapping => ml_mapping l | BatchRelease => ml_release l
  | BatchRequest => ml_request l | BatchWithdraw => ml_withdraw l
  end.
Definition set_batch (b : batch) (v : list ldp_map) (l : map_lists) : map_lists :=
  match b with
  | BatchMapping => MapLists v (ml_release l) (ml_request l) (ml_withdraw l)
  | BatchRelease => MapLists (ml_mapping l) v (ml_request l) (ml_withdraw l)
  | BatchRequest => MapLists (ml_mapping l) (ml_release l) v (ml_withdraw l)
  | BatchWithdraw => MapLists (ml_mapping l) (ml_release l) (ml_request l) v
  end.
Definition batch_type (b : batch) : Z :=
  match b with
  | BatchMapping => MSG_TYPE_LABELMAPPING | BatchRelease => MSG_TYPE_LABELRELEASE
  | BatchRequest => MSG_TYPE_LABELREQUEST | BatchWithdraw => MSG_TYPE_LABELWITHDRAW
  end.

(** [RB_FIND] in nbrs_by_pid, which holds the neighbours with an identifier. *)
Definition disc_find_peerid (s : disc) (peerid : Z) : option dnbr :=
  List.find (fun n => (n_peerid (dn_nbr n) =? peerid) && negb (peerid =? 0)) (d_nbrs s).

(** The operational neighbour an imsg is for, if any. *)
Definition with_oper (peerid : Z) (k : dnbr -> ST disc unit) : ST disc unit :=
  do s <- get;
  match disc_find_peerid s peerid with
  | None => ret tt
  | Some n => if negb (n_state (dn_nbr n) =? NBR_STA_OPER) then ret tt else k n
  end.

Definition mapping_list_add (b : batch) (m : ldp_map) (l : map_lists) : map_lists :=
  set_batch b (batch_of b l ++ [m]) l.

Definition dispatch_add (b : batch) (peerid : Z) (m : ldp_map) : ST disc unit :=
  with_oper peerid (fun n =>
    mod_dnbr (dn_ptr n) (fun n => set_dn_lists n (mapping_list_add b m (dn_lists n)))).

(** [send_labelmessage] on a list of the neighbour; what it leaves stays there. *)
Definition dispatch_end (b : batch) (peerid : Z) : ST disc unit :=
  with_oper peerid (fun n s =>
    let* r := send_labelmessage (batch_type b) (batch_of b (dn_lists n)) (ldpe_of s n) in
    mod_dnbr (dn_ptr n) (fun n => set_dn_lists n (set_batch b (fst r) (dn_lists n)))
      (put_nbr (dn_ptr n) (snd r) s)).

(** One imsg of the lde; answers to control requests are relayed, those for the
    kernel go to the parent. *)
Definition ldpe_dispatch_lde (m : lde_out) : ST disc unit :=
  match m with
  | MappingAdd pid map => dispatch_add BatchMapping pid map
  | MappingAddEnd pid => dispatch_end BatchMapping pid
  | WithdrawAdd pid map => dispatch_add BatchWithdraw pid map
  | WithdrawAddEnd pid => dispatch_end BatchWithdraw pid
  | ReleaseAdd pid map => dispatch_add BatchRelease pid map
  | ReleaseAddEnd pid => dispatch_end BatchRelease pid
  | NotificationSend pid nm => with_oper pid (fun n => on_nbr (dn_ptr n) (send_notification_full nm))
  | CtlShowLib _ | CtlEnd | CtlMldpLsp => ret tt
  | KlabelChange _ | KlabelDelete _ | KpwlabelChange _ | KpwlabelDelete _ => ret tt
  end.

(** ** Imsgs of the parent *)
Inductive socket_type := LDP_SOCKET_DISC | LDP_SOCKET_EDISC | LDP_SOCKET_SESSION.

Inductive main_imsg :=
| ImIfStatus (k : kif)
| ImNewAddr (k : kaddr)
| ImDelAddr (k : kaddr)
| ImCloseSockets (af : Z)
| ImSocketNet (t : socket_type) (fd : Z)
| ImSetupSockets (af : Z)
| ImRtridUpdate (rtr_id : Z)
| ImReconfConf (c : ldpd_conf)
| ImReconfIface (i : iface)
| ImReconfTnbr (t : tnbr)
| ImReconfNbrp (p : nbr_params)
| ImReconfL2vpn (v : l2vpn)
| ImReconfL2vpnIf (f : l2vpn_if)
| ImReconfL2vpnPw (p : pw_conf)
| ImReconfL2vpnIpw (p : pw_conf)
| ImReconfEnd.

(** [LIST_INSERT_HEAD] into a list of [nconf]. *)
Definition mod_nconf (f : ldpd_conf -> ldpd_conf) : ST engine unit :=
  do e <- get;
  match en_nconf e with
  | None => undef "no configuration is being received"
  | Some c => modify (set_en_nconf (Some (f c)))
  end.

Definition add_xc_iface (i : iface) (c : ldpd_conf) : ldpd_conf :=
  set_xc_lists (i :: xc_iface_list c) (xc_tnbr_list c) (xc_nbrp_list c) (xc_l2vpn_list c) c.
Definition add_xc_tnbr (t : tnbr) (c : ldpd_conf) : ldpd_conf :=
  set_xc_lists (xc_iface_list c) (t :: xc_tnbr_list c) (xc_nbrp_list c) (xc_l2vpn_list c) c.
Definition add_xc_nbrp (p : nbr_params) (c : ldpd_conf) : ldpd_conf :=
  set_xc_lists (xc_iface_list c) (xc_tnbr_list c) (p :: xc_nbrp_list c) (xc_l2vpn_list c) c.
Definition add_xc_l2vpn (v : l2vpn) (c : ldpd_conf) : ldpd_conf :=
  set_xc_lists (xc_iface_list c) (xc_tnbr_list c) (xc_nbrp_list c) (v :: xc_l2vpn_list c) c.

(** The copies of the structures, with lists of their own. *)
Definition fresh_iface (i : iface) : iface :=
  Iface (if_ptr i) (if_name i) (if_ifindex i) [] (if_linklocal i) (if_type i) (if_flags i)
    (set_ia_adj_list (if_ipv4 i) []) (set_ia_adj_list (if_ipv6 i) []).
Definition fresh_l2vpn (v : l2vpn) : l2vpn :=
  L2vpn (lv_name v) (lv_type v) (lv_pw_type v) (lv_mtu v) (lv_br_ifname v) (lv_br_ifindex v) [] [] [].

(** The static [nl2vpn] is the L2VPN received last, the first of the list. *)
Definition mod_nl2vpn (f : l2vpn -> l2vpn) : ST engine unit :=
  do e <- get;
  match en_nconf e with
  | None => undef "no configuration is being received"
  | Some c =>
      match xc_l2vpn_list c with
      | [] => undef "no L2VPN is being received"
      | v :: l => modify (set_en_nconf (Some (set_xc_lists (xc_iface_list c) (xc_tnbr_list c)
                                                (xc_nbrp_list c) (f v :: l) c)))
      end
  end.
Definition add_l2vpn_if (f : l2vpn_if) (v : l2vpn) : l2vpn :=
  L2vpn (lv_name v) (lv_type v) (lv_pw_type v) (lv_mtu v) (lv_br_ifname v) (lv_br_ifindex v)
    (f :: lv_if_list v) (lv_pw_list v) (lv_pw_inactive_list v).
Definition add_l2vpn_pw (p : pw_conf) (v : l2vpn) : l2vpn :=
  L2vpn (lv_name v) (lv_type v) (lv_pw_type v) (lv_mtu v) (lv_br_ifname v) (lv_br_ifindex v)
    (lv_if_list v) (p :: lv_pw_list v) (lv_pw_inactive_list v).
Definition add_l2vpn_ipw (p : pw_conf) (v : l2vpn) : l2vpn :=
  L2vpn (lv_name v) (lv_type v) (lv_pw_type v) (lv_mtu v) (lv_br_ifname v) (lv_br_ifindex v)
    (lv_if_list v) (lv_pw_list v) (p :: lv_pw_inactive_list v).

(** [IMSG_CLOSE_SOCKETS] and [IMSG_SETUP_SOCKETS]. *)
Definition close_sockets_imsg (env : sys_env) (af : Z) : ST engine unit :=
  in_disc (ldpe_reset_nbrs af) ;;;
  ldpe_close_sockets af ;;;
  in_disc (if_update_all (se_join env) af) ;;;
  in_disc (tnbr_update_all af) ;;;
  modify (set_en_sockets (-1) (-1) (-1)) ;;;
  do e <- get;
  do ac <- in_disc (lift (ldp_af_conf_get (d_conf (en_disc e)) af));
  if has_flag (af_flags ac) F_LDPD_AF_ENABLED then modify (set_en_requests (fun l => l ++ [af])) else ret tt.

Definition setup_sockets_imsg (env : sys_env) (af : Z) : ST engine unit :=
  do e <- get;
  if (en_disc_socket e =? -1) || (en_edisc_socket e =? -1) || (en_session_socket e =? -1) then
    close_fd (en_disc_socket e) ;;; close_fd (en_edisc_socket e) ;;; close_fd (en_session_socket e)
  else
    ldpe_setup_sockets af (en_disc_socket e) (en_edisc_socket e) (en_session_socket e) ;;;
    in_disc (if_update_all (se_join env) af) ;;;
    in_disc (tnbr_update_all af) ;;;
    in_disc (reconnect_nbrs (se_conn env SiteSetup) af).

(** [IMSG_IFSTATUS]. *)
Definition if_status_imsg (env : sys_env) (k : kif) : ST disc unit :=
  do s <- get;
  match if_lookup_name (d_ifaces s) (kif_ifname k) with
  | None => ret tt
  | Some i => mod_iface (if_ptr i) (if_update_info k) ;;;
              if_update (se_join env (if_ptr i)) (if_ptr i) AF_UNSPEC
  end.

(** [IMSG_RTRID_UPDATE]. *)
Definition rtrid_imsg (env : sys_env) (id : Z) : ST disc unit :=
  modify (set_conf (set_lc_sess (set_c_global_rtr_id id))) ;;;
  do c <- conf;
  (if c_rtr_id (lc_sess c) =? INADDR_ANY
   then ldpe_reset_nbrs AF_INET ;;; ldpe_reset_nbrs AF_INET6 else ret tt) ;;;
  if_update_all (se_join env) AF_UNSPEC ;;; tnbr_update_all AF_UNSPEC.

(** [IMSG_RECONF_END]; without a configuration a null pointer is followed. *)
Definition reconf_end_imsg (env : sys_env) : ST engine unit :=
  do e <- get;
  match en_nconf e with
  | None => undef "no configuration is being received"
  | Some x =>
      do vpns <- in_disc (merge_config env (en_l2vpns e) x);
      modify (set_en_l2vpns vpns) ;;;
      modify (set_en_nconf None) ;;;
      in_disc (modify (set_conf (fun c => set_lc_conf_seqnum (u32 (lc_conf_seqnum c + 1)) c)))
  end.

Definition join_at (env : sys_env) (s : disc) (ifindex : Z) : Z -> bool :=
  match if_lookup s ifindex with Some i => se_join env (if_ptr i) | None => fun _ => true end.

Definition ldpe_dispatch_main (env : sys_env) (m : main_imsg) : ST engine unit :=
  match m with
  | ImIfStatus k => in_disc (if_status_imsg env k)
  | ImNewAddr k => in_disc (do s <- get; if_addr_add (join_at env s (ka_ifindex k)) k)
  | ImDelAddr k => in_disc (do s <- get; if_addr_del (join_at env s (ka_ifindex k)) k)
  | ImCloseSockets af => close_sockets_imsg env af
  | ImSocketNet t fd =>
      do e <- get;
      modify (set_en_fds (fun l => if fd =? -1 then l else fd :: l)) ;;;
      modify (match t with
              | LDP_SOCKET_DISC => set_en_sockets fd (en_edisc_socket e) (en_session_socket e)
              | LDP_SOCKET_EDISC => set_en_sockets (en_disc_socket e) fd (en_session_socket e)
              | LDP_SOCKET_SESSION => set_en_sockets (en_disc_socket e) (en_edisc_socket e) fd
              end)
  | ImSetupSockets af => setup_sockets_imsg env af
  | ImRtridUpdate id => in_disc (rtrid_imsg env id)
  | ImReconfConf c => modify (set_en_nconf (Some (set_xc_lists [] [] [] [] c)))
  | ImReconfIface i => mod_nconf (add_xc_iface (fresh_iface i))
  | ImReconfTnbr t => mod_nconf (add_xc_tnbr t)
  | ImReconfNbrp p => mod_nconf (add_xc_nbrp p)
  | ImReconfL2vpn v => mod_nconf (add_xc_l2vpn (fresh_l2vpn v))
  | ImReconfL2vpnIf f => mod_nl2vpn (add_l2vpn_if f)
  | ImReconfL2vpnPw p => mod_nl2vpn (add_l2vpn_pw p)
  | ImReconfL2vpnIpw p => mod_nl2vpn (add_l2vpn_ipw p)
  | ImReconfEnd => reconf_end_imsg env
  end.

(** ** What the parent sends of a configuration ([main_imsg_send_config], ldpd.c) *)
Definition send_l2vpn (v : l2vpn) : list main_imsg :=
  ImReconfL2vpn v :: map ImReconfL2vpnIf (lv_if_list v) ++ map ImReconfL2vpnPw (lv_pw_list v)
    ++ map ImReconfL2vpnIpw (lv_pw_inactive_list v).
Definition main_imsg_send_config (c : ldpd_conf) : list main_imsg :=
  ImReconfConf c :: map ImReconfIface (xc_iface_list c) ++ map ImReconfTnbr (xc_tnbr_list c)
    ++ map ImReconfNbrp (xc_nbrp_list c) ++ concat (map send_l2vpn (xc_l2vpn_list c)) ++ [ImReconfEnd].

(** What it sends of the sockets; [made]: the descriptor it created, if any. *)
Definition main_imsg_send_net_socket (made : socket_type -> option Z) (t : socket_type) : list main_imsg :=
  match made t with None => [] | Some fd => [ImSocketNet t fd] end.
Definition main_imsg_send_net_sockets (c : ldpd_conf) (made : socket_type -> option Z) (af : Z)
    : res (list main_imsg) :=
  let* x := (if af =? AF_INET then Ok (xc_ipv4 c)
             else if af =? AF_INET6 then Ok (xc_ipv6 c) else Fatal "ldp_af_conf_get: unknown af") in
  let* set := ldp_addrisset af (af_trans_addr (xa_conf x)) in
  Ok (if set =? 0 then []
      else main_imsg_send_net_socket made LDP_SOCKET_DISC ++ main_imsg_send_net_socket made LDP_SOCKET_EDISC
             ++ main_imsg_send_net_socket made LDP_SOCKET_SESSION ++ [ImSetupSockets af]).

(** ** Shutdown *)
Fixpoint del_all_adjs (fuel : nat) : ST disc unit :=
  match fuel with
  | O => nofuel
  | S f =>
      do s <- get;
      match d_adjs s with
      | [] => ret tt
      | a :: _ => adj_del (a_ptr a) S_SHUTDOWN ;;; del_all_adjs f
      end
  end.

Definition ldpe_shutdown (env : sys_env) : ST engine unit :=
  do e <- get;
  do vpns <- in_disc (config_clear env (en_l2vpns e));
  modify (set_en_l2vpns vpns) ;;;
  ldpe_close_sockets AF_INET ;;;
  ldpe_close_sockets AF_INET6 ;;;
  in_disc (modify (set_addr_list (fun _ => []))) ;;;
  in_disc (do s <- get; del_all_adjs (S (length (d_adjs s)))).
