(* ===== verification/EngineSafe.v ===== *)
(** * The LDP engine as a transition system

    Everything that wakes the engine up: the events of discovery and sessions
    ([DiscSystem]), the bytes of a session ([SessRead]), imsgs of the parent and
    imsgs of the lde.  No sequence of
    them makes the engine exit or follow a dangling pointer, as long as a
    configuration does not take away an interface on which an inactive family
    still has adjacencies ([gone_quiet], see [freed_interface_dangles]). *)
From stdpp Require Import prelude strings list.
From Stdlib Require Import ZArith Lia.
From S2P Require Import Prelude Util Wire Ipc Session LabelMsg Fec Hello Discovery DiscInv DiscSafe DiscRun.
From S2P Require Import LabelSafe Recv SessRead DiscFrame DiscSystem Config HeapLoops ConfigSafe Engine.

(** ** The invariant of the engine *)
Record engine_ok (e : engine) : Prop := EngineOk {
  eo_disc : disc_ok (en_disc e);
  eo_l2vpns : Forall l2vpn_ok (en_l2vpns e);
  eo_nconf : forall x, en_nconf e = Some x -> conf_new_ok x
}.

(** [eruns k m e]: [m] returns from [e] with the invariant and numbers at most
    [k] messages. *)
Definition eruns (k : Z) (m : ST engine unit) (e : engine) : Prop :=
  exists e', m e = Ok (tt, e') /\ engine_ok e' /\
    d_msgcnt (en_disc e) <= d_msgcnt (en_disc e') <= d_msgcnt (en_disc e) + k.

Section Contract.
Lemma in_disc_ok {A} (m : ST disc A) e a s : m (en_disc e) = Ok (a, s) -> in_disc m e = Ok (a, set_en_disc s e).
Proof. intros E. unfold in_disc. by rewrite E. Qed.

Lemma engine_disc_ok e s : engine_ok e -> disc_ok s -> engine_ok (set_en_disc s e).
Proof. by intros [] ?. Qed.

Lemma eruns_ret e k : engine_ok e -> 0 <= k -> eruns k (ret tt) e.
Proof. intros H Hk. exists e. split_and!; (done || lia). Qed.

Lemma eruns_mono k k' m e : eruns k m e -> k <= k' -> eruns k' m e.
Proof. intros (e' & E & H & C) Hk. exists e'. split_and!; (done || lia). Qed.

(** Steps that number nothing. *)
Lemma eruns_step {A} k (m : ST engine A) f e a e1 : m e = Ok (a, e1) ->
  d_msgcnt (en_disc e1) = d_msgcnt (en_disc e) -> eruns k (f a) e1 -> eruns k (bind m f) e.
Proof.
  intros E Ec (e' & E' & H & C). exists e'. rewrite (bind_ok _ _ _ _ _ E). split_and!; (done || lia).
Qed.
Lemma eruns_get k f e : eruns k (f e) e -> eruns k (bind get f) e.
Proof. by apply eruns_step. Qed.
Lemma eruns_modify k g f e : d_msgcnt (en_disc (g e)) = d_msgcnt (en_disc e) ->
  eruns k (f tt) (g e) -> eruns k (bind (modify g) f) e.
Proof. by apply eruns_step. Qed.

(** Code on the heap that leaves the router's addresses alone. *)
Lemma disc_kept {A} k (m : ST disc A) Q e : engine_ok e -> stays addr_rel m -> returns k m Q (en_disc e) ->
  exists a s, m (en_disc e) = Ok (a, s) /\ engine_ok (set_en_disc s e) /\ Q a s /\
    d_msgcnt (en_disc e) <= d_msgcnt s <= d_msgcnt (en_disc e) + k.
Proof.
  intros He Hm (a & s & E & I & C & HQ). exists a, s. split_and!; try done; try lia.
  apply engine_disc_ok; [done|]. split; [done|]. unfold addrs_ok. rewrite (Hm _ _ _ E). apply He.
Qed.
Lemma eruns_disc k m Q e : engine_ok e -> stays addr_rel m -> returns k m Q (en_disc e) -> eruns k (in_disc m) e.
Proof.
  intros He Hm Hr. destruct (disc_kept k m Q e He Hm Hr) as ([] & s & E & H & _ & C).
  exists (set_en_disc s e). by rewrite (in_disc_ok _ _ _ _ E).
Qed.
Lemma eruns_bind {A} k1 k2 (m : ST disc A) f Q e : engine_ok e -> stays addr_rel m ->
  returns k1 m Q (en_disc e) ->
  (forall a s, engine_ok (set_en_disc s e) -> Q a s ->
     d_msgcnt (en_disc e) <= d_msgcnt s <= d_msgcnt (en_disc e) + k1 -> eruns k2 (f a) (set_en_disc s e)) ->
  eruns (k1 + k2) (bind (in_disc m) f) e.
Proof.
  intros He Hm Hr Hf. destruct (disc_kept k1 m Q e He Hm Hr) as (a & s & E & H & HQ & C).
  destruct (Hf a s H HQ C) as (e' & E' & H' & C'). exists e'.
  rewrite (bind_ok _ _ _ _ _ (in_disc_ok _ _ _ _ E)). cbn [set_en_disc en_disc] in C'. split_and!; (done || lia).
Qed.
End Contract.

(** ** Work for one neighbour *)
Section Oper.
Lemma nbr_of_list s n : disc_inv s -> n ∈ d_nbrs s -> find_ptr (dn_ptr n) (d_nbrs s) = Some n.
Proof. intros I Hn. apply (find_ptr_in _ n); [apply (di_nbrs _ I)|done]. Qed.

Lemma find_peerid_in s pid n : disc_find_peerid s pid = Some n -> n ∈ d_nbrs s.
Proof. intros H. by apply list_find_in in H as [? _]. Qed.

Lemma set_dn_lists_inv s p f : disc_inv s -> p ∈ ptrs (d_nbrs s) ->
  (forall n, exists l, f n = set_dn_lists n l) ->
  exists s', mod_dnbr p f s = Ok (tt, s') /\ disc_inv s' /\ d_msgcnt s' = d_msgcnt s.
Proof.
  intros I Hp Hf. apply find_ptr_is_some in Hp as [nb Hp]. exists (set_nbrs (upd_ptr p f) s).
  split; [by apply (mod_dnbr_ok s p nb)|]. split; [|done]. destruct (Hf nb) as [l El].
  apply (upd_nbr_inv s p nb); try done; try by rewrite El.
  - intros x. by destruct (Hf x) as [? ->].
  - rewrite El. exact (proj1 (di_nbr _ I _ _ Hp)).
Qed.

Lemma with_oper_returns k pid m s : disc_inv s -> 0 <= k ->
  (forall n, n ∈ d_nbrs s -> disc_find_peerid s pid = Some n -> n_state (dn_nbr n) = NBR_STA_OPER ->
     returns k (m n) (fun _ _ => True) s) ->
  returns k (with_oper pid m) (fun _ _ => True) s.
Proof.
  intros I Hk Hm. apply returns_get. destruct (disc_find_peerid s pid) as [n|] eqn:E; [|by apply returns_ret].
  destruct (negb _) eqn:Es; zbool; [by apply returns_ret|]. apply Hm; try done. by eapply find_peerid_in.
Qed.

Lemma dispatch_add_returns b pid m s : disc_inv s -> returns 0 (dispatch_add b pid m) (fun _ _ => True) s.
Proof.
  intros I. apply with_oper_returns; try done. intros n Hn _ _.
  destruct (set_dn_lists_inv s (dn_ptr n) (fun n => set_dn_lists n (mapping_list_add b m (dn_lists n))) I)
    as (s' & E & I' & C); [by apply nbr_in|by eexists|].
  exists tt, s'. split_and!; (done || lia).
Qed.

(** The batches an operational neighbour has collected can be encoded. *)
Definition batch_ok (b : batch) (pid : Z) (s : disc) : Prop :=
  forall n, disc_find_peerid s pid = Some n -> n_state (dn_nbr n) = NBR_STA_OPER ->
    Forall label_sendable (batch_of b (dn_lists n)) /\ 76 <= n_max_pdu_len (dn_nbr n) < 2 ^ 16.
Definition batch_size (b : batch) (pid : Z) (s : disc) : Z :=
  match disc_find_peerid s pid with Some n => Z.of_nat (length (batch_of b (dn_lists n))) | None => 0 end.

Lemma rearmed_inv n : nbr_inv n -> n_state n = NBR_STA_OPER -> nbr_inv (rearmed n).
Proof.
  intros [A B C D F G H] Hst. unfold rearmed. split; cbn; try done; rewrite ?Hst; try done.
Qed.

(** The label messages of a batch, and the neighbour behind it. *)
Lemma send_batch_ok b n s : disc_inv s -> n ∈ d_nbrs s -> n_state (dn_nbr n) = NBR_STA_OPER ->
  76 <= n_max_pdu_len (dn_nbr n) < 2 ^ 16 -> Forall label_sendable (batch_of b (dn_lists n)) ->
  room (Z.of_nat (length (batch_of b (dn_lists n)))) s ->
  exists e, send_labelmessage (batch_type b) (batch_of b (dn_lists n)) (ldpe_of s n) = Ok ([], e) /\
    disc_inv (put_nbr (dn_ptr n) e s) /\
    e_msgcnt e = d_msgcnt s + Z.of_nat (length (batch_of b (dn_lists n))) /\
    (batch_of b (dn_lists n) <> [] -> exists groups, concat groups = batch_of b (dn_lists n) /\
       sent (ldpe_of s n) e (pdu_bodies (d_msgcnt s + 1) (batch_type b) groups)) /\
    (batch_of b (dn_lists n) = [] -> e = ldpe_of s n).
Proof.
  intros I Hn Hst Hmax Hl Hr. unfold room in Hr. pose proof (di_cnt _ I) as H0.
  pose proof (nbr_of_list s n I Hn) as Hf. pose proof (proj1 (di_nbr _ I _ _ Hf)) as Hi.
  destruct (batch_of b (dn_lists n)) as [|m l] eqn:El.
  - exists (ldpe_of s n). cbn [length]. split_and!; try done; [|cbn; lia].
    by apply (put_nbr_inv s _ n).
  - assert (send_ok (ldpe_of s n)) as Hok by (split_and!; try done; [cbn; rewrite (si_tcp _ _ Hi), Hst; done|cbn; lia..]).
    destruct (send_labelmessage_ok (batch_type b) (m :: l) (ldpe_of s n)) as (e & groups & E & C & S & N);
      try done; [cbn [ldpe_of e_msgcnt]; lia|].
    exists e. split_and!; try done; [|by exists groups].
    apply (put_nbr_inv s _ n); try done; rewrite ?(st_nbr _ _ _ S); [by apply rearmed_inv|done|cbn in N; lia].
Qed.

Lemma dispatch_end_returns b pid s : disc_inv s -> batch_ok b pid s -> room (batch_size b pid s) s ->
  returns (batch_size b pid s) (dispatch_end b pid) (fun _ _ => True) s.
Proof.
  intros I Hb Hr. apply with_oper_returns; try done.
  { unfold batch_size. case_match; lia. }
  intros n Hn Hf Hst. destruct (Hb n Hf Hst) as [Hl Hmax]. unfold batch_size in *. rewrite Hf in *.
  destruct (send_batch_ok b n s) as (e & E & Ie & Ce & _); try done. unfold returns. rewrite E. cbn [fst snd].
  destruct (set_dn_lists_inv (put_nbr (dn_ptr n) e s) (dn_ptr n)
    (fun n => set_dn_lists n (set_batch b [] (dn_lists n))) Ie) as (s' & E' & I' & C').
  - rewrite (st_nps _ _ (put_nbr_still _ e s)). by apply nbr_in.
  - by eexists.
  - exists tt, s'. cbn in C'. cbn [rbind fst snd]. rewrite E'. split_and!; (done || lia).
Qed.

(** Notifications whose FEC has a prefix length. *)
Definition notify_ok (nm : notify_msg) : Prop :=
  has_flag (nm_flags nm) F_NOTIF_FEC = true -> m_type (nm_fec nm) = MAP_TYPE_PREFIX ->
  0 <= pe_prefixlen (m_prefix (nm_fec nm)) <= 128.

Lemma gsafe_fec m : (m_type m = MAP_TYPE_PREFIX -> 0 <= pe_prefixlen (m_prefix m) <= 128) -> gsafe (gen_fec_tlv m).
Proof.
  intros H. unfold gen_fec_tlv. cbv zeta.
  destruct (_ =? MAP_TYPE_WILDCARD); [repeat apply gsafe_seq; apply gsafe_add|].
  destruct (_ =? MAP_TYPE_PREFIX) eqn:E; zbool.
  - pose proof (PREFIX_SIZE_bound _ (H E)). repeat apply gsafe_seq; try apply gsafe_add.
    destruct (_ =? 0); [apply gsafe_ret|]. destruct (_ >? 16) eqn:E2; zbool; [lia|apply gsafe_add].
  - destruct (_ =? MAP_TYPE_PWID); [|apply gsafe_ret].
    repeat apply gsafe_seq; try apply gsafe_add; (case_match; [|apply gsafe_ret]);
      repeat apply gsafe_seq; apply gsafe_add.
Qed.

Lemma send_notification_full_ok nm e : notify_ok nm -> n_tcp (e_nbr e) = true -> 0 <= e_msgcnt e < 2 ^ 31 - 1 ->
  exists e', send_notification_full nm e = Ok (tt, e') /\ sends e e'.
Proof.
  intros Hnm Ht Hc. unfold send_notification_full. rewrite (bind_ok get _ e e e) by done.
  eapply (send_shape _ (fun cnt => _ |+| gen_msg_hdr cnt _ _ |+| _ |+| _ |+| _) true); auto.
  intros. repeat apply gsafe_seq; try apply gsafe_add; case_match; try apply gsafe_add; try apply gsafe_ret.
  apply gsafe_fec. by apply Hnm.
Qed.

Lemma notify_returns pid nm s : disc_inv s -> notify_ok nm -> room 1 s ->
  returns 1 (with_oper pid (fun n => on_nbr (dn_ptr n) (send_notification_full nm))) (fun _ _ => True) s.
Proof.
  intros I Hnm Hr. unfold room in Hr. apply with_oper_returns; try done. intros n Hn _ Hst.
  pose proof (nbr_of_list s n I Hn) as Hf. pose proof (proj1 (di_nbr _ I _ _ Hf)) as Hi.
  pose proof (di_cnt _ I).
  destruct (send_notification_full_ok nm (ldpe_of s n) Hnm) as (e & E & S).
  { cbn. by rewrite (si_tcp _ _ Hi), Hst. }
  { cbn. lia. }
  pose proof (sd_cnt _ _ S) as C. cbn in C.
  exists tt, (put_nbr (dn_ptr n) e s). split; [by eapply on_nbr_ok|].
  split; [|split; [cbn; lia|done]].
  apply (put_nbr_inv s _ n); try done; rewrite ?(sd_nbr _ _ S); try done. lia.
Qed.
End Oper.

(** ** Imsgs of the parent *)
Section Main.

Lemma set_laddr_still s p v : disc_inv s -> p ∈ ptrs (d_nbrs s) ->
  exists s' n, mod_dnbr p (set_dn_laddr v) s = Ok (tt, s') /\ get_dnbr p s' = Ok (n, s') /\
    disc_inv s' /\ still s s' /\ d_msgcnt s' = d_msgcnt s /\ nbr_inv (dn_nbr n).
Proof.
  intros I Hp. apply find_ptr_is_some in Hp as [nb Hp]. exists (set_nbrs (upd_ptr p (set_dn_laddr v)) s), (set_dn_laddr v nb).
  split; [by apply (mod_dnbr_ok s p nb)|]. split.
  { apply get_dnbr_ok. cbn. by rewrite find_ptr_upd, Z.eqb_refl, Hp. }
  pose proof (proj1 (di_nbr _ I _ _ Hp)) as Hi.
  assert (nbr_inv (dn_nbr (set_dn_laddr v nb))) as Hi' by (destruct Hi; by split).
  split_and!; try done; [by apply (upd_nbr_inv s p nb)|]. split; try done. cbn. by apply ptrs_upd.
Qed.

Lemma reconnect_returns env af B s : disc_inv s -> af_ok af -> sized B s -> room (B * (B + 1)) s ->
  returns (B * (B + 1)) (reconnect_nbrs env af) (fun _ s' => still s s') s.
Proof.
  intros I Haf HB Hr. apply returns_get. pose proof HB as [HA HN].
  assert (Z.of_nat (length (d_nbrs s)) * (B + 1) <= B * (B + 1)) as Hle by (apply Z.mul_le_mono_nonneg_r; lia).
  eapply returns_mono; [apply (foreach_rel _ (B + 1) still)| |]; try done; try typeclasses eauto;
    [lia| |unfold room in *; lia].
  intros n s1 Hn I1 S1 Hr1. destruct (negb _); [apply returns_ret; (done || lia)|]. apply returns_conf.
  assert (exists ac, ldp_af_conf_get (d_conf s1) af = Ok ac) as [ac Eac] by (destruct Haf as [-> | ->]; by eexists).
  apply (returns_lift _ _ _ _ _ ac Eac).
  assert (dn_ptr n ∈ ptrs (d_nbrs s1)) as Hp by (rewrite (st_nps _ _ S1); by apply nbr_in).
  destruct (set_laddr_still s1 (dn_ptr n) (af_trans_addr ac) I1 Hp) as (s2 & n' & E2 & G2 & I2 & S2 & C2 & Hi).
  apply (returns_step _ _ _ _ _ _ _ E2 C2), (returns_step _ _ _ _ _ _ _ G2 eq_refl).
  destruct (active_role_ok _ Hi) as [b Eb]. apply (returns_lift _ _ _ _ _ b Eb).
  destruct b; [|apply returns_ret; (done || lia)]. unfold room in Hr1.
  eapply returns_mono; [apply (establish_returns _ s2 _ B); try done| |].
  - by rewrite (st_nps _ _ S2).
  - eapply fewer_sized; [done|exact (sm_fewer _ _ (proj1 (still_smaller _ _ S2)))|].
    eapply fewer_sized; [done|exact (sm_fewer _ _ (proj1 (still_smaller _ _ S1)))|done].
  - unfold room. lia.
  - lia.
  - intros [] s3 _ S3. by etrans.
Qed.

(** Interfaces and targeted neighbours are brought up to date. *)
Definition update_cost (s : disc) : Z :=
  Z.of_nat (length (d_ifaces s)) * (10 * heap_size s + 2) + Z.of_nat (length (d_tnbrs s)).

Lemma update_cost_nonneg s : 0 <= update_cost s.
Proof.
  unfold update_cost, heap_size. apply Z.add_nonneg_nonneg; [apply Z.mul_nonneg_nonneg|]; lia.
Qed.

Lemma updates_return j af s0 s : disc_inv s -> smaller_t s0 s -> room (update_cost s0) s ->
  returns (update_cost s0) (if_update_all j af ;;; tnbr_update_all af) (fun _ s' => smaller_t s0 s') s.
Proof.
  intros I S Hr. unfold update_cost in *. unfold room in Hr. destruct S as [S ST]. set (B := heap_size s0) in *.
  assert (sized B s) as HB by (apply (smaller_sized _ s0 s); try done; apply heap_sized).
  assert (0 <= Z.of_nat (length (d_ifaces s0)) * (10 * B + 2)) by (destruct HB; apply Z.mul_nonneg_nonneg; lia).
  pose proof (f_equal length ST) as Hlt. unfold ptrs in Hlt. rewrite !length_fmap in Hlt.
  eapply returns_bind.
  { apply (if_update_all_returns j af B (Z.of_nat (length (d_ifaces s0)))); try done;
      [rewrite (smaller_ifaces _ _ S); lia|unfold room; lia]. }
  intros [] s1 I1 [S1 T1] C1. pose proof (f_equal length T1) as Hlt1. unfold ptrs in Hlt1.
  rewrite !length_fmap in Hlt1.
  eapply returns_mono; [apply (tnbr_update_all_returns af (Z.of_nat (length (d_tnbrs s0)))); try done;
    [lia|unfold room; lia]|lia|].
  intros [] s2 _ S2. etrans; [by split|]. etrans; [by split|by apply still_smaller].
Qed.

Lemma addr_updates j af : stays addr_rel (if_update_all j af ;;; tnbr_update_all af).
Proof. stays_solve. Qed.
Lemma addr_reconnect env af : stays addr_rel (reconnect_nbrs env af).
Proof. unfold reconnect_nbrs. stays_solve. Qed.

Lemma in_disc_seq (m1 m2 : ST disc unit) (f : unit -> ST engine unit) e :
  bind (in_disc m1) (fun _ => bind (in_disc m2) f) e = bind (in_disc (m1 ;;; m2)) f e.
Proof.
  unfold in_disc, bind. cbn [rbind]. destruct (m1 (en_disc e)) as [[[] s]| | |]; cbn [rbind fst snd]; try done.
Qed.
Lemma in_disc_seq_last (m1 m2 : ST disc unit) e :
  bind (in_disc m1) (fun _ => in_disc m2) e = in_disc (m1 ;;; m2) e.
Proof.
  unfold in_disc, bind. cbn [rbind]. destruct (m1 (en_disc e)) as [[[] s]| | |]; cbn [rbind fst snd]; done.
Qed.

Lemma close_fd_ok fd e : exists f, close_fd fd e = Ok (tt, set_en_fds f e).
Proof.
  unfold close_fd. destruct (fd =? -1); [exists (fun l => l)|by eexists]. by destruct e.
Qed.
Lemma close_fds_ok a b c e : exists f, (close_fd a ;;; close_fd b ;;; close_fd c) e = Ok (tt, set_en_fds f e).
Proof.
  destruct (close_fd_ok a e) as [f1 E1]. destruct (close_fd_ok b (set_en_fds f1 e)) as [f2 E2].
  destruct (close_fd_ok c (set_en_fds f2 (set_en_fds f1 e))) as [f3 E3].
  exists (fun l => f3 (f2 (f1 l))). by rewrite (bind_ok _ _ _ _ _ E1), (bind_ok _ _ _ _ _ E2), E3.
Qed.
Lemma close_sockets_ok af e : af_ok af -> exists f,
  ldpe_close_sockets af e
  = Ok (tt, set_en_disc (set_conf (set_lc_global af (AfGlobal (-1) (-1) (-1))) (en_disc e)) (set_en_fds f e)).
Proof.
  intros Haf. unfold ldpe_close_sockets. rewrite (bind_ok get _ e e e) by done.
  assert (exists g, ldp_af_global_get (d_conf (en_disc e)) af = Ok g) as [g Eg] by (destruct Haf as [-> | ->]; by eexists).
  rewrite (bind_ok _ _ e g e) by (unfold in_disc, lift; rewrite Eg; by destruct e).
  destruct (close_fd_ok (ag_disc_socket g) e) as [f1 E1].
  destruct (close_fd_ok (ag_edisc_socket g) (set_en_fds f1 e)) as [f2 E2].
  destruct (close_fd_ok (ag_session_socket g) (set_en_fds f2 (set_en_fds f1 e))) as [f3 E3].
  exists (fun l => f3 (f2 (f1 l))). by rewrite (bind_ok _ _ _ _ _ E1), (bind_ok _ _ _ _ _ E2), (bind_ok _ _ _ _ _ E3).
Qed.

Lemma closed_ok e s f : engine_ok e -> disc_ok s -> engine_ok (set_en_disc s (set_en_fds f e)).
Proof. by intros [] ?. Qed.
Lemma conf_disc_ok f s : disc_ok s -> disc_ok (set_conf f s).
Proof. intros [I A]. split; [by apply set_conf_inv|done]. Qed.
Lemma room_left k k1 s s' : room (k1 + k) s -> d_msgcnt s' <= d_msgcnt s + k1 -> room k s'.
Proof. unfold room. lia. Qed.

Lemma close_imsg_runs env af e : engine_ok e -> af_ok af ->
  room (3 * heap_size (en_disc e) + update_cost (en_disc e)) (en_disc e) ->
  eruns (3 * heap_size (en_disc e) + update_cost (en_disc e)) (close_sockets_imsg env af) e.
Proof.
  intros He Haf Hr. destruct (eo_disc _ He) as [I _]. pose proof (update_cost_nonneg (en_disc e)).
  unfold close_sockets_imsg.
  eapply eruns_bind; [done|apply addr_reset_nbrs|apply reset_nbrs_returns; try done; [apply heap_sized|]|].
  { eapply room_le; [exact Hr|lia]. }
  intros [] s1 H1 S1 C1. destruct (close_sockets_ok af (set_en_disc s1 e) Haf) as [f Ef].
  eapply eruns_step; [exact Ef|done|]. cbn [en_disc set_en_disc].
  set (s2 := set_conf _ s1). set (e2 := set_en_disc s2 _).
  assert (engine_ok e2) as H2 by (apply closed_ok; [done|by apply conf_disc_ok, H1]).
  unfold eruns. rewrite in_disc_seq. rewrite <- (Z.add_0_r (update_cost _)).
  eapply eruns_bind; [done|apply addr_updates|apply (updates_return _ _ (en_disc e) s2)|].
  - apply H2.
  - etrans; [exact (still_smaller _ _ S1)|]. apply still_smaller, set_conf_still.
  - eapply (room_left _ _ _ s2 Hr). cbn. lia.
  - intros [] s3 H3 _ C3. apply eruns_modify; [done|]. apply eruns_get.
    assert (exists ac, ldp_af_conf_get (d_conf s3) af = Ok ac) as [ac Eac] by (destruct Haf as [-> | ->]; by eexists).
    eapply eruns_step; [apply (in_disc_ok _ _ ac s3); unfold lift; cbn; by rewrite Eac|done|].
    destruct (has_flag _ _); [|apply eruns_ret; [by destruct H3|done]].
    eexists. split; [reflexivity|]. split; [by destruct H3|cbn; lia].
Qed.

Lemma setup_imsg_runs env af e : engine_ok e -> af_ok af ->
  let k := update_cost (en_disc e) + heap_size (en_disc e) * (heap_size (en_disc e) + 1) in
  room k (en_disc e) -> eruns k (setup_sockets_imsg env af) e.
Proof.
  intros He Haf k Hr. subst k. destruct (eo_disc _ He) as [I _]. set (s := en_disc e) in *.
  pose proof (update_cost_nonneg s). pose proof (heap_sized s) as HB. set (B := heap_size s) in *.
  assert (0 <= B * (B + 1)) by (destruct HB; apply Z.mul_nonneg_nonneg; lia).
  unfold setup_sockets_imsg. apply eruns_get. destruct (_ || _).
  - destruct (close_fds_ok (en_disc_socket e) (en_edisc_socket e) (en_session_socket e) e) as [f Ef].
    exists (set_en_fds f e). split; [done|]. split; [by destruct He|cbn; lia].
  - set (g := AfGlobal (en_disc_socket e) (en_edisc_socket e) (en_session_socket e)). set (s1 := set_conf (set_lc_global af g) s).
    eapply (eruns_step _ _ _ _ tt (set_en_disc s1 e)); [|done|].
    { apply in_disc_ok. rewrite (bind_ok conf _ _ (d_conf s) s) by done.
      by destruct Haf as [-> | ->]. }
    assert (engine_ok (set_en_disc s1 e)) as H1 by (apply engine_disc_ok; [done|by apply conf_disc_ok, He]).
    unfold eruns. rewrite in_disc_seq.
    eapply eruns_bind; [done|apply addr_updates|apply (updates_return _ _ s s1)|].
    + apply H1.
    + apply still_smaller, set_conf_still.
    + eapply room_le; [exact Hr|lia].
    + intros [] s2 H2 [S2 _] C2. eapply eruns_disc; [done|apply addr_reconnect|apply reconnect_returns; try done].
      * apply H2.
      * apply (smaller_sized _ s s2); try done. apply H2.
      * eapply (room_left _ _ _ _ Hr). cbn in *. lia.
Qed.
End Main.

(** ** The remaining imsgs of the parent *)
Section Imsgs.
Lemma rtrid_returns env id s : disc_inv s -> room (6 * heap_size s + update_cost s) s ->
  returns (6 * heap_size s + update_cost s) (rtrid_imsg env id) (fun _ _ => True) s.
Proof.
  intros I Hr. pose proof (update_cost_nonneg s). pose proof (heap_sized s) as HB. set (B := heap_size s) in *.
  unfold rtrid_imsg. eapply returns_step; [reflexivity|done|]. apply returns_conf.
  set (s1 := set_conf _ s). assert (still s s1) as S1 by done.
  assert (disc_inv s1) as I1 by (by apply set_conf_inv). assert (0 <= B) by (destruct HB; lia). unfold room in Hr.
  apply (returns_bind (6 * B) (update_cost s) _ _ (fun _ s2 => still s s2)).
  - destruct (_ =? INADDR_ANY); [|apply returns_ret; (done || lia)].
    replace (6 * B) with (3 * B + 3 * B) by lia.
    apply (returns_bind _ _ _ _ (fun _ s2 => still s1 s2)); [apply reset_nbrs_returns; try done; unfold room; cbn; lia|].
    intros [] s2 I2 S2 C2.
    eapply returns_mono; [apply (reset_nbrs_returns AF_INET6 B s2); try done|lia|].
    + eapply fewer_sized; [done|exact (sm_fewer _ _ (proj1 (still_smaller _ _ S2)))|done].
    + unfold room. cbn in C2. lia.
    + intros [] s3 _ S3. etrans; [exact S1|]. etrans; [exact S2|exact S3].
  - intros [] s2 I2 S2 C2. cbn in C2. eapply returns_mono; [apply (updates_return _ _ s s2); try done|lia|done].
    + by apply still_smaller.
    + unfold room. lia.
Qed.
Lemma addr_rtrid env id : stays addr_rel (rtrid_imsg env id).
Proof. unfold rtrid_imsg, ldpe_reset_nbrs. stays_solve. Qed.

(** A link that changes. *)
Lemma if_status_returns env k s : disc_inv s -> room (10 * heap_size s + 2) s ->
  returns (10 * heap_size s + 2) (if_status_imsg env k) (fun _ _ => True) s.
Proof.
  intros I Hr. apply returns_get. destruct (if_lookup_name _ _) as [i|] eqn:E;
    [|apply returns_ret; try done; unfold heap_size; lia].
  apply list_find_in in E as [Hin _].
  assert (find_ptr (if_ptr i) (d_ifaces s) = Some i) as Hi by (apply (find_ptr_in _ i); [apply (di_ifaces _ I)|done]).
  eapply returns_step; [by apply (mod_iface_ok s _ i)|done|]. set (s1 := set_ifaces _ s).
  eapply returns_mono; [apply (if_update_returns _ _ _ (heap_size s) s1)| |]; try done; try lia.
  - apply (upd_iface_inv s _ i); try done; exact (di_plen _ I _ _ Hi).
  - change (if_ptr i ∈ ptrs (upd_ptr (if_ptr i) (if_update_info k) (d_ifaces s))). rewrite ptrs_upd by done. by apply iface_in.
  - exact (heap_sized s).
Qed.
Lemma addr_if_status env k : stays addr_rel (if_status_imsg env k).
Proof. unfold if_status_imsg. stays_solve. Qed.

(** Addresses of the router change. *)
Lemma addr_event_runs ev e : engine_ok e -> ev_enabled ev (en_disc e) -> ev_room (en_disc e) ->
  eruns (ev_cost (en_disc e)) (in_disc (run_event ev)) e.
Proof.
  intros He Hen Hr. destruct (event_runs ev (en_disc e)) as (s' & E & H & C); try done; [apply He|].
  exists (set_en_disc s' e). rewrite (in_disc_ok _ _ _ _ E). split; [done|]. split; [by apply engine_disc_ok|done].
Qed.

(** The configuration being received. *)
Lemma mod_nconf_runs f e : engine_ok e -> en_nconf e <> None -> (forall x, conf_new_ok x -> conf_new_ok (f x)) ->
  eruns 0 (mod_nconf f) e.
Proof.
  intros He Hn Hf. unfold mod_nconf. apply eruns_get. destruct (en_nconf e) as [x|] eqn:E; [|done].
  eexists. split; [reflexivity|]. split; [|cbn; lia]. destruct He as [A B C]. split; try done.
  intros y Hy. cbn in Hy. simplify_eq. by apply Hf, C.
Qed.
Lemma mod_nl2vpn_runs f e : engine_ok e -> (exists x v l, en_nconf e = Some x /\ xc_l2vpn_list x = v :: l) ->
  (forall v, l2vpn_ok v -> l2vpn_ok (f v)) -> eruns 0 (mod_nl2vpn f) e.
Proof.
  intros He (x & v & l & E & El) Hf. unfold mod_nl2vpn. apply eruns_get. rewrite E, El.
  eexists. split; [reflexivity|]. split; [|cbn; lia]. destruct He as [A B C]. split; try done.
  intros y Hy. cbn in Hy. simplify_eq. destruct (C x E) as (H1 & H2 & H3). rewrite El in H3.
  apply Forall_cons in H3 as [Hv H3]. split_and!; try done. cbn. constructor; [by apply Hf|done].
Qed.

Lemma reconf_end_runs env x e : engine_ok e -> en_nconf e = Some x -> gone_quiet x (en_disc e) ->
  room (merge_cost (en_disc e) (en_l2vpns e) x) (en_disc e) ->
  eruns (merge_cost (en_disc e) (en_l2vpns e) x) (reconf_end_imsg env) e.
Proof.
  intros He E Hg Hr. unfold reconf_end_imsg. apply eruns_get. rewrite E. rewrite <- (Z.add_0_r (merge_cost _ _ _)).
  eapply eruns_bind; [done|apply addr_merge_config|apply merge_config_returns; try done|].
  - apply He.
  - by apply He.
  - apply He.
  - intros vpns s H [Hv _] C. apply eruns_modify; [done|]. apply eruns_modify; [done|].
    eexists. split; [reflexivity|]. split; [|cbn; lia]. destruct H as [[HI HA] _ _]. split; try done.
    apply conf_disc_ok. done.
Qed.
End Imsgs.

(** ** Events of the engine *)
Inductive engine_event :=
| EvDisc (ev : disc_event)
| EvRead (n : Z) (rbuf : list Z) (r : read_result)
| EvMain (env : sys_env) (m : main_imsg)
| EvLde (m : lde_out).

Definition run_engine (ev : engine_event) : ST engine unit :=
  match ev with
  | EvDisc ev => in_disc (run_event ev)
  | EvRead n rbuf r => in_disc (read_session n rbuf r)
  | EvMain env m => ldpe_dispatch_main env m
  | EvLde m => in_disc (ldpe_dispatch_lde m)
  end.

(** Imsgs name one of the two families; the parent sends the parts of a
    configuration behind its head and those of an L2VPN behind the L2VPN. *)
Definition main_enabled (m : main_imsg) (e : engine) : Prop :=
  match m with
  | ImNewAddr k => af_ok (ifa_af (ka_addr k)) /\ plen_ok (ka_addr k)
  | ImCloseSockets af | ImSetupSockets af => af_ok af
  | ImReconfIface _ | ImReconfNbrp _ | ImReconfL2vpn _ => en_nconf e <> None
  | ImReconfTnbr t => en_nconf e <> None /\ new_tnbr_ok t
  | ImReconfL2vpnIf _ => exists x v l, en_nconf e = Some x /\ xc_l2vpn_list x = v :: l
  | ImReconfL2vpnPw p | ImReconfL2vpnIpw p =>
      (exists x v l, en_nconf e = Some x /\ xc_l2vpn_list x = v :: l) /\ pw_ok p
  | ImReconfEnd => exists x, en_nconf e = Some x /\ gone_quiet x (en_disc e)
  | ImIfStatus _ | ImDelAddr _ | ImSocketNet _ _ | ImRtridUpdate _ | ImReconfConf _ => True
  end.

Definition lde_enabled (m : lde_out) (s : disc) : Prop :=
  match m with
  | MappingAddEnd pid => batch_ok BatchMapping pid s
  | WithdrawAddEnd pid => batch_ok BatchWithdraw pid s
  | ReleaseAddEnd pid => batch_ok BatchRelease pid s
  | NotificationSend _ nm => notify_ok nm
  | _ => True
  end.

Definition engine_enabled (ev : engine_event) (e : engine) : Prop :=
  match ev with
  | EvDisc ev => ev_enabled ev (en_disc e)
  | EvRead n rbuf r =>
      stream_ok r rbuf /\
      exists nb, find_ptr n (d_nbrs (en_disc e)) = Some nb /\ n_state (dn_nbr nb) <> NBR_STA_PRESENT
  | EvMain _ m => main_enabled m e
  | EvLde m => lde_enabled m (en_disc e)
  end.

(** Messages one event can number. *)
Definition engine_cost (ev : engine_event) (e : engine) : Z :=
  let s := en_disc e in
  match ev with
  | EvDisc _ | EvMain _ (ImNewAddr _) | EvMain _ (ImDelAddr _) => ev_cost s
  | EvRead _ rbuf r => stream_size r rbuf
  | EvMain _ (ImIfStatus _) => 10 * heap_size s + 2
  | EvMain _ (ImCloseSockets _) => 3 * heap_size s + update_cost s
  | EvMain _ (ImSetupSockets _) => update_cost s + heap_size s * (heap_size s + 1)
  | EvMain _ (ImRtridUpdate _) => 6 * heap_size s + update_cost s
  | EvMain _ ImReconfEnd =>
      match en_nconf e with Some x => merge_cost s (en_l2vpns e) x | None => 0 end
  | EvLde (MappingAddEnd pid) => batch_size BatchMapping pid s
  | EvLde (WithdrawAddEnd pid) => batch_size BatchWithdraw pid s
  | EvLde (ReleaseAddEnd pid) => batch_size BatchRelease pid s
  | EvLde (NotificationSend _ _) => 1
  | _ => 0
  end.
Definition engine_room (ev : engine_event) (e : engine) : Prop :=
  room (engine_cost ev e) (en_disc e) /\ Z.of_nat (length (d_pids (en_disc e))) < 2 ^ 32 - 1.

Section System.
Lemma fresh_iface_ok i : new_iface_ok (fresh_iface i).
Proof. done. Qed.
Lemma fresh_l2vpn_ok v : l2vpn_ok (fresh_l2vpn v).
Proof. split; constructor. Qed.
Lemma add_pw_ok p v : pw_ok p -> l2vpn_ok v -> l2vpn_ok (add_l2vpn_pw p v).
Proof. intros Hp [H1 H2]. split; [by constructor|done]. Qed.
Lemma add_ipw_ok p v : pw_ok p -> l2vpn_ok v -> l2vpn_ok (add_l2vpn_ipw p v).
Proof. intros Hp [H1 H2]. split; [done|by constructor]. Qed.

Lemma ev_room_of s : room (ev_cost s) s -> Z.of_nat (length (d_pids s)) < 2 ^ 32 - 1 -> ev_room s.
Proof. unfold room, ev_room. lia. Qed.

Lemma main_runs env m e : engine_ok e -> main_enabled m e -> engine_room (EvMain env m) e ->
  eruns (engine_cost (EvMain env m) e) (ldpe_dispatch_main env m) e.
Proof.
  intros He Hen [Hr Hp]. destruct (eo_disc _ He) as [I HA].
  destruct m; cbn [main_enabled engine_cost ldpe_dispatch_main] in *; cbv zeta in *.
  - eapply eruns_disc; [done|apply addr_if_status|by apply if_status_returns].
  - pose proof (addr_event_runs (EvAddrAdd (join_at env (en_disc e) (ka_ifindex k)) k) e He Hen) as H.
    apply H. by apply ev_room_of.
  - pose proof (addr_event_runs (EvAddrDel (join_at env (en_disc e) (ka_ifindex k)) k) e He Logic.I) as H.
    apply H. by apply ev_room_of.
  - by apply close_imsg_runs.
  - apply eruns_get. eexists. split; [reflexivity|]. destruct He, t; (split; [done|cbn; lia]).
  - by apply setup_imsg_runs.
  - eapply eruns_disc; [done|apply addr_rtrid|by apply rtrid_returns].
  - eexists. split; [reflexivity|]. split; [|cbn; lia]. destruct He as [A B C]. split; try done.
    intros x Hx. cbn in Hx. simplify_eq. by split_and!; constructor.
  - apply mod_nconf_runs; try done. intros x (H1 & H2 & H3). split_and!; try done. by constructor.
  - destruct Hen. apply mod_nconf_runs; try done. intros x (H1 & H2 & H3). split_and!; try done. by constructor.
  - by apply mod_nconf_runs.
  - apply mod_nconf_runs; try done. intros x (H1 & H2 & H3). split_and!; try done.
    constructor; [apply fresh_l2vpn_ok|done].
  - by apply mod_nl2vpn_runs.
  - destruct Hen. apply mod_nl2vpn_runs; try done. intros v. by apply add_pw_ok.
  - destruct Hen. apply mod_nl2vpn_runs; try done. intros v. by apply add_ipw_ok.
  - destruct Hen as (x & E & Hg). rewrite E in *. by apply reconf_end_runs.
Qed.

Lemma addr_dispatch_lde m : stays addr_rel (ldpe_dispatch_lde m).
Proof.
  destruct m; cbn [ldpe_dispatch_lde]; unfold dispatch_add, dispatch_end, with_oper; stays_solve;
    intros s1 u s2 H; destruct (send_labelmessage _ _ _) as [[r e]| | |]; cbn in H; try done;
    apply (stays_mod_dnbr (R := addr_rel)) in H; exact H.
Qed.

Lemma lde_runs m e : engine_ok e -> lde_enabled m (en_disc e) -> engine_room (EvLde m) e ->
  eruns (engine_cost (EvLde m) e) (in_disc (ldpe_dispatch_lde m)) e.
Proof.
  intros He Hen [Hr _]. destruct (eo_disc _ He) as [I HA].
  apply (eruns_disc _ _ (fun _ _ => True)); [done|apply addr_dispatch_lde|].
  destruct m; cbn [lde_enabled engine_cost ldpe_dispatch_lde] in *; cbv zeta in *;
    auto using dispatch_add_returns, dispatch_end_returns, notify_returns; by apply returns_ret.
Qed.

Lemma read_runs n rbuf r e : engine_ok e -> engine_enabled (EvRead n rbuf r) e -> engine_room (EvRead n rbuf r) e ->
  exists e', run_engine (EvRead n rbuf r) e = Ok (tt, e') /\ engine_ok e'.
Proof.
  intros He [Hs (nb & Hn & Hst)] [Hr Hp]. destruct (eo_disc _ He) as [I HA]. unfold room in Hr. cbn in Hr.
  destruct (read_session_ok n nb rbuf r (en_disc e)) as (s & E & I' & _); try done; [lia|].
  exists (set_en_disc s e). split; [exact (in_disc_ok _ _ _ _ E)|]. apply engine_disc_ok; [done|]. split; [done|].
  unfold addrs_ok. apply (stays_on_nbr (R := addr_rel)) in E. by rewrite E.
Qed.

Lemma engine_runs ev e : engine_ok e -> engine_enabled ev e -> engine_room ev e ->
  exists e', run_engine ev e = Ok (tt, e') /\ engine_ok e'.
Proof.
  intros He Hen Hr. assert (forall m k, eruns k m e -> exists e', m e = Ok (tt, e') /\ engine_ok e') as H
    by (intros m k (e' & E & H & _); eauto).
  destruct ev; [|by apply read_runs|..]; eapply H.
  - destruct Hr. apply addr_event_runs; try done. by apply ev_room_of.
  - by apply main_runs.
  - by apply lde_runs.
Qed.

(** States reached by enabled events. *)
Inductive engine_reach (e : engine) : engine -> Prop :=
| er_refl : engine_reach e e
| er_step e1 e2 ev : engine_reach e e1 -> engine_enabled ev e1 -> engine_room ev e1 ->
    run_engine ev e1 = Ok (tt, e2) -> engine_reach e e2.

Lemma reach_engine_ok e e' : engine_ok e -> engine_reach e e' -> engine_ok e'.
Proof.
  intros H. induction 1 as [|e1 e2 ev _ IH Hen Hr E]; [done|].
  destruct (engine_runs ev e1 IH Hen Hr) as (x & Ex & Hx). rewrite E in Ex. by simplify_eq.
Qed.
End System.

(** C8: no sequence of packets, timers, connections, bytes read from sessions,
    session events, imsgs of the parent (links, addresses, sockets, router id,
    whole configurations) and imsgs of the label decision engine (batches of
    label messages, notifications) brings the LDP engine into a state where its
    heap is inconsistent or where an enabled event does not return.  Events are
    enabled ([engine_enabled]) under these conditions: bytes read carry none of
    the three defects of the FEC decoder ([stream_ok], see [LabelSafe]); a
    configuration takes away no interface with an
    adjacency of a family that is not active ([gone_quiet]; what
    happens otherwise is in [DiscFaults]); label messages of a batch can be encoded, within a maximal PDU
    length of 76 bytes at least ([batch_ok]); and the counters of messages and
    peer identifiers have room ([engine_room]).  Events that a socket can be
    written are not among the events: they change nothing, or, on an error, use
    a freed connection ([write_error_use_after_free]). *)
Theorem engine_never_stuck (e e' : engine) (ev : engine_event)
  (He : engine_ok e) (Hreach : engine_reach e e') (Hen : engine_enabled ev e') (Hroom : engine_room ev e') :
  engine_ok e' /\ exists e'', run_engine ev e' = Ok (tt, e'') /\ engine_ok e''.
Proof.
  pose proof (reach_engine_ok e e' He Hreach) as H'. split; [done|]. by apply engine_runs.
Qed.

(** A router with one neighbour that receives a new configuration: link 8 goes,
    link 7 stays and a targeted neighbour comes. *)
Definition engine_b : engine := Engine router_b [] None (-1) (-1) (-1) [] [].
Definition env_fine : sys_env := SysEnv (fun _ _ => true) (fun _ _ => env_done).
Definition conf_head : ldpd_conf :=
  LdpdConf (le_val [2; 2; 2; 2]) (XAf 180 (lc_ipv4 conf_b)) (XAf 180 no_af) [] [] [] [] 15 5 45 5 DUAL_STACK_LDPOV6 0.
Definition tnbr_9 : tnbr := Tnbr 0 AF_INET (v4_addr 10 0 0 9) 0 0 F_TNBR_CONFIGURED None None.
Definition reconf_events : list engine_event :=
  [EvDisc ev_hello_a; EvMain env_fine (ImReconfConf conf_head); EvMain env_fine (ImReconfIface link_7);
   EvMain env_fine (ImReconfTnbr tnbr_9)].
Definition after_engine (ev : engine_event) (e : engine) : engine :=
  match run_engine ev e with Ok (_, e') => e' | _ => e end.
Definition engine_b4 : engine := fold_left (fun e ev => after_engine ev e) reconf_events engine_b.

Lemma engine_b_ok : engine_ok engine_b.
Proof. split; [apply router_b_ok|constructor|done]. Qed.

Lemma engine_step_on e0 e ev : engine_ok e0 -> engine_reach e0 e -> engine_enabled ev e -> engine_room ev e ->
  engine_reach e0 (after_engine ev e).
Proof.
  intros H0 Hr Hen Hroom. destruct (engine_runs ev e) as (e2 & E & _); try done; [by eapply reach_engine_ok|].
  apply (er_step _ e _ ev Hr Hen Hroom). unfold after_engine. by rewrite E.
Qed.

Lemma engine_b4_reach : engine_reach engine_b engine_b4.
Proof.
  unfold engine_b4, reconf_events. cbn [fold_left].
  repeat (apply engine_step_on; [apply engine_b_ok| |..]); try apply er_refl; try (split; vm_compute; reflexivity).
  - apply ev_hello_a_enabled.
  - vm_compute. discriminate.
  - split; [vm_compute; discriminate|]. split; [by left|done].
Qed.

Lemma engine_never_stuck_witness :
  exists e'', run_engine (EvMain env_fine ImReconfEnd) engine_b4 = Ok (tt, e'') /\
    if_name <$> d_ifaces (en_disc e'') = ["eth7"%string] /\ t_addr <$> d_tnbrs (en_disc e'') = [v4_addr 10 0 0 9].
Proof.
  destruct (engine_never_stuck engine_b engine_b4 (EvMain env_fine ImReconfEnd)) as (_ & e'' & E & _).
  - apply engine_b_ok.
  - apply engine_b4_reach.
  - eexists. split; [vm_compute; reflexivity|]. intros q i Hi _ af Haf.
    apply find_ptr_ptr in Hi as [_ Hi]. vm_compute in Hi. intros Hst.
    apply elem_of_cons in Hi as [-> | Hi]; [destruct Haf as [-> | ->]; [by destruct Hst|done]|].
    apply elem_of_cons in Hi as [-> | Hi]; [by destruct Haf as [-> | ->]|by apply not_elem_of_nil in Hi].
  - split; vm_compute; reflexivity.
  - exists e''. split; [exact E|]. vm_compute in E. injection E as <-. split; reflexivity.
Defined.
