(* ===== verification/Delivery.v ===== *)
(** * From one label decision engine to the next

    The lde of a router hands a batch of label messages to its LDP engine
    (Engine), which packs them into PDUs (LabelMsg); the engine of the neighbour
    reads the byte stream (Recv) and passes the messages to its own lde.  The
    composition delivers every message, in order and exactly once. *)
From stdpp Require Import prelude strings list.
From Stdlib Require Import ZArith Lia.
From S2P Require Import Prelude Util Wire Ipc Session LabelMsg LabelSafe Recv Fec Hello Discovery DiscInv.
From S2P Require Import DiscSafe DiscRun DiscFrame DiscSystem Config HeapLoops ConfigSafe Engine EngineSafe.

(** ** The receiving side *)

(** What the lde is told of the maps of a batch, numbered from [cnt] on. *)
Fixpoint label_imsgs (pid : Z) (t : label_imsg) (cnt type : Z) (ms : list ldp_map) : list ldpe_to_lde :=
  match ms with
  | [] => []
  | m :: ms' => ImsgLabel pid t (received cnt type m) :: label_imsgs pid t (cnt + 1) type ms'
  end.

(** A PDU arrived: the timeout of the session starts again (and the
    one for the initialization is off). *)
Definition heard (n : nbr) : nbr :=
  set_n_timers n (Timers (t_keepalive_timer (n_timers n)) (Some (n_keepalive n))
    None (t_initdelay_timer (n_timers n))).

Definition told (l : list ldpe_to_lde) (e : ldpe) : ldpe :=
  Ldpe (e_nbr e) (e_conf e) (e_msgcnt e) (e_peercnt e) (e_pids e) (e_wire e) (e_lde e ++ l).

Section Reader.
Context (type : Z) (t : label_imsg) (Ht : label_imsg_of type = Some t).

Lemma told_told l l' e : told l' (told l e) = told (l ++ l') e.
Proof. unfold told. cbn. by rewrite <- app_assoc. Qed.
Lemma told_nil e : told [] e = e.
Proof. unfold told. rewrite app_nil_r. by destruct e. Qed.

Lemma label_imsgs_app pid cnt a b :
  label_imsgs pid t cnt type (a ++ b) = label_imsgs pid t cnt type a
    ++ label_imsgs pid t (cnt + Z.of_nat (length a)) type b.
Proof.
  revert cnt. induction a as [|m a IH]; intros cnt; cbn [label_imsgs app length]; [by rewrite Z.add_0_r|].
  rewrite IH. by replace (cnt + Z.of_nat (S (length a))) with (cnt + 1 + Z.of_nat (length a)) by lia.
Qed.

Lemma fsm_pdu_rcvd_oper e : n_state (e_nbr e) = NBR_STA_OPER ->
  nbr_fsm NBR_EVT_PDU_RCVD e = Ok (tt, upd_nbr heard e).
Proof.
  intros H. unfold nbr_fsm, nbr_fsm_n, nbr_fsm_body, get_nbr, bind, get, ret. cbn [rbind].
  rewrite H. destruct e as [[] ? ? ? ? ? ?]. cbn in H. subst. reflexivity.
Qed.

Lemma label_type_ok m n : acceptable type m n -> is_u 16 type /\ bad_for_state type NBR_STA_OPER = false /\
  forall i mt pdu size, dispatch_msg type i mt pdu size = recv_labelmessage pdu size type.
Proof.
  intros H. pose proof (ac_type _ _ _ H) as Hin.
  repeat (apply elem_of_cons in Hin as [-> | Hin]; [split; [by vm_compute|]; split; [done|]; intros; unfold dispatch_msg; reflexivity|]). by apply not_elem_of_nil in Hin.
Qed.

(** One message of a PDU. *)
Lemma msg_loop_label f cnt m rest e len :
  acceptable type m (e_nbr e) -> is_u 32 cnt -> n_state (e_nbr e) = NBR_STA_OPER ->
  len = Z.of_nat (length (label_msg cnt type m ++ rest)) -> len < 2 ^ 16 ->
  msg_loop (S f) (label_msg cnt type m ++ rest) len len e
  = msg_loop f rest (Z.of_nat (length rest)) (Z.of_nat (length rest))
      (told [ImsgLabel (n_peerid (e_nbr e)) t (received cnt type m)] e).
Proof.
  intros Ha Hc Hst Hlen H16. destruct (label_type_ok _ _ Ha) as (Hu & Hbad & Hdis).
  destruct (length_label_msg cnt type m (ac_send _ _ _ Ha)) as (Hl & Hr & Hb).
  destruct (recv_label_msg cnt type m rest e Ha Hc) as (t' & Et & Hrecv). rewrite Ht in Et. injection Et as <-.
  rewrite length_app, Nat2Z.inj_add, Hl in *. unfold LDP_MSG_SIZE in *.
  cbn [msg_loop]. destruct (negb (len >=? LDP_MSG_SIZE)) eqn:E; [exfalso; unfold LDP_MSG_SIZE in *; zbool; lia|]. clear E.
  assert (rd16 0 (label_msg cnt type m ++ rest) e = Ok (htons type, e)) as R1.
  { unfold label_msg. rewrite <- !app_assoc. apply rd16_ok; [rewrite !length_app, !length_be_bytes; lia|].
    apply slice_hd, length_be_bytes. }
  assert (rd16 2 (label_msg cnt type m ++ rest) e = Ok (htons (4 + Z.of_nat (length (label_body m))), e)) as R2.
  { unfold label_msg. rewrite <- !app_assoc. apply rd16_ok; [rewrite !length_app, !length_be_bytes; lia|].
    rewrite !slice_skip by (rewrite ?length_be_bytes; lia). rewrite !length_be_bytes. apply slice_hd, length_be_bytes. }
  assert (rd32 4 (label_msg cnt type m ++ rest) e = Ok (htonl cnt, e)) as R3.
  { unfold label_msg. rewrite <- !app_assoc. apply rd32_ok; [rewrite !length_app, !length_be_bytes; lia|].
    rewrite !slice_skip by (rewrite ?length_be_bytes; lia). rewrite !length_be_bytes. apply slice_hd, length_be_bytes. }
  rewrite (bind_ok _ _ _ _ _ R1), (bind_ok _ _ _ _ _ R2), (bind_ok _ _ _ _ _ R3). cbv zeta.
  rewrite !ntohs_htons by (done || (unfold is_u; lia)). unfold LDP_MSG_LEN, LDP_MSG_DEAD_LEN.
  destruct ((_ <? 4) || _) eqn:E; zbool; [exfalso; lia|].
  rewrite (bind_ok get_nbr _ e (e_nbr e) e) by done. rewrite Hst, Hbad, Hdis.
  replace (4 + Z.of_nat (length (label_body m)) + 4) with (label_msg_size m) by lia.
  rewrite u16_small by (unfold is_u; lia).
  rewrite (bind_ok _ _ _ _ _ Hrecv). change (0 =? -1) with false. cbv match.
  replace (drop _ _) with rest by (by rewrite <- Hl, Nat2Z.id, drop_app_length).
  replace (len - label_msg_size m) with (Z.of_nat (length rest)) by lia.
  by rewrite u16_small by (unfold is_u; lia).
Qed.

(** All messages of a PDU. *)
Lemma msg_loop_labels ms : forall f cnt e,
  Forall (fun m => acceptable type m (e_nbr e)) ms -> n_state (e_nbr e) = NBR_STA_OPER ->
  0 <= cnt -> cnt + Z.of_nat (length ms) <= 2 ^ 32 -> (length ms < f)%nat ->
  Z.of_nat (length (label_msgs cnt type ms)) < 2 ^ 16 ->
  let len := Z.of_nat (length (label_msgs cnt type ms)) in
  msg_loop f (label_msgs cnt type ms) len len e
  = Ok (Some 0, told (label_imsgs (n_peerid (e_nbr e)) t cnt type ms) e).
Proof.
  induction ms as [|m ms IH]; intros [|f] cnt e Hms Hst Hc0 Hc1 Hf H16; cbn [length] in *; try lia.
  - cbn [label_imsgs]. by rewrite told_nil.
  - apply Forall_cons in Hms as [Hm Hms]. cbn [label_msgs label_imsgs] in *. cbv zeta.
    rewrite (msg_loop_label f cnt m (label_msgs (cnt + 1) type ms) e _ Hm) by (done || (unfold is_u; lia)).
    rewrite length_app in H16.
    rewrite (IH f (cnt + 1) (told _ e)); try done; try lia. by rewrite told_told.
Qed.

Lemma label_msgs_length cnt ms : Forall label_sendable ms ->
  (8 * length ms <= length (label_msgs cnt type ms))%nat.
Proof.
  intros H. revert cnt. induction H as [|m ms Hm _ IH]; intros cnt; cbn [length label_msgs]; [lia|].
  rewrite length_app. destruct (length_label_msg cnt type m Hm) as (Hl & Hr & _). unfold LDP_MSG_SIZE in Hr.
  specialize (IH (cnt + 1)). lia.
Qed.

Lemma length_ldp_pdu id body : length (ldp_pdu id body) = (10 + length body)%nat.
Proof. unfold ldp_pdu. rewrite !length_app, !length_be_bytes, length_le_bytes. cbn. lia. Qed.

(** The fields of a PDU header as the reader sees them. *)
Lemma pdu_header id body rest e : is_u 32 id -> LDP_HDR_PDU_LEN + Z.of_nat (length body) < 2 ^ 16 ->
  let pdu := ldp_pdu id body ++ rest in
  rd16 0 pdu e = Ok (htons LDP_VERSION, e) /\
  rd16 2 pdu e = Ok (htons (LDP_HDR_PDU_LEN + Z.of_nat (length body)), e) /\
  rd32 4 pdu e = Ok (id, e) /\ rd16 8 pdu e = Ok (0, e) /\ drop 10 pdu = body ++ rest /\
  slice 2 2 pdu = be_bytes 2 (LDP_HDR_PDU_LEN + Z.of_nat (length body)).
Proof.
  intros Hid Hl pdu. assert (length pdu = (10 + length body + length rest)%nat) as Hlen
    by (unfold pdu; rewrite length_app, length_ldp_pdu; lia).
  assert (pdu = be_bytes 2 LDP_VERSION ++ be_bytes 2 (LDP_HDR_PDU_LEN + Z.of_nat (length body))
    ++ le_bytes 4 id ++ [0; 0] ++ body ++ rest) as Hp by (unfold pdu, ldp_pdu; by rewrite <- !app_assoc).
  assert (slice 2 2 pdu = be_bytes 2 (LDP_HDR_PDU_LEN + Z.of_nat (length body))) as S2.
  { rewrite Hp, slice_skip by (rewrite length_be_bytes; lia). rewrite length_be_bytes. apply slice_hd, length_be_bytes. }
  assert (slice 4 4 pdu = le_bytes 4 id) as S4.
  { rewrite Hp, !slice_skip by (rewrite ?length_be_bytes; lia). rewrite !length_be_bytes.
    apply slice_hd, length_le_bytes. }
  assert (slice 8 2 pdu = [0; 0]) as S8.
  { rewrite Hp, !slice_skip by (rewrite ?length_be_bytes, ?length_le_bytes; lia).
    rewrite !length_be_bytes, length_le_bytes. done. }
  assert (rd16 0 pdu e = Ok (htons LDP_VERSION, e)) as R0
    by (apply rd16_ok; [lia|]; rewrite Hp; apply slice_hd, length_be_bytes).
  split; [exact R0|]. split; [apply rd16_ok; [lia|exact S2]|]. split; [|split; [|split; [by rewrite Hp|exact S2]]].
  - unfold rd32. rewrite (bind_ok _ _ _ _ _ (rd_ok 4 4 pdu _ e ltac:(lia) S4)). unfold ret.
    rewrite le_val_bytes, Z.mod_small by done. done.
  - unfold rd16. by rewrite (bind_ok _ _ _ _ _ (rd_ok 8 2 pdu _ e ltac:(lia) S8)).
Qed.

Lemma acceptable_heard n ms : Forall (fun m => acceptable type m n) ms ->
  Forall (fun m => acceptable type m (heard n)) ms.
Proof. intros H. eapply Forall_impl; [exact H|]. intros m []. by split. Qed.

(** One PDU of label messages. *)
Lemma read_pdu_labels id cnt ms e : ms <> [] -> Forall (fun m => acceptable type m (e_nbr e)) ms ->
  n_state (e_nbr e) = NBR_STA_OPER -> n_id (e_nbr e) = id -> is_u 32 id ->
  0 <= cnt -> cnt + Z.of_nat (length ms) <= 2 ^ 32 ->
  LDP_HDR_PDU_LEN + Z.of_nat (length (label_msgs cnt type ms)) <= n_max_pdu_len (e_nbr e) < 2 ^ 16 ->
  read_pdu (ldp_pdu id (label_msgs cnt type ms)) e
  = Ok (true, told (label_imsgs (n_peerid (e_nbr e)) t cnt type ms) (upd_nbr heard e)).
Proof.
  intros Hne Hms Hst Hid H32 Hc0 Hc1 Hmax. set (body := label_msgs cnt type ms) in *.
  assert (Forall label_sendable ms) as Hse by (eapply Forall_impl; [exact Hms|]; intros m Hm; exact (ac_send _ _ _ Hm)).
  pose proof (label_msgs_length cnt ms Hse) as Hlen. fold body in Hlen.
  assert (length ms <> 0%nat) as H8 by (by intros ?%length_zero_iff_nil).
  unfold LDP_HDR_PDU_LEN in *.
  destruct (pdu_header id body [] e H32) as (R1 & R2 & R3 & R4 & Hd & _); [unfold LDP_HDR_PDU_LEN; lia|].
  rewrite !app_nil_r in *. unfold LDP_HDR_PDU_LEN in *. unfold read_pdu. cbv zeta. rewrite (bind_ok _ _ _ _ _ R1), (bind_ok _ _ _ _ _ R2).
  change (negb (ntohs (htons LDP_VERSION) =? LDP_VERSION)) with false. cbv match.
  rewrite (bind_ok get_nbr _ e (e_nbr e) e) by done. rewrite Hst. change (NBR_STA_OPER =? NBR_STA_OPER) with true. cbv match.
  rewrite ntohs_htons by (unfold is_u; lia). unfold LDP_HDR_PDU_LEN, LDP_MSG_SIZE.
  destruct ((_ <? _) || _) eqn:E; [exfalso; zbool; lia|]. clear E.
  rewrite (bind_ok _ _ _ _ _ R3), (bind_ok _ _ _ _ _ R4). rewrite Hid, Z.eqb_refl. cbn [negb orb].
  change (negb (0 =? 0)) with false. cbv match.
  rewrite (bind_ok _ _ _ _ _ (fsm_pdu_rcvd_oper e Hst)), Hd, length_ldp_pdu.
  replace (Z.of_nat (10 + length body) - LDP_HDR_SIZE) with (Z.of_nat (length body)) by (unfold LDP_HDR_SIZE; lia).
  replace (u16 (6 + Z.of_nat (length body) - 6)) with (Z.of_nat (length body))
    by (rewrite u16_small; unfold is_u; lia).
  apply acceptable_heard in Hms. unfold body.
  erewrite (bind_ok _ _ _ _ _ (msg_loop_labels ms _ cnt (upd_nbr heard e) Hms _ Hc0 Hc1 _ _)); [done|..].
  Unshelve. all: try done; fold body; lia.
Qed.

Lemma get_pdu_labels id body rest : is_u 32 id -> LDP_HDR_PDU_LEN + Z.of_nat (length body) < 2 ^ 16 ->
  session_get_pdu (ldp_pdu id body ++ rest) = Some (ldp_pdu id body, rest).
Proof.
  intros Hid Hl. set (e := Ldpe (Nbr 0 0 false false 0 [] [] 0 0 0 0 false false (Timers None None None None))
    (LdpeConf 0 0 0 0 [] []) 0 0 [] [] []).
  destruct (pdu_header id body rest e Hid Hl) as (_ & _ & _ & _ & _ & S2). unfold session_get_pdu. cbv zeta.
  rewrite S2, length_app, length_ldp_pdu. change (le_val (be_bytes 2 ?x)) with (htons x).
  rewrite ntohs_htons by (unfold is_u, LDP_HDR_PDU_LEN in *; lia). unfold LDP_HDR_PDU_LEN, LDP_HDR_SIZE, LDP_HDR_DEAD_LEN in *.
  destruct (_ <? 10) eqn:E1; [exfalso; zbool; lia|]. destruct (_ >? _) eqn:E2; [exfalso; zbool; lia|].
  replace (Z.to_nat (6 + Z.of_nat (length body) + 4)) with (length (ldp_pdu id body)) by (rewrite length_ldp_pdu; lia).
  by rewrite take_app_length, drop_app_length.
Qed.

(** All PDUs of a batch. *)
Lemma pdu_loop_labels id groups : forall f cnt e,
  Forall (fun b => b <> [] /\ LDP_HDR_PDU_LEN + Z.of_nat (length b) <= n_max_pdu_len (e_nbr e))
    (pdu_bodies cnt type groups) ->
  Forall (fun m => acceptable type m (e_nbr e)) (concat groups) ->
  n_state (e_nbr e) = NBR_STA_OPER -> n_id (e_nbr e) = id -> is_u 32 id -> n_max_pdu_len (e_nbr e) < 2 ^ 16 ->
  0 <= cnt -> cnt + Z.of_nat (length (concat groups)) <= 2 ^ 32 -> (length groups < f)%nat ->
  pdu_loop f (concat (ldp_pdu id <$> pdu_bodies cnt type groups)) e
  = Ok ([], told (label_imsgs (n_peerid (e_nbr e)) t cnt type (concat groups))
              (match groups with [] => e | _ => upd_nbr heard e end)).
Proof.
  induction groups as [|g gs IH]; intros [|f] cnt e Hfit Ha Hst Hid H32 Hmax Hc0 Hc1 Hf; cbn [length] in Hf; try lia.
  - cbn. by rewrite told_nil.
  - cbn [pdu_bodies concat fmap list_fmap] in *. apply Forall_cons in Hfit as [[Hne Hb] Hfit].
    apply Forall_app in Ha as [Hg Ha]. rewrite length_app in Hc1. cbn [pdu_loop].
    rewrite get_pdu_labels by (done || lia).
    rewrite (bind_ok _ _ _ _ _ (read_pdu_labels id cnt g e ltac:(by intros ->) Hg Hst Hid H32 Hc0 ltac:(lia) ltac:(lia))).
    rewrite (IH f (cnt + Z.of_nat (length g))); try done; try lia; [|by apply acceptable_heard].
    cbn [told upd_nbr e_nbr heard n_peerid set_n_timers]. rewrite label_imsgs_app, <- told_told.
    by destruct gs.
Qed.

Lemma pdu_bodies_length cnt groups : length (pdu_bodies cnt type groups) = length groups.
Proof. revert cnt. induction groups as [|g gs IH]; intros cnt; cbn [pdu_bodies length]; [done|]. by rewrite IH. Qed.

Lemma concat_pdus_length id bodies : (length bodies <= length (concat (ldp_pdu id <$> bodies)))%nat.
Proof.
  induction bodies as [|b bs IH]; cbn [fmap list_fmap concat length]; [lia|]. rewrite length_app, length_ldp_pdu. cbn in IH. lia.
Qed.

(** The reader on the bytes the sender queued. *)
Lemma session_read_labels id cnt groups e :
  Forall (fun b => b <> [] /\ LDP_HDR_PDU_LEN + Z.of_nat (length b) <= n_max_pdu_len (e_nbr e))
    (pdu_bodies cnt type groups) ->
  Forall (fun m => acceptable type m (e_nbr e)) (concat groups) -> concat groups <> [] ->
  n_state (e_nbr e) = NBR_STA_OPER -> n_id (e_nbr e) = id -> is_u 32 id -> n_max_pdu_len (e_nbr e) < 2 ^ 16 ->
  0 <= cnt -> cnt + Z.of_nat (length (concat groups)) <= 2 ^ 32 ->
  session_read (ReadData (concat (ldp_pdu id <$> pdu_bodies cnt type groups))) [] e
  = Ok ([], told (label_imsgs (n_peerid (e_nbr e)) t cnt type (concat groups)) (upd_nbr heard e)).
Proof.
  intros. unfold session_read. cbn [app]. rewrite (pdu_loop_labels id groups); try done; [by destruct groups|].
  pose proof (concat_pdus_length id (pdu_bodies cnt type groups)) as H'. rewrite pdu_bodies_length in H'. lia.
Qed.
End Reader.

(** ** The sending side *)
Section Sender.
(** The imsgs of a batch. *)
Inductive lde_batch : batch -> (Z -> ldp_map -> lde_out) -> (Z -> lde_out) -> Prop :=
| lb_mapping : lde_batch BatchMapping MappingAdd MappingAddEnd
| lb_withdraw : lde_batch BatchWithdraw WithdrawAdd WithdrawAddEnd
| lb_release : lde_batch BatchRelease ReleaseAdd ReleaseAddEnd.

Lemma batch_imsgs b add fin pid : lde_batch b add fin ->
  (forall m, ldpe_dispatch_lde (add pid m) = dispatch_add b pid m) /\
  ldpe_dispatch_lde (fin pid) = dispatch_end b pid.
Proof. by destruct 1. Qed.

Lemma batch_of_set b v l : batch_of b (set_batch b v l) = v.
Proof. by destruct b. Qed.
Lemma set_batch_set b v w l : set_batch b w (set_batch b v l) = set_batch b w l.
Proof. by destruct b. Qed.
Lemma set_batch_same b l : set_batch b (batch_of b l) l = l.
Proof. by destruct b, l. Qed.

Lemma find_peerid_upd s pid p f : (forall n, n_peerid (dn_nbr (f n)) = n_peerid (dn_nbr n)) ->
  disc_find_peerid (set_nbrs (upd_ptr p f) s) pid
  = (fun n => if dn_ptr n =? p then f n else n) <$> disc_find_peerid s pid.
Proof.
  intros Hf. unfold disc_find_peerid. cbn [d_nbrs set_nbrs]. unfold upd_ptr.
  induction (d_nbrs s) as [|n l IH]; [done|]. cbn [List.map List.find].
  change (ptr_of n) with (dn_ptr n).
  destruct (dn_ptr n =? p) eqn:E; rewrite ?Hf; destruct (_ && _); cbn; rewrite ?E; done.
Qed.

(** Only the lists of [n] changed, to [l]. *)
Record collected (pid : Z) (n : dnbr) (l : map_lists) (s s' : disc) : Prop := Collected {
  co_inv : disc_inv s';
  co_nbr : disc_find_peerid s' pid = Some (set_dn_lists n l);
  co_rest : set_nbrs (fun _ => d_nbrs s) s' = s;
  co_others : forall q, q <> dn_ptr n -> find_ptr q (d_nbrs s') = find_ptr q (d_nbrs s)
}.

Lemma set_lists_collected s pid n f l : disc_inv s -> disc_find_peerid s pid = Some n ->
  (forall x, exists l', f x = set_dn_lists x l') -> f n = set_dn_lists n l ->
  exists s', mod_dnbr (dn_ptr n) f s = Ok (tt, s') /\ collected pid n l s s'.
Proof.
  intros I Hf Hx Hn. pose proof (find_peerid_in _ _ _ Hf) as Hin. pose proof (nbr_of_list s n I Hin) as Hp.
  assert (keeps_ptr f) as Hk by (intros x; by destruct (Hx x) as [? ->]).
  destruct (set_dn_lists_inv s (dn_ptr n) f I (nbr_in _ _ Hin) Hx) as (s' & E & I' & _).
  exists s'. split; [done|]. rewrite (mod_dnbr_ok s _ n _ Hp) in E. injection E as <-. split; [done|..].
  - rewrite find_peerid_upd, Hf by (intros x; by destruct (Hx x) as [? ->]). cbn. by rewrite Z.eqb_refl, Hn.
  - by destruct s.
  - intros q Hq. cbn. rewrite find_ptr_upd by done. by apply Z.eqb_neq in Hq as ->.
Qed.

Lemma add_loop b pid ms : forall s n, disc_inv s -> disc_find_peerid s pid = Some n ->
  n_state (dn_nbr n) = NBR_STA_OPER ->
  exists s', foreach (dispatch_add b pid) ms s = Ok (tt, s') /\
    collected pid n (set_batch b (batch_of b (dn_lists n) ++ ms) (dn_lists n)) s s'.
Proof.
  induction ms as [|m ms IH]; intros s n I Hf Hst.
  - exists s. split; [done|]. rewrite app_nil_r, set_batch_same. split; try done; [by rewrite Hf; destruct n|by destruct s].
  - cbn [foreach]. unfold dispatch_add at 1, with_oper.
    destruct (set_lists_collected s pid n (fun n => set_dn_lists n (mapping_list_add b m (dn_lists n)))
      (mapping_list_add b m (dn_lists n)) I Hf) as (s1 & E1 & [I1 F1 R1 O1]); [by eexists|done|].
    erewrite (bind_ok _ _ s tt s1).
    2:{ rewrite (bind_ok get _ s s s), Hf, Hst by done. exact E1. }
    destruct (IH s1 _ I1 F1 Hst) as (s2 & E2 & [I2 F2 R2 O2]). exists s2. split; [exact E2|].
    cbn [dn_lists set_dn_lists dn_ptr] in *. unfold mapping_list_add in F2.
    rewrite batch_of_set, set_batch_set, <- app_assoc in F2. split; [done|exact F2|..].
    + etrans; [|exact R1]. rewrite <- R2. by destruct s2.
    + intros q Hq. by rewrite O2, O1.
Qed.
End Sender.

(** ** Both ends *)
Section Both.
Lemma foreach_fmap {S A B} (g : A -> B) (f : B -> ST S unit) l : foreach f (g <$> l) = foreach (fun a => f (g a)) l.
Proof. induction l as [|a l IH]; [done|]. cbn [fmap list_fmap foreach]. by rewrite <- IH. Qed.
Lemma foreach_ext {S A} (f g : A -> ST S unit) l : (forall a, f a = g a) -> foreach f l = foreach g l.
Proof. intros H. induction l as [|a l IH]; [done|]. cbn [foreach]. by rewrite H, IH. Qed.

(** The end of a batch that is not empty: the list is empty and what was in it
    is on the wire. *)
Lemma end_batch_ok b pid s n : disc_inv s -> disc_find_peerid s pid = Some n -> n_state (dn_nbr n) = NBR_STA_OPER ->
  76 <= n_max_pdu_len (dn_nbr n) < 2 ^ 16 -> Forall label_sendable (batch_of b (dn_lists n)) ->
  batch_of b (dn_lists n) <> [] -> room (Z.of_nat (length (batch_of b (dn_lists n)))) s ->
  exists s' n' groups, dispatch_end b pid s = Ok (tt, s') /\ disc_inv s' /\
    find_ptr (dn_ptr n) (d_nbrs s') = Some n' /\ dn_nbr n' = rearmed (dn_nbr n) /\
    dn_lists n' = set_batch b [] (dn_lists n) /\ concat groups = batch_of b (dn_lists n) /\
    dn_wire n' = dn_wire n ++ (ldp_pdu (ldp_rtr_id_get (sess_conf s))
      <$> pdu_bodies (d_msgcnt s + 1) (batch_type b) groups) /\
    Forall (fun x => x <> [] /\ LDP_HDR_PDU_LEN + Z.of_nat (length x) <= n_max_pdu_len (dn_nbr n))
      (pdu_bodies (d_msgcnt s + 1) (batch_type b) groups) /\
    forall q, q <> dn_ptr n -> find_ptr q (d_nbrs s') = find_ptr q (d_nbrs s).
Proof.
  intros I Hf Hst Hmax Hl Hne Hr. pose proof (find_peerid_in _ _ _ Hf) as Hin. pose proof (nbr_of_list s n I Hin) as Hp.
  destruct (send_batch_ok b n s I Hin Hst Hmax Hl Hr) as (e & E & Ie & Ce & Hs & _).
  destruct (Hs Hne) as (groups & Hg & S). set (s1 := put_nbr (dn_ptr n) e s) in *.
  set (f := fun n => set_dn_lists n (set_batch b [] (dn_lists n))).
  assert (find_ptr (dn_ptr n) (d_nbrs s1) = Some (with_sess e n)) as H1
    by (unfold s1; by rewrite put_nbrs, Z.eqb_refl, Hp).
  destruct (set_dn_lists_inv s1 (dn_ptr n) f Ie) as (s2 & E2 & I2 & C2);
    [apply find_ptr_is_some; by eexists|by eexists|].
  exists s2, (f (with_sess e n)), groups. pose proof E2 as E2'. rewrite (mod_dnbr_ok s1 _ _ f H1) in E2'.
  injection E2' as <-. split.
  { unfold dispatch_end, with_oper. rewrite (bind_ok get _ s s s), Hf, Hst by done.
    change (negb (NBR_STA_OPER =? NBR_STA_OPER)) with false. cbv match.
    cbv beta. rewrite E. exact E2. }
  change (d_nbrs (set_nbrs (upd_ptr (dn_ptr n) f) s1)) with (upd_ptr (dn_ptr n) f (d_nbrs s1)).
  split; [done|]. split; [by rewrite find_ptr_upd, Z.eqb_refl, H1 by done|].
  split; [exact (st_nbr _ _ _ S)|]. split; [done|]. split; [done|]. split; [exact (st_wire _ _ _ S)|].
  split; [exact (st_fits _ _ _ S)|]. intros q Hq. apply Z.eqb_neq in Hq.
  rewrite find_ptr_upd, Hq by done. unfold s1. by rewrite put_nbrs, Hq.
Qed.
End Both.

(** C9: label messages reach the next router.  The lde of a router hands its
    LDP engine maps for an operational neighbour, one imsg each, and the imsg
    that ends the batch.  Each map must be one the neighbour accepts
    ([acceptable]; the lde also hands over maps that are not, the answers to
    granted label requests, and those close the session, see [Answers]).  The
    engine returns from all of them; what it puts on the wire to that neighbour,
    read by the session reader of the neighbour's engine (whose session with us
    is operational, with the same maximal PDU length), makes that engine pass exactly these maps (and those collected
    before), each once and in order, to its own lde; neither side notices an
    error, the batch is empty again and no other neighbour is touched. *)
Theorem label_batch_delivered (b : batch) (add : Z -> ldp_map -> lde_out) (fin : Z -> lde_out)
  (pid : Z) (s : disc) (n : dnbr) (ms : list ldp_map) (peer : ldpe)
  (Hb : lde_batch b add fin) (Hs : disc_inv s) (Hn : disc_find_peerid s pid = Some n)
  (Hoper : n_state (dn_nbr n) = NBR_STA_OPER /\ n_state (e_nbr peer) = NBR_STA_OPER)
  (Hid : n_id (e_nbr peer) = ldp_rtr_id_get (sess_conf s) /\ is_u 32 (n_id (e_nbr peer)))
  (Hmax : 76 <= n_max_pdu_len (dn_nbr n) < 2 ^ 16 /\ n_max_pdu_len (e_nbr peer) = n_max_pdu_len (dn_nbr n))
  (Hms : Forall (fun m => acceptable (batch_type b) m (e_nbr peer)) (batch_of b (dn_lists n) ++ ms))
  (Hne : ms <> []) (Hroom : room (Z.of_nat (length (batch_of b (dn_lists n) ++ ms))) s) :
  exists s' n' out t,
    (foreach ldpe_dispatch_lde (add pid <$> ms) ;;; ldpe_dispatch_lde (fin pid)) s = Ok (tt, s') /\ disc_inv s' /\
    find_ptr (dn_ptr n) (d_nbrs s') = Some n' /\ dn_wire n' = dn_wire n ++ out /\
    batch_of b (dn_lists n') = [] /\
    (forall q, q <> dn_ptr n -> find_ptr q (d_nbrs s') = find_ptr q (d_nbrs s)) /\
    label_imsg_of (batch_type b) = Some t /\
    session_read (ReadData (concat out)) [] peer
    = Ok ([], told (label_imsgs (n_peerid (e_nbr peer)) t (d_msgcnt s + 1) (batch_type b)
                      (batch_of b (dn_lists n) ++ ms)) (upd_nbr heard peer)).
Proof.
  destruct (batch_imsgs b add fin pid Hb) as [Hadd Hfin]. destruct Hoper as [Hst Hst']. destruct Hid as [Hid H32].
  destruct Hmax as [Hmax Hmax']. set (all := batch_of b (dn_lists n) ++ ms) in *.
  destruct (add_loop b pid ms s n Hs Hn Hst) as (s1 & E1 & [I1 F1 R1 O1]). fold all in F1.
  set (l1 := set_batch b all (dn_lists n)) in *. set (n1 := set_dn_lists n l1) in *.
  assert (batch_of b (dn_lists n1) = all) as Hall by apply batch_of_set.
  assert (d_msgcnt s1 = d_msgcnt s /\ d_conf s1 = d_conf s /\ sess_conf s1 = sess_conf s) as (C1 & _ & K1)
    by (rewrite <- R1; by destruct s1).
  assert (Forall label_sendable all) as Hsend
    by (eapply Forall_impl; [exact Hms|]; intros m Hm; exact (ac_send _ _ _ Hm)).
  assert (all <> []) as Hne' by (unfold all; intros [_ ?]%app_eq_nil; done).
  destruct (end_batch_ok b pid s1 n1) as (s2 & n2 & groups & E2 & I2 & F2 & _ & L2 & G2 & W2 & Fit & O2);
    rewrite ?Hall; try done; [unfold room in *; lia|].
  rewrite Hall, C1, K1 in *. cbn [n1 set_dn_lists dn_ptr dn_wire dn_nbr] in *.
  assert (exists t, label_imsg_of (batch_type b) = Some t) as [t Ht] by (destruct b; by eexists).
  exists s2, n2, (ldp_pdu (ldp_rtr_id_get (sess_conf s)) <$> pdu_bodies (d_msgcnt s + 1) (batch_type b) groups), t.
  split.
  { rewrite foreach_fmap, (foreach_ext _ (dispatch_add b pid)), Hfin by done.
    by rewrite (bind_ok _ _ _ _ _ E1). }
  split_and!; try done; [by rewrite L2, batch_of_set|intros q Hq; by rewrite O2, O1|].
  rewrite <- G2. apply session_read_labels; rewrite ?G2, ?Hmax', <- ?Hid; try done; try lia;
    pose proof (di_cnt _ Hs); unfold room in Hroom; lia.
Qed.

(** Router b of [DiscSystem] with its session to router a up, and the end of
    that session at router a. *)
Definition make_oper (nb : dnbr) : dnbr :=
  let n := dn_nbr nb in
  Dnbr (dn_ptr nb)
    (Nbr 1 (n_af n) true false (n_id n) (n_laddr n) (n_raddr n) NBR_STA_OPER 0 180 100 true false
       (Timers (Some 60) (Some 180) None None))
    (dn_raddr_scope nb) (dn_ds_tlv nb) (dn_conf_seqnum nb) (dn_flags nb) (dn_adj_list nb) (dn_wire nb) (dn_lists nb).
Definition router_b_oper : disc := set_nbrs (upd_ptr 11 make_oper) router_b1.
Definition peer_a : ldpe :=
  Ldpe (Nbr 7 AF_INET true false (le_val [2; 2; 2; 2]) (v4_addr 1 1 1 1) (v4_addr 2 2 2 2) NBR_STA_OPER 0 180 100
          true false (Timers (Some 60) (Some 180) None None))
    (lc_sess conf_a) 0 0 [7] [] [].

Lemma make_oper_inv s p nb : disc_inv s -> find_ptr p (d_nbrs s) = Some nb ->
  disc_inv (set_nbrs (upd_ptr p make_oper) s).
Proof.
  intros I E. pose proof (si_af _ _ (proj1 (di_nbr _ I _ _ E))) as Haf.
  apply (upd_nbr_inv s p nb); try done. split; cbn; try done; set_solver.
Qed.
Lemma router_b_oper_inv : disc_inv router_b_oper.
Proof.
  destruct (find_ptr 11 (d_nbrs router_b1)) as [nb|] eqn:E; [|vm_compute in E; discriminate].
  exact (make_oper_inv router_b1 11 nb (proj1 router_b1_ok) E).
Qed.

Lemma map_prefix_ex_acceptable : acceptable MSG_TYPE_LABELMAPPING map_prefix_ex (e_nbr peer_a).
Proof.
  constructor; try exact map_prefix_ex_canonical; try exact map_prefix_ex_sendable;
    try (vm_compute; intuition (congruence || discriminate)). set_solver.
Qed.

Lemma label_batch_delivered_witness :
  exists s' n' out,
    (foreach ldpe_dispatch_lde (MappingAdd 1 <$> [map_prefix_ex; map_prefix_ex; map_prefix_ex]) ;;;
     ldpe_dispatch_lde (MappingAddEnd 1)) router_b_oper = Ok (tt, s') /\
    find_ptr 11 (d_nbrs s') = Some n' /\ (exists w, dn_wire n' = w ++ out) /\
    exists e, session_read (ReadData (concat out)) [] peer_a = Ok ([], e) /\ length (e_lde e) = 3%nat.
Proof.
  destruct (disc_find_peerid router_b_oper 1) as [n|] eqn:E; [|vm_compute in E; discriminate].
  destruct (label_batch_delivered BatchMapping MappingAdd MappingAddEnd 1 router_b_oper n
    [map_prefix_ex; map_prefix_ex; map_prefix_ex] peer_a lb_mapping router_b_oper_inv E)
    as (s' & n' & out & t & H1 & _ & H3 & H4 & _ & _ & _ & H8);
    vm_compute in E; injection E as <-.
  - split; reflexivity.
  - split; vm_compute; [reflexivity|intuition congruence].
  - split; [vm_compute; intuition congruence|reflexivity].
  - exact (Forall_cons_2 _ _ _ map_prefix_ex_acceptable (Forall_cons_2 _ _ _ map_prefix_ex_acceptable
      (Forall_cons_2 _ _ _ map_prefix_ex_acceptable (Forall_nil_2 _)))).
  - discriminate.
  - vm_compute. reflexivity.
  - exists s', n', out. split; [exact H1|]. split; [exact H3|].
    split; [exact (ex_intro _ _ H4)|]. exact (ex_intro _ _ (conj H8 eq_refl)).
Defined.
