(* ===== verification/EngineFun.v ===== *)
(** * What a new configuration does to the parameters

    The parent sends a configuration in pieces ([main_imsg_send_config], ldpd.c);
    the engine puts them together and merges the result into the one it runs
    with.  Here: the pieces arrive complete, and what the merge does to the
    parameters ([d_conf]), to those of neighbours, and which L2VPNs go.  The rest
    of the merge and the whole are in [EngineConf]. *)
From stdpp Require Import prelude strings list.
From Stdlib Require Import ZArith Lia.
From S2P Require Import Prelude Util Wire Ipc Session LabelMsg Fec Hello Discovery DiscInv DiscSafe DiscRun.
From S2P Require Import DiscFrame DiscSystem Config HeapLoops ConfigSafe Engine EngineSafe.

(** ** Receiving a configuration *)

(** What the engine makes of the pieces: every list is turned round. *)
Definition l2vpn_received (v : l2vpn) : l2vpn :=
  L2vpn (lv_name v) (lv_type v) (lv_pw_type v) (lv_mtu v) (lv_br_ifname v) (lv_br_ifindex v)
    (rev (lv_if_list v)) (rev (lv_pw_list v)) (rev (lv_pw_inactive_list v)).
Definition conf_received (c : ldpd_conf) : ldpd_conf :=
  set_xc_lists (rev (map fresh_iface (xc_iface_list c))) (rev (xc_tnbr_list c)) (rev (xc_nbrp_list c))
    (rev (map l2vpn_received (xc_l2vpn_list c))) c.

(** A process that takes in a configuration: where it keeps what came so far, and
    what each piece adds to it. *)
Class Receives {S} (D : main_imsg -> ST S unit) (nconf : S -> option ldpd_conf) (set : option ldpd_conf -> S -> S) : Prop := {
  rc_get n s : nconf (set n s) = n;
  rc_set n m s : set n (set m s) = set n s;
  rc_id s : set (nconf s) s = s;
  rc_conf c s : D (ImReconfConf c) s = Ok (tt, set (Some (set_xc_lists [] [] [] [] c)) s);
  rc_iface i x s : nconf s = Some x -> D (ImReconfIface i) s = Ok (tt, set (Some (add_xc_iface (fresh_iface i) x)) s);
  rc_tnbr t x s : nconf s = Some x -> D (ImReconfTnbr t) s = Ok (tt, set (Some (add_xc_tnbr t x)) s);
  rc_nbrp n x s : nconf s = Some x -> D (ImReconfNbrp n) s = Ok (tt, set (Some (add_xc_nbrp n x)) s);
  rc_l2vpn v x s : nconf s = Some x -> D (ImReconfL2vpn v) s = Ok (tt, set (Some (add_xc_l2vpn (fresh_l2vpn v) x)) s);
  rc_if f x v l s : nconf s = Some x -> xc_l2vpn_list x = v :: l -> D (ImReconfL2vpnIf f) s = Ok (tt, set (Some
    (set_xc_lists (xc_iface_list x) (xc_tnbr_list x) (xc_nbrp_list x) (add_l2vpn_if f v :: l) x)) s);
  rc_pw p x v l s : nconf s = Some x -> xc_l2vpn_list x = v :: l -> D (ImReconfL2vpnPw p) s = Ok (tt, set (Some
    (set_xc_lists (xc_iface_list x) (xc_tnbr_list x) (xc_nbrp_list x) (add_l2vpn_pw p v :: l) x)) s);
  rc_ipw p x v l s : nconf s = Some x -> xc_l2vpn_list x = v :: l -> D (ImReconfL2vpnIpw p) s = Ok (tt, set (Some
    (set_xc_lists (xc_iface_list x) (xc_tnbr_list x) (xc_nbrp_list x) (add_l2vpn_ipw p v :: l) x)) s)
}.

Section Receive.
Lemma foreach_run {S A} (f : A -> ST S unit) a b s s1 : foreach f a s = Ok (tt, s1) ->
  foreach f (a ++ b) s = foreach f b s1.
Proof. intros H. by rewrite foreach_app, (bind_ok _ _ _ _ _ H). Qed.

Lemma fold_ifaces l x : fold_left (fun x a => add_xc_iface (fresh_iface a) x) l x =
  set_xc_lists (rev (map fresh_iface l) ++ xc_iface_list x) (xc_tnbr_list x) (xc_nbrp_list x) (xc_l2vpn_list x) x.
Proof.
  revert x. induction l as [|a l IH]; intros x; cbn [fold_left map rev]; [by destruct x|].
  rewrite IH, <- app_assoc. by destruct x.
Qed.
Lemma fold_tnbrs l x : fold_left (fun x a => add_xc_tnbr a x) l x =
  set_xc_lists (xc_iface_list x) (rev l ++ xc_tnbr_list x) (xc_nbrp_list x) (xc_l2vpn_list x) x.
Proof.
  revert x. induction l as [|a l IH]; intros x; cbn [fold_left rev]; [by destruct x|].
  rewrite IH, <- app_assoc. by destruct x.
Qed.
Lemma fold_nbrps l x : fold_left (fun x a => add_xc_nbrp a x) l x =
  set_xc_lists (xc_iface_list x) (xc_tnbr_list x) (rev l ++ xc_nbrp_list x) (xc_l2vpn_list x) x.
Proof.
  revert x. induction l as [|a l IH]; intros x; cbn [fold_left rev]; [by destruct x|].
  rewrite IH, <- app_assoc. by destruct x.
Qed.
Lemma fold_l2vpn v : fold_left (fun v a => add_l2vpn_ipw a v) (lv_pw_inactive_list v)
  (fold_left (fun v a => add_l2vpn_pw a v) (lv_pw_list v)
     (fold_left (fun v a => add_l2vpn_if a v) (lv_if_list v) (fresh_l2vpn v))) = l2vpn_received v.
Proof.
  assert (forall l w, fold_left (fun v a => add_l2vpn_if a v) l w = L2vpn (lv_name w) (lv_type w) (lv_pw_type w)
    (lv_mtu w) (lv_br_ifname w) (lv_br_ifindex w) (rev l ++ lv_if_list w) (lv_pw_list w) (lv_pw_inactive_list w)) as H1.
  { induction l as [|a l IH]; intros w; cbn [fold_left rev]; [by destruct w|]. rewrite IH, <- app_assoc. by destruct w. }
  assert (forall l w, fold_left (fun v a => add_l2vpn_pw a v) l w = L2vpn (lv_name w) (lv_type w) (lv_pw_type w)
    (lv_mtu w) (lv_br_ifname w) (lv_br_ifindex w) (lv_if_list w) (rev l ++ lv_pw_list w) (lv_pw_inactive_list w)) as H2.
  { induction l as [|a l IH]; intros w; cbn [fold_left rev]; [by destruct w|]. rewrite IH, <- app_assoc. by destruct w. }
  assert (forall l w, fold_left (fun v a => add_l2vpn_ipw a v) l w = L2vpn (lv_name w) (lv_type w) (lv_pw_type w)
    (lv_mtu w) (lv_br_ifname w) (lv_br_ifindex w) (lv_if_list w) (lv_pw_list w) (rev l ++ lv_pw_inactive_list w)) as H3.
  { induction l as [|a l IH]; intros w; cbn [fold_left rev]; [by destruct w|]. rewrite IH, <- app_assoc. by destruct w. }
  rewrite H1, H2, H3. unfold l2vpn_received. cbn. by rewrite !app_nil_r.
Qed.

Context {S : Type} (D : main_imsg -> ST S unit) (nconf : S -> option ldpd_conf) (set : option ldpd_conf -> S -> S)
  `{!Receives D nconf set}.

(** A run of imsgs of one kind. *)
Lemma nconf_loop {A} (im : A -> main_imsg) (f : A -> ldpd_conf -> ldpd_conf) l : forall x s,
  (forall a x s, nconf s = Some x -> D (im a) s = Ok (tt, set (Some (f a x)) s)) -> nconf s = Some x ->
  foreach D (map im l) s = Ok (tt, set (Some (fold_left (fun x a => f a x) l x)) s).
Proof.
  induction l as [|a l IH]; intros x s Hf E; cbn [map foreach fold_left].
  - unfold ret. by rewrite <- E, (rc_id (D := D)).
  - rewrite (bind_ok _ _ _ _ _ (Hf a x s E)), (IH (f a x)); [by rewrite (rc_set (D := D))|done|apply (rc_get (D := D))].
Qed.
Lemma nl2vpn_loop {A} (im : A -> main_imsg) (f : A -> l2vpn -> l2vpn) l : forall x v vs s,
  (forall a x v vs s, nconf s = Some x -> xc_l2vpn_list x = v :: vs -> D (im a) s = Ok (tt, set (Some
     (set_xc_lists (xc_iface_list x) (xc_tnbr_list x) (xc_nbrp_list x) (f a v :: vs) x)) s)) ->
  nconf s = Some x -> xc_l2vpn_list x = v :: vs ->
  foreach D (map im l) s
  = Ok (tt, set (Some (set_xc_lists (xc_iface_list x) (xc_tnbr_list x) (xc_nbrp_list x)
                         (fold_left (fun v a => f a v) l v :: vs) x)) s).
Proof.
  induction l as [|a l IH]; intros x v vs s Hf E Ev; cbn [map foreach fold_left].
  - unfold ret. assert (set_xc_lists (xc_iface_list x) (xc_tnbr_list x) (xc_nbrp_list x) (v :: vs) x = x) as ->
      by (rewrite <- Ev; by destruct x). by rewrite <- E, (rc_id (D := D)).
  - rewrite (bind_ok _ _ _ _ _ (Hf a x v vs s E Ev)).
    rewrite (IH (set_xc_lists (xc_iface_list x) (xc_tnbr_list x) (xc_nbrp_list x) (f a v :: vs) x) (f a v) vs);
      [by rewrite (rc_set (D := D))|done|apply (rc_get (D := D))|done].
Qed.

(** One L2VPN with its interfaces and pseudowires, then all of them. *)
Lemma l2vpn_arrives v x s : nconf s = Some x ->
  foreach D (send_l2vpn v) s = Ok (tt, set (Some (add_xc_l2vpn (l2vpn_received v) x)) s).
Proof.
  intros E. unfold send_l2vpn. cbn [foreach]. rewrite (bind_ok _ _ _ _ _ (rc_l2vpn v x s E)).
  erewrite foreach_run; [|apply (nl2vpn_loop ImReconfL2vpnIf add_l2vpn_if); [intros; by apply rc_if|apply (rc_get (D := D))|done]].
  erewrite foreach_run; [|apply (nl2vpn_loop ImReconfL2vpnPw add_l2vpn_pw); [intros; by apply rc_pw|apply (rc_get (D := D))|done]].
  erewrite (nl2vpn_loop ImReconfL2vpnIpw add_l2vpn_ipw); [|intros; by apply rc_ipw|apply (rc_get (D := D))|done].
  rewrite !(rc_set (D := D)). cbn. rewrite fold_l2vpn. by destruct x.
Qed.
Lemma l2vpns_arrive l : forall x s, nconf s = Some x ->
  foreach D (concat (map send_l2vpn l)) s
  = Ok (tt, set (Some (set_xc_lists (xc_iface_list x) (xc_tnbr_list x) (xc_nbrp_list x)
                         (rev (map l2vpn_received l) ++ xc_l2vpn_list x) x)) s).
Proof.
  induction l as [|v l IH]; intros x s E; cbn [map concat rev].
  - cbn. unfold ret. assert (set_xc_lists (xc_iface_list x) (xc_tnbr_list x) (xc_nbrp_list x) (xc_l2vpn_list x) x = x) as -> by (by destruct x).
    by rewrite <- E, (rc_id (D := D)).
  - erewrite foreach_run; [|by apply l2vpn_arrives]. erewrite IH; [|apply (rc_get (D := D))]. rewrite <- app_assoc, (rc_set (D := D)). by destruct x.
Qed.

(** All of it but the end. *)
Definition conf_pieces (c : ldpd_conf) : list main_imsg :=
  ImReconfConf c :: map ImReconfIface (xc_iface_list c) ++ map ImReconfTnbr (xc_tnbr_list c)
    ++ map ImReconfNbrp (xc_nbrp_list c) ++ concat (map send_l2vpn (xc_l2vpn_list c)).
Lemma send_config_split c : main_imsg_send_config c = conf_pieces c ++ [ImReconfEnd].
Proof. unfold main_imsg_send_config, conf_pieces. cbn. by rewrite <- !app_assoc. Qed.
Lemma pieces_gather c s : foreach D (conf_pieces c) s = Ok (tt, set (Some (conf_received c)) s).
Proof.
  unfold conf_pieces. cbn [foreach]. rewrite (bind_ok _ _ _ _ _ (rc_conf c s)).
  erewrite foreach_run; [|apply (nconf_loop ImReconfIface (fun i => add_xc_iface (fresh_iface i))); [intros; by apply rc_iface|apply (rc_get (D := D))]].
  erewrite foreach_run; [|apply (nconf_loop ImReconfTnbr add_xc_tnbr); [intros; by apply rc_tnbr|apply (rc_get (D := D))]].
  erewrite foreach_run; [|apply (nconf_loop ImReconfNbrp add_xc_nbrp); [intros; by apply rc_nbrp|apply (rc_get (D := D))]].
  erewrite l2vpns_arrive; [|apply (rc_get (D := D))]. rewrite !(rc_set (D := D)).
  rewrite fold_ifaces, fold_tnbrs, fold_nbrps. unfold conf_received. cbn. by rewrite !app_nil_r.
Qed.
Lemma pieces_arrive c s : foreach D (main_imsg_send_config c) s = (D ImReconfEnd ;;; ret tt) (set (Some (conf_received c)) s).
Proof. rewrite send_config_split. by rewrite (foreach_run _ _ _ _ _ (pieces_gather c s)). Qed.
End Receive.

#[export] Instance engine_receives env : Receives (ldpe_dispatch_main env) en_nconf set_en_nconf.
Proof.
  assert (forall f x e, en_nconf e = Some x -> mod_nconf f e = Ok (tt, set_en_nconf (Some (f x)) e)) as Hn.
  { intros f x e E. unfold mod_nconf. rewrite (bind_ok get _ e e e) by done. by rewrite E. }
  assert (forall f x v l e, en_nconf e = Some x -> xc_l2vpn_list x = v :: l ->
    mod_nl2vpn f e = Ok (tt, set_en_nconf (Some (set_xc_lists (xc_iface_list x) (xc_tnbr_list x) (xc_nbrp_list x) (f v :: l) x)) e)) as Hv.
  { intros f x v l e E El. unfold mod_nl2vpn. rewrite (bind_ok get _ e e e) by done. by rewrite E, El. }
  split; intros; cbn [ldpe_dispatch_main]; try done; try (by apply Hn); try (by apply Hv). by destruct s.
Qed.
Lemma config_pieces env c e :
  foreach (ldpe_dispatch_main env) (main_imsg_send_config c) e
  = (reconf_end_imsg env ;;; ret tt) (set_en_nconf (Some (conf_received c)) e).
Proof. apply (pieces_arrive (ldpe_dispatch_main env) en_nconf set_en_nconf). Qed.

(** ** What the merge does to the parameters *)

(** [conf_is f m]: runs of [m] change the configuration by [f]. *)
Definition conf_is {A} (f : le_conf -> le_conf) (m : ST disc A) : Prop :=
  forall s a s', m s = Ok (a, s') -> d_conf s' = f (d_conf s).

Definition conf_rel (s s' : disc) : Prop := d_conf s' = d_conf s.
#[export] Instance conf_local : Local conf_rel.
Proof. split; try done. split; [done|]. intros a b c H1 H2. unfold conf_rel in *. congruence. Qed.
#[export] Instance conf_rel_preorder : PreOrder conf_rel.
Proof. apply conf_local. Qed.
Lemma conf_ifaces f s : conf_rel s (set_ifaces f s). Proof. done. Qed.
Lemma conf_tnbrs f s : conf_rel s (set_tnbrs f s). Proof. done. Qed.
Lemma conf_alloc : stays conf_rel alloc.
Proof. intros s ? ? H. unfold alloc in H. by simplify_eq. Qed.
#[export] Hint Resolve conf_ifaces conf_tnbrs : local.
#[export] Hint Resolve conf_alloc : stays.

Section Params.
Lemma conf_is_set f : conf_is f (modify (set_conf f)).
Proof. intros s a s' H. unfold modify in H. by simplify_eq. Qed.
Lemma conf_is_skip {A B} g (m : ST disc A) (k : A -> ST disc B) :
  stays conf_rel m -> (forall a, conf_is g (k a)) -> conf_is g (bind m k).
Proof.
  intros Hm Hk s b s' H. apply bind_inv in H as (a & s1 & H1 & H2). by rewrite (Hk _ _ _ _ H2), (Hm _ _ _ H1).
Qed.
Lemma conf_is_then {A B} g (m : ST disc A) (k : A -> ST disc B) :
  conf_is g m -> (forall a, stays conf_rel (k a)) -> conf_is g (bind m k).
Proof.
  intros Hm Hk s b s' H. apply bind_inv in H as (a & s1 & H1 & H2). by rewrite (Hk _ _ _ _ H2), (Hm _ _ _ H1).
Qed.

Lemma conf_reset_nbrs af : stays conf_rel (ldpe_reset_nbrs af). Proof. unfold ldpe_reset_nbrs. stays_solve. Qed.
Lemma conf_reset_ds : stays conf_rel ldpe_reset_ds_nbrs. Proof. unfold ldpe_reset_ds_nbrs. stays_solve. Qed.
Lemma conf_tnbr_check p : stays conf_rel (tnbr_check p).
Proof. unfold tnbr_check, tnbr_del, tnbr_stop_hello_timer. stays_solve. Qed.
#[local] Hint Resolve conf_reset_nbrs conf_reset_ds conf_tnbr_check : stays.
Lemma conf_stop_backoff env af : stays conf_rel (ldpe_stop_init_backoff env af).
Proof. unfold ldpe_stop_init_backoff. stays_solve. Qed.
Lemma conf_remove_dynamic af : stays conf_rel (ldpe_remove_dynamic_tnbrs af).
Proof. unfold ldpe_remove_dynamic_tnbrs, mod_tnbr. stays_solve. Qed.

(** The global parameters. *)
Definition global_merged (x : ldpd_conf) (c : le_conf) : le_conf :=
  set_lc_flags (xc_flags x) (set_lc_trans_pref (xc_trans_pref x)
    (set_lc_hellos (xc_lhello_holdtime x) (xc_lhello_interval x) (xc_thello_holdtime x) (xc_thello_interval x)
       (set_lc_sess (set_c_rtr_id (xc_rtr_id x)) c))).

Lemma merge_global_conf env x : conf_is (global_merged x) (merge_global env x).
Proof.
  intros s a s' H. unfold merge_global in H. rewrite (bind_ok conf _ s (d_conf s) s) in H by done.
  apply bind_inv in H as (u1 & s1 & H1 & H). apply bind_inv in H as (u2 & s2 & H2 & H).
  apply bind_inv in H as (u3 & s3 & H3 & H). apply bind_inv in H as (u4 & s4 & H4 & H).
  assert (d_conf s1 = set_lc_sess (set_c_rtr_id (xc_rtr_id x)) (d_conf s)) as E1.
  { destruct (negb _) eqn:E in H1; zbool.
    - revert H1. apply conf_is_skip; [stays_solve|intros _]. apply conf_is_skip; [stays_solve|intros _].
      apply conf_is_skip; [stays_solve|intros _]. apply conf_is_set.
    - unfold ret in H1. simplify_eq. destruct (d_conf s1) as [[] ? ? ? ? ? ? ? ? ? ? ? ? ?]. cbn in E. by subst. }
  assert (d_conf s3 = set_lc_trans_pref (xc_trans_pref x) (d_conf s2)) as E3.
  { pose proof (conf_is_set _ _ _ _ H2) as E2. destruct (negb _) eqn:E in H3; zbool.
    - revert H3. apply conf_is_skip; [stays_solve|intros _; apply conf_is_set].
    - unfold ret in H3. simplify_eq. rewrite E2, E1, <- E. by destruct (d_conf s). }
  assert (d_conf s4 = d_conf s3) as E4 by (destruct (negb _) in H4; [exact (conf_reset_ds _ _ _ H4)|unfold ret in H4; by simplify_eq]).
  rewrite (conf_is_set _ _ _ _ H), E4, E3, (conf_is_set _ _ _ _ H2), E1. done.
Qed.

(** The parameters of a family. *)
Definition af_of (c : le_conf) (af : Z) : af_conf := if af =? AF_INET then lc_ipv4 c else lc_ipv6 c.
Definition af_merged (af : Z) (x : xaf) (a : ldpd_addr) (c : le_conf) : le_conf :=
  let xa := xa_conf x in
  set_lc_af af (fun _ => AfConf (af_lhello_holdtime xa) (af_lhello_interval xa) (af_thello_holdtime xa)
                           (af_thello_interval xa) a (af_flags xa))
    (set_lc_sess (set_c_keepalive af (xa_keepalive x)) c).

(** The transport address stays as it is when it is the same address. *)
Lemma merge_af_conf env af x s a s' : af_ok af -> merge_af env af x s = Ok (a, s') ->
  exists addr, d_conf s' = af_merged af x addr (d_conf s) /\ ldp_addrcmp af addr (af_trans_addr (xa_conf x)) = Ok 0 /\
    (addr = af_trans_addr (af_of (d_conf s) af) \/ addr = af_trans_addr (xa_conf x)).
Proof.
  intros Haf H. unfold merge_af in H. rewrite (bind_ok conf _ s (d_conf s) s) in H by done.
  rewrite (bind_ok _ _ s (af_of (d_conf s) af) s) in H by (destruct Haf as [-> | ->]; done). cbv zeta in H.
  apply bind_inv in H as (u1 & s1 & H1 & H). apply bind_inv in H as (u2 & s2 & H2 & H).
  apply bind_inv in H as (u3 & s3 & H3 & H). apply bind_inv in H as (u4 & s4 & H4 & H).
  apply bind_inv in H as (u5 & s5 & H5 & H). apply bind_inv in H as (d & s6 & H6 & H).
  assert (d_conf s1 = set_lc_sess (set_c_keepalive af (xa_keepalive x)) (d_conf s)) as E1.
  { destruct (negb _) eqn:E in H1; zbool.
    - revert H1. apply conf_is_then; [apply conf_is_set|intros _; apply conf_stop_backoff].
    - unfold ret in H1. simplify_eq. unfold conf_keepalive in E.
      destruct (d_conf s1) as [[] ? ? ? ? ? ? ? ? ? ? ? ? ?]. cbn in E.
      destruct Haf as [-> | ->]; cbn in E; by rewrite <- E. }
  pose proof (conf_is_set _ _ _ _ H2) as E2. pose proof (conf_is_set _ _ _ _ H5) as E5.
  assert (d_conf s3 = d_conf s2) as E3
    by (destruct (_ && _) in H3; [exact (conf_remove_dynamic _ _ _ _ H3)|unfold ret in H3; by simplify_eq]).
  assert (d_conf s4 = d_conf s3) as E4.
  { destruct (negb _) in H4; [|unfold ret in H4; by simplify_eq].
    destruct (_ =? _) in H4; [unfold ret in H4; by simplify_eq|exact (conf_reset_nbrs _ _ _ _ H4)]. }
  destruct (ldp_addrcmp_total af (af_trans_addr (af_of (d_conf s) af)) (af_trans_addr (xa_conf x)) Haf) as [z Ez].
  unfold lift in H6. rewrite Ez in H6. cbn in H6. simplify_eq.
  rewrite E4, E3, E2, E1 in E5. destruct (negb _) eqn:Ed in H; zbool.
  - exists (af_trans_addr (xa_conf x)). rewrite (conf_is_set _ _ _ _ H), E5.
    split; [by destruct Haf as [-> | ->]|]. split; [|by right]. destruct Haf as [-> | ->]; unfold ldp_addrcmp; cbn.
    + by rewrite Z.eqb_refl.
    + by rewrite memcmp_refl.
  - subst. exists (af_trans_addr (af_of (d_conf s) af)). unfold ret in H. simplify_eq. rewrite E5.
    split; [by destruct Haf as [-> | ->]|]. split; [done|by left].
Qed.

Lemma conf_merge_ifaces env x : stays conf_rel (merge_ifaces env x).
Proof.
  unfold merge_ifaces, merge_ifaces_del, merge_iface, merge_iface_af, mod_ia, mod_iface, if_exit, if_free, if_reset,
    if_stop_hello_timer. stays_solve. all: apply stays_if_del_adjs.
Qed.
Lemma conf_merge_tnbrs x : stays conf_rel (merge_tnbrs x).
Proof. unfold merge_tnbrs, merge_tnbrs_del, merge_tnbr, tnbr_update, mod_tnbr. stays_solve. Qed.
Lemma conf_restart env id : stays conf_rel (restart_session env id).
Proof. unfold restart_session. stays_solve. Qed.
Lemma conf_pw_init p : stays conf_rel (ldpe_l2vpn_pw_init p).
Proof. unfold ldpe_l2vpn_pw_init, tnbr_new. stays_solve. Qed.
Lemma conf_pw_exit p : stays conf_rel (ldpe_l2vpn_pw_exit p).
Proof. unfold ldpe_l2vpn_pw_exit. stays_solve. Qed.
#[local] Hint Resolve conf_pw_init conf_pw_exit : stays.
Lemma conf_merge_l2vpn v xl : stays conf_rel (merge_l2vpn v xl).
Proof.
  unfold merge_l2vpn. repeat (apply stays_bind; [apply stays_floop; [typeclasses eauto|]|]; intros);
    try apply stays_ret; unfold merge_pw, merge_inactive_pw, merge_pw_del; stays_solve.
Qed.
Lemma conf_merge_l2vpns l xls : stays conf_rel (merge_l2vpns l xls).
Proof.
  unfold merge_l2vpns. apply stays_bind; [|intros]; (apply stays_floop; [typeclasses eauto|intros]).
  - unfold merge_l2vpn_gone, ldpe_l2vpn_exit. stays_solve.
  - unfold merge_l2vpn_one, ldpe_l2vpn_init. destruct (l2vpn_find _ _); [|stays_solve].
    apply stays_bind; [apply conf_merge_l2vpn|intros; apply stays_ret].
Qed.
End Params.

(** ** Parameters of neighbours *)
Section Nbrps.
Definition nbrps_of (s : disc) : list nbr_params := c_nbrp_list (lc_sess (d_conf s)).

Lemma nbrp_in_remove id id' l : nbr_params_in (nbrp_remove id l) id' = nbr_params_in l id' \/ id' = id.
Proof.
  destruct (decide (id' = id)) as [->|Hne]; [by right|left].
  induction l as [|p l IH]; [done|]. cbn. destruct (nbrp_lsr_id p =? id) eqn:E; zbool.
  - unfold nbr_params_in. cbn. rewrite E. destruct (id =? id') eqn:E2; zbool; [by subst|done].
  - unfold nbr_params_in in *. cbn. by rewrite IH.
Qed.
Lemma nbrp_in_replace x l p : nbr_params_in l (nbrp_lsr_id x) = Some p -> forall id,
  nbr_params_in (nbrp_replace x l) id = if nbrp_lsr_id x =? id then Some x else nbr_params_in l id.
Proof.
  intros Hp id. induction l as [|q l IH]; [done|]. unfold nbr_params_in in *. cbn in Hp |- *.
  destruct (nbrp_lsr_id q =? nbrp_lsr_id x) eqn:E; zbool.
  - cbn. rewrite E. by destruct (nbrp_lsr_id x =? id).
  - cbn. rewrite (IH Hp). destruct (nbrp_lsr_id q =? id) eqn:E2; [|done].
    destruct (nbrp_lsr_id x =? id) eqn:E3; [zbool; congruence|done].
Qed.

(** One entry of the new configuration. *)
Lemma merge_nbrp_in env x s a s' : merge_nbrp env x s = Ok (a, s') -> forall id,
  nbr_params_in (nbrps_of s') id = if nbrp_lsr_id x =? id then Some x else nbr_params_in (nbrps_of s) id.
Proof.
  intros H id. unfold merge_nbrp in H. rewrite (bind_ok conf _ s (d_conf s) s) in H by done. fold (nbrps_of s) in H.
  destruct (nbr_params_in (nbrps_of s) (nbrp_lsr_id x)) as [p|] eqn:E.
  - assert (d_conf s' = set_lc_sess (set_c_nbrps (nbrp_replace x)) (d_conf s)) as Ec.
    { revert H. apply conf_is_then; [apply conf_is_set|intros _]. case_match; [apply conf_restart|apply stays_ret]. }
    unfold nbrps_of. rewrite Ec. cbn. by apply (nbrp_in_replace x _ p).
  - assert (d_conf s' = set_lc_sess (set_c_nbrps (cons x)) (d_conf s)) as Ec.
    { revert H. apply conf_is_then; [apply conf_is_set|intros _; apply conf_restart]. }
    unfold nbrps_of. by rewrite Ec.
Qed.

Lemma merge_nbrp_loop env xs : forall s a s', foreach (merge_nbrp env) xs s = Ok (a, s') -> NoDup (nbrp_lsr_id <$> xs) ->
  forall id, nbr_params_in (nbrps_of s') id =
    match nbr_params_in xs id with Some x => Some x | None => nbr_params_in (nbrps_of s) id end.
Proof.
  induction xs as [|x xs IH]; intros s a s' H Hnd id; cbn [foreach] in H; [unfold ret in H; by simplify_eq|].
  apply bind_inv in H as (u & s1 & H1 & H2). cbn in Hnd. apply NoDup_cons in Hnd as [Hx Hnd].
  rewrite (IH _ _ _ H2 Hnd id), (merge_nbrp_in _ _ _ _ _ H1 id). unfold nbr_params_in. cbn.
  destruct (nbrp_lsr_id x =? id) eqn:E; [|done]. zbool. subst.
  destruct (List.find _ xs) as [y|] eqn:Ey; [|done]. apply list_find_in in Ey as [Hy Eq]. zbool.
  destruct Hx. rewrite <- Eq. by apply list_elem_of_fmap_2.
Qed.

(** The entries that are gone. *)
Definition nbrp_kept (x : ldpd_conf) (p : nbr_params) : bool :=
  match nbr_params_in (xc_nbrp_list x) (nbrp_lsr_id p) with Some _ => true | None => false end.

Lemma nbrp_remove_at k p l : Forall (fun q => nbrp_lsr_id q <> nbrp_lsr_id p) k ->
  nbrp_remove (nbrp_lsr_id p) (k ++ p :: l) = k ++ l.
Proof.
  induction 1 as [|q k Hq _ IH]; cbn; [by rewrite Z.eqb_refl|]. apply Z.eqb_neq in Hq as ->. by rewrite IH.
Qed.

Lemma nbrp_del_loop env x l : forall k s a s',
  foreach (fun p => match nbr_params_in (xc_nbrp_list x) (nbrp_lsr_id p) with
    | None => restart_session env (nbrp_lsr_id p) ;;;
              modify (set_conf (set_lc_sess (set_c_nbrps (nbrp_remove (nbrp_lsr_id p)))))
    | Some _ => ret tt end) l s = Ok (a, s') ->
  nbrps_of s = k ++ l -> Forall (fun p => nbrp_kept x p = true) k ->
  nbrps_of s' = k ++ List.filter (nbrp_kept x) l.
Proof.
  induction l as [|p l IH]; intros k s a s' H Hk HK; cbn [foreach] in H.
  { unfold ret in H. by simplify_eq. }
  apply bind_inv in H as (u & s1 & H1 & H2). cbn [List.filter].
  assert (nbrp_kept x p = match nbr_params_in (xc_nbrp_list x) (nbrp_lsr_id p) with Some _ => true | None => false end)
    as Ep by done.
  destruct (nbr_params_in (xc_nbrp_list x) (nbrp_lsr_id p)) as [y|] eqn:Ey; rewrite Ep.
  - unfold ret in H1. simplify_eq. rewrite (IH (k ++ [p]) _ _ _ H2); [by rewrite <- app_assoc| |].
    + by rewrite <- app_assoc.
    + apply Forall_app. by split; [|constructor].
  - apply (IH k _ _ _ H2); [|done].
    assert (d_conf s1 = set_lc_sess (set_c_nbrps (nbrp_remove (nbrp_lsr_id p))) (d_conf s)) as Ec.
    { revert H1. apply conf_is_skip; [apply conf_restart|intros _; apply conf_is_set]. }
    unfold nbrps_of in *. rewrite Ec. cbn. rewrite Hk. apply nbrp_remove_at. eapply Forall_impl; [exact HK|].
    intros q Hq Eq. unfold nbrp_kept in Hq. by rewrite Eq, Ey in Hq.
Qed.

(** The parameters behind the merge are those of the new configuration. *)
Lemma merge_nbrps_in env x s a s' : merge_nbrps env x s = Ok (a, s') -> NoDup (nbrp_lsr_id <$> xc_nbrp_list x) ->
  forall id, nbr_params_in (nbrps_of s') id = nbr_params_in (xc_nbrp_list x) id.
Proof.
  intros H Hnd id. unfold merge_nbrps in H. apply bind_inv in H as (u & s1 & H1 & H2).
  rewrite (merge_nbrp_loop _ _ _ _ _ H2 Hnd id). destruct (nbr_params_in (xc_nbrp_list x) id) as [y|] eqn:E; [done|].
  unfold merge_nbrps_del in H1. rewrite (bind_ok conf _ s (d_conf s) s) in H1 by done.
  rewrite (nbrp_del_loop env x _ [] _ _ _ H1 eq_refl (Forall_nil_2 _)). cbn [app].
  destruct (nbr_params_in (List.filter _ _) id) as [p|] eqn:Ep; [|done]. exfalso.
  apply list_find_in in Ep as [Hp Eq]. zbool. apply list_elem_of_In, filter_In in Hp as [_ Hp].
  unfold nbrp_kept in Hp. by rewrite Eq, E in Hp.
Qed.

(** The rest of the parameters stays. *)
Lemma merge_nbrps_conf env x s a s' : merge_nbrps env x s = Ok (a, s') ->
  exists l, d_conf s' = set_lc_sess (set_c_nbrps (fun _ => l)) (d_conf s).
Proof.
  set (R := fun s s' : disc => exists l, d_conf s' = set_lc_sess (set_c_nbrps (fun _ => l)) (d_conf s)).
  assert (PreOrder R) as HR.
  { split; [intros t; exists (nbrps_of t); by destruct t as [[[]]]|].
    intros t1 t2 t3 [l1 E1] [l2 E2]. exists l2. rewrite E2, E1. by destruct t1 as [[[]]]. }
  assert (forall f, stays R (modify (set_conf (set_lc_sess (set_c_nbrps f))))) as Hset.
  { intros f t u t' H. unfold modify in H. simplify_eq. eexists. cbn. reflexivity. }
  assert (forall id, stays R (restart_session env id)) as Hre.
  { intros id t u t' H. apply conf_restart in H. exists (nbrps_of t). rewrite H. by destruct t as [[[]]]. }
  assert (stays R (merge_nbrps env x)) as Hm.
  { unfold merge_nbrps, merge_nbrps_del, merge_nbrp. repeat first [apply Hset | apply Hre | stays_step]. }
  apply Hm.
Qed.
End Nbrps.

(** ** Interfaces *)

(** What is configured of the interfaces, and operations that leave it alone. *)
Definition if_confs (s : disc) : list (Z * string * (bool * Z * Z) * (bool * Z * Z)) := if_conf <$> d_ifaces s.
Definition ifs_rel (s s' : disc) : Prop := if_confs s' = if_confs s.
#[export] Instance ifs_local : Local ifs_rel.
Proof.
  split; try done.
  - split; [done|]. intros a b c H1 H2. unfold ifs_rel in *. congruence.
  - intros p f s Hf. unfold ifs_rel, if_confs. cbn. unfold upd_ptr. induction (d_ifaces s) as [|i l IH]; [done|].
    cbn. rewrite IH. destruct (ptr_of i =? p); [by rewrite Hf|done].
Qed.
Lemma ifs_conf f s : ifs_rel s (set_conf f s). Proof. done. Qed.
Lemma ifs_tnbrs f s : ifs_rel s (set_tnbrs f s). Proof. done. Qed.
Lemma ifs_alloc : stays ifs_rel alloc.
Proof. intros s ? ? H. unfold alloc in H. by simplify_eq. Qed.
#[export] Hint Resolve ifs_conf ifs_tnbrs : local.
#[export] Hint Resolve ifs_alloc : stays.

Section Ifaces.
Lemma ifs_tnbr_check p : stays ifs_rel (tnbr_check p).
Proof. unfold tnbr_check, tnbr_del, tnbr_stop_hello_timer. stays_solve. Qed.
#[local] Hint Resolve ifs_tnbr_check : stays.
Lemma ifs_pw_init p : stays ifs_rel (ldpe_l2vpn_pw_init p).
Proof. unfold ldpe_l2vpn_pw_init, tnbr_new. stays_solve. Qed.
Lemma ifs_pw_exit p : stays ifs_rel (ldpe_l2vpn_pw_exit p).
Proof. unfold ldpe_l2vpn_pw_exit. stays_solve. Qed.
#[local] Hint Resolve ifs_pw_init ifs_pw_exit : stays.
Lemma ifs_global env x : stays ifs_rel (merge_global env x).
Proof. unfold merge_global, ldpe_reset_nbrs, ldpe_reset_ds_nbrs. stays_solve. Qed.
Lemma ifs_af env af x : stays ifs_rel (merge_af env af x).
Proof. unfold merge_af, ldpe_stop_init_backoff, ldpe_remove_dynamic_tnbrs, mod_tnbr, ldpe_reset_nbrs. stays_solve. Qed.
Lemma ifs_merge_tnbrs x : stays ifs_rel (merge_tnbrs x).
Proof. unfold merge_tnbrs, merge_tnbrs_del, merge_tnbr, tnbr_update, mod_tnbr. stays_solve. Qed.
Lemma ifs_merge_nbrps env x : stays ifs_rel (merge_nbrps env x).
Proof. unfold merge_nbrps, merge_nbrps_del, merge_nbrp, restart_session. stays_solve. Qed.
Lemma ifs_merge_l2vpns l xls : stays ifs_rel (merge_l2vpns l xls).
Proof.
  unfold merge_l2vpns. apply stays_bind; [|intros]; (apply stays_floop; [typeclasses eauto|intros]).
  - unfold merge_l2vpn_gone, ldpe_l2vpn_exit. stays_solve.
  - unfold merge_l2vpn_one, ldpe_l2vpn_init. destruct (l2vpn_find _ _); [|stays_solve].
    apply stays_bind; [|intros; apply stays_ret]. unfold merge_l2vpn.
    repeat (apply stays_bind; [apply stays_floop; [typeclasses eauto|]|]; intros);
      try apply stays_ret; unfold merge_pw, merge_inactive_pw, merge_pw_del; stays_solve.
Qed.
Lemma ifs_if_exit p : stays ifs_rel (if_exit p).
Proof. unfold if_exit, if_reset, if_stop_hello_timer. stays_solve. all: apply stays_if_del_adjs. Qed.
End Ifaces.

(** ** L2VPNs *)
Section L2vpns.
Definition vpn_kept (xls : list l2vpn) (v : l2vpn) : bool :=
  match l2vpn_find xls (lv_name v) with Some _ => true | None => false end.

Lemma l2vpn_take_at k v l : Forall (fun w => lv_name w <> lv_name v) k ->
  l2vpn_take (lv_name v) (k ++ v :: l) = k ++ l.
Proof.
  induction 1 as [|w k Hw _ IH]; cbn; [by rewrite String.eqb_refl|]. apply String.eqb_neq in Hw as ->. by rewrite IH.
Qed.
Lemma vpn_gone_loop xls l : forall k s a s', floop (merge_l2vpn_gone xls) l (k ++ l) s = Ok (a, s') ->
  Forall (fun v => vpn_kept xls v = true) k -> a = k ++ List.filter (vpn_kept xls) l.
Proof.
  induction l as [|v l IH]; intros k s a s' H HK; cbn [floop] in H.
  { unfold ret in H. by simplify_eq. }
  apply bind_inv in H as (b & s1 & H1 & H2). cbn [List.filter]. unfold merge_l2vpn_gone in H1.
  assert (vpn_kept xls v = match l2vpn_find xls (lv_name v) with Some _ => true | None => false end) as Ev by done.
  destruct (l2vpn_find xls (lv_name v)) as [y|] eqn:Ey; rewrite Ev.
  - unfold ret in H1. simplify_eq. replace (k ++ v :: l) with ((k ++ [v]) ++ l) in H2 by (by rewrite <- app_assoc).
    rewrite (IH (k ++ [v]) _ _ _ H2); [by rewrite <- app_assoc|]. apply Forall_app. by split; [|constructor].
  - apply bind_inv in H1 as (u & s2 & _ & H1). unfold ret in H1. simplify_eq. rewrite l2vpn_take_at in H2.
    + by apply (IH k _ _ _ H2).
    + eapply Forall_impl; [exact HK|]. intros w Hw Eq. unfold vpn_kept in Hw. by rewrite Eq, Ey in Hw.
Qed.
End L2vpns.

(** ** Configurations that can be received *)

(** Configurations of the parent: targeted neighbours have a family and no
    adjacency, pseudowires a family, and no LSR id has two sets of parameters. *)
Record parent_conf (c : ldpd_conf) : Prop := ParentConf {
  pc_tnbrs : Forall new_tnbr_ok (xc_tnbr_list c);
  pc_l2vpns : Forall l2vpn_ok (xc_l2vpn_list c);
  pc_nbrps : NoDup (nbrp_lsr_id <$> xc_nbrp_list c)
}.

Lemma received_new_ok c : parent_conf c -> conf_new_ok (conf_received c).
Proof.
  intros [Ht Hl _]. split_and!; cbn.
  - apply Forall_rev, Forall_map, Forall_forall. intros i _. apply fresh_iface_ok.
  - by apply Forall_rev.
  - apply Forall_rev, Forall_map. eapply Forall_impl; [exact Hl|]. intros v [H1 H2]. split; by apply Forall_rev.
Qed.
