(* ===== verification/EngineFaults.v ===== *)
(** * Where the LDP engine's dispatcher goes wrong

    Three defects of ldpe.c and of the merge of configurations, each proved for
    every state it can strike: sockets of one address family installed for the
    other, label messages of a closed session sent in the next one, and links
    that stay down when the router gets its identifier. *)
From stdpp Require Import prelude strings list.
From Stdlib Require Import ZArith Lia.
From S2P Require Import Prelude Util Wire Ipc Session LabelMsg Fec Hello Discovery DiscInv DiscSafe DiscRun.
From S2P Require Import DiscFrame DiscSystem Config HeapLoops ConfigSafe SessRead Engine EngineSafe Delivery EngineFun.

(** ** Sockets *)
Section Sockets.
Definition opposite_af (af : Z) : Z := if af =? AF_INET then AF_INET6 else AF_INET.

Lemma conf_reconnect env af : stays conf_rel (reconnect_nbrs env af).
Proof. unfold reconnect_nbrs. stays_solve. Qed.
Lemma in_disc_conf (m : ST disc unit) e e' : stays conf_rel m -> in_disc m e = Ok (tt, e') ->
  d_conf (en_disc e') = d_conf (en_disc e).
Proof.
  intros Hm H. unfold in_disc in H. destruct (m (en_disc e)) as [[[] s]| | |] eqn:E; simplify_eq/=. by apply (Hm _ _ _ E).
Qed.

(** A successful set-up installs the three descriptors received last. *)
Lemma setup_installs env af e e' : af_ok af ->
  en_disc_socket e <> -1 -> en_edisc_socket e <> -1 -> en_session_socket e <> -1 ->
  setup_sockets_imsg env af e = Ok (tt, e') ->
  d_conf (en_disc e')
  = set_lc_global af (AfGlobal (en_disc_socket e) (en_edisc_socket e) (en_session_socket e)) (d_conf (en_disc e)).
Proof.
  intros Haf H1 H2 H3 H. unfold setup_sockets_imsg in H. rewrite (bind_ok get _ e e e) in H by done.
  apply Z.eqb_neq in H1, H2, H3. rewrite H1, H2, H3 in H. cbn [orb] in H.
  set (g := AfGlobal _ _ _) in *. set (s1 := set_conf (set_lc_global af g) (en_disc e)).
  rewrite (bind_ok _ _ e tt (set_en_disc s1 e)) in H.
  2:{ apply in_disc_ok. rewrite (bind_ok conf _ _ (d_conf (en_disc e)) (en_disc e)) by done. by destruct Haf as [-> | ->]. }
  apply bind_inv in H as ([] & e2 & E2 & H). apply bind_inv in H as ([] & e3 & E3 & H).
  rewrite (in_disc_conf _ _ _ (conf_reconnect _ _) H), (in_disc_conf _ _ _ (stays_tnbr_update_all _) E3),
    (in_disc_conf _ _ _ (stays_if_update_all _ _) E2). done.
Qed.
End Sockets.

(** The descriptors the parent passes are kept in static variables that a
    successful [IMSG_SETUP_SOCKETS] does not clear, and the parent sends
    [IMSG_SETUP_SOCKETS] even when it could create none of the sockets of a
    family.  So when the sockets of one family are set up and those of the other
    cannot be created, the other family is given the sockets of the first. *)
Theorem families_share_sockets (env : sys_env) (c : ldpd_conf) (e : engine) (af : Z) (l : list main_imsg)
  (He : engine_ok e) (Haf : af_ok af)
  (Hstatics : en_disc_socket e <> -1 /\ en_edisc_socket e <> -1 /\ en_session_socket e <> -1)
  (Hother : ldp_af_global_get (d_conf (en_disc e)) (opposite_af af)
            = Ok (AfGlobal (en_disc_socket e) (en_edisc_socket e) (en_session_socket e)))
  (Hnone : main_imsg_send_net_sockets c (fun _ => None) af = Ok l) (Hl : l <> [])
  (Hroom : engine_room (EvMain env (ImSetupSockets af)) e) :
  exists e', foreach (ldpe_dispatch_main env) l e = Ok (tt, e') /\ engine_ok e' /\
    ldp_af_global_get (d_conf (en_disc e')) AF_INET = ldp_af_global_get (d_conf (en_disc e')) AF_INET6 /\
    exists g, ldp_af_global_get (d_conf (en_disc e')) af = Ok g /\ ag_disc_socket g <> -1.
Proof.
  assert (l = [ImSetupSockets af]) as El.
  { unfold main_imsg_send_net_sockets in Hnone. cbn [main_imsg_send_net_socket app] in Hnone.
    destruct (if af =? AF_INET then _ else _) as [x| | |]; try done. cbn [rbind] in Hnone.
    destruct (ldp_addrisset _ _) as [z| | |]; try done. cbn [rbind] in Hnone. by destruct (z =? 0); simplify_eq. }
  subst l. clear Hnone Hl.
  destruct (engine_runs (EvMain env (ImSetupSockets af)) e He Haf Hroom) as (e' & E & He').
  destruct Hstatics as (H1 & H2 & H3). exists e'. split; [by cbn [foreach]; rewrite (bind_ok _ _ _ _ _ E)|].
  split; [done|]. rewrite (setup_installs env af e e' Haf H1 H2 H3 E).
  destruct Haf as [-> | ->]; cbn in *; simplify_eq; (split; [congruence|eexists; by split]).
Qed.

(** ** Batches of label messages *)
Section Batches.
(** Session events of the neighbour [p]. *)
Inductive session_run (p : Z) (s : disc) : disc -> Prop :=
| sr_refl : session_run p s s
| sr_step s1 s2 n op : session_run p s s1 -> find_ptr p (d_nbrs s1) = Some n -> op_enabled op (ldpe_of s1 n) ->
    d_msgcnt s1 < 2 ^ 31 - 5 -> Z.of_nat (length (d_pids s1)) < 2 ^ 32 - 1 ->
    on_nbr p (run_op op) s1 = Ok (tt, s2) -> session_run p s s2.

(** None of them touches the label messages collected for the neighbour. *)
Lemma session_run_keeps p s s' n : disc_inv s -> find_ptr p (d_nbrs s) = Some n -> session_run p s s' ->
  disc_inv s' /\ exists n', find_ptr p (d_nbrs s') = Some n' /\ dn_lists n' = dn_lists n.
Proof.
  intros I Hp. induction 1 as [|s1 s2 n1 op _ IH Hn1 Hen Hc Hpids E]; [eauto|].
  destruct IH as (I1 & n' & Hn' & Hl). rewrite Hn1 in Hn'. simplify_eq.
  destruct (session_event_ok s1 p n' op I1 Hc Hpids Hn1 Hen) as (s3 & E3 & I3 & _).
  rewrite E in E3. simplify_eq. split; [done|].
  unfold on_nbr in E. rewrite (bind_ok _ _ _ _ _ (get_dnbr_ok _ _ _ Hn1)) in E.
  destruct (run_op op (ldpe_of s1 n')) as [[[] e]| | |]; try done. cbn [rbind] in E. simplify_eq.
  rewrite put_nbrs, Z.eqb_refl, Hn1. eexists. by split.
Qed.
End Batches.

(** C33: the label messages collected for a neighbour are dropped when the
    neighbour is deleted, but not when its session closes.  Whatever session
    events follow, once the neighbour is operational again, under a new
    identifier, the end of a batch of the new session puts the messages of the
    old one on its wire. *)
Theorem stale_batch_sent (b : batch) (p : Z) (s s1 : disc) (n n1 : dnbr)
  (Hs : disc_inv s) (Hn : find_ptr p (d_nbrs s) = Some n) (Hrun : session_run p s s1)
  (Hn1 : disc_find_peerid s1 (n_peerid (dn_nbr n1)) = Some n1) (Hp : dn_ptr n1 = p)
  (Hnew : n_peerid (dn_nbr n1) <> n_peerid (dn_nbr n)) (Hoper : n_state (dn_nbr n1) = NBR_STA_OPER)
  (Hmax : 76 <= n_max_pdu_len (dn_nbr n1) < 2 ^ 16) (Hl : Forall label_sendable (batch_of b (dn_lists n)))
  (Hne : batch_of b (dn_lists n) <> []) (Hroom : room (Z.of_nat (length (batch_of b (dn_lists n)))) s1) :
  exists s' n' groups, dispatch_end b (n_peerid (dn_nbr n1)) s1 = Ok (tt, s') /\
    find_ptr p (d_nbrs s') = Some n' /\ concat groups = batch_of b (dn_lists n) /\
    dn_wire n' = dn_wire n1 ++ (ldp_pdu (ldp_rtr_id_get (sess_conf s1))
      <$> pdu_bodies (d_msgcnt s1 + 1) (batch_type b) groups).
Proof.
  destruct (session_run_keeps p s s1 n Hs Hn Hrun) as (I1 & n' & Hn' & E).
  pose proof (nbr_of_list s1 n1 I1 (find_peerid_in _ _ _ Hn1)) as Hf. rewrite Hp, Hn' in Hf. simplify_eq.
  destruct (end_batch_ok b _ s1 n1 I1 Hn1 Hoper Hmax) as (s' & n2 & groups & E2 & _ & F2 & _ & _ & G & W & _);
    rewrite ?E; try done.
  rewrite E in *. by exists s', n2, groups.
Qed.

(** ** The router id *)
Section RouterId.
Definition no_router_id (s : disc) : Prop := ldp_rtr_id_get (lc_sess (d_conf s)) = INADDR_ANY.
Definition links_down (s : disc) : Prop :=
  Forall (fun i => ia_state (if_ipv4 i) = IF_STA_DOWN /\ ia_state (if_ipv6 i) = IF_STA_DOWN) (d_ifaces s).

(** Without a router id an update leaves a link that is down as it is. *)
Lemma update_af_down j ifp af ok i s : af_ok af -> no_router_id s -> find_ptr ifp (d_ifaces s) = Some i ->
  ia_state (ia_of i af) = IF_STA_DOWN -> if_update_af j ifp af ok s = Ok (tt, s).
Proof.
  intros Haf Hid Hi Hst. unfold if_update_af. rewrite (bind_ok _ _ _ _ _ (get_iface_ok _ _ _ Hi)).
  rewrite (bind_ok _ _ s (ia_of i af) s).
  2:{ unfold get_ia. rewrite (bind_ok _ _ _ _ _ (get_iface_ok _ _ _ Hi)). by destruct Haf as [-> | ->]. }
  rewrite (bind_ok conf _ s (d_conf s) s) by done. unfold no_router_id in Hid.
  destruct Haf as [-> | ->]; cbn [Z.eqb];
    (erewrite bind_ok by done; erewrite bind_ok by done; rewrite Hid, Hst; by rewrite !andb_false_r).
Qed.
Lemma update_all_down j s : NoDup (ptrs (d_ifaces s)) -> no_router_id s -> links_down s ->
  if_update_all j AF_UNSPEC s = Ok (tt, s).
Proof.
  intros I Hid Hd. unfold if_update_all. rewrite (bind_ok get _ s s s) by done.
  assert (forall l, Forall (fun i => find_ptr (if_ptr i) (d_ifaces s) = Some i /\
    ia_state (if_ipv4 i) = IF_STA_DOWN /\ ia_state (if_ipv6 i) = IF_STA_DOWN) l ->
    foreach (fun i => if_update (j (if_ptr i)) (if_ptr i) AF_UNSPEC) l s = Ok (tt, s)) as H.
  { induction 1 as [|i l (Hi & H4 & H6) _ IH]; [done|]. cbn [foreach]. rewrite (bind_ok _ _ s tt s); [done|].
    unfold if_update. rewrite (bind_ok _ _ _ _ _ (get_iface_ok _ _ _ Hi)). cbn [Z.eqb orb AF_UNSPEC AF_INET AF_INET6].
    rewrite (bind_ok _ _ s tt s).
    - exact (update_af_down _ _ AF_INET6 _ i s (or_intror eq_refl) Hid Hi H6).
    - exact (update_af_down _ _ AF_INET _ i s (or_introl eq_refl) Hid Hi H4). }
  apply H, Forall_forall. intros i Hi. split; [|by apply (proj1 (Forall_forall _ _) Hd i)].
  by apply (find_ptr_in _ i).
Qed.

(** The rest of the merge does not touch the links. *)
Definition links_rel (s s' : disc) : Prop := d_ifaces s' = d_ifaces s.
#[export] Instance links_rel_preorder : PreOrder links_rel.
Proof. split; [done|]. intros a b c H1 H2. unfold links_rel in *. congruence. Qed.
Lemma links_on_nbr p m : stays links_rel (on_nbr p m).
Proof.
  unfold on_nbr. apply stays_bind; [apply stays_deref|]. intros n s ? s' H.
  destruct (m (ldpe_of s n)) as [[]| | |]; by simplify_eq/=.
Qed.
Lemma links_sent f s : links_rel s (set_sent f s). Proof. done. Qed.
Lemma links_conf f s : links_rel s (set_conf f s). Proof. done. Qed.
Lemma links_tnbrs f s : links_rel s (set_tnbrs f s). Proof. done. Qed.
Lemma links_msgcnt : stays links_rel disc_msgcnt.
Proof. intros s ? ? H. unfold disc_msgcnt in H. case_match; by simplify_eq. Qed.
#[local] Hint Resolve links_on_nbr links_msgcnt : stays.
#[local] Hint Resolve links_sent links_conf links_tnbrs : local.
Lemma links_reset_nbrs af : stays links_rel (ldpe_reset_nbrs af).
Proof. unfold ldpe_reset_nbrs. stays_solve. Qed.
Lemma links_reset_ds : stays links_rel ldpe_reset_ds_nbrs.
Proof. unfold ldpe_reset_ds_nbrs. stays_solve. Qed.
Lemma links_tnbr_update_all af : stays links_rel (tnbr_update_all af).
Proof.
  unfold tnbr_update_all, tnbr_update, tnbr_updated, mod_tnbr, get_tnbr, send_hello, hello_params, send_packet, get_iface.
  stays_solve.
Qed.
Lemma links_set f : stays links_rel (modify (set_conf f)).
Proof. stays_solve. Qed.
Lemma links_merge_rest f (b1 b2 : bool) g h :
  stays links_rel (modify (set_conf f) ;;; (if b1 then ldpe_reset_ds_nbrs ;;; modify (set_conf g) else ret tt) ;;;
    (if b2 then ldpe_reset_ds_nbrs else ret tt) ;;; modify (set_conf h)).
Proof. pose proof links_reset_ds. stays_solve. Qed.
End RouterId.

(** [merge_global] updates the links before it stores the new router id.
    When a router that has none, so that all its links are down, is given its
    identifier, the update still sees none: the merge returns with the identifier
    in place and every link as it was, down. *)
Theorem first_router_id_leaves_links_down (env : sys_env) (x : ldpd_conf) (s : disc)
  (Hs : disc_inv s) (Hid : no_router_id s) (Hdown : links_down s) (Hx : xc_rtr_id x <> INADDR_ANY)
  (Hroom : room (global_cost (heap_size s) (Z.of_nat (length (d_ifaces s))) (Z.of_nat (length (d_tnbrs s)))) s) :
  exists s', merge_global env x s = Ok (tt, s') /\ ldp_rtr_id_get (lc_sess (d_conf s')) = xc_rtr_id x /\
    d_ifaces s' = d_ifaces s /\ links_down s'.
Proof.
  destruct (merge_global_returns env x s (heap_size s) (Z.of_nat (length (d_ifaces s))) (Z.of_nat (length (d_tnbrs s))))
    as ([] & s' & E & _); try done; [apply heap_sized|].
  exists s'. split; [exact E|]. split.
  { rewrite (merge_global_conf _ _ _ _ _ E). cbn. unfold ldp_rtr_id_get. cbn.
    by apply Z.eqb_neq in Hx as ->. }
  assert (links_rel s s') as Hl; [|split; [done|unfold links_down; by rewrite Hl]].
  unfold merge_global in E. rewrite (bind_ok conf _ s (d_conf s) s) in E by done.
  apply bind_inv in E as ([] & s1 & E1 & E). transitivity s1.
  - destruct (negb _); [|unfold ret in E1; by simplify_eq].
    apply bind_inv in E1 as ([] & s2 & E2 & E1). apply bind_inv in E1 as ([] & s3 & E3 & E1).
    assert (links_rel s s3) as H3.
    { etrans; [by apply (links_reset_nbrs _ _ _ _ E2)|by apply (links_reset_nbrs _ _ _ _ E3)]. }
    assert (no_router_id s3) as Hid3.
    { unfold no_router_id. by rewrite (conf_reset_nbrs _ _ _ _ E3), (conf_reset_nbrs _ _ _ _ E2). }
    etrans; [exact H3|]. apply bind_inv in E1 as ([] & s4 & E4 & E1). etrans; [|by apply (links_set _ _ _ _ E1)].
    destruct (_ || _); [|unfold ret in E4; by simplify_eq].
    rewrite (bind_ok _ _ _ _ _ (update_all_down (se_join env) s3 ltac:(rewrite H3; apply (di_ifaces _ Hs)) Hid3
      ltac:(unfold links_down; by rewrite H3))) in E4.
    by apply (links_tnbr_update_all _ _ _ _ E4).
  - revert E. apply links_merge_rest.
Qed.

(** ** Witnesses *)

(** IPv4 is set up, the parent cannot create the sockets for IPv6. *)
Definition closed_sockets : af_global := AfGlobal (-1) (-1) (-1).
Definition engine_v4 : engine :=
  Engine (set_conf (set_lc_global AF_INET6 closed_sockets) router_b) [] None 5 6 7 [5; 6; 7] [].
Definition conf_v6 : ldpd_conf :=
  LdpdConf (le_val [2; 2; 2; 2]) (XAf 180 (lc_ipv4 conf_b)) (XAf 180 (AfConf 0 0 0 0 (ll_addr 2) F_LDPD_AF_ENABLED))
    [] [] [] [] 15 5 45 5 DUAL_STACK_LDPOV6 0.

Lemma families_share_sockets_witness :
  exists e', foreach (ldpe_dispatch_main env_fine) [ImSetupSockets AF_INET6] engine_v4 = Ok (tt, e') /\
    ldp_af_global_get (d_conf (en_disc e')) AF_INET = ldp_af_global_get (d_conf (en_disc e')) AF_INET6.
Proof.
  destruct (families_share_sockets env_fine conf_v6 engine_v4 AF_INET6 [ImSetupSockets AF_INET6])
    as (e' & E & _ & H & _).
  - split; [apply conf_disc_ok, router_b_ok|constructor|done].
  - right. reflexivity.
  - split_and!; discriminate.
  - reflexivity.
  - reflexivity.
  - discriminate.
  - split; vm_compute; reflexivity.
  - exists e'. split; [exact E|exact H].
Defined.

(** A mapping is collected, the session closes and comes up again. *)
Definition after_disc (m : ST disc unit) (s : disc) : disc := match m s with Ok (_, s') => s' | _ => s end.
Definition router_b_batch : disc := after_disc (dispatch_add BatchMapping 1 map_prefix_ex) router_b_oper.
Definition again_ops : list sess_op := [OpClose; OpAccept; OpInitRcvd; OpKeepaliveRcvd].
Definition router_b_again : disc :=
  fold_left (fun s op => after_disc (on_nbr 11 (run_op op)) s) again_ops router_b_batch.

Lemma router_b_batch_inv : disc_inv router_b_batch.
Proof.
  destruct (disc_find_peerid router_b_oper 1) as [n|] eqn:E; [|vm_compute in E; discriminate].
  destruct (add_loop BatchMapping 1 [map_prefix_ex] router_b_oper n router_b_oper_inv E) as (s & Es & [I _ _ _]).
  - vm_compute in E. injection E as <-. reflexivity.
  - replace router_b_batch with s; [exact I|]. cbn [foreach] in Es. apply bind_inv in Es as ([] & s1 & E1 & Es).
    unfold router_b_batch, after_disc. rewrite E1. unfold ret in Es. congruence.
Qed.
Lemma session_run_on p s s1 op n : session_run p s s1 -> find_ptr p (d_nbrs s1) = Some n ->
  op_enabled op (ldpe_of s1 n) -> d_msgcnt s1 < 2 ^ 31 - 5 -> Z.of_nat (length (d_pids s1)) < 2 ^ 32 - 1 ->
  on_nbr p (run_op op) s1 = Ok (tt, after_disc (on_nbr p (run_op op)) s1) ->
  session_run p s (after_disc (on_nbr p (run_op op)) s1).
Proof. intros. by eapply sr_step. Qed.
Lemma router_b_again_run : session_run 11 router_b_batch router_b_again.
Proof.
  unfold router_b_again, again_ops. cbn [fold_left].
  do 4 (eapply session_run_on; [|vm_compute; reflexivity|vm_compute; (exact Logic.I || reflexivity)|
    vm_compute; reflexivity|vm_compute; reflexivity|vm_compute; reflexivity]). apply sr_refl.
Qed.

Lemma stale_batch_sent_witness :
  exists s' n' w groups, dispatch_end BatchMapping 2 router_b_again = Ok (tt, s') /\
    find_ptr 11 (d_nbrs s') = Some n' /\ concat groups = [map_prefix_ex] /\
    dn_wire n' = w ++ (ldp_pdu (le_val [2; 2; 2; 2])
      <$> pdu_bodies (d_msgcnt router_b_again + 1) MSG_TYPE_LABELMAPPING groups).
Proof.
  destruct (find_ptr 11 (d_nbrs router_b_batch)) as [n|] eqn:En; [|vm_compute in En; discriminate].
  destruct (disc_find_peerid router_b_again 2) as [n1|] eqn:En1; [|vm_compute in En1; discriminate].
  assert (n_peerid (dn_nbr n1) = 2 /\ dn_ptr n1 = 11 /\ n_state (dn_nbr n1) = NBR_STA_OPER /\
    n_max_pdu_len (dn_nbr n1) = 100) as (Hid & Hptr & Hst & Hmax)
    by (vm_compute in En1; injection En1 as <-; split_and!; reflexivity).
  assert (n_peerid (dn_nbr n) = 1 /\ batch_of BatchMapping (dn_lists n) = [map_prefix_ex]) as (Hid0 & Hb)
    by (vm_compute in En; injection En as <-; split; reflexivity).
  destruct (stale_batch_sent BatchMapping 11 router_b_batch router_b_again n n1) as (s' & n' & groups & E & Hn & G & W).
  - exact router_b_batch_inv.
  - exact En.
  - exact router_b_again_run.
  - rewrite Hid. exact En1.
  - exact Hptr.
  - rewrite Hid, Hid0. discriminate.
  - exact Hst.
  - rewrite Hmax. lia.
  - rewrite Hb. apply Forall_singleton. exact map_prefix_ex_sendable.
  - rewrite Hb. discriminate.
  - rewrite Hb. vm_compute. reflexivity.
  - rewrite Hid in E. rewrite Hb in G. exists s', n', (dn_wire n1), groups.
    split; [exact E|]. split; [exact Hn|]. split; [exact G|exact W].
Defined.

(** A router with one link that waits for a router id. *)
Definition link_waiting : iface :=
  Iface 1 "eth7" 7 [IfAddr AF_INET (v4_addr 10 0 0 2) 24 zero_addr] (ll_addr 2) IF_TYPE_BROADCAST 0x41
    (IfaceAf true IF_STA_DOWN [] None 0 0) ia_down.
Definition router_no_id : disc :=
  Disc (set_lc_sess (set_c_rtr_id INADDR_ANY) conf_b) [] [] [] [] [link_waiting] [] 0 1 [] [] [] 10.

Lemma router_no_id_ok : disc_ok router_no_id.
Proof.
  apply quiet_disc_ok; [|constructor|].
  - split; [by apply (bool_decide_unpack _), I|]. intros p Hp.
    repeat (apply elem_of_cons in Hp as [-> | Hp]; [vm_compute; done|]). by apply not_elem_of_nil in Hp.
  - repeat constructor; vm_compute; intuition congruence.
Qed.

(** The link stays down although another update would bring it up. *)
Lemma first_router_id_leaves_links_down_witness :
  exists s', merge_global env_fine conf_head router_no_id = Ok (tt, s') /\
    ldp_rtr_id_get (lc_sess (d_conf s')) = le_val [2; 2; 2; 2] /\ links_down s' /\
  exists s'', if_update_all (se_join env_fine) AF_UNSPEC s' = Ok (tt, s'') /\ ~ links_down s''.
Proof.
  destruct (first_router_id_leaves_links_down env_fine conf_head router_no_id) as (s' & E & Hid & _ & Hd).
  - apply router_no_id_ok.
  - reflexivity.
  - apply Forall_singleton. split; reflexivity.
  - vm_compute. discriminate.
  - vm_compute. reflexivity.
  - exists s'. split; [exact E|]. split; [exact Hid|]. split; [exact Hd|].
    vm_compute in E. injection E as <-. eexists. split; [vm_compute; reflexivity|].
    intros H. apply Forall_inv in H as [H _]. vm_compute in H. discriminate.
Defined.
