(* ===== verification/KeyedList.v ===== *)
(** * Lists whose entries have a key

    The lists of a configuration (interfaces, targeted neighbours, neighbour
    parameters, L2VPNs, pseudowires) are searched by a key, changed in place,
    shortened and extended at the head, and all of them are merged the same way:
    entries the new list lacks go, entries it shares are updated, new ones are
    put in front.  Here is what these operations do to searches and to the finite
    map a list stands for. *)
From stdpp Require Import prelude strings list gmap.
From Stdlib Require Import Permutation.

Lemma sub_Forall {A} (P : A -> Prop) (l1 l2 : list A) : l1 `sublist_of` l2 -> Forall P l2 -> Forall P l1.
Proof. induction 1; intros HP; [done|..]; apply Forall_cons in HP as [? ?]; auto. Qed.

Lemma lfilter_sub {A} (f : A -> bool) (l : list A) : List.filter f l `sublist_of` l.
Proof. induction l as [|a l IH]; cbn; [done|]. case_match; [by apply sublist_skip|by apply sublist_cons]. Qed.

Class Keyed (A K : Type) := key : A -> K.

Section Keyed.
Context {A K : Type} `{!Keyed A K} `{EqDecision K}.
Implicit Types (l : list A) (k : K) (a x : A).

Definition keys_of (l : list A) : list K := key <$> l.
Definition kfind (l : list A) (k : K) : option A := List.find (fun a => bool_decide (key a = k)) l.
Fixpoint kput (x : A) (l : list A) : list A :=
  match l with
  | [] => []
  | a :: l' => if bool_decide (key a = key x) then x :: l' else a :: kput x l'
  end.
Fixpoint ktake (k : K) (l : list A) : list A :=
  match l with
  | [] => []
  | a :: l' => if bool_decide (key a = k) then l' else a :: ktake k l'
  end.

Lemma kfind_cons a l k : kfind (a :: l) k = if bool_decide (key a = k) then Some a else kfind l k.
Proof. done. Qed.
Lemma kfind_Some l k a : kfind l k = Some a -> a ∈ l /\ key a = k.
Proof.
  intros H. apply List.find_some in H as [H1 H2]. split; [by apply list_elem_of_In|by apply bool_decide_eq_true in H2].
Qed.
Lemma kfind_None l k : kfind l k = None <-> k ∉ keys_of l.
Proof.
  induction l as [|a l IH]; cbn; [split; [intros _; apply not_elem_of_nil|done]|].
  rewrite not_elem_of_cons. case_bool_decide as E; [|rewrite IH; naive_solver].
  split; [done|intros [? _]; congruence].
Qed.
Lemma kfind_is_Some l k : is_Some (kfind l k) <-> k ∈ keys_of l.
Proof.
  destruct (kfind l k) as [a|] eqn:E.
  - apply kfind_Some in E as [Ha <-]. split; [intros _|by eexists]. by apply list_elem_of_fmap_2.
  - apply kfind_None in E. split; [by intros [? ?]|done].
Qed.
Lemma kfind_elem l a : NoDup (keys_of l) -> a ∈ l -> kfind l (key a) = Some a.
Proof.
  induction l as [|b l IH]; cbn; intros Hnd Ha; [by apply not_elem_of_nil in Ha|].
  apply NoDup_cons in Hnd as [Hb Hnd]. apply elem_of_cons in Ha as [-> | Ha]; [by rewrite bool_decide_true|].
  rewrite bool_decide_false; [by apply IH|]. intros E. apply Hb. rewrite E. by apply list_elem_of_fmap_2.
Qed.
Lemma kfind_app l1 l2 k : kfind (l1 ++ l2) k = match kfind l1 k with Some a => Some a | None => kfind l2 k end.
Proof. induction l1 as [|a l1 IH]; cbn; [done|]. by case_bool_decide. Qed.
Lemma kfind_perm l1 l2 k : l1 ≡ₚ l2 -> NoDup (keys_of l1) -> kfind l1 k = kfind l2 k.
Proof.
  intros P Hnd. assert (NoDup (keys_of l2)) as Hnd2 by (unfold keys_of; by rewrite <- P).
  destruct (kfind l2 k) as [a|] eqn:E.
  - apply kfind_Some in E as [Ha <-]. apply kfind_elem; [done|by rewrite P].
  - apply kfind_None in E. apply kfind_None. unfold keys_of. by rewrite P.
Qed.
Lemma kfind_rev l k : NoDup (keys_of l) -> kfind (rev l) k = kfind l k.
Proof. intros H. symmetry. apply kfind_perm; [by rewrite <- Permutation_rev|done]. Qed.
Lemma keys_rev l : keys_of (rev l) = rev (keys_of l).
Proof. unfold keys_of. apply (map_rev (B := K)). Qed.
Lemma nodup_keys_rev l : NoDup (keys_of l) -> NoDup (keys_of (rev l)).
Proof. unfold keys_of. by rewrite <- Permutation_rev. Qed.

(** Updates in place. *)
Lemma keys_put x l : keys_of (kput x l) = keys_of l.
Proof.
  unfold keys_of. induction l as [|a l IH]; [done|]. cbn.
  case_bool_decide as E; cbn; [by rewrite E|by rewrite IH].
Qed.
Lemma kfind_put x l k : kfind (kput x l) k
  = if bool_decide (key x = k) then match kfind l k with Some _ => Some x | None => None end else kfind l k.
Proof.
  induction l as [|a l IH]; [cbn; by case_bool_decide|]. cbn [kput].
  destruct (bool_decide_reflect (key a = key x)) as [E|E]; rewrite !kfind_cons; [|rewrite IH];
    repeat case_bool_decide; try done; congruence.
Qed.
Lemma kput_elem x l a : a ∈ kput x l -> a = x \/ a ∈ l.
Proof.
  induction l as [|b l IH]; cbn; [by intros ?%not_elem_of_nil|].
  case_bool_decide; rewrite !elem_of_cons; naive_solver.
Qed.
Lemma kput_Forall (P : A -> Prop) x l : P x -> Forall P l -> Forall P (kput x l).
Proof. intros Hx. rewrite !Forall_forall. intros H a Ha. apply kput_elem in Ha as [-> | Ha]; auto. Qed.

Lemma kput_same a l : NoDup (keys_of l) -> a ∈ l -> kput a l = l.
Proof.
  induction l as [|b l IH]; intros Hnd Ha; [done|]. cbn in Hnd |- *. apply NoDup_cons in Hnd as [Hb Hnd].
  apply elem_of_cons in Ha as [-> |Ha]; [by rewrite bool_decide_true|]. case_bool_decide as E; [|by rewrite IH].
  destruct Hb. rewrite E. by apply list_elem_of_fmap_2.
Qed.

(** Removal. *)
Lemma ktake_sub k l : ktake k l `sublist_of` l.
Proof. induction l as [|a l IH]; cbn; [done|]. case_bool_decide; [by apply sublist_cons|by apply sublist_skip]. Qed.
Lemma ktake_Forall (P : A -> Prop) k l : Forall P l -> Forall P (ktake k l).
Proof. intros H. eapply sub_Forall; [apply ktake_sub|exact H]. Qed.
Lemma nodup_take k l : NoDup (keys_of l) -> NoDup (keys_of (ktake k l)).
Proof. intros H. eapply sublist_NoDup; [exact H|]. apply fmap_sublist, ktake_sub. Qed.
Lemma kfind_take k l j : NoDup (keys_of l) -> kfind (ktake k l) j = if bool_decide (j = k) then None else kfind l j.
Proof.
  induction l as [|a l IH]; intros Hnd; [cbn; by case_bool_decide|]. cbn in Hnd. apply NoDup_cons in Hnd as [Ha Hnd].
  cbn [ktake]. destruct (bool_decide_reflect (key a = k)) as [E|E]; rewrite !kfind_cons; [subst k|rewrite IH by done];
    repeat case_bool_decide; try done; try congruence. subst. by apply kfind_None.
Qed.

Lemma keys_take_perm k l : k ∈ keys_of l -> k :: keys_of (ktake k l) ≡ₚ keys_of l.
Proof.
  induction l as [|a l IH]; intros Hk; [by apply not_elem_of_nil in Hk|]. cbn in Hk |- *. apply elem_of_cons in Hk as [-> |Hk].
  - by rewrite bool_decide_true.
  - case_bool_decide as E; [by rewrite E|]. cbn. rewrite Permutation_swap. by rewrite IH.
Qed.
Lemma keys_app l1 l2 : keys_of (l1 ++ l2) = keys_of l1 ++ keys_of l2.
Proof. apply fmap_app. Qed.

Lemma ktake_app k l1 l2 : ktake k (l1 ++ l2) = if bool_decide (is_Some (kfind l1 k)) then ktake k l1 ++ l2 else l1 ++ ktake k l2.
Proof.
  induction l1 as [|a l1 IH]; [by rewrite bool_decide_false by (by intros [? ?])|]. cbn [ktake app]. rewrite kfind_cons, IH.
  destruct (bool_decide_reflect (key a = k)); [by rewrite bool_decide_true by eauto|]. by case_bool_decide.
Qed.
Lemma kput_app x l1 l2 : kput x (l1 ++ l2)
  = if bool_decide (is_Some (kfind l1 (key x))) then kput x l1 ++ l2 else l1 ++ kput x l2.
Proof.
  induction l1 as [|a l1 IH]; [by rewrite bool_decide_false by (by intros [? ?])|]. cbn [kput app]. rewrite kfind_cons, IH.
  destruct (bool_decide_reflect (key a = key x)); [by rewrite bool_decide_true by eauto|]. by case_bool_decide.
Qed.

(** Keeping the entries whose key is still there. *)
Definition kkeep (xs l : list A) : list A := List.filter (fun a => bool_decide (is_Some (kfind xs (key a)))) l.
Lemma kkeep_sub xs l : kkeep xs l `sublist_of` l.
Proof. apply lfilter_sub. Qed.
Lemma kfind_keep xs l k : kfind (kkeep xs l) k = match kfind xs k with Some _ => kfind l k | None => None end.
Proof.
  unfold kkeep. induction l as [|a l IH]; [cbn; by destruct (kfind xs k)|]. cbn [List.filter].
  destruct (bool_decide_reflect (is_Some (kfind xs (key a)))) as [Hs|Hs]; rewrite ?kfind_cons, IH;
    (destruct (bool_decide_reflect (key a = k)) as [<- | Hk]; [|done]).
  - by destruct Hs as [x ->].
  - destruct (kfind xs (key a)) eqn:E; [by destruct Hs; eexists|done].
Qed.

(** The merge; [upd x a] is the entry [a] updated from [x]. *)
Section Merge.
Context (upd : A -> A -> A) (Hupd : forall x a, key a = key x -> key (upd x a) = key x).

Definition kmerge_one (l : list A) (x : A) : list A :=
  match kfind l (key x) with None => x :: l | Some a => kput (upd x a) l end.
Definition kmerge (l xs : list A) : list A := fold_left kmerge_one xs (kkeep xs l).

Lemma kfind_merge_one l x k : kfind (kmerge_one l x) k
  = if bool_decide (key x = k) then Some (match kfind l k with None => x | Some a => upd x a end) else kfind l k.
Proof.
  unfold kmerge_one. destruct (kfind l (key x)) as [a|] eqn:E.
  - assert (key (upd x a) = key x) as Hk by (apply Hupd; by apply kfind_Some in E as [_ ?]).
    rewrite kfind_put, Hk. case_bool_decide as Ek; [|done]. subst k. by rewrite E.
  - cbn. case_bool_decide as Ek; [|done]. subst k. by rewrite E.
Qed.
Lemma keys_merge_one l x : NoDup (keys_of l) -> NoDup (keys_of (kmerge_one l x)).
Proof.
  intros H. unfold kmerge_one. destruct (kfind l (key x)) as [a|] eqn:E; [by rewrite keys_put|].
  cbn. apply NoDup_cons. split; [by apply kfind_None in E|done].
Qed.
Lemma fold_merge_nodup xs l : NoDup (keys_of l) -> NoDup (keys_of (fold_left kmerge_one xs l)).
Proof. revert l. induction xs as [|x xs IH]; intros l H; cbn [fold_left]; [done|]. by apply IH, keys_merge_one. Qed.
Lemma kfind_fold_merge xs l k : NoDup (keys_of xs) ->
  kfind (fold_left kmerge_one xs l) k
  = match kfind xs k with
    | None => kfind l k
    | Some x => Some (match kfind l k with None => x | Some a => upd x a end)
    end.
Proof.
  revert l. induction xs as [|x xs IH]; intros l Hnd; cbn [fold_left]; [done|]. cbn in Hnd.
  apply NoDup_cons in Hnd as [Hx Hnd]. rewrite IH, kfind_merge_one, kfind_cons by done.
  case_bool_decide as E; [|done]. subst k. by apply kfind_None in Hx as ->.
Qed.
Lemma kfind_merge l xs k : NoDup (keys_of xs) ->
  kfind (kmerge l xs) k
  = match kfind xs k with
    | None => None
    | Some x => Some (match kfind l k with None => x | Some a => upd x a end)
    end.
Proof.
  intros Hnd. unfold kmerge. rewrite kfind_fold_merge, kfind_keep by done. by destruct (kfind xs k).
Qed.
Lemma nodup_merge l xs : NoDup (keys_of l) -> NoDup (keys_of (kmerge l xs)).
Proof. intros H. apply fold_merge_nodup. eapply sublist_NoDup; [exact H|]. apply fmap_sublist, kkeep_sub. Qed.
Lemma merge_one_Forall (P : A -> Prop) l x : (forall a, P a -> P x -> key a = key x -> P (upd x a)) -> P x -> Forall P l ->
  Forall P (kmerge_one l x).
Proof.
  intros Hu Hx Hl. unfold kmerge_one. destruct (kfind l (key x)) as [a|] eqn:E; [|by constructor].
  apply kfind_Some in E as [Ha Ek]. apply kput_Forall; [|done]. apply Hu; try done.
  rewrite Forall_forall in Hl. by apply Hl.
Qed.
Lemma merge_Forall (P : A -> Prop) l xs : (forall x a, P a -> P x -> key a = key x -> P (upd x a)) ->
  Forall P xs -> Forall P l -> Forall P (kmerge l xs).
Proof.
  intros Hu Hx Hl. unfold kmerge. assert (Forall P (kkeep xs l)) as Hk by (eapply sub_Forall; [apply kkeep_sub|done]).
  revert Hk. generalize (kkeep xs l). clear Hl l. induction Hx as [|x xs Hx _ IH]; intros l Hl; cbn [fold_left]; [done|].
  apply IH. apply merge_one_Forall; [|done..]. intros a. apply Hu.
Qed.
End Merge.

(** A merge that leaves shared entries alone. *)
Lemma keep_merge_one l x : NoDup (keys_of l) ->
  match kfind l (key x) with None => x :: l | Some _ => l end = kmerge_one (fun _ a => a) l x.
Proof.
  intros Hnd. unfold kmerge_one. destruct (kfind l (key x)) as [a|] eqn:E; [|done].
  apply kfind_Some in E as [Ha _]. by rewrite kput_same.
Qed.
Lemma keys_keep_nodup xs l : NoDup (keys_of l) -> NoDup (keys_of (kkeep xs l)).
Proof. intros H. eapply sublist_NoDup; [exact H|]. apply fmap_sublist, kkeep_sub. Qed.

(** The finite map of a list. *)
Context `{Countable K}.
Definition kmap (l : list A) : gmap K A := list_to_map ((fun a => (key a, a)) <$> l).
Lemma lookup_kmap l k : kmap l !! k = kfind l k.
Proof.
  unfold kmap. induction l as [|a l IH]; [done|]. rewrite fmap_cons. cbn. case_bool_decide as E.
  - subst k. by rewrite lookup_insert_eq.
  - by rewrite lookup_insert_ne.
Qed.
Lemma kmap_ext l1 l2 : (forall k, kfind l1 k = kfind l2 k) -> kmap l1 = kmap l2.
Proof. intros He. apply map_eq. intros k. by rewrite !lookup_kmap. Qed.
Lemma kmap_rev l : NoDup (keys_of l) -> kmap (rev l) = kmap l.
Proof. intros He. apply kmap_ext. intros k. by apply kfind_rev. Qed.
Lemma kmap_cons x l : kmap (x :: l) = <[key x := x]> (kmap l).
Proof. done. Qed.
Lemma kmap_put x l : key x ∈ keys_of l -> kmap (kput x l) = <[key x := x]> (kmap l).
Proof.
  intros He. apply map_eq. intros k. rewrite lookup_kmap, kfind_put. case_bool_decide as E.
  - subst k. rewrite lookup_insert_eq. by apply kfind_is_Some in He as [a ->].
  - rewrite lookup_insert_ne by done. by rewrite lookup_kmap.
Qed.
Lemma kmap_take k l : NoDup (keys_of l) -> kmap (ktake k l) = delete k (kmap l).
Proof.
  intros He. apply map_eq. intros j. rewrite lookup_kmap, kfind_take by done. case_bool_decide as E.
  - subst. by rewrite lookup_delete_eq.
  - rewrite lookup_delete_ne by done. by rewrite lookup_kmap.
Qed.
Lemma kmap_fmap (f : A -> A) l : (forall a, key (f a) = key a) -> kmap (f <$> l) = f <$> kmap l.
Proof.
  intros Hf. induction l as [|a l IH]; [done|]. rewrite fmap_cons, !kmap_cons, IH, Hf. by rewrite fmap_insert.
Qed.
Lemma keys_fmap (f : A -> A) l : (forall a, key (f a) = key a) -> keys_of (f <$> l) = keys_of l.
Proof. intros Hf. unfold keys_of. rewrite <- list_fmap_compose. apply list_fmap_ext. intros ? a _. apply Hf. Qed.
End Keyed.
