(* ===== verification/Parent.v ===== *)
(** * The parent process: configuration commands (ldpd/ldp_vty_conf.c, ldpd.c)

    Every configuration command copies the running configuration
    ([ldp_dup_config]), edits the copy and hands it to [ldp_reload], which
    normalizes it, sends it to the children and merges it into the running one;
    a command that changes nothing drops the copy.  [merge_config] is here as the
    parent runs it ([ldpd_process] is [PROC_MAIN]).

    State [parent]: the running configuration, what was sent to the LDP engine,
    the interfaces quagga's library knows of, the node of the vty (the library
    lets one vty at a time configure) and the static variables that name the
    interface, L2VPN and pseudowire being configured.

    Arguments are the values of the words on the command line: a number is what
    [strtol] makes of it, [None] if something follows the digits; an address the
    bytes [inet_pton] stores, [None] if it refuses the text.  Interfaces and
    targeted neighbours of the parent have no address in a heap ([if_ptr], [t_ptr]
    are 0). *)
From stdpp Require Import prelude strings list.
From Stdlib Require Import ZArith Lia.
From S2P Require Import Prelude Util Wire Ipc Session Fec Hello Discovery Config Engine.

Inductive vty_node :=
| CONFIG_NODE | LDP_NODE | LDP_IPV4_NODE | LDP_IPV6_NODE | LDP_IPV4_IFACE_NODE | LDP_IPV6_IFACE_NODE
| LDP_L2VPN_NODE | LDP_PSEUDOWIRE_NODE.
Inductive cmd_ret := CMD_SUCCESS | CMD_WARNING.
Inductive hello_type := HELLO_LINK | HELLO_TARGETED.
#[export] Instance vty_node_eq_dec : EqDecision vty_node. Proof. solve_decision. Defined.

Record parent := Parent {
  pa_conf : ldpd_conf;                   (* ldpd_conf *)
  pa_started : bool;                     (* the children run *)
  pa_ldpe : list main_imsg;              (* sent to the LDP engine *)
  pa_iflist : list (kif * list kaddr);   (* vrf_iflist of the library *)
  pa_node : vty_node;                    (* vty->node *)
  pa_ifname : string;                    (* vty_ifname *)
  pa_l2vpn_name : string;                (* vty_l2vpn_name *)
  pa_pw_ifname : string                  (* vty_pw_ifname *)
}.

Definition set_pa_conf (v : ldpd_conf) (p : parent) : parent :=
  Parent v (pa_started p) (pa_ldpe p) (pa_iflist p) (pa_node p) (pa_ifname p) (pa_l2vpn_name p) (pa_pw_ifname p).
Definition add_pa_ldpe (l : list main_imsg) (p : parent) : parent :=
  Parent (pa_conf p) (pa_started p) (pa_ldpe p ++ l) (pa_iflist p) (pa_node p) (pa_ifname p) (pa_l2vpn_name p)
    (pa_pw_ifname p).
Definition set_pa_node (v : vty_node) (p : parent) : parent :=
  Parent (pa_conf p) (pa_started p) (pa_ldpe p) (pa_iflist p) v (pa_ifname p) (pa_l2vpn_name p) (pa_pw_ifname p).
Definition set_pa_ifname (v : string) (p : parent) : parent :=
  Parent (pa_conf p) (pa_started p) (pa_ldpe p) (pa_iflist p) (pa_node p) v (pa_l2vpn_name p) (pa_pw_ifname p).
Definition set_pa_l2vpn_name (v : string) (p : parent) : parent :=
  Parent (pa_conf p) (pa_started p) (pa_ldpe p) (pa_iflist p) (pa_node p) (pa_ifname p) v (pa_pw_ifname p).
Definition set_pa_pw_ifname (v : string) (p : parent) : parent :=
  Parent (pa_conf p) (pa_started p) (pa_ldpe p) (pa_iflist p) (pa_node p) (pa_ifname p) (pa_l2vpn_name p) v.

(** [strlcpy] into an array of [size] bytes. *)
Definition IF_NAMESIZE : nat := 16.
Definition L2VPN_NAME_LEN : nat := 32.
Definition TCP_MD5_KEY_LEN : nat := 80.
Definition strlcpy (size : nat) (s : string) : string := String.substring 0 (size - 1) s.

(** ** Updates of a configuration *)
Definition set_flag (flag flags : Z) : Z := Z.lor flags flag.
Definition clear_flag (flag flags : Z) : Z := Z.land flags (Z.lnot flag).

Definition set_xc_global (rtr lh li th ti pref flags : Z) (c : ldpd_conf) : ldpd_conf :=
  LdpdConf rtr (xc_ipv4 c) (xc_ipv6 c) (xc_iface_list c) (xc_tnbr_list c) (xc_nbrp_list c) (xc_l2vpn_list c)
    lh li th ti pref flags.
Definition set_xc_rtr_id (v : Z) (c : ldpd_conf) : ldpd_conf :=
  set_xc_global v (xc_lhello_holdtime c) (xc_lhello_interval c) (xc_thello_holdtime c) (xc_thello_interval c)
    (xc_trans_pref c) (xc_flags c) c.
Definition set_xc_hellos (lh li th ti : Z) (c : ldpd_conf) : ldpd_conf :=
  set_xc_global (xc_rtr_id c) lh li th ti (xc_trans_pref c) (xc_flags c) c.
Definition set_xc_trans_pref (v : Z) (c : ldpd_conf) : ldpd_conf :=
  set_xc_global (xc_rtr_id c) (xc_lhello_holdtime c) (xc_lhello_interval c) (xc_thello_holdtime c)
    (xc_thello_interval c) v (xc_flags c) c.
Definition set_xc_flags (v : Z) (c : ldpd_conf) : ldpd_conf :=
  set_xc_global (xc_rtr_id c) (xc_lhello_holdtime c) (xc_lhello_interval c) (xc_thello_holdtime c)
    (xc_thello_interval c) (xc_trans_pref c) v c.
Definition set_xc_ifaces (l : list iface) (c : ldpd_conf) : ldpd_conf :=
  set_xc_lists l (xc_tnbr_list c) (xc_nbrp_list c) (xc_l2vpn_list c) c.
Definition set_xc_tnbrs (l : list tnbr) (c : ldpd_conf) : ldpd_conf :=
  set_xc_lists (xc_iface_list c) l (xc_nbrp_list c) (xc_l2vpn_list c) c.
Definition set_xc_nbrps (l : list nbr_params) (c : ldpd_conf) : ldpd_conf :=
  set_xc_lists (xc_iface_list c) (xc_tnbr_list c) l (xc_l2vpn_list c) c.
Definition set_xc_l2vpns (l : list l2vpn) (c : ldpd_conf) : ldpd_conf :=
  set_xc_lists (xc_iface_list c) (xc_tnbr_list c) (xc_nbrp_list c) l c.
Definition xc_af (c : ldpd_conf) (af : Z) : xaf := if af =? AF_INET then xc_ipv4 c else xc_ipv6 c.
Definition mod_af_conf (af : Z) (f : af_conf -> af_conf) (c : ldpd_conf) : ldpd_conf :=
  set_xc_af af (XAf (xa_keepalive (xc_af c af)) (f (xa_conf (xc_af c af)))) c.

(** The entry of that name, updated in place. *)
Fixpoint if_put (i : iface) (l : list iface) : list iface :=
  match l with
  | [] => []
  | j :: l' => if String.eqb (if_name j) (if_name i) then i :: l' else j :: if_put i l'
  end.

(** ** [merge_config] in the parent *)
Definition merge_global_main (c x : ldpd_conf) : ldpd_conf :=
  set_xc_global (xc_rtr_id x) (xc_lhello_holdtime x) (xc_lhello_interval x) (xc_thello_holdtime x)
    (xc_thello_interval x) (xc_trans_pref x) (xc_flags x) c.

(** The second result: new sockets are needed. *)
Definition merge_af_main (af : Z) (a x : xaf) : res (xaf * bool) :=
  let* differ := ldp_addrcmp af (af_trans_addr (xa_conf a)) (af_trans_addr (xa_conf x)) in
  let gtsm := negb (Z.land (af_flags (xa_conf a)) F_LDPD_AF_NO_GTSM
                    =? Z.land (af_flags (xa_conf x)) F_LDPD_AF_NO_GTSM) in
  Ok (XAf (xa_keepalive x)
        (AfConf (af_lhello_holdtime (xa_conf x)) (af_lhello_interval (xa_conf x)) (af_thello_holdtime (xa_conf x))
           (af_thello_interval (xa_conf x))
           (if negb (differ =? 0) then af_trans_addr (xa_conf x) else af_trans_addr (xa_conf a))
           (af_flags (xa_conf x))),
      (gtsm && (af =? AF_INET6)) || negb (differ =? 0)).

Definition merge_ia_main (ia xi : iface_af) : iface_af :=
  set_ia_hellos (set_ia_enabled ia (ia_enabled xi)) (ia_hello_holdtime xi) (ia_hello_interval xi).
Definition merge_iface_main (xi i : iface) : iface :=
  set_if_af (set_if_af i AF_INET (merge_ia_main (if_ipv4 i) (if_ipv4 xi))) AF_INET6
    (merge_ia_main (if_ipv6 i) (if_ipv6 xi)).

(** The interfaces, and the names of the new ones. *)
Definition merge_ifaces_main (l xs : list iface) : list iface * list string :=
  fold_left (fun '(l, news) xi =>
    match if_lookup_name l (if_name xi) with
    | None => (xi :: l, news ++ [if_name xi])
    | Some i => (if_put (merge_iface_main xi i) l, news)
    end) xs
    (List.filter (fun i => bool_decide (is_Some (if_lookup_name xs (if_name i)))) l, []).

(** Two searches below: [xtnbr_find] and [nbr_params_in] are those of [Config]. *)
Fixpoint tnbr_mark (af : Z) (addr : ldpd_addr) (l : list tnbr) : list tnbr :=
  match l with
  | [] => []
  | t :: l' => if (af =? t_af t) && same_addr af addr (t_addr t)
               then set_t_flags t (Z.lor (t_flags t) F_TNBR_CONFIGURED) :: l' else t :: tnbr_mark af addr l'
  end.
Definition merge_tnbrs_main (l xs : list tnbr) : list tnbr :=
  fold_left (fun l xt =>
    match xtnbr_find l (t_af xt) (t_addr xt) with
    | None => xt :: l
    | Some t => if negb (has_flag (t_flags t) F_TNBR_CONFIGURED) then tnbr_mark (t_af xt) (t_addr xt) l else l
    end) xs
    (List.filter (fun t => negb (has_flag (t_flags t) F_TNBR_CONFIGURED)
                           || bool_decide (is_Some (xtnbr_find xs (t_af t) (t_addr t)))) l).

Definition merge_nbrps_main (l xs : list nbr_params) : list nbr_params :=
  fold_left (fun l xn =>
    match nbr_params_in l (nbrp_lsr_id xn) with
    | None => xn :: l
    | Some _ => nbrp_replace xn l
    end) xs
    (List.filter (fun p => bool_decide (is_Some (nbr_params_in xs (nbrp_lsr_id p)))) l).

(** Loops that can end the process. *)
Fixpoint rloop {A B} (f : A -> B -> res B) (l : list A) (b : B) : res B :=
  match l with
  | [] => Ok b
  | a :: l' => let* b' := f a b in rloop f l' b'
  end.

(** Pseudowires: no process but the parent is without further work here, so only
    the lists change; the addresses are compared all the same. *)
Definition merge_pw_main (xp : pw_conf) (l : pw_lists) : res pw_lists :=
  match l2vpn_pw_find_name (pl_act l) (pl_inact l) (pwc_ifname xp) with
  | None => Ok (PwLists (xp :: pl_act l) (pl_inact l) (pl_aux l))
  | Some pw =>
      let* _ := (if negb (pwc_af pw =? pwc_af xp) then Ok 0
                 else ldp_addrcmp (pwc_af pw) (pwc_addr pw) (pwc_addr xp)) in
      let in_act := bool_decide (is_Some (pw_in (pwc_ifname xp) (pl_act l))) in
      Ok (if pw_disabled xp then
            if in_act
            then PwLists (pw_take (pwc_ifname xp) (pl_act l)) (pl_inact l) (pw_copy xp pw :: pl_aux l)
            else PwLists (pl_act l) (pw_take (pwc_ifname xp) (pl_inact l)) (pw_copy xp pw :: pl_aux l)
          else
            if in_act then PwLists (pw_put (pw_copy xp pw) (pl_act l)) (pl_inact l) (pl_aux l)
            else PwLists (pl_act l) (pw_put (pw_copy xp pw) (pl_inact l)) (pl_aux l))
  end.
Definition merge_ipw_main (xp : pw_conf) (l : pw_lists) : pw_lists :=
  match l2vpn_pw_find_name (pl_act l) (pl_inact l) (pwc_ifname xp) with
  | None => PwLists (pl_act l) (xp :: pl_inact l) (pl_aux l)
  | Some _ =>
      let in_act := bool_decide (is_Some (pw_in (pwc_ifname xp) (pl_act l))) in
      if pw_disabled xp then
        if in_act then PwLists (pw_put xp (pl_act l)) (pl_inact l) (pl_aux l)
        else PwLists (pl_act l) (pw_put xp (pl_inact l)) (pl_aux l)
      else
        if in_act then PwLists (xp :: pw_take (pwc_ifname xp) (pl_act l)) (pl_inact l) (pl_aux l)
        else PwLists (xp :: pl_act l) (pw_take (pwc_ifname xp) (pl_inact l)) (pl_aux l)
  end.
Definition merge_l2vpn_main (v xl : l2vpn) : res l2vpn :=
  let act := List.filter (fun p => bool_decide (is_Some (l2vpn_pw_find_name (lv_pw_list xl) (lv_pw_inactive_list xl)
                                                           (pwc_ifname p)))) (lv_pw_list v) in
  let* l := rloop merge_pw_main (lv_pw_list xl) (PwLists act (lv_pw_inactive_list v) []) in
  let inact := List.filter (fun p => bool_decide (is_Some (pw_in (pwc_ifname p) (lv_pw_inactive_list xl))))
                 (pl_inact l) in
  let l := fold_left (fun l xp => merge_ipw_main xp l) (lv_pw_inactive_list xl) (PwLists (pl_act l) inact (pl_aux l)) in
  Ok (L2vpn (lv_name v) (lv_type v) (lv_pw_type xl) (lv_mtu xl) (lv_br_ifname xl) (lv_br_ifindex xl)
        (merge_l2vpn_ifs (lv_if_list v) (lv_if_list xl)) (pl_act l) (rev (pl_aux l) ++ pl_inact l)).
Definition merge_l2vpns_main (l xls : list l2vpn) : res (list l2vpn) :=
  rloop (fun xl l =>
    match l2vpn_find l (lv_name xl) with
    | None => Ok (xl :: l)
    | Some v => let* v' := merge_l2vpn_main v xl in Ok (l2vpn_put v' l)
    end) xls
    (List.filter (fun v => bool_decide (is_Some (l2vpn_find xls (lv_name v)))) l).

(** Both children are sent configurations ([main_imsg_compose_both]), the LDP engine
    alone everything else ([main_imsg_compose_ldpe]). *)
Definition to_both (m : main_imsg) : bool :=
  match m with
  | ImReconfConf _ | ImReconfIface _ | ImReconfTnbr _ | ImReconfNbrp _ | ImReconfL2vpn _ | ImReconfL2vpnIf _
  | ImReconfL2vpnPw _ | ImReconfL2vpnIpw _ | ImReconfEnd => true
  | _ => false
  end.

(** [kif_redistribute] (ldp_zebra.c) for one name. *)
Definition kif_redistribute (iflist : list (kif * list kaddr)) (name : string) : list main_imsg :=
  concat (map (fun '(k, addrs) => if String.eqb name (kif_ifname k) then ImIfStatus k :: map ImNewAddr addrs else [])
            iflist).

Definition merge_config_main (x : ldpd_conf) : ST parent unit :=
  do p <- get;
  let c := merge_global_main (pa_conf p) x in
  do r4 <- lift (merge_af_main AF_INET (xc_ipv4 c) (xc_ipv4 x));
  do r6 <- lift (merge_af_main AF_INET6 (xc_ipv6 c) (xc_ipv6 x));
  let ifs := merge_ifaces_main (xc_iface_list c) (xc_iface_list x) in
  do vpns <- lift (merge_l2vpns_main (xc_l2vpn_list c) (xc_l2vpn_list x));
  let close af (r : xaf * bool) := if snd r && pa_started p then [ImCloseSockets af] else [] in
  modify (add_pa_ldpe (close AF_INET r4 ++ close AF_INET6 r6
    ++ if pa_started p then concat (map (kif_redistribute (pa_iflist p)) (snd ifs)) else [])) ;;;
  modify (set_pa_conf (set_xc_af AF_INET (fst r4) (set_xc_af AF_INET6 (fst r6)
    (set_xc_lists (fst ifs) (merge_tnbrs_main (xc_tnbr_list c) (xc_tnbr_list x))
       (merge_nbrps_main (xc_nbrp_list c) (xc_nbrp_list x)) vpns c)))).

(** ** [ldp_dup_config] and [ldp_reload] *)
Definition dup_l2vpn (v : l2vpn) : l2vpn :=
  L2vpn (lv_name v) (lv_type v) (lv_pw_type v) (lv_mtu v) (lv_br_ifname v) (lv_br_ifindex v)
    (rev (lv_if_list v)) (rev (lv_pw_list v)) (rev (lv_pw_inactive_list v)).
Definition ldp_dup_config (c : ldpd_conf) : ldpd_conf :=
  set_xc_lists (rev (xc_iface_list c)) (rev (xc_tnbr_list c)) (rev (xc_nbrp_list c))
    (rev (map dup_l2vpn (xc_l2vpn_list c))) c.

Definition ldp_reload (x : ldpd_conf) : ST parent unit :=
  let x := ldp_config_normalize x in
  do p <- get;
  modify (add_pa_ldpe (if pa_started p then main_imsg_send_config x else [])) ;;;
  merge_config_main x.

(** What every command that succeeds ends with. *)
Definition reload (x : ldpd_conf) : ST parent cmd_ret := ldp_reload x ;;; ret CMD_SUCCESS.

(** ** Commands (ldp_vty_conf.c) *)
Definition ldp_vty_get_af (n : vty_node) : res Z :=
  match n with
  | LDP_IPV4_NODE | LDP_IPV4_IFACE_NODE => Ok AF_INET
  | LDP_IPV6_NODE | LDP_IPV6_IFACE_NODE => Ok AF_INET6
  | _ => Fatal "ldp_vty_get_af: unexpected node"
  end.

Definition ldp_iface_is_configured (x : ldpd_conf) (ifname : string) : bool :=
  bool_decide (is_Some (if_lookup_name (xc_iface_list x) ifname))
  || existsb (fun v => bool_decide (is_Some (l2vpn_if_find_name (lv_if_list v) ifname))
                       || bool_decide (is_Some (l2vpn_pw_find_name (lv_pw_list v) (lv_pw_inactive_list v) ifname)))
       (xc_l2vpn_list x).

(** The copy of the running configuration; a null pointer that is followed. *)
Definition vty_conf : ST parent ldpd_conf := fun p => Ok (ldp_dup_config (pa_conf p), p).
Definition vty_node_of : ST parent vty_node := fun p => Ok (pa_node p, p).
Definition found {A} (o : option A) : ST parent A :=
  match o with Some a => ret a | None => undef "null pointer" end.
Definition in_range (lo hi : Z) (v : option Z) : option Z :=
  match v with
  | Some z => if (z <? lo) || (z >? hi) then None else Some z
  | None => None
  end.

Definition ldp_vty_mpls_ldp (no : bool) : ST parent cmd_ret :=
  do x <- vty_conf;
  if no then reload (set_xc_flags (clear_flag F_LDPD_ENABLED (xc_flags x)) x)
  else modify (set_pa_node LDP_NODE) ;;; reload (set_xc_flags (set_flag F_LDPD_ENABLED (xc_flags x)) x).

Definition af_of_name (s : string) : option Z :=
  if String.eqb s "ipv4" then Some AF_INET else if String.eqb s "ipv6" then Some AF_INET6 else None.
Definition mod_af_flags (af : Z) (f : Z -> Z) (x : ldpd_conf) : ldpd_conf :=
  mod_af_conf af (fun a => set_af_flags (f (af_flags a)) a) x.

Definition ldp_vty_address_family (no : bool) (af_str : string) : ST parent cmd_ret :=
  do x <- vty_conf;
  match af_of_name af_str with
  | None => ret CMD_WARNING
  | Some af =>
      if no then reload (mod_af_flags af (clear_flag F_LDPD_AF_ENABLED) x)
      else
        modify (set_pa_node (if af =? AF_INET then LDP_IPV4_NODE else LDP_IPV6_NODE)) ;;;
        reload (mod_af_flags af (set_flag F_LDPD_AF_ENABLED) x)
  end.

(** Hello parameters of the three levels. *)
Definition MAX_HOLDTIME : Z := 0xffff.
Definition MIN_HELLO_INTERVAL : Z := 1.
Definition MAX_HELLO_INTERVAL : Z := 0xffff.

Definition set_xc_holdtime (h : hello_type) (v : Z) (x : ldpd_conf) : ldpd_conf :=
  match h with
  | HELLO_LINK => set_xc_hellos v (xc_lhello_interval x) (xc_thello_holdtime x) (xc_thello_interval x) x
  | HELLO_TARGETED => set_xc_hellos (xc_lhello_holdtime x) (xc_lhello_interval x) v (xc_thello_interval x) x
  end.
Definition set_xc_interval (h : hello_type) (v : Z) (x : ldpd_conf) : ldpd_conf :=
  match h with
  | HELLO_LINK => set_xc_hellos (xc_lhello_holdtime x) v (xc_thello_holdtime x) (xc_thello_interval x) x
  | HELLO_TARGETED => set_xc_hellos (xc_lhello_holdtime x) (xc_lhello_interval x) (xc_thello_holdtime x) v x
  end.
Definition set_af_holdtime (h : hello_type) (v : Z) (a : af_conf) : af_conf :=
  match h with
  | HELLO_LINK => set_af_hellos v (af_lhello_interval a) (af_thello_holdtime a) (af_thello_interval a) a
  | HELLO_TARGETED => set_af_hellos (af_lhello_holdtime a) (af_lhello_interval a) v (af_thello_interval a) a
  end.
Definition set_af_interval (h : hello_type) (v : Z) (a : af_conf) : af_conf :=
  match h with
  | HELLO_LINK => set_af_hellos (af_lhello_holdtime a) v (af_thello_holdtime a) (af_thello_interval a) a
  | HELLO_TARGETED => set_af_hellos (af_lhello_holdtime a) (af_lhello_interval a) (af_thello_holdtime a) v a
  end.
Definition mod_vty_ia (af : Z) (i : iface) (f : iface_af -> iface_af) (x : ldpd_conf) : ldpd_conf :=
  set_xc_ifaces (if_put (set_if_af i af (f (ia_of i af))) (xc_iface_list x)) x.
Definition dflt_holdtime (h : hello_type) : Z :=
  match h with HELLO_LINK => LINK_DFLT_HOLDTIME | HELLO_TARGETED => TARGETED_DFLT_HOLDTIME end.

Definition ldp_vty_disc_holdtime (no : bool) (seconds : option Z) (h : hello_type) : ST parent cmd_ret :=
  match in_range MIN_HOLDTIME MAX_HOLDTIME seconds with
  | None => ret CMD_WARNING
  | Some secs =>
      do x <- vty_conf;
      do p <- get;
      match pa_node p with
      | LDP_NODE => reload (set_xc_holdtime h (if no then dflt_holdtime h else secs) x)
      | LDP_IPV4_NODE | LDP_IPV6_NODE =>
          do af <- lift (ldp_vty_get_af (pa_node p));
          reload (mod_af_conf af (set_af_holdtime h (if no then 0 else secs)) x)
      | LDP_IPV4_IFACE_NODE | LDP_IPV6_IFACE_NODE =>
          do af <- lift (ldp_vty_get_af (pa_node p));
          do i <- found (if_lookup_name (xc_iface_list x) (pa_ifname p));
          reload (mod_vty_ia af i (fun ia => set_ia_hellos ia (if no then 0 else secs) (ia_hello_interval ia)) x)
      | _ => fatalx "ldp_vty_disc_holdtime: unexpected node"
      end
  end.

(** [no discovery hello interval] of the LDP node takes the default hold time. *)
Definition ldp_vty_disc_interval (no : bool) (seconds : option Z) (h : hello_type) : ST parent cmd_ret :=
  match in_range MIN_HELLO_INTERVAL MAX_HELLO_INTERVAL seconds with
  | None => ret CMD_WARNING
  | Some secs =>
      do x <- vty_conf;
      do p <- get;
      match pa_node p with
      | LDP_NODE => reload (set_xc_interval h (if no then dflt_holdtime h else secs) x)
      | LDP_IPV4_NODE | LDP_IPV6_NODE =>
          do af <- lift (ldp_vty_get_af (pa_node p));
          reload (mod_af_conf af (set_af_interval h (if no then 0 else secs)) x)
      | LDP_IPV4_IFACE_NODE | LDP_IPV6_IFACE_NODE =>
          do af <- lift (ldp_vty_get_af (pa_node p));
          do i <- found (if_lookup_name (xc_iface_list x) (pa_ifname p));
          reload (mod_vty_ia af i (fun ia => set_ia_hellos ia (ia_hello_holdtime ia) (if no then 0 else secs)) x)
      | _ => fatalx "ldp_vty_disc_interval: unexpected node"
      end
  end.

(** Flags of the family being configured. *)
Definition vty_af_flag (clear : bool) (flag : Z) : ST parent cmd_ret :=
  do x <- vty_conf;
  do n <- vty_node_of;
  do af <- lift (ldp_vty_get_af n);
  reload (mod_af_flags af (if clear then clear_flag flag else set_flag flag) x).
Definition ldp_vty_targeted_hello_accept (no : bool) : ST parent cmd_ret := vty_af_flag no F_LDPD_AF_THELLO_ACCEPT.
Definition ldp_vty_explicit_null (no : bool) : ST parent cmd_ret := vty_af_flag no F_LDPD_AF_EXPNULL.
Definition ldp_vty_ttl_security (no : bool) : ST parent cmd_ret := vty_af_flag no F_LDPD_AF_NO_GTSM.

(** Session hold times. *)
Definition DEFAULT_KEEPALIVE : Z := 180.
Definition MAX_KEEPALIVE : Z := 0xffff.
Definition F_NBRP_GTSM : Z := 0x02.
Definition F_NBRP_GTSM_HOPS : Z := 0x04.
Definition AUTH_NONE : Z := 0.
Definition AUTH_MD5SIG : Z := 1.
Definition nbr_params_new (lsr_id : Z) : nbr_params := NbrParams lsr_id 0 0 0 AUTH_NONE "" 0 0.
Definition set_nbrp_keepalive (v flags : Z) (p : nbr_params) : nbr_params :=
  NbrParams (nbrp_lsr_id p) v (nbrp_gtsm_enabled p) (nbrp_gtsm_hops p) (nbrp_auth_method p) (nbrp_md5key p)
    (nbrp_md5key_len p) flags.

(** [inet_pton] with [bad_addr_v4]: the value of [s_addr]. *)
Definition lsr_id_arg (a : option (list Z)) : option Z :=
  match a with
  | Some b => if bad_addr_v4 (le_val b) =? 0 then Some (le_val b) else None
  | None => None
  end.

Definition ldp_vty_nbr_session_holdtime (no : bool) (lsr_id : option (list Z)) (seconds : option Z)
    : ST parent cmd_ret :=
  match lsr_id_arg lsr_id with
  | None => ret CMD_WARNING
  | Some id =>
      do x <- vty_conf;
      match in_range MIN_KEEPALIVE MAX_KEEPALIVE seconds with
      | None => ret CMD_SUCCESS
      | Some secs =>
          match no, nbr_params_in (xc_nbrp_list x) id with
          | true, None => ret CMD_SUCCESS
          | true, Some n =>
              reload (set_xc_nbrps (nbrp_replace (set_nbrp_keepalive 0 (clear_flag F_NBRP_KEEPALIVE (nbrp_flags n)) n)
                                      (xc_nbrp_list x)) x)
          | false, None =>
              let n := nbr_params_new id in
              reload (set_xc_nbrps (set_nbrp_keepalive secs (set_flag F_NBRP_KEEPALIVE (nbrp_flags n)) n
                                      :: xc_nbrp_list x) x)
          | false, Some n =>
              if nbrp_keepalive n =? secs then ret CMD_SUCCESS
              else
                reload (set_xc_nbrps (nbrp_replace (set_nbrp_keepalive secs (set_flag F_NBRP_KEEPALIVE (nbrp_flags n)) n)
                                        (xc_nbrp_list x)) x)
          end
      end
  end.

Definition ldp_vty_af_session_holdtime (no : bool) (seconds : option Z) : ST parent cmd_ret :=
  match in_range MIN_KEEPALIVE MAX_KEEPALIVE seconds with
  | None => ret CMD_SUCCESS
  | Some secs =>
      do x <- vty_conf;
      do n <- vty_node_of;
      do af <- lift (ldp_vty_get_af n);
      reload (set_xc_af af (XAf (if no then DEFAULT_KEEPALIVE else secs) (xa_conf (xc_af x af))) x)
  end.

Definition ldp_vty_session_holdtime (no : bool) (lsr_id : option (list Z)) (seconds : option Z) : ST parent cmd_ret :=
  do n <- vty_node_of;
  match n with
  | LDP_NODE => ldp_vty_nbr_session_holdtime no lsr_id seconds
  | LDP_IPV4_NODE | LDP_IPV6_NODE => ldp_vty_af_session_holdtime no seconds
  | _ => fatalx "ldp_vty_session_holdtime: unexpected node"
  end.

(** Interfaces: [if_lookup_by_name] of the library, [if_new] of interface.c. *)
Definition kif_of_name (iflist : list (kif * list kaddr)) (ifname : string) : kif :=
  match List.find (fun e => String.eqb (kif_ifname (fst e)) ifname) iflist with
  | Some e => Kif (strlcpy IF_NAMESIZE ifname) (kif_ifindex (fst e)) (kif_flags (fst e))
  | None => Kif (strlcpy IF_NAMESIZE ifname) 0 0
  end.
Definition vty_if_new (k : kif) : iface :=
  let i := Iface 0 (kif_ifname k) 0 [] zero_addr IF_TYPE_POINTOPOINT 0 (IfaceAf false IF_STA_DOWN [] None 0 0)
             (IfaceAf false IF_STA_DOWN [] None 0 0) in
  if negb (kif_ifindex k =? 0) then if_update_info k i else i.
Definition iface_node (af : Z) : vty_node := if af =? AF_INET then LDP_IPV4_IFACE_NODE else LDP_IPV6_IFACE_NODE.

Definition ldp_vty_interface (no : bool) (ifname : string) : ST parent cmd_ret :=
  do x <- vty_conf;
  do p <- get;
  do af <- lift (ldp_vty_get_af (pa_node p));
  let iface := if_lookup_name (xc_iface_list x) ifname in
  if no then
    match iface with
    | None => ret CMD_SUCCESS
    | Some i =>
        if negb (ia_enabled (ia_of i af)) then ret CMD_SUCCESS
        else reload (mod_vty_ia af i (fun ia => set_ia_enabled ia false) x)
    end
  else
    modify (set_pa_node (iface_node af)) ;;;
    modify (set_pa_ifname (strlcpy IF_NAMESIZE ifname)) ;;;
    match iface with
    | None =>
        if ldp_iface_is_configured x ifname then ret CMD_SUCCESS
        else
          let i := vty_if_new (kif_of_name (pa_iflist p) ifname) in
          reload (set_xc_ifaces (set_if_af i af (set_ia_enabled (ia_of i af) true) :: xc_iface_list x) x)
    | Some i =>
        if ia_enabled (ia_of i af) then ret CMD_SUCCESS
        else reload (mod_vty_ia af i (fun ia => set_ia_enabled ia true) x)
    end.

(** [inet_pton] into a union: the bytes behind an IPv4 address stay. *)
Definition pton_store (bytes : list Z) (old : ldpd_addr) : ldpd_addr := bytes ++ drop (length bytes) old.

Definition ldp_vty_trans_addr (no : bool) (addr : option (list Z)) : ST parent cmd_ret :=
  do x <- vty_conf;
  do n <- vty_node_of;
  do af <- lift (ldp_vty_get_af n);
  if no then reload (mod_af_conf af (set_af_trans_addr zero_addr) x)
  else
    match addr with
    | None => ret CMD_SUCCESS
    | Some b =>
        let a := pton_store b (af_trans_addr (xa_conf (xc_af x af))) in
        do bad <- lift (bad_addr af a);
        if negb (bad =? 0) then ret CMD_SUCCESS else reload (mod_af_conf af (set_af_trans_addr a) x)
    end.

(** [stack]: what the local variable holds before. *)
Fixpoint xtnbr_remove (af : Z) (addr : ldpd_addr) (l : list tnbr) : list tnbr :=
  match l with
  | [] => []
  | t :: l' => if (af =? t_af t) && same_addr af addr (t_addr t) then l' else t :: xtnbr_remove af addr l'
  end.
Definition ldp_vty_neighbor_targeted (no : bool) (addr : option (list Z)) (stack : ldpd_addr) : ST parent cmd_ret :=
  do n <- vty_node_of;
  do af <- lift (ldp_vty_get_af n);
  match addr with
  | None => ret CMD_WARNING
  | Some b =>
      let a := pton_store b stack in
      do bad <- lift (bad_addr af a);
      if negb (bad =? 0) || ((af =? AF_INET6) && IN6_IS_SCOPE_EMBED (v6 a)) then ret CMD_WARNING
      else
        do x <- vty_conf;
        match no, xtnbr_find (xc_tnbr_list x) af a with
        | true, None | false, Some _ => ret CMD_SUCCESS
        | true, Some _ => reload (set_xc_tnbrs (xtnbr_remove af a (xc_tnbr_list x)) x)
        | false, None =>
            reload (set_xc_tnbrs (Tnbr 0 af a TNBR_STA_DOWN 0 F_TNBR_CONFIGURED None None :: xc_tnbr_list x) x)
        end
  end.

Definition ldp_vty_router_id (no : bool) (addr : option (list Z)) : ST parent cmd_ret :=
  do x <- vty_conf;
  if no then reload (set_xc_rtr_id INADDR_ANY x)
  else
    match lsr_id_arg addr with
    | None => ret CMD_SUCCESS
    | Some id => reload (set_xc_rtr_id id x)
    end.

Definition ldp_vty_ds_cisco_interop (no : bool) : ST parent cmd_ret :=
  do x <- vty_conf;
  reload (set_xc_flags ((if no then clear_flag else set_flag) F_LDPD_DS_CISCO_INTEROP (xc_flags x)) x).

Definition ldp_vty_trans_pref_ipv4 (no : bool) : ST parent cmd_ret :=
  do x <- vty_conf; reload (set_xc_trans_pref (if no then DUAL_STACK_LDPOV6 else DUAL_STACK_LDPOV4) x).

(** Parameters of one neighbour; [md5key_len] is a [uint8_t]. *)
Definition set_nbrp_auth (method : Z) (key : string) (len : Z) (p : nbr_params) : nbr_params :=
  NbrParams (nbrp_lsr_id p) (nbrp_keepalive p) (nbrp_gtsm_enabled p) (nbrp_gtsm_hops p) method key len (nbrp_flags p).
Definition set_nbrp_gtsm (enabled hops flags : Z) (p : nbr_params) : nbr_params :=
  NbrParams (nbrp_lsr_id p) (nbrp_keepalive p) enabled hops (nbrp_auth_method p) (nbrp_md5key p) (nbrp_md5key_len p)
    flags.
Definition put_nbrp (id : Z) (f : nbr_params -> nbr_params) (l : list nbr_params) : list nbr_params :=
  match nbr_params_in l id with
  | None => f (nbr_params_new id) :: l
  | Some n => nbrp_replace (f n) l
  end.

Definition ldp_vty_neighbor_password (no : bool) (lsr_id : option (list Z)) (password : string) : ST parent cmd_ret :=
  match lsr_id_arg lsr_id with
  | None => ret CMD_WARNING
  | Some id =>
      do x <- vty_conf;
      let n := nbr_params_in (xc_nbrp_list x) id in
      let key n := set_nbrp_auth AUTH_MD5SIG (strlcpy TCP_MD5_KEY_LEN password)
                     (u8 (Z.of_nat (String.length password))) n in
      match no, n with
      | true, None => ret CMD_SUCCESS
      | true, Some n => reload (set_xc_nbrps (nbrp_replace (set_nbrp_auth AUTH_NONE "" 0 n) (xc_nbrp_list x)) x)
      | false, None => reload (set_xc_nbrps (key (nbr_params_new id) :: xc_nbrp_list x) x)
      | false, Some n =>
          if (nbrp_auth_method n =? AUTH_MD5SIG) && String.eqb (nbrp_md5key n) password then ret CMD_SUCCESS
          else reload (set_xc_nbrps (nbrp_replace (key n) (xc_nbrp_list x)) x)
      end
  end.

(** [hops]: no argument, or its value. *)
Definition ldp_vty_neighbor_ttl_security (no : bool) (lsr_id : option (list Z)) (hops : option (option Z))
    : ST parent cmd_ret :=
  match lsr_id_arg lsr_id with
  | None => ret CMD_WARNING
  | Some id =>
      if match hops with Some h => bool_decide (in_range 1 254 h = None) | None => false end then ret CMD_SUCCESS
      else
        do x <- vty_conf;
        match no, nbr_params_in (xc_nbrp_list x) id with
        | true, None => ret CMD_SUCCESS
        | true, Some n =>
            reload (set_xc_nbrps (nbrp_replace
              (set_nbrp_gtsm 0 0 (clear_flag (Z.lor F_NBRP_GTSM F_NBRP_GTSM_HOPS) (nbrp_flags n)) n) (xc_nbrp_list x)) x)
        | false, _ =>
            reload (set_xc_nbrps (put_nbrp id (fun n =>
              let fl := clear_flag F_NBRP_GTSM_HOPS (set_flag F_NBRP_GTSM (nbrp_flags n)) in
              match hops with
              | Some (Some h) => set_nbrp_gtsm 1 h (set_flag F_NBRP_GTSM_HOPS fl) n
              | _ => set_nbrp_gtsm 0 (nbrp_gtsm_hops n) fl n
              end) (xc_nbrp_list x)) x)
        end
  end.

(** ** L2VPN commands *)
Definition L2VPN_TYPE_VPLS : Z := 2.
Definition PW_TYPE_ETHERNET_TAGGED : Z := 4.
Definition PW_TYPE_ETHERNET : Z := 5.
Definition DEFAULT_PW_TYPE : Z := PW_TYPE_ETHERNET.
Definition DEFAULT_L2VPN_MTU : Z := 1500.
Definition MIN_L2VPN_MTU : Z := 512.
Definition MAX_L2VPN_MTU : Z := 0xffff.
Definition MIN_PWID_ID : Z := 1.
Definition MAX_PWID_ID : Z := 0xffffffff.

Definition l2vpn_new (name : string) : l2vpn :=
  L2vpn (strlcpy L2VPN_NAME_LEN name) 0 DEFAULT_PW_TYPE DEFAULT_L2VPN_MTU "" 0 [] [] [].
Definition set_lv_params (type pw_type mtu : Z) (br : string) (v : l2vpn) : l2vpn :=
  L2vpn (lv_name v) type pw_type mtu br (lv_br_ifindex v) (lv_if_list v) (lv_pw_list v) (lv_pw_inactive_list v).
Definition set_lv_lists (ifs : list l2vpn_if) (act inact : list pw_conf) (v : l2vpn) : l2vpn :=
  L2vpn (lv_name v) (lv_type v) (lv_pw_type v) (lv_mtu v) (lv_br_ifname v) (lv_br_ifindex v) ifs act inact.

Definition ldp_vty_l2vpn (no : bool) (name : string) : ST parent cmd_ret :=
  do x <- vty_conf;
  let l2vpn := l2vpn_find (xc_l2vpn_list x) name in
  if no then
    match l2vpn with
    | None => ret CMD_SUCCESS
    | Some _ => reload (set_xc_l2vpns (l2vpn_take name (xc_l2vpn_list x)) x)
    end
  else
    modify (set_pa_node LDP_L2VPN_NODE) ;;;
    modify (set_pa_l2vpn_name (strlcpy L2VPN_NAME_LEN name)) ;;;
    match l2vpn with
    | Some _ => ret CMD_SUCCESS
    | None =>
        let v := l2vpn_new name in
        reload (set_xc_l2vpns (set_lv_params L2VPN_TYPE_VPLS (lv_pw_type v) (lv_mtu v) (lv_br_ifname v) v
                                 :: xc_l2vpn_list x) x)
    end.

(** The L2VPN being configured, and its update in place. *)
Definition the_l2vpn (x : ldpd_conf) : ST parent l2vpn :=
  do p <- get; found (l2vpn_find (xc_l2vpn_list x) (pa_l2vpn_name p)).
Definition reload_l2vpn (x : ldpd_conf) (v : l2vpn) : ST parent cmd_ret :=
  reload (set_xc_l2vpns (l2vpn_put v (xc_l2vpn_list x)) x).

Definition ldp_vty_l2vpn_bridge (no : bool) (ifname : string) : ST parent cmd_ret :=
  do x <- vty_conf;
  do v <- the_l2vpn x;
  reload_l2vpn x (set_lv_params (lv_type v) (lv_pw_type v) (lv_mtu v) (if no then "" else strlcpy IF_NAMESIZE ifname) v).

(** The value of [strtol] is stored in an [int]. *)
Definition ldp_vty_l2vpn_mtu (no : bool) (mtu : option Z) : ST parent cmd_ret :=
  match in_range MIN_L2VPN_MTU MAX_L2VPN_MTU (option_map int_of_u32 mtu) with
  | None => ret CMD_WARNING
  | Some mtu =>
      do x <- vty_conf;
      do v <- the_l2vpn x;
      reload_l2vpn x (set_lv_params (lv_type v) (lv_pw_type v) (if no then DEFAULT_L2VPN_MTU else mtu)
                        (lv_br_ifname v) v)
  end.

Definition ldp_vty_l2vpn_pwtype (no : bool) (type_str : string) : ST parent cmd_ret :=
  let t := if String.eqb type_str "ethernet" then PW_TYPE_ETHERNET else PW_TYPE_ETHERNET_TAGGED in
  do x <- vty_conf;
  do v <- the_l2vpn x;
  reload_l2vpn x (set_lv_params (lv_type v) (if no then DEFAULT_PW_TYPE else t) (lv_mtu v) (lv_br_ifname v) v).

Fixpoint l2vpn_if_take (ifname : string) (l : list l2vpn_if) : list l2vpn_if :=
  match l with
  | [] => []
  | f :: l' => if String.eqb (lf_ifname f) ifname then l' else f :: l2vpn_if_take ifname l'
  end.
Definition l2vpn_if_new (k : kif) : l2vpn_if := L2vpnIf (kif_ifname k) (kif_ifindex k) (u16 (kif_flags k)).

Definition ldp_vty_l2vpn_interface (no : bool) (ifname : string) : ST parent cmd_ret :=
  do x <- vty_conf;
  do p <- get;
  do v <- the_l2vpn x;
  match no, l2vpn_if_find_name (lv_if_list v) ifname with
  | true, None | false, Some _ => ret CMD_SUCCESS
  | true, Some _ =>
      reload_l2vpn x (set_lv_lists (l2vpn_if_take ifname (lv_if_list v)) (lv_pw_list v) (lv_pw_inactive_list v) v)
  | false, None =>
      if ldp_iface_is_configured x ifname then ret CMD_SUCCESS
      else reload_l2vpn x (set_lv_lists (l2vpn_if_new (kif_of_name (pa_iflist p) ifname) :: lv_if_list v)
                             (lv_pw_list v) (lv_pw_inactive_list v) v)
  end.

Definition l2vpn_pw_new (k : kif) : pw_conf := PwConf INADDR_ANY AF_UNSPEC zero_addr 0 (kif_ifname k) (kif_ifindex k) 0.
Definition set_pwc_flags (v : Z) (p : pw_conf) : pw_conf :=
  PwConf (pwc_lsr_id p) (pwc_af p) (pwc_addr p) (pwc_pwid p) (pwc_ifname p) (pwc_ifindex p) v.
Definition set_pwc_addr (af : Z) (a : ldpd_addr) (p : pw_conf) : pw_conf :=
  PwConf (pwc_lsr_id p) af a (pwc_pwid p) (pwc_ifname p) (pwc_ifindex p) (pwc_flags p).
Definition set_pwc_ids (lsr_id pwid : Z) (p : pw_conf) : pw_conf :=
  PwConf lsr_id (pwc_af p) (pwc_addr p) pwid (pwc_ifname p) (pwc_ifindex p) (pwc_flags p).

Definition ldp_vty_l2vpn_pseudowire (no : bool) (ifname : string) : ST parent cmd_ret :=
  do x <- vty_conf;
  do p <- get;
  do v <- the_l2vpn x;
  let enter := modify (set_pa_node LDP_PSEUDOWIRE_NODE) ;;; modify (set_pa_pw_ifname (strlcpy IF_NAMESIZE ifname)) in
  match no, l2vpn_pw_find_name (lv_pw_list v) (lv_pw_inactive_list v) ifname with
  | true, None => ret CMD_SUCCESS
  | true, Some _ =>
      reload_l2vpn x
        (if bool_decide (is_Some (pw_in ifname (lv_pw_list v)))
         then set_lv_lists (lv_if_list v) (pw_take ifname (lv_pw_list v)) (lv_pw_inactive_list v) v
         else set_lv_lists (lv_if_list v) (lv_pw_list v) (pw_take ifname (lv_pw_inactive_list v)) v)
  | false, Some _ => enter ;;; ret CMD_SUCCESS
  | false, None =>
      if ldp_iface_is_configured x ifname then ret CMD_SUCCESS
      else
        let w := set_pwc_flags (Z.lor F_PW_STATUSTLV_CONF F_PW_CWORD_CONF) (l2vpn_pw_new (kif_of_name (pa_iflist p) ifname)) in
        do r <- reload_l2vpn x (set_lv_lists (lv_if_list v) (lv_pw_list v) (w :: lv_pw_inactive_list v) v);
        enter ;;; ret r
  end.

(** The pseudowire being configured; an edit keeps it in its list. *)
Definition edit_pw (f : pw_conf -> pw_conf) : ST parent cmd_ret :=
  do x <- vty_conf;
  do p <- get;
  do v <- the_l2vpn x;
  do w <- found (l2vpn_pw_find_name (lv_pw_list v) (lv_pw_inactive_list v) (pa_pw_ifname p));
  reload_l2vpn x
    (if bool_decide (is_Some (pw_in (pa_pw_ifname p) (lv_pw_list v)))
     then set_lv_lists (lv_if_list v) (pw_put (f w) (lv_pw_list v)) (lv_pw_inactive_list v) v
     else set_lv_lists (lv_if_list v) (lv_pw_list v) (pw_put (f w) (lv_pw_inactive_list v)) v).

Definition mod_pwc_flags (f : Z -> Z) (p : pw_conf) : pw_conf := set_pwc_flags (f (pwc_flags p)) p.

(** [exclude]: the word starts with an e. *)
Definition ldp_vty_l2vpn_pw_cword (no exclude : bool) : ST parent cmd_ret :=
  edit_pw (mod_pwc_flags (if negb no && exclude then clear_flag F_PW_CWORD_CONF else set_flag F_PW_CWORD_CONF)).

(** [ldp_get_address]: the family is that of the text; the union is cleared. *)
Definition ldp_vty_l2vpn_pw_nbr_addr (no : bool) (addr : option (Z * list Z)) : ST parent cmd_ret :=
  match addr with
  | None => ret CMD_WARNING
  | Some (af, b) =>
      let a := pton_store b zero_addr in
      do bad <- lift (bad_addr af a);
      if negb (bad =? 0) then ret CMD_WARNING
      else if no then edit_pw (fun p => mod_pwc_flags (clear_flag F_PW_STATIC_NBR_ADDR) (set_pwc_addr AF_UNSPEC zero_addr p))
      else edit_pw (fun p => mod_pwc_flags (set_flag F_PW_STATIC_NBR_ADDR) (set_pwc_addr af a p))
  end.

Definition ldp_vty_l2vpn_pw_nbr_id (no : bool) (lsr_id : option (list Z)) : ST parent cmd_ret :=
  match lsr_id_arg lsr_id with
  | None => ret CMD_WARNING
  | Some id => edit_pw (fun p => set_pwc_ids (if no then INADDR_ANY else id) (pwc_pwid p) p)
  end.

(** The value of [strtol] is stored in a [uint32_t]. *)
Definition ldp_vty_l2vpn_pw_pwid (no : bool) (pwid : option Z) : ST parent cmd_ret :=
  match in_range MIN_PWID_ID MAX_PWID_ID (option_map u32 pwid) with
  | None => ret CMD_WARNING
  | Some id => edit_pw (fun p => set_pwc_ids (pwc_lsr_id p) (if no then 0 else id) p)
  end.

Definition ldp_vty_l2vpn_pw_pwstatus (no : bool) : ST parent cmd_ret :=
  edit_pw (mod_pwc_flags (if no then set_flag F_PW_STATUSTLV_CONF else clear_flag F_PW_STATUSTLV_CONF)).

(** ** The commands of the vty (ldp_vty_cmds.c) *)
Inductive vty_cmd :=
| CmdMplsLdp (no : bool)
| CmdAddressFamily (no : bool) (af : string)
| CmdHoldtime (no : bool) (h : hello_type) (seconds : option Z)
| CmdInterval (no : bool) (h : hello_type) (seconds : option Z)
| CmdTargetedHelloAccept (no : bool)
| CmdNbrHoldtime (no : bool) (lsr_id : option (list Z)) (seconds : option Z)
| CmdSessionHoldtime (no : bool) (seconds : option Z)
| CmdInterface (no : bool) (ifname : string)
| CmdTransAddr (no : bool) (addr : option (list Z))
| CmdTargeted (no : bool) (addr : option (list Z))
| CmdExplicitNull (no : bool)
| CmdTtlSecurity (no : bool)
| CmdRouterId (no : bool) (addr : option (list Z))
| CmdCiscoInterop (no : bool)
| CmdPreferIpv4 (no : bool)
| CmdPassword (no : bool) (lsr_id : option (list Z)) (password : string)
| CmdNbrTtl (no : bool) (lsr_id : option (list Z)) (hops : option (option Z))
| CmdL2vpn (no : bool) (name : string)
| CmdBridge (no : bool) (ifname : string)
| CmdMtu (no : bool) (mtu : option Z)
| CmdVcType (no : bool) (type : string)
| CmdMemberIf (no : bool) (ifname : string)
| CmdMemberPw (no : bool) (ifname : string)
| CmdCword (no exclude : bool)
| CmdNbrAddr (no : bool) (addr : option (Z * list Z))
| CmdNbrLsrId (no : bool) (lsr_id : option (list Z))
| CmdPwId (no : bool) (pwid : option Z)
| CmdPwStatus (no : bool).

(** [stack]: the local variable of [ldp_vty_neighbor_targeted]. *)
Definition run_cmd (stack : ldpd_addr) (c : vty_cmd) : ST parent cmd_ret :=
  match c with
  | CmdMplsLdp no => ldp_vty_mpls_ldp no
  | CmdAddressFamily no af => ldp_vty_address_family no af
  | CmdHoldtime no h s => ldp_vty_disc_holdtime no s h
  | CmdInterval no h s => ldp_vty_disc_interval no s h
  | CmdTargetedHelloAccept no => ldp_vty_targeted_hello_accept no
  | CmdNbrHoldtime no id s => ldp_vty_session_holdtime no id s
  | CmdSessionHoldtime no s => ldp_vty_session_holdtime no None s
  | CmdInterface no n => ldp_vty_interface no n
  | CmdTransAddr no a => ldp_vty_trans_addr no a
  | CmdTargeted no a => ldp_vty_neighbor_targeted no a stack
  | CmdExplicitNull no => ldp_vty_explicit_null no
  | CmdTtlSecurity no => ldp_vty_ttl_security no
  | CmdRouterId no a => ldp_vty_router_id no a
  | CmdCiscoInterop no => ldp_vty_ds_cisco_interop no
  | CmdPreferIpv4 no => ldp_vty_trans_pref_ipv4 no
  | CmdPassword no id w => ldp_vty_neighbor_password no id w
  | CmdNbrTtl no id h => ldp_vty_neighbor_ttl_security no id h
  | CmdL2vpn no n => ldp_vty_l2vpn no n
  | CmdBridge no n => ldp_vty_l2vpn_bridge no n
  | CmdMtu no m => ldp_vty_l2vpn_mtu no m
  | CmdVcType no t => ldp_vty_l2vpn_pwtype no t
  | CmdMemberIf no n => ldp_vty_l2vpn_interface no n
  | CmdMemberPw no n => ldp_vty_l2vpn_pseudowire no n
  | CmdCword no e => ldp_vty_l2vpn_pw_cword no e
  | CmdNbrAddr no a => ldp_vty_l2vpn_pw_nbr_addr no a
  | CmdNbrLsrId no id => ldp_vty_l2vpn_pw_nbr_id no id
  | CmdPwId no id => ldp_vty_l2vpn_pw_pwid no id
  | CmdPwStatus no => ldp_vty_l2vpn_pw_pwstatus no
  end.

(** The nodes a command of ldpd is installed in.  Commands of the library are no
    [vty_cmd].  One of them has the words of [CmdInterface]: [interface IFNAME] of
    [CONFIG_NODE] (lib/if.c), which [ldp_vty_if_init] installs too and which keeps
    a list of the library and no configuration of ldpd.  Outside an address
    family the words [interface IFNAME] go to that command and succeed without
    any change of the configuration (the vty moves to the library's
    [INTERFACE_NODE], from where every command of ldpd is found as from
    [CONFIG_NODE]); here [CmdInterface] outside an address family is a line that
    no command takes. *)
Definition installed (c : vty_cmd) (n : vty_node) : bool :=
  match c with
  | CmdMplsLdp _ | CmdL2vpn _ _ => match n with CONFIG_NODE => true | _ => false end
  | CmdAddressFamily _ _ | CmdNbrHoldtime _ _ _ | CmdRouterId _ _ | CmdCiscoInterop _ | CmdPreferIpv4 _
  | CmdPassword _ _ _ | CmdNbrTtl _ _ _ => match n with LDP_NODE => true | _ => false end
  | CmdTargetedHelloAccept _ | CmdSessionHoldtime _ _ | CmdInterface _ _ | CmdTransAddr _ _ | CmdTargeted _ _
  | CmdExplicitNull _ | CmdTtlSecurity _ => match n with LDP_IPV4_NODE | LDP_IPV6_NODE => true | _ => false end
  | CmdHoldtime _ HELLO_LINK _ | CmdInterval _ HELLO_LINK _ =>
      match n with
      | LDP_NODE | LDP_IPV4_NODE | LDP_IPV6_NODE | LDP_IPV4_IFACE_NODE | LDP_IPV6_IFACE_NODE => true
      | _ => false
      end
  | CmdHoldtime _ HELLO_TARGETED _ | CmdInterval _ HELLO_TARGETED _ =>
      match n with LDP_NODE | LDP_IPV4_NODE | LDP_IPV6_NODE => true | _ => false end
  | CmdBridge _ _ | CmdMtu _ _ | CmdVcType _ _ | CmdMemberIf _ _ | CmdMemberPw _ _ =>
      match n with LDP_L2VPN_NODE => true | _ => false end
  | CmdCword _ _ | CmdNbrAddr _ _ | CmdNbrLsrId _ _ | CmdPwId _ _ | CmdPwStatus _ =>
      match n with LDP_PSEUDOWIRE_NODE => true | _ => false end
  end.

(** Words and numbers the command line is matched with. *)
Definition num_in (lo hi : Z) (v : option Z) : bool :=
  match v with Some z => (lo <=? z) && (z <=? hi) | None => false end.
Definition matches (c : vty_cmd) : bool :=
  match c with
  | CmdAddressFamily _ s => String.eqb s "ipv4" || String.eqb s "ipv6"
  | CmdHoldtime _ _ s | CmdInterval _ _ s => num_in 1 65535 s
  | CmdNbrHoldtime _ _ s | CmdSessionHoldtime _ s => num_in 15 65535 s
  | CmdNbrTtl _ _ (Some h) => num_in 1 254 h
  | CmdMtu _ m => num_in 1500 9180 m
  | CmdVcType _ t => String.eqb t "ethernet" || String.eqb t "ethernet-tagged"
  | CmdPwId _ id => num_in 1 4294967295 id
  | _ => true
  end.

(** The library looks for a command in the current node, then in its parents
    ([node_parent], lib/command.c), which become the current node. *)
Definition node_parent (n : vty_node) : vty_node :=
  match n with
  | LDP_IPV4_NODE | LDP_IPV6_NODE => LDP_NODE
  | LDP_IPV4_IFACE_NODE => LDP_IPV4_NODE
  | LDP_IPV6_IFACE_NODE => LDP_IPV6_NODE
  | LDP_PSEUDOWIRE_NODE => LDP_L2VPN_NODE
  | _ => CONFIG_NODE
  end.
Fixpoint node_up (fuel : nat) (c : vty_cmd) (n : vty_node) : option vty_node :=
  if installed c n then Some n
  else match fuel, n with
       | O, _ | _, CONFIG_NODE => None
       | S f, _ => node_up f c (node_parent n)
       end.
Definition node_for (fuel : nat) (c : vty_cmd) (n : vty_node) : option vty_node :=
  if matches c then node_up fuel c n else None.

(** One line of a configuration file, or typed; [None]: no such command, which a
    vty answers with a message. *)
Definition read_line (stack : ldpd_addr) (c : vty_cmd) : ST parent (option cmd_ret) :=
  do n <- vty_node_of;
  match node_for 3 c n with
  | None => ret None
  | Some n' => modify (set_pa_node n') ;;; do r <- run_cmd stack c; ret (Some r)
  end.
(** Reading a file: a line that is no command ends the process ([vty_read_file],
    lib/vty.c, calls [exit]).  Lines that are typed are [read_line] one by one. *)
Definition read_config (stack : ldpd_addr) (l : list vty_cmd) : ST parent unit :=
  foreach (fun c => do r <- read_line stack c;
                    match r with None => fatalx "no such command" | Some _ => ret tt end) l.

(** The parent when [main] reads the configuration file. *)
Definition empty_conf : ldpd_conf := LdpdConf 0 (XAf 0 zero_af_conf) (XAf 0 zero_af_conf) [] [] [] [] 0 0 0 0 0 0.
Definition parent_init : parent := Parent (ldp_config_reset_main empty_conf) false [] [] CONFIG_NODE "" "" "".

(** ** Writing the configuration (ldp_vty_conf.c)

    Lines are the commands they hold; comments are left out. *)
Definition addr_size (af : Z) : nat := if af =? AF_INET then 4 else 16.
Definition line_if (b : bool) (c : vty_cmd) : list vty_cmd := if b then [c] else [].
(** A hello parameter that is neither 0 nor its default. *)
Definition shown (v dflt : Z) : bool := negb (v =? dflt) && negb (v =? 0).

Definition iface_config_write (af : Z) (i : iface) : list vty_cmd :=
  let ia := ia_of i af in
  if negb (ia_enabled ia) then []
  else CmdInterface false (if_name i)
       :: line_if (shown (ia_hello_holdtime ia) LINK_DFLT_HOLDTIME) (CmdHoldtime false HELLO_LINK (Some (ia_hello_holdtime ia)))
       ++ line_if (shown (ia_hello_interval ia) DEFAULT_HELLO_INTERVAL)
            (CmdInterval false HELLO_LINK (Some (ia_hello_interval ia))).
Definition ldp_af_iface_config_write (af : Z) (c : ldpd_conf) : list vty_cmd :=
  concat (map (iface_config_write af) (xc_iface_list c)).

(** The four hello parameters, shown unless they have their default. *)
Definition hello_lines (lh li th ti : Z) (accept : bool) : list vty_cmd :=
  line_if (shown lh LINK_DFLT_HOLDTIME) (CmdHoldtime false HELLO_LINK (Some lh))
  ++ line_if (shown li DEFAULT_HELLO_INTERVAL) (CmdInterval false HELLO_LINK (Some li))
  ++ line_if accept (CmdTargetedHelloAccept false)
  ++ line_if (shown th TARGETED_DFLT_HOLDTIME) (CmdHoldtime false HELLO_TARGETED (Some th))
  ++ line_if (shown ti DEFAULT_HELLO_INTERVAL) (CmdInterval false HELLO_TARGETED (Some ti)).

Definition af_str (af : Z) : string := if af =? AF_INET then "ipv4" else "ipv6".
Definition ldp_af_config_write (af : Z) (c : ldpd_conf) : res (list vty_cmd) :=
  let x := xc_af c af in
  let a := xa_conf x in
  if negb (has_flag (af_flags a) F_LDPD_AF_ENABLED) then Ok []
  else
    let* set := ldp_addrisset af (af_trans_addr a) in
    Ok ([CmdAddressFamily false (af_str af)]
        ++ hello_lines (af_lhello_holdtime a) (af_lhello_interval a) (af_thello_holdtime a) (af_thello_interval a)
             (has_flag (af_flags a) F_LDPD_AF_THELLO_ACCEPT)
        ++ line_if (negb (set =? 0)) (CmdTransAddr false (Some (take (addr_size af) (af_trans_addr a))))
        ++ line_if (has_flag (af_flags a) F_LDPD_AF_EXPNULL) (CmdExplicitNull false)
        ++ line_if (has_flag (af_flags a) F_LDPD_AF_NO_GTSM) (CmdTtlSecurity false)
        ++ line_if (negb (xa_keepalive x =? DEFAULT_KEEPALIVE)) (CmdSessionHoldtime false (Some (xa_keepalive x)))
        ++ concat (map (fun t => line_if (t_af t =? af) (CmdTargeted false (Some (take (addr_size af) (t_addr t)))))
                     (xc_tnbr_list c))
        ++ ldp_af_iface_config_write af c).

Definition nbrp_config_write (n : nbr_params) : list vty_cmd :=
  let id := Some (le_bytes 4 (nbrp_lsr_id n)) in
  line_if (has_flag (nbrp_flags n) F_NBRP_KEEPALIVE) (CmdNbrHoldtime false id (Some (nbrp_keepalive n)))
  ++ line_if (has_flag (nbrp_flags n) F_NBRP_GTSM)
       (CmdNbrTtl false id (if negb (nbrp_gtsm_enabled n =? 0) then Some (Some (nbrp_gtsm_hops n)) else None))
  ++ line_if (nbrp_auth_method n =? AUTH_MD5SIG) (CmdPassword false id (nbrp_md5key n)).

Definition ldp_config_write (c : ldpd_conf) : res (list vty_cmd) :=
  if negb (has_flag (xc_flags c) F_LDPD_ENABLED) then Ok []
  else
    let* l4 := ldp_af_config_write AF_INET c in
    let* l6 := ldp_af_config_write AF_INET6 c in
    Ok ([CmdMplsLdp false]
        ++ line_if (negb (xc_rtr_id c =? 0)) (CmdRouterId false (Some (le_bytes 4 (xc_rtr_id c))))
        ++ hello_lines (xc_lhello_holdtime c) (xc_lhello_interval c) (xc_thello_holdtime c) (xc_thello_interval c) false
        ++ line_if (xc_trans_pref c =? DUAL_STACK_LDPOV4) (CmdPreferIpv4 false)
        ++ line_if (has_flag (xc_flags c) F_LDPD_DS_CISCO_INTEROP) (CmdCiscoInterop false)
        ++ concat (map nbrp_config_write (xc_nbrp_list c)) ++ l4 ++ l6).

Definition ldp_l2vpn_pw_config_write (p : pw_conf) : list vty_cmd :=
  CmdMemberPw false (pwc_ifname p)
  :: line_if (negb (pwc_lsr_id p =? INADDR_ANY)) (CmdNbrLsrId false (Some (le_bytes 4 (pwc_lsr_id p))))
  ++ line_if (has_flag (pwc_flags p) F_PW_STATIC_NBR_ADDR)
       (CmdNbrAddr false (Some (pwc_af p, take (addr_size (pwc_af p)) (pwc_addr p))))
  ++ line_if (negb (pwc_pwid p =? 0)) (CmdPwId false (Some (pwc_pwid p)))
  ++ line_if (negb (has_flag (pwc_flags p) F_PW_CWORD_CONF)) (CmdCword false true)
  ++ line_if (negb (has_flag (pwc_flags p) F_PW_STATUSTLV_CONF)) (CmdPwStatus false).

Definition l2vpn_config_write (v : l2vpn) : list vty_cmd :=
  CmdL2vpn false (lv_name v)
  :: line_if (negb (lv_pw_type v =? DEFAULT_PW_TYPE)) (CmdVcType false "ethernet-tagged")
  ++ line_if (negb (lv_mtu v =? DEFAULT_L2VPN_MTU)) (CmdMtu false (Some (lv_mtu v)))
  ++ line_if (negb (String.eqb (lv_br_ifname v) "")) (CmdBridge false (lv_br_ifname v))
  ++ map (fun f => CmdMemberIf false (lf_ifname f)) (lv_if_list v)
  ++ concat (map ldp_l2vpn_pw_config_write (lv_pw_list v))
  ++ concat (map ldp_l2vpn_pw_config_write (lv_pw_inactive_list v)).
Definition ldp_l2vpn_config_write (c : ldpd_conf) : list vty_cmd := concat (map l2vpn_config_write (xc_l2vpn_list c)).
