(* ===== verification/ConfView.v ===== *)
(** * What a configuration means

    The view of a configuration: its parameters, and finite maps in place of the
    lists (interfaces by name, neighbour parameters by LSR id, L2VPNs and
    pseudowires by name, targeted neighbours as a set), without what is not
    configuration (link state, interface indexes, the order of lists).
    Copying and normalizing a configuration are operations on views, and the
    merge of the parent takes over the view of the new configuration. *)
From stdpp Require Import prelude strings list gmap.
From Stdlib Require Import ZArith Lia Permutation.
From S2P Require Import Prelude Util Wire Ipc Session Fec Hello Discovery DiscInv Config Engine KeyedList Parent.

(** ** Keys *)
#[export] Instance iface_keyed : Keyed iface string := if_name.
#[export] Instance nbrp_keyed : Keyed nbr_params Z := nbrp_lsr_id.
#[export] Instance l2vpn_keyed : Keyed l2vpn string := lv_name.
#[export] Instance pw_keyed : Keyed pw_conf string := pwc_ifname.
#[export] Instance l2vpn_if_keyed : Keyed l2vpn_if string := lf_ifname.

Definition addr_key (af : Z) (a : ldpd_addr) : list Z := take (addr_size af) a.
#[export] Instance tnbr_keyed : Keyed tnbr (Z * list Z) := fun t => (t_af t, addr_key (t_af t) (t_addr t)).

(** ** Single-bit flags *)
Section Flags.
Lemma has_bit a k : 0 <= k -> has_flag a (2 ^ k) = Z.testbit a k.
Proof.
  intros Hk. unfold has_flag. destruct (Z.testbit a k) eqn:E.
  - rewrite negb_true_iff, Z.eqb_neq. intros H0. assert (Z.testbit (Z.land a (2 ^ k)) k = true) as H.
    { by rewrite Z.land_spec, E, Z.pow2_bits_true. }
    by rewrite H0, Z.bits_0 in H.
  - rewrite negb_false_iff, Z.eqb_eq. apply Z.bits_inj'. intros n Hn.
    rewrite Z.land_spec, Z.bits_0. destruct (decide (n = k)) as [-> |Hnk]; [by rewrite E|].
    rewrite Z.pow2_bits_false by done. apply andb_false_r.
Qed.
Lemma has_set a j k : 0 <= j -> 0 <= k -> has_flag (Z.lor a (2 ^ j)) (2 ^ k) = bool_decide (j = k) || has_flag a (2 ^ k).
Proof.
  intros Hj Hk. rewrite !has_bit, Z.lor_spec by done. case_bool_decide as E.
  - subst. rewrite Z.pow2_bits_true by done. apply orb_true_r.
  - rewrite Z.pow2_bits_false by done. apply orb_false_r.
Qed.
Lemma has_clear a j k : 0 <= j -> 0 <= k ->
  has_flag (Z.land a (Z.lnot (2 ^ j))) (2 ^ k) = negb (bool_decide (j = k)) && has_flag a (2 ^ k).
Proof.
  intros Hj Hk. rewrite !has_bit, Z.land_spec, Z.lnot_spec by done. case_bool_decide as E.
  - subst. rewrite Z.pow2_bits_true by done. apply andb_false_r.
  - rewrite Z.pow2_bits_false by done. apply andb_true_r.
Qed.
Lemma has_copy from to j k : 0 <= j -> 0 <= k ->
  has_flag (copy_flag (2 ^ j) from to) (2 ^ k) = if bool_decide (j = k) then has_flag from (2 ^ k) else has_flag to (2 ^ k).
Proof.
  intros Hj Hk. unfold copy_flag. destruct (has_flag from (2 ^ j)) eqn:E; [rewrite has_set by done|rewrite has_clear by done];
    case_bool_decide as Ej; subst; cbn; congruence.
Qed.
End Flags.

Section Bridges.
Lemma eqb_decide (a b : string) : String.eqb a b = bool_decide (a = b).
Proof. case_bool_decide; [by apply String.eqb_eq|by apply String.eqb_neq]. Qed.
Lemma zeqb_decide (a b : Z) : (a =? b) = bool_decide (a = b).
Proof. case_bool_decide; [by apply Z.eqb_eq|by apply Z.eqb_neq]. Qed.
Lemma find_ext {A} (f g : A -> bool) (l : list A) : (forall a, a ∈ l -> f a = g a) -> List.find f l = List.find g l.
Proof.
  induction l as [|a l IH]; intros H; [done|]. cbn. rewrite (H a) by (by left). case_match; [done|].
  apply IH. intros b Hb. apply H. by right.
Qed.

Lemma if_lookup_kfind l n : if_lookup_name l n = kfind l n.
Proof. apply find_ext. intros i _. apply eqb_decide. Qed.
Lemma nbrp_in_kfind l n : nbr_params_in l n = kfind l n.
Proof. apply find_ext. intros i _. apply zeqb_decide. Qed.
Lemma l2vpn_find_kfind l n : l2vpn_find l n = kfind l n.
Proof. apply find_ext. intros i _. apply eqb_decide. Qed.
Lemma pw_in_kfind l n : pw_in n l = kfind l n.
Proof. apply find_ext. intros i _. apply eqb_decide. Qed.
Lemma lif_find_kfind l n : l2vpn_if_find_name l n = kfind l n.
Proof. apply find_ext. intros i _. apply eqb_decide. Qed.
Lemma if_put_kput i l : if_put i l = kput i l.
Proof. induction l as [|j l IH]; [done|]. cbn. by rewrite IH, eqb_decide. Qed.
Lemma nbrp_put_kput i l : nbrp_replace i l = kput i l.
Proof. induction l as [|j l IH]; [done|]. cbn. by rewrite IH, zeqb_decide. Qed.
Lemma l2vpn_put_kput i l : l2vpn_put i l = kput i l.
Proof. induction l as [|j l IH]; [done|]. cbn. by rewrite IH, eqb_decide. Qed.
Lemma pw_put_kput i l : pw_put i l = kput i l.
Proof. induction l as [|j l IH]; [done|]. cbn. by rewrite IH, eqb_decide. Qed.
Lemma l2vpn_take_ktake i l : l2vpn_take i l = ktake i l.
Proof. induction l as [|j l IH]; [done|]. cbn. by rewrite IH, eqb_decide. Qed.
Lemma pw_take_ktake i l : pw_take i l = ktake i l.
Proof. induction l as [|j l IH]; [done|]. cbn. by rewrite IH, eqb_decide. Qed.
Lemma lif_take_ktake i l : l2vpn_if_take i l = ktake i l.
Proof. induction l as [|j l IH]; [done|]. cbn. by rewrite IH, eqb_decide. Qed.
Lemma pw_find_kfind act inact n : l2vpn_pw_find_name act inact n = kfind (act ++ inact) n.
Proof. unfold l2vpn_pw_find_name. by rewrite kfind_app, !pw_in_kfind. Qed.

(** Addresses are equal when their bytes are. *)
Lemma addrcmp_key af a b : af_ok af -> addr_ok a -> addr_ok b -> exists c, ldp_addrcmp af a b = Ok c /\
  (c = 0 <-> addr_key af a = addr_key af b).
Proof.
  intros Haf [La Ba] [Lb Bb]. unfold ldp_addrcmp, addr_key, addr_size.
  destruct Haf as [-> | ->]; cbn [Z.eqb Pos.eqb AF_INET AF_INET6].
  - destruct (v4 a =? v4 b) eqn:E; zbool; (eexists; split; [done|]).
    + split; [intros _|done]. apply le_val_inj; [by apply Forall_take..|by rewrite !length_take, La, Lb|exact E].
    + split; [by destruct (_ >? _)|]. intros Ek. destruct E. unfold v4. by rewrite Ek.
  - eexists. split; [done|]. unfold v6. split.
    + apply memcmp_eq. by rewrite !length_take, La, Lb.
    + intros ->. apply memcmp_refl.
Qed.
Lemma same_addr_key af a b : af_ok af -> addr_ok a -> addr_ok b ->
  same_addr af a b = bool_decide (addr_key af a = addr_key af b).
Proof.
  intros Haf Ha Hb. unfold same_addr. destruct (addrcmp_key af a b Haf Ha Hb) as (c & -> & E).
  rewrite zeqb_decide. apply bool_decide_ext, E.
Qed.
End Bridges.

(** ** Views *)
Record ia_view := IaView { iv_enabled : bool; iv_holdtime : Z; iv_interval : Z }.
Definition view_ia (ia : iface_af) : ia_view := IaView (ia_enabled ia) (ia_hello_holdtime ia) (ia_hello_interval ia).
Record if_view := IfView { iv_ipv4 : ia_view; iv_ipv6 : ia_view }.
Definition view_if (i : iface) : if_view := IfView (view_ia (if_ipv4 i)) (view_ia (if_ipv6 i)).

Record pw_view := PwView {
  pv_lsr_id : Z; pv_af : Z; pv_addr : list Z; pv_pwid : Z; pv_status : bool; pv_cword : bool; pv_static : bool
}.
Definition view_pw (p : pw_conf) : pw_view :=
  PwView (pwc_lsr_id p) (pwc_af p) (addr_key (pwc_af p) (pwc_addr p)) (pwc_pwid p)
    (has_flag (pwc_flags p) F_PW_STATUSTLV_CONF) (has_flag (pwc_flags p) F_PW_CWORD_CONF)
    (has_flag (pwc_flags p) F_PW_STATIC_NBR_ADDR).

Definition lv_pws (v : l2vpn) : list pw_conf := lv_pw_list v ++ lv_pw_inactive_list v.
Record vpn_view := VpnView {
  vv_type : Z; vv_pw_type : Z; vv_mtu : Z; vv_bridge : string; vv_ifs : gset string; vv_pws : gmap string pw_view
}.
Definition view_vpn (v : l2vpn) : vpn_view :=
  VpnView (lv_type v) (lv_pw_type v) (lv_mtu v) (lv_br_ifname v) (list_to_set (keys_of (lv_if_list v)))
    (view_pw <$> kmap (lv_pws v)).

Record af_view := AfView {
  av_keepalive : Z; av_lholdtime : Z; av_linterval : Z; av_tholdtime : Z; av_tinterval : Z; av_addr : list Z;
  av_flags : Z
}.
Definition view_af (af : Z) (x : xaf) : af_view :=
  let a := xa_conf x in
  AfView (xa_keepalive x) (af_lhello_holdtime a) (af_lhello_interval a) (af_thello_holdtime a) (af_thello_interval a)
    (addr_key af (af_trans_addr a)) (af_flags a).

Record conf_view := ConfView {
  cv_rtr_id : Z;
  cv_ipv4 : af_view;
  cv_ipv6 : af_view;
  cv_ifs : gmap string if_view;
  cv_tnbrs : gset (Z * list Z);
  cv_nbrps : gmap Z nbr_params;
  cv_vpns : gmap string vpn_view;
  cv_lholdtime : Z; cv_linterval : Z; cv_tholdtime : Z; cv_tinterval : Z;
  cv_trans_pref : Z;
  cv_flags : Z
}.
Definition view (c : ldpd_conf) : conf_view :=
  ConfView (xc_rtr_id c) (view_af AF_INET (xc_ipv4 c)) (view_af AF_INET6 (xc_ipv6 c))
    (view_if <$> kmap (xc_iface_list c)) (list_to_set (keys_of (xc_tnbr_list c))) (kmap (xc_nbrp_list c))
    (view_vpn <$> kmap (xc_l2vpn_list c)) (xc_lhello_holdtime c) (xc_lhello_interval c) (xc_thello_holdtime c)
    (xc_thello_interval c) (xc_trans_pref c) (xc_flags c).

(** ** Well-formed configurations *)
Definition is_static (p : pw_conf) : bool := has_flag (pwc_flags p) F_PW_STATIC_NBR_ADDR.
Record vpn_ok (v : l2vpn) : Prop := VpnOk {
  vo_type : lv_type v = L2VPN_TYPE_VPLS;
  vo_ifs : NoDup (keys_of (lv_if_list v));
  vo_pws : NoDup (keys_of (lv_pws v));
  vo_static : Forall (fun p => is_static p = true -> af_ok (pwc_af p)) (lv_pws v)
}.
Definition tnbr_conf_ok (t : tnbr) : Prop :=
  af_ok (t_af t) /\ addr_ok (t_addr t) /\ has_flag (t_flags t) F_TNBR_CONFIGURED = true /\ t_adj t = None.

(** What a command may hand to [ldp_reload]. *)
Record conf_wf (c : ldpd_conf) : Prop := ConfWf {
  cw_addr4 : addr_ok (af_trans_addr (xa_conf (xc_ipv4 c)));
  cw_addr6 : addr_ok (af_trans_addr (xa_conf (xc_ipv6 c)));
  cw_ifs : NoDup (keys_of (xc_iface_list c));
  cw_tnbrs : NoDup (keys_of (xc_tnbr_list c));
  cw_tnbr : Forall tnbr_conf_ok (xc_tnbr_list c);
  cw_nbrps : NoDup (keys_of (xc_nbrp_list c));
  cw_vpns : NoDup (keys_of (xc_l2vpn_list c));
  cw_vpn : Forall vpn_ok (xc_l2vpn_list c)
}.

(** The lists tell which pseudowires are to be active. *)
Definition conf_sorted (v : l2vpn) : Prop :=
  Forall (fun p => pw_disabled p = false) (lv_pw_list v) /\ Forall (fun p => pw_disabled p = true) (lv_pw_inactive_list v).

(** ** Normalization of views *)
Definition vmod_if (af : Z) (f : ia_view -> ia_view) (i : if_view) : if_view :=
  if af =? AF_INET then IfView (f (iv_ipv4 i)) (iv_ipv6 i) else IfView (iv_ipv4 i) (f (iv_ipv6 i)).
Definition vdisable (i : ia_view) : ia_view := IaView false (iv_holdtime i) (iv_interval i).
Definition af_unset (af : Z) : af_view := AfView 180 0 0 0 0 (addr_key af zero_addr) 0.
Definition set_cv_af (af : Z) (a : af_view) (v : conf_view) : conf_view :=
  ConfView (cv_rtr_id v) (if af =? AF_INET then a else cv_ipv4 v) (if af =? AF_INET then cv_ipv6 v else a) (cv_ifs v)
    (cv_tnbrs v) (cv_nbrps v) (cv_vpns v) (cv_lholdtime v) (cv_linterval v) (cv_tholdtime v) (cv_tinterval v)
    (cv_trans_pref v) (cv_flags v).
Definition set_cv_maps (ifs : gmap string if_view) (ts : gset (Z * list Z)) (ns : gmap Z nbr_params)
    (vs : gmap string vpn_view) (v : conf_view) : conf_view :=
  ConfView (cv_rtr_id v) (cv_ipv4 v) (cv_ipv6 v) ifs ts ns vs (cv_lholdtime v) (cv_linterval v) (cv_tholdtime v)
    (cv_tinterval v) (cv_trans_pref v) (cv_flags v).
Definition vreset_af (af : Z) (v : conf_view) : conf_view :=
  set_cv_af af (af_unset af)
    (set_cv_maps (vmod_if af vdisable <$> cv_ifs v) (filter (fun k => fst k <> af) (cv_tnbrs v)) (cv_nbrps v)
       (cv_vpns v) v).
Definition vreset_main (v : conf_view) : conf_view :=
  let v := vreset_af AF_INET6 (vreset_af AF_INET (set_cv_maps ∅ (cv_tnbrs v) ∅ (cv_vpns v) v)) in
  ConfView INADDR_ANY (cv_ipv4 v) (cv_ipv6 v) (cv_ifs v) (cv_tnbrs v) (cv_nbrps v) (cv_vpns v) LINK_DFLT_HOLDTIME
    DEFAULT_HELLO_INTERVAL TARGETED_DFLT_HOLDTIME DEFAULT_HELLO_INTERVAL DUAL_STACK_LDPOV6 0.
Definition vpw_normalize (p : pw_view) : pw_view :=
  if pv_static p then p
  else PwView (pv_lsr_id p) AF_INET (le_bytes 4 (pv_lsr_id p)) (pv_pwid p) (pv_status p) (pv_cword p) (pv_static p).
Definition vvpn_normalize (v : vpn_view) : vpn_view :=
  VpnView (vv_type v) (vv_pw_type v) (vv_mtu v) (vv_bridge v) (vv_ifs v) (vpw_normalize <$> vv_pws v).
Definition vnormalize (v : conf_view) : conf_view :=
  let v :=
    if negb (has_flag (cv_flags v) F_LDPD_ENABLED) then vreset_main v
    else
      let v := if negb (has_flag (av_flags (cv_ipv4 v)) F_LDPD_AF_ENABLED) then vreset_af AF_INET v else v in
      if negb (has_flag (av_flags (cv_ipv6 v)) F_LDPD_AF_ENABLED) then vreset_af AF_INET6 v else v in
  set_cv_maps (cv_ifs v) (cv_tnbrs v) (cv_nbrps v) (vvpn_normalize <$> cv_vpns v) v.

Section Normalize.
Lemma view_pw_normalize p : view_pw (pw_normalize p) = vpw_normalize (view_pw p).
Proof.
  unfold pw_normalize, vpw_normalize. cbn. destruct (has_flag _ F_PW_STATIC_NBR_ADDR) eqn:E; [done|].
  unfold view_pw. cbn. rewrite E. f_equal.
Qed.
Lemma key_pw_normalize p : key (pw_normalize p) = key p.
Proof. unfold pw_normalize. by case_match. Qed.
Lemma pws_normalize v : lv_pws (l2vpn_normalize v) = pw_normalize <$> lv_pws v.
Proof. unfold lv_pws. symmetry. apply (fmap_app pw_normalize). Qed.
Lemma view_vpn_normalize v : view_vpn (l2vpn_normalize v) = vvpn_normalize (view_vpn v).
Proof.
  unfold view_vpn, vvpn_normalize. rewrite pws_normalize, kmap_fmap by apply key_pw_normalize. cbn. f_equal.
  rewrite <- !map_fmap_compose. apply map_fmap_ext. intros n p _. apply view_pw_normalize.
Qed.
Lemma view_reset_af af c : af_ok af -> view (ldp_config_reset_af af c) = vreset_af af (view c).
Proof.
  intros Haf. unfold ldp_config_reset_af, vreset_af.
  set (f := fun i => set_if_af i af (set_ia_enabled (ia_of i af) false)).
  assert (view_if <$> kmap (map f (xc_iface_list c)) = vmod_if af vdisable <$> (view_if <$> kmap (xc_iface_list c))) as E1.
  { change (map f (xc_iface_list c)) with (f <$> xc_iface_list c). rewrite kmap_fmap.
    - rewrite <- !map_fmap_compose. apply map_fmap_ext. intros n i _. by destruct Haf as [-> | ->].
    - intros i. by destruct Haf as [-> | ->]. }
  assert (list_to_set (keys_of (List.filter (fun t => negb (t_af t =? af)) (xc_tnbr_list c)))
    =@{gset (Z * list Z)} filter (fun k => fst k <> af) (list_to_set (keys_of (xc_tnbr_list c)))) as E2.
  { apply set_eq. intros k. rewrite elem_of_filter, !elem_of_list_to_set. unfold keys_of.
    rewrite !list_elem_of_fmap. setoid_rewrite list_elem_of_In. setoid_rewrite filter_In. split.
    - intros (t & -> & Ht & Hf). zbool. split; [done|eauto].
    - intros (Hk & t & -> & Ht). exists t. split_and!; try done. cbn in Hk. apply Z.eqb_neq in Hk. by rewrite Hk. }
  unfold view, set_cv_af, set_cv_maps. cbn [xc_iface_list set_xc_af set_xc_lists].
  destruct Haf as [-> | ->]; cbn -[kmap list_to_set keys_of filter fmap]; by rewrite E1, E2.
Qed.
Lemma view_normalize c : view (ldp_config_normalize c) = vnormalize (view c).
Proof.
  unfold ldp_config_normalize, vnormalize.
  assert (forall d w, view d = w ->
    view (set_xc_lists (xc_iface_list d) (xc_tnbr_list d) (xc_nbrp_list d) (map l2vpn_normalize (xc_l2vpn_list d)) d)
    = set_cv_maps (cv_ifs w) (cv_tnbrs w) (cv_nbrps w) (vvpn_normalize <$> cv_vpns w) w) as Hv.
  { intros d w <-. unfold view, set_cv_maps. cbn [xc_rtr_id xc_ipv4 xc_ipv6 xc_iface_list xc_tnbr_list xc_nbrp_list xc_l2vpn_list
      xc_lhello_holdtime xc_lhello_interval xc_thello_holdtime xc_thello_interval xc_trans_pref xc_flags set_xc_lists
      cv_rtr_id cv_ipv4 cv_ipv6 cv_ifs cv_tnbrs cv_nbrps cv_vpns cv_lholdtime cv_linterval cv_tholdtime cv_tinterval
      cv_trans_pref cv_flags]. f_equal.
    change (map l2vpn_normalize (xc_l2vpn_list d)) with (l2vpn_normalize <$> xc_l2vpn_list d).
    rewrite kmap_fmap by done. rewrite <- !map_fmap_compose. apply map_fmap_ext. intros n v _. apply view_vpn_normalize. }
  apply Hv. change (cv_flags (view c)) with (xc_flags c). destruct (negb _).
  - unfold ldp_config_reset_main, vreset_main.
    set (d := set_xc_lists [] (xc_tnbr_list c) [] (xc_l2vpn_list c) c).
    change (set_cv_maps ∅ (cv_tnbrs (view c)) ∅ (cv_vpns (view c)) (view c)) with (view d).
    rewrite <- !view_reset_af by (by (left + right)). done.
  - change (av_flags (cv_ipv4 (view c))) with (af_flags (xa_conf (xc_ipv4 c))).
    destruct (negb (has_flag (af_flags (xa_conf (xc_ipv4 c))) _)).
    + rewrite <- (view_reset_af AF_INET) by (by left).
      change (av_flags (cv_ipv6 (view (ldp_config_reset_af AF_INET c)))) with (af_flags (xa_conf (xc_ipv6 c))).
      change (xc_ipv6 (ldp_config_reset_af AF_INET c)) with (xc_ipv6 c).
      destruct (negb _); [apply view_reset_af; by right|done].
    + change (av_flags (cv_ipv6 (view c))) with (af_flags (xa_conf (xc_ipv6 c))).
      destruct (negb _); [apply view_reset_af; by right|done].
Qed.
End Normalize.
