(* ===== verification/ConfMerge.v ===== *)
(** * The parent's merge takes over a configuration

    [merge_config] of the parent on views: each list is a merge of keyed lists,
    pseudowires move between their two lists without changing the map they stand
    for, and after [ldp_reload] the running configuration has the view of the
    normalized new one. *)
From stdpp Require Import prelude strings list gmap.
From Stdlib Require Import ZArith Lia Permutation.
From S2P Require Import Prelude Util Wire Ipc Session Fec Hello Discovery DiscInv Config Engine KeyedList Parent ConfView.

Lemma fold_left_ext {A B} (f g : B -> A -> B) (I : B -> Prop) (l : list A) (b : B) :
  I b -> (forall a b, a ∈ l -> I b -> f b a = g b a /\ I (g b a)) -> fold_left f l b = fold_left g l b.
Proof.
  revert b. induction l as [|a l IH]; intros b Hb H; [done|]. cbn [fold_left].
  destruct (H a b) as [E Hi]; [by left|done|]. rewrite E. apply IH; [done|]. intros a' b' Ha. apply H. by right.
Qed.
Lemma filter_ext {A} (f g : A -> bool) (l : list A) : (forall a, a ∈ l -> f a = g a) -> List.filter f l = List.filter g l.
Proof.
  induction l as [|a l IH]; intros H; [done|]. cbn. rewrite (H a) by (by left).
  rewrite IH by (intros b Hb; apply H; by right). done.
Qed.

(** ** Flat lists *)
Section Lists.
Lemma kmerge_ext {A K} `{!Keyed A K} `{EqDecision K} (one : list A -> A -> list A) (keep : A -> bool) upd l xs
    (P : A -> Prop) :
  (forall x a, key a = key x -> key (upd x a) = key x) -> NoDup (keys_of l) -> Forall P l -> Forall P xs ->
  (forall x a, P a -> P x -> key a = key x -> P (upd x a)) ->
  (forall a, a ∈ l -> P a -> keep a = bool_decide (is_Some (kfind xs (key a)))) ->
  (forall x l, P x -> Forall P l -> NoDup (keys_of l) -> one l x = kmerge_one upd l x) ->
  fold_left one xs (List.filter keep l) = kmerge upd l xs.
Proof.
  intros Hu Hnd Pl Px Hp Hk Ho. unfold kmerge, kkeep. rewrite Forall_forall in Pl, Px.
  rewrite (filter_ext keep (fun a => bool_decide (is_Some (kfind xs (key a)))) l) by (intros a Ha; auto).
  apply (fold_left_ext _ _ (fun l => NoDup (keys_of l) /\ Forall P l)).
  - split; [by apply keys_keep_nodup|]. eapply sub_Forall; [apply kkeep_sub|]. by apply Forall_forall.
  - intros x l' Hx [H1 H2]. rewrite Ho by auto. split; [done|]. split; [by apply keys_merge_one|].
    apply merge_one_Forall; auto.
Qed.

Lemma merge_nbrps_kmerge l xs : NoDup (keys_of l) -> merge_nbrps_main l xs = kmerge (fun x _ => x) l xs.
Proof.
  intros Hl. apply (kmerge_ext _ _ _ _ _ (fun _ => True)); try done; try (by apply Forall_true).
  - intros a _ _. by rewrite nbrp_in_kfind.
  - intros x l' _ _ _. unfold kmerge_one. rewrite nbrp_in_kfind. change (nbrp_lsr_id x) with (key x).
    case_match; [apply nbrp_put_kput|done].
Qed.
Lemma merge_l2vpn_ifs_kmerge l xs : NoDup (keys_of l) -> merge_l2vpn_ifs l xs = kmerge (fun _ a => a) l xs.
Proof.
  intros Hl. apply (kmerge_ext _ _ _ _ _ (fun _ => True)); try done; try (by apply Forall_true).
  - intros a _ _. by rewrite lif_find_kfind.
  - intros x l' _ _ Hnd. rewrite lif_find_kfind. by apply keep_merge_one.
Qed.
Lemma merge_ifaces_kmerge l xs : fst (merge_ifaces_main l xs) = kmerge merge_iface_main l xs.
Proof.
  unfold merge_ifaces_main, kmerge, kkeep.
  rewrite (filter_ext _ (fun a => bool_decide (is_Some (kfind xs (key a)))) l) by (intros; by rewrite if_lookup_kfind).
  match goal with |- fst (fold_left ?F _ _) = _ => set (step := F) end.
  generalize (List.filter (fun a => bool_decide (is_Some (kfind xs (key a)))) l), (@nil string). clear l.
  induction xs as [|x xs IH]; intros l news; [done|]. cbn [fold_left]. unfold kmerge_one at 2. unfold step at 2.
  rewrite if_lookup_kfind.
  change (if_name x) with (key x). case_match; rewrite IH; [by rewrite if_put_kput|done].
Qed.

Lemma xtnbr_find_kfind l af a : Forall tnbr_conf_ok l -> addr_ok a -> af_ok af ->
  xtnbr_find l af a = kfind l (af, addr_key af a).
Proof.
  intros Hl Ha Haf. apply find_ext. intros t Ht. rewrite Forall_forall in Hl. destruct (Hl t Ht) as (H1 & H2 & _).
  cbn. unfold key, tnbr_keyed. destruct (Z.eqb_spec af (t_af t)) as [E|E]; cbn.
  - subst af. rewrite same_addr_key by done. apply bool_decide_ext. split; congruence.
  - rewrite bool_decide_false; [done|congruence].
Qed.
Lemma merge_tnbrs_kmerge l xs : NoDup (keys_of l) -> Forall tnbr_conf_ok l -> Forall tnbr_conf_ok xs ->
  merge_tnbrs_main l xs = kmerge (fun _ a => a) l xs.
Proof.
  intros Hnd Hl Hx. apply (kmerge_ext _ _ _ _ _ tnbr_conf_ok); try done.
  - intros t _ (H1 & H2 & H3 & _). by rewrite H3, xtnbr_find_kfind.
  - intros x l' (H1 & H2 & H3 & _) Hl' Hnd'. rewrite xtnbr_find_kfind by done. change (t_af x, _) with (key x).
    rewrite <- keep_merge_one by done. destruct (kfind l' (key x)) as [t|] eqn:E; [|done].
    apply kfind_Some in E as [Ht _]. rewrite Forall_forall in Hl'. by destruct (Hl' t Ht) as (_ & _ & -> & _).
Qed.
End Lists.

(** ** Pseudowires *)
Section Pseudowires.
Implicit Types (x p : pw_conf) (act inact aux xs l : list pw_conf).

Definition pw_af_ok (p : pw_conf) : Prop := af_ok (pwc_af p).
Definition vfind (l : list pw_conf) (k : string) : option pw_view := view_pw <$> kfind l k.

Lemma view_pw_copy x p : view_pw (pw_copy x p) = view_pw x.
Proof.
  unfold view_pw, pw_copy. cbn [pwc_lsr_id pwc_af pwc_addr pwc_pwid pwc_flags].
  change F_PW_STATUSTLV_CONF with (2 ^ 0). change F_PW_CWORD_CONF with (2 ^ 2). change F_PW_STATIC_NBR_ADDR with (2 ^ 5).
  by rewrite !has_copy by done.
Qed.

(** One active pseudowire of the new configuration that was active before. *)
Lemma merge_pw_main_step x act inact aux :
  NoDup (keys_of (act ++ aux)) -> key x ∈ keys_of act -> Forall pw_af_ok act -> pw_af_ok x ->
  exists act' aux', merge_pw_main x (PwLists act inact aux) = Ok (PwLists act' inact aux') /\
    keys_of (act' ++ aux') ≡ₚ keys_of (act ++ aux) /\
    (forall k, k <> key x -> k ∈ keys_of act -> k ∈ keys_of act') /\
    (forall k, vfind (act' ++ aux') k = if bool_decide (key x = k) then Some (view_pw x) else vfind (act ++ aux) k) /\
    Forall pw_af_ok act' /\ (Forall pw_af_ok aux -> Forall pw_af_ok aux').
Proof.
  intros Hnd Hx Ha Hax. pose proof Hx as [p Hp]%kfind_is_Some.
  assert (pwc_ifname p = pwc_ifname x) as Hk by (by apply kfind_Some in Hp as [_ ?]).
  assert (p ∈ act) as Hin by (by apply kfind_Some in Hp as [? _]).
  rewrite Forall_forall in Ha. pose proof (Ha p Hin) as Hpa. rewrite <- Forall_forall in Ha.
  unfold merge_pw_main. cbn [pl_act pl_inact pl_aux]. rewrite pw_find_kfind, pw_in_kfind, kfind_app.
  change (pwc_ifname x) with (key x). rewrite Hp. rewrite (bool_decide_true (is_Some (Some p))) by eauto.
  assert (exists r, (if negb (pwc_af p =? pwc_af x) then Ok 0 else ldp_addrcmp (pwc_af p) (pwc_addr p) (pwc_addr x)) = Ok r)
    as [r ->].
  { case_match; [by eexists|]. unfold ldp_addrcmp. destruct Hpa as [-> | ->]; cbn; repeat case_match; by eexists. }
  cbn [rbind]. destruct (pw_disabled x); (do 2 eexists; split; [reflexivity|]).
  - rewrite pw_take_ktake. assert (keys_of (ktake (key x) act ++ pw_copy x p :: aux) ≡ₚ keys_of (act ++ aux)) as HP.
    { rewrite !keys_app. cbn. rewrite <- Permutation_middle. change (key (pw_copy x p)) with (key x).
      rewrite <- (keys_take_perm (key x) act Hx). done. }
    rewrite keys_app in Hnd. apply NoDup_app in Hnd as (Hna & Hdis & Hnx).
    split_and!; [done|..].
    + intros k Hk1 Hk2. apply kfind_is_Some. rewrite kfind_take, bool_decide_false by done. by apply kfind_is_Some.
    + intros k. unfold vfind. rewrite !kfind_app, kfind_take, kfind_cons by done. change (key (pw_copy x p)) with (key x).
      destruct (bool_decide_reflect (key x = k)) as [<- |E].
      * rewrite bool_decide_true by done. cbn. by rewrite view_pw_copy.
      * by rewrite bool_decide_false.
    + by apply ktake_Forall.
    + intros Hx'. by constructor.
  - rewrite pw_put_kput. split_and!.
    + by rewrite !keys_app, keys_put.
    + intros k _. by rewrite keys_put.
    + intros k. unfold vfind. rewrite !kfind_app, kfind_put. change (key (pw_copy x p)) with (key x).
      destruct (bool_decide_reflect (key x = k)) as [<- |E]; [|done]. rewrite Hp. cbn. by rewrite view_pw_copy.
    + by apply kput_Forall.
    + done.
Qed.
Lemma merge_pw_main_loop xs act inact aux :
  NoDup (keys_of xs) -> NoDup (keys_of (act ++ aux)) -> (forall x, x ∈ xs -> key x ∈ keys_of act) ->
  Forall pw_af_ok act -> Forall pw_af_ok aux -> Forall pw_af_ok xs ->
  exists act' aux', rloop merge_pw_main xs (PwLists act inact aux) = Ok (PwLists act' inact aux') /\
    keys_of (act' ++ aux') ≡ₚ keys_of (act ++ aux) /\
    (forall k, vfind (act' ++ aux') k = match kfind xs k with Some x => Some (view_pw x) | None => vfind (act ++ aux) k end) /\
    Forall pw_af_ok (act' ++ aux').
Proof.
  revert act aux. induction xs as [|x xs IH]; intros act aux Hx Hnd Hin Ha Hu Hxa; cbn [rloop].
  { exists act, aux. split_and!; [done..|]. by apply Forall_app. }
  cbn in Hx. apply NoDup_cons in Hx as [Hxn Hx]. apply Forall_cons in Hxa as [Hxa Hxs].
  destruct (merge_pw_main_step x act inact aux) as (a1 & u1 & -> & HP & Hk & Hv & Ha1 & Hu1); [done|by apply Hin; left|done..|].
  cbn [rbind]. destruct (IH a1 u1) as (a2 & u2 & E & HP2 & Hv2 & Hf2); try done; auto.
  { by rewrite HP. }
  { intros y Hy. apply Hk; [|apply Hin; by right]. intros Ey. apply Hxn. rewrite <- Ey. by apply list_elem_of_fmap_2. }
  exists a2, u2. split_and!; [done|by rewrite HP2|..|done]. intros k. rewrite Hv2, Hv, kfind_cons.
  case_bool_decide as Ek; [|done]. subst k. by rewrite (proj2 (kfind_None xs (key x)) Hxn).
Qed.

(** One inactive pseudowire. *)
Lemma merge_ipw_main_step x act inact aux : NoDup (keys_of (act ++ inact)) -> key x ∉ keys_of act ->
  exists act' inact', merge_ipw_main x (PwLists act inact aux) = PwLists act' inact' aux /\
    NoDup (keys_of (act' ++ inact')) /\ (forall k, k ∈ keys_of act' -> k = key x \/ k ∈ keys_of act) /\
    (forall k, kfind (act' ++ inact') k = if bool_decide (key x = k) then Some x else kfind (act ++ inact) k) /\
    (pw_af_ok x -> Forall pw_af_ok (act ++ inact) -> Forall pw_af_ok (act' ++ inact')).
Proof.
  intros Hnd Hx. pose proof Hx as Hxa. apply kfind_None in Hxa. unfold merge_ipw_main. cbn [pl_act pl_inact pl_aux].
  rewrite pw_find_kfind, pw_in_kfind, kfind_app. change (pwc_ifname x) with (key x). rewrite Hxa.
  rewrite (bool_decide_false (is_Some None)) by (by intros [? ?]).
  rewrite keys_app in Hnd. destruct (kfind inact (key x)) as [p|] eqn:E.
  - assert (key x ∈ keys_of inact) as Hi by (apply kfind_is_Some; eauto).
    destruct (pw_disabled x); (do 2 eexists; split; [reflexivity|]).
    + rewrite pw_put_kput. split_and!.
      * by rewrite keys_app, keys_put.
      * by right.
      * intros k. rewrite !kfind_app, kfind_put. case_bool_decide as Ek; [|done]. subst k. by rewrite Hxa, E.
      * intros H1 [H2 H3]%Forall_app. apply Forall_app. split; [done|by apply kput_Forall].
    + rewrite pw_take_ktake. apply NoDup_app in Hnd as (H1 & H2 & H3). split_and!.
      * rewrite keys_app. cbn [keys_of fmap list_fmap]. cbn. rewrite Permutation_middle.
        rewrite (keys_take_perm (key x) inact Hi). by apply NoDup_app.
      * intros k Hk. cbn in Hk. by apply elem_of_cons in Hk.
      * intros k. cbn [app]. rewrite kfind_cons, !kfind_app, kfind_take by done. case_bool_decide as Ek; [done|].
        rewrite (bool_decide_false (k = key x)) by done. done.
      * intros ? [? ?]%Forall_app. cbn. constructor; [done|]. apply Forall_app. split; [done|by apply ktake_Forall].
  - do 2 eexists. split; [reflexivity|]. split_and!.
    + rewrite keys_app. cbn. rewrite <- Permutation_middle. apply NoDup_cons. split; [|done].
      apply kfind_None in E. rewrite elem_of_app. naive_solver.
    + by right.
    + intros k. rewrite !kfind_app, kfind_cons. case_bool_decide as Ek; [|done]. subst k. by rewrite Hxa.
    + intros ? [? ?]%Forall_app. apply Forall_app. split; [done|by constructor].
Qed.
Lemma merge_ipw_main_loop xs act inact aux : NoDup (keys_of xs) -> NoDup (keys_of (act ++ inact)) ->
  (forall x, x ∈ xs -> key x ∉ keys_of act) -> Forall pw_af_ok xs -> Forall pw_af_ok (act ++ inact) ->
  exists act' inact', fold_left (fun pl xp => merge_ipw_main xp pl) xs (PwLists act inact aux) = PwLists act' inact' aux /\
    NoDup (keys_of (act' ++ inact')) /\
    (forall k, kfind (act' ++ inact') k = match kfind xs k with Some x => Some x | None => kfind (act ++ inact) k end) /\
    Forall pw_af_ok (act' ++ inact').
Proof.
  revert act inact. induction xs as [|x xs IH]; intros act inact Hx Hnd Hdis Hxa Ha; cbn [fold_left].
  { by exists act, inact. }
  cbn in Hx. apply NoDup_cons in Hx as [Hxn Hx]. apply Forall_cons in Hxa as [Hxa Hxs].
  destruct (merge_ipw_main_step x act inact aux) as (a1 & i1 & -> & Hnd1 & Hk & Hf & Ha1); [done|apply Hdis; by left|].
  destruct (IH a1 i1) as (a2 & i2 & E & Hnd2 & Hf2 & Ha2); try done; auto.
  { intros y Hy [Ek|Hk']%Hk; [|by apply (Hdis y); [right|]]. apply Hxn. rewrite <- Ek. by apply list_elem_of_fmap_2. }
  exists a2, i2. split_and!; try done. intros k. rewrite Hf2, Hf, kfind_cons. case_bool_decide as Ek; [|done].
  subst k. by rewrite (proj2 (kfind_None xs (key x)) Hxn).
Qed.
End Pseudowires.

(** ** L2VPNs *)
Section L2vpns.
Implicit Types (v xl : l2vpn) (l xls : list l2vpn).

(** The new configuration came from the running one by edits that keep each
    pseudowire in its list. *)
Record pw_from v xl : Prop := PwFrom {
  pf_act : forall x, x ∈ lv_pw_list xl -> key x ∈ keys_of (lv_pw_list v);
  pf_inact : forall x, x ∈ lv_pw_inactive_list xl -> key x ∉ keys_of (lv_pw_list v)
}.
Record vpn_run_ok v : Prop := VpnRunOk {
  vr_ok : vpn_ok v;
  vr_af : Forall pw_af_ok (lv_pws v)
}.

Definition keep_act v xl : list pw_conf :=
  List.filter (fun p => bool_decide (is_Some (l2vpn_pw_find_name (lv_pw_list xl) (lv_pw_inactive_list xl) (pwc_ifname p))))
    (lv_pw_list v).
Lemma kfind_keep_act v xl k : pw_from v xl ->
  kfind (keep_act v xl) k = match kfind (lv_pw_list xl) k with Some _ => kfind (lv_pw_list v) k | None => None end.
Proof.
  intros [Ha Hi]. unfold keep_act.
  rewrite (filter_ext _ (fun a => bool_decide (is_Some (kfind (lv_pws xl) (key a)))))
    by (intros; by rewrite pw_find_kfind).
  fold (kkeep (lv_pws xl) (lv_pw_list v)). rewrite kfind_keep. unfold lv_pws. rewrite kfind_app. destruct (kfind (lv_pw_list xl) k) eqn:E; [done|].
  destruct (kfind (lv_pw_inactive_list xl) k) as [x|] eqn:Ei; [|done].
  apply kfind_Some in Ei as [Hx <-]. apply kfind_None. by apply Hi.
Qed.
Lemma keep_act_sub v xl : keep_act v xl `sublist_of` lv_pw_list v.
Proof. apply lfilter_sub. Qed.

Lemma merge_pws_main v xl : vpn_run_ok v -> vpn_run_ok xl -> pw_from v xl ->
  exists act1 aux act2 inact2,
    rloop merge_pw_main (lv_pw_list xl) (PwLists (keep_act v xl) (lv_pw_inactive_list v) [])
      = Ok (PwLists act1 (lv_pw_inactive_list v) aux) /\
    fold_left (fun pl xp => merge_ipw_main xp pl) (lv_pw_inactive_list xl)
      (PwLists act1 (kkeep (lv_pw_inactive_list xl) (lv_pw_inactive_list v)) aux) = PwLists act2 inact2 aux /\
    NoDup (keys_of ((act2 ++ inact2) ++ aux)) /\ Forall pw_af_ok ((act2 ++ inact2) ++ aux) /\
    (forall k, vfind ((act2 ++ inact2) ++ aux) k = vfind (lv_pws xl) k).
Proof.
  intros [[_ _ Hv _] Hva] [[_ _ Hx _] Hxa] Hf. unfold lv_pws in *. rewrite keys_app in Hv, Hx.
  apply NoDup_app in Hv as (Hv1 & Hv2 & Hv3). apply NoDup_app in Hx as (Hx1 & Hx2 & Hx3).
  apply Forall_app in Hva as [Hva1 Hva2]. apply Forall_app in Hxa as [Hxa1 Hxa2].
  set (xa := lv_pw_list xl) in *. set (xi := lv_pw_inactive_list xl) in *.
  destruct (merge_pw_main_loop xa (keep_act v xl) (lv_pw_inactive_list v) []) as (a1 & u & E1 & HP & Hk1 & Hf1); try done.
  { rewrite app_nil_r. eapply sublist_NoDup; [exact Hv1|]. apply fmap_sublist, keep_act_sub. }
  { intros x Hxx. apply kfind_is_Some. rewrite kfind_keep_act by done. fold xa. rewrite (kfind_elem xa x) by done.
    by apply kfind_is_Some, Hf. }
  { eapply sub_Forall; [apply keep_act_sub|done]. }
  rewrite app_nil_r in Hk1, HP.
  assert (NoDup (keys_of (a1 ++ u))) as Hn1.
  { rewrite HP. eapply sublist_NoDup; [exact Hv1|]. apply fmap_sublist, keep_act_sub. }
  assert (forall k, k ∈ keys_of (a1 ++ u) -> k ∈ keys_of xa) as Hin.
  { intros k. rewrite HP, <- !kfind_is_Some, kfind_keep_act by done. fold xa. by destruct (kfind xa k). }
  rewrite keys_app in Hn1. apply NoDup_app in Hn1 as (Hna & Hnu & Hnn). apply Forall_app in Hf1 as [Hfa Hfu].
  assert (forall k, k ∈ keys_of a1 -> k ∉ keys_of xi) as Hax.
  { intros k Hk. apply Hx2, Hin. rewrite keys_app, elem_of_app. by left. }
  assert (forall k, k ∈ keys_of (kkeep xi (lv_pw_inactive_list v)) -> k ∈ keys_of xi) as Hki.
  { intros k. rewrite <- !kfind_is_Some, kfind_keep. by destruct (kfind xi k). }
  destruct (merge_ipw_main_loop xi a1 (kkeep xi (lv_pw_inactive_list v)) u) as (a2 & i2 & E2 & Hn2 & Hk2 & Hf2); try done.
  { rewrite keys_app. apply NoDup_app. split_and!; [done| |by apply keys_keep_nodup]. intros k Hk H. by eapply Hax; [|apply Hki]. }
  { intros x Hxi Hc. apply (Hax (key x)); [done|by apply list_elem_of_fmap_2]. }
  { apply Forall_app. split; [done|]. eapply sub_Forall; [apply kkeep_sub|done]. }
  assert (forall k, k ∉ keys_of xi -> kfind (a2 ++ i2) k = kfind a1 k) as Hk2'.
  { intros k Hk. rewrite Hk2, (proj2 (kfind_None xi k) Hk), kfind_app. destruct (kfind a1 k); [done|].
    apply kfind_None. intros H. by apply Hk, Hki. }
  exists a1, u, a2, i2. split_and!; try done.
  - rewrite keys_app. apply NoDup_app. split_and!; [done| |done]. intros k H1 H2.
    assert (k ∉ keys_of xi) as H3 by (apply Hx2, Hin; rewrite keys_app, elem_of_app; by right).
    apply kfind_is_Some in H1. rewrite Hk2' in H1 by done. apply kfind_is_Some in H1. by apply (Hnu k).
  - by apply Forall_app.
  - intros k. unfold vfind. rewrite (kfind_app xa). destruct (kfind xi k) as [x|] eqn:Ei.
    + rewrite (kfind_app (a2 ++ i2)), Hk2, Ei. assert (kfind xa k = None) as ->; [|done].
      apply kfind_None. intros H. apply (Hx2 k H). apply kfind_is_Some. eauto.
    + rewrite (kfind_app (a2 ++ i2)), Hk2' by (by apply kfind_None). rewrite <- kfind_app. fold (vfind (a1 ++ u) k).
      rewrite Hk1. destruct (kfind xa k) eqn:Ea; [done|]. unfold vfind. rewrite kfind_keep_act by done. fold xa.
      by rewrite Ea.
Qed.
Lemma merge_l2vpn_main_ok v xl : vpn_run_ok v -> vpn_run_ok xl -> pw_from v xl ->
  exists v', merge_l2vpn_main v xl = Ok v' /\ lv_name v' = lv_name v /\ view_vpn v' = view_vpn xl /\ vpn_run_ok v'.
Proof.
  intros Hv Hx Hf. destruct (merge_pws_main v xl Hv Hx Hf) as (a1 & u & a2 & i2 & E1 & E2 & Hnd & Ha & Hk).
  destruct Hv as [[Ht Hi Hp _] Hpa], Hx as [[Htx Hix Hpx _] Hpxa]. unfold merge_l2vpn_main. fold (keep_act v xl).
  rewrite E1. cbn [rbind pl_act pl_inact pl_aux].
  rewrite (filter_ext _ (fun a => bool_decide (is_Some (kfind (lv_pw_inactive_list xl) (key a)))))
    by (intros; by rewrite pw_in_kfind).
  fold (kkeep (lv_pw_inactive_list xl) (lv_pw_inactive_list v)). rewrite E2. cbn [pl_act pl_inact pl_aux].
  set (v' := L2vpn _ _ _ _ _ _ _ _ _). exists v'. split; [done|]. split; [done|].
  assert (lv_pws v' ≡ₚ (a2 ++ i2) ++ u) as HP.
  { unfold lv_pws. cbn. rewrite <- Permutation_rev. rewrite <- app_assoc. by rewrite (Permutation_app_comm u i2). }
  assert (NoDup (keys_of (lv_pws v'))) as Hndp by (unfold keys_of; by rewrite HP).
  assert (NoDup (keys_of (lv_if_list v')) /\ list_to_set (keys_of (lv_if_list v')) =@{gset string} list_to_set (keys_of (lv_if_list xl)))
    as [Hn Hs].
  { cbn. rewrite merge_l2vpn_ifs_kmerge by done. split; [by apply nodup_merge|]. apply set_eq. intros k.
    rewrite !elem_of_list_to_set, <- !kfind_is_Some, kfind_merge by done. by destruct (kfind (lv_if_list xl) k). }
  assert (Forall pw_af_ok (lv_pws v')) as Hav by (by rewrite HP).
  split.
  - unfold view_vpn. rewrite Hs. f_equal; [cbn; congruence|]. apply map_eq. intros k.
    rewrite !lookup_fmap, !lookup_kmap, (kfind_perm _ _ k HP) by done. apply Hk.
  - split; [|done]. split; try done. eapply Forall_impl; [exact Hav|]. by intros.
Qed.

Lemma merge_l2vpns_loop xls l : NoDup (keys_of xls) -> NoDup (keys_of l) -> Forall vpn_run_ok xls -> Forall vpn_run_ok l ->
  (forall xl v, xl ∈ xls -> kfind l (key xl) = Some v -> pw_from v xl) ->
  exists l', rloop (fun xl l => match l2vpn_find l (lv_name xl) with
                                | None => Ok (xl :: l)
                                | Some v => let* v' := merge_l2vpn_main v xl in Ok (l2vpn_put v' l)
                                end) xls l = Ok l' /\
    NoDup (keys_of l') /\ Forall vpn_run_ok l' /\
    forall k, view_vpn <$> kfind l' k = match kfind xls k with Some xl => Some (view_vpn xl) | None => view_vpn <$> kfind l k end.
Proof.
  revert l. induction xls as [|x xls IH]; intros l Hx Hl Hxa Ha Hf; cbn [rloop]; [by exists l|].
  cbn in Hx. apply NoDup_cons in Hx as [Hxn Hx]. apply Forall_cons in Hxa as [Hxa Hxs].
  assert (exists l1, (match l2vpn_find l (lv_name x) with
                      | None => Ok (x :: l)
                      | Some v => let* v' := merge_l2vpn_main v x in Ok (l2vpn_put v' l)
                      end) = Ok l1 /\ NoDup (keys_of l1) /\ Forall vpn_run_ok l1 /\
    (forall k, k <> key x -> kfind l1 k = kfind l k) /\ view_vpn <$> kfind l1 (key x) = Some (view_vpn x))
    as (l1 & -> & Hn1 & Ha1 & Hk1 & Hv1).
  { rewrite l2vpn_find_kfind. change (lv_name x) with (key x). destruct (kfind l (key x)) as [v|] eqn:E.
    - pose proof (Hf x v ltac:(by left) E) as Hfv. apply kfind_Some in E as E'. destruct E' as [Hv Hkv].
      destruct (merge_l2vpn_main_ok v x) as (v' & -> & En & Ev & Hok); [by rewrite Forall_forall in Ha; apply Ha|done..|].
      assert (key v' = key x) as Hk' by (rewrite <- Hkv; exact En).
      cbn [rbind]. eexists. split; [done|]. rewrite l2vpn_put_kput. split_and!.
      + by rewrite keys_put.
      + by apply kput_Forall.
      + intros k Hk. by rewrite kfind_put, bool_decide_false by congruence.
      + rewrite kfind_put, bool_decide_true, E by done. cbn. by rewrite Ev.
    - eexists. split; [done|]. split_and!.
      + cbn. apply NoDup_cons. split; [by apply kfind_None|done].
      + by constructor.
      + intros k Hk. rewrite kfind_cons, bool_decide_false; congruence.
      + rewrite kfind_cons. by rewrite bool_decide_true. }
  cbn [rbind]. destruct (IH l1) as (l' & E & Hn' & Ha' & Hk'); try done.
  { intros xl v Hxl Hkv. apply Hf; [by right|]. rewrite <- Hk1; [done|]. intros Ek. apply Hxn. rewrite <- Ek.
    by apply list_elem_of_fmap_2. }
  exists l'. split_and!; try done. intros k. rewrite Hk', kfind_cons. case_bool_decide as Ek.
  - subst k. by rewrite (proj2 (kfind_None xls (key x)) Hxn).
  - by rewrite Hk1 by done.
Qed.

Lemma merge_l2vpns_main_ok l xls : NoDup (keys_of xls) -> NoDup (keys_of l) -> Forall vpn_run_ok xls -> Forall vpn_run_ok l ->
  (forall xl v, xl ∈ xls -> kfind l (key xl) = Some v -> pw_from v xl) ->
  exists l', merge_l2vpns_main l xls = Ok l' /\ NoDup (keys_of l') /\ Forall vpn_run_ok l' /\
    view_vpn <$> kmap l' = view_vpn <$> kmap xls.
Proof.
  intros Hx Hl Hxa Ha Hf. unfold merge_l2vpns_main.
  rewrite (filter_ext _ (fun a => bool_decide (is_Some (kfind xls (key a))))) by (intros; by rewrite l2vpn_find_kfind).
  fold (kkeep xls l). destruct (merge_l2vpns_loop xls (kkeep xls l)) as (l' & E & Hn & Hr & Hk); try done.
  { by apply keys_keep_nodup. }
  { eapply sub_Forall; [apply kkeep_sub|done]. }
  { intros xl v Hxl. rewrite kfind_keep. case_match; [|done]. by apply Hf. }
  exists l'. split_and!; try done. apply map_eq. intros k. rewrite !lookup_fmap, !lookup_kmap.
  etransitivity; [apply Hk|]. rewrite kfind_keep. by destruct (kfind xls k).
Qed.
End L2vpns.

(** ** The whole configuration *)
Section Reload.
Implicit Types (c : ldpd_conf) (p : parent).

Record conf_run_ok c : Prop := ConfRunOk {
  cr_wf : conf_wf c;
  cr_vpn : Forall vpn_run_ok (xc_l2vpn_list c)
}.
Record derives c (x : ldpd_conf) : Prop := Derives {
  de_wf : conf_wf x;
  de_from : forall v xl, v ∈ xc_l2vpn_list c -> xl ∈ xc_l2vpn_list x -> lv_name v = lv_name xl -> pw_from v xl
}.

Lemma merge_af_main_ok af a x : af_ok af -> addr_ok (af_trans_addr (xa_conf a)) -> addr_ok (af_trans_addr (xa_conf x)) ->
  exists a' b, merge_af_main af a x = Ok (a', b) /\ view_af af a' = view_af af x /\ addr_ok (af_trans_addr (xa_conf a')).
Proof.
  intros Haf Ha Hx. unfold merge_af_main.
  destruct (addrcmp_key af _ _ Haf Ha Hx) as (r & -> & Hr). cbn [rbind]. do 2 eexists. split; [reflexivity|].
  unfold view_af. cbn [xa_conf xa_keepalive af_lhello_holdtime af_lhello_interval af_thello_holdtime af_thello_interval
    af_trans_addr af_flags].
  destruct (Z.eqb_spec r 0) as [E|E]; cbn [negb]; [|done]. split; [|done]. f_equal. by apply Hr.
Qed.

Lemma view_merge_iface xi i : view_if (merge_iface_main xi i) = view_if xi.
Proof. done. Qed.

Lemma kmap_merge_view {A K V} `{!Keyed A K} `{Countable K} (f : A -> V) (upd : A -> A -> A) (l xs : list A) :
  (forall x a, key a = key x -> key (upd x a) = key x) -> (forall x a, key a = key x -> f (upd x a) = f x) ->
  NoDup (keys_of xs) -> f <$> kmap (kmerge upd l xs) = f <$> kmap xs.
Proof.
  intros Hu Hf Hnd. apply map_eq. intros k. rewrite !lookup_fmap, !lookup_kmap, kfind_merge by done.
  destruct (kfind xs k) as [x|] eqn:E; [|done]. destruct (kfind l k) as [a|] eqn:Ea; [|done]. cbn. f_equal.
  apply kfind_Some in E as [_ <-]. apply kfind_Some in Ea as [_ ?]. by apply Hf.
Qed.

Definition same_vty (p p' : parent) : Prop :=
  pa_started p' = pa_started p /\ pa_iflist p' = pa_iflist p /\ pa_node p' = pa_node p /\ pa_ifname p' = pa_ifname p /\
  pa_l2vpn_name p' = pa_l2vpn_name p /\ pa_pw_ifname p' = pa_pw_ifname p.
(** What the children are told: nothing, for nothing has changed, or, if they run,
    the configuration that was merged, then sockets to close and interfaces that
    are known. *)
Definition told (p p' : parent) : Prop :=
  exists ms, pa_ldpe p' = pa_ldpe p ++ ms /\
    ((ms = [] /\ pa_conf p' = pa_conf p)
     \/ exists x rest, ms = (if pa_started p then main_imsg_send_config x else []) ++ rest /\ (pa_started p = false -> rest = []) /\
         Forall (fun m => to_both m = false) rest /\ conf_run_ok x /\ derives (pa_conf p) x /\ view x = view (pa_conf p') /\
         merge_l2vpns_main (xc_l2vpn_list (pa_conf p)) (xc_l2vpn_list x) = Ok (xc_l2vpn_list (pa_conf p'))).

Lemma redistribute_ldpe iflist n : Forall (fun m => to_both m = false) (kif_redistribute iflist n).
Proof.
  apply Forall_concat, Forall_fmap, Forall_true. intros [k addrs]. cbn. case_match; [|done]. constructor; [done|].
  by apply Forall_fmap, Forall_true.
Qed.
Lemma merge_config_main_ok x p : conf_run_ok (pa_conf p) -> conf_run_ok x -> derives (pa_conf p) x ->
  exists p', merge_config_main x p = Ok (tt, p') /\ view (pa_conf p') = view x /\ conf_run_ok (pa_conf p') /\
    same_vty p p' /\ merge_l2vpns_main (xc_l2vpn_list (pa_conf p)) (xc_l2vpn_list x) = Ok (xc_l2vpn_list (pa_conf p')) /\
    exists rest, pa_ldpe p' = pa_ldpe p ++ rest /\ (pa_started p = false -> rest = []) /\
      Forall (fun m => to_both m = false) rest.
Proof.
  intros [[C4 C6 Ci Ct Ctk Cn Cv Cvo] Cr] [[X4 X6 Xi Xt Xtk Xn Xv Xvo] Xr] [_ Df].
  unfold merge_config_main, get, lift, modify, bind, ret. cbn beta iota zeta. cbn [rbind].
  destruct (merge_af_main_ok AF_INET (xc_ipv4 (pa_conf p)) (xc_ipv4 x)) as (a4 & b4 & E4 & V4 & O4); [by left|done..|].
  destruct (merge_af_main_ok AF_INET6 (xc_ipv6 (pa_conf p)) (xc_ipv6 x)) as (a6 & b6 & E6 & V6 & O6); [by right|done..|].
  destruct (merge_l2vpns_main_ok (xc_l2vpn_list (pa_conf p)) (xc_l2vpn_list x)) as (l' & El & Hn & Hr & Hvw); try done.
  { intros xl v Hxl Hk. apply kfind_Some in Hk as [Hv Hk]. by apply Df. }
  change (xc_ipv4 (merge_global_main (pa_conf p) x)) with (xc_ipv4 (pa_conf p)).
  change (xc_ipv6 (merge_global_main (pa_conf p) x)) with (xc_ipv6 (pa_conf p)).
  change (xc_l2vpn_list (merge_global_main (pa_conf p) x)) with (xc_l2vpn_list (pa_conf p)).
  change (xc_iface_list (merge_global_main (pa_conf p) x)) with (xc_iface_list (pa_conf p)).
  change (xc_tnbr_list (merge_global_main (pa_conf p) x)) with (xc_tnbr_list (pa_conf p)).
  change (xc_nbrp_list (merge_global_main (pa_conf p) x)) with (xc_nbrp_list (pa_conf p)).
  rewrite E4. cbn [rbind]. rewrite E6. cbn [rbind]. rewrite El. eexists. split; [reflexivity|].
  rewrite merge_ifaces_kmerge, merge_tnbrs_kmerge, merge_nbrps_kmerge by done. cbn [fst pa_conf set_pa_conf].
  split_and!; [|split; [split|]|done|done|].
  - pose proof (kmap_merge_view view_if merge_iface_main (xc_iface_list (pa_conf p)) (xc_iface_list x)) as Hifs.
    pose proof (kmap_merge_view id (fun x0 _ : nbr_params => x0) (xc_nbrp_list (pa_conf p)) (xc_nbrp_list x)) as Hnbs.
    rewrite !map_fmap_id in Hnbs.
    assert (list_to_set (keys_of (kmerge (fun _ a => a) (xc_tnbr_list (pa_conf p)) (xc_tnbr_list x)))
      =@{gset (Z * list Z)} list_to_set (keys_of (xc_tnbr_list x))) as Hts.
    { apply set_eq. intros k. rewrite !elem_of_list_to_set, <- !kfind_is_Some, kfind_merge by done.
      by destruct (kfind (xc_tnbr_list x) k). }
    unfold view, set_xc_af, set_xc_lists, merge_global_main, set_xc_global.
    cbn [xc_rtr_id xc_ipv4 xc_ipv6 xc_iface_list xc_tnbr_list xc_nbrp_list xc_l2vpn_list xc_lhello_holdtime
      xc_lhello_interval xc_thello_holdtime xc_thello_interval xc_trans_pref xc_flags].
    rewrite Hifs, Hnbs, Hts, Hvw by done. f_equal; done.
  - exact O4.
  - exact O6.
  - by apply nodup_merge.
  - by apply nodup_merge.
  - by apply merge_Forall.
  - by apply nodup_merge.
  - exact Hn.
  - eapply Forall_impl; [exact Hr|]. by intros v [? _].
  - exact Hr.
  - eexists. split; [done|]. cbn [pa_started]. split; [intros ->; by rewrite !andb_false_r|].
    apply Forall_app. split; [by case_match; repeat constructor|]. apply Forall_app. split; [by case_match; repeat constructor|].
    case_match; [|done]. apply Forall_concat, Forall_fmap, Forall_true. intros n. apply redistribute_ldpe.
Qed.

(** Normalization. *)
Lemma zero_addr_ok : addr_ok zero_addr.
Proof. split; [done|]. repeat constructor; by compute. Qed.
Lemma reset_af_wf af c : af_ok af -> conf_wf c -> conf_wf (ldp_config_reset_af af c).
Proof.
  intros Haf [H4 H6 Hi Ht Htk Hn Hv Hvo]. unfold ldp_config_reset_af.
  assert (forall f : iface -> iface, (forall i, key (f i) = key i) -> NoDup (keys_of (map f (xc_iface_list c)))) as Hifs.
  { intros f Hf. change (map f (xc_iface_list c)) with (f <$> xc_iface_list c). by rewrite keys_fmap. }
  pose proof zero_addr_ok as Hz.
  split; cbn [xc_ipv4 xc_ipv6 xc_iface_list xc_tnbr_list xc_nbrp_list xc_l2vpn_list set_xc_af set_xc_lists]; try done.
  - by case_match.
  - by case_match.
  - apply Hifs. intros i. unfold set_if_af. by case_match.
  - eapply sublist_NoDup; [exact Ht|]. apply fmap_sublist, lfilter_sub.
  - eapply sub_Forall; [apply lfilter_sub|done].
Qed.
Definition without_disabled c : ldpd_conf :=
  if negb (has_flag (xc_flags c) F_LDPD_ENABLED) then ldp_config_reset_main c
  else
    let c := if negb (has_flag (af_flags (xa_conf (xc_ipv4 c))) F_LDPD_AF_ENABLED)
             then ldp_config_reset_af AF_INET c else c in
    if negb (has_flag (af_flags (xa_conf (xc_ipv6 c))) F_LDPD_AF_ENABLED)
    then ldp_config_reset_af AF_INET6 c else c.
Lemma without_disabled_wf c : conf_wf c -> conf_wf (without_disabled c).
Proof.
  intros Hc. unfold without_disabled. destruct (negb _).
  - set (d := set_xc_lists [] (xc_tnbr_list c) [] (xc_l2vpn_list c) c).
    assert (conf_wf (ldp_config_reset_af AF_INET6 (ldp_config_reset_af AF_INET d))) as Hd.
    { do 2 (apply reset_af_wf; [by (left + right)|]). destruct Hc. by split; try apply NoDup_nil. }
    destruct Hd. by split.
  - destruct (negb _), (negb _); repeat (apply reset_af_wf; [by (left + right)|]); done.
Qed.
Lemma normalize_pre_wf c : conf_wf c -> exists d, conf_wf d /\ xc_l2vpn_list d = xc_l2vpn_list c /\
  ldp_config_normalize c
  = set_xc_lists (xc_iface_list d) (xc_tnbr_list d) (xc_nbrp_list d) (map l2vpn_normalize (xc_l2vpn_list d)) d.
Proof.
  intros Hc. exists (without_disabled c). split_and!; [by apply without_disabled_wf| |done].
  unfold without_disabled. by repeat case_match.
Qed.
Lemma vpn_normalize_ok v : vpn_ok v -> vpn_run_ok (l2vpn_normalize v).
Proof.
  intros [Ht Hi Hp Hs]. split; [split|]; try done.
  - by rewrite pws_normalize, keys_fmap by apply key_pw_normalize.
  - rewrite pws_normalize. apply Forall_fmap. eapply Forall_impl; [exact Hs|]. intros p H. unfold pw_normalize, is_static.
    cbn. case_match eqn:E; [by auto|]. cbn. by rewrite E.
  - rewrite pws_normalize. apply Forall_fmap. eapply Forall_impl; [exact Hs|]. intros p H. unfold pw_normalize, pw_af_ok.
    cbn. case_match eqn:E; [by auto|]. by left.
Qed.
Lemma normalize_run_ok c : conf_wf c -> conf_run_ok (ldp_config_normalize c).
Proof.
  intros Hc. destruct (normalize_pre_wf c Hc) as (d & [H4 H6 Hi Ht Htk Hn Hv Hvo] & _ & ->).
  assert (Forall vpn_run_ok (map l2vpn_normalize (xc_l2vpn_list d))) as Hr.
  { apply Forall_fmap. eapply Forall_impl; [exact Hvo|]. apply vpn_normalize_ok. }
  split; [split|]; try done.
  - cbn [xc_l2vpn_list set_xc_lists]. change (map l2vpn_normalize ?l) with (l2vpn_normalize <$> l). by rewrite keys_fmap.
  - eapply Forall_impl; [exact Hr|]. by intros v [? _].
Qed.
Lemma normalize_derives c x : derives c x -> derives c (ldp_config_normalize x).
Proof.
  intros [Hx Hf]. split; [by apply normalize_run_ok|]. destruct (normalize_pre_wf x Hx) as (d & _ & Hl & ->).
  cbn [xc_l2vpn_list set_xc_lists]. rewrite Hl. intros v xl Hv Hxl Hn.
  apply list_elem_of_fmap in Hxl as (y & -> & Hy). destruct (Hf v y Hv Hy Hn) as [H1 H2].
  split; intros p Hp; cbn in Hp; apply list_elem_of_fmap in Hp as (q & -> & Hq); rewrite key_pw_normalize; auto.
Qed.

(** [ldp_reload]: the running configuration becomes the normalized new one. *)
Lemma ldp_reload_ok x p : conf_run_ok (pa_conf p) -> derives (pa_conf p) x ->
  exists p', ldp_reload x p = Ok (tt, p') /\ view (pa_conf p') = vnormalize (view x) /\ conf_run_ok (pa_conf p') /\
    same_vty p p' /\ told p p'.
Proof.
  intros Hc Hd. unfold ldp_reload, get, modify. cbn [bind rbind]. assert (conf_run_ok (ldp_config_normalize x)) as Hx.
  { apply normalize_run_ok, Hd. }
  set (q := add_pa_ldpe _ p). destruct (merge_config_main_ok (ldp_config_normalize x) q) as (p' & E & Hv & Hr & Hs & Hml & Hm).
  - exact Hc.
  - exact Hx.
  - by apply normalize_derives.
  - exists p'. split_and!; [exact E|by rewrite <- view_normalize|done..|].
    destruct Hm as (rest & Em & Hrest & Hldpe). cbn [q pa_ldpe add_pa_ldpe pa_started] in Em, Hrest.
    rewrite <- app_assoc in Em. eexists. split; [exact Em|]. right. exists (ldp_config_normalize x), rest.
    split_and!; try done. by apply normalize_derives.
Qed.
End Reload.
