(* ===== verification/ConfSorted.v ===== *)
(** * Active and inactive pseudowires

    In the running configuration the list a pseudowire is in tells whether it is to
    be active: those in [pw_list] have an LSR id and an identifier, those in
    [pw_inactive_list] lack one.  The merge in the parent restores this after every
    command, as long as new pseudowires come in the list they belong to. *)
From stdpp Require Import prelude strings list gmap.
From Stdlib Require Import ZArith Lia.
From S2P Require Import Prelude Util Wire Ipc Session Fec Hello Discovery Config Engine KeyedList Parent ConfView ConfMerge.

(** What is new in [xls] against [l] comes in the list it belongs to. *)
Definition new_sorted (l xls : list l2vpn) : Prop := forall xl, xl ∈ xls ->
  (forall v, v ∈ l -> lv_name v = lv_name xl ->
     forall x, x ∈ lv_pw_inactive_list xl -> pw_disabled x = false -> key x ∈ keys_of (lv_pw_inactive_list v)) /\
  ((forall v, v ∈ l -> lv_name v <> lv_name xl) -> conf_sorted xl).

Section Lists.
Implicit Types (x p : pw_conf) (act inact aux xs : list pw_conf).

Lemma key_in x l : x ∈ l -> key x ∈ keys_of l.
Proof. apply list_elem_of_fmap_2. Qed.
Lemma take_elem k l p : NoDup (keys_of l) -> p ∈ ktake k l -> p ∈ l /\ key p <> k.
Proof.
  intros Hn Hp. split; [by eapply elem_of_sublist; [|apply ktake_sub]|]. intros <-. pose proof (kfind_take (key p) l (key p) Hn) as H.
  rewrite bool_decide_true in H by done. apply kfind_None in H. apply H. by apply key_in.
Qed.
Lemma put_elem x l p : NoDup (keys_of l) -> p ∈ kput x l -> p = x \/ p ∈ l /\ key p <> key x.
Proof.
  intros Hn Hp. destruct (decide (key p = key x)) as [E|E].
  - left. pose proof (kfind_elem (kput x l) p) as H. rewrite keys_put, kfind_put, E, bool_decide_true in H by done.
    specialize (H Hn Hp). destruct (kfind l (key x)); simplify_eq; done.
  - right. split; [|done]. apply kput_elem in Hp as [-> |?]; [done|done].
Qed.

Lemma merge_pw_sorts x act inact aux l' : NoDup (keys_of act) -> key x ∈ keys_of act ->
  merge_pw_main x (PwLists act inact aux) = Ok l' ->
  pl_inact l' = inact /\ NoDup (keys_of (pl_act l')) /\
  (forall p, p ∈ pl_act l' -> (p ∈ act /\ key p <> key x) \/ pw_disabled p = false) /\
  (forall p, p ∈ pl_aux l' -> p ∈ aux \/ pw_disabled p = true) /\
  (forall k, k <> key x -> k ∈ keys_of act -> k ∈ keys_of (pl_act l')) /\
  (forall k, k ∈ keys_of (pl_act l') -> k ∈ keys_of act).
Proof.
  intros Hn [p Hp]%kfind_is_Some. unfold merge_pw_main. cbn [pl_act pl_inact pl_aux]. rewrite pw_find_kfind, pw_in_kfind, kfind_app.
  change (pwc_ifname x) with (key x). rewrite Hp, (bool_decide_true (is_Some (Some p))) by eauto.
  destruct (if negb _ then _ else _); cbn [rbind]; try done. intros [= <-].
  assert (pw_disabled (pw_copy x p) = pw_disabled x) as Ec by done.
  destruct (pw_disabled x) eqn:Ed; cbn [pl_act pl_inact pl_aux]; split_and!; try done.
  - rewrite pw_take_ktake. by apply nodup_take.
  - intros q. rewrite pw_take_ktake. intros Hq. left. by apply take_elem.
  - intros q [-> |?]%elem_of_cons; [by right|by left].
  - intros k Hk Hin. rewrite pw_take_ktake. apply kfind_is_Some. rewrite kfind_take, bool_decide_false by done. by apply kfind_is_Some.
  - intros k. rewrite pw_take_ktake. intros Hk. eapply elem_of_sublist; [exact Hk|]. apply fmap_sublist, ktake_sub.
  - by rewrite pw_put_kput, keys_put.
  - intros q. rewrite pw_put_kput. intros [-> |Hq]%put_elem; [by right|by left|done].
  - by left.
  - intros k _. by rewrite pw_put_kput, keys_put.
  - intros k. by rewrite pw_put_kput, keys_put.
Qed.
Lemma merge_pws_sort xs act inact aux l' : NoDup (keys_of xs) -> NoDup (keys_of act) -> (forall x, x ∈ xs -> key x ∈ keys_of act) ->
  Forall (fun p => pw_disabled p = true) aux -> rloop merge_pw_main xs (PwLists act inact aux) = Ok l' ->
  pl_inact l' = inact /\ (forall p, p ∈ pl_act l' -> (p ∈ act /\ key p ∉ keys_of xs) \/ pw_disabled p = false) /\
  Forall (fun p => pw_disabled p = true) (pl_aux l') /\ (forall k, k ∈ keys_of (pl_act l') -> k ∈ keys_of act).
Proof.
  revert act inact aux. induction xs as [|x xs IH]; intros act inact aux Hx Hn Hin Ha; cbn [rloop].
  { intros [= <-]. split_and!; try done. intros p Hp. left. split; [done|]. by intros ?%elem_of_nil. }
  apply NoDup_cons in Hx as [Hxn Hx]. destruct (merge_pw_main x _) as [l1| | |] eqn:E; cbn [rbind]; try done.
  destruct (merge_pw_sorts x act inact aux l1 Hn (Hin x ltac:(left)) E) as (E1 & N1 & A1 & U1 & K1 & B1). destruct l1 as [a1 i1 u1]. cbn in *.
  subst i1. intros El. destruct (IH a1 inact u1) as (E2 & A2 & U2 & B2); try done.
  - intros y Hy. apply K1; [|apply Hin; by right]. intros Ek. apply Hxn. rewrite <- Ek. by apply key_in.
  - apply Forall_forall. intros p [Hp|Hp]%U1; [|done]. rewrite Forall_forall in Ha. by apply Ha.
  - split_and!; [done| |done|by auto]. intros p Hp. destruct (A2 p Hp) as [[Hp1 Hp2]|?]; [|by right]. destruct (A1 p Hp1) as [[? ?]|?]; [|by right].
    left. split; [done|]. by intros [?|?]%elem_of_cons.
Qed.

Lemma merge_ipws_sort xs act inact aux : NoDup (keys_of xs) -> NoDup (keys_of inact) -> (forall x, x ∈ xs -> key x ∉ keys_of act) ->
  (forall x, x ∈ xs -> pw_disabled x = false -> key x ∈ keys_of inact) -> Forall (fun p => pw_disabled p = false) act ->
  let l' := fold_left (fun l x => merge_ipw_main x l) xs (PwLists act inact aux) in
  pl_aux l' = aux /\ Forall (fun p => pw_disabled p = false) (pl_act l') /\
  (forall p, p ∈ pl_inact l' -> (p ∈ inact /\ key p ∉ keys_of xs) \/ pw_disabled p = true).
Proof.
  revert act inact. induction xs as [|x xs IH]; intros act inact Hx Hn Hdis Hin Ha; cbn [fold_left].
  { split_and!; try done. intros p Hp. left. split; [done|]. by intros ?%elem_of_nil. }
  apply NoDup_cons in Hx as [Hxn Hx]. unfold merge_ipw_main at 2 4 6. cbn [pl_act pl_inact pl_aux].
  rewrite pw_find_kfind, pw_in_kfind, kfind_app. change (pwc_ifname x) with (key x).
  assert (kfind act (key x) = None) as -> by (apply kfind_None, Hdis; left). rewrite (bool_decide_false (is_Some None)) by (by intros [? ?]).
  assert (forall y, y ∈ xs -> key y <> key x) as Hyx.
  { intros y Hy Ek. apply Hxn. rewrite <- Ek. by apply key_in. }
  destruct (kfind inact (key x)) as [p|] eqn:Ep; [destruct (pw_disabled x) eqn:Ed|].
  - rewrite pw_put_kput. destruct (IH act (kput x inact)) as (E1 & A1 & I1); try done.
    + by rewrite keys_put.
    + intros y Hy. apply Hdis. by right.
    + intros y Hy. rewrite keys_put. apply Hin. by right.
    + split_and!; try done. intros q Hq. destruct (I1 q Hq) as [[[-> |[? ?]]%put_elem ?]|?]; [by right|..|done|by right].
      left. split; [done|]. by intros [?|?]%elem_of_cons.
  - rewrite pw_take_ktake. destruct (IH (x :: act) (ktake (key x) inact)) as (E1 & A1 & I1); try done.
    + by apply nodup_take.
    + intros y Hy [Ek|?]%elem_of_cons; [by apply (Hyx y)|]. by apply (Hdis y); [right|].
    + intros y Hy Hd. apply kfind_is_Some. rewrite kfind_take, bool_decide_false by (by auto). apply kfind_is_Some, Hin; [by right|done].
    + by constructor.
    + split_and!; try done. intros q Hq. destruct (I1 q Hq) as [[[? ?]%take_elem ?]|?]; [|done|by right].
      left. split; [done|]. by intros [?|?]%elem_of_cons.
  - assert (pw_disabled x = true) as Ed.
    { destruct (pw_disabled x) eqn:Ed; [done|]. exfalso. apply kfind_None in Ep. apply Ep, Hin; [left|done]. }
    destruct (IH act (x :: inact)) as (E1 & A1 & I1); try done.
    + apply NoDup_cons. split; [by apply kfind_None|done].
    + intros y Hy. apply Hdis. by right.
    + intros y Hy Hd. right. apply Hin; [by right|done].
    + split_and!; try done. intros q Hq. destruct (I1 q Hq) as [[[-> |?]%elem_of_cons ?]|?]; [by right| |by right].
      left. split; [done|]. intros [Ek|?]%elem_of_cons; [|done]. apply kfind_None in Ep. apply Ep. rewrite <- Ek. by apply key_in.
Qed.
End Lists.

Section Vpns.
Lemma merge_l2vpn_sorted v xl v' : vpn_run_ok v -> vpn_run_ok xl -> pw_from v xl ->
  (forall x, x ∈ lv_pw_inactive_list xl -> pw_disabled x = false -> key x ∈ keys_of (lv_pw_inactive_list v)) ->
  merge_l2vpn_main v xl = Ok v' -> conf_sorted v'.
Proof.
  intros [[_ _ Hv _] _] [[_ _ Hx _] _] Hf Hnew. unfold lv_pws in Hv, Hx. rewrite keys_app in Hv, Hx.
  apply NoDup_app in Hv as (Hv1 & Hv2 & Hv3). apply NoDup_app in Hx as (Hx1 & Hx2 & Hx3).
  unfold merge_l2vpn_main. fold (keep_act v xl). destruct (rloop _ _ _) as [l1| | |] eqn:E; cbn [rbind]; try done.
  destruct (merge_pws_sort _ _ _ _ _ Hx1 ltac:(eapply sublist_NoDup; [exact Hv1|apply fmap_sublist, keep_act_sub])
    ltac:(intros x Hxx; apply kfind_is_Some; rewrite kfind_keep_act, (kfind_elem _ x) by done; by apply kfind_is_Some, Hf)
    ltac:(by apply Forall_nil) E) as (E1 & A1 & U1 & B1).
  assert (Forall (fun p => pw_disabled p = false) (pl_act l1)) as A1'.
  { apply Forall_forall. intros p Hp. destruct (A1 p Hp) as [[Hk Hn]|?]; [|done]. exfalso. apply Hn.
    apply key_in, kfind_is_Some in Hk. rewrite kfind_keep_act in Hk by done. apply kfind_is_Some. destruct (kfind (lv_pw_list xl) (key p)); [done|by destruct Hk]. }
  assert (forall p, p ∈ pl_act l1 -> key p ∈ keys_of (lv_pw_list xl)) as Hkeys.
  { intros p Hp%key_in%B1%kfind_is_Some. rewrite kfind_keep_act in Hp by done. apply kfind_is_Some. by destruct (kfind (lv_pw_list xl) (key p)). }
  set (i1 := List.filter _ _). assert (i1 = kkeep (lv_pw_inactive_list xl) (lv_pw_inactive_list v)) as Ei.
  { unfold i1, kkeep. rewrite E1. apply filter_ext. intros p _. by rewrite pw_in_kfind. }
  destruct (merge_ipws_sort (lv_pw_inactive_list xl) (pl_act l1) i1 (pl_aux l1)) as (E2 & A2 & I2); try done.
  { rewrite Ei. by apply keys_keep_nodup. }
  { intros x Hxx (p & Ek & Hp)%list_elem_of_fmap. apply Hkeys in Hp. apply (Hx2 _ Hp). assert (key x = key p) as <- by exact Ek. by apply key_in. }
  { intros x Hxx Hd. rewrite Ei. apply kfind_is_Some. rewrite kfind_keep, (kfind_elem _ x) by done. by apply kfind_is_Some, Hnew. }
  intros [= <-]. split; cbn [lv_pw_list lv_pw_inactive_list]; [done|]. apply Forall_app. split; [rewrite E2; by apply Forall_rev|].
  apply Forall_forall. intros p Hp. destruct (I2 p Hp) as [[Hk Hn]|?]; [|done]. exfalso. apply Hn. rewrite Ei in Hk.
  apply key_in, kfind_is_Some in Hk. rewrite kfind_keep in Hk. apply kfind_is_Some. by destruct (kfind (lv_pw_inactive_list xl) (key p)).
Qed.

Lemma merge_l2vpns_sorted_loop xls l l' : NoDup (keys_of xls) -> NoDup (keys_of l) -> Forall vpn_run_ok xls -> Forall vpn_run_ok l ->
  (forall xl v, xl ∈ xls -> kfind l (key xl) = Some v -> pw_from v xl) -> new_sorted l xls ->
  rloop (fun xl l => match l2vpn_find l (lv_name xl) with
                     | None => Ok (xl :: l)
                     | Some v => let* v' := merge_l2vpn_main v xl in Ok (l2vpn_put v' l)
                     end) xls l = Ok l' ->
  forall v, v ∈ l' -> v ∈ l /\ key v ∉ keys_of xls \/ conf_sorted v.
Proof.
  revert l. induction xls as [|x xls IH]; intros l Hx Hl Hxa Ha Hf Hn; cbn [rloop].
  { intros [= <-] v Hv. left. split; [done|]. by intros ?%elem_of_nil. }
  apply NoDup_cons in Hx as [Hxn Hx]. apply Forall_cons in Hxa as [Hxo Hxa].
  assert (forall y, y ∈ xls -> key y <> key x) as Hyx.
  { intros y Hy Ek. apply Hxn. rewrite <- Ek. by apply list_elem_of_fmap_2. }
  rewrite l2vpn_find_kfind. change (lv_name x) with (key x). destruct (kfind l (key x)) as [v|] eqn:Ev.
  - apply kfind_Some in Ev as Ev'. destruct Ev' as [Hv Hk]. pose proof (proj1 (Forall_forall _ _) Ha v Hv) as Hvo.
    pose proof (Hf x v ltac:(left) Ev) as Hfx.
    destruct (merge_l2vpn_main_ok v x Hvo Hxo Hfx) as (v' & Em & En & _ & Hok). rewrite Em. cbn [rbind].
    assert (key v' = key x) as Hk' by (rewrite <- Hk; exact En).
    assert (conf_sorted v') as Hs.
    { apply (merge_l2vpn_sorted v x v' Hvo Hxo Hfx); [|done]. intros y Hy Hd. exact (proj1 (Hn x ltac:(left)) v Hv Hk y Hy Hd). }
    rewrite l2vpn_put_kput. intros E w Hw. destruct (IH (kput v' l)) with (v := w) as [[Hwl Hwn]|?]; try done; [by rewrite keys_put|by apply kput_Forall|..|].
    + intros xl u Hxl. rewrite kfind_put, bool_decide_false by (rewrite Hk'; by apply not_eq_sym, Hyx). apply Hf. by right.
    + intros xl Hxl. destruct (Hn xl ltac:(by right)) as [N1 N2]. split.
      * intros u Hu Eu. apply kput_elem in Hu as [-> |Hu]; [|by apply N1]. destruct (Hyx xl Hxl). rewrite <- Hk'. exact (eq_sym Eu).
      * intros Hno. apply N2. intros u Hu Eu. destruct (decide (key u = key x)) as [Ek|Ek]; [apply (Hyx xl Hxl); rewrite <- Ek; exact (eq_sym Eu)|].
        apply (Hno u); [|done]. assert (kfind (kput v' l) (key u) = Some u) as Hu'.
        { rewrite kfind_put, bool_decide_false by congruence. by apply kfind_elem. }
        by apply kfind_Some in Hu' as [? _].
    + destruct (decide (key w = key x)) as [Ek|Ek].
      * right. assert (kfind (kput v' l) (key w) = Some w) as E2 by (apply kfind_elem; [by rewrite keys_put|done]).
        rewrite kfind_put, Ek, bool_decide_true in E2 by done. rewrite Ev in E2. by injection E2 as <-.
      * left. apply kput_elem in Hwl as [-> |Hwl]; [done|]. split; [done|]. by intros [?|?]%elem_of_cons.
    + by right.
  - cbn [rbind]. intros E w Hw. assert (conf_sorted x) as Hs.
    { apply (Hn x); [left|]. intros u Hu Eu. apply kfind_None in Ev. apply Ev. unfold key, l2vpn_keyed. rewrite <- Eu. by apply (list_elem_of_fmap_2 lv_name). }
    destruct (IH (x :: l)) with (v := w) as [[[-> |Hwl]%elem_of_cons Hwn]|?]; try done; [..|by right| |by right].
    + apply NoDup_cons. split; [by apply kfind_None|done].
    + by constructor.
    + intros xl u Hxl. rewrite kfind_cons, bool_decide_false by (by apply not_eq_sym, Hyx). apply Hf. by right.
    + intros xl Hxl. destruct (Hn xl ltac:(by right)) as [N1 N2]. split.
      * intros u [-> |Hu]%elem_of_cons Eu; [by destruct (Hyx xl Hxl)|by apply N1].
      * intros Hno. apply N2. intros u Hu. apply Hno. by right.
    + left. split; [done|]. intros [Ek|?]%elem_of_cons; [|done]. apply kfind_None in Ev. apply Ev. rewrite <- Ek. by apply list_elem_of_fmap_2.
Qed.
Lemma merge_l2vpns_sorted l xls l' : NoDup (keys_of xls) -> NoDup (keys_of l) -> Forall vpn_run_ok xls -> Forall vpn_run_ok l ->
  (forall v xl, v ∈ l -> xl ∈ xls -> lv_name v = lv_name xl -> pw_from v xl) -> new_sorted l xls ->
  merge_l2vpns_main l xls = Ok l' -> Forall conf_sorted l'.
Proof.
  intros Hx Hl Hxa Ha Hf Hn. unfold merge_l2vpns_main.
  rewrite (filter_ext _ (fun a => bool_decide (is_Some (kfind xls (key a))))) by (intros; by rewrite l2vpn_find_kfind).
  fold (kkeep xls l). intros E. pose proof (kkeep_sub xls l) as Hsub. apply Forall_forall. intros v Hv.
  destruct (merge_l2vpns_sorted_loop xls (kkeep xls l) l') with (v := v) as [[Hk Hnk]|?]; try done.
  - by apply keys_keep_nodup.
  - by eapply sub_Forall.
  - intros xl u Hxl Hu. apply kfind_Some in Hu as [Hu Eu]. apply Hf; [by eapply elem_of_sublist|done..].
  - intros xl Hxl. destruct (Hn xl Hxl) as [N1 N2]. split.
    + intros u Hu. apply N1. by eapply elem_of_sublist.
    + intros Hno. apply N2. intros u Hu Eu. apply (Hno u); [|done]. assert (kfind (kkeep xls l) (key u) = Some u) as E'.
      { rewrite kfind_keep, (kfind_elem l u) by done. assert (key u = key xl) as -> by done. by rewrite (kfind_elem xls xl). }
      by apply kfind_Some in E' as [? _].
  - exfalso. apply Hnk. assert (key v ∈ keys_of (kkeep xls l)) as H by (by apply list_elem_of_fmap_2). apply kfind_is_Some in H.
    rewrite kfind_keep in H. apply kfind_is_Some. by destruct (kfind xls (key v)).
Qed.
End Vpns.
