(* ===== verification/ConfSpec.v ===== *)
(** * What the configuration commands do

    The commands as operations on views of the configuration: finite maps that
    are looked up, updated and shortened, with normalization after each change.
    [ConfCmds] proves that the commands of the parent do exactly this. *)
From stdpp Require Import prelude strings list gmap.
From Stdlib Require Import ZArith Lia.
From S2P Require Import Prelude Util Wire Ipc Session Fec Hello Discovery Config Engine KeyedList Parent ConfView.

Record vstate := VState {
  vs_view : conf_view;
  vs_node : vty_node;
  vs_ifname : string;
  vs_l2vpn : string;
  vs_pw : string
}.
Definition abs (p : parent) : vstate :=
  VState (view (pa_conf p)) (pa_node p) (pa_ifname p) (pa_l2vpn_name p) (pa_pw_ifname p).

Definition set_vs_view (w : conf_view) (s : vstate) : vstate :=
  VState w (vs_node s) (vs_ifname s) (vs_l2vpn s) (vs_pw s).
Definition set_vs_node (n : vty_node) (s : vstate) : vstate :=
  VState (vs_view s) n (vs_ifname s) (vs_l2vpn s) (vs_pw s).
Definition set_vs_ifname (n : string) (s : vstate) : vstate := VState (vs_view s) (vs_node s) n (vs_l2vpn s) (vs_pw s).
Definition set_vs_l2vpn (n : string) (s : vstate) : vstate := VState (vs_view s) (vs_node s) (vs_ifname s) n (vs_pw s).
Definition set_vs_pw (n : string) (s : vstate) : vstate := VState (vs_view s) (vs_node s) (vs_ifname s) (vs_l2vpn s) n.

Definition commit (w : conf_view) : ST vstate cmd_ret := modify (set_vs_view (vnormalize w)) ;;; ret CMD_SUCCESS.
Definition vfound {A} (o : option A) : ST vstate A := match o with Some a => ret a | None => undef "null pointer" end.

(** ** Updates of views *)
Definition set_cv_global (rtr lh li th ti pref flags : Z) (w : conf_view) : conf_view :=
  ConfView rtr (cv_ipv4 w) (cv_ipv6 w) (cv_ifs w) (cv_tnbrs w) (cv_nbrps w) (cv_vpns w) lh li th ti pref flags.
Definition set_cv_rtr_id (v : Z) (w : conf_view) : conf_view :=
  set_cv_global v (cv_lholdtime w) (cv_linterval w) (cv_tholdtime w) (cv_tinterval w) (cv_trans_pref w) (cv_flags w) w.
Definition set_cv_trans_pref (v : Z) (w : conf_view) : conf_view :=
  set_cv_global (cv_rtr_id w) (cv_lholdtime w) (cv_linterval w) (cv_tholdtime w) (cv_tinterval w) v (cv_flags w) w.
Definition set_cv_flags (v : Z) (w : conf_view) : conf_view :=
  set_cv_global (cv_rtr_id w) (cv_lholdtime w) (cv_linterval w) (cv_tholdtime w) (cv_tinterval w) (cv_trans_pref w) v w.
Definition set_cv_ifs (m : gmap string if_view) (w : conf_view) : conf_view :=
  set_cv_maps m (cv_tnbrs w) (cv_nbrps w) (cv_vpns w) w.
Definition set_cv_tnbrs (m : gset (Z * list Z)) (w : conf_view) : conf_view :=
  set_cv_maps (cv_ifs w) m (cv_nbrps w) (cv_vpns w) w.
Definition set_cv_nbrps (m : gmap Z nbr_params) (w : conf_view) : conf_view :=
  set_cv_maps (cv_ifs w) (cv_tnbrs w) m (cv_vpns w) w.
Definition set_cv_vpns (m : gmap string vpn_view) (w : conf_view) : conf_view :=
  set_cv_maps (cv_ifs w) (cv_tnbrs w) (cv_nbrps w) m w.
Definition cv_af (w : conf_view) (af : Z) : af_view := if af =? AF_INET then cv_ipv4 w else cv_ipv6 w.

(** Hold times ([hold]) and intervals of the three levels. *)
Definition cv_set_hello (hold : bool) (h : hello_type) (v : Z) (w : conf_view) : conf_view :=
  let upd a b c d := set_cv_global (cv_rtr_id w) a b c d (cv_trans_pref w) (cv_flags w) w in
  match hold, h with
  | true, HELLO_LINK => upd v (cv_linterval w) (cv_tholdtime w) (cv_tinterval w)
  | false, HELLO_LINK => upd (cv_lholdtime w) v (cv_tholdtime w) (cv_tinterval w)
  | true, HELLO_TARGETED => upd (cv_lholdtime w) (cv_linterval w) v (cv_tinterval w)
  | false, HELLO_TARGETED => upd (cv_lholdtime w) (cv_linterval w) (cv_tholdtime w) v
  end.
Definition av_set_hello (hold : bool) (h : hello_type) (v : Z) (a : af_view) : af_view :=
  let upd x y z t := AfView (av_keepalive a) x y z t (av_addr a) (av_flags a) in
  match hold, h with
  | true, HELLO_LINK => upd v (av_linterval a) (av_tholdtime a) (av_tinterval a)
  | false, HELLO_LINK => upd (av_lholdtime a) v (av_tholdtime a) (av_tinterval a)
  | true, HELLO_TARGETED => upd (av_lholdtime a) (av_linterval a) v (av_tinterval a)
  | false, HELLO_TARGETED => upd (av_lholdtime a) (av_linterval a) (av_tholdtime a) v
  end.
Definition iv_set_hello (hold : bool) (v : Z) (i : ia_view) : ia_view :=
  if hold then IaView (iv_enabled i) v (iv_interval i) else IaView (iv_enabled i) (iv_holdtime i) v.
Definition iv_set_enabled (b : bool) (i : ia_view) : ia_view := IaView b (iv_holdtime i) (iv_interval i).
Definition iv_of (i : if_view) (af : Z) : ia_view := if af =? AF_INET then iv_ipv4 i else iv_ipv6 i.
Definition new_if : if_view := IfView (IaView false 0 0) (IaView false 0 0).

Definition av_set_flags (v : Z) (a : af_view) : af_view :=
  AfView (av_keepalive a) (av_lholdtime a) (av_linterval a) (av_tholdtime a) (av_tinterval a) (av_addr a) v.
Definition av_set_addr (v : list Z) (a : af_view) : af_view :=
  AfView (av_keepalive a) (av_lholdtime a) (av_linterval a) (av_tholdtime a) (av_tinterval a) v (av_flags a).
Definition av_set_keepalive (v : Z) (a : af_view) : af_view :=
  AfView v (av_lholdtime a) (av_linterval a) (av_tholdtime a) (av_tinterval a) (av_addr a) (av_flags a).

Definition in_use (w : conf_view) (n : string) : bool :=
  bool_decide (is_Some (cv_ifs w !! n))
  || bool_decide (map_Exists (fun _ v => n ∈ vv_ifs v \/ is_Some (vv_pws v !! n)) (cv_vpns w)).

Definition new_vpn : vpn_view := VpnView L2VPN_TYPE_VPLS DEFAULT_PW_TYPE DEFAULT_L2VPN_MTU "" ∅ ∅.
Definition vv_set_params (pw_type mtu : Z) (br : string) (v : vpn_view) : vpn_view :=
  VpnView (vv_type v) pw_type mtu br (vv_ifs v) (vv_pws v).
Definition vv_set_members (ifs : gset string) (pws : gmap string pw_view) (v : vpn_view) : vpn_view :=
  VpnView (vv_type v) (vv_pw_type v) (vv_mtu v) (vv_bridge v) ifs pws.
Definition new_pw : pw_view := PwView INADDR_ANY AF_UNSPEC (addr_key AF_UNSPEC zero_addr) 0 true true false.
Definition pv_set_ids (lsr_id pwid : Z) (p : pw_view) : pw_view :=
  PwView lsr_id (pv_af p) (pv_addr p) pwid (pv_status p) (pv_cword p) (pv_static p).
Definition pv_set_addr (af : Z) (a : list Z) (static : bool) (p : pw_view) : pw_view :=
  PwView (pv_lsr_id p) af a (pv_pwid p) (pv_status p) (pv_cword p) static.
Definition pv_set_flags (status cword : bool) (p : pw_view) : pw_view :=
  PwView (pv_lsr_id p) (pv_af p) (pv_addr p) (pv_pwid p) status cword (pv_static p).

(** ** Commands *)
(** The node decides the family ([ldp_vty_get_af]). *)
Definition node_af (n : vty_node) : Z :=
  match n with LDP_IPV6_NODE | LDP_IPV6_IFACE_NODE => AF_INET6 | _ => AF_INET end.
Definition on_af (f : af_view -> af_view) : ST vstate cmd_ret :=
  do s <- get;
  let af := node_af (vs_node s) in
  commit (set_cv_af af (f (cv_af (vs_view s) af)) (vs_view s)).
Definition on_global (f : conf_view -> conf_view) : ST vstate cmd_ret := do s <- get; commit (f (vs_view s)).

Definition spec_hello (hold no : bool) (secs : option Z) (h : hello_type) : ST vstate cmd_ret :=
  match secs with
  | None => ret CMD_WARNING
  | Some secs =>
      do s <- get;
      match vs_node s with
      | LDP_NODE => on_global (cv_set_hello hold h (if no then dflt_holdtime h else secs))
      | LDP_IPV4_IFACE_NODE | LDP_IPV6_IFACE_NODE =>
          do i <- vfound (cv_ifs (vs_view s) !! vs_ifname s);
          commit (set_cv_ifs (<[vs_ifname s := vmod_if (node_af (vs_node s)) (iv_set_hello hold (if no then 0 else secs)) i]>
                                (cv_ifs (vs_view s))) (vs_view s))
      | _ => on_af (av_set_hello hold h (if no then 0 else secs))
      end
  end.
Definition spec_af_flag (clear : bool) (flag : Z) : ST vstate cmd_ret :=
  on_af (fun a => av_set_flags ((if clear then clear_flag else set_flag) flag (av_flags a)) a).

Definition spec_interface (no : bool) (n : string) : ST vstate cmd_ret :=
  do s <- get;
  let w := vs_view s in
  let af := node_af (vs_node s) in
  let store b i := commit (set_cv_ifs (<[n := vmod_if af (iv_set_enabled b) i]> (cv_ifs w)) w) in
  if no then
    match cv_ifs w !! n with
    | Some i => if iv_enabled (iv_of i af) then store false i else ret CMD_SUCCESS
    | None => ret CMD_SUCCESS
    end
  else
    modify (set_vs_node (iface_node af)) ;;;
    modify (set_vs_ifname n) ;;;
    match cv_ifs w !! n with
    | Some i => if iv_enabled (iv_of i af) then ret CMD_SUCCESS else store true i
    | None => if in_use w n then ret CMD_SUCCESS else store true new_if
    end.

Definition spec_targeted (no : bool) (addr : option (list Z)) : ST vstate cmd_ret :=
  do s <- get;
  let w := vs_view s in
  let af := node_af (vs_node s) in
  match addr with
  | None => ret CMD_WARNING
  | Some b =>
      do bad <- lift (bad_addr af b);
      if negb (bad =? 0) || ((af =? AF_INET6) && IN6_IS_SCOPE_EMBED b) then ret CMD_WARNING
      else if bool_decide ((af, b) ∈ cv_tnbrs w)
      then if no then commit (set_cv_tnbrs (cv_tnbrs w ∖ {[(af, b)]}) w) else ret CMD_SUCCESS
      else if no then ret CMD_SUCCESS else commit (set_cv_tnbrs ({[(af, b)]} ∪ cv_tnbrs w) w)
  end.
Definition spec_trans_addr (no : bool) (addr : option (list Z)) : ST vstate cmd_ret :=
  do s <- get;
  let af := node_af (vs_node s) in
  if no then on_af (av_set_addr (addr_key af zero_addr))
  else match addr with
       | None => ret CMD_SUCCESS
       | Some b => do bad <- lift (bad_addr af b); if negb (bad =? 0) then ret CMD_SUCCESS else on_af (av_set_addr b)
       end.

(** Parameters of a neighbour. *)
Definition store_nbrp (id : Z) (n : nbr_params) : ST vstate cmd_ret :=
  on_global (fun w => set_cv_nbrps (<[id := n]> (cv_nbrps w)) w).
Definition the_nbrp (w : conf_view) (id : Z) : nbr_params := default (nbr_params_new id) (cv_nbrps w !! id).
(** [upd no n]: the new parameters, [None] if nothing changes. *)
Definition spec_nbrp (no : bool) (lsr_id : option (list Z)) (upd : nbr_params -> option nbr_params) : ST vstate cmd_ret :=
  match lsr_id_arg lsr_id with
  | None => ret CMD_WARNING
  | Some id =>
      do s <- get;
      if no && bool_decide (cv_nbrps (vs_view s) !! id = None) then ret CMD_SUCCESS
      else match upd (the_nbrp (vs_view s) id) with
           | None => ret CMD_SUCCESS
           | Some n => store_nbrp id n
           end
  end.
Definition upd_keepalive (no : bool) (secs : option Z) (n : nbr_params) : option nbr_params :=
  match in_range MIN_KEEPALIVE MAX_KEEPALIVE secs with
  | None => None
  | Some secs =>
      if no then Some (set_nbrp_keepalive 0 (clear_flag F_NBRP_KEEPALIVE (nbrp_flags n)) n)
      else if nbrp_keepalive n =? secs then None
      else Some (set_nbrp_keepalive secs (set_flag F_NBRP_KEEPALIVE (nbrp_flags n)) n)
  end.
Definition upd_password (no : bool) (password : string) (n : nbr_params) : option nbr_params :=
  if no then Some (set_nbrp_auth AUTH_NONE "" 0 n)
  else if (nbrp_auth_method n =? AUTH_MD5SIG) && String.eqb (nbrp_md5key n) password then None
  else Some (set_nbrp_auth AUTH_MD5SIG (strlcpy TCP_MD5_KEY_LEN password) (u8 (Z.of_nat (String.length password))) n).
Definition upd_ttl (no : bool) (hops : option (option Z)) (n : nbr_params) : option nbr_params :=
  let fl := clear_flag F_NBRP_GTSM_HOPS (set_flag F_NBRP_GTSM (nbrp_flags n)) in
  if no then Some (set_nbrp_gtsm 0 0 (clear_flag (Z.lor F_NBRP_GTSM F_NBRP_GTSM_HOPS) (nbrp_flags n)) n)
  else match hops with
       | Some (Some h) => Some (set_nbrp_gtsm 1 h (set_flag F_NBRP_GTSM_HOPS fl) n)
       | _ => Some (set_nbrp_gtsm 0 (nbrp_gtsm_hops n) fl n)
       end.
Definition hops_bad (hops : option (option Z)) : bool :=
  match hops with Some h => bool_decide (in_range 1 254 h = None) | None => false end.

(** L2VPNs. *)
Definition spec_l2vpn (no : bool) (n : string) : ST vstate cmd_ret :=
  do s <- get;
  let w := vs_view s in
  if no then
    if bool_decide (is_Some (cv_vpns w !! n)) then commit (set_cv_vpns (delete n (cv_vpns w)) w) else ret CMD_SUCCESS
  else
    modify (set_vs_node LDP_L2VPN_NODE) ;;;
    modify (set_vs_l2vpn n) ;;;
    if bool_decide (is_Some (cv_vpns w !! n)) then ret CMD_SUCCESS
    else commit (set_cv_vpns (<[n := new_vpn]> (cv_vpns w)) w).
Definition store_vpn (v : vpn_view) : ST vstate cmd_ret :=
  do s <- get; commit (set_cv_vpns (<[vs_l2vpn s := v]> (cv_vpns (vs_view s))) (vs_view s)).
Definition cur_vpn : ST vstate vpn_view := do s <- get; vfound (cv_vpns (vs_view s) !! vs_l2vpn s).
Definition spec_member_if (no : bool) (n : string) : ST vstate cmd_ret :=
  do s <- get;
  do v <- cur_vpn;
  if bool_decide (n ∈ vv_ifs v)
  then if no then store_vpn (vv_set_members (vv_ifs v ∖ {[n]}) (vv_pws v) v) else ret CMD_SUCCESS
  else if no || in_use (vs_view s) n then ret CMD_SUCCESS
  else store_vpn (vv_set_members ({[n]} ∪ vv_ifs v) (vv_pws v) v).
Definition spec_member_pw (no : bool) (n : string) : ST vstate cmd_ret :=
  do s <- get;
  do v <- cur_vpn;
  let enter := modify (set_vs_node LDP_PSEUDOWIRE_NODE) ;;; modify (set_vs_pw n) in
  if bool_decide (is_Some (vv_pws v !! n))
  then if no then store_vpn (vv_set_members (vv_ifs v) (delete n (vv_pws v)) v) else enter ;;; ret CMD_SUCCESS
  else if no || in_use (vs_view s) n then ret CMD_SUCCESS
  else do r <- store_vpn (vv_set_members (vv_ifs v) (<[n := new_pw]> (vv_pws v)) v); enter ;;; ret r.
Definition spec_pw (f : pw_view -> pw_view) : ST vstate cmd_ret :=
  do s <- get;
  do v <- cur_vpn;
  do p <- vfound (vv_pws v !! vs_pw s);
  store_vpn (vv_set_members (vv_ifs v) (<[vs_pw s := f p]> (vv_pws v)) v).

Definition spec_cmd (c : vty_cmd) : ST vstate cmd_ret :=
  match c with
  | CmdMplsLdp no =>
      if no then on_global (fun w => set_cv_flags (clear_flag F_LDPD_ENABLED (cv_flags w)) w)
      else modify (set_vs_node LDP_NODE) ;;; on_global (fun w => set_cv_flags (set_flag F_LDPD_ENABLED (cv_flags w)) w)
  | CmdAddressFamily no name =>
      match af_of_name name with
      | None => ret CMD_WARNING
      | Some af =>
          let upd w f := set_cv_af af (av_set_flags (f (av_flags (cv_af w af))) (cv_af w af)) w in
          if no then on_global (fun w => upd w (clear_flag F_LDPD_AF_ENABLED))
          else modify (set_vs_node (if af =? AF_INET then LDP_IPV4_NODE else LDP_IPV6_NODE)) ;;;
               on_global (fun w => upd w (set_flag F_LDPD_AF_ENABLED))
      end
  | CmdHoldtime no h s => spec_hello true no (in_range MIN_HOLDTIME MAX_HOLDTIME s) h
  | CmdInterval no h s => spec_hello false no (in_range MIN_HELLO_INTERVAL MAX_HELLO_INTERVAL s) h
  | CmdTargetedHelloAccept no => spec_af_flag no F_LDPD_AF_THELLO_ACCEPT
  | CmdExplicitNull no => spec_af_flag no F_LDPD_AF_EXPNULL
  | CmdTtlSecurity no => spec_af_flag no F_LDPD_AF_NO_GTSM
  | CmdNbrHoldtime no id s => spec_nbrp no id (upd_keepalive no s)
  | CmdSessionHoldtime no s =>
      match in_range MIN_KEEPALIVE MAX_KEEPALIVE s with
      | None => ret CMD_SUCCESS
      | Some secs => on_af (av_set_keepalive (if no then DEFAULT_KEEPALIVE else secs))
      end
  | CmdInterface no n => spec_interface no n
  | CmdTransAddr no a => spec_trans_addr no a
  | CmdTargeted no a => spec_targeted no a
  | CmdRouterId no a =>
      if no then on_global (set_cv_rtr_id INADDR_ANY)
      else match lsr_id_arg a with None => ret CMD_SUCCESS | Some id => on_global (set_cv_rtr_id id) end
  | CmdCiscoInterop no =>
      on_global (fun w => set_cv_flags ((if no then clear_flag else set_flag) F_LDPD_DS_CISCO_INTEROP (cv_flags w)) w)
  | CmdPreferIpv4 no => on_global (set_cv_trans_pref (if no then DUAL_STACK_LDPOV6 else DUAL_STACK_LDPOV4))
  | CmdPassword no id w => spec_nbrp no id (upd_password no w)
  | CmdNbrTtl no id h =>
      spec_nbrp no id (fun n => if hops_bad h then None else upd_ttl no h n)
  | CmdL2vpn no n => spec_l2vpn no n
  | CmdBridge no n =>
      do v <- cur_vpn; store_vpn (vv_set_params (vv_pw_type v) (vv_mtu v) (if no then "" else strlcpy IF_NAMESIZE n) v)
  | CmdMtu no m =>
      match in_range MIN_L2VPN_MTU MAX_L2VPN_MTU (option_map int_of_u32 m) with
      | None => ret CMD_WARNING
      | Some m => do v <- cur_vpn;
                  store_vpn (vv_set_params (vv_pw_type v) (if no then DEFAULT_L2VPN_MTU else m) (vv_bridge v) v)
      end
  | CmdVcType no t =>
      do v <- cur_vpn;
      store_vpn (vv_set_params (if no then DEFAULT_PW_TYPE
                                else if String.eqb t "ethernet" then PW_TYPE_ETHERNET else PW_TYPE_ETHERNET_TAGGED)
                   (vv_mtu v) (vv_bridge v) v)
  | CmdMemberIf no n => spec_member_if no n
  | CmdMemberPw no n => spec_member_pw no n
  | CmdCword no e => spec_pw (fun p => pv_set_flags (pv_status p) (no || negb e) p)
  | CmdPwStatus no => spec_pw (fun p => pv_set_flags no (pv_cword p) p)
  | CmdNbrAddr no a =>
      match a with
      | None => ret CMD_WARNING
      | Some (af, b) =>
          do bad <- lift (bad_addr af b);
          if negb (bad =? 0) then ret CMD_WARNING
          else if no then spec_pw (pv_set_addr AF_UNSPEC (addr_key AF_UNSPEC zero_addr) false)
          else spec_pw (pv_set_addr af b true)
      end
  | CmdNbrLsrId no id =>
      match lsr_id_arg id with
      | None => ret CMD_WARNING
      | Some id => spec_pw (fun p => pv_set_ids (if no then INADDR_ANY else id) (pv_pwid p) p)
      end
  | CmdPwId no id =>
      match in_range MIN_PWID_ID MAX_PWID_ID (option_map u32 id) with
      | None => ret CMD_WARNING
      | Some id => spec_pw (fun p => pv_set_ids (pv_lsr_id p) (if no then 0 else id) p)
      end
  end.
