(* ===== verification/ConfCmds.v ===== *)
(** * The configuration commands do what they promise

    A simulation: started in a state whose configuration is well formed, every
    command of the parent ([run_cmd]) ends as [spec_cmd] does on the view, with a
    well-formed configuration, and the LDP engine is told the new one. *)
From stdpp Require Import prelude strings list gmap.
From Stdlib Require Import ZArith Lia Permutation.
From S2P Require Import Prelude Util Wire Ipc Session Fec Hello Discovery DiscInv Config Engine KeyedList Parent ConfView ConfMerge ConfSpec.

(** ** Copies *)
Section Dup.
Implicit Types (v : l2vpn) (c x : ldpd_conf).

Lemma list_to_set_rev {A} `{Countable A} (l : list A) : list_to_set (rev l) =@{gset A} list_to_set l.
Proof. apply set_eq. intros a. by rewrite !elem_of_list_to_set, <- Permutation_rev. Qed.
Lemma pws_dup v : lv_pws (dup_l2vpn v) ≡ₚ lv_pws v.
Proof. unfold lv_pws. cbn. by rewrite <- !Permutation_rev. Qed.
Lemma vpn_ok_dup v : vpn_ok v -> vpn_ok (dup_l2vpn v).
Proof.
  intros [Ht Hi Hp Hs]. split; [done|by apply nodup_keys_rev|..].
  - unfold keys_of. by rewrite pws_dup.
  - by rewrite pws_dup.
Qed.
Lemma view_vpn_dup v : vpn_ok v -> view_vpn (dup_l2vpn v) = view_vpn v.
Proof.
  intros [_ Hi Hp _]. unfold view_vpn. cbn [lv_type lv_pw_type lv_mtu lv_br_ifname lv_if_list dup_l2vpn].
  rewrite keys_rev, list_to_set_rev. f_equal. f_equal. apply kmap_ext. intros k. symmetry.
  apply kfind_perm; [by rewrite pws_dup|done].
Qed.
Lemma pw_from_dup v : vpn_ok v -> pw_from v (dup_l2vpn v).
Proof.
  intros [_ _ Hp _]. unfold lv_pws in Hp. rewrite keys_app in Hp. apply NoDup_app in Hp as (_ & Hd & _).
  split; intros x Hx; cbn in Hx; rewrite <- Permutation_rev in Hx.
  - by apply list_elem_of_fmap_2.
  - intros H. apply (Hd _ H). by apply list_elem_of_fmap_2.
Qed.

Lemma dup_vpns_keys c : keys_of (rev (map dup_l2vpn (xc_l2vpn_list c))) = rev (keys_of (xc_l2vpn_list c)).
Proof.
  rewrite keys_rev. f_equal. change (map dup_l2vpn ?l) with (dup_l2vpn <$> l). by rewrite keys_fmap.
Qed.
Lemma dup_derives c : conf_run_ok c -> derives c (ldp_dup_config c).
Proof.
  intros [[H4 H6 Hi Ht Htk Hn Hv Hvo] Hr]. split; [split|]; try done.
  - by apply nodup_keys_rev.
  - by apply nodup_keys_rev.
  - cbn. by rewrite <- Permutation_rev.
  - by apply nodup_keys_rev.
  - cbn. rewrite dup_vpns_keys. by rewrite <- Permutation_rev.
  - cbn. rewrite <- Permutation_rev. apply Forall_fmap. eapply Forall_impl; [exact Hvo|]. apply vpn_ok_dup.
  - intros v xl Hv1 Hx E. cbn in Hx. rewrite <- Permutation_rev in Hx. apply list_elem_of_fmap in Hx as (w & -> & Hw).
    assert (v = w) as ->.
    { pose proof (kfind_elem _ v Hv Hv1) as E1. pose proof (kfind_elem _ w Hv Hw) as E2.
      change (key v = key w) in E. rewrite E in E1. congruence. }
    apply pw_from_dup. rewrite Forall_forall in Hvo. by apply Hvo.
Qed.
Lemma view_dup c : conf_run_ok c -> view (ldp_dup_config c) = view c.
Proof.
  intros [[H4 H6 Hi Ht Htk Hn Hv Hvo] Hr]. unfold view, ldp_dup_config.
  cbn [xc_rtr_id xc_ipv4 xc_ipv6 xc_iface_list xc_tnbr_list xc_nbrp_list xc_l2vpn_list xc_lhello_holdtime
    xc_lhello_interval xc_thello_holdtime xc_thello_interval xc_trans_pref xc_flags set_xc_lists].
  rewrite (kmap_rev (xc_iface_list c)), (kmap_rev (xc_nbrp_list c)), keys_rev, list_to_set_rev by done. f_equal.
  change (map dup_l2vpn (xc_l2vpn_list c)) with (dup_l2vpn <$> xc_l2vpn_list c). rewrite kmap_rev by (by rewrite keys_fmap).
  rewrite kmap_fmap, <- map_fmap_compose by done. apply map_fmap_ext. intros k v Hk. rewrite lookup_kmap in Hk.
  apply kfind_Some in Hk as [Hk _]. apply view_vpn_dup. rewrite Forall_forall in Hvo. by apply Hvo.
Qed.
End Dup.

(** ** Edits *)
Section Edits.
Implicit Types (c x : ldpd_conf).

Lemma derives_global c x a b d e f g h : derives c x -> derives c (set_xc_global a b d e f g h x).
Proof. intros [[] Hf]. by split; [split|]. Qed.
Lemma derives_af c x af a : derives c x -> addr_ok (af_trans_addr (xa_conf a)) -> derives c (set_xc_af af a x).
Proof. intros [[] Hf] Ha. split; [|done]. split; try done; cbn; by case_match. Qed.
Lemma derives_ifs c x l : derives c x -> NoDup (keys_of l) -> derives c (set_xc_ifaces l x).
Proof. intros [[] Hf] Hl. by split; [split|]. Qed.
Lemma derives_tnbrs c x l : derives c x -> NoDup (keys_of l) -> Forall tnbr_conf_ok l -> derives c (set_xc_tnbrs l x).
Proof. intros [[] Hf] Hl Ho. by split; [split|]. Qed.
Lemma derives_nbrps c x l : derives c x -> NoDup (keys_of l) -> derives c (set_xc_nbrps l x).
Proof. intros [[] Hf] Hl. by split; [split|]. Qed.
Lemma derives_vpns c x l : derives c x -> NoDup (keys_of l) -> Forall vpn_ok l ->
  (forall v xl, v ∈ xc_l2vpn_list c -> xl ∈ l -> lv_name v = lv_name xl -> pw_from v xl) -> derives c (set_xc_l2vpns l x).
Proof. intros [[] Hf] Hl Ho Hp. by split; [split|]. Qed.

Lemma view_set_af af a x : af_ok af -> view (set_xc_af af a x) = set_cv_af af (view_af af a) (view x).
Proof. by intros [-> | ->]. Qed.
Lemma view_af_of af x : af_ok af -> view_af af (xc_af x af) = cv_af (view x) af.
Proof. by intros [-> | ->]. Qed.
Lemma view_mod_af af f g x : af_ok af -> (forall a, view_af af (XAf (xa_keepalive a) (f (xa_conf a))) = g (view_af af a)) ->
  view (mod_af_conf af f x) = set_cv_af af (g (cv_af (view x) af)) (view x).
Proof. intros Haf Hg. unfold mod_af_conf. by rewrite view_set_af, Hg, view_af_of. Qed.
Lemma af_addr_ok c x af : derives c x -> addr_ok (af_trans_addr (xa_conf (xc_af x af))).
Proof. intros [[] _]. unfold xc_af. by case_match. Qed.
End Edits.

(** ** The simulation *)
Definition refines (m : ST parent cmd_ret) (a : ST vstate cmd_ret) (p : parent) : Prop :=
  match a (abs p) with
  | Ok (r, s') => exists p', m p = Ok (r, p') /\ abs p' = s' /\ conf_run_ok (pa_conf p') /\
      pa_started p' = pa_started p /\ pa_iflist p' = pa_iflist p /\ told p p'
  | Fatal e => m p = Fatal e
  | Undef e => m p = Undef e
  | NoFuel => m p = NoFuel
  end.

Section Refines.
Implicit Types (p : parent) (x : ldpd_conf).

Lemma told_refl p : told p p.
Proof. exists []. rewrite app_nil_r. split; [done|]. by left. Qed.
Lemma refines_ret r p : conf_run_ok (pa_conf p) -> refines (ret r) (ret r) p.
Proof. intros Hc. exists p. split_and!; try done. apply told_refl. Qed.
Lemma refines_reload x w p : conf_run_ok (pa_conf p) -> derives (pa_conf p) x -> view x = w -> refines (reload x) (commit w) p.
Proof.
  intros Hc Hd <-. destruct (ldp_reload_ok x p Hc Hd) as (p' & E & Hv & Hr & (S1 & S2 & S3 & S4 & S5 & S6) & Ht).
  unfold refines, commit, modify. cbn [bind rbind ret]. exists p'. split_and!; try done.
  - unfold reload, bind. by rewrite E.
  - unfold abs, set_vs_view. cbn. by rewrite Hv, S3, S4, S5, S6.
Qed.
(** Steps that change only where the vty is. *)
Lemma refines_modify f g m a p : abs (f p) = g (abs p) -> pa_conf (f p) = pa_conf p -> pa_started (f p) = pa_started p ->
  pa_ldpe (f p) = pa_ldpe p -> pa_iflist (f p) = pa_iflist p ->
  refines m a (f p) -> refines (modify f ;;; m) (modify g ;;; a) p.
Proof.
  intros H1 H2 H3 H4 H5. unfold refines, modify, bind. cbn [rbind]. rewrite <- H1. unfold told. by rewrite H2, H3, H4, H5.
Qed.
Lemma refines_vty k a p : refines (k (ldp_dup_config (pa_conf p))) a p -> refines (bind vty_conf k) a p.
Proof. done. Qed.
Lemma refines_node k a p : refines (k (pa_node p)) a p -> refines (bind vty_node_of k) a p.
Proof. done. Qed.
Lemma refines_getl k a p : refines (k p) a p -> refines (bind get k) a p.
Proof. done. Qed.
Lemma refines_getr m k p : refines m (k (abs p)) p -> refines m (bind get k) p.
Proof. done. Qed.
Lemma refines_liftl {A} (r : res A) k a p v : r = Ok v -> refines (k v) a p -> refines (bind (lift r) k) a p.
Proof. by intros ->. Qed.
Lemma refines_lift (r : res Z) k k' p : (forall v, r = Ok v -> refines (k v) (k' v) p) ->
  refines (bind (lift r) k) (bind (lift r) k') p.
Proof. intros H. destruct r; [by apply H|done..]. Qed.
(** A pointer that is followed. *)
Lemma refines_found {A B} (f : A -> B) (o : option A) o' k k' p : o' = f <$> o ->
  (forall a, o = Some a -> refines (k a) (k' (f a)) p) -> refines (bind (found o) k) (bind (vfound o') k') p.
Proof. intros -> H. destruct o as [a|]; [by apply H|done]. Qed.
End Refines.

(** ** Arguments

    Names fit the arrays they are copied to; addresses are what [inet_pton]
    stores for the family. *)
Definition bytes_of (af : Z) (b : list Z) : Prop := length b = addr_size af /\ bytes_ok b.
Definition cmd_ok (n : vty_node) (c : vty_cmd) : Prop :=
  match c with
  | CmdInterface _ s | CmdMemberIf _ s | CmdMemberPw _ s => (String.length s < IF_NAMESIZE)%nat
  | CmdL2vpn _ s => (String.length s < L2VPN_NAME_LEN)%nat
  | CmdTransAddr _ (Some b) | CmdTargeted _ (Some b) => bytes_of (node_af n) b
  | CmdNbrAddr _ (Some (af, b)) => af_ok af /\ bytes_of af b
  | CmdNbrLsrId _ (Some b) => bytes_of AF_INET b
  | _ => True
  end.

Section Args.
Lemma strlcpy_id (n : nat) (s : string) : (String.length s < n)%nat -> strlcpy n s = s.
Proof.
  intros Hs. unfold strlcpy. assert (String.length s <= n - 1)%nat as Hm by lia. revert Hm. generalize (n - 1)%nat.
  clear n Hs. induction s as [|c s IH]; intros [|m] Hm; cbn in *; try lia; [done..|]. rewrite IH by lia. done.
Qed.
Lemma pton_key af b old : bytes_of af b -> addr_key af (pton_store b old) = b.
Proof. intros [Hl _]. unfold addr_key, pton_store. by rewrite <- Hl, take_app_length. Qed.
Lemma pton_ok af b old : af_ok af -> bytes_of af b -> addr_ok old -> addr_ok (pton_store b old).
Proof.
  intros Haf [Hl Hb] [Lo Bo]. unfold pton_store. split.
  - rewrite length_app, length_drop, Lo, Hl. by destruct Haf as [-> | ->].
  - apply Forall_app. split; [done|by apply Forall_drop].
Qed.
Lemma bad_pton af b old : af_ok af -> bytes_of af b -> bad_addr af (pton_store b old) = bad_addr af b.
Proof.
  intros Haf Hb. pose proof (pton_key af b old Hb) as Hk. destruct Hb as [Hl _]. unfold bad_addr, v4, v6, addr_key in *.
  destruct Haf as [-> | ->]; cbn in *; rewrite Hk, <- Hl; by rewrite firstn_all.
Qed.
Lemma v6_pton b old : bytes_of AF_INET6 b -> v6 (pton_store b old) = b.
Proof. intros Hb. exact (pton_key AF_INET6 b old Hb). Qed.
Lemma node_af_ok n : af_ok (node_af n).
Proof. destruct n; by (left + right). Qed.
End Args.

(** ** Commands of LDP *)
Section Ldp.
Implicit Types (p : parent).

Lemma view_abs p : conf_run_ok (pa_conf p) -> vs_view (abs p) = view (ldp_dup_config (pa_conf p)).
Proof. intros Hc. symmetry. by apply view_dup. Qed.

Lemma on_af_refines p af f g : conf_run_ok (pa_conf p) -> ldp_vty_get_af (pa_node p) = Ok af -> af_ok af ->
  (forall a, view_af af (XAf (xa_keepalive a) (f (xa_conf a))) = g (view_af af a)) ->
  (forall a, addr_ok (af_trans_addr a) -> addr_ok (af_trans_addr (f a))) ->
  refines (reload (mod_af_conf af f (ldp_dup_config (pa_conf p)))) (on_af g) p.
Proof.
  intros Hc Hn Haf Hg Ha. apply refines_getr. change (vs_node (abs p)) with (pa_node p).
  assert (node_af (pa_node p) = af) as -> by (destruct (pa_node p); cbn in Hn |- *; congruence).
  pose proof (dup_derives _ Hc) as Hd. apply refines_reload; [done|..].
  - apply derives_af; [done|]. cbn. apply Ha. by eapply af_addr_ok.
  - rewrite view_abs by done. by apply view_mod_af.
Qed.

(** Interfaces. *)
Lemma view_put_if af i f g x n : af_ok af -> if_lookup_name (xc_iface_list x) n = Some i ->
  (forall ia, view_ia (f ia) = g (view_ia ia)) ->
  view (mod_vty_ia af i f x) = set_cv_ifs (<[n := vmod_if af g (view_if i)]> (cv_ifs (view x))) (view x).
Proof.
  intros Haf Hi Hg. rewrite if_lookup_kfind in Hi. unfold mod_vty_ia. rewrite if_put_kput.
  set (j := set_if_af i af (f (ia_of i af))). assert (key j = n) as Hj.
  { apply kfind_Some in Hi as [_ <-]. unfold j. by destruct Haf as [-> | ->]. }
  change (view (set_xc_ifaces ?l x)) with (set_cv_ifs (view_if <$> kmap l) (view x)). f_equal.
  rewrite kmap_put by (rewrite Hj; apply kfind_is_Some; eauto). rewrite Hj, fmap_insert. f_equal.
  unfold j, view_if, vmod_if. destruct Haf as [-> | ->]; cbn; by rewrite Hg.
Qed.
Lemma derives_put_if c x af i f : derives c x -> derives c (mod_vty_ia af i f x).
Proof. intros Hd. apply derives_ifs; [done|]. rewrite if_put_kput, keys_put. apply Hd. Qed.
Lemma lookup_if x n : cv_ifs (view x) !! n = view_if <$> if_lookup_name (xc_iface_list x) n.
Proof. cbn. by rewrite lookup_fmap, lookup_kmap, if_lookup_kfind. Qed.

(** The three levels of hello parameters. *)
Ltac hello_level Hc := idtac;
  lazymatch goal with
  | En : pa_node _ = LDP_NODE |- _ =>
      apply refines_getr; apply refines_reload; [done|by case_match; apply derives_global, dup_derives|];
      rewrite view_abs by done; by case_match
  | En : pa_node _ = LDP_IPV4_NODE |- _ =>
      eapply refines_liftl; [done|]; apply on_af_refines; [done|by rewrite En|by left|by case_match..]
  | En : pa_node _ = LDP_IPV6_NODE |- _ =>
      eapply refines_liftl; [done|]; apply on_af_refines; [done|by rewrite En|by right|by case_match..]
  | _ =>
      eapply refines_liftl; [done|]; rewrite view_abs by done; eapply refines_found; [apply lookup_if|]; intros i Hi;
      apply refines_reload; [done|by apply derives_put_if, dup_derives|]; apply view_put_if; [by (left + right)|done..]
  end.
Lemma holdtime_refines p no s h : conf_run_ok (pa_conf p) -> installed (CmdHoldtime no h s) (pa_node p) = true ->
  refines (ldp_vty_disc_holdtime no s h) (spec_cmd (CmdHoldtime no h s)) p.
Proof.
  intros Hc Hn. unfold ldp_vty_disc_holdtime, spec_cmd, spec_hello. destruct (in_range _ _ s) as [secs|]; [|by apply refines_ret].
  apply refines_vty, refines_getl, refines_getr. change (vs_node (abs p)) with (pa_node p).
  unfold set_xc_holdtime, cv_set_hello, set_af_holdtime, av_set_hello.
  destruct (pa_node p) eqn:En; try (by destruct h); hello_level Hc.
Qed.
Lemma interval_refines p no s h : conf_run_ok (pa_conf p) -> installed (CmdInterval no h s) (pa_node p) = true ->
  refines (ldp_vty_disc_interval no s h) (spec_cmd (CmdInterval no h s)) p.
Proof.
  intros Hc Hn. unfold ldp_vty_disc_interval, spec_cmd, spec_hello. destruct (in_range _ _ s) as [secs|]; [|by apply refines_ret].
  apply refines_vty, refines_getl, refines_getr. change (vs_node (abs p)) with (pa_node p).
  unfold set_xc_interval, cv_set_hello, set_af_interval, av_set_hello.
  destruct (pa_node p) eqn:En; try (by destruct h); hello_level Hc.
Qed.

Lemma mpls_ldp_refines p no : conf_run_ok (pa_conf p) -> refines (ldp_vty_mpls_ldp no) (spec_cmd (CmdMplsLdp no)) p.
Proof.
  intros Hc. unfold ldp_vty_mpls_ldp, spec_cmd. apply refines_vty. destruct no.
  - apply refines_getr, refines_reload; [done|by apply derives_global, dup_derives|by rewrite view_abs].
  - apply refines_modify; [done..|]. apply refines_getr, refines_reload; [done|by apply derives_global, dup_derives|].
    by rewrite view_abs.
Qed.
Lemma address_family_refines p no name : conf_run_ok (pa_conf p) ->
  refines (ldp_vty_address_family no name) (spec_cmd (CmdAddressFamily no name)) p.
Proof.
  intros Hc. unfold ldp_vty_address_family, spec_cmd. apply refines_vty. destruct (af_of_name name) as [af|] eqn:Ea.
  2: { by apply refines_ret. }
  assert (af_ok af) as Haf by (unfold af_of_name in Ea; repeat case_match; simplify_eq; by (left + right)).
  pose proof (dup_derives _ Hc) as Hd. destruct no.
  - apply refines_getr, refines_reload; [done|apply derives_af; [done|by eapply af_addr_ok]|]. rewrite view_abs by done.
    by apply (view_mod_af af _ (fun a => av_set_flags (clear_flag F_LDPD_AF_ENABLED (av_flags a)) a)).
  - apply refines_modify; [done..|]. apply refines_getr, refines_reload; [done|apply derives_af; [done|by eapply af_addr_ok]|].
    rewrite view_abs by done. by apply (view_mod_af af _ (fun a => av_set_flags (set_flag F_LDPD_AF_ENABLED (av_flags a)) a)).
Qed.

(** Nodes of a family. *)
Definition af_node (n : vty_node) : bool :=
  match n with LDP_IPV4_NODE | LDP_IPV6_NODE => true | _ => false end.
Lemma af_node_get n : af_node n = true -> ldp_vty_get_af n = Ok (node_af n).
Proof. by destruct n. Qed.
Lemma af_flag_refines p clear flag : conf_run_ok (pa_conf p) -> af_node (pa_node p) = true ->
  refines (vty_af_flag clear flag) (spec_af_flag clear flag) p.
Proof.
  intros Hc Hn. apply af_node_get in Hn. apply refines_vty, refines_node. eapply refines_liftl; [done|].
  apply on_af_refines; try done; [apply node_af_ok|by destruct clear].
Qed.
Lemma af_session_refines p no s : conf_run_ok (pa_conf p) -> af_node (pa_node p) = true ->
  refines (ldp_vty_session_holdtime no None s) (spec_cmd (CmdSessionHoldtime no s)) p.
Proof.
  intros Hc Hn. assert (refines (ldp_vty_af_session_holdtime no s) (spec_cmd (CmdSessionHoldtime no s)) p) as H.
  2: { apply refines_node. by destruct (pa_node p). }
  unfold ldp_vty_af_session_holdtime, spec_cmd. destruct (in_range _ _ s) as [secs|]; [|by apply refines_ret].
  apply af_node_get in Hn. apply refines_vty, refines_node. eapply refines_liftl; [done|]. apply refines_getr.
  change (vs_node (abs p)) with (pa_node p). pose proof (dup_derives _ Hc) as Hd. apply refines_reload; [done|..].
  - apply derives_af; [done|]. by eapply af_addr_ok.
  - rewrite view_abs by done. rewrite view_set_af by apply node_af_ok. rewrite <- view_af_of by apply node_af_ok. done.
Qed.
Lemma trans_addr_refines p no a : conf_run_ok (pa_conf p) -> af_node (pa_node p) = true ->
  cmd_ok (pa_node p) (CmdTransAddr no a) -> refines (ldp_vty_trans_addr no a) (spec_cmd (CmdTransAddr no a)) p.
Proof.
  intros Hc Hn Ho. apply af_node_get in Hn. apply refines_vty, refines_node. eapply refines_liftl; [done|]. apply refines_getr.
  change (vs_node (abs p)) with (pa_node p). pose proof (node_af_ok (pa_node p)) as Haf. destruct no.
  - apply on_af_refines; try done. intros ? ?. apply zero_addr_ok.
  - destruct a as [b|]; [|by apply refines_ret]. cbn in Ho. cbv zeta. rewrite (bad_pton _ b) by done. apply refines_lift. intros bad _.
    destruct (negb (bad =? 0)); [by apply refines_ret|]. apply on_af_refines; try done.
    + intros a. unfold view_af. cbn. by rewrite pton_key.
    + intros ? ?. apply (pton_ok (node_af (pa_node p))); [done..|]. eapply af_addr_ok, dup_derives, Hc.
Qed.

(** Names in use. *)
Lemma in_use_of x n : Forall vpn_ok (xc_l2vpn_list x) -> NoDup (keys_of (xc_l2vpn_list x)) ->
  ldp_iface_is_configured x n = in_use (view x) n.
Proof.
  intros Hvo Hnd. unfold ldp_iface_is_configured, in_use. rewrite lookup_if. f_equal.
  { apply bool_decide_ext. by rewrite fmap_is_Some. }
  apply eq_true_iff_eq. rewrite existsb_exists, bool_decide_eq_true. unfold map_Exists. cbn. split.
  - intros (v & Hv & Hn). apply list_elem_of_In in Hv. exists (key v), (view_vpn v). split.
    + rewrite lookup_fmap, lookup_kmap. by rewrite (kfind_elem (xc_l2vpn_list x) v).
    + rewrite lif_find_kfind, pw_find_kfind in Hn. cbn. rewrite elem_of_list_to_set, <- kfind_is_Some.
      rewrite lookup_fmap, lookup_kmap, fmap_is_Some. by apply orb_true_iff in Hn as [?%bool_decide_eq_true|?%bool_decide_eq_true]; [left|right].
  - intros (m & vv & Hm & Hn). rewrite lookup_fmap, lookup_kmap in Hm. apply fmap_Some in Hm as (v & Hv & ->).
    apply kfind_Some in Hv as [Hv _]. exists v. split; [by apply list_elem_of_In|].
    rewrite lif_find_kfind, pw_find_kfind. cbn in Hn. rewrite elem_of_list_to_set, <- kfind_is_Some in Hn.
    rewrite lookup_fmap, lookup_kmap, fmap_is_Some in Hn. apply orb_true_iff. by destruct Hn; [left|right]; apply bool_decide_eq_true.
Qed.
Lemma in_use_dup p n : conf_run_ok (pa_conf p) -> ldp_iface_is_configured (ldp_dup_config (pa_conf p)) n = in_use (vs_view (abs p)) n.
Proof. intros Hc. rewrite view_abs by done. destruct (dup_derives _ Hc) as [[] _]. by apply in_use_of. Qed.

Lemma if_new_view k : view_if (vty_if_new k) = new_if /\ if_name (vty_if_new k) = kif_ifname k.
Proof. unfold vty_if_new, if_update_info. by repeat case_match. Qed.
Lemma kif_of_name_name l n : (String.length n < IF_NAMESIZE)%nat -> kif_ifname (kif_of_name l n) = n.
Proof. intros Hn. unfold kif_of_name. case_match; by apply strlcpy_id. Qed.

Lemma interface_refines p no n : conf_run_ok (pa_conf p) -> af_node (pa_node p) = true -> (String.length n < IF_NAMESIZE)%nat ->
  refines (ldp_vty_interface no n) (spec_cmd (CmdInterface no n)) p.
Proof.
  intros Hc Hn Hl. apply af_node_get in Hn. apply refines_vty, refines_getl. eapply refines_liftl; [done|]. apply refines_getr.
  cbv zeta. change (vs_node (abs p)) with (pa_node p). pose proof (node_af_ok (pa_node p)) as Haf.
  set (af := node_af (pa_node p)) in *. rewrite strlcpy_id by done. rewrite (in_use_dup p n Hc). rewrite view_abs by done.
  pose proof (dup_derives _ Hc) as Hd. set (x := ldp_dup_config (pa_conf p)) in *. rewrite lookup_if.
  destruct (if_lookup_name (xc_iface_list x) n) as [i|] eqn:Ei; cbn [fmap option_fmap option_map].
  - assert (iv_enabled (iv_of (view_if i) af) = ia_enabled (ia_of i af)) as Ee by (by destruct Haf as [-> | ->]).
    rewrite Ee. destruct no; [|do 2 (apply refines_modify; [done..|])]; destruct (ia_enabled (ia_of i af)) eqn:En;
      cbn [negb]; try (by apply refines_ret);
      (apply refines_reload; [done|by apply derives_put_if|by apply view_put_if]).
  - destruct no; [by apply refines_ret|]. do 2 (apply refines_modify; [done..|]).
    destruct (in_use (view x) n); [by apply refines_ret|].
    set (i := vty_if_new _). destruct (if_new_view (kif_of_name (pa_iflist p) n)) as [Evi Eni]. fold i in Evi, Eni.
    rewrite kif_of_name_name in Eni by done. rewrite if_lookup_kfind in Ei. apply kfind_None in Ei.
    set (j := set_if_af i af _). assert (key j = n) as Hj by (rewrite <- Eni; unfold j; by destruct Haf as [-> | ->]).
    apply refines_reload; [done|..].
    + apply derives_ifs; [done|]. cbn. apply NoDup_cons. split; [by rewrite Hj|apply Hd].
    + change (view (set_xc_ifaces ?l x)) with (set_cv_ifs (view_if <$> kmap l) (view x)). f_equal.
      rewrite kmap_cons, Hj, fmap_insert. f_equal. rewrite <- Evi. unfold j. by destruct Haf as [-> | ->].
Qed.

(** Targeted neighbours. *)
Lemma xtnbr_remove_ktake l af a : Forall tnbr_conf_ok l -> addr_ok a -> af_ok af ->
  xtnbr_remove af a l = ktake (af, addr_key af a) l.
Proof.
  intros Hl Ha Haf. induction Hl as [|t l (H1 & H2 & _) _ IH]; [done|]. cbn [xtnbr_remove ktake]. rewrite IH.
  unfold key, tnbr_keyed. destruct (Z.eqb_spec af (t_af t)) as [E|E]; cbn [andb].
  - subst af. rewrite same_addr_key by done. do 2 case_bool_decide; congruence.
  - rewrite bool_decide_false; [done|congruence].
Qed.
Lemma keys_take_set {A K} `{!Keyed A K} `{Countable K} (k : K) (l : list A) : NoDup (keys_of l) ->
  list_to_set (keys_of (ktake k l)) =@{gset K} list_to_set (keys_of l) ∖ {[k]}.
Proof.
  intros Hnd. apply set_eq. intros j. rewrite elem_of_difference, elem_of_singleton, !elem_of_list_to_set, <- !kfind_is_Some.
  rewrite kfind_take by done. case_bool_decide; [|naive_solver]. split; [by intros [? ?]|by intros []].
Qed.
Lemma targeted_refines p no a stack : conf_run_ok (pa_conf p) -> af_node (pa_node p) = true -> addr_ok stack ->
  cmd_ok (pa_node p) (CmdTargeted no a) -> refines (ldp_vty_neighbor_targeted no a stack) (spec_cmd (CmdTargeted no a)) p.
Proof.
  intros Hc Hn Hs Ho. apply af_node_get in Hn. apply refines_node. eapply refines_liftl; [done|]. apply refines_getr. cbv zeta.
  change (vs_node (abs p)) with (pa_node p). pose proof (node_af_ok (pa_node p)) as Haf.
  destruct a as [b|]; [|by apply refines_ret]. cbn in Ho. set (af := node_af (pa_node p)) in *. cbv zeta.
  rewrite (bad_pton _ b) by done. apply refines_lift. intros bad _.
  assert ((af =? AF_INET6) && IN6_IS_SCOPE_EMBED (v6 (pton_store b stack)) = (af =? AF_INET6) && IN6_IS_SCOPE_EMBED b) as ->.
  { destruct Haf as [E|E]; rewrite E in Ho |- *; [done|]. by rewrite v6_pton. }
  case_match; [by apply refines_ret|]. apply refines_vty. rewrite view_abs by done. pose proof (dup_derives _ Hc) as Hd.
  set (x := ldp_dup_config (pa_conf p)) in *. pose proof Hd as [[H4 H6 Hi Ht Htk _ _ _] _].
  pose proof (pton_ok af b stack Haf Ho Hs) as Hao. pose proof (pton_key af b stack Ho) as Hk.
  set (addr := pton_store b stack) in *. rewrite xtnbr_find_kfind, Hk by done.
  assert (bool_decide ((af, b) ∈ cv_tnbrs (view x)) = bool_decide (is_Some (kfind (xc_tnbr_list x) (af, b)))) as ->.
  { apply bool_decide_ext. rewrite kfind_is_Some. cbn [cv_tnbrs view]. by rewrite elem_of_list_to_set. }
  destruct (kfind (xc_tnbr_list x) (af, b)) as [t|] eqn:Et.
  - rewrite bool_decide_true by eauto. destruct no; [|by apply refines_ret].
    rewrite xtnbr_remove_ktake, Hk by done. apply refines_reload; [done|..].
    + apply derives_tnbrs; [done|by apply nodup_take|by apply ktake_Forall].
    + change (view (set_xc_tnbrs ?l x)) with (set_cv_tnbrs (list_to_set (keys_of l)) (view x)). f_equal. by apply keys_take_set.
  - rewrite bool_decide_false by (by intros [? ?]). destruct no; [by apply refines_ret|]. apply kfind_None in Et.
    assert (key (Tnbr 0 af addr TNBR_STA_DOWN 0 F_TNBR_CONFIGURED None None) = (af, b)) as Ek.
    { unfold key, tnbr_keyed. cbn. by rewrite Hk. }
    apply refines_reload; [done|..].
    + apply derives_tnbrs; [done| |by constructor]. cbn. rewrite Ek. by apply NoDup_cons.
    + change (view (set_xc_tnbrs ?l x)) with (set_cv_tnbrs (list_to_set (keys_of l)) (view x)). f_equal. cbn. by rewrite Ek.
Qed.

(** Parameters of a neighbour. *)
Lemma lookup_nbrp x id : cv_nbrps (view x) !! id = nbr_params_in (xc_nbrp_list x) id.
Proof. cbn. by rewrite lookup_kmap, nbrp_in_kfind. Qed.
Lemma put_nbrp_refines p id m l : conf_run_ok (pa_conf p) -> nbrp_lsr_id m = id ->
  l = (match nbr_params_in (xc_nbrp_list (ldp_dup_config (pa_conf p))) id with
       | Some _ => nbrp_replace m (xc_nbrp_list (ldp_dup_config (pa_conf p)))
       | None => m :: xc_nbrp_list (ldp_dup_config (pa_conf p))
       end) ->
  refines (reload (set_xc_nbrps l (ldp_dup_config (pa_conf p)))) (store_nbrp id m) p.
Proof.
  intros Hc <- ->. apply refines_getr. rewrite view_abs by done. pose proof (dup_derives _ Hc) as Hd.
  set (x := ldp_dup_config (pa_conf p)) in *. pose proof Hd as [[_ _ _ _ _ Hn _ _] _]. rewrite nbrp_in_kfind, nbrp_put_kput.
  change (nbrp_lsr_id m) with (key m).
  assert (forall l, NoDup (keys_of l) -> kmap l = <[key m := m]> (kmap (xc_nbrp_list x)) ->
    refines (reload (set_xc_nbrps l x)) (commit (set_cv_nbrps (<[key m := m]> (cv_nbrps (view x))) (view x))) p) as H.
  { intros l Hl Hm. apply refines_reload; [done|by apply derives_nbrps|].
    change (view (set_xc_nbrps ?l x)) with (set_cv_nbrps (kmap l) (view x)). by rewrite Hm. }
  destruct (kfind (xc_nbrp_list x) (key m)) as [n|] eqn:E.
  - apply H; [by rewrite keys_put|]. apply kmap_put, kfind_is_Some. eauto.
  - apply H; [|done]. cbn. apply NoDup_cons. split; [by apply kfind_None|done].
Qed.
Lemma nbrp_id_found l id n : nbr_params_in l id = Some n -> nbrp_lsr_id n = id.
Proof. rewrite nbrp_in_kfind. by intros [_ ?]%kfind_Some. Qed.

Lemma nbr_session_refines p no id s : conf_run_ok (pa_conf p) -> pa_node p = LDP_NODE ->
  refines (ldp_vty_session_holdtime no id s) (spec_cmd (CmdNbrHoldtime no id s)) p.
Proof.
  intros Hc Hn. apply refines_node. rewrite Hn. cbn [spec_cmd]. unfold spec_nbrp, ldp_vty_nbr_session_holdtime.
  destruct (lsr_id_arg id) as [i|]; [|by apply refines_ret]. apply refines_vty, refines_getr. unfold upd_keepalive, the_nbrp.
  rewrite view_abs, lookup_nbrp by done. destruct (in_range _ _ s) as [secs|] eqn:Es.
  2: { destruct (no && _); by apply refines_ret. }
  destruct (nbr_params_in _ i) as [n|] eqn:En; cbn [default from_option Datatypes.id].
  - pose proof (nbrp_id_found _ _ _ En). rewrite (bool_decide_false (Some n = None)), andb_false_r by done.
    destruct no; [|case_match; [by apply refines_ret|]]; (apply put_nbrp_refines; [done|done|by rewrite En]).
  - rewrite (bool_decide_true (None = None)), andb_true_r by done. destruct no; [by apply refines_ret|].
    assert (nbrp_keepalive (nbr_params_new i) =? secs = false) as ->.
    { apply Z.eqb_neq. cbn. unfold in_range, MIN_KEEPALIVE in Es. repeat case_match; simplify_eq. zbool. lia. }
    apply put_nbrp_refines; [done|done|by rewrite En].
Qed.
Lemma password_refines p no id w : conf_run_ok (pa_conf p) ->
  refines (ldp_vty_neighbor_password no id w) (spec_cmd (CmdPassword no id w)) p.
Proof.
  intros Hc. cbn [spec_cmd]. unfold spec_nbrp, ldp_vty_neighbor_password.
  destruct (lsr_id_arg id) as [i|]; [|by apply refines_ret]. apply refines_vty, refines_getr. unfold upd_password, the_nbrp.
  rewrite view_abs, lookup_nbrp by done. cbv zeta. destruct (nbr_params_in _ i) as [n|] eqn:En; cbn [default from_option Datatypes.id].
  - pose proof (nbrp_id_found _ _ _ En). rewrite (bool_decide_false (Some n = None)), andb_false_r by done.
    destruct no; [|case_match; [by apply refines_ret|]]; (apply put_nbrp_refines; [done|done|by rewrite En]).
  - rewrite (bool_decide_true (None = None)), andb_true_r by done. destruct no; [by apply refines_ret|]. cbn [andb].
    apply put_nbrp_refines; [done|done|by rewrite En].
Qed.
Lemma nbr_ttl_refines p no id h : conf_run_ok (pa_conf p) ->
  refines (ldp_vty_neighbor_ttl_security no id h) (spec_cmd (CmdNbrTtl no id h)) p.
Proof.
  intros Hc. cbn [spec_cmd]. unfold spec_nbrp, ldp_vty_neighbor_ttl_security. fold (hops_bad h).
  destruct (lsr_id_arg id) as [i|]; [|by apply refines_ret]. apply refines_getr. destruct (hops_bad h).
  { destruct (no && _); by apply refines_ret. }
  apply refines_vty. unfold upd_ttl, the_nbrp, put_nbrp. rewrite view_abs, lookup_nbrp by done. cbv zeta.
  destruct (nbr_params_in _ i) as [n|] eqn:En; cbn [default from_option Datatypes.id].
  - pose proof (nbrp_id_found _ _ _ En). rewrite (bool_decide_false (Some n = None)), andb_false_r by done.
    destruct no; [|destruct h as [[h|]|]]; (apply put_nbrp_refines; [done|done|by rewrite En]).
  - rewrite (bool_decide_true (None = None)), andb_true_r by done. destruct no; [by apply refines_ret|].
    destruct h as [[h|]|]; (apply put_nbrp_refines; [done|done|by rewrite En]).
Qed.

Lemma router_id_refines p no a : conf_run_ok (pa_conf p) -> refines (ldp_vty_router_id no a) (spec_cmd (CmdRouterId no a)) p.
Proof.
  intros Hc. apply refines_vty. cbn [spec_cmd]. destruct no; [|destruct (lsr_id_arg a); [|by apply refines_ret]];
    (apply refines_getr, refines_reload; [done|by apply derives_global, dup_derives|by rewrite view_abs]).
Qed.
Lemma cisco_refines p no : conf_run_ok (pa_conf p) -> refines (ldp_vty_ds_cisco_interop no) (spec_cmd (CmdCiscoInterop no)) p.
Proof.
  intros Hc. apply refines_vty, refines_getr, refines_reload; [done|by apply derives_global, dup_derives|by rewrite view_abs].
Qed.
Lemma trans_pref_refines p no : conf_run_ok (pa_conf p) -> refines (ldp_vty_trans_pref_ipv4 no) (spec_cmd (CmdPreferIpv4 no)) p.
Proof.
  intros Hc. apply refines_vty, refines_getr, refines_reload; [done|by apply derives_global, dup_derives|by rewrite view_abs].
Qed.
End Ldp.

(** ** Commands of L2VPNs *)
Section L2vpn.
Implicit Types (p : parent) (v : l2vpn) (x : ldpd_conf).

Lemma lookup_vpn x n : cv_vpns (view x) !! n = view_vpn <$> l2vpn_find (xc_l2vpn_list x) n.
Proof. cbn. by rewrite lookup_fmap, lookup_kmap, l2vpn_find_kfind. Qed.
Lemma refines_the_l2vpn k k' p : conf_run_ok (pa_conf p) ->
  (forall v, l2vpn_find (xc_l2vpn_list (ldp_dup_config (pa_conf p))) (pa_l2vpn_name p) = Some v ->
    refines (k v) (k' (view_vpn v)) p) ->
  refines (bind (the_l2vpn (ldp_dup_config (pa_conf p))) k) (bind cur_vpn k') p.
Proof.
  intros Hc H. change (refines (bind (found (l2vpn_find (xc_l2vpn_list (ldp_dup_config (pa_conf p))) (pa_l2vpn_name p))) k)
    (bind (vfound (cv_vpns (vs_view (abs p)) !! pa_l2vpn_name p)) k') p).
  eapply refines_found; [|exact H]. rewrite view_abs by done. apply lookup_vpn.
Qed.

(** An L2VPN put back with other contents. *)
Lemma dup_find c u v n : conf_run_ok c -> kfind (xc_l2vpn_list (ldp_dup_config c)) n = Some v -> u ∈ xc_l2vpn_list c ->
  lv_name u = n -> v = dup_l2vpn u.
Proof.
  intros Hc Hf Hu <-. pose proof (dup_derives _ Hc) as [[_ _ _ _ _ _ Hnd _] _].
  pose proof (kfind_elem _ (dup_l2vpn u) Hnd) as E. change (key (dup_l2vpn u)) with (lv_name u) in E. rewrite Hf in E.
  assert (Some v = Some (dup_l2vpn u)); [|congruence]. apply E. cbn. rewrite <- Permutation_rev. by apply list_elem_of_fmap_2.
Qed.
Lemma vpn_put_refines p v v' : conf_run_ok (pa_conf p) ->
  l2vpn_find (xc_l2vpn_list (ldp_dup_config (pa_conf p))) (pa_l2vpn_name p) = Some v ->
  lv_name v' = lv_name v -> vpn_ok v' ->
  (forall n, n ∈ keys_of (lv_pw_list v') -> n ∈ keys_of (lv_pw_list v)) ->
  (forall n, n ∈ keys_of (lv_pw_inactive_list v') -> n ∉ keys_of (lv_pw_list v)) ->
  refines (reload_l2vpn (ldp_dup_config (pa_conf p)) v') (store_vpn (view_vpn v')) p.
Proof.
  intros Hc Hf Hn Ho Ha Hi. apply refines_getr. change (vs_l2vpn (abs p)) with (pa_l2vpn_name p). rewrite view_abs by done.
  pose proof (dup_derives _ Hc) as Hd. rewrite l2vpn_find_kfind in Hf. pose proof (fun u => dup_find _ u _ _ Hc Hf) as Hdup.
  set (x := ldp_dup_config (pa_conf p)) in *. unfold reload_l2vpn. rewrite l2vpn_put_kput. pose proof Hf as [Hv Hk]%kfind_Some.
  assert (key v' = pa_l2vpn_name p) as Hk' by (rewrite <- Hk; exact Hn).
  pose proof Hd as [[_ _ _ _ _ _ Hnd Hvo] Hfrom]. apply refines_reload; [done|..].
  - apply derives_vpns; [done|by rewrite keys_put|by apply kput_Forall|]. intros u xl Hu Hxl E.
    apply kput_elem in Hxl as [-> |Hxl]; [|by apply Hfrom]. rewrite (Hdup u Hu) in Ha, Hi by (by rewrite E, <- Hk').
    cbn in Ha, Hi. rewrite keys_rev in Ha, Hi. setoid_rewrite <- Permutation_rev in Ha. setoid_rewrite <- Permutation_rev in Hi.
    split; intros y Hy; [apply Ha|apply Hi]; by apply list_elem_of_fmap_2.
  - change (view (set_xc_l2vpns ?l x)) with (set_cv_vpns (view_vpn <$> kmap l) (view x)). f_equal.
    rewrite kmap_put by (rewrite Hk'; apply kfind_is_Some; eauto). by rewrite Hk', fmap_insert.
Qed.
Lemma dup_vpn_ok p v n : conf_run_ok (pa_conf p) ->
  l2vpn_find (xc_l2vpn_list (ldp_dup_config (pa_conf p))) n = Some v -> vpn_ok v /\
  (forall n, n ∈ keys_of (lv_pw_inactive_list v) -> n ∉ keys_of (lv_pw_list v)).
Proof.
  intros Hc Hf. rewrite l2vpn_find_kfind in Hf. apply kfind_Some in Hf as [Hv _].
  pose proof (dup_derives _ Hc) as [[_ _ _ _ _ _ _ Hvo] _]. rewrite Forall_forall in Hvo. pose proof (Hvo v Hv) as Ho.
  split; [done|]. destruct Ho as [_ _ Hp _]. unfold lv_pws in Hp. rewrite keys_app in Hp. apply NoDup_app in Hp. naive_solver.
Qed.

Lemma l2vpn_refines p no n : conf_run_ok (pa_conf p) -> (String.length n < L2VPN_NAME_LEN)%nat ->
  refines (ldp_vty_l2vpn no n) (spec_cmd (CmdL2vpn no n)) p.
Proof.
  intros Hc Hl. apply refines_vty, refines_getr. cbv zeta. rewrite strlcpy_id by done. rewrite view_abs by done.
  pose proof (dup_derives _ Hc) as Hd. set (x := ldp_dup_config (pa_conf p)) in *. rewrite lookup_vpn, l2vpn_find_kfind.
  pose proof Hd as [[_ _ _ _ _ _ Hnd Hvo] Hfrom]. destruct (kfind (xc_l2vpn_list x) n) as [v|] eqn:Ev; cbn [fmap option_fmap option_map].
  - rewrite bool_decide_true by eauto. destruct no; [|by do 2 (apply refines_modify; [done..|]); apply refines_ret].
    rewrite l2vpn_take_ktake. apply refines_reload; [done|..].
    + apply derives_vpns; [done|by apply nodup_take|by apply ktake_Forall|]. intros u xl Hu Hxl. apply Hfrom; [done|].
      eapply elem_of_sublist; [exact Hxl|apply ktake_sub].
    + change (view (set_xc_l2vpns ?l x)) with (set_cv_vpns (view_vpn <$> kmap l) (view x)). f_equal.
      by rewrite kmap_take, fmap_delete.
  - rewrite bool_decide_false by (by intros [? ?]). destruct no; [by apply refines_ret|].
    do 2 (apply refines_modify; [done..|]). unfold l2vpn_new. rewrite strlcpy_id by done. apply kfind_None in Ev.
    apply refines_reload; [done|..].
    + apply derives_vpns; [done|..].
      * cbn. apply NoDup_cons. by split.
      * constructor; [|done]. split; try done; try apply NoDup_nil_2.
      * intros u xl Hu Hxl E. apply elem_of_cons in Hxl as [-> |Hxl]; [|by apply Hfrom]. split; by intros ? ?%not_elem_of_nil.
    + change (view (set_xc_l2vpns ?l x)) with (set_cv_vpns (view_vpn <$> kmap l) (view x)). f_equal.
      by rewrite kmap_cons, fmap_insert.
Qed.

(** Parameters. *)
Lemma params_refines p v pt mtu br : conf_run_ok (pa_conf p) ->
  l2vpn_find (xc_l2vpn_list (ldp_dup_config (pa_conf p))) (pa_l2vpn_name p) = Some v ->
  refines (reload_l2vpn (ldp_dup_config (pa_conf p)) (set_lv_params (lv_type v) pt mtu br v))
    (store_vpn (vv_set_params pt mtu br (view_vpn v))) p.
Proof.
  intros Hc Hf. destruct (dup_vpn_ok _ _ _ Hc Hf) as [[] Hd].
  by apply (vpn_put_refines p v (set_lv_params (lv_type v) pt mtu br v)).
Qed.
Lemma bridge_refines p no n : conf_run_ok (pa_conf p) -> refines (ldp_vty_l2vpn_bridge no n) (spec_cmd (CmdBridge no n)) p.
Proof. intros Hc. apply refines_vty, refines_the_l2vpn; [done|]. intros v Hv. by apply params_refines. Qed.
Lemma mtu_refines p no m : conf_run_ok (pa_conf p) -> refines (ldp_vty_l2vpn_mtu no m) (spec_cmd (CmdMtu no m)) p.
Proof.
  intros Hc. unfold ldp_vty_l2vpn_mtu. cbn [spec_cmd]. destruct (in_range _ _ _); [|by apply refines_ret].
  apply refines_vty, refines_the_l2vpn; [done|]. intros v Hv. by apply params_refines.
Qed.
Lemma pwtype_refines p no t : conf_run_ok (pa_conf p) -> refines (ldp_vty_l2vpn_pwtype no t) (spec_cmd (CmdVcType no t)) p.
Proof. intros Hc. apply refines_vty, refines_the_l2vpn; [done|]. intros v Hv. by apply params_refines. Qed.

(** Members. *)
Lemma member_if_refines p no n : conf_run_ok (pa_conf p) -> (String.length n < IF_NAMESIZE)%nat ->
  refines (ldp_vty_l2vpn_interface no n) (spec_cmd (CmdMemberIf no n)) p.
Proof.
  intros Hc Hl. apply refines_vty, refines_getl, refines_getr, refines_the_l2vpn; [done|]. intros v Hv.
  destruct (dup_vpn_ok _ _ _ Hc Hv) as [[Ht Hi Hp Hs] Hd]. rewrite lif_find_kfind. rewrite (in_use_dup p n Hc).
  assert (bool_decide (n ∈ vv_ifs (view_vpn v)) = bool_decide (is_Some (kfind (lv_if_list v) n))) as ->.
  { apply bool_decide_ext. rewrite kfind_is_Some. cbn [vv_ifs view_vpn]. by rewrite elem_of_list_to_set. }
  destruct (kfind (lv_if_list v) n) as [f|] eqn:E.
  - rewrite bool_decide_true by eauto. destruct no; [|by apply refines_ret]. rewrite lif_take_ktake.
    set (v' := set_lv_lists _ _ _ v). assert (vv_set_members (vv_ifs (view_vpn v) ∖ {[n]}) (vv_pws (view_vpn v)) (view_vpn v) = view_vpn v') as ->.
    { unfold view_vpn. cbn [lv_if_list v' set_lv_lists]. by rewrite keys_take_set. }
    apply (vpn_put_refines p v); try done. split; try done. by apply nodup_take.
  - rewrite bool_decide_false by (by intros [? ?]). destruct no; [by apply refines_ret|]. cbn [orb].
    destruct (in_use (vs_view (abs p)) n); [by apply refines_ret|]. apply kfind_None in E.
    set (f := l2vpn_if_new _). assert (key f = n) as Hf by (by apply kif_of_name_name).
    set (v' := set_lv_lists _ _ _ v).
    assert (vv_set_members ({[n]} ∪ vv_ifs (view_vpn v)) (vv_pws (view_vpn v)) (view_vpn v) = view_vpn v') as ->.
    { unfold view_vpn, vv_set_members. cbn [lv_if_list v' set_lv_lists vv_ifs]. change (keys_of (f :: lv_if_list v)) with (key f :: keys_of (lv_if_list v)).
      by rewrite Hf. }
    apply (vpn_put_refines p v); try done. split; try done. change (NoDup (key f :: keys_of (lv_if_list v))). rewrite Hf. by apply NoDup_cons.
Qed.

(** Pseudowires: an entry is taken out of, or changed in, the list it is in. *)
Lemma pws_take v n :
  lv_pws (if bool_decide (is_Some (pw_in n (lv_pw_list v)))
          then set_lv_lists (lv_if_list v) (pw_take n (lv_pw_list v)) (lv_pw_inactive_list v) v
          else set_lv_lists (lv_if_list v) (lv_pw_list v) (pw_take n (lv_pw_inactive_list v)) v) = ktake n (lv_pws v).
Proof. unfold lv_pws. rewrite ktake_app, pw_in_kfind. destruct (kfind (lv_pw_list v) n); cbn; by rewrite pw_take_ktake. Qed.
Lemma pws_put v w :
  lv_pws (if bool_decide (is_Some (pw_in (pwc_ifname w) (lv_pw_list v)))
          then set_lv_lists (lv_if_list v) (pw_put w (lv_pw_list v)) (lv_pw_inactive_list v) v
          else set_lv_lists (lv_if_list v) (lv_pw_list v) (pw_put w (lv_pw_inactive_list v)) v) = kput w (lv_pws v).
Proof.
  unfold lv_pws. rewrite kput_app, pw_in_kfind. change (key w) with (pwc_ifname w).
  destruct (kfind (lv_pw_list v) (pwc_ifname w)); cbn; by rewrite pw_put_kput.
Qed.
Lemma lookup_pw v n : vv_pws (view_vpn v) !! n = view_pw <$> l2vpn_pw_find_name (lv_pw_list v) (lv_pw_inactive_list v) n.
Proof. cbn. by rewrite lookup_fmap, lookup_kmap, pw_find_kfind. Qed.

Lemma enter_refines p m a n : refines m a p ->
  refines (do r <- m; (modify (set_pa_node LDP_PSEUDOWIRE_NODE) ;;; modify (set_pa_pw_ifname n)) ;;; ret r)
    (do r <- a; (modify (set_vs_node LDP_PSEUDOWIRE_NODE) ;;; modify (set_vs_pw n)) ;;; ret r) p.
Proof.
  unfold refines, modify, bind, ret. destruct (a (abs p)) as [[r s]| | |]; cbn [rbind]; [|by intros ->..].
  intros (p' & -> & <- & Hc & Hs & Hi & Ht). cbn [rbind]. eexists. split; [reflexivity|]. by split_and!.
Qed.
Lemma pw_new_view k : view_pw (set_pwc_flags (Z.lor F_PW_STATUSTLV_CONF F_PW_CWORD_CONF) (l2vpn_pw_new k)) = new_pw.
Proof. done. Qed.
Lemma member_pw_refines p no n : conf_run_ok (pa_conf p) -> (String.length n < IF_NAMESIZE)%nat ->
  refines (ldp_vty_l2vpn_pseudowire no n) (spec_cmd (CmdMemberPw no n)) p.
Proof.
  intros Hc Hl. apply refines_vty, refines_getl, refines_getr, refines_the_l2vpn; [done|]. intros v Hv. cbv zeta.
  destruct (dup_vpn_ok _ _ _ Hc Hv) as [[Ht Hi Hp Hs] Hd]. rewrite (in_use_dup p n Hc), strlcpy_id, lookup_pw by done.
  destruct (l2vpn_pw_find_name (lv_pw_list v) (lv_pw_inactive_list v) n) as [w|] eqn:E; cbn [fmap option_fmap option_map].
  - rewrite (bool_decide_true (is_Some (Some (view_pw w)))) by eauto. destruct no.
    2: { exact (enter_refines p (ret CMD_SUCCESS) (ret CMD_SUCCESS) n (refines_ret _ _ Hc)). }
    pose proof (pws_take v n) as Et. set (v' := if bool_decide _ then _ else _) in *.
    assert (view_vpn v' = vv_set_members (vv_ifs (view_vpn v)) (delete n (vv_pws (view_vpn v))) (view_vpn v)) as <-.
    { unfold view_vpn. rewrite Et, kmap_take, fmap_delete by done. unfold v'. by destruct (bool_decide _). }
    apply (vpn_put_refines p v); [done|done|unfold v'; by case_match|..].
    + split; [unfold v'; by case_match|unfold v'; by case_match|rewrite Et; by apply nodup_take|rewrite Et; by apply ktake_Forall].
    + intros m Hm. unfold v' in Hm. case_match; [|done]. cbn in Hm. rewrite pw_take_ktake in Hm.
      eapply elem_of_sublist; [exact Hm|]. apply fmap_sublist, ktake_sub.
    + intros m Hm. apply Hd. unfold v' in Hm. case_match; [done|]. cbn in Hm. rewrite pw_take_ktake in Hm.
      eapply elem_of_sublist; [exact Hm|]. apply fmap_sublist, ktake_sub.
  - rewrite (bool_decide_false (is_Some None)) by (by intros [? ?]). destruct no; [by apply refines_ret|]. cbn [orb].
    destruct (in_use (vs_view (abs p)) n); [by apply refines_ret|]. apply enter_refines.
    rewrite pw_find_kfind in E. fold (lv_pws v) in E. apply kfind_None in E.
    set (w := set_pwc_flags _ _). assert (key w = n) as Hw by (by apply kif_of_name_name). set (v' := set_lv_lists _ _ _ v).
    assert (lv_pws v' ≡ₚ w :: lv_pws v) as HP by (unfold lv_pws; cbn; by rewrite <- Permutation_middle).
    assert (NoDup (keys_of (w :: lv_pws v))) as Hnw.
    { change (NoDup (key w :: keys_of (lv_pws v))). rewrite Hw. by apply NoDup_cons. }
    assert (view_vpn v' = vv_set_members (vv_ifs (view_vpn v)) (<[n := new_pw]> (vv_pws (view_vpn v))) (view_vpn v)) as <-.
    { unfold view_vpn, vv_set_members. cbn. f_equal. rewrite <- (pw_new_view (kif_of_name (pa_iflist p) n)), <- fmap_insert.
      fold w. rewrite <- Hw at 1. rewrite <- kmap_cons. f_equal. apply kmap_ext. intros k. symmetry. by apply kfind_perm. }
    apply (vpn_put_refines p v); try done.
    + split; try done; [unfold keys_of; by rewrite HP|rewrite HP; by constructor].
    + intros m Hm. change (m ∈ key w :: keys_of (lv_pw_inactive_list v)) in Hm. rewrite Hw in Hm.
      apply elem_of_cons in Hm as [-> |Hm]; [|by apply Hd]. intros H. apply E. unfold lv_pws. rewrite keys_app, elem_of_app. by left.
Qed.

Lemma edit_pw_refines p f g : conf_run_ok (pa_conf p) ->
  (forall w, pwc_ifname (f w) = pwc_ifname w) -> (forall w, view_pw (f w) = g (view_pw w)) ->
  (forall w, (is_static w = true -> af_ok (pwc_af w)) -> is_static (f w) = true -> af_ok (pwc_af (f w))) ->
  refines (edit_pw f) (spec_pw g) p.
Proof.
  intros Hc Hn Hg Hst. apply refines_vty, refines_getl, refines_getr, refines_the_l2vpn; [done|]. intros v Hv.
  destruct (dup_vpn_ok _ _ _ Hc Hv) as [[Ht Hi Hp Hs] Hd]. eapply refines_found; [apply lookup_pw|]. intros w Hw.
  rewrite pw_find_kfind in Hw. fold (lv_pws v) in Hw. pose proof Hw as [Hin Hk]%kfind_Some.
  change (vs_pw (abs p)) with (pa_pw_ifname p). assert (pwc_ifname (f w) = pa_pw_ifname p) as Hfk by (rewrite Hn; exact Hk).
  pose proof (pws_put v (f w)) as Ep. rewrite Hfk in Ep. set (v' := if bool_decide _ then _ else _) in *.
  assert (view_vpn v' = vv_set_members (vv_ifs (view_vpn v)) (<[pa_pw_ifname p := g (view_pw w)]> (vv_pws (view_vpn v)))
    (view_vpn v)) as <-.
  { unfold view_vpn. rewrite Ep, kmap_put, fmap_insert, Hg by (rewrite <- Hk in Hfk; change (key (f w) = key w) in Hfk;
      rewrite Hfk; by apply list_elem_of_fmap_2). change (key (f w)) with (pwc_ifname (f w)). rewrite Hfk. unfold v'.
    by destruct (bool_decide _). }
  apply (vpn_put_refines p v); [done|done|unfold v'; by case_match|..].
  - split; [unfold v'; by case_match|unfold v'; by case_match|rewrite Ep; by rewrite keys_put|].
    rewrite Ep. apply kput_Forall; [|done]. apply Hst. rewrite Forall_forall in Hs. by apply Hs.
  - intros m Hm. unfold v' in Hm. case_match; [|done]. cbn in Hm. by rewrite pw_put_kput, keys_put in Hm.
  - intros m Hm. apply Hd. unfold v' in Hm. case_match; [done|]. cbn in Hm. by rewrite pw_put_kput, keys_put in Hm.
Qed.

Ltac pw_flags := change F_PW_STATUSTLV_CONF with (2 ^ 0) in *; change F_PW_CWORD_CONF with (2 ^ 2) in *;
  change F_PW_STATIC_NBR_ADDR with (2 ^ 5) in *; unfold set_flag, clear_flag in *;
  rewrite ?has_set, ?has_clear in * by done; cbn [bool_decide orb andb negb] in *.
Lemma cword_refines p no e : conf_run_ok (pa_conf p) -> refines (ldp_vty_l2vpn_pw_cword no e) (spec_cmd (CmdCword no e)) p.
Proof.
  intros Hc. apply edit_pw_refines; [done|done|..].
  - intros w. unfold view_pw, pv_set_flags. cbn. destruct no, e; cbn [negb andb orb]; by pw_flags.
  - intros w. unfold is_static. cbn. destruct no, e; cbn [negb andb orb]; by pw_flags.
Qed.
Lemma pwstatus_refines p no : conf_run_ok (pa_conf p) -> refines (ldp_vty_l2vpn_pw_pwstatus no) (spec_cmd (CmdPwStatus no)) p.
Proof.
  intros Hc. apply edit_pw_refines; [done|done|..].
  - intros w. unfold view_pw, pv_set_flags. cbn. destruct no; by pw_flags.
  - intros w. unfold is_static. cbn. destruct no; by pw_flags.
Qed.
Lemma nbr_addr_refines p no a : conf_run_ok (pa_conf p) -> cmd_ok (pa_node p) (CmdNbrAddr no a) ->
  refines (ldp_vty_l2vpn_pw_nbr_addr no a) (spec_cmd (CmdNbrAddr no a)) p.
Proof.
  intros Hc Ho. destruct a as [[af b]|]; [|by apply refines_ret]. cbn in Ho. destruct Ho as [Haf Hb]. unfold ldp_vty_l2vpn_pw_nbr_addr.
  cbn [spec_cmd]. cbv zeta. rewrite (bad_pton _ b) by done. apply refines_lift. intros bad _.
  destruct (negb _); [by apply refines_ret|]. destruct no; apply edit_pw_refines; try done.
  - intros w. unfold view_pw, pv_set_addr. cbn -[addr_key zero_addr]. by pw_flags.
  - intros w. unfold is_static. cbn. by pw_flags.
  - intros w. unfold view_pw, pv_set_addr. cbn -[addr_key zero_addr pton_store]. rewrite pton_key by done. by pw_flags.
Qed.
Lemma nbr_id_refines p no id : conf_run_ok (pa_conf p) -> refines (ldp_vty_l2vpn_pw_nbr_id no id) (spec_cmd (CmdNbrLsrId no id)) p.
Proof.
  intros Hc. unfold ldp_vty_l2vpn_pw_nbr_id. cbn [spec_cmd]. destruct (lsr_id_arg id); [|by apply refines_ret].
  by apply edit_pw_refines.
Qed.
Lemma pwid_refines p no id : conf_run_ok (pa_conf p) -> refines (ldp_vty_l2vpn_pw_pwid no id) (spec_cmd (CmdPwId no id)) p.
Proof.
  intros Hc. unfold ldp_vty_l2vpn_pw_pwid. cbn [spec_cmd]. destruct (in_range _ _ _); [|by apply refines_ret].
  by apply edit_pw_refines.
Qed.
End L2vpn.

(** ** All commands *)
Lemma run_cmd_refines stack c p : conf_run_ok (pa_conf p) -> installed c (pa_node p) = true -> cmd_ok (pa_node p) c ->
  addr_ok stack -> refines (run_cmd stack c) (spec_cmd c) p.
Proof.
  intros Hc Hi Ho Hs. destruct c; cbn [run_cmd].
  - by apply mpls_ldp_refines.
  - by apply address_family_refines.
  - by apply holdtime_refines.
  - by apply interval_refines.
  - exact (af_flag_refines p no F_LDPD_AF_THELLO_ACCEPT Hc Hi).
  - apply nbr_session_refines; [done|]. cbn in Hi. by destruct (pa_node p).
  - by apply af_session_refines.
  - by apply interface_refines.
  - by apply trans_addr_refines.
  - by apply targeted_refines.
  - exact (af_flag_refines p no F_LDPD_AF_EXPNULL Hc Hi).
  - exact (af_flag_refines p no F_LDPD_AF_NO_GTSM Hc Hi).
  - by apply router_id_refines.
  - by apply cisco_refines.
  - by apply trans_pref_refines.
  - by apply password_refines.
  - by apply nbr_ttl_refines.
  - by apply l2vpn_refines.
  - by apply bridge_refines.
  - by apply mtu_refines.
  - by apply pwtype_refines.
  - by apply member_if_refines.
  - by apply member_pw_refines.
  - by apply cword_refines.
  - by apply nbr_addr_refines.
  - by apply nbr_id_refines.
  - by apply pwid_refines.
  - by apply pwstatus_refines.
Qed.
