(* ===== verification/EngineConf.v ===== *)
(** * A configuration in the engine

    [main_imsg_send_config] of the parent (ldpd.c) and [merge_config] of the LDP
    engine: what the engine runs with after it, seen as a [conf_view], is the
    configuration that was sent.  Every part of the merge is followed through the
    heap: interfaces with their hello parameters, the configured targeted
    neighbours, parameters of neighbours, L2VPNs with their pseudowires. *)
From stdpp Require Import prelude strings list gmap.
From Stdlib Require Import ZArith Lia Permutation.
From S2P Require Import Prelude Util Wire Ipc Session Fec Hello Discovery DiscInv DiscSafe DiscRun DiscFrame DiscSystem.
From S2P Require Import Config HeapLoops ConfigSafe Engine EngineSafe EngineFun KeyedList Parent ConfView ConfMerge ConfSorted ConfSpec ConfCmds.

Lemma nodup_fmap_inj {A B} (f : A -> B) (l : list A) x y : NoDup (f <$> l) -> x ∈ l -> y ∈ l -> f x = f y -> x = y.
Proof.
  intros Hnd [i Hi]%list_elem_of_lookup_1 [j Hj]%list_elem_of_lookup_1 E.
  assert (i = j) as <-; [|congruence]. eapply NoDup_lookup; [exact Hnd|by rewrite list_lookup_fmap, Hi|by rewrite list_lookup_fmap, Hj, E].
Qed.
Lemma kfind_fmap {A K} `{!Keyed A K} `{EqDecision K} (f : A -> A) (l : list A) k : (forall a, key (f a) = key a) ->
  kfind (f <$> l) k = f <$> kfind l k.
Proof.
  intros Hf. induction l as [|a l IH]; [done|]. cbn [fmap list_fmap]. rewrite !kfind_cons, Hf. by destruct (bool_decide _).
Qed.

(** ** Interfaces *)
Definition if_row : Type := Z * string * (bool * Z * Z) * (bool * Z * Z).
Definition row_ptr (c : if_row) : Z := c.1.1.1.
Definition row_name (c : if_row) : string := c.1.1.2.
Definition ia_row_view (v : bool * Z * Z) : ia_view := IaView v.1.1 v.1.2 v.2.
Definition row_view (c : if_row) : if_view := IfView (ia_row_view c.1.2) (ia_row_view c.2).
#[export] Instance row_keyed : Keyed if_row string := row_name.

(** Addresses in use are below the next one to be handed out. *)
Definition ifs_placed (s : disc) : Prop := store_ok (d_next s) (d_ifaces s).

Definition next_rel (s s' : disc) : Prop := d_next s <= d_next s'.
#[export] Instance next_local : Local next_rel.
Proof.
  split; try (intros; unfold next_rel; cbn; lia). split; [intros s; unfold next_rel; lia|].
  intros a b c H1 H2. unfold next_rel in *. lia.
Qed.
Lemma next_ifaces f s : next_rel s (set_ifaces f s). Proof. unfold next_rel. cbn. lia. Qed.
Lemma next_tnbrs f s : next_rel s (set_tnbrs f s). Proof. unfold next_rel. cbn. lia. Qed.
Lemma next_conf f s : next_rel s (set_conf f s). Proof. unfold next_rel. cbn. lia. Qed.
#[export] Hint Resolve next_ifaces next_tnbrs next_conf : local.
Lemma next_alloc : stays next_rel alloc.
Proof. intros s ? ? H. unfold alloc in H. simplify_eq. unfold next_rel. cbn. lia. Qed.
#[export] Hint Resolve next_alloc : stays.

Section Ifaces.
Implicit Types (s : disc) (c : if_row).

Lemma rows_find s n : view_if <$> kfind (d_ifaces s) n = row_view <$> kfind (if_confs s) n.
Proof.
  unfold if_confs. induction (d_ifaces s) as [|i l IH]; [done|]. cbn [fmap list_fmap]. rewrite !kfind_cons.
  change (key (if_conf i)) with (key i). by destruct (bool_decide (key i = n)).
Qed.
Lemma rows_ptrs s : ptrs (d_ifaces s) = row_ptr <$> if_confs s.
Proof. unfold if_confs, ptrs. by rewrite <- list_fmap_compose. Qed.
Lemma ifs_rel_find s s' n : ifs_rel s s' -> view_if <$> kfind (d_ifaces s') n = view_if <$> kfind (d_ifaces s) n.
Proof. intros E. by rewrite !rows_find, E. Qed.
Lemma ifs_rel_placed s s' : ifs_rel s s' -> next_rel s s' -> ifs_placed s -> ifs_placed s'.
Proof.
  intros E Hn [H1 H2]. apply (store_ok_mono (d_next s)); [exact Hn|].
  assert (ptrs (d_ifaces s') = ptrs (d_ifaces s)) as Ep by (by rewrite !rows_ptrs, E). by split; rewrite Ep.
Qed.

(** Changing the family [af] of the interface at [p]. *)
Definition row_af (af : Z) (h : bool * Z * Z -> bool * Z * Z) (c : if_row) : if_row :=
  if af =? AF_INET then (c.1.1, h c.1.2, c.2) else (c.1.1, c.1.2, h c.2).
Definition row_at (p : Z) (g : if_row -> if_row) (c : if_row) : if_row := if row_ptr c =? p then g c else c.

Lemma row_af_ptr af h c : row_ptr (row_af af h c) = row_ptr c.
Proof. unfold row_af. by case_match. Qed.

Lemma mod_ia_rows p af f h s a s' : mod_ia p af f s = Ok (a, s') -> (forall ia, ia_conf (f ia) = h (ia_conf ia)) ->
  if_confs s' = row_at p (row_af af h) <$> if_confs s.
Proof.
  intros H Hf. unfold mod_ia, mod_iface in H. apply bind_inv in H as (ia & s1 & H1 & H).
  assert (s1 = s) as ->.
  { unfold get_ia, get_iface, deref, bind, lift in H1. case_match; [|done]. cbn in H1. destruct (iface_af_get _ _); cbn in H1; by simplify_eq. }
  apply bind_inv in H as (i & s2 & H2 & H). unfold get_iface, deref in H2. destruct (find_ptr p (d_ifaces s)); [|done]. unfold modify in H.
  simplify_eq. unfold if_confs. cbn. unfold upd_ptr. clear H1. induction (d_ifaces s2) as [|j l IH]; [done|]. cbn. rewrite IH. f_equal.
  unfold row_at. change (row_ptr (if_conf j)) with (if_ptr j). change (ptr_of j) with (if_ptr j).
  destruct (if_ptr j =? p); [|done]. unfold set_if_af, row_af, ia_of, if_conf. destruct (af =? AF_INET); cbn; by rewrite Hf.
Qed.

(** One family takes over the new parameters. *)
Lemma merge_iface_af_rows env p af xi s a s' : NoDup (row_ptr <$> if_confs s) -> af_ok af ->
  merge_iface_af env p af xi s = Ok (a, s') ->
  if_confs s' = row_at p (row_af af (fun _ => ia_conf xi)) <$> if_confs s.
Proof.
  intros Hnd Haf H. unfold merge_iface_af in H. apply bind_inv in H as (ia & s1 & H1 & H). apply bind_inv in H as (u & s2 & H2 & H).
  apply mod_ia_rows with (h := fun v => (v.1.1, ia_hello_holdtime xi, ia_hello_interval xi)) in H; [|done].
  unfold get_ia, get_iface, deref in H1. apply bind_inv in H1 as (i & s3 & G & H1). destruct (find_ptr p (d_ifaces s)) as [j|] eqn:Ej; [|done].
  simplify_eq. rewrite iface_af_get_ok in H1 by done. unfold lift in H1. cbn in H1. simplify_eq. rewrite H.
  destruct (negb (Bool.eqb _ _)) eqn:E in H2.
  - apply bind_inv in H2 as (v & s4 & H3 & H4). apply (stays_if_update (R := ifs_rel)) in H4.
    apply mod_ia_rows with (h := fun v => (ia_enabled xi, v.1.2, v.2)) in H3; [|done]. rewrite H4, H3, <- list_fmap_compose.
    apply list_fmap_ext. intros k c _. unfold compose, row_at. destruct (row_ptr c =? p) eqn:Ep; [|by rewrite Ep].
    rewrite row_af_ptr, Ep. unfold row_af. by destruct (af =? AF_INET).
  - unfold ret in H2. simplify_eq. apply negb_false_iff, eqb_prop in E. apply list_fmap_ext. intros k c Hc. unfold row_at.
    destruct (row_ptr c =? p) eqn:Ep; [|done]. apply list_elem_of_lookup_2 in Hc. zbool.
    apply find_ptr_ptr in Ej as [Ejp Hj].
    assert (c = if_conf i) as ->.
    { eapply (nodup_fmap_inj row_ptr); [exact Hnd|exact Hc|by apply list_elem_of_fmap_2|]. rewrite Ep. symmetry. exact Ejp. }
    unfold row_af, ia_conf. destruct Haf as [-> | ->]; cbn in *; by rewrite <- E.
Qed.
Lemma row_at_ptr p g c : (forall c, row_ptr (g c) = row_ptr c) -> row_ptr (row_at p g c) = row_ptr c.
Proof. intros H. unfold row_at. case_match; [apply H|done]. Qed.
Lemma rows_at_ptrs p g (l : list if_row) : (forall c, row_ptr (g c) = row_ptr c) -> row_ptr <$> (row_at p g <$> l) = row_ptr <$> l.
Proof. intros H. rewrite <- list_fmap_compose. apply list_fmap_ext. intros. by apply row_at_ptr. Qed.

(** One interface of the new configuration, looked for by name. *)
Definition row_with (xi : iface) (c : if_row) : if_row := (c.1.1, ia_conf (if_ipv4 xi), ia_conf (if_ipv6 xi)).
Lemma row_with_ptr xi c : row_ptr (row_with xi c) = row_ptr c. Proof. done. Qed.
Lemma find_row_at p xi (l : list if_row) c n : NoDup (row_ptr <$> l) -> kfind l (if_name xi) = Some c -> row_ptr c = p ->
  row_view <$> kfind (row_at p (row_with xi) <$> l) n = if bool_decide (if_name xi = n) then Some (view_if xi) else row_view <$> kfind l n.
Proof.
  intros Hnd Hc Hp. rewrite kfind_fmap by (intros d; unfold row_at; by case_match).
  case_bool_decide as En.
  - subst n. rewrite Hc. cbn. unfold row_at. apply Z.eqb_eq in Hp as ->. done.
  - destruct (kfind l n) as [d|] eqn:Ed; [|done]. cbn. unfold row_at. destruct (row_ptr d =? p) eqn:Ep; [|done]. zbool. destruct En.
    apply kfind_Some in Hc as [Hc <-]. apply kfind_Some in Ed as [Hd <-].
    f_equal. apply (nodup_fmap_inj row_ptr l); [done..|congruence].
Qed.

Lemma merge_iface_found env xi s a s' : ifs_placed s -> merge_iface env xi s = Ok (a, s') ->
  ifs_placed s' /\ forall n, view_if <$> kfind (d_ifaces s') n
    = if bool_decide (if_name xi = n) then Some (view_if xi) else view_if <$> kfind (d_ifaces s) n.
Proof.
  intros Hs H. unfold merge_iface in H. rewrite (bind_ok get _ s s s) in H by done. rewrite if_lookup_kfind in H.
  destruct (kfind (d_ifaces s) (if_name xi)) as [i|] eqn:E.
  - apply bind_inv in H as (u & s1 & H1 & H2). assert (NoDup (row_ptr <$> if_confs s)) as Hnd by (rewrite <- rows_ptrs; apply Hs).
    assert (next_rel s s') as Hnx.
    { assert (stays next_rel (merge_iface_af env (if_ptr i) AF_INET (if_ipv4 xi) ;;; merge_iface_af env (if_ptr i) AF_INET6 (if_ipv6 xi))) as Hm
        by (unfold merge_iface_af, mod_ia, mod_iface; stays_solve).
      apply (Hm s a s'). by rewrite (bind_ok _ _ _ _ _ H1). }
    apply merge_iface_af_rows in H1; [|done|by left].
    apply merge_iface_af_rows in H2; [|by rewrite H1, rows_at_ptrs by (intros; apply row_af_ptr)|by right].
    assert (if_confs s' = row_at (if_ptr i) (row_with xi) <$> if_confs s) as E'.
    { rewrite H2, H1, <- list_fmap_compose. apply list_fmap_ext. intros k c _. unfold compose, row_at.
      destruct (row_ptr c =? if_ptr i) eqn:Ep; [by rewrite row_af_ptr, Ep|by rewrite Ep]. }
    split.
    + apply (store_ok_mono (d_next s)); [exact Hnx|]. destruct Hs as [S1 S2].
      assert (ptrs (d_ifaces s') = ptrs (d_ifaces s)) as Ep by (by rewrite !rows_ptrs, E', rows_at_ptrs). by split; rewrite Ep.
    + intros n. rewrite !rows_find, E'. apply (find_row_at _ _ _ (if_conf i)); [done| |done].
      unfold if_confs. clear -E. induction (d_ifaces s) as [|j l IH]; [done|]. rewrite kfind_cons in E. cbn [fmap list_fmap].
      rewrite kfind_cons. change (key (if_conf j)) with (key j). destruct (bool_decide (key j = if_name xi)); [congruence|by apply IH].
  - apply bind_inv in H as (p & s1 & H1 & H2). unfold alloc in H1. unfold modify in H2. simplify_eq. split.
    + by apply (store_ok_cons (d_next s) _ (d_ifaces s)); [|exact Hs].
    + intros n. cbn [set_ifaces d_ifaces]. rewrite kfind_cons. change (key (place_iface (d_next s) xi)) with (if_name xi). by destruct (bool_decide _).
Qed.
Lemma merge_iface_loop env xs : forall s a s', foreach (merge_iface env) xs s = Ok (a, s') -> NoDup (keys_of xs) -> ifs_placed s ->
  forall n, view_if <$> kfind (d_ifaces s') n = match kfind xs n with Some x => Some (view_if x) | None => view_if <$> kfind (d_ifaces s) n end.
Proof.
  induction xs as [|x xs IH]; intros s a s' H Hnd Hs n; cbn [foreach] in H; [unfold ret in H; by simplify_eq|].
  apply bind_inv in H as (u & s1 & H1 & H2). cbn in Hnd. apply NoDup_cons in Hnd as [Hx Hnd].
  destruct (merge_iface_found _ _ _ _ _ Hs H1) as [Hs1 E]. rewrite (IH _ _ _ H2 Hnd Hs1 n), E, kfind_cons. change (key x) with (if_name x).
  case_bool_decide as En; [|done]. subst n. assert (kfind xs (if_name x) = None) as -> by (by apply kfind_None). done.
Qed.

(** The interfaces that are gone. *)
Definition row_kept (x : ldpd_conf) (c : if_row) : bool := bool_decide (is_Some (kfind (xc_iface_list x) (row_name c))).
Lemma if_gone_rows p s a s' : (if_exit p ;;; if_free p) s = Ok (a, s') ->
  if_confs s' = List.filter (fun c => negb (row_ptr c =? p)) (if_confs s).
Proof.
  intros H. apply bind_inv in H as (u & s1 & H1 & H2). apply ifs_if_exit in H1. rewrite <- H1.
  unfold if_free in H2. apply bind_inv in H2 as (i & s2 & G & H2). unfold get_iface, deref in G. case_match; [|done].
  unfold modify in H2. simplify_eq. unfold if_confs. cbn [set_ifaces d_ifaces]. unfold del_ptr. clear. induction (d_ifaces s2) as [|j l IH]; [done|].
  cbn [List.filter fmap list_fmap]. change (row_ptr (if_conf j)) with (ptr_of j). destruct (ptr_of j =? p); cbn [negb fmap list_fmap]; [done|by f_equal].
Qed.
Lemma filter_filter {A} (f g : A -> bool) (l : list A) : List.filter f (List.filter g l) = List.filter (fun a => g a && f a) l.
Proof. induction l as [|a l IH]; [done|]. cbn. destruct (g a); cbn; by rewrite IH. Qed.
Definition gone_at (x : ldpd_conf) (l : list iface) (c : if_row) : bool :=
  existsb (fun i => negb (bool_decide (is_Some (kfind (xc_iface_list x) (if_name i)))) && (if_ptr i =? row_ptr c)) l.
Lemma if_del_rows x l : forall s a s',
  foreach (fun i => match if_lookup_name (xc_iface_list x) (if_name i) with
    | None => if_exit (if_ptr i) ;;; if_free (if_ptr i) | Some _ => ret tt end) l s = Ok (a, s') ->
  if_confs s' = List.filter (fun c => negb (gone_at x l c)) (if_confs s).
Proof.
  induction l as [|i l IH]; intros s a s' H; cbn [foreach] in H.
  { unfold ret in H. simplify_eq. cbn. clear. by induction (if_confs s') as [|c l IH]; [|cbn; rewrite <- IH]. }
  apply bind_inv in H as (u & s1 & H1 & H2). rewrite (IH _ _ _ H2). rewrite if_lookup_kfind in H1.
  destruct (kfind (xc_iface_list x) (if_name i)) as [y|] eqn:E.
  - unfold ret in H1. simplify_eq. apply filter_ext. intros c _. unfold gone_at. cbn [existsb].
    by rewrite E, bool_decide_true by eauto.
  - rewrite (if_gone_rows _ _ _ _ H1), filter_filter. apply filter_ext. intros c _. unfold gone_at. cbn [existsb].
    rewrite E, bool_decide_false by (by intros [? ?]). cbn. rewrite negb_orb. by rewrite (Z.eqb_sym (if_ptr i)).
Qed.
Lemma merge_ifaces_del_rows x s a s' : ifs_placed s -> merge_ifaces_del x s = Ok (a, s') ->
  if_confs s' = List.filter (row_kept x) (if_confs s).
Proof.
  intros Hs H. unfold merge_ifaces_del in H. rewrite (bind_ok get _ s s s) in H by done. rewrite (if_del_rows _ _ _ _ _ H).
  apply filter_ext. intros c Hc. unfold row_kept. apply list_elem_of_fmap in Hc as (i & -> & Hi).
  case_bool_decide as E.
  - apply negb_true_iff, not_true_iff_false. intros Hg. unfold gone_at in Hg. apply existsb_exists in Hg as (j & Hj & Hg).
    apply andb_true_iff in Hg as [Hg Ej]. apply negb_true_iff, bool_decide_eq_false in Hg. zbool.
    assert (j = i) as ->; [|done]. apply list_elem_of_In in Hj.
    by apply (nodup_fmap_inj if_ptr (d_ifaces s)); [apply Hs|..].
  - apply negb_false_iff. unfold gone_at. apply existsb_exists. exists i. split; [by apply list_elem_of_In|].
    rewrite bool_decide_false by done. apply Z.eqb_refl.
Qed.
Lemma kfind_filter_kept x l n : is_Some (kfind (xc_iface_list x) n) -> kfind (List.filter (row_kept x) l) n = kfind l n.
Proof.
  intros Hn. induction l as [|c l IH]; [done|]. cbn [List.filter]. unfold row_kept at 1. case_bool_decide as E.
  - by rewrite !kfind_cons, IH.
  - rewrite kfind_cons, IH. case_bool_decide as Ek; [|done]. subst n. by destruct E.
Qed.

(** All the interfaces: name by name, the parameters are those configured. *)
Lemma merge_ifaces_views env x s a s' : ifs_placed s -> NoDup (keys_of (xc_iface_list x)) -> merge_ifaces env x s = Ok (a, s') ->
  view_if <$> kmap (d_ifaces s') = view_if <$> kmap (xc_iface_list x).
Proof.
  intros Hs Hnd H. unfold merge_ifaces in H. apply bind_inv in H as (u & s1 & H1 & H2). apply map_eq. intros n.
  rewrite !lookup_fmap, !lookup_kmap.
  assert (next_rel s s1) as Hnx.
  { assert (stays next_rel (merge_ifaces_del x)) as Hm; [|exact (Hm _ _ _ H1)].
    unfold merge_ifaces_del, if_exit, if_free, if_reset, if_stop_hello_timer. stays_solve. all: apply stays_if_del_adjs. }
  pose proof (merge_ifaces_del_rows _ _ _ _ Hs H1) as E1.
  assert (ifs_placed s1) as Hs1.
  { apply (store_ok_mono (d_next s)); [exact Hnx|]. destruct Hs as [S1 S2]. rewrite rows_ptrs in S1, S2.
    assert (ptrs (d_ifaces s1) `sublist_of` row_ptr <$> if_confs s) as Hsub by (rewrite rows_ptrs, E1; apply fmap_sublist, lfilter_sub).
    split; [by eapply sublist_NoDup|]. intros q Hq. apply S2. by eapply elem_of_sublist. }
  rewrite (merge_iface_loop _ _ _ _ _ H2 Hnd Hs1 n). destruct (kfind (xc_iface_list x) n) as [xi|] eqn:E; [done|].
  rewrite rows_find, E1. destruct (kfind (List.filter _ _) n) as [c|] eqn:Ec; [exfalso|done].
  apply kfind_Some in Ec as [Hc <-]. apply list_elem_of_In, filter_In in Hc as [_ Hc]. unfold row_kept in Hc.
  apply bool_decide_eq_true in Hc as [y Hy]. change (row_name c) with (key c) in Hy. congruence.
Qed.
End Ifaces.

(** ** Targeted neighbours *)
Definition t_row : Type := Z * Z * ldpd_addr * bool.
Definition t_rows (s : disc) : list t_row := t_conf <$> d_tnbrs s.
Definition trow_ptr (c : t_row) : Z := c.1.1.1.
Definition trow_key (c : t_row) : Z * list Z := (c.1.1.2, addr_key c.1.1.2 c.1.2).
Definition tns_placed (s : disc) : Prop := store_ok (d_next s) (d_tnbrs s).
(** A targeted neighbour that is configured; others were learnt from hellos or are
    there for a pseudowire. *)
Definition conf_row (s : disc) (c : t_row) : Prop := c ∈ t_rows s /\ c.2 = true.

(** Operations that leave the configured ones alone. *)
Definition tn_rel (s s' : disc) : Prop := tns_placed s -> tns_placed s' /\ forall c, conf_row s' c <-> conf_row s c.

Section TnbrRows.
Implicit Types (s : disc) (c : t_row).
Lemma trows_ptrs s : ptrs (d_tnbrs s) = trow_ptr <$> t_rows s.
Proof. unfold t_rows, ptrs. by rewrite <- list_fmap_compose. Qed.
Lemma tns_nodup s : tns_placed s -> NoDup (trow_ptr <$> t_rows s).
Proof. intros [H _]. by rewrite <- trows_ptrs. Qed.
Lemma placed_rows s s' : t_rows s' = t_rows s -> next_rel s s' -> tns_placed s -> tns_placed s'.
Proof.
  intros E Hn [H1 H2]. apply (store_ok_mono (d_next s)); [exact Hn|].
  assert (ptrs (d_tnbrs s') = ptrs (d_tnbrs s)) as Ep by (by rewrite !trows_ptrs, E). by split; rewrite Ep.
Qed.
Lemma find_row s t : tns_placed s -> t ∈ d_tnbrs s -> find_ptr (t_ptr t) (d_tnbrs s) = Some t.
Proof. intros [H _] Ht. by apply (find_ptr_in _ t). Qed.
Lemma row_in s t : t ∈ d_tnbrs s -> t_conf t ∈ t_rows s.
Proof. apply list_elem_of_fmap_2. Qed.

(** Updating the targeted neighbour at [p]. *)
Lemma upd_rows p f t s : tns_placed s -> find_ptr p (d_tnbrs s) = Some t ->
  forall c, c ∈ t_rows (set_tnbrs (upd_ptr p f) s) <-> c = t_conf (f t) \/ c ∈ t_rows s /\ trow_ptr c <> p.
Proof.
  intros Hs Ht c. unfold t_rows. cbn. unfold upd_ptr. rewrite !list_elem_of_fmap. apply find_ptr_ptr in Ht as Hin. destruct Hin as [Ept Hin].
  split.
  - intros (u & -> & Hu). apply list_elem_of_fmap in Hu as (v & -> & Hv). change (ptr_of v) with (t_ptr v). destruct (t_ptr v =? p) eqn:E; zbool.
    + left. assert (v = t) as -> by (pose proof (find_row s v Hs Hv) as F; rewrite E, Ht in F; congruence). done.
    + right. split; [by exists v|done].
  - intros [-> | [(v & -> & Hv) Hne]].
    + exists (f t). split; [done|]. apply list_elem_of_fmap. exists t. split; [|done]. rewrite Ept, Z.eqb_refl. done.
    + exists v. split; [done|]. apply list_elem_of_fmap. exists v. split; [|done]. change (trow_ptr (t_conf v)) with (ptr_of v) in Hne.
      apply Z.eqb_neq in Hne. by rewrite Hne.
Qed.
Lemma upd_rows_same p f s : tns_placed s -> (forall t, find_ptr p (d_tnbrs s) = Some t -> t_conf (f t) = t_conf t) ->
  t_rows (set_tnbrs (upd_ptr p f) s) = t_rows s.
Proof.
  intros Hs Hf. unfold t_rows. cbn. unfold upd_ptr. change (map ?g ?l) with (g <$> l). rewrite <- list_fmap_compose.
  apply list_fmap_ext. intros i t Ht. apply list_elem_of_lookup_2 in Ht. unfold compose. destruct (ptr_of t =? p) eqn:E; [|done].
  zbool. apply Hf. rewrite <- E. by apply find_row.
Qed.
Lemma rows_rel s s' : t_rows s' = t_rows s -> next_rel s s' -> tn_rel s s'.
Proof. intros E Hn Hs. split; [by eapply placed_rows|]. intros c. unfold conf_row. by rewrite E. Qed.
End TnbrRows.

#[export] Instance tn_local : Local tn_rel.
Proof.
  split; try (intros; apply rows_rel; [done|unfold next_rel; cbn; lia]).
  - split; [done|]. intros a b c H1 H2 Hs. destruct (H1 Hs) as [Hb E1]. destruct (H2 Hb) as [Hc E2]. split; [done|].
    intros r. by rewrite E2, E1.
  - intros p f s Hf Hs. apply rows_rel; [by apply upd_rows_same|unfold next_rel; cbn; lia|done].
Qed.
Lemma tn_conf f s : tn_rel s (set_conf f s). Proof. done. Qed.
Lemma tn_ifaces f s : tn_rel s (set_ifaces f s). Proof. done. Qed.
Lemma tn_alloc : stays tn_rel alloc.
Proof. intros s ? ? H. unfold alloc in H. simplify_eq. apply rows_rel; [done|unfold next_rel; cbn; lia]. Qed.
#[export] Hint Resolve tn_conf tn_ifaces : local.
#[export] Hint Resolve tn_alloc : stays.

Section Tnbrs.
Implicit Types (s : disc) (c : t_row).
Lemma flag_dynamic t : t_conf (clear_t_flag F_TNBR_DYNAMIC t) = t_conf t.
Proof.
  unfold t_conf, clear_t_flag. cbn. f_equal. change F_TNBR_DYNAMIC with (2 ^ 1). change F_TNBR_CONFIGURED with (2 ^ 0).
  by rewrite has_clear.
Qed.
Lemma flag_cleared t : t_conf (clear_t_flag F_TNBR_CONFIGURED t) = (t_ptr t, t_af t, t_addr t, false).
Proof.
  unfold t_conf, clear_t_flag. cbn. f_equal. change F_TNBR_CONFIGURED with (2 ^ 0). by rewrite has_clear.
Qed.
Lemma flag_set t : t_conf (set_t_flags t (Z.lor (t_flags t) F_TNBR_CONFIGURED)) = (t_ptr t, t_af t, t_addr t, true).
Proof. unfold t_conf. cbn. f_equal. change F_TNBR_CONFIGURED with (2 ^ 0). by rewrite has_set. Qed.
Lemma flag_none t : has_flag (t_flags t) (Z.lor F_TNBR_CONFIGURED F_TNBR_DYNAMIC) = false -> (t_conf t).2 = false.
Proof.
  intros H. cbn. destruct (has_flag (t_flags t) F_TNBR_CONFIGURED) eqn:E; [|done]. exfalso.
  unfold has_flag in *. apply negb_false_iff, Z.eqb_eq in H. apply negb_true_iff, Z.eqb_neq in E. apply E.
  rewrite Z.land_lor_distr_r in H. by apply Z.lor_eq_0_iff in H as [? _].
Qed.

(** Removing one that is not configured. *)
Lemma del_rows p s : tns_placed s -> (forall c, conf_row s c -> trow_ptr c <> p) -> tn_rel s (set_tnbrs (del_ptr p) s).
Proof.
  intros _ Hp Hs. split; [by apply store_ok_del|]. intros c. unfold conf_row, t_rows. cbn. unfold del_ptr. rewrite !list_elem_of_fmap. split.
  - intros [(t & -> & Ht) Hc]. apply list_elem_of_In, filter_In in Ht as [Ht _]. split; [|done]. exists t. split; [done|]. by apply list_elem_of_In.
  - intros [(t & -> & Ht) Hc]. split; [|done]. exists t. split; [done|]. apply list_elem_of_In, filter_In. split; [by apply list_elem_of_In|].
    apply negb_true_iff, Z.eqb_neq. apply (Hp (t_conf t)). split; [by apply row_in|done].
Qed.
Lemma tn_tnbr_check p : stays tn_rel (tnbr_check p).
Proof.
  intros s a s' H Hs. unfold tnbr_check in H. apply bind_inv in H as (t & s1 & H1 & H). unfold get_tnbr, deref in H1.
  destruct (find_ptr p (d_tnbrs s)) as [u|] eqn:Et; [|done]. simplify_eq. destruct (_ && _) eqn:E in H; [|unfold ret in H; by simplify_eq].
  apply andb_true_iff in E as [E _]. apply negb_true_iff, flag_none in E.
  apply bind_inv in H as (v & s2 & H2 & H). unfold ret in H. simplify_eq. unfold tnbr_del in H2.
  apply bind_inv in H2 as (u1 & s3 & H3 & H2). apply bind_inv in H2 as (t1 & s4 & H4 & H2).
  apply bind_inv in H2 as (u2 & s5 & H5 & H2). apply bind_inv in H2 as (t2 & s6 & H6 & H2).
  assert (stays tn_rel (tnbr_stop_hello_timer p)) as Hst by (unfold tnbr_stop_hello_timer; stays_solve).
  assert (tn_rel s1 s6) as HR.
  { etrans; [|etrans; [|etrans]]; [exact (Hst _ _ _ H3)|exact (stays_get_tnbr (R := tn_rel) _ _ _ _ H4)
      | |exact (stays_get_tnbr (R := tn_rel) _ _ _ _ H6)].
    destruct (t_adj t1); [exact (stays_adj_del (R := tn_rel) _ _ _ _ _ H5)|unfold ret in H5; by simplify_eq]. }
  destruct (HR Hs) as [Hs6 E6]. unfold modify in H2. simplify_eq.
  destruct (del_rows p s6) as [Hd Ed]; [done| |done|split; [done|intros c; by rewrite Ed, E6]].
  intros c Hc Hp. apply E6 in Hc as [Hc Hc2]. apply list_elem_of_fmap in Hc as (w & -> & Hw).
  pose proof (find_row s1 w Hs Hw) as F. change (t_ptr w) with (trow_ptr (t_conf w)) in F. rewrite Hp, Et in F. congruence.
Qed.
#[local] Hint Resolve tn_tnbr_check : stays.
#[local] Hint Extern 1 (forall _, t_conf (clear_t_flag F_TNBR_DYNAMIC _) = _) => apply flag_dynamic : stays.
Lemma tn_pw_exit p : stays tn_rel (ldpe_l2vpn_pw_exit p).
Proof. unfold ldpe_l2vpn_pw_exit. stays_solve. Qed.
Lemma tn_global env x : stays tn_rel (merge_global env x).
Proof. unfold merge_global, ldpe_reset_nbrs, ldpe_reset_ds_nbrs. stays_solve. Qed.
Lemma tn_af env af x : stays tn_rel (merge_af env af x).
Proof.
  unfold merge_af, ldpe_stop_init_backoff, ldpe_remove_dynamic_tnbrs, ldpe_reset_nbrs. stays_solve.
Qed.
Lemma tn_merge_ifaces env x : stays tn_rel (merge_ifaces env x).
Proof.
  unfold merge_ifaces, merge_ifaces_del, merge_iface, merge_iface_af, mod_ia, mod_iface, if_exit, if_free, if_reset,
    if_stop_hello_timer. stays_solve. all: apply stays_if_del_adjs.
Qed.
Lemma tn_merge_nbrps env x : stays tn_rel (merge_nbrps env x).
Proof. unfold merge_nbrps, merge_nbrps_del, merge_nbrp, restart_session. stays_solve. Qed.
(** A new one is linked in at the address it was given. *)
Lemma cons_rows t s : tns_placed s -> t_ptr t = d_next s -> forall s1, d_tnbrs s1 = d_tnbrs s -> d_next s < d_next s1 ->
  tns_placed (set_tnbrs (cons t) s1) /\ forall c, conf_row (set_tnbrs (cons t) s1) c <-> conf_row s c \/ c = t_conf t /\ c.2 = true.
Proof.
  intros Hs Hp s1 E Hn. split.
  - unfold tns_placed. cbn. rewrite E. apply (store_ok_mono (d_next s + 1)); [lia|]. by apply store_ok_cons.
  - intros c. unfold conf_row, t_rows. cbn. rewrite E, elem_of_cons. tauto.
Qed.
Lemma tn_pw_init p : stays tn_rel (ldpe_l2vpn_pw_init p).
Proof.
  unfold ldpe_l2vpn_pw_init. apply stays_bind; [apply stays_get|intros s0]. apply stays_bind; [|intros q; stays_solve].
  destruct (tnbr_find s0 _ _); [apply stays_ret|]. intros s a s' H Hs.
  apply bind_inv in H as (t & s1 & H1 & H). apply bind_inv in H as (t' & s2 & H2 & H). apply bind_inv in H as (u & s3 & H3 & H).
  unfold tnbr_new in H1. apply bind_inv in H1 as (q & s4 & H4 & H1). unfold alloc in H4. unfold ret in *. unfold modify in H3. simplify_eq.
  pose proof (stays_tnbr_updated (R := next_rel) _ _ _ _ H2) as Hn. apply tnbr_updated_conf in H2 as [E Et].
  destruct (cons_rows t' s Hs ltac:(injection Et; auto) s2 E) as [Hp Hc]; [unfold next_rel in Hn; cbn in Hn; lia|].
  split; [done|]. intros c. rewrite Hc. split; [|by left]. intros [?|[-> Hc2]]; [done|]. by rewrite Et in Hc2.
Qed.
#[local] Hint Resolve tn_pw_init tn_pw_exit : stays.
Lemma tn_merge_l2vpns l xls : stays tn_rel (merge_l2vpns l xls).
Proof.
  unfold merge_l2vpns. apply stays_bind; [|intros]; (apply stays_floop; [typeclasses eauto|intros]).
  - unfold merge_l2vpn_gone, ldpe_l2vpn_exit. stays_solve.
  - unfold merge_l2vpn_one, ldpe_l2vpn_init. destruct (l2vpn_find _ _); [|stays_solve].
    apply stays_bind; [|intros; apply stays_ret]. unfold merge_l2vpn.
    repeat (apply stays_bind; [apply stays_floop; [typeclasses eauto|]|]; intros);
      try apply stays_ret; unfold merge_pw, merge_inactive_pw, merge_pw_del; stays_solve.
Qed.

(** The configured ones that are gone. *)
Definition t_gone (x : ldpd_conf) (t : tnbr) : Prop :=
  has_flag (t_flags t) F_TNBR_CONFIGURED = true /\ xtnbr_find (xc_tnbr_list x) (t_af t) (t_addr t) = None.
Lemma tnbr_del_step p s a s' : tns_placed s ->
  (mod_tnbr p (clear_t_flag F_TNBR_CONFIGURED) ;;; tnbr_check p ;;; ret tt) s = Ok (a, s') ->
  tns_placed s' /\ forall c, conf_row s' c <-> conf_row s c /\ trow_ptr c <> p.
Proof.
  intros Hs H. apply bind_inv in H as (u & s1 & H1 & H). apply bind_inv in H as (b & s2 & H2 & H). unfold ret in H. simplify_eq.
  unfold mod_tnbr in H1. apply bind_inv in H1 as (t & s3 & H3 & H1). unfold get_tnbr, deref in H3.
  destruct (find_ptr p (d_tnbrs s)) as [w|] eqn:Et; [|done]. unfold modify in H1. simplify_eq.
  assert (tns_placed (set_tnbrs (upd_ptr p (clear_t_flag F_TNBR_CONFIGURED)) s3)) as Hp by (by apply store_ok_upd).
  destruct (tn_tnbr_check _ _ _ _ H2 Hp) as [Hs' E]. split; [done|]. intros c. rewrite E. unfold conf_row.
  rewrite (upd_rows _ _ _ _ Hs Et). split.
  - intros [[-> | ?] Hc]; [|tauto]. by rewrite flag_cleared in Hc.
  - tauto.
Qed.
Lemma tnbr_del_loop x l : forall s a s',
  foreach (fun t =>
    if negb (has_flag (t_flags t) F_TNBR_CONFIGURED) then ret tt
    else
      match xtnbr_find (xc_tnbr_list x) (t_af t) (t_addr t) with
      | None => mod_tnbr (t_ptr t) (clear_t_flag F_TNBR_CONFIGURED) ;;; tnbr_check (t_ptr t) ;;; ret tt
      | Some _ => ret tt
      end) l s = Ok (a, s') -> tns_placed s ->
  tns_placed s' /\ forall c, conf_row s' c <-> conf_row s c /\ forall t, t ∈ l -> t_gone x t -> trow_ptr c <> t_ptr t.
Proof.
  induction l as [|t l IH]; intros s a s' H Hs; cbn [foreach] in H.
  { unfold ret in H. simplify_eq. split; [done|]. intros c. split; [|by intros [? _]]. intros Hc. split; [done|]. by intros t Ht%elem_of_nil. }
  apply bind_inv in H as (u & s1 & H1 & H2).
  assert (tns_placed s1 /\ forall c, conf_row s1 c <-> conf_row s c /\ (t_gone x t -> trow_ptr c <> t_ptr t)) as [Hs1 E1].
  { unfold t_gone. destruct (has_flag (t_flags t) F_TNBR_CONFIGURED); cbn [negb] in H1; [destruct (xtnbr_find _ _ _) eqn:E|].
    - unfold ret in H1. simplify_eq. split; [done|]. intros c. split; [|tauto]. intros ?. split; [done|]. by intros [_ ?].
    - destruct (tnbr_del_step _ _ _ _ Hs H1) as [? E1]. split; [done|]. intros c. rewrite E1. intuition.
    - unfold ret in H1. simplify_eq. split; [done|]. intros c. split; [|tauto]. intros ?. split; [done|]. by intros [? _]. }
  destruct (IH _ _ _ H2 Hs1) as [Hs' E']. split; [done|]. intros c. rewrite E', E1. split.
  - intros [[Hc Ht] Hl]. split; [done|]. intros w [-> |Hw]%elem_of_cons; [done|by apply Hl].
  - intros [Hc Hl]. split; [split; [done|]|]; [apply Hl; by left|]. intros w Hw. apply Hl. by right.
Qed.
Lemma merge_tnbrs_del_rows x s a s' : tns_placed s -> merge_tnbrs_del x s = Ok (a, s') ->
  tns_placed s' /\ forall c, conf_row s' c <-> conf_row s c /\ is_Some (xtnbr_find (xc_tnbr_list x) c.1.1.2 c.1.2).
Proof.
  intros Hs H. unfold merge_tnbrs_del in H. rewrite (bind_ok get _ s s s) in H by done.
  destruct (tnbr_del_loop _ _ _ _ _ H Hs) as [Hs' E]. split; [done|]. intros c. rewrite E. split; intros [Hc Hl]; (split; [done|]).
  - destruct Hc as [Hc Hc2]. apply list_elem_of_fmap in Hc as (t & -> & Ht).
    destruct (xtnbr_find _ _ _) eqn:Ef; [by eexists|]. by destruct (Hl t Ht).
  - intros t Ht [_ Hg] Hp. destruct Hc as [Hc _]. apply list_elem_of_fmap in Hc as (w & -> & Hw).
    assert (w = t) as -> by (apply (nodup_fmap_inj t_ptr (d_tnbrs s)); [apply Hs|done..]). cbn in Hl. rewrite Hg in Hl. by destruct Hl.
Qed.
End Tnbrs.

(** Addresses are addresses. *)
Definition tn_addrs (s : disc) : Prop := Forall (fun t => addr_ok (t_addr t)) (d_tnbrs s).
Definition addrs_rel (s s' : disc) : Prop := tn_addrs s -> tn_addrs s'.
Lemma addrs_upd p f s : (forall t, find_ptr p (d_tnbrs s) = Some t -> addr_ok (t_addr t) -> addr_ok (t_addr (f t))) ->
  tns_placed s -> tn_addrs s -> tn_addrs (set_tnbrs (upd_ptr p f) s).
Proof.
  intros Hf Hs Ha. unfold tn_addrs in *. cbn. unfold upd_ptr. apply Forall_fmap, Forall_forall. intros t Ht. cbn.
  rewrite Forall_forall in Ha. destruct (ptr_of t =? p) eqn:E; zbool; [|by apply Ha]. apply Hf; [|by apply Ha]. rewrite <- E. by apply find_row.
Qed.
Definition ta_rel (s s' : disc) : Prop := tns_placed s -> tns_placed s' /\ (tn_addrs s -> tn_addrs s').
#[export] Instance ta_local : Local ta_rel.
Proof.
  split; try (intros; intros Hs; split; [exact Hs|done]).
  - split; [by intros s Hs|]. intros a b c H1 H2 Hs. destruct (H1 Hs) as [Hb A1]. destruct (H2 Hb) as [Hc A2]. auto.
  - intros p f s Hf Hs. split; [exact (proj1 (local_tnbrs p f s Hf Hs))|]. intros Ha. apply addrs_upd; [|done..].
    intros t Ht. specialize (Hf t Ht). unfold t_conf in Hf. congruence.
Qed.
Lemma ta_conf f s : ta_rel s (set_conf f s). Proof. done. Qed.
Lemma ta_ifaces f s : ta_rel s (set_ifaces f s). Proof. done. Qed.
Lemma ta_del p s : ta_rel s (set_tnbrs (del_ptr p) s).
Proof.
  intros Hs. split; [by apply store_ok_del|]. intros Ha. eapply sub_Forall; [apply lfilter_sub|exact Ha].
Qed.
Lemma ta_alloc : stays ta_rel alloc.
Proof. intros s a s' H Hs. split; [exact (proj1 (tn_alloc _ _ _ H Hs))|]. unfold alloc in H. by simplify_eq. Qed.
#[export] Hint Resolve ta_conf ta_ifaces ta_del : local.
#[export] Hint Resolve ta_alloc : stays.

Section TnbrAddrs.
Implicit Types (s : disc) (c : t_row).
Lemma ta_mod p f : (forall t, t_ptr (f t) = t_ptr t /\ t_addr (f t) = t_addr t) -> stays ta_rel (mod_tnbr p f).
Proof.
  intros Hf s a s' H Hs. unfold mod_tnbr in H. apply bind_inv in H as (t & s1 & H1 & H). unfold get_tnbr, deref in H1. case_match; [|done].
  unfold modify in H. simplify_eq. split; [apply store_ok_upd; [intros u; apply Hf|done]|]. intros Ha. apply addrs_upd; [|done..].
  intros u _. by destruct (Hf u) as [_ ->].
Qed.
Lemma ta_tnbr_check p : stays ta_rel (tnbr_check p).
Proof. unfold tnbr_check, tnbr_del, tnbr_stop_hello_timer. stays_solve. Qed.
#[local] Hint Resolve ta_tnbr_check : stays.
Lemma ta_global env x : stays ta_rel (merge_global env x).
Proof. unfold merge_global, ldpe_reset_nbrs, ldpe_reset_ds_nbrs. stays_solve. Qed.
Lemma ta_af env af x : stays ta_rel (merge_af env af x).
Proof.
  unfold merge_af, ldpe_stop_init_backoff, ldpe_remove_dynamic_tnbrs, ldpe_reset_nbrs.
  repeat first [apply ta_mod; intros ?; done | stays_step].
Qed.
Lemma ta_merge_ifaces env x : stays ta_rel (merge_ifaces env x).
Proof.
  unfold merge_ifaces, merge_ifaces_del, merge_iface, merge_iface_af, mod_ia, mod_iface, if_exit, if_free, if_reset,
    if_stop_hello_timer. stays_solve. all: apply stays_if_del_adjs.
Qed.
Lemma ta_merge_tnbrs_del x : stays ta_rel (merge_tnbrs_del x).
Proof. unfold merge_tnbrs_del. repeat first [apply ta_mod; intros ?; done | stays_step]. Qed.

(** One targeted neighbour of the new configuration. *)
Definition t_keyed (s : disc) (k : Z * list Z) : Prop := exists c, conf_row s c /\ trow_key c = k.
Lemma merge_tnbr_rows xt s a s' : tns_placed s -> tn_addrs s -> tnbr_conf_ok xt -> merge_tnbr xt s = Ok (a, s') ->
  tns_placed s' /\ tn_addrs s' /\ forall k, t_keyed s' k <-> t_keyed s k \/ k = key xt.
Proof.
  intros Hs Ha (Haf & Hax & Hfl & _) H. unfold merge_tnbr in H. rewrite (bind_ok get _ s s s) in H by done.
  destruct (tnbr_find s (t_af xt) (t_addr xt)) as [t|] eqn:Ef.
  - apply list_find_in in Ef as [Ht E]. apply andb_true_iff in E as [E1 E2]. zbool. unfold tn_addrs in Ha. rewrite Forall_forall in Ha.
    rewrite same_addr_key in E2 by (done || by apply Ha). apply bool_decide_eq_true in E2.
    assert (trow_key (t_conf t) = key xt) as Ek.
    { change (trow_key (t_conf t)) with (t_af t, addr_key (t_af t) (t_addr t)). unfold key, tnbr_keyed. by rewrite <- E1, E2. }
    destruct (has_flag (t_flags t) F_TNBR_CONFIGURED) eqn:Ec; cbn [negb] in H.
    + unfold ret in H. simplify_eq. split_and!; [done|by apply Forall_forall|]. intros k. split; [by left|]. intros [? | ->]; [done|].
      exists (t_conf t). split; [|done]. split; [by apply row_in|exact Ec].
    + set (f := fun t => set_t_flags t _) in H. assert (stays ta_rel (mod_tnbr (t_ptr t) f)) as Hm by (by apply ta_mod).
      destruct (Hm _ _ _ H Hs) as [Hs' Ha']. split_and!; [done|apply Ha'; by apply Forall_forall|].
      pose proof (find_row s t Hs Ht) as Hft. rewrite (mod_tnbr_ok _ _ _ _ Hft) in H. simplify_eq. intros k. unfold t_keyed, conf_row.
      setoid_rewrite (upd_rows _ f _ _ Hs Hft). split.
      * intros (c & [[-> | [Hc _]] Hc2] & <-); [right; rewrite <- Ek; unfold f; by rewrite flag_set|left; by exists c].
      * intros [(c & [Hc Hc2] & <-) | ->].
        -- exists c. split; [|done]. split; [|done]. destruct (decide (trow_ptr c = t_ptr t)) as [Ep|]; [|by right]. exfalso.
           apply list_elem_of_fmap in Hc as (w & -> & Hw). assert (w = t) as -> by (by apply (nodup_fmap_inj t_ptr (d_tnbrs s)); [apply Hs|..]).
           cbn in Hc2. congruence.
        -- exists (t_conf (f t)). unfold f. rewrite flag_set. split; [split; [by left|done]|]. by rewrite <- Ek.
  - apply bind_inv in H as (p & s1 & H1 & H). apply bind_inv in H as (u & s2 & H2 & H). unfold alloc in H1. unfold modify in H2. simplify_eq.
    set (t := place_tnbr (d_next s) xt) in *. set (s1 := Disc _ _ _ _ _ _ _ _ _ _ _ _ _) in H.
    destruct (cons_rows t s Hs eq_refl s1 eq_refl) as [Hp Hc]; [cbn; lia|].
    destruct (stays_tnbr_update (R := tn_rel) _ _ _ _ H Hp) as [Hs' E']. split_and!; [done|..].
    + apply (stays_tnbr_update (R := ta_rel) _ _ _ _ H Hp). constructor; [exact Hax|exact Ha].
    + intros k. unfold t_keyed. setoid_rewrite E'. setoid_rewrite Hc. split.
      * intros (c & [? | [-> _]] & <-); [left; by exists c|by right].
      * intros [(c & ? & <-) | ->]; [by exists c; split; [left|]|]. exists (t_conf t). split; [|done]. right. split; [done|exact Hfl].
Qed.
Lemma merge_tnbrs_keys x s a s' : tns_placed s -> tn_addrs s -> Forall tnbr_conf_ok (xc_tnbr_list x) -> merge_tnbrs x s = Ok (a, s') ->
  tns_placed s' /\ forall k, t_keyed s' k <-> k ∈ keys_of (xc_tnbr_list x).
Proof.
  intros Hs Ha Hx H. unfold merge_tnbrs in H. apply bind_inv in H as (u & s1 & H1 & H2).
  destruct (ta_merge_tnbrs_del _ _ _ _ H1 Hs) as [_ Ha1]. specialize (Ha1 Ha). destruct (merge_tnbrs_del_rows _ _ _ _ Hs H1) as [Hs1 E1].
  assert (forall xs s1 a, Forall tnbr_conf_ok xs -> tns_placed s1 -> tn_addrs s1 -> foreach merge_tnbr xs s1 = Ok (a, s') ->
    tns_placed s' /\ forall k, t_keyed s' k <-> t_keyed s1 k \/ k ∈ keys_of xs) as Hl.
  { clear. induction xs as [|xt xs IH]; intros s1 a Hx Hs Ha H; cbn [foreach] in H.
    - unfold ret in H. simplify_eq. split; [done|]. intros k. split; [by left|]. intros [? | Hk]; [done|by apply elem_of_nil in Hk].
    - apply bind_inv in H as (u & s2 & H3 & H4). apply Forall_cons in Hx as [Hxt Hx].
      destruct (merge_tnbr_rows _ _ _ _ Hs Ha Hxt H3) as (Hs2 & Ha2 & E2). destruct (IH _ _ Hx Hs2 Ha2 H4) as [Hs' E']. split; [done|].
      intros k. rewrite E', E2. cbn. rewrite elem_of_cons. tauto. }
  destruct (Hl _ _ _ Hx Hs1 Ha1 H2) as [Hs' E']. split; [done|]. intros k. rewrite E'. split; [|by right]. intros [(c & Hc & <-)|?]; [|done].
  apply E1 in Hc as [Hc Hf]. destruct Hc as [Hc _]. apply list_elem_of_fmap in Hc as (t & -> & Ht). cbn in Hf.
  destruct Hf as [xt Hf]. apply list_find_in in Hf as [Hxt E]. apply andb_true_iff in E as [Ea Es]. zbool.
  rewrite Forall_forall in Hx. destruct (Hx xt Hxt) as (Hafx & Haddr & _). unfold tn_addrs in Ha. rewrite Forall_forall in Ha.
  rewrite Ea in Es. rewrite same_addr_key in Es by (done || by apply Ha). apply bool_decide_eq_true in Es.
  change (trow_key (t_conf t)) with (t_af t, addr_key (t_af t) (t_addr t)). rewrite Ea, Es.
  change (key xt ∈ keys_of (xc_tnbr_list x)). by apply list_elem_of_fmap_2.
Qed.
End TnbrAddrs.

(** ** L2VPNs: the lists change as those of the parent do *)
Section L2vpns.
Lemma merge_pw_is xp l s l' s' : merge_pw xp l s = Ok (l', s') -> merge_pw_main xp l = Ok l'.
Proof.
  intros H. unfold merge_pw in H. unfold merge_pw_main. destruct (l2vpn_pw_find_name _ _ _) as [pw|].
  - apply bind_inv in H as (moved & s1 & H1 & H). cbv zeta in H.
    assert (exists r, (if negb (pwc_af pw =? pwc_af xp) then Ok 0 else ldp_addrcmp (pwc_af pw) (pwc_addr pw) (pwc_addr xp)) = Ok r) as [r ->].
    { destruct (negb _); [by eexists|]. apply bind_inv in H1 as (r & s2 & H1 & _). unfold lift in H1. destruct (ldp_addrcmp _ _ _); [by eexists|done..]. }
    cbn [rbind]. destruct (pw_disabled xp).
    + apply bind_inv in H as (u & s2 & _ & H). unfold ret in H. simplify_eq. done.
    + apply bind_inv in H as (u & s2 & _ & H). apply bind_inv in H as (u2 & s3 & _ & H). apply bind_inv in H as (u3 & s4 & _ & H).
      unfold ret in H. simplify_eq. done.
  - apply bind_inv in H as (u & s2 & _ & H). unfold ret in H. by simplify_eq.
Qed.
Lemma merge_ipw_is xp l s l' s' : merge_inactive_pw xp l s = Ok (l', s') -> merge_ipw_main xp l = l'.
Proof.
  intros H. unfold merge_inactive_pw in H. unfold merge_ipw_main. destruct (l2vpn_pw_find_name _ _ _) as [pw|]; [|unfold ret in H; by simplify_eq].
  cbv zeta in H. destruct (pw_disabled xp); [unfold ret in H; by simplify_eq|].
  apply bind_inv in H as (u & s2 & _ & H). unfold ret in H. by simplify_eq.
Qed.
(** A loop over states follows the loop over lists. *)
Lemma floop_rloop {A B} (f : A -> B -> ST disc B) (g : A -> B -> res B) xs :
  (forall x b s b' s', f x b s = Ok (b', s') -> g x b = Ok b') -> forall b s b' s', floop f xs b s = Ok (b', s') -> rloop g xs b = Ok b'.
Proof.
  intros Hf. induction xs as [|x xs IH]; intros b s b' s' H; cbn [floop rloop] in *; [unfold ret in H; by simplify_eq|].
  apply bind_inv in H as (b1 & s1 & H1 & H2). rewrite (Hf _ _ _ _ _ H1). cbn [rbind]. by eapply IH.
Qed.
Lemma floop_fold {A B} (f : A -> B -> ST disc B) (g : A -> B -> B) xs :
  (forall x b s b' s', f x b s = Ok (b', s') -> g x b = b') -> forall b s b' s', floop f xs b s = Ok (b', s') ->
  fold_left (fun b x => g x b) xs b = b'.
Proof.
  intros Hf. induction xs as [|x xs IH]; intros b s b' s' H; cbn [floop fold_left] in *; [unfold ret in H; by simplify_eq|].
  apply bind_inv in H as (b1 & s1 & H1 & H2). rewrite (Hf _ _ _ _ _ H1). by eapply IH.
Qed.
Definition pw_kept (xl : l2vpn) (p : pw_conf) : bool :=
  bool_decide (is_Some (l2vpn_pw_find_name (lv_pw_list xl) (lv_pw_inactive_list xl) (pwc_ifname p))).
Lemma pw_gone_loop xl l : forall k s a s', floop (merge_pw_del xl) l (k ++ l) s = Ok (a, s') ->
  Forall (fun p => pw_kept xl p = true) k -> a = k ++ List.filter (pw_kept xl) l.
Proof.
  induction l as [|p l IH]; intros k s a s' H HK; cbn [floop] in H; [unfold ret in H; by simplify_eq|].
  apply bind_inv in H as (b & s1 & H1 & H2). cbn [List.filter]. unfold merge_pw_del in H1. unfold pw_kept at 1.
  destruct (l2vpn_pw_find_name _ _ (pwc_ifname p)) as [y|] eqn:Ey.
  - rewrite bool_decide_true by eauto. unfold ret in H1. simplify_eq. replace (k ++ p :: l) with ((k ++ [p]) ++ l) in H2 by (by rewrite <- app_assoc).
    rewrite (IH (k ++ [p]) _ _ _ H2); [by rewrite <- app_assoc|]. apply Forall_app. split; [done|]. constructor; [|done].
    unfold pw_kept. rewrite Ey. by rewrite bool_decide_true by eauto.
  - rewrite bool_decide_false by (by intros [? ?]). apply bind_inv in H1 as (u & s2 & _ & H1). unfold ret in H1. simplify_eq.
    assert (pw_take (pwc_ifname p) (k ++ p :: l) = k ++ l) as Et.
    { clear -HK Ey. induction k as [|q k IHk]; cbn; [by rewrite String.eqb_refl|]. apply Forall_cons in HK as [Hq HK].
      rewrite (IHk HK). destruct (String.eqb _ _) eqn:E; [|done]. apply String.eqb_eq in E. unfold pw_kept in Hq. rewrite E, Ey in Hq. done. }
    rewrite Et in H2. by apply (IH k _ _ _ H2).
Qed.
Lemma merge_l2vpn_is v xl s v' s' : merge_l2vpn v xl s = Ok (v', s') -> merge_l2vpn_main v xl = Ok v'.
Proof.
  intros H. unfold merge_l2vpn in H. apply bind_inv in H as (act & s1 & H1 & H). apply bind_inv in H as (l & s2 & H2 & H).
  cbv zeta in H. apply bind_inv in H as (l2 & s3 & H3 & H). unfold ret in H. simplify_eq.
  apply (pw_gone_loop xl _ []) in H1; [|done]. cbn [app] in H1. unfold merge_l2vpn_main. fold (pw_kept xl). rewrite <- H1.
  rewrite (floop_rloop _ _ _ merge_pw_is _ _ _ _ H2). cbn [rbind]. by rewrite (floop_fold _ _ _ merge_ipw_is _ _ _ _ H3).
Qed.
Lemma merge_l2vpns_is l xls s l' s' : merge_l2vpns l xls s = Ok (l', s') -> merge_l2vpns_main l xls = Ok l'.
Proof.
  intros H. unfold merge_l2vpns in H. apply bind_inv in H as (l1 & s1 & H1 & H2). apply (vpn_gone_loop xls l [] s l1 s1) in H1; [|done].
  cbn [app] in H1. unfold merge_l2vpns_main.
  rewrite (filter_ext _ (vpn_kept xls)) by (intros v _; unfold vpn_kept; by destruct (l2vpn_find xls (lv_name v))).
  rewrite <- H1. refine (floop_rloop merge_l2vpn_one _ _ _ _ _ _ _ H2). clear. intros xl l s l' s' H. unfold merge_l2vpn_one in H.
  destruct (l2vpn_find l (lv_name xl)) as [v|].
  - apply bind_inv in H as (v' & s1 & H1 & H). unfold ret in H. simplify_eq. by rewrite (merge_l2vpn_is _ _ _ _ _ H1).
  - apply bind_inv in H as (u & s1 & _ & H). unfold ret in H. by simplify_eq.
Qed.
End L2vpns.

(** ** What the engine runs with *)
Definition engine_af (c : le_conf) (af : Z) : xaf := XAf (conf_keepalive (lc_sess c) af) (af_of c af).
Definition tnbrs_configured (s : disc) : list tnbr := List.filter (fun t => has_flag (t_flags t) F_TNBR_CONFIGURED) (d_tnbrs s).
Definition disc_view (s : disc) (vpns : list l2vpn) : conf_view :=
  let c := d_conf s in
  ConfView (c_rtr_id (lc_sess c)) (view_af AF_INET (engine_af c AF_INET)) (view_af AF_INET6 (engine_af c AF_INET6))
    (view_if <$> kmap (d_ifaces s)) (list_to_set (keys_of (tnbrs_configured s))) (kmap (nbrps_of s)) (view_vpn <$> kmap vpns)
    (lc_lhello_holdtime c) (lc_lhello_interval c) (lc_thello_holdtime c) (lc_thello_interval c) (lc_trans_pref c) (lc_flags c).
Definition engine_view (e : engine) : conf_view := disc_view (en_disc e) (en_l2vpns e).

(** Its data: transport addresses and targeted neighbours have proper addresses,
    L2VPNs and pseudowires one name each. *)
Definition trans_ok (c : le_conf) : Prop := addr_ok (af_trans_addr (lc_ipv4 c)) /\ addr_ok (af_trans_addr (lc_ipv6 c)).
Definition vpns_fine (l : list l2vpn) : Prop := NoDup (keys_of l) /\ Forall vpn_run_ok l.
Record engine_data (e : engine) : Prop := EngineData {
  ed_trans : trans_ok (d_conf (en_disc e));
  ed_tnbrs : tn_addrs (en_disc e);
  ed_vpns : vpns_fine (en_l2vpns e)
}.

Section Whole.
Lemma tnbrs_configured_keys s k : k ∈ keys_of (tnbrs_configured s) <-> t_keyed s k.
Proof.
  unfold keys_of, tnbrs_configured, t_keyed, conf_row, t_rows. rewrite list_elem_of_fmap. setoid_rewrite list_elem_of_fmap.
  setoid_rewrite list_elem_of_In at 1. setoid_rewrite filter_In. split.
  - intros (t & -> & Ht & Hc). exists (t_conf t). split; [|done]. split; [|exact Hc]. exists t. split; [done|]. by apply list_elem_of_In.
  - intros (c & [(t & -> & Ht) Hc] & <-). exists t. split; [done|]. split; [by apply list_elem_of_In|exact Hc].
Qed.
Lemma addrcmp_same af a b : af_ok af -> addr_ok a -> addr_ok b -> ldp_addrcmp af a b = Ok 0 -> addr_key af a = addr_key af b.
Proof. intros Haf Ha Hb H. destruct (addrcmp_key af a b Haf Ha Hb) as (c & E & Hc). apply Hc. congruence. Qed.


(** The seven parts of the merge. *)
Ltac merge_parts H :=
  unfold merge_config in H;
  apply bind_inv in H as (?u & ?s & ?H & H); apply bind_inv in H as (?u & ?s & ?H & H);
  apply bind_inv in H as (?u & ?s & ?H & H); apply bind_inv in H as (?u & ?s & ?H & H);
  apply bind_inv in H as (?u & ?s & ?H & H); apply bind_inv in H as (?u & ?s & ?H & H).

Lemma merge_config_params env vpns x s l s' : trans_ok (d_conf s) -> conf_run_ok x -> merge_config env vpns x s = Ok (l, s') ->
  exists a4 a6 nl, d_conf s' = set_lc_sess (set_c_nbrps (fun _ => nl))
      (af_merged AF_INET6 (xc_ipv6 x) a6 (af_merged AF_INET (xc_ipv4 x) a4 (global_merged x (d_conf s)))) /\
    addr_ok a4 /\ addr_ok a6 /\ addr_key AF_INET a4 = addr_key AF_INET (af_trans_addr (xa_conf (xc_ipv4 x))) /\
    addr_key AF_INET6 a6 = addr_key AF_INET6 (af_trans_addr (xa_conf (xc_ipv6 x))).
Proof.
  intros [T4 T6] [[X4 X6 _ _ _ _ _ _] _] H. merge_parts H.
  pose proof (merge_global_conf _ _ _ _ _ H0) as C1.
  destruct (merge_af_conf _ _ _ _ _ _ (or_introl eq_refl) H1) as (a4 & C2 & A4 & O4).
  destruct (merge_af_conf _ _ _ _ _ _ (or_intror eq_refl) H2) as (a6 & C3 & A6 & O6).
  pose proof (conf_merge_ifaces _ _ _ _ _ H3) as C4. pose proof (conf_merge_tnbrs _ _ _ _ H4) as C5.
  destruct (merge_nbrps_conf _ _ _ _ _ H5) as [nl C6]. pose proof (conf_merge_l2vpns _ _ _ _ _ H) as C7. unfold conf_rel in *.
  rewrite C2, C1 in O6. rewrite C1 in O4.
  assert (addr_ok a4) as Ha4 by (destruct O4 as [-> | ->]; assumption).
  assert (addr_ok a6) as Ha6 by (destruct O6 as [-> | ->]; assumption).
  exists a4, a6, nl. split_and!; [by rewrite C7, C6, C5, C4, C3, C2, C1|done|done|by apply addrcmp_same; [left|..]|by apply addrcmp_same; [right|..]].
Qed.

Lemma next_global env x : stays next_rel (merge_global env x).
Proof. unfold merge_global, ldpe_reset_nbrs, ldpe_reset_ds_nbrs. stays_solve. Qed.
Lemma next_tnbr_check p : stays next_rel (tnbr_check p).
Proof. unfold tnbr_check, tnbr_del, tnbr_stop_hello_timer. stays_solve. Qed.
#[local] Hint Resolve next_tnbr_check : stays.
Lemma next_af env af x : stays next_rel (merge_af env af x).
Proof. unfold merge_af, ldpe_stop_init_backoff, ldpe_remove_dynamic_tnbrs, mod_tnbr, ldpe_reset_nbrs. stays_solve. Qed.
Lemma merge_config_ifaces env vpns x s l s' : disc_inv s -> NoDup (keys_of (xc_iface_list x)) -> merge_config env vpns x s = Ok (l, s') ->
  view_if <$> kmap (d_ifaces s') = view_if <$> kmap (xc_iface_list x).
Proof.
  intros I Hx H. merge_parts H.
  assert (ifs_placed s2) as P.
  { apply (ifs_rel_placed s); [| |apply I].
    - etrans; [exact (ifs_global _ _ _ _ _ H0)|]. etrans; [exact (ifs_af _ _ _ _ _ _ H1)|exact (ifs_af _ _ _ _ _ _ H2)].
    - etrans; [exact (next_global _ _ _ _ _ H0)|]. etrans; [exact (next_af _ _ _ _ _ _ H1)|exact (next_af _ _ _ _ _ _ H2)]. }
  rewrite <- (merge_ifaces_views _ _ _ _ _ P Hx H3). apply map_eq. intros n. rewrite !lookup_fmap, !lookup_kmap. apply ifs_rel_find.
  etrans; [exact (ifs_merge_tnbrs _ _ _ _ H4)|]. etrans; [exact (ifs_merge_nbrps _ _ _ _ _ H5)|exact (ifs_merge_l2vpns _ _ _ _ _ H)].
Qed.
Lemma merge_config_tnbrs env vpns x s l s' : disc_inv s -> tn_addrs s -> Forall tnbr_conf_ok (xc_tnbr_list x) ->
  merge_config env vpns x s = Ok (l, s') ->
  list_to_set (keys_of (tnbrs_configured s')) =@{gset (Z * list Z)} list_to_set (keys_of (xc_tnbr_list x)).
Proof.
  intros I Ha Hx H. merge_parts H. pose proof (di_tnbrs _ I) as P.
  assert (ta_rel s s3) as HT.
  { etrans; [exact (ta_global _ _ _ _ _ H0)|]. etrans; [exact (ta_af _ _ _ _ _ _ H1)|].
    etrans; [exact (ta_af _ _ _ _ _ _ H2)|exact (ta_merge_ifaces _ _ _ _ _ H3)]. }
  destruct (HT P) as [P3 Ha3]. destruct (merge_tnbrs_keys _ _ _ _ P3 (Ha3 Ha) Hx H4) as [P4 E4].
  assert (tn_rel s4 s') as HR by (etrans; [exact (tn_merge_nbrps _ _ _ _ _ H5)|exact (tn_merge_l2vpns _ _ _ _ _ H)]).
  destruct (HR P4) as [_ E]. apply set_eq. intros k. rewrite !elem_of_list_to_set, tnbrs_configured_keys, <- E4.
  unfold t_keyed. by setoid_rewrite E.
Qed.
Lemma merge_config_nbrps env vpns x s l s' : NoDup (keys_of (xc_nbrp_list x)) -> merge_config env vpns x s = Ok (l, s') ->
  kmap (nbrps_of s') = kmap (xc_nbrp_list x).
Proof.
  intros Hx H. merge_parts H. pose proof (conf_merge_l2vpns _ _ _ _ _ H) as C. apply kmap_ext. intros id.
  rewrite <- !nbrp_in_kfind. unfold nbrps_of. rewrite C. by apply (merge_nbrps_in _ _ _ _ _ H5).
Qed.
Lemma merge_config_vpns env vpns x s l s' : merge_config env vpns x s = Ok (l, s') -> merge_l2vpns_main vpns (xc_l2vpn_list x) = Ok l.
Proof. intros H. merge_parts H. by apply merge_l2vpns_is in H. Qed.

Lemma merge_config_view env vpns x s l s' : disc_inv s -> trans_ok (d_conf s) -> tn_addrs s -> vpns_fine vpns -> conf_run_ok x ->
  (forall v xl, v ∈ vpns -> xl ∈ xc_l2vpn_list x -> lv_name v = lv_name xl -> pw_from v xl) ->
  merge_config env vpns x s = Ok (l, s') ->
  disc_view s' l = view x /\ lc_conf_seqnum (d_conf s') = lc_conf_seqnum (d_conf s) /\ trans_ok (d_conf s') /\ vpns_fine l.
Proof.
  intros I HT Ha [Vn Vr] Hx Hfrom H. destruct (merge_config_params _ _ _ _ _ _ HT Hx H) as (a4 & a6 & nl & C & Ha4 & Ha6 & K4 & K6).
  pose proof Hx as [[X4 X6 Xi Xt Xto Xn Xv _] Xr].
  destruct (merge_l2vpns_main_ok vpns (xc_l2vpn_list x)) as (l0 & El & Hn & Hr & Hv); try done.
  { intros xl v Hxl Hk. apply kfind_Some in Hk as [Hv Hk]. by apply Hfrom. }
  pose proof (merge_config_vpns _ _ _ _ _ _ H) as El'. rewrite El in El'. injection El' as ->.
  split_and!; [|by rewrite C|by rewrite C|done].
  unfold disc_view. rewrite (merge_config_ifaces _ _ _ _ _ _ I Xi H), (merge_config_tnbrs _ _ _ _ _ _ I Ha Xto H),
    (merge_config_nbrps _ _ _ _ _ _ Xn H), Hv, C. unfold view. f_equal.
  - unfold view_af. cbn -[addr_key]. by rewrite K4.
  - unfold view_af. cbn -[addr_key]. by rewrite K6.
Qed.
End Whole.

(** ** Receiving it *)
Section Received.
Lemma run_ok_parent_conf c : conf_run_ok c -> parent_conf c.
Proof.
  intros [[H4 H6 Hi Ht Htk Hn Hv Hvo] Hr]. split; [|..|exact Hn].
  - eapply Forall_impl; [exact Htk|]. intros t (H1 & _ & _ & H2). by split.
  - eapply Forall_impl; [exact Hr|]. intros v [_ Ha]. unfold lv_pws in Ha. by apply Forall_app in Ha.
Qed.
Lemma received_is c : conf_received c = set_xc_lists (fresh_iface <$> xc_iface_list (ldp_dup_config c)) (xc_tnbr_list (ldp_dup_config c))
  (xc_nbrp_list (ldp_dup_config c)) (xc_l2vpn_list (ldp_dup_config c)) c.
Proof. unfold conf_received. cbn. change (fresh_iface <$> ?l) with (map fresh_iface l). by rewrite map_rev. Qed.
Lemma view_received c : conf_run_ok c -> view (conf_received c) = view c.
Proof.
  intros Hc. rewrite <- (view_dup c Hc), received_is. unfold view. cbn [set_xc_lists xc_rtr_id xc_ipv4 xc_ipv6 xc_iface_list xc_tnbr_list
    xc_nbrp_list xc_l2vpn_list xc_lhello_holdtime xc_lhello_interval xc_thello_holdtime xc_thello_interval xc_trans_pref xc_flags ldp_dup_config].
  f_equal. rewrite (kmap_fmap fresh_iface) by done. rewrite <- map_fmap_compose. by apply map_fmap_ext.
Qed.
Lemma received_run_ok c : conf_run_ok c -> conf_run_ok (conf_received c).
Proof.
  intros Hc. pose proof (de_wf _ _ (dup_derives c Hc)) as [H4 H6 Hi Ht Hto Hn Hv Hvo]. rewrite received_is. split; [split; try done|].
  - cbn [set_xc_lists xc_iface_list]. by rewrite (keys_fmap fresh_iface).
  - cbn [set_xc_lists xc_l2vpn_list ldp_dup_config]. apply Forall_rev, Forall_map. eapply Forall_impl; [exact (cr_vpn _ Hc)|].
    intros v [Hok Ha]. split; [by apply vpn_ok_dup|]. by rewrite pws_dup.
Qed.
Lemma received_from v xl : pw_from v xl -> pw_from v (l2vpn_received xl).
Proof.
  intros [Ha Hi]. split; cbn [l2vpn_received lv_pw_list lv_pw_inactive_list]; intros x Hx;
    apply list_elem_of_In, in_rev, list_elem_of_In in Hx; auto.
Qed.
Lemma received_vpn c y : y ∈ xc_l2vpn_list (conf_received c) -> exists xl, xl ∈ xc_l2vpn_list c /\ y = l2vpn_received xl.
Proof.
  cbn [conf_received xc_l2vpn_list set_xc_lists]. intros Hy. apply list_elem_of_In, in_rev, in_map_iff in Hy as (xl & <- & Hxl).
  exists xl. split; [by apply list_elem_of_In|done].
Qed.

(** What the engine does with the imsgs of a configuration. *)
Lemma send_config_view (env : sys_env) (c : ldpd_conf) (e : engine) : engine_ok e -> engine_data e -> conf_run_ok c ->
  (forall v xl, v ∈ en_l2vpns e -> xl ∈ xc_l2vpn_list c -> lv_name v = lv_name xl -> pw_from v xl) ->
  gone_quiet (conf_received c) (en_disc e) -> room (merge_cost (en_disc e) (en_l2vpns e) (conf_received c)) (en_disc e) ->
  exists e', foreach (ldpe_dispatch_main env) (main_imsg_send_config c) e = Ok (tt, e') /\ engine_ok e' /\ en_nconf e' = None /\
    engine_view e' = view c /\ lc_conf_seqnum (d_conf (en_disc e')) = u32 (lc_conf_seqnum (d_conf (en_disc e)) + 1) /\
    trans_ok (d_conf (en_disc e')) /\ vpns_fine (en_l2vpns e') /\
    merge_l2vpns_main (en_l2vpns e) (xc_l2vpn_list (conf_received c)) = Ok (en_l2vpns e').
Proof.
  intros He [HT Ha Hv] Hc Hfrom Hgone Hroom. rewrite config_pieces. set (x := conf_received c) in *.
  pose proof (received_new_ok c (run_ok_parent_conf c Hc)) as Hx. fold x in Hx. destruct He as [[I HA] Hlv Hn].
  destruct (merge_config_returns env (en_l2vpns e) x (en_disc e) I Hx Hlv Hgone Hroom) as (l & s & E & I' & _ & Hl & _).
  destruct (merge_config_view env (en_l2vpns e) x (en_disc e) l s I HT Ha Hv (received_run_ok c Hc)) as (Hview & Hseq & HT' & Hv'); [|done|].
  { intros v y Hvl (xl & Hxl & ->)%received_vpn En. apply received_from. by apply Hfrom. }
  set (e1 := set_en_nconf (Some x) e). set (s2 := set_conf (fun k => set_lc_conf_seqnum (u32 (lc_conf_seqnum k + 1)) k) s).
  exists (set_en_disc s2 (set_en_nconf None (set_en_l2vpns l (set_en_disc s e1)))). split.
  { unfold reconf_end_imsg. unfold bind at 1. rewrite (bind_ok get _ e1 e1 e1) by done. cbn [e1 set_en_nconf en_nconf].
    rewrite (bind_ok _ _ _ _ _ (in_disc_ok _ e1 _ _ E)). done. }
  split_and!.
  - split; try done. split; [by apply set_conf_inv|]. unfold addrs_ok. cbn. by rewrite (addr_merge_config _ _ _ _ _ _ E).
  - done.
  - rewrite <- (view_received c Hc). fold x. rewrite <- Hview. reflexivity.
  - cbn. by rewrite Hseq.
  - exact HT'.
  - exact Hv'.
  - exact (merge_config_vpns _ _ _ _ _ _ E).
Qed.
End Received.

(** C10: a configuration the parent sends takes effect.  An engine that is
    consistent ([engine_ok], [engine_data]) takes in all the imsgs of
    [main_imsg_send_config] and ends, consistent and with nothing left half
    received, running exactly that configuration: its view is the view of what
    was sent - router id, hello times, preference, flags, keepalive times and
    transport addresses, each interface with the hello parameters of both
    families, the configured targeted neighbours, the parameters of neighbours,
    each L2VPN with its MTU, bridge, members and pseudowires - under the next
    sequence number.  It is required that the interfaces that go have no
    adjacency in a family that is inactive ([gone_quiet]; what happens
    otherwise is in [DiscFaults]), that the message counter has room, and that the configuration
    lists pseudowires as the engine does ([pw_from], which holds for what the
    parent sends an engine in step with it, [EngineSync]). *)
Theorem config_takes_effect (env : sys_env) (c : ldpd_conf) (e : engine)
  (He : engine_ok e) (Hd : engine_data e) (Hc : conf_run_ok c)
  (Hfrom : forall v xl, v ∈ en_l2vpns e -> xl ∈ xc_l2vpn_list c -> lv_name v = lv_name xl -> pw_from v xl)
  (Hgone : gone_quiet (conf_received c) (en_disc e))
  (Hroom : room (merge_cost (en_disc e) (en_l2vpns e) (conf_received c)) (en_disc e)) :
  exists e', foreach (ldpe_dispatch_main env) (main_imsg_send_config c) e = Ok (tt, e') /\ engine_ok e' /\
    en_nconf e' = None /\ engine_view e' = view c /\
    lc_conf_seqnum (d_conf (en_disc e')) = u32 (lc_conf_seqnum (d_conf (en_disc e)) + 1).
Proof. destruct (send_config_view env c e He Hd Hc Hfrom Hgone Hroom) as (e' & ? & ? & ? & ? & ? & _). by exists e'. Qed.

(** The router with one neighbour is given link 7 alone with a hold time of its
    own, a targeted neighbour, parameters for its neighbour and a VPLS with one
    pseudowire. *)
Definition link_7_slow : iface :=
  Iface 0 "eth7" 7 [] zero_addr IF_TYPE_BROADCAST 0x41 (set_ia_hellos ia_up 40 10) ia_down.
Definition nbrp_1 : nbr_params := NbrParams (le_val [1; 1; 1; 1]) 60 0 0 0 "" 0 F_NBRP_KEEPALIVE.
Definition vpls_1 : l2vpn :=
  L2vpn "vpls1" L2VPN_TYPE_VPLS 5 1500 "" 0 [] [PwConf (le_val [9; 9; 9; 9]) AF_INET (v4_addr 10 0 0 9) 100 "mpw0" 0 0] [].
Definition conf_new : ldpd_conf :=
  set_xc_lists [link_7_slow] [tnbr_9] [nbrp_1] [vpls_1] conf_head.
Lemma v4_addr_ok a b c d : bytes_okb [a; b; c; d] = true -> addr_ok (v4_addr a b c d).
Proof. intros H. split; [done|]. apply Forall_app. split; [by apply bytes_okb_ok|]. by apply bytes_okb_ok. Qed.
Lemma conf_new_run_ok : conf_run_ok conf_new.
Proof.
  assert (vpn_ok vpls_1) as Hv.
  { split; [done|apply NoDup_nil_2|apply NoDup_singleton|]. constructor; [done|done]. }
  split; [split|].
  - by apply v4_addr_ok.
  - split; [done|by apply bytes_okb_ok].
  - apply NoDup_singleton.
  - apply NoDup_singleton.
  - constructor; [|done]. split; [by left|]. split; [by apply v4_addr_ok|done].
  - apply NoDup_singleton.
  - apply NoDup_singleton.
  - by constructor.
  - constructor; [|done]. split; [done|]. constructor; [by left|done].
Qed.
Lemma engine_b_data : engine_data engine_b.
Proof.
  split; [split|by constructor|split; [apply NoDup_nil_2|by constructor]].
  - by apply v4_addr_ok.
  - split; [done|by apply bytes_okb_ok].
Qed.
Lemma engine_b_quiet x : gone_quiet x (en_disc engine_b).
Proof.
  intros q i Hi _ af Haf. apply find_ptr_ptr in Hi as [_ Hi]. vm_compute in Hi. intros Hst.
  apply elem_of_cons in Hi as [-> | Hi]; [by destruct Haf as [-> | ->]|].
  apply elem_of_cons in Hi as [-> | Hi]; [by destruct Haf as [-> | ->]|by apply not_elem_of_nil in Hi].
Qed.

Lemma config_takes_effect_witness :
  exists e', foreach (ldpe_dispatch_main env_fine) (main_imsg_send_config conf_new) engine_b = Ok (tt, e') /\
    engine_view e' = view conf_new /\
    view_if <$> if_lookup_name (d_ifaces (en_disc e')) "eth7" = Some (view_if link_7_slow) /\
    if_lookup_name (d_ifaces (en_disc e')) "eth8" = None.
Proof.
  destruct (config_takes_effect env_fine conf_new engine_b engine_b_ok engine_b_data conf_new_run_ok) as (e' & E & _ & _ & Hv & _).
  - intros v xl Hv. by apply elem_of_nil in Hv.
  - apply engine_b_quiet.
  - vm_compute. reflexivity.
  - assert (forall n, view_if <$> if_lookup_name (d_ifaces (en_disc e')) n = cv_ifs (view conf_new) !! n) as Hn.
    { intros n. rewrite <- Hv, if_lookup_kfind. cbn [engine_view disc_view cv_ifs]. by rewrite lookup_fmap, lookup_kmap. }
    exists e'. split; [exact E|]. split; [exact Hv|]. split; [exact (Hn "eth7"%string)|].
    specialize (Hn "eth8"%string). destruct (if_lookup_name _ "eth8"); [discriminate Hn|reflexivity].
Defined.
