(* ===== verification/ConfRead.v ===== *)
(** * Reading a configuration

    Lines of a configuration file or of a vty, one after the other
    ([read_config]), against [spec_cmd]: reading them is a refinement of the
    commands on views, and never follows a null pointer as long as no interface
    is refused. *)
From stdpp Require Import prelude strings list gmap.
From Stdlib Require Import ZArith Lia Permutation.
From S2P Require Import Prelude Util Wire Ipc Session Fec Hello Discovery DiscInv Config Engine KeyedList Parent ConfView ConfMerge ConfSpec ConfCmds.

Definition spec_line (c : vty_cmd) : ST vstate (option cmd_ret) :=
  do s <- get;
  match node_for 3 c (vs_node s) with
  | None => ret None
  | Some n => modify (set_vs_node n) ;;; do r <- spec_cmd c; ret (Some r)
  end.
Definition must {S} (r : option cmd_ret) : ST S unit :=
  match r with None => fatalx "no such command" | Some _ => ret tt end.
Definition spec_config (l : list vty_cmd) : ST vstate unit := foreach (fun c => do r <- spec_line c; must r) l.

(** Each line has good arguments when its turn comes. *)
Definition line_ok (c : vty_cmd) (s : vstate) : Prop :=
  match node_for 3 c (vs_node s) with Some n => cmd_ok n c | None => True end.
Fixpoint lines_ok (l : list vty_cmd) (s : vstate) : Prop :=
  match l with
  | [] => True
  | c :: l' => line_ok c s /\ forall r s', spec_line c s = Ok (Some r, s') -> lines_ok l' s'
  end.

Section Read.
Implicit Types (p : parent) (c : vty_cmd).

Lemma node_for_installed f c n n' : node_for f c n = Some n' -> installed c n' = true.
Proof.
  unfold node_for. destruct (matches c); [|done].
  revert n. induction f as [|f IH]; intros n; cbn [node_up]; destruct (installed c n) eqn:E; try (by intros [= <-]).
  destruct n; try done; apply IH.
Qed.
Lemma read_line_refines stack c p : conf_run_ok (pa_conf p) -> addr_ok stack -> line_ok c (abs p) ->
  match spec_line c (abs p) with
  | Ok (r, s') => exists p', read_line stack c p = Ok (r, p') /\ abs p' = s' /\ conf_run_ok (pa_conf p') /\
      pa_started p' = pa_started p /\ pa_iflist p' = pa_iflist p /\ told p p'
  | Fatal e => read_line stack c p = Fatal e
  | Undef e => read_line stack c p = Undef e
  | NoFuel => read_line stack c p = NoFuel
  end.
Proof.
  intros Hc Hs Hl. unfold line_ok in Hl. unfold spec_line, read_line.
  rewrite (bind_ok get _ (abs p) (abs p) (abs p)), (bind_ok vty_node_of _ p (pa_node p) p) by done.
  change (vs_node (abs p)) with (pa_node p) in *. destruct (node_for 3 c (pa_node p)) as [n|] eqn:En.
  2: { exists p. split_and!; try done. apply told_refl. }
  apply node_for_installed in En. pose proof (run_cmd_refines stack c (set_pa_node n p) Hc En Hl Hs) as H.
  unfold refines in H. change (abs (set_pa_node n p)) with (set_vs_node n (abs p)) in H. unfold modify, bind. cbn [rbind].
  destruct (spec_cmd c (set_vs_node n (abs p))) as [[r s']| | |]; cbn [rbind]; [|by rewrite H..].
  destruct H as (p' & -> & H). exists p'. by split.
Qed.

(** The refinement for whole files; [pa_ldpe] only grows. *)
Definition read_ok (p p' : parent) : Prop :=
  conf_run_ok (pa_conf p') /\ pa_started p' = pa_started p /\ exists ms, pa_ldpe p' = pa_ldpe p ++ ms.
Lemma read_lines_refine stack l p : conf_run_ok (pa_conf p) -> addr_ok stack -> lines_ok l (abs p) ->
  match spec_config l (abs p) with
  | Ok (_, s') => exists p', read_config stack l p = Ok (tt, p') /\ abs p' = s' /\ read_ok p p'
  | Fatal e => read_config stack l p = Fatal e
  | Undef e => read_config stack l p = Undef e
  | NoFuel => read_config stack l p = NoFuel
  end.
Proof.
  revert p. induction l as [|c l IH]; intros p Hc Hs Hl.
  { exists p. split; [done|]. split; [done|]. split; [done|]. split; [done|]. exists []. by rewrite app_nil_r. }
  destruct Hl as [Hl Hr]. pose proof (read_line_refines stack c p Hc Hs Hl) as H.
  unfold spec_config, read_config. cbn [foreach]. destruct (spec_line c (abs p)) as [[r s1]| | |] eqn:E;
    [|by unfold bind; rewrite E, H..].
  destruct H as (p1 & E1 & <- & Hc1 & Hst & _ & (ms & Hms & _)). destruct r as [r|]; [|unfold bind; by rewrite E, E1].
  pose proof (IH p1 Hc1 Hs (Hr _ _ eq_refl)) as H2.
  rewrite (bind_ok (do r <- spec_line c; must r) _ (abs p) tt (abs p1)) by (unfold bind; by rewrite E).
  rewrite (bind_ok (do r <- read_line stack c; _) _ p tt p1) by (unfold bind; by rewrite E1).
  unfold spec_config, read_config in H2.
  destruct (foreach _ l (abs p1)) as [[[] s2]| | |]; try done. destruct H2 as (p2 & -> & Ha & Hc2 & Hst2 & ms2 & Hms2).
  exists p2. do 3 (split; [done|]). split; [congruence|]. exists (ms ++ ms2). by rewrite Hms2, Hms, app_assoc.
Qed.
End Read.

(** ** Where the vty is

    The node a vty is in promises that what is being configured is there. *)
Definition is_ldp (n : vty_node) : bool :=
  match n with LDP_NODE | LDP_IPV4_NODE | LDP_IPV6_NODE | LDP_IPV4_IFACE_NODE | LDP_IPV6_IFACE_NODE => true | _ => false end.
Definition is_af (n : vty_node) : bool :=
  match n with LDP_IPV4_NODE | LDP_IPV6_NODE | LDP_IPV4_IFACE_NODE | LDP_IPV6_IFACE_NODE => true | _ => false end.
Definition is_if (n : vty_node) : bool :=
  match n with LDP_IPV4_IFACE_NODE | LDP_IPV6_IFACE_NODE => true | _ => false end.
Definition is_vpn (n : vty_node) : bool := match n with LDP_L2VPN_NODE | LDP_PSEUDOWIRE_NODE => true | _ => false end.
Record at_node (n : vty_node) (ifname vpn pw : string) (w : conf_view) : Prop := AtNode {
  an_ldp : is_ldp n = true -> has_flag (cv_flags w) F_LDPD_ENABLED = true;
  an_af : is_af n = true -> has_flag (av_flags (cv_af w (node_af n))) F_LDPD_AF_ENABLED = true;
  an_if : is_if n = true -> is_Some (cv_ifs w !! ifname);
  an_vpn : is_vpn n = true -> is_Some (cv_vpns w !! vpn);
  an_pw : n = LDP_PSEUDOWIRE_NODE -> exists v, cv_vpns w !! vpn = Some v /\ is_Some (vv_pws v !! pw)
}.
Definition vty_ok (s : vstate) : Prop := at_node (vs_node s) (vs_ifname s) (vs_l2vpn s) (vs_pw s) (vs_view s).

(** The line asks for an interface an L2VPN uses. *)
Definition refused (c : vty_cmd) (s : vstate) : bool :=
  match c with
  | CmdInterface false n => bool_decide (cv_ifs (vs_view s) !! n = None) && in_use (vs_view s) n
  | _ => false
  end.

Section AtNode.
Implicit Types (w : conf_view) (s : vstate).

Lemma af_enabled_after w af : af_ok af -> has_flag (av_flags (cv_af w af)) F_LDPD_AF_ENABLED = true ->
  has_flag (cv_flags w) F_LDPD_ENABLED = true ->
  has_flag (av_flags (cv_af (vnormalize w) af)) F_LDPD_AF_ENABLED = true.
Proof.
  intros Haf Ha Hl. unfold vnormalize. rewrite Hl. cbn [negb]. destruct Haf as [-> | ->]; cbn in Ha |- *.
  - rewrite Ha. cbn. by destruct (negb _).
  - destruct (negb (has_flag (av_flags (cv_ipv4 w)) _)); cbn; by rewrite Ha.
Qed.
Lemma at_normalize n i v q w : at_node n i v q w -> at_node n i v q (vnormalize w).
Proof.
  intros [H1 H2 H3 H4 H5].
  assert (cv_vpns (vnormalize w) = vvpn_normalize <$> cv_vpns w) as Ev.
  { unfold vnormalize. by repeat (case_match; cbn [cv_vpns]). }
  split.
  - intros H. unfold vnormalize. rewrite (H1 H). cbn [negb]. repeat case_match; exact (H1 H).
  - intros H. apply af_enabled_after; [apply node_af_ok|by apply H2|apply H1; by destruct n].
  - intros H. unfold vnormalize. rewrite H1 by (by destruct n). cbn [negb]. pose proof (H3 H) as Hi.
    repeat case_match; cbn; rewrite ?lookup_fmap, ?fmap_is_Some; done.
  - intros H. rewrite Ev, lookup_fmap, fmap_is_Some. by apply H4.
  - intros H. destruct (H5 H) as (u & Hu & Hq). exists (vvpn_normalize u). rewrite Ev, lookup_fmap, Hu. split; [done|].
    cbn. by rewrite lookup_fmap, fmap_is_Some.
Qed.
Lemma at_parent n i v q w : at_node n i v q w -> at_node (node_parent n) i v q w.
Proof. intros []. by split; destruct n. Qed.
Lemma at_node_for f c n n' i v q w : node_for f c n = Some n' -> at_node n i v q w -> at_node n' i v q w.
Proof.
  unfold node_for. destruct (matches c); [|done].
  revert n. induction f as [|f IH]; intros n; cbn [node_up]; destruct (installed c n); try (by intros [= <-]).
  intros H Ha. apply at_parent in Ha. by destruct n; try done; eapply IH.
Qed.

(** Edits that take nothing away. *)
Record grows w w' : Prop := Grows {
  gr_ldp : has_flag (cv_flags w) F_LDPD_ENABLED = true -> has_flag (cv_flags w') F_LDPD_ENABLED = true;
  gr_af : forall af, has_flag (av_flags (cv_af w af)) F_LDPD_AF_ENABLED = true ->
    has_flag (av_flags (cv_af w' af)) F_LDPD_AF_ENABLED = true;
  gr_if : forall k, is_Some (cv_ifs w !! k) -> is_Some (cv_ifs w' !! k);
  gr_vpn : forall k u, cv_vpns w !! k = Some u ->
    exists u', cv_vpns w' !! k = Some u' /\ forall j, is_Some (vv_pws u !! j) -> is_Some (vv_pws u' !! j)
}.
Lemma at_grows n i v q w w' : grows w w' -> at_node n i v q w -> at_node n i v q w'.
Proof.
  intros [G1 G2 G3 G4] []. split; auto.
  - intros H. destruct (an_vpn0 H) as [u Hu]. destruct (G4 _ _ Hu) as (u' & -> & _). by eexists.
  - intros H. destruct (an_pw0 H) as (u & Hu & Hq). destruct (G4 _ _ Hu) as (u' & -> & Hj). eauto.
Qed.
Lemma grows_af w af f : (forall a, has_flag (av_flags a) F_LDPD_AF_ENABLED = true ->
    has_flag (av_flags (f a)) F_LDPD_AF_ENABLED = true) -> grows w (set_cv_af af (f (cv_af w af)) w).
Proof.
  intros Hf. split; [done| |done|by eauto]. intros af'. unfold cv_af, set_cv_af. cbn. destruct (af =? AF_INET), (af' =? AF_INET); auto.
Qed.
Lemma grows_ifs w n j : grows w (set_cv_ifs (<[n := j]> (cv_ifs w)) w).
Proof.
  split; [done..| |by eauto]. intros k H. cbn. destruct (decide (n = k)) as [-> |Hk].
  - rewrite lookup_insert_eq. by eexists.
  - by rewrite lookup_insert_ne.
Qed.
Lemma grows_vpns w n u u' : cv_vpns w !! n = Some u -> (forall j, is_Some (vv_pws u !! j) -> is_Some (vv_pws u' !! j)) ->
  grows w (set_cv_vpns (<[n := u']> (cv_vpns w)) w).
Proof.
  intros Hu Hj. split; [done..|]. intros k v Hv. cbn. destruct (decide (n = k)) as [<- |Hk].
  - rewrite lookup_insert_eq. exists u'. split; [done|]. assert (v = u) as -> by congruence. done.
  - rewrite lookup_insert_ne by done. eauto.
Qed.
Lemma flag_kept j k a : 0 <= j -> 0 <= k -> j <> k -> has_flag a (2 ^ k) = true ->
  has_flag (set_flag (2 ^ j) a) (2 ^ k) = true /\ has_flag (clear_flag (2 ^ j) a) (2 ^ k) = true.
Proof.
  intros Hj Hk Hn Ha. unfold set_flag, clear_flag. rewrite has_set, has_clear, Ha by done.
  by rewrite bool_decide_false, orb_true_r by done.
Qed.

(** Commands end, and leave the vty somewhere that exists. *)
Definition safe (a : ST vstate cmd_ret) s : Prop := exists r s', a s = Ok (r, s') /\ vty_ok s'.
Lemma spec_safe_ret r s : vty_ok s -> safe (ret r) s.
Proof. intros H. by exists r, s. Qed.
Lemma safe_commit w s : at_node (vs_node s) (vs_ifname s) (vs_l2vpn s) (vs_pw s) w -> safe (commit w) s.
Proof. intros H. eexists _, _. split; [reflexivity|]. by apply at_normalize. Qed.
Lemma safe_grow w s : vty_ok s -> grows (vs_view s) w -> safe (commit w) s.
Proof. intros H Hg. apply safe_commit. by eapply at_grows. Qed.
Lemma safe_global f s : vty_ok s -> grows (vs_view s) (f (vs_view s)) -> safe (on_global f) s.
Proof. intros H Hg. exact (safe_grow _ s H Hg). Qed.
Lemma safe_on_af f s : vty_ok s -> (forall a, has_flag (av_flags a) F_LDPD_AF_ENABLED = true ->
    has_flag (av_flags (f a)) F_LDPD_AF_ENABLED = true) -> safe (on_af f) s.
Proof. intros H Hf. apply (safe_grow _ s H). by apply grows_af. Qed.
Lemma safe_bad_addr k s af b : af_ok af -> (forall bad, safe (k bad) s) -> safe (bind (lift (bad_addr af b)) k) s.
Proof. intros Haf H. destruct Haf as [-> | ->]; apply H. Qed.
Lemma safe_nbrp no id upd s : vty_ok s -> safe (spec_nbrp no id upd) s.
Proof.
  intros H. unfold spec_nbrp. destruct (lsr_id_arg id) as [i|]; [|by apply spec_safe_ret].
  change (safe (bind get ?k) s) with (safe (k s) s). cbn beta. case_match; [by apply spec_safe_ret|]. case_match; [|by apply spec_safe_ret].
  apply safe_global; [done|]. by split; eauto.
Qed.
Lemma safe_cur_vpn k s u : cv_vpns (vs_view s) !! vs_l2vpn s = Some u -> safe (k u) s -> safe (bind cur_vpn k) s.
Proof.
  intros Hu H. change (safe (bind (vfound (cv_vpns (vs_view s) !! vs_l2vpn s)) k) s). by rewrite Hu.
Qed.
Lemma safe_store_vpn u u' s : vty_ok s -> cv_vpns (vs_view s) !! vs_l2vpn s = Some u ->
  (forall j, is_Some (vv_pws u !! j) -> is_Some (vv_pws u' !! j)) -> safe (store_vpn u') s.
Proof. intros H Hu Hj. apply (safe_grow _ s H). by eapply grows_vpns. Qed.
Lemma safe_pw f s : vty_ok s -> vs_node s = LDP_PSEUDOWIRE_NODE -> safe (spec_pw f) s.
Proof.
  intros H Hn. destruct (an_pw _ _ _ _ _ H Hn) as (u & Hu & [q Hq]).
  change (safe (spec_pw f) s) with (safe (bind cur_vpn (fun v => bind (vfound (vv_pws v !! vs_pw s)) (fun p =>
    store_vpn (vv_set_members (vv_ifs v) (<[vs_pw s := f p]> (vv_pws v)) v)))) s).
  eapply safe_cur_vpn; [done|]. rewrite Hq. eapply safe_store_vpn; [done..|]. intros j Hj. cbn.
  destruct (decide (vs_pw s = j)) as [<- |Hk]; [rewrite lookup_insert_eq; by eexists|by rewrite lookup_insert_ne].
Qed.
End AtNode.

Section Safe.
Implicit Types (w : conf_view) (s : vstate).
Ltac got s := change (safe (bind get ?k) s) with (safe (k s) s); cbv beta zeta.

Lemma safe_hello hold no secs h s : vty_ok s -> safe (spec_hello hold no secs h) s.
Proof.
  intros H. unfold spec_hello. destruct secs as [z|]; [|by apply spec_safe_ret]. got s.
  assert (forall v, safe (on_af (av_set_hello hold h v)) s) as Ha by (intros v; apply safe_on_af; [done|]; by destruct hold, h).
  assert (is_if (vs_node s) = true -> safe (do i <- vfound (cv_ifs (vs_view s) !! vs_ifname s);
    commit (set_cv_ifs (<[vs_ifname s := vmod_if (node_af (vs_node s)) (iv_set_hello hold (if no then 0 else z)) i]>
                          (cv_ifs (vs_view s))) (vs_view s))) s) as Hi.
  { intros Hn. destruct (an_if _ _ _ _ _ H Hn) as [i Hi]. rewrite Hi. apply (safe_grow _ s H). apply grows_ifs. }
  destruct (vs_node s) eqn:En; try apply Ha; try by apply Hi.
  apply safe_global; [done|]. split; try by destruct hold, h. intros k u Hu. exists u. by destruct hold, h.
Qed.
Lemma safe_af_flag clear flag k s : vty_ok s -> flag = 2 ^ k -> 0 < k -> safe (spec_af_flag clear flag) s.
Proof.
  intros H -> Hk. apply safe_on_af; [done|]. intros a Ha. change F_LDPD_AF_ENABLED with (2 ^ 0) in *.
  destruct (flag_kept k 0 (av_flags a)) as [H1 H2]; [lia..|done|]. by destruct clear.
Qed.
Lemma safe_interface no n s : vty_ok s -> af_node (vs_node s) = true -> refused (CmdInterface no n) s = false ->
  safe (spec_interface no n) s.
Proof.
  intros H Hn Hr. unfold spec_interface. got s. destruct no.
  { destruct (cv_ifs (vs_view s) !! n) as [i|]; [|by apply spec_safe_ret]. case_match; [|by apply spec_safe_ret].
    apply (safe_grow _ s H). apply grows_ifs. }
  set (s1 := set_vs_ifname n (set_vs_node (iface_node (node_af (vs_node s))) s)).
  change (safe (bind (modify ?f) (fun _ => bind (modify ?g) (fun _ => ?k))) s) with (safe k s1). cbv beta.
  assert (forall w, is_Some (cv_ifs w !! n) -> grows (vs_view s) w ->
    at_node (vs_node s1) (vs_ifname s1) (vs_l2vpn s1) (vs_pw s1) w) as Hs1.
  { intros w Hi Hg. destruct (at_grows _ _ _ _ _ _ Hg H) as [A1 A2 _ _ _]. split; try done.
    - intros _. apply A1. by destruct (vs_node s).
    - intros _. cbn. destruct (vs_node s); try done; cbn; by apply A2.
    - intros Hv. cbn in Hv. by destruct (vs_node s).
    - intros Hv. cbn in Hv. by destruct (vs_node s). }
  assert (forall b j, safe (commit (set_cv_ifs (<[n := vmod_if (node_af (vs_node s)) (iv_set_enabled b) j]>
    (cv_ifs (vs_view s))) (vs_view s))) s1) as Hst.
  { intros b j. apply safe_commit. apply Hs1; [|apply grows_ifs]. cbn. rewrite lookup_insert_eq. by eexists. }
  destruct (cv_ifs (vs_view s) !! n) as [i|] eqn:Ei.
  - case_match; [|by apply Hst]. apply spec_safe_ret. unfold vty_ok. apply Hs1; [by eexists|]. by split; eauto.
  - cbn in Hr. rewrite Ei in Hr. rewrite bool_decide_true in Hr by done. cbn in Hr. rewrite Hr. apply Hst.
Qed.
Lemma safe_targeted no a s : vty_ok s -> safe (spec_targeted no a) s.
Proof.
  intros H. unfold spec_targeted. got s. destruct a as [b|]; [|by apply spec_safe_ret]. apply safe_bad_addr; [apply node_af_ok|].
  intros bad. repeat (case_match; try by apply spec_safe_ret); (apply safe_grow; [done|by split; eauto]).
Qed.
Lemma safe_trans_addr no a s : vty_ok s -> safe (spec_trans_addr no a) s.
Proof.
  intros H. unfold spec_trans_addr. got s. destruct no; [by apply safe_on_af|]. destruct a as [b|]; [|by apply spec_safe_ret].
  apply safe_bad_addr; [apply node_af_ok|]. intros bad. case_match; [by apply spec_safe_ret|by apply safe_on_af].
Qed.
Lemma safe_l2vpn no n s : vty_ok s -> vs_node s = CONFIG_NODE -> safe (spec_l2vpn no n) s.
Proof.
  intros H Hn. unfold spec_l2vpn. got s. destruct no.
  - case_match; [|by apply spec_safe_ret]. apply safe_commit. rewrite Hn. by split.
  - change (safe (bind (modify ?f) (fun _ => bind (modify ?g) (fun _ => ?k))) s) with
      (safe k (set_vs_l2vpn n (set_vs_node LDP_L2VPN_NODE s))). cbv beta. case_bool_decide as E.
    + apply spec_safe_ret. by split.
    + apply safe_commit. split; try done. intros _. cbn. rewrite lookup_insert_eq. by eexists.
Qed.
Lemma safe_member_if no n s : vty_ok s -> vs_node s = LDP_L2VPN_NODE -> safe (spec_member_if no n) s.
Proof.
  intros H Hn. unfold spec_member_if. got s. destruct (an_vpn _ _ _ _ _ H) as [u Hu]; [by rewrite Hn|].
  eapply safe_cur_vpn; [done|]. repeat (case_match; try by apply spec_safe_ret); by eapply safe_store_vpn.
Qed.
Lemma safe_member_pw no n s : vty_ok s -> vs_node s = LDP_L2VPN_NODE -> safe (spec_member_pw no n) s.
Proof.
  intros H Hn. unfold spec_member_pw. got s. destruct (an_vpn _ _ _ _ _ H) as [u Hu]; [by rewrite Hn|].
  eapply safe_cur_vpn; [done|].
  assert (forall w u, cv_vpns w !! vs_l2vpn s = Some u -> is_Some (vv_pws u !! n) ->
    vty_ok (set_vs_pw n (set_vs_node LDP_PSEUDOWIRE_NODE (set_vs_view w s)))) as Hent.
  { intros w v Hv Hp. split; [done|done|done|intros _; by eexists|]. intros _. exists v. by split. }
  case_bool_decide as E.
  - destruct no.
    + apply (safe_commit _ s). rewrite Hn. split; try done. intros _. cbn. rewrite lookup_insert_eq. by eexists.
    + eexists _, _. split; [reflexivity|]. exact (Hent (vs_view s) u Hu E).
  - case_match; [by apply spec_safe_ret|]. eexists _, _. split; [reflexivity|].
    eapply Hent; [cbn [vs_view set_vs_view]|].
    + unfold vnormalize. instantiate (1 := vvpn_normalize (vv_set_members (vv_ifs u) (<[n := new_pw]> (vv_pws u)) u)).
      repeat case_match; cbn; rewrite lookup_fmap; by rewrite lookup_insert_eq.
    + cbn. rewrite lookup_fmap, lookup_insert_eq. by eexists.
Qed.

Lemma safe_cmd c s : vty_ok s -> installed c (vs_node s) = true -> cmd_ok (vs_node s) c -> refused c s = false ->
  safe (spec_cmd c) s.
Proof.
  intros H Hi Ho Hr.
  assert (forall f, is_vpn (vs_node s) = true -> (forall u j, is_Some (vv_pws u !! j) -> is_Some (vv_pws (f u) !! j)) ->
    safe (do v <- cur_vpn; store_vpn (f v)) s) as Hvpn.
  { intros f Hn Hf. destruct (an_vpn _ _ _ _ _ H Hn) as [u Hu]. eapply safe_cur_vpn; [done|]. eapply safe_store_vpn; eauto. }
  destruct c; cbn [spec_cmd]; cbn [installed] in Hi.
  - destruct (vs_node s) eqn:En; try done. destruct no.
    + apply (safe_commit _ s). rewrite En. by split.
    + apply (safe_commit _ (set_vs_node LDP_NODE s)). split; try done. intros _. cbn. change F_LDPD_ENABLED with (2 ^ 2).
      unfold set_flag. by rewrite has_set.
  - destruct (vs_node s) eqn:En; try done. unfold vty_ok in H. rewrite En in H.
    destruct (af_of_name af) as [a|] eqn:Ea; [|apply spec_safe_ret; unfold vty_ok; by rewrite En].
    pose proof (an_ldp _ _ _ _ _ H eq_refl) as Hl. destruct no.
    + apply (safe_commit _ s). rewrite En. by split.
    + apply (safe_commit _ (set_vs_node (if a =? AF_INET then LDP_IPV4_NODE else LDP_IPV6_NODE) s)).
      unfold af_of_name in Ea. change F_LDPD_AF_ENABLED with (2 ^ 0). unfold set_flag.
      repeat case_match; simplify_eq; (split; try done; intros _; cbn; change F_LDPD_AF_ENABLED with (2 ^ 0); by rewrite has_set).
  - by apply safe_hello.
  - by apply safe_hello.
  - by apply (safe_af_flag _ _ 1).
  - by apply safe_nbrp.
  - destruct (in_range _ _ _); [by apply safe_on_af|by apply spec_safe_ret].
  - by apply safe_interface.
  - by apply safe_trans_addr.
  - by apply safe_targeted.
  - by apply (safe_af_flag _ _ 2).
  - by apply (safe_af_flag _ _ 3).
  - destruct no; [|destruct (lsr_id_arg _); [|by apply spec_safe_ret]]; (apply safe_global; [done|by split; eauto]).
  - apply safe_global; [done|]. split; try by eauto. intros Hl. cbn. change F_LDPD_ENABLED with (2 ^ 2) in *.
    change F_LDPD_DS_CISCO_INTEROP with (2 ^ 1). destruct (flag_kept 1 2 (cv_flags (vs_view s))) as [H1 H2]; [done..|]. by destruct no.
  - apply safe_global; [done|]. by split; eauto.
  - by apply safe_nbrp.
  - by apply safe_nbrp.
  - apply safe_l2vpn; [done|]. by destruct (vs_node s).
  - apply (Hvpn (fun v => _)); [by destruct (vs_node s)|done].
  - destruct (in_range _ _ _); [|by apply spec_safe_ret]. apply (Hvpn (fun v => _)); [by destruct (vs_node s)|done].
  - apply (Hvpn (fun v => _)); [by destruct (vs_node s)|done].
  - apply safe_member_if; [done|]. by destruct (vs_node s).
  - apply safe_member_pw; [done|]. by destruct (vs_node s).
  - apply safe_pw; [done|]. by destruct (vs_node s).
  - destruct addr as [[af b]|]; [|by apply spec_safe_ret]. apply safe_bad_addr; [apply Ho|]. intros bad.
    destruct (negb _); [by apply spec_safe_ret|]. destruct no; apply safe_pw; try done; by destruct (vs_node s).
  - destruct (lsr_id_arg _); [|by apply spec_safe_ret]. apply safe_pw; [done|]. by destruct (vs_node s).
  - destruct (in_range _ _ _); [|by apply spec_safe_ret]. apply safe_pw; [done|]. by destruct (vs_node s).
  - apply safe_pw; [done|]. by destruct (vs_node s).
Qed.
Lemma safe_line c s : vty_ok s -> line_ok c s -> refused c s = false -> is_Some (node_for 3 c (vs_node s)) ->
  exists r s', spec_line c s = Ok (Some r, s') /\ vty_ok s'.
Proof.
  intros H Hl Hr [n En]. unfold line_ok in Hl. unfold spec_line. rewrite (bind_ok get _ s s s) by done. rewrite En in *.
  destruct (safe_cmd c (set_vs_node n s)) as (r & s' & E & Hs').
  - exact (at_node_for _ _ _ _ _ _ _ _ En H).
  - by apply node_for_installed in En.
  - exact Hl.
  - exact Hr.
  - exists r, s'. split; [|done]. unfold modify, bind. cbn [rbind]. by rewrite E.
Qed.
End Safe.

(** Lines that are commands, have good arguments and ask for no interface an
    L2VPN uses. *)
Fixpoint accepted (l : list vty_cmd) (s : vstate) : Prop :=
  match l with
  | [] => True
  | c :: l' => is_Some (node_for 3 c (vs_node s)) /\ line_ok c s /\ refused c s = false /\
      forall r s', spec_line c s = Ok (Some r, s') -> accepted l' s'
  end.
Lemma accepted_ok l s : accepted l s -> lines_ok l s.
Proof. revert s. induction l as [|c l IH]; intros s; [done|]. intros (_ & H1 & H2 & H3). split; eauto. Qed.
Lemma accepted_safe l s : vty_ok s -> accepted l s -> exists s', spec_config l s = Ok (tt, s') /\ vty_ok s'.
Proof.
  revert s. induction l as [|c l IH]; intros s H Ha; [by exists s|]. destruct Ha as (H0 & H1 & H2 & H3).
  destruct (safe_line c s H H1 H2 H0) as (r & s1 & E & Hs1). destruct (IH s1 Hs1 (H3 _ _ E)) as (s2 & E2 & Hs2).
  exists s2. split; [|done]. unfold spec_config. cbn [foreach].
  rewrite (bind_ok (do r <- spec_line c; must r) _ s tt s1) by (unfold bind; by rewrite E). exact E2.
Qed.

Lemma init_run_ok : conf_run_ok (pa_conf parent_init).
Proof. split; [split|]; try apply zero_addr_ok; try apply NoDup_nil_2; by constructor. Qed.
Lemma init_vty_ok : vty_ok (abs parent_init).
Proof. by split. Qed.

