(* ===== verification/ConfStep.v ===== *)
(** * What one line changes of the pseudowires

    The part of a configuration the LIB depends on, by name: the type of each L2VPN
    and, of each pseudowire, its FEC and the flags that restart the session.  One
    line makes L2VPNs without pseudowires and pseudowires that are off, and changes
    one thing of an existing one. *)
From stdpp Require Import prelude strings list gmap.
From Stdlib Require Import ZArith Lia.
From S2P Require Import Prelude Util Wire Ipc Session Fec Hello Discovery Config Engine KeyedList Parent ConfView ConfMerge ConfSpec ConfCmds ConfRead.

Record core := Core { co_lsr : Z; co_pwid : Z; co_status : bool; co_cword : bool }.
Record vpn_core := VpnCore { vc_type : Z; vc_pws : gmap string core }.
Definition core_of (p : pw_view) : core := Core (pv_lsr_id p) (pv_pwid p) (pv_status p) (pv_cword p).
Definition vpn_core_of (v : vpn_view) : vpn_core := VpnCore (vv_pw_type v) (core_of <$> vv_pws v).
Definition cores (w : conf_view) : gmap string vpn_core := vpn_core_of <$> cv_vpns w.
(** Not to be active, as [pw_disabled]. *)
Definition co_off (c : core) : bool := (co_lsr c =? INADDR_ANY) || (co_pwid c =? 0).

(** ** Steps *)
Definition pw_step (o : option core) (c' : core) : Prop :=
  match o with
  | None => co_off c' = true
  | Some c => co_status c' = co_status c /\ co_cword c' = co_cword c \/ co_lsr c' = co_lsr c /\ co_pwid c' = co_pwid c
  end.
Definition vpn_step (o : option vpn_core) (v' : vpn_core) : Prop :=
  match o with
  | None => vc_pws v' = ∅
  | Some v => vc_pws v' = vc_pws v \/
      vc_type v' = vc_type v /\ forall n c', vc_pws v' !! n = Some c' -> pw_step (vc_pws v !! n) c'
  end.
(** The fields fit the structure. *)
Definition vpn_fits (v : vpn_core) : Prop :=
  is_u 16 (vc_type v) /\ map_Forall (fun _ c => is_u 32 (co_lsr c) /\ is_u 32 (co_pwid c)) (vc_pws v).
Definition fits : gmap string vpn_core -> Prop := map_Forall (fun _ v => vpn_fits v).
Definition one_step (m m' : gmap string vpn_core) : Prop := forall n v', m' !! n = Some v' -> vpn_step (m !! n) v'.

Section Cores.
Implicit Types (m : gmap string vpn_core) (v : vpn_core) (w : conf_view).

Lemma vpn_step_refl v : vpn_step (Some v) v.
Proof. by left. Qed.
Lemma one_step_refl m : one_step m m.
Proof. intros n v' E. rewrite E. apply vpn_step_refl. Qed.
Lemma cores_normalize w : cores (vnormalize w) = cores w.
Proof.
  unfold vnormalize, cores. set (w' := if negb _ then _ else _). assert (cv_vpns w' = cv_vpns w) as E by (unfold w'; by repeat case_match).
  cbn [cv_vpns set_cv_maps]. rewrite E, <- map_fmap_compose. apply map_fmap_ext. intros n v _. unfold vpn_core_of. cbn. f_equal.
  rewrite <- map_fmap_compose. apply map_fmap_ext. intros k p _. unfold vpw_normalize, core_of. cbn. by case_match.
Qed.
Lemma cores_store n (v : vpn_view) w : cores (set_cv_vpns (<[n := v]> (cv_vpns w)) w) = <[n := vpn_core_of v]> (cores w).
Proof. unfold cores. cbn. by rewrite fmap_insert. Qed.
End Cores.

(** ** Commands *)
Section Commands.
Context (m0 : gmap string vpn_core) (H0 : fits m0).
(** Whatever the outcome, the state is one step away. *)
Definition near (w : conf_view) : Prop := one_step m0 (cores w) /\ fits (cores w).
Definition ends_near {A} (c : ST vstate A) (s : vstate) : Prop := forall r s', c s = Ok (r, s') -> near (vs_view s').

Lemma near_ret {A} (a : A) s : near (vs_view s) -> ends_near (ret a) s.
Proof. by intros H r s' [= <- <-]. Qed.
Lemma near_bind {A B} (c : ST vstate A) (k : A -> ST vstate B) s a s1 : c s = Ok (a, s1) -> ends_near (k a) s1 -> ends_near (bind c k) s.
Proof. intros E H r s'. unfold bind. rewrite E. apply H. Qed.
Lemma near_get {B} (k : vstate -> ST vstate B) s : ends_near (k s) s -> ends_near (bind get k) s.
Proof. by apply near_bind. Qed.
Lemma near_modify {B} f (k : unit -> ST vstate B) s : ends_near (k tt) (f s) -> ends_near (bind (modify f) k) s.
Proof. by apply near_bind. Qed.
Lemma near_commit w s : near w -> ends_near (commit w) s.
Proof. intros H r s' [= <- <-]. unfold near. cbn [vs_view set_vs_view]. by rewrite cores_normalize. Qed.
Lemma near_found {A B} (o : option A) (k : A -> ST vstate B) s : (forall a, o = Some a -> ends_near (k a) s) -> ends_near (bind (vfound o) k) s.
Proof. intros H. destruct o as [a|]; [by apply (near_bind _ _ _ a s), H|]. by intros r s'. Qed.
Lemma near_lift {A B} (x : res A) (k : A -> ST vstate B) s : (forall a, x = Ok a -> ends_near (k a) s) -> ends_near (bind (lift x) k) s.
Proof. intros H. destruct x as [a| | |]; [by apply (near_bind _ _ _ a s), H|..]; by intros r s'. Qed.
Lemma near_cur {B} (k : vpn_view -> ST vstate B) s :
  (forall v, cv_vpns (vs_view s) !! vs_l2vpn s = Some v -> ends_near (k v) s) -> ends_near (bind cur_vpn k) s.
Proof.
  intros H. unfold cur_vpn. destruct (cv_vpns (vs_view s) !! vs_l2vpn s) as [v|] eqn:E.
  - apply (near_bind _ _ _ v s); [unfold bind, get; cbn; by rewrite E|by apply H].
  - intros r s'. unfold bind, get. cbn. by rewrite E.
Qed.

(** A state with the L2VPNs of the start, and a command that keeps them. *)
Definition at_start (w : conf_view) : Prop := cores w = m0.
Lemma near_start w : at_start w -> near w.
Proof. intros E. unfold near. rewrite E. split; [apply one_step_refl|exact H0]. Qed.
Lemma near_same w w' : at_start w -> cv_vpns w' = cv_vpns w -> near w'.
Proof. intros E E'. apply near_start. unfold at_start, cores in *. by rewrite E'. Qed.
Lemma near_store n v s w : at_start w -> (forall o, m0 !! n = o -> vpn_step o (vpn_core_of v)) -> vpn_fits (vpn_core_of v) ->
  ends_near (commit (set_cv_vpns (<[n := v]> (cv_vpns w)) w)) s.
Proof.
  intros E Hs Hf. apply near_commit. unfold near. rewrite cores_store, E. split.
  - intros k v' [[<- <-]|[Hk E']]%lookup_insert_Some; [by apply Hs|]. rewrite E'. apply vpn_step_refl.
  - by apply map_Forall_insert_2.
Qed.
Lemma start_at w n v : at_start w -> cv_vpns w !! n = Some v -> m0 !! n = Some (vpn_core_of v).
Proof. intros <- E. unfold cores. by rewrite lookup_fmap, E. Qed.
Lemma start_fits w n v : at_start w -> cv_vpns w !! n = Some v -> vpn_fits (vpn_core_of v).
Proof. intros E Hn. by eapply H0, start_at. Qed.
Lemma near_store_vpn s v v' : at_start (vs_view s) -> cv_vpns (vs_view s) !! vs_l2vpn s = Some v ->
  vpn_step (Some (vpn_core_of v)) (vpn_core_of v') -> vpn_fits (vpn_core_of v') -> ends_near (store_vpn v') s.
Proof. intros E Hn Hs Hf. apply near_get, near_store; [done| |done]. rewrite (start_at _ _ _ E Hn). by intros o <-. Qed.

(** New members. *)
Lemma step_pws v ifs pws : (forall n p, pws !! n = Some p -> pw_step (core_of <$> vv_pws v !! n) (core_of p)) ->
  vpn_step (Some (vpn_core_of v)) (vpn_core_of (vv_set_members ifs pws v)).
Proof.
  intros H. right. split; [done|]. intros n c'. cbn. rewrite !lookup_fmap. intros (p & Hp & ->)%fmap_Some. by apply H.
Qed.
Lemma pws_fit v ifs pws : vpn_fits (vpn_core_of v) -> (forall n p, pws !! n = Some p -> is_u 32 (pv_lsr_id p) /\ is_u 32 (pv_pwid p)) ->
  vpn_fits (vpn_core_of (vv_set_members ifs pws v)).
Proof. intros [Ht _] H. split; [done|]. intros n c. cbn. rewrite lookup_fmap. intros (p & Hp & ->)%fmap_Some. by eapply H. Qed.
Lemma pw_fits v n p : vpn_fits (vpn_core_of v) -> vv_pws v !! n = Some p -> is_u 32 (pv_lsr_id p) /\ is_u 32 (pv_pwid p).
Proof. intros [_ H] E. apply (H n (core_of p)). cbn. by rewrite lookup_fmap, E. Qed.
Lemma pw_step_refl p : pw_step (Some (core_of p)) (core_of p).
Proof. by left. Qed.
Lemma near_pw f s : at_start (vs_view s) ->
  (forall p, pw_step (Some (core_of p)) (core_of (f p))) ->
  (forall p, is_u 32 (pv_lsr_id p) /\ is_u 32 (pv_pwid p) -> is_u 32 (pv_lsr_id (f p)) /\ is_u 32 (pv_pwid (f p))) ->
  ends_near (spec_pw f) s.
Proof.
  intros E Hs Hf. apply near_get, near_cur. intros v Hv. apply near_found. intros p Hp. pose proof (start_fits _ _ _ E Hv) as Hvf.
  apply (near_store_vpn s v); [done..| |].
  - apply step_pws. intros n q [[<- <-]|[_ Hq]]%lookup_insert_Some; [rewrite Hp; apply Hs|rewrite Hq; apply pw_step_refl].
  - apply pws_fit; [done|]. intros n q [[_ <-]|[_ Hq]]%lookup_insert_Some; [by eapply Hf, pw_fits|by eapply pw_fits].
Qed.

Lemma near_member_if no n s : at_start (vs_view s) -> ends_near (spec_member_if no n) s.
Proof.
  intros E. apply near_get, near_cur. intros v Hv. pose proof (start_fits _ _ _ E Hv) as Hvf. pose proof (near_start _ E) as Hn.
  assert (forall ifs, ends_near (store_vpn (vv_set_members ifs (vv_pws v) v)) s) as Hst.
  { intros ifs. apply (near_store_vpn s v); [done..|by left|done]. }
  repeat case_match; try (by apply near_ret); apply Hst.
Qed.
Lemma near_member_pw no n s : at_start (vs_view s) -> ends_near (spec_member_pw no n) s.
Proof.
  intros E. apply near_get, near_cur. intros v Hv. pose proof (start_fits _ _ _ E Hv) as Hvf. pose proof (near_start _ E) as Hn.
  cbv zeta. case_bool_decide as Hp; [destruct no|destruct (no || _); [by apply near_ret|]].
  - apply (near_store_vpn s v); [done..| |].
    + apply step_pws. intros k q [_ Hq]%lookup_delete_Some. rewrite Hq. apply pw_step_refl.
    + apply pws_fit; [done|]. intros k q [_ Hq]%lookup_delete_Some. by eapply pw_fits.
  - by intros r s' [= <- <-].
  - intros r s'. unfold bind. destruct (store_vpn _ s) as [[r1 s1]| | |] eqn:Es; cbn [rbind]; try done. intros [= <- <-].
    cbn [vs_view set_vs_pw set_vs_node]. revert r1 s1 Es. apply (near_store_vpn s v); [done..| |].
    + apply step_pws. intros k q [[<- <-]|[_ Hq]]%lookup_insert_Some; [|rewrite Hq; apply pw_step_refl].
      destruct (vv_pws v !! n) eqn:Ek; [by destruct Hp|done].
    + apply pws_fit; [done|]. intros k q [[_ <-]|[_ Hq]]%lookup_insert_Some; [split; done|by eapply pw_fits].
Qed.
Lemma near_l2vpn no n s : at_start (vs_view s) -> ends_near (spec_l2vpn no n) s.
Proof.
  intros E. pose proof (near_start _ E) as Hn. apply near_get. cbv zeta. destruct no; case_bool_decide as Hs; try (by apply near_ret).
  - apply near_commit. unfold near, cores. cbn. rewrite fmap_delete. fold (cores (vs_view s)). rewrite E. split.
    + intros k v' [_ Hk]%lookup_delete_Some. rewrite Hk. apply vpn_step_refl.
    + by apply map_Forall_delete.
  - do 2 apply near_modify. apply near_store; [done| |split; [done|intros k c; cbn; rewrite fmap_empty, lookup_empty; done]]. intros o <-. rewrite <- E. unfold cores.
    rewrite lookup_fmap. destruct (cv_vpns (vs_view s) !! n); [by destruct Hs|done].
Qed.
Lemma near_params t m b s v : at_start (vs_view s) -> cv_vpns (vs_view s) !! vs_l2vpn s = Some v -> is_u 16 t ->
  ends_near (store_vpn (vv_set_params t m b v)) s.
Proof.
  intros E Hv Ht. destruct (start_fits _ _ _ E Hv) as [_ Hf]. apply (near_store_vpn s v); [done..|by left|by split].
Qed.
Lemma near_global f s : at_start (vs_view s) -> (forall w, cv_vpns (f w) = cv_vpns w) -> ends_near (on_global f) s.
Proof. intros E Hf. apply near_get, near_commit. by apply (near_same (vs_view s)). Qed.
Lemma near_af f s : at_start (vs_view s) -> ends_near (on_af f) s.
Proof. intros E. apply near_get, near_commit. by apply (near_same (vs_view s)). Qed.
Lemma lsr_arg_fits b id : bytes_of AF_INET b -> lsr_id_arg (Some b) = Some id -> is_u 32 id.
Proof.
  intros [Hl Hb]. cbn. case_match; [|done]. intros [= <-]. unfold is_u. change (2 ^ 32) with (2 ^ (8 * Z.of_nat 4)).
  change 4%nat with (addr_size AF_INET). rewrite <- Hl. by apply le_val_bound.
Qed.
Lemma near_keep w s : at_start (vs_view s) -> cv_vpns w = cv_vpns (vs_view s) -> ends_near (commit w) s.
Proof. intros E Ew. apply near_commit. exact (near_same _ _ E Ew). Qed.
Lemma near_hello hold no secs h s : at_start (vs_view s) -> ends_near (spec_hello hold no secs h) s.
Proof.
  intros E. unfold spec_hello. destruct secs as [secs|]; [|apply near_ret, near_start, E]. apply near_get.
  assert (forall x, ends_near (bind (vfound x) (fun i => commit (set_cv_ifs
    (<[vs_ifname s := vmod_if (node_af (vs_node s)) (iv_set_hello hold (if no then 0 else secs)) i]> (cv_ifs (vs_view s))) (vs_view s)))) s) as Hi.
  { intros x. apply near_found. intros i _. apply near_keep; [exact E|reflexivity]. }
  destruct (vs_node s); try (apply near_af, E); [|apply Hi|apply Hi].
  apply near_global; [exact E|]. intros w. unfold cv_set_hello. destruct hold, h; reflexivity.
Qed.
Lemma near_interface no n s : at_start (vs_view s) -> ends_near (spec_interface no n) s.
Proof.
  intros E. apply near_get. cbv zeta. pose proof (near_start _ E) as Hn.
  assert (forall w s, vs_view s = w -> at_start w -> forall m, ends_near (commit (set_cv_ifs m w)) s) as Hk.
  { intros w t <- Ht m. apply near_keep; [exact Ht|reflexivity]. }
  destruct no.
  - destruct (cv_ifs (vs_view s) !! n) as [i|]; [destruct (iv_enabled _)|]; try (apply near_ret, Hn). apply Hk; [reflexivity|exact E].
  - do 2 apply near_modify. destruct (cv_ifs (vs_view s) !! n) as [i|]; [destruct (iv_enabled _)|destruct (in_use _ _)];
      try (apply near_ret, Hn); (apply Hk; [reflexivity|exact E]).
Qed.
Lemma near_targeted no a s : at_start (vs_view s) -> ends_near (spec_targeted no a) s.
Proof.
  intros E. apply near_get. cbv zeta. pose proof (near_start _ E) as Hn. destruct a as [b|]; [|apply near_ret, Hn].
  apply near_lift. intros bad _. destruct (negb _ || _); [apply near_ret, Hn|].
  destruct (bool_decide _), no; try (apply near_ret, Hn); (apply near_keep; [exact E|reflexivity]).
Qed.
Lemma near_trans_addr no a s : at_start (vs_view s) -> ends_near (spec_trans_addr no a) s.
Proof.
  intros E. apply near_get. cbv zeta. pose proof (near_start _ E) as Hn. destruct no; [apply near_af, E|].
  destruct a as [b|]; [|apply near_ret, Hn]. apply near_lift. intros bad _. destruct (negb _); [apply near_ret, Hn|apply near_af, E].
Qed.
Lemma near_nbrp no id upd s : at_start (vs_view s) -> ends_near (spec_nbrp no id upd) s.
Proof.
  intros E. pose proof (near_start _ E) as Hn. unfold spec_nbrp. destruct (lsr_id_arg id) as [i|]; [|apply near_ret, Hn]. apply near_get.
  destruct (no && _); [apply near_ret, Hn|]. destruct (upd _); [|apply near_ret, Hn]. apply near_global; [exact E|reflexivity].
Qed.
Lemma near_node n f s : at_start (vs_view s) -> (forall w, cv_vpns (f w) = cv_vpns w) ->
  ends_near (modify (set_vs_node n) ;;; on_global f) s.
Proof. intros E Hf. apply near_modify, near_global; [exact E|exact Hf]. Qed.
Lemma near_cmd n c s : cmd_ok n c -> at_start (vs_view s) -> ends_near (spec_cmd c) s.
Proof.
  intros Hc E. pose proof (near_start _ E) as Hn. destruct c; cbn [spec_cmd].
  - destruct no; [apply near_global|apply near_node]; [exact E|reflexivity|exact E|reflexivity].
  - destruct (af_of_name af) as [a|]; [|apply near_ret, Hn]. cbv zeta.
    destruct no; [apply near_global|apply near_node]; [exact E|reflexivity|exact E|reflexivity].
  - apply near_hello, E.
  - apply near_hello, E.
  - apply near_af, E.
  - apply near_nbrp, E.
  - destruct (in_range _ _ _); [apply near_af, E|apply near_ret, Hn].
  - apply near_interface, E.
  - apply near_trans_addr, E.
  - apply near_targeted, E.
  - apply near_af, E.
  - apply near_af, E.
  - destruct no; [apply near_global; [exact E|reflexivity]|]. destruct (lsr_id_arg addr); [|apply near_ret, Hn].
    apply near_global; [exact E|reflexivity].
  - apply near_global; [exact E|reflexivity].
  - apply near_global; [exact E|reflexivity].
  - apply near_nbrp, E.
  - apply near_nbrp, E.
  - apply near_l2vpn, E.
  - apply near_cur. intros v Hv. apply near_params; [exact E|exact Hv|]. apply (start_fits _ _ _ E Hv).
  - destruct (in_range _ _ _); [|apply near_ret, Hn]. apply near_cur. intros v Hv. apply near_params; [exact E|exact Hv|].
    apply (start_fits _ _ _ E Hv).
  - apply near_cur. intros v Hv. apply near_params; [exact E|exact Hv|]. destruct no; [|destruct (String.eqb _ _)]; unfold is_u; done.
  - apply near_member_if, E.
  - apply near_member_pw, E.
  - apply near_pw; [exact E|right; split; reflexivity|intros p H; exact H].
  - destruct addr as [[af b]|]; [|apply near_ret, Hn]. apply near_lift. intros bad _. destruct (negb _); [apply near_ret, Hn|].
    destruct no; (apply near_pw; [exact E|right; split; reflexivity|intros p H; exact H]).
  - destruct (lsr_id_arg lsr_id) as [i|] eqn:Ei; [|apply near_ret, Hn]. apply near_pw; [exact E|left; split; reflexivity|].
    intros p [_ H2]. split; [|exact H2]. destruct lsr_id as [b|]; [|discriminate Ei]. destruct no; [done|by eapply lsr_arg_fits].
  - destruct (in_range _ _ _) as [i|] eqn:Ei; [|apply near_ret, Hn]. apply near_pw; [exact E|left; split; reflexivity|].
    intros p [H1 _]. split; [exact H1|]. destruct no; [done|]. revert Ei. unfold in_range. destruct (option_map u32 pwid); [|done].
    destruct (_ || _) eqn:Eb; [done|]. intros [= <-]. cbn. unfold MIN_PWID_ID, MAX_PWID_ID in Eb. unfold is_u. zbool. lia.
  - apply near_pw; [exact E|right; split; reflexivity|intros p H; exact H].
Qed.
End Commands.

(** One line of the vty. *)
Lemma line_near c s r s' : fits (cores (vs_view s)) -> line_ok c s -> spec_line c s = Ok (r, s') ->
  one_step (cores (vs_view s)) (cores (vs_view s')) /\ fits (cores (vs_view s')).
Proof.
  intros Hf Hl. unfold spec_line, line_ok in *. rewrite (bind_ok get _ s s s) by done. destruct (node_for 3 c (vs_node s)) as [n|].
  - intros E. unfold bind, modify in E. cbn [rbind] in E. destruct (spec_cmd c (set_vs_node n s)) as [[r1 s1]| | |] eqn:Ec; try discriminate E.
    cbn [rbind] in E. injection E as _ <-. exact (near_cmd _ Hf n c (set_vs_node n s) Hl eq_refl r1 s1 Ec).
  - intros [= <- <-]. split; [apply one_step_refl|exact Hf].
Qed.
