(* ===== verification/ConfTrip.v ===== *)
(** * A written configuration is read back

    What [ldp_config_write] and [ldp_l2vpn_config_write] print, read by a parent
    that has just started, makes a configuration that means the same.  Lines run
    one block at a time on views ([runs]); [norm_ok] says that normalization has
    nothing to do in between. *)
From stdpp Require Import prelude strings list gmap.
From Stdlib Require Import ZArith Lia Permutation.
From S2P Require Import Prelude Util Wire Ipc Session Fec Hello Discovery DiscInv Config Engine KeyedList Parent ConfView ConfMerge ConfSpec ConfCmds ConfRead.

(** ** Lines one after the other *)
Definition runs (l : list vty_cmd) (s s' : vstate) : Prop := accepted l s /\ spec_config l s = Ok (tt, s').
Definition step (c : vty_cmd) (s s' : vstate) : Prop :=
  is_Some (node_for 3 c (vs_node s)) /\ line_ok c s /\ refused c s = false /\ exists r, spec_line c s = Ok (Some r, s').

Section Runs.
Implicit Types (c : vty_cmd) (s : vstate) (l : list vty_cmd).

Lemma runs_nil s : runs [] s s.
Proof. done. Qed.
Lemma runs_cons c l s s1 s' : step c s s1 -> runs l s1 s' -> runs (c :: l) s s'.
Proof.
  intros (H0 & H1 & H2 & r & E) (Ha & Es). split.
  - split_and!; try done. intros r' s2 E2. assert (s2 = s1) as -> by congruence. done.
  - unfold spec_config. cbn [foreach]. rewrite (bind_ok (do r <- spec_line c; must r) _ s tt s1) by (unfold bind; by rewrite E). exact Es.
Qed.
Lemma runs_app l1 l2 s s1 s' : runs l1 s s1 -> runs l2 s1 s' -> runs (l1 ++ l2) s s'.
Proof.
  revert s. induction l1 as [|c l1 IH]; intros s [Ha Es] H2.
  { unfold spec_config in Es. cbn in Es. by injection Es as ->. }
  destruct Ha as (A0 & A1 & A2 & A3). unfold spec_config in Es. cbn [foreach] in Es.
  destruct (bind_inv _ _ _ _ Es) as ([] & s2 & E1 & E2). destruct (bind_inv _ _ _ _ E1) as ([r|] & s3 & E3 & E4); [|done].
  injection E4 as <-. cbn [app]. eapply runs_cons; [by split_and!; [..|eexists]|]. apply IH; [|done]. split; [by eapply A3|done].
Qed.
Lemma runs_one c s s' : step c s s' -> runs [c] s s'.
Proof. intros H. eapply runs_cons; [done|apply runs_nil]. Qed.
Lemma runs_line_if (b : bool) c s s' : (b = true -> step c s s') -> (b = false -> s = s') -> runs (line_if b c) s s'.
Proof. intros H1 H2. destruct b; [by apply runs_one, H1|]. rewrite H2 by done. apply runs_nil. Qed.
Lemma step_cmd c s n r s' : node_up 3 c (vs_node s) = Some n -> matches c = true -> cmd_ok n c -> refused c s = false ->
  spec_cmd c (set_vs_node n s) = Ok (r, s') -> step c s s'.
Proof.
  intros Hup Hm Hc Hr E. assert (node_for 3 c (vs_node s) = Some n) as Hn by (unfold node_for; by rewrite Hm). split; [by eexists|]. split; [unfold line_ok; by rewrite Hn|]. split; [done|]. exists r. unfold spec_line.
  rewrite (bind_ok get _ s s s) by done. rewrite Hn. unfold modify, bind. cbn [rbind]. by rewrite E.
Qed.
End Runs.

(** ** Views normalization leaves alone *)
Definition af_quiet (w : conf_view) (af : Z) : Prop :=
  has_flag (av_flags (cv_af w af)) F_LDPD_AF_ENABLED = true \/
  (cv_af w af = af_unset af /\ (forall k, k ∈ cv_tnbrs w -> fst k <> af) /\
   forall n i, cv_ifs w !! n = Some i -> iv_enabled (iv_of i af) = false).
Record norm_ok (w : conf_view) : Prop := NormOk {
  no_on : has_flag (cv_flags w) F_LDPD_ENABLED = true;
  no_af : forall af, af_ok af -> af_quiet w af;
  no_vpn : forall n v, cv_vpns w !! n = Some v -> vvpn_normalize v = v
}.

Section Norm.
Implicit Types (w : conf_view).

Lemma reset_same af w : af_ok af -> cv_af w af = af_unset af -> (forall k, k ∈ cv_tnbrs w -> fst k <> af) ->
  (forall n i, cv_ifs w !! n = Some i -> iv_enabled (iv_of i af) = false) -> vreset_af af w = w.
Proof.
  intros Haf Ha Ht Hi. unfold vreset_af. rewrite <- Ha.
  assert (filter (fun k => fst k <> af) (cv_tnbrs w) = cv_tnbrs w) as ->.
  { apply set_eq. intros k. rewrite elem_of_filter. naive_solver. }
  assert (vmod_if af vdisable <$> cv_ifs w = cv_ifs w) as ->.
  { apply map_eq. intros n. rewrite lookup_fmap. destruct (cv_ifs w !! n) as [i|] eqn:E; [|done]. cbn. f_equal.
    pose proof (Hi n i E) as Hd. destruct i as [[b4 h4 i4] [b6 h6 i6]].
    destruct Haf as [-> | ->]; cbn in Hd; by subst. }
  unfold set_cv_af, set_cv_maps, cv_af. destruct w. by destruct Haf as [-> | ->].
Qed.
Lemma norm_vpns_only w : has_flag (cv_flags w) F_LDPD_ENABLED = true -> (forall af, af_ok af -> af_quiet w af) ->
  vnormalize w = set_cv_vpns (vvpn_normalize <$> cv_vpns w) w.
Proof.
  intros Hon Haf. unfold vnormalize. rewrite Hon. cbn [negb].
  assert ((if negb (has_flag (av_flags (cv_ipv4 w)) F_LDPD_AF_ENABLED) then vreset_af AF_INET w else w) = w) as ->.
  { destruct (Haf AF_INET) as [E|(E1 & E2 & E3)]; [by left| |]; [change (cv_ipv4 w) with (cv_af w AF_INET); by rewrite E|].
    case_match; [|done]. apply reset_same; [by left|done..]. }
  assert ((if negb (has_flag (av_flags (cv_ipv6 w)) F_LDPD_AF_ENABLED) then vreset_af AF_INET6 w else w) = w) as ->; [|done].
  destruct (Haf AF_INET6) as [E|(E1 & E2 & E3)]; [by right| |]; [change (cv_ipv6 w) with (cv_af w AF_INET6); by rewrite E|].
  case_match; [|done]. apply reset_same; [by right|done..].
Qed.
Lemma norm_same w : norm_ok w -> vnormalize w = w.
Proof.
  intros [Hon Haf Hv]. rewrite norm_vpns_only by done. assert (vvpn_normalize <$> cv_vpns w = cv_vpns w) as ->; [|by destruct w].
  apply map_eq. intros n. rewrite lookup_fmap. destruct (cv_vpns w !! n) as [v|] eqn:E; [|done]. cbn. f_equal. by eapply Hv.
Qed.
Lemma commit_norm w s : norm_ok w -> commit w s = Ok (CMD_SUCCESS, set_vs_view w s).
Proof. intros H. unfold commit, modify, bind, ret. cbn. by rewrite norm_same. Qed.

(** Edits that keep it. *)
Lemma norm_global w a b d e f g h : norm_ok w -> has_flag h F_LDPD_ENABLED = true -> norm_ok (set_cv_global a b d e f g h w).
Proof. intros [H1 H2 H3] Hh. by split. Qed.
Lemma norm_nbrps w m : norm_ok w -> norm_ok (set_cv_nbrps m w).
Proof. intros [H1 H2 H3]. by split. Qed.
Lemma norm_set_af w af a : norm_ok w -> af_ok af -> has_flag (av_flags a) F_LDPD_AF_ENABLED = true -> norm_ok (set_cv_af af a w).
Proof.
  intros [H1 H2 H3] Haf Ha. split; [done| |done]. intros af' Haf'. destruct (decide (af' = af)) as [-> |Hne].
  - left. by destruct Haf as [-> | ->].
  - destruct (H2 af' Haf') as [E|E]; [left|right]; destruct Haf as [-> | ->], Haf' as [-> | ->]; try done.
Qed.
Lemma norm_tnbr w af b : norm_ok w -> has_flag (av_flags (cv_af w af)) F_LDPD_AF_ENABLED = true ->
  norm_ok (set_cv_tnbrs ({[(af, b)]} ∪ cv_tnbrs w) w).
Proof.
  intros [H1 H2 H3] Ha. split; [done| |done]. intros af' Haf'. destruct (H2 af' Haf') as [E|(E1 & E2 & E3)]; [by left|].
  destruct (decide (af' = af)) as [-> |Hne]; [by left|]. right. split_and!; [done| |done].
  intros k. cbn. rewrite elem_of_union, elem_of_singleton. intros [-> |Hk]; [by cbn|by apply E2].
Qed.
Lemma norm_if w af n i : norm_ok w -> af_ok af -> has_flag (av_flags (cv_af w af)) F_LDPD_AF_ENABLED = true ->
  (forall af', af_ok af' -> af' <> af -> iv_enabled (iv_of i af') = true ->
     exists j, cv_ifs w !! n = Some j /\ iv_enabled (iv_of j af') = true) ->
  norm_ok (set_cv_ifs (<[n := i]> (cv_ifs w)) w).
Proof.
  intros [H1 H2 H3] Haf Ha Hi. split; [done| |done]. intros af' Haf'. destruct (H2 af' Haf') as [E|(E1 & E2 & E3)]; [by left|].
  destruct (decide (af' = af)) as [-> |Hne]; [by left|]. right. split_and!; [done..|]. intros m j. cbn.
  destruct (decide (n = m)) as [<- |Hm]; [|rewrite lookup_insert_ne by done; apply E3]. rewrite lookup_insert_eq. intros [= <-].
  destruct (iv_enabled (iv_of i af')) eqn:E; [|done]. destruct (Hi af' Haf' Hne E) as (j & Hj & Ej). by rewrite (E3 n j Hj) in Ej.
Qed.
Lemma vpw_normalize_idem p : vpw_normalize (vpw_normalize p) = vpw_normalize p.
Proof. unfold vpw_normalize. destruct (pv_static p) eqn:E; cbn; by rewrite ?E. Qed.
Lemma vvpn_normalize_idem v : vvpn_normalize (vvpn_normalize v) = vvpn_normalize v.
Proof.
  unfold vvpn_normalize. cbn. f_equal. rewrite <- map_fmap_compose. apply map_fmap_ext. intros k p _. apply vpw_normalize_idem.
Qed.
Lemma norm_vpn w n v : norm_ok w -> norm_ok (set_cv_vpns (<[n := vvpn_normalize v]> (cv_vpns w)) w).
Proof.
  intros [H1 H2 H3]. split; [done|done|]. intros m u. cbn. destruct (decide (n = m)) as [<- |Hm].
  - rewrite lookup_insert_eq. intros [= <-]. apply vvpn_normalize_idem.
  - rewrite lookup_insert_ne by done. apply H3.
Qed.
(** An L2VPN that is stored comes out normalized. *)
Lemma commit_vpn w n v s : norm_ok w -> commit (set_cv_vpns (<[n := v]> (cv_vpns w)) w) s
  = Ok (CMD_SUCCESS, set_vs_view (set_cv_vpns (<[n := vvpn_normalize v]> (cv_vpns w)) w) s).
Proof.
  intros H. unfold commit, modify, bind, ret. cbn. do 3 f_equal. rewrite norm_vpns_only by apply H.
  unfold set_cv_vpns, set_cv_maps. cbn. rewrite fmap_insert. do 2 f_equal. apply map_eq. intros m. rewrite lookup_fmap.
  destruct (cv_vpns w !! m) as [u|] eqn:E; [|done]. cbn. f_equal. by eapply H.
Qed.
End Norm.

(** ** Lines of the LDP node *)
Definition hello_cmd (hold : bool) (h : hello_type) (v : Z) : vty_cmd :=
  if hold then CmdHoldtime false h (Some v) else CmdInterval false h (Some v).
Definition hello_dflt (hold : bool) (h : hello_type) : Z := if hold then dflt_holdtime h else DEFAULT_HELLO_INTERVAL.
Definition hello_range (hold : bool) (v : Z) : Prop :=
  (if hold then in_range MIN_HOLDTIME MAX_HOLDTIME (Some v) else in_range MIN_HELLO_INTERVAL MAX_HELLO_INTERVAL (Some v)) = Some v.
Definition cv_get_hello (hold : bool) (h : hello_type) (w : conf_view) : Z :=
  match hold, h with
  | true, HELLO_LINK => cv_lholdtime w | false, HELLO_LINK => cv_linterval w
  | true, HELLO_TARGETED => cv_tholdtime w | false, HELLO_TARGETED => cv_tinterval w
  end.
Definition av_get_hello (hold : bool) (h : hello_type) (a : af_view) : Z :=
  match hold, h with
  | true, HELLO_LINK => av_lholdtime a | false, HELLO_LINK => av_linterval a
  | true, HELLO_TARGETED => av_tholdtime a | false, HELLO_TARGETED => av_tinterval a
  end.
(** A parameter of a family or an interface: not set, or set to something other
    than the default, which would not be written. *)
Definition hello_opt (hold : bool) (h : hello_type) (v : Z) : Prop := v = 0 \/ (hello_range hold v /\ v <> hello_dflt hold h).

Section LdpLines.
Implicit Types (w : conf_view).

Lemma hello_range_pos hold v : hello_range hold v -> v <> 0.
Proof. unfold hello_range, in_range. intros H ->. by destruct hold. Qed.
Lemma hello_opt_shown hold h v : hello_opt hold h v -> shown v (hello_dflt hold h) = false -> v = 0.
Proof.
  intros [-> |[Hr Hd]] Hs; [done|]. unfold shown in Hs. apply andb_false_iff in Hs as [Hs|Hs]; zbool; congruence.
Qed.
Lemma hello_cmd_matches hold h v : hello_range hold v -> matches (hello_cmd hold h v) = true.
Proof.
  unfold hello_range, in_range, MIN_HOLDTIME, MAX_HOLDTIME, MIN_HELLO_INTERVAL, MAX_HELLO_INTERVAL.
  intros H. destruct hold; cbn; case_match; simplify_eq; zbool; apply andb_true_iff; split; apply Z.leb_le; lia.
Qed.
Lemma hello_cmd_spec hold h v s : hello_range hold v -> spec_cmd (hello_cmd hold h v) s = spec_hello hold false (Some v) h s.
Proof. unfold hello_range. intros H. destruct hold; cbn [hello_cmd spec_cmd]; by rewrite H. Qed.

Lemma hello_global_line hold h v w i n q : norm_ok w -> hello_range hold v -> cv_get_hello hold h w = hello_dflt hold h ->
  runs (line_if (shown v (hello_dflt hold h)) (hello_cmd hold h v)) (VState w LDP_NODE i n q)
    (VState (cv_set_hello hold h v w) LDP_NODE i n q).
Proof.
  intros Hw Hr Hd. apply runs_line_if.
  - intros _. eapply (step_cmd _ _ LDP_NODE); [by destruct hold, h|by apply hello_cmd_matches|by destruct hold|by destruct hold|].
    rewrite hello_cmd_spec by done. cbn. apply (commit_norm (cv_set_hello hold h v w)).
    unfold cv_set_hello. destruct hold, h; apply norm_global; try done; apply Hw.
  - intros Hs. assert (v = hello_dflt hold h) as ->.
    { apply hello_range_pos in Hr. unfold shown in Hs. apply andb_false_iff in Hs as [Hs|Hs]; zbool; congruence. }
    f_equal. rewrite <- Hd. destruct w. by destruct hold, h.
Qed.
Lemma hello_lines_eq lh li th ti accept : hello_lines lh li th ti accept =
  line_if (shown lh (hello_dflt true HELLO_LINK)) (hello_cmd true HELLO_LINK lh)
  ++ line_if (shown li (hello_dflt false HELLO_LINK)) (hello_cmd false HELLO_LINK li)
  ++ line_if accept (CmdTargetedHelloAccept false)
  ++ line_if (shown th (hello_dflt true HELLO_TARGETED)) (hello_cmd true HELLO_TARGETED th)
  ++ line_if (shown ti (hello_dflt false HELLO_TARGETED)) (hello_cmd false HELLO_TARGETED ti).
Proof. done. Qed.
Definition set_hellos (lh li th ti : Z) (w : conf_view) : conf_view :=
  cv_set_hello false HELLO_TARGETED ti (cv_set_hello true HELLO_TARGETED th
    (cv_set_hello false HELLO_LINK li (cv_set_hello true HELLO_LINK lh w))).
Lemma norm_set_hello hold h v w : norm_ok w -> norm_ok (cv_set_hello hold h v w).
Proof. intros Hw. unfold cv_set_hello. destruct hold, h; apply norm_global; try done; apply Hw. Qed.
Lemma hello_global_runs lh li th ti w i n q : norm_ok w -> hello_range true lh -> hello_range false li -> hello_range true th ->
  hello_range false ti -> (forall hold h, cv_get_hello hold h w = hello_dflt hold h) ->
  runs (hello_lines lh li th ti false) (VState w LDP_NODE i n q) (VState (set_hellos lh li th ti w) LDP_NODE i n q).
Proof.
  intros Hw H1 H2 H3 H4 Hd. rewrite hello_lines_eq. cbn [line_if app].
  pose proof (Hd true HELLO_LINK). pose proof (Hd false HELLO_LINK). pose proof (Hd true HELLO_TARGETED).
  pose proof (Hd false HELLO_TARGETED). unfold set_hellos. do 3 (eapply runs_app; [apply hello_global_line; try done;
    repeat apply norm_set_hello; done|]). apply hello_global_line; try done. repeat apply norm_set_hello; done.
Qed.

(** Neighbour parameters that are some choice of a hold time, TTL security (with
    a number of hops or none) and a password. *)
Definition nbrp_of (id : Z) (ka : option Z) (ttl : option (option Z)) (pw : option string) : nbr_params :=
  NbrParams id (default 0 ka) (match ttl with Some (Some _) => 1 | _ => 0 end)
    (match ttl with Some (Some h) => h | _ => 0 end) (match pw with Some _ => AUTH_MD5SIG | None => AUTH_NONE end)
    (default "" pw) (match pw with Some k => Z.of_nat (String.length k) | None => 0 end)
    ((if ka then F_NBRP_KEEPALIVE else 0) + (match ttl with Some (Some _) => F_NBRP_GTSM + F_NBRP_GTSM_HOPS | Some None => F_NBRP_GTSM | None => 0 end)).
Lemma num_in_range lo hi lo' hi' z : num_in lo hi (Some z) = true -> lo' <= lo -> hi <= hi' -> in_range lo' hi' (Some z) = Some z.
Proof.
  intros [H1%Z.leb_le H2%Z.leb_le]%andb_true_iff Hl Hh. unfold in_range. destruct (_ || _) eqn:E; [|done].
  apply orb_true_iff in E as [E|E]; zbool; lia.
Qed.
Lemma keepalive_range z : num_in 15 65535 (Some z) = true -> in_range MIN_KEEPALIVE MAX_KEEPALIVE (Some z) = Some z.
Proof. intros H. by apply (num_in_range 15 65535). Qed.
Definition lsr_id_ok (id : Z) : Prop := is_u 32 id /\ bad_addr_v4 id = 0.
Definition nbrp_canon (n : nbr_params) : Prop := exists ka ttl pw, n = nbrp_of (nbrp_lsr_id n) ka ttl pw /\
  lsr_id_ok (nbrp_lsr_id n) /\ (ka <> None \/ ttl <> None \/ pw <> None) /\
  (forall k, ka = Some k -> num_in 15 65535 (Some k) = true) /\
  (forall h, ttl = Some (Some h) -> num_in 1 254 (Some h) = true) /\
  (forall k, pw = Some k -> (String.length k < TCP_MD5_KEY_LEN)%nat).

(** The view while the lines of neighbour [id] are read. *)
Definition with_nbrp (w : conf_view) (id : Z) (ka : option Z) (ttl : option (option Z)) (pw : option string) : conf_view :=
  match ka, ttl, pw with
  | None, None, None => w
  | _, _, _ => set_cv_nbrps (<[id := nbrp_of id ka ttl pw]> (cv_nbrps w)) w
  end.
Lemma lsr_id_arg_ok id : lsr_id_ok id -> lsr_id_arg (Some (le_bytes 4 id)) = Some id.
Proof.
  intros [Hu Hb]. unfold lsr_id_arg. rewrite le_val_bytes. replace (id mod 2 ^ (8 * Z.of_nat 4)) with id.
  - by rewrite Hb.
  - symmetry. apply Z.mod_small. exact Hu.
Qed.
Lemma nbrp_step c upd w id ka0 ttl0 pw0 ka ttl pw i n q : norm_ok w -> lsr_id_ok id -> cv_nbrps w !! id = None ->
  (forall s, spec_cmd c s = spec_nbrp false (Some (le_bytes 4 id)) upd s) -> node_up 3 c LDP_NODE = Some LDP_NODE -> matches c = true ->
  (forall s, refused c s = false) -> cmd_ok LDP_NODE c ->
  upd (nbrp_of id ka0 ttl0 pw0) = Some (nbrp_of id ka ttl pw) -> (ka <> None \/ ttl <> None \/ pw <> None) ->
  step c (VState (with_nbrp w id ka0 ttl0 pw0) LDP_NODE i n q) (VState (with_nbrp w id ka ttl pw) LDP_NODE i n q).
Proof.
  intros Hw Hid Hm Hc Hn Hmt Hr Ho Hu Hsome. eapply step_cmd; [exact Hn|exact Hmt|exact Ho|apply Hr|]. rewrite Hc. unfold spec_nbrp.
  rewrite lsr_id_arg_ok by done. rewrite (bind_ok get _ _ _ _ eq_refl). cbn [andb vs_view set_vs_node].
  set (w0 := with_nbrp w id ka0 ttl0 pw0). assert (the_nbrp w0 id = nbrp_of id ka0 ttl0 pw0) as ->.
  { unfold the_nbrp, w0, with_nbrp. destruct ka0, ttl0 as [[?|]|], pw0; cbn [cv_nbrps set_cv_nbrps set_cv_maps];
      rewrite ?lookup_insert_eq, ?Hm; done. }
  rewrite Hu. assert (set_cv_nbrps (<[id := nbrp_of id ka ttl pw]> (cv_nbrps w0)) w0 = with_nbrp w id ka ttl pw) as Ew.
  { transitivity (set_cv_nbrps (<[id := nbrp_of id ka ttl pw]> (cv_nbrps w)) w).
    - unfold w0, with_nbrp. destruct ka0, ttl0 as [[?|]|], pw0; try done; unfold set_cv_nbrps, set_cv_maps; cbn [cv_nbrps];
        by rewrite insert_insert_eq.
    - unfold with_nbrp. destruct ka, ttl as [[?|]|], pw; try done. naive_solver. }
  unfold store_nbrp, on_global. rewrite (bind_ok get _ _ _ _ eq_refl). cbn [vs_view set_vs_node]. rewrite Ew.
  apply commit_norm. unfold with_nbrp. destruct ka, ttl as [[?|]|], pw; try done; by apply norm_nbrps.
Qed.
Lemma nbrp_runs x w i n q : norm_ok w -> nbrp_canon x -> cv_nbrps w !! nbrp_lsr_id x = None ->
  runs (nbrp_config_write x) (VState w LDP_NODE i n q)
    (VState (set_cv_nbrps (<[nbrp_lsr_id x := x]> (cv_nbrps w)) w) LDP_NODE i n q).
Proof.
  intros Hw (ka & ttl & pw & Ex & Hid & Hsome & Hka & Httl & Hpw) Hm. set (id := nbrp_lsr_id x) in *.
  assert (set_cv_nbrps (<[id := x]> (cv_nbrps w)) w = with_nbrp w id ka ttl pw) as ->.
  { rewrite Ex. unfold with_nbrp. destruct ka, ttl as [[?|]|], pw; try done. naive_solver. }
  unfold nbrp_config_write. fold id. change w with (with_nbrp w id None None None) at 1.
  apply (runs_app _ _ _ (VState (with_nbrp w id ka None None) LDP_NODE i n q)).
  - apply runs_line_if; rewrite Ex.
    + intros Hf. destruct ka as [k|]; [|by destruct ttl as [[?|]|]]. pose proof (keepalive_range k (Hka k eq_refl)) as Hkr.
      apply (nbrp_step _ (upd_keepalive false (Some k))); try done; [by apply Hka| |by left].
      unfold upd_keepalive. rewrite Hkr. assert (0 =? k = false) as E; [|change (nbrp_keepalive _) with 0; by rewrite E].
      pose proof Hkr as E. unfold in_range in E. apply Z.eqb_neq. intros <-. by cbn in E.
    + intros Hf. destruct ka as [k|]; [by destruct ttl as [[?|]|]|done].
  - apply (runs_app _ _ _ (VState (with_nbrp w id ka ttl None) LDP_NODE i n q)); apply runs_line_if; rewrite Ex.
    + intros Hf. destruct ttl as [t|]; [|by destruct ka].
      assert ((if negb (nbrp_gtsm_enabled (nbrp_of id ka (Some t) pw) =? 0) then Some (Some (nbrp_gtsm_hops (nbrp_of id ka (Some t) pw))) else None) = match t with Some h => Some (Some h) | None => None end) as ->
        by (by destruct t).
      apply (nbrp_step _ (fun m => if hops_bad (match t with Some h => Some (Some h) | None => None end) then None
                                   else upd_ttl false (match t with Some h => Some (Some h) | None => None end) m)); try done; [destruct t as [h|]; [by apply Httl|done]| |by right; left].
      destruct t as [h|]; [|by destruct ka]. unfold hops_bad. rewrite (num_in_range 1 254 1 254 h) by (try apply Httl; done). cbn. by destruct ka.
    + intros Hf. destruct ttl as [[h|]|]; [by destruct ka..|done].
    + intros Hf. destruct pw as [k|]; [|done]. apply (nbrp_step _ (upd_password false k)); try done.
      unfold upd_password. cbn [nbrp_auth_method nbrp_of]. cbn [Z.eqb AUTH_NONE AUTH_MD5SIG andb].
      rewrite strlcpy_id by (by apply Hpw). pose proof (Hpw k eq_refl) as Hlen. 
      assert (u8 (Z.of_nat (String.length k)) = Z.of_nat (String.length k)) as ->; [|done].
      unfold u8. apply Z.mod_small. unfold TCP_MD5_KEY_LEN in Hlen. lia.
    + intros Hf. by destruct pw.
Qed.

Lemma nbrps_runs l w i n q : norm_ok w -> Forall nbrp_canon l -> NoDup (keys_of l) ->
  (forall x, x ∈ l -> cv_nbrps w !! nbrp_lsr_id x = None) ->
  runs (concat (map nbrp_config_write l)) (VState w LDP_NODE i n q)
    (VState (set_cv_nbrps (kmap l ∪ cv_nbrps w) w) LDP_NODE i n q).
Proof.
  revert w. induction l as [|x l IH]; intros w Hw Hc Hnd Hd; cbn [map concat].
  { change (kmap []) with (∅ : gmap Z nbr_params). rewrite map_empty_union. destruct w. apply runs_nil. }
  apply Forall_cons in Hc as [Hx Hc]. change (NoDup (key x :: keys_of l)) in Hnd. apply NoDup_cons in Hnd as [Hxl Hnd].
  eapply runs_app; [apply nbrp_runs; [done..|apply Hd; by left]|].
  set (w1 := set_cv_nbrps _ w). assert (kmap (x :: l) ∪ cv_nbrps w = kmap l ∪ cv_nbrps w1) as ->.
  { rewrite kmap_cons, <- insert_union_l. cbn. rewrite <- insert_union_r; [done|]. rewrite lookup_kmap. by apply kfind_None. }
  apply (IH w1); [by apply norm_nbrps|done..|]. intros y Hy. cbn. rewrite lookup_insert_ne; [apply Hd; by right|].
  intros E. apply Hxl. change (key x = key y) in E. rewrite E. by apply list_elem_of_fmap_2.
Qed.

Lemma step_global c f w i n q : (forall s, spec_cmd c s = on_global f s) -> node_up 3 c LDP_NODE = Some LDP_NODE -> matches c = true ->
  (forall s, refused c s = false) -> cmd_ok LDP_NODE c -> norm_ok (f w) ->
  step c (VState w LDP_NODE i n q) (VState (f w) LDP_NODE i n q).
Proof.
  intros Hc Hn Hmt Hr Ho Hw. eapply step_cmd; [exact Hn|exact Hmt|exact Ho|apply Hr|]. rewrite Hc. unfold on_global.
  rewrite (bind_ok get _ _ _ _ eq_refl). exact (commit_norm (f w) (VState w LDP_NODE i n q) Hw).
Qed.

(** What stands before the families. *)
Record global_canon (c : ldpd_conf) : Prop := GlobalCanon {
  gc_flags : xc_flags c = F_LDPD_ENABLED \/ xc_flags c = F_LDPD_ENABLED + F_LDPD_DS_CISCO_INTEROP;
  gc_rtr : xc_rtr_id c = 0 \/ lsr_id_ok (xc_rtr_id c);
  gc_lh : hello_range true (xc_lhello_holdtime c);
  gc_li : hello_range false (xc_lhello_interval c);
  gc_th : hello_range true (xc_thello_holdtime c);
  gc_ti : hello_range false (xc_thello_interval c);
  gc_pref : xc_trans_pref c = DUAL_STACK_LDPOV4 \/ xc_trans_pref c = DUAL_STACK_LDPOV6;
  gc_nbrps : Forall nbrp_canon (xc_nbrp_list c)
}.
Definition global_lines (c : ldpd_conf) : list vty_cmd :=
  [CmdMplsLdp false]
  ++ line_if (negb (xc_rtr_id c =? 0)) (CmdRouterId false (Some (le_bytes 4 (xc_rtr_id c))))
  ++ hello_lines (xc_lhello_holdtime c) (xc_lhello_interval c) (xc_thello_holdtime c) (xc_thello_interval c) false
  ++ line_if (xc_trans_pref c =? DUAL_STACK_LDPOV4) (CmdPreferIpv4 false)
  ++ line_if (has_flag (xc_flags c) F_LDPD_DS_CISCO_INTEROP) (CmdCiscoInterop false)
  ++ concat (map nbrp_config_write (xc_nbrp_list c)).
Definition global_view (c : ldpd_conf) : conf_view :=
  ConfView (xc_rtr_id c) (af_unset AF_INET) (af_unset AF_INET6) ∅ ∅ (kmap (xc_nbrp_list c)) ∅ (xc_lhello_holdtime c)
    (xc_lhello_interval c) (xc_thello_holdtime c) (xc_thello_interval c) (xc_trans_pref c) (xc_flags c).
Definition fresh_view : conf_view :=
  ConfView 0 (af_unset AF_INET) (af_unset AF_INET6) ∅ ∅ ∅ ∅ LINK_DFLT_HOLDTIME DEFAULT_HELLO_INTERVAL
    TARGETED_DFLT_HOLDTIME DEFAULT_HELLO_INTERVAL DUAL_STACK_LDPOV6 F_LDPD_ENABLED.
Lemma abs_init : abs parent_init = VState (set_cv_flags 0 fresh_view) CONFIG_NODE "" "" "".
Proof. done. Qed.
Lemma fresh_norm : norm_ok fresh_view.
Proof.
  split; [done| |done]. intros af [-> | ->]; right; split_and!; try done; intros k Hk; by apply not_elem_of_empty in Hk.
Qed.
Lemma global_runs c : global_canon c -> NoDup (keys_of (xc_nbrp_list c)) ->
  runs (global_lines c) (abs parent_init) (VState (global_view c) LDP_NODE "" "" "").
Proof.
  intros [Hfl Hr H1 H2 H3 H4 Hp Hn] Hnd. rewrite abs_init. pose proof fresh_norm as Hw. unfold global_lines.
  eapply (runs_app _ _ _ (VState fresh_view LDP_NODE "" "" "")).
  { apply runs_one. eapply (step_cmd _ _ CONFIG_NODE); [done..|]. cbn [spec_cmd].
    apply (commit_norm fresh_view (set_vs_node LDP_NODE (VState (set_cv_flags 0 fresh_view) CONFIG_NODE "" "" "")) Hw). }
  set (w1 := set_cv_rtr_id (xc_rtr_id c) fresh_view). assert (norm_ok w1) as Hw1 by (by apply norm_global).
  eapply (runs_app _ _ _ (VState w1 LDP_NODE "" "" "")).
  { apply runs_line_if.
    - intros E. destruct Hr as [Hr|Hr]; [by rewrite Hr in E|]. apply (step_global _ (set_cv_rtr_id (xc_rtr_id c))); try done.
      intros s. cbn [spec_cmd]. by rewrite lsr_id_arg_ok.
    - intros E. assert (xc_rtr_id c = 0) as E0 by (destruct (Z.eqb_spec (xc_rtr_id c) 0); done). unfold w1. by rewrite E0. }
  eapply runs_app; [apply hello_global_runs; try done; by intros [] []|]. set (w2 := set_hellos _ _ _ _ w1).
  assert (norm_ok w2) as Hw2 by (by repeat apply norm_set_hello).
  set (w3 := set_cv_trans_pref (xc_trans_pref c) w2). assert (norm_ok w3) as Hw3 by (by apply norm_global).
  eapply (runs_app _ _ _ (VState w3 LDP_NODE "" "" "")).
  { apply runs_line_if.
    - intros E. apply Z.eqb_eq in E. unfold w3 in Hw3 |- *. rewrite E in Hw3 |- *.
      by apply (step_global _ (set_cv_trans_pref DUAL_STACK_LDPOV4)).
    - intros E. destruct Hp as [Hp|Hp]; [by rewrite Hp in E|]. unfold w3. by rewrite Hp. }
  set (w4 := set_cv_flags (xc_flags c) w3). assert (norm_ok w4) as Hw4 by (apply norm_global; [done|]; by destruct Hfl as [-> | ->]).
  eapply (runs_app _ _ _ (VState w4 LDP_NODE "" "" "")).
  { apply runs_line_if.
    - intros E. destruct Hfl as [Hf|Hf]; [by rewrite Hf in E|]. unfold w4 in Hw4 |- *. rewrite Hf in Hw4 |- *.
      by apply (step_global (CmdCiscoInterop false) (fun w => set_cv_flags (set_flag F_LDPD_DS_CISCO_INTEROP (cv_flags w)) w)).
    - intros E. destruct Hfl as [Hf|Hf]; [|by rewrite Hf in E]. unfold w4. by rewrite Hf. }
  assert (set_cv_nbrps (kmap (xc_nbrp_list c) ∪ cv_nbrps w4) w4 = global_view c) as <-.
  { change (cv_nbrps w4) with (∅ : gmap Z nbr_params). by rewrite map_union_empty. }
  by apply nbrps_runs.
Qed.
Lemma global_norm c : global_canon c -> norm_ok (global_view c).
Proof.
  intros [Hfl _ _ _ _ _ _ _]. split; [by destruct Hfl as [E|E]; cbn; rewrite E| |done].
  intros af [-> | ->]; right; split_and!; try done; intros k Hk; by apply not_elem_of_empty in Hk.
Qed.
End LdpLines.


(** ** Lines of a family *)
Definition af_vty (af : Z) : vty_node := if af =? AF_INET then LDP_IPV4_NODE else LDP_IPV6_NODE.
Definition opt_flag (b : bool) (flag : Z) (a : af_view) : af_view :=
  if b then av_set_flags (set_flag flag (av_flags a)) a else a.
Definition af_on (a : af_view) : Prop := has_flag (av_flags a) F_LDPD_AF_ENABLED = true.

Section AfLines.
Context (af : Z) (Haf : af_ok af).
Implicit Types (w : conf_view) (a : af_view).

Lemma cv_af_set w a : cv_af (set_cv_af af a w) af = a.
Proof. by destruct Haf as [-> | ->]. Qed.
Lemma set_af_set w a b : set_cv_af af b (set_cv_af af a w) = set_cv_af af b w.
Proof. by destruct Haf as [-> | ->]. Qed.
Lemma set_af_same w : set_cv_af af (cv_af w af) w = w.
Proof. destruct w. by destruct Haf as [-> | ->]. Qed.
Lemma af_vty_af : node_af (af_vty af) = af.
Proof. by destruct Haf as [-> | ->]. Qed.

Lemma step_af c f w a i n q : (forall s, vs_node s = af_vty af -> spec_cmd c s = on_af f s) ->
  node_up 3 c (af_vty af) = Some (af_vty af) -> matches c = true -> (forall s, refused c s = false) -> cmd_ok (af_vty af) c ->
  norm_ok w -> af_on (f a) ->
  step c (VState (set_cv_af af a w) (af_vty af) i n q) (VState (set_cv_af af (f a) w) (af_vty af) i n q).
Proof.
  intros Hc Hn Hmt Hr Ho Hw Ha. eapply step_cmd; [exact Hn|exact Hmt|exact Ho|apply Hr|]. rewrite Hc by done. unfold on_af.
  rewrite (bind_ok get _ _ _ _ eq_refl). cbv zeta. cbn [vs_node vs_view set_vs_node]. rewrite af_vty_af, cv_af_set, set_af_set.
  exact (commit_norm _ (VState (set_cv_af af a w) (af_vty af) i n q) (norm_set_af w af (f a) Hw Haf Ha)).
Qed.
Lemma hello_af_line hold h v w a i n q : norm_ok w -> af_on a -> hello_opt hold h v -> av_get_hello hold h a = 0 ->
  runs (line_if (shown v (hello_dflt hold h)) (hello_cmd hold h v)) (VState (set_cv_af af a w) (af_vty af) i n q)
    (VState (set_cv_af af (av_set_hello hold h v a) w) (af_vty af) i n q).
Proof.
  intros Hw Ha Hv Hg. apply runs_line_if.
  - intros Hs. destruct Hv as [-> |[Hr _]]; [unfold shown in Hs; by rewrite andb_false_r in Hs|].
    apply step_af; try done; try (by destruct hold); try (by destruct hold, h, Haf as [-> | ->]); try (by apply hello_cmd_matches).
    intros s Hs'. rewrite hello_cmd_spec by done. unfold spec_hello. rewrite (bind_ok get _ _ _ _ eq_refl), Hs'.
    by destruct Haf as [-> | ->].
  - intros Hs. rewrite (hello_opt_shown _ _ _ Hv Hs), <- Hg. do 2 f_equal. destruct a. by destruct hold, h.
Qed.
Lemma flag_line (b : bool) c flag w a i n q : (forall s, spec_cmd c s = spec_af_flag false flag s) ->
  node_up 3 c (af_vty af) = Some (af_vty af) -> matches c = true -> (forall s, refused c s = false) -> cmd_ok (af_vty af) c ->
  norm_ok w -> af_on (opt_flag b flag a) ->
  runs (line_if b c) (VState (set_cv_af af a w) (af_vty af) i n q) (VState (set_cv_af af (opt_flag b flag a) w) (af_vty af) i n q).
Proof.
  intros Hc Hn Hmt Hr Ho Hw Ha. apply runs_line_if; [|by intros ->]. intros ->.
  by apply (step_af c (fun a => av_set_flags (set_flag flag (av_flags a)) a)).
Qed.
Lemma isset_zero addr : addr_ok addr -> ldp_addrisset af addr = Ok 0 -> addr_key af addr = addr_key af zero_addr.
Proof.
  intros [Hl Hb] H. unfold ldp_addrisset, addr_key in *. destruct Haf as [-> | ->]; cbn [Z.eqb AF_UNSPEC AF_INET AF_INET6 Pos.eqb addr_size] in *.
  - destruct (v4 addr =? INADDR_ANY) eqn:E; [|done]. apply Z.eqb_eq in E.
    apply le_val_inj; [by apply Forall_take|apply Forall_take, zero_addr_ok|by rewrite length_take, Hl|exact E].
  - destruct (IN6_IS_ADDR_UNSPECIFIED addr) eqn:E; [|done]. unfold IN6_IS_ADDR_UNSPECIFIED in E. rewrite forallb_forall in E.
    change (take 16 zero_addr) with (replicate 16 0). replace 16%nat with (length (v6 addr)) at 2 by (unfold v6; by rewrite length_take, Hl).
    symmetry. apply replicate_as_elem_of. split; [done|]. intros z Hz. apply list_elem_of_In in Hz. apply E in Hz. by apply Z.eqb_eq in Hz.
Qed.

(** A family as it is written. *)
Record af_canon (x : xaf) : Prop := AfCanon {
  ac_flags : 0 <= af_flags (xa_conf x) < 16;
  ac_on : has_flag (af_flags (xa_conf x)) F_LDPD_AF_ENABLED = true;
  ac_lh : hello_opt true HELLO_LINK (af_lhello_holdtime (xa_conf x));
  ac_li : hello_opt false HELLO_LINK (af_lhello_interval (xa_conf x));
  ac_th : hello_opt true HELLO_TARGETED (af_thello_holdtime (xa_conf x));
  ac_ti : hello_opt false HELLO_TARGETED (af_thello_interval (xa_conf x));
  ac_ka : num_in 15 65535 (Some (xa_keepalive x)) = true;
  ac_addr : addr_ok (af_trans_addr (xa_conf x));
  ac_good : ldp_addrisset af (af_trans_addr (xa_conf x)) = Ok 0 \/ bad_addr af (af_trans_addr (xa_conf x)) = Ok 0
}.
Definition af_lines (x : xaf) (set : Z) : list vty_cmd :=
  hello_lines (af_lhello_holdtime (xa_conf x)) (af_lhello_interval (xa_conf x)) (af_thello_holdtime (xa_conf x))
    (af_thello_interval (xa_conf x)) (has_flag (af_flags (xa_conf x)) F_LDPD_AF_THELLO_ACCEPT)
  ++ line_if (negb (set =? 0)) (CmdTransAddr false (Some (take (addr_size af) (af_trans_addr (xa_conf x)))))
  ++ line_if (has_flag (af_flags (xa_conf x)) F_LDPD_AF_EXPNULL) (CmdExplicitNull false)
  ++ line_if (has_flag (af_flags (xa_conf x)) F_LDPD_AF_NO_GTSM) (CmdTtlSecurity false)
  ++ line_if (negb (xa_keepalive x =? DEFAULT_KEEPALIVE)) (CmdSessionHoldtime false (Some (xa_keepalive x))).

Lemma opt_flag_on b k a : 0 <= k -> af_on a -> af_on (opt_flag b (2 ^ k) a).
Proof.
  intros Hk Ha. destruct b; [|done]. unfold af_on, opt_flag in *. cbn. change F_LDPD_AF_ENABLED with (2 ^ 0) in *.
  unfold set_flag. by rewrite has_set, Ha, orb_true_r.
Qed.
Lemma set_hello_on hold h v a : af_on a -> af_on (av_set_hello hold h v a).
Proof. by destruct hold, h. Qed.
Lemma key_bytes addr : addr_ok addr -> bytes_of af (addr_key af addr).
Proof.
  intros [Hl Hb]. split; [|by apply Forall_take]. unfold addr_key. rewrite length_take, Hl. by destruct Haf as [-> | ->].
Qed.
Lemma bad_key addr : bad_addr af (addr_key af addr) = bad_addr af addr.
Proof.
  unfold bad_addr, addr_key, v4, v6. destruct Haf as [-> | ->]; cbn [Z.eqb AF_INET AF_INET6 Pos.eqb addr_size];
    by rewrite take_take.
Qed.
Lemma trans_addr_line x w a i n q : norm_ok w -> af_on a -> af_canon x -> av_addr a = addr_key af zero_addr ->
  exists set, ldp_addrisset af (af_trans_addr (xa_conf x)) = Ok set /\
  runs (line_if (negb (set =? 0)) (CmdTransAddr false (Some (take (addr_size af) (af_trans_addr (xa_conf x))))))
    (VState (set_cv_af af a w) (af_vty af) i n q)
    (VState (set_cv_af af (av_set_addr (addr_key af (af_trans_addr (xa_conf x))) a) w) (af_vty af) i n q).
Proof.
  intros Hw Ha Hc Hz. set (addr := af_trans_addr (xa_conf x)).
  assert (exists set, ldp_addrisset af addr = Ok set) as [set Es] by (unfold ldp_addrisset; destruct Haf as [-> | ->]; by eexists).
  exists set. split; [done|]. apply runs_line_if.
  - intros Hs. assert (bad_addr af addr = Ok 0) as Hb.
    { destruct (ac_good _ Hc) as [E|E]; [|done]. fold addr in E. rewrite Es in E. injection E as ->. done. }
    apply step_af; try done; try (by destruct Haf as [-> | ->]).
    + intros s Hn. cbn [spec_cmd]. unfold spec_trans_addr. rewrite (bind_ok get _ _ _ _ eq_refl), Hn, af_vty_af. cbv zeta.
      fold (addr_key af addr). by rewrite bad_key, Hb.
    + cbn. rewrite af_vty_af. apply key_bytes, Hc.
  - intros Hs. assert (set = 0) as -> by (destruct (Z.eqb_spec set 0); done). apply isset_zero in Es; [|apply Hc].
    rewrite Es, <- Hz. by destruct a.
Qed.
Lemma af_lines_runs x w i n q : norm_ok w -> af_canon x ->
  exists set, ldp_addrisset af (af_trans_addr (xa_conf x)) = Ok set /\
  runs (af_lines x set) (VState (set_cv_af af (av_set_flags F_LDPD_AF_ENABLED (af_unset af)) w) (af_vty af) i n q)
    (VState (set_cv_af af (view_af af x) w) (af_vty af) i n q).
Proof.
  intros Hw Hc. set (a0 := av_set_flags F_LDPD_AF_ENABLED (af_unset af)). assert (af_on a0) as H0 by done.
  set (fl := af_flags (xa_conf x)).
  set (a1 := av_set_hello true HELLO_LINK (af_lhello_holdtime (xa_conf x)) a0).
  set (a2 := av_set_hello false HELLO_LINK (af_lhello_interval (xa_conf x)) a1).
  set (a3 := opt_flag (has_flag fl F_LDPD_AF_THELLO_ACCEPT) F_LDPD_AF_THELLO_ACCEPT a2).
  set (a4 := av_set_hello true HELLO_TARGETED (af_thello_holdtime (xa_conf x)) a3).
  set (a5 := av_set_hello false HELLO_TARGETED (af_thello_interval (xa_conf x)) a4).
  set (a6 := av_set_addr (addr_key af (af_trans_addr (xa_conf x))) a5).
  set (a7 := opt_flag (has_flag fl F_LDPD_AF_EXPNULL) F_LDPD_AF_EXPNULL a6).
  set (a8 := opt_flag (has_flag fl F_LDPD_AF_NO_GTSM) F_LDPD_AF_NO_GTSM a7).
  assert (af_on a3) as H3 by (by apply (opt_flag_on _ 1)).
  assert (av_get_hello true HELLO_TARGETED a3 = 0 /\ av_get_hello false HELLO_TARGETED a4 = 0 /\ av_addr a5 = addr_key af zero_addr)
    as (Z3 & Z4 & Z5) by (unfold a5, a4, a3, opt_flag; by case_match).
  assert (af_on a7) as H7 by (by apply (opt_flag_on _ 2)). assert (af_on a8) as H8 by (by apply (opt_flag_on _ 3)).
  destruct (trans_addr_line x w a5 i n q Hw) as (set & Es & Ht); [done..|]. exists set. split; [done|].
  assert (view_af af x = av_set_keepalive (xa_keepalive x) a8) as ->.
  { pose proof (ac_flags _ Hc) as Hr. pose proof (ac_on _ Hc) as Ho. fold fl in Hr, Ho. unfold view_af. fold fl.
    assert (fl = 1 \/ fl = 3 \/ fl = 5 \/ fl = 7 \/ fl = 9 \/ fl = 11 \/ fl = 13 \/ fl = 15) as Hfl.
    { assert (fl = 0 \/ fl = 1 \/ fl = 2 \/ fl = 3 \/ fl = 4 \/ fl = 5 \/ fl = 6 \/ fl = 7 \/ fl = 8 \/ fl = 9 \/ fl = 10 \/
        fl = 11 \/ fl = 12 \/ fl = 13 \/ fl = 14 \/ fl = 15) as Hall by lia.
      by repeat (destruct Hall as [Hall|Hall]; [rewrite Hall in Ho; try by (left; done); rewrite ?Hall; naive_solver|]);
        rewrite Hall; naive_solver. }
    unfold a8, a7, a6, a5, a4, a3. by destruct Hfl as [-> |[-> |[-> |[-> |[-> |[-> |[-> | ->]]]]]]]. }
  unfold af_lines. rewrite hello_lines_eq, <- !app_assoc. fold fl.
  eapply runs_app; [apply (hello_af_line true HELLO_LINK); [done|done|apply Hc|done]|]. fold a1.
  eapply runs_app; [apply (hello_af_line false HELLO_LINK); [done|done|apply Hc|done]|]. fold a2.
  eapply runs_app; [by apply (flag_line _ _ F_LDPD_AF_THELLO_ACCEPT); try done; destruct Haf as [-> | ->]|]. fold a3.
  eapply runs_app; [apply (hello_af_line true HELLO_TARGETED); [done|done|apply Hc|done]|]. fold a4.
  eapply runs_app; [apply (hello_af_line false HELLO_TARGETED); [done|done|apply Hc|done]|]. fold a5.
  eapply runs_app; [exact Ht|]. fold a6.
  eapply runs_app; [by apply (flag_line _ _ F_LDPD_AF_EXPNULL); try done; destruct Haf as [-> | ->]|]. fold a7.
  eapply runs_app; [by apply (flag_line _ _ F_LDPD_AF_NO_GTSM); try done; destruct Haf as [-> | ->]|]. fold a8.
  apply runs_line_if.
  - intros _. apply step_af; try done; try (by destruct Haf as [-> | ->]); [|apply Hc]. intros s _.
    cbn [spec_cmd]. by rewrite (keepalive_range _ (ac_ka _ Hc)).
  - intros E. assert (xa_keepalive x = 180) as -> by (by apply negb_false_iff, Z.eqb_eq in E).
    assert (av_keepalive a8 = 180) as Ek by (unfold a8, a7, a6, a5, a4, a3, opt_flag; by repeat case_match).
    rewrite <- Ek. by destruct a8.
Qed.

(** Targeted neighbours. *)
Definition tnbr_canon (t : tnbr) : Prop :=
  bad_addr (t_af t) (t_addr t) = Ok 0 /\ (t_af t = AF_INET6 -> IN6_IS_SCOPE_EMBED (v6 (t_addr t)) = false).
Definition tnbrs_of (l : list tnbr) : gset (Z * list Z) := list_to_set (keys_of (List.filter (fun t => t_af t =? af) l)).
Lemma tnbr_step t w i n q : norm_ok w -> af_on (cv_af w af) -> t_af t = af -> tnbr_conf_ok t -> tnbr_canon t ->
  step (CmdTargeted false (Some (take (addr_size af) (t_addr t)))) (VState w (af_vty af) i n q)
    (VState (set_cv_tnbrs ({[key t]} ∪ cv_tnbrs w) w) (af_vty af) i n q).
Proof.
  intros Hw Ha Et (H1 & H2 & H3 & _) [Hb Hs]. rewrite Et in *. eapply (step_cmd _ _ (af_vty af)); try done.
  { by destruct Haf as [-> | ->]. }
  { cbn. rewrite af_vty_af. by apply key_bytes. }
  cbn [spec_cmd]. unfold spec_targeted. rewrite (bind_ok get _ _ _ _ eq_refl). cbv zeta. cbn [vs_node set_vs_node vs_view].
  rewrite af_vty_af. fold (addr_key af (t_addr t)). rewrite bad_key, Hb. cbn [lift]. rewrite (bind_ok _ _ _ 0 _ eq_refl). cbn [negb Z.eqb orb].
  assert ((af =? AF_INET6) && IN6_IS_SCOPE_EMBED (addr_key af (t_addr t)) = false) as ->.
  { destruct (Z.eqb_spec af AF_INET6) as [E|]; [|done]. rewrite E. cbn. by apply Hs. }
  assert (key t = (af, addr_key af (t_addr t))) as Ek by (unfold key, tnbr_keyed; by rewrite Et). rewrite Ek.
  case_bool_decide as Ein.
  - assert ({[(af, addr_key af (t_addr t))]} ∪ cv_tnbrs w = cv_tnbrs w) as -> by set_solver. by destruct w.
  - exact (commit_norm _ (VState w (af_vty af) i n q) (norm_tnbr w af _ Hw Ha)).
Qed.
Lemma tnbrs_runs l w i n q : norm_ok w -> af_on (cv_af w af) -> Forall tnbr_conf_ok l -> Forall tnbr_canon l ->
  runs (concat (map (fun t => line_if (t_af t =? af) (CmdTargeted false (Some (take (addr_size af) (t_addr t))))) l))
    (VState w (af_vty af) i n q) (VState (set_cv_tnbrs (tnbrs_of l ∪ cv_tnbrs w) w) (af_vty af) i n q).
Proof.
  revert w. induction l as [|t l IH]; intros w Hw Ha Ho Hc; cbn [map concat].
  { change (tnbrs_of []) with (∅ : gset (Z * list Z)). rewrite (left_id_L ∅ (∪)). destruct w. apply runs_nil. }
  apply Forall_cons in Ho as [Ht Ho]. apply Forall_cons in Hc as [Hct Hc]. unfold tnbrs_of. cbn [List.filter].
  destruct (Z.eqb_spec (t_af t) af) as [E|E]; cbn [line_if app].
  - eapply runs_cons; [by apply tnbr_step|]. set (w1 := set_cv_tnbrs _ w).
    assert (list_to_set (keys_of (t :: List.filter (fun t0 => t_af t0 =? af) l)) ∪ cv_tnbrs w = tnbrs_of l ∪ cv_tnbrs w1) as ->.
    { unfold tnbrs_of. cbn [w1 cv_tnbrs set_cv_tnbrs set_cv_maps]. change (keys_of (t :: ?l)) with (key t :: keys_of l). cbn [list_to_set]. set_solver. }
    apply (IH w1); try done. assert (key t = (af, addr_key af (t_addr t))) as Ek by (unfold key, tnbr_keyed; by rewrite E).
    unfold w1. rewrite Ek. by apply norm_tnbr.
  - by apply IH.
Qed.

(** Interfaces. *)
Definition af_level (n : vty_node) : Prop := n = af_vty af \/ n = iface_node af.
Record ia_canon (ia : iface_af) : Prop := IaCanon {
  ic_off : ia_enabled ia = false -> ia_hello_holdtime ia = 0 /\ ia_hello_interval ia = 0;
  ic_ht : hello_opt true HELLO_LINK (ia_hello_holdtime ia);
  ic_iv : hello_opt false HELLO_LINK (ia_hello_interval ia)
}.
Lemma if_step n0 x w i n q : norm_ok w -> af_on (cv_af w af) -> cv_vpns w = ∅ -> af_level n0 -> (String.length x < IF_NAMESIZE)%nat ->
  (forall j, cv_ifs w !! x = Some j -> iv_enabled (iv_of j af) = false) ->
  step (CmdInterface false x) (VState w n0 i n q)
    (VState (set_cv_ifs (<[x := vmod_if af (iv_set_enabled true) (default new_if (cv_ifs w !! x))]> (cv_ifs w)) w) (iface_node af) x n q).
Proof.
  intros Hw Ha Hv Hl Hx Hj.
  assert (bool_decide (cv_ifs w !! x = None) && in_use w x = false) as Href.
  { unfold in_use. rewrite Hv. rewrite (bool_decide_false (map_Exists _ ∅)), orb_false_r by (by intros (? & ? & ? & ?)).
    by destruct (cv_ifs w !! x). }
  eapply (step_cmd _ _ (af_vty af)); [|done|done|exact Href|].
  { destruct Hl as [-> | ->]; by destruct Haf as [-> | ->]. }
  cbn [spec_cmd]. unfold spec_interface. rewrite (bind_ok get _ _ _ _ eq_refl). cbv zeta. cbn [vs_node set_vs_node vs_view].
  rewrite af_vty_af. rewrite (bind_ok (modify _) _ _ _ _ eq_refl), (bind_ok (modify _) _ _ _ _ eq_refl).
  set (s1 := set_vs_ifname x _). set (j0 := default new_if (cv_ifs w !! x)).
  assert (commit (set_cv_ifs (<[x := vmod_if af (iv_set_enabled true) j0]> (cv_ifs w)) w) s1
    = Ok (CMD_SUCCESS, set_vs_view (set_cv_ifs (<[x := vmod_if af (iv_set_enabled true) j0]> (cv_ifs w)) w) s1)) as Ec.
  { apply commit_norm. apply (norm_if w af); [done..|]. intros af' Haf' Hne He.
    assert (iv_of (vmod_if af (iv_set_enabled true) j0) af' = iv_of j0 af') as E by (by destruct Haf as [-> | ->], Haf' as [-> | ->]).
    rewrite E in He. unfold j0 in He. destruct (cv_ifs w !! x) as [j|]; [by exists j|]. by destruct Haf' as [-> | ->]. }
  destruct (cv_ifs w !! x) as [j|] eqn:Ej.
  - rewrite (Hj j) by done. exact Ec.
  - rewrite (bool_decide_true (None = None)) in Href by done. cbn [andb] in Href. rewrite Href. exact Ec.
Qed.
Lemma if_hello_line hold v x j w n q : norm_ok w -> af_on (cv_af w af) -> cv_ifs w !! x = Some j -> hello_opt hold HELLO_LINK v ->
  (if hold then iv_holdtime (iv_of j af) else iv_interval (iv_of j af)) = 0 ->
  runs (line_if (shown v (hello_dflt hold HELLO_LINK)) (hello_cmd hold HELLO_LINK v)) (VState w (iface_node af) x n q)
    (VState (set_cv_ifs (<[x := vmod_if af (iv_set_hello hold v) j]> (cv_ifs w)) w) (iface_node af) x n q).
Proof.
  intros Hw Ha Hx Hv Hz. apply runs_line_if.
  - intros Hs. destruct Hv as [-> |[Hr _]]; [unfold shown in Hs; by rewrite andb_false_r in Hs|].
    eapply (step_cmd _ _ (iface_node af)); [by destruct hold, Haf as [-> | ->]|by apply hello_cmd_matches|by destruct hold|by destruct hold|].
    rewrite hello_cmd_spec by done. unfold spec_hello. rewrite (bind_ok get _ _ _ _ eq_refl). cbn [vs_node set_vs_node vs_view vs_ifname].
    assert (norm_ok (set_cv_ifs (<[x := vmod_if af (iv_set_hello hold v) j]> (cv_ifs w)) w)) as Hn.
    { apply (norm_if w af); [done..|]. intros af' Haf' Hne He. exists j. split; [done|].
      by destruct Haf as [-> | ->], Haf' as [-> | ->], hold. }
    rewrite Hx. assert (node_af (iface_node af) = af) as -> by (by destruct Haf as [-> | ->]).
    pose proof (commit_norm _ (VState w (iface_node af) x n q) Hn) as E. by destruct Haf as [-> | ->].
  - intros Hs. rewrite (hello_opt_shown _ _ _ Hv Hs). assert (vmod_if af (iv_set_hello hold 0) j = j) as ->.
    { rewrite <- Hz. destruct j as [[? ? ?] [? ? ?]]. by destruct Haf as [-> | ->], hold. }
    rewrite insert_id by done. by destruct w.
Qed.

Definition put_ia (v : ia_view) (j : if_view) : if_view := vmod_if af (fun _ => v) j.
Lemma iface_runs f n0 w i n q : norm_ok w -> af_on (cv_af w af) -> cv_vpns w = ∅ -> af_level n0 -> (String.length (if_name f) < IF_NAMESIZE)%nat ->
  ia_enabled (ia_of f af) = true -> ia_canon (ia_of f af) ->
  (forall j, cv_ifs w !! if_name f = Some j -> iv_of j af = IaView false 0 0) ->
  runs (iface_config_write af f) (VState w n0 i n q)
    (VState (set_cv_ifs (<[if_name f := put_ia (view_ia (ia_of f af)) (default new_if (cv_ifs w !! if_name f))]> (cv_ifs w)) w)
       (iface_node af) (if_name f) n q).
Proof.
  intros Hw Ha Hv Hl Hx He Hc Hj. unfold iface_config_write. rewrite He. cbn [negb]. set (x := if_name f) in *.
  set (j0 := default new_if (cv_ifs w !! x)) in *.
  assert (iv_of j0 af = IaView false 0 0) as Hj0.
  { unfold j0. destruct (cv_ifs w !! x) as [j|]; [by apply Hj|]. by destruct Haf as [-> | ->]. }
  assert (norm_ok (set_cv_ifs (<[x := vmod_if af (iv_set_enabled true) j0]> (cv_ifs w)) w)) as Hw1.
  { apply (norm_if w af); [done..|]. intros af' Haf' Hne He'.
    assert (iv_of (vmod_if af (iv_set_enabled true) j0) af' = iv_of j0 af') as E by (by destruct Haf as [-> | ->], Haf' as [-> | ->]).
    rewrite E in He'. unfold j0 in He'. destruct (cv_ifs w !! x) as [j|]; [by exists j|]. by destruct Haf' as [-> | ->]. }
  eapply runs_cons.
  { apply if_step; try done. intros j Ej. by rewrite (Hj j Ej). }
  fold j0. set (j1 := vmod_if af (iv_set_enabled true) j0) in *. set (w1 := set_cv_ifs (<[x := j1]> (cv_ifs w)) w) in *.
  assert (iv_of j1 af = IaView true 0 0) as Hj1.
  { unfold j1. destruct j0 as [[? ? ?] [? ? ?]]. destruct Haf as [-> | ->]; cbn in Hj0 |- *; by simplify_eq. }
  set (j2 := vmod_if af (iv_set_hello true (ia_hello_holdtime (ia_of f af))) j1).
  set (w2 := set_cv_ifs (<[x := j2]> (cv_ifs w1)) w1).
  assert (cv_ifs w1 !! x = Some j1) as E1 by apply lookup_insert_eq.
  assert (cv_ifs w2 !! x = Some j2) as E2 by apply lookup_insert_eq.
  assert (norm_ok w2) as Hw2.
  { apply (norm_if w1 af); [done..|]. intros af' Haf' Hne He'. exists j1. split; [done|]. by destruct Haf as [-> | ->], Haf' as [-> | ->]. }
  eapply runs_app; [apply (if_hello_line true _ x j1); try done; [apply Hc|by rewrite Hj1]|].
  assert (set_cv_ifs (<[x := put_ia (view_ia (ia_of f af)) j0]> (cv_ifs w)) w
    = set_cv_ifs (<[x := vmod_if af (iv_set_hello false (ia_hello_interval (ia_of f af))) j2]> (cv_ifs w2)) w2) as ->.
  { unfold w2, w1, set_cv_ifs, set_cv_maps. cbn [cv_ifs]. rewrite !insert_insert_eq. do 2 f_equal. unfold j2, j1, put_ia, view_ia.
    rewrite He. by destruct Haf as [-> | ->]. }
  apply (if_hello_line false _ x j2); try done; [apply Hc|].
  transitivity (iv_interval (iv_of j1 af)); [unfold j2; by destruct Haf as [-> | ->]|by rewrite Hj1].
Qed.

Definition put_ifs (l : list iface) (m : gmap string if_view) (k : string) : option if_view :=
  match kfind l k with
  | Some f => if ia_enabled (ia_of f af) then Some (put_ia (view_ia (ia_of f af)) (default new_if (m !! k))) else m !! k
  | None => m !! k
  end.
Lemma ifaces_runs l n0 w i n q : norm_ok w -> af_on (cv_af w af) -> cv_vpns w = ∅ -> af_level n0 -> NoDup (keys_of l) ->
  Forall (fun f => (String.length (if_name f) < IF_NAMESIZE)%nat) l -> Forall (fun f => ia_canon (ia_of f af)) l ->
  (forall k j, cv_ifs w !! k = Some j -> k ∈ keys_of l -> iv_of j af = IaView false 0 0) ->
  exists m n1 i1, af_level n1 /\ norm_ok (set_cv_ifs m w) /\
    runs (concat (map (iface_config_write af) l)) (VState w n0 i n q) (VState (set_cv_ifs m w) n1 i1 n q) /\
    forall k, m !! k = put_ifs l (cv_ifs w) k.
Proof.
  revert n0 w i. induction l as [|f l IH]; intros n0 w i Hw Ha Hv Hl Hnd Hlen Hc Hz; cbn [map concat].
  { exists (cv_ifs w), n0, i. assert (set_cv_ifs (cv_ifs w) w = w) as -> by (by destruct w). split_and!; try done. }
  change (NoDup (key f :: keys_of l)) in Hnd. apply NoDup_cons in Hnd as [Hf Hnd].
  apply Forall_cons in Hlen as [Hfl Hlen]. apply Forall_cons in Hc as [Hfc Hc].
  destruct (ia_enabled (ia_of f af)) eqn:He.
  - set (w1 := set_cv_ifs (<[if_name f := put_ia (view_ia (ia_of f af)) (default new_if (cv_ifs w !! if_name f))]> (cv_ifs w)) w).
    assert (norm_ok w1) as Hw1.
    { apply (norm_if w af); [done..|]. intros af' Haf' Hne He'. assert (iv_enabled (iv_of (default new_if (cv_ifs w !! if_name f)) af') = true) as E.
      { rewrite <- He'. unfold put_ia. by destruct Haf as [-> | ->], Haf' as [-> | ->]. }
      destruct (cv_ifs w !! if_name f) as [j|]; [by exists j|]. by destruct Haf' as [-> | ->]. }
    destruct (IH (iface_node af) w1 (if_name f)) as (m & n1 & i1 & Hl1 & Hn1 & Hr1 & Hm1); try done.
    { by right. }
    { intros k j Hk Hkl. cbn in Hk. rewrite lookup_insert_ne in Hk; [apply (Hz k); [done|by right]|]. intros <-. by apply Hf. }
    exists m, n1, i1. split_and!; [done|done|..].
    + eapply runs_app; [apply iface_runs; try done|exact Hr1]. intros j Hj. apply (Hz (if_name f)); [done|]. by left.
    + intros k. rewrite Hm1. unfold put_ifs. rewrite (kfind_cons f). cbn [w1 cv_ifs set_cv_ifs set_cv_maps].
      destruct (bool_decide_reflect (key f = k)) as [<- |Hne].
      * rewrite (proj2 (kfind_None l (key f)) Hf), He. apply lookup_insert_eq.
      * by rewrite lookup_insert_ne by done.
  - assert (iface_config_write af f = []) as -> by (unfold iface_config_write; by rewrite He). cbn [app].
    destruct (IH n0 w i) as (m & n1 & i1 & Hl1 & Hn1 & Hr1 & Hm1); try done.
    { intros k j Hk Hkl. apply (Hz k j); [done|by right]. }
    exists m, n1, i1. split_and!; [done..|]. intros k. rewrite Hm1. unfold put_ifs. rewrite (kfind_cons f).
    destruct (bool_decide_reflect (key f = k)) as [<- |Hne]; [|done]. by rewrite (proj2 (kfind_None l (key f)) Hf), He.
Qed.

(** The whole family. *)
Definition fam_canon (c : ldpd_conf) : Prop :=
  af_canon (xc_af c af) \/
  (has_flag (af_flags (xa_conf (xc_af c af))) F_LDPD_AF_ENABLED = false /\ view_af af (xc_af c af) = af_unset af /\
   Forall (fun t => t_af t <> af) (xc_tnbr_list c) /\ Forall (fun f => ia_enabled (ia_of f af) = false) (xc_iface_list c)).
Definition fam_view (c : ldpd_conf) (m : gmap string if_view) w : conf_view :=
  set_cv_ifs m (set_cv_tnbrs (tnbrs_of (xc_tnbr_list c) ∪ cv_tnbrs w) (set_cv_af af (view_af af (xc_af c af)) w)).
Lemma family_runs c w n0 i n q : norm_ok w -> is_ldp n0 = true -> cv_vpns w = ∅ -> cv_af w af = af_unset af ->
  conf_wf c -> Forall tnbr_canon (xc_tnbr_list c) -> fam_canon c ->
  Forall (fun f => (String.length (if_name f) < IF_NAMESIZE)%nat) (xc_iface_list c) ->
  Forall (fun f => ia_canon (ia_of f af)) (xc_iface_list c) ->
  (forall k j, cv_ifs w !! k = Some j -> iv_of j af = IaView false 0 0) ->
  exists l m n1 i1, ldp_af_config_write af c = Ok l /\ is_ldp n1 = true /\ norm_ok (fam_view c m w) /\
    runs l (VState w n0 i n q) (VState (fam_view c m w) n1 i1 n q) /\ forall k, m !! k = put_ifs (xc_iface_list c) (cv_ifs w) k.
Proof.
  intros Hw Hn Hv Hu [H4 H6 Hi Ht Htk Hnb Hvn Hvo] Htc Hfam Hlen Hia Hz. unfold ldp_af_config_write. destruct Hfam as [Hc|(Hoff & Hun & Ht0 & Hi0)].
  - rewrite (ac_on _ Hc). cbn [negb]. set (x := xc_af c af) in *.
    destruct (af_lines_runs x w i n q Hw Hc) as (set & Es & Hr1). rewrite Es. cbn [rbind].
    set (w1 := set_cv_af af (view_af af x) w). assert (norm_ok w1) as Hw1 by (apply norm_set_af; [done..|apply Hc]).
    assert (af_on (cv_af w1 af)) as Ha1 by (unfold w1; rewrite cv_af_set; apply Hc).
    set (w2 := set_cv_tnbrs (tnbrs_of (xc_tnbr_list c) ∪ cv_tnbrs w1) w1).
    assert (runs (concat (map (fun t => line_if (t_af t =? af) (CmdTargeted false (Some (take (addr_size af) (t_addr t)))))
                            (xc_tnbr_list c))) (VState w1 (af_vty af) i n q) (VState w2 (af_vty af) i n q)) as Hr2 by (by apply tnbrs_runs).
    assert (norm_ok w2) as Hw2.
    { destruct Hw1 as [N1 N2 N3]. split; [done| |done]. intros af' Haf'. destruct (decide (af' = af)) as [-> |Hne]; [by left|].
      destruct (N2 af' Haf') as [E|(E1 & E2 & E3)]; [by left|right]. split_and!; [done| |done]. intros k. cbn.
      rewrite elem_of_union. intros [Hk|Hk]; [|by apply E2]. unfold tnbrs_of in Hk. rewrite elem_of_list_to_set in Hk.
      apply list_elem_of_fmap in Hk as (t & -> & Htt). apply list_elem_of_In, filter_In in Htt as [_ Htt]. apply Z.eqb_eq in Htt.
      cbn. congruence. }
    destruct (ifaces_runs (xc_iface_list c) (af_vty af) w2 i n q) as (m & n1 & i1 & Hl1 & Hn1 & Hr3 & Hm); try done.
    { by left. }
    { intros k j Hk _. by apply (Hz k). }
    eexists _, m, n1, i1. split; [reflexivity|]. split_and!; [|exact Hn1| |exact Hm].
    + destruct Hl1 as [-> | ->]; by destruct Haf as [-> | ->].
    + fold x. eapply (runs_app _ _ _ (VState (set_cv_af af (av_set_flags F_LDPD_AF_ENABLED (af_unset af)) w) (af_vty af) i n q)).
      { apply runs_one. eapply (step_cmd _ _ LDP_NODE); [by destruct n0|by destruct Haf as [-> | ->]|done|done|]. cbn [spec_cmd].
        assert (af_of_name (af_str af) = Some af) as -> by (by destruct Haf as [-> | ->]). cbv zeta.
        rewrite (bind_ok (modify _) _ _ _ _ eq_refl). unfold on_global. rewrite (bind_ok get _ _ _ _ eq_refl).
        change (vs_view _) with w. rewrite Hu. change (set_flag F_LDPD_AF_ENABLED (av_flags (af_unset af))) with F_LDPD_AF_ENABLED.
        exact (commit_norm _ (VState w (af_vty af) i n q) (norm_set_af w af (av_set_flags F_LDPD_AF_ENABLED (af_unset af)) Hw Haf eq_refl)). }
      rewrite !app_assoc. eapply (runs_app _ _ _ (VState w2 (af_vty af) i n q)); [|exact Hr3].
      eapply (runs_app _ _ _ (VState w1 (af_vty af) i n q)); [|exact Hr2]. rewrite <- !app_assoc. exact Hr1.
  - rewrite Hoff. cbn [negb]. exists [], (cv_ifs w), n0, i.
    assert (tnbrs_of (xc_tnbr_list c) = ∅) as Et.
    { apply set_eq. intros k. unfold tnbrs_of. rewrite elem_of_list_to_set. split; [|by intros ?%not_elem_of_empty].
      intros (t & -> & Htt)%list_elem_of_fmap. apply list_elem_of_In, filter_In in Htt as [Htt E]. apply list_elem_of_In in Htt.
      rewrite Forall_forall in Ht0. apply Z.eqb_eq in E. by destruct (Ht0 t Htt). }
    assert (fam_view c (cv_ifs w) w = w) as ->.
    { unfold fam_view. rewrite Et, (left_id_L ∅ (∪)), Hun, <- Hu, set_af_same. by destruct w. }
    split_and!; try done. intros k. unfold put_ifs. destruct (kfind (xc_iface_list c) k) as [f|] eqn:E; [|done].
    apply kfind_Some in E as [Hf _]. rewrite Forall_forall in Hi0. by rewrite (Hi0 f Hf).
Qed.
End AfLines.

