(* ===== verification/ConfBack.v ===== *)
(** * A written configuration is read back: the whole file

    The lines of LDP (the LDP node, both families), those of the L2VPNs, and the
    round trip. *)
From stdpp Require Import prelude strings list gmap.
From Stdlib Require Import ZArith Lia Permutation.
From S2P Require Import Prelude Util Wire Ipc Session Fec Hello Discovery DiscInv Config Engine KeyedList Parent ConfView ConfMerge ConfSpec ConfCmds ConfRead ConfTrip.

(** ** LDP *)
Record ldp_canon (c : ldpd_conf) : Prop := LdpCanon {
  lc_global : global_canon c;
  lc_fam : forall af, af_ok af -> fam_canon af c;
  lc_tnbr : Forall tnbr_canon (xc_tnbr_list c);
  lc_name : Forall (fun f => (String.length (if_name f) < IF_NAMESIZE)%nat) (xc_iface_list c);
  lc_ia : forall af, af_ok af -> Forall (fun f => ia_canon (ia_of f af)) (xc_iface_list c);
  lc_if : Forall (fun f => ia_enabled (if_ipv4 f) || ia_enabled (if_ipv6 f) = true) (xc_iface_list c)
}.

Section Ldp.
Lemma ifs_back l k : NoDup (keys_of l) -> (forall af, af_ok af -> Forall (fun f => ia_canon (ia_of f af)) l) ->
  Forall (fun f => ia_enabled (if_ipv4 f) || ia_enabled (if_ipv6 f) = true) l ->
  forall m4 : gmap string if_view, (forall j, m4 !! j = put_ifs AF_INET l ∅ j) ->
  put_ifs AF_INET6 l m4 k = view_if <$> kfind l k.
Proof.
  intros Hnd Hc Hon m4 Hm. unfold put_ifs. rewrite Hm. unfold put_ifs. destruct (kfind l k) as [f|] eqn:E; [|done].
  apply kfind_Some in E as [Hf _]. pose proof (Hc AF_INET ltac:(by left)) as H4. pose proof (Hc AF_INET6 ltac:(by right)) as H6.
  rewrite Forall_forall in H4, H6, Hon. pose proof (ic_off _ (H4 f Hf)) as Z4. pose proof (ic_off _ (H6 f Hf)) as Z6. specialize (Hon f Hf).
  cbn in Z4, Z6 |- *. unfold view_if, view_ia. destruct (ia_enabled (if_ipv4 f)), (ia_enabled (if_ipv6 f)); try done.
  - by destruct (Z6 eq_refl) as [-> ->].
  - by destruct (Z4 eq_refl) as [-> ->].
Qed.
Lemma tnbrs_back l : Forall tnbr_conf_ok l -> tnbrs_of AF_INET6 l ∪ (tnbrs_of AF_INET l ∪ ∅) = list_to_set (keys_of l).
Proof.
  intros Hl. apply set_eq. intros k. unfold tnbrs_of. rewrite !elem_of_union, !elem_of_list_to_set, !list_elem_of_fmap.
  setoid_rewrite list_elem_of_In. setoid_rewrite filter_In. split.
  - intros [(t & -> & Ht & _)|[(t & -> & Ht & _)|?]]; [by eauto..|]. by apply not_elem_of_empty in H.
  - intros (t & -> & Ht). rewrite Forall_forall in Hl. destruct (Hl t) as ([E|E] & _); [by apply list_elem_of_In|..].
    + right. left. exists t. by rewrite E.
    + left. exists t. by rewrite E.
Qed.

Lemma ldp_runs c : conf_wf c -> ldp_canon c -> exists l n1 i1, ldp_config_write c = Ok l /\
  norm_ok (set_cv_vpns ∅ (view c)) /\ runs l (abs parent_init) (VState (set_cv_vpns ∅ (view c)) n1 i1 "" "").
Proof.
  intros Hc [Hg Hf Ht Hn Hia Hon]. pose proof (global_runs c Hg ltac:(apply Hc)) as R1. pose proof (global_norm c Hg) as N1.
  destruct (family_runs AF_INET ltac:(by left) c (global_view c) LDP_NODE "" "" "") as (l4 & m4 & n4 & i4 & E4 & L4 & N4 & R4 & M4);
    try done; [apply Hf; by left|apply Hia; by left|].
  set (w4 := fam_view AF_INET c m4 (global_view c)) in *.
  destruct (family_runs AF_INET6 ltac:(by right) c w4 n4 i4 "" "") as (l6 & m6 & n6 & i6 & E6 & L6 & N6 & R6 & M6);
    try done; [apply Hf; by right|apply Hia; by right|..].
  { intros k j Hj. change (m4 !! k = Some j) in Hj. rewrite M4 in Hj. unfold put_ifs in Hj. cbn in Hj.
    destruct (kfind _ k); [|done]. case_match; [|done]. by injection Hj as <-. }
  assert (fam_view AF_INET6 c m6 w4 = set_cv_vpns ∅ (view c)) as E.
  { unfold fam_view. change (cv_tnbrs w4) with (tnbrs_of AF_INET (xc_tnbr_list c) ∪ ∅). rewrite tnbrs_back by apply Hc.
    assert (m6 = view_if <$> kmap (xc_iface_list c)) as ->; [|done]. apply map_eq. intros k. rewrite M6, lookup_fmap, lookup_kmap.
    apply ifs_back; try done. apply Hc. }
  rewrite E in N6, R6. eexists _, n6, i6. split; [|split; [exact N6|]].
  - unfold ldp_config_write. rewrite E4, E6.
    assert (has_flag (xc_flags c) F_LDPD_ENABLED = true) as -> by (by destruct (gc_flags _ Hg) as [-> | ->]). reflexivity.
  - eapply runs_app in R4; [|exact R1]. eapply runs_app in R6; [|exact R4]. unfold global_lines in R6. rewrite <- !app_assoc in R6. exact R6.
Qed.
End Ldp.

(** ** L2VPNs *)
Definition with_vpn (w : conf_view) (name : string) (u : vpn_view) : conf_view := set_cv_vpns (<[name := u]> (cv_vpns w)) w.
Definition vpn_normal (u : vpn_view) : Prop := vvpn_normalize u = u.
Definition vpn_level (n : vty_node) : Prop := n = LDP_L2VPN_NODE \/ n = LDP_PSEUDOWIRE_NODE.
Definition free (w : conf_view) (x : string) : Prop :=
  cv_ifs w !! x = None /\ forall k v, cv_vpns w !! k = Some v -> x ∉ vv_ifs v /\ vv_pws v !! x = None.

Section Vpn.
Context (w : conf_view) (name : string) (Hw : norm_ok w).
Implicit Types (u : vpn_view) (x : string).

Lemma free_not_used w' x : free w' x -> in_use w' x = false.
Proof.
  intros [H1 H2]. unfold in_use. rewrite H1. rewrite (bool_decide_false (map_Exists _ _)); [done|].
  intros (k & v & Hv & [Hi|Hp]); destruct (H2 k v Hv) as [E1 E2]; [done|]. rewrite E2 in Hp. by destruct Hp.
Qed.
Lemma free_with u u' x : free (with_vpn w name u) x -> x ∉ vv_ifs u' -> vv_pws u' !! x = None -> free (with_vpn w name u') x.
Proof.
  intros [H1 H2] H3 H4. split; [done|]. intros k v. cbn. destruct (decide (name = k)) as [<- |Hk].
  - rewrite lookup_insert_eq. by intros [= <-].
  - rewrite lookup_insert_ne by done. intros Hv. apply (H2 k v). cbn. by rewrite lookup_insert_ne.
Qed.
Lemma free_here u x : free (with_vpn w name u) x -> x ∉ vv_ifs u /\ vv_pws u !! x = None.
Proof. intros [_ H]. apply (H name). cbn. apply lookup_insert_eq. Qed.
Lemma with_norm u : vpn_normal u -> norm_ok (with_vpn w name u).
Proof. intros H. rewrite <- H. by apply norm_vpn. Qed.
Lemma with_lookup u : cv_vpns (with_vpn w name u) !! name = Some u.
Proof. apply lookup_insert_eq. Qed.
Lemma with_with u u' : with_vpn (with_vpn w name u) name u' = with_vpn w name u'.
Proof. unfold with_vpn, set_cv_vpns, set_cv_maps. cbn. by rewrite insert_insert_eq. Qed.

(** A command that stores the L2VPN again. *)
Lemma store_with u u' n i q : vpn_normal u -> store_vpn u' (VState (with_vpn w name u) n i name q)
  = Ok (CMD_SUCCESS, VState (with_vpn w name (vvpn_normalize u')) n i name q).
Proof.
  intros Hu. unfold store_vpn. rewrite (bind_ok get _ _ _ _ eq_refl). cbn [vs_l2vpn vs_view].
  rewrite (commit_vpn (with_vpn w name u)) by (by apply with_norm).
  fold (with_vpn (with_vpn w name u) name (vvpn_normalize u')). by rewrite with_with.
Qed.
Lemma cur_with u (k : vpn_view -> ST vstate cmd_ret) n i q : bind cur_vpn k (VState (with_vpn w name u) n i name q) = k u (VState (with_vpn w name u) n i name q).
Proof.
  change (bind cur_vpn k ?s) with (bind (vfound (cv_vpns (vs_view s) !! vs_l2vpn s)) k s). cbn [vs_view vs_l2vpn]. by rewrite with_lookup.
Qed.
Lemma step_vpn c f u n i q : (forall s, spec_cmd c s = (do v <- cur_vpn; store_vpn (f v)) s) ->
  node_up 3 c n = Some LDP_L2VPN_NODE -> matches c = true -> (forall s, refused c s = false) -> cmd_ok LDP_L2VPN_NODE c -> vpn_normal u ->
  step c (VState (with_vpn w name u) n i name q) (VState (with_vpn w name (vvpn_normalize (f u))) LDP_L2VPN_NODE i name q).
Proof.
  intros Hc Hn Hmt Hr Ho Hu. eapply step_cmd; [exact Hn|exact Hmt|exact Ho|apply Hr|]. rewrite Hc.
  change (set_vs_node LDP_L2VPN_NODE (VState (with_vpn w name u) n i name q)) with (VState (with_vpn w name u) LDP_L2VPN_NODE i name q).
  rewrite cur_with. by apply store_with.
Qed.
Lemma params_normal pt mtu br u : vpn_normal u -> vpn_normal (vv_set_params pt mtu br u).
Proof. unfold vpn_normal, vvpn_normalize. intros H. destruct u. cbn in *. by injection H as ->. Qed.
Lemma params_line (b : bool) c pt mtu br u i q : vpn_normal u ->
  (b = true -> forall s, spec_cmd c s = (do v <- cur_vpn; store_vpn (vv_set_params (pt v) (mtu v) (br v) v)) s) ->
  node_up 3 c LDP_L2VPN_NODE = Some LDP_L2VPN_NODE -> (b = true -> matches c = true) -> (forall s, refused c s = false) -> cmd_ok LDP_L2VPN_NODE c ->
  (b = false -> vv_set_params (pt u) (mtu u) (br u) u = u) ->
  runs (line_if b c) (VState (with_vpn w name u) LDP_L2VPN_NODE i name q)
    (VState (with_vpn w name (vv_set_params (pt u) (mtu u) (br u) u)) LDP_L2VPN_NODE i name q).
Proof.
  intros Hu Hc Hn Hmt Hr Ho Hs. apply runs_line_if.
  - intros Hb. rewrite <- (params_normal (pt u) (mtu u) (br u) u Hu).
    by apply (step_vpn c (fun v => vv_set_params (pt v) (mtu v) (br v) v)); auto.
  - intros Hb. by rewrite Hs.
Qed.

(** Member interfaces. *)
Definition add_ifs (l : list l2vpn_if) u : vpn_view := vv_set_members (list_to_set (keys_of l) ∪ vv_ifs u) (vv_pws u) u.
Lemma add_ifs_normal l u : vpn_normal u -> vpn_normal (add_ifs l u).
Proof. unfold vpn_normal, vvpn_normalize, add_ifs. intros H. destruct u. cbn in *. by injection H as ->. Qed.
Lemma member_ifs_runs l u i q : vpn_normal u -> NoDup (keys_of l) -> (forall f, f ∈ l -> (String.length (lf_ifname f) < IF_NAMESIZE)%nat) ->
  (forall x, x ∈ keys_of l -> free (with_vpn w name u) x) ->
  runs (map (fun f => CmdMemberIf false (lf_ifname f)) l) (VState (with_vpn w name u) LDP_L2VPN_NODE i name q)
    (VState (with_vpn w name (add_ifs l u)) LDP_L2VPN_NODE i name q).
Proof.
  revert u. induction l as [|f l IH]; intros u Hu Hnd Hlen Hfree; cbn [map].
  { unfold add_ifs. change (list_to_set (keys_of [])) with (∅ : gset string). rewrite (left_id_L ∅ (∪)). destruct u. apply runs_nil. }
  change (NoDup (key f :: keys_of l)) in Hnd. apply NoDup_cons in Hnd as [Hf Hnd]. set (u1 := add_ifs [f] u).
  assert (vpn_normal u1) as Hu1 by (by apply add_ifs_normal).
  assert (free (with_vpn w name u) (key f)) as Hff by (apply Hfree; by left). pose proof (free_here _ _ Hff) as [Hfi Hfp].
  assert (add_ifs (f :: l) u = add_ifs l u1) as ->.
  { unfold u1, add_ifs, vv_set_members. cbn [vv_type vv_pw_type vv_mtu vv_bridge vv_ifs vv_pws]. f_equal. change (keys_of (f :: l)) with (key f :: keys_of l).
    change (keys_of [f]) with [key f]. cbn [list_to_set]. set_solver. }
  eapply runs_cons; [|apply IH; try done].
  - eapply (step_cmd _ _ LDP_L2VPN_NODE); [done|done|apply Hlen; by left|done|]. cbn [spec_cmd]. unfold spec_member_if.
    rewrite (bind_ok get _ _ _ _ eq_refl).
    change (set_vs_node LDP_L2VPN_NODE (VState (with_vpn w name u) LDP_L2VPN_NODE i name q)) with (VState (with_vpn w name u) LDP_L2VPN_NODE i name q).
    rewrite cur_with. change (lf_ifname f) with (key f). rewrite bool_decide_false by done. cbn [orb vs_view].
    rewrite free_not_used by done. rewrite store_with by done. rewrite <- Hu1. unfold u1, add_ifs. change (keys_of [f]) with [key f]. cbn [list_to_set].
    by rewrite (right_id_L ∅ (∪)).
  - intros g Hg. apply Hlen. by right.
  - intros x Hx. assert (x <> key f) as Hne by (by intros ->). assert (free (with_vpn w name u) x) as Hfx by (apply Hfree; by right).
    pose proof (free_here _ _ Hfx) as [E1 E2]. apply (free_with u); [done| |done]. unfold u1, add_ifs. cbn. change (keys_of [f]) with [key f]. cbn. set_solver.
Qed.

(** Pseudowires. *)
Definition put_pw x (p : pw_view) u : vpn_view := vv_set_members (vv_ifs u) (<[x := p]> (vv_pws u)) u.
Lemma put_pw_normal x p u : vpn_normal u -> vvpn_normalize (put_pw x p u) = put_pw x (vpw_normalize p) u.
Proof.
  unfold vpn_normal, vvpn_normalize, put_pw, vv_set_members. intros H. destruct u. cbn in *. injection H as H. by rewrite fmap_insert, H.
Qed.
Lemma put_put x p p' u : put_pw x p' (put_pw x p u) = put_pw x p' u.
Proof. unfold put_pw, vv_set_members. cbn. by rewrite insert_insert_eq. Qed.
Definition pw_normal (p : pw_view) : Prop := vpw_normalize p = p.
Lemma put_normal x p u : vpn_normal u -> pw_normal p -> vpn_normal (put_pw x p u).
Proof. intros Hu Hp. unfold vpn_normal. by rewrite put_pw_normal, Hp. Qed.
Lemma pw_step c g u x p i : (forall s, spec_cmd c s = spec_pw g s) -> node_up 3 c LDP_PSEUDOWIRE_NODE = Some LDP_PSEUDOWIRE_NODE -> matches c = true ->
  (forall s, refused c s = false) -> cmd_ok LDP_PSEUDOWIRE_NODE c -> vpn_normal u -> pw_normal p ->
  step c (VState (with_vpn w name (put_pw x p u)) LDP_PSEUDOWIRE_NODE i name x)
    (VState (with_vpn w name (put_pw x (vpw_normalize (g p)) u)) LDP_PSEUDOWIRE_NODE i name x).
Proof.
  intros Hc Hn Hmt Hr Ho Hu Hp. eapply step_cmd; [exact Hn|exact Hmt|exact Ho|apply Hr|]. rewrite Hc. unfold spec_pw.
  rewrite (bind_ok get _ _ _ _ eq_refl).
  change (set_vs_node LDP_PSEUDOWIRE_NODE (VState (with_vpn w name (put_pw x p u)) LDP_PSEUDOWIRE_NODE i name x))
    with (VState (with_vpn w name (put_pw x p u)) LDP_PSEUDOWIRE_NODE i name x).
  rewrite cur_with. cbn [vs_pw]. assert (vv_pws (put_pw x p u) !! x = Some p) as -> by apply lookup_insert_eq.
  cbn [vfound]. rewrite (bind_ok (ret p) _ _ _ _ eq_refl). fold (put_pw x (g p) (put_pw x p u)). rewrite put_put.
  rewrite store_with by (by apply put_normal). by rewrite put_pw_normal.
Qed.
(** A line that is written unless it changes nothing. *)
Lemma pw_line (b : bool) c g u x p p' i : (b = true -> forall s, spec_cmd c s = spec_pw g s) ->
  node_up 3 c LDP_PSEUDOWIRE_NODE = Some LDP_PSEUDOWIRE_NODE -> (b = true -> matches c = true) ->
  (forall s, refused c s = false) -> (b = true -> cmd_ok LDP_PSEUDOWIRE_NODE c) -> vpn_normal u -> pw_normal p ->
  (b = true -> vpw_normalize (g p) = p') -> (b = false -> p = p') ->
  runs (line_if b c) (VState (with_vpn w name (put_pw x p u)) LDP_PSEUDOWIRE_NODE i name x)
    (VState (with_vpn w name (put_pw x p' u)) LDP_PSEUDOWIRE_NODE i name x).
Proof.
  intros Hc Hn Hmt Hr Ho Hu Hp Ht Hf. apply runs_line_if.
  - intros Hb. rewrite <- (Ht Hb). apply pw_step; auto.
  - intros Hb. by rewrite (Hf Hb).
Qed.

Record pw_canon (p : pw_conf) : Prop := PwCanon {
  pn_name : (String.length (pwc_ifname p) < IF_NAMESIZE)%nat;
  pn_lsr : pwc_lsr_id p = 0 \/ lsr_id_ok (pwc_lsr_id p);
  pn_id : pwc_pwid p = 0 \/ num_in 1 4294967295 (Some (pwc_pwid p)) = true;
  pn_addr : if is_static p then af_ok (pwc_af p) /\ addr_ok (pwc_addr p) /\ bad_addr (pwc_af p) (pwc_addr p) = Ok 0
            else pwc_af p = AF_INET /\ addr_key AF_INET (pwc_addr p) = le_bytes 4 (pwc_lsr_id p)
}.
Lemma pw_runs p u n0 i q : vpn_normal u -> pw_canon p -> vpn_level n0 -> free (with_vpn w name u) (pwc_ifname p) ->
  runs (ldp_l2vpn_pw_config_write p) (VState (with_vpn w name u) n0 i name q)
    (VState (with_vpn w name (put_pw (pwc_ifname p) (view_pw p) u)) LDP_PSEUDOWIRE_NODE i name (pwc_ifname p)).
Proof.
  intros Hu [Hn Hl Hid Ha] Hlev Hfree. set (x := pwc_ifname p) in *. pose proof (free_here _ _ Hfree) as [Hx1 Hx2].
  set (st := is_static p) in *. unfold ldp_l2vpn_pw_config_write. fold st. fold x.
  set (p0 := PwView 0 AF_INET (le_bytes 4 0) 0 true true false).
  set (p1 := PwView (pwc_lsr_id p) AF_INET (le_bytes 4 (pwc_lsr_id p)) 0 true true false).
  set (p2 := PwView (pwc_lsr_id p) (pwc_af p) (addr_key (pwc_af p) (pwc_addr p)) 0 true true st).
  set (p3 := PwView (pwc_lsr_id p) (pwc_af p) (addr_key (pwc_af p) (pwc_addr p)) (pwc_pwid p) true true st).
  set (cw := has_flag (pwc_flags p) F_PW_CWORD_CONF). set (ss := has_flag (pwc_flags p) F_PW_STATUSTLV_CONF).
  set (p4 := PwView (pwc_lsr_id p) (pwc_af p) (addr_key (pwc_af p) (pwc_addr p)) (pwc_pwid p) true cw st).
  assert (forall id s c, pw_normal (PwView (pwc_lsr_id p) (pwc_af p) (addr_key (pwc_af p) (pwc_addr p)) id s c st)) as Hnrm.
  { intros id s c. unfold pw_normal, vpw_normalize. cbn. destruct st; [done|]. destruct Ha as [-> ->]. done. }
  eapply (runs_cons _ _ _ (VState (with_vpn w name (put_pw x p0 u)) LDP_PSEUDOWIRE_NODE i name x)).
  { eapply (step_cmd _ _ LDP_L2VPN_NODE); [by destruct Hlev as [-> | ->]|done|done|done|]. cbn [spec_cmd]. unfold spec_member_pw.
    rewrite (bind_ok get _ _ _ _ eq_refl). cbv zeta.
    change (set_vs_node LDP_L2VPN_NODE (VState (with_vpn w name u) n0 i name q)) with (VState (with_vpn w name u) LDP_L2VPN_NODE i name q).
    rewrite cur_with, Hx2. rewrite (bool_decide_false (is_Some None)) by (by intros [? ?]). cbn [orb vs_view].
    rewrite free_not_used by done. fold (put_pw x new_pw u). rewrite (bind_ok _ _ _ _ _ (store_with u (put_pw x new_pw u) LDP_L2VPN_NODE i q Hu)).
    rewrite put_pw_normal by done. done. }
  eapply (runs_app _ _ _ (VState (with_vpn w name (put_pw x p1 u)) LDP_PSEUDOWIRE_NODE i name x)).
  { apply (pw_line _ _ (fun r => pv_set_ids (pwc_lsr_id p) (pv_pwid r) r)); try done.
    - intros E s. destruct Hl as [Hl|Hl]; [by rewrite Hl in E|]. cbn [spec_cmd]. by rewrite lsr_id_arg_ok.
    - intros _. split; [apply length_le_bytes|apply le_bytes_ok].
    - intros E. assert (pwc_lsr_id p = 0) as E0 by (by apply negb_false_iff, Z.eqb_eq in E). unfold p1. by rewrite E0. }
  eapply (runs_app _ _ _ (VState (with_vpn w name (put_pw x p2 u)) LDP_PSEUDOWIRE_NODE i name x)).
  { apply (pw_line _ _ (pv_set_addr (pwc_af p) (addr_key (pwc_af p) (pwc_addr p)) true)); try done.
    - intros E s. fold (is_static p) in E. fold st in E. rewrite E in Ha. destruct Ha as (Haf & Hok & Hb). cbn [spec_cmd].
      fold (addr_key (pwc_af p) (pwc_addr p)). by rewrite bad_key, Hb.
    - intros E. fold (is_static p) in E. fold st in E. rewrite E in Ha. destruct Ha as (Haf & Hok & Hb). split; [done|]. by apply key_bytes.
    - intros E. fold (is_static p) in E. fold st in E. unfold p2. by rewrite E.
    - intros E. fold (is_static p) in E. fold st in E. rewrite E in Ha. destruct Ha as [Haf Hk]. unfold p1, p2. by rewrite E, Haf, Hk. }
  eapply (runs_app _ _ _ (VState (with_vpn w name (put_pw x p3 u)) LDP_PSEUDOWIRE_NODE i name x)).
  { apply (pw_line _ _ (fun r => pv_set_ids (pv_lsr_id r) (pwc_pwid p) r)); try done.
    - intros E s. destruct Hid as [Hid|Hid]; [by rewrite Hid in E|]. cbn [spec_cmd option_map].
      assert (u32 (pwc_pwid p) = pwc_pwid p) as ->; [|by rewrite (num_in_range 1 4294967295 MIN_PWID_ID MAX_PWID_ID)].
      apply andb_true_iff in Hid as [H1%Z.leb_le H2%Z.leb_le]. apply Z.mod_small. lia.
    - intros E. destruct Hid as [Hid|Hid]; [by rewrite Hid in E|done].
    - apply Hnrm.
    - intros E. apply Hnrm.
    - intros E. assert (pwc_pwid p = 0) as E0 by (by apply negb_false_iff, Z.eqb_eq in E). unfold p3. by rewrite E0. }
  eapply (runs_app _ _ _ (VState (with_vpn w name (put_pw x p4 u)) LDP_PSEUDOWIRE_NODE i name x)).
  { apply (pw_line _ _ (fun r => pv_set_flags (pv_status r) false r)); try done; try apply Hnrm.
    - intros E. apply negb_true_iff in E. unfold p4. rewrite E. apply Hnrm.
    - intros E. apply negb_false_iff in E. unfold p4. by rewrite E. }
  change (view_pw p) with (PwView (pwc_lsr_id p) (pwc_af p) (addr_key (pwc_af p) (pwc_addr p)) (pwc_pwid p) ss cw st).
  apply (pw_line _ _ (fun r => pv_set_flags false (pv_cword r) r)); try done; try apply Hnrm.
  - intros E. apply negb_true_iff in E. rewrite E. apply Hnrm.
  - intros E. apply negb_false_iff in E. by rewrite E.
Qed.

Definition put_pws (l : list pw_conf) u : vpn_view := vv_set_members (vv_ifs u) ((view_pw <$> kmap l) ∪ vv_pws u) u.
Lemma pws_runs l u n0 i q : vpn_normal u -> Forall pw_canon l -> NoDup (keys_of l) -> vpn_level n0 ->
  (forall x, x ∈ keys_of l -> free (with_vpn w name u) x) ->
  exists n1 q1, vpn_level n1 /\ vpn_normal (put_pws l u) /\
    runs (concat (map ldp_l2vpn_pw_config_write l)) (VState (with_vpn w name u) n0 i name q)
      (VState (with_vpn w name (put_pws l u)) n1 i name q1).
Proof.
  revert u n0 q. induction l as [|p l IH]; intros u n0 q Hu Hc Hnd Hlev Hfree; cbn [map concat].
  { exists n0, q. assert (put_pws [] u = u) as ->; [|done].
    unfold put_pws. change (kmap []) with (∅ : gmap string pw_conf). rewrite fmap_empty, (left_id_L ∅ (∪)). by destruct u. }
  apply Forall_cons in Hc as [Hp Hc]. change (NoDup (key p :: keys_of l)) in Hnd. apply NoDup_cons in Hnd as [Hpl Hnd].
  set (u1 := put_pw (pwc_ifname p) (view_pw p) u).
  assert (vpn_normal u1) as Hu1.
  { apply put_normal; [done|]. unfold pw_normal, vpw_normalize. destruct Hp as [_ _ _ Ha]. unfold is_static in Ha. unfold view_pw. cbn.
    destruct (has_flag (pwc_flags p) F_PW_STATIC_NBR_ADDR); [done|]. destruct Ha as [-> ->]. done. }
  assert (put_pws (p :: l) u = put_pws l u1) as ->.
  { unfold put_pws, u1, put_pw, vv_set_members. cbn [vv_type vv_pw_type vv_mtu vv_bridge vv_ifs vv_pws]. f_equal.
    rewrite kmap_cons, fmap_insert, <- insert_union_l. rewrite <- insert_union_r; [done|].
    rewrite lookup_fmap, lookup_kmap. by rewrite (proj2 (kfind_None l (key p)) Hpl). }
  destruct (IH u1 LDP_PSEUDOWIRE_NODE (pwc_ifname p)) as (n1 & q1 & H1 & H2 & H3); try done.
  { by right. }
  { intros x Hx. assert (x <> key p) as Hne by (by intros ->). assert (free (with_vpn w name u) x) as Hfx by (apply Hfree; by right).
    pose proof (free_here _ _ Hfx) as [E1 E2]. apply (free_with u); [done|done|]. cbn. by rewrite lookup_insert_ne. }
  exists n1, q1. split_and!; try done. eapply runs_app; [|exact H3]. apply pw_runs; try done. apply Hfree. by left.
Qed.
End Vpn.


Definition vpn_names (v : l2vpn) : list string := keys_of (lv_if_list v) ++ keys_of (lv_pws v).
Record vpn_canon (v : l2vpn) : Prop := VpnCanon {
  vc_name : (String.length (lv_name v) < L2VPN_NAME_LEN)%nat;
  vc_type : lv_pw_type v = PW_TYPE_ETHERNET \/ lv_pw_type v = PW_TYPE_ETHERNET_TAGGED;
  vc_mtu : num_in 1500 9180 (Some (lv_mtu v)) = true;
  vc_br : (String.length (lv_br_ifname v) < IF_NAMESIZE)%nat;
  vc_if : Forall (fun f => (String.length (lf_ifname f) < IF_NAMESIZE)%nat) (lv_if_list v);
  vc_pw : Forall pw_canon (lv_pws v)
}.

Section Vpns.
Implicit Types (w : conf_view) (v : l2vpn).

Lemma vpn_back v : vpn_ok v -> put_pws (lv_pw_inactive_list v) (put_pws (lv_pw_list v)
    (add_ifs (lv_if_list v) (vv_set_params (lv_pw_type v) (lv_mtu v) (lv_br_ifname v) new_vpn))) = view_vpn v.
Proof.
  intros [Ht _ Hp _]. unfold put_pws, add_ifs, vv_set_params, vv_set_members, view_vpn.
  cbn [vv_type vv_pw_type vv_mtu vv_bridge vv_ifs vv_pws new_vpn]. rewrite Ht, (right_id_L ∅ (∪)). f_equal.
  rewrite (right_id_L ∅ (∪)). apply map_eq. intros k. unfold lv_pws in *. rewrite keys_app in Hp. apply NoDup_app in Hp as (_ & Hd & _).
  rewrite lookup_union, !lookup_fmap, !lookup_kmap, kfind_app. destruct (kfind (lv_pw_inactive_list v) k) as [p|] eqn:E.
  - assert (kfind (lv_pw_list v) k = None) as ->; [|done]. apply kfind_None. intros H. apply (Hd k H), kfind_is_Some. eauto.
  - by destruct (kfind (lv_pw_list v) k).
Qed.
Lemma vpn_runs v w n0 i n q : norm_ok w -> vpn_ok v -> vpn_canon v -> cv_vpns w !! lv_name v = None -> NoDup (vpn_names v) ->
  (forall x, x ∈ vpn_names v -> free w x) ->
  exists n1 q1, runs (l2vpn_config_write v) (VState w n0 i n q) (VState (with_vpn w (lv_name v) (view_vpn v)) n1 i (lv_name v) q1).
Proof.
  intros Hw Hok [Hn Ht Hm Hb Hi Hp] Hnew Hnd Hfree. rewrite <- (vpn_back v Hok). unfold vpn_names, lv_pws in Hnd, Hfree. rewrite keys_app in Hnd, Hfree.
  set (name := lv_name v) in *. set (u0 := vv_set_params (lv_pw_type v) (lv_mtu v) (lv_br_ifname v) new_vpn).
  assert (vpn_normal new_vpn) as N0 by done. assert (vpn_normal u0) as N1 by (by apply params_normal).
  set (u1 := add_ifs (lv_if_list v) u0). assert (vpn_normal u1) as N2 by (by apply add_ifs_normal).
  apply NoDup_app in Hnd as (D1 & D2 & D3). apply NoDup_app in D3 as (D3 & D4 & D5).
  unfold lv_pws in Hp. apply Forall_app in Hp as [Hp1 Hp2].
  assert (forall u x, free w x -> x ∉ vv_ifs u -> vv_pws u !! x = None -> free (with_vpn w name u) x) as Hfw.
  { intros u x [F1 F2] H1 H2. split; [done|]. intros k t. cbn. destruct (decide (name = k)) as [<- |Hk].
    - rewrite lookup_insert_eq. by intros [= <-].
    - rewrite lookup_insert_ne by done. apply F2. }
  assert (forall x, x ∈ keys_of (lv_pw_list v) \/ x ∈ keys_of (lv_pw_inactive_list v) -> x ∉ vv_ifs u1) as Hu1.
  { intros x Hx. unfold u1, add_ifs. cbn. rewrite elem_of_union, elem_of_list_to_set. intros [H|H]; [|by apply not_elem_of_empty in H].
    apply (D2 x H). by rewrite elem_of_app. }
  destruct (pws_runs w name Hw (lv_pw_list v) u1 LDP_L2VPN_NODE i q) as (n1 & q1 & L1 & N3 & R1); try done.
  { by left. }
  { intros x Hx. apply Hfw; [apply Hfree; rewrite !elem_of_app; tauto|apply Hu1; by left|done]. }
  destruct (pws_runs w name Hw (lv_pw_inactive_list v) (put_pws (lv_pw_list v) u1) n1 i q1) as (n2 & q2 & L2 & N4 & R2); try done.
  { intros x Hx. apply Hfw; [apply Hfree; rewrite !elem_of_app; tauto|apply Hu1; by right|].
    unfold put_pws. cbn. rewrite (right_id_L ∅ (∪)), lookup_fmap, lookup_kmap.
    assert (kfind (lv_pw_list v) x = None) as ->; [|done]. apply kfind_None. intros H. by apply (D4 x). }
  exists n2, q2. unfold l2vpn_config_write. fold name.
  eapply (runs_cons _ _ _ (VState (with_vpn w name new_vpn) LDP_L2VPN_NODE i name q)).
  { eapply (step_cmd _ _ CONFIG_NODE); [by destruct n0|done|done|done|]. cbn [spec_cmd]. unfold spec_l2vpn.
    rewrite (bind_ok get _ _ _ _ eq_refl). cbv zeta. rewrite (bind_ok (modify _) _ _ _ _ eq_refl), (bind_ok (modify _) _ _ _ _ eq_refl).
    change (vs_view _) with w. rewrite Hnew. rewrite bool_decide_false by (by intros [? ?]).
    exact (commit_vpn w name new_vpn (VState w LDP_L2VPN_NODE i name q) Hw). }
  eapply runs_app.
  { apply (params_line w name Hw _ _ (fun _ => lv_pw_type v) vv_mtu vv_bridge); try done.
    - intros E s. cbn [spec_cmd]. destruct Ht as [Ht|Ht]; rewrite Ht in E |- *; done.
    - intros E. apply negb_false_iff, Z.eqb_eq in E. by rewrite E. }
  eapply runs_app.
  { apply (params_line w name Hw _ _ vv_pw_type (fun _ => lv_mtu v) vv_bridge); try done; try (by repeat apply params_normal).
    - intros E s. cbn [spec_cmd option_map]. assert (int_of_u32 (lv_mtu v) = lv_mtu v) as ->.
      { pose proof Hm as [H1%Z.leb_le H2%Z.leb_le]%andb_true_iff. unfold int_of_u32, u32. rewrite Z.mod_small by lia.
        case_match; [done|]. zbool. lia. }
      by rewrite (num_in_range 1500 9180 MIN_L2VPN_MTU MAX_L2VPN_MTU).
    - intros E. apply negb_false_iff, Z.eqb_eq in E. by rewrite E. }
  eapply runs_app.
  { apply (params_line w name Hw _ _ vv_pw_type vv_mtu (fun _ => lv_br_ifname v)); try done; try (by repeat apply params_normal).
    - intros E s. cbn [spec_cmd]. by rewrite strlcpy_id.
    - intros E. apply negb_false_iff, String.eqb_eq in E. by rewrite E. }
  eapply (runs_app _ _ _ (VState (with_vpn w name u1) LDP_L2VPN_NODE i name q)).
  { apply (member_ifs_runs w name Hw (lv_if_list v) u0); try done.
    - rewrite Forall_forall in Hi. exact Hi.
    - intros x Hx. apply Hfw; [apply Hfree; rewrite !elem_of_app; tauto|by apply not_elem_of_empty|done]. }
  eapply runs_app; [exact R1|exact R2].
Qed.

Definition put_vpns (l : list l2vpn) w : conf_view := set_cv_vpns ((view_vpn <$> kmap l) ∪ cv_vpns w) w.
Lemma vpns_runs l w n0 i n q : norm_ok w -> Forall vpn_ok l -> Forall vpn_canon l -> NoDup (keys_of l) ->
  (forall v, v ∈ l -> cv_vpns w !! lv_name v = None) -> NoDup (concat (map vpn_names l)) ->
  (forall x, x ∈ concat (map vpn_names l) -> free w x) ->
  exists n1 i1 q1, runs (concat (map l2vpn_config_write l)) (VState w n0 i n q) (VState (put_vpns l w) n1 i i1 q1).
Proof.
  revert w n0 n q. induction l as [|v l IH]; intros w n0 n q Hw Ho Hc Hnd Hnew Hnn Hfree; cbn [map concat].
  { exists n0, n, q. assert (put_vpns [] w = w) as ->; [|apply runs_nil].
    unfold put_vpns. change (kmap []) with (∅ : gmap string l2vpn). rewrite fmap_empty, (left_id_L ∅ (∪)). by destruct w. }
  apply Forall_cons in Ho as [Hv Ho]. apply Forall_cons in Hc as [Hvc Hc]. change (NoDup (key v :: keys_of l)) in Hnd.
  apply NoDup_cons in Hnd as [Hvl Hnd]. cbn [map concat] in Hnn, Hfree. apply NoDup_app in Hnn as (M1 & M2 & M3).
  set (w1 := with_vpn w (lv_name v) (view_vpn v)).
  assert (vpn_normal (view_vpn v)) as Hnv.
  { unfold vpn_normal, vvpn_normalize, view_vpn. cbn. f_equal. apply map_eq. intros k. rewrite !lookup_fmap, lookup_kmap.
    destruct (kfind (lv_pws v) k) as [p|] eqn:E; [|done]. cbn. f_equal. apply kfind_Some in E as [Hp _].
    pose proof (vc_pw _ Hvc) as Hpc. rewrite Forall_forall in Hpc. pose proof (pn_addr _ (Hpc p Hp)) as Ha. unfold is_static in Ha.
    unfold vpw_normalize, view_pw. cbn. destruct (has_flag (pwc_flags p) F_PW_STATIC_NBR_ADDR); [done|]. destruct Ha as [-> ->]. done. }
  destruct (vpn_runs v w n0 i n q) as (n1 & q1 & R1); try done.
  { apply Hnew. by left. }
  { intros x Hx. apply Hfree. rewrite elem_of_app. by left. }
  destruct (IH w1 n1 (lv_name v) q1) as (n2 & v2 & q2 & R2); try done.
  { by apply with_norm. }
  { intros u Hu. cbn. rewrite lookup_insert_ne; [apply Hnew; by right|]. intros E. apply Hvl. change (key v = key u) in E. rewrite E.
    by apply list_elem_of_fmap_2. }
  { intros x Hx. destruct (Hfree x) as [F1 F2]; [rewrite elem_of_app; by right|]. split; [done|]. intros k t. cbn.
    destruct (decide (lv_name v = k)) as [<- |Hk]; [|rewrite lookup_insert_ne by done; apply F2]. rewrite lookup_insert_eq. intros [= <-].
    assert (x ∉ vpn_names v) as Hx' by (intros H; by apply (M2 x)). unfold vpn_names in Hx'. rewrite elem_of_app in Hx'. cbn.
    rewrite elem_of_list_to_set, lookup_fmap, lookup_kmap. split; [naive_solver|].
    assert (kfind (lv_pws v) x = None) as ->; [|done]. apply kfind_None. naive_solver. }
  exists n2, v2, q2. eapply runs_app; [exact R1|]. assert (put_vpns (v :: l) w = put_vpns l w1) as ->; [|exact R2].
  unfold put_vpns, w1, with_vpn, set_cv_vpns, set_cv_maps. cbn [cv_vpns cv_rtr_id cv_ipv4 cv_ipv6 cv_ifs cv_tnbrs cv_nbrps cv_lholdtime cv_linterval
    cv_tholdtime cv_tinterval cv_trans_pref cv_flags]. f_equal.
  rewrite kmap_cons, fmap_insert, <- insert_union_l. rewrite <- insert_union_r; [done|].
  rewrite lookup_fmap, lookup_kmap. by rewrite (proj2 (kfind_None l (key v)) Hvl).
Qed.
End Vpns.

(** ** The round trip *)
Record conf_canon (c : ldpd_conf) : Prop := ConfCanon {
  cc_ldp : ldp_canon c;
  cc_vpn : Forall vpn_canon (xc_l2vpn_list c);
  cc_names : NoDup (keys_of (xc_iface_list c) ++ concat (map vpn_names (xc_l2vpn_list c)))
}.
Lemma file_runs c : conf_wf c -> conf_canon c -> exists l n1 i1 v1 q1, ldp_config_write c = Ok l /\
  runs (l ++ ldp_l2vpn_config_write c) (abs parent_init) (VState (view c) n1 i1 v1 q1).
Proof.
  intros Hc [Hl Hv Hn]. destruct (ldp_runs c Hc Hl) as (l & n1 & i1 & E & Nw & R1). set (w := set_cv_vpns ∅ (view c)) in *.
  apply NoDup_app in Hn as (D1 & D2 & D3).
  destruct (vpns_runs (xc_l2vpn_list c) w n1 i1 "" "") as (n2 & v2 & q2 & R2); try done; try apply Hc.
  { intros x Hx. split; [|done]. cbn. rewrite lookup_fmap, lookup_kmap. assert (kfind (xc_iface_list c) x = None) as ->; [|done].
    apply kfind_None. intros H. by apply (D2 x). }
  exists l, n2, i1, v2, q2. split; [done|]. eapply runs_app; [exact R1|].
  assert (view c = put_vpns (xc_l2vpn_list c) w) as ->; [|exact R2].
  unfold put_vpns. change (cv_vpns w) with (∅ : gmap string vpn_view). by rewrite (right_id_L ∅ (∪)).
Qed.
