(* ===== verification/ConfFun.v ===== *)
(** * Configuration: the theorems

    What the lemmas of [ConfCmds], [ConfRead] and [ConfBack] come to: the
    refinement of the commands, files that are read to the end, the round trip
    through a written configuration, what reaches the LDP engine, and two
    faults. *)
From stdpp Require Import prelude strings list gmap.
From Stdlib Require Import ZArith Lia Permutation.
From S2P Require Import Prelude Util Wire Ipc Session Fec Hello Discovery DiscInv HeapLoops Config ConfigSafe Engine EngineSafe Delivery EngineFun KeyedList Parent ConfView ConfMerge ConfSpec ConfCmds ConfRead ConfTrip ConfBack.

(** ** Checking that lines are accepted *)
Definition bytes_ofb (af : Z) (b : list Z) : bool :=
  bool_decide (length b = addr_size af) && forallb (fun z => (0 <=? z) && (z <? 256)) b.
Definition cmd_okb (n : vty_node) (c : vty_cmd) : bool :=
  match c with
  | CmdInterface _ s | CmdMemberIf _ s | CmdMemberPw _ s => bool_decide (String.length s < IF_NAMESIZE)%nat
  | CmdL2vpn _ s => bool_decide (String.length s < L2VPN_NAME_LEN)%nat
  | CmdTransAddr _ (Some b) | CmdTargeted _ (Some b) => bytes_ofb (node_af n) b
  | CmdNbrAddr _ (Some (af, b)) => ((af =? AF_INET) || (af =? AF_INET6)) && bytes_ofb af b
  | CmdNbrLsrId _ (Some b) => bytes_ofb AF_INET b
  | _ => true
  end.
Fixpoint acceptedb (l : list vty_cmd) (s : vstate) : bool :=
  match l with
  | [] => true
  | c :: l' =>
      match node_for 3 c (vs_node s) with
      | None => false
      | Some n =>
          cmd_okb n c && negb (refused c s)
          && match spec_line c s with Ok (Some _, s') => acceptedb l' s' | _ => true end
      end
  end.

Section Check.
Lemma bytes_ofb_ok af b : bytes_ofb af b = true -> bytes_of af b.
Proof.
  intros H. apply andb_true_iff in H as [H1 H2]. apply bool_decide_eq_true in H1. split; [done|]. apply Forall_forall. intros z Hz.
  rewrite forallb_forall in H2. apply list_elem_of_In, H2 in Hz. apply andb_true_iff in Hz as [? ?]. split; [by apply Z.leb_le|by apply Z.ltb_lt].
Qed.
Lemma cmd_okb_ok n c : cmd_okb n c = true -> cmd_ok n c.
Proof.
  destruct c; cbn; try done; try (by intros ?%bool_decide_eq_true); try (case_match; [by apply bytes_ofb_ok|done]).
  destruct addr as [[af b]|]; [|done]. intros [H1 H2]%andb_true_iff. split; [|by apply bytes_ofb_ok].
  apply orb_true_iff in H1 as [?%Z.eqb_eq|?%Z.eqb_eq]; by (left + right).
Qed.
Lemma acceptedb_ok l s : acceptedb l s = true -> accepted l s.
Proof.
  revert s. induction l as [|c l IH]; intros s; cbn [acceptedb accepted]; [done|]. unfold line_ok.
  destruct (node_for 3 c (vs_node s)) as [n|]; [|done]. intros H. apply andb_true_iff in H as [H H3]. apply andb_true_iff in H as [H1 H2].
  split_and!; [by eexists|by apply cmd_okb_ok|by apply negb_true_iff|]. intros r s' E. rewrite E in H3. by apply IH.
Qed.
End Check.

(** A file, and the configuration it describes: two links, targeted neighbour
    10.0.0.9, a password for 9.9.9.9, a VPLS with a member and a pseudowire. *)
Definition file_1 : list vty_cmd :=
  [CmdMplsLdp false; CmdRouterId false (Some [1; 1; 1; 1]); CmdHoldtime false HELLO_LINK (Some 30);
   CmdPassword false (Some [9; 9; 9; 9]) "secret";
   CmdAddressFamily false "ipv4"; CmdTransAddr false (Some [1; 1; 1; 1]); CmdTargeted false (Some [10; 0; 0; 9]);
   CmdInterface false "eth0"; CmdInterval false HELLO_LINK (Some 3); CmdInterface false "eth1";
   CmdL2vpn false "vpls"; CmdMemberIf false "eth5"; CmdMemberPw false "mpw0";
   CmdNbrLsrId false (Some [9; 9; 9; 9]); CmdPwId false (Some 100)].
Definition stack_0 : ldpd_addr := replicate 16 7.
Lemma stack_0_ok : addr_ok stack_0.
Proof. split; [done|]. repeat constructor; by compute. Qed.
Lemma file_1_accepted : accepted file_1 (abs parent_init).
Proof. apply acceptedb_ok. vm_compute. reflexivity. Qed.

(** C11: the configuration commands do what they promise.  Reading the lines of a
    file is a refinement of the commands as operations on finite maps:
    from a well-formed configuration, lines with good arguments end in the same
    way, with the view of the running configuration, the node and the names of
    what is being configured that [spec_config] gives, with a configuration that
    is well formed again; where [spec_config] follows a null pointer, so does the
    code.  So copying a configuration, editing it, normalizing it and merging it
    back is the edit, whatever the lists and their order were. *)
Theorem commands_refine (stack : ldpd_addr) (l : list vty_cmd) (p : parent)
  (Hc : conf_run_ok (pa_conf p)) (Hs : addr_ok stack) (Hl : lines_ok l (abs p)) :
  match spec_config l (abs p) with
  | Ok (_, s') => exists p', read_config stack l p = Ok (tt, p') /\ abs p' = s' /\ conf_run_ok (pa_conf p')
  | Fatal e => read_config stack l p = Fatal e
  | Undef e => read_config stack l p = Undef e
  | NoFuel => read_config stack l p = NoFuel
  end.
Proof.
  pose proof (read_lines_refine stack l p Hc Hs Hl) as H. destruct (spec_config l (abs p)) as [[[] s']| | |]; try done.
  destruct H as (p' & H1 & H2 & H3 & _). by exists p'.
Qed.
Lemma commands_refine_witness :
  exists p', read_config stack_0 file_1 parent_init = Ok (tt, p') /\
    bool_decide (is_Some (cv_ifs (view (pa_conf p')) !! "eth1")) = true /\
    bool_decide ((AF_INET, [10; 0; 0; 9]) ∈ cv_tnbrs (view (pa_conf p'))) = true.
Proof.
  assert (match spec_config file_1 (abs parent_init) with
          | Ok (_, s) => bool_decide (is_Some (cv_ifs (vs_view s) !! "eth1")) && bool_decide ((AF_INET, [10; 0; 0; 9]) ∈ cv_tnbrs (vs_view s))
          | _ => false end = true) as Hb by (vm_compute; reflexivity).
  pose proof (commands_refine stack_0 file_1 parent_init init_run_ok stack_0_ok (accepted_ok _ _ file_1_accepted)) as H.
  destruct (spec_config file_1 (abs parent_init)) as [[u s']| | |]; [|discriminate Hb..].
  destruct H as (p' & H1 & H2 & _). exists p'. split; [exact H1|].
  change (view (pa_conf p')) with (vs_view (abs p')). rewrite H2. apply andb_true_iff in Hb. exact Hb.
Defined.

(** C14: a configuration file is read to the end.  A parent that has just started
    reads any file whose lines are commands with good arguments and which asks for
    no interface an L2VPN uses: no command follows a null pointer or ends the
    process, and the node the vty is in at the end still exists. *)
Theorem config_file_read (stack : ldpd_addr) (l : list vty_cmd)
  (Hs : addr_ok stack) (Hl : accepted l (abs parent_init)) :
  exists p', read_config stack l parent_init = Ok (tt, p') /\ conf_run_ok (pa_conf p') /\ vty_ok (abs p').
Proof.
  destruct (accepted_safe l (abs parent_init) init_vty_ok Hl) as (s' & E & Hv).
  pose proof (read_lines_refine stack l parent_init init_run_ok Hs (accepted_ok _ _ Hl)) as H. rewrite E in H.
  destruct H as (p' & H1 & H2 & H3 & _). exists p'. split_and!; [done|done|by rewrite H2].
Qed.
Lemma config_file_read_witness : exists p', read_config stack_0 file_1 parent_init = Ok (tt, p') /\ vty_ok (abs p').
Proof.
  destruct (config_file_read stack_0 file_1 stack_0_ok file_1_accepted) as (p' & H1 & _ & H2). exists p'. split; [exact H1|exact H2].
Defined.

(** ** The round trip *)
(** C12: a configuration survives a restart.  What [ldp_config_write] and
    [ldp_l2vpn_config_write] print for a well-formed configuration is read to the
    end by a parent that has just started and makes a configuration with the same
    view: the same global parameters, families, interfaces, targeted neighbours,
    neighbour parameters, L2VPNs and pseudowires, as long as everything in it can
    be written ([conf_canon]: no family or interface sets a hello parameter to
    the global default, no name is used twice, no entry is left over from a
    [no] command). *)
Theorem config_roundtrip (stack : ldpd_addr) (c : ldpd_conf)
  (Hs : addr_ok stack) (Hc : conf_wf c) (Hcan : conf_canon c) :
  exists l p', ldp_config_write c = Ok l /\
    read_config stack (l ++ ldp_l2vpn_config_write c) parent_init = Ok (tt, p') /\
    view (pa_conf p') = view c /\ conf_run_ok (pa_conf p').
Proof.
  destruct (file_runs c Hc Hcan) as (l & n1 & i1 & v1 & q1 & E & Ha & Er). exists l.
  pose proof (read_lines_refine stack _ parent_init init_run_ok Hs (accepted_ok _ _ Ha)) as H. rewrite Er in H.
  destruct H as (p' & H1 & H2 & H3 & _). exists p'. split_and!; [exact E|exact H1| |exact H3].
  change (view (pa_conf p')) with (vs_view (abs p')). by rewrite H2.
Qed.

(** A configuration with something of everything; [glh] and [alh] are the link
    hello hold times of the router and of IPv4. *)
Definition af_1 (alh : Z) : xaf := XAf 60 (AfConf alh 0 0 7 (v4_addr 1 1 1 1) 3).
Definition ia_1 : iface_af := IfaceAf true IF_STA_DOWN [] None 30 0.
Definition ia_0 : iface_af := IfaceAf false IF_STA_DOWN [] None 0 0.
Definition if_1 : iface := Iface 0 "eth0" 0 [] zero_addr IF_TYPE_POINTOPOINT 0 ia_1 ia_0.
Definition tnbr_1 : tnbr := Tnbr 0 AF_INET (v4_addr 10 0 0 9) TNBR_STA_DOWN 0 F_TNBR_CONFIGURED None None.
Definition nbrp_2 : nbr_params := nbrp_of (le_val [9; 9; 9; 9]) (Some 90) (Some (Some 2)) (Some "secret").
Definition pw_1 : pw_conf :=
  PwConf (le_val [9; 9; 9; 9]) AF_INET6 ([32; 1; 13; 184] ++ replicate 11 0 ++ [9]) 100 "mpw0" 0 F_PW_STATIC_NBR_ADDR.
Definition pw_2 : pw_conf := PwConf 0 AF_INET zero_addr 0 "mpw1" 0 (F_PW_STATUSTLV_CONF + F_PW_CWORD_CONF).
Definition vpn_1 : l2vpn := L2vpn "vpls" L2VPN_TYPE_VPLS PW_TYPE_ETHERNET_TAGGED 1600 "br0" 0 [L2vpnIf "eth5" 0 0] [pw_1] [pw_2].
Definition conf_with (glh alh : Z) : ldpd_conf :=
  LdpdConf (le_val [1; 1; 1; 1]) (af_1 alh) (XAf 180 zero_af_conf) [if_1] [tnbr_1] [nbrp_2] [vpn_1] glh 5 60 5 DUAL_STACK_LDPOV6 6.
Definition conf_1 : ldpd_conf := conf_with 15 20.

Section Conf1.
Lemma bytes_lit (b : list Z) : forallb (fun z => (0 <=? z) && (z <? 256)) b = true -> bytes_ok b.
Proof.
  intros H. apply Forall_forall. intros z Hz. rewrite forallb_forall in H. apply list_elem_of_In, H in Hz.
  apply andb_true_iff in Hz as [? ?]. split; [by apply Z.leb_le|by apply Z.ltb_lt].
Qed.
Lemma conf_with_wf glh alh : conf_wf (conf_with glh alh).
Proof.
  split; try apply NoDup_singleton; try (split; [done|by apply bytes_lit]).
  - constructor; [|done]. split_and!; [by left|split; [done|by apply bytes_lit]|done..].
  - constructor; [|done]. split; [done|apply NoDup_singleton| |].
    + apply NoDup_cons. split; [|apply NoDup_singleton]. by apply not_elem_of_cons; split; [|apply not_elem_of_nil].
    + constructor; [by right|]. constructor; [by left|done].
Qed.
Lemma conf_with_canon glh alh : hello_range true glh -> hello_opt true HELLO_LINK alh -> conf_canon (conf_with glh alh).
Proof.
  intros Hg Ha. split.
  - split.
    + split; try done; try (by left); try (by right).
      constructor; [|done]. exists (Some 90), (Some (Some 2)), (Some "secret"). split; [done|]. split; [split; [split|]; done|].
      split; [by left|]. split_and!; intros ? [= <-]; [done..|]. cbn. unfold TCP_MD5_KEY_LEN. lia.
    + intros af [-> | ->].
      * left. split; try done; try (by left); try (right; split; done); try (split; [done|by apply bytes_lit]).
      * right. split_and!; [done..| |by constructor]. constructor; [done|done].
    + constructor; [|done]. by split.
    + constructor; [cbn; unfold IF_NAMESIZE; lia|done].
    + intros af [-> | ->]; constructor; try done; split; try done; (by left) || (right; by split).
    + by constructor.
  - constructor; [|done]. split; [cbn; unfold L2VPN_NAME_LEN; lia|by right|done|cbn; unfold IF_NAMESIZE; lia|..].
    + constructor; [cbn; unfold IF_NAMESIZE; lia|done].
    + constructor; [|constructor; [|done]].
      * split; [cbn; unfold IF_NAMESIZE; lia|right; split; [split; done|done]|by right|]. split; [by right|]. split; [split; [done|by apply bytes_lit]|done].
      * split; [cbn; unfold IF_NAMESIZE; lia|by left|by left|]. done.
  - repeat (apply NoDup_cons; split; [by repeat (apply not_elem_of_cons; split; [done|]); apply not_elem_of_nil|]). apply NoDup_nil_2.
Qed.
End Conf1.
Lemma config_roundtrip_witness :
  exists l p', ldp_config_write conf_1 = Ok l /\ length (l ++ ldp_l2vpn_config_write conf_1) = 28%nat /\
    read_config stack_0 (l ++ ldp_l2vpn_config_write conf_1) parent_init = Ok (tt, p') /\ view (pa_conf p') = view conf_1.
Proof.
  destruct (config_roundtrip stack_0 conf_1 stack_0_ok (conf_with_wf 15 20)
    (conf_with_canon 15 20 eq_refl ltac:(right; by split))) as (l & p' & H1 & H2 & H3 & _).
  exists l, p'. split; [exact H1|]. split; [|split; [exact H2|exact H3]].
  assert (match ldp_config_write conf_1 with Ok l => length (l ++ ldp_l2vpn_config_write conf_1) | _ => 0%nat end = 28%nat) as E
    by (vm_compute; reflexivity).
  rewrite H1 in E. exact E.
Defined.

(** ** Faults *)
(** C29: a refused interface crashes the parent at the next line.  [interface]
    moves the vty to the node of the interface before it looks whether an L2VPN
    uses the name; it then gives up with a message, and a hello parameter set
    next follows the null pointer the search for the interface returns. *)
Theorem refused_interface_crashes (stack : ldpd_addr) (n : string) (secs : Z) (p : parent)
  (Hc : conf_run_ok (pa_conf p)) (Hs : addr_ok stack) (Hnode : af_node (pa_node p) = true)
  (Hn : (String.length n < IF_NAMESIZE)%nat) (Hsecs : in_range MIN_HOLDTIME MAX_HOLDTIME (Some secs) = Some secs)
  (Href : refused (CmdInterface false n) (abs p) = true) :
  exists p', read_line stack (CmdInterface false n) p = Ok (Some CMD_SUCCESS, p') /\ view (pa_conf p') = view (pa_conf p) /\
    read_line stack (CmdHoldtime false HELLO_LINK (Some secs)) p' = Undef "null pointer".
Proof.
  unfold refused in Href. apply andb_true_iff in Href as [Hni Hu]. apply bool_decide_eq_true in Hni.
  assert (node_for 3 (CmdInterface false n) (pa_node p) = Some (pa_node p)) as En by (by destruct (pa_node p)).
  set (s1 := set_vs_ifname n (set_vs_node (iface_node (node_af (pa_node p))) (abs p))).
  assert (spec_line (CmdInterface false n) (abs p) = Ok (Some CMD_SUCCESS, s1)) as E1.
  { unfold spec_line. rewrite (bind_ok get _ _ _ _ eq_refl). change (vs_node (abs p)) with (pa_node p). rewrite En.
    rewrite (bind_ok (modify _) _ _ _ _ eq_refl). cbn [spec_cmd]. unfold spec_interface, bind at 1. rewrite (bind_ok get _ _ _ _ eq_refl). cbv zeta.
    rewrite (bind_ok (modify _) _ _ _ _ eq_refl), (bind_ok (modify _) _ _ _ _ eq_refl). cbn [vs_view set_vs_node]. rewrite Hni.
    change (in_use (vs_view (abs p)) n = true) in Hu. by rewrite Hu. }
  pose proof (read_line_refines stack (CmdInterface false n) p Hc Hs) as H. rewrite E1 in H. destruct H as (p1 & Er & Ha & Hc1 & _).
  { unfold line_ok. change (vs_node (abs p)) with (pa_node p). by rewrite En. }
  exists p1. split; [done|]. split; [by change (view (pa_conf p1)) with (vs_view (abs p1)); rewrite Ha|].
  assert (spec_line (CmdHoldtime false HELLO_LINK (Some secs)) s1 = Undef "null pointer") as E2.
  { unfold spec_line. rewrite (bind_ok get _ _ _ _ eq_refl). cbn [vs_node s1 set_vs_ifname set_vs_node].
    assert (node_for 3 (CmdHoldtime false HELLO_LINK (Some secs)) (iface_node (node_af (pa_node p))) = Some (iface_node (node_af (pa_node p)))) as ->.
    { unfold node_for. assert (matches (CmdHoldtime false HELLO_LINK (Some secs)) = true) as -> by (by apply (hello_cmd_matches true HELLO_LINK)).
      by destruct (pa_node p). }
    rewrite (bind_ok (modify _) _ _ _ _ eq_refl). unfold bind at 1. cbn [spec_cmd]. rewrite Hsecs. unfold spec_hello.
    rewrite (bind_ok get _ _ _ _ eq_refl). change (vs_ifname _) with n. change (cv_ifs (vs_view _)) with (cv_ifs (vs_view (abs p))).
    rewrite Hni. by destruct (pa_node p). }
  pose proof (read_line_refines stack (CmdHoldtime false HELLO_LINK (Some secs)) p1 Hc1 Hs) as H. rewrite Ha, E2 in H. apply H.
  unfold line_ok. by case_match.
Qed.
(** Member eth5 of a VPLS is asked for as a link. *)
Definition file_2 : list vty_cmd :=
  [CmdL2vpn false "vpls"; CmdMemberIf false "eth5"; CmdMplsLdp false; CmdAddressFamily false "ipv4"].
Lemma refused_interface_crashes_witness :
  exists p p', read_config stack_0 file_2 parent_init = Ok (tt, p) /\
    read_line stack_0 (CmdInterface false "eth5") p = Ok (Some CMD_SUCCESS, p') /\
    read_line stack_0 (CmdHoldtime false HELLO_LINK (Some 20)) p' = Undef "null pointer".
Proof.
  assert (acceptedb file_2 (abs parent_init) = true) as Ha by (vm_compute; reflexivity).
  pose proof (read_lines_refine stack_0 file_2 parent_init init_run_ok stack_0_ok (accepted_ok _ _ (acceptedb_ok _ _ Ha))) as H.
  assert (match spec_config file_2 (abs parent_init) with
          | Ok (_, s) => af_node (vs_node s) && refused (CmdInterface false "eth5") s
          | _ => false end = true) as Hb by (vm_compute; reflexivity).
  destruct (spec_config file_2 (abs parent_init)) as [[u s']| | |]; [|discriminate Hb..].
  destruct H as (p & H1 & H2 & H3 & _). apply andb_true_iff in Hb as [Hn Hr]. rewrite <- H2 in Hn, Hr.
  assert (String.length "eth5" < IF_NAMESIZE)%nat as Hlen by (cbn; unfold IF_NAMESIZE; lia).
  destruct (refused_interface_crashes stack_0 "eth5" 20 p H3 stack_0_ok Hn Hlen eq_refl Hr) as (p' & E1 & _ & E2).
  exists p, p'. split; [exact H1|]. split; [exact E1|exact E2].
Defined.

(** A family that overrides the global hold time with the built-in default
    loses it.  The value is not written, so the file is the one of a configuration
    without it, and after a restart the family takes the global value. *)
Theorem default_holdtime_lost (stack : ldpd_addr) (c : ldpd_conf)
  (Hd : af_lhello_holdtime (xa_conf (xc_ipv4 c)) = LINK_DFLT_HOLDTIME) (Hs : addr_ok stack)
  (Hc : conf_wf (mod_af_conf AF_INET (set_af_holdtime HELLO_LINK 0) c))
  (Hcan : conf_canon (mod_af_conf AF_INET (set_af_holdtime HELLO_LINK 0) c)) :
  exists l p', ldp_config_write c = Ok l /\
    read_config stack (l ++ ldp_l2vpn_config_write c) parent_init = Ok (tt, p') /\
    av_lholdtime (cv_ipv4 (view c)) = LINK_DFLT_HOLDTIME /\ av_lholdtime (cv_ipv4 (view (pa_conf p'))) = 0 /\
    cv_lholdtime (view (pa_conf p')) = xc_lhello_holdtime c.
Proof.
  set (c0 := mod_af_conf AF_INET (set_af_holdtime HELLO_LINK 0) c) in *.
  destruct (file_runs c0 Hc Hcan) as (l & n1 & i1 & v1 & q1 & E & Ha & Er).
  assert (ldp_config_write c = ldp_config_write c0) as Ew.
  { unfold ldp_config_write, ldp_af_config_write, xc_af, hello_lines. cbn [Z.eqb Pos.eqb AF_INET AF_INET6]. rewrite Hd. done. }
  pose proof (read_lines_refine stack _ parent_init init_run_ok Hs (accepted_ok _ _ Ha)) as H. rewrite Er in H.
  destruct H as (p' & H1 & H2 & _). exists l, p'. rewrite Ew.
  assert (view (pa_conf p') = view c0) as Hv by (change (view (pa_conf p')) with (vs_view (abs p')); by rewrite H2).
  split_and!; [exact E|exact H1|exact Hd|by rewrite Hv..].
Qed.
Lemma default_holdtime_lost_witness :
  exists l p', ldp_config_write (conf_with 30 15) = Ok l /\
    read_config stack_0 (l ++ ldp_l2vpn_config_write (conf_with 30 15)) parent_init = Ok (tt, p') /\
    av_lholdtime (cv_ipv4 (view (conf_with 30 15))) = 15 /\ av_lholdtime (cv_ipv4 (view (pa_conf p'))) = 0 /\
    cv_lholdtime (view (pa_conf p')) = 30.
Proof.
  destruct (default_holdtime_lost stack_0 (conf_with 30 15) eq_refl stack_0_ok (conf_with_wf 30 0)
    (conf_with_canon 30 0 eq_refl ltac:(by left))) as (l & p' & H1 & H2 & H3 & H4 & H5).
  exists l, p'. split; [exact H1|]. split; [exact H2|]. split; [exact H3|]. split; [exact H4|exact H5].
Defined.

(** [no discovery hello interval] of the LDP node takes the default hold time, 15
    seconds, in place of the default interval, 5: hellos are then sent as rarely
    as neighbours forget them. *)
Theorem no_interval_sets_holdtime (stack : ldpd_addr) (secs : Z) (p : parent)
  (Hc : conf_run_ok (pa_conf p)) (Hs : addr_ok stack) (Hnode : pa_node p = LDP_NODE) (Hw : norm_ok (view (pa_conf p)))
  (Hsecs : in_range MIN_HELLO_INTERVAL MAX_HELLO_INTERVAL (Some secs) = Some secs) :
  exists p', read_line stack (CmdInterval true HELLO_LINK (Some secs)) p = Ok (Some CMD_SUCCESS, p') /\
    cv_linterval (view (pa_conf p')) = LINK_DFLT_HOLDTIME /\ cv_lholdtime (view (pa_conf p')) = cv_lholdtime (view (pa_conf p)).
Proof.
  set (w := cv_set_hello false HELLO_LINK LINK_DFLT_HOLDTIME (view (pa_conf p))).
  assert (spec_line (CmdInterval true HELLO_LINK (Some secs)) (abs p) = Ok (Some CMD_SUCCESS, set_vs_view w (abs p))) as E.
  { unfold spec_line. rewrite (bind_ok get _ _ _ _ eq_refl). change (vs_node (abs p)) with (pa_node p). rewrite Hnode.
    assert (node_for 3 (CmdInterval true HELLO_LINK (Some secs)) LDP_NODE = Some LDP_NODE) as ->.
    { unfold node_for. assert (matches (CmdInterval true HELLO_LINK (Some secs)) = true) as -> by (by apply (hello_cmd_matches false HELLO_LINK)). done. }
    assert (set_vs_node LDP_NODE (abs p) = abs p) as En by (unfold abs, set_vs_node; cbn; by rewrite Hnode).
    rewrite (bind_ok (modify _) _ _ tt (abs p)) by (unfold modify; by rewrite En). cbn [spec_cmd]. rewrite Hsecs. unfold spec_hello, bind at 1.
    rewrite (bind_ok get _ _ _ _ eq_refl). change (vs_node (abs p)) with (pa_node p). rewrite Hnode. unfold on_global.
    rewrite (bind_ok get _ _ _ _ eq_refl). change (cv_set_hello false HELLO_LINK _ (vs_view (abs p))) with w.
    rewrite commit_norm by (by apply norm_set_hello). done. }
  pose proof (read_line_refines stack (CmdInterval true HELLO_LINK (Some secs)) p Hc Hs) as H. rewrite E in H.
  destruct H as (p' & H1 & H2 & _); [unfold line_ok; by case_match|]. exists p'. split; [done|].
  change (view (pa_conf p')) with (vs_view (abs p')). by rewrite H2.
Qed.
