(* ===== verification/LdeConf.v ===== *)
(** * Configuration of the label decision engine (ldpd.c, lde.c, l2vpn.c)

    The lde receives the configurations the parent sends and merges them into its
    own ([merge_config] with [ldpd_process] [PROC_LDE_ENGINE]).  Only pseudowires
    and the explicit-null flags mean work here: a pseudowire that becomes active
    enters the LIB as a route to the other end, one that goes leaves it.

    The L2VPNs are those of the state of [Lde] ([l_vpns]): their lists hold the
    pointers that [fn->data] of a LIB node is one of.  State [lde_proc]: the engine
    and the rest of the configuration. *)
From stdpp Require Import prelude strings list.
From Stdlib Require Import ZArith Lia.
From S2P Require Import Prelude Util Wire Ipc Session Fec Lde LdeLib Hello Discovery Config Engine Parent.

(** ** Pseudowires (l2vpn.c) *)
(** A copy of what the parent sent, of an L2VPN of that type and MTU. *)
Definition pw_of_conf (pw_type mtu : Z) (xp : pw_conf) : l2vpn_pw :=
  L2vpnPw (pwc_lsr_id xp) (pwc_af xp) (pwc_addr xp) (pwc_pwid xp) (pwc_ifindex xp) pw_type mtu 0 0 0 (pwc_flags xp)
    (pwc_ifname xp).
Definition pw_alloc (pw : l2vpn_pw) : ST lde nat := fun s =>
  Ok (length (l_pws s), set_l_pws s (l_pws s ++ [Some pw])).
Definition pw_free (i : nat) : ST lde unit :=
  deref_pw i ;;; modify (fun s => set_l_pws s (<[i := None]> (l_pws s))).

(** [(union ldpd_addr * )&pw->lsr_id]: the union reaches into [af] and [addr],
    the members behind [lsr_id]. *)
Definition pw_nexthop (pw : l2vpn_pw) : ldpd_addr :=
  le_bytes 4 (pw_lsr_id pw) ++ le_bytes 4 (pw_af pw) ++ take 8 (pw_addr pw).

Definition l2vpn_pw_init (i : nat) : ST lde unit :=
  l2vpn_pw_reset i ;;;
  do pw <- deref_pw i;
  lde_kernel_insert (l2vpn_pw_fec pw) AF_INET (pw_nexthop pw) 0 (Some i).
Definition l2vpn_pw_exit (i : nat) : ST lde unit :=
  do pw <- deref_pw i;
  lde_kernel_remove (l2vpn_pw_fec pw) AF_INET (pw_nexthop pw) 0.
Definition l2vpn_init (v : lvpn) : ST lde unit := foreach l2vpn_pw_init (vp_pws v).
Definition l2vpn_exit (v : lvpn) : ST lde unit := foreach l2vpn_pw_exit (vp_pws v).
Definition l2vpn_del (v : lvpn) : ST lde unit := foreach pw_free (vp_pws v) ;;; foreach pw_free (vp_inact v).

(** ** The L2VPN being merged *)
Definition vpn_find (l : list lvpn) (name : string) : option lvpn := List.find (fun v => String.eqb (vp_name v) name) l.
Definition the_vpn (name : string) : ST lde lvpn := fun s =>
  match vpn_find (l_vpns s) name with Some v => Ok (v, s) | None => Undef "L2VPN is gone" end.
(** Assignments to the L2VPN of that name. *)
Definition vpn_update (name : string) (f : lvpn -> lvpn) (l : list lvpn) : list lvpn :=
  map (fun v => if String.eqb (vp_name v) name then f v else v) l.
Definition mod_vpn (name : string) (f : lvpn -> lvpn) : ST lde unit :=
  modify (fun s => set_l_vpns s (vpn_update name f (l_vpns s))).
Definition set_vp_lists (act inact : list nat) (v : lvpn) : lvpn :=
  Lvpn (vp_name v) (vp_type v) (vp_pw_type v) (vp_mtu v) (vp_br_ifname v) (vp_br_ifindex v) (vp_ifs v) act inact.
Definition set_vp_params (pw_type mtu : Z) (v : lvpn) : lvpn :=
  Lvpn (vp_name v) (vp_type v) pw_type mtu (vp_br_ifname v) (vp_br_ifindex v) (vp_ifs v) (vp_pws v) (vp_inact v).
Definition set_vp_bridge (ifname : string) (ifindex : Z) (v : lvpn) : lvpn :=
  Lvpn (vp_name v) (vp_type v) (vp_pw_type v) (vp_mtu v) ifname ifindex (vp_ifs v) (vp_pws v) (vp_inact v).
Definition set_vp_ifs (l : list l2vpn_if) (v : lvpn) : lvpn :=
  Lvpn (vp_name v) (vp_type v) (vp_pw_type v) (vp_mtu v) (vp_br_ifname v) (vp_br_ifindex v) l (vp_pws v) (vp_inact v).

(** [LIST_REMOVE] of a pseudowire, and the insertions at the head. *)
Definition ptr_remove (i : nat) (l : list nat) : list nat := List.filter (fun j => negb (j =? i)%nat) l.
Definition drop_pw (i : nat) (v : lvpn) : lvpn := set_vp_lists (ptr_remove i (vp_pws v)) (ptr_remove i (vp_inact v)) v.
Definition add_active (i : nat) (v : lvpn) : lvpn := set_vp_lists (i :: vp_pws v) (vp_inact v) v.
Definition add_inactive (i : nat) (v : lvpn) : lvpn := set_vp_lists (vp_pws v) (i :: vp_inact v) v.

(** [l2vpn->pw_type = ...] and [l2vpn->mtu = ...]; the pseudowires, also those in
    [pw_aux_list], see the new values. *)
Definition set_pw_params (pw_type mtu : Z) (pw : l2vpn_pw) : l2vpn_pw :=
  L2vpnPw (pw_lsr_id pw) (pw_af pw) (pw_addr pw) (pw_id pw) (pw_ifindex pw) pw_type mtu (pw_remote_group pw)
    (pw_remote_mtu pw) (pw_remote_status pw) (pw_flags pw) (pw_ifname pw).
Definition vpn_params (name : string) (aux : list nat) (pw_type mtu : Z) : ST lde unit :=
  do v <- the_vpn name;
  mod_vpn name (set_vp_params pw_type mtu) ;;;
  modify (fun s => set_l_pws s
    (imap (fun i o => if bool_decide (i ∈ vp_pws v ++ vp_inact v ++ aux) then set_pw_params pw_type mtu <$> o else o)
       (l_pws s))).

(** [l2vpn_pw_find_name]. *)
Fixpoint ptr_named (name : string) (l : list nat) : ST lde (option nat) :=
  match l with
  | [] => ret None
  | i :: l' => do pw <- deref_pw i; if String.eqb (pw_ifname pw) name then ret (Some i) else ptr_named name l'
  end.
Definition lde_pw_find_name (v : lvpn) (name : string) : ST lde (option nat) :=
  do r <- ptr_named name (vp_pws v);
  match r with Some i => ret (Some i) | None => ptr_named name (vp_inact v) end.

(** ** [merge_l2vpn] in the lde *)
Definition pw_gone (name : string) (xl : l2vpn) (i : nat) : ST lde unit :=
  do pw <- deref_pw i;
  match l2vpn_pw_find_name (lv_pw_list xl) (lv_pw_inactive_list xl) (pw_ifname pw) with
  | None => l2vpn_pw_exit i ;;; mod_vpn name (drop_pw i) ;;; pw_free i
  | Some _ => ret tt
  end.

(** The new parameters and three of the flags. *)
Definition pw_take_over (xp : pw_conf) (pw : l2vpn_pw) : l2vpn_pw :=
  L2vpnPw (pwc_lsr_id xp) (pwc_af xp) (pwc_addr xp) (pwc_pwid xp) (pwc_ifindex xp) (pw_l2vpn_type pw)
    (pw_l2vpn_mtu pw) (pw_remote_group pw) (pw_remote_mtu pw) (pw_remote_status pw)
    (copy_flag F_PW_STATIC_NBR_ADDR (pwc_flags xp)
      (copy_flag F_PW_STATUSTLV_CONF (pwc_flags xp)
        (copy_flag F_PW_CWORD_CONF (pwc_flags xp) (pw_flags pw))))
    (pwc_ifname xp).

(** What a change of a pseudowire asks for: a session restart ([reset_nbr]), else
    that its FEC is installed anew ([reinstall_pwfec]). *)
Definition reset_nbr (pw : l2vpn_pw) (xp : pw_conf) : bool :=
  let mask := Z.lor F_PW_STATUSTLV_CONF F_PW_CWORD_CONF in
  negb (Z.land (pw_flags pw) mask =? Z.land (pwc_flags xp) mask).
Definition reinstall_pwfec (v : lvpn) (xl : l2vpn) (pw : l2vpn_pw) (xp : pw_conf) (moved : bool) : bool :=
  negb (vp_pw_type v =? lv_pw_type xl) || negb (vp_mtu v =? lv_mtu xl) || negb (pw_id pw =? pwc_pwid xp)
  || moved || reset_nbr pw xp || negb (pw_lsr_id pw =? pwc_lsr_id xp).

(** One pseudowire of [xl->pw_list]; the result is [pw_aux_list]. *)
Definition merge_pw_lde (name : string) (xl : l2vpn) (xp : pw_conf) (aux : list nat) : ST lde (list nat) :=
  do v <- the_vpn name;
  do r <- lde_pw_find_name v (pwc_ifname xp);
  match r with
  | None =>
      do i <- pw_alloc (pw_of_conf (vp_pw_type v) (vp_mtu v) xp);
      mod_vpn name (add_active i) ;;;
      l2vpn_pw_init i ;;;
      ret aux
  | Some i =>
      do pw <- deref_pw i;
      do moved <- (if negb (pw_af pw =? pwc_af xp) then ret true
                   else do r <- lift (ldp_addrcmp (pw_af pw) (pw_addr pw) (pwc_addr xp)); ret (negb (r =? 0)));
      if pw_disabled xp then
        l2vpn_pw_exit i ;;;
        mod_vpn name (drop_pw i) ;;;
        upd_pw i (pw_take_over xp) ;;;
        ret (i :: aux)
      else if negb (reset_nbr pw xp) && reinstall_pwfec v xl pw xp moved then
        l2vpn_pw_exit i ;;;
        upd_pw i (pw_take_over xp) ;;;
        vpn_params name aux (lv_pw_type xl) (lv_mtu xl) ;;;
        l2vpn_pw_init i ;;;
        vpn_params name aux (vp_pw_type v) (vp_mtu v) ;;;
        ret aux
      else upd_pw i (pw_take_over xp) ;;; ret aux
  end.

(** By the time the inactive ones are merged [xl->pw_list] is empty. *)
Definition ipw_gone (name : string) (xl : l2vpn) (i : nat) : ST lde unit :=
  do pw <- deref_pw i;
  match pw_in (pw_ifname pw) (lv_pw_inactive_list xl) with
  | None => mod_vpn name (drop_pw i) ;;; pw_free i
  | Some _ => ret tt
  end.

Definition pw_assign (xp : pw_conf) (pw : l2vpn_pw) : l2vpn_pw :=
  L2vpnPw (pwc_lsr_id xp) (pwc_af xp) (pwc_addr xp) (pwc_pwid xp) (pwc_ifindex xp) (pw_l2vpn_type pw)
    (pw_l2vpn_mtu pw) (pw_remote_group pw) (pw_remote_mtu pw) (pw_remote_status pw) (pwc_flags xp) (pwc_ifname xp).
Definition merge_ipw_lde (name : string) (xp : pw_conf) : ST lde unit :=
  do v <- the_vpn name;
  do r <- lde_pw_find_name v (pwc_ifname xp);
  match r with
  | None =>
      do i <- pw_alloc (pw_of_conf (vp_pw_type v) (vp_mtu v) xp);
      mod_vpn name (add_inactive i)
  | Some i =>
      upd_pw i (pw_assign xp) ;;;
      if pw_disabled xp then ret tt
      else mod_vpn name (fun v => add_active i (drop_pw i v)) ;;; l2vpn_pw_init i
  end.

Definition merge_l2vpn_lde (name : string) (xl : l2vpn) : ST lde unit :=
  mod_vpn name (fun v => set_vp_ifs (merge_l2vpn_ifs (vp_ifs v) (lv_if_list xl)) v) ;;;
  do v <- the_vpn name;
  foreach (pw_gone name xl) (vp_pws v) ;;;
  do aux <- floop (merge_pw_lde name xl) (lv_pw_list xl) [];
  do v <- the_vpn name;
  foreach (ipw_gone name xl) (vp_inact v) ;;;
  foreach (merge_ipw_lde name) (lv_pw_inactive_list xl) ;;;
  mod_vpn name (fun v => set_vp_lists (vp_pws v) (rev aux ++ vp_inact v) v) ;;;
  vpn_params name [] (lv_pw_type xl) (lv_mtu xl) ;;;
  mod_vpn name (set_vp_bridge (lv_br_ifname xl) (lv_br_ifindex xl)).

(** ** [merge_l2vpns] *)
Definition vpn_gone (xls : list l2vpn) (v : lvpn) : ST lde unit :=
  match l2vpn_find xls (vp_name v) with
  | Some _ => ret tt
  | None =>
      modify (fun s => set_l_vpns s (List.filter (fun w => negb (String.eqb (vp_name w) (vp_name v))) (l_vpns s))) ;;;
      l2vpn_exit v ;;;
      l2vpn_del v
  end.

(** The L2VPN the lists of the received one make. *)
Fixpoint alloc_pws (pw_type mtu : Z) (l : list pw_conf) : ST lde (list nat) :=
  match l with
  | [] => ret []
  | xp :: l' => do i <- pw_alloc (pw_of_conf pw_type mtu xp); do r <- alloc_pws pw_type mtu l'; ret (i :: r)
  end.
Definition lvpn_of (xl : l2vpn) : ST lde lvpn :=
  do act <- alloc_pws (lv_pw_type xl) (lv_mtu xl) (lv_pw_list xl);
  do inact <- alloc_pws (lv_pw_type xl) (lv_mtu xl) (lv_pw_inactive_list xl);
  ret (Lvpn (lv_name xl) (lv_type xl) (lv_pw_type xl) (lv_mtu xl) (lv_br_ifname xl) (lv_br_ifindex xl) (lv_if_list xl)
         act inact).

Definition vpn_merge (xl : l2vpn) : ST lde unit :=
  do s <- get;
  match vpn_find (l_vpns s) (lv_name xl) with
  | None =>
      do v <- lvpn_of xl;
      modify (fun s => set_l_vpns s (v :: l_vpns s)) ;;;
      l2vpn_init v
  | Some _ => merge_l2vpn_lde (lv_name xl) xl
  end.
Definition merge_l2vpns_lde (xls : list l2vpn) : ST lde unit :=
  do s <- get;
  foreach (vpn_gone xls) (l_vpns s) ;;;
  foreach vpn_merge xls.

(** ** [merge_config] in the lde *)
Record lde_proc := LdeProc {
  lp_lde : lde;
  lp_conf : ldpd_conf;          (* ldeconf, its l2vpn_list left out *)
  lp_nconf : option ldpd_conf   (* static nconf *)
}.
Definition set_lp_conf (c : ldpd_conf) (p : lde_proc) : lde_proc := LdeProc (lp_lde p) c (lp_nconf p).
Definition set_lp_nconf (n : option ldpd_conf) (p : lde_proc) : lde_proc := LdeProc (lp_lde p) (lp_conf p) n.
(** Code that works on the engine. *)
Definition in_lde {A} (m : ST lde A) : ST lde_proc A := fun p =>
  let* r := m (lp_lde p) in Ok (fst r, LdeProc (snd r) (lp_conf p) (lp_nconf p)).

(** The flags are assigned before [egress_label] looks at them. *)
Definition has_expnull (a : xaf) : bool := has_flag (af_flags (xa_conf a)) F_LDPD_AF_EXPNULL.
Definition merge_af_lde (af : Z) (a x : xaf) : ST lde xaf :=
  modify (fun s => if af =? AF_INET then set_l_expnull s (has_expnull x) (l_expnull6 s)
                   else set_l_expnull s (l_expnull4 s) (has_expnull x)) ;;;
  (if negb (eqb (has_expnull a) (has_expnull x)) then lde_change_egress_label af (has_expnull x) else ret tt) ;;;
  do r <- lift (merge_af_main af a x);
  ret (fst r).

(** Interfaces, targeted neighbours and neighbour parameters are only kept. *)
Definition merge_config_lde (x : ldpd_conf) : ST lde_proc unit :=
  do p <- get;
  let c := merge_global_main (lp_conf p) x in
  do a4 <- in_lde (merge_af_lde AF_INET (xc_ipv4 c) (xc_ipv4 x));
  do a6 <- in_lde (merge_af_lde AF_INET6 (xc_ipv6 c) (xc_ipv6 x));
  modify (set_lp_conf (set_xc_af AF_INET a4 (set_xc_af AF_INET6 a6
    (set_xc_lists (fst (merge_ifaces_main (xc_iface_list c) (xc_iface_list x)))
       (merge_tnbrs_main (xc_tnbr_list c) (xc_tnbr_list x)) (merge_nbrps_main (xc_nbrp_list c) (xc_nbrp_list x)) [] c)))) ;;;
  in_lde (merge_l2vpns_lde (xc_l2vpn_list x)).

(** ** [IMSG_RECONF_*] of the parent (lde_dispatch_parent) *)
Definition mod_nconf_lde (f : ldpd_conf -> ldpd_conf) : ST lde_proc unit :=
  do p <- get;
  match lp_nconf p with
  | None => undef "no configuration is being received"
  | Some c => modify (set_lp_nconf (Some (f c)))
  end.
(** The static [nl2vpn] is the L2VPN received last. *)
Definition mod_nl2vpn_lde (f : l2vpn -> l2vpn) : ST lde_proc unit :=
  do p <- get;
  match lp_nconf p with
  | None => undef "no configuration is being received"
  | Some c =>
      match xc_l2vpn_list c with
      | [] => undef "no L2VPN is being received"
      | v :: l => modify (set_lp_nconf (Some (set_xc_lists (xc_iface_list c) (xc_tnbr_list c) (xc_nbrp_list c) (f v :: l) c)))
      end
  end.
Definition lde_reconf_imsg (m : main_imsg) : ST lde_proc unit :=
  match m with
  | ImReconfConf c => modify (set_lp_nconf (Some (set_xc_lists [] [] [] [] c)))
  | ImReconfIface i => mod_nconf_lde (add_xc_iface (fresh_iface i))
  | ImReconfTnbr t => mod_nconf_lde (add_xc_tnbr t)
  | ImReconfNbrp n => mod_nconf_lde (add_xc_nbrp n)
  | ImReconfL2vpn v => mod_nconf_lde (add_xc_l2vpn (fresh_l2vpn v))
  | ImReconfL2vpnIf f => mod_nl2vpn_lde (add_l2vpn_if f)
  | ImReconfL2vpnPw p => mod_nl2vpn_lde (add_l2vpn_pw p)
  | ImReconfL2vpnIpw p => mod_nl2vpn_lde (add_l2vpn_ipw p)
  | ImReconfEnd =>
      do p <- get;
      match lp_nconf p with
      | None => undef "no configuration is being received"
      | Some x => merge_config_lde x ;;; modify (set_lp_nconf None)
      end
  | _ => ret tt     (* unexpected, logged *)
  end.
