(* ===== verification/LdeConfInv.v ===== *)
(** * Configuration of the lde: the invariant

    [pws_ok]: pointers of the L2VPNs are live and in one list, a pseudowire has the
    type and MTU of its L2VPN, and a FEC of the LIB that has an owner has an active
    pseudowire as its owner, whose FEC it is.  So no node of the LIB points to a
    pseudowire that is gone.  While an L2VPN is being merged a weaker form holds
    ([conf_inv]), in which a pseudowire may own a FEC that is not yet, or no longer,
    its own. *)
From stdpp Require Import prelude strings list sorting.
From Stdlib Require Import ZArith Lia.
From S2P Require Import Prelude Util Wire Ipc Session Fec Lde LdeLib LdeSafe LdeInv LdeFrame LdePw Hello Discovery Config Engine Parent LdeConf.

(** The pseudowire at an address, without what was negotiated. *)
Definition id_at (s : lde) (i : nat) : option l2vpn_pw := pw_ident <$> pw_at s i.
Definition vp_ptrs (v : lvpn) : list nat := vp_pws v ++ vp_inact v.
Definition pw_good (v : lvpn) (pw : l2vpn_pw) : Prop :=
  pw_l2vpn_type pw = vp_pw_type v /\ pw_l2vpn_mtu pw = vp_mtu v /\ fec_ok (l2vpn_pw_fec pw).

(** [aux]: pseudowires of an L2VPN that are in none of its lists; [expect]: the FEC
    a pseudowire may own. *)
Record conf_inv (aux : string -> list nat) (expect : lvpn -> l2vpn_pw -> fec -> Prop) (s : lde) : Prop := {
  ci_lib : lib_ok s;
  ci_shaped : shaped s;
  ci_names : NoDup (map vp_name (l_vpns s));
  ci_type v : v ∈ l_vpns s -> is_u 16 (vp_pw_type v);
  ci_ptrs v : v ∈ l_vpns s -> NoDup (vp_ptrs v ++ aux (vp_name v));
  ci_disj v w i : v ∈ l_vpns s -> w ∈ l_vpns s -> i ∈ vp_ptrs v ++ aux (vp_name v) -> i ∈ vp_ptrs w ++ aux (vp_name w) ->
    vp_name v = vp_name w;
  ci_pw v i : v ∈ l_vpns s -> i ∈ vp_ptrs v ++ aux (vp_name v) -> exists pw, id_at s i = Some pw /\ pw_good v pw;
  ci_uniq v i j pi pj : v ∈ l_vpns s -> i ∈ vp_ptrs v ++ aux (vp_name v) -> j ∈ vp_ptrs v ++ aux (vp_name v) ->
    id_at s i = Some pi -> id_at s j = Some pj -> pw_ifname pi = pw_ifname pj -> i = j;
  ci_owned f i : owns s f i -> exists v pw, v ∈ l_vpns s /\ i ∈ vp_pws v /\ id_at s i = Some pw /\ expect v pw f
}.
Definition own_fec (v : lvpn) (pw : l2vpn_pw) (f : fec) : Prop := f = l2vpn_pw_fec pw.
Definition no_aux (name : string) : list nat := [].
Definition pws_ok : lde -> Prop := conf_inv no_aux own_fec.

Section Basics.
Lemma id_at_ids s s' i : pw_ids s' = pw_ids s -> id_at s' i = id_at s i.
Proof.
  unfold pw_ids, id_at, pw_at. intros [= E _]. apply (f_equal (fun l => l !! i)) in E. rewrite !list_lookup_fmap in E.
  destruct (l_pws s' !! i) as [o'|], (l_pws s !! i) as [o|]; cbn in *; by simplify_eq.
Qed.
Lemma vpns_ids s s' : pw_ids s' = pw_ids s -> l_vpns s' = l_vpns s.
Proof. by intros [= _ E]. Qed.
Lemma id_at_live s i pw : id_at s i = Some pw -> exists q, pw_at s i = Some q /\ pw = pw_ident q.
Proof. unfold id_at. intros (q & E & ->)%fmap_Some. by exists q. Qed.
Lemma at_id_at s i q : pw_at s i = Some q -> id_at s i = Some (pw_ident q).
Proof. unfold id_at. by intros ->. Qed.

(** What a run that touches neither list nor pseudowire keeps. *)
Lemma conf_inv_step aux e e' s s' : conf_inv aux e s -> pw_ids s' = pw_ids s -> lib_ok s' -> shaped s' ->
  (forall f i, owns s' f i -> exists v pw, v ∈ l_vpns s /\ i ∈ vp_pws v /\ id_at s i = Some pw /\ e' v pw f) ->
  conf_inv aux e' s'.
Proof.
  intros [H1 H2 H3 HT H4 H5 H6 H7 _] E Hl Hs Ho. pose proof (vpns_ids _ _ E) as Ev.
  split; rewrite ?Ev; try done.
  - intros v i Hv Hi. rewrite (id_at_ids _ _ _ E). by apply H6.
  - intros v i j pi pj Hv Hi Hj. rewrite !(id_at_ids _ _ _ E). by apply (H7 v i j pi pj).
  - intros f i Hf. destruct (Ho f i Hf) as (v & pw & ?). exists v, pw. by rewrite (id_at_ids _ _ _ E).
Qed.

Lemma in_active v i l : v ∈ l -> i ∈ vp_pws v -> i ∈ active_pws l.
Proof. intros Hv Hi. unfold active_pws. apply list_elem_of_In, in_concat. exists (vp_pws v). split; [|by apply list_elem_of_In]. apply in_map, list_elem_of_In, Hv. Qed.
Lemma active_in i l : i ∈ active_pws l -> exists v, v ∈ l /\ i ∈ vp_pws v.
Proof.
  unfold active_pws. intros H. apply list_elem_of_In, in_concat in H as (l' & Hl & Hi). apply in_map_iff in Hl as (v & <- & Hv).
  exists v. by rewrite !list_elem_of_In.
Qed.

(** The FEC and the address of a pseudowire. *)
Lemma nexthop_v4 pw : fec_ok (l2vpn_pw_fec pw) -> v4 (pw_nexthop pw) = pw_lsr_id pw.
Proof.
  intros (_ & _ & H). unfold v4, pw_nexthop. rewrite take_app_length' by (by rewrite length_le_bytes). rewrite le_val_bytes. by apply Z.mod_small.
Qed.

(** [l2vpn_pw_exit] and [l2vpn_pw_init]. *)
Lemma exit_owned s i pw : lib_ok s -> shaped s -> id_at s i = Some pw -> fec_ok (l2vpn_pw_fec pw) ->
  exists s', l2vpn_pw_exit i s = Ok (tt, s') /\ lib_ok s' /\ pw_ids s' = pw_ids s /\ shaped s' /\
    forall f j, owns s' f j <-> f <> l2vpn_pw_fec pw /\ owns s f j.
Proof.
  intros H Hs Hi Hf. destruct (id_at_live _ _ _ Hi) as (q & Eq & ->). change (l2vpn_pw_fec (pw_ident q)) with (l2vpn_pw_fec q) in *.
  destruct (remove_owned _ _ _ (pw_nexthop q) Hf (nexthop_v4 q Hf) s H Hs) as (s' & E & [Hl _] & Hids & Hsh & Ho).
  exists s'. split_and!; try done. unfold l2vpn_pw_exit, bind, deref_pw. by rewrite Eq.
Qed.
Lemma init_owned s i pw : lib_ok s -> shaped s -> id_at s i = Some pw -> fec_ok (l2vpn_pw_fec pw) ->
  exists s', l2vpn_pw_init i s = Ok (tt, s') /\ lib_ok s' /\ pw_ids s' = pw_ids s /\ shaped s' /\
    forall f j, owns s' f j <-> owns s f j \/ (f = l2vpn_pw_fec pw /\ j = i /\ forall j', ~ owns s (l2vpn_pw_fec pw) j').
Proof.
  intros H Hs Hi Hf. destruct (id_at_live _ _ _ Hi) as (q & Eq & ->). change (l2vpn_pw_fec (pw_ident q)) with (l2vpn_pw_fec q) in *.
  destruct (lwp_ok _ _ _ (keeps_pw_reset i s H (ex_intro _ q Eq))) as ([] & s1 & E1 & [H1 X1]).
  pose proof (kept_pw_reset pw_ids _ _ _ _ E1) as I1. pose proof (kept_pw_reset pw_routes _ _ _ _ E1) as R1.
  destruct (same_routes s s1 R1 Hs) as [Hs1 O1].
  assert (exists q1, pw_at s1 i = Some q1 /\ l2vpn_pw_fec q1 = l2vpn_pw_fec q) as (q1 & Eq1 & Ef1).
  { pose proof (id_at_ids _ _ i I1) as E. rewrite (at_id_at _ _ _ Eq) in E. destruct (id_at_live _ _ _ E) as (q1 & E2 & E3).
    exists q1. split; [done|]. change (l2vpn_pw_fec q1) with (l2vpn_pw_fec (pw_ident q1)). by rewrite <- E3. }
  assert (fec_ok (l2vpn_pw_fec q1)) as Hf1 by (by rewrite Ef1).
  destruct (insert_owned _ _ _ (pw_nexthop q1) Hf1 (nexthop_v4 q1 Hf1) s1 i H1 Hs1 (ex_intro _ q1 Eq1)) as (s' & E & [Hl _] & Hids & Hsh & Ho).
  exists s'. split_and!; try done; [|by rewrite Hids|].
  - unfold l2vpn_pw_init. rewrite (bind_ok _ _ _ _ _ E1). unfold bind at 1, deref_pw. by rewrite Eq1.
  - intros f j. rewrite Ho, O1. change (FecPwid (pw_l2vpn_type q1) (pw_id q1) (pw_lsr_id q1)) with (l2vpn_pw_fec q1).
    rewrite Ef1. setoid_rewrite O1. done.
Qed.
End Basics.

(** ** Changes of pseudowires and lists *)
Section Changes.
(** Any change of the heap that keeps what is active or owns a FEC alive. *)
Lemma lib_pws_change s v : lib_ok s ->
  (forall f i, owns s f i -> is_Some (pw_at (set_l_pws s v) i)) ->
  (forall i, i ∈ active_pws (l_vpns s) -> is_Some (pw_at (set_l_pws s v) i)) ->
  (forall i pw, pw_at (set_l_pws s v) i = Some pw -> af_ok (pw_af pw)) -> lib_ok (set_l_pws s v).
Proof.
  intros H Ho Ha Hf. split; try apply H; [|done|].
  - pose proof (lib_nodes s H) as Hn. rewrite Forall_forall in Hn |- *. intros n Hin. destruct (Hn n Hin) as [K1 K2 K3 K4 K5].
    split; try done. intros i Hi. apply (Ho (fn_fec n)). by exists n.
  - apply Forall_forall. exact Ha.
Qed.
Lemma lib_set_vpns s l : lib_ok s -> (forall i, i ∈ active_pws l -> is_Some (id_at s i)) -> lib_ok (set_l_vpns s l).
Proof.
  intros H Ha. split; try apply H. apply Forall_forall. intros i Hi. destruct (Ha i Hi) as [pw (q & E & _)%id_at_live]. by exists q.
Qed.

(** The heap behind an assignment, an allocation, [free] and new parameters. *)
Definition heap_put (s : lde) (i : nat) (o : option l2vpn_pw) : lde := set_l_pws s (<[i := o]> (l_pws s)).
Lemma id_at_put s i o j : is_Some (id_at s i) -> id_at (heap_put s i o) j = if decide (i = j) then pw_ident <$> o else id_at s j.
Proof.
  intros [pw (q & E & _)%id_at_live]. unfold id_at, pw_at, heap_put in *. cbn [l_pws set_l_pws].
  destruct (l_pws s !! i) as [o'|] eqn:El; [|done]. case_decide as Ej; subst.
  - by rewrite list_lookup_insert_eq by (by eapply lookup_lt_Some).
  - by rewrite list_lookup_insert_ne.
Qed.
Definition heap_new (s : lde) (pw : l2vpn_pw) : lde := set_l_pws s (l_pws s ++ [Some pw]).
Lemma id_at_fresh s : id_at s (length (l_pws s)) = None.
Proof. unfold id_at, pw_at. by rewrite lookup_ge_None_2. Qed.
Lemma id_at_new s pw j : id_at (heap_new s pw) j = if decide (j = length (l_pws s)) then Some (pw_ident pw) else id_at s j.
Proof.
  unfold id_at, pw_at, heap_new. cbn [l_pws set_l_pws]. case_decide as E; subst.
  - by rewrite lookup_app_r, Nat.sub_diag by done.
  - destruct (decide (j < length (l_pws s))%nat); [by rewrite lookup_app_l|].
    rewrite lookup_ge_None_2 by (rewrite length_app; cbn; lia). by rewrite lookup_ge_None_2 by lia.
Qed.
Definition heap_params (s : lde) (ptrs : list nat) (t m : Z) : lde :=
  set_l_pws s (imap (fun i o => if bool_decide (i ∈ ptrs) then set_pw_params t m <$> o else o) (l_pws s)).
Lemma id_at_params s ptrs t m j :
  id_at (heap_params s ptrs t m) j = if decide (j ∈ ptrs) then set_pw_params t m <$> id_at s j else id_at s j.
Proof.
  unfold id_at, pw_at, heap_params. cbn [l_pws set_l_pws]. rewrite list_lookup_imap.
  destruct (l_pws s !! j) as [o|]; cbn; [|by case_decide]. case_bool_decide; case_decide; try done. by destruct o.
Qed.

(** A pseudowire of the L2VPN in the invariant is live, with an address family. *)
Lemma ci_live aux e s v i : conf_inv aux e s -> v ∈ l_vpns s -> i ∈ vp_ptrs v ++ aux (vp_name v) -> is_Some (id_at s i).
Proof. intros H Hv Hi. destruct (ci_pw _ _ _ H v i Hv Hi) as (pw & E & _). by exists pw. Qed.
Lemma lib_af s i pw : lib_ok s -> id_at s i = Some pw -> af_ok (pw_af pw).
Proof. intros H (q & E & ->)%id_at_live. exact (lib_pws s H i q E). Qed.
Lemma id_live s i : is_Some (id_at s i) <-> is_Some (pw_at s i).
Proof. unfold id_at. by rewrite fmap_is_Some. Qed.

Lemma owns_live s f i : lib_ok s -> owns s f i -> is_Some (pw_at s i).
Proof.
  intros H (n & Hn & _ & Ed). pose proof (lib_nodes s H) as Hno. rewrite Forall_forall in Hno. by apply (node_data _ _ (Hno n Hn)).
Qed.
Lemma active_live s i : lib_ok s -> i ∈ active_pws (l_vpns s) -> is_Some (pw_at s i).
Proof. intros H. pose proof (lib_vpns s H) as Hv. rewrite Forall_forall in Hv. apply Hv. Qed.

(** In terms of [id_at]. *)
Lemma lib_heap s v : lib_ok s ->
  (forall f i, owns s f i -> is_Some (id_at (set_l_pws s v) i)) ->
  (forall i, i ∈ active_pws (l_vpns s) -> is_Some (id_at (set_l_pws s v) i)) ->
  (forall i pw, id_at (set_l_pws s v) i = Some pw -> af_ok (pw_af pw)) -> lib_ok (set_l_pws s v).
Proof.
  intros H Ho Ha Hf. apply lib_pws_change; [done|..].
  - intros f i Hi. apply id_live. by apply (Ho f).
  - intros i Hi. by apply id_live, Ha.
  - intros i q E. apply (Hf i (pw_ident q)). by apply at_id_at.
Qed.
Lemma lib_put s i pw : lib_ok s -> is_Some (id_at s i) -> af_ok (pw_af pw) -> lib_ok (heap_put s i (Some pw)).
Proof.
  intros H Hi Ha. assert (forall j, is_Some (pw_at s j) -> is_Some (id_at (heap_put s i (Some pw)) j)) as Hl.
  { intros j Hj. rewrite id_at_put by done. case_decide; [done|by apply id_live]. }
  apply lib_heap; [done|..].
  - intros f j Hj. apply Hl. by eapply owns_live.
  - intros j Hj. by apply Hl, active_live.
  - intros j q. fold (heap_put s i (Some pw)). rewrite id_at_put by done. case_decide; [by intros [= <-]|by apply lib_af].
Qed.
Lemma lib_new s pw : lib_ok s -> af_ok (pw_af pw) -> lib_ok (heap_new s pw).
Proof.
  intros H Ha. assert (forall j, is_Some (pw_at s j) -> is_Some (id_at (heap_new s pw) j)) as Hl.
  { intros j Hj. rewrite id_at_new. case_decide; [done|by apply id_live]. }
  apply lib_heap; [done|..].
  - intros f j Hj. apply Hl. by eapply owns_live.
  - intros j Hj. by apply Hl, active_live.
  - intros j q. fold (heap_new s pw). rewrite id_at_new. case_decide; [by intros [= <-]|by apply lib_af].
Qed.
Lemma lib_params s ptrs t m : lib_ok s -> lib_ok (heap_params s ptrs t m).
Proof.
  intros H. assert (forall j, is_Some (pw_at s j) -> is_Some (id_at (heap_params s ptrs t m) j)) as Hl.
  { intros j Hj. rewrite id_at_params. apply id_live in Hj. case_decide; [by apply fmap_is_Some|done]. }
  apply lib_heap; [done|..].
  - intros f j Hj. apply Hl. by eapply owns_live.
  - intros j Hj. by apply Hl, active_live.
  - intros j q. fold (heap_params s ptrs t m). rewrite id_at_params. case_decide; [|by apply lib_af].
    intros (p & E & ->)%fmap_Some. exact (lib_af s j p H E).
Qed.
Lemma lib_free s i : lib_ok s -> is_Some (id_at s i) -> (forall f, ~ owns s f i) -> i ∉ active_pws (l_vpns s) -> lib_ok (heap_put s i None).
Proof.
  intros H Hi Ho Ha. apply lib_heap; [done|..].
  - intros f j Hj. fold (heap_put s i None). rewrite id_at_put by done. case_decide as E; [subst; by destruct (Ho f)|].
    apply id_live. by eapply owns_live.
  - intros j Hj. fold (heap_put s i None). rewrite id_at_put by done. case_decide as E; [by subst|].
    by apply id_live, active_live.
  - intros j q. fold (heap_put s i None). rewrite id_at_put by done. case_decide; [done|by apply lib_af].
Qed.
End Changes.

(** ** One L2VPN changes *)
Section OneVpn.
Lemma vpn_find_in l name v : vpn_find l name = Some v -> v ∈ l /\ vp_name v = name.
Proof.
  intros H. apply find_some in H as [Hin E]. split; [by apply list_elem_of_In|by apply String.eqb_eq].
Qed.
Lemma vpn_in_find l v : NoDup (map vp_name l) -> v ∈ l -> vpn_find l (vp_name v) = Some v.
Proof.
  intros Hn Hv. unfold vpn_find. destruct (List.find _ l) as [w|] eqn:E.
  - apply find_some in E as [Hw E%String.eqb_eq]. f_equal. apply list_elem_of_In in Hw.
    apply list_elem_of_lookup in Hw as [a Ea], Hv as [b Eb].
    assert (a = b) as ->; [|congruence]. eapply NoDup_lookup; [exact Hn|rewrite list_lookup_fmap, Ea; done|rewrite list_lookup_fmap, Eb; cbn; by rewrite E].
  - exfalso. pose proof (find_none _ _ E v (proj1 (list_elem_of_In _ _) Hv)) as H. cbn in H. by rewrite String.eqb_refl in H.
Qed.
Lemma same_vpn l v w : NoDup (map vp_name l) -> v ∈ l -> w ∈ l -> vp_name v = vp_name w -> v = w.
Proof. intros Hn Hv Hw E. pose proof (vpn_in_find l v Hn Hv) as H. rewrite E, (vpn_in_find l w Hn Hw) in H. congruence. Qed.

Lemma in_vpn_update nm f l w : w ∈ vpn_update nm f l <-> exists u, u ∈ l /\ (vp_name u = nm /\ w = f u \/ vp_name u <> nm /\ w = u).
Proof.
  unfold vpn_update. rewrite list_elem_of_fmap. split.
  - intros (u & -> & Hu). exists u. split; [done|]. destruct (String.eqb (vp_name u) nm) eqn:E;
      [apply String.eqb_eq in E|apply String.eqb_neq in E]; tauto.
  - intros (u & Hu & Hc). exists u. split; [|done]. destruct Hc as [[E ->]|[E ->]];
      [by rewrite (proj2 (String.eqb_eq _ _) E)|by rewrite (proj2 (String.eqb_neq _ _) E)].
Qed.
Lemma update_names nm f l : (forall v, vp_name (f v) = vp_name v) -> map vp_name (vpn_update nm f l) = map vp_name l.
Proof. intros Hf. unfold vpn_update. rewrite map_map. apply map_ext. intros v. by case_match. Qed.
Lemma update_find nm f l v : (forall v, vp_name (f v) = vp_name v) -> vpn_find l nm = Some v -> vpn_find (vpn_update nm f l) nm = Some (f v).
Proof.
  intros Hf. unfold vpn_find, vpn_update. induction l as [|w l IH]; [done|]. cbn. destruct (String.eqb (vp_name w) nm) eqn:E.
  - intros [= ->]. by rewrite Hf, E.
  - by rewrite E.
Qed.
Lemma update_same nm l v f : NoDup (map vp_name l) -> vpn_find l nm = Some v -> f v = v -> vpn_update nm f l = l.
Proof.
  intros Hn Hf E. unfold vpn_update. etransitivity; [apply map_ext_in|apply map_id]. intros w Hw. destruct (String.eqb (vp_name w) nm) eqn:Ew; [|done]. apply String.eqb_eq in Ew. apply list_elem_of_In in Hw.
  pose proof (vpn_in_find l w Hn Hw) as H. rewrite Ew, Hf in H. by injection H as <-.
Qed.
Lemma update_update nm f g l : (forall v, vp_name (f v) = vp_name v) -> vpn_update nm g (vpn_update nm f l) = vpn_update nm (fun v => g (f v)) l.
Proof. intros Hf. unfold vpn_update. rewrite map_map. apply map_ext. intros v. destruct (String.eqb (vp_name v) nm) eqn:E; [by rewrite Hf, E|by rewrite E]. Qed.

Lemma conf_inv_at nm f aux aux' e e' s s' v :
  conf_inv aux e s -> vpn_find (l_vpns s) nm = Some v -> (forall v, vp_name (f v) = vp_name v) ->
  l_vpns s' = vpn_update nm f (l_vpns s) -> (forall n, n <> nm -> aux' n = aux n) -> is_u 16 (vp_pw_type (f v)) -> lib_ok s' -> shaped s' ->
  NoDup (vp_ptrs (f v) ++ aux' nm) ->
  (forall i, i ∈ vp_ptrs (f v) ++ aux' nm -> i ∈ vp_ptrs v ++ aux nm \/ id_at s i = None) ->
  (forall i, i ∈ vp_ptrs (f v) ++ aux' nm -> exists pw, id_at s' i = Some pw /\ pw_good (f v) pw) ->
  (forall i j pi pj, i ∈ vp_ptrs (f v) ++ aux' nm -> j ∈ vp_ptrs (f v) ++ aux' nm ->
     id_at s' i = Some pi -> id_at s' j = Some pj -> pw_ifname pi = pw_ifname pj -> i = j) ->
  (forall i, i ∉ vp_ptrs v ++ aux nm -> is_Some (id_at s i) -> id_at s' i = id_at s i) ->
  (forall g i, owns s' g i ->
     (exists pw, i ∈ vp_pws (f v) /\ id_at s' i = Some pw /\ e' (f v) pw g) \/
     (exists w pw, w ∈ l_vpns s /\ vp_name w <> nm /\ i ∈ vp_pws w /\ id_at s i = Some pw /\ e' w pw g)) ->
  conf_inv aux' e' s'.
Proof.
  intros H Hv Hf Ev Ha Hty Hl Hs Hnd Hold Hpw Hun Hother Ho. destruct (vpn_find_in _ _ _ Hv) as [Hin Hnm].
  assert (forall w, w ∈ l_vpns s' <-> w = f v \/ (w ∈ l_vpns s /\ vp_name w <> nm)) as Hw.
  { intros w. rewrite Ev, in_vpn_update. split.
    - intros (u & Hu & [[E ->]|[E ->]]); [left|by right]. f_equal. apply (same_vpn (l_vpns s)); [apply H|done..|by rewrite E].
    - intros [-> |[Hin' Hne]]; [exists v|exists w]; tauto. }
  assert (forall w i, w ∈ l_vpns s -> vp_name w <> nm -> i ∈ vp_ptrs w ++ aux (vp_name w) -> i ∉ vp_ptrs v ++ aux nm /\ is_Some (id_at s i) /\ id_at s' i = id_at s i) as Hoth.
  { intros w i Hin' Hne Hi. assert (i ∉ vp_ptrs v ++ aux nm) as Hni.
    { intros Hc. apply Hne. rewrite <- Hnm. apply (ci_disj _ _ _ H w v i Hin' Hin Hi). by rewrite Hnm. }
    assert (is_Some (id_at s i)) as Hl' by (by eapply ci_live). split_and!; [done..|]. by apply Hother. }
  split; [done|done|..].
  - rewrite Ev, update_names by done. apply H.
  - intros w [-> |[Hin' _]]%Hw; [done|by apply H].
  - intros w [-> |[Hin' Hne]]%Hw; [by rewrite Hf, Hnm|]. rewrite Ha by done. by apply H.
  - assert (forall w i, w ∈ l_vpns s -> vp_name w <> nm -> i ∈ vp_ptrs (f v) ++ aux' nm -> i ∈ vp_ptrs w ++ aux' (vp_name w) -> False) as Hx.
    { intros w i Hin' Hne Hi Hi'. rewrite Ha in Hi' by done. destruct (Hoth w i Hin' Hne Hi') as (Hni & [? Hsome] & _).
      destruct (Hold i Hi); [done|congruence]. }
    intros w u i [-> |[Hwi Hwn]]%Hw [-> |[Hui Hun']]%Hw; [done|..]; rewrite ?Hf, ?Hnm; intros Hi Hj.
    + by destruct (Hx u i).
    + by destruct (Hx w i).
    + rewrite Ha in Hi, Hj by done. by apply (ci_disj _ _ _ H w u i).
  - intros w i [-> |[Hwi Hwn]]%Hw; rewrite ?Hf, ?Hnm; [apply Hpw|]. rewrite Ha by done. intros Hi.
    destruct (Hoth w i Hwi Hwn Hi) as (_ & _ & ->). by apply H.
  - intros w i j pi pj [-> |[Hwi Hwn]]%Hw; rewrite ?Hf, ?Hnm; [apply Hun|]. rewrite Ha by done. intros Hi Hj.
    destruct (Hoth w i Hwi Hwn Hi) as (_ & _ & ->), (Hoth w j Hwi Hwn Hj) as (_ & _ & ->). by apply (ci_uniq _ _ _ H w).
  - intros g i Hg. destruct (Ho g i Hg) as [(pw & Hi & E & He)|(w & pw & Hwi & Hwn & Hi & E & He)].
    + exists (f v), pw. split_and!; [by apply Hw; left|done..].
    + exists w, pw. assert (i ∈ vp_ptrs w ++ aux (vp_name w)) as Hi' by (apply elem_of_app; left; apply elem_of_app; by left).
      destruct (Hoth w i Hwi Hwn Hi') as (_ & _ & Ei). split_and!; [apply Hw; by right|done|by rewrite Ei|done].
Qed.
End OneVpn.
