(* ===== verification/LdeConfSteps.v ===== *)
(** * Configuration of the lde: single steps

    What each assignment, list operation and call of the merge does to the
    invariant of [LdeConfInv], and how it runs. *)
From stdpp Require Import prelude strings list sorting.
From Stdlib Require Import ZArith Lia.
From S2P Require Import Prelude Util Wire Ipc Session Fec Lde LdeLib LdeSafe LdeInv LdeFrame LdePw Hello Discovery Config Engine Parent LdeConf LdeConfInv.

(** The FEC a pseudowire would have with another type. *)
Definition fec_as (t : Z) (pw : l2vpn_pw) : fec := FecPwid t (pw_id pw) (pw_lsr_id pw).

(** The L2VPN [nm] is being merged: its pseudowires with names that are not to do
    any more own the FEC of the new type [T]. *)
Definition expect_at (nm : string) (T : Z) (todo : string -> Prop) (v : lvpn) (pw : l2vpn_pw) (f : fec) : Prop :=
  (vp_name v = nm /\ ~ todo (pw_ifname pw) /\ f = fec_as T pw) \/
  ((vp_name v <> nm \/ todo (pw_ifname pw)) /\ f = l2vpn_pw_fec pw).
Definition aux_at (nm : string) (aux : list nat) (n : string) : list nat := if String.eqb n nm then aux else [].

Section Runs.
Lemma aux_at_same nm aux : aux_at nm aux nm = aux.
Proof. unfold aux_at. by rewrite String.eqb_refl. Qed.
Lemma aux_at_other nm aux n : n <> nm -> aux_at nm aux n = [].
Proof. intros H. unfold aux_at. by rewrite (proj2 (String.eqb_neq _ _) H). Qed.

(** How the primitives run. *)
Lemma run_the_vpn s nm v : vpn_find (l_vpns s) nm = Some v -> the_vpn nm s = Ok (v, s).
Proof. unfold the_vpn. by intros ->. Qed.
Lemma run_deref s i pw : id_at s i = Some pw -> exists q, deref_pw i s = Ok (q, s) /\ pw_ident q = pw.
Proof. intros (q & E & ->)%id_at_live. exists q. unfold deref_pw. by rewrite E. Qed.
Lemma run_upd s i pw g : id_at s i = Some pw -> exists q, pw_ident q = pw /\ upd_pw i g s = Ok (tt, heap_put s i (Some (g q))).
Proof. intros (q & E & ->)%id_at_live. exists q. split; [done|]. unfold upd_pw, bind, deref_pw. by rewrite E. Qed.
Lemma run_free s i : is_Some (id_at s i) -> pw_free i s = Ok (tt, heap_put s i None).
Proof. intros [pw (q & E & _)%id_at_live]. unfold pw_free, bind, deref_pw. by rewrite E. Qed.
Lemma run_params s nm v aux t m : vpn_find (l_vpns s) nm = Some v ->
  vpn_params nm aux t m s = Ok (tt, heap_params (set_l_vpns s (vpn_update nm (set_vp_params t m) (l_vpns s)))
                                      (vp_pws v ++ vp_inact v ++ aux) t m).
Proof. intros E. unfold vpn_params. by rewrite (bind_ok _ _ _ _ _ (run_the_vpn _ _ _ E)). Qed.

(** Names. *)
Lemma run_ptr_named s n l : (forall i, i ∈ l -> is_Some (id_at s i)) ->
  exists r, ptr_named n l s = Ok (r, s) /\
    match r with
    | Some i => i ∈ l /\ exists pw, id_at s i = Some pw /\ pw_ifname pw = n
    | None => forall i pw, i ∈ l -> id_at s i = Some pw -> pw_ifname pw <> n
    end.
Proof.
  induction l as [|i l IH]; intros Hl; [exists None; split; [done|by intros i pw ?%elem_of_nil]|].
  destruct (Hl i) as [pw E]; [left|]. destruct (run_deref _ _ _ E) as (q & Eq & Eid). cbn [ptr_named].
  rewrite (bind_ok _ _ _ _ _ Eq). destruct (String.eqb (pw_ifname q) n) eqn:En.
  - apply String.eqb_eq in En. exists (Some i). split; [done|]. split; [left|]. exists pw. by subst pw.
  - apply String.eqb_neq in En. destruct IH as (r & Er & Hr); [intros; apply Hl; by right|]. exists r. split; [done|].
    destruct r as [j|]; [destruct Hr; split; [by right|done]|]. intros j pw' [-> |Hj]%elem_of_cons Ej; [|by apply (Hr j)].
    rewrite E in Ej. injection Ej as <-. by subst pw.
Qed.
Lemma run_find s v n : (forall i, i ∈ vp_ptrs v -> is_Some (id_at s i)) ->
  exists r, lde_pw_find_name v n s = Ok (r, s) /\
    match r with
    | Some i => i ∈ vp_ptrs v /\ exists pw, id_at s i = Some pw /\ pw_ifname pw = n
    | None => forall i pw, i ∈ vp_ptrs v -> id_at s i = Some pw -> pw_ifname pw <> n
    end.
Proof.
  intros Hl. destruct (run_ptr_named s n (vp_pws v)) as (r & Er & Hr).
  { intros i Hi. apply Hl, elem_of_app. by left. }
  unfold lde_pw_find_name. rewrite (bind_ok _ _ _ _ _ Er). destruct r as [i|].
  { exists (Some i). split; [done|]. destruct Hr. split; [apply elem_of_app; by left|done]. }
  destruct (run_ptr_named s n (vp_inact v)) as (r & Er' & Hr').
  { intros i Hi. apply Hl, elem_of_app. by right. }
  exists r. split; [done|]. destruct r as [i|]; [destruct Hr'; split; [apply elem_of_app; by right|done]|].
  intros i pw [Hi|Hi]%elem_of_app; [by apply Hr|by apply Hr'].
Qed.

(** Removing a pointer. *)
Lemma elem_ptr_remove i j l : j ∈ ptr_remove i l <-> j ∈ l /\ j <> i.
Proof.
  unfold ptr_remove. rewrite list_elem_of_In, filter_In, <- list_elem_of_In, negb_true_iff, Nat.eqb_neq. done.
Qed.
Lemma nodup_ptr_remove i l : NoDup l -> NoDup (ptr_remove i l).
Proof. intros H. apply NoDup_ListNoDup, List.NoDup_filter, NoDup_ListNoDup, H. Qed.
Lemma ptrs_drop i v : vp_ptrs (drop_pw i v) = ptr_remove i (vp_ptrs v).
Proof. unfold vp_ptrs, drop_pw, ptr_remove. cbn. by rewrite List.filter_app. Qed.
End Runs.

(** Loops that leave nothing undone. *)
Lemma foreach_steps {S A} (I : list A -> S -> Prop) (f : A -> ST S unit) l s :
  (forall x l s, I (x :: l) s -> exists s', f x s = Ok (tt, s') /\ I l s') -> I l s ->
  exists s', foreach f l s = Ok (tt, s') /\ I [] s'.
Proof.
  intros Hf. revert s. induction l as [|x l IH]; intros s H; [by exists s|].
  destruct (Hf x l s H) as (s1 & E1 & H1). destruct (IH s1 H1) as (s2 & E2 & H2).
  exists s2. cbn [foreach]. by rewrite (bind_ok _ _ _ _ _ E1).
Qed.
Lemma floop_steps {S A B} (I : list A -> B -> S -> Prop) (f : A -> B -> ST S B) l b s :
  (forall x l b s, I (x :: l) b s -> exists b' s', f x b s = Ok (b', s') /\ I l b' s') -> I l b s ->
  exists b' s', floop f l b s = Ok (b', s') /\ I [] b' s'.
Proof.
  intros Hf. revert b s. induction l as [|x l IH]; intros b s H; [by exists b, s|].
  destruct (Hf x l b s H) as (b1 & s1 & E1 & H1). destruct (IH b1 s1 H1) as (b2 & s2 & E2 & H2).
  exists b2, s2. cbn [floop]. by rewrite (bind_ok _ _ _ _ _ E1).
Qed.

(** ** Single steps *)
Section Steps.
Context (aux : string -> list nat) (e : lvpn -> l2vpn_pw -> fec -> Prop).

Lemma conf_inv_same e' s s' : conf_inv aux e s -> l_vpns s' = l_vpns s -> (forall i, id_at s' i = id_at s i) -> lib_ok s' ->
  shaped s' -> (forall f i, owns s' f i -> exists v pw, v ∈ l_vpns s /\ i ∈ vp_pws v /\ id_at s i = Some pw /\ e' v pw f) ->
  conf_inv aux e' s'.
Proof.
  intros [H1 H2 H3 HT H4 H5 H6 H7 _] Ev Ei Hl Hs Ho. split; rewrite ?Ev; try done.
  - intros v i Hv Hi. rewrite Ei. by apply H6.
  - intros v i j pi pj Hv Hi Hj. rewrite !Ei. by apply (H7 v i j pi pj).
  - intros f i Hf. destruct (Ho f i Hf) as (v & pw & ?). exists v, pw. by rewrite Ei.
Qed.
Lemma conf_inv_expect e' s : conf_inv aux e s ->
  (forall v i pw f, v ∈ l_vpns s -> i ∈ vp_pws v -> id_at s i = Some pw -> owns s f i -> e v pw f -> e' v pw f) -> conf_inv aux e' s.
Proof.
  intros H He. apply (conf_inv_same e' s s H); [done..|apply H|apply H|]. intros f i Ho.
  destruct (ci_owned _ _ _ H f i Ho) as (v & pw & Hv & Hi & E & He'). exists v, pw. split_and!; try done. by eapply He.
Qed.

(** A pseudowire owns what it is expected to own. *)
Lemma owner_is s v i pw f : conf_inv aux e s -> v ∈ l_vpns s -> i ∈ vp_ptrs v ++ aux (vp_name v) -> id_at s i = Some pw -> owns s f i ->
  i ∈ vp_pws v /\ e v pw f.
Proof.
  intros H Hv Hi E Ho. destruct (ci_owned _ _ _ H f i Ho) as (w & pw' & Hw & Hi' & E' & He).
  assert (w = v) as ->.
  { apply (same_vpn (l_vpns s)); [apply H|done..|]. eapply (ci_disj _ _ _ H w v i); [done..| |done].
    apply elem_of_app. left. apply elem_of_app. by left. }
  rewrite E in E'. by injection E' as <-.
Qed.
Lemma ci_at s v i : conf_inv aux e s -> v ∈ l_vpns s -> i ∈ vp_ptrs v ++ aux (vp_name v) ->
  exists pw, id_at s i = Some pw /\ pw_good v pw /\ af_ok (pw_af pw).
Proof. intros H Hv Hi. destruct (ci_pw _ _ _ H v i Hv Hi) as (pw & E & Hg). exists pw. split_and!; [done..|]. eapply lib_af; [apply H|done]. Qed.

Lemma exit_step s v i pw : conf_inv aux e s -> v ∈ l_vpns s -> i ∈ vp_ptrs v ++ aux (vp_name v) -> id_at s i = Some pw ->
  (forall f, e v pw f -> f = l2vpn_pw_fec pw) ->
  exists s', l2vpn_pw_exit i s = Ok (tt, s') /\ conf_inv aux e s' /\ pw_ids s' = pw_ids s /\ forall f, ~ owns s' f i.
Proof.
  intros H Hv Hi E He. destruct (ci_at s v i H Hv Hi) as (pw' & E' & (_ & _ & Hok) & _). rewrite E in E'. injection E' as <-.
  destruct (exit_owned s i pw (ci_lib _ _ _ H) (ci_shaped _ _ _ H) E Hok) as (s' & Er & Hl & Hids & Hs & Ho).
  exists s'. split_and!; [done| |done|].
  - apply (conf_inv_step aux e e s); [done..|]. intros f j [_ Hj]%Ho. by apply H.
  - intros f [Hne Hf]%Ho. apply Hne, He. by destruct (owner_is s v i pw f H Hv Hi E Hf).
Qed.
Lemma init_step s v i pw : conf_inv aux e s -> v ∈ l_vpns s -> i ∈ vp_pws v -> id_at s i = Some pw -> e v pw (l2vpn_pw_fec pw) ->
  exists s', l2vpn_pw_init i s = Ok (tt, s') /\ conf_inv aux e s' /\ pw_ids s' = pw_ids s.
Proof.
  intros H Hv Hi E He. assert (i ∈ vp_ptrs v ++ aux (vp_name v)) as Hi' by (apply elem_of_app; left; apply elem_of_app; by left).
  destruct (ci_at s v i H Hv Hi') as (pw' & E' & (_ & _ & Hok) & _). rewrite E in E'. injection E' as <-.
  destruct (init_owned s i pw (ci_lib _ _ _ H) (ci_shaped _ _ _ H) E Hok) as (s' & Er & Hl & Hids & Hs & Ho).
  exists s'. split_and!; [done| |done].
  apply (conf_inv_step aux e e s); [done..|]. intros f j [Hj|(-> & -> & _)]%Ho; [by apply H|]. by exists v, pw.
Qed.

(** An assignment to a pseudowire. *)
Lemma put_step s v i pw q : conf_inv aux e s -> v ∈ l_vpns s -> i ∈ vp_ptrs v ++ aux (vp_name v) -> id_at s i = Some pw ->
  af_ok (pw_af q) -> pw_good v (pw_ident q) -> pw_ifname q = pw_ifname pw ->
  (forall f, owns s f i -> e v (pw_ident q) f) -> conf_inv aux e (heap_put s i (Some q)).
Proof.
  intros H Hv Hi E Ha Hg Hn He. assert (is_Some (id_at s i)) as Hl by (by exists pw).
  pose proof (vpn_in_find _ _ (ci_names _ _ _ H) Hv) as Hf.
  eapply (conf_inv_at (vp_name v) (fun v => v) aux aux e e s _ v); try done.
  - cbn. unfold vpn_update. rewrite <- (map_id (l_vpns s)) at 1. apply map_ext. intros w. by case_match.
  - by apply H.
  - apply lib_put; [apply H|done..].
  - apply H.
  - by apply H.
  - by left.
  - intros j Hj. rewrite id_at_put by done. case_decide; [by exists (pw_ident q)|by apply H].
  - assert (forall j p, j ∈ vp_ptrs v ++ aux (vp_name v) -> id_at (heap_put s i (Some q)) j = Some p ->
      exists p', id_at s j = Some p' /\ pw_ifname p' = pw_ifname p) as Hx.
    { intros j p Hj. rewrite id_at_put by done. case_decide as Ej; [|by intros ?; exists p]. intros [= <-]. subst. by exists pw. }
    intros a b pa pb Ha' Hb Ea Eb En. destruct (Hx a pa Ha' Ea) as (pa' & Ea' & Na), (Hx b pb Hb Eb) as (pb' & Eb' & Nb).
    apply (ci_uniq _ _ _ H v a b pa' pb'); congruence.
  - intros j Hj _. rewrite id_at_put by done. case_decide; [by subst|done].
  - intros g j Hj. change (owns s g j) in Hj. destruct (ci_owned _ _ _ H g j Hj) as (w & p & Hw & Hjw & Ej & Hew).
    destruct (decide (vp_name w = vp_name v)) as [En|En]; [left|right; by exists w, p].
    assert (w = v) as -> by (apply (same_vpn (l_vpns s)); [apply H|done..]). rewrite id_at_put by done. case_decide as Eij.
    + exists (pw_ident q). subst. split_and!; try done. by apply He.
    + by exists p.
Qed.

(** Only lists and parameters of one L2VPN change, not its type and MTU. *)
Lemma list_step aux' nm f s v : conf_inv aux e s -> vpn_find (l_vpns s) nm = Some v -> (forall v, vp_name (f v) = vp_name v) ->
  (forall n, n <> nm -> aux' n = aux n) -> vp_pw_type (f v) = vp_pw_type v -> vp_mtu (f v) = vp_mtu v ->
  NoDup (vp_ptrs (f v) ++ aux' nm) -> (forall i, i ∈ vp_ptrs (f v) ++ aux' nm -> i ∈ vp_ptrs v ++ aux nm) ->
  (forall g i pw, owns s g i -> i ∈ vp_pws v -> id_at s i = Some pw -> e v pw g -> i ∈ vp_pws (f v) /\ e (f v) pw g) ->
  conf_inv aux' e (set_l_vpns s (vpn_update nm f (l_vpns s))).
Proof.
  intros H Hv Hf Ha Ht Hm Hnd Hin Ho. destruct (vpn_find_in _ _ _ Hv) as [Hvin Hnm].
  eapply (conf_inv_at nm f aux aux' e e s _ v); try done.
  - rewrite Ht. by apply H.
  - apply lib_set_vpns; [apply H|]. intros i (w & Hw & Hi)%active_in. apply in_vpn_update in Hw as (u & Hu & [[En ->]|[En ->]]).
    + assert (u = v) as -> by (apply (same_vpn (l_vpns s)); [apply H|done|done|by rewrite Hnm]).
      eapply (ci_live aux e s v); [done..|]. rewrite Hnm. apply Hin. apply elem_of_app. left. apply elem_of_app. by left.
    + eapply (ci_live aux e s u); [done..|]. apply elem_of_app. left. apply elem_of_app. by left.
  - apply H.
  - intros i Hi. left. by apply Hin.
  - intros i Hi. destruct (ci_pw _ _ _ H v i Hvin) as (pw & E & Hg); [rewrite Hnm; by apply Hin|]. exists pw. split; [done|].
    unfold pw_good in *. by rewrite Ht, Hm.
  - intros i j pi pj Hi Hj. apply (ci_uniq _ _ _ H v i j pi pj Hvin); rewrite Hnm; by apply Hin.
  - intros g j Hj. change (owns s g j) in Hj. destruct (ci_owned _ _ _ H g j Hj) as (w & p & Hw & Hjw & Ej & Hew).
    destruct (decide (vp_name w = nm)) as [En|En]; [left|right; by exists w, p].
    assert (w = v) as -> by (apply (same_vpn (l_vpns s)); [apply H|done..|by rewrite En]). exists p.
    destruct (Ho g j p Hj Hjw Ej Hew) as [Hj1 Hj2]. by split_and!.
Qed.

(** [free] of a pseudowire nobody points to any more. *)
Lemma free_step s i : conf_inv aux e s -> is_Some (id_at s i) -> (forall f, ~ owns s f i) ->
  (forall v, v ∈ l_vpns s -> i ∉ vp_ptrs v ++ aux (vp_name v)) -> conf_inv aux e (heap_put s i None).
Proof.
  intros H Hl Hno Hni. assert (forall v j, v ∈ l_vpns s -> j ∈ vp_ptrs v ++ aux (vp_name v) -> id_at (heap_put s i None) j = id_at s j) as Hx.
  { intros v j Hv Hj. rewrite id_at_put by done. case_decide; [|done]. subst. by destruct (Hni v Hv). }
  assert (forall v j, j ∈ vp_pws v -> j ∈ vp_ptrs v ++ aux (vp_name v)) as Hp.
  { intros v j Hj. apply elem_of_app. left. apply elem_of_app. by left. }
  destruct H as [H1 H2 H3 HT H4 H5 H6 H7 H8]. split; try done.
  - apply lib_free; [done..|]. intros (v & Hv & Hi)%active_in. by apply (Hni v Hv), Hp.
  - intros v j Hv Hj. rewrite (Hx v j) by done. by apply H6.
  - intros v a b pa pb Hv Ha Hb. rewrite !(Hx v) by done. by apply (H7 v).
  - intros f j Hj. change (owns s f j) in Hj. destruct (H8 f j Hj) as (v & pw & Hv & Hi & E & He). exists v, pw.
    split_and!; try done. rewrite (Hx v); [done..|by apply Hp].
Qed.
Lemma drop_step s nm v i : conf_inv aux e s -> vpn_find (l_vpns s) nm = Some v -> i ∈ vp_ptrs v -> (forall f, ~ owns s f i) ->
  (forall pw f, e v pw f -> e (drop_pw i v) pw f) ->
  exists s', (mod_vpn nm (drop_pw i) ;;; pw_free i) s = Ok (tt, s') /\ conf_inv aux e s' /\
    l_vpns s' = vpn_update nm (drop_pw i) (l_vpns s) /\ (forall j, j <> i -> id_at s' j = id_at s j) /\
    (forall f j, owns s' f j <-> owns s f j).
Proof.
  intros H Hv Hi Hno He. destruct (vpn_find_in _ _ _ Hv) as [Hvin Hnm].
  assert (NoDup (vp_ptrs v ++ aux nm)) as Hnd by (rewrite <- Hnm; by apply H).
  apply NoDup_app in Hnd as (Hnd1 & Hnd2 & Hnd3).
  assert (conf_inv aux e (set_l_vpns s (vpn_update nm (drop_pw i) (l_vpns s)))) as H'.
  { apply (list_step aux nm (drop_pw i) s v); try done.
    - rewrite ptrs_drop. apply NoDup_app. split_and!; [by apply nodup_ptr_remove| |done]. intros j [Hj _]%elem_ptr_remove. by apply Hnd2.
    - intros j. rewrite ptrs_drop, !elem_of_app, elem_ptr_remove. tauto.
    - intros g j pw Ho Hj Ej Hj'. split; [|by apply He]. cbn. apply elem_ptr_remove. split; [done|]. intros ->. by apply (Hno g). }
  assert (is_Some (id_at s i)) as Hl by (eapply (ci_live aux e s v); [done..|]; apply elem_of_app; by left).
  eexists. split; [|split; [apply (free_step _ i H' Hl)|]].
  - unfold mod_vpn. rewrite (bind_ok (modify _) _ _ _ _ eq_refl). by apply run_free.
  - exact Hno.
  - intros w Hw Hiw. cbn [l_vpns set_l_vpns] in Hw. apply in_vpn_update in Hw as (u & Hu & [[En ->]|[En ->]]).
    + assert (u = v) as -> by (apply (same_vpn (l_vpns s)); [apply H|done|done|by rewrite Hnm]).
      rewrite ptrs_drop in Hiw. change (vp_name (drop_pw i v)) with (vp_name v) in Hiw. rewrite Hnm in Hiw.
      apply elem_of_app in Hiw as [[_ []]%elem_ptr_remove|Hiw]; [done|]. by apply (Hnd2 i).
    + apply En. rewrite <- Hnm. apply (ci_disj _ _ _ H u v i); [done..|]. apply elem_of_app. by left.
  - split_and!; [done| |done]. intros j Hj. rewrite id_at_put by done. by case_decide.
Qed.

(** A new pseudowire. *)
Lemma new_step nm f s v q : conf_inv aux e s -> vpn_find (l_vpns s) nm = Some v -> (forall v, vp_name (f v) = vp_name v) ->
  vp_ptrs (f v) ≡ₚ length (l_pws s) :: vp_ptrs v -> (forall i, i ∈ vp_pws v -> i ∈ vp_pws (f v)) ->
  vp_pw_type (f v) = vp_pw_type v -> vp_mtu (f v) = vp_mtu v -> af_ok (pw_af q) -> pw_good v (pw_ident q) ->
  (forall i pw, i ∈ vp_ptrs v ++ aux nm -> id_at s i = Some pw -> pw_ifname pw <> pw_ifname q) ->
  (forall pw g, e v pw g -> e (f v) pw g) ->
  conf_inv aux e (set_l_vpns (heap_new s q) (vpn_update nm f (l_vpns s))).
Proof.
  intros H Hv Hf Hp Hact Ht Hm Haf Hg Hfresh He. destruct (vpn_find_in _ _ _ Hv) as [Hvin Hnm].
  set (i := length (l_pws s)) in *. assert (vp_ptrs (f v) ++ aux nm ≡ₚ i :: vp_ptrs v ++ aux nm) as Hp' by (by rewrite Hp).
  assert (forall j, is_Some (id_at s j) -> j <> i) as Hne by (intros j [? Ej] ->; unfold i in Ej; by rewrite id_at_fresh in Ej).
  assert (forall j, is_Some (id_at s j) -> id_at (heap_new s q) j = id_at s j) as Hold.
  { intros j Hj. rewrite id_at_new. case_decide; [|done]. by destruct (Hne j). }
  assert (forall w j, w ∈ l_vpns s -> j ∈ vp_pws w -> is_Some (id_at s j)) as Hlive.
  { intros w j Hw Hj. eapply (ci_live aux e s w); [done..|]. apply elem_of_app. left. apply elem_of_app. by left. }
  assert (forall j, j ∈ vp_ptrs v ++ aux nm -> is_Some (id_at s j)) as Hlive'.
  { intros j Hj. eapply (ci_live aux e s v); [done..|]. by rewrite Hnm. }
  eapply (conf_inv_at nm f aux aux e e s _ v); try done.
  - rewrite Ht. by apply H.
  - apply lib_set_vpns; [apply lib_new; [apply H|done]|]. intros j (w & Hw & Hj)%active_in.
    apply in_vpn_update in Hw as (u & Hu & [[En ->]|[En ->]]); [|rewrite Hold; by eapply Hlive].
    assert (u = v) as -> by (apply (same_vpn (l_vpns s)); [apply H|done|done|by rewrite Hnm]).
    assert (j ∈ vp_ptrs (f v) ++ aux nm) as Hj' by (apply elem_of_app; left; apply elem_of_app; by left).
    rewrite Hp' in Hj'. apply elem_of_cons in Hj' as [-> |Hj']; [|rewrite Hold; by apply Hlive'].
    rewrite id_at_new. fold i. by rewrite decide_True.
  - apply H.
  - rewrite Hp'. apply NoDup_cons. split; [|rewrite <- Hnm; by apply H]. intros Hc. by destruct (Hne i (Hlive' i Hc)).
  - intros j. rewrite Hp'. intros [-> |Hj]%elem_of_cons; [right; apply id_at_fresh|by left].
  - intros j. rewrite Hp'. change (id_at (set_l_vpns ?a ?b) j) with (id_at a j). intros [-> |Hj]%elem_of_cons.
    + exists (pw_ident q). rewrite id_at_new. fold i. rewrite decide_True by done. split; [done|]. unfold pw_good in *. by rewrite Ht, Hm.
    + rewrite Hold by (by apply Hlive'). destruct (ci_pw _ _ _ H v j Hvin) as (pw & E & Hg'); [by rewrite Hnm|].
      exists pw. split; [done|]. unfold pw_good in *. by rewrite Ht, Hm.
  - intros a b pa pb. rewrite Hp'. change (id_at (set_l_vpns ?x ?y) ?j) with (id_at x j).
    intros Ha Hb. rewrite !id_at_new. fold i. apply elem_of_cons in Ha, Hb. do 2 case_decide; subst; try done.
    + intros [= <-] Eb En. destruct Hb as [?|Hb]; [done|]. by destruct (Hfresh b pb Hb Eb).
    + intros Ea [= <-] En. destruct Ha as [?|Ha]; [done|]. by destruct (Hfresh a pa Ha Ea).
    + destruct Ha as [?|Ha], Hb as [?|Hb]; try done. by apply (ci_uniq _ _ _ H v a b pa pb).
  - intros j _ Hj. change (id_at (set_l_vpns ?x ?y) ?j) with (id_at x j). by apply Hold.
  - intros g j Hj. change (owns s g j) in Hj. destruct (ci_owned _ _ _ H g j Hj) as (w & p & Hw & Hjw & Ej & Hew).
    destruct (decide (vp_name w = nm)) as [En|En]; [left|right; by exists w, p].
    assert (w = v) as -> by (apply (same_vpn (l_vpns s)); [apply H|done..|by rewrite En]). exists p.
    change (id_at (set_l_vpns ?x ?y) ?j) with (id_at x j). rewrite Hold by (by exists p). split_and!; [by apply Hact|done|by apply He].
Qed.

(** [l2vpn_pw_init] while the L2VPN has the new type and MTU. *)
Lemma params_back v pw t m : pw_good v pw -> set_pw_params (vp_pw_type v) (vp_mtu v) (set_pw_params t m pw) = pw.
Proof. intros (E1 & E2 & _). destruct pw; cbn in *. by rewrite <- E1, <- E2. Qed.
Lemma ident_params t m q : pw_ident (set_pw_params t m q) = set_pw_params t m (pw_ident q).
Proof. done. Qed.
Lemma init_as {B} (k : ST lde B) nm s v i pw t m : conf_inv aux e s -> vpn_find (l_vpns s) nm = Some v -> i ∈ vp_pws v ->
  id_at s i = Some pw -> is_u 16 t -> e v pw (fec_as t pw) ->
  exists s', (vpn_params nm (aux nm) t m ;;; l2vpn_pw_init i ;;; vpn_params nm (aux nm) (vp_pw_type v) (vp_mtu v) ;;; k) s = k s' /\
    conf_inv aux e s' /\ l_vpns s' = l_vpns s /\ (forall j, id_at s' j = id_at s j).
Proof.
  intros H Hv Hi E Ht He. destruct (vpn_find_in _ _ _ Hv) as [Hvin Hnm].
  set (s1 := heap_params (set_l_vpns s (vpn_update nm (set_vp_params t m) (l_vpns s))) (vp_pws v ++ vp_inact v ++ aux nm) t m).
  assert (i ∈ vp_ptrs v ++ aux (vp_name v)) as Hi' by (apply elem_of_app; left; apply elem_of_app; by left).
  assert (vp_pws v ++ vp_inact v ++ aux nm = vp_ptrs v ++ aux (vp_name v)) as Ep by (unfold vp_ptrs; by rewrite Hnm, app_assoc).
  assert (lib_ok s1) as Hl1.
  { apply lib_params, lib_set_vpns; [apply H|]. intros j (w & Hw & Hj)%active_in.
    assert (exists u, u ∈ l_vpns s /\ j ∈ vp_pws u) as (u & Hu & Hju).
    { apply in_vpn_update in Hw as (u & Hu & [[_ ->]|[_ ->]]); by exists u. }
    eapply (ci_live aux e s u); [done..|]. apply elem_of_app. left. apply elem_of_app. by left. }
  assert (shaped s1) as Hs1 by apply H.
  assert (id_at s1 i = Some (set_pw_params t m pw)) as E1.
  { unfold s1. rewrite id_at_params, Ep, decide_True by done. change (id_at (set_l_vpns ?a ?b) i) with (id_at a i). by rewrite E. }
  destruct (ci_pw _ _ _ H v i Hvin Hi') as (pw' & E' & Hg). rewrite E in E'. injection E' as <-.
  assert (fec_ok (l2vpn_pw_fec (set_pw_params t m pw))) as Hok by (destruct Hg as (_ & _ & _ & ? & ?); done).
  destruct (init_owned s1 i _ Hl1 Hs1 E1 Hok) as (s2 & Er & Hl2 & Hids & Hs2 & Ho).
  assert (l_vpns s2 = vpn_update nm (set_vp_params t m) (l_vpns s)) as Ev2 by (by rewrite (vpns_ids _ _ Hids)).
  assert (vpn_find (l_vpns s2) nm = Some (set_vp_params t m v)) as Hv2 by (rewrite Ev2; by apply update_find).
  set (s3 := heap_params (set_l_vpns s2 (vpn_update nm (set_vp_params (vp_pw_type v) (vp_mtu v)) (l_vpns s2)))
               (vp_pws v ++ vp_inact v ++ aux nm) (vp_pw_type v) (vp_mtu v)).
  assert (l_vpns s3 = l_vpns s) as Ev3.
  { cbn. rewrite Ev2, update_update by done. by apply (update_same nm _ v); [apply H|done|destruct v]. }
  assert (forall j, id_at s3 j = id_at s j) as Ei3.
  { intros j. unfold s3. rewrite id_at_params, Ep. change (id_at (set_l_vpns ?a ?b) j) with (id_at a j).
    rewrite (id_at_ids _ _ _ Hids). unfold s1. rewrite id_at_params, Ep.
    change (id_at (set_l_vpns ?a ?b) j) with (id_at a j). case_decide as Hj; [|done].
    destruct (ci_pw _ _ _ H v j Hvin Hj) as (pj & Ej & Hgj). rewrite Ej. cbn. by rewrite params_back. }
  exists s3. split_and!; [|apply (conf_inv_same e s); try done|done..].
  - rewrite (bind_ok _ _ _ _ _ (run_params s nm v (aux nm) t m Hv)). fold s1. rewrite (bind_ok _ _ _ _ _ Er).
    by rewrite (bind_ok _ _ _ _ _ (run_params s2 nm _ (aux nm) (vp_pw_type v) (vp_mtu v) Hv2)).
  - apply lib_params, lib_set_vpns; [done|]. intros j (w & Hw & Hj)%active_in. apply id_live, active_live; [done|].
    apply in_vpn_update in Hw as (u & Hu & [[_ ->]|[_ ->]]); by eapply in_active.
  - intros f j Hj. change (owns s2 f j) in Hj. apply Ho in Hj as [Hj|(-> & -> & _)]; [by apply H|]. by exists v, pw.
Qed.
End Steps.

(** ** The other L2VPNs *)
Definition others (nm : string) (s s' : lde) : Prop :=
  (forall w, vp_name w <> nm -> w ∈ l_vpns s' <-> w ∈ l_vpns s) /\
  (forall w i, w ∈ l_vpns s -> vp_name w <> nm -> i ∈ vp_ptrs w -> id_at s' i = id_at s i).

Section Others.
#[export] Instance others_pre nm : PreOrder (others nm).
Proof.
  split; [by intros s; split|]. intros s1 s2 s3 [A1 A2] [B1 B2]. split; [intros w Hw; by rewrite B1, A1|].
  intros w i Hw Hn Hi. rewrite (B2 w i); [by eapply A2|by apply A1|done..].
Qed.
Lemma others_same nm s s' : l_vpns s' = l_vpns s -> (forall i, id_at s' i = id_at s i) -> others nm s s'.
Proof. intros E1 E2. split; [by intros w _; rewrite E1|]. intros. apply E2. Qed.
Lemma others_ids nm s s' : pw_ids s' = pw_ids s -> others nm s s'.
Proof. intros E. apply others_same; [by apply vpns_ids|]. intros i. by apply id_at_ids. Qed.
Lemma others_update nm f s : (forall v, vp_name (f v) = vp_name v) -> others nm s (set_l_vpns s (vpn_update nm f (l_vpns s))).
Proof.
  intros Hf. split; [|done]. intros w Hw. cbn. rewrite in_vpn_update. split.
  - intros (u & Hu & [[En ->]|[_ ->]]); [|done]. by rewrite Hf in Hw.
  - intros Hin. exists w. tauto.
Qed.
Lemma others_at aux e nm s s' v : conf_inv aux e s -> vpn_find (l_vpns s) nm = Some v ->
  (forall w, vp_name w <> nm -> w ∈ l_vpns s' <-> w ∈ l_vpns s) ->
  (forall i, is_Some (id_at s i) -> i ∉ vp_ptrs v ++ aux nm -> id_at s' i = id_at s i) -> others nm s s'.
Proof.
  intros H Hv Hl Hid. destruct (vpn_find_in _ _ _ Hv) as [Hvin Hnm]. split; [done|]. intros w i Hw Hn Hi.
  assert (i ∈ vp_ptrs w ++ aux (vp_name w)) as Hi' by (apply elem_of_app; by left).
  apply Hid; [by eapply (ci_live aux e s w)|]. intros Hc. apply Hn. rewrite <- Hnm. apply (ci_disj _ _ _ H w v i); [done..|]. by rewrite Hnm.
Qed.
End Others.

