(* ===== verification/LdeConfSafe.v ===== *)
(** * Configuration of the lde: merging is safe

    Merging an L2VPN keeps the invariant of [LdeConfInv], as long as the new
    configuration does not ask for two things at once ([mergeable]): that a
    pseudowire changes the flags that restart the session together with its FEC, or
    that the type of all pseudowires changes while some of them appear. *)
From stdpp Require Import prelude strings list sorting.
From Stdlib Require Import ZArith Lia.
From S2P Require Import Prelude Util Wire Ipc Session Fec Lde LdeLib LdeSafe LdeInv LdeFrame LdePw Hello Discovery Config Engine Parent ConfView LdeConf LdeConfInv LdeConfSteps.

Definition pw_names (l : list pw_conf) : list string := map pwc_ifname l.
(** What the parent sends of a pseudowire and of an L2VPN. *)
Definition pwc_good (p : pw_conf) : Prop := LdeSafe.af_ok (pwc_af p) /\ is_u 32 (pwc_lsr_id p) /\ is_u 32 (pwc_pwid p).
Record vpn_good (xl : l2vpn) : Prop := {
  vg_names : NoDup (pw_names (lv_pw_list xl ++ lv_pw_inactive_list xl));
  vg_pws : Forall pwc_good (lv_pw_list xl ++ lv_pw_inactive_list xl);
  vg_type : is_u 16 (lv_pw_type xl)
}.

Record mergeable (s : lde) (v : lvpn) (xl : l2vpn) : Prop := {
  mg_good : vpn_good xl;
  mg_act i pw : i ∈ vp_pws v -> id_at s i = Some pw -> pw_ifname pw ∉ pw_names (lv_pw_inactive_list xl);
  mg_inact i pw : i ∈ vp_inact v -> id_at s i = Some pw -> pw_ifname pw ∉ pw_names (lv_pw_list xl);
  mg_reset i pw xp : i ∈ vp_pws v -> id_at s i = Some pw -> xp ∈ lv_pw_list xl -> pw_ifname pw = pwc_ifname xp ->
    reset_nbr pw xp = true -> vp_pw_type v = lv_pw_type xl /\ pw_id pw = pwc_pwid xp /\ pw_lsr_id pw = pwc_lsr_id xp;
  mg_type : vp_pw_type v = lv_pw_type xl \/
    (forall xp, xp ∈ lv_pw_list xl -> exists i pw, i ∈ vp_pws v /\ id_at s i = Some pw /\ pw_ifname pw = pwc_ifname xp) /\
    (forall xp, xp ∈ lv_pw_inactive_list xl -> pw_disabled xp = true)
}.

(** A pseudowire with the parameters of the configuration. *)
Definition pw_is (q : l2vpn_pw) (xp : pw_conf) : Prop :=
  pw_ifname q = pwc_ifname xp /\ pw_lsr_id q = pwc_lsr_id xp /\ pw_id q = pwc_pwid xp /\
  has_flag (pw_flags q) F_PW_STATUSTLV_CONF = has_flag (pwc_flags xp) F_PW_STATUSTLV_CONF /\
  has_flag (pw_flags q) F_PW_CWORD_CONF = has_flag (pwc_flags xp) F_PW_CWORD_CONF.
(** Not to be active, as [pw_disabled]. *)
Definition pw_off (q : l2vpn_pw) : bool := (pw_lsr_id q =? INADDR_ANY) || (pw_id q =? 0).
(** An L2VPN that is what the configuration says, and one whose lists tell which
    pseudowires are to be active. *)
Record vpn_is (s : lde) (xl : l2vpn) (w : lvpn) : Prop := {
  vs_type : vp_pw_type w = lv_pw_type xl;
  vs_in i : i ∈ vp_ptrs w -> exists pw xp, id_at s i = Some pw /\ xp ∈ lv_pw_list xl ++ lv_pw_inactive_list xl /\ pw_is pw xp;
  vs_all xp : xp ∈ lv_pw_list xl ++ lv_pw_inactive_list xl -> exists i pw, i ∈ vp_ptrs w /\ id_at s i = Some pw /\ pw_is pw xp
}.
Record vpn_sorted (s : lde) (w : lvpn) : Prop := {
  vs_act i pw : i ∈ vp_pws w -> id_at s i = Some pw -> pw_off pw = false;
  vs_inact i pw : i ∈ vp_inact w -> id_at s i = Some pw -> pw_off pw = true
}.
(** One of the pseudowires [l] has that name. *)
Definition named (s : lde) (l : list nat) (n : string) : Prop := exists i pw, i ∈ l /\ id_at s i = Some pw /\ pw_ifname pw = n.

(** New pseudowires come in the list they belong to. *)
Record fresh_sorted (s : lde) (v : lvpn) (xl : l2vpn) : Prop := {
  fs_act xp : xp ∈ lv_pw_list xl -> pw_disabled xp = true -> named s (vp_pws v) (pwc_ifname xp);
  fs_inact xp : xp ∈ lv_pw_inactive_list xl -> pw_disabled xp = false -> named s (vp_inact v) (pwc_ifname xp)
}.

Section Find.
Lemma is_off q xp : pw_is q xp -> pw_off q = pw_disabled xp.
Proof. intros (_ & E1 & E2 & _). unfold pw_off, pw_disabled. by rewrite E1, E2. Qed.
Lemma ident_status q : has_flag (pw_flags (pw_ident q)) F_PW_STATUSTLV_CONF = has_flag (pw_flags q) F_PW_STATUSTLV_CONF.
Proof. unfold has_flag. cbn [pw_flags pw_ident set_pw_flags set_pw_remote]. by rewrite <- Z.land_assoc. Qed.
Lemma ident_cword q : has_flag (pw_flags (pw_ident q)) F_PW_CWORD_CONF = has_flag (pw_flags q) F_PW_CWORD_CONF.
Proof. unfold has_flag. cbn [pw_flags pw_ident set_pw_flags set_pw_remote]. by rewrite <- Z.land_assoc. Qed.
Lemma is_ident q xp : pw_is (pw_ident q) xp <-> pw_is q xp.
Proof. unfold pw_is. by rewrite ident_status, ident_cword. Qed.
Lemma is_of_conf t m xp : pw_is (pw_ident (pw_of_conf t m xp)) xp.
Proof. by apply is_ident. Qed.
Lemma is_assign xp q : pw_is (pw_ident (pw_assign xp q)) xp.
Proof. by apply is_ident. Qed.
Lemma is_take_over xp q : pw_is (pw_ident (pw_take_over xp q)) xp.
Proof.
  apply is_ident. unfold pw_is, pw_take_over. cbn [pw_ifname pw_lsr_id pw_id pw_flags].
  change F_PW_STATUSTLV_CONF with (2 ^ 0). change F_PW_CWORD_CONF with (2 ^ 2). change F_PW_STATIC_NBR_ADDR with (2 ^ 5).
  by rewrite !has_copy by done.
Qed.
Lemma pw_in_none n l : pw_in n l = None -> n ∉ pw_names l.
Proof.
  unfold pw_in, pw_names. intros H (x & -> & Hx)%list_elem_of_fmap.
  pose proof (find_none _ _ H x (proj1 (list_elem_of_In _ _) Hx)) as E. cbn in E. by rewrite String.eqb_refl in E.
Qed.
Lemma pw_in_some n l x : pw_in n l = Some x -> n ∈ pw_names l.
Proof.
  intros [Hx E]%find_some. apply String.eqb_eq in E as <-. apply list_elem_of_fmap. exists x. by rewrite list_elem_of_In.
Qed.
Lemma pw_find_spec act inact n :
  match l2vpn_pw_find_name act inact n with Some _ => n ∈ pw_names (act ++ inact) | None => n ∉ pw_names (act ++ inact) end.
Proof.
  unfold l2vpn_pw_find_name, pw_names. rewrite map_app. destruct (pw_in n act) eqn:E.
  - apply elem_of_app. left. by eapply pw_in_some.
  - apply pw_in_none in E. destruct (pw_in n inact) eqn:E'; rewrite elem_of_app; [right; by eapply pw_in_some|].
    apply pw_in_none in E'. by intros [].
Qed.
Lemma ptr_remove_notin i l : i ∉ l -> ptr_remove i l = l.
Proof.
  intros Hi. unfold ptr_remove. induction l as [|j l IH]; [done|]. apply not_elem_of_cons in Hi as [Hj Hl]. cbn.
  rewrite (proj2 (Nat.eqb_neq j i)) by done. cbn. f_equal. by apply IH.
Qed.
Lemma conf_inv_aux aux aux' e s : (forall n, aux' n = aux n) -> conf_inv aux e s -> conf_inv aux' e s.
Proof.
  intros Ha [H1 H2 H3 HT H4 H5 H6 H7 H8]. split; try done.
  - intros v. rewrite Ha. apply H4.
  - intros v w i. rewrite !Ha. apply H5.
  - intros v i. rewrite Ha. apply H6.
  - intros v i j pi pj. rewrite Ha. apply H7.
Qed.
End Find.

Section Merge.
Context (nm : string) (xl : l2vpn) (s0 : lde) (v0 : lvpn) (Hmg : mergeable s0 v0 xl).
Notation T := (lv_pw_type xl).
Notation M := (lv_mtu xl).
Notation act := (lv_pw_list xl).
Notation inact := (lv_pw_inactive_list xl).

(** ** Pseudowires that are gone *)
Record gone (l : list nat) (s : lde) (v : lvpn) : Prop := {
  gn_inv : pws_ok s;
  gn_others : others nm s0 s;
  gn_find : vpn_find (l_vpns s) nm = Some v;
  gn_inact : vp_inact v = vp_inact v0;
  gn_params : vp_pw_type v = vp_pw_type v0 /\ vp_mtu v = vp_mtu v0;
  gn_pws i : i ∈ vp_pws v -> i ∈ vp_pws v0;
  gn_kept i xp : i ∈ vp_pws v0 -> (exists pw, id_at s0 i = Some pw /\ pw_ifname pw = pwc_ifname xp) -> xp ∈ act -> i ∈ vp_pws v;
  gn_todo i : i ∈ l -> i ∈ vp_pws v;
  gn_nodup : NoDup l;
  gn_id i : i ∈ vp_ptrs v -> id_at s i = id_at s0 i;
  gn_done i pw : i ∈ vp_pws v -> i ∉ l -> id_at s0 i = Some pw -> pw_ifname pw ∈ pw_names (act ++ inact)
}.
Lemma gone_step i l s v : gone (i :: l) s v -> exists s' v', pw_gone nm xl i s = Ok (tt, s') /\ gone l s' v'.
Proof.
  intros [H Hot Hv Hin Hp Hpw Hk Htd Hnd Hid Hdn]. destruct (vpn_find_in _ _ _ Hv) as [Hvin Hnm].
  assert (i ∈ vp_pws v) as Hi by (apply Htd; left). apply NoDup_cons in Hnd as [Hni Hnd].
  assert (i ∈ vp_ptrs v) as Hi1 by (apply elem_of_app; by left).
  assert (i ∈ vp_ptrs v ++ no_aux (vp_name v)) as Hi2 by (apply elem_of_app; by left).
  destruct (ci_at _ _ s v i H Hvin Hi2) as (pw & E & Hg & _).
  destruct (run_deref s i pw E) as (q & Eq & Eid). unfold pw_gone. rewrite (bind_ok _ _ _ _ _ Eq).
  assert (pw_ifname q = pw_ifname pw) as -> by (by subst pw). pose proof (pw_find_spec act inact (pw_ifname pw)) as Hfs.
  destruct (l2vpn_pw_find_name _ _ _).
  - exists s, v. split; [done|]. split; try done.
    + intros j Hj. apply Htd. by right.
    + intros j pj Hj Hjl Ej. destruct (decide (j = i)) as [-> |Hne]; [|apply (Hdn j); [done| |done]; by intros [? |?]%elem_of_cons].
      rewrite <- Hid, E in Ej by done. by injection Ej as <-.
  - destruct (exit_step _ _ s v i pw H Hvin Hi2 E) as (s1 & E1 & H1 & Hids & Hno); [by intros f ->|].
    assert (vpn_find (l_vpns s1) nm = Some v) as Hv1 by (by rewrite (vpns_ids _ _ Hids)).
    destruct (drop_step _ _ s1 nm v i H1 Hv1 Hi1 Hno) as (s2 & E2 & H2 & Ev2 & Ei2 & _); [done|].
    assert (i ∉ vp_inact v) as Hii.
    { intros Hc. pose proof (ci_ptrs _ _ _ H v Hvin) as Hd. apply NoDup_app in Hd as [Hd _].
      apply NoDup_app in Hd as (_ & Hd & _). by apply (Hd i). }
    exists s2, (drop_pw i v). rewrite (bind_ok _ _ _ _ _ E1). split; [done|]. split; cbn [vp_pws vp_inact drop_pw set_vp_lists vp_pw_type vp_mtu]; try done.
    + etransitivity; [done|]. apply (others_at no_aux own_fec nm s s2 v); [done..| |].
      * intros w Hw. rewrite Ev2, (vpns_ids _ _ Hids). by apply (others_update nm (drop_pw i) s).
      * intros j _ Hj. rewrite Ei2, (id_at_ids _ _ _ Hids); [done|]. intros ->. by rewrite Hnm in Hi2.
    + rewrite Ev2. by apply update_find.
    + by rewrite <- Hin, ptr_remove_notin.
    + intros j [Hj _]%elem_ptr_remove. by apply Hpw.
    + intros j xp Hj Hx Hxp. apply elem_ptr_remove. split; [by eapply Hk|]. intros ->. destruct Hx as (pw' & E' & En).
      rewrite <- Hid, E in E' by done. injection E' as <-. apply Hfs. rewrite En. unfold pw_names. rewrite map_app. apply elem_of_app. left.
      apply list_elem_of_fmap. by exists xp.
    + intros j Hj. apply elem_ptr_remove. split; [apply Htd; by right|]. by intros ->.
    + intros j Hj. rewrite ptrs_drop in Hj. apply elem_ptr_remove in Hj as [Hj Hne]. rewrite Ei2 by done.
      rewrite (id_at_ids _ _ _ Hids). by apply Hid.
    + intros j pj [Hj Hne]%elem_ptr_remove Hjl Ej. apply (Hdn j); [done| |done]. by intros [? |?]%elem_of_cons.
Qed.

(** ** Active pseudowires *)
Record merging (R : list pw_conf) (aux : list nat) (s : lde) (v : lvpn) : Prop := {
  mr_inv : conf_inv (aux_at nm aux) (expect_at nm T (fun n => n ∈ pw_names R)) s;
  mr_others : others nm s0 s;
  mr_find : vpn_find (l_vpns s) nm = Some v;
  mr_params : vp_pw_type v = vp_pw_type v0 /\ vp_mtu v = vp_mtu v0;
  mr_rest : exists l, act = l ++ R;
  mr_act i pw : i ∈ vp_pws v -> id_at s i = Some pw -> pw_ifname pw ∈ pw_names act;
  mr_inact i pw : i ∈ vp_inact v -> id_at s i = Some pw -> pw_ifname pw ∉ pw_names act;
  mr_aux i pw : i ∈ aux -> id_at s i = Some pw -> pw_ifname pw ∈ pw_names act /\ pw_ifname pw ∉ pw_names R;
  mr_reset i pw xp : i ∈ vp_pws v -> id_at s i = Some pw -> xp ∈ R -> pw_ifname pw = pwc_ifname xp ->
    reset_nbr pw xp = true -> vp_pw_type v0 = T /\ pw_id pw = pwc_pwid xp /\ pw_lsr_id pw = pwc_lsr_id xp;
  mr_kept xp : xp ∈ R -> named s0 (vp_pws v0) (pwc_ifname xp) -> named s (vp_pws v) (pwc_ifname xp);
  mr_old i : i ∈ vp_inact v0 -> i ∈ vp_inact v /\ id_at s i = id_at s0 i;
  mr_done xp : xp ∈ act -> pwc_ifname xp ∉ pw_names R -> exists i q, id_at s i = Some q /\ pw_is q xp /\
    (i ∈ vp_pws v /\ (~ named s0 (vp_pws v0) (pwc_ifname xp) \/ pw_disabled xp = false) \/ i ∈ aux /\ pw_disabled xp = true)
}.

Lemma gone_merging s v : gone [] s v -> merging act [] s v.
Proof.
  intros [H Hot Hv Hin Hp Hpw Hk _ _ Hid Hdn]. destruct (vpn_find_in _ _ _ Hv) as [Hvin Hnm].
  assert (forall i, i ∈ vp_pws v -> i ∈ vp_ptrs v) as Hap by (intros i Hi; apply elem_of_app; by left).
  assert (forall i pw, i ∈ vp_pws v -> id_at s i = Some pw -> pw_ifname pw ∈ pw_names act) as Hact.
  { intros i pw Hi E. rewrite Hid in E by (by apply Hap). pose proof (Hdn i pw Hi (not_elem_of_nil i) E) as Hn.
    unfold pw_names in Hn. rewrite map_app in Hn. apply elem_of_app in Hn as [?|Hn]; [done|].
    by destruct (mg_act _ _ _ Hmg i pw (Hpw i Hi) E). }
  split; try done.
  - apply (conf_inv_aux no_aux). { intros n. unfold aux_at, no_aux. by case_match. }
    apply (conf_inv_expect no_aux own_fec _ s H). intros w i pw f Hw Hi E _ ->. right. split; [|done].
    destruct (decide (vp_name w = nm)) as [En|En]; [right|by left].
    assert (w = v) as -> by (apply (same_vpn (l_vpns s)); [apply H|done..|by rewrite En]). by eapply Hact.
  - by exists [].
  - intros i pw Hi E. apply (mg_inact _ _ _ Hmg i); [by rewrite <- Hin|]. rewrite <- Hid; [done|]. apply elem_of_app. by right.
  - by intros i pw ?%elem_of_nil.
  - intros i pw xp Hi E. apply (mg_reset _ _ _ Hmg i); [by apply Hpw|]. rewrite <- Hid; [done|by apply Hap].
  - intros xp Hxp (i & pw & Hi & E & En).
    assert (i ∈ vp_pws v) as Hi' by (eapply Hk; [done|by exists pw|done]).
    exists i, pw. split_and!; try done. rewrite Hid; [done|by apply Hap].
  - intros i Hi. rewrite Hin. split; [done|]. apply Hid, elem_of_app. right. by rewrite Hin.
  - intros xp Hxp Hn. destruct Hn. apply list_elem_of_fmap. by exists xp.
Qed.

Lemma rest_names xp R l : act = l ++ xp :: R -> pwc_ifname xp ∈ pw_names act /\ pwc_ifname xp ∉ pw_names R /\ pwc_good xp /\ xp ∈ act /\
  forall n, n ∈ pw_names R -> n ∈ pw_names act.
Proof.
  intros E. pose proof (vg_names xl (mg_good _ _ _ Hmg)) as Hn. pose proof (vg_pws xl (mg_good _ _ _ Hmg)) as Hg.
  unfold pw_names in *. rewrite map_app in Hn. apply NoDup_app in Hn as (Hn & _). apply Forall_app in Hg as [Hg _].
  rewrite E in *. rewrite map_app in *. cbn [map] in *. apply NoDup_app in Hn as (_ & _ & Hn).
  apply NoDup_cons in Hn as [Hn _]. apply Forall_app in Hg as [_ Hg]. apply Forall_cons in Hg as [Hg _]. split_and!; try done.
  - apply elem_of_app. right. by left.
  - apply elem_of_app. right. by left.
  - intros n Hin. apply elem_of_app. right. by right.
Qed.

(** One pseudowire less to do. *)
Lemma todo_shift aux xp R s v : conf_inv aux (expect_at nm T (fun n => n ∈ pw_names (xp :: R))) s -> vpn_find (l_vpns s) nm = Some v ->
  (forall i pw, i ∈ vp_pws v -> id_at s i = Some pw -> pw_ifname pw = pwc_ifname xp -> owns s (l2vpn_pw_fec pw) i ->
     l2vpn_pw_fec pw = fec_as T pw) ->
  conf_inv aux (expect_at nm T (fun n => n ∈ pw_names R)) s.
Proof.
  intros H Hv Hx. destruct (vpn_find_in _ _ _ Hv) as [Hvin Hnm]. apply (conf_inv_expect _ _ _ s H).
  intros w i pw f Hw Hi E Ho [(En & Ht & ->)|[Hc ->]].
  - left. split_and!; try done. intros Hr. apply Ht. by right.
  - destruct Hc as [Hne|Hin]; [right; by split; [left|]|]. destruct (decide (vp_name w = nm)) as [En|]; [|right; by split; [left|]].
    assert (w = v) as -> by (apply (same_vpn (l_vpns s)); [apply H|done..|by rewrite En]).
    destruct (decide (pw_ifname pw ∈ pw_names R)) as [Hr|Hr]; [right; by split; [right|]|].
    left. split_and!; try done. apply (Hx i pw Hi E); [|done]. cbn in Hin. by apply elem_of_cons in Hin as [?|?].
Qed.

Lemma merging_next xp R aux s v aux' s' v' : merging (xp :: R) aux s v ->
  conf_inv (aux_at nm aux') (expect_at nm T (fun n => n ∈ pw_names R)) s' -> others nm s s' -> vpn_find (l_vpns s') nm = Some v' ->
  vp_pw_type v' = vp_pw_type v /\ vp_mtu v' = vp_mtu v ->
  (forall i pw, i ∈ vp_pws v' -> id_at s' i = Some pw -> pw_ifname pw = pwc_ifname xp \/ (i ∈ vp_pws v /\ id_at s i = Some pw)) ->
  (forall i pw, i ∈ vp_inact v' -> id_at s' i = Some pw -> i ∈ vp_inact v /\ id_at s i = Some pw) ->
  (forall i pw, i ∈ aux' -> id_at s' i = Some pw -> pw_ifname pw = pwc_ifname xp \/ (i ∈ aux /\ id_at s i = Some pw)) ->
  (forall i pw, i ∈ vp_pws v -> id_at s i = Some pw -> pw_ifname pw <> pwc_ifname xp -> i ∈ vp_pws v' /\ id_at s' i = Some pw) ->
  (forall i, i ∈ vp_inact v -> i ∈ vp_inact v' /\ id_at s' i = id_at s i) ->
  (forall i, i ∈ aux -> i ∈ aux' /\ id_at s' i = id_at s i) ->
  (exists i q, id_at s' i = Some q /\ pw_is q xp /\
    (i ∈ vp_pws v' /\ (~ named s (vp_pws v) (pwc_ifname xp) \/ pw_disabled xp = false) \/ i ∈ aux' /\ pw_disabled xp = true)) ->
  merging R aux' s' v'.
Proof.
  intros [H Hot Hv Hp [l Hr] Ha Hi Hx Hre Hke Hol Hdo] H' Hot' Hv' [Hp1 Hp2] Ca Ci Cx Ck Cik Cxk Cn. destruct (rest_names _ _ _ Hr) as (Nx & Nr & _ & _ & Nin).
  split; try done.
  - by etransitivity.
  - by rewrite Hp1, Hp2.
  - exists (l ++ [xp]). by rewrite <- app_assoc.
  - intros i pw Hin E. destruct (Ca i pw Hin E) as [-> |[? ?]]; [done|by eapply Ha].
  - intros i pw Hin E. destruct (Ci i pw Hin E) as [? ?]. by eapply Hi.
  - intros i pw Hin E. destruct (Cx i pw Hin E) as [-> |[Hin' E']]; [done|]. destruct (Hx i pw Hin' E') as [? Hn]. split; [done|].
    intros Hc. apply Hn. by right.
  - intros i pw yp Hin E Hy En. destruct (Ca i pw Hin E) as [En'|[? ?]].
    + exfalso. apply Nr. rewrite <- En', En. apply list_elem_of_fmap. by exists yp.
    + apply (Hre i); [done..|by right|done].
  - intros yp Hy Hn. destruct (Hke yp) as (i & pw & Hin & E & En); [by right|done|].
    exists i, pw. destruct (Ck i pw Hin E) as [? ?]; [|done]. rewrite En. intros Hc. apply Nr. rewrite <- Hc. apply list_elem_of_fmap. by exists yp.
  - intros i Hin. destruct (Hol i Hin) as [Hi1 Hi2]. destruct (Cik i Hi1) as [? ->]. done.
  - intros yp Hy Hn. destruct (decide (pwc_ifname yp = pwc_ifname xp)) as [En|En].
    + assert (yp = xp) as ->.
      { pose proof (vg_names xl (mg_good _ _ _ Hmg)) as Hd. unfold pw_names in Hd. rewrite map_app in Hd. apply NoDup_app in Hd as [Hd _].
        assert (xp ∈ act) as Hxa by (rewrite Hr; apply elem_of_app; right; left).
        apply list_elem_of_lookup in Hxa as [a Ea], Hy as [b Eb]. assert (a = b) as ->; [|congruence].
        eapply NoDup_lookup; [exact Hd|by rewrite list_lookup_fmap, Ea|rewrite list_lookup_fmap, Eb; cbn; by rewrite En]. }
      destruct Cn as (i & q & E & Hq & Hc). exists i, q. split_and!; try done. destruct Hc as [[? [Hf|?]]|?]; [left|left|right]; try done; try tauto.
      split; [done|]. left. intros Hk. apply Hf, Hke; [left|done].
    + destruct (Hdo yp Hy) as (i & q & E & Hq & Hc). { by intros [?|?]%elem_of_cons. }
      assert (pw_ifname q <> pwc_ifname xp) as Hne by (destruct Hq as [-> _]; done).
      exists i, q. destruct Hc as [[Hin Hc]|[Hin Hc]].
      * destruct (Ck i q Hin E Hne) as [? ?]. split_and!; try done. by left.
      * destruct (Cxk i Hin) as [? E']. rewrite E', E. split_and!; try done. by right.
Qed.

Section One.
Context (xp : pw_conf) (R : list pw_conf) (aux : list nat) (s : lde) (v : lvpn) (H : merging (xp :: R) aux s v).
Notation E0 := (expect_at nm T (fun n => n ∈ pw_names (xp :: R))).
Notation E1 := (expect_at nm T (fun n => n ∈ pw_names R)).

Lemma merging_facts : v ∈ l_vpns s /\ vp_name v = nm /\ pwc_ifname xp ∈ pw_names act /\ pwc_ifname xp ∉ pw_names R /\ pwc_good xp.
Proof.
  destruct (vpn_find_in _ _ _ (mr_find _ _ _ _ H)) as [Hvin Hnm]. destruct (mr_rest _ _ _ _ H) as [l Hr].
  destruct (rest_names _ _ _ Hr) as (? & ? & ? & _). done.
Qed.
Lemma ptrs_aux i : i ∈ vp_ptrs v ++ aux_at nm aux (vp_name v) <-> i ∈ vp_pws v \/ i ∈ vp_inact v \/ i ∈ aux.
Proof.
  destruct merging_facts as (_ & Hnm & _). rewrite Hnm, aux_at_same. unfold vp_ptrs. rewrite !elem_of_app. tauto.
Qed.

Lemma merge_new : (forall i pw, i ∈ vp_ptrs v -> id_at s i = Some pw -> pw_ifname pw <> pwc_ifname xp) ->
  exists s' v', (do i <- pw_alloc (pw_of_conf (vp_pw_type v) (vp_mtu v) xp); mod_vpn nm (add_active i) ;;; l2vpn_pw_init i ;;; ret aux) s
      = Ok (aux, s') /\ merging R aux s' v'.
Proof.
  intros Hfresh. destruct merging_facts as (Hvin & Hnm & Nx & Nr & Hxa & Hxl & Hxi). pose proof (mr_inv _ _ _ _ H) as Hci.
  set (q := pw_of_conf (vp_pw_type v) (vp_mtu v) xp). set (i := length (l_pws s)).
  assert (forall j pw, j ∈ vp_pws v \/ j ∈ vp_inact v \/ j ∈ aux -> id_at s j = Some pw -> pw_ifname pw <> pwc_ifname xp) as Hfr.
  { intros j pw [Hj|[Hj|Hj]] E; [apply (Hfresh j); [apply elem_of_app; by left|done]|apply (Hfresh j); [apply elem_of_app; by right|done]|].
    destruct (mr_aux _ _ _ _ H j pw Hj E) as [_ Hn]. intros En. apply Hn. rewrite En. left. }
  assert (vp_pw_type v = T) as Et.
  { destruct (mr_params _ _ _ _ H) as [-> _]. destruct (mg_type _ _ _ Hmg) as [?|[Hex _]]; [done|].
    destruct (mr_rest _ _ _ _ H) as [l Hr]. destruct (mr_kept _ _ _ _ H xp) as (j & pw & Hj & Ej & En).
    - left.
    - apply Hex. rewrite Hr. apply elem_of_app. right. left.
    - by destruct (Hfr j pw (or_introl Hj) Ej). }
  assert (fec_ok (l2vpn_pw_fec q)) as Hok by (unfold q, l2vpn_pw_fec; cbn; rewrite Et; split_and!; [apply Hmg|done..]).
  assert (conf_inv (aux_at nm aux) E1 s) as Hci1.
  { apply (todo_shift _ xp R s v); [done|apply H|]. intros j pw Hj Ej En. by destruct (Hfr j pw (or_introl Hj) Ej). }
  assert (conf_inv (aux_at nm aux) E1 (set_l_vpns (heap_new s q) (vpn_update nm (add_active i) (l_vpns s)))) as Hci2.
  { apply (new_step _ _ nm (add_active i) s v q); try done; [apply H|intros j Hj; by right|].
    intros j pw Hj. apply Hfr, ptrs_aux. by rewrite Hnm. }
  set (s1 := set_l_vpns _ _) in *.
  assert (vpn_find (l_vpns s1) nm = Some (add_active i v)) as Hv1 by (apply update_find; [done|apply H]).
  destruct (vpn_find_in _ _ _ Hv1) as [Hvin1 _].
  assert (id_at s1 i = Some (pw_ident q)) as Ei.
  { change (id_at s1 i) with (id_at (heap_new s q) i). rewrite id_at_new. fold i. by rewrite decide_True. }
  destruct (init_step _ _ s1 (add_active i v) i (pw_ident q) Hci2 Hvin1) as (s2 & Er & Hci3 & Hids); [left|done|left; split_and!; [done..|]|].
  { unfold fec_as, l2vpn_pw_fec. cbn. by rewrite Et. }
  assert (forall j, id_at s2 j = if decide (j = i) then Some (pw_ident q) else id_at s j) as Eid.
  { intros j. rewrite (id_at_ids _ _ _ Hids). change (id_at s1 j) with (id_at (heap_new s q) j). by rewrite id_at_new. }
  assert (forall j, is_Some (id_at s j) -> j <> i) as Hne by (intros j [? Ej] ->; unfold i in Ej; by rewrite id_at_fresh in Ej).
  assert (forall j, j ∈ vp_pws v \/ j ∈ vp_inact v \/ j ∈ aux -> id_at s2 j = id_at s j) as Eold.
  { intros j Hj. rewrite Eid, decide_False; [done|]. apply Hne. eapply (ci_live _ _ s v); [done..|]. by apply ptrs_aux. }
  exists s2, (add_active i v). split.
  { rewrite (bind_ok (pw_alloc _) _ _ _ _ eq_refl). unfold mod_vpn. rewrite (bind_ok (modify _) _ _ _ _ eq_refl).
    change (set_l_vpns _ _) with s1. fold i. by rewrite (bind_ok _ _ _ _ _ Er). }
  apply (merging_next xp R aux s v); try done.
  - apply (others_at (aux_at nm aux) E0 nm s s2 v); [done|apply H| |].
    + intros w Hw. rewrite (vpns_ids _ _ Hids). by apply (others_update nm (add_active i) s).
    + intros j Hj _. rewrite Eid, decide_False; [done|]. by apply Hne.
  - by rewrite (vpns_ids _ _ Hids).
  - intros j pw [-> |Hj]%elem_of_cons E; [left|right; split; [done|]; rewrite <- Eold; tauto].
    rewrite Eid, decide_True in E by done. by injection E as <-.
  - intros j pw Hj E. split; [done|]. rewrite <- Eold; tauto.
  - intros j pw Hj E. right. split; [done|]. rewrite <- Eold; tauto.
  - intros j pw Hj E _. split; [by right|]. rewrite Eold; tauto.
  - intros j Hj. split; [done|]. apply Eold. tauto.
  - intros j Hj. split; [done|]. apply Eold. tauto.
  - exists i, (pw_ident q). split_and!; [by rewrite Eid, decide_True|apply is_of_conf|]. left. split; [left|]. left.
    intros (j & pw & Hj & Ej & En). by destruct (Hfr j pw (or_introl Hj) Ej).
Qed.

(** The pseudowire is there. *)
Context (i : nat) (pw : l2vpn_pw) (Hi : i ∈ vp_pws v) (Ei : id_at s i = Some pw) (En : pw_ifname pw = pwc_ifname xp).
Lemma merging_in : i ∈ vp_ptrs v ++ aux_at nm aux (vp_name v).
Proof. apply ptrs_aux. by left. Qed.
Lemma take_over_good q : pw_ident q = pw -> af_ok (pw_af (pw_take_over xp q)) /\ pw_good v (pw_ident (pw_take_over xp q)) /\
  pw_ifname (pw_take_over xp q) = pw_ifname pw.
Proof.
  intros Eq. destruct merging_facts as (Hvin & Hnm & _ & _ & Hxa & Hxl & Hxi).
  destruct (ci_pw _ _ _ (mr_inv _ _ _ _ H) v i Hvin merging_in) as (pw' & E' & (G1 & G2 & G3 & _)). rewrite Ei in E'. injection E' as <-.
  subst pw. split_and!; try done.
Qed.
Lemma owned_todo f : E0 v pw f -> f = l2vpn_pw_fec pw.
Proof. intros [(_ & Hn & _)|[_ ->]]; [|done]. destruct Hn. rewrite En. left. Qed.
Lemma only_this j p : j ∈ vp_pws v \/ j ∈ vp_inact v \/ j ∈ aux -> id_at s j = Some p -> pw_ifname p = pwc_ifname xp -> j = i.
Proof.
  intros Hj Ej Enj. destruct merging_facts as (Hvin & _). apply (ci_uniq _ _ _ (mr_inv _ _ _ _ H) v j i p pw); try done; [by apply ptrs_aux|by apply merging_in|congruence].
Qed.

(** What the next pseudowire finds, when only this one was assigned to. *)
Lemma merging_put s' v' q aux' : conf_inv (aux_at nm aux') E1 s' -> (forall w, vp_name w <> nm -> w ∈ l_vpns s' <-> w ∈ l_vpns s) ->
  vpn_find (l_vpns s') nm = Some v' ->
  vp_pw_type v' = vp_pw_type v /\ vp_mtu v' = vp_mtu v -> pw_ifname q = pw_ifname pw ->
  (forall j, id_at s' j = if decide (i = j) then Some (pw_ident q) else id_at s j) ->
  (forall j, j ∈ vp_pws v' -> j ∈ vp_pws v) -> (forall j, j ∈ vp_pws v -> j <> i -> j ∈ vp_pws v') ->
  vp_inact v' = vp_inact v -> (forall j, j ∈ aux' -> j = i \/ j ∈ aux) -> (forall j, j ∈ aux -> j ∈ aux') -> pw_is (pw_ident q) xp ->
  (i ∈ vp_pws v' /\ pw_disabled xp = false \/ i ∈ aux' /\ pw_disabled xp = true) ->
  merging R aux' s' v'.
Proof.
  intros Hc Hot Hv' Hp Hn Hid Ha Ha' Hin Haux Haux' Hq Hwh. destruct merging_facts as (Hvin & Hnm & _).
  assert (forall j p, id_at s' j = Some p -> pw_ifname p = pwc_ifname xp \/ id_at s j = Some p) as Hx.
  { intros j p. rewrite Hid. case_decide; [|by right]. intros [= <-]. left. by rewrite <- En. }
  assert (i ∉ vp_inact v) as Hni.
  { intros Hc'. pose proof (ci_ptrs _ _ _ (mr_inv _ _ _ _ H) v Hvin) as Hd. apply NoDup_app in Hd as [Hd _].
    apply NoDup_app in Hd as (_ & Hd & _). by apply (Hd i). }
  apply (merging_next xp R aux s v); try done.
  - apply (others_at _ _ nm s s' v (mr_inv _ _ _ _ H)); [apply H|done|]. intros j _ Hj. rewrite Hid, decide_False; [done|].
    intros <-. apply Hj. rewrite <- Hnm at 2. apply merging_in.
  - intros j p Hj E. destruct (Hx j p E); [by left|right]. split; [by apply Ha|done].
  - intros j p Hj E. rewrite Hin in Hj. split; [done|]. rewrite Hid, decide_False in E; [done|]. intros <-. by apply Hni.
  - intros j p Hj E. destruct (Hx j p E); [by left|]. destruct (Haux j Hj) as [-> |?]; [|by right]. left. rewrite <- En. congruence.
  - intros j p Hj E Hne. assert (j <> i) as Hji by (intros ->; rewrite Ei in E; injection E as <-; done).
    split; [by apply Ha'|]. rewrite Hid, decide_False; [done|congruence].
  - intros j Hj. rewrite Hin. split; [done|]. rewrite Hid, decide_False; [done|]. by intros <-.
  - intros j Hj. split; [by apply Haux'|]. rewrite Hid, decide_False; [done|]. intros <-.
    pose proof (ci_ptrs _ _ _ (mr_inv _ _ _ _ H) v Hvin) as Hd. rewrite Hnm, aux_at_same in Hd. apply NoDup_app in Hd as (_ & Hd & _).
    apply (Hd i); [apply elem_of_app; by left|done].
  - exists i, (pw_ident q). split_and!; [by rewrite Hid, decide_True|done|]. tauto.
Qed.

Lemma merge_off : pw_disabled xp = true -> exists s' v',
  (l2vpn_pw_exit i ;;; mod_vpn nm (drop_pw i) ;;; upd_pw i (pw_take_over xp) ;;; ret (i :: aux)) s = Ok (i :: aux, s') /\
  merging R (i :: aux) s' v'.
Proof.
  intros Hdis. destruct merging_facts as (Hvin & Hnm & _). pose proof (mr_inv _ _ _ _ H) as Hci.
  destruct (exit_step _ _ s v i pw Hci Hvin merging_in Ei owned_todo) as (s1 & R1 & C1 & Hids & Hno).
  assert (vpn_find (l_vpns s1) nm = Some v) as Hv1 by (rewrite (vpns_ids _ _ Hids); apply H).
  destruct (vpn_find_in _ _ _ Hv1) as [Hvin1 _].
  assert (id_at s1 i = Some pw) as Ei1 by (by rewrite (id_at_ids _ _ _ Hids)).
  pose proof (ci_ptrs _ _ _ Hci v Hvin) as Hnd. rewrite Hnm, aux_at_same in Hnd. apply NoDup_app in Hnd as (Hnd1 & Hnd2 & Hnd3).
  assert (i ∈ vp_ptrs v) as Hip by (apply elem_of_app; by left).
  set (s2 := set_l_vpns s1 (vpn_update nm (drop_pw i) (l_vpns s1))).
  assert (conf_inv (aux_at nm (i :: aux)) E0 s2) as C2.
  { apply (list_step (aux_at nm aux) E0 _ nm (drop_pw i) s1 v); rewrite ?aux_at_same; try done.
    - intros n Hn. by rewrite !aux_at_other.
    - rewrite ptrs_drop. apply NoDup_app. split_and!; [by apply nodup_ptr_remove| |apply NoDup_cons; by auto].
      intros j [Hj Hne]%elem_ptr_remove [?|Hja]%elem_of_cons; [done|]. by apply (Hnd2 j).
    - intros j. rewrite ptrs_drop, !elem_of_app, elem_of_cons, elem_ptr_remove. intros [[? _]|[-> |?]]; tauto.
    - intros g j p Ho Hj Ej He. split; [|done]. apply elem_ptr_remove. split; [done|]. intros ->. by apply (Hno g). }
  assert (vpn_find (l_vpns s2) nm = Some (drop_pw i v)) as Hv2 by (by apply update_find).
  destruct (vpn_find_in _ _ _ Hv2) as [Hvin2 _].
  destruct (run_upd s2 i pw (pw_take_over xp) Ei1) as (q & Eq & Ru). destruct (take_over_good q Eq) as (T1 & T2 & T3).
  assert (conf_inv (aux_at nm (i :: aux)) E0 (heap_put s2 i (Some (pw_take_over xp q)))) as C3.
  { apply (put_step _ _ s2 (drop_pw i v) i pw); try done.
    - change (vp_name (drop_pw i v)) with (vp_name v). rewrite Hnm, aux_at_same. apply elem_of_app. right. left.
    - intros f Ho. by destruct (Hno f). }
  exists (heap_put s2 i (Some (pw_take_over xp q))), (drop_pw i v).
  split; [|apply (merging_put _ _ (pw_take_over xp q)); try done].
  - rewrite (bind_ok _ _ _ _ _ R1). unfold mod_vpn. rewrite (bind_ok (modify _) _ _ _ _ eq_refl). fold s2.
    by rewrite (bind_ok _ _ _ _ _ Ru).
  - apply (todo_shift _ xp R _ (drop_pw i v)); [done..|]. intros j p Hj Ej Enj Ho. exfalso. apply elem_ptr_remove in Hj as [Hj Hne].
    rewrite id_at_put, decide_False in Ej by (try done; by exists pw). change (id_at s1 j = Some p) in Ej.
    rewrite (id_at_ids _ _ _ Hids) in Ej. by apply Hne, (only_this j p (or_introl Hj)).
  - intros w Hw. rewrite <- (vpns_ids _ _ Hids). by apply (others_update nm (drop_pw i) s1).
  - intros j. rewrite id_at_put by (by exists pw). change (id_at s2 j) with (id_at s1 j). by rewrite (id_at_ids _ _ _ Hids).
  - by intros j [? _]%elem_ptr_remove.
  - intros j Hj Hne. by apply elem_ptr_remove.
  - cbn. apply ptr_remove_notin. intros Hc. apply NoDup_app in Hnd1 as (_ & Hd & _). by apply (Hd i).
  - by intros j ?%elem_of_cons.
  - intros j Hj. by right.
  - apply is_take_over.
  - right. split; [left|done].
Qed.

(** The parameters are assigned and the FEC is the same. *)
Lemma merge_assign q : pw_disabled xp = false -> pw_ident q = pw -> vp_pw_type v0 = T -> pw_id pw = pwc_pwid xp -> pw_lsr_id pw = pwc_lsr_id xp ->
  merging R aux (heap_put s i (Some (pw_take_over xp q))) v.
Proof.
  intros Hdis Eq Et Eid El. destruct merging_facts as (Hvin & Hnm & _). pose proof (mr_inv _ _ _ _ H) as Hci.
  destruct (take_over_good q Eq) as (T1 & T2 & T3). assert (is_Some (id_at s i)) as Hl by (by exists pw).
  apply (merging_put _ _ (pw_take_over xp q)); try done; [|apply H|..].
  - apply (todo_shift _ xp R _ v); [|apply H|].
    + apply (put_step _ _ s v i pw); try done; [apply merging_in|]. intros f Ho.
      destruct (owner_is _ _ s v i pw f Hci Hvin merging_in Ei Ho) as [_ ->%owned_todo]. right. split.
      * right. cbn. left.
      * unfold l2vpn_pw_fec. cbn. subst pw. cbn in *. by rewrite Eid, El.
    + intros j p Hj Ej Enj _. assert (pw_good v p) as (G & _).
      { rewrite id_at_put in Ej by done. case_decide; [by injection Ej as <-|].
        destruct (ci_pw _ _ _ Hci v j Hvin) as (p' & E' & G'); [apply ptrs_aux; by left|]. rewrite Ej in E'. by injection E' as <-. }
      unfold l2vpn_pw_fec, fec_as. rewrite G. destruct (mr_params _ _ _ _ H) as [-> _]. by rewrite Et.
  - intros j. by rewrite id_at_put.
  - tauto.
  - apply is_take_over.
  - by left.
Qed.

(** The FEC is installed anew. *)
Lemma merge_reinstall : pw_disabled xp = false -> exists s',
  (l2vpn_pw_exit i ;;; upd_pw i (pw_take_over xp) ;;; vpn_params nm aux T M ;;; l2vpn_pw_init i ;;;
   vpn_params nm aux (vp_pw_type v) (vp_mtu v) ;;; ret aux) s = Ok (aux, s') /\ merging R aux s' v.
Proof.
  intros Hdis. destruct merging_facts as (Hvin & Hnm & _ & Nr & _). pose proof (mr_inv _ _ _ _ H) as Hci.
  destruct (exit_step _ _ s v i pw Hci Hvin merging_in Ei owned_todo) as (s1 & R1 & C1 & Hids & Hno).
  assert (vpn_find (l_vpns s1) nm = Some v) as Hv1 by (rewrite (vpns_ids _ _ Hids); apply H).
  destruct (vpn_find_in _ _ _ Hv1) as [Hvin1 _].
  assert (id_at s1 i = Some pw) as Ei1 by (by rewrite (id_at_ids _ _ _ Hids)).
  destruct (run_upd s1 i pw (pw_take_over xp) Ei1) as (q & Eq & Ru). destruct (take_over_good q Eq) as (T1 & T2 & T3).
  set (s2 := heap_put s1 i (Some (pw_take_over xp q))) in *.
  assert (forall j, id_at s2 j = if decide (i = j) then Some (pw_ident (pw_take_over xp q)) else id_at s j) as Eid2.
  { intros j. unfold s2. rewrite id_at_put by (by exists pw). by rewrite (id_at_ids _ _ _ Hids). }
  assert (conf_inv (aux_at nm aux) E1 s2) as C2.
  { apply (todo_shift _ xp R s2 v); [|done|].
    - apply (put_step _ _ s1 v i pw); try done; [apply merging_in|]. intros f Ho. by destruct (Hno f).
    - intros j p Hj Ej Enj Ho. destruct (decide (i = j)) as [<-|Hne]; [by destruct (Hno (l2vpn_pw_fec p))|].
      rewrite Eid2, decide_False in Ej by done. by destruct Hne; rewrite (only_this j p (or_introl Hj)). }
  assert (id_at s2 i = Some (pw_ident (pw_take_over xp q))) as Ei2 by (by rewrite Eid2, decide_True).
  destruct (init_as (aux_at nm aux) E1 (ret aux) nm s2 v i _ T M C2 Hv1 Hi Ei2) as (s3 & R3 & C3 & Ev3 & Ei3).
  { apply Hmg. }
  { by left. }
  exists s3. split; [|apply (merging_put _ _ (pw_take_over xp q)); try done].
  - rewrite (bind_ok _ _ _ _ _ R1), (bind_ok _ _ _ _ _ Ru). fold s2. rewrite aux_at_same in R3. by rewrite R3.
  - intros w _. rewrite Ev3. cbn. by rewrite (vpns_ids _ _ Hids).
  - by rewrite Ev3.
  - intros j. by rewrite Ei3.
  - tauto.
  - apply is_take_over.
  - by left.
Qed.
End One.

Lemma addrcmp_runs af a b : LdeSafe.af_ok af -> exists c, ldp_addrcmp af a b = Ok c.
Proof. intros [-> | ->]; unfold ldp_addrcmp; cbn; repeat case_match; by eexists. Qed.
(** The flags a session depends on are configured ones. *)
Lemma reset_ident pw xp : reset_nbr (pw_ident pw) xp = reset_nbr pw xp.
Proof.
  unfold reset_nbr. cbn [pw_flags pw_ident set_pw_flags set_pw_remote].
  rewrite <- Z.land_assoc. by change (Z.land PW_CONF_FLAGS (Z.lor F_PW_STATUSTLV_CONF F_PW_CWORD_CONF)) with (Z.lor F_PW_STATUSTLV_CONF F_PW_CWORD_CONF).
Qed.

Lemma merging_step xp R aux s : (exists v, merging (xp :: R) aux s v) ->
  exists aux' s', merge_pw_lde nm xl xp aux s = Ok (aux', s') /\ exists v', merging R aux' s' v'.
Proof.
  intros [v H]. destruct (merging_facts xp R aux s v H) as (Hvin & Hnm & Nx & Nr & Hg).
  unfold merge_pw_lde. rewrite (bind_ok _ _ _ _ _ (run_the_vpn _ _ _ (mr_find _ _ _ _ H))).
  destruct (run_find s v (pwc_ifname xp)) as (r & Er & Hr).
  { intros i Hi. eapply (ci_live _ _ s v); [apply H|done|]. apply elem_of_app. by left. }
  rewrite (bind_ok _ _ _ _ _ Er). destruct r as [i|].
  2: { destruct (merge_new xp R aux s v H Hr) as (s' & v' & E & H'). exists aux, s'. split; [done|]. by exists v'. }
  destruct Hr as (Hi & pw & Ei & En). assert (i ∈ vp_pws v) as Hia.
  { apply elem_of_app in Hi as [?|Hi]; [done|]. destruct (mr_inact _ _ _ _ H i pw Hi Ei). by rewrite En. }
  destruct (run_deref s i pw Ei) as (q & Eq & Eid). rewrite (bind_ok _ _ _ _ _ Eq).
  assert (LdeSafe.af_ok (pw_af q)) as Haf by (change (LdeSafe.af_ok (pw_af (pw_ident q))); rewrite Eid; eapply lib_af; [apply H|done]).
  assert (exists moved, (if negb (pw_af q =? pwc_af xp) then ret true
             else do r <- lift (ldp_addrcmp (pw_af q) (pw_addr q) (pwc_addr xp)); ret (negb (r =? 0))) s = Ok (moved, s)) as [moved Em].
  { destruct (negb _); [by exists true|]. destruct (addrcmp_runs (pw_af q) (pw_addr q) (pwc_addr xp) Haf) as [c Ec].
    unfold lift, bind. rewrite Ec. by eexists. }
  rewrite (bind_ok _ _ _ _ _ Em). destruct (pw_disabled xp) eqn:Hdis.
  { destruct (merge_off xp R aux s v H i pw Hia Ei En Hdis) as (s' & v' & E & H'). exists (i :: aux), s'. split; [done|]. by exists v'. }
  destruct (negb (reset_nbr q xp) && reinstall_pwfec v xl q xp moved) eqn:Eb.
  { destruct (merge_reinstall xp R aux s v H i pw Hia Ei En Hdis) as (s' & E & H'). exists aux, s'. split; [done|]. by exists v. }
  destruct (run_upd s i pw (pw_take_over xp) Ei) as (q' & Eq' & Eu). rewrite (bind_ok _ _ _ _ _ Eu).
  eexists _, _. split; [done|]. exists v. rewrite <- reset_ident, Eid in Eb. destruct (reset_nbr pw xp) eqn:Ereset.
  - destruct (mr_reset _ _ _ _ H i pw xp Hia Ei) as (E1 & E2 & E3); [left|done..|]. by apply (merge_assign xp R aux s v H i pw).
  - cbn in Eb. unfold reinstall_pwfec in Eb. rewrite !orb_false_iff, !negb_false_iff, !Z.eqb_eq in Eb. subst pw.
    destruct Eb as (((((E1 & _) & E2) & _) & _) & E3). destruct (mr_params _ _ _ _ H) as [Et _].
    apply (merge_assign xp R aux s v H i (pw_ident q)); try done. by rewrite <- Et.
Qed.

(** ** Inactive pseudowires *)
Notation all_done := (expect_at nm T (fun _ => False)).
Record settling (R : list pw_conf) (aux : list nat) (s : lde) (v : lvpn) : Prop := {
  st_inv : conf_inv (aux_at nm aux) all_done s;
  st_others : others nm s0 s;
  st_find : vpn_find (l_vpns s) nm = Some v;
  st_type : vp_pw_type v = vp_pw_type v0;
  st_rest : exists l, inact = l ++ R;
  st_act i pw : i ∈ vp_pws v \/ i ∈ aux -> id_at s i = Some pw -> pw_ifname pw ∉ pw_names R;
  st_names i pw : i ∈ vp_pws v \/ i ∈ aux -> id_at s i = Some pw -> pw_ifname pw ∈ pw_names (act ++ inact);
  st_done xp : xp ∈ act -> exists i q, id_at s i = Some q /\ pw_is q xp /\
    (i ∈ vp_pws v /\ (~ named s0 (vp_pws v0) (pwc_ifname xp) \/ pw_disabled xp = false) \/ i ∈ aux /\ pw_disabled xp = true);
  st_idone xp : xp ∈ inact -> pwc_ifname xp ∉ pw_names R -> exists i q, id_at s i = Some q /\ pw_is q xp /\
    (i ∈ vp_pws v /\ pw_disabled xp = false \/ i ∈ vp_inact v /\ (~ named s0 (vp_inact v0) (pwc_ifname xp) \/ pw_disabled xp = true));
  st_kept xp : xp ∈ R -> named s0 (vp_inact v0) (pwc_ifname xp) -> named s (vp_inact v) (pwc_ifname xp)
}.
(** Those that are still inactive have a name of the new configuration. *)
Definition inact_known (s : lde) (v : lvpn) : Prop :=
  forall i pw, i ∈ vp_inact v -> id_at s i = Some pw -> pw_ifname pw ∈ pw_names inact.
Lemma merging_settling aux s v : merging [] aux s v -> settling inact aux s v.
Proof.
  intros H. split; [|apply H|apply H|apply H|by exists []|..].
  - apply (conf_inv_expect _ _ _ s (mr_inv _ _ _ _ H)). intros w i pw f _ _ _ _ [(? & _ & ->)|[[?|[]%elem_of_nil] ->]]; [left|right]; tauto.
  - intros i pw Hi E. assert (pw_ifname pw ∈ pw_names act) as Hn.
    { destruct Hi as [Hi|Hi]; [by eapply (mr_act _ _ _ _ H)|by eapply (mr_aux _ _ _ _ H)]. }
    pose proof (vg_names xl (mg_good _ _ _ Hmg)) as Hd. unfold pw_names in *. rewrite map_app in Hd. apply NoDup_app in Hd as (_ & Hd & _).
    by apply Hd.
  - intros i pw Hi E. unfold pw_names. rewrite map_app. apply elem_of_app. left.
    destruct Hi as [Hi|Hi]; [by eapply (mr_act _ _ _ _ H)|by eapply (mr_aux _ _ _ _ H)].
  - intros xp Hx. apply (mr_done _ _ _ _ H); [done|by intros ?%elem_of_nil].
  - intros xp Hx Hn. destruct Hn. apply list_elem_of_fmap. by exists xp.
  - intros xp _ (i & pw & Hi & E & En). destruct (mr_old _ _ _ _ H i Hi) as [Hi' E']. exists i, pw. by rewrite E'.
Qed.

Lemma inact_unowned aux e s v i : conf_inv aux e s -> v ∈ l_vpns s -> i ∈ vp_inact v -> i ∉ vp_pws v /\ forall f, ~ owns s f i.
Proof.
  intros H Hv Hi. assert (i ∉ vp_pws v) as Hni.
  { intros Hc. pose proof (ci_ptrs _ _ _ H v Hv) as Hd. apply NoDup_app in Hd as [Hd _]. apply NoDup_app in Hd as (_ & Hd & _). by apply (Hd i). }
  assert (i ∈ vp_ptrs v ++ aux (vp_name v)) as Hin by (apply elem_of_app; left; apply elem_of_app; by right).
  split; [done|]. intros f Ho. destruct (ci_at _ _ s v i H Hv Hin) as (pw & E & _). by destruct (owner_is _ _ s v i pw f H Hv Hin E Ho).
Qed.
Lemma igone_step aux i l s : (exists v, settling inact aux s v /\ (forall j, j ∈ i :: l -> j ∈ vp_inact v) /\ NoDup (i :: l) /\
    forall j pw, j ∈ vp_inact v -> j ∉ i :: l -> id_at s j = Some pw -> pw_ifname pw ∈ pw_names inact) ->
  exists s', ipw_gone nm xl i s = Ok (tt, s') /\ exists v', settling inact aux s' v' /\ (forall j, j ∈ l -> j ∈ vp_inact v') /\ NoDup l /\
    forall j pw, j ∈ vp_inact v' -> j ∉ l -> id_at s' j = Some pw -> pw_ifname pw ∈ pw_names inact.
Proof.
  intros (v & H & Hl & [Hni Hnd]%NoDup_cons & Hkn). destruct (vpn_find_in _ _ _ (st_find _ _ _ _ H)) as [Hvin Hnm].
  assert (i ∈ vp_inact v) as Hi by (apply Hl; left). destruct (inact_unowned _ _ s v i (st_inv _ _ _ _ H) Hvin Hi) as [Hna Hno].
  assert (i ∈ vp_ptrs v) as Hip by (apply elem_of_app; by right).
  assert (i ∈ vp_ptrs v ++ aux_at nm aux (vp_name v)) as Hip' by (apply elem_of_app; by left).
  destruct (ci_at _ _ s v i (st_inv _ _ _ _ H) Hvin Hip') as (pw & E & _).
  destruct (run_deref s i pw E) as (q & Eq & Eid). unfold ipw_gone. rewrite (bind_ok _ _ _ _ _ Eq).
  assert (pw_ifname q = pw_ifname pw) as -> by (by subst pw). destruct (pw_in (pw_ifname pw) inact) as [xp|] eqn:Epi.
  { exists s. split; [done|]. exists v. split_and!; try done; [intros j Hj; apply Hl; by right|]. intros j p Hj Hjl Ej.
    destruct (decide (j = i)) as [-> |Hne]; [|apply (Hkn j); [done| |done]; by intros [? |?]%elem_of_cons].
    rewrite E in Ej. injection Ej as <-. by eapply pw_in_some. }
  apply pw_in_none in Epi.
  destruct (drop_step _ _ s nm v i (st_inv _ _ _ _ H) (st_find _ _ _ _ H) Hip Hno) as (s2 & E2 & H2 & Ev2 & Ei2 & _); [done|].
  assert (forall j, j ∈ vp_pws v \/ j ∈ aux -> j <> i) as Hji.
  { intros j Hj ->. destruct Hj as [?|Hja]; [done|].
    pose proof (ci_ptrs _ _ _ (st_inv _ _ _ _ H) v Hvin) as Hd. rewrite Hnm, aux_at_same in Hd. apply NoDup_app in Hd as (_ & Hd & _). by apply (Hd i). }
  assert (forall j, j ∈ vp_pws (drop_pw i v) \/ j ∈ aux -> j ∈ vp_pws v \/ j ∈ aux) as Hjj.
  { intros j [[? _]%elem_ptr_remove|?]; tauto. }
  exists s2. split; [done|]. exists (drop_pw i v). split_and!; [split|..]; try done.
  - etransitivity; [apply H|]. apply (others_at _ _ nm s s2 v (st_inv _ _ _ _ H)); [apply H| |].
    + intros w Hw. rewrite Ev2. by apply (others_update nm (drop_pw i) s).
    + intros j _ Hj. rewrite Ei2; [done|]. intros ->. by rewrite Hnm in Hip'.
  - rewrite Ev2. apply update_find; [done|apply H].
  - apply H.
  - apply H.
  - intros j p Hj%Hjj Ej. apply (st_act _ _ _ _ H j p Hj). by rewrite <- Ei2 by (by apply Hji).
  - intros j p Hj%Hjj Ej. apply (st_names _ _ _ _ H j p Hj). by rewrite <- Ei2 by (by apply Hji).
  - intros xp Hx. destruct (st_done _ _ _ _ H xp Hx) as (j & p & Ej & Hp & Hc). exists j, p.
    assert (j <> i) as Hne by (apply Hji; tauto). rewrite Ei2 by done. split_and!; try done.
    destruct Hc as [[? ?]|?]; [left|by right]. split; [|done]. by apply elem_ptr_remove.
  - intros xp Hx Hn. destruct Hn. apply list_elem_of_fmap. by exists xp.
  - intros xp Hx Hn. destruct (st_kept _ _ _ _ H xp Hx Hn) as (j & p & Hj & Ej & Ep). exists j, p.
    assert (j <> i) as Hne.
    { intros ->. rewrite E in Ej. injection Ej as <-. apply Epi. rewrite Ep. apply list_elem_of_fmap. by exists xp. }
    rewrite Ei2 by done. split_and!; try done. by apply elem_ptr_remove.
  - intros j Hj. apply elem_ptr_remove. split; [apply Hl; by right|]. by intros ->.
  - intros j p [Hj Hne]%elem_ptr_remove Hjl Ej. rewrite Ei2 in Ej by done. apply (Hkn j); [done| |done]. by intros [? |?]%elem_of_cons.
Qed.

Lemma rest_inames xp R l : inact = l ++ xp :: R -> pwc_ifname xp ∉ pw_names R /\ pwc_good xp /\ xp ∈ inact.
Proof.
  intros E. pose proof (vg_names xl (mg_good _ _ _ Hmg)) as Hn. pose proof (vg_pws xl (mg_good _ _ _ Hmg)) as Hg.
  unfold pw_names in *. rewrite map_app in Hn. apply NoDup_app in Hn as (_ & _ & Hn). apply Forall_app in Hg as [_ Hg].
  rewrite E in *. rewrite map_app in *. cbn [map] in *. apply NoDup_app in Hn as (_ & _ & Hn).
  apply NoDup_cons in Hn as [Hn _]. apply Forall_app in Hg as [_ Hg]. apply Forall_cons in Hg as [Hg _]. split_and!; try done.
  apply elem_of_app. right. by left.
Qed.
Lemma settling_next xp R aux s v s' v' : settling (xp :: R) aux s v ->
  conf_inv (aux_at nm aux) all_done s' -> others nm s s' -> vpn_find (l_vpns s') nm = Some v' -> vp_pw_type v' = vp_pw_type v ->
  (forall i pw, i ∈ vp_pws v' \/ i ∈ aux -> id_at s' i = Some pw ->
     pw_ifname pw = pwc_ifname xp \/ ((i ∈ vp_pws v \/ i ∈ aux) /\ id_at s i = Some pw)) ->
  (forall i pw, id_at s i = Some pw -> pw_ifname pw <> pwc_ifname xp ->
     id_at s' i = Some pw /\ (i ∈ vp_pws v -> i ∈ vp_pws v') /\ (i ∈ vp_inact v -> i ∈ vp_inact v')) ->
  (exists i q, id_at s' i = Some q /\ pw_is q xp /\
     (i ∈ vp_pws v' /\ pw_disabled xp = false \/ i ∈ vp_inact v' /\ (~ named s (vp_inact v) (pwc_ifname xp) \/ pw_disabled xp = true))) ->
  (forall i pw, i ∈ vp_inact v' -> id_at s' i = Some pw -> pw_ifname pw = pwc_ifname xp \/ (i ∈ vp_inact v /\ id_at s i = Some pw)) ->
  settling R aux s' v' /\ (inact_known s v -> inact_known s' v').
Proof.
  intros [H Hot Hv Ht [l Hr] Ha Hna Hdo Hid Hke] H' Hot' Hv' Ht' Hx Hk Hn Hix. destruct (rest_inames _ _ _ Hr) as (Nr & _ & Nx). split.
  2: { intros Hkn i pw Hi E. destruct (Hix i pw Hi E) as [-> |[Hi' E']]; [apply list_elem_of_fmap; by exists xp|by eapply Hkn]. }
  split; try done.
  - by etransitivity.
  - congruence.
  - exists (l ++ [xp]). by rewrite <- app_assoc.
  - intros i pw Hi E. destruct (Hx i pw Hi E) as [-> |[Hi' E']]; [done|]. intros Hc. apply (Ha i pw Hi' E'). by right.
  - intros i pw Hi E. destruct (Hx i pw Hi E) as [-> |[Hi' E']]; [|by eapply Hna]. unfold pw_names. rewrite map_app. apply elem_of_app. right.
    apply list_elem_of_fmap. by exists xp.
  - intros yp Hy. destruct (Hdo yp Hy) as (i & q & E & Hq & Hc). exists i, q. destruct (Hk i q E) as (E' & K1 & _).
    { destruct Hq as [-> _]. pose proof (vg_names xl (mg_good _ _ _ Hmg)) as Hd. unfold pw_names in Hd. rewrite map_app in Hd.
      apply NoDup_app in Hd as (_ & Hd & _). intros En. apply (Hd (pwc_ifname yp)); [apply list_elem_of_fmap; by exists yp|].
      rewrite En. apply list_elem_of_fmap. by exists xp. }
    split_and!; try done. destruct Hc as [[? ?]|?]; [left|by right]. split; [by apply K1|done].
  - intros yp Hy Hny. destruct (decide (pwc_ifname yp = pwc_ifname xp)) as [En|En].
    + assert (yp = xp) as ->.
      { pose proof (vg_names xl (mg_good _ _ _ Hmg)) as Hd. unfold pw_names in Hd. rewrite map_app in Hd. apply NoDup_app in Hd as (_ & _ & Hd).
        apply list_elem_of_lookup in Nx as [a Ea], Hy as [b Eb]. assert (a = b) as ->; [|congruence].
        eapply NoDup_lookup; [exact Hd|by rewrite list_lookup_fmap, Ea|rewrite list_lookup_fmap, Eb; cbn; by rewrite En]. }
      destruct Hn as (i & q & E & Hq & Hc). exists i, q. split_and!; try done. destruct Hc as [?|[? [Hf|?]]]; [by left|right..]; [|tauto].
      split; [done|]. left. intros Hk'. apply Hf, Hke; [left|done].
    + destruct (Hid yp Hy) as (i & q & E & Hq & Hc). { by intros [?|?]%elem_of_cons. }
      exists i, q. destruct (Hk i q E) as (E' & K1 & K2). { by destruct Hq as [-> _]. }
      split_and!; try done. destruct Hc as [[? ?]|[? ?]]; [left|right]; auto.
  - intros yp Hy Hny. destruct (Hke yp) as (i & pw & Hi & E & En); [by right|done|]. exists i, pw. destruct (Hk i pw E) as (E' & _ & K2).
    { rewrite En. intros Hc. apply Nr. rewrite <- Hc. apply list_elem_of_fmap. by exists yp. }
    split_and!; auto.
Qed.

Section Inactive.
Context (xp : pw_conf) (R : list pw_conf) (aux : list nat) (s : lde) (v : lvpn) (H : settling (xp :: R) aux s v).
Lemma settling_facts : v ∈ l_vpns s /\ vp_name v = nm /\ pwc_ifname xp ∉ pw_names R /\ pwc_good xp /\ xp ∈ inact.
Proof.
  destruct (vpn_find_in _ _ _ (st_find _ _ _ _ H)) as [Hvin Hnm]. destruct (st_rest _ _ _ _ H) as [l Hr].
  destruct (rest_inames _ _ _ Hr) as (? & ? & ?). done.
Qed.

Lemma settle_new : (forall i pw, i ∈ vp_ptrs v -> id_at s i = Some pw -> pw_ifname pw <> pwc_ifname xp) ->
  exists s', (do i <- pw_alloc (pw_of_conf (vp_pw_type v) (vp_mtu v) xp); mod_vpn nm (add_inactive i)) s = Ok (tt, s') /\
    exists v', settling R aux s' v' /\ (inact_known s v -> inact_known s' v').
Proof.
  intros Hfresh. destruct settling_facts as (Hvin & Hnm & Nr & (Ha & Hl & Hid) & _). pose proof (st_inv _ _ _ _ H) as Hci.
  set (q := pw_of_conf (vp_pw_type v) (vp_mtu v) xp). set (i := length (l_pws s)).
  exists (set_l_vpns (heap_new s q) (vpn_update nm (add_inactive i) (l_vpns s))). split; [done|]. exists (add_inactive i v).
  apply (settling_next xp R aux s v); try done.
  - apply (new_step _ _ nm (add_inactive i) s v q); try done; [apply H| | |].
    + unfold vp_ptrs. cbn. symmetry. apply Permutation_middle.
    + split_and!; try done. unfold q, l2vpn_pw_fec. cbn. split_and!; [by apply Hci|done..].
    + intros j pw [Hj|Hj]%elem_of_app Ej; [by eapply Hfresh|]. rewrite aux_at_same in Hj.
      pose proof (st_act _ _ _ _ H j pw (or_intror Hj) Ej) as Hn. intros En. apply Hn. rewrite En. left.
  - apply (others_at _ _ nm s _ v Hci); [apply H|intros w Hw; by apply (others_update nm (add_inactive i) s)|].
    intros j [? Hj] _. change (id_at (set_l_vpns ?a ?b) j) with (id_at a j). rewrite id_at_new, decide_False; [done|].
    intros ->. by rewrite id_at_fresh in Hj.
  - apply update_find; [done|apply H].
  - intros j pw Hj. change (id_at (set_l_vpns ?a ?b) j) with (id_at a j). rewrite id_at_new. case_decide; [|by right].
    intros [= <-]. by left.
  - intros j pw Ej _. change (id_at (set_l_vpns ?a ?b) j) with (id_at a j). rewrite id_at_new, decide_False.
    2: { intros ->. by rewrite id_at_fresh in Ej. }
    split_and!; try done. intros Hj. by right.
  - exists i, (pw_ident q). change (id_at (set_l_vpns ?a ?b) i) with (id_at a i). rewrite id_at_new. fold i. rewrite decide_True by done.
    split_and!; [done|apply is_of_conf|]. right. split; [left|]. left. intros (j & pw & Hj & Ej & En). eapply (Hfresh j); [|done..].
    apply elem_of_app. by right.
  - intros j pw [-> |Hj]%elem_of_cons; change (id_at (set_l_vpns ?a ?b) ?k) with (id_at a k); rewrite id_at_new.
    + fold i. rewrite decide_True by done. intros [= <-]. by left.
    + case_decide; [intros [= <-]; by left|]. by right.
Qed.

Context (i : nat) (pw : l2vpn_pw) (Hi : i ∈ vp_inact v) (Ei : id_at s i = Some pw) (En : pw_ifname pw = pwc_ifname xp).
Lemma settle_old : exists s', (upd_pw i (pw_assign xp) ;;;
    if pw_disabled xp then ret tt else mod_vpn nm (fun v => add_active i (drop_pw i v)) ;;; l2vpn_pw_init i) s = Ok (tt, s') /\
  exists v', settling R aux s' v' /\ (inact_known s v -> inact_known s' v').
Proof.
  destruct settling_facts as (Hvin & Hnm & Nr & (Hxa & Hxl & Hxi) & Hx). pose proof (st_inv _ _ _ _ H) as Hci.
  destruct (inact_unowned _ _ s v i Hci Hvin Hi) as [Hna Hno].
  assert (i ∈ vp_ptrs v) as Hip by (apply elem_of_app; by right).
  assert (i ∈ vp_ptrs v ++ aux_at nm aux (vp_name v)) as Hip' by (apply elem_of_app; by left).
  destruct (run_upd s i pw (pw_assign xp) Ei) as (q & Eq & Ru). rewrite (bind_ok _ _ _ _ _ Ru). set (q' := pw_assign xp q) in *.
  destruct (ci_pw _ _ _ Hci v i Hvin Hip') as (pw' & E' & G1 & G2 & G3 & _). rewrite Ei in E'. injection E' as <-.
  assert (pw_good v (pw_ident q')) as Hg by (subst pw; split_and!; try done).
  assert (conf_inv (aux_at nm aux) all_done (heap_put s i (Some q'))) as C1.
  { apply (put_step _ _ s v i pw); try done. intros f Ho. by destruct (Hno f). }
  set (s1 := heap_put s i (Some q')) in *.
  assert (forall j, id_at s1 j = if decide (i = j) then Some (pw_ident q') else id_at s j) as Eid.
  { intros j. unfold s1. by rewrite id_at_put by (by exists pw). }
  assert (others nm s s1) as Ho1.
  { apply (others_at _ _ nm s s1 v Hci); [apply H|done|]. intros j _ Hj. rewrite Eid, decide_False; [done|]. intros <-. by rewrite Hnm in Hip'. }
  destruct (pw_disabled xp) eqn:Ed.
  { exists s1. split; [done|]. exists v. apply (settling_next xp R aux s v); try done; [apply H|intros j p Hj; rewrite Eid|..].
    - case_decide; [|by right]. intros [= <-]. by left.
    - intros j p Ej Hne. rewrite Eid, decide_False by (intros <-; congruence). done.
    - exists i, (pw_ident q'). rewrite Eid, decide_True by done. split_and!; [done|apply is_assign|]. right. tauto.
    - intros j p Hj. rewrite Eid. case_decide; [intros [= <-]; by left|by right]. }
  assert (vp_pw_type v = T) as Et.
  { rewrite (st_type _ _ _ _ H). destruct (mg_type _ _ _ Hmg) as [?|[_ Hd]]; [done|]. by rewrite (Hd xp Hx) in Ed. }
  set (f := fun v => add_active i (drop_pw i v)). set (s2 := set_l_vpns s1 (vpn_update nm f (l_vpns s1))).
  assert (vpn_find (l_vpns s1) nm = Some v) as Hv1 by apply H.
  assert (vp_ptrs (f v) ≡ₚ vp_ptrs v) as Hperm.
  { unfold f, vp_ptrs. cbn. rewrite (ptr_remove_notin i (vp_pws v)) by done. apply NoDup_Permutation.
    - pose proof (ci_ptrs _ _ _ Hci v Hvin) as Hd. apply NoDup_app in Hd as [Hd _]. apply NoDup_app in Hd as (Hd1 & Hd2 & Hd3).
      change (i :: vp_pws v ++ ptr_remove i (vp_inact v)) with ((i :: vp_pws v) ++ ptr_remove i (vp_inact v)).
      apply NoDup_app. split_and!; [by apply NoDup_cons| |by apply nodup_ptr_remove].
      intros j [-> |Hj]%elem_of_cons [? ?]%elem_ptr_remove; [done|]. by apply (Hd2 j).
    - pose proof (ci_ptrs _ _ _ Hci v Hvin) as Hd. by apply NoDup_app in Hd as [Hd _].
    - intros j. rewrite elem_of_cons, !elem_of_app, elem_ptr_remove. destruct (decide (j = i)) as [-> |?]; tauto. }
  assert (conf_inv (aux_at nm aux) all_done s2) as C2.
  { apply (list_step (aux_at nm aux) _ (aux_at nm aux) nm f s1 v); try done.
    - rewrite Hperm. pose proof (ci_ptrs _ _ _ C1 v Hvin) as Hd. by rewrite Hnm in Hd.
    - intros j. by rewrite Hperm.
    - intros g j p Ho Hj _ He. split; [|done]. unfold f. cbn. right. apply elem_ptr_remove. split; [done|]. by intros ->. }
  assert (vpn_find (l_vpns s2) nm = Some (f v)) as Hv2 by (by apply update_find).
  destruct (vpn_find_in _ _ _ Hv2) as [Hvin2 _].
  assert (id_at s2 i = Some (pw_ident q')) as Ei2 by (change (id_at s2 i) with (id_at s1 i); by rewrite Eid, decide_True).
  destruct (init_step _ _ s2 (f v) i (pw_ident q') C2 Hvin2) as (s3 & Er & C3 & Hids); [left|done|left; split_and!; try done; [by intros []|]|].
  { unfold fec_as, l2vpn_pw_fec. destruct Hg as [Hgt _]. cbn in *. by rewrite Hgt, Et. }
  exists s3. split; [unfold mod_vpn; by rewrite (bind_ok (modify _) _ _ _ _ eq_refl)|]. exists (f v).
  apply (settling_next xp R aux s v); try done; [|by rewrite (vpns_ids _ _ Hids)|..].
  { etransitivity; [done|]. etransitivity; [by apply (others_update nm f s1)|by apply others_ids]. }
  - intros j p Hj. rewrite (id_at_ids _ _ _ Hids).
    change (id_at s2 j) with (id_at s1 j). rewrite Eid. case_decide as Eij; [intros [= <-]; by left|]. intros Ej. right. split; [|done].
    destruct Hj as [[? |[? _]%elem_ptr_remove]%elem_of_cons|?]; [by subst|tauto..].
  - intros j p Ej Hne. assert (i <> j) as Hij by (intros <-; congruence). rewrite (id_at_ids _ _ _ Hids).
    change (id_at s2 j) with (id_at s1 j). rewrite Eid, decide_False by done. split_and!; try done.
    + intros Hj. right. by apply elem_ptr_remove.
    + intros Hj. by apply elem_ptr_remove.
  - exists i, (pw_ident q'). rewrite (id_at_ids _ _ _ Hids), Ei2. split_and!; [done|apply is_assign|]. left. split; [left|done].
  - intros j p [Hj Hne]%elem_ptr_remove. rewrite (id_at_ids _ _ _ Hids). change (id_at s2 j) with (id_at s1 j).
    rewrite Eid, decide_False by done. by right.
Qed.
End Inactive.

Lemma settling_step xp R aux s : (exists v, settling (xp :: R) aux s v /\ inact_known s v) ->
  exists s', merge_ipw_lde nm xp s = Ok (tt, s') /\ exists v', settling R aux s' v' /\ inact_known s' v'.
Proof.
  intros (v & H & Hkn). enough (exists s', merge_ipw_lde nm xp s = Ok (tt, s') /\ exists v', settling R aux s' v' /\
    (inact_known s v -> inact_known s' v')) as (s' & E & v' & H1 & H2) by (exists s'; split; [done|]; exists v'; auto). destruct (settling_facts xp R aux s v H) as (Hvin & Hnm & Nr & Hg & _).
  unfold merge_ipw_lde. rewrite (bind_ok _ _ _ _ _ (run_the_vpn _ _ _ (st_find _ _ _ _ H))).
  destruct (run_find s v (pwc_ifname xp)) as (r & Er & Hr).
  { intros i Hi. eapply (ci_live _ _ s v); [apply H|done|]. apply elem_of_app. by left. }
  rewrite (bind_ok _ _ _ _ _ Er). destruct r as [i|]; [|by apply (settle_new xp R aux s v H)].
  destruct Hr as (Hi & pw & Ei & En). apply (settle_old xp R aux s v H i pw); try done.
  apply elem_of_app in Hi as [Hi|?]; [|done]. pose proof (st_act _ _ _ _ H i pw (or_introl Hi) Ei) as Hn. destruct Hn. rewrite En. left.
Qed.

(** ** The new parameters *)
Lemma settled aux s v : settling [] aux s v -> exists s' w',
  (mod_vpn nm (fun v => set_vp_lists (vp_pws v) (rev aux ++ vp_inact v) v) ;;; vpn_params nm [] T M ;;;
   mod_vpn nm (set_vp_bridge (lv_br_ifname xl) (lv_br_ifindex xl))) s = Ok (tt, s') /\ pws_ok s' /\ others nm s0 s' /\
  vpn_find (l_vpns s') nm = Some w' /\ vp_pws w' = vp_pws v /\ vp_inact w' = rev aux ++ vp_inact v /\ vp_pw_type w' = T /\
  forall i, i ∈ vp_ptrs w' -> id_at s' i = set_pw_params T M <$> id_at s i.
Proof.
  intros H. destruct (vpn_find_in _ _ _ (st_find _ _ _ _ H)) as [Hvin Hnm]. pose proof (st_inv _ _ _ _ H) as Hci.
  set (f := fun v => set_vp_lists (vp_pws v) (rev aux ++ vp_inact v) v).
  assert (vp_ptrs (f v) ++ no_aux nm ≡ₚ vp_ptrs v ++ aux) as Hperm.
  { unfold vp_ptrs, f, no_aux. cbn. rewrite app_nil_r, <- app_assoc. f_equiv. rewrite (Permutation_app_comm (vp_inact v)). f_equiv. symmetry. apply Permutation_rev. }
  set (s1 := set_l_vpns s (vpn_update nm f (l_vpns s))).
  assert (conf_inv no_aux all_done s1) as C1.
  { apply (list_step (aux_at nm aux) _ no_aux nm f s v); try done; [apply H| | |].
    - intros n Hn. by rewrite aux_at_other.
    - rewrite Hperm. pose proof (ci_ptrs _ _ _ Hci v Hvin) as Hd. by rewrite Hnm, aux_at_same in Hd.
    - intros i. by rewrite Hperm, aux_at_same. }
  assert (vpn_find (l_vpns s1) nm = Some (f v)) as Hv1 by (apply update_find; [done|apply H]).
  destruct (vpn_find_in _ _ _ Hv1) as [Hvin1 Hnm1].
  set (s2 := heap_params (set_l_vpns s1 (vpn_update nm (set_vp_params T M) (l_vpns s1))) (vp_pws (f v) ++ vp_inact (f v) ++ []) T M).
  assert (vp_pws (f v) ++ vp_inact (f v) ++ [] = vp_ptrs (f v)) as Ep by (by rewrite app_nil_r).
  assert (forall j, id_at s2 j = if decide (j ∈ vp_ptrs (f v)) then set_pw_params T M <$> id_at s1 j else id_at s1 j) as Eid.
  { intros j. unfold s2. by rewrite id_at_params, Ep. }
  assert (conf_inv no_aux own_fec s2) as C2.
  { apply (conf_inv_at nm (set_vp_params T M) no_aux no_aux all_done own_fec s1 s2 (f v)); try done.
    - apply Hmg.
    - apply lib_params, lib_set_vpns; [apply C1|]. intros j (w & Hw & Hj)%active_in. apply id_live, active_live; [apply C1|].
      apply in_vpn_update in Hw as (u & Hu & [[_ ->]|[_ ->]]); by eapply in_active.
    - apply C1.
    - pose proof (ci_ptrs _ _ _ C1 (f v) Hvin1) as Hd. by rewrite Hnm1 in Hd.
    - by left.
    - intros i Hi. destruct (ci_pw _ _ _ C1 (f v) i Hvin1) as (pw & E & G1 & G2 & G3 & G4); [by rewrite Hnm1|].
      unfold no_aux in Hi. rewrite app_nil_r in Hi. rewrite Eid, decide_True, E by done. exists (set_pw_params T M pw). split; [done|].
      split_and!; try done. split; [apply Hmg|done].
    - assert (forall i p, i ∈ vp_ptrs (f v) ++ no_aux nm -> id_at s2 i = Some p -> exists p', id_at s1 i = Some p' /\ pw_ifname p' = pw_ifname p) as Hx.
      { intros i p _. rewrite Eid. case_decide; [|by exists p]. intros (p' & E & ->)%fmap_Some. by exists p'. }
      intros i j pi pj Hi Hj Ei Ej En. destruct (Hx i pi Hi Ei) as (pi' & Ei' & Ni), (Hx j pj Hj Ej) as (pj' & Ej' & Nj).
      apply (ci_uniq _ _ _ C1 (f v) i j pi' pj'); try done. congruence.
    - intros i Hi _. unfold no_aux in Hi. rewrite app_nil_r in Hi. by rewrite Eid, decide_False.
    - intros g j Hj. change (owns s1 g j) in Hj. destruct (ci_owned _ _ _ C1 g j Hj) as (w & p & Hw & Hjw & Ej & Hew).
      destruct (decide (vp_name w = nm)) as [En|En].
      + left. assert (w = f v) as -> by (apply (same_vpn (l_vpns s1)); [apply C1|done..|by rewrite En]).
        exists (set_pw_params T M p). split_and!; [done| |].
        * rewrite Eid, decide_True, Ej; [done|]. apply elem_of_app. by left.
        * destruct Hew as [(_ & _ & ->)|[[?|[]] _]]; done.
      + right. exists w, p. split_and!; try done. destruct Hew as [(? & _)|[_ ->]]; done. }
  set (g := set_vp_bridge (lv_br_ifname xl) (lv_br_ifindex xl)).
  assert (vpn_find (l_vpns s2) nm = Some (set_vp_params T M (f v))) as Hv2 by (by apply update_find).
  destruct (vpn_find_in _ _ _ Hv2) as [Hvin2 Hnm2].
  exists (set_l_vpns s2 (vpn_update nm g (l_vpns s2))), (g (set_vp_params T M (f v))). split_and!; [| | |by apply update_find|done..|].
  - unfold mod_vpn. rewrite (bind_ok (modify _) _ _ _ _ eq_refl). fold f s1.
    by rewrite (bind_ok _ _ _ _ _ (run_params s1 nm (f v) [] T M Hv1)).
  - apply (list_step no_aux own_fec no_aux nm g s2 _ C2 Hv2); try done.
    pose proof (ci_ptrs _ _ _ C2 _ Hvin2) as Hd. by rewrite Hnm2 in Hd.
  - etransitivity; [apply H|]. etransitivity; [by apply (others_update nm f s)|]. fold s1.
    etransitivity; [|by apply (others_update nm g s2)].
    apply (others_at no_aux all_done nm s1 s2 (f v) C1 Hv1); [by apply (others_update nm (set_vp_params T M) s1)|].
    intros j _ Hj. unfold no_aux in Hj. rewrite app_nil_r in Hj. by rewrite Eid, decide_False.
  - intros i Hi. change (id_at s2 i = set_pw_params T M <$> id_at s1 i). by rewrite Eid, decide_True.
Qed.

(** What the L2VPN has become. *)
Lemma settled_names aux s v i pw : settling [] aux s v -> inact_known s v -> i ∈ vp_pws v \/ i ∈ vp_inact v \/ i ∈ aux ->
  id_at s i = Some pw -> exists xp, xp ∈ act ++ inact /\ pw_is pw xp /\
    (fresh_sorted s0 v0 xl -> if pw_disabled xp then i ∈ aux \/ i ∈ vp_inact v else i ∈ vp_pws v).
Proof.
  intros H Hkn Hi E. destruct (vpn_find_in _ _ _ (st_find _ _ _ _ H)) as [Hvin Hnm].
  assert (pw_ifname pw ∈ pw_names (act ++ inact)) as Hn.
  { destruct Hi as [Hi|[Hi|Hi]]; [by eapply (st_names _ _ _ _ H); [left|]| |by eapply (st_names _ _ _ _ H); [right|]].
    unfold pw_names. rewrite map_app. apply elem_of_app. right. by eapply Hkn. }
  apply list_elem_of_fmap in Hn as (xp & En & Hx). exists xp. split; [done|].
  assert (forall j q, j ∈ vp_pws v \/ j ∈ vp_inact v \/ j ∈ aux -> id_at s j = Some q -> pw_is q xp -> j = i /\ q = pw) as Hu.
  { intros j q Hj Ej [Hq _]. assert (j = i) as ->; [|split; [done|congruence]].
    apply (ci_uniq _ _ _ (st_inv _ _ _ _ H) v j i q pw); try done; [| |congruence].
    - rewrite Hnm, aux_at_same. unfold vp_ptrs. rewrite !elem_of_app. tauto.
    - rewrite Hnm, aux_at_same. unfold vp_ptrs. rewrite !elem_of_app. tauto. }
  pose proof Hx as Hx'. apply elem_of_app in Hx' as [Hxa|Hxi].
  - destruct (st_done _ _ _ _ H xp Hxa) as (j & q & Ej & Hq & Hc). destruct (Hu j q) as [-> ->]; [tauto|done..|]. split; [done|].
    intros Hfs. destruct Hc as [[Hj [Hf| -> ]]|[Hj ->]]; [|done|by left]. destruct (pw_disabled xp) eqn:Ed; [|done]. destruct Hf. by apply Hfs.
  - destruct (st_idone _ _ _ _ H xp Hxi) as (j & q & Ej & Hq & Hc); [by intros ?%elem_of_nil|]. destruct (Hu j q) as [-> ->]; [tauto|done..|].
    split; [done|]. intros Hfs. destruct Hc as [[Hj ->]|[Hj [Hf| -> ]]]; [done| |by right]. destruct (pw_disabled xp) eqn:Ed; [by right|].
    destruct Hf. by apply Hfs.
Qed.
Lemma settled_is aux s v s' w : settling [] aux s v -> inact_known s v -> vp_pws w = vp_pws v -> vp_inact w = rev aux ++ vp_inact v ->
  vp_pw_type w = T -> (forall i, i ∈ vp_ptrs w -> id_at s' i = set_pw_params T M <$> id_at s i) ->
  vpn_is s' xl w /\ (fresh_sorted s0 v0 xl -> vpn_sorted s' w).
Proof.
  intros H Hkn Ea Ei Et Hid. destruct (vpn_find_in _ _ _ (st_find _ _ _ _ H)) as [Hvin Hnm].
  assert (forall i, i ∈ vp_ptrs w <-> i ∈ vp_pws v \/ i ∈ vp_inact v \/ i ∈ aux) as Hp.
  { intros i. unfold vp_ptrs. rewrite Ea, Ei, !elem_of_app, <- Permutation_rev. tauto. }
  assert (forall i, i ∈ vp_ptrs w -> exists pw, id_at s i = Some pw /\ id_at s' i = Some (set_pw_params T M pw)) as Hlive.
  { intros i Hi. destruct (ci_at _ _ s v i (st_inv _ _ _ _ H) Hvin) as (pw & E & _).
    - rewrite Hnm, aux_at_same. unfold vp_ptrs. rewrite !elem_of_app. apply Hp in Hi. tauto.
    - exists pw. split; [done|]. by rewrite (Hid i Hi), E. }
  pose proof (ci_ptrs _ _ _ (st_inv _ _ _ _ H) v Hvin) as Hnd. rewrite Hnm, aux_at_same in Hnd.
  apply NoDup_app in Hnd as (Hnd1 & Hnd2 & _). apply NoDup_app in Hnd1 as (_ & Hnd1 & _).
  assert (forall xp, xp ∈ act ++ inact -> exists i pw, (i ∈ vp_pws v \/ i ∈ vp_inact v \/ i ∈ aux) /\ id_at s i = Some pw /\ pw_is pw xp) as Hall.
  { intros xp Hx. apply elem_of_app in Hx as [Hx|Hx].
    - destruct (st_done _ _ _ _ H xp Hx) as (j & q & Ej & Hq & Hc). exists j, q. split_and!; tauto.
    - destruct (st_idone _ _ _ _ H xp Hx) as (j & q & Ej & Hq & Hc); [by intros ?%elem_of_nil|]. exists j, q. split_and!; tauto. }
  split; [split; [done|..]|intros Hfs; split].
  - intros i Hi. destruct (Hlive i Hi) as (pw & E & E'). destruct (settled_names aux s v i pw H Hkn) as (xp & Hx & Hq & _); [by apply Hp|done|].
    by exists (set_pw_params T M pw), xp.
  - intros xp Hx. destruct (Hall xp Hx) as (i & pw & Hi & E & Hq). exists i, (set_pw_params T M pw). apply Hp in Hi. split_and!; try done.
    by rewrite (Hid i Hi), E.
  - intros i pw Hi E. assert (i ∈ vp_ptrs w) as Hi' by (apply elem_of_app; by left). destruct (Hlive i Hi') as (q & Eq & E').
    rewrite E' in E. injection E as <-. rewrite Ea in Hi. destruct (settled_names aux s v i q H Hkn) as (xp & Hx & Hq & Hs); [by left|done|].
    change (pw_off q = false). rewrite (is_off q xp Hq). specialize (Hs Hfs). destruct (pw_disabled xp); [|done].
    destruct Hs as [Hs|Hs]; [exfalso; apply (Hnd2 i); [apply elem_of_app; by left|done]|exfalso; by apply (Hnd1 i)].
  - intros i pw Hi E. assert (i ∈ vp_ptrs w) as Hi' by (apply elem_of_app; by right). destruct (Hlive i Hi') as (q & Eq & E').
    rewrite E' in E. injection E as <-. rewrite Ei, elem_of_app, <- Permutation_rev in Hi.
    destruct (settled_names aux s v i q H Hkn) as (xp & Hx & Hq & Hs); [tauto|done|].
    change (pw_off q = true). rewrite (is_off q xp Hq). specialize (Hs Hfs). destruct (pw_disabled xp); [done|].
    destruct Hi as [Hi|Hi]; [exfalso; apply (Hnd2 i); [apply elem_of_app; by left|done]|exfalso; by apply (Hnd1 i)].
Qed.
End Merge.

Section Whole.
(** Merging one L2VPN: it returns, the pseudowires are in order and no other
    L2VPN was touched. *)
Lemma merge_l2vpn_safe s v xl : pws_ok s -> v ∈ l_vpns s -> mergeable s v xl ->
  exists s' w, merge_l2vpn_lde (vp_name v) xl s = Ok (tt, s') /\ pws_ok s' /\ others (vp_name v) s s' /\
    vpn_find (l_vpns s') (vp_name v) = Some w /\ vpn_is s' xl w /\ (fresh_sorted s v xl -> vpn_sorted s' w).
Proof.
  intros H Hv Hm. set (nm := vp_name v). pose proof (vpn_in_find _ _ (ci_names _ _ _ H) Hv) as Hf. fold nm in Hf.
  set (g := fun v => set_vp_ifs (merge_l2vpn_ifs (vp_ifs v) (lv_if_list xl)) v).
  set (s1 := set_l_vpns s (vpn_update nm g (l_vpns s))).
  assert (vpn_find (l_vpns s1) nm = Some (g v)) as Hv1 by (by apply update_find).
  assert (pws_ok s1) as C1.
  { apply (list_step no_aux own_fec no_aux nm g s v H Hf); try done. apply (ci_ptrs _ _ _ H v Hv). }
  assert (mergeable s1 (g v) xl) as Hm1.
  { destruct Hm. by split. }
  unfold merge_l2vpn_lde. unfold mod_vpn at 1. rewrite (bind_ok (modify _) _ _ _ _ eq_refl). fold g s1.
  rewrite (bind_ok _ _ _ _ _ (run_the_vpn _ _ _ Hv1)). destruct (vpn_find_in _ _ _ Hv1) as [Hvin1 Hnm1].
  destruct (foreach_steps (fun l s => exists v', gone nm xl s1 (g v) l s v') (pw_gone nm xl) (vp_pws (g v)) s1) as (s2 & E2 & v2 & H2).
  { intros i l t [v' Hg]. destruct (gone_step nm xl s1 (g v) i l t v' Hg) as (t' & v'' & Et & Hg'). exists t'. split; [done|]. by exists v''. }
  { exists (g v). split; try done.
    - pose proof (ci_ptrs _ _ _ C1 (g v) Hvin1) as Hd. apply NoDup_app in Hd as [Hd _]. by apply NoDup_app in Hd as [Hd _]. }
  rewrite (bind_ok _ _ _ _ _ E2).
  destruct (floop_steps (fun R aux s => exists v', merging nm xl s1 (g v) R aux s v') (merge_pw_lde nm xl) (lv_pw_list xl) [] s2)
    as (aux & s3 & E3 & v3 & H3).
  { intros xp R aux t Hg. by apply (merging_step nm xl s1 (g v) Hm1). }
  { exists v2. by apply (gone_merging nm xl s1 (g v)). }
  rewrite (bind_ok _ _ _ _ _ E3). apply (merging_settling nm xl s1 (g v) Hm1) in H3.
  rewrite (bind_ok _ _ _ _ _ (run_the_vpn _ _ _ (st_find _ _ _ _ _ _ _ _ H3))).
  destruct (foreach_steps (fun l s => exists v', settling nm xl s1 (g v) (lv_pw_inactive_list xl) aux s v' /\
      (forall j, j ∈ l -> j ∈ vp_inact v') /\ NoDup l /\
      forall j pw, j ∈ vp_inact v' -> j ∉ l -> id_at s j = Some pw -> pw_ifname pw ∈ pw_names (lv_pw_inactive_list xl))
      (ipw_gone nm xl) (vp_inact v3) s3) as (s4 & E4 & v4 & H4 & _ & _ & H4k).
  { intros i l t Hg. by apply (igone_step nm xl s1 (g v)). }
  { exists v3. split_and!; try done. destruct (vpn_find_in _ _ _ (st_find _ _ _ _ _ _ _ _ H3)) as [Hin3 _].
    pose proof (ci_ptrs _ _ _ (st_inv _ _ _ _ _ _ _ _ H3) v3 Hin3) as Hd. apply NoDup_app in Hd as [Hd _]. by apply NoDup_app in Hd as (_ & _ & Hd). }
  rewrite (bind_ok _ _ _ _ _ E4).
  destruct (foreach_steps (fun R s => exists v', settling nm xl s1 (g v) R aux s v' /\ inact_known xl s v') (merge_ipw_lde nm)
    (lv_pw_inactive_list xl) s4) as (s5 & E5 & v5 & H5 & H5k).
  { intros xp R t Hg. by apply (settling_step nm xl s1 (g v)). }
  { exists v4. split; [done|]. intros j pw Hj. apply H4k; [done|by intros ?%elem_of_nil]. }
  rewrite (bind_ok _ _ _ _ _ E5). destruct (settled nm xl s1 (g v) Hm1 aux s5 v5 H5) as (s6 & w & E6 & H6 & O6 & Fw & Wa & Wi & Wt & Wid).
  destruct (settled_is nm xl s1 (g v) aux s5 v5 s6 w H5 H5k Wa Wi Wt Wid) as [Wis Wso].
  exists s6, w. split_and!; try done; [etransitivity; [by apply (others_update nm g s)|done]|].
  intros [F1 F2]. apply Wso. split; [exact F1|exact F2].
Qed.
End Whole.
