(* ===== verification/LdeConfRun.v ===== *)
(** * Configuration of the lde: whole configurations

    L2VPNs that are gone and L2VPNs that are new, [merge_l2vpns], and that label
    procedures and configurations keep the pseudowires in order. *)
From stdpp Require Import prelude strings list sorting.
From Stdlib Require Import ZArith Lia.
From S2P Require Import Prelude Util Wire Ipc Session Fec Lde LdeLib LdeSafe LdeInv LdeFrame LdePw Hello Discovery Config Engine Parent ConfView LdeConf LdeConfInv LdeConfSteps LdeConfSafe.

(** The part of the invariant that is about the L2VPNs only. *)
Record vpns_inv (s : lde) : Prop := {
  vi_names : NoDup (map vp_name (l_vpns s));
  vi_type v : v ∈ l_vpns s -> is_u 16 (vp_pw_type v);
  vi_ptrs v : v ∈ l_vpns s -> NoDup (vp_ptrs v);
  vi_disj v w i : v ∈ l_vpns s -> w ∈ l_vpns s -> i ∈ vp_ptrs v -> i ∈ vp_ptrs w -> vp_name v = vp_name w;
  vi_pw v i : v ∈ l_vpns s -> i ∈ vp_ptrs v -> exists pw, id_at s i = Some pw /\ pw_good v pw;
  vi_uniq v i j pi pj : v ∈ l_vpns s -> i ∈ vp_ptrs v -> j ∈ vp_ptrs v ->
    id_at s i = Some pi -> id_at s j = Some pj -> pw_ifname pi = pw_ifname pj -> i = j
}.
Definition owned_by (s : lde) (f : fec) (i : nat) : Prop :=
  exists v pw, v ∈ l_vpns s /\ i ∈ vp_pws v /\ id_at s i = Some pw /\ f = l2vpn_pw_fec pw.

Section Parts.
Lemma pws_ok_parts s : pws_ok s <-> lib_ok s /\ shaped s /\ vpns_inv s /\ forall f i, owns s f i -> owned_by s f i.
Proof.
  assert (forall v, vp_ptrs v ++ no_aux (vp_name v) = vp_ptrs v) as Ea by (intros; apply app_nil_r). split.
  - intros [H1 H2 H3 HT H4 H5 H6 H7 H8]. split_and!; try done. split; try done.
    + intros v Hv. rewrite <- Ea. by apply H4.
    + intros v w i. rewrite <- (Ea v), <- (Ea w). apply H5.
    + intros v i. rewrite <- (Ea v). apply H6.
    + intros v i j pi pj. rewrite <- (Ea v). apply H7.
  - intros (H1 & H2 & [H3 HT H4 H5 H6 H7] & H8). split; try done.
    + intros v Hv. rewrite Ea. by apply H4.
    + intros v w i. rewrite !Ea. apply H5.
    + intros v i. rewrite Ea. apply H6.
    + intros v i j pi pj. rewrite Ea. apply H7.
Qed.
Lemma vpns_inv_mono s s' : vpns_inv s -> sublist (l_vpns s') (l_vpns s) ->
  (forall v i, v ∈ l_vpns s' -> i ∈ vp_ptrs v -> id_at s' i = id_at s i) -> vpns_inv s'.
Proof.
  intros [H1 H2 H3 H4 H5 H6] Hs Hid. assert (forall v, v ∈ l_vpns s' -> v ∈ l_vpns s) as Hin.
  { intros v Hv. by eapply elem_of_sublist. }
  split.
  - eapply sublist_NoDup; [exact H1|]. by apply (fmap_sublist vp_name).
  - intros v Hv. by apply H2, Hin.
  - intros v Hv. by apply H3, Hin.
  - intros v w i Hv Hw. by apply (H4 v w i); apply Hin.
  - intros v i Hv Hi. rewrite (Hid v i Hv Hi). apply H5; [by apply Hin|done].
  - intros v i j pi pj Hv Hi Hj. rewrite (Hid v i Hv Hi), (Hid v j Hv Hj). apply (H6 v); [by apply Hin|done..].
Qed.
Lemma vpns_inv_same s s' : vpns_inv s -> l_vpns s' = l_vpns s -> (forall v i, v ∈ l_vpns s -> i ∈ vp_ptrs v -> id_at s' i = id_at s i) -> vpns_inv s'.
Proof. intros H E Hid. apply (vpns_inv_mono s); [done|by rewrite E|]. intros v i. rewrite E. apply Hid. Qed.
Lemma act_ptr v i : i ∈ vp_pws v -> i ∈ vp_ptrs v.
Proof. intros H. apply elem_of_app. by left. Qed.
End Parts.

(** ** L2VPNs that are gone *)
Section Gone.
Context (v : lvpn).
(** The L2VPN has left the list; the pseudowires in [l] still own FECs, those in
    [m] are not freed yet. *)
Record leaving (s0 : lde) (l m : list nat) (s : lde) : Prop := {
  le_lib : lib_ok s;
  le_shaped : shaped s;
  le_vpns : l_vpns s = List.filter (fun w => negb (String.eqb (vp_name w) (vp_name v))) (l_vpns s0);
  le_id w i : w ∈ l_vpns s -> i ∈ vp_ptrs w -> id_at s i = id_at s0 i;
  le_pw i : i ∈ m -> exists pw, id_at s i = Some pw /\ fec_ok (l2vpn_pw_fec pw);
  le_sub i : i ∈ m -> i ∈ vp_ptrs v;
  le_l i : i ∈ l -> i ∈ m;
  le_nodup : NoDup m;
  le_owned f i : owns s f i -> owned_by s f i \/ exists pw, i ∈ l /\ id_at s i = Some pw /\ f = l2vpn_pw_fec pw
}.
Context (s0 : lde) (H0 : pws_ok s0) (Hv : v ∈ l_vpns s0).

Lemma stays w : w ∈ List.filter (fun w => negb (String.eqb (vp_name w) (vp_name v))) (l_vpns s0) <-> w ∈ l_vpns s0 /\ vp_name w <> vp_name v.
Proof. rewrite list_elem_of_In, filter_In, <- list_elem_of_In, negb_true_iff, String.eqb_neq. done. Qed.
Lemma apart w i : w ∈ l_vpns s0 -> vp_name w <> vp_name v -> i ∈ vp_ptrs w -> i ∉ vp_ptrs v.
Proof.
  intros Hw Hn Hi Hc. apply pws_ok_parts in H0 as (_ & _ & HI & _). apply Hn. by apply (vi_disj _ HI w v i).
Qed.
Lemma leaving_start : leaving s0 (vp_pws v) (vp_ptrs v)
  (set_l_vpns s0 (List.filter (fun w => negb (String.eqb (vp_name w) (vp_name v))) (l_vpns s0))).
Proof.
  apply pws_ok_parts in H0 as (Hl & Hs & HI & Ho). split; try done.
  - apply lib_set_vpns; [done|]. intros i (w & [Hw _]%stays & Hi)%active_in. destruct (vi_pw _ HI w i Hw (act_ptr _ _ Hi)) as (pw & E & _). by exists pw.
  - intros i Hi. destruct (vi_pw _ HI v i Hv Hi) as (pw & E & _ & _ & Hok). by exists pw.
  - intros i. apply act_ptr.
  - by apply (vi_ptrs _ HI).
  - intros f i Hf. destruct (Ho f i Hf) as (w & pw & Hw & Hi & E & ->). destruct (decide (vp_name w = vp_name v)) as [En|En].
    + right. exists pw. split_and!; try done. assert (w = v) as -> by (apply (same_vpn (l_vpns s0)); [apply HI|done..]). done.
    + left. exists w, pw. split_and!; try done. by apply stays.
Qed.
Lemma leaving_exit i l m s : leaving s0 (i :: l) m s -> exists s', l2vpn_pw_exit i s = Ok (tt, s') /\ leaving s0 l m s'.
Proof.
  intros [H1 H2 H3 H4 H5 Hsub Hlm Hnd H6]. destruct (H5 i) as (pw & E & Hok); [apply Hlm; left|].
  destruct (exit_owned s i pw H1 H2 E Hok) as (s' & Er & Hl & Hids & Hs & Ho). pose proof (vpns_ids _ _ Hids) as Ev.
  exists s'. split; [done|]. split; try done.
  - by rewrite Ev.
  - intros w j. rewrite Ev, (id_at_ids _ _ _ Hids). apply H4.
  - intros j Hj. rewrite (id_at_ids _ _ _ Hids). by apply H5.
  - intros j Hj. apply Hlm. by right.
  - intros f j [Hne Hf]%Ho. destruct (H6 f j Hf) as [(w & p & Hw & Hj & Ep & ->)|(p & Hj & Ep & ->)].
    + left. exists w, p. rewrite Ev, (id_at_ids _ _ _ Hids). done.
    + right. exists p. rewrite (id_at_ids _ _ _ Hids). apply elem_of_cons in Hj as [-> |Hj]; [|done]. rewrite E in Ep. by injection Ep as ->.
Qed.
Lemma leaving_free i m s : leaving s0 [] (i :: m) s -> exists s', pw_free i s = Ok (tt, s') /\ leaving s0 [] m s'.
Proof.
  intros [H1 H2 H3 H4 H5 Hsub _ [Hni Hnd]%NoDup_cons H6].
  assert (is_Some (id_at s i)) as Hl by (destruct (H5 i) as (pw & E & _); [left|]; by exists pw).
  assert (forall w, w ∈ l_vpns s -> i ∉ vp_ptrs w) as Hap.
  { intros w Hw Hi. rewrite H3 in Hw. apply stays in Hw as [Hw Hn]. apply (apart w i Hw Hn Hi), Hsub. left. }
  exists (heap_put s i None). split; [by apply run_free|]. split; try done.
  - apply lib_free; [done..| |].
    + intros f Hf. destruct (H6 f i Hf) as [(w & p & Hw & Hi & _)|(_ & []%elem_of_nil & _)]. by apply (Hap w Hw), act_ptr.
    + intros (w & Hw & Hi)%active_in. by apply (Hap w Hw), act_ptr.
  - intros w j Hw Hj. rewrite id_at_put by done. case_decide as Eij; [|by apply (H4 w)]. subst. by destruct (Hap w Hw).
  - intros j Hj. rewrite id_at_put by done. case_decide; [by subst|]. apply H5. by right.
  - intros j Hj. apply Hsub. by right.
  - by intros j ?%elem_of_nil.
  - intros f j Hf. change (owns s f j) in Hf. destruct (H6 f j Hf) as [(w & p & Hw & Hj & Ep & ->)|(_ & []%elem_of_nil & _)].
    left. exists w, p. split_and!; try done. rewrite id_at_put by done. case_decide; [|done]. subst. destruct (Hap w Hw). by apply act_ptr.
Qed.

(** The name is not in the new configuration. *)
Lemma vpn_gone_safe xls : exists s', vpn_gone xls v s0 = Ok (tt, s') /\ pws_ok s' /\
  sublist (l_vpns s') (l_vpns s0) /\ (forall w i, w ∈ l_vpns s' -> i ∈ vp_ptrs w -> id_at s' i = id_at s0 i) /\
  (forall w, w ∈ l_vpns s0 -> vp_name w <> vp_name v -> w ∈ l_vpns s') /\
  (l2vpn_find xls (vp_name v) = None -> v ∉ l_vpns s') /\ (is_Some (l2vpn_find xls (vp_name v)) -> s' = s0).
Proof.
  unfold vpn_gone. destruct (l2vpn_find xls (vp_name v)); [exists s0; by split_and!|].
  rewrite (bind_ok (modify _) _ _ _ _ eq_refl). pose proof leaving_start as H1. set (s1 := set_l_vpns _ _) in *.
  destruct (foreach_steps (fun l s => leaving s0 l (vp_ptrs v) s) l2vpn_pw_exit (vp_pws v) s1) as (s2 & E2 & H2); [|done|].
  { intros i l s. apply leaving_exit. }
  destruct (foreach_steps (fun l s => leaving s0 [] (l ++ vp_inact v) s) pw_free (vp_pws v) s2) as (s3 & E3 & H3); [|done|].
  { intros i l s. apply leaving_free. }
  destruct (foreach_steps (fun l s => leaving s0 [] l s) pw_free (vp_inact v) s3) as (s4 & E4 & H4); [|done|].
  { intros i l s. apply leaving_free. }
  exists s4. split. { unfold l2vpn_exit, l2vpn_del. by rewrite (bind_ok _ _ _ _ _ E2), (bind_ok _ _ _ _ _ E3). }
  pose proof (le_vpns _ _ _ _ H4) as Ev. assert (sublist (l_vpns s4) (l_vpns s0)) as Hsl.
  { rewrite Ev. clear. induction (l_vpns s0) as [|w l IH]; [done|]. cbn. case_match; by constructor. }
  split_and!; [|done|apply H4| | |by intros [? [=]]].
  - apply pws_ok_parts. destruct H4 as [H1' H2' H3' H4' _ _ _ _ H6']. split_and!; try done.
    + apply (vpns_inv_mono s0); [by apply pws_ok_parts|done..].
    + intros f i Hf. destruct (H6' f i Hf) as [?|(_ & []%elem_of_nil & _)]. done.
  - intros w Hw Hn. rewrite Ev. by apply stays.
  - intros _ Hc. rewrite Ev in Hc. by apply stays in Hc as [_ []].
Qed.
End Gone.

(** ** New L2VPNs *)
Section New.
Definition fresh_pws (xl : l2vpn) : list pw_conf := lv_pw_list xl ++ lv_pw_inactive_list xl.
Definition heap_app (s : lde) (l : list l2vpn_pw) : lde := set_l_pws s (l_pws s ++ map Some l).
Lemma heap_app_app s l k : heap_app (heap_app s l) k = heap_app s (l ++ k).
Proof. unfold heap_app. cbn. by rewrite map_app, app_assoc. Qed.
Lemma alloc_run t m l s : alloc_pws t m l s = Ok (seq (length (l_pws s)) (length l), heap_app s (map (pw_of_conf t m) l)).
Proof.
  revert s. induction l as [|x l IH]; intros s. { cbn. unfold ret, heap_app. cbn. rewrite app_nil_r. by destruct s. }
  cbn [alloc_pws]. rewrite (bind_ok (pw_alloc _) _ _ _ _ eq_refl). rewrite (bind_ok _ _ _ _ _ (IH _)). unfold ret.
  do 2 f_equal; [cbn; f_equal; by rewrite length_app, Nat.add_1_r|].
  change (set_l_pws s (l_pws s ++ [Some (pw_of_conf t m x)])) with (heap_app s [pw_of_conf t m x]). by rewrite heap_app_app.
Qed.
Lemma id_at_app s l j : id_at (heap_app s l) j =
  if decide (j < length (l_pws s))%nat then id_at s j else pw_ident <$> l !! (j - length (l_pws s))%nat.
Proof.
  unfold id_at, pw_at, heap_app. cbn. case_decide; [by rewrite lookup_app_l|]. rewrite lookup_app_r by lia.
  rewrite list_lookup_fmap. by destruct (l !! _).
Qed.
Lemma live_lt s j : is_Some (id_at s j) -> (j < length (l_pws s))%nat.
Proof. intros [p E]. destruct (decide (j < length (l_pws s))%nat); [done|]. unfold id_at, pw_at in E. by rewrite lookup_ge_None_2 in E by lia. Qed.
Lemma lib_app s l : lib_ok s -> Forall (fun p => LdeSafe.af_ok (pw_af p)) l -> lib_ok (heap_app s l).
Proof.
  revert s. induction l as [|p l IH]; intros s H Hl; [unfold heap_app; cbn; rewrite app_nil_r; by destruct s|].
  apply Forall_cons in Hl as [Hp Hl]. change (p :: l) with ([p] ++ l). rewrite <- heap_app_app. apply IH; [|done]. by apply lib_new.
Qed.

Definition fresh_lvpn (n : nat) (xl : l2vpn) : lvpn :=
  Lvpn (lv_name xl) (lv_type xl) (lv_pw_type xl) (lv_mtu xl) (lv_br_ifname xl) (lv_br_ifindex xl) (lv_if_list xl)
    (seq n (length (lv_pw_list xl))) (seq (n + length (lv_pw_list xl)) (length (lv_pw_inactive_list xl))).
Definition new_pws (xl : l2vpn) : list l2vpn_pw := map (pw_of_conf (lv_pw_type xl) (lv_mtu xl)) (fresh_pws xl).
Lemma lvpn_run xl s : lvpn_of xl s = Ok (fresh_lvpn (length (l_pws s)) xl, heap_app s (new_pws xl)).
Proof.
  unfold lvpn_of. rewrite (bind_ok _ _ _ _ _ (alloc_run _ _ _ _)), (bind_ok _ _ _ _ _ (alloc_run _ _ _ _)).
  rewrite heap_app_app, <- map_app. unfold ret, fresh_lvpn. cbn. by rewrite length_app, !length_map.
Qed.
Lemma new_ptrs n xl : vp_ptrs (fresh_lvpn n xl) = seq n (length (fresh_pws xl)).
Proof. unfold vp_ptrs, fresh_pws. cbn. by rewrite length_app, seq_app. Qed.
Lemma new_at s xl i : i ∈ vp_ptrs (fresh_lvpn (length (l_pws s)) xl) -> exists xp, fresh_pws xl !! (i - length (l_pws s))%nat = Some xp /\
  id_at (heap_app s (new_pws xl)) i = Some (pw_ident (pw_of_conf (lv_pw_type xl) (lv_mtu xl) xp)).
Proof.
  rewrite new_ptrs. intros Hi%elem_of_seq. rewrite id_at_app, decide_False by lia. unfold new_pws. rewrite list_lookup_fmap.
  destruct (lookup_lt_is_Some_2 (fresh_pws xl) (i - length (l_pws s))) as [xp E]; [lia|]. exists xp. by rewrite E.
Qed.

Lemma new_is s s' xl : (forall i, i ∈ vp_ptrs (fresh_lvpn (length (l_pws s)) xl) -> id_at s' i = id_at (heap_app s (new_pws xl)) i) ->
  vpn_is s' xl (fresh_lvpn (length (l_pws s)) xl) /\ (conf_sorted xl -> vpn_sorted s' (fresh_lvpn (length (l_pws s)) xl)).
Proof.
  intros Hid. set (v := fresh_lvpn _ _) in *. split; [split; [done|..]|intros [Sa Si]; split].
  - intros i Hi. destruct (new_at s xl i Hi) as (xp & Ex & E). exists (pw_ident (pw_of_conf (lv_pw_type xl) (lv_mtu xl) xp)), xp.
    split_and!; [by rewrite Hid|by eapply list_elem_of_lookup_2|apply is_of_conf].
  - intros xp Hx. apply list_elem_of_lookup in Hx as [k Ek]. assert (length (l_pws s) + k ∈ vp_ptrs v)%nat as Hi.
    { unfold v. rewrite new_ptrs. apply elem_of_seq. apply lookup_lt_Some in Ek. unfold fresh_pws. lia. }
    destruct (new_at s xl _ Hi) as (xp' & Ex & E). rewrite Nat.add_comm, Nat.add_sub in Ex. unfold fresh_pws in Ex. rewrite Ek in Ex. injection Ex as <-.
    eexists _, _. split; [exact Hi|]. split; [by rewrite Hid|apply is_of_conf].
  - intros i pw Hi. rewrite Hid by (by apply act_ptr). destruct (new_at s xl i (act_ptr _ _ Hi)) as (xp & Ex & ->). intros [= <-].
    cbn in Hi. apply elem_of_seq in Hi. unfold fresh_pws in Ex. rewrite lookup_app_l in Ex by lia.
    exact (Forall_lookup_1 _ _ _ _ Sa Ex).
  - intros i pw Hi. assert (i ∈ vp_ptrs v) as Hi' by (apply elem_of_app; by right). rewrite Hid by done.
    destruct (new_at s xl i Hi') as (xp & Ex & ->). intros [= <-].
    cbn in Hi. apply elem_of_seq in Hi. unfold fresh_pws in Ex. rewrite lookup_app_r in Ex by lia.
    exact (Forall_lookup_1 _ _ _ _ Si Ex).
Qed.

Lemma vpns_inv_new s xl : vpns_inv s -> vpn_find (l_vpns s) (lv_name xl) = None -> vpn_good xl ->
  vpns_inv (set_l_vpns (heap_app s (new_pws xl)) (fresh_lvpn (length (l_pws s)) xl :: l_vpns s)).
Proof.
  intros HI Hf [Hnd Hg Ht]. set (n := length (l_pws s)) in *. set (v := fresh_lvpn n xl). set (s1 := set_l_vpns _ _).
  assert (forall w i, w ∈ l_vpns s -> i ∈ vp_ptrs w -> (i < n)%nat /\ id_at s1 i = id_at s i) as Hold.
  { intros w i Hw Hi. destruct (vi_pw _ HI w i Hw Hi) as (pw & E & _). assert (i < n)%nat by (apply live_lt; by exists pw).
    split; [done|]. change (id_at s1 i) with (id_at (heap_app s (new_pws xl)) i). by rewrite id_at_app, decide_True. }
  assert (forall w i, w ∈ l_vpns s -> i ∈ vp_ptrs w -> i ∈ vp_ptrs v -> False) as Hap.
  { intros w i Hw Hi. unfold v. rewrite new_ptrs. intros Hi'%elem_of_seq. destruct (Hold w i Hw Hi). lia. }
  split; cbn [l_vpns set_l_vpns s1].
  - cbn. apply NoDup_cons. split; [|apply HI]. intros (w & En & Hw)%list_elem_of_fmap.
    pose proof (vpn_in_find _ _ (vi_names _ HI) Hw) as Hc. rewrite <- En in Hc. cbn in Hc. by rewrite Hf in Hc.
  - intros w [-> |Hw]%elem_of_cons; [done|by apply HI].
  - intros w [-> |Hw]%elem_of_cons; [unfold v; rewrite new_ptrs; apply NoDup_seq|by apply HI].
  - intros w u i [-> |Hw]%elem_of_cons [-> |Hu]%elem_of_cons Hi Hj; try done; [by destruct (Hap u i)|by destruct (Hap w i)|].
    by apply (vi_disj _ HI w u i).
  - intros w i [-> |Hw]%elem_of_cons Hi.
    + destruct (new_at s xl i Hi) as (xp & Ex & E). eexists. split; [exact E|]. split_and!; try done.
      apply list_elem_of_lookup_2 in Ex. unfold fresh_pws in Ex. rewrite Forall_forall in Hg. by destruct (Hg xp Ex) as (_ & ? & ?).
    + destruct (Hold w i Hw Hi) as [_ ->]. by apply HI.
  - intros w i j pi pj [-> |Hw]%elem_of_cons Hi Hj.
    + destruct (new_at s xl i Hi) as (xi & Exi & Ei), (new_at s xl j Hj) as (xj & Exj & Ej).
      change (id_at s1 ?k) with (id_at (heap_app s (new_pws xl)) k). rewrite Ei, Ej. intros [= <-] [= <-]. cbn. intros En.
      unfold v in *. rewrite new_ptrs in *. apply elem_of_seq in Hi, Hj.
      enough (i - n = j - n)%nat by lia. eapply (NoDup_lookup (pw_names (fresh_pws xl))); [done|..]; unfold pw_names; rewrite list_lookup_fmap.
      * unfold n. rewrite Exi. done.
      * unfold n. rewrite Exj. cbn. by rewrite En.
    + destruct (Hold w i Hw Hi) as [_ ->], (Hold w j Hw Hj) as [_ ->]. by apply (vi_uniq _ HI w).
Qed.

Lemma vpn_new_safe s xl : pws_ok s -> vpn_find (l_vpns s) (lv_name xl) = None -> vpn_good xl ->
  exists s' w, vpn_merge xl s = Ok (tt, s') /\ pws_ok s' /\ others (lv_name xl) s s' /\
    vpn_find (l_vpns s') (lv_name xl) = Some w /\ vpn_is s' xl w /\ (conf_sorted xl -> vpn_sorted s' w).
Proof.
  intros H Hf Hg. unfold vpn_merge. rewrite (bind_ok get _ s s s) by done. rewrite Hf.
  rewrite (bind_ok _ _ _ _ _ (lvpn_run xl s)), (bind_ok (modify _) _ _ _ _ eq_refl). cbv beta.
  set (v := fresh_lvpn (length (l_pws s)) xl). set (s1 := set_l_vpns _ _).
  apply pws_ok_parts in H as (Hl & Hs & HI & Ho). pose proof (vpns_inv_new s xl HI Hf Hg) as HI1. change (vpns_inv s1) in HI1.
  assert (forall w i, w ∈ l_vpns s -> i ∈ vp_ptrs w -> id_at s1 i = id_at s i) as Hold.
  { intros w i Hw Hi. destruct (vi_pw _ HI w i Hw Hi) as (pw & E & _). change (id_at s1 i) with (id_at (heap_app s (new_pws xl)) i).
    rewrite id_at_app, decide_True; [done|]. apply live_lt. by exists pw. }
  assert (pws_ok s1) as H1.
  { apply pws_ok_parts. split_and!; try done.
    - apply lib_set_vpns; [apply lib_app; [done|]|].
      + unfold new_pws. apply Forall_fmap. destruct Hg as [_ Hg _]. eapply Forall_impl; [exact Hg|]. by intros xp [? _].
      + intros i (w & Hw & Hi)%active_in. destruct (vi_pw _ HI1 w i Hw (act_ptr _ _ Hi)) as (pw & E & _). by exists pw.
    - intros f i Hf'. change (owns s f i) in Hf'. destruct (Ho f i Hf') as (w & pw & Hw & Hi & E & ->). exists w, pw.
      split_and!; try done; [by right|]. by rewrite (Hold w i Hw (act_ptr _ _ Hi)). }
  assert (others (lv_name xl) s s1) as Hot.
  { split; [|intros w i Hw _; by apply (Hold w)]. intros w Hw. cbn. rewrite elem_of_cons. split; [|tauto]. by intros [-> |?]. }
  assert (v ∈ l_vpns s1) as Hv by left.
  destruct (foreach_steps (fun l s => pws_ok s /\ pw_ids s = pw_ids s1 /\ forall i, i ∈ l -> i ∈ vp_pws v) l2vpn_pw_init (vp_pws v) s1)
    as (s2 & E2 & H2 & Hids & _); [|done|].
  { intros i l t (Ht & Hids & Hin). assert (i ∈ vp_pws v) as Hi by (apply Hin; left).
    assert (v ∈ l_vpns t) as Hvt by (by rewrite (vpns_ids _ _ Hids)).
    destruct (ci_pw _ _ _ Ht v i Hvt) as (pw & E & _); [apply elem_of_app; left; by apply act_ptr|].
    destruct (init_step _ _ t v i pw Ht Hvt Hi E eq_refl) as (t' & Er & Ht' & Hids'). exists t'. split; [done|]. split_and!; [done|congruence|].
    intros j Hj. apply Hin. by right. }
  destruct (new_is s s2 xl) as [N1 N2]; [intros i _; by rewrite (id_at_ids _ _ _ Hids)|].
  exists s2, v. split_and!; try done; [etransitivity; [done|]; by apply others_ids|].
  rewrite (vpns_ids _ _ Hids). cbn. by rewrite String.eqb_refl.
Qed.
End New.

(** ** [merge_l2vpns] *)
(** The L2VPNs of a configuration, each mergeable with the one of its name. *)
Definition vpns_mergeable (s : lde) (xls : list l2vpn) : Prop :=
  NoDup (map lv_name xls) /\ forall xl, xl ∈ xls -> vpn_good xl /\ forall v, v ∈ l_vpns s -> vp_name v = lv_name xl -> mergeable s v xl.

(** New pseudowires, also those of new L2VPNs, come in the list they belong to. *)
Definition vpns_fresh (s : lde) (xls : list l2vpn) : Prop := forall xl, xl ∈ xls ->
  (forall v, v ∈ l_vpns s -> vp_name v = lv_name xl -> fresh_sorted s v xl) /\
  ((forall v, v ∈ l_vpns s -> vp_name v <> lv_name xl) -> conf_sorted xl).
(** The L2VPN of the configuration is there. *)
Definition vpn_there (F : Prop) (s : lde) (xl : l2vpn) : Prop :=
  exists w, w ∈ l_vpns s /\ vp_name w = lv_name xl /\ vpn_is s xl w /\ (F -> vpn_sorted s w).

Section Vpns.
Lemma named_ids s s' l n : (forall i, i ∈ l -> id_at s' i = id_at s i) -> named s l n -> named s' l n.
Proof. intros Hid (i & pw & Hi & E & En). exists i, pw. by rewrite Hid. Qed.
Lemma fresh_ids s s' v xl : (forall i, i ∈ vp_ptrs v -> id_at s' i = id_at s i) -> fresh_sorted s v xl -> fresh_sorted s' v xl.
Proof.
  intros Hid [H1 H2]. split; intros xp Hx Hd; eapply named_ids.
  - intros i Hi. by apply Hid, act_ptr.
  - by apply H1.
  - intros i Hi. apply Hid, elem_of_app. by right.
  - by apply H2.
Qed.
Lemma there_others F s s' n xl : others n s s' -> lv_name xl <> n -> vpn_there F s xl -> vpn_there F s' xl.
Proof.
  intros [O1 O2] Hn (w & Hw & En & [I1 I2 I3] & Hs). assert (vp_name w <> n) as Hwn by (by rewrite En).
  assert (forall i, i ∈ vp_ptrs w -> id_at s' i = id_at s i) as Hid by (intros i Hi; by apply (O2 w)).
  exists w. split_and!; [by apply O1|done|split; [done|..]|intros HF; destruct (Hs HF) as [S1 S2]; split].
  - intros i Hi. destruct (I2 i Hi) as (pw & xp & E & ?). exists pw, xp. by rewrite Hid.
  - intros xp Hx. destruct (I3 xp Hx) as (i & pw & Hi & E & ?). exists i, pw. by rewrite Hid.
  - intros i pw Hi. rewrite Hid by (by apply act_ptr). by apply S1.
  - intros i pw Hi. rewrite Hid by (apply elem_of_app; by right). by apply S2.
Qed.
Lemma mergeable_ids s s' v xl : mergeable s v xl -> (forall i, i ∈ vp_ptrs v -> id_at s' i = id_at s i) -> mergeable s' v xl.
Proof.
  intros [H1 H2 H3 H4 H5] Hid. assert (forall i, i ∈ vp_inact v -> i ∈ vp_ptrs v) as Hin by (intros i Hi; apply elem_of_app; by right).
  split; try done.
  - intros i pw Hi. rewrite Hid by (by apply act_ptr). by apply H2.
  - intros i pw Hi. rewrite Hid by (by apply Hin). by apply H3.
  - intros i pw xp Hi. rewrite Hid by (by apply act_ptr). by apply H4.
  - destruct H5 as [?|[Hex ?]]; [by left|right]. split; [|done]. intros xp Hxp. destruct (Hex xp Hxp) as (i & pw & Hi & E & En).
    exists i, pw. rewrite Hid by (by apply act_ptr). done.
Qed.
Lemma mergeable_mono s s' xls : vpns_mergeable s xls -> (forall v, v ∈ l_vpns s' -> v ∈ l_vpns s) ->
  (forall v i, v ∈ l_vpns s' -> i ∈ vp_ptrs v -> id_at s' i = id_at s i) -> vpns_mergeable s' xls.
Proof.
  intros [Hn H] Hin Hid. split; [done|]. intros xl Hxl. destruct (H xl Hxl) as [Hg Hm]. split; [done|]. intros v Hv En.
  apply (mergeable_ids s); [by apply Hm; [apply Hin|]|]. intros i. by apply Hid.
Qed.
Lemma mergeable_others s s' xl xls : vpns_mergeable s (xl :: xls) -> others (lv_name xl) s s' -> vpns_mergeable s' xls.
Proof.
  intros [[Hni Hn]%NoDup_cons H] [O1 O2]. split; [done|]. intros x Hx. destruct (H x) as [Hg Hm]; [by right|]. split; [done|].
  intros v Hv En. assert (vp_name v <> lv_name xl) as Hne.
  { rewrite En. intros Hc. apply Hni. rewrite <- Hc. apply list_elem_of_fmap. by exists x. }
  apply (O1 v Hne) in Hv. apply (mergeable_ids s); [by apply Hm|]. intros i Hi. by eapply O2.
Qed.

Lemma fresh_others s s' xl xls : NoDup (map lv_name (xl :: xls)) -> vpns_fresh s (xl :: xls) -> others (lv_name xl) s s' -> vpns_fresh s' xls.
Proof.
  intros [Hni _]%NoDup_cons H [O1 O2] x Hx. assert (lv_name x <> lv_name xl) as Hne.
  { intros Hc. apply Hni. rewrite <- Hc. apply list_elem_of_fmap. by exists x. }
  destruct (H x) as [H1 H2]; [by right|]. split.
  - intros v Hv En. assert (vp_name v <> lv_name xl) as Hvn by (by rewrite En). apply (O1 v Hvn) in Hv.
    apply (fresh_ids s); [intros i Hi; by apply (O2 v)|by apply H1].
  - intros Hno. apply H2. intros v Hv En. apply (Hno v); [|done]. apply O1; [by rewrite En|done].
Qed.
Lemma vpn_merge_safe s xl : pws_ok s -> vpn_good xl -> (forall v, v ∈ l_vpns s -> vp_name v = lv_name xl -> mergeable s v xl) ->
  exists s', vpn_merge xl s = Ok (tt, s') /\ pws_ok s' /\ others (lv_name xl) s s' /\ vpn_there (vpns_fresh s [xl]) s' xl.
Proof.
  intros H Hg Hm. destruct (vpn_find (l_vpns s) (lv_name xl)) as [v|] eqn:E.
  - unfold vpn_merge. rewrite (bind_ok get _ s s s) by done. rewrite E. destruct (vpn_find_in _ _ _ E) as [Hv En].
    destruct (merge_l2vpn_safe s v xl H Hv (Hm v Hv En)) as (s' & w & Er & H' & Ho & Hw & Hi & Hs). rewrite En in *.
    exists s'. split_and!; try done. destruct (vpn_find_in _ _ _ Hw) as [Hw1 Hw2]. exists w. split_and!; try done.
    intros HF. apply Hs. destruct (HF xl) as [HF1 _]; [left|]. by apply HF1.
  - destruct (vpn_new_safe s xl H E Hg) as (s' & w & Er & H' & Ho & Hw & Hi & Hs).
    exists s'. split_and!; try done. destruct (vpn_find_in _ _ _ Hw) as [Hw1 Hw2]. exists w. split_and!; try done.
    intros HF. apply Hs. destruct (HF xl) as [_ HF2]; [left|]. apply HF2. intros v Hv En.
    pose proof (vpn_in_find _ _ (ci_names _ _ _ H) Hv) as Hc. by rewrite En, E in Hc.
Qed.

(** The first loop. *)
Lemma vpns_gone_safe s xls : pws_ok s -> vpns_mergeable s xls ->
  exists s', foreach (vpn_gone xls) (l_vpns s) s = Ok (tt, s') /\ pws_ok s' /\ vpns_mergeable s' xls /\
    (forall v, v ∈ l_vpns s' -> vp_name v ∈ map lv_name xls) /\ (vpns_fresh s xls -> vpns_fresh s' xls).
Proof.
  intros H Hm. assert (forall n, l2vpn_find xls n = None -> n ∉ map lv_name xls) as Hnone.
  { intros n E (xl & -> & Hx)%list_elem_of_fmap. pose proof (find_none _ _ E xl (proj1 (list_elem_of_In _ _) Hx)) as Hc. cbn in Hc. by rewrite String.eqb_refl in Hc. }
  assert (forall n x, l2vpn_find xls n = Some x -> n ∈ map lv_name xls) as Hsome.
  { intros n x [Hx E]%find_some. apply String.eqb_eq in E as <-. apply list_elem_of_fmap. exists x. by rewrite list_elem_of_In. }
  destruct (foreach_steps (fun l t => pws_ok t /\ (forall v, v ∈ l -> v ∈ l_vpns t) /\ NoDup (map vp_name l) /\
      (forall v, v ∈ l_vpns t -> v ∈ l_vpns s) /\ (forall v i, v ∈ l_vpns t -> i ∈ vp_ptrs v -> id_at t i = id_at s i) /\
      (forall v, v ∈ l_vpns s -> vp_name v ∈ map lv_name xls -> v ∈ l_vpns t) /\
      (forall v, v ∈ l_vpns t -> v ∈ l \/ vp_name v ∈ map lv_name xls))
    (vpn_gone xls) (l_vpns s) s) as (s1 & E1 & H1 & _ & _ & Hin & Hid & Hst & Hl).
  { intros v l t (Ht & Hll & [Hni Hnd]%NoDup_cons & Hin & Hid & Hst & Hl).
    destruct (vpn_gone_safe v t Ht) with (xls := xls) as (t' & Et & Ht' & Hsub & Hid' & Hst' & Hno & Hyes); [apply Hll; left|].
    assert (forall w, w ∈ l_vpns t' -> w ∈ l_vpns t) as Hin' by (intros w Hw; by eapply elem_of_sublist).
    exists t'. split; [done|]. split_and!; try done.
    - intros w Hw. apply Hst'; [apply Hll; by right|]. intros En. apply Hni. rewrite <- En. apply list_elem_of_fmap. by exists w.
    - intros w Hw. by apply Hin, Hin'.
    - intros w i Hw Hi. rewrite (Hid' w i Hw Hi). apply (Hid w); [by apply Hin'|done].
    - intros w Hw Hn. destruct (l2vpn_find xls (vp_name v)) as [x|] eqn:Ef.
      + rewrite (Hyes (ex_intro _ x eq_refl)). by apply Hst.
      + apply Hst'; [by apply Hst|]. intros En. apply (Hnone _ Ef). by rewrite <- En.
    - intros w Hw. destruct (Hl w (Hin' w Hw)) as [[-> |?]%elem_of_cons|?]; [|by left|by right]. right.
      destruct (l2vpn_find xls (vp_name v)) as [x|] eqn:Ef; [by eapply Hsome|]. by destruct (Hno eq_refl). }
  { split_and!; try done; [apply H|by left]. }
  exists s1. split_and!; try done.
  - by apply (mergeable_mono s).
  - intros v Hv. by destruct (Hl v Hv) as [?%elem_of_nil|?].
  - intros HF xl Hx. destruct (HF xl Hx) as [F1 F2]. split.
    + intros v Hv En. apply (fresh_ids s); [intros i; by apply Hid|]. apply F1; [by apply Hin|done].
    + intros Hno. apply F2. intros v Hv En. apply (Hno v); [|done]. apply Hst; [done|]. rewrite En. apply list_elem_of_fmap. by exists xl.
Qed.

Lemma merge_l2vpns_safe s xls : pws_ok s -> vpns_mergeable s xls ->
  exists s', merge_l2vpns_lde xls s = Ok (tt, s') /\ pws_ok s' /\ (forall v, v ∈ l_vpns s' -> vp_name v ∈ map lv_name xls) /\
    forall xl, xl ∈ xls -> vpn_there (vpns_fresh s xls) s' xl.
Proof.
  intros H Hm. unfold merge_l2vpns_lde. rewrite (bind_ok get _ s s s) by done.
  destruct (vpns_gone_safe s xls H Hm) as (s1 & E1 & H1 & Hm1 & Hn1 & Hf1). rewrite (bind_ok _ _ _ _ _ E1).
  destruct (foreach_steps (fun R t => pws_ok t /\ vpns_mergeable t R /\ (vpns_fresh s xls -> vpns_fresh t R) /\
      (forall v, v ∈ l_vpns t -> vp_name v ∈ map lv_name xls) /\ (forall xl, xl ∈ R -> xl ∈ xls) /\
      forall xl, xl ∈ xls -> lv_name xl ∉ map lv_name R -> vpn_there (vpns_fresh s xls) t xl) vpn_merge xls s1)
    as (s2 & E2 & H2 & _ & _ & Hn2 & _ & Hd2).
  { intros xl R t (Ht & Hmt & Hft & Hnt & Hsub & Hdt). destruct (proj2 Hmt xl) as [Hg Hx]; [left|].
    destruct (vpn_merge_safe t xl Ht Hg Hx) as (t' & Et & Ht' & Hot & Hth). exists t'. split; [done|]. split_and!; try done.
    - by eapply mergeable_others.
    - intros HF. eapply fresh_others; [apply Hmt|by apply Hft|done].
    - intros v Hv. destruct (decide (vp_name v = lv_name xl)) as [-> |En]; [apply list_elem_of_fmap; exists xl; split; [done|apply Hsub; left]|].
      apply Hnt. by apply (proj1 Hot).
    - intros x Hx'. apply Hsub. by right.
    - intros x Hx' Hnx. destruct (decide (lv_name x = lv_name xl)) as [En|En].
      + assert (x = xl) as ->.
        { pose proof (proj1 Hm) as Hd. assert (xl ∈ xls) as Hxl by (apply Hsub; left).
          apply list_elem_of_lookup in Hxl as [a Ea], Hx' as [b Eb]. assert (a = b) as ->; [|congruence].
          eapply NoDup_lookup; [exact Hd|by rewrite list_lookup_fmap, Ea|rewrite list_lookup_fmap, Eb; cbn; by rewrite En]. }
        destruct Hth as (w & Hw & Ew & Hi & Hs). exists w. split_and!; try done. intros HF. apply Hs. intros y Hy.
        apply list_elem_of_singleton in Hy as ->. apply Hft; [done|left].
      + eapply there_others; [exact Hot|done|]. apply Hdt; [done|]. by intros [?|?]%elem_of_cons. }
  { split_and!; try done. intros xl Hx Hn. destruct Hn. apply list_elem_of_fmap. by exists xl. }
  exists s2. split_and!; try done. intros xl Hx. apply Hd2; [done|by intros ?%elem_of_nil].
Qed.
End Vpns.
