(* ===== verification/LdeConfFun.v ===== *)
(** * Configuration of the lde: what it promises

    From its start on, whatever label procedures and configurations run in whatever
    order, the lde returns from each of them and its LIB never holds a pointer to a
    pseudowire that is not configured ([lde_conf_safe]). *)
From stdpp Require Import prelude strings list sorting.
From Stdlib Require Import ZArith Lia.
From S2P Require Import Prelude Util Wire Ipc Session Fec Lde LdeLib LdeSafe LdeInv LdeFrame LdePw Hello Discovery Config Engine EngineFun Parent.
From S2P Require Import LdeConf LdeConfInv LdeConfSteps LdeConfSafe LdeConfRun.

(** ** Label procedures *)
Section Procs.
(** Routes of pseudowires are the business of [l2vpn_pw_init] and [l2vpn_pw_exit]:
    the kernel's are those of prefixes. *)
Definition kernel_ok (e : proc) : Prop :=
  match e with KernelInsert f _ _ _ _ | KernelRemove f _ _ _ => fec_tag f <> FEC_TYPE_PWID | _ => True end.

Lemma gc_owned s : shaped s -> shaped (gc_state s) /\ forall f i, owns (gc_state s) f i <-> owns s f i.
Proof.
  intros Hs. unfold shaped, owns, gc_state in *. cbn [l_ft set_l_ft]. rewrite Forall_forall in *.
  assert (forall n, n ∈ List.filter (fun fn => negb (fn_dead fn)) (l_ft s) <-> n ∈ l_ft s /\ fn_dead n = false) as Hin.
  { intros n. rewrite list_elem_of_In, filter_In, <- list_elem_of_In, negb_true_iff. done. }
  split; [intros n [Hn _]%Hin; by apply Hs|]. intros f i. split.
  - intros (n & [Hn _]%Hin & Ef & Ed). by exists n.
  - intros (n & Hn & Ef & Ed). exists n. split; [|done]. apply Hin. split; [done|]. destruct (fn_dead n) eqn:E; [|done].
    apply fn_dead_spec in E as [En _]. specialize (Hs n Hn). unfold node_shape in Hs. rewrite Ed, En in Hs. by destruct (fn_fec n).
Qed.
Lemma kept_owned {A} (c : ST lde A) s a s' : pws_ok s -> frames pw_ids c -> frames pw_routes c -> c s = Ok (a, s') -> lib_ok s' -> pws_ok s'.
Proof.
  intros H H1 H2 E Hl. destruct (same_routes s s' (H2 _ _ _ E) (ci_shaped _ _ _ H)) as [Hs Ho].
  apply (conf_inv_step no_aux own_fec own_fec s); [done|by eapply H1|done..|]. intros f i Hf%Ho. by apply H.
Qed.
Lemma proc_pws_ok s e : pws_ok s -> proc_pre s e -> kernel_ok e -> exists s', run_proc e s = Ok (tt, s') /\ pws_ok s'.
Proof.
  intros H Hp Hk. destruct (lwp_ok _ _ _ (run_proc_lib e s (ci_lib _ _ _ H) Hp)) as ([] & s' & E & Hl). exists s'. split; [done|].
  destruct (pw_or_gc e) eqn:Eg; [|exact (kept_owned _ s tt s' H (kept_proc _ e Eg) (kept_proc _ e Eg) E Hl)].
  destruct e; try done; cbn [run_proc kernel_ok] in *.
  - exact (kept_owned _ s tt s' H (kept_route_insert _ _ _ _ _ _ Hk) (kept_route_insert _ _ _ _ _ _ Hk) E Hl).
  - exact (kept_owned _ s tt s' H (kept_route_remove _ _ _ _ _ Hk) (kept_route_remove _ _ _ _ _ Hk) E Hl).
  - injection E as <-. destruct (gc_owned s (ci_shaped _ _ _ H)) as [Hs Ho].
    apply (conf_inv_step no_aux own_fec own_fec s); [done..|]. intros f i Hf%Ho. by apply H.
Qed.
End Procs.

(** ** Configurations *)
#[export] Instance lde_receives : Receives lde_reconf_imsg lp_nconf set_lp_nconf.
Proof.
  assert (forall f x p, lp_nconf p = Some x -> mod_nconf_lde f p = Ok (tt, set_lp_nconf (Some (f x)) p)) as Hn.
  { intros f x p E. unfold mod_nconf_lde. rewrite (bind_ok get _ p p p) by done. by rewrite E. }
  assert (forall f x v l p, lp_nconf p = Some x -> xc_l2vpn_list x = v :: l ->
    mod_nl2vpn_lde f p = Ok (tt, set_lp_nconf (Some (set_xc_lists (xc_iface_list x) (xc_tnbr_list x) (xc_nbrp_list x) (f v :: l) x)) p)) as Hv.
  { intros f x v l p E El. unfold mod_nl2vpn_lde. rewrite (bind_ok get _ p p p) by done. by rewrite E, El. }
  split; intros; cbn [lde_reconf_imsg]; try done; try (by apply Hn); try (by apply Hv). by destruct s.
Qed.

(** The lde has exactly the L2VPNs of the configuration. *)
Definition lde_has (F : Prop) (s : lde) (xls : list l2vpn) : Prop :=
  (forall v, v ∈ l_vpns s -> vp_name v ∈ map lv_name xls) /\ forall xl, xl ∈ xls -> vpn_there F s xl.

Section Configs.
Lemma expnull_pws_ok s a b : pws_ok s -> pws_ok (set_l_expnull s a b).
Proof.
  intros H. apply (conf_inv_step no_aux own_fec own_fec s); [done|done| |apply H|apply H].
  destruct (ci_lib _ _ _ H). by split.
Qed.
Lemma merge_af_pws_ok af a x s : LdeSafe.af_ok af -> pws_ok s ->
  exists r s', merge_af_lde af a x s = Ok (r, s') /\ pws_ok s' /\ pw_ids s' = pw_ids s.
Proof.
  intros Haf H. unfold merge_af_lde. rewrite (bind_ok (modify _) _ _ _ _ eq_refl).
  set (s1 := if af =? AF_INET then _ else _). assert (pws_ok s1 /\ pw_ids s1 = pw_ids s) as [H1 I1].
  { unfold s1. destruct (af =? AF_INET); (split; [by apply expnull_pws_ok|done]). }
  assert (exists s2, (if negb (eqb (has_expnull a) (has_expnull x)) then lde_change_egress_label af (has_expnull x) else ret tt) s1 = Ok (tt, s2)
    /\ pws_ok s2 /\ pw_ids s2 = pw_ids s1) as (s2 & E2 & H2 & I2).
  { destruct (negb _); [|by exists s1]. destruct (proc_pws_ok s1 (ChangeEgressLabel af (has_expnull x)) H1 Haf I) as (s2 & E2 & H2).
    exists s2. split_and!; try done. by eapply (kept_proc pw_ids (ChangeEgressLabel af (has_expnull x))). }
  rewrite (bind_ok _ _ _ _ _ E2). unfold merge_af_main.
  destruct (addrcmp_runs af (af_trans_addr (xa_conf a)) (af_trans_addr (xa_conf x)) Haf) as [c Ec]. rewrite Ec.
  eexists _, s2. split; [reflexivity|]. split; [done|]. congruence.
Qed.
Lemma in_lde_ok {A} (m : ST lde A) a s' p : m (lp_lde p) = Ok (a, s') -> in_lde m p = Ok (a, LdeProc s' (lp_conf p) (lp_nconf p)).
Proof. intros E. unfold in_lde. by rewrite E. Qed.

Lemma merge_config_pws_ok p x : pws_ok (lp_lde p) -> vpns_mergeable (lp_lde p) (xc_l2vpn_list x) ->
  exists p', merge_config_lde x p = Ok (tt, p') /\ pws_ok (lp_lde p') /\
    lde_has (vpns_fresh (lp_lde p) (xc_l2vpn_list x)) (lp_lde p') (xc_l2vpn_list x).
Proof.
  intros H Hm. unfold merge_config_lde. rewrite (bind_ok get _ p p p) by done. cbv zeta.
  destruct (merge_af_pws_ok AF_INET (xc_ipv4 (merge_global_main (lp_conf p) x)) (xc_ipv4 x) (lp_lde p)) as (a4 & s1 & E1 & H1 & I1); [by left|done|].
  rewrite (bind_ok _ _ _ _ _ (in_lde_ok _ _ _ _ E1)).
  destruct (merge_af_pws_ok AF_INET6 (xc_ipv6 (merge_global_main (lp_conf p) x)) (xc_ipv6 x) s1) as (a6 & s2 & E2 & H2 & I2); [by right|done|].
  set (p1 := LdeProc s1 (lp_conf p) (lp_nconf p)).
  rewrite (bind_ok _ _ p1 a6 _ (in_lde_ok _ _ _ p1 E2)), (bind_ok (modify _) _ _ _ _ eq_refl).
  assert (pw_ids s2 = pw_ids (lp_lde p)) as Hids by congruence.
  assert (vpns_mergeable s2 (xc_l2vpn_list x)) as Hm2.
  { apply (mergeable_mono (lp_lde p)); [done|by rewrite (vpns_ids _ _ Hids)|]. intros v i _ _. by apply id_at_ids. }
  destruct (merge_l2vpns_safe s2 (xc_l2vpn_list x) H2 Hm2) as (s3 & E3 & H3 & Hn3 & Ht3).
  eexists. split; [by apply in_lde_ok|]. split; [done|]. split; [done|]. intros xl Hx. destruct (Ht3 xl Hx) as (w & Hw & En & Hi & Hs).
  exists w. split_and!; try done. intros HF. apply Hs. intros y Hy. destruct (HF y Hy) as [F1 F2]. rewrite (vpns_ids _ _ Hids).
  split; [|done]. intros v Hv Ev. apply (fresh_ids (lp_lde p)); [intros i _; by apply id_at_ids|by apply F1].
Qed.
Lemma send_config_lde p c : pws_ok (lp_lde p) -> vpns_mergeable (lp_lde p) (xc_l2vpn_list (conf_received c)) ->
  exists p', foreach lde_reconf_imsg (main_imsg_send_config c) p = Ok (tt, p') /\ pws_ok (lp_lde p') /\
    lde_has (vpns_fresh (lp_lde p) (xc_l2vpn_list (conf_received c))) (lp_lde p') (xc_l2vpn_list (conf_received c)).
Proof.
  intros H Hm. rewrite (pieces_arrive lde_reconf_imsg lp_nconf set_lp_nconf). set (p1 := set_lp_nconf _ p).
  cbn [lde_reconf_imsg]. destruct (merge_config_pws_ok p1 (conf_received c) H Hm) as (p2 & E & H2 & Hh).
  exists (set_lp_nconf None p2). split; [|by split]. unfold bind at 1. rewrite (bind_ok get _ p1 p1 p1) by done.
  change (lp_nconf p1) with (Some (conf_received c)). cbv iota beta. by rewrite (bind_ok _ _ _ _ _ E).
Qed.
End Configs.

(** ** The lde from its start on *)
Definition lde_boot : lde := Lde [] [] [] 0 MPLS_LABEL_RESERVED_MAX [] [] [] false false PtrUninit [].
Inductive lde_ev := Work (e : proc) | Reconf (c : ldpd_conf).
Definition run_ev (ev : lde_ev) : ST lde_proc unit :=
  match ev with Work e => in_lde (run_proc e) | Reconf c => foreach lde_reconf_imsg (main_imsg_send_config c) end.
Definition ev_pre (p : lde_proc) (ev : lde_ev) : Prop :=
  match ev with
  | Work e => proc_pre (lp_lde p) e /\ kernel_ok e
  | Reconf c => vpns_mergeable (lp_lde p) (xc_l2vpn_list (conf_received c))
  end.
Inductive conf_reach : lde_proc -> Prop :=
| conf_reach_boot c : conf_reach (LdeProc lde_boot c None)
| conf_reach_step p ev p' : conf_reach p -> ev_pre p ev -> run_ev ev p = Ok (tt, p') -> conf_reach p'.

Section Run.
Lemma boot_pws_ok : pws_ok lde_boot.
Proof.
  split; try (by intros ? ?%elem_of_nil); try (by intros ? ? ?%elem_of_nil); try (by intros ? ? ? ?%elem_of_nil).
  - apply (lib_ok_frame (set_l_vpns (lde_start [] false false) [])); try done. apply lib_set_vpns; [by apply lib_start|]. by intros i ?%elem_of_nil.
  - by apply Forall_nil.
  - apply NoDup_nil_2.
  - by intros v i j pi pj ?%elem_of_nil.
  - by intros f i (n & ?%elem_of_nil & _).
Qed.
Lemma ev_safe p ev : pws_ok (lp_lde p) -> ev_pre p ev -> exists p', run_ev ev p = Ok (tt, p') /\ pws_ok (lp_lde p').
Proof.
  intros H Hp. destruct ev as [e|c]; cbn in *.
  2: { destruct (send_config_lde p c H Hp) as (p' & E & H' & _). by exists p'. }
  destruct Hp as [Hp Hk]. destruct (proc_pws_ok (lp_lde p) e H Hp Hk) as (s' & E & H'). eexists. split; [by apply in_lde_ok|done].
Qed.
Lemma conf_reach_ok p : conf_reach p -> pws_ok (lp_lde p).
Proof.
  induction 1 as [c|p ev p' _ IH Hp E]; [apply boot_pws_ok|]. destruct (ev_safe p ev IH Hp) as (p1 & E1 & H1).
  rewrite E in E1. by injection E1 as <-.
Qed.
(** Owners of FECs are there. *)
Lemma owners_live s : pws_ok s -> forall n i, n ∈ l_ft s -> fn_data n = Some i ->
  exists v pw, v ∈ l_vpns s /\ i ∈ vp_pws v /\ pw_at s i = Some pw /\ fn_fec n = l2vpn_pw_fec pw.
Proof.
  intros H n i Hn Hd. destruct (ci_owned _ _ _ H (fn_fec n) i) as (v & pw & Hv & Hi & Ei & Ef); [by exists n|].
  destruct (id_at_live _ _ _ Ei) as (q & Eq & ->). exists v, q. split_and!; try done.
Qed.
End Run.

(** C17: work and configurations do not upset each other in the label decision
    engine.  From its start, through label procedures of every kind and whole
    configurations that arrive in pieces, in any order, each procedure called as its
    caller calls it and each configuration that changes one thing of a pseudowire at
    a time is worked off to the end; and then every FEC with an owner in the LIB
    belongs to a pseudowire that is configured, active and has that very FEC, so
    that no pointer in the LIB dangles. *)
Theorem lde_conf_safe (p : lde_proc) (ev : lde_ev) (Hp : conf_reach p) (He : ev_pre p ev) :
  exists p', run_ev ev p = Ok (tt, p') /\ lib_ok (lp_lde p') /\
    forall n i, n ∈ l_ft (lp_lde p') -> fn_data n = Some i ->
      exists v pw, v ∈ l_vpns (lp_lde p') /\ i ∈ vp_pws v /\ pw_at (lp_lde p') i = Some pw /\ fn_fec n = l2vpn_pw_fec pw.
Proof.
  destruct (ev_safe p ev (conf_reach_ok p Hp) He) as (p' & E & H). exists p'. split_and!; [done|apply H|]. by apply owners_live.
Qed.

(** An L2VPN with one pseudowire to 4.3.2.1 and one that has no identifier yet. *)
Definition pw_ex (id : Z) (flags : Z) : pw_conf := PwConf 0x01020304 AF_INET (replicate 16 0) id "mpw0" 3 flags.
Definition pw_idle : pw_conf := PwConf 0 AF_INET (replicate 16 0) 0 "mpw1" 4 0.
Definition vpn_ex (act inact : list pw_conf) : l2vpn := L2vpn "office" 1 5 1500 "" 0 [] act inact.
Definition af_ex : xaf := XAf 180 (AfConf 15 5 45 10 (replicate 16 0) 0).
Definition conf_ex (vpns : list l2vpn) : ldpd_conf := LdpdConf 0 af_ex af_ex [] [] [] vpns 15 5 45 10 0 0.
Definition proc_ex (cs : list ldpd_conf) : lde_proc :=
  match foreach (fun c => run_ev (Reconf c)) cs (LdeProc lde_boot (conf_ex []) None) with
  | Ok (_, p) => p | _ => LdeProc lde_boot (conf_ex []) None
  end.
Definition conf_ex1 : ldpd_conf := conf_ex [vpn_ex [pw_ex 7 0] [pw_idle]].
Definition conf_ex2 : ldpd_conf := conf_ex [vpn_ex [pw_ex 8 0] [pw_idle]].
Lemma proc_ex1_reach : conf_reach (proc_ex [conf_ex1]).
Proof.
  apply (conf_reach_step (LdeProc lde_boot (conf_ex []) None) (Reconf conf_ex1)); [constructor| |vm_compute; reflexivity].
  split; [repeat constructor; by intros ?%elem_of_nil|]. intros xl Hx. apply list_elem_of_singleton in Hx as ->. split; [|by intros v ?%elem_of_nil].
  split; [|repeat constructor; cbn; unfold is_u; lia|cbn; unfold is_u; lia].
  refine (bool_decide_unpack _ _). vm_compute. exact I.
Qed.
Lemma conf_ex2_mergeable : ev_pre (proc_ex [conf_ex1]) (Reconf conf_ex2).
Proof.
  split; [repeat constructor; by intros ?%elem_of_nil|]. intros xl Hx. apply list_elem_of_singleton in Hx as ->.
  assert (vpn_good (l2vpn_received (vpn_ex [pw_ex 8 0] [pw_idle]))) as Hg.
  { split; [|repeat constructor; cbn; unfold is_u; lia|cbn; unfold is_u; lia]. refine (bool_decide_unpack _ _). vm_compute. exact I. }
  split; [done|]. intros v Hv _.
  assert (l_vpns (lp_lde (proc_ex [conf_ex1])) = [Lvpn "office" 1 5 1500 "" 0 [] [0%nat] [1%nat]]) as Ev by (vm_compute; reflexivity).
  rewrite Ev in Hv. apply list_elem_of_singleton in Hv as ->.
  assert (id_at (lp_lde (proc_ex [conf_ex1])) 0 = Some (pw_of_conf 5 1500 (pw_ex 7 0))) as E0 by (vm_compute; reflexivity).
  assert (id_at (lp_lde (proc_ex [conf_ex1])) 1 = Some (pw_of_conf 5 1500 pw_idle)) as E1 by (vm_compute; reflexivity).
  split; [done|..].
  - intros i pw Hi. apply list_elem_of_singleton in Hi as ->. rewrite E0. intros [= <-]. refine (bool_decide_unpack _ _). vm_compute. exact I.
  - intros i pw Hi. apply list_elem_of_singleton in Hi as ->. rewrite E1. intros [= <-]. refine (bool_decide_unpack _ _). vm_compute. exact I.
  - intros i pw xp Hi. apply list_elem_of_singleton in Hi as ->. rewrite E0. intros [= <-] Hx _. apply list_elem_of_singleton in Hx as ->.
    vm_compute. discriminate.
  - by left.
Qed.
Lemma lde_conf_safe_witness :
  exists p', run_ev (Reconf conf_ex2) (proc_ex [conf_ex1]) = Ok (tt, p') /\
    map fn_data (l_ft (lp_lde p')) = [None; Some 0%nat] /\
    exists v pw, v ∈ l_vpns (lp_lde p') /\ 0%nat ∈ vp_pws v /\ pw_at (lp_lde p') 0 = Some pw /\ l2vpn_pw_fec pw = FecPwid 5 8 0x01020304.
Proof.
  destruct (lde_conf_safe (proc_ex [conf_ex1]) (Reconf conf_ex2) proc_ex1_reach conf_ex2_mergeable) as (p' & E & _ & H).
  exists p'. split; [exact E|].
  assert (map (fun n => (fn_fec n, fn_data n)) (l_ft (lp_lde p')) =
    [(FecPwid 5 7 0x01020304, None); (FecPwid 5 8 0x01020304, Some 0%nat)]) as Em.
  { assert (match run_ev (Reconf conf_ex2) (proc_ex [conf_ex1]) with
            | Ok (_, p) => map (fun n => (fn_fec n, fn_data n)) (l_ft (lp_lde p)) | _ => [] end =
      [(FecPwid 5 7 0x01020304, None); (FecPwid 5 8 0x01020304, Some 0%nat)]) as Hc by (vm_compute; reflexivity).
    rewrite E in Hc. exact Hc. }
  destruct (l_ft (lp_lde p')) as [|n1 [|n2 [|]]]; try discriminate Em. injection Em as E1 E2 E3 E4.
  split; [cbn [map]; rewrite E2, E4; reflexivity|]. destruct (H n2 0%nat) as (v & pw & H1 & H2 & H3 & H4); [right; left|exact E4|].
  exists v, pw. split; [exact H1|]. split; [exact H2|]. split; [exact H3|]. rewrite <- H4. exact E3.
Defined.

(** ** Two changes at once *)
Section Dangle.
(** A mapping for a FEC whose pseudowire is gone. *)
Lemma mapping_of_gone_pw s f n i m peer ln :
  pw_at s i = None -> ft_find s f = Some n -> fn_data n = Some i -> fec_tag f = FEC_TYPE_PWID ->
  lde_nbr_find s peer = Some ln -> lde_map2fec m (ln_id ln) = Ok f ->
  lde_check_mapping m peer s = Undef "pseudowire is gone".
Proof.
  intros Hp Hn Hd Ht El Hm. unfold lde_check_mapping.
  rewrite (bind_ok _ _ s ln s) by (unfold deref_ln; by rewrite El).
  rewrite (bind_ok _ _ s f s) by (unfold lift; by rewrite Hm). rewrite (bind_ok get _ s s s) by done.
  rewrite Hn. rewrite (bind_ok (ret tt) _ s tt s) by done.
  rewrite (bind_ok _ _ s n s) by (unfold deref_fn; by rewrite Hn).
  assert (m_type m =? MAP_TYPE_PWID = true) as ->.
  { revert Hm. unfold lde_map2fec. repeat case_match; try done; intros [= <-]; done. }
  assert (exists s1, match rb_find lre_fec fec_compare f (ln_sent_req ln) with
      | Some _ => lde_req_del peer f true | None => ret tt end s = Ok (tt, s1) /\
    is_Some (lde_nbr_find s1 peer) /\ pw_at s1 i = None) as (s1 & E1 & [ln1 El1] & Hp1).
  { destruct (rb_find _ _ _ _); [|by exists s; eauto]. eexists. split.
    - unfold lde_req_del, upd_ln. rewrite (bind_ok _ _ s ln s) by (unfold deref_ln; by rewrite El). reflexivity.
    - split; [|done]. unfold lde_nbr_find. cbn [l_nbrs set_l_nbrs]. apply rb_find_update_some; [done|by exists ln]. }
  rewrite (bind_ok _ _ _ _ _ E1). unfold l2vpn_pw_negotiate. rewrite Hd. unfold bind, deref_ln. rewrite El1.
  cbn [rbind]. unfold deref_pw. by rewrite Hp1.
Qed.
End Dangle.

(** C30: a configuration that changes two things of a pseudowire at a time leaves
    a dangling pointer.  In any state with an active pseudowire that owns its FEC
    in the LIB: a new configuration of it that changes one of the flags that
    restart the session, and its identifier or its peer with them (so that its new
    FEC is not in the LIB), is taken over by [merge_l2vpn] without installing the
    FEC anew.  When a later configuration no longer has the pseudowire, the new FEC
    is looked for and not found, the pseudowire is freed, and the old FEC stays in
    the LIB with a pointer to it.  From then on a label mapping for that FEC from any
    neighbour follows the pointer to freed memory. *)
Theorem two_changes_dangle (s : lde) (name : string) (v : lvpn) (xl xl' : l2vpn) (xp : pw_conf) (aux : list nat)
    (i : nat) (pw : l2vpn_pw) (n : fec_node)
    (Hv : vpn_find (l_vpns s) name = Some v) (Hi : lde_pw_find_name v (pwc_ifname xp) s = Ok (Some i, s))
    (Hpw : pw_at s i = Some pw) (Haf : LdeSafe.af_ok (pw_af pw))
    (Hn : ft_find s (l2vpn_pw_fec pw) = Some n) (Hown : fn_data n = Some i)
    (Hact : pw_disabled xp = false) (Hflags : reset_nbr pw xp = true)
    (Hnew : ft_find s (FecPwid (pw_l2vpn_type pw) (pwc_pwid xp) (pwc_lsr_id xp)) = None)
    (Hgone : l2vpn_pw_find_name (lv_pw_list xl') (lv_pw_inactive_list xl') (pwc_ifname xp) = None) :
  exists s1 s2,
    merge_pw_lde name xl xp aux s = Ok (aux, s1) /\
    pw_gone name xl' i s1 = Ok (tt, s2) /\
    pw_at s2 i = None /\ ft_find s2 (l2vpn_pw_fec pw) = Some n /\ fn_data n = Some i /\
    forall m peer ln, lde_nbr_find s2 peer = Some ln -> lde_map2fec m (ln_id ln) = Ok (l2vpn_pw_fec pw) ->
      lde_check_mapping m peer s2 = Undef "pseudowire is gone".
Proof.
  set (pw1 := pw_take_over xp pw). set (s1 := set_l_pws s (<[i := Some pw1]> (l_pws s))).
  set (s2 := set_l_pws (set_l_vpns s1 (vpn_update name (drop_pw i) (l_vpns s1))) (<[i := None]> (l_pws s1))).
  assert (i < length (l_pws s))%nat as Hlen.
  { unfold pw_at in Hpw. destruct (l_pws s !! i) eqn:E; [|done]. by eapply lookup_lt_Some. }
  assert (forall s0, pw_at s0 i = Some pw -> deref_pw i s0 = Ok (pw, s0)) as Hd by (intros s0 E; unfold deref_pw; by rewrite E).
  assert (pw_at s1 i = Some pw1) as Hpw1 by (unfold pw_at, s1; cbn; by rewrite list_lookup_insert_eq).
  assert (pw_at s2 i = None) as Hpw2.
  { unfold pw_at, s2. cbn. rewrite list_lookup_insert_eq; [done|]. by rewrite length_insert. }
  exists s1, s2. split; [|split; [|split_and!; [done|done|done|]]].
  - unfold merge_pw_lde. rewrite (bind_ok _ _ s v s) by (unfold the_vpn; by rewrite Hv).
    rewrite (bind_ok _ _ _ _ _ Hi), (bind_ok _ _ _ _ _ (Hd s Hpw)).
    assert (exists moved, (if negb (pw_af pw =? pwc_af xp) then ret true
      else do r <- lift (ldp_addrcmp (pw_af pw) (pw_addr pw) (pwc_addr xp)); ret (negb (r =? 0))) s
      = Ok (moved, s)) as [moved Em].
    { destruct (negb _); [by eexists|]. destruct (addrcmp_runs (pw_af pw) (pw_addr pw) (pwc_addr xp) Haf) as [c Ec].
      eexists. rewrite (bind_ok _ _ s c s) by (unfold lift; by rewrite Ec). done. }
    rewrite (bind_ok _ _ _ _ _ Em), Hact, Hflags. cbn [negb andb].
    unfold upd_pw. unfold bind at 1 2. rewrite (Hd s Hpw). done.
  - assert (deref_pw i s1 = Ok (pw1, s1)) as Hd1 by (unfold deref_pw; by rewrite Hpw1).
    unfold pw_gone. rewrite (bind_ok _ _ _ _ _ Hd1). change (pw_ifname pw1) with (pwc_ifname xp). rewrite Hgone.
    rewrite (bind_ok (l2vpn_pw_exit i) _ s1 tt s1).
    2:{ unfold l2vpn_pw_exit. rewrite (bind_ok _ _ _ _ _ Hd1). unfold lde_kernel_remove.
        rewrite (bind_ok get _ s1 s1 s1) by done. change (ft_find s1 (l2vpn_pw_fec pw1)) with
          (ft_find s (FecPwid (pw_l2vpn_type pw) (pwc_pwid xp) (pwc_lsr_id xp))). by rewrite Hnew. }
    set (s1' := set_l_vpns s1 (vpn_update name (drop_pw i) (l_vpns s1))).
    rewrite (bind_ok (mod_vpn _ _) _ s1 tt s1') by done.
    unfold pw_free. rewrite (bind_ok _ _ s1' pw1 s1'); [done|]. unfold deref_pw.
    change (pw_at s1' i) with (pw_at s1 i). by rewrite Hpw1.
  - intros m peer ln Hln Hm. by eapply (mapping_of_gone_pw s2 _ n i).
Qed.

Definition map_ex : ldp_map := set_m_pwid (set_m_type map_zero MAP_TYPE_PWID) (PwidElm 5 7 0 0).
Lemma two_changes_dangle_witness :
  let s := lp_lde (proc_ex [conf_ex1]) in
  let xl := vpn_ex [pw_ex 8 F_PW_STATUSTLV_CONF] [pw_idle] in
  exists s1 s2, merge_pw_lde "office" xl (pw_ex 8 F_PW_STATUSTLV_CONF) [] s = Ok ([], s1) /\
    pw_gone "office" (vpn_ex [] []) 0 s1 = Ok (tt, s2) /\
    (lde_nbr_new 1 0x01020304 true false ;;; lde_check_mapping map_ex 1) s2 = Undef "pseudowire is gone".
Proof.
  destruct (two_changes_dangle (lp_lde (proc_ex [conf_ex1])) "office" (Lvpn "office" 1 5 1500 "" 0 [] [0%nat] [1%nat])
    (vpn_ex [pw_ex 8 F_PW_STATUSTLV_CONF] [pw_idle]) (vpn_ex [] []) (pw_ex 8 F_PW_STATUSTLV_CONF) [] 0
    (pw_of_conf 5 1500 (pw_ex 7 0))
    (match l_ft (lp_lde (proc_ex [conf_ex1])) with n :: _ => n | [] => fec_node_new (FecIpv4 0 0 0) 0 end))
    as (s1 & s2 & E1 & E2 & _).
  - vm_compute. reflexivity.
  - vm_compute. reflexivity.
  - vm_compute. reflexivity.
  - left. reflexivity.
  - vm_compute. reflexivity.
  - vm_compute. reflexivity.
  - vm_compute. reflexivity.
  - vm_compute. reflexivity.
  - vm_compute. reflexivity.
  - vm_compute. reflexivity.
  - exists s1, s2. split; [exact E1|]. split; [exact E2|].
    vm_compute in E1. injection E1 as <-. vm_compute in E2. injection E2 as <-. vm_compute. reflexivity.
Defined.
