(* ===== verification/LdeSync.v ===== *)
(** * The lde in step with the parent

    What the L2VPNs of the lde have to do with the configuration of the parent, and
    that a configuration the parent sends after one line is one the lde can merge:
    it does not ask for two things at once, and leaves the lde in step again. *)
From stdpp Require Import prelude strings list gmap.
From Stdlib Require Import ZArith Lia Permutation.
From S2P Require Import Prelude Util Wire Ipc Session Fec Lde LdeLib LdeSafe LdeInv LdeFrame LdePw Hello Discovery Config Engine EngineFun KeyedList Parent.
From S2P Require Import ConfView ConfMerge ConfSorted ConfSpec ConfCmds ConfRead ConfStep LdeConf LdeConfInv LdeConfSteps LdeConfSafe LdeConfRun LdeConfFun.

Definition core_lde (q : l2vpn_pw) : core :=
  Core (pw_lsr_id q) (pw_id q) (has_flag (pw_flags q) F_PW_STATUSTLV_CONF) (has_flag (pw_flags q) F_PW_CWORD_CONF).
Definition core_conf (p : pw_conf) : core := core_of (view_pw p).
Definition core_vpn (v : l2vpn) : vpn_core := vpn_core_of (view_vpn v).

(** The L2VPN [v] of the lde is what [c] says: its type and its pseudowires, those
    that are to be active in the active list. *)
Record vpn_in_step (s : lde) (v : lvpn) (c : vpn_core) : Prop := {
  st_type : vp_pw_type v = vc_type c;
  st_in i : i ∈ vp_ptrs v -> exists pw, id_at s i = Some pw /\ vc_pws c !! pw_ifname pw = Some (core_lde pw);
  st_all n d : vc_pws c !! n = Some d -> named s (vp_ptrs v) n;
  st_sorted : vpn_sorted s v
}.
Record in_step (s : lde) (m : gmap string vpn_core) : Prop := {
  sy_vpn v : v ∈ l_vpns s -> exists c, m !! vp_name v = Some c /\ vpn_in_step s v c;
  sy_all n c : m !! n = Some c -> exists v, v ∈ l_vpns s /\ vp_name v = n
}.

(** What the parent with configuration [c] may send: a configuration in which the
    L2VPNs there are changed by one step, and new ones are sorted. *)
Record sendable (c x : ldpd_conf) : Prop := {
  sd_run : conf_run_ok c;
  sd_sorted : Forall conf_sorted (xc_l2vpn_list c);
  sd_new_run : conf_run_ok x;
  sd_fits : fits (cores (view x));
  sd_old v xl : v ∈ xc_l2vpn_list c -> xl ∈ xc_l2vpn_list x -> lv_name v = lv_name xl ->
    pw_from v xl /\ vpn_step (Some (core_vpn v)) (core_vpn xl);
  sd_new xl : xl ∈ xc_l2vpn_list x -> (forall v, v ∈ xc_l2vpn_list c -> lv_name v <> lv_name xl) -> conf_sorted xl
}.

Section Cores.
Lemma core_is q xp : pw_is q xp <-> pw_ifname q = pwc_ifname xp /\ core_lde q = core_conf xp.
Proof.
  unfold pw_is, core_lde, core_conf, core_of, view_pw. cbn. split.
  - intros (? & ? & ? & ? & ?). split; [done|]. by f_equal.
  - intros [? [=]]. by split_and!.
Qed.
Lemma core_vpn_pws v k : vc_pws (core_vpn v) !! k = core_conf <$> kfind (lv_pws v) k.
Proof. unfold core_vpn, vpn_core_of, view_vpn. cbn [vc_pws vv_pws]. rewrite !lookup_fmap, lookup_kmap. by destruct (kfind _ _). Qed.
Lemma cores_find c k : cores (view c) !! k = core_vpn <$> kfind (xc_l2vpn_list c) k.
Proof. unfold cores, view. cbn [cv_vpns]. rewrite !lookup_fmap, lookup_kmap. by destruct (kfind _ _). Qed.
Lemma cores_at c v : conf_run_ok c -> v ∈ xc_l2vpn_list c -> cores (view c) !! lv_name v = Some (core_vpn v).
Proof. intros [Hw _] Hv. rewrite cores_find. change (lv_name v) with (key v). by rewrite (kfind_elem _ v) by (done || apply Hw). Qed.
Lemma off_conf xp : co_off (core_conf xp) = pw_disabled xp.
Proof. done. Qed.
Lemma off_lde q : co_off (core_lde q) = pw_off q.
Proof. done. Qed.
Lemma reset_core q xp : reset_nbr q xp = true ->
  co_status (core_lde q) <> co_status (core_conf xp) \/ co_cword (core_lde q) <> co_cword (core_conf xp).
Proof.
  intros Hr. cbn. destruct (decide (has_flag (pw_flags q) F_PW_STATUSTLV_CONF = has_flag (pwc_flags xp) F_PW_STATUSTLV_CONF)) as [E1|]; [|by left].
  destruct (decide (has_flag (pw_flags q) F_PW_CWORD_CONF = has_flag (pwc_flags xp) F_PW_CWORD_CONF)) as [E2|]; [|by right].
  exfalso. unfold reset_nbr in Hr. apply negb_true_iff, Z.eqb_neq in Hr. apply Hr. apply Z.bits_inj'. intros n Hn.
  rewrite !Z.land_spec. destruct (Z.testbit (Z.lor F_PW_STATUSTLV_CONF F_PW_CWORD_CONF) n) eqn:Em; [|by rewrite !andb_false_r].
  rewrite !andb_true_r. change F_PW_STATUSTLV_CONF with (2 ^ 0) in *. change F_PW_CWORD_CONF with (2 ^ 2) in *.
  rewrite !has_bit in E1, E2 by done. rewrite Z.lor_spec, !Z.pow2_bits_eqb in Em by done.
  apply orb_true_iff in Em as [<-%Z.eqb_eq|<-%Z.eqb_eq]; done.
Qed.
End Cores.

Lemma elem_rev {A} (x : A) (l : list A) : x ∈ rev l <-> x ∈ l.
Proof. rewrite !list_elem_of_In. symmetry. apply in_rev. Qed.
Lemma rev_elem {A} (x : A) (l : list A) : x ∈ rev l -> x ∈ l.
Proof. apply elem_rev. Qed.

(** ** One L2VPN *)
Section Vpn.
Context (v xl : l2vpn) (Hv : vpn_run_ok v) (Hx : vpn_run_ok xl) (Hsort : conf_sorted v) (Hfrom : pw_from v xl).
Context (Hstep : vpn_step (Some (core_vpn v)) (core_vpn xl)).

Lemma find_act x : x ∈ lv_pw_list v -> kfind (lv_pws v) (key x) = Some x.
Proof. intros H. apply kfind_elem; [apply Hv|]. apply elem_of_app. by left. Qed.
Lemma find_inact x : x ∈ lv_pw_inactive_list v -> kfind (lv_pws v) (key x) = Some x.
Proof. intros H. apply kfind_elem; [apply Hv|]. apply elem_of_app. by right. Qed.
Lemma find_sorted k p : kfind (lv_pws v) k = Some p ->
  if pw_disabled p then p ∈ lv_pw_inactive_list v else p ∈ lv_pw_list v.
Proof.
  intros [Hp _]%kfind_Some. destruct Hsort as [S1 S2]. rewrite Forall_forall in S1, S2. apply elem_of_app in Hp as [Hp|Hp].
  - by rewrite (S1 p Hp).
  - by rewrite (S2 p Hp).
Qed.
Lemma sent_at x : x ∈ lv_pws xl -> vc_pws (core_vpn xl) !! key x = Some (core_conf x).
Proof. intros H. by rewrite core_vpn_pws, (kfind_elem _ x) by (done || apply Hx). Qed.
(** A pseudowire that is not off was there before, and where it was. *)
Lemma sent_known x : x ∈ lv_pws xl -> pw_disabled x = false -> is_Some (kfind (lv_pws v) (key x)).
Proof.
  intros H Hd. pose proof (sent_at x H) as Ex. assert (is_Some (vc_pws (core_vpn v) !! key x)) as Hs.
  { destruct Hstep as [E|[_ E]]; [rewrite <- E, Ex; by eexists|]. specialize (E _ _ Ex).
    destruct (vc_pws (core_vpn v) !! key x); [by eexists|]. cbn [pw_step] in E. rewrite off_conf in E. congruence. }
  rewrite core_vpn_pws in Hs. by destruct (kfind _ _); [eexists|destruct Hs].
Qed.
Lemma sent_act x : x ∈ lv_pw_list xl -> exists p, p ∈ lv_pw_list v /\ key p = key x.
Proof. intros (p & E & Hp)%Hfrom%list_elem_of_fmap. by exists p. Qed.
Lemma sent_inact x : x ∈ lv_pw_inactive_list xl -> pw_disabled x = false -> exists p, p ∈ lv_pw_inactive_list v /\ key p = key x.
Proof.
  intros H Hd. destruct (sent_known x) as [p E]; [apply elem_of_app; by right|done|]. exists p. apply kfind_Some in E as [Hp Ek].
  split; [|done]. apply elem_of_app in Hp as [Hp|Hp]; [|done]. destruct (pf_inact _ _ Hfrom x H). rewrite <- Ek. by apply list_elem_of_fmap_2.
Qed.

(** The lde's side. *)
Context (s : lde) (u : lvpn) (Hu : vpn_in_step s u (core_vpn v)).
Lemma lde_at i pw : i ∈ vp_ptrs u -> id_at s i = Some pw -> exists p, kfind (lv_pws v) (pw_ifname pw) = Some p /\ core_lde pw = core_conf p.
Proof.
  intros Hi Ei. destruct (st_in _ _ _ Hu i Hi) as (q & Eq & Ec). rewrite Ei in Eq. injection Eq as <-. rewrite core_vpn_pws in Ec.
  apply fmap_Some in Ec as (p & Ep & Ec). by exists p.
Qed.
Lemma lde_act i pw : i ∈ vp_pws u -> id_at s i = Some pw -> exists p, p ∈ lv_pw_list v /\ key p = pw_ifname pw /\ core_lde pw = core_conf p.
Proof.
  intros Hi Ei. destruct (lde_at i pw) as (p & Ep & Ec); [apply elem_of_app; by left|done|]. exists p. pose proof (find_sorted _ _ Ep) as Hp.
  apply kfind_Some in Ep as [_ Ek]. rewrite <- off_conf, <- Ec, off_lde, (vs_act _ _ (st_sorted _ _ _ Hu) i pw Hi Ei) in Hp. done.
Qed.
Lemma lde_inact i pw : i ∈ vp_inact u -> id_at s i = Some pw -> exists p, p ∈ lv_pw_inactive_list v /\ key p = pw_ifname pw /\ core_lde pw = core_conf p.
Proof.
  intros Hi Ei. destruct (lde_at i pw) as (p & Ep & Ec); [apply elem_of_app; by right|done|]. exists p. pose proof (find_sorted _ _ Ep) as Hp.
  apply kfind_Some in Ep as [_ Ek]. rewrite <- off_conf, <- Ec, off_lde, (vs_inact _ _ (st_sorted _ _ _ Hu) i pw Hi Ei) in Hp. done.
Qed.
Lemma known_lde p : p ∈ lv_pws v -> named s (if pw_disabled p then vp_inact u else vp_pws u) (key p).
Proof.
  intros Hp. assert (kfind (lv_pws v) (key p) = Some p) as Ep by (apply kfind_elem; [apply Hv|done]).
  destruct (st_all _ _ _ Hu (key p) (core_conf p)) as (i & pw & Hi & Ei & En); [by rewrite core_vpn_pws, Ep|].
  destruct (lde_at i pw Hi Ei) as (q & Eq & Ec). rewrite En, Ep in Eq. injection Eq as <-. rewrite <- off_conf, <- Ec, off_lde.
  exists i, pw. split_and!; try done. apply elem_of_app in Hi as [Hi|Hi].
  - by rewrite (vs_act _ _ (st_sorted _ _ _ Hu) i pw Hi Ei).
  - by rewrite (vs_inact _ _ (st_sorted _ _ _ Hu) i pw Hi Ei).
Qed.
Lemma act_lde p : p ∈ lv_pw_list v -> named s (vp_pws u) (key p).
Proof.
  intros Hp. pose proof (known_lde p) as H. destruct Hsort as [S1 _]. rewrite Forall_forall in S1. rewrite (S1 p Hp) in H.
  apply H, elem_of_app. by left.
Qed.
Lemma inact_lde p : p ∈ lv_pw_inactive_list v -> named s (vp_inact u) (key p).
Proof.
  intros Hp. pose proof (known_lde p) as H. destruct Hsort as [_ S2]. rewrite Forall_forall in S2. rewrite (S2 p Hp) in H.
  apply H, elem_of_app. by right.
Qed.

Context (Hfit : vpn_fits (core_vpn xl)).
Notation xr := (l2vpn_received xl).
Lemma names_rev l n : n ∈ pw_names (rev l) -> exists p, p ∈ l /\ key p = n.
Proof. intros (p & -> & Hp)%list_elem_of_fmap. apply rev_elem in Hp. exists p. split; [exact Hp|reflexivity]. Qed.
Lemma sent_good : vpn_good xr.
Proof.
  destruct Hx as [[_ _ Hnd _] Haf]. split; cbn [lv_pw_list lv_pw_inactive_list lv_pw_type l2vpn_received].
  - assert (rev (lv_pw_list xl) ++ rev (lv_pw_inactive_list xl) ≡ₚ lv_pws xl) as HP.
    { apply Permutation_app; symmetry; apply Permutation_rev. }
    assert (pw_names (rev (lv_pw_list xl) ++ rev (lv_pw_inactive_list xl)) ≡ₚ keys_of (lv_pws xl)) as -> by exact (Permutation_map pwc_ifname HP).
    exact Hnd.
  - assert (forall p, p ∈ lv_pws xl -> pwc_good p) as Hg.
    { intros p Hp. rewrite Forall_forall in Haf. split; [by apply Haf|]. by apply (proj2 Hfit (key p) (core_conf p)), sent_at. }
    apply Forall_forall. intros p [Hp%rev_elem|Hp%rev_elem]%elem_of_app; apply Hg, elem_of_app; by (left + right).
  - apply Hfit.
Qed.
Lemma sent_mergeable : mergeable s u xr.
Proof.
  split; [exact sent_good|..]; cbn [lv_pw_list lv_pw_inactive_list lv_pw_type l2vpn_received].
  - intros i pw Hi Ei (x & Hxx & Ek)%names_rev. destruct (lde_act i pw Hi Ei) as (p & Hp & Ek' & _).
    apply (pf_inact _ _ Hfrom x Hxx). rewrite Ek, <- Ek'. by apply list_elem_of_fmap_2.
  - intros i pw Hi Ei (x & Hxx & Ek)%names_rev. destruct (lde_inact i pw Hi Ei) as (p & Hp & Ek' & _).
    destruct (sent_act x Hxx) as (q & Hq & Eq). pose proof (find_act q Hq) as E1. pose proof (find_inact p Hp) as E2.
    rewrite Eq, Ek, <- Ek', E2 in E1. injection E1 as <-. destruct Hsort as [S1 S2]. rewrite Forall_forall in S1, S2.
    specialize (S1 p Hq). specialize (S2 p Hp). congruence.
  - intros i pw xp Hi Ei Hxp%rev_elem En Hr. destruct (lde_act i pw Hi Ei) as (p & Hp & Ek & Ec). apply reset_core in Hr.
    assert (key xp = key p) as Ekx by (rewrite Ek, En; done).
    assert (vc_pws (core_vpn xl) !! key p = Some (core_conf xp)) as Ex by (rewrite <- Ekx; apply sent_at, elem_of_app; by left).
    assert (vc_pws (core_vpn v) !! key p = Some (core_conf p)) as Ep by (by rewrite core_vpn_pws, find_act).
    destruct Hstep as [E|[Et E]].
    { assert (core_conf xp = core_conf p) as Exp by congruence. rewrite Ec, Exp in Hr. by destruct Hr as [[]|[]]. }
    specialize (E _ _ Ex). rewrite Ep in E. destruct E as [[E1 E2]|[E1 E2]].
    { rewrite Ec, E1, E2 in Hr. by destruct Hr as [[]|[]]. }
    rewrite <- Ec in E1, E2. split_and!; [|by symmetry..]. rewrite (st_type _ _ _ Hu). by symmetry.
  - destruct Hstep as [E|[Et E]]; [right|left; rewrite (st_type _ _ _ Hu); by symmetry]. split; intros xp Hxp%rev_elem.
    + destruct (sent_act xp Hxp) as (p & Hp & Ek). destruct (act_lde p Hp) as (i & pw & Hi & Ei & En). exists i, pw. split_and!; try done.
      rewrite En. exact Ek.
    + destruct (pw_disabled xp) eqn:Ed; [done|]. destruct (sent_inact xp Hxp Ed) as (p & Hp & Ek).
      assert (Some (core_conf xp) = Some (core_conf p)) as Ec.
      { rewrite <- (sent_at xp) by (apply elem_of_app; by right). by rewrite E, core_vpn_pws, <- Ek, find_inact. }
      destruct Hsort as [_ S2]. rewrite Forall_forall in S2. specialize (S2 p Hp). rewrite <- off_conf in S2, Ed. congruence.
Qed.
Lemma sent_fresh : fresh_sorted s u xr.
Proof.
  split; cbn [lv_pw_list lv_pw_inactive_list l2vpn_received]; intros xp Hxp%rev_elem Hd.
  - destruct (sent_act xp Hxp) as (p & Hp & Ek). change (pwc_ifname xp) with (key xp). rewrite <- Ek. by apply act_lde.
  - destruct (sent_inact xp Hxp Hd) as (p & Hp & Ek). change (pwc_ifname xp) with (key xp). rewrite <- Ek. by apply inact_lde.
Qed.
End Vpn.

(** ** A whole configuration *)
Section Conf.
Context (c x : ldpd_conf) (Hcx : sendable c x).
Lemma sendable_sorted : new_sorted (xc_l2vpn_list c) (xc_l2vpn_list x).
Proof.
  destruct Hcx as [Hc Hs Hx Hf Ho Hn]. intros xl Hxl. split; [|by apply Hn]. intros v Hv En y Hy Hd.
  destruct (Ho v xl Hv Hxl En) as [H1 H2]. pose proof (cr_vpn _ Hc) as Rv. pose proof (cr_vpn _ Hx) as Rx. rewrite Forall_forall in Rx, Rv.
  destruct (sent_inact v xl (Rx xl Hxl) H1 H2 y Hy Hd) as (p & Hp & <-). by apply list_elem_of_fmap_2.
Qed.
Lemma merged_sorted l' : merge_l2vpns_main (xc_l2vpn_list c) (xc_l2vpn_list x) = Ok l' -> Forall conf_sorted l'.
Proof.
  pose proof sendable_sorted as Hns. destruct Hcx as [Hc Hs Hx Hf Ho Hn].
  apply merge_l2vpns_sorted; [apply Hx|apply Hc|apply Hx|apply Hc|intros v xl H1 H2 H3; by apply Ho|done].
Qed.

Context (s : lde) (Hs : in_step s (cores (view c))).
Lemma received_in y : y ∈ xc_l2vpn_list (conf_received x) <-> exists xl, xl ∈ xc_l2vpn_list x /\ y = l2vpn_received xl.
Proof.
  cbn [conf_received xc_l2vpn_list set_xc_lists]. rewrite elem_rev, list_elem_of_fmap. split; intros (xl & H1 & H2); by exists xl.
Qed.
Lemma old_vpn u : u ∈ l_vpns s -> exists v, v ∈ xc_l2vpn_list c /\ lv_name v = vp_name u /\ vpn_in_step s u (core_vpn v).
Proof.
  intros (d & Ed & Hd)%(sy_vpn _ _ Hs). rewrite cores_find in Ed. apply fmap_Some in Ed as (v & Ev & ->).
  apply kfind_Some in Ev as [Hv Ek]. by exists v.
Qed.
Lemma sent_facts u xl : u ∈ l_vpns s -> xl ∈ xc_l2vpn_list x -> vp_name u = lv_name xl ->
  mergeable s u (l2vpn_received xl) /\ fresh_sorted s u (l2vpn_received xl).
Proof.
  intros Hu Hxl En. destruct Hcx as [Hc Hso Hx Hf Ho Hn]. destruct (old_vpn u Hu) as (v & Hv & Ev & Hst). rewrite En in Ev.
  destruct (Ho v xl Hv Hxl Ev) as [H1 H2]. pose proof (cr_vpn _ Hc) as Rv. pose proof (cr_vpn _ Hx) as Rx. rewrite Forall_forall in Rx, Rv, Hso.
  pose proof (Hf _ _ (cores_at x xl Hx Hxl)) as Hft. split; [eapply sent_mergeable|eapply sent_fresh]; eauto.
Qed.
Lemma sent_vpns : vpns_mergeable s (xc_l2vpn_list (conf_received x)) /\ vpns_fresh s (xc_l2vpn_list (conf_received x)).
Proof.
  pose proof sent_facts as Hsf. pose proof old_vpn as Hold. destruct Hcx as [Hc Hso Hx Hf Ho Hn]. split; [split|].
  - cbn [conf_received xc_l2vpn_list set_xc_lists]. rewrite map_rev, map_map, <- Permutation_rev. exact (cw_vpns _ (cr_wf _ Hx)).
  - intros y (xl & Hxl & ->)%received_in. split; [|intros u Hu En; by apply Hsf].
    pose proof (cr_vpn _ Hx) as Rx. rewrite Forall_forall in Rx. apply sent_good; [by apply Rx|]. exact (Hf _ _ (cores_at x xl Hx Hxl)).
  - intros y (xl & Hxl & ->)%received_in. split; [intros u Hu En; by apply Hsf|]. intros Hno. destruct (Hn xl Hxl) as [S1 S2].
    { intros v Hv En. destruct (sy_all _ _ Hs (lv_name v) (core_vpn v)) as (u & Hu & Eu); [by apply cores_at|]. apply (Hno u Hu). by rewrite Eu. }
    split; by apply Forall_rev.
Qed.
End Conf.

(** ** After the merge *)
Section Merged.
Lemma is_in_step s xl w : vpn_run_ok xl -> vpn_is s (l2vpn_received xl) w -> vpn_sorted s w -> vpn_in_step s w (core_vpn xl).
Proof.
  intros Hx [Ht Hin Hall] Hs. assert (forall p, p ∈ lv_pw_list (l2vpn_received xl) ++ lv_pw_inactive_list (l2vpn_received xl) <-> p ∈ lv_pws xl) as Hp.
  { intros p. unfold lv_pws. cbn [l2vpn_received lv_pw_list lv_pw_inactive_list]. by rewrite !elem_of_app, !elem_rev. }
  split; [exact Ht|..|exact Hs].
  - intros i Hi. destruct (Hin i Hi) as (pw & xp & Ei & Hxp%Hp & [En Ec]%core_is). exists pw. split; [done|]. rewrite En, Ec. by apply (sent_at xl).
  - intros n d. rewrite core_vpn_pws. intros (p & Ep & ->)%fmap_Some. apply kfind_Some in Ep as [Hxp Ek].
    destruct (Hall p) as (i & pw & Hi & Ei & [En _]%core_is); [by apply Hp|]. exists i, pw. split_and!; try done. rewrite En. exact Ek.
Qed.
Lemma has_in_step s x : pws_ok s -> conf_run_ok x -> lde_has True s (xc_l2vpn_list (conf_received x)) -> in_step s (cores (view x)).
Proof.
  intros H Hx [Hn Ht]. pose proof (cr_vpn _ Hx) as Rx. rewrite Forall_forall in Rx.
  assert (forall xl, xl ∈ xc_l2vpn_list x -> exists w, w ∈ l_vpns s /\ vp_name w = lv_name xl /\ vpn_in_step s w (core_vpn xl)) as Hth.
  { intros xl Hxl. destruct (Ht (l2vpn_received xl)) as (w & Hw & En & Hi & Hs); [apply received_in; by exists xl|]. exists w. split_and!; try done.
    apply is_in_step; auto. }
  split.
  - intros u Hu. destruct (proj1 (list_elem_of_fmap _ _ _) (Hn u Hu)) as (y & En & (xl & Hxl & ->)%received_in). cbn in En.
    destruct (Hth xl Hxl) as (w & Hw & Ew & Hi). assert (w = u) as -> by (apply (same_vpn (l_vpns s)); [apply H|done|done|congruence]).
    exists (core_vpn xl). split; [|done]. rewrite En. by apply cores_at.
  - intros n d. rewrite cores_find. intros (xl & Exl & _)%fmap_Some. apply kfind_Some in Exl as [Hxl Ek].
    destruct (Hth xl Hxl) as (w & Hw & Ew & _). exists w. split; [done|]. rewrite Ew. exact Ek.
Qed.
Lemma sync_merge p c x : pws_ok (lp_lde p) -> in_step (lp_lde p) (cores (view c)) -> sendable c x ->
  exists p', merge_config_lde (conf_received x) p = Ok (tt, p') /\ pws_ok (lp_lde p') /\ in_step (lp_lde p') (cores (view x)).
Proof.
  intros H Hs Hcx. destruct (sent_vpns c x Hcx (lp_lde p) Hs) as [Hm Hf].
  destruct (merge_config_pws_ok p (conf_received x) H Hm) as (p' & E & H' & Hn & Ht). exists p'. split_and!; [done|done|].
  apply has_in_step; [done|apply Hcx|]. split; [done|]. intros y Hy. destruct (Ht y Hy) as (w & Hw & En & Hi & Hso). exists w. split_and!; auto.
Qed.
(** Label procedures leave the L2VPNs alone. *)
Lemma in_step_ids s s' m : pw_ids s' = pw_ids s -> in_step s m -> in_step s' m.
Proof.
  intros Hids [H1 H2]. pose proof (vpns_ids _ _ Hids) as Ev. pose proof (fun i => id_at_ids _ _ i Hids) as Ei. split.
  - intros v. rewrite Ev. intros (c & Ec & [S1 S2 S3 [S4 S5]])%H1. exists c. split; [done|]. split; [done|..|split].
    + intros i Hi. rewrite Ei. by apply S2.
    + intros n d Hd. destruct (S3 n d Hd) as (i & pw & Hi & E & En). exists i, pw. by rewrite Ei.
    + intros i pw Hi. rewrite Ei. by apply S4.
    + intros i pw Hi. rewrite Ei. by apply S5.
  - intros n c. rewrite Ev. apply H2.
Qed.
End Merged.
