(* ===== verification/LdpdSystem.v ===== *)
(** * The parent and the lde together

    The parent reads lines of a vty, the lde works on labels and takes the parent's
    messages from the pipe between them, one at a time, all of it interleaved.  The
    lde falls behind the parent by the configurations in the pipe and never gets one
    it cannot merge; when the pipe is empty it has the pseudowires of the running
    configuration. *)
From stdpp Require Import prelude strings list gmap.
From Stdlib Require Import ZArith Lia Permutation.
From S2P Require Import Prelude Util Wire Ipc Session Fec Lde LdeLib LdeSafe LdeInv LdeFrame LdePw Hello Discovery Config Engine EngineFun KeyedList Parent.
From S2P Require Import ConfView ConfMerge ConfSorted ConfSpec ConfCmds ConfRead ConfStep LdeConf LdeConfInv LdeConfSteps LdeConfSafe LdeConfRun LdeConfFun LdeSync.

(** ** The two processes *)
Record duo := Duo {
  du_parent : parent;
  du_pipe : list main_imsg;   (* iev_lde of the parent: sent, not yet read *)
  du_lde : lde_proc
}.
(** [main] starts the children and sends them the configuration of the file (sockets
    and debug settings are left out); a vty that connects is at its first node. *)
Definition start_children (p : parent) : duo :=
  Duo (Parent (pa_conf p) true (pa_ldpe p ++ main_imsg_send_config (pa_conf p)) (pa_iflist p) CONFIG_NODE (pa_ifname p)
         (pa_l2vpn_name p) (pa_pw_ifname p))
    (List.filter to_both (main_imsg_send_config (pa_conf p))) (LdeProc lde_boot empty_conf None).

Definition duo_line (stack : ldpd_addr) (c : vty_cmd) : ST duo unit := fun d =>
  let p := du_parent d in
  let* r := read_line stack c p in
  Ok (tt, Duo (snd r) (du_pipe d ++ List.filter to_both (drop (length (pa_ldpe p)) (pa_ldpe (snd r)))) (du_lde d)).
(** [lde_dispatch_parent] for the first message in the pipe. *)
Definition duo_deliver : ST duo unit := fun d =>
  match du_pipe d with
  | [] => Ok (tt, d)
  | m :: ms => let* r := lde_reconf_imsg m (du_lde d) in Ok (tt, Duo (du_parent d) ms (snd r))
  end.
Definition duo_work (e : proc) : ST duo unit := fun d =>
  let* r := in_lde (run_proc e) (du_lde d) in Ok (tt, Duo (du_parent d) (du_pipe d) (snd r)).

Inductive duo_ev := VtyLine (c : vty_cmd) | Deliver | LdeWork (e : proc).
Definition run_duo (stack : ldpd_addr) (ev : duo_ev) : ST duo unit :=
  match ev with VtyLine c => duo_line stack c | Deliver => duo_deliver | LdeWork e => duo_work e end.
(** Lines with good arguments that ask for no interface an L2VPN uses; label
    procedures as their callers call them. *)
Definition duo_pre (d : duo) (ev : duo_ev) : Prop :=
  match ev with
  | VtyLine c => line_ok c (abs (du_parent d)) /\ refused c (abs (du_parent d)) = false
  | Deliver => True
  | LdeWork e => proc_pre (lp_lde (du_lde d)) e /\ kernel_ok e
  end.
Inductive duo_reach (stack : ldpd_addr) : duo -> Prop :=
| duo_boot file p : accepted file (abs parent_init) -> read_config stack file parent_init = Ok (tt, p) ->
    duo_reach stack (start_children p)
| duo_step d ev d' : duo_reach stack d -> duo_pre d ev -> run_duo stack ev d = Ok (tt, d') -> duo_reach stack d'.

(** ** The parent *)
Record parent_ok (p : parent) : Prop := {
  po_run : conf_run_ok (pa_conf p);
  po_sorted : Forall conf_sorted (xc_l2vpn_list (pa_conf p));
  po_fits : fits (cores (view (pa_conf p)))
}.

Section ParentSide.

Lemma step_sendable c x c' : conf_run_ok c -> Forall conf_sorted (xc_l2vpn_list c) -> conf_run_ok x -> derives c x -> view x = view c' ->
  one_step (cores (view c)) (cores (view c')) -> fits (cores (view c')) -> sendable c x.
Proof.
  intros Hc Hs Hx [_ Hd] Hv Ho Hf. rewrite <- Hv in Ho, Hf. split; try done.
  - intros v xl Hvc Hxl En. split; [by apply Hd|]. specialize (Ho _ _ (cores_at x xl Hx Hxl)). by rewrite <- En, (cores_at c v Hc Hvc) in Ho.
  - intros xl Hxl Hno. specialize (Ho _ _ (cores_at x xl Hx Hxl)). rewrite cores_find in Ho.
    destruct (kfind (xc_l2vpn_list c) (lv_name xl)) as [v|] eqn:Ev; [apply kfind_Some in Ev as [Hvc Ek]; by destruct (Hno v Hvc)|].
    assert (forall p : pw_conf, p ∉ lv_pws xl) as Hno'.
    { intros p Hp. assert (vpn_run_ok xl) as Hr by (pose proof (cr_vpn _ Hx) as R; rewrite Forall_forall in R; by apply R).
      pose proof (sent_at xl Hr p Hp) as E. cbn [fmap option_fmap option_map vpn_step] in Ho. rewrite Ho in E. by rewrite lookup_empty in E. }
    split; apply Forall_forall; intros p Hp; exfalso; apply (Hno' p), elem_of_app; by (left + right).
Qed.
(** One line: the next state of the parent, and what it sends. *)
Lemma line_parent stack c p r p' : parent_ok p -> addr_ok stack -> line_ok c (abs p) -> read_line stack c p = Ok (r, p') ->
  parent_ok p' /\ pa_started p' = pa_started p /\ spec_line c (abs p) = Ok (r, abs p') /\
  exists ms, pa_ldpe p' = pa_ldpe p ++ ms /\
    (pa_conf p' = pa_conf p /\ ms = [] \/
     exists x rest, ms = (if pa_started p then main_imsg_send_config x else []) ++ rest /\ Forall (fun m => to_both m = false) rest /\
       sendable (pa_conf p) x /\ view (pa_conf p') = view x).
Proof.
  intros [H1 H2 H3] Hst Hl E. pose proof (read_line_refines stack c p H1 Hst Hl) as H.
  destruct (spec_line c (abs p)) as [[r1 s1]| | |] eqn:Es; try (rewrite H in E; discriminate E).
  destruct H as (q & Eq & Ha & Hr & Hsd & _ & ms & Hms & Ht). rewrite Eq in E. injection E as -> ->. rewrite <- Ha in Es.
  destruct (line_near c (abs p) r (abs p') H3 Hl Es) as [Hstep Hfit].
  destruct Ht as [[-> Hc]|(x & rest & -> & _ & Hrest & Hx & Hd & Hv & Hm)].
  - split; [split; [done|by rewrite Hc|done]|]. split_and!; [done|by rewrite Ha in *|]. exists []. split; [done|]. by left.
  - pose proof (step_sendable _ _ _ H1 H2 Hx Hd Hv Hstep Hfit) as Hsend.
    split; [split; [done|by eapply merged_sorted|done]|]. split_and!; [done|by rewrite Ha in *|]. eexists. split; [exact Hms|].
    right. by exists x, rest.
Qed.
Lemma init_parent_ok : parent_ok parent_init.
Proof. split; [apply init_run_ok|by constructor|]. intros n v. rewrite cores_find. done. Qed.
Lemma file_parent stack l p p' : parent_ok p -> addr_ok stack -> lines_ok l (abs p) -> read_config stack l p = Ok (tt, p') -> parent_ok p'.
Proof.
  revert p. induction l as [|c l IH]; intros p H Hst Hl E; [by injection E as <-|]. destruct Hl as [Hl Hr].
  unfold read_config in E. cbn [foreach] in E. unfold bind in E. destruct (read_line stack c p) as [[r p1]| | |] eqn:E1; try discriminate E.
  cbn [rbind] in E. destruct (line_parent stack c p r p1 H Hst Hl E1) as (H1 & _ & Es & _).
  destruct r as [r|]; [|discriminate E]. cbn [rbind] in E. by apply (IH p1 H1 Hst (Hr _ _ Es)).
Qed.
End ParentSide.

(** ** What is in the pipe *)
(** Configurations the parent sent one after the other, from [c] on. *)
Fixpoint queued (c : ldpd_conf) (xs : list ldpd_conf) (c' : ldpd_conf) : Prop :=
  match xs with
  | [] => c = c'
  | x :: xs' => exists c1, sendable c x /\ view c1 = view x /\ queued c1 xs' c'
  end.
Definition is_end (m : main_imsg) : bool := match m with ImReconfEnd => true | _ => false end.

Section Pipe.
Lemma queued_snoc c xs c' x c'' : queued c xs c' -> sendable c' x -> view c'' = view x -> queued c (xs ++ [x]) c''.
Proof.
  revert c. induction xs as [|y xs IH]; intros c; cbn [queued app].
  - intros <- Hs Hv. by exists c''.
  - intros (c1 & H1 & H2 & H3) Hs Hv. exists c1. split_and!; auto.
Qed.
Lemma split_first (a b rest t : list main_imsg) m : Forall (fun m => is_end m = false) a -> Forall (fun m => is_end m = false) b ->
  is_end m = true -> a ++ rest = b ++ m :: t -> exists r, b = a ++ r /\ rest = r ++ m :: t.
Proof.
  intros Ha. revert b. induction Ha as [|x a Hx _ IH]; intros b Hb Hm E; [by exists b|].
  destruct b as [|y b]; cbn in E; [injection E as -> _; congruence|]. injection E as -> E. apply Forall_cons in Hb as [_ Hb].
  destruct (IH b Hb Hm E) as (r & -> & ->). by exists r.
Qed.
Lemma pieces_not_end c : Forall (fun m => is_end m = false) (conf_pieces c).
Proof.
  unfold conf_pieces. constructor; [done|]. repeat (apply Forall_app; split); try (by apply Forall_fmap, Forall_true).
  apply Forall_concat, Forall_fmap, Forall_true. intros v. cbn. constructor; [done|].
  repeat (apply Forall_app; split); by apply Forall_fmap, Forall_true.
Qed.
Lemma send_to_both c : List.filter to_both (main_imsg_send_config c) = main_imsg_send_config c.
Proof.
  assert (forall l, Forall (fun m => to_both m = true) l -> List.filter to_both l = l) as Hf.
  { induction 1 as [|m l Hm _ IH]; [done|]. cbn. by rewrite Hm, IH. }
  apply Hf. rewrite send_config_split. apply Forall_app. split; [|by repeat constructor].
  unfold conf_pieces. constructor; [done|]. repeat (apply Forall_app; split); try (by apply Forall_fmap, Forall_true).
  apply Forall_concat, Forall_fmap, Forall_true. intros v. cbn. constructor; [done|].
  repeat (apply Forall_app; split); by apply Forall_fmap, Forall_true.
Qed.
Lemma rest_not_both l : Forall (fun m => to_both m = false) l -> List.filter to_both l = [].
Proof. induction 1 as [|m l Hm _ IH]; [done|]. cbn. by rewrite Hm. Qed.

(** A piece changes only what has come in so far. *)
Lemma piece_blind m s c n s' c' q : is_end m = false -> lde_reconf_imsg m (LdeProc s c n) = Ok (tt, q) ->
  lde_reconf_imsg m (LdeProc s' c' n) = Ok (tt, LdeProc s' c' (lp_nconf q)) /\ q = LdeProc s c (lp_nconf q).
Proof.
  intros Hm. destruct m; try done; cbn [lde_reconf_imsg]; unfold mod_nconf_lde, mod_nl2vpn_lde, bind, get, modify, ret; cbn [rbind lp_nconf];
    try (by intros [= <-]); (destruct n as [x|]; [|done]); try (by intros [= <-]); destruct (xc_l2vpn_list x); try done; by intros [= <-].
Qed.
Lemma foreach_snoc {S A} (f : A -> ST S unit) l a s s1 s2 : foreach f l s = Ok (tt, s1) -> f a s1 = Ok (tt, s2) ->
  foreach f (l ++ [a]) s = Ok (tt, s2).
Proof. intros E1 E2. rewrite (foreach_run _ _ _ _ _ E1). cbn [foreach]. unfold bind. by rewrite E2. Qed.
End Pipe.

(** What has come in of the first configuration in the pipe. *)
Definition gathered (done : list main_imsg) (n : option ldpd_conf) : Prop :=
  exists n0, foreach lde_reconf_imsg done (LdeProc lde_boot empty_conf n0) = Ok (tt, LdeProc lde_boot empty_conf n).
Lemma gather_piece a m r c n p : gathered a n -> conf_pieces c = a ++ m :: r -> lp_nconf p = n ->
  exists n', lde_reconf_imsg m p = Ok (tt, set_lp_nconf n' p) /\ gathered (a ++ [m]) n'.
Proof.
  intros [n0 Ea] Ec <-. pose proof (pieces_gather lde_reconf_imsg lp_nconf set_lp_nconf c (LdeProc lde_boot empty_conf n0)) as E.
  assert (is_end m = false) as Hm.
  { pose proof (pieces_not_end c) as H. rewrite Ec in H. apply Forall_app in H as [_ H]. by apply Forall_cons in H as [? _]. }
  rewrite Ec, (foreach_run _ _ _ _ _ Ea) in E. cbn [foreach] in E. unfold bind in E.
  destruct (lde_reconf_imsg m (LdeProc lde_boot empty_conf (lp_nconf p))) as [[[] q]| | |] eqn:Em; try discriminate E.
  destruct (piece_blind m _ _ _ (lp_lde p) (lp_conf p) q Hm Em) as [E1 E2]. exists (lp_nconf q). split; [by destruct p|].
  exists n0. eapply foreach_snoc; [exact Ea|]. by rewrite Em, E2 at 1.
Qed.
Lemma gather_all c n : gathered (conf_pieces c) n -> n = Some (conf_received c).
Proof.
  intros [n0 E]. rewrite (pieces_gather lde_reconf_imsg lp_nconf set_lp_nconf c) in E. by injection E as <-.
Qed.

(** ** The invariant *)
Record duo_inv (d : duo) (c : ldpd_conf) (xs : list ldpd_conf) (a : list main_imsg) : Prop := {
  di_parent : parent_ok (du_parent d);
  di_vty : vty_ok (abs (du_parent d));
  di_started : pa_started (du_parent d) = true;
  di_lde : pws_ok (lp_lde (du_lde d));
  di_step : in_step (lp_lde (du_lde d)) (cores (view c));
  di_queue : queued c xs (pa_conf (du_parent d));
  di_pipe : a ++ du_pipe d = concat (map main_imsg_send_config xs);
  di_pieces : Forall (fun m => is_end m = false) a;
  di_nconf : gathered a (lp_nconf (du_lde d))
}.
Definition duo_ok (d : duo) : Prop := exists c xs a, duo_inv d c xs a.

Section System.
Context (stack : ldpd_addr) (Hst : addr_ok stack).

Lemma start_ok file p : accepted file (abs parent_init) -> read_config stack file parent_init = Ok (tt, p) -> duo_ok (start_children p).
Proof.
  intros Ha E. pose proof (file_parent stack file parent_init p init_parent_ok Hst (accepted_ok _ _ Ha) E) as H.
  exists (pa_conf parent_init), [pa_conf p], []. split; cbn [start_children du_parent du_pipe du_lde lp_lde lp_nconf].
  - by destruct H.
  - by split.
  - done.
  - apply boot_pws_ok.
  - split; [by intros v ?%elem_of_nil|]. intros n v. by rewrite cores_find.
  - exists (pa_conf p). split_and!; [|done|done]. destruct H as [H1 H2 H3]. split; [apply init_run_ok|by constructor|done|done|..].
    + by intros v xl ?%elem_of_nil.
    + intros xl Hxl _. rewrite Forall_forall in H2. by apply H2.
  - rewrite send_to_both. cbn. by rewrite app_nil_r.
  - by constructor.
  - exists None. done.
Qed.
Lemma line_ok_duo d c : duo_ok d -> duo_pre d (VtyLine c) -> exists d', duo_line stack c d = Ok (tt, d') /\ duo_ok d'.
Proof.
  intros (c0 & xs & a & [H1 H2 H3 H4 H5 H6 H7 H8 H9]) [Hl Hr]. set (p := du_parent d) in *.
  assert (exists r p', read_line stack c p = Ok (r, p') /\ vty_ok (abs p')) as (r & p' & E & Hv).
  { pose proof (read_line_refines stack c p (po_run _ H1) Hst Hl) as H. destruct (node_for 3 c (vs_node (abs p))) as [n|] eqn:En.
    - destruct (safe_line c (abs p) H2 Hl Hr ltac:(by eexists)) as (r & s' & Es & Hs'). rewrite Es in H. destruct H as (p' & E & Ha & _).
      exists (Some r), p'. split; [done|]. by rewrite Ha.
    - exists None, p. split; [|done]. unfold read_line. rewrite (bind_ok vty_node_of _ p (pa_node p) p) by done.
      change (vs_node (abs p)) with (pa_node p) in En. by rewrite En. }
  destruct (line_parent stack c p r p' H1 Hst Hl E) as (Hp & Hs & _ & ms & Hms & Ht).
  unfold duo_line. fold p. rewrite E. cbn [rbind snd]. rewrite Hms, drop_app_length. eexists. split; [reflexivity|].
  destruct Ht as [[Hc ->]|(x & rest & -> & Hrest & Hsend & Hview)].
  - exists c0, xs, a. split; cbn [du_parent du_pipe du_lde]; try done; [congruence|by rewrite Hc|by rewrite app_nil_r].
  - rewrite H3. exists c0, (xs ++ [x]), a. split; cbn [du_parent du_pipe du_lde]; try done; [congruence|by eapply queued_snoc|].
    rewrite List.filter_app, send_to_both, (rest_not_both rest), app_nil_r, map_app, concat_app, app_assoc, H7 by done. cbn. by rewrite app_nil_r.
Qed.
Lemma deliver_ok d : duo_ok d -> exists d', duo_deliver d = Ok (tt, d') /\ duo_ok d'.
Proof.
  intros (c0 & xs & a & [H1 H2 H3 H4 H5 H6 H7 H8 H9]). unfold duo_deliver. destruct (du_pipe d) as [|m ms] eqn:Ep.
  { exists d. split; [done|]. exists c0, xs, a. split; try done. by rewrite Ep. }
  destruct xs as [|x xs]; [by destruct a|]. cbn [map concat] in H7. rewrite send_config_split, <- app_assoc in H7.
  destruct (split_first a (conf_pieces x) (m :: ms) _ ImReconfEnd H8 (pieces_not_end x) eq_refl H7) as (r & Ex & Em).
  destruct r as [|m1 r]; injection Em as -> ->.
  - rewrite app_nil_r in Ex. subst a. pose proof (gather_all x _ H9) as En. destruct H6 as (c1 & Hs & Hv & Hq).
    destruct (sync_merge (du_lde d) c0 x H4 H5 Hs) as (q & Eq & Hq1 & Hq2). cbn [lde_reconf_imsg].
    rewrite (bind_ok get _ (du_lde d) (du_lde d) (du_lde d)) by done. rewrite En, (bind_ok _ _ _ _ _ Eq). cbn [rbind modify snd].
    eexists. split; [reflexivity|]. exists c1, xs, []. split; cbn [du_parent du_pipe du_lde]; try done; [by rewrite Hv|by exists None].
  - destruct (gather_piece a m1 r x _ (du_lde d) H9 Ex eq_refl) as (n' & E1 & Hg). rewrite E1. cbn [rbind snd]. eexists. split; [reflexivity|].
    exists c0, (x :: xs), (a ++ [m1]). split; cbn [du_parent du_pipe du_lde]; try done.
    + cbn [map concat]. rewrite send_config_split, Ex, <- !app_assoc. done.
    + apply Forall_app. split; [done|]. pose proof (pieces_not_end x) as H. rewrite Ex in H. apply Forall_app in H as [_ H].
      apply Forall_cons in H as [? _]. by constructor.
Qed.
Lemma proc_ids e s s' : kernel_ok e -> run_proc e s = Ok (tt, s') -> pw_ids s' = pw_ids s.
Proof.
  intros Hk E. destruct (pw_or_gc e) eqn:Eg; [|exact (kept_proc pw_ids e Eg _ _ _ E)].
  destruct e; try done; cbn [run_proc kernel_ok] in *.
  - exact (kept_route_insert pw_ids _ _ _ _ _ Hk _ _ _ E).
  - exact (kept_route_remove pw_ids _ _ _ _ Hk _ _ _ E).
  - by injection E as <-.
Qed.
Lemma work_ok d e : duo_ok d -> duo_pre d (LdeWork e) -> exists d', duo_work e d = Ok (tt, d') /\ duo_ok d'.
Proof.
  intros (c0 & xs & a & [H1 H2 H3 H4 H5 H6 H7 H8 H9]) [Hp Hk]. destruct (proc_pws_ok _ e H4 Hp Hk) as (s' & E & Hs).
  unfold duo_work. rewrite (in_lde_ok _ _ _ _ E). cbn [rbind snd]. eexists. split; [reflexivity|].
  exists c0, xs, a. split; cbn [du_parent du_pipe du_lde lp_lde lp_nconf]; try done. eapply in_step_ids; [by eapply proc_ids|done].
Qed.
Lemma duo_safe d ev : duo_ok d -> duo_pre d ev -> exists d', run_duo stack ev d = Ok (tt, d') /\ duo_ok d'.
Proof.
  intros H Hp. destruct ev; cbn [run_duo]; [by apply line_ok_duo|by apply deliver_ok|by apply work_ok].
Qed.
Lemma duo_reach_ok d : duo_reach stack d -> duo_ok d.
Proof.
  induction 1 as [file p Ha E|d ev d' _ IH Hp E]; [by eapply start_ok|]. destruct (duo_safe d ev IH Hp) as (d1 & E1 & H1).
  rewrite E in E1. by injection E1 as <-.
Qed.
(** An empty pipe. *)
Lemma duo_empty d : duo_ok d -> du_pipe d = [] -> in_step (lp_lde (du_lde d)) (cores (view (pa_conf (du_parent d)))).
Proof.
  intros (c0 & xs & a & [H1 H2 H3 H4 H5 H6 H7 H8 H9]) Hp. rewrite Hp, app_nil_r in H7. subst a. destruct xs as [|x xs].
  - cbn in H6. by rewrite <- H6.
  - exfalso. cbn [map concat] in H8. rewrite send_config_split in H8. apply Forall_app in H8 as [H8 _]. apply Forall_app in H8 as [_ H8].
    apply Forall_cons in H8 as [H8 _]. done.
Qed.
End System.

(** Reading all of it. *)
Lemma drains ms : forall d, duo_ok d -> du_pipe d = ms ->
  exists d', foreach (fun _ => duo_deliver) ms d = Ok (tt, d') /\ duo_ok d' /\ du_pipe d' = [] /\ du_parent d' = du_parent d.
Proof.
  induction ms as [|m ms IH]; intros d Ho Hp; [by exists d|]. destruct (deliver_ok d Ho) as (d1 & E1 & H1).
  assert (du_pipe d1 = ms /\ du_parent d1 = du_parent d) as [Hp1 Hpa].
  { unfold duo_deliver in E1. rewrite Hp in E1. destruct (lde_reconf_imsg m (du_lde d)) as [[[] q]| | |]; try discriminate E1. by injection E1 as <-. }
  destruct (IH d1 H1 Hp1) as (d2 & E2 & H2 & Hp2 & Hpa2). exists d2. split_and!; [|done..|congruence].
  cbn [foreach]. by rewrite (bind_ok _ _ _ _ _ E1).
Qed.
