(* ===== verification/EngineSync.v ===== *)
(** * The engine in step with the parent

    An engine that runs the configuration of the parent, seen as a view, and sorts
    its pseudowires as the parent does, is in step with it again when it has taken
    in the configuration the parent sends after a line of a vty. *)
From stdpp Require Import prelude strings list gmap.
From Stdlib Require Import ZArith Lia Permutation.
From S2P Require Import Prelude Util Wire Ipc Session Fec Hello Discovery DiscInv DiscSafe DiscRun DiscFrame DiscSystem.
From S2P Require Import Config HeapLoops ConfigSafe Engine EngineSafe EngineFun KeyedList Parent ConfView ConfMerge ConfSorted ConfSpec ConfCmds.
From S2P Require Import EngineConf ConfRead ConfStep ConfTrip ConfBack ConfFun Lde LdeConfFun LdeSync LdpdSystem.

Record engine_in_step (e : engine) (c : ldpd_conf) : Prop := EngineInStep {
  es_view : engine_view e = view c;
  es_sorted : Forall conf_sorted (en_l2vpns e)
}.

(** In a sorted L2VPN the view tells which list a pseudowire is in. *)
Definition view_off (p : pw_view) : bool := (pv_lsr_id p =? INADDR_ANY) || (pv_pwid p =? 0).
Section Sorted.
Implicit Types (v w xl : l2vpn).
Lemma sorted_keys v k : NoDup (keys_of (lv_pws v)) -> conf_sorted v ->
  (k ∈ keys_of (lv_pw_list v) <-> exists p, vv_pws (view_vpn v) !! k = Some p /\ view_off p = false) /\
  (k ∈ keys_of (lv_pw_inactive_list v) <-> exists p, vv_pws (view_vpn v) !! k = Some p /\ view_off p = true).
Proof.
  intros Hnd [S1 S2]. rewrite Forall_forall in S1, S2. cbn [vv_pws view_vpn].
  assert (forall p, p ∈ lv_pws v -> (view_pw <$> kmap (lv_pws v)) !! key p = Some (view_pw p)) as Hat.
  { intros p Hp. by rewrite lookup_fmap, lookup_kmap, (kfind_elem _ p). }
  assert (forall p, (view_pw <$> kmap (lv_pws v)) !! k = Some p -> exists q, q ∈ lv_pws v /\ key q = k /\ p = view_pw q) as Hof.
  { intros p. rewrite lookup_fmap, lookup_kmap. intros (q & Hq & ->)%fmap_Some. apply kfind_Some in Hq as [? ?]. by exists q. }
  split; split.
  - intros (p & -> & Hp)%list_elem_of_fmap. exists (view_pw p). split; [apply Hat, elem_of_app; by left|]. exact (S1 p Hp).
  - intros (p & (q & Hq & <- & ->)%Hof & Ho). apply elem_of_app in Hq as [Hq|Hq]; [by apply list_elem_of_fmap_2|].
    specialize (S2 q Hq). unfold view_off in Ho. cbn in Ho. unfold pw_disabled in S2. congruence.
  - intros (p & -> & Hp)%list_elem_of_fmap. exists (view_pw p). split; [apply Hat, elem_of_app; by right|]. exact (S2 p Hp).
  - intros (p & (q & Hq & <- & ->)%Hof & Ho). apply elem_of_app in Hq as [Hq|Hq]; [|by apply list_elem_of_fmap_2].
    specialize (S1 q Hq). unfold view_off in Ho. cbn in Ho. unfold pw_disabled in S1. congruence.
Qed.
Lemma same_lists v w : vpn_run_ok v -> vpn_run_ok w -> conf_sorted v -> conf_sorted w -> view_vpn v = view_vpn w -> forall k,
  (k ∈ keys_of (lv_pw_list v) <-> k ∈ keys_of (lv_pw_list w)) /\
  (k ∈ keys_of (lv_pw_inactive_list v) <-> k ∈ keys_of (lv_pw_inactive_list w)).
Proof.
  intros Hv Hw Sv Sw E k. destruct (sorted_keys v k (vo_pws _ (vr_ok _ Hv)) Sv) as [-> ->].
  destruct (sorted_keys w k (vo_pws _ (vr_ok _ Hw)) Sw) as [-> ->]. by rewrite E.
Qed.

Context (e : engine) (c x : ldpd_conf) (He : engine_in_step e c) (Hd : engine_data e) (Hcx : sendable c x).
Lemma engine_vpn v : v ∈ en_l2vpns e -> exists w, w ∈ xc_l2vpn_list c /\ lv_name w = lv_name v /\ view_vpn w = view_vpn v /\
  forall k, (k ∈ keys_of (lv_pw_list v) <-> k ∈ keys_of (lv_pw_list w)) /\
            (k ∈ keys_of (lv_pw_inactive_list v) <-> k ∈ keys_of (lv_pw_inactive_list w)).
Proof.
  intros Hv. destruct He as [Ev Es]. destruct Hd as [_ _ [Vn Vr]].
  assert (cv_vpns (engine_view e) !! key v = Some (view_vpn v)) as Hk.
  { cbn [engine_view disc_view cv_vpns]. by rewrite lookup_fmap, lookup_kmap, (kfind_elem _ v). }
  rewrite Ev in Hk. cbn [view cv_vpns] in Hk. rewrite lookup_fmap, lookup_kmap in Hk. apply fmap_Some in Hk as (w & Hw & Eq).
  apply kfind_Some in Hw as [Hw Ek]. exists w. split_and!; [done|exact Ek|done|]. rewrite Forall_forall in Vr, Es.
  pose proof (cr_vpn _ (sd_run _ _ Hcx)) as Rc. pose proof (sd_sorted _ _ Hcx) as Sc. rewrite Forall_forall in Rc, Sc.
  apply same_lists; auto.
Qed.
Lemma step_from v xl : v ∈ en_l2vpns e -> xl ∈ xc_l2vpn_list x -> lv_name v = lv_name xl -> pw_from v xl.
Proof.
  intros Hv Hxl En. destruct (engine_vpn v Hv) as (w & Hw & Ew & _ & Hk).
  destruct (sd_old _ _ Hcx w xl Hw Hxl ltac:(congruence)) as [[Ha Hi] _]. split.
  - intros y Hy. apply Hk. by apply Ha.
  - intros y Hy Hin. apply Hk in Hin. by apply (Hi y Hy).
Qed.
Lemma step_new : new_sorted (en_l2vpns e) (xc_l2vpn_list (conf_received x)).
Proof.
  pose proof (sendable_sorted c x Hcx) as Hns. intros y (xl & Hxl & ->)%received_vpn. destruct (Hns xl Hxl) as [N1 N2].
  split; cbn [l2vpn_received lv_pw_inactive_list lv_name].
  - intros v Hv En p Hp%rev_elem Ho. destruct (engine_vpn v Hv) as (w & Hw & Ew & _ & Hk). apply Hk. apply (N1 w Hw); [congruence|done..].
  - intros Hno. assert (conf_sorted xl) as [S1 S2]; [|split; by apply Forall_rev].
    apply N2. intros w Hw Ew. assert (cv_vpns (view c) !! key w = Some (view_vpn w)) as Hk.
    { cbn [view cv_vpns]. rewrite lookup_fmap, lookup_kmap, (kfind_elem _ w); [done|apply (sd_run _ _ Hcx)|done]. }
    rewrite <- (es_view _ _ He) in Hk. cbn [engine_view disc_view cv_vpns] in Hk. rewrite lookup_fmap, lookup_kmap in Hk.
    apply fmap_Some in Hk as (v & Hv & _). apply kfind_Some in Hv as [Hv Ek]. apply (Hno v Hv). rewrite <- Ew. exact Ek.
Qed.
End Sorted.

(** Taking in what the parent sends. *)
Lemma engine_follows env e c x : engine_ok e -> engine_data e -> engine_in_step e c -> sendable c x ->
  gone_quiet (conf_received x) (en_disc e) -> room (merge_cost (en_disc e) (en_l2vpns e) (conf_received x)) (en_disc e) ->
  exists e', foreach (ldpe_dispatch_main env) (main_imsg_send_config x) e = Ok (tt, e') /\ engine_ok e' /\ engine_in_step e' x.
Proof.
  intros He Hd Hst Hcx Hg Hr. pose proof (sd_new_run _ _ Hcx) as Hx.
  destruct (send_config_view env x e He Hd Hx (step_from e c x Hst Hd Hcx) Hg Hr) as (e' & H1 & H2 & _ & H3 & _ & _ & _ & H4).
  exists e'. split_and!; [done|done|]. split; [done|]. destruct (ed_vpns _ Hd) as [Vn Vr]. pose proof (received_run_ok x Hx) as Hrx.
  eapply merge_l2vpns_sorted; [apply Hrx|exact Vn|apply Hrx|exact Vr| |exact (step_new e c x Hst Hd Hcx)|exact H4].
  intros v y Hv (xl & Hxl & ->)%received_vpn En. apply received_from. by apply (step_from e c x).
Qed.

(** C13: a command reaches the LDP engine.  When the children run, a line either
    leaves the meaning of the configuration alone and sends nothing, or sends the
    engine a whole configuration, and nothing else of a configuration, with the
    view the parent now runs; and an engine in step with the parent before
    takes it in to the end and is in step with the parent again.  It is required
    of the engine that it is consistent ([engine_ok], [engine_data]), that
    interfaces that go have no adjacency in a family that is inactive
    ([gone_quiet], see [DiscFaults]) and that the message counter has room. *)
Theorem command_reaches_engine (stack : ldpd_addr) (c : vty_cmd) (p p' : parent) (r : option cmd_ret)
  (Hp : parent_ok p) (Hs : addr_ok stack) (Hl : line_ok c (abs p)) (Hrun : pa_started p = true)
  (Hr : read_line stack c p = Ok (r, p')) :
  (pa_ldpe p' = pa_ldpe p /\ view (pa_conf p') = view (pa_conf p)) \/
  exists x rest, pa_ldpe p' = pa_ldpe p ++ main_imsg_send_config x ++ rest /\ Forall (fun m => to_both m = false) rest /\
    view x = view (pa_conf p') /\
    forall env e, engine_ok e -> engine_data e -> engine_in_step e (pa_conf p) -> gone_quiet (conf_received x) (en_disc e) ->
      room (merge_cost (en_disc e) (en_l2vpns e) (conf_received x)) (en_disc e) ->
      exists e', foreach (ldpe_dispatch_main env) (main_imsg_send_config x) e = Ok (tt, e') /\ engine_ok e' /\
        engine_in_step e' (pa_conf p').
Proof.
  destruct (line_parent stack c p r p' Hp Hs Hl Hr) as (_ & _ & _ & ms & Hms & [[Hc ->]|(x & rest & -> & Hrest & Hcx & Hv)]).
  - left. rewrite Hms, Hc. split; [by rewrite app_nil_r|done].
  - right. exists x, rest. rewrite Hrun in Hms. split_and!; [done|done|done|]. intros env e He Hd Hst Hg Hro.
    destruct (engine_follows env e _ x He Hd Hst Hcx Hg Hro) as (e' & H1 & H2 & [H3 H4]). exists e'. split_and!; [done|done|].
    split; [by rewrite Hv|done].
Qed.

(** The parent once the children run. *)
Definition started (p : parent) : parent :=
  Parent (pa_conf p) true (pa_ldpe p) (pa_iflist p) (pa_node p) (pa_ifname p) (pa_l2vpn_name p) (pa_pw_ifname p).
Lemma started_ok p : parent_ok p -> parent_ok (started p).
Proof. by intros [H1 H2 H3]. Qed.
(** An engine at the start, before any configuration. *)
Definition conf_0 : le_conf :=
  LeConf (LdpeConf 0 0 180 180 [] []) zero_af_conf zero_af_conf LINK_DFLT_HOLDTIME DEFAULT_HELLO_INTERVAL TARGETED_DFLT_HOLDTIME
    DEFAULT_HELLO_INTERVAL DUAL_STACK_LDPOV6 0 0 zero_addr zero_addr both_open both_open.
Definition engine_0 : engine := Engine (Disc conf_0 [] [] [] [] [] [] 0 1 [] [] [] 1) [] None (-1) (-1) (-1) [] [].
Definition sent_conf (p : parent) : ldpd_conf := match pa_ldpe p with ImReconfConf x :: _ => x | _ => empty_conf end.
Lemma engine_0_ok : engine_ok engine_0.
Proof. split; [|by constructor|done]. apply quiet_disc_ok; [|by constructor..]. split; [apply NoDup_nil_2|]. by intros q Hq%elem_of_nil. Qed.
Lemma engine_0_data : engine_data engine_0.
Proof. split; [split; apply zero_addr_ok|by constructor|split; [apply NoDup_nil_2|by constructor]]. Qed.
Lemma engine_0_step : engine_in_step engine_0 (pa_conf (started parent_init)).
Proof. split; [reflexivity|by constructor]. Qed.

Lemma command_reaches_engine_witness :
  exists r p' e', read_line stack_0 (CmdMplsLdp false) (started parent_init) = Ok (r, p') /\
    foreach (ldpe_dispatch_main env_fine) (main_imsg_send_config (sent_conf p')) engine_0 = Ok (tt, e') /\
    engine_in_step e' (pa_conf p') /\ lc_flags (d_conf (en_disc e')) = F_LDPD_ENABLED.
Proof.
  destruct (read_line stack_0 (CmdMplsLdp false) (started parent_init)) as [[r p']| | |] eqn:E;
    [|vm_compute in E; discriminate E..].
  assert (match read_line stack_0 (CmdMplsLdp false) (started parent_init) with
          | Ok (_, q) => negb (length (pa_ldpe q) =? 0)%nat && (xc_flags (pa_conf q) =? F_LDPD_ENABLED)
              && (merge_cost (en_disc engine_0) (en_l2vpns engine_0) (conf_received (sent_conf q)) <? 1000)
          | _ => false end = true) as Hn by (vm_compute; reflexivity).
  rewrite E in Hn. apply andb_true_iff in Hn as [Hn Hc]. apply andb_true_iff in Hn as [Hn Hf].
  destruct (command_reaches_engine stack_0 (CmdMplsLdp false) (started parent_init) p' r) as [[H _]|(x & rest & H1 & _ & _ & H2)].
  - exact (started_ok _ init_parent_ok).
  - exact stack_0_ok.
  - exact I.
  - reflexivity.
  - exact E.
  - exfalso. rewrite H in Hn. discriminate Hn.
  - assert (sent_conf p' = x) as <- by (unfold sent_conf; rewrite H1; reflexivity).
    destruct (H2 env_fine engine_0 engine_0_ok engine_0_data engine_0_step) as (e' & H3 & _ & H4).
    + intros q i Hi. discriminate Hi.
    + unfold room. apply Z.ltb_lt in Hc. change (d_msgcnt (en_disc engine_0)) with 0. lia.
    + exists r, p', e'. split; [reflexivity|]. split; [exact H3|]. split; [exact H4|].
      apply Z.eqb_eq in Hf. rewrite <- Hf. exact (f_equal cv_flags (es_view _ _ H4)).
Defined.
