(* ===== verification/LdpdFun.v ===== *)
(** * From the command line to the LIB

    Lines typed at a vty while the lde works: nothing it is sent upsets it
    ([lde_follows_parent]), and what was sent arrives ([changes_arrive]). *)
From stdpp Require Import prelude strings list gmap.
From Stdlib Require Import ZArith Lia.
From S2P Require Import Prelude Util Wire Ipc Session Fec Lde LdeLib LdeSafe LdeInv LdePw Hello Discovery Config Engine Parent.
From S2P Require Import ConfView ConfMerge ConfSpec ConfRead ConfStep ConfFun LdeConf LdeConfInv LdeConfFun LdeSync LdpdSystem.

(** ** An example *)
(** The parent with [file_1] and an lde that has read it; then the identifier of the
    pseudowire is changed, and all but the last message of it is read. *)
Definition duo_preb (d : duo) (ev : duo_ev) : bool :=
  match ev with
  | VtyLine c =>
      match node_for 3 c (vs_node (abs (du_parent d))) with Some n => cmd_okb n c | None => true end
      && negb (refused c (abs (du_parent d)))
  | Deliver => true
  | LdeWork _ => false
  end.
Fixpoint play (evs : list duo_ev) (d : duo) : option duo :=
  match evs with
  | [] => Some d
  | ev :: evs' => if duo_preb d ev then match run_duo stack_0 ev d with Ok (_, d') => play evs' d' | _ => None end else None
  end.
Definition typed : list duo_ev :=
  map VtyLine [CmdL2vpn false "vpls"; CmdMemberPw false "mpw0"; CmdPwId false (Some 200)].
Definition boot_with (file : list vty_cmd) : option duo :=
  match read_config stack_0 file parent_init with Ok (_, p) => Some (start_children p) | _ => None end.
Definition play_from (file : list vty_cmd) (evs : list duo_ev) : option duo :=
  match boot_with file with Some d => play evs d | None => None end.
Definition duo_ex (n : nat) : option duo := play_from file_1 (replicate 9 Deliver ++ typed ++ replicate n Deliver).
Section Example.
Lemma play_reach evs d d' : duo_reach stack_0 d -> play evs d = Some d' -> duo_reach stack_0 d'.
Proof.
  revert d. induction evs as [|ev evs IH]; intros d Hd; cbn [play]; [by intros [= <-]|]. destruct (duo_preb d ev) eqn:Hb; [|done].
  destruct (run_duo stack_0 ev d) as [[[] d1]| | |] eqn:E; try done. apply IH. apply (duo_step _ d ev); [done| |done].
  destruct ev as [c| |e]; [|done|discriminate Hb]. apply andb_true_iff in Hb as [H1 H2]. split; [|by apply negb_true_iff].
  unfold line_ok. destruct (node_for _ _ _); [by apply cmd_okb_ok|done].
Qed.
Lemma play_from_reach file evs d : accepted file (abs parent_init) -> play_from file evs = Some d -> duo_reach stack_0 d.
Proof.
  intros Ha. unfold play_from, boot_with. destruct (read_config stack_0 file parent_init) as [[[] p]| | |] eqn:E; try discriminate.
  apply play_reach. by eapply duo_boot.
Qed.
Lemma duo_ex_reach n d : duo_ex n = Some d -> duo_reach stack_0 d.
Proof. exact (play_from_reach file_1 _ d file_1_accepted). Qed.
End Example.

(** C15: the label decision engine follows the command line.  After a start from a
    configuration file, whatever lines with good arguments that ask for no interface
    an L2VPN uses are typed at a vty ([duo_pre]; a refused interface and what follows
    is a fault in [ConfFun]), whatever label procedures run and however the messages of the parent are
    delayed, the next such line, message or procedure is worked off to the end; every FEC with an owner in the LIB belongs to
    a pseudowire that is configured, active and has that very FEC; and whenever the
    pipe is empty the lde has exactly the L2VPNs and pseudowires of the running
    configuration, with their types, identifiers and flags, and those with both
    identifiers are the active ones.  So the configurations that leave a dangling
    pointer cannot be made by single lines. *)
Theorem lde_follows_parent (stack : ldpd_addr) (d : duo) (ev : duo_ev)
  (Hs : addr_ok stack) (Hd : duo_reach stack d) (He : duo_pre d ev) :
  exists d', run_duo stack ev d = Ok (tt, d') /\ lib_ok (lp_lde (du_lde d')) /\
    (forall n i, n ∈ l_ft (lp_lde (du_lde d')) -> fn_data n = Some i ->
      exists v pw, v ∈ l_vpns (lp_lde (du_lde d')) /\ i ∈ vp_pws v /\ pw_at (lp_lde (du_lde d')) i = Some pw /\
        fn_fec n = l2vpn_pw_fec pw) /\
    (du_pipe d' = [] -> in_step (lp_lde (du_lde d')) (cores (view (pa_conf (du_parent d'))))).
Proof.
  destruct (duo_safe stack Hs d ev (duo_reach_ok stack Hs d Hd) He) as (d' & E & Ho). exists d'. pose proof (duo_empty d' Ho) as Hem.
  destruct Ho as (c & xs & a & H). pose proof (di_lde _ _ _ _ H) as Hp. split_and!; [exact E|apply Hp| |exact Hem]. by apply owners_live.
Qed.

Definition lib_owners (d : duo) : list (fec * option nat) := map (fun n => (fn_fec n, fn_data n)) (l_ft (lp_lde (du_lde d))).
Lemma lde_follows_parent_witness :
  exists d d', duo_ex 8 = Some d /\ lib_owners d = [(FecPwid 5 100 0x09090909, Some 0%nat)] /\
    run_duo stack_0 Deliver d = Ok (tt, d') /\
    lib_owners d' = [(FecPwid 5 100 0x09090909, None); (FecPwid 5 200 0x09090909, Some 0%nat)] /\
    in_step (lp_lde (du_lde d')) (cores (view (pa_conf (du_parent d')))).
Proof.
  assert (match duo_ex 8 with
          | Some d => lib_owners d = [(FecPwid 5 100 0x09090909, Some 0%nat)] /\
              match run_duo stack_0 Deliver d with
              | Ok (_, d') => lib_owners d' = [(FecPwid 5 100 0x09090909, None); (FecPwid 5 200 0x09090909, Some 0%nat)] /\ du_pipe d' = []
              | _ => False end
          | None => False end) as Hc by (vm_compute; split; [reflexivity|]; split; reflexivity).
  destruct (duo_ex 8) as [d|] eqn:E; [|destruct Hc]. destruct Hc as [Ho Hc].
  destruct (lde_follows_parent stack_0 d Deliver stack_0_ok (duo_ex_reach 8 d E) I) as (d' & Er & _ & _ & Hs).
  rewrite Er in Hc. destruct Hc as [Ho' Hp]. exists d, d'. split; [reflexivity|]. split; [exact Ho|]. split; [exact Er|].
  split; [exact Ho'|exact (Hs Hp)].
Defined.

(** C16: what is typed arrives.  In every state of the parent and the lde together
    the messages in the pipe are read to the last one, whatever came in before, and
    then the lde has the pseudowires of the parent's running configuration. *)
Theorem changes_arrive (stack : ldpd_addr) (d : duo) (Hs : addr_ok stack) (Hd : duo_reach stack d) :
  exists d', foreach (fun _ => duo_deliver) (du_pipe d) d = Ok (tt, d') /\ du_pipe d' = [] /\ du_parent d' = du_parent d /\
    in_step (lp_lde (du_lde d')) (cores (view (pa_conf (du_parent d)))).
Proof.
  destruct (drains (du_pipe d) d (duo_reach_ok stack Hs d Hd) eq_refl) as (d' & E & Ho & Hp & Hpa). exists d'. split_and!; try done.
  rewrite <- Hpa. by apply duo_empty.
Qed.
Lemma changes_arrive_witness :
  exists d d', duo_ex 3 = Some d /\ length (du_pipe d) = 6%nat /\
    foreach (fun _ => duo_deliver) (du_pipe d) d = Ok (tt, d') /\
    in_step (lp_lde (du_lde d')) (cores (view (pa_conf (du_parent d)))).
Proof.
  assert (match duo_ex 3 with Some d => length (du_pipe d) | None => 0%nat end = 6%nat) as Hc by (vm_compute; reflexivity).
  destruct (duo_ex 3) as [d|] eqn:E; [|discriminate Hc].
  destruct (changes_arrive stack_0 d stack_0_ok (duo_ex_reach 3 d E)) as (d' & Er & _ & _ & Hs).
  exists d, d'. split; [reflexivity|]. split; [exact Hc|]. split; [exact Er|exact Hs].
Defined.
